(* ===== verification/_CoqProject ===== *)
-Q . S2P
Prelude.v
PyFloat.v
PyString.v
Enums.v
PyUrl.v
PyDict.v
PyJson.v
Policies.v
VendorAdmission.v
Store.v
Frames.v
Names.v
Quotas.v
Reservations.v
Tasks.v
Services.v
ModelRegistry.v
Gateway.v
RuntimeProfiles.v
AdmissionPlan.v
Admission.v
AdmissionFrames.v
PoolAccounting.v
PoolLoad.v
AdmissionSummary.v
ServiceControl.v
Scheduling.v
Workers.v
Cycles.v
Dag.v
Invariant.v
Transaction.v
Lifecycle.v
Recovery.v
Creation.v
Placement.v
ServiceFrames.v
System.v
Scenario.v
Fencing.v
Outcomes.v
Completion.v
Claims.v
Serving.v
PullScheduler.v
GlobalScheduler.v
DependencyGraph.v
Outbox.v
Rbac.v
ServiceInvariant.v
ServiceScenario.v
Replicas.v
RegistryInvariant.v
Convergence.v
ReconcilerPass.v
Routing.v
Autoscaling.v
ServiceFencing.v
LoadBalancing.v
AdmissionScenario.v
AdmissionSafety.v
ServiceAdmission.v
Simulator.v
SimulatorProgress.v
