(* ===== verification/Prelude.v ===== *)
(** * Mini AI Cloud: a verification library

    Mini AI Cloud is a small multi-tenant compute cloud: clients submit
    container tasks and model services to an HTTP API, a control plane keeps
    all state in PostgreSQL, workers run the tasks and the replicas of the
    services, and a gateway routes requests for a model to a healthy replica.
    This library models the control plane, that is the code that decides and
    records who may run what, where and at whose expense, and proves what
    makes it correct.

    ** The program and the files that model it

    The rows.  [Store] has the tables the modelled code reads or writes
    (models/task.py, worker.py, scheduling.py, usage.py, artifact.py, outbox.py,
    service.py, model_variant.py, routing.py, admission.py) as records and
    finite maps, the unique and check constraints an insertion can violate, and
    the exceptions as the type [PyError].  Adding [timedelta(seconds=x)] to an
    instant raises where Python does: ValueError for NaN, OverflowError for
    infinity and for results that are no [datetime].  A repository method
    is a function in the state-and-exception monad [M] of this file: state
    written before an exception stays, and [atomically] is the
    [session.begin()] block that rolls it back.

    The repositories, one file each, one definition per method or helper:
    [Quotas] (repositories/quotas.py: limits and usage counters of a project),
    [Reservations] (repositories/reservations.py: binding, release and
    settlement of an execution's resources), [Tasks] (repositories/tasks.py:
    submission, claims, execution callbacks, completion, cancellation, retries,
    recovery of expired leases, takeover, dependency readiness), [Scheduling]
    (repositories/scheduling.py: candidate lanes, snapshots, placement,
    preemption), [Workers] (repositories/workers.py: registration, heartbeat,
    draining, device inventory), [Dag] with [Cycles] (repositories/dag.py: job
    groups and their cycle check), [Outbox] (repositories/outbox.py and
    api/services/outbox.py: delivery of events by concurrent dispatchers),
    [Services] (repositories/services.py: services, their replicas, the
    reconciliation of the two, leases, callbacks of replicas, endpoints),
    [ModelRegistry] (repositories/model_variants.py: logical models and their
    vendor variants), [Gateway] (repositories/gateway_routing.py: routes,
    circuits and the model catalog), [AdmissionPlan] and [Admission]
    (repositories/admission.py: the accelerator pools of a cluster, what is
    promised of them, and the vendor-aware admission of tasks, services and
    scale-ups); [Names] has the checks of names and
    addresses they share (core/kubernetes_names.py,
    repositories/gateway_model_names.py).

    The pure policies: [Enums] (core/enums.py, core/state_machine.py,
    core/accelerators.py), [Policies] (scheduler/policies.py: which worker and
    which devices), [VendorAdmission] (scheduler/admission.py: which vendor
    pool), [Serving] (scheduler/serving.py: gang placement of replicas), [Rbac]
    (core/rbac.py: permissions), [RuntimeProfiles] (core/runtime_profiles.py:
    profiles, their manifest, and the catalog that resolves them).  The drivers:
    [PullScheduler] (scheduler/scheduler.py), [GlobalScheduler]
    (scheduler/global_scheduler.py) and [ServiceControl]
    (api/services/service_reconciler.py, service_health.py and autoscaler.py).
    [Simulator] is scheduler/simulator.py, the event-driven simulation of
    scheduling.  [PyFloat], [PyString], [PyUrl], [PyDict] and [PyJson] model
    what the code uses of Python's floats, timedelta, Decimal, strings, URLs,
    dictionaries and JSON texts.

    The components meet in the database.  A claim of [Tasks] or a placement of
    [Scheduling] writes the task, the worker's counters, an execution, a
    reservation with device links, the project's counters ([Quotas]), an event
    and an outbox row; for a task that asks for accelerators by vendor the
    global scheduler asks [Admission] first, and [place] takes its pool again
    under the lock; completion, cancellation, retry and recovery undo it
    through [Reservations].  A service row is a commitment in the same project
    counters; the reconciler of [ServiceControl] turns it into replica rows of
    [Services], the health controller and the workers move these on, and
    [Gateway] reads them.  [System] lists these transactions as the type [Op],
    runs one with [commit], and calls a database [reachable] if committed
    operations, new projects and the passing of time lead to it from an empty
    one.  [Scenario], [ServiceScenario] and [AdmissionScenario] are concrete runs, from which the
    witnesses take their databases.

    ** What the theorems show

    - System: in every reachable database the quota counters of a project and
      the counters of a worker are exactly the totals of the rows, a task is in
      an execution status exactly if it has one active reservation, a device
      has one owner, the event log is a legal history, and the rows are well
      typed.  The invariant is stated in [Invariant]; [Transaction] follows it
      through the stages of a transaction in which counters and rows
      temporarily disagree; [Lifecycle], [Recovery], [Creation] and [Placement]
      show that each operation keeps it; the class [Preserves] of [System] is
      the interface between the two.
    - Fencing: callbacks with a stale execution token or session are refused
      and change nothing; a recovery pass revokes the expired executions that
      are not locked and within its limit.
    - Outcomes, Completion, Claims: a cancellation always takes effect, the
      holder of a token can complete a settleable execution, a cancellation
      decides the outcome, and a claim establishes capacity, readiness and
      limits, the daily cost limit included.  These are total correctness statements, by the weakest
      precondition rules of this file.
    - Quotas, Policies, VendorAdmission, Serving, Enums, Rbac: each decision is
      characterised exactly (accepted iff feasible, least score, limits
      respected, errors exactly on invalid input), with round trips, bounds and
      the independence of scaling from its path.  Of [Rbac] the guard functions
      are characterised, not the routes that call them.
    - PullScheduler, GlobalScheduler: assignments handed out are owned, the
      rotating scan starves nobody, the candidates are the queue in policy
      order, and a pass refines an abstract sequence of bounded attempts.
    - Cycles, DependencyGraph: the cycle check is equivalent to the existence
      of a cycle, the dependency graph of every reachable database is acyclic,
      and the job group's view of a member agrees with the schedulers' gate.
      The predicate [frames] of [Frames] and its tactic show for every other
      operation that it leaves the edges alone.
    - ServiceInvariant, Replicas, RegistryInvariant: in every reachable database
      the service counters of a project are the totals of its service rows;
      replica rows are permanent, keep their identity and have one owner; the
      model registry is consistent.  [ServiceFrames] shows that services leave
      the invariant of the task side alone.
    - Convergence, ReconcilerPass: with a drain timeout whose deadline is a
      [datetime], reconciling a service reaches the desired replicas and is then
      stable, and a pass of the loop that finds no row locked retires what
      expired and leaves nothing to do.  Autoscaling: replica counts move only within
      the limits of the service, on fresh metrics and outside the cooldown.
    - Routing, LoadBalancing: a route is the first viable candidate, the
      catalog lists exactly what can be routed, and round robin visits every
      replica.  ServiceFencing: callbacks of replicas that lost their owner are
      refused and change nothing.
    - Outbox: delivery at least once, accounting exactly once, nothing lost,
      for all interleavings of dispatchers, failures and crashes.
    - PoolAccounting, PoolLoad, AdmissionSafety, ServiceAdmission: [PoolLoad]
      states the load of a node as sums over the rows, in which whatever is not
      known to be elsewhere counts (reservations of an earlier worker session or
      of a profile that does not resolve, replicas without a node or of another
      device model).  What the planner leaves of a pool is free of this load; a
      placement with a vendor admission keeps its node within the usable
      devices; a service is admitted, and scaled up, only if all its replicas
      fit beside everything promised.  [AdmissionFrames] shows what admission leaves alone.
      AdmissionSummary: the stored summary of a decision is the longest prefix
      within its bound.
    - SimulatorProgress: for workloads with finite times and no negative
      demands the simulator completes every job, also with preemption, and never
      overcommits a worker.

    Three theorems are runs that record defects: a CPU share that is not a whole number of
    millicores strands its execution, a project at its running limit
    blocks the pull scheduler, and on a large cluster the summary of an
    admission is within its bound and still refused by the database; the
    statement of the completion theorem names
    the condition under which the first does not arise.

    ** Conventions, bounds and fuel

    Identifiers drawn with uuid4 and the ids of new rows are arguments; UUIDs
    are [N].  Instants are microseconds since the epoch in [Z]; the database
    clock is part of the state and moves between transactions only.  Rows that
    a query skips because another transaction has locked them ([SKIP LOCKED])
    are a set given as an argument, so a theorem holds for every interleaving
    of transactions.  Floats are binary64 ([SpecFloat]); Decimal has 28 digits.
    Integers of the program are unbounded, as in Python; column overflow is
    not modelled.  Loops are structural except these: the page scan of
    the pull scheduler has the program's own bound of 20 pages; the attempts of
    a scheduling pass have the program's bound [batch_size]; the cycle check has
    the number of nodes as fuel, and [contains_cycle_correct] shows that this is
    enough; victim selection recurses on the list of victims.  The loops of the
    simulator have fuel, and [simulation_completes] gives an amount that is
    enough.

    ** Not modelled

    The proxying of requests by the gateway (api/services/gateway.py) and the
    replica runtimes: what they report is an argument of the callbacks.  The SQLite write lock of the
    gateway; the registered models of repositories/registry.py; identities, secrets, artifacts and datasets; reporting queries;
    the HTTP layer; the worker agent with its container runtimes; configuration,
    metrics and logging; command line tools and migrations.  Of the runtime
    profiles the parts that describe images, processes and probes.  The
    rest is bookkeeping with no decision of its own, or input and output around
    library calls. *)

From stdpp Require Export base gmap sets list strings sorting.
From Stdlib Require Export ZArith Lia.

#[global] Open Scope Z_scope.

(** ** Record update

    [r <| f := v |>] is [r] with field [f] replaced by [v], and
    [r <| f ::= g |>] applies [g] to it.  A record type [R] takes part by
    declaring its eta expansion as an instance of [Eta R]; the setter of a
    projection is then read off that expansion. *)
Class Eta (R : Type) := eta_of : R -> R.

Class Field {R T : Type} (proj : R -> T) := field_map : (T -> T) -> R -> R.

Definition upd {R T : Type} (proj : R -> T) {F : Field proj} (f : T -> T) (r : R) : R :=
  F f r.
#[global] Arguments upd : simpl never.

Ltac solve_field :=
  lazymatch goal with
  | |- @Field ?R ?T ?proj =>
      let inst := constr:(_ : Eta R) in
      let e := eval hnf in inst in
      let e' := eval pattern proj in e in
      lazymatch e' with
      | ?G _ =>
          let s := eval cbv beta in (fun (f : T -> T) (r : R) => G (fun r0 => f (proj r0)) r) in
          exact s
      end
  end.
#[export] Hint Extern 1 (Field _) => solve_field : typeclass_instances.

Notation "r <| f := v |>" := (upd f (fun _ => v) r)
  (at level 1, left associativity, format "r  <| f  :=  v |>") : stdpp_scope.
Notation "r <| f ::= g |>" := (upd f g r)
  (at level 1, left associativity, format "r  <| f  ::=  g |>") : stdpp_scope.

(** [fields] computes projections of updates in the goal, [fields in H] in a
    hypothesis; neither unfolds an update that is not under a projection.  The
    equation used is checked for a variable record, through [instantiate2],
    so that its check does not depend on the updated one. *)
Lemma instantiate2 {A B : Type} (P : A -> B -> Prop) : (forall a b, P a b) -> forall a b, P a b.
Proof. auto. Qed.

Ltac field_eqn p R T q F f r :=
  lazymatch p with
  | q => constr:(instantiate2 (fun (f0 : T -> T) (r0 : R) => p (@upd R T q F f0 r0) = f0 (p r0))
                   (fun f0 r0 => eq_refl) f r)
  | _ => constr:(instantiate2 (fun (f0 : T -> T) (r0 : R) => p (@upd R T q F f0 r0) = p r0)
                   (fun f0 r0 => eq_refl) f r)
  end.

Ltac fields :=
  repeat match goal with
  | |- context [?p (@upd ?R ?T ?q ?F ?f ?r)] =>
      let e := field_eqn p R T q F f r in
      let H := fresh in pose proof e as H; cbv beta in H; rewrite H; clear H
  end.

Tactic Notation "fields" "in" hyp(H) :=
  repeat match type of H with
  | context [?p (@upd ?R ?T ?q ?F ?f ?r)] =>
      let e := field_eqn p R T q F f r in
      let H1 := fresh in pose proof e as H1; cbv beta in H1; rewrite H1 in H; clear H1
  end.

Ltac fields_all :=
  repeat match goal with
  | H : context [?p (@upd ?R ?T ?q ?F ?f ?r)] |- _ => progress fields in H
  end; fields.

(** ** The effect monad of a repository method

    A method reads and writes the session state [S] and may raise [E].  State
    changed before an exception is kept, as in Python: the transaction
    wrapper [atomically] is what rolls back. *)
Definition M (S E A : Type) : Type := S -> (E + A) * S.

Section monad.
Context {S E : Type}.

#[export] Instance M_ret : MRet (M S E) := fun A a s => (inr a, s).
#[export] Instance M_bind : MBind (M S E) := fun A B k m s =>
  match m s with
  | (inr a, s') => k a s'
  | (inl e, s') => (inl e, s')
  end.

Definition raise {A} (e : E) : M S E A := fun s => (inl e, s).
Definition gets {A} (f : S -> A) : M S E A := fun s => (inr (f s), s).
Definition modify (f : S -> S) : M S E unit := fun s => (inr tt, f s).

(** [if cond: raise e] *)
Definition raise_if (b : bool) (e : E) : M S E unit := if b then raise e else mret tt.

(** [if cond: m] with no [else] branch. *)
Definition when (b : bool) (m : M S E unit) : M S E unit := if b then m else mret tt.

(** [try: m except E as e: h] for the exceptions [h] handles; [h] returns
    [None] for an exception that is not caught. *)
Definition try_except {A} (m : M S E A) (h : E -> option (M S E A)) : M S E A := fun s =>
  match m s with
  | (inr a, s') => (inr a, s')
  | (inl e, s') => match h e with Some m' => m' s' | None => (inl e, s') end
  end.

(** [async with session.begin()]: an escaping exception rolls back. *)
Definition atomically {A} (m : M S E A) : M S E A := fun s =>
  match m s with
  | (inr a, s') => (inr a, s')
  | (inl e, _) => (inl e, s)
  end.

(** [for x in l: body(x)] *)
Fixpoint for_each {X} (l : list X) (body : X -> M S E unit) : M S E unit :=
  match l with
  | [] => mret tt
  | x :: l' => body x ≫= fun _ => for_each l' body
  end.

(** A loop that threads an accumulator. *)
Fixpoint foldM {X A} (l : list X) (a : A) (body : A -> X -> M S E A) : M S E A :=
  match l with
  | [] => mret a
  | x :: l' => body a x ≫= fun a' => foldM l' a' body
  end.

Lemma bind_ok {A B} (m : M S E A) (k : A -> M S E B) s b s' :
  (m ≫= k) s = (inr b, s') <-> exists a s1, m s = (inr a, s1) /\ k a s1 = (inr b, s').
Proof.
  unfold mbind, M_bind. split.
  - destruct (m s) as [[e|a] s1]; [done|eauto].
  - intros (a & s1 & -> & ?). done.
Qed.

Lemma bind_err {A B} (m : M S E A) (k : A -> M S E B) s e s' :
  (m ≫= k) s = (inl e, s') <->
  m s = (inl e, s') \/ exists a s1, m s = (inr a, s1) /\ k a s1 = (inl e, s').
Proof.
  unfold mbind, M_bind. destruct (m s) as [[e'|a] s1]; naive_solver.
Qed.

Lemma bind_run {A B} (m : M S E A) (k : A -> M S E B) s a s1 :
  m s = (inr a, s1) -> (m ≫= k) s = k a s1.
Proof. unfold mbind, M_bind. by intros ->. Qed.

Lemma bind_raise {A B} (m : M S E A) (k : A -> M S E B) s e s1 :
  m s = (inl e, s1) -> (m ≫= k) s = (inl e, s1).
Proof. unfold mbind, M_bind. by intros ->. Qed.

Lemma ret_ok {A} (a : A) s b s' :
  mret (M := M S E) a s = (inr b, s') <-> b = a /\ s' = s.
Proof. unfold mret, M_ret. naive_solver. Qed.

Lemma gets_ok {A} (f : S -> A) s b s' :
  gets f s = (inr b, s') <-> b = f s /\ s' = s.
Proof. unfold gets. naive_solver. Qed.

Lemma modify_ok f s u s' : modify f s = (inr u, s') <-> u = tt /\ s' = f s.
Proof. unfold modify. destruct u. naive_solver. Qed.

Lemma raise_ok {A} (e : E) s (b : A) s' : raise e s = (inr b, s') <-> False.
Proof. unfold raise. naive_solver. Qed.

Lemma raise_if_ok b (e : E) s u s' :
  raise_if b e s = (inr u, s') <-> b = false /\ u = tt /\ s' = s.
Proof. destruct b, u; unfold raise_if, raise, mret, M_ret; naive_solver. Qed.

Lemma when_ok b m s u s' :
  when b m s = (inr u, s') <->
  (b = true /\ m s = (inr u, s')) \/ (b = false /\ u = tt /\ s' = s).
Proof. destruct b, u; unfold when, mret, M_ret; naive_solver. Qed.

(** [wp m s Q X]: run from [s], [m] either returns with [Q] or raises with
    [X].  It is used for the claims that a method returns ([X] empty) and
    for its behaviour on every branch. *)
Definition wp {A} (m : M S E A) (s : S) (Q : A -> S -> Prop) (X : E -> S -> Prop) : Prop :=
  match m s with
  | (inr a, s') => Q a s'
  | (inl e, s') => X e s'
  end.

Lemma wp_bind {A B} (m : M S E A) (k : A -> M S E B) s Q X :
  wp m s (fun a s1 => wp (k a) s1 Q X) X -> wp (m ≫= k) s Q X.
Proof. unfold wp, mbind, M_bind. destruct (m s) as [[e|a] s1]; done. Qed.

Lemma wp_ret {A} (a : A) s (Q : A -> S -> Prop) (X : E -> S -> Prop) :
  Q a s -> wp (mret a) s Q X.
Proof. done. Qed.

Lemma wp_gets {A} (f : S -> A) s (Q : A -> S -> Prop) (X : E -> S -> Prop) :
  Q (f s) s -> wp (gets f) s Q X.
Proof. done. Qed.

Lemma wp_modify f s (Q : unit -> S -> Prop) (X : E -> S -> Prop) :
  Q tt (f s) -> wp (modify f) s Q X.
Proof. done. Qed.

Lemma wp_raise {A} (e : E) s (Q : A -> S -> Prop) (X : E -> S -> Prop) :
  X e s -> wp (raise e) s Q X.
Proof. done. Qed.

Lemma wp_raise_if b (e : E) s (Q : unit -> S -> Prop) (X : E -> S -> Prop) :
  (b = true -> X e s) -> (b = false -> Q tt s) -> wp (raise_if b e) s Q X.
Proof. unfold wp, raise_if, raise, mret, M_ret. destruct b; auto. Qed.

Lemma wp_when b m s (Q : unit -> S -> Prop) (X : E -> S -> Prop) :
  (b = true -> wp m s Q X) -> (b = false -> Q tt s) -> wp (when b m) s Q X.
Proof. unfold when. destruct b; intros H1 H2; [by apply H1|by apply wp_ret, H2]. Qed.

Lemma wp_mono {A} (m : M S E A) s (Q Q' : A -> S -> Prop) (X X' : E -> S -> Prop) :
  wp m s Q X -> (forall a s', Q a s' -> Q' a s') -> (forall e s', X e s' -> X' e s') ->
  wp m s Q' X'.
Proof. unfold wp. destruct (m s) as [[e|a] s1]; auto. Qed.

Lemma wp_eq {A} (m : M S E A) s a s' (Q : A -> S -> Prop) (X : E -> S -> Prop) :
  m s = (inr a, s') -> Q a s' -> wp m s Q X.
Proof. unfold wp. by intros ->. Qed.

Lemma wp_returns {A} (m : M S E A) s (Q : A -> S -> Prop) :
  wp m s Q (fun _ _ => False) <-> exists a s', m s = (inr a, s') /\ Q a s'.
Proof. unfold wp. destruct (m s) as [[e|a] s1]; naive_solver. Qed.

(** Invariants of loops. *)
Lemma for_each_inv {X} (P : S -> Prop) (l : list X) (body : X -> M S E unit) s u s' :
  (forall x s1 u1 s2, x ∈ l -> P s1 -> body x s1 = (inr u1, s2) -> P s2) ->
  P s -> for_each l body s = (inr u, s') -> P s'.
Proof.
  revert s. induction l as [|x l IH]; intros s Hb HP H; cbn in H.
  - apply ret_ok in H as [_ ->]. done.
  - apply bind_ok in H as ([] & s1 & H1 & H2).
    eapply IH; [|eapply Hb; [left|..]; eauto|done].
    intros. eapply Hb; eauto. by right.
Qed.

Lemma foldM_inv {X A} (P : A -> S -> Prop) (l : list X) (body : A -> X -> M S E A) a s b s' :
  (forall x a1 s1 a2 s2, x ∈ l -> P a1 s1 -> body a1 x s1 = (inr a2, s2) -> P a2 s2) ->
  P a s -> foldM l a body s = (inr b, s') -> P b s'.
Proof.
  revert a s. induction l as [|x l IH]; intros a s Hb HP H; cbn in H.
  - apply ret_ok in H as [-> ->]. done.
  - apply bind_ok in H as (a1 & s1 & H1 & H2).
    eapply IH; [|eapply Hb; [left|..]; eauto|done].
    intros. eapply Hb; eauto. by right.
Qed.

Lemma atomically_err {A} (m : M S E A) s e s' : atomically m s = (inl e, s') -> s' = s.
Proof. unfold atomically. destruct (m s) as [[|]]; naive_solver. Qed.

Lemma atomically_ok {A} (m : M S E A) s a s' :
  atomically m s = (inr a, s') <-> m s = (inr a, s').
Proof. unfold atomically. destruct (m s) as [[|]]; naive_solver. Qed.
End monad.

#[global] Arguments raise_if : simpl never.
#[global] Arguments when : simpl never.

(** [minv H] decomposes [H : m s = (inr a, s')] along the binds, guards,
    reads and writes of [m]; what is left of [m] keeps the name [H].
    [minv_prim] unfolds the primitives of a particular session state. *)
Ltac minv_prim H := fail.
Ltac minv_step H :=
  let a := fresh "a" in let s1 := fresh "s" in
  let H1 := fresh "Hm" in
  lazymatch type of H with
  | (_ ≫= _) _ = (inr _, _) =>
      apply bind_ok in H; destruct H as (a & s1 & H1 & H);
      cbv beta in H; try minv_step H1; try minv_step H
  | mret _ _ = (inr _, _) => apply ret_ok in H; destruct H as [? ?]; subst
  | gets _ _ = (inr _, _) => apply gets_ok in H; destruct H as [? ?]; subst
  | modify _ _ = (inr _, _) => apply modify_ok in H; destruct H as [? ?]; subst
  | raise _ _ = (inr _, _) => apply raise_ok in H; destruct H
  | raise_if _ _ _ = (inr _, _) =>
      apply raise_if_ok in H; destruct H as (H & ? & ?); subst
  | _ => minv_prim H; minv_step H
  end.
Ltac minv H := minv_step H.

(** [wstep] runs one statement of the method under [wp]; the hook [wp_prim]
    does the primitives of a session. *)
Ltac wp_prim := fail.
Ltac wstep :=
  cbv beta;
  lazymatch goal with
  | |- wp (_ ≫= _) _ _ _ => apply wp_bind; wstep
  | |- wp (mret _) _ _ _ => apply wp_ret; cbv beta
  | |- wp (gets _) _ _ _ => apply wp_gets; cbv beta
  | |- wp (modify _) _ _ _ => apply wp_modify; cbv beta
  | |- wp (raise _) _ _ _ => apply wp_raise; cbv beta
  | |- wp (raise_if _ _) _ _ _ => apply wp_raise_if; [intros ?G|intros ?G; cbv beta]
  | |- wp (when _ _) _ _ _ => apply wp_when; intros ?G
  | |- wp _ _ _ _ => wp_prim
  end.

(** ** Orders of Python sort keys

    [cmp] is the three-way comparison of Python values used as sort keys;
    [OrdLaws] says that it is a total preorder. *)
Class Ord (A : Type) := cmp : A -> A -> comparison.

Class OrdLaws (A : Type) `{Ord A} := {
  cmp_flip : forall x y : A, cmp y x = CompOpp (cmp x y);
  cmp_eq_l : forall x y z : A, cmp x y = Eq -> cmp x z = cmp y z;
  cmp_lt_trans : forall x y z : A, cmp x y = Lt -> cmp y z = Lt -> cmp x z = Lt;
}.

Definition cmp_le {A} `{Ord A} (x y : A) : Prop := cmp x y <> Gt.

#[export] Instance Ord_Z : Ord Z := Z.compare.
#[export] Instance Ord_N : Ord N := N.compare.
#[export] Instance Ord_string : Ord string := String.compare.

(** [False < True] *)
#[export] Instance Ord_bool : Ord bool := fun x y =>
  match x, y with
  | false, true => Lt
  | true, false => Gt
  | _, _ => Eq
  end.

(** Tuples compare lexicographically. *)
#[export] Instance Ord_prod {A B} `{Ord A, Ord B} : Ord (A * B) := fun x y =>
  match cmp x.1 y.1 with
  | Eq => cmp x.2 y.2
  | c => c
  end.

#[export] Instance Ord_list {A} `{Ord A} : Ord (list A) :=
  fix go (x y : list A) : comparison :=
    match x, y with
    | [], [] => Eq
    | [], _ :: _ => Lt
    | _ :: _, [] => Gt
    | a :: x', b :: y' => match cmp a b with Eq => go x' y' | c => c end
    end.

#[export] Instance OrdLaws_Z : OrdLaws Z.
Proof.
  split; unfold cmp, Ord_Z; intros x y.
  - by rewrite <-Z.compare_antisym.
  - by intros z ->%Z.compare_eq_iff.
  - intros z. rewrite !Z.compare_lt_iff. lia.
Qed.

#[export] Instance OrdLaws_N : OrdLaws N.
Proof.
  split; unfold cmp, Ord_N; intros x y.
  - by rewrite <-N.compare_antisym.
  - by intros z ->%N.compare_eq_iff.
  - intros z. rewrite !N.compare_lt_iff. lia.
Qed.

#[export] Instance OrdLaws_bool : OrdLaws bool.
Proof. split; intros [] []; try done; by intros []. Qed.

Section ord_lemmas.
Context {A} `{OrdLaws A}.
Implicit Types x y z : A.

Lemma cmp_refl x : cmp x x = Eq.
Proof. pose proof (cmp_flip x x). by destruct (cmp x x). Qed.

Lemma cmp_eq_sym x y : cmp x y = Eq -> cmp y x = Eq.
Proof. intros Hxy. by rewrite cmp_flip, Hxy. Qed.

Lemma cmp_eq_r x y z : cmp x y = Eq -> cmp z x = cmp z y.
Proof.
  intros Hxy. rewrite (cmp_flip x z), (cmp_flip y z).
  by rewrite (cmp_eq_l x y z Hxy).
Qed.

Lemma cmp_le_refl x : cmp_le x x.
Proof. unfold cmp_le. by rewrite cmp_refl. Qed.

Lemma cmp_le_trans x y z : cmp_le x y -> cmp_le y z -> cmp_le x z.
Proof.
  unfold cmp_le. intros Hxy Hyz.
  destruct (cmp x y) eqn:E1; [|destruct (cmp y z) eqn:E2|done].
  - by rewrite (cmp_eq_l x y z E1).
  - rewrite <-(cmp_eq_r y z x E2), E1. done.
  - by rewrite (cmp_lt_trans x y z E1 E2).
  - done.
Qed.

Lemma cmp_le_total x y : cmp_le x y \/ cmp_le y x.
Proof.
  unfold cmp_le. rewrite (cmp_flip x y). destruct (cmp x y); naive_solver.
Qed.

Lemma cmp_gt_le x y : cmp x y = Gt -> cmp_le y x.
Proof. unfold cmp_le. rewrite (cmp_flip x y). by intros ->. Qed.
End ord_lemmas.

#[export] Instance OrdLaws_prod {A B} `{OrdLaws A, OrdLaws B} : OrdLaws (A * B).
Proof.
  split; unfold cmp, Ord_prod; intros [x1 x2] [y1 y2]; cbn.
  - rewrite (cmp_flip x1 y1). destruct (cmp x1 y1); cbn; [|done..]. apply cmp_flip.
  - intros [z1 z2]; cbn. destruct (cmp x1 y1) eqn:E; [|done..]. intros E2.
    rewrite (cmp_eq_l x1 y1 z1 E). by rewrite (cmp_eq_l x2 y2 z2 E2).
  - intros [z1 z2]; cbn.
    destruct (cmp x1 y1) eqn:E1, (cmp y1 z1) eqn:E2; try done; intros L1 L2.
    + rewrite (cmp_eq_l x1 y1 z1 E1), E2. eauto using cmp_lt_trans.
    + by rewrite (cmp_eq_l x1 y1 z1 E1), E2.
    + by rewrite <-(cmp_eq_r y1 z1 x1 E2), E1.
    + by rewrite (cmp_lt_trans x1 y1 z1 E1 E2).
Qed.

#[export] Instance OrdLaws_list {A} `{OrdLaws A} : OrdLaws (list A).
Proof.
  split.
  - intros x. induction x as [|a x IH]; intros [|b y]; try done; cbn.
    rewrite (cmp_flip a b). destruct (cmp a b); cbn; [|done..]. apply IH.
  - intros x. induction x as [|a x IH]; intros [|b y] z; try done; cbn.
    destruct (cmp a b) eqn:E; [|done..]. intros Hxy. destruct z as [|c z]; [done|].
    cbn. rewrite (cmp_eq_l a b c E). destruct (cmp b c); [|done..]. by apply IH.
  - intros x. induction x as [|a x IH]; intros [|b y] [|c z]; try done; cbn.
    destruct (cmp a b) eqn:E1, (cmp b c) eqn:E2; try done; intros L1 L2.
    + rewrite (cmp_eq_l a b c E1), E2. by eapply IH.
    + by rewrite (cmp_eq_l a b c E1), E2.
    + by rewrite <-(cmp_eq_r b c a E2), E1.
    + by rewrite (cmp_lt_trans a b c E1 E2).
Qed.

#[export] Instance OrdLaws_string : OrdLaws string.
Proof.
  assert (Hc : forall a b, Ascii.compare a b = N.compare (Ascii.N_of_ascii a) (Ascii.N_of_ascii b))
    by reflexivity.
  split; unfold cmp, Ord_string.
  - intros x y. apply String.compare_antisym.
  - intros x y z E. by apply String.compare_eq_iff in E as ->.
  - intros x. induction x as [|a x IH]; intros [|b y] [|c z]; try done; cbn.
    rewrite !Hc.
    destruct (N.compare_spec (Ascii.N_of_ascii a) (Ascii.N_of_ascii b)) as [E1|E1|E1];
      destruct (N.compare_spec (Ascii.N_of_ascii b) (Ascii.N_of_ascii c)) as [E2|E2|E2];
      try done; intros L1 L2.
    + rewrite E1, E2, N.compare_refl. by eapply IH.
    + rewrite E1. apply N.compare_lt_iff in E2. by rewrite E2.
    + rewrite <-E2. apply N.compare_lt_iff in E1. by rewrite E1.
    + assert ((Ascii.N_of_ascii a < Ascii.N_of_ascii c)%N) as E3 by lia.
      apply N.compare_lt_iff in E3. by rewrite E3.
Qed.

(** ** [list.sort(key=...)]: a stable sort *)
Section py_sort.
Context {A K : Type} `{Ord K} (key : A -> K).

(** [x] goes before the first element whose key is not smaller. *)
Fixpoint sort_insert (x : A) (l : list A) : list A :=
  match l with
  | [] => [x]
  | y :: l' => match cmp (key x) (key y) with
               | Gt => y :: sort_insert x l'
               | _ => x :: l
               end
  end.

Definition py_sort (l : list A) : list A := foldr sort_insert [] l.

Lemma sort_insert_perm x l : sort_insert x l ≡ₚ x :: l.
Proof.
  induction l as [|y l IH]; [done|]; cbn.
  destruct (cmp (key x) (key y)); [done..|].
  rewrite IH. apply Permutation_swap.
Qed.

Lemma py_sort_perm l : py_sort l ≡ₚ l.
Proof. induction l as [|x l IH]; [done|]; cbn. by rewrite sort_insert_perm, IH. Qed.

Lemma elem_of_py_sort x l : x ∈ py_sort l <-> x ∈ l.
Proof. by rewrite py_sort_perm. Qed.

Lemma py_sort_nil l : py_sort l = [] <-> l = [].
Proof.
  split; [|by intros ->]. intros E. apply Permutation_nil_r. by rewrite <-py_sort_perm, E.
Qed.

Context `{!OrdLaws K}.
Let R (x y : A) : Prop := cmp_le (key x) (key y).

Lemma sort_insert_sorted x l : StronglySorted R l -> StronglySorted R (sort_insert x l).
Proof.
  induction 1 as [|y l Hl IH Hy]; cbn; [by repeat constructor|].
  destruct (cmp (key x) (key y)) eqn:E.
  1,2: constructor; [by constructor|]; constructor; [unfold R, cmp_le; congruence|];
    eapply Forall_impl; [exact Hy|]; intros z ?; apply (cmp_le_trans _ (key y)); [|done];
    unfold cmp_le; congruence.
  constructor; [done|]. rewrite sort_insert_perm. constructor; [|done].
  by apply cmp_gt_le.
Qed.

Lemma py_sort_sorted l : StronglySorted R (py_sort l).
Proof. induction l; cbn; [constructor|by apply sort_insert_sorted]. Qed.

(** In a sorted list, an element that at most [n] elements come up to is among
    the first [n]. *)
Lemma sorted_take (upto : A -> A -> bool) l n x :
  (forall y, y ∈ l -> R y x -> upto x y = true) -> StronglySorted R l -> x ∈ l ->
  (List.length (List.filter (upto x) l) <= n)%nat -> x ∈ take n l.
Proof.
  intros Hu Hs. revert n Hu. induction Hs as [|y l Hl IH Hy]; intros n Hu Hx Hn; [by apply not_elem_of_nil in Hx|].
  assert (upto x y = true) as Hux.
  { apply Hu; [left|]. apply elem_of_cons in Hx as [->|Hx]; [apply cmp_le_refl|]. by eapply (Forall_forall (R y)). }
  cbn in Hn. rewrite Hux in Hn. cbn in Hn. destruct n as [|n]; [lia|]. cbn.
  apply elem_of_cons in Hx as [->|Hx]; [left|right]. apply IH; [|done|lia]. intros z Hz. apply Hu. by right.
Qed.

Lemma sorted_filter (p : A -> bool) l : StronglySorted R l -> StronglySorted R (List.filter p l).
Proof.
  induction 1 as [|y l Hl IH Hy]; cbn; [constructor|]. destruct (p y); [|done]. constructor; [done|].
  apply Forall_forall. intros z Hz. apply list_elem_of_In, List.filter_In in Hz as [Hz _].
  rewrite Forall_forall in Hy. by apply Hy, list_elem_of_In.
Qed.

(** The head of the sorted list is a minimum. *)
Lemma py_sort_head_min x l rest :
  py_sort l = x :: rest -> x ∈ l /\ forall y, y ∈ l -> cmp_le (key x) (key y).
Proof.
  intros E. pose proof (py_sort_sorted l) as Hs. rewrite E in Hs. inversion Hs; subst.
  split; [rewrite <-(elem_of_py_sort x l), E; left|].
  intros y Hy. rewrite <-(elem_of_py_sort y l), E in Hy.
  apply elem_of_cons in Hy as [->|Hy]; [apply cmp_le_refl|].
  by eapply (Forall_forall (R x)).
Qed.
End py_sort.

(** ** Sums over finite maps

    [msum f m] adds [f k v] over the entries of [m]: the counters the code
    keeps are compared with such sums over the rows they summarise. *)
Definition msum {K V} `{Countable K} (f : K -> V -> Z) (m : gmap K V) : Z :=
  map_fold (fun k v acc => f k v + acc) 0 m.

Section msum.
Context {K V : Type} `{Countable K}.
Implicit Types (m : gmap K V) (f g : K -> V -> Z).

Lemma msum_empty f : msum f ∅ = 0.
Proof. apply map_fold_empty. Qed.

Lemma msum_insert_new f m k v :
  m !! k = None -> msum f (<[k:=v]> m) = f k v + msum f m.
Proof. intros Hk. unfold msum. rewrite map_fold_insert_L; [done|lia|done]. Qed.

Lemma msum_delete f m k v :
  m !! k = Some v -> msum f m = f k v + msum f (delete k m).
Proof. intros Hk. unfold msum. rewrite (map_fold_delete_L _ _ k v m); [done|lia|done]. Qed.

(** Replacing a row changes the sum by the difference of its contributions. *)
Lemma msum_insert f m k v v' :
  m !! k = Some v -> msum f (<[k:=v']> m) = msum f m - f k v + f k v'.
Proof.
  intros Hk. rewrite <-insert_delete_eq, msum_insert_new by apply lookup_delete_eq.
  rewrite (msum_delete f m k v Hk). lia.
Qed.

(** A row whose contribution is unchanged does not change the sum. *)
Lemma msum_insert_same f m k v v' :
  m !! k = Some v -> f k v = f k v' -> msum f (<[k:=v']> m) = msum f m.
Proof. intros Hk E. rewrite (msum_insert f m k v v' Hk). lia. Qed.

Lemma msum_ext f g m :
  (forall k v, m !! k = Some v -> f k v = g k v) -> msum f m = msum g m.
Proof.
  unfold msum. induction m as [|k v m Hk IH] using map_ind; intros Hfg.
  - by rewrite !map_fold_empty.
  - rewrite !map_fold_insert_L by (done || lia).
    rewrite (Hfg k v) by apply lookup_insert_eq. f_equal. apply IH.
    intros k' v' Hk'. apply Hfg. rewrite lookup_insert_ne; [done|by intros ->; simplify_eq].
Qed.

Lemma msum_nonneg f m :
  (forall k v, m !! k = Some v -> 0 <= f k v) -> 0 <= msum f m.
Proof.
  induction m as [|k v m Hk IH] using map_ind; intros Hf.
  - by rewrite msum_empty.
  - rewrite msum_insert_new by done.
    assert (0 <= f k v) by (apply Hf, lookup_insert_eq).
    assert (0 <= msum f m); [|lia]. apply IH. intros k' v' Hk'. apply Hf.
    rewrite lookup_insert_ne; [done|by intros ->; simplify_eq].
Qed.

(** One row contributes no more than the sum. *)
Lemma msum_ge f m k v :
  (forall k v, m !! k = Some v -> 0 <= f k v) -> m !! k = Some v -> f k v <= msum f m.
Proof.
  intros Hf Hk. rewrite (msum_delete f m k v Hk).
  assert (0 <= msum f (delete k m)); [|lia]. apply msum_nonneg.
  intros k' v' Hk'. apply lookup_delete_Some in Hk' as [_ ?]. eauto.
Qed.
End msum.

(** An order that compares keys inherits the laws of the keys. *)
Lemma OrdLaws_via {A K} `{Ord A} `{OrdLaws K} (key : A -> K) :
  (forall x y : A, cmp x y = cmp (key x) (key y)) -> OrdLaws A.
Proof.
  intros Hk. split; intros x y.
  - rewrite !Hk. apply cmp_flip.
  - intros z. rewrite !Hk. apply cmp_eq_l.
  - intros z. rewrite !Hk. apply cmp_lt_trans.
Qed.

(** ** Lists *)

(** [len(l)] *)
Definition lenZ {A} (l : list A) : Z := Z.of_nat (List.length l).

Lemma filter_filter_and {A} (f g : A -> bool) (l : list A) :
  List.filter g (List.filter f l) = List.filter (fun x => f x && g x) l.
Proof.
  induction l as [|x l IH]; [done|]; cbn. destruct (f x); cbn; [|done].
  by rewrite IH.
Qed.

Lemma lfilter_perm {A} (P : A -> bool) (l k : list A) : l ≡ₚ k -> List.filter P l ≡ₚ List.filter P k.
Proof.
  induction 1 as [|x l k _ IH|x y l|l k j _ IH1 _ IH2]; cbn; [done|..].
  - destruct (P x); [by rewrite IH|done].
  - destruct (P x), (P y); [apply perm_swap|done..].
  - by rewrite IH1.
Qed.

Lemma elem_of_lfilter {A} (f : A -> bool) l x : x ∈ List.filter f l <-> x ∈ l /\ f x = true.
Proof. by rewrite !list_elem_of_In, List.filter_In. Qed.
Lemma lfilter_nil {A} (f : A -> bool) l : List.filter f l = [] <-> forall x, x ∈ l -> f x = false.
Proof.
  split.
  - intros H x Hx. apply not_true_is_false. intros Hf.
    assert (x ∈ List.filter f l) as Hin by (by apply elem_of_lfilter). rewrite H in Hin. by inversion Hin.
  - intros H. destruct (List.filter f l) as [|x l'] eqn:E; [done|].
    assert (x ∈ List.filter f l) as [Hx Hf]%elem_of_lfilter by (rewrite E; left). by rewrite H in Hf.
Qed.
Lemma lfilter_fmap_nodup {A B} (g : A -> B) (f : A -> bool) l :
  NoDup (g <$> l) -> NoDup (g <$> List.filter f l).
Proof.
  induction l as [|x l IH]; cbn; [done|]. intros [Hx Hl]%NoDup_cons. destruct (f x); [|by apply IH].
  cbn. constructor; [|by apply IH]. intros (y & Ey & [Hy _]%elem_of_lfilter)%list_elem_of_fmap. apply Hx.
  rewrite Ey. by apply list_elem_of_fmap_2.
Qed.
Lemma fmap_nil_iff {A B} (f : A -> B) (l : list A) : f <$> l = [] <-> l = [].
Proof. split; [apply fmap_nil_inv|by intros ->]. Qed.
Lemma elem_of_snoc {A} (x y : A) l : y ∈ l ++ [x] <-> y ∈ l \/ y = x.
Proof. by rewrite elem_of_app, list_elem_of_singleton. Qed.

Lemma lenZ_filter_le {A} (f : A -> bool) (l : list A) : lenZ (List.filter f l) <= lenZ l.
Proof. unfold lenZ. pose proof (List.filter_length_le f l). lia. Qed.

Lemma filter_true {A} (f : A -> bool) (l : list A) :
  (forall x, f x = true) -> List.filter f l = l.
Proof. intros Hf. induction l as [|x l IH]; [done|]; cbn. by rewrite Hf, IH. Qed.

(** A sum over a list. *)
Definition zsum {A} (f : A -> Z) (l : list A) : Z := foldr (fun x acc => f x + acc) 0 l.

Lemma zsum_cons {A} (f : A -> Z) x l : zsum f (x :: l) = f x + zsum f l.
Proof. done. Qed.

Lemma zsum_app {A} (f : A -> Z) l1 l2 : zsum f (l1 ++ l2) = zsum f l1 + zsum f l2.
Proof. unfold zsum. induction l1 as [|x l1 IH]; cbn; lia. Qed.

Lemma zsum_perm {A} (f : A -> Z) l1 l2 : l1 ≡ₚ l2 -> zsum f l1 = zsum f l2.
Proof. unfold zsum. induction 1; cbn; lia. Qed.

Lemma zsum_ext {A} (f g : A -> Z) l : (forall x, x ∈ l -> f x = g x) -> zsum f l = zsum g l.
Proof.
  unfold zsum. induction l as [|x l IH]; cbn; [done|]. intros H. rewrite (H x) by left. rewrite IH; [done|].
  intros y Hy. apply H. by right.
Qed.

Lemma zsum_nonneg {A} (f : A -> Z) l : (forall x, x ∈ l -> 0 <= f x) -> 0 <= zsum f l.
Proof.
  unfold zsum. induction l as [|x l IH]; intros H; cbn; [lia|].
  assert (0 <= f x) by (apply H; left). assert (forall y, y ∈ l -> 0 <= f y) as Hl by (intros; apply H; by right).
  specialize (IH Hl). lia.
Qed.

Lemma zsum_le {A} (f g : A -> Z) l : (forall x, x ∈ l -> f x <= g x) -> zsum f l <= zsum g l.
Proof.
  unfold zsum. induction l as [|x l IH]; intros H; cbn; [lia|].
  assert (f x <= g x) by (apply H; left). assert (forall y, y ∈ l -> f y <= g y) as Hl by (intros; apply H; by right).
  specialize (IH Hl). lia.
Qed.

Lemma zsum_fmap {A B} (f : B -> Z) (g : A -> B) l : zsum f (g <$> l) = zsum (fun x => f (g x)) l.
Proof. unfold zsum. induction l as [|x l IH]; cbn; [done|]. by rewrite IH. Qed.

Lemma zsum_const {A} (c : Z) (l : list A) : zsum (fun _ => c) l = c * lenZ l.
Proof. unfold zsum, lenZ. induction l as [|x l IH]; cbn [foldr List.length]; lia. Qed.
