(* ===== verification/PyFloat.v ===== *)
(** * Python numbers: binary64 floats, [timedelta], [Decimal]

    Python floats are IEEE 754 binary64 numbers; they are modelled by the
    Standard Library's [spec_float] with precision 53 and maximal exponent
    1024, so every rounding the code performs is performed here.  [int / int]
    is the correctly rounded quotient, [round] rounds half to even, and a
    [Decimal] is a rational whose operations round to the 28 significant
    digits of the default context. *)

From S2P Require Import Prelude.
From Stdlib Require Import SpecFloat QArith.

#[local] Open Scope Z_scope.

Notation float := spec_float.

Definition fadd : float -> float -> float := SFadd 53 1024.
Definition fsub : float -> float -> float := SFsub 53 1024.
Definition fmul : float -> float -> float := SFmul 53 1024.
Definition fdiv : float -> float -> float := SFdiv 53 1024.
Definition fopp : float -> float := SFopp.
Definition flt : float -> float -> bool := SFltb.
Definition fle : float -> float -> bool := SFleb.

Definition f0 : float := S754_zero false.

(** [float(n)], the nearest float of an integer. *)
Definition float_of_Z (n : Z) : float := binary_normalize 53 1024 n 0 false.

Definition f1 : float := float_of_Z 1.

(** An integer as an exact, possibly non-canonical, number. *)
Definition exact (n : Z) : float :=
  match n with
  | Z0 => S754_zero false
  | Zpos p => S754_finite false p 0
  | Zneg p => S754_finite true p 0
  end.

(** [a / b] on integers with [b] not zero: one correctly rounded division. *)
Definition truediv (a b : Z) : float := fdiv (exact a) (exact b).

(** The float nearest to a rational; [float(Decimal)] and float literals. *)
Definition float_of_Q (q : Q) : float := truediv (Qnum q) (Zpos (Qden q)).

(** [max(a, b)] and [min(a, b)] keep the first of two equal arguments. *)
Definition fmax (a b : float) : float := if flt a b then b else a.
Definition fmin (a b : float) : float := if flt b a then b else a.

(** A finite float as numerator and denominator. *)
Definition float_ratio (x : float) : Z * Z :=
  match x with
  | S754_finite s m e =>
      let n := cond_Zopp s (Zpos m) in
      (n * 2 ^ Z.max e 0, 2 ^ Z.max (- e) 0)
  | _ => (0, 1)
  end.

(** Half-to-even rounding of [n / d], [d] positive. *)
Definition round_half_even (n d : Z) : Z :=
  let q := n / d in
  match Z.compare (2 * (n mod d)) d with
  | Lt => q
  | Gt => q + 1
  | Eq => if Z.even q then q else q + 1
  end.

(** [round(x)] *)
Definition py_round (x : float) : Z :=
  let '(n, d) := float_ratio x in round_half_even n d.

(** [int(x // n)] for a positive integer [n]. *)
Definition floordiv (x : float) (n : Z) : Z :=
  let '(a, d) := float_ratio x in a / (d * n).

(** The microseconds of [timedelta(seconds=x)] for a finite [x]: the whole
    seconds are exact, the fraction is scaled by a float product and rounded
    half to even.  [Store.timedelta_error] has the arguments it refuses. *)
Definition timedelta_seconds (x : float) : Z :=
  let '(n, d) := float_ratio x in
  let whole := Z.quot n d in
  let frac := fsub x (exact whole) in
  whole * 1000000 + py_round (fmul frac (float_of_Z 1000000)).

Definition is_nan (x : float) : bool := match x with S754_nan => true | _ => false end.
Definition is_infinite (x : float) : bool := match x with S754_infinity _ => true | _ => false end.

(** [timedelta.min <= d <= timedelta.max] and [datetime.min <= t <= datetime.max]
    (UTC, microseconds since the epoch). *)
Definition timedelta_ok (micros : Z) : bool :=
  (-999999999 * 86400000000 <=? micros) && (micros <? 1000000000 * 86400000000).
Definition datetime_ok (t : Z) : bool := (-62135596800000000 <=? t) && (t <? 253402300800000000).

(** [(b - a).total_seconds()] of two instants in microseconds. *)
Definition total_seconds (micros : Z) : float := truediv micros 1000000.

(** ** The order of floats as sort keys

    NaN does not occur in the scores of the schedulers; placing it above
    everything makes the comparison total. *)
#[export] Instance Ord_float : Ord float := fun x y =>
  match SFcompare x y with
  | Some c => c
  | None => match x, y with
            | S754_nan, S754_nan => Eq
            | S754_nan, _ => Gt
            | _, _ => Lt
            end
  end.

Definition float_key (x : float) : Z * (Z * Z) :=
  match x with
  | S754_infinity true => (-2, (0, 0))
  | S754_finite true m e => (-1, (- e, Zneg m))
  | S754_zero _ => (0, (0, 0))
  | S754_finite false m e => (1, (e, Zpos m))
  | S754_infinity false => (2, (0, 0))
  | S754_nan => (3, (0, 0))
  end.

Lemma float_cmp_key x y : cmp x y = cmp (float_key x) (float_key y).
Proof.
  destruct x as [[]|[]| |[] m e], y as [[]|[]| |[] m' e']; try reflexivity;
    unfold cmp, Ord_float, Ord_prod; cbn; unfold cmp, Ord_prod, Ord_Z; cbn.
  rewrite Z.compare_opp, (Z.compare_antisym e e'). by destruct (e ?= e').
Qed.

#[export] Instance OrdLaws_float : OrdLaws float.
Proof. apply (OrdLaws_via float_key), float_cmp_key. Qed.


Lemma flt_cmp x y : is_nan x = false -> is_nan y = false -> flt x y = true <-> cmp x y = Lt.
Proof.
  intros Hx Hy. unfold flt, SFltb, cmp, Ord_float.
  assert (exists c, SFcompare x y = Some c) as [c ->] by (destruct x, y; naive_solver).
  destruct c; split; congruence.
Qed.

(** ** NaN never arises from quotients of integers *)
Lemma shr_1_nonneg mrs : 0 <= shr_m mrs -> 0 <= shr_m (shr_1 mrs).
Proof. destruct mrs as [m r s]; destruct m as [|[]|[]]; cbn; lia. Qed.

Lemma iter_shr_nonneg p mrs : 0 <= shr_m mrs -> 0 <= shr_m (SpecFloat.iter_pos shr_1 p mrs).
Proof.
  revert mrs. induction p as [p IH|p IH|]; intros mrs Hm; cbn;
    auto using shr_1_nonneg.
Qed.

Lemma shr_fexp_nonneg m e l : 0 <= m -> 0 <= shr_m (shr_fexp 53 1024 m e l).1.
Proof.
  intros Hm. unfold shr_fexp, shr.
  assert (0 <= shr_m (shr_record_of_loc m l)) by by destruct l as [|[]].
  destruct (_ - e); cbn; auto using iter_shr_nonneg.
Qed.

Lemma binary_round_aux_not_nan s m e l :
  0 <= m -> is_nan (binary_round_aux 53 1024 s m e l) = false.
Proof.
  intros Hm. unfold binary_round_aux.
  pose proof (shr_fexp_nonneg m e l Hm) as H1.
  destruct (shr_fexp 53 1024 m e l) as [mrs1 e1]; cbn in H1.
  set (m1 := round_nearest_even _ _).
  assert (0 <= m1) as Hm1.
  { unfold m1, round_nearest_even.
    destruct (loc_of_shr_record mrs1) as [|[]]; try destruct (Z.even _); lia. }
  pose proof (shr_fexp_nonneg m1 e1 loc_Exact Hm1) as H2.
  destruct (shr_fexp 53 1024 m1 e1 loc_Exact) as [mrs2 e2]; cbn in H2.
  destruct (shr_m mrs2); [done| |lia]. by destruct (e2 <=? _).
Qed.

Lemma truediv_not_nan a b : b <> 0 -> is_nan (truediv a b) = false.
Proof.
  intros Hb. unfold truediv, fdiv.
  assert (forall sa sb p q, is_nan (SFdiv 53 1024 (S754_finite sa p 0) (S754_finite sb q 0)) = false)
    as Hfin.
  { intros. unfold SFdiv, SFdiv_core_binary.
    set (m' := match _ with Z0 => Zpos p | Zpos _ => _ | Zneg _ => 0 end).
    assert (0 <= m') as Hm'.
    { unfold m'. destruct (_ - _ - _); [lia|apply Z.shiftl_nonneg; lia|lia]. }
    assert (0 <= m' / Zpos q) as Hq by (apply Z.div_pos; lia).
    unfold Z.div in Hq. destruct (Z.div_eucl m' (Zpos q)) as [q' r].
    by apply binary_round_aux_not_nan. }
  destruct a as [|p|p], b as [|q|q]; try done; apply Hfin.
Qed.

Lemma is_nan_fopp x : is_nan (fopp x) = is_nan x.
Proof. by destruct x. Qed.

Lemma is_nan_fmax x y : is_nan x = false -> is_nan y = false -> is_nan (fmax x y) = false.
Proof. unfold fmax. by destruct (flt x y). Qed.

Lemma is_nan_float_of_Z n : is_nan (float_of_Z n) = false.
Proof.
  unfold float_of_Z. destruct n as [|p|p]; cbn; [done|..];
    unfold binary_round; destruct (shl_align _ _ _);
    by apply binary_round_aux_not_nan.
Qed.

(** [min] and [max] are bounds for the order. *)
Lemma fmin_le_r x y : is_nan x = false -> is_nan y = false -> cmp_le (fmin x y) y.
Proof.
  intros Hx Hy. unfold fmin. destruct (flt y x) eqn:E; [apply cmp_le_refl|].
  unfold cmp_le. rewrite (cmp_flip y x). intros E2.
  destruct (cmp y x) eqn:E3; try done. apply flt_cmp in E3; congruence.
Qed.

Lemma fmin_le_l x y : is_nan x = false -> is_nan y = false -> cmp_le (fmin x y) x.
Proof.
  intros Hx Hy. unfold fmin. destruct (flt y x) eqn:E; [|apply cmp_le_refl].
  apply flt_cmp in E; [|done..]. unfold cmp_le. by rewrite E.
Qed.

Lemma fmax_ge_l x y : is_nan x = false -> is_nan y = false -> cmp_le x (fmax x y).
Proof.
  intros Hx Hy. unfold fmax. destruct (flt x y) eqn:E; [|apply cmp_le_refl].
  apply flt_cmp in E; [|done..]. unfold cmp_le. by rewrite E.
Qed.

Lemma fmax_ge_r x y : is_nan x = false -> is_nan y = false -> cmp_le y (fmax x y).
Proof.
  intros Hx Hy. unfold fmax. destruct (flt x y) eqn:E; [apply cmp_le_refl|].
  unfold cmp_le. rewrite (cmp_flip x y). destruct (cmp x y) eqn:E3; try done.
  apply flt_cmp in E3; congruence.
Qed.

(** ** [decimal.Decimal] in the default context (28 digits, half even) *)
Notation decimal := Q.

(** The number of decimal digits of a positive integer, at least one. *)
Fixpoint digits10_fuel (fuel : nat) (n : Z) : Z :=
  match fuel with
  | O => 0
  | S fuel' => if n =? 0 then 0 else 1 + digits10_fuel fuel' (n / 10)
  end.
Definition digits10 (n : Z) : Z := digits10_fuel (S (Z.to_nat (Z.log2 n))) n.

(** The rational nearest to [n / d] with [p] digits after the point. *)
Definition round_places (n d p : Z) : Q :=
  if 0 <=? p
  then Qred (Qmake (round_half_even (n * 10 ^ p) d) (Z.to_pos (10 ^ p)))
  else inject_Z (round_half_even n (d * 10 ^ (- p)) * 10 ^ (- p)).

(** Rounding of a non-negative or negative rational to 28 significant digits. *)
Definition dec_round (q : Q) : decimal :=
  let n := Z.abs (Qnum q) in
  let d := Zpos (Qden q) in
  if n =? 0 then 0%Q else
  let whole := digits10 (n / d) in
  let k := digits10 d - digits10 n in
  let lead := if d <=? n * 10 ^ k then k else k + 1 in
  let places := if 0 <? whole then 28 - whole else 27 + lead in
  let r := round_places n d places in
  if Qnum q <? 0 then Qopp r else r.

Definition dec_mul (a b : decimal) : decimal := dec_round (a * b)%Q.
Definition dec_div (a b : decimal) : decimal := dec_round (a / b)%Q.
Definition dec_add (a b : decimal) : decimal := dec_round (a + b)%Q.
Definition dec_sub (a b : decimal) : decimal := dec_round (a - b)%Q.
Definition dec_of_Z (n : Z) : decimal := inject_Z n.

(** Rounding keeps the sign. *)
Lemma round_half_even_nonneg n d : 0 <= n -> 0 < d -> 0 <= round_half_even n d.
Proof.
  intros Hn Hd. unfold round_half_even.
  assert (0 <= n / d) by (apply Z.div_pos; lia). repeat case_match; lia.
Qed.

Lemma round_places_nonneg n d p : 0 <= n -> 0 < d -> (0 <= round_places n d p)%Q.
Proof.
  intros Hn Hd. unfold round_places. destruct (0 <=? p) eqn:E.
  - rewrite Qred_correct. unfold Qle. cbn.
    assert (0 <= round_half_even (n * 10 ^ p) d); [|lia].
    apply round_half_even_nonneg; [|done]. apply Z.mul_nonneg_nonneg; [done|].
    apply Z.pow_nonneg. lia.
  - unfold Qle, inject_Z. cbn [Qnum Qden]. rewrite Z.mul_0_l, Z.mul_1_r. apply Z.mul_nonneg_nonneg; [|apply Z.pow_nonneg; lia].
    apply round_half_even_nonneg; [done|]. apply Z.mul_pos_pos; [done|].
    apply Z.pow_pos_nonneg; lia.
Qed.

Lemma dec_round_nonneg q : (0 <= q)%Q -> (0 <= dec_round q)%Q.
Proof.
  intros Hq. unfold dec_round. destruct (Z.abs (Qnum q) =? 0); [done|].
  replace (Qnum q <? 0) with false by (unfold Qle in Hq; cbn in Hq; lia).
  apply round_places_nonneg; lia.
Qed.

Lemma dec_add_nonneg a b : (0 <= a)%Q -> (0 <= b)%Q -> (0 <= dec_add a b)%Q.
Proof. intros Ha Hb. apply dec_round_nonneg. rewrite <-(Qplus_0_l 0). by apply Qplus_le_compat. Qed.

Lemma dec_mul_nonneg a b : (0 <= a)%Q -> (0 <= b)%Q -> (0 <= dec_mul a b)%Q.
Proof. intros Ha Hb. apply dec_round_nonneg. by apply Qmult_le_0_compat. Qed.

Lemma dec_div_nonneg a b : (0 <= a)%Q -> (0 <= b)%Q -> (0 <= dec_div a b)%Q.
Proof.
  intros Ha Hb. apply dec_round_nonneg. unfold Qdiv.
  apply Qmult_le_0_compat; [done|]. by apply Qinv_le_0_compat.
Qed.

Lemma dec_sub_nonneg a b : (b <= a)%Q -> (0 <= dec_sub a b)%Q.
Proof. intros Hab. apply dec_round_nonneg. by apply Qle_minus_iff in Hab. Qed.
