(* ===== verification/PyString.v ===== *)
(** * Python strings

    [str.strip] and the emptiness test after it, for ASCII text. *)

From S2P Require Import Prelude.
From Stdlib Require Import Ascii String.

#[local] Open Scope Z_scope.

(** The ASCII characters [str.strip] removes. *)
Definition is_space (c : ascii) : bool :=
  let n := nat_of_ascii c in
  ((9 <=? n) && (n <=? 13) || (28 <=? n) && (n <=? 32))%nat.

(** [not value.strip()] *)
Fixpoint blank (s : string) : bool :=
  match s with
  | EmptyString => true
  | String c s' => is_space c && blank s'
  end.

Fixpoint lstrip (s : string) : string :=
  match s with
  | EmptyString => EmptyString
  | String c s' => if is_space c then lstrip s' else s
  end.

Fixpoint rstrip (s : string) : string :=
  match s with
  | EmptyString => EmptyString
  | String c s' =>
      match rstrip s' with
      | EmptyString => if is_space c then EmptyString else String c EmptyString
      | r => String c r
      end
  end.

Definition strip (s : string) : string := rstrip (lstrip s).

Lemma blank_rstrip s : blank s = true <-> rstrip s = "".
Proof.
  induction s as [|c s IH]; [done|]; cbn. rewrite andb_true_iff, IH.
  destruct (rstrip s), (is_space c); naive_solver.
Qed.

Lemma blank_strip s : blank s = true <-> strip s = "".
Proof.
  unfold strip. induction s as [|c s IH]; [done|]; cbn.
  destruct (is_space c) eqn:E; cbn; [apply IH|].
  rewrite E. split; [done|]. destruct (rstrip s); done.
Qed.

(** ** UUIDs

    A UUID is a 128-bit natural; [str] prints 32 lower-case hexadecimal digits
    in groups of 8-4-4-4-12 and [uuid.UUID] reads them back. *)
Definition hex_digit (d : N) : ascii :=
  ascii_of_N (if (d <? 10)%N then 48 + d else 87 + d)%N.

Definition hex_value (c : ascii) : option N :=
  let n := N_of_ascii c in
  if ((48 <=? n) && (n <=? 57))%N then Some (n - 48)%N
  else if ((97 <=? n) && (n <=? 102))%N then Some (n - 87)%N
  else if ((65 <=? n) && (n <=? 70))%N then Some (n - 55)%N
  else None.

(** The last [k] digits of [n], most significant first. *)
Fixpoint hex_digits (k : nat) (n : N) : list ascii :=
  match k with
  | O => []
  | S k' => hex_digits k' (n / 16)%N ++ [hex_digit (n mod 16)%N]
  end.

Definition dash : ascii := "-"%char.

Definition uuid_str (n : N) : string :=
  let d := hex_digits 32 n in
  string_of_list_ascii
    (take 8 d ++ [dash] ++ take 4 (drop 8 d) ++ [dash] ++ take 4 (drop 12 d) ++ [dash]
     ++ take 4 (drop 16 d) ++ [dash] ++ drop 20 d).

Fixpoint hex_number (acc : N) (l : list ascii) : option N :=
  match l with
  | [] => Some acc
  | c :: l' => match hex_value c with
               | Some d => hex_number (16 * acc + d)%N l'
               | None => None
               end
  end.

(** [uuid.UUID(value)] for a value without braces or prefixes. *)
Definition uuid_parse (s : string) : option N :=
  let l := List.filter (fun c => negb (Ascii.eqb c dash)) (list_ascii_of_string s) in
  if (List.length l =? 32)%nat then hex_number 0 l else None.

Lemma hex_digits_length k n : List.length (hex_digits k n) = k.
Proof.
  revert n. induction k as [|k IH]; intros n; cbn; [done|].
  rewrite List.length_app, IH. cbn. lia.
Qed.

(** Checked on the sixteen digits. *)
Lemma hex_digit_ok d :
  (d < 16)%N -> hex_value (hex_digit d) = Some d /\ Ascii.eqb (hex_digit d) dash = false.
Proof.
  intros Hd.
  assert (forallb (fun i => bool_decide (hex_value (hex_digit i) = Some i)
                            && negb (Ascii.eqb (hex_digit i) dash))
            (N.of_nat <$> seq 0 16) = true) as H by (vm_compute; reflexivity).
  rewrite forallb_forall in H. specialize (H d).
  rewrite andb_true_iff, bool_decide_eq_true, negb_true_iff in H. apply H.
  apply list_elem_of_In, list_elem_of_fmap. exists (N.to_nat d).
  split; [by rewrite N2Nat.id|]. apply elem_of_seq. lia.
Qed.

Lemma hex_number_app acc l k :
  hex_number acc (l ++ k) = match hex_number acc l with Some a => hex_number a k | None => None end.
Proof.
  revert acc. induction l as [|c l IH]; intros acc; cbn; [done|].
  destruct (hex_value c); [apply IH|done].
Qed.

Lemma hex_number_digits k acc n :
  hex_number acc (hex_digits k n) = Some (acc * 16 ^ N.of_nat k + n mod 16 ^ N.of_nat k)%N.
Proof.
  revert acc n. induction k as [|k IH]; intros acc n.
  - cbn. rewrite N.mod_1_r. f_equal. lia.
  - cbn [hex_digits]. rewrite hex_number_app, IH. cbn.
    destruct (hex_digit_ok (n mod 16)) as [-> _]; [by apply N.mod_lt|]. f_equal.
    rewrite Nat2N.inj_succ, N.pow_succ_r', N.Div0.mod_mul_r. lia.
Qed.

Lemma hex_digits_no_dash k n :
  List.filter (fun c => negb (Ascii.eqb c dash)) (hex_digits k n) = hex_digits k n.
Proof.
  revert n. induction k as [|k IH]; intros n; cbn; [done|].
  rewrite List.filter_app, IH. cbn.
  destruct (hex_digit_ok (n mod 16)) as [_ ->]; [by apply N.mod_lt|]. done.
Qed.

(** [uuid.UUID(str(u)) == u] *)
Lemma uuid_parse_str n : (n < 2 ^ 128)%N -> uuid_parse (uuid_str n) = Some n.
Proof.
  intros Hn. unfold uuid_parse, uuid_str. set (d := hex_digits 32 n).
  rewrite list_ascii_of_string_of_list_ascii, !List.filter_app. cbn [List.filter negb Ascii.eqb].
  replace (Ascii.eqb dash dash) with true by reflexivity. cbn [negb app].
  rewrite <-!List.filter_app.
  replace (take 8 d ++ take 4 (drop 8 d) ++ take 4 (drop 12 d) ++ take 4 (drop 16 d) ++ drop 20 d)
    with d.
  2:{ assert (forall i, take 4 (drop i d) ++ drop (i + 4) d = drop i d) as Hstep
        by (intros i; rewrite <-drop_drop; apply take_drop).
      rewrite (Hstep 16%nat : _ ++ drop 20 d = _), (Hstep 12%nat : _ ++ drop 16 d = _),
        (Hstep 8%nat : _ ++ drop 12 d = _). by rewrite take_drop. }
  unfold d. rewrite hex_digits_no_dash, hex_digits_length.
  replace (32 =? 32)%nat with true by reflexivity.
  rewrite hex_number_digits. f_equal. rewrite N.mul_0_l, N.add_0_l.
  apply N.mod_small. exact Hn.
Qed.
