(* ===== verification/Enums.v ===== *)
(** * Enumerations and the task state machine

    [core/enums.py], [core/state_machine.py] and the vendor/kind table of
    [core/accelerators.py].  A [StrEnum] is an inductive type with one
    constructor per member; [X_value] is the member's [.value]. *)

From S2P Require Import Prelude.

(** ** core/enums.py *)
Inductive AcceleratorVendor := NVIDIA | HUAWEI_ASCEND.
Inductive AcceleratorKind := GPU | NPU.
Inductive AcceleratorSelectionPolicy :=
  ANY | NVIDIA_ONLY | ASCEND_ONLY | PREFER_NVIDIA | PREFER_ASCEND.
Inductive AllocationAuthority := CONTROL_PLANE_EXACT_DEVICE | KUBERNETES_DEVICE_PLUGIN.

Inductive TaskStatus :=
  PENDING | QUEUED | SCHEDULING | ASSIGNED | PREPARING | PULLING | STARTING | RUNNING
| PREEMPTING | PREEMPTED | STOPPING | SUCCEEDED | FAILED | CANCELLED | TIMED_OUT | RETRYING.

Inductive WorkerStatus := ONLINE | OFFLINE | DRAINING.
Inductive LogStream := STDOUT | STDERR | SYSTEM.
Inductive RuntimeType := DOCKER | KUBERNETES | FAKE.
Inductive RetryBackoff := EXPONENTIAL | LINEAR | FIXED.

Inductive ErrorCategory :=
  USER_ERROR | INFRA_ERROR | RESOURCE_ERROR | TIMEOUT | PREEMPTED_ERROR | CANCELLED_ERROR
| INTERNAL_ERROR.

Inductive ErrorCode :=
  IMAGE_PULL_FAILED | CONTAINER_START_FAILED | OOM_KILLED | GPU_UNAVAILABLE | WORKER_LOST
| LEASE_EXPIRED | MODEL_LOAD_FAILED | MODEL_LOAD_TIMEOUT | REPLICA_UNHEALTHY
| NO_HEALTHY_REPLICA | UPSTREAM_CONNECT_TIMEOUT | INFERENCE_REQUEST_TIMEOUT
| UPSTREAM_DISCONNECTED | GPU_ALLOCATION_FAILED | KUBERNETES_ARTIFACTS_UNSUPPORTED.

#[export] Instance AcceleratorVendor_eq_dec : EqDecision AcceleratorVendor.
Proof. solve_decision. Defined.
#[export] Instance AcceleratorKind_eq_dec : EqDecision AcceleratorKind.
Proof. solve_decision. Defined.
#[export] Instance AcceleratorSelectionPolicy_eq_dec : EqDecision AcceleratorSelectionPolicy.
Proof. solve_decision. Defined.
#[export] Instance AllocationAuthority_eq_dec : EqDecision AllocationAuthority.
Proof. solve_decision. Defined.
#[export] Instance TaskStatus_eq_dec : EqDecision TaskStatus.
Proof. solve_decision. Defined.
#[export] Instance WorkerStatus_eq_dec : EqDecision WorkerStatus.
Proof. solve_decision. Defined.
#[export] Instance RuntimeType_eq_dec : EqDecision RuntimeType.
Proof. solve_decision. Defined.
#[export] Instance RetryBackoff_eq_dec : EqDecision RetryBackoff.
Proof. solve_decision. Defined.
#[export] Instance ErrorCategory_eq_dec : EqDecision ErrorCategory.
Proof. solve_decision. Defined.
#[export] Instance ErrorCode_eq_dec : EqDecision ErrorCode.
Proof. solve_decision. Defined.

#[export] Instance AcceleratorVendor_countable : Countable AcceleratorVendor.
Proof.
  apply (inj_countable' (fun v => match v with NVIDIA => true | HUAWEI_ASCEND => false end)
                        (fun b : bool => if b then NVIDIA else HUAWEI_ASCEND)).
  by intros [].
Defined.
#[export] Instance AcceleratorKind_countable : Countable AcceleratorKind.
Proof.
  apply (inj_countable' (fun v => match v with GPU => true | NPU => false end)
                        (fun b : bool => if b then GPU else NPU)).
  by intros [].
Defined.

(** Boolean equality and membership, as [==] and [in] are used in the code. *)
Definition eqb {A} `{EqDecision A} (x y : A) : bool := bool_decide (x = y).
Definition inb {A} `{EqDecision A} (x : A) (l : list A) : bool := bool_decide (x ∈ l).
Notation "x '==' y" := (eqb x y) (at level 70) : stdpp_scope.
Notation "x '!==' y" := (negb (eqb x y)) (at level 70) : stdpp_scope.

Lemma eqb_true {A} `{EqDecision A} (x y : A) : eqb x y = true <-> x = y.
Proof. apply bool_decide_eq_true. Qed.
Lemma eqb_false {A} `{EqDecision A} (x y : A) : eqb x y = false <-> x <> y.
Proof. apply bool_decide_eq_false. Qed.
Lemma eqb_same {A} `{EqDecision A} (x : A) : eqb x x = true.
Proof. by apply bool_decide_eq_true. Qed.
Lemma inb_true {A} `{EqDecision A} (x : A) l : inb x l = true <-> x ∈ l.
Proof. apply bool_decide_eq_true. Qed.
Lemma inb_false {A} `{EqDecision A} (x : A) l : inb x l = false <-> x ∉ l.
Proof. apply bool_decide_eq_false. Qed.

(** [bools] turns the boolean guards in the context into propositions. *)
Create HintDb guards.
#[export] Hint Rewrite @orb_false_iff @andb_true_iff @negb_true_iff @negb_false_iff
  @eqb_true @eqb_false @inb_true @inb_false
  Z.ltb_lt Z.ltb_ge Z.leb_le Z.leb_gt Z.eqb_eq Z.eqb_neq : guards.
Ltac bools := autorewrite with guards in *; destruct_and?.

Definition TaskStatus_value (s : TaskStatus) : string :=
  match s with
  | PENDING => "pending" | QUEUED => "queued" | SCHEDULING => "scheduling"
  | ASSIGNED => "assigned" | PREPARING => "preparing" | PULLING => "pulling"
  | STARTING => "starting" | RUNNING => "running" | PREEMPTING => "preempting"
  | PREEMPTED => "preempted" | STOPPING => "stopping" | SUCCEEDED => "succeeded"
  | FAILED => "failed" | CANCELLED => "cancelled" | TIMED_OUT => "timed_out"
  | RETRYING => "retrying"
  end.

Definition AcceleratorVendor_value (v : AcceleratorVendor) : string :=
  match v with NVIDIA => "nvidia" | HUAWEI_ASCEND => "huawei-ascend" end.

Definition AcceleratorKind_value (k : AcceleratorKind) : string :=
  match k with GPU => "gpu" | NPU => "npu" end.

Definition RuntimeType_value (r : RuntimeType) : string :=
  match r with DOCKER => "docker" | KUBERNETES => "kubernetes" | FAKE => "fake" end.

Definition FINAL_TASK_STATUSES : list TaskStatus :=
  [SUCCEEDED; FAILED; CANCELLED; TIMED_OUT; PREEMPTED].

Definition ACTIVE_TASK_STATUSES : list TaskStatus :=
  [SCHEDULING; ASSIGNED; PREPARING; PULLING; STARTING; RUNNING; PREEMPTING; STOPPING].

(** ** core/accelerators.py: the vendor/kind table *)
Definition kind_for_vendor (v : AcceleratorVendor) : AcceleratorKind :=
  match v with NVIDIA => GPU | HUAWEI_ASCEND => NPU end.

Definition vendor_for_kind (k : AcceleratorKind) : AcceleratorVendor :=
  match k with GPU => NVIDIA | NPU => HUAWEI_ASCEND end.

Definition vendor_kind_is_compatible (v : AcceleratorVendor) (k : AcceleratorKind) : bool :=
  kind_for_vendor v == k.

(** ** models/service.py: the enumerations of services and replicas *)
Module ServiceStatus.
Inductive t := PENDING | DEPLOYING | RUNNING | DEGRADED | STOPPING | STOPPED | FAILED.
#[global] Instance eq_dec : EqDecision t.
Proof. solve_decision. Defined.
End ServiceStatus.

Module ReplicaStatus.
Inductive t := PENDING | STARTING | LOADING | RUNNING | DRAINING | STOPPING | STOPPED | FAILED | LOST.
#[global] Instance eq_dec : EqDecision t.
Proof. solve_decision. Defined.
Definition value (s : t) : string :=
  match s with
  | PENDING => "pending" | STARTING => "starting" | LOADING => "loading" | RUNNING => "running"
  | DRAINING => "draining" | STOPPING => "stopping" | STOPPED => "stopped" | FAILED => "failed"
  | LOST => "lost"
  end.
End ReplicaStatus.

Module ReplicaHealth.
Inductive t := UNKNOWN | HEALTHY | UNHEALTHY.
#[global] Instance eq_dec : EqDecision t.
Proof. solve_decision. Defined.
End ReplicaHealth.

Inductive ServingRuntime := VLLM | FAKE_SERVING.
#[export] Instance ServingRuntime_eq_dec : EqDecision ServingRuntime.
Proof. solve_decision. Defined.

(** The model registry's and the gateway's enumerations ([core/enums.py]). *)
Module ModelAvailabilityStatus.
Inductive t := READY | DEGRADED | DISABLED.
#[global] Instance eq_dec : EqDecision t.
Proof. solve_decision. Defined.
End ModelAvailabilityStatus.

Module GatewayRoutingPolicy.
Inductive t := STRICT_NVIDIA | STRICT_ASCEND | PREFER_NVIDIA | PREFER_ASCEND | BALANCED.
#[global] Instance eq_dec : EqDecision t.
Proof. solve_decision. Defined.
End GatewayRoutingPolicy.

(** ** core/state_machine.py *)
Module StateMachine.
Definition ALLOWED_TRANSITIONS (current : TaskStatus) : list TaskStatus :=
  match current with
  | PENDING => [QUEUED; CANCELLED]
  | QUEUED => [SCHEDULING; ASSIGNED; CANCELLED]
  | SCHEDULING => [QUEUED; ASSIGNED; CANCELLED]
  | ASSIGNED => [PREPARING; PULLING; STOPPING; PREEMPTING; CANCELLED; FAILED; TIMED_OUT]
  | PREPARING => [PULLING; STARTING; STOPPING; PREEMPTING; FAILED; TIMED_OUT]
  | PULLING => [STARTING; RUNNING; STOPPING; PREEMPTING; CANCELLED; FAILED; TIMED_OUT]
  | STARTING => [RUNNING; STOPPING; PREEMPTING; FAILED; TIMED_OUT]
  | RUNNING => [STOPPING; PREEMPTING; SUCCEEDED; FAILED; CANCELLED; TIMED_OUT]
  | STOPPING => [CANCELLED; FAILED; TIMED_OUT]
  | PREEMPTING => [PREEMPTED; FAILED; CANCELLED]
  | PREEMPTED => [RETRYING]
  | FAILED => [RETRYING]
  | TIMED_OUT => [RETRYING]
  | RETRYING => [QUEUED; CANCELLED]
  | SUCCEEDED => []
  | CANCELLED => []
  end.

Definition can_transition (current target : TaskStatus) : bool :=
  inb target (ALLOWED_TRANSITIONS current).

(** Legal histories. *)
Definition step (a b : TaskStatus) : Prop := can_transition a b = true.
Definition path : TaskStatus -> TaskStatus -> Prop := rtc step.

Lemma step_cases a b : step a b <-> b ∈ ALLOWED_TRANSITIONS a.
Proof. unfold step, can_transition. apply inb_true. Qed.

Lemma absorbing a b : ALLOWED_TRANSITIONS a = [] -> path a b -> b = a.
Proof.
  intros Ha. destruct 1 as [|a c b Hs]; [done|].
  apply step_cases in Hs. rewrite Ha in Hs. by apply not_elem_of_nil in Hs.
Qed.

(** A run that reaches [RUNNING] goes through an assignment first: the
    statuses from which the path has not been assigned yet are closed
    under every step other than the one to [ASSIGNED]. *)
Definition before_assignment : list TaskStatus :=
  [PENDING; QUEUED; SCHEDULING; RETRYING; CANCELLED].

Lemma before_assignment_closed a b :
  a ∈ before_assignment -> step a b -> b = ASSIGNED \/ b ∈ before_assignment.
Proof.
  intros Ha Hs. apply step_cases in Hs.
  destruct a; cbn in Hs; unfold before_assignment in *; set_solver.
Qed.

Lemma path_before_assignment a b :
  a ∈ before_assignment -> path a b ->
  b ∈ before_assignment \/ (path a ASSIGNED /\ path ASSIGNED b).
Proof.
  intros Ha Hp. induction Hp as [|a c b Hs Hp IH]; [by left|].
  destruct (before_assignment_closed a c Ha Hs) as [->|Hc].
  - right. split; [by apply rtc_once|done].
  - destruct (IH Hc) as [?|[? ?]]; [by left|right]. split; [|done]. by eapply rtc_l.
Qed.

(** No task runs unassigned: every legal history from [PENDING] to a
    status of an execution, or to an outcome other than a cancellation,
    passes through [ASSIGNED]. *)
Theorem execution_needs_assignment s (Hp : path PENDING s) (Hs : s ∉ before_assignment) :
  path PENDING ASSIGNED /\ path ASSIGNED s.
Proof.
  destruct (path_before_assignment PENDING s) as [?|?]; try done.
  unfold before_assignment. set_solver.
Qed.

Lemma execution_needs_assignment_witness : path PENDING ASSIGNED /\ path ASSIGNED SUCCEEDED.
Proof.
  apply (execution_needs_assignment SUCCEEDED).
  - unfold path. eapply rtc_l with QUEUED; [reflexivity|].
    eapply rtc_l with ASSIGNED; [reflexivity|]. eapply rtc_l with PULLING; [reflexivity|].
    eapply rtc_l with RUNNING; [reflexivity|]. apply rtc_once. reflexivity.
  - unfold before_assignment. set_solver.
Defined.

(** Outcomes are final: [SUCCEEDED] and [CANCELLED] have no successor in
    any legal history, and the other final statuses are left only by a
    retry, which re-enters the queue. *)
Theorem final_statuses_final s t (Hs : s ∈ FINAL_TASK_STATUSES) (Hp : path s t) :
  t = s \/
  ((s = FAILED \/ s = TIMED_OUT \/ s = PREEMPTED) /\ can_transition s RETRYING = true /\
   path RETRYING t).
Proof.
  destruct Hp as [|s c t Hstep Hp]; [by left|]. right. apply step_cases in Hstep.
  assert (c = RETRYING /\ (s = FAILED \/ s = TIMED_OUT \/ s = PREEMPTED)) as [-> ?].
  { unfold FINAL_TASK_STATUSES in Hs. destruct s; cbn in Hstep; set_solver. }
  split_and!; [done| |done]. naive_solver.
Qed.

Lemma final_statuses_final_witness : path RETRYING QUEUED.
Proof.
  destruct (final_statuses_final FAILED QUEUED) as [?|(_ & _ & ?)]; [| |done|done].
  - unfold FINAL_TASK_STATUSES. set_solver.
  - unfold path. eapply rtc_l with RETRYING; [reflexivity|]. apply rtc_once. reflexivity.
Defined.
End StateMachine.
