(* ===== verification/PyUrl.v ===== *)
(** * Splitting strings and URLs

    [str.partition], [str.rpartition] and [str.split] with a one-character
    separator, and the part of [urllib.parse.urlsplit] (Python 3.12 and later)
    that the endpoint check reads, with the IPv6 syntax of [ipaddress] it
    depends on.  Text is ASCII; [None] is the [ValueError] of a malformed
    bracketed host. *)

From S2P Require Import Prelude Enums PyString.
From Stdlib Require Import Ascii String.

#[local] Open Scope stdpp_scope.
#[local] Open Scope Z_scope.

(** ** Splitting *)

(** [s.partition(c)]: what precedes the first [c], whether there is one, and
    what follows it. *)
Fixpoint partition (c : ascii) (s : string) : string * bool * string :=
  match s with
  | EmptyString => (EmptyString, false, EmptyString)
  | String a s' =>
      if Ascii.eqb a c then (EmptyString, true, s')
      else let '(before, found, after) := partition c s' in (String a before, found, after)
  end.

(** [s.rpartition(c)]: the same around the last [c]; without one, the whole
    string is the last part. *)
Fixpoint rpartition (c : ascii) (s : string) : string * bool * string :=
  match s with
  | EmptyString => (EmptyString, false, EmptyString)
  | String a s' =>
      match rpartition c s' with
      | (before, true, after) => (String a before, true, after)
      | (_, false, _) => if Ascii.eqb a c then (EmptyString, true, s') else (EmptyString, false, s)
      end
  end.

(** [s.split(c)] *)
Fixpoint split_on (c : ascii) (s : string) : list string :=
  match s with
  | EmptyString => [EmptyString]
  | String a s' =>
      if Ascii.eqb a c then EmptyString :: split_on c s'
      else match split_on c s' with
           | [] => [String a EmptyString]
           | w :: ws => String a w :: ws
           end
  end.

Fixpoint str_forallb (p : ascii -> bool) (s : string) : bool :=
  match s with EmptyString => true | String a s' => p a && str_forallb p s' end.

(** [c in s] *)
Fixpoint has_char (c : ascii) (s : string) : bool :=
  match s with EmptyString => false | String a s' => Ascii.eqb a c || has_char c s' end.

Fixpoint str_filter (p : ascii -> bool) (s : string) : string :=
  match s with
  | EmptyString => EmptyString
  | String a s' => if p a then String a (str_filter p s') else str_filter p s'
  end.

Fixpoint drop_while (p : ascii -> bool) (s : string) : string :=
  match s with
  | EmptyString => EmptyString
  | String a s' => if p a then drop_while p s' else s
  end.

(** The longest prefix without a character of [p], and the rest. *)
Fixpoint break_at (p : ascii -> bool) (s : string) : string * string :=
  match s with
  | EmptyString => (EmptyString, EmptyString)
  | String a s' => if p a then (EmptyString, s)
                   else let '(u, v) := break_at p s' in (String a u, v)
  end.

Definition code (a : ascii) : nat := nat_of_ascii a.
Definition is_digit (a : ascii) : bool := (48 <=? code a)%nat && (code a <=? 57)%nat.
Definition is_lower (a : ascii) : bool := (97 <=? code a)%nat && (code a <=? 122)%nat.
Definition is_upper (a : ascii) : bool := (65 <=? code a)%nat && (code a <=? 90)%nat.
Definition is_alpha (a : ascii) : bool := is_lower a || is_upper a.
Definition is_hex (a : ascii) : bool :=
  is_digit a || (97 <=? code a)%nat && (code a <=? 102)%nat || (65 <=? code a)%nat && (code a <=? 70)%nat.

(** [str.lower] and, on ASCII, [str.casefold] *)
Definition lower_char (a : ascii) : ascii := if is_upper a then ascii_of_nat (code a + 32) else a.
Fixpoint lower (s : string) : string :=
  match s with EmptyString => EmptyString | String a s' => String (lower_char a) (lower s') end.

(** [len(s)] and [s == ""] *)
Definition slen (s : string) : Z := Z.of_nat (String.length s).
Definition is_empty (s : string) : bool := match s with EmptyString => true | _ => false end.

(** ** IPv6 addresses ([ipaddress.IPv6Address]) *)
Definition decimal_octet (s : string) : bool :=
  negb (is_empty s) && str_forallb is_digit s && (slen s <=? 3)
  && ((s == "0") || negb (String.prefix "0" s))
  && match s with
     | String a (String b (String c EmptyString)) =>
         (100 * Z.of_nat (code a - 48) + 10 * Z.of_nat (code b - 48) + Z.of_nat (code c - 48) <=? 255)
     | _ => true
     end.

Definition is_ipv4 (s : string) : bool :=
  let parts := split_on "." s in (List.length parts =? 4)%nat && forallb decimal_octet parts.

Definition hextet (s : string) : bool := negb (is_empty s) && str_forallb is_hex s && (slen s <=? 4).

(** The positions of the empty groups between the first and the last one. *)
Definition inner_empty (parts : list string) : list nat :=
  List.filter (fun i => is_empty (nth i parts EmptyString)) (seq 1 (List.length parts - 2)).

Definition ipv6_groups (parts : list string) : bool :=
  let n := List.length parts in
  let first := nth 0 parts EmptyString in
  let last_ := nth (n - 1) parts EmptyString in
  (3 <=? n)%nat && (n <=? 9)%nat &&
  match inner_empty parts with
  | [] => (n =? 8)%nat && forallb hextet parts
  | [skip] =>
      let hi := if is_empty first then (skip - 1)%nat else skip in
      let lo := if is_empty last_ then (n - skip - 2)%nat else (n - skip - 1)%nat in
      (negb (is_empty first) || (hi =? 0)%nat) && (negb (is_empty last_) || (lo =? 0)%nat)
      && (hi + lo <=? 7)%nat
      && forallb hextet (take hi parts) && forallb hextet (drop (n - lo) parts)
  | _ => false
  end.

Definition is_ipv6 (address : string) : bool :=
  let '(addr, scoped, scope_id) := partition "%" address in
  (negb scoped || negb (is_empty scope_id || has_char "%" scope_id))
  && negb (has_char "/" address)
  && let parts := split_on ":" addr in
     let tail_ := nth (List.length parts - 1) parts EmptyString in
     if has_char "." tail_
     then (3 <=? List.length parts)%nat && is_ipv4 tail_
          && ipv6_groups (take (List.length parts - 1) parts ++ ["0"; "0"])
     else ipv6_groups parts.

(** [v[a-fA-F0-9]+\..+] *)
Definition is_ipvfuture (s : string) : bool :=
  match s with
  | String a s' =>
      Ascii.eqb a "v" &&
      let '(version, dot, rest) := partition "." s' in
      dot && negb (is_empty version) && str_forallb is_hex version && negb (is_empty rest)
  | EmptyString => false
  end.

(** [_check_bracketed_host] *)
Definition bracketed_host_ok (hostname : string) : bool :=
  if String.prefix "v" hostname then is_ipvfuture hostname else is_ipv6 hostname.

(** [_check_bracketed_netloc] *)
Definition bracketed_netloc_ok (netloc : string) : bool :=
  let '(_, _, hostname_and_port) := rpartition "@" netloc in
  let '(before_bracket, have_open_br, bracketed) := partition "[" hostname_and_port in
  if have_open_br
  then let '(hostname, _, port) := partition "]" bracketed in
       is_empty before_bracket && (is_empty port || String.prefix ":" port)
       && bracketed_host_ok hostname
  else let '(hostname, _, _) := partition ":" hostname_and_port in bracketed_host_ok hostname.

(** ** [urlsplit] *)
Module SplitResult.
Record t := mk { scheme : string; netloc : string; path : string; query : string; fragment : string }.

(** [result.hostname], empty when it is [None] *)
Definition hostname (r : t) : string :=
  let '(_, _, hostinfo) := rpartition "@" (netloc r) in
  let '(_, have_open_br, bracketed) := partition "[" hostinfo in
  if have_open_br then lower (partition "]" bracketed).1.1 else lower (partition ":" hostinfo).1.1.

(** [result.username is not None] *)
Definition has_username (r : t) : bool := (rpartition "@" (netloc r)).1.2.

(** [result.password is not None] *)
Definition has_password (r : t) : bool :=
  let '(userinfo, have_info, _) := rpartition "@" (netloc r) in
  have_info && (partition ":" userinfo).1.2.
End SplitResult.

Definition c0_or_space (a : ascii) : bool := (code a <=? 32)%nat.
Definition scheme_char (a : ascii) : bool :=
  is_alpha a || is_digit a || Ascii.eqb a "+" || Ascii.eqb a "-" || Ascii.eqb a ".".

Definition urlsplit (url : string) : option SplitResult.t :=
  let url := drop_while c0_or_space url in
  let url := str_filter (fun a => negb ((code a =? 9)%nat || (code a =? 10)%nat || (code a =? 13)%nat)) url in
  let '(before, colon, after) := partition ":" url in
  let '(scheme, url) :=
    if colon && match before with String a _ => is_alpha a | EmptyString => false end
       && str_forallb scheme_char before
    then (lower before, after) else (EmptyString, url) in
  let '(netloc, url) :=
    match url with
    | String "/" (String "/" rest) =>
        break_at (fun a => Ascii.eqb a "/" || Ascii.eqb a "?" || Ascii.eqb a "#") rest
    | _ => (EmptyString, url)
    end in
  let open := has_char "[" netloc in
  let close := has_char "]" netloc in
  if xorb open close || (open && close && negb (bracketed_netloc_ok netloc)) then None
  else
    let '(url, _, fragment) := partition "#" url in
    let '(url, _, query) := partition "?" url in
    Some (SplitResult.mk scheme netloc url query fragment).

(** ** Facts *)
Lemma partition_absent c s : has_char c s = false -> partition c s = (s, false, EmptyString).
Proof.
  induction s as [|a s IH]; [done|]; cbn. intros [Ha Hs]%orb_false_iff. by rewrite Ha, IH.
Qed.

Lemma rpartition_absent c s : has_char c s = false -> rpartition c s = (EmptyString, false, s).
Proof.
  induction s as [|a s IH]; [done|]; cbn. intros [Ha Hs]%orb_false_iff. by rewrite IH, Ha.
Qed.

Lemma partition_app c u v :
  has_char c u = false -> partition c (String.append u (String c v)) = (u, true, v).
Proof.
  intros H. induction u as [|a u IH].
  - change (partition c (String c v) = (EmptyString, true, v)). cbn [partition]. by rewrite Ascii.eqb_refl.
  - change (partition c (String a (String.append u (String c v))) = (String a u, true, v)).
    cbn in H |- *. apply orb_false_iff in H as [Ha Hs]. by rewrite Ha, IH.
Qed.

(** What [rpartition] finds is the last occurrence. *)
Lemma rpartition_found c s u v :
  rpartition c s = (u, true, v) -> s = String.append u (String c v) /\ has_char c v = false.
Proof.
  revert u. induction s as [|a s IH]; intros u; [done|]; cbn.
  destruct (rpartition c s) as [[u' [|]] v'] eqn:E.
  - intros [= <- <-]. destruct (IH u' eq_refl) as [-> ?]. done.
  - destruct (Ascii.eqb_spec a c) as [->|]; [|done]. intros [= <- <-]. split; [done|].
    clear IH. revert u' v' E. induction s as [|b s IH]; intros u' v' E; [done|]. cbn in E |- *.
    destruct (rpartition c s) as [[u'' [|]] v''] eqn:E'; [done|].
    destruct (Ascii.eqb b c); [done|]. by apply (IH u'' v'').
Qed.

Lemma break_at_absent p s : str_forallb (fun a => negb (p a)) s = true -> break_at p s = (s, EmptyString).
Proof.
  induction s as [|a s IH]; [done|]; cbn. intros [Ha Hs]%andb_true_iff.
  apply negb_true_iff in Ha. by rewrite Ha, IH.
Qed.

Lemma str_filter_id p s : str_forallb p s = true -> str_filter p s = s.
Proof. induction s as [|a s IH]; [done|]; cbn. intros [-> Hs]%andb_true_iff. by rewrite IH. Qed.

Lemma str_forallb_mono (p q : ascii -> bool) s :
  (forall a, p a = true -> q a = true) -> str_forallb p s = true -> str_forallb q s = true.
Proof. intros Hpq. induction s as [|a s IH]; [done|]; cbn. rewrite !andb_true_iff. naive_solver. Qed.

Lemma has_char_forallb c s : str_forallb (fun a => negb (Ascii.eqb a c)) s = true -> has_char c s = false.
Proof.
  induction s as [|a s IH]; [done|]; cbn. intros [Ha Hs]%andb_true_iff.
  apply negb_true_iff in Ha. by rewrite Ha, IH.
Qed.

Lemma ipv6_examples :
  is_ipv6 "::1" = true /\ is_ipv6 "fe80::1%eth0" = true /\ is_ipv6 "::ffff:10.0.0.1" = true /\
  is_ipv6 "1:2:3:4:5:6:7:8" = true /\ is_ipv6 "1::2::3" = false /\ is_ipv6 ":1::2" = false /\
  is_ipv6 "1:2:3:4:5:6:7" = false /\ is_ipv6 "10.0.0.1" = false /\ is_ipv6 "::12345" = false.
Proof. split_and!; reflexivity. Qed.
