(* ===== verification/PyDict.v ===== *)
(** * Python dictionaries

    A dict keeps its items in the order in which its keys were first set; it is
    a list of items with distinct keys.  [dget] is [d.get(k)], [dset] is
    [d[k] = v], [dadd] is [d[k] = d.get(k, 0) + n], [dpush] is
    [d.setdefault(k, []).append(x)]. *)

From S2P Require Import Prelude Enums.

Definition dict (K V : Type) : Type := list (K * V).

Section dict.
Context {K : Type} `{EqDecision K}.

Fixpoint dget {V} (d : dict K V) (k : K) : option V :=
  match d with
  | [] => None
  | (k', v) :: d' => if k' == k then Some v else dget d' k
  end.

Fixpoint dset {V} (k : K) (v : V) (d : dict K V) : dict K V :=
  match d with
  | [] => [(k, v)]
  | (k', v') :: d' => if k' == k then (k', v) :: d' else (k', v') :: dset k v d'
  end.

Definition dcount (d : dict K Z) (k : K) : Z := default 0 (dget d k).
Definition dadd (k : K) (n : Z) (d : dict K Z) : dict K Z := dset k (dcount d k + n) d.
Definition dpush {V} (k : K) (x : V) (d : dict K (list V)) : dict K (list V) :=
  dset k (default [] (dget d k) ++ [x]) d.

(** [sum(v for k, v in d.items() if p(k))] *)
Definition dsum (p : K -> bool) (d : dict K Z) : Z :=
  foldr (fun e acc => (if p e.1 then e.2 else 0) + acc) 0 d.

Lemma dget_dset {V} k k' (v : V) d :
  dget (dset k v d) k' = if k == k' then Some v else dget d k'.
Proof.
  induction d as [|[k1 v1] d IH]; cbn; [done|].
  destruct (k1 == k) eqn:E; cbn.
  - rewrite eqb_true in E. subst. by destruct (k == k').
  - rewrite IH. destruct (k1 == k') eqn:E1; [|done]. rewrite eqb_true in E1. subst.
    destruct (k == k') eqn:E2; [|done]. rewrite eqb_true in E2. subst. by rewrite eqb_same in E.
Qed.

Lemma dget_elem {V} k (v : V) d : dget d k = Some v -> (k, v) ∈ d.
Proof.
  induction d as [|[k1 v1] d IH]; cbn; [done|]. destruct (k1 == k) eqn:E.
  - rewrite eqb_true in E. subst. intros [= ->]. left.
  - intros H. right. by apply IH.
Qed.

Lemma dget_None {V} k (d : dict K V) : dget d k = None <-> k ∉ d.*1.
Proof.
  induction d as [|[k1 v1] d IH]; cbn; [split; [intros _; apply not_elem_of_nil|done]|].
  rewrite not_elem_of_cons. destruct (k1 == k) eqn:E.
  - rewrite eqb_true in E. subst. split; [done|by intros []].
  - rewrite eqb_false in E. rewrite IH. naive_solver.
Qed.

Lemma elem_dget {V} k (v : V) d : NoDup d.*1 -> (k, v) ∈ d -> dget d k = Some v.
Proof.
  induction d as [|[k1 v1] d IH]; cbn; [by intros _ ?%not_elem_of_nil|]. intros [Hk Hd]%NoDup_cons.
  intros [[= -> ->]|H]%elem_of_cons; [by rewrite eqb_same|].
  destruct (k1 == k) eqn:E; [|by apply IH]. rewrite eqb_true in E. subst. exfalso. apply Hk.
  by apply (list_elem_of_fmap_2 fst) in H.
Qed.

Lemma dset_keys {V} k (v : V) d :
  (dset k v d).*1 = if inb k (d.*1) then d.*1 else d.*1 ++ [k].
Proof.
  induction d as [|[k1 v1] d IH]; cbn; [done|]. unfold inb in *.
  destruct (k1 == k) eqn:E; cbn.
  - rewrite eqb_true in E. subst. rewrite bool_decide_eq_true_2; [done|left].
  - rewrite eqb_false in E. rewrite IH.
    rewrite (bool_decide_ext (k ∈ k1 :: d.*1) (k ∈ d.*1)); [by case_bool_decide|].
    rewrite elem_of_cons. naive_solver.
Qed.

Lemma dset_nodup {V} k (v : V) d : NoDup d.*1 -> NoDup (dset k v d).*1.
Proof.
  intros Hd. rewrite dset_keys. destruct (inb k _) eqn:E; [done|]. rewrite inb_false in E.
  rewrite NoDup_app. split_and!; [done| |apply NoDup_singleton].
  intros x Hx [= ->]%list_elem_of_singleton. done.
Qed.

Lemma elem_dset_keys {V} k k' (v : V) d : k' ∈ (dset k v d).*1 <-> k' = k \/ k' ∈ d.*1.
Proof.
  rewrite dset_keys. destruct (inb k _) eqn:E; [rewrite inb_true in E; naive_solver|].
  rewrite elem_of_snoc. naive_solver.
Qed.

Lemma dcount_dset k k' n d : dcount (dset k n d) k' = if k == k' then n else dcount d k'.
Proof. unfold dcount. rewrite dget_dset. by destruct (k == k'). Qed.

Lemma dcount_dadd k k' n d : dcount (dadd k n d) k' = dcount d k' + (if k == k' then n else 0).
Proof.
  unfold dadd. rewrite dcount_dset. destruct (k == k') eqn:E; [|lia]. rewrite eqb_true in E. by subst.
Qed.

Lemma dsum_dadd p k n d : dsum p (dadd k n d) = dsum p d + (if p k then n else 0).
Proof.
  unfold dadd, dcount, dsum. induction d as [|[k1 v1] d IH]; cbn; [destruct (p k); lia|].
  destruct (k1 == k) eqn:E; cbn.
  - rewrite eqb_true in E. subst. destruct (p k); lia.
  - rewrite IH. lia.
Qed.

(** A count per key of a list. *)
Definition tally_by {X} (key : X -> K) (l : list X) : dict K Z :=
  foldl (fun d x => dadd (key x) 1 d) [] l.

Lemma tally_by_count {X} (key : X -> K) l k :
  dcount (tally_by key l) k = lenZ (List.filter (fun x => key x == k) l).
Proof.
  unfold tally_by. assert (forall d, dcount (foldl (fun d x => dadd (key x) 1 d) d l) k
    = dcount d k + lenZ (List.filter (fun x => key x == k) l)) as H; [|by rewrite H].
  induction l as [|x l IH]; intros d; cbn [foldl List.filter]; [unfold lenZ; cbn [List.length]; lia|]. rewrite IH, dcount_dadd.
  destruct (key x == k); unfold lenZ; cbn [List.length]; lia.
Qed.

Lemma tally_by_keys {X} (key : X -> K) l k : k ∈ (tally_by key l).*1 <-> k ∈ key <$> l.
Proof.
  unfold tally_by. assert (forall d, k ∈ (foldl (fun d x => dadd (key x) 1 d) d l).*1
    <-> k ∈ d.*1 \/ k ∈ key <$> l) as H.
  - induction l as [|x l IH]; intros d; cbn; [rewrite elem_of_nil; naive_solver|].
    rewrite IH. unfold dadd. rewrite elem_dset_keys, elem_of_cons. naive_solver.
  - rewrite H. cbn. rewrite elem_of_nil. naive_solver.
Qed.

Lemma tally_by_nodup {X} (key : X -> K) l : NoDup (tally_by key l).*1.
Proof.
  unfold tally_by. assert (forall d, NoDup d.*1 -> NoDup (foldl (fun d x => dadd (key x) 1 d) d l).*1) as H.
  - induction l as [|x l IH]; intros d Hd; cbn; [done|]. apply IH. unfold dadd. by apply dset_nodup.
  - apply H. constructor.
Qed.
End dict.
