(* ===== verification/PyJson.v ===== *)
(** * JSON texts

    [json.dumps] on the values the code serialises: lists of objects whose
    members are strings, integers, booleans, [None] or lists of strings.  The
    compact form is the one with [ensure_ascii=False], the separators [","] and
    [":"] and sorted keys; the default form is what the JSON column type
    writes.  Text is ASCII, for which the length in bytes is the length.  Also
    the [LIKE '%...%'] test of a check constraint. *)

From S2P Require Import Prelude Enums PyString PyUrl.
From Stdlib Require Import Ascii String.
From stdpp Require Import pretty.

#[local] Open Scope stdpp_scope.
#[local] Open Scope Z_scope.

Module Js.
Inductive t := Null | Bool (b : bool) | Int (z : Z) | Str (s : string) | Strs (l : list string).

Definition opt_str (s : option string) : t := match s with Some s => Str s | None => Null end.
End Js.

Notation JsObject := (list (string * Js.t)).

Definition quote : ascii := ascii_of_nat 34.
Definition backslash : ascii := ascii_of_nat 92.

(** [\u00XX] *)
Definition unicode_escape (a : ascii) : string :=
  String backslash (String "u" (string_of_list_ascii (hex_digits 4 (N_of_ascii a)))).

(** The escape of one character; [ascii] escapes what is not printable ASCII too. *)
Definition escape (ensure_ascii : bool) (a : ascii) : string :=
  let short c := String backslash (String c EmptyString) in
  if Ascii.eqb a quote then short quote
  else if Ascii.eqb a backslash then short backslash
  else if (code a =? 8)%nat then short "b"%char
  else if (code a =? 9)%nat then short "t"%char
  else if (code a =? 10)%nat then short "n"%char
  else if (code a =? 12)%nat then short "f"%char
  else if (code a =? 13)%nat then short "r"%char
  else if (code a <? 32)%nat || (ensure_ascii && (126 <? code a)%nat) then unicode_escape a
  else String a EmptyString.

Section dumps.
Context (ensure_ascii : bool) (item_separator key_separator : string).

Fixpoint escaped (s : string) : string :=
  match s with
  | EmptyString => EmptyString
  | String a s' => escape ensure_ascii a +:+ escaped s'
  end.

Definition dump_str (s : string) : string :=
  String quote EmptyString +:+ escaped s +:+ String quote EmptyString.

Fixpoint joined (l : list string) : string :=
  match l with
  | [] => EmptyString
  | [x] => x
  | x :: l' => x +:+ item_separator +:+ joined l'
  end.

Definition dump_value (v : Js.t) : string :=
  match v with
  | Js.Null => "null"
  | Js.Bool true => "true"
  | Js.Bool false => "false"
  | Js.Int z => pretty z
  | Js.Str s => dump_str s
  | Js.Strs l => "[" +:+ joined (dump_str <$> l) +:+ "]"
  end.

Definition dump_object (o : JsObject) : string :=
  "{" +:+ joined ((fun e => dump_str e.1 +:+ key_separator +:+ dump_value e.2) <$> o) +:+ "}".

Definition dump_objects (l : list JsObject) : string := "[" +:+ joined (dump_object <$> l) +:+ "]".
End dumps.

(** [json.dumps(l, ensure_ascii=False, separators=(",", ":"), sort_keys=True)] *)
Definition dumps_compact (l : list JsObject) : string :=
  dump_objects false "," ":" (py_sort fst <$> l).

(** [json.dumps(l)] *)
Definition dumps (l : list JsObject) : string := dump_objects true ", " ": " l.

(** [text LIKE '%pattern%'], where [_] stands for any character. *)
Fixpoint like_prefix (pattern text : string) : bool :=
  match pattern, text with
  | EmptyString, _ => true
  | String _ _, EmptyString => false
  | String p pattern', String a text' =>
      (Ascii.eqb p "_" || Ascii.eqb p a) && like_prefix pattern' text'
  end.

Fixpoint like_contains (pattern text : string) : bool :=
  like_prefix pattern text
  || match text with EmptyString => false | String _ text' => like_contains pattern text' end.

(** The pattern [%"key"%]. *)
Definition mentions (key text : string) : bool :=
  like_contains (String quote EmptyString +:+ key +:+ String quote EmptyString) text.
