(* ===== verification/Policies.v ===== *)
(** * Placement policies ([scheduler/policies.py])

    Pure snapshot evaluation: which worker can take a task, which devices it
    would use, and which feasible worker the [binpack] and [spread] policies
    prefer.  Scores are binary64 floats, as in the code. *)

From S2P Require Import Prelude PyFloat Enums.

Inductive RejectionReason :=
  TASK_NOT_FOUND | TASK_NOT_QUEUED | TASK_CANCELLED | WORKER_NOT_FOUND | WORKER_NOT_ONLINE
| WORKER_AT_CAPACITY | INSUFFICIENT_CPU | INSUFFICIENT_MEMORY | INSUFFICIENT_GPU
| LABEL_MISMATCH | RUNTIME_MISMATCH | TAINT_NOT_TOLERATED | GPU_MODEL_MISMATCH
| INSUFFICIENT_GPU_MEMORY | WORKER_OVERCOMMITTED.

#[export] Instance RejectionReason_eq_dec : EqDecision RejectionReason.
Proof. solve_decision. Defined.

Module GPUDeviceSnapshot.
Record t := mk {
  id : string;
  uuid : string;
  model : string;
  memory_total_mb : Z;
  memory_free_mb : option Z;
  healthy : bool;
  allocated : bool;
}.
#[global] Instance eta : Eta t := fun r =>
  mk (id r) (uuid r) (model r) (memory_total_mb r) (memory_free_mb r) (healthy r) (allocated r).
End GPUDeviceSnapshot.

Module WorkerSnapshot.
Record t := mk {
  id : string;
  status : WorkerStatus;
  runtime_types : list string;
  running_tasks : Z;
  concurrency : Z;
  cpu_allocatable_millicores : Z;
  reserved_cpu_millicores : Z;
  memory_allocatable_mb : Z;
  reserved_memory_mb : Z;
  labels : gmap string string;
  taints : list (gmap string string);
  gpu_devices : list GPUDeviceSnapshot.t;
  overcommitted : bool;
}.
#[global] Instance eta : Eta t := fun r =>
  mk (id r) (status r) (runtime_types r) (running_tasks r) (concurrency r)
     (cpu_allocatable_millicores r) (reserved_cpu_millicores r) (memory_allocatable_mb r)
     (reserved_memory_mb r) (labels r) (taints r) (gpu_devices r) (overcommitted r).
End WorkerSnapshot.

Module TaskSnapshot.
Record t := mk {
  id : string;
  project_id : string;
  status : TaskStatus;
  runtime_type : string;
  cpu_millicores : Z;
  memory_mb : Z;
  gpu_count : Z;
  gpu_memory_mb : Z;
  gpu_model : option string;
  labels : gmap string string;
  tolerations : list (gmap string string);
  priority : Z;
  queued_at : option Z;
  queue_order : Z;
}.
#[global] Instance eta : Eta t := fun r =>
  mk (id r) (project_id r) (status r) (runtime_type r) (cpu_millicores r) (memory_mb r)
     (gpu_count r) (gpu_memory_mb r) (gpu_model r) (labels r) (tolerations r) (priority r)
     (queued_at r) (queue_order r).
End TaskSnapshot.

Module Placement.
Record t := mk {
  worker_id : string;
  gpu_device_ids : list string;
  score : list float;
}.
End Placement.

Import GPUDeviceSnapshot WorkerSnapshot TaskSnapshot.

(** [effective_priority]; instants are microseconds, and a [None] result is
    the [ValueError] for a non-positive interval. *)
Definition effective_priority (task : TaskSnapshot.t) (now aging_interval_seconds : Z) : option Z :=
  if aging_interval_seconds <? 1 then None
  else match TaskSnapshot.queued_at task with
       | None => Some (TaskSnapshot.priority task)
       | Some queued_at =>
           let waited := fmax f0 (total_seconds (now - queued_at)) in
           Some (Z.min 100 (TaskSnapshot.priority task + floordiv waited aging_interval_seconds))
       end.

Definition _available_gpu_memory_mb (device : GPUDeviceSnapshot.t) : Z :=
  match memory_free_mb device with
  | None => memory_total_mb device
  | Some free => free
  end.

(** [required.items()] all offered with the same value. *)
Definition labels_match (required offered : gmap string string) : bool :=
  forallb (fun '(key, value) => offered !! key == Some value) (map_to_list required).

Definition tolerates (tolerance taint : gmap string string) : bool :=
  (tolerance !! "key" == taint !! "key")
  && ((match tolerance !! "value" with
       | Some v => Some v
       | None => taint !! "value"
       end) == taint !! "value").

Fixpoint _taints_tolerated (taints tolerations : list (gmap string string)) : bool :=
  match taints with
  | [] => true
  | taint :: rest =>
      if (default "NoSchedule" (taint !! "effect")) !== "NoSchedule"
      then _taints_tolerated rest tolerations
      else if negb (existsb (fun tolerance => tolerates tolerance taint) tolerations)
           then false
           else _taints_tolerated rest tolerations
  end.

(** Python truthiness of an optional string. *)
Definition truthy (s : option string) : option string :=
  match s with
  | Some "" => None
  | s => s
  end.

Definition device_key (device : GPUDeviceSnapshot.t) : Z * (Z * string) :=
  (_available_gpu_memory_mb device, (memory_total_mb device, GPUDeviceSnapshot.uuid device)).

(** The GPU part of [evaluate_snapshot]: filter by model, then by memory, then
    take the best-fitting devices. *)
Definition select_devices (available : list GPUDeviceSnapshot.t) (task : TaskSnapshot.t)
  : RejectionReason + list string :=
  match (match truthy (gpu_model task) with
         | Some gpu_model =>
             let model_devices :=
               List.filter (fun device => GPUDeviceSnapshot.model device == gpu_model) available in
             if lenZ model_devices <? gpu_count task then inl GPU_MODEL_MISMATCH
             else inr model_devices
         | None => inr available
         end) with
  | inl reason => inl reason
  | inr available =>
      match (if gpu_memory_mb task =? 0 then inr available
             else
               let memory_devices :=
                 List.filter (fun device => gpu_memory_mb task <=? _available_gpu_memory_mb device)
                        available in
               if lenZ memory_devices <? gpu_count task then inl INSUFFICIENT_GPU_MEMORY
               else inr memory_devices) with
      | inl reason => inl reason
      | inr available =>
          if lenZ available <? gpu_count task then inl INSUFFICIENT_GPU
          else inr (GPUDeviceSnapshot.id <$>
                    take (Z.to_nat (gpu_count task)) (py_sort device_key available))
      end
  end.

Definition evaluate_snapshot (worker : WorkerSnapshot.t) (task : TaskSnapshot.t)
  : RejectionReason + list string :=
  if WorkerSnapshot.status worker !== ONLINE then inl WORKER_NOT_ONLINE
  else if overcommitted worker then inl WORKER_OVERCOMMITTED
  else if concurrency worker <=? running_tasks worker then inl WORKER_AT_CAPACITY
  else if negb (inb (runtime_type task) (runtime_types worker)) then inl RUNTIME_MISMATCH
  else if cpu_allocatable_millicores worker
          <? reserved_cpu_millicores worker + cpu_millicores task then inl INSUFFICIENT_CPU
  else if memory_allocatable_mb worker
          <? reserved_memory_mb worker + memory_mb task then inl INSUFFICIENT_MEMORY
  else if negb (labels_match (TaskSnapshot.labels task) (WorkerSnapshot.labels worker))
       then inl LABEL_MISMATCH
  else if negb (_taints_tolerated (taints worker) (tolerations task)) then inl TAINT_NOT_TOLERATED
  else select_devices
         (List.filter (fun device => healthy device && negb (allocated device)) (gpu_devices worker))
         task.

Inductive PlacementPolicy := Binpack | Spread.

(** [policy] strings other than the two names are a [ValueError]. *)
Definition parse_policy (policy : string) : option PlacementPolicy :=
  if policy == "binpack" then Some Binpack
  else if policy == "spread" then Some Spread else None.

Definition placement_score (policy : PlacementPolicy) (worker : WorkerSnapshot.t)
    (task : TaskSnapshot.t) : list float :=
  let cpu_after := reserved_cpu_millicores worker + cpu_millicores task in
  let memory_after := reserved_memory_mb worker + memory_mb task in
  let cpu_fraction := truediv cpu_after (Z.max 1 (cpu_allocatable_millicores worker)) in
  let memory_fraction := truediv memory_after (Z.max 1 (memory_allocatable_mb worker)) in
  let gpu_fraction :=
    match gpu_devices worker with
    | [] => f0
    | devices =>
        truediv (lenZ (List.filter allocated devices) + gpu_count task) (Z.max 1 (lenZ devices))
    end in
  let dominant := fmax (fmax cpu_fraction memory_fraction) gpu_fraction in
  let scarce_gpu_penalty :=
    if (gpu_count task =? 0) && negb (bool_decide (gpu_devices worker = [])) then f1 else f0 in
  match policy with
  | Spread => [dominant; scarce_gpu_penalty; float_of_Z (running_tasks worker)]
  | Binpack => [scarce_gpu_penalty; fopp dominant; fopp cpu_fraction; fopp memory_fraction]
  end.

Definition placement_key (item : Placement.t) : list float * (string * list string) :=
  (Placement.score item, (Placement.worker_id item, Placement.gpu_device_ids item)).

(** The loop of [choose_placement]: feasible placements in worker order and
    the reasons of the rejected workers. *)
Fixpoint collect_placements (policy : PlacementPolicy) (task : TaskSnapshot.t)
    (workers : list WorkerSnapshot.t)
  : list Placement.t * gmap string RejectionReason :=
  match workers with
  | [] => ([], ∅)
  | worker :: rest =>
      let '(placements, rejected) := collect_placements policy task rest in
      match evaluate_snapshot worker task with
      | inl reason =>
          (* a later entry for the same id overwrites this one *)
          (placements, match rejected !! WorkerSnapshot.id worker with
                       | Some _ => rejected
                       | None => <[WorkerSnapshot.id worker := reason]> rejected
                       end)
      | inr device_ids =>
          (Placement.mk (WorkerSnapshot.id worker) device_ids
                        (placement_score policy worker task) :: placements, rejected)
      end
  end.

(** [choose_placement] for a policy name already known to be valid. *)
Definition choose_placement_policy (policy : PlacementPolicy) (task : TaskSnapshot.t)
    (workers : list WorkerSnapshot.t) : option Placement.t * gmap string RejectionReason :=
  let '(placements, rejected) := collect_placements policy task workers in
  (head (py_sort placement_key placements), rejected).

Definition choose_placement (task : TaskSnapshot.t) (workers : list WorkerSnapshot.t)
    (policy : string) : option (option Placement.t * gmap string RejectionReason) :=
  match parse_policy policy with
  | None => None
  | Some policy => Some (choose_placement_policy policy task workers)
  end.

Definition dominant_share (cpu_millicores memory_mb gpus cluster_cpu_millicores cluster_memory_mb
    cluster_gpus : Z) : float :=
  let cpu := truediv cpu_millicores (Z.max 1 cluster_cpu_millicores) in
  let memory := truediv memory_mb (Z.max 1 cluster_memory_mb) in
  let gpu := if cluster_gpus =? 0 then (if gpus =? 0 then f0 else f1)
             else truediv gpus (Z.max 1 cluster_gpus) in
  fmax (fmax cpu memory) gpu.

(** ** Specification: what a feasible worker is *)

(** A device the task may use. *)
Definition qualifies (task : TaskSnapshot.t) (device : GPUDeviceSnapshot.t) : bool :=
  healthy device && negb (allocated device)
  && match truthy (gpu_model task) with
     | Some m => GPUDeviceSnapshot.model device == m
     | None => true
     end
  && ((gpu_memory_mb task =? 0) || (gpu_memory_mb task <=? _available_gpu_memory_mb device)).

Definition qualifying (task : TaskSnapshot.t) (worker : WorkerSnapshot.t)
  : list GPUDeviceSnapshot.t := List.filter (qualifies task) (gpu_devices worker).

Definition taint_ok (tolerations : list (gmap string string)) (taint : gmap string string) : Prop :=
  default "NoSchedule" (taint !! "effect") <> "NoSchedule" \/
  exists tolerance, tolerance ∈ tolerations /\
    tolerance !! "key" = taint !! "key" /\
    (tolerance !! "value" = None \/ tolerance !! "value" = taint !! "value").

Record feasible (worker : WorkerSnapshot.t) (task : TaskSnapshot.t) : Prop := {
  feasible_online : WorkerSnapshot.status worker = ONLINE;
  feasible_not_overcommitted : overcommitted worker = false;
  feasible_slot : running_tasks worker < concurrency worker;
  feasible_runtime : runtime_type task ∈ runtime_types worker;
  feasible_cpu :
    reserved_cpu_millicores worker + cpu_millicores task <= cpu_allocatable_millicores worker;
  feasible_memory :
    reserved_memory_mb worker + memory_mb task <= memory_allocatable_mb worker;
  feasible_labels : forall key value,
    TaskSnapshot.labels task !! key = Some value -> WorkerSnapshot.labels worker !! key = Some value;
  feasible_taints : Forall (taint_ok (tolerations task)) (taints worker);
  feasible_gpus : gpu_count task <= lenZ (qualifying task worker);
}.

(** The devices [evaluate_snapshot] binds: the [gpu_count] best fits. *)
Definition best_fit (worker : WorkerSnapshot.t) (task : TaskSnapshot.t) : list GPUDeviceSnapshot.t :=
  take (Z.to_nat (gpu_count task)) (py_sort device_key (qualifying task worker)).

(** ** Lemmas *)
Lemma labels_match_spec required offered :
  labels_match required offered = true <->
  forall key value, required !! key = Some value -> offered !! key = Some value.
Proof.
  unfold labels_match. rewrite forallb_forall. split.
  - intros Hall key value Hk. apply elem_of_map_to_list, list_elem_of_In, Hall in Hk.
    by rewrite eqb_true in Hk.
  - intros Hall [key value] Hin. rewrite eqb_true.
    by apply Hall, elem_of_map_to_list, list_elem_of_In.
Qed.

Lemma tolerates_spec tolerance taint :
  tolerates tolerance taint = true <->
  tolerance !! "key" = taint !! "key" /\
  (tolerance !! "value" = None \/ tolerance !! "value" = taint !! "value").
Proof.
  unfold tolerates. rewrite andb_true_iff, !eqb_true.
  destruct (tolerance !! "value"); naive_solver.
Qed.

Lemma taints_tolerated_spec taints tolerations :
  _taints_tolerated taints tolerations = true <-> Forall (taint_ok tolerations) taints.
Proof.
  induction taints as [|taint taints IH]; cbn; [by split; constructor|].
  rewrite Forall_cons, <-IH. unfold taint_ok.
  destruct (_ == _) eqn:E; cbn.
  - rewrite eqb_true in E. destruct (existsb _ _) eqn:Ex; cbn.
    + apply existsb_exists in Ex as (tolerance & Hin & Ht).
      apply tolerates_spec in Ht. apply list_elem_of_In in Hin. naive_solver.
    + split; [done|]. intros [[?|(tolerance & Hin & Ht)] _]; [done|].
      assert (existsb (fun tolerance => tolerates tolerance taint) tolerations = true);
        [|congruence].
      apply existsb_exists. exists tolerance. split; [by apply list_elem_of_In|].
      by apply tolerates_spec.
  - rewrite eqb_false in E. naive_solver.
Qed.

(** The devices left by the model filter, then by the memory filter. *)
Definition stage1 (task : TaskSnapshot.t) (free : list GPUDeviceSnapshot.t) :=
  match truthy (gpu_model task) with
  | Some m => List.filter (fun d => GPUDeviceSnapshot.model d == m) free
  | None => free
  end.
Definition stage2 (task : TaskSnapshot.t) (free : list GPUDeviceSnapshot.t) :=
  if gpu_memory_mb task =? 0 then stage1 task free
  else List.filter (fun d => gpu_memory_mb task <=? _available_gpu_memory_mb d) (stage1 task free).

Lemma stage2_qualifying task worker :
  stage2 task (List.filter (fun d => healthy d && negb (allocated d)) (gpu_devices worker))
  = qualifying task worker.
Proof.
  unfold stage2, stage1, qualifying, qualifies.
  destruct (truthy (gpu_model task)), (gpu_memory_mb task =? 0);
    rewrite ?filter_filter_and; apply filter_ext; intros d;
    destruct (healthy d), (allocated d); cbn; by rewrite ?andb_true_r.
Qed.

Lemma stage2_le task free : lenZ (stage2 task free) <= lenZ (stage1 task free).
Proof. unfold stage2. destruct (_ =? 0); [lia|apply lenZ_filter_le]. Qed.

(** The two filtering stages amount to one filter and one count test. *)
Lemma select_devices_ok free task ids :
  select_devices free task = inr ids <->
  gpu_count task <= lenZ (stage2 task free) /\
  ids = GPUDeviceSnapshot.id <$>
        take (Z.to_nat (gpu_count task)) (py_sort device_key (stage2 task free)).
Proof.
  pose proof (stage2_le task free) as Hle.
  unfold select_devices. unfold stage2, stage1 in *.
  destruct (truthy (gpu_model task)), (gpu_memory_mb task =? 0);
    repeat case_match; simplify_eq; bools; split; intros;
    destruct_and?; simplify_eq; try split; done || lia.
Qed.

(** Completeness and soundness of [evaluate_snapshot] at once. *)
Lemma evaluate_snapshot_spec worker task ids :
  evaluate_snapshot worker task = inr ids <->
  feasible worker task /\ ids = GPUDeviceSnapshot.id <$> best_fit worker task.
Proof.
  unfold evaluate_snapshot, best_fit. rewrite <-stage2_qualifying. split.
  - repeat (case_match; [done|]); rewrite select_devices_ok, stage2_qualifying.
    intros [? ->]; split; [|done]. bools.
    constructor; try done; [by apply labels_match_spec|by apply taints_tolerated_spec].
  - intros [[? ? ? ? ? ? Hl Ht ?] ->].
    apply labels_match_spec in Hl. apply taints_tolerated_spec in Ht.
    repeat (case_match; bools; try (congruence || lia)).
    apply select_devices_ok. by rewrite stage2_qualifying.
Qed.

Lemma evaluate_snapshot_feasible worker task :
  (exists ids, evaluate_snapshot worker task = inr ids) <-> feasible worker task.
Proof. setoid_rewrite evaluate_snapshot_spec. naive_solver. Qed.

Lemma collect_placements_spec policy task workers p :
  p ∈ (collect_placements policy task workers).1 <->
  exists worker, worker ∈ workers /\ feasible worker task /\
    p = Placement.mk (WorkerSnapshot.id worker) (GPUDeviceSnapshot.id <$> best_fit worker task)
          (placement_score policy worker task).
Proof.
  induction workers as [|w workers IH]; cbn; [set_solver|].
  destruct (collect_placements policy task workers) as [placements rejected]; cbn in *.
  destruct (evaluate_snapshot w task) as [reason|ids] eqn:E; cbn.
  - assert (~ feasible w task).
    { intros (ids & ?)%evaluate_snapshot_feasible. congruence. }
    rewrite IH. set_solver.
  - apply evaluate_snapshot_spec in E as [Hf ->]. rewrite elem_of_cons, IH. set_solver.
Qed.

Lemma collect_placements_rejected policy task workers worker :
  worker ∈ workers -> ~ feasible worker task ->
  is_Some ((collect_placements policy task workers).2 !! WorkerSnapshot.id worker).
Proof.
  intros Hin Hf. induction workers as [|w workers IH]; [set_solver|]; cbn.
  destruct (collect_placements policy task workers) as [placements rejected]; cbn in *.
  destruct (evaluate_snapshot w task) as [reason|ids] eqn:E; cbn.
  - apply elem_of_cons in Hin as [->|Hin].
    + destruct (rejected !! WorkerSnapshot.id w) eqn:E2; [by rewrite E2|].
      rewrite lookup_insert_eq. done.
    + specialize (IH Hin). case_match; [done|].
      destruct (decide (WorkerSnapshot.id w = WorkerSnapshot.id worker)) as [->|];
        [by rewrite lookup_insert_eq|by rewrite lookup_insert_ne].
  - apply elem_of_cons in Hin as [->|Hin]; [|auto].
    exfalso. apply Hf, evaluate_snapshot_feasible. eauto.
Qed.

(** Scores are never NaN, so Python's [<] orders them as [cmp] does. *)
Lemma placement_score_not_nan policy worker task :
  Forall (fun x => is_nan x = false) (placement_score policy worker task).
Proof.
  unfold placement_score.
  assert (is_nan (truediv (reserved_cpu_millicores worker + cpu_millicores task)
                    (Z.max 1 (cpu_allocatable_millicores worker))) = false)
    by (apply truediv_not_nan; lia).
  assert (is_nan (truediv (reserved_memory_mb worker + memory_mb task)
                    (Z.max 1 (memory_allocatable_mb worker))) = false)
    by (apply truediv_not_nan; lia).
  set (g := match gpu_devices worker with [] => f0 | _ => _ end).
  assert (is_nan g = false) by (unfold g; destruct (gpu_devices worker); [done|];
    apply truediv_not_nan; lia).
  destruct policy; repeat constructor; rewrite ?is_nan_fopp; auto using is_nan_fmax, is_nan_float_of_Z.
  all: by case_match.
Qed.

(** The chosen placement is a least feasible one. *)
Lemma choose_placement_min policy task workers :
  match (choose_placement_policy policy task workers).1 with
  | None => forall worker, worker ∈ workers -> ~ feasible worker task
  | Some p =>
      (exists worker, worker ∈ workers /\ feasible worker task /\
        p = Placement.mk (WorkerSnapshot.id worker)
              (GPUDeviceSnapshot.id <$> best_fit worker task)
              (placement_score policy worker task)) /\
      forall worker', worker' ∈ workers -> feasible worker' task ->
        cmp_le (placement_key p)
          (placement_score policy worker' task,
            (WorkerSnapshot.id worker', GPUDeviceSnapshot.id <$> best_fit worker' task))
  end.
Proof.
  unfold choose_placement_policy.
  pose proof (collect_placements_spec policy task workers) as Hp.
  destruct (collect_placements policy task workers) as [placements rejected]; cbn in *.
  destruct (py_sort placement_key placements) as [|p rest] eqn:E; cbn.
  - apply py_sort_nil in E. intros w Hw Hf.
    assert (Placement.mk (WorkerSnapshot.id w) (GPUDeviceSnapshot.id <$> best_fit w task)
              (placement_score policy w task) ∈ placements) as Hin by (apply Hp; eauto).
    rewrite E in Hin. set_solver.
  - apply (py_sort_head_min placement_key) in E as [Hin Hmin]. split; [by apply Hp|].
    intros w' Hw' Hf'.
    apply (Hmin (Placement.mk (WorkerSnapshot.id w')
                   (GPUDeviceSnapshot.id <$> best_fit w' task)
                   (placement_score policy w' task))), Hp. eauto.
Qed.

(** ** Properties *)

(** C38: [evaluate_snapshot] is exact.  It accepts a worker exactly when the
    worker is feasible for the task; the devices it binds are then
    [gpu_count] distinct healthy free devices of the requested model and
    memory, and no qualifying device it leaves out is a better fit. *)
Theorem evaluate_snapshot_exact worker task (Hn : 0 <= gpu_count task) :
  match evaluate_snapshot worker task with
  | inl _ => ~ feasible worker task
  | inr ids =>
      feasible worker task /\ lenZ ids = gpu_count task /\
      exists chosen others,
        qualifying task worker ≡ₚ chosen ++ others /\
        ids = GPUDeviceSnapshot.id <$> chosen /\
        forall d d', d ∈ chosen -> d' ∈ others -> cmp_le (device_key d) (device_key d')
  end.
Proof.
  destruct (evaluate_snapshot worker task) as [reason|ids] eqn:E.
  - intros (ids & ?)%evaluate_snapshot_feasible. congruence.
  - apply evaluate_snapshot_spec in E as [Hf ->]. split; [done|].
    pose proof (feasible_gpus _ _ Hf) as Hc.
    set (n := Z.to_nat (gpu_count task)).
    set (sorted := py_sort device_key (qualifying task worker)).
    assert (length sorted = length (qualifying task worker)) as Hlen
      by (unfold sorted; by rewrite py_sort_perm).
    split; [unfold best_fit, lenZ in *; rewrite length_fmap, length_take;
            fold sorted; lia|].
    exists (take n sorted), (drop n sorted). split_and!; [|done|].
    + by rewrite take_drop; unfold sorted; rewrite py_sort_perm.
    + pose proof (py_sort_sorted device_key (qualifying task worker)) as Hs.
      fold sorted in Hs. rewrite <-(take_drop n sorted) in Hs.
      intros d d' Hd Hd'. by apply (StronglySorted_app_1_elem_of _ _ _ d d' Hs).
Qed.

(** [choose_placement] returns a placement exactly when some worker is
    feasible; the placement is that of a feasible worker, with its best-fit
    devices, and no feasible worker has a smaller [(score, worker id, devices)]
    key.  Every infeasible worker gets a rejection reason. *)
Theorem choose_placement_optimal policy task workers :
  let '(placement, rejected) := choose_placement_policy policy task workers in
  match placement with
  | None => forall worker, worker ∈ workers -> ~ feasible worker task
  | Some p =>
      (exists worker, worker ∈ workers /\ feasible worker task /\
        p = Placement.mk (WorkerSnapshot.id worker)
              (GPUDeviceSnapshot.id <$> best_fit worker task)
              (placement_score policy worker task)) /\
      forall worker', worker' ∈ workers -> feasible worker' task ->
        cmp_le (placement_key p)
          (placement_score policy worker' task,
            (WorkerSnapshot.id worker', GPUDeviceSnapshot.id <$> best_fit worker' task))
  end /\
  forall worker, worker ∈ workers -> ~ feasible worker task ->
    is_Some (rejected !! WorkerSnapshot.id worker).
Proof.
  pose proof (choose_placement_min policy task workers) as Hmin.
  pose proof (collect_placements_rejected policy task workers) as Hr.
  unfold choose_placement_policy in *.
  destruct (collect_placements policy task workers) as [placements rejected]. done.
Qed.

(** Bin-packing keeps GPU workers free: a task that asks for no GPU is
    placed on a worker with GPUs only when no feasible worker is without. *)
Theorem binpack_protects_gpus task workers p rejected worker' (Hg : gpu_count task = 0)
    (Hc : choose_placement task workers "binpack" = Some (Some p, rejected))
    (Hw' : worker' ∈ workers) (Hf' : feasible worker' task) (Hno : gpu_devices worker' = []) :
  exists worker, worker ∈ workers /\ feasible worker task /\
    WorkerSnapshot.id worker = Placement.worker_id p /\ gpu_devices worker = [].
Proof.
  cbn in Hc. injection Hc as Hc.
  pose proof (choose_placement_min Binpack task workers) as Hopt. rewrite Hc in Hopt.
  destruct Hopt as [(worker & Hin & Hf & ->) Hmin].
  exists worker. split_and!; try done.
  specialize (Hmin worker' Hw' Hf').
  destruct (gpu_devices worker) as [|d ds] eqn:E; [done|exfalso].
  unfold cmp_le, placement_key, cmp, Ord_prod in Hmin. cbn in Hmin.
  rewrite Hg, E, Hno in Hmin. cbn in Hmin.
  replace (cmp (SpecFloat.binary_round 53 1024 false 1 0) f0) with Gt in Hmin by reflexivity.
  done.
Qed.

Lemma floordiv_nonneg x n : 0 < n -> cmp_le f0 x -> 0 <= floordiv x n.
Proof.
  intros Hn Hx. unfold floordiv.
  destruct x as [| | |[] m e]; cbn in *; try done.
  apply Z.div_pos; [|]; nia || (apply Z.mul_pos_pos; [|lia]; apply Z.pow_pos_nonneg; lia).
Qed.

(** Aging never lowers a task's priority, and the effective priority of a
    task admitted with a priority of at most 100 stays at most 100. *)
Theorem effective_priority_bounds task now interval
    (Hp : TaskSnapshot.priority task <= 100) (Hi : 1 <= interval) :
  exists eff, effective_priority task now interval = Some eff /\
    TaskSnapshot.priority task <= eff <= 100.
Proof.
  unfold effective_priority. replace (interval <? 1) with false by lia.
  destruct (TaskSnapshot.queued_at task) as [q|]; eexists; (split; [done|]); [|lia].
  assert (0 <= floordiv (fmax f0 (total_seconds (now - q))) interval); [|lia].
  apply floordiv_nonneg; [lia|]. apply fmax_ge_l; [done|].
  by apply truediv_not_nan.
Qed.

(** ** Witnesses *)
Module PolicySamples.
Definition gpu (i : string) (free : Z) : GPUDeviceSnapshot.t :=
  GPUDeviceSnapshot.mk i i "A100" 40960 (Some free) true false.
Definition worker (i : string) (gpus : list GPUDeviceSnapshot.t) : WorkerSnapshot.t :=
  WorkerSnapshot.mk i ONLINE ["docker"] 0 4 8000 0 16384 0 ∅ [] gpus false.
Definition task (gpus : Z) : TaskSnapshot.t :=
  TaskSnapshot.mk "t" "p" QUEUED "docker" 1000 1024 gpus 0 None ∅ [] 50 (Some 0) 0.
Definition cpu_worker : WorkerSnapshot.t := worker "w2" [].
Definition gpu_worker : WorkerSnapshot.t := worker "w1" [gpu "g1" 40000; gpu "g2" 20000].
End PolicySamples.

(** The smaller free device is the better fit. *)
Lemma evaluate_snapshot_exact_witness :
  evaluate_snapshot PolicySamples.gpu_worker (PolicySamples.task 1) = inr ["g2"] /\
  feasible PolicySamples.gpu_worker (PolicySamples.task 1).
Proof.
  split; [vm_compute; reflexivity|].
  pose proof (evaluate_snapshot_exact PolicySamples.gpu_worker (PolicySamples.task 1)
    ltac:(cbn; lia)) as H.
  destruct (evaluate_snapshot PolicySamples.gpu_worker (PolicySamples.task 1)) eqn:E.
  - vm_compute in E. discriminate E.
  - apply H.
Defined.

Lemma binpack_protects_gpus_witness :
  exists worker, worker ∈ [PolicySamples.gpu_worker; PolicySamples.cpu_worker] /\
    WorkerSnapshot.id worker = "w2" /\ gpu_devices worker = [].
Proof.
  destruct (choose_placement (PolicySamples.task 0)
    [PolicySamples.gpu_worker; PolicySamples.cpu_worker] "binpack")
    as [[[p|] rejected]|] eqn:E; [|vm_compute in E; discriminate E..].
  assert (feasible PolicySamples.cpu_worker (PolicySamples.task 0)) as Hf
    by (apply evaluate_snapshot_feasible; exists []; vm_compute; reflexivity).
  destruct (binpack_protects_gpus (PolicySamples.task 0)
    [PolicySamples.gpu_worker; PolicySamples.cpu_worker] p rejected PolicySamples.cpu_worker
    eq_refl E ltac:(set_solver) Hf eq_refl) as (w & Hin & _ & Hid & Hg).
  exists w. rewrite Hid. vm_compute in E. injection E as <- _. done.
Defined.

(** Two intervals of waiting raise the priority by two. *)
Lemma effective_priority_bounds_witness :
  effective_priority (PolicySamples.task 0) 125000000 60 = Some 52 /\
  exists eff, effective_priority (PolicySamples.task 0) 125000000 60 = Some eff /\ 50 <= eff <= 100.
Proof.
  split; [vm_compute; reflexivity|].
  apply (effective_priority_bounds (PolicySamples.task 0) 125000000 60); cbn; lia.
Defined.
