(* ===== verification/VendorAdmission.v ===== *)
(** * Vendor admission policy ([scheduler/admission.py])

    One homogeneous accelerator pool is chosen for a request.  Candidates pass
    hard filters in a fixed order, the eligible ones are ordered by the
    selection policy, and the decision carries concrete device ids only for
    exact-device pools.  The dataclass validations ([__post_init__]) are
    functions returning the [ValueError] message; the [isinstance] checks are
    the types. *)

From S2P Require Import Prelude PyString Enums.
From Stdlib Require Import Ascii String.

#[local] Open Scope Z_scope.

Inductive AdmissionRejectionReason :=
  NVIDIA_POLICY_EXCLUDED
| ASCEND_POLICY_EXCLUDED
| NVIDIA_VENDOR_NOT_ALLOWED
| ASCEND_VENDOR_NOT_ALLOWED
| NVIDIA_KIND_NOT_ALLOWED
| ASCEND_KIND_NOT_ALLOWED
| NVIDIA_MODEL_INCOMPATIBLE
| ASCEND_MODEL_INCOMPATIBLE
| NVIDIA_PROFILE_INCOMPATIBLE
| ASCEND_PROFILE_INCOMPATIBLE
| NVIDIA_PROFILE_UNAVAILABLE
| ASCEND_PROFILE_UNAVAILABLE
| NVIDIA_MODEL_VARIANT_INCOMPATIBLE
| ASCEND_MODEL_VARIANT_INCOMPATIBLE
| NVIDIA_UNHEALTHY
| ASCEND_UNHEALTHY
| NVIDIA_CAPABILITY_MISMATCH
| ASCEND_CAPABILITY_MISMATCH
| NVIDIA_QUOTA_EXCEEDED
| ASCEND_QUOTA_EXCEEDED
| NVIDIA_CAPACITY_UNAVAILABLE
| ASCEND_CAPACITY_UNAVAILABLE.

Inductive _RejectionCategory :=
  POLICY_EXCLUDED
| VENDOR_NOT_ALLOWED
| KIND_NOT_ALLOWED
| MODEL_INCOMPATIBLE
| PROFILE_INCOMPATIBLE
| PROFILE_UNAVAILABLE
| MODEL_VARIANT_INCOMPATIBLE
| UNHEALTHY
| CAPABILITY_MISMATCH
| QUOTA_EXCEEDED
| CAPACITY_UNAVAILABLE.

#[export] Instance AdmissionRejectionReason_eq_dec : EqDecision AdmissionRejectionReason.
Proof. solve_decision. Defined.

Definition AdmissionRejectionReason_value (r : AdmissionRejectionReason) : string :=
  match r with
  | NVIDIA_POLICY_EXCLUDED => "nvidia_policy_excluded"
  | ASCEND_POLICY_EXCLUDED => "ascend_policy_excluded"
  | NVIDIA_VENDOR_NOT_ALLOWED => "nvidia_vendor_not_allowed"
  | ASCEND_VENDOR_NOT_ALLOWED => "ascend_vendor_not_allowed"
  | NVIDIA_KIND_NOT_ALLOWED => "nvidia_kind_not_allowed"
  | ASCEND_KIND_NOT_ALLOWED => "ascend_kind_not_allowed"
  | NVIDIA_MODEL_INCOMPATIBLE => "nvidia_model_incompatible"
  | ASCEND_MODEL_INCOMPATIBLE => "ascend_model_incompatible"
  | NVIDIA_PROFILE_INCOMPATIBLE => "nvidia_profile_incompatible"
  | ASCEND_PROFILE_INCOMPATIBLE => "ascend_profile_incompatible"
  | NVIDIA_PROFILE_UNAVAILABLE => "nvidia_profile_unavailable"
  | ASCEND_PROFILE_UNAVAILABLE => "ascend_profile_unavailable"
  | NVIDIA_MODEL_VARIANT_INCOMPATIBLE => "nvidia_model_variant_incompatible"
  | ASCEND_MODEL_VARIANT_INCOMPATIBLE => "ascend_model_variant_incompatible"
  | NVIDIA_UNHEALTHY => "nvidia_unhealthy"
  | ASCEND_UNHEALTHY => "ascend_unhealthy"
  | NVIDIA_CAPABILITY_MISMATCH => "nvidia_capability_mismatch"
  | ASCEND_CAPABILITY_MISMATCH => "ascend_capability_mismatch"
  | NVIDIA_QUOTA_EXCEEDED => "nvidia_quota_exceeded"
  | ASCEND_QUOTA_EXCEEDED => "ascend_quota_exceeded"
  | NVIDIA_CAPACITY_UNAVAILABLE => "nvidia_capacity_unavailable"
  | ASCEND_CAPACITY_UNAVAILABLE => "ascend_capacity_unavailable"
  end.

(** The table [_VENDOR_REASONS]. *)
Definition _vendor_reason (vendor : AcceleratorVendor) (category : _RejectionCategory)
  : AdmissionRejectionReason :=
  match vendor, category with
  | NVIDIA, POLICY_EXCLUDED => NVIDIA_POLICY_EXCLUDED
  | NVIDIA, VENDOR_NOT_ALLOWED => NVIDIA_VENDOR_NOT_ALLOWED
  | NVIDIA, KIND_NOT_ALLOWED => NVIDIA_KIND_NOT_ALLOWED
  | NVIDIA, MODEL_INCOMPATIBLE => NVIDIA_MODEL_INCOMPATIBLE
  | NVIDIA, PROFILE_INCOMPATIBLE => NVIDIA_PROFILE_INCOMPATIBLE
  | NVIDIA, PROFILE_UNAVAILABLE => NVIDIA_PROFILE_UNAVAILABLE
  | NVIDIA, MODEL_VARIANT_INCOMPATIBLE => NVIDIA_MODEL_VARIANT_INCOMPATIBLE
  | NVIDIA, UNHEALTHY => NVIDIA_UNHEALTHY
  | NVIDIA, CAPABILITY_MISMATCH => NVIDIA_CAPABILITY_MISMATCH
  | NVIDIA, QUOTA_EXCEEDED => NVIDIA_QUOTA_EXCEEDED
  | NVIDIA, CAPACITY_UNAVAILABLE => NVIDIA_CAPACITY_UNAVAILABLE
  | HUAWEI_ASCEND, POLICY_EXCLUDED => ASCEND_POLICY_EXCLUDED
  | HUAWEI_ASCEND, VENDOR_NOT_ALLOWED => ASCEND_VENDOR_NOT_ALLOWED
  | HUAWEI_ASCEND, KIND_NOT_ALLOWED => ASCEND_KIND_NOT_ALLOWED
  | HUAWEI_ASCEND, MODEL_INCOMPATIBLE => ASCEND_MODEL_INCOMPATIBLE
  | HUAWEI_ASCEND, PROFILE_INCOMPATIBLE => ASCEND_PROFILE_INCOMPATIBLE
  | HUAWEI_ASCEND, PROFILE_UNAVAILABLE => ASCEND_PROFILE_UNAVAILABLE
  | HUAWEI_ASCEND, MODEL_VARIANT_INCOMPATIBLE => ASCEND_MODEL_VARIANT_INCOMPATIBLE
  | HUAWEI_ASCEND, UNHEALTHY => ASCEND_UNHEALTHY
  | HUAWEI_ASCEND, CAPABILITY_MISMATCH => ASCEND_CAPABILITY_MISMATCH
  | HUAWEI_ASCEND, QUOTA_EXCEEDED => ASCEND_QUOTA_EXCEEDED
  | HUAWEI_ASCEND, CAPACITY_UNAVAILABLE => ASCEND_CAPACITY_UNAVAILABLE
  end.

Definition _CANONICAL_VENDOR_ORDER (v : AcceleratorVendor) : Z :=
  match v with NVIDIA => 0 | HUAWEI_ASCEND => 1 end.

Definition _validate_optional_text (value : option string) : bool :=
  match value with Some v => negb (blank v) | None => true end.

Definition _policy_vendor (policy : AcceleratorSelectionPolicy) : option AcceleratorVendor :=
  match policy with
  | NVIDIA_ONLY => Some NVIDIA
  | ASCEND_ONLY => Some HUAWEI_ASCEND
  | _ => None
  end.

Definition _policy_allows_vendor (policy : AcceleratorSelectionPolicy)
    (vendor : AcceleratorVendor) : bool :=
  match _policy_vendor policy with
  | None => true
  | Some required_vendor => vendor == required_vendor
  end.

Definition _preference_rank (policy : AcceleratorSelectionPolicy) (vendor : AcceleratorVendor) : Z :=
  match policy with
  | PREFER_NVIDIA => if vendor == NVIDIA then 0 else 1
  | PREFER_ASCEND => if vendor == HUAWEI_ASCEND then 0 else 1
  | _ => 0
  end.

Module AdmissionRequest.
Record t := mk {
  count : Z;
  allowed_vendors : gset AcceleratorVendor;
  allowed_kinds : gset AcceleratorKind;
  allowed_models : gset string;
  required_capabilities : gset string;
  runtime_profile_id : option string;
  runtime_profile_version : option string;
  runtime_profile_digest : option string;
  model_variant_id : option string;
  selection_policy : AcceleratorSelectionPolicy;
}.

(** [__post_init__]: [None] when the request is valid. *)
Definition post_init (r : t) : option string :=
  if negb ((1 <=? count r) && (count r <=? 64)) then Some "count must be between one and 64"
  else if bool_decide (allowed_vendors r = ∅) then Some "allowed_vendors must not be empty"
  else if bool_decide (allowed_kinds r = ∅) then Some "allowed_kinds must not be empty"
  else if existsb blank (elements (allowed_models r))
       then Some "allowed_models must not contain blank values"
  else if existsb blank (elements (required_capabilities r))
       then Some "required_capabilities must not contain blank values"
  else if negb (_validate_optional_text (runtime_profile_id r))
       then Some "runtime_profile_id must not be blank"
  else if negb (_validate_optional_text (runtime_profile_version r))
       then Some "runtime_profile_version must not be blank"
  else if negb (_validate_optional_text (runtime_profile_digest r))
       then Some "runtime_profile_digest must not be blank"
  else if negb (_validate_optional_text (model_variant_id r))
       then Some "model_variant_id must not be blank"
  else if bool_decide (runtime_profile_id r = None)
          && (bool_decide (runtime_profile_version r <> None)
              || bool_decide (runtime_profile_digest r <> None))
       then Some "runtime profile version and digest require runtime_profile_id"
  else match _policy_vendor (selection_policy r) with
       | Some v => if bool_decide (v ∉ allowed_vendors r)
                   then Some "policy requires vendor in allowed_vendors" else None
       | None => None
       end.
End AdmissionRequest.

Module AdmissionCandidate.
Record t := mk {
  candidate_id : string;
  vendor : AcceleratorVendor;
  kind : AcceleratorKind;
  model : string;
  runtime_profile_id : option string;
  runtime_profile_version : option string;
  runtime_profile_digest : option string;
  model_variant_id : option string;
  allocation_authority : AllocationAuthority;
  available_capacity : Z;
  available_quota : Z;
  healthy : bool;
  capabilities : gset string;
  profile_ready : bool;
  model_variant_ready : bool;
  concrete_device_ids : list string;
}.

Definition profile_values (c : t) : list (option string) :=
  [runtime_profile_id c; runtime_profile_version c; runtime_profile_digest c].

(** [__post_init__]: [None] when the candidate is valid. *)
Definition post_init (c : t) : option string :=
  if blank (candidate_id c) then Some "candidate_id must not be blank"
  else if blank (model c) then Some "model must not be blank"
  else if existsb (fun v => bool_decide (v <> None)) (profile_values c)
          && negb (forallb (fun v => match v with Some s => negb (blank s) | None => false end)
                           (profile_values c))
       then Some "runtime profile identity and digest must be complete"
  else if negb (_validate_optional_text (model_variant_id c))
       then Some "model_variant_id must not be blank"
  else if negb (vendor_kind_is_compatible (vendor c) (kind c))
       then Some "candidate vendor and kind are incompatible"
  else if available_capacity c <? 0 then Some "available_capacity must not be negative"
  else if available_quota c <? 0 then Some "available_quota must not be negative"
  else if existsb blank (elements (capabilities c))
       then Some "capabilities must not contain blank values"
  else if negb (bool_decide (NoDup (concrete_device_ids c)))
       then Some "concrete_device_ids must be unique"
  else if existsb blank (concrete_device_ids c)
       then Some "concrete_device_ids must not contain blank values"
  else if allocation_authority c == KUBERNETES_DEVICE_PLUGIN then
         if negb (bool_decide (concrete_device_ids c = []))
         then Some "Kubernetes allocation authority must not expose device IDs"
         else if bool_decide (runtime_profile_id c = None)
              then Some "Kubernetes allocation authority requires a runtime profile"
              else None
  else if Z.of_nat (List.length (concrete_device_ids c)) !== available_capacity c
       then Some "exact-device capacity must equal concrete_device_ids length"
  else None.

Definition gang_identity (c : t) :=
  (vendor c, kind c, model c, runtime_profile_id c, runtime_profile_version c,
    runtime_profile_digest c).
End AdmissionCandidate.

Module AdmissionRejection.
Record t := mk {
  candidate_id : string;
  vendor : AcceleratorVendor;
  reason : AdmissionRejectionReason;
}.
End AdmissionRejection.

Module AdmissionDecision.
Record t := mk {
  accelerator_count : Z;
  selected_candidate : option AdmissionCandidate.t;
  concrete_device_ids : list string;
  rejections : list AdmissionRejection.t;
}.

(** [__post_init__]: [None] when the decision is consistent. *)
Definition post_init (d : t) : option string :=
  if negb ((1 <=? accelerator_count d) && (accelerator_count d <=? 64))
  then Some "accelerator_count must be between one and 64"
  else match selected_candidate d with
  | None =>
      if negb (bool_decide (concrete_device_ids d = []))
      then Some "a rejected decision must not contain concrete device IDs" else None
  | Some c =>
      if AdmissionCandidate.allocation_authority c == KUBERNETES_DEVICE_PLUGIN then
        if negb (bool_decide (concrete_device_ids d = []))
        then Some "Kubernetes admission must not return concrete device IDs" else None
      else if Z.of_nat (List.length (concrete_device_ids d)) !== accelerator_count d
      then Some "exact-device admission must return one device ID per accelerator"
      else if negb (forallb (fun i => inb i (AdmissionCandidate.concrete_device_ids c))
                            (concrete_device_ids d))
      then Some "decision device IDs must belong to the selected candidate"
      else None
  end.

Definition allowed (d : t) : bool := bool_decide (selected_candidate d <> None).

Definition reason (d : t) : option AdmissionRejectionReason :=
  if allowed d then None
  else match rejections d with
       | [] => None
       | r :: _ => Some (AdmissionRejection.reason r)
       end.
End AdmissionDecision.

(** [x is not None and candidate.x != x], negated. *)
Definition requested_matches (requested offered : option string) : bool :=
  match requested with
  | None => true
  | Some _ => offered == requested
  end.

Definition _profile_matches (request : AdmissionRequest.t) (candidate : AdmissionCandidate.t) : bool :=
  requested_matches (AdmissionRequest.runtime_profile_id request)
                    (AdmissionCandidate.runtime_profile_id candidate)
  && requested_matches (AdmissionRequest.runtime_profile_version request)
                       (AdmissionCandidate.runtime_profile_version candidate)
  && requested_matches (AdmissionRequest.runtime_profile_digest request)
                       (AdmissionCandidate.runtime_profile_digest candidate).

Definition evaluate_admission_candidate (request : AdmissionRequest.t)
    (candidate : AdmissionCandidate.t) : option AdmissionRejectionReason :=
  let reject category := Some (_vendor_reason (AdmissionCandidate.vendor candidate) category) in
  if negb (_policy_allows_vendor (AdmissionRequest.selection_policy request)
                                 (AdmissionCandidate.vendor candidate))
  then reject POLICY_EXCLUDED
  else if bool_decide (AdmissionCandidate.vendor candidate ∉ AdmissionRequest.allowed_vendors request)
  then reject VENDOR_NOT_ALLOWED
  else if bool_decide (AdmissionCandidate.kind candidate ∉ AdmissionRequest.allowed_kinds request)
  then reject KIND_NOT_ALLOWED
  else if bool_decide (AdmissionRequest.allowed_models request <> ∅)
          && bool_decide (AdmissionCandidate.model candidate ∉ AdmissionRequest.allowed_models request)
  then reject MODEL_INCOMPATIBLE
  else if negb (_profile_matches request candidate)
  then reject PROFILE_INCOMPATIBLE
  else if negb (AdmissionCandidate.profile_ready candidate)
  then reject PROFILE_UNAVAILABLE
  else if negb (requested_matches (AdmissionRequest.model_variant_id request)
                                  (AdmissionCandidate.model_variant_id candidate))
          || negb (AdmissionCandidate.model_variant_ready candidate)
  then reject MODEL_VARIANT_INCOMPATIBLE
  else if negb (AdmissionCandidate.healthy candidate)
  then reject UNHEALTHY
  else if negb (bool_decide (AdmissionRequest.required_capabilities request
                             ⊆ AdmissionCandidate.capabilities candidate))
  then reject CAPABILITY_MISMATCH
  else if AdmissionCandidate.available_quota candidate <? AdmissionRequest.count request
  then reject QUOTA_EXCEEDED
  else if AdmissionCandidate.available_capacity candidate <? AdmissionRequest.count request
  then reject CAPACITY_UNAVAILABLE
  else None.

Definition or_empty (s : option string) : string := default "" s.

Definition sort_key : Type :=
  Z * (Z * (string * (string * (string * (string * (string * (string * string))))))).

Definition _candidate_sort_key (request : AdmissionRequest.t) (c : AdmissionCandidate.t) : sort_key :=
  (_preference_rank (AdmissionRequest.selection_policy request) (AdmissionCandidate.vendor c),
  (_CANONICAL_VENDOR_ORDER (AdmissionCandidate.vendor c),
  (AcceleratorKind_value (AdmissionCandidate.kind c),
  (AdmissionCandidate.model c,
  (or_empty (AdmissionCandidate.runtime_profile_id c),
  (or_empty (AdmissionCandidate.runtime_profile_version c),
  (or_empty (AdmissionCandidate.runtime_profile_digest c),
  (or_empty (AdmissionCandidate.model_variant_id c),
   AdmissionCandidate.candidate_id c)))))))).

(** The candidates with a verdict, in input order. *)
Definition eligible_candidates (request : AdmissionRequest.t) (candidates : list AdmissionCandidate.t)
  : list AdmissionCandidate.t :=
  List.filter (fun c => bool_decide (evaluate_admission_candidate request c = None)) candidates.

Definition rejected_candidates (request : AdmissionRequest.t) (candidates : list AdmissionCandidate.t)
  : list (AdmissionCandidate.t * AdmissionRejectionReason) :=
  omap (fun c => pair c <$> evaluate_admission_candidate request c) candidates.

Definition validated (d : AdmissionDecision.t) : string + AdmissionDecision.t :=
  match AdmissionDecision.post_init d with
  | Some message => inl message
  | None => inr d
  end.

Definition choose_admission (request : AdmissionRequest.t) (candidates : list AdmissionCandidate.t)
  : string + AdmissionDecision.t :=
  if negb (bool_decide (NoDup (AdmissionCandidate.candidate_id <$> candidates)))
  then inl "candidate_id values must be unique"
  else
  let eligible := py_sort (_candidate_sort_key request) (eligible_candidates request candidates) in
  let rejected :=
    py_sort (fun item => (_candidate_sort_key request item.1, AdmissionRejectionReason_value item.2))
            (rejected_candidates request candidates) in
  let rejections :=
    (fun item => AdmissionRejection.mk (AdmissionCandidate.candidate_id item.1)
                   (AdmissionCandidate.vendor item.1) item.2) <$> rejected in
  match eligible with
  | [] => validated (AdmissionDecision.mk (AdmissionRequest.count request) None [] rejections)
  | selected :: _ =>
      let concrete_device_ids :=
        if AdmissionCandidate.allocation_authority selected == CONTROL_PLANE_EXACT_DEVICE
        then take (Z.to_nat (AdmissionRequest.count request))
                  (py_sort id (AdmissionCandidate.concrete_device_ids selected))
        else [] in
      validated (AdmissionDecision.mk (AdmissionRequest.count request) (Some selected)
                   concrete_device_ids rejections)
  end.

(** ** Specification *)

(** What the hard filters demand of a candidate pool. *)
Record eligible (request : AdmissionRequest.t) (c : AdmissionCandidate.t) : Prop := {
  eligible_policy : forall v, _policy_vendor (AdmissionRequest.selection_policy request) = Some v ->
    AdmissionCandidate.vendor c = v;
  eligible_vendor : AdmissionCandidate.vendor c ∈ AdmissionRequest.allowed_vendors request;
  eligible_kind : AdmissionCandidate.kind c ∈ AdmissionRequest.allowed_kinds request;
  eligible_model : AdmissionRequest.allowed_models request = ∅ \/
    AdmissionCandidate.model c ∈ AdmissionRequest.allowed_models request;
  eligible_profile : _profile_matches request c = true;
  eligible_profile_ready : AdmissionCandidate.profile_ready c = true;
  eligible_variant : requested_matches (AdmissionRequest.model_variant_id request)
    (AdmissionCandidate.model_variant_id c) = true;
  eligible_variant_ready : AdmissionCandidate.model_variant_ready c = true;
  eligible_healthy : AdmissionCandidate.healthy c = true;
  eligible_capabilities :
    AdmissionRequest.required_capabilities request ⊆ AdmissionCandidate.capabilities c;
  eligible_quota : AdmissionRequest.count request <= AdmissionCandidate.available_quota c;
  eligible_capacity : AdmissionRequest.count request <= AdmissionCandidate.available_capacity c;
}.

Lemma policy_allows_vendor_spec policy vendor :
  _policy_allows_vendor policy vendor = true <->
  forall v, _policy_vendor policy = Some v -> vendor = v.
Proof.
  unfold _policy_allows_vendor. destruct (_policy_vendor policy) as [v|]; [|naive_solver].
  rewrite eqb_true. naive_solver.
Qed.

Lemma evaluate_admission_candidate_spec request c :
  evaluate_admission_candidate request c = None <-> eligible request c.
Proof.
  unfold evaluate_admission_candidate. split.
  - repeat (case_match; [done|]). intros _. bools.
    repeat match goal with
    | H : bool_decide _ = false |- _ => apply bool_decide_eq_false in H
    | H : bool_decide _ = true |- _ => apply bool_decide_eq_true in H
    | H : _ && _ = false |- _ => apply andb_false_iff in H
    end.
    constructor; try done || (apply dec_stable; done).
    + by apply policy_allows_vendor_spec.
    + rewrite !bool_decide_eq_false in *. destruct_or?; [left|right]; by apply dec_stable.
  - intros [Hp ? ? Hm -> -> -> -> -> ? ? ?]. apply policy_allows_vendor_spec in Hp as ->. cbn.
    rewrite !bool_decide_eq_false_2 by tauto.
    replace (bool_decide (AdmissionRequest.allowed_models request <> ∅) &&
             bool_decide (AdmissionCandidate.model c ∉ AdmissionRequest.allowed_models request))
      with false.
    2: { symmetry. apply andb_false_iff. rewrite !bool_decide_eq_false. naive_solver. }
    rewrite bool_decide_eq_true_2 by done. cbn.
    repeat (case_match; [lia|]). done.
Qed.

Lemma elem_of_eligible_candidates request candidates c :
  c ∈ eligible_candidates request candidates <-> c ∈ candidates /\ eligible request c.
Proof.
  unfold eligible_candidates. rewrite list_elem_of_In, filter_In, <-list_elem_of_In.
  by rewrite bool_decide_eq_true, evaluate_admission_candidate_spec.
Qed.

Lemma elem_of_rejected_candidates request candidates c reason :
  (c, reason) ∈ rejected_candidates request candidates <->
  c ∈ candidates /\ evaluate_admission_candidate request c = Some reason.
Proof.
  unfold rejected_candidates. rewrite list_elem_of_omap. split.
  - intros (x & Hin & Hx). apply fmap_Some in Hx as (y & Hy & [= -> ->]). done.
  - intros [? Hr]. exists c. by rewrite Hr.
Qed.

(** An exact-device pool that passes its validation lists its devices. *)
Lemma candidate_exact_devices c :
  AdmissionCandidate.post_init c = None ->
  AdmissionCandidate.allocation_authority c = CONTROL_PLANE_EXACT_DEVICE ->
  NoDup (AdmissionCandidate.concrete_device_ids c) /\
  Z.of_nat (List.length (AdmissionCandidate.concrete_device_ids c))
    = AdmissionCandidate.available_capacity c.
Proof.
  unfold AdmissionCandidate.post_init. intros H Ha. rewrite Ha in H. cbn in H.
  repeat (case_match; [done|]). bools.
  split; [|done]. by apply (bool_decide_eq_true (NoDup _)).
Qed.

Lemma request_count request :
  AdmissionRequest.post_init request = None -> 1 <= AdmissionRequest.count request <= 64.
Proof. unfold AdmissionRequest.post_init. intros H. case_match; [done|]. bools. lia. Qed.

Lemma forallb_inb_subset (l k : list string) :
  (forall x, x ∈ l -> x ∈ k) -> forallb (fun i => inb i k) l = true.
Proof.
  intros Hsub. apply forallb_forall. intros x Hx%list_elem_of_In. rewrite inb_true. auto.
Qed.

(** Whatever the decision, a selected pool is a least eligible candidate. *)
Lemma choose_admission_selected request candidates d c :
  choose_admission request candidates = inr d ->
  AdmissionDecision.selected_candidate d = Some c ->
  c ∈ candidates /\ eligible request c /\
  forall c', c' ∈ candidates -> eligible request c' ->
    cmp_le (_candidate_sort_key request c) (_candidate_sort_key request c').
Proof.
  unfold choose_admission, validated. intros Hd Hs. case_match; [done|].
  destruct (py_sort (_candidate_sort_key request) (eligible_candidates request candidates))
    as [|c0 rest] eqn:E; case_match; try done; injection Hd as <-; cbn in Hs; [done|].
  injection Hs as <-.
  apply (py_sort_head_min (_candidate_sort_key request)) in E as [Hin Hmin].
  apply elem_of_eligible_candidates in Hin as [Hin He]. split_and!; try done.
  intros c' ? ?. apply Hmin, elem_of_eligible_candidates. done.
Qed.

(** Every ineligible candidate appears among the rejections. *)
Lemma choose_admission_rejections request candidates d c :
  choose_admission request candidates = inr d -> c ∈ candidates -> ~ eligible request c ->
  exists reason, AdmissionRejection.mk (AdmissionCandidate.candidate_id c)
    (AdmissionCandidate.vendor c) reason ∈ AdmissionDecision.rejections d.
Proof.
  intros Hd Hin Hne. destruct (evaluate_admission_candidate request c) as [reason|] eqn:Er;
    [|by apply evaluate_admission_candidate_spec in Er].
  exists reason. unfold choose_admission, validated in Hd. case_match; [done|].
  repeat case_match; simplify_eq; cbn; apply list_elem_of_fmap; exists (c, reason);
    (split; [done|]); rewrite elem_of_py_sort; by apply elem_of_rejected_candidates.
Qed.

(** The decision for valid inputs passes its own validation. *)
Lemma choose_admission_total request candidates :
  AdmissionRequest.post_init request = None ->
  Forall (fun c => AdmissionCandidate.post_init c = None) candidates ->
  NoDup (AdmissionCandidate.candidate_id <$> candidates) ->
  exists d, choose_admission request candidates = inr d /\
    match AdmissionDecision.selected_candidate d with
    | None => eligible_candidates request candidates = [] /\
              AdmissionDecision.concrete_device_ids d = []
    | Some c =>
        match AdmissionCandidate.allocation_authority c with
        | CONTROL_PLANE_EXACT_DEVICE =>
            NoDup (AdmissionDecision.concrete_device_ids d) /\
            Z.of_nat (List.length (AdmissionDecision.concrete_device_ids d))
              = AdmissionRequest.count request /\
            (forall i, i ∈ AdmissionDecision.concrete_device_ids d ->
               i ∈ AdmissionCandidate.concrete_device_ids c)
        | KUBERNETES_DEVICE_PLUGIN => AdmissionDecision.concrete_device_ids d = []
        end
    end.
Proof.
  intros Hreq Hcand Hids. pose proof (request_count request Hreq) as Hcount.
  unfold choose_admission. rewrite bool_decide_eq_true_2 by done. cbn [negb].
  destruct (py_sort (_candidate_sort_key request) (eligible_candidates request candidates))
    as [|c rest] eqn:E; unfold validated, AdmissionDecision.post_init; cbn;
    replace ((1 <=? _) && _) with true by lia; cbn.
  - eexists. split; [done|]. cbn. by apply py_sort_nil in E.
  - apply (py_sort_head_min (_candidate_sort_key request)) in E as [Hin _].
    apply elem_of_eligible_candidates in Hin as [Hin He].
    assert (AdmissionCandidate.post_init c = None) as Hc by (rewrite Forall_forall in Hcand; auto).
    destruct (AdmissionCandidate.allocation_authority c) eqn:Ea; cbn;
      [|eexists; split; [done|]; cbn; by rewrite Ea].
    destruct (candidate_exact_devices c Hc Ea) as [Hnd Hlen].
    change (CONTROL_PLANE_EXACT_DEVICE == CONTROL_PLANE_EXACT_DEVICE) with true.
    change (CONTROL_PLANE_EXACT_DEVICE == KUBERNETES_DEVICE_PLUGIN) with false. cbn.
    pose proof (eligible_capacity _ _ He) as Hcap. set (ids := take _ _).
    assert (Z.of_nat (List.length ids) = AdmissionRequest.count request) as Hl.
    { unfold ids. rewrite length_take, py_sort_perm. lia. }
    assert (forall i, i ∈ ids -> i ∈ AdmissionCandidate.concrete_device_ids c) as Hsub.
    { intros i Hi. unfold ids in Hi. apply elem_of_take in Hi as (k & Hk & _).
      apply list_elem_of_lookup_2 in Hk. by rewrite elem_of_py_sort in Hk. }
    rewrite Hl, eqb_same; cbn.
    rewrite forallb_inb_subset by done; cbn.
    eexists; split; [done|]; cbn. rewrite Ea. split_and!; try done.
    unfold ids. eapply sublist_NoDup, sublist_take. by rewrite py_sort_perm.
Qed.

(** ** Properties *)

(** C39: the vendor admission decision is total, sound, complete and optimal.
    For a valid request and valid candidates with distinct ids no exception
    is raised; a pool is selected exactly when some candidate passes every
    hard filter; the selected pool is eligible and has the least policy key;
    exact-device pools yield [count] distinct devices of the pool and device
    plugin pools none; and the rejections name exactly the ineligible ones. *)
Theorem choose_admission_correct request candidates
    (Hreq : AdmissionRequest.post_init request = None)
    (Hcand : Forall (fun c => AdmissionCandidate.post_init c = None) candidates)
    (Hids : NoDup (AdmissionCandidate.candidate_id <$> candidates)) :
  exists d, choose_admission request candidates = inr d /\
    match AdmissionDecision.selected_candidate d with
    | None => (forall c, c ∈ candidates -> ~ eligible request c) /\
              AdmissionDecision.concrete_device_ids d = []
    | Some c =>
        c ∈ candidates /\ eligible request c /\
        (forall c', c' ∈ candidates -> eligible request c' ->
           cmp_le (_candidate_sort_key request c) (_candidate_sort_key request c')) /\
        match AdmissionCandidate.allocation_authority c with
        | CONTROL_PLANE_EXACT_DEVICE =>
            NoDup (AdmissionDecision.concrete_device_ids d) /\
            Z.of_nat (List.length (AdmissionDecision.concrete_device_ids d))
              = AdmissionRequest.count request /\
            (forall i, i ∈ AdmissionDecision.concrete_device_ids d ->
               i ∈ AdmissionCandidate.concrete_device_ids c)
        | KUBERNETES_DEVICE_PLUGIN => AdmissionDecision.concrete_device_ids d = []
        end
    end /\
    forall c, c ∈ candidates -> ~ eligible request c ->
      exists reason, AdmissionRejection.mk (AdmissionCandidate.candidate_id c)
        (AdmissionCandidate.vendor c) reason ∈ AdmissionDecision.rejections d.
Proof.
  destruct (choose_admission_total request candidates Hreq Hcand Hids) as (d & Hd & Hs).
  exists d. split; [done|]. split; [|eauto using choose_admission_rejections].
  destruct (AdmissionDecision.selected_candidate d) as [c|] eqn:E.
  - destruct (choose_admission_selected _ _ _ _ Hd E) as (? & ? & ?). done.
  - destruct Hs as [Hnone ?]. split; [|done]. intros c ? ?.
    assert (c ∈ eligible_candidates request candidates) as Hc
      by by apply elem_of_eligible_candidates.
    rewrite Hnone in Hc. by apply not_elem_of_nil in Hc.
Qed.

(** A vendor preference is honoured: under [prefer-nvidia]
    ([prefer-ascend]) the selected pool is of the preferred vendor whenever
    an eligible pool of that vendor exists. *)
Theorem preferred_vendor_selected request candidates d c c' v
    (Hpol : AdmissionRequest.selection_policy request
            = match v with NVIDIA => PREFER_NVIDIA | HUAWEI_ASCEND => PREFER_ASCEND end)
    (Hd : choose_admission request candidates = inr d)
    (Hsel : AdmissionDecision.selected_candidate d = Some c)
    (Hin : c' ∈ candidates) (He : eligible request c') (Hv : AdmissionCandidate.vendor c' = v) :
  AdmissionCandidate.vendor c = v.
Proof.
  destruct (choose_admission_selected _ _ _ _ Hd Hsel) as (_ & _ & Hmin).
  specialize (Hmin c' Hin He).
  unfold cmp_le, cmp, Ord_prod, _candidate_sort_key in Hmin. cbn in Hmin.
  rewrite Hpol, Hv in Hmin.
  destruct v, (AdmissionCandidate.vendor c); cbn in Hmin; try done.
Qed.

(** ** Witnesses *)
Module AdmissionSamples.
Definition request : AdmissionRequest.t :=
  AdmissionRequest.mk 1 {[NVIDIA; HUAWEI_ASCEND]} {[GPU; NPU]} ∅ ∅ None None None None
    PREFER_ASCEND.
Definition nvidia_pool : AdmissionCandidate.t :=
  AdmissionCandidate.mk "pool-n" NVIDIA GPU "A100" None None None None
    CONTROL_PLANE_EXACT_DEVICE 2 2 true ∅ true true ["gpu-b"; "gpu-a"].
Definition ascend_pool : AdmissionCandidate.t :=
  AdmissionCandidate.mk "pool-a" HUAWEI_ASCEND NPU "910B" (Some "p") (Some "v1") (Some "d")
    None KUBERNETES_DEVICE_PLUGIN 4 4 true ∅ true true [].
Definition pools : list AdmissionCandidate.t := [nvidia_pool; ascend_pool].
Lemma pools_valid : Forall (fun c => AdmissionCandidate.post_init c = None) pools.
Proof. repeat constructor; vm_compute; reflexivity. Qed.
Lemma pools_nodup : NoDup (AdmissionCandidate.candidate_id <$> pools).
Proof. apply (bool_decide_unpack _). vm_compute. exact I. Qed.
Lemma ascend_eligible : eligible request ascend_pool.
Proof. apply evaluate_admission_candidate_spec. vm_compute. reflexivity. Qed.
End AdmissionSamples.

Lemma choose_admission_correct_witness :
  exists d, choose_admission AdmissionSamples.request AdmissionSamples.pools = inr d /\
    AdmissionDecision.selected_candidate d = Some AdmissionSamples.ascend_pool.
Proof.
  destruct (choose_admission_correct AdmissionSamples.request AdmissionSamples.pools
    ltac:(vm_compute; reflexivity) AdmissionSamples.pools_valid AdmissionSamples.pools_nodup)
    as (d & Hd & _).
  exists d. split; [done|]. vm_compute in Hd. injection Hd as <-. reflexivity.
Defined.

Lemma preferred_vendor_selected_witness :
  match choose_admission AdmissionSamples.request AdmissionSamples.pools with
  | inr d => exists c, AdmissionDecision.selected_candidate d = Some c /\
               AdmissionCandidate.vendor c = HUAWEI_ASCEND
  | inl _ => False
  end.
Proof.
  destruct (choose_admission AdmissionSamples.request AdmissionSamples.pools) as [m|d] eqn:Hd;
    [vm_compute in Hd; discriminate Hd|].
  destruct (AdmissionDecision.selected_candidate d) as [c|] eqn:Hc;
    [|vm_compute in Hd; injection Hd as <-; discriminate Hc].
  exists c. split; [done|].
  apply (preferred_vendor_selected AdmissionSamples.request AdmissionSamples.pools d c
    AdmissionSamples.ascend_pool HUAWEI_ASCEND eq_refl Hd Hc);
    [|apply AdmissionSamples.ascend_eligible|reflexivity].
  unfold AdmissionSamples.pools. set_solver.
Defined.
