(* ===== verification/Store.v ===== *)
(** * The database: rows, tables, and the session primitives

    PostgreSQL is the source of truth of the control plane.  A table is a
    finite map from its primary key (lists for the append-only tables), and a
    repository method is an [M Db PyError] computation.  Instants are integer
    microseconds since the epoch, UUIDs are 128-bit naturals in their own
    order.  [session.get(..., with_for_update=True)] and
    [select ... with_for_update()] are lookups: rows locked by a transaction
    are not changed by another one, so a transaction is one atomic step.
    Inserts check the unique constraints that the code relies on and raise
    [IntegrityError]. *)

From S2P Require Import Prelude PyFloat Enums PyJson.

Inductive PyError :=
| InvalidTaskTransition (current target : TaskStatus)
| ClaimRejected (message : string)
| StaleExecutionError (message : string)
| DependencyValidationError (message : string)
| QuotaNotFoundError (message : string)
| QuotaInvariantViolation (message : string)
| QuotaExceededError (resource : string)
| ResourceInvariantViolation (message : string)
| AllocationObservationConflict (message : string)
| PlacementConflict (message : string)
| PreemptionContention (message : string)
| ValueError (message : string)
| LookupError (message : string)
| OverflowError
| IntegrityError (constraint : string)
| DAGNotFoundError (message : string)
| DAGConflictError (message : string)
| DAGCycleError (message : string)
| DAGInvariantViolation (message : string)
| GatewayModelNameConflictError (name : string)
| LogicalModelNotFoundError (message : string)
| LogicalModelConflictError (field : string)
| ModelVariantNotFoundError (message : string)
| ModelVariantInvariantError (message : string)
| RuntimeProfileReferencedError (profile_id profile_version : string) (count : Z)
| RuntimeError (message : string)
| RuntimeProfileCompatibilityError (message : string)
| KeyError
| IndexError
| AssertionError.

(** JSON values of event payloads. *)
Inductive Json := JNull | JStr (s : string) | JFloat (f : float) | JUuid (u : N) | JList (l : list string)
| JInt (z : Z) | JTime (at_ : Z).

(** The JSON document of [tasks.runtime_handle]. *)
Module RuntimeHandle.
Record t := mk {
  runtime_type : string;
  runtime_namespace : option string;
  runtime_resource_kind : string;
  runtime_resource_name : string;
  runtime_resource_uid : option string;
  runtime_worker_session_id : option N;
  observed_pod_name : option string;
  observed_pod_uid : option string;
  runtime_spec_hash : option string;
  runtime_log_cursor_bytes : Z;
}.
#[global] Instance eta : Eta t := fun r =>
  mk (runtime_type r) (runtime_namespace r) (runtime_resource_kind r)
    (runtime_resource_name r) (runtime_resource_uid r) (runtime_worker_session_id r)
    (observed_pod_name r) (observed_pod_uid r) (runtime_spec_hash r)
    (runtime_log_cursor_bytes r).
End RuntimeHandle.

(** The keys of [tasks.accelerator_request_json] the repositories read. *)
Module AcceleratorRequest.
Record t := mk {
  count : Z;
  allowed_vendors : list AcceleratorVendor;
  allowed_kinds : list AcceleratorKind;
  allowed_models : list string;
  required_capabilities : list string;
  runtime_profile : option string;
  selection_policy : AcceleratorSelectionPolicy;
}.
#[global] Instance eta : Eta t := fun r =>
  mk (count r) (allowed_vendors r) (allowed_kinds r) (allowed_models r) (required_capabilities r)
    (runtime_profile r) (selection_policy r).
End AcceleratorRequest.

(** A row of [tasks] ([models/task.py]); the columns no modelled operation reads or
    writes (image, command, environment, network, provenance) are left out. *)
Module Task.
Record t := mk {
  id : N;
  project_id : N;
  runtime_type : RuntimeType;
  status : TaskStatus;
  created_at : Z;
  queued_at : option Z;
  assigned_at : option Z;
  started_at : option Z;
  finished_at : option Z;
  worker_id : option string;
  execution_id : option N;
  lease_expires_at : option Z;
  exit_code : option Z;
  error_message : option string;
  timeout_seconds : Z;
  retry_count : Z;
  max_retries : Z;
  retry_backoff : RetryBackoff;
  retry_base_seconds : float;
  retry_max_seconds : float;
  retry_on_exit_codes : list Z;
  recovery_count : Z;
  next_attempt_at : option Z;
  cpu_limit : float;
  cpu_millicores : Z;
  memory_limit_mb : Z;
  gpu_count : Z;
  gpu_memory_mb : Z;
  gpu_model : option string;
  gpu_device_ids : list string;
  kubernetes_node_name : option string;
  accelerator_request_json : option AcceleratorRequest.t;
  selected_vendor : option AcceleratorVendor;
  selected_kind : option AcceleratorKind;
  selected_model : option string;
  runtime_profile_id : option string;
  runtime_profile_version : option string;
  runtime_profile_digest : option string;
  allocation_authority : option AllocationAuthority;
  labels : gmap string string;
  tolerations : list (gmap string string);
  priority : Z;
  queue_order : Z;
  preemptible : bool;
  preemption_count : Z;
  requeue_on_preempt : bool;
  unschedulable_reason : option string;
  failure_category : option ErrorCategory;
  error_category : option ErrorCategory;
  error_code : option ErrorCode;
  runtime_handle : option RuntimeHandle.t;
  cancel_requested : bool;
  duration_ms : option Z;
  cpu_seconds : option float;
  gpu_seconds : option float;
  wall_time_seconds : option float;
  estimated_cost : option float;
  idempotency_key : option string;
  request_hash : option string;
  version : Z;
  log_sequence : Z;
}.
#[global] Instance eta : Eta t := fun r =>
  mk (id r) (project_id r) (runtime_type r) (status r) (created_at r) (queued_at r)
    (assigned_at r) (started_at r) (finished_at r) (worker_id r) (execution_id r)
    (lease_expires_at r) (exit_code r) (error_message r) (timeout_seconds r)
    (retry_count r) (max_retries r) (retry_backoff r) (retry_base_seconds r)
    (retry_max_seconds r) (retry_on_exit_codes r) (recovery_count r) (next_attempt_at r)
    (cpu_limit r) (cpu_millicores r) (memory_limit_mb r) (gpu_count r) (gpu_memory_mb r)
    (gpu_model r) (gpu_device_ids r) (kubernetes_node_name r) (accelerator_request_json r)
    (selected_vendor r) (selected_kind r) (selected_model r) (runtime_profile_id r)
    (runtime_profile_version r) (runtime_profile_digest r) (allocation_authority r)
    (labels r) (tolerations r) (priority r) (queue_order r) (preemptible r)
    (preemption_count r) (requeue_on_preempt r) (unschedulable_reason r)
    (failure_category r) (error_category r) (error_code r) (runtime_handle r)
    (cancel_requested r) (duration_ms r) (cpu_seconds r) (gpu_seconds r)
    (wall_time_seconds r) (estimated_cost r) (idempotency_key r) (request_hash r)
    (version r) (log_sequence r).
End Task.

(** A row of [workers] ([models/worker.py]). *)
Module Worker.
Record t := mk {
  id : string;
  worker_session_id : N;
  hostname : string;
  node_name : option string;
  runtime_types : list string;
  status : WorkerStatus;
  started_at : Z;
  last_heartbeat_at : Z;
  running_tasks : Z;
  concurrency : Z;
  reserved_cpu : float;
  reserved_memory_mb : Z;
  reserved_gpus : Z;
  cpu_count : Z;
  cpu_total_millicores : Z;
  cpu_allocatable_millicores : Z;
  memory_total_mb : Z;
  memory_allocatable_mb : Z;
  labels : gmap string string;
  taints : list (gmap string string);
  gpu_count : Z;
  gpu_model : option string;
  gpu_memory_mb : Z;
  inventory_generation : Z;
  inventory_updated_at : Z;
  overcommitted : bool;
  drain_reason : option string;
  version : Z;
}.
#[global] Instance eta : Eta t := fun r =>
  mk (id r) (worker_session_id r) (hostname r) (node_name r) (runtime_types r) (status r)
    (started_at r) (last_heartbeat_at r) (running_tasks r) (concurrency r)
    (reserved_cpu r) (reserved_memory_mb r) (reserved_gpus r) (cpu_count r)
    (cpu_total_millicores r) (cpu_allocatable_millicores r) (memory_total_mb r)
    (memory_allocatable_mb r) (labels r) (taints r) (gpu_count r) (gpu_model r)
    (gpu_memory_mb r) (inventory_generation r) (inventory_updated_at r) (overcommitted r)
    (drain_reason r) (version r).
End Worker.

(** A row of [gpu_devices] ([models/scheduling.py]). *)
Module GPUDevice.
Record t := mk {
  id : N;
  worker_id : string;
  device_uuid : string;
  device_index : Z;
  vendor : AcceleratorVendor;
  accelerator_kind : AcceleratorKind;
  model : string;
  memory_total_mb : Z;
  memory_free_mb : Z;
  compute_capability : option string;
  compute_arch : option string;
  runtime_profile_ids : list string;
  capabilities_json : list string;
  kubernetes_resource_name : option string;
  kubernetes_node_name : option string;
  health : string;
  fake : bool;
  inventory_generation : Z;
  last_seen_at : Z;
}.
#[global] Instance eta : Eta t := fun r =>
  mk (id r) (worker_id r) (device_uuid r) (device_index r) (vendor r) (accelerator_kind r)
    (model r) (memory_total_mb r) (memory_free_mb r) (compute_capability r)
    (compute_arch r) (runtime_profile_ids r) (capabilities_json r)
    (kubernetes_resource_name r) (kubernetes_node_name r) (health r) (fake r)
    (inventory_generation r) (last_seen_at r).
End GPUDevice.

(** A row of [resource_reservations]. *)
Module ResourceReservation.
Record t := mk {
  id : N;
  project_id : N;
  task_id : N;
  execution_id : N;
  worker_id : string;
  worker_session_id : N;
  cpu_millicores : Z;
  memory_mb : Z;
  gpu_count : Z;
  allocation_authority : AllocationAuthority;
  requested_vendor : option AcceleratorVendor;
  requested_kind : option AcceleratorKind;
  requested_profile_id : option string;
  requested_profile_version : option string;
  requested_profile_digest : option string;
  observed_device_ids_json : option (list string);
  observed_vendor : option AcceleratorVendor;
  observed_at : option Z;
  state : string;
  legacy_unbound : bool;
  created_at : Z;
  released_at : option Z;
  release_reason : option string;
  version : Z;
}.
#[global] Instance eta : Eta t := fun r =>
  mk (id r) (project_id r) (task_id r) (execution_id r) (worker_id r) (worker_session_id r)
    (cpu_millicores r) (memory_mb r) (gpu_count r) (allocation_authority r)
    (requested_vendor r) (requested_kind r) (requested_profile_id r)
    (requested_profile_version r) (requested_profile_digest r)
    (observed_device_ids_json r) (observed_vendor r) (observed_at r) (state r)
    (legacy_unbound r) (created_at r) (released_at r) (release_reason r) (version r).
End ResourceReservation.

(** A row of [reservation_gpu_devices], keyed by
    [(reservation_id, gpu_device_id)], which is unique. *)
Module ReservationGPUDevice.
Record t := mk {
  created_at : Z;
  released_at : option Z;
}.
#[global] Instance eta : Eta t := fun r =>
  mk (created_at r) (released_at r).
End ReservationGPUDevice.

(** A row of [task_executions] ([models/usage.py]). *)
Module TaskExecution.
Record t := mk {
  id : N;
  task_id : N;
  project_id : N;
  worker_id : option string;
  worker_session_id : option N;
  attempt : Z;
  status : TaskStatus;
  cpu_millicores : Z;
  memory_mb : Z;
  gpu_count : Z;
  gpu_model : option string;
  allocation_authority : AllocationAuthority;
  requested_vendor : option AcceleratorVendor;
  requested_kind : option AcceleratorKind;
  requested_profile_id : option string;
  requested_profile_version : option string;
  requested_profile_digest : option string;
  observed_device_ids_json : option (list string);
  observed_vendor : option AcceleratorVendor;
  observed_at : option Z;
  cpu_price_per_hour : decimal;
  memory_price_per_gb_hour : decimal;
  gpu_price_per_hour : decimal;
  assigned_at : Z;
  started_at : option Z;
  finished_at : option Z;
  runtime_type : RuntimeType;
  runtime_object_id : option string;
  runtime_namespace : option string;
  runtime_resource_kind : option string;
  runtime_resource_name : option string;
  runtime_resource_uid : option string;
  runtime_worker_session_id : option N;
  observed_pod_name : option string;
  observed_pod_uid : option string;
  runtime_spec_hash : option string;
  error_category : option ErrorCategory;
  error_code : option ErrorCode;
  error_message : option string;
}.
#[global] Instance eta : Eta t := fun r =>
  mk (id r) (task_id r) (project_id r) (worker_id r) (worker_session_id r) (attempt r)
    (status r) (cpu_millicores r) (memory_mb r) (gpu_count r) (gpu_model r)
    (allocation_authority r) (requested_vendor r) (requested_kind r)
    (requested_profile_id r) (requested_profile_version r) (requested_profile_digest r)
    (observed_device_ids_json r) (observed_vendor r) (observed_at r)
    (cpu_price_per_hour r) (memory_price_per_gb_hour r) (gpu_price_per_hour r)
    (assigned_at r) (started_at r) (finished_at r) (runtime_type r) (runtime_object_id r)
    (runtime_namespace r) (runtime_resource_kind r) (runtime_resource_name r)
    (runtime_resource_uid r) (runtime_worker_session_id r) (observed_pod_name r)
    (observed_pod_uid r) (runtime_spec_hash r) (error_category r) (error_code r)
    (error_message r).
End TaskExecution.

(** A row of [usage_ledger], keyed by [execution_id], which is unique. *)
Module UsageLedger.
Record t := mk {
  project_id : N;
  task_id : N;
  started_at : Z;
  finished_at : Z;
  cpu_seconds : decimal;
  memory_gb_seconds : decimal;
  gpu_seconds : decimal;
  gpu_model : option string;
  cost : decimal;
}.
#[global] Instance eta : Eta t := fun r =>
  mk (project_id r) (task_id r) (started_at r) (finished_at r) (cpu_seconds r)
    (memory_gb_seconds r) (gpu_seconds r) (gpu_model r) (cost r).
End UsageLedger.

(** A row of [project_quotas]. *)
Module ProjectQuota.
Record t := mk {
  max_queued_tasks : option Z;
  max_running_tasks : option Z;
  max_cpu_millicores : option Z;
  max_memory_mb : option Z;
  max_gpus : option Z;
  max_nvidia_gpus : option Z;
  max_ascend_npus : option Z;
  max_services : option Z;
  max_service_replicas : option Z;
  max_artifact_bytes : option Z;
  daily_cost_limit : option decimal;
  version : Z;
  updated_at : Z;
}.
#[global] Instance eta : Eta t := fun r =>
  mk (max_queued_tasks r) (max_running_tasks r) (max_cpu_millicores r) (max_memory_mb r)
    (max_gpus r) (max_nvidia_gpus r) (max_ascend_npus r) (max_services r)
    (max_service_replicas r) (max_artifact_bytes r) (daily_cost_limit r) (version r)
    (updated_at r).
End ProjectQuota.

(** A row of [project_quota_state]. *)
Module ProjectQuotaState.
Record t := mk {
  queued_tasks : Z;
  running_tasks : Z;
  reserved_cpu_millicores : Z;
  reserved_memory_mb : Z;
  reserved_gpus : Z;
  reserved_nvidia_gpus : Z;
  reserved_ascend_npus : Z;
  service_count : Z;
  service_replicas : Z;
  service_reserved_cpu_millicores : Z;
  service_reserved_memory_mb : Z;
  service_reserved_gpus : Z;
  service_reserved_nvidia_gpus : Z;
  service_reserved_ascend_npus : Z;
  artifact_bytes : Z;
  accounting_date : Z;
  daily_reserved_cost : decimal;
  daily_settled_cost : decimal;
  version : Z;
  updated_at : Z;
}.
#[global] Instance eta : Eta t := fun r =>
  mk (queued_tasks r) (running_tasks r) (reserved_cpu_millicores r) (reserved_memory_mb r)
    (reserved_gpus r) (reserved_nvidia_gpus r) (reserved_ascend_npus r) (service_count r)
    (service_replicas r) (service_reserved_cpu_millicores r)
    (service_reserved_memory_mb r) (service_reserved_gpus r)
    (service_reserved_nvidia_gpus r) (service_reserved_ascend_npus r) (artifact_bytes r)
    (accounting_date r) (daily_reserved_cost r) (daily_settled_cost r) (version r)
    (updated_at r).
End ProjectQuotaState.

(** A row of [preemption_plans]. *)
Module PreemptionPlan.
Record t := mk {
  id : N;
  incoming_task_id : N;
  victim_task_id : N;
  worker_id : string;
  state : string;
  created_at : Z;
  completed_at : option Z;
}.
#[global] Instance eta : Eta t := fun r =>
  mk (id r) (incoming_task_id r) (victim_task_id r) (worker_id r) (state r) (created_at r)
    (completed_at r).
End PreemptionPlan.

(** A row of [placement_attempts]. *)
Module PlacementAttempt.
Record t := mk {
  task_id : N;
  scheduler_id : string;
  worker_id : option string;
  policy : string;
  outcome : string;
  reason : option string;
  detail : option string;
  effective_priority : Z;
  created_at : Z;
}.
End PlacementAttempt.

(** A row of [task_dependencies] ([models/artifact.py]). *)
Module TaskDependency.
Record t := mk {
  task_id : N;
  depends_on_task_id : N;
  job_group_id : option N;
  failure_policy : string;
}.
#[global] Instance eta : Eta t := fun r =>
  mk (task_id r) (depends_on_task_id r) (job_group_id r) (failure_policy r).
End TaskDependency.

(** A row of [job_groups] ([models/artifact.py]); the retry policy by its
    compact JSON text. *)
Module JobGroup.
Record t := mk {
  id : N;
  project_id : N;
  name : string;
  status : string;
  retry_policy : string;
  created_at : Z;
  finished_at : option Z;
}.
#[global] Instance eta : Eta t := fun r =>
  mk (id r) (project_id r) (name r) (status r) (retry_policy r) (created_at r) (finished_at r).
End JobGroup.

(** A row of [task_events]. *)
Module TaskEvent.
Record t := mk {
  project_id : N;
  task_id : N;
  event_type : string;
  sequence : Z;
  from_status : option TaskStatus;
  status : TaskStatus;
  execution_id : option N;
  worker_id : option string;
  details : list (string * Json);
  created_at : Z;
}.
#[global] Instance eta : Eta t := fun r =>
  mk (project_id r) (task_id r) (event_type r) (sequence r) (from_status r) (status r)
    (execution_id r) (worker_id r) (details r) (created_at r).
End TaskEvent.

(** A row of [task_logs]. *)
Module TaskLog.
Record t := mk {
  task_id : N;
  execution_id : option N;
  stream : LogStream;
  sequence : Z;
  content : string;
  timestamp : Z;
}.
#[global] Instance eta : Eta t := fun r =>
  mk (task_id r) (execution_id r) (stream r) (sequence r) (content r) (timestamp r).
End TaskLog.

(** A row of [outbox_events] ([models/outbox.py]) as inserted. *)
Module OutboxEvent.
Record t := mk {
  aggregate_id : N;
  event_type : string;
  payload : list (string * Json);
  available_at : Z;
  aggregate_type : string;
}.
#[global] Instance eta : Eta t := fun r =>
  mk (aggregate_id r) (event_type r) (payload r) (available_at r) (aggregate_type r).
End OutboxEvent.

(** A row of [model_services] ([models/service.py]).  The string columns that a
    check constraint limits to the members of an enumeration have its type. *)
Module ModelService.
Record t := mk {
  id : N;
  project_id : N;
  registered_model_id : option N;
  name : string;
  model : string;
  model_revision : option string;
  runtime : ServingRuntime;
  runtime_type : RuntimeType;
  image : option string;
  cpu_millicores : Z;
  memory_mb : Z;
  gpu_count : Z;
  gpu_memory_mb : Z;
  gpu_model : option string;
  logical_model_id : option N;
  model_variant_id : option N;
  selected_vendor : option AcceleratorVendor;
  selected_kind : option AcceleratorKind;
  selected_model : option string;
  runtime_profile_id : option string;
  runtime_profile_version : option string;
  runtime_profile_digest : option string;
  allocation_authority : option AllocationAuthority;
  accelerator_resource_name : option string;
  selection_policy : option AcceleratorSelectionPolicy;
  eligible_node_names : option (list string);
  tensor_parallel_size : Z;
  dtype : string;
  gpu_memory_utilization : float;
  max_model_len : option Z;
  desired_replicas : Z;
  autoscaling_enabled : bool;
  autoscaling_min_replicas : Z;
  autoscaling_max_replicas : Z;
  autoscaling_target_concurrency : Z;
  autoscaling_cooldown_seconds : Z;
  last_scaled_at : option Z;
  last_autoscale_checked_at : option Z;
  generation : Z;
  status : ServiceStatus.t;
  round_robin_cursor : Z;
  scheduling_reason : option string;
  scheduling_details : list (string * Json);
  error_message : option string;
  created_at : Z;
  updated_at : Z;
  stopped_at : option Z;
  version : Z;
}.
#[global] Instance eta : Eta t := fun r =>
  mk (id r) (project_id r) (registered_model_id r) (name r) (model r) (model_revision r)
    (runtime r) (runtime_type r) (image r) (cpu_millicores r) (memory_mb r) (gpu_count r)
    (gpu_memory_mb r) (gpu_model r) (logical_model_id r) (model_variant_id r) (selected_vendor r)
    (selected_kind r) (selected_model r) (runtime_profile_id r) (runtime_profile_version r)
    (runtime_profile_digest r) (allocation_authority r) (accelerator_resource_name r)
    (selection_policy r) (eligible_node_names r) (tensor_parallel_size r) (dtype r)
    (gpu_memory_utilization r) (max_model_len r) (desired_replicas r) (autoscaling_enabled r)
    (autoscaling_min_replicas r) (autoscaling_max_replicas r) (autoscaling_target_concurrency r)
    (autoscaling_cooldown_seconds r) (last_scaled_at r) (last_autoscale_checked_at r)
    (generation r) (status r) (round_robin_cursor r) (scheduling_reason r) (scheduling_details r)
    (error_message r) (created_at r) (updated_at r) (stopped_at r) (version r).
End ModelService.

(** A row of [service_replicas] ([models/service.py]). *)
Module ServiceReplica.
Record t := mk {
  id : N;
  service_id : N;
  runtime : ServingRuntime;
  generation : Z;
  ordinal : Z;
  status : ReplicaStatus.t;
  health : ReplicaHealth.t;
  worker_id : option string;
  execution_id : option N;
  endpoint_url : option string;
  lease_expires_at : option Z;
  last_health_at : option Z;
  health_probe_token : option N;
  health_probe_expires_at : option Z;
  health_failure_count : Z;
  active_requests : Z;
  logical_model_id : option N;
  model_variant_id : option N;
  selected_vendor : option AcceleratorVendor;
  selected_kind : option AcceleratorKind;
  selected_model : option string;
  runtime_profile_id : option string;
  runtime_profile_version : option string;
  runtime_profile_digest : option string;
  allocation_authority : option AllocationAuthority;
  accelerator_resource_name : option string;
  selection_policy : option AcceleratorSelectionPolicy;
  eligible_node_names : option (list string);
  assigned_node_name : option string;
  model_revision : option string;
  image_digest : option string;
  error_code : option string;
  error_message : option string;
  created_at : Z;
  updated_at : Z;
  started_at : option Z;
  container_started_at : option Z;
  ready_at : option Z;
  drain_started_at : option Z;
  drain_deadline : option Z;
  stopped_at : option Z;
  version : Z;
}.
#[global] Instance eta : Eta t := fun r =>
  mk (id r) (service_id r) (runtime r) (generation r) (ordinal r) (status r) (health r)
    (worker_id r) (execution_id r) (endpoint_url r) (lease_expires_at r) (last_health_at r)
    (health_probe_token r) (health_probe_expires_at r) (health_failure_count r)
    (active_requests r) (logical_model_id r) (model_variant_id r) (selected_vendor r)
    (selected_kind r) (selected_model r) (runtime_profile_id r) (runtime_profile_version r)
    (runtime_profile_digest r) (allocation_authority r) (accelerator_resource_name r)
    (selection_policy r) (eligible_node_names r) (assigned_node_name r) (model_revision r)
    (image_digest r) (error_code r) (error_message r) (created_at r) (updated_at r) (started_at r)
    (container_started_at r) (ready_at r) (drain_started_at r) (drain_deadline r) (stopped_at r)
    (version r).
End ServiceReplica.

(** A row of [logical_models] ([models/model_variant.py]). *)
Module LogicalModel.
Record t := mk {
  id : N;
  project_id : N;
  name : string;
  public_name : string;
  description : option string;
  status : ModelAvailabilityStatus.t;
  routing_policy : GatewayRoutingPolicy.t;
  routing_cursor : Z;
  metadata_json : list (string * Json);
  created_by_user_id : option N;
  created_at : Z;
  updated_at : Z;
  version : Z;
}.
#[global] Instance eta : Eta t := fun r =>
  mk (id r) (project_id r) (name r) (public_name r) (description r) (status r) (routing_policy r)
    (routing_cursor r) (metadata_json r) (created_by_user_id r) (created_at r) (updated_at r)
    (version r).
End LogicalModel.

(** A row of [model_variants] ([models/model_variant.py]). *)
Module ModelVariant.
Record t := mk {
  id : N;
  logical_model_id : N;
  name : string;
  vendor : AcceleratorVendor;
  kind : AcceleratorKind;
  runtime_profile_id : string;
  runtime_profile_version : string;
  runtime_profile_digest : string;
  artifact_source : string;
  artifact_revision : string;
  artifact_digest : string;
  architecture : string;
  dtype : string;
  quantization : option string;
  status : ModelAvailabilityStatus.t;
  status_reason : option string;
  metadata_json : list (string * Json);
  created_by_user_id : option N;
  created_at : Z;
  updated_at : Z;
  version : Z;
}.
#[global] Instance eta : Eta t := fun r =>
  mk (id r) (logical_model_id r) (name r) (vendor r) (kind r) (runtime_profile_id r)
    (runtime_profile_version r) (runtime_profile_digest r) (artifact_source r)
    (artifact_revision r) (artifact_digest r) (architecture r) (dtype r) (quantization r)
    (status r) (status_reason r) (metadata_json r) (created_by_user_id r) (created_at r)
    (updated_at r) (version r).
End ModelVariant.

(** A row of [logical_model_status_events], which are only appended. *)
Module LogicalModelStatusEvent.
Record t := mk {
  logical_model_id : N;
  from_status : option ModelAvailabilityStatus.t;
  to_status : ModelAvailabilityStatus.t;
  reason : string;
  model_version : Z;
  created_by_user_id : option N;
  created_at : Z;
}.
#[global] Instance eta : Eta t := fun r =>
  mk (logical_model_id r) (from_status r) (to_status r) (reason r) (model_version r)
    (created_by_user_id r) (created_at r).
End LogicalModelStatusEvent.

(** A row of [vendor_circuit_states] ([models/routing.py]), keyed by project,
    logical model and vendor, which are unique. *)
Module VendorCircuitState.
Record t := mk {
  id : N;
  state : string;
  failure_count : Z;
  opened_until : option Z;
  last_error_code : option string;
  version : Z;
  updated_at : Z;
}.
#[global] Instance eta : Eta t := fun r =>
  mk (id r) (state r) (failure_count r) (opened_until r) (last_error_code r) (version r)
    (updated_at r).
End VendorCircuitState.

(** A row of [audit_events] ([models/usage.py]) as the gateway inserts it. *)
Module AuditEvent.
Record t := mk {
  project_id : N;
  actor_type : string;
  action : string;
  resource_type : string;
  resource_id : option string;
  outcome : string;
  request_id : option string;
  details : list (string * Json);
  occurred_at : Z;
}.
#[global] Instance eta : Eta t := fun r =>
  mk (project_id r) (actor_type r) (action r) (resource_type r) (resource_id r) (outcome r)
    (request_id r) (details r) (occurred_at r).
End AuditEvent.

(** A row of [admission_events] ([models/admission.py]), one per decision of the
    vendor-aware admission; enumerated columns are the enumerations. *)
Module AdmissionEvent.
Record t := mk {
  project_id : N;
  workload_type : string;
  workload_id : N;
  execution_id : option N;
  policy : AcceleratorSelectionPolicy;
  outcome : string;
  reason : string;
  selected_vendor : option AcceleratorVendor;
  selected_kind : option AcceleratorKind;
  selected_model : option string;
  runtime_profile_id : option string;
  runtime_profile_version : option string;
  runtime_profile_digest : option string;
  model_variant_id : option N;
  allocation_authority : option AllocationAuthority;
  candidate_summary : list JsObject;
  occurred_at : Z;
}.
#[global] Instance eta : Eta t := fun r =>
  mk (project_id r) (workload_type r) (workload_id r) (execution_id r) (policy r) (outcome r) (reason r)
    (selected_vendor r) (selected_kind r) (selected_model r) (runtime_profile_id r)
    (runtime_profile_version r) (runtime_profile_digest r) (model_variant_id r) (allocation_authority r)
    (candidate_summary r) (occurred_at r).
End AdmissionEvent.

(** The whole database; [clock] is the transaction's CURRENT_TIMESTAMP and
    [projects] says which projects exist and are active. *)
Module Db.
Record t := mk {
  clock : Z;
  projects : gmap N bool;
  tasks : gmap N Task.t;
  workers : gmap string Worker.t;
  gpu_devices : gmap N GPUDevice.t;
  executions : gmap N TaskExecution.t;
  reservations : gmap N ResourceReservation.t;
  links : gmap (N * N) ReservationGPUDevice.t;
  quotas : gmap N ProjectQuota.t;
  quota_states : gmap N ProjectQuotaState.t;
  ledger : gmap N UsageLedger.t;
  plans : list PreemptionPlan.t;
  attempts : list PlacementAttempt.t;
  dependencies : list TaskDependency.t;
  events : list TaskEvent.t;
  logs : list TaskLog.t;
  outbox : list OutboxEvent.t;
  job_groups : gmap N JobGroup.t;
  services : gmap N ModelService.t;
  replicas : gmap N ServiceReplica.t;
  logical_models : gmap N LogicalModel.t;
  model_variants : gmap N ModelVariant.t;
  model_events : list LogicalModelStatusEvent.t;
  circuits : gmap (N * N * AcceleratorVendor) VendorCircuitState.t;
  audit : list AuditEvent.t;
  admission_events : list AdmissionEvent.t;
}.
#[global] Instance eta : Eta t := fun r =>
  mk (clock r) (projects r) (tasks r) (workers r) (gpu_devices r) (executions r)
    (reservations r) (links r) (quotas r) (quota_states r) (ledger r) (plans r) (attempts r)
    (dependencies r) (events r) (logs r) (outbox r) (job_groups r) (services r) (replicas r)
    (logical_models r) (model_variants r) (model_events r) (circuits r) (audit r) (admission_events r).

(** No rows, at the given time. *)
Definition empty (now : Z) : t := 
  mk now ∅ ∅ ∅ ∅ ∅ ∅ ∅ ∅ ∅ ∅ [] [] [] [] [] [] ∅ ∅ ∅ ∅ ∅ [] ∅ [] [].
End Db.

Definition Sess (A : Type) : Type := M Db.t PyError A.

(** ** Session primitives *)
Definition database_utcnow : Sess Z := gets Db.clock.

(** [timedelta(seconds=x)] raises for infinity and beyond [timedelta.max], and
    a [datetime] moved by it to [at_] raises outside the years 1 to 9999. *)
Definition overflows (x : float) (at_ : Z) : bool :=
  is_infinite x || negb (timedelta_ok (timedelta_seconds x)) || negb (datetime_ok at_).

Definition moved_to {S} (x : float) (at_ : Z) : M S PyError Z :=
  _ ← raise_if (is_nan x) (ValueError "cannot convert float NaN to integer");
  _ ← raise_if (overflows x at_) OverflowError;
  mret at_.

(** [now + timedelta(seconds=x)] and [now - timedelta(seconds=x)] *)
Definition plus_seconds {S} (now : Z) (x : float) : M S PyError Z := moved_to x (now + timedelta_seconds x).
Definition minus_seconds {S} (now : Z) (x : float) : M S PyError Z := moved_to x (now - timedelta_seconds x).

(** [now + timedelta(seconds=x)] is a [datetime]. *)
Definition addable (now : Z) (x : float) : bool :=
  negb (is_nan x) && negb (overflows x (now + timedelta_seconds x)).

Lemma plus_seconds_run {S} now x (db : S) :
  addable now x = true -> plus_seconds now x db = (inr (now + timedelta_seconds x), db).
Proof.
  unfold addable, plus_seconds, moved_to. rewrite andb_true_iff, !negb_true_iff.
  by intros [-> ->].
Qed.

Lemma plus_seconds_ok {S} now x (db : S) a db' :
  plus_seconds now x db = (inr a, db') -> a = now + timedelta_seconds x /\ db' = db.
Proof.
  unfold plus_seconds, moved_to. intros (_ & db1 & (_ & _ & ->)%raise_if_ok & H)%bind_ok.
  apply bind_ok in H as (_ & db2 & (_ & _ & ->)%raise_if_ok & H). by apply ret_ok in H.
Qed.

(** The UTC date of an instant, in days since the epoch. *)
Definition date_of (now : Z) : Z := now / 86400000000.

Definition get_task (i : N) : Sess (option Task.t) := gets (fun db => Db.tasks db !! i).
Definition get_worker (i : string) : Sess (option Worker.t) := gets (fun db => Db.workers db !! i).
Definition get_execution (i : N) : Sess (option TaskExecution.t) :=
  gets (fun db => Db.executions db !! i).

(** Flushing a changed row. *)
Definition put_task (t : Task.t) : Sess unit :=
  modify (fun db => db <| Db.tasks ::= <[Task.id t := t]> |>).
Definition put_worker (w : Worker.t) : Sess unit :=
  modify (fun db => db <| Db.workers ::= <[Worker.id w := w]> |>).
Definition put_execution (e : TaskExecution.t) : Sess unit :=
  modify (fun db => db <| Db.executions ::= <[TaskExecution.id e := e]> |>).
Definition put_reservation (r : ResourceReservation.t) : Sess unit :=
  modify (fun db => db <| Db.reservations ::= <[ResourceReservation.id r := r]> |>).
Definition put_quota (p : N) (q : ProjectQuota.t) : Sess unit :=
  modify (fun db => db <| Db.quotas ::= <[p := q]> |>).
Definition put_quota_state (p : N) (s : ProjectQuotaState.t) : Sess unit :=
  modify (fun db => db <| Db.quota_states ::= <[p := s]> |>).

Definition add_event (e : TaskEvent.t) : Sess unit :=
  modify (fun db => db <| Db.events ::= fun l => l ++ [e] |>).
Definition add_log (l : TaskLog.t) : Sess unit :=
  modify (fun db => db <| Db.logs ::= fun ls => ls ++ [l] |>).

(** [OutboxRepository.add] *)
Definition outbox_add (aggregate_id : N) (event_type : string) (payload : list (string * Json))
    (available_at : Z) : Sess unit :=
  modify (fun db => db <| Db.outbox ::= fun l =>
    l ++ [OutboxEvent.mk aggregate_id event_type payload available_at "task"] |>).

Ltac store_prim H :=
  lazymatch type of H with
  | database_utcnow _ = _ => unfold database_utcnow in H
  | get_task _ _ = _ => unfold get_task in H
  | get_worker _ _ = _ => unfold get_worker in H
  | get_execution _ _ = _ => unfold get_execution in H
  | put_task _ _ = _ => unfold put_task in H
  | put_worker _ _ = _ => unfold put_worker in H
  | put_execution _ _ = _ => unfold put_execution in H
  | put_reservation _ _ = _ => unfold put_reservation in H
  | put_quota _ _ _ = _ => unfold put_quota in H
  | put_quota_state _ _ _ = _ => unfold put_quota_state in H
  | add_event _ _ = _ => unfold add_event in H
  | add_log _ _ = _ => unfold add_log in H
  | outbox_add _ _ _ _ _ = _ => unfold outbox_add in H
  | plus_seconds _ _ _ = _ => unfold plus_seconds, moved_to in H
  | minus_seconds _ _ _ = _ => unfold minus_seconds, moved_to in H
  end.
Ltac minv_prim H ::= store_prim H.

Ltac wp_prim ::=
  lazymatch goal with
  | |- wp database_utcnow _ _ _ => apply wp_gets; cbv beta
  | |- wp (get_task _) _ _ _ => apply wp_gets; cbv beta
  | |- wp (get_worker _) _ _ _ => apply wp_gets; cbv beta
  | |- wp (get_execution _) _ _ _ => apply wp_gets; cbv beta
  | |- wp (put_task _) _ _ _ => apply wp_modify; cbv beta
  | |- wp (put_worker _) _ _ _ => apply wp_modify; cbv beta
  | |- wp (put_execution _) _ _ _ => apply wp_modify; cbv beta
  | |- wp (put_reservation _) _ _ _ => apply wp_modify; cbv beta
  | |- wp (put_quota _ _) _ _ _ => apply wp_modify; cbv beta
  | |- wp (put_quota_state _ _) _ _ _ => apply wp_modify; cbv beta
  | |- wp (add_event _) _ _ _ => apply wp_modify; cbv beta
  | |- wp (add_log _) _ _ _ => apply wp_modify; cbv beta
  | |- wp (outbox_add _ _ _ _) _ _ _ => apply wp_modify; cbv beta
  | |- wp (plus_seconds _ _) _ _ _ => unfold plus_seconds, moved_to; wstep
  end.

(** The rows of a table. *)
Definition rows {K V} `{Countable K} (m : gmap K V) : list V := (map_to_list m).*2.

Lemma rows_elem {K V} `{Countable K} (m : gmap K V) v : v ∈ rows m <-> exists k, m !! k = Some v.
Proof.
  unfold rows. rewrite list_elem_of_fmap. split.
  - intros ([k v'] & -> & Hin%elem_of_map_to_list). eauto.
  - intros (k & Hk). exists (k, v). split; [done|]. by apply elem_of_map_to_list.
Qed.

(** A column that repeats the key has no duplicates. *)
Lemma rows_insert_new {V} (m : gmap N V) k v : m !! k = None -> rows (<[k := v]> m) ≡ₚ v :: rows m.
Proof. intros H. unfold rows. by rewrite map_to_list_insert. Qed.

Lemma rows_keys {K V} `{Countable K} (m : gmap K V) (key : V -> K) :
  (forall i v, m !! i = Some v -> key v = i) -> NoDup (key <$> rows m).
Proof.
  intros Hk. unfold rows. rewrite <-list_fmap_compose, (list_fmap_ext _ fst (map_to_list m)).
  - apply NoDup_fst_map_to_list.
  - intros j [k t] Hj. cbn. apply list_elem_of_lookup_2, elem_of_map_to_list in Hj. eauto.
Qed.

(** A reservation or a device link is active until it is released. *)
Definition active_reservation (r : ResourceReservation.t) : bool :=
  bool_decide (ResourceReservation.released_at r = None).
Definition active_link (l : ReservationGPUDevice.t) : bool :=
  bool_decide (ReservationGPUDevice.released_at l = None).

(** The check constraints of [tasks] that concern columns given at creation. *)
Definition task_checks (t : Task.t) : bool :=
  (0 <=? Task.priority t) && (Task.priority t <=? 100) && (0 <? Task.cpu_millicores t)
  && (0 <=? Task.gpu_memory_mb t) && flt f0 (Task.retry_base_seconds t)
  && fle (Task.retry_base_seconds t) (Task.retry_max_seconds t).

(** Primary key, check constraints and [uq_tasks_project_idempotency]. *)
Definition insert_task (t : Task.t) : Sess unit :=
  taken ← gets (fun db => bool_decide (is_Some (Db.tasks db !! Task.id t)));
  rows ← gets (fun db => (map_to_list (Db.tasks db)).*2);
  _ ← raise_if taken (IntegrityError "tasks_pkey");
  _ ← raise_if (negb (task_checks t)) (IntegrityError "ck_tasks");
  _ ← raise_if (bool_decide (is_Some (Task.idempotency_key t)) && existsb (fun x =>
        (Task.project_id x == Task.project_id t)
        && (Task.idempotency_key x == Task.idempotency_key t)) rows)
      (IntegrityError "uq_tasks_project_idempotency");
  put_task t.

(** The check constraints of [task_executions]; the column [model_variant_id]
    is not in the model, being always null in the modelled insertions. *)
Definition execution_checks (e : TaskExecution.t) : bool :=
  (if TaskExecution.gpu_count e =? 0
   then bool_decide (TaskExecution.requested_vendor e = None) && bool_decide (TaskExecution.requested_kind e = None)
        && bool_decide (TaskExecution.requested_profile_id e = None) && bool_decide (TaskExecution.requested_profile_version e = None)
        && bool_decide (TaskExecution.requested_profile_digest e = None)
   else (0 <? TaskExecution.gpu_count e)
        && bool_decide (is_Some (TaskExecution.requested_vendor e)) && bool_decide (is_Some (TaskExecution.requested_kind e)))
  && match TaskExecution.requested_profile_id e, TaskExecution.requested_profile_version e,
           TaskExecution.requested_profile_digest e with
     | None, None, None =>
         (TaskExecution.gpu_count e =? 0)
         || (TaskExecution.allocation_authority e !== KUBERNETES_DEVICE_PLUGIN)
     | Some _, Some _, Some d => String.prefix "sha256:" d && (String.length d =? 71)%nat
     | _, _, _ => false
     end
  && match TaskExecution.requested_vendor e with
     | None => true
     | Some v => TaskExecution.requested_kind e == Some (kind_for_vendor v)
     end
  && match TaskExecution.observed_at e, TaskExecution.observed_vendor e, TaskExecution.observed_device_ids_json e with
     | None, None, None => true
     | Some _, Some v, Some _ =>
         match TaskExecution.requested_vendor e with None => true | Some requested => v == requested end
     | _, _, _ => false
     end
  && match TaskExecution.runtime_namespace e, TaskExecution.runtime_resource_kind e,
           TaskExecution.runtime_resource_name e, TaskExecution.runtime_resource_uid e,
           TaskExecution.runtime_spec_hash e, TaskExecution.runtime_worker_session_id e with
     | None, None, None, None, None, None | Some _, Some _, Some _, Some _, Some _, Some _ => true
     | _, _, _, _, _, _ => false
     end
  && match TaskExecution.observed_pod_name e, TaskExecution.observed_pod_uid e with
     | None, None | Some _, Some _ => true
     | _, _ => false
     end.

(** Primary key, check constraints and [uq_task_executions_task_attempt]. *)
Definition insert_execution (e : TaskExecution.t) : Sess unit :=
  taken ← gets (fun db => bool_decide (is_Some (Db.executions db !! TaskExecution.id e)));
  rows ← gets (fun db => (map_to_list (Db.executions db)).*2);
  _ ← raise_if taken (IntegrityError "task_executions_pkey");
  _ ← raise_if (negb (execution_checks e)) (IntegrityError "ck_task_executions");
  _ ← raise_if (existsb (fun x => (TaskExecution.task_id x == TaskExecution.task_id e)
        && (TaskExecution.attempt x =? TaskExecution.attempt e)) rows)
      (IntegrityError "uq_task_executions_task_attempt");
  put_execution e.

(** The check constraints of [resource_reservations] on resources, requested
    accelerator and exact-device evidence. *)
Definition reservation_checks (r : ResourceReservation.t) : bool :=
  (0 <? ResourceReservation.cpu_millicores r) && (0 <? ResourceReservation.memory_mb r)
  && (0 <=? ResourceReservation.gpu_count r)
  && (if ResourceReservation.gpu_count r =? 0
      then bool_decide (ResourceReservation.requested_vendor r = None)
           && bool_decide (ResourceReservation.requested_kind r = None)
           && bool_decide (ResourceReservation.requested_profile_id r = None)
           && bool_decide (ResourceReservation.requested_profile_version r = None)
           && bool_decide (ResourceReservation.requested_profile_digest r = None)
      else bool_decide (is_Some (ResourceReservation.requested_vendor r))
           && bool_decide (is_Some (ResourceReservation.requested_kind r)))
  && match ResourceReservation.requested_vendor r with
     | None => true
     | Some v => ResourceReservation.requested_kind r == Some (kind_for_vendor v)
     end
  && ((ResourceReservation.gpu_count r =? 0)
      || (ResourceReservation.allocation_authority r == KUBERNETES_DEVICE_PLUGIN)
      || ResourceReservation.legacy_unbound r
      || bool_decide (is_Some (ResourceReservation.observed_device_ids_json r)))
  && match ResourceReservation.requested_profile_id r, ResourceReservation.requested_profile_version r,
           ResourceReservation.requested_profile_digest r with
     | None, None, None =>
         (ResourceReservation.gpu_count r =? 0)
         || (ResourceReservation.allocation_authority r !== KUBERNETES_DEVICE_PLUGIN)
     | Some _, Some _, Some d => String.prefix "sha256:" d && (String.length d =? 71)%nat
     | _, _, _ => false
     end.

(** Primary key, check constraints, [uq_resource_reservations_execution] and
    the partial index [uq_reservations_active_task]. *)
Definition insert_reservation (r : ResourceReservation.t) : Sess unit :=
  rows ← gets (fun db => (map_to_list (Db.reservations db)).*2);
  taken ← gets (fun db => bool_decide (is_Some (Db.reservations db !! ResourceReservation.id r)));
  _ ← raise_if taken (IntegrityError "resource_reservations_pkey");
  _ ← raise_if (negb (reservation_checks r)) (IntegrityError "ck_resource_reservations");
  _ ← raise_if (existsb (fun x =>
        ResourceReservation.execution_id x == ResourceReservation.execution_id r) rows)
      (IntegrityError "uq_resource_reservations_execution");
  _ ← raise_if (active_reservation r && existsb (fun x => active_reservation x &&
        (ResourceReservation.task_id x == ResourceReservation.task_id r)) rows)
      (IntegrityError "uq_reservations_active_task");
  put_reservation r.

(** [uq_reservation_gpu_device] and the partial index
    [uq_reservation_gpu_active]: a device has one active owner. *)
Definition insert_link (reservation_id gpu_device_id : N) (l : ReservationGPUDevice.t) : Sess unit :=
  rows ← gets (fun db => map_to_list (Db.links db));
  _ ← raise_if (existsb (fun x => x.1 == (reservation_id, gpu_device_id)) rows)
      (IntegrityError "uq_reservation_gpu_device");
  _ ← raise_if (active_link l && existsb (fun x =>
        active_link x.2 && (x.1.2 == gpu_device_id)) rows)
      (IntegrityError "uq_reservation_gpu_active");
  modify (fun db => db <| Db.links ::= <[(reservation_id, gpu_device_id) := l]> |>).
