(* ===== verification/Frames.v ===== *)
(** * Frames: what a repository method leaves alone

    [frames R m] says that every run of [m], whether it returns or raises,
    relates the database before to the database after by the preorder [R].
    It composes along the statements of a method, so the tactic [frame_by]
    proves it from the writes alone: [leaf] solves the goal [R db (f db)] of a
    write [f].  Facts about helpers that the methods share are collected in
    the hint database [frames]. *)

From S2P Require Import Prelude Store.

Section frames.
Context (R : relation Db.t) `{!PreOrder R}.

Definition frames {A} (m : Sess A) : Prop := forall db, R db (m db).2.

Lemma frames_ret {A} (a : A) : frames (mret a).
Proof. by intros db. Qed.
Lemma frames_raise {A} e : frames (raise e : Sess A).
Proof. by intros db. Qed.
Lemma frames_gets {A} (f : Db.t -> A) : frames (gets f : Sess A).
Proof. by intros db. Qed.
Lemma frames_raise_if b e : frames (raise_if b e : Sess unit).
Proof. intros db. by destruct b. Qed.
Lemma frames_bind {A B} (m : Sess A) (f : A -> Sess B) :
  frames m -> (forall a, frames (f a)) -> frames (m ≫= f).
Proof.
  intros Hm Hf db. unfold mbind, M_bind. pose proof (Hm db) as Hdb.
  destruct (m db) as [[e|a] db1]; [done|]. etrans; [exact Hdb|apply Hf].
Qed.
Lemma frames_when b (m : Sess unit) : frames m -> frames (when b m).
Proof. intros H. destruct b; [done|apply frames_ret]. Qed.
Lemma frames_for_each {X} (l : list X) (body : X -> Sess unit) :
  (forall x, frames (body x)) -> frames (for_each l body).
Proof.
  intros H. induction l as [|x l IH]; [apply frames_ret|]. by apply frames_bind.
Qed.
Lemma frames_foldM {X A} (l : list X) (body : A -> X -> Sess A) a :
  (forall a x, frames (body a x)) -> frames (foldM l a body).
Proof.
  intros H. revert a. induction l as [|x l IH]; intros a; [apply frames_ret|]. by apply frames_bind.
Qed.
Lemma frames_try {A} (m : Sess A) h :
  frames m -> (forall e m', h e = Some m' -> frames m') -> frames (try_except m h).
Proof.
  intros Hm Hh db. unfold try_except. pose proof (Hm db) as Hdb.
  destruct (m db) as [[e|a] db1]; [|done]. destruct (h e) as [m'|] eqn:E; [|done].
  etrans; [exact Hdb|by apply (Hh e)].
Qed.
Lemma frames_atomically {A} (m : Sess A) : frames m -> frames (atomically m).
Proof.
  intros Hm db. unfold atomically. pose proof (Hm db) as Hdb. by destruct (m db) as [[e|a] db1].
Qed.
Lemma frames_modify (f : Db.t -> Db.t) : (forall db, R db (f db)) -> frames (modify f : Sess unit).
Proof. intros H db. apply H. Qed.

(** What a run that returns leaves. *)
Lemma frames_run {A} (m : Sess A) db r db' : frames m -> m db = (r, db') -> R db db'.
Proof. intros Hm E. pose proof (Hm db) as H. by rewrite E in H. Qed.
End frames.

Create HintDb frames.
Ltac head t := lazymatch t with ?f _ => head f | _ => t end.
Ltac frame_by leaf :=
  lazymatch goal with
  | |- forall _, _ => intros; frame_by leaf
  | |- frames _ (mret _) => apply frames_ret; exact _
  | |- frames _ (raise _) => apply frames_raise; exact _
  | |- frames _ (gets _) => apply frames_gets; exact _
  | |- frames _ (raise_if _ _) => apply frames_raise_if; exact _
  | |- frames _ (_ ≫= _) => apply frames_bind; [exact _|frame_by leaf|frame_by leaf]
  | |- frames _ (when _ _) => apply frames_when; [exact _|frame_by leaf]
  | |- frames _ (for_each _ _) => apply frames_for_each; [exact _|frame_by leaf]
  | |- frames _ (foldM _ _ _) => apply frames_foldM; [exact _|frame_by leaf]
  | |- frames _ (try_except _ _) =>
      apply frames_try; [exact _|frame_by leaf|
        intros [] m' Hm'; try discriminate Hm'; injection Hm' as <-; frame_by leaf]
  | |- frames _ (atomically _) => apply frames_atomically; [exact _|frame_by leaf]
  | |- frames _ (modify _) => apply frames_modify; intros ?; leaf
  | |- frames _ (match ?x with _ => _ end) =>
      first [progress (cbv beta iota) | destruct x]; frame_by leaf
  | |- frames _ (let _ := _ in _) => cbv zeta; frame_by leaf
  | |- frames _ ?m =>
      let h := head m in
      lazymatch h with
      | match ?x with _ => _ end => destruct x; cbv beta; frame_by leaf
      | fun _ => _ => cbv beta; frame_by leaf
      | _ => first [solve [eauto with frames nocore] | unfold h; cbv beta; frame_by leaf]
      end
  end.

(** The clock does not move within a transaction. *)
Definition same_clock (db db' : Db.t) : Prop := Db.clock db' = Db.clock db.
#[export] Instance same_clock_preorder : PreOrder same_clock.
Proof. split; [done|]. unfold same_clock. intros a b c. congruence. Qed.
Ltac frame_clock := frame_by ltac:(unfold same_clock; fields; reflexivity).
