(* ===== verification/Names.v ===== *)
(** * Names and addresses of services

    The checks of [core/kubernetes_names.py], the shared name space of
    services and logical models ([repositories/gateway_model_names.py]), and the
    helpers of [repositories/services.py] that validate an endpoint address,
    an image digest and an eligible-node snapshot. *)

From S2P Require Import Prelude PyString PyUrl PyFloat Enums Store.
From Stdlib Require Import Ascii String.

#[local] Open Scope stdpp_scope.
#[local] Open Scope Z_scope.

(** ** core/kubernetes_names.py *)
Definition dns_alnum (a : ascii) : bool := is_lower a || is_digit a.
Definition dns_char (a : ascii) : bool := dns_alnum a || Ascii.eqb a "-".

Fixpoint last_char (a : ascii) (s : string) : ascii :=
  match s with EmptyString => a | String b s' => last_char b s' end.

(** [_DNS_1123_LABEL.fullmatch] for [[a-z0-9](?:[-a-z0-9]{0,61}[a-z0-9])?] *)
Definition _DNS_1123_LABEL (s : string) : bool :=
  match s with
  | EmptyString => false
  | String a s' => dns_alnum a && str_forallb dns_char s' && dns_alnum (last_char a s')
                   && (slen s <=? 63)
  end.

Definition kubernetes_dns_subdomain (value : string) : bool :=
  negb (is_empty value || (value !== strip value) || (253 <? slen value)
        || existsb (fun label => negb (_DNS_1123_LABEL label)) (split_on "." value)).

Definition validate_kubernetes_dns_subdomain (value field_name : string) : Sess string :=
  _ ← raise_if (negb (kubernetes_dns_subdomain value))
        (ValueError (field_name +:+ " must be a valid Kubernetes DNS-1123 subdomain"));
  mret value.

(** ** Helpers of repositories/services.py *)
Definition origin (parsed : SplitResult.t) : bool :=
  negb (negb (inb (SplitResult.scheme parsed) ["http"; "https"])
        || is_empty (SplitResult.hostname parsed)
        || SplitResult.has_username parsed || SplitResult.has_password parsed
        || negb (is_empty (SplitResult.query parsed)) || negb (is_empty (SplitResult.fragment parsed))
        || negb (inb (SplitResult.path parsed) [""; "/"])).

Definition _validate_endpoint_url (endpoint_url : string) : Sess unit :=
  match urlsplit endpoint_url with
  | None => raise (ValueError "Invalid IPv6 URL")
  | Some parsed =>
      raise_if (negb (origin parsed))
        (ValueError "endpoint_url must be an absolute HTTP(S) origin without path, credentials, query or fragment")
  end.

Definition sha256_digest (digest : string) : bool :=
  String.prefix "sha256:" digest && (slen digest =? 71).

Definition _image_digest (image : option string) : option string :=
  match image with
  | None => None
  | Some image =>
      let '(_, separator, digest) := rpartition "@" image in
      if separator && sha256_digest digest then Some digest else None
  end.

(** [values] is a sequence of strings; a sequence is not a string here, so
    the code's type tests have nothing to reject. *)
Definition _eligible_node_snapshot (values : option (list string)) (logical_model_id : option N)
  : Sess (option (list string)) :=
  match logical_model_id with
  | None =>
      _ ← raise_if (bool_decide (values <> None))
            (ValueError "eligible_node_names requires a logical model");
      mret None
  | Some _ =>
      match values with
      | None => raise (ValueError "logical services require an eligible-node snapshot")
      | Some values =>
          names ← foldM values [] (fun names value =>
            name ← validate_kubernetes_dns_subdomain value "eligible node name";
            mret (names ++ [name]));
          let canonical := py_sort (fun s => s) (remove_dups names) in
          _ ← raise_if (bool_decide (canonical = []))
                (ValueError "logical services require a non-empty eligible-node snapshot");
          mret (Some canonical)
      end
  end.

(** ** repositories/gateway_model_names.py *)
Definition lock_gateway_model_namespace (project_id : N) : Sess (option bool) :=
  gets (fun db => Db.projects db !! project_id).

Definition services_named (db : Db.t) (project_id : N) (name : string) : list ModelService.t :=
  List.filter (fun s => (ModelService.project_id s == project_id) && (ModelService.name s == name))
    (rows (Db.services db)).

Definition check_logical_public_name_available (project_id : N) (public_name : string) : Sess unit :=
  conflicting ← gets (fun db => services_named db project_id public_name);
  raise_if (bool_decide (conflicting <> [])) (GatewayModelNameConflictError public_name).

Definition models_public (db : Db.t) (project_id : N) (public_name : string) : list LogicalModel.t :=
  List.filter (fun m => (LogicalModel.project_id m == project_id)
                        && (LogicalModel.public_name m == public_name))
    (rows (Db.logical_models db)).

(** [(project_id, public_name)] is unique, so the query has at most one row. *)
Definition check_service_name_available (project_id : N) (service_name : string)
    (logical_model_id : option N) : Sess unit :=
  public_owner ← gets (fun db => head (models_public db project_id service_name));
  match public_owner with
  | Some m => raise_if (Some (LogicalModel.id m) !== logical_model_id)
                (GatewayModelNameConflictError service_name)
  | None => mret tt
  end.
