(* ===== verification/Quotas.v ===== *)
(** * Project quotas ([repositories/quotas.py])

    Counters of a project are changed under the project's row lock; every
    check precedes the mutation.  The operations below are the methods of
    [QuotaRepository] and the module's private helpers. *)

From S2P Require Import Prelude PyFloat Enums Store.
From Stdlib Require Import QArith.

#[local] Open Scope stdpp_scope.
#[local] Open Scope Z_scope.

Import ProjectQuota ProjectQuotaState.

Notation Quota := ProjectQuota.t.
Notation QState := ProjectQuotaState.t.
Notation QVersion := ProjectQuotaState.version.

Definition ZERO_COST : decimal := 0%Q.

(** [a < b] on decimals. *)
Definition dec_ltb (a b : decimal) : bool := negb (Qle_bool b a).

(** ** Private helpers *)
Definition exceeds (limit : option Z) (requested : Z) : bool :=
  match limit with Some l => l <? requested | None => false end.

Definition _check_limit (resource : string) (limit : option Z) (requested : Z) : Sess unit :=
  raise_if (exceeds limit requested) (QuotaExceededError resource).

Definition exceeds_cost (limit : option decimal) (requested : decimal) : bool :=
  match limit with Some l => dec_ltb l requested | None => false end.

Definition _check_cost (resource : string) (limit : option decimal) (requested : decimal) : Sess unit :=
  raise_if (exceeds_cost limit requested) (QuotaExceededError resource).

Definition _validate_reservation (cpu_millicores memory_mb gpu_count : Z) (cost : decimal) : Sess unit :=
  raise_if ((cpu_millicores <? 0) || (memory_mb <? 0) || (gpu_count <? 0) || dec_ltb cost 0%Q)
    (ValueError "reservation resources and cost must be non-negative").

Definition counters (s : QState) : list Z :=
  [queued_tasks s; running_tasks s; reserved_cpu_millicores s; reserved_memory_mb s;
   reserved_gpus s; reserved_nvidia_gpus s; reserved_ascend_npus s; service_count s;
   service_replicas s; service_reserved_cpu_millicores s; service_reserved_memory_mb s;
   service_reserved_gpus s; service_reserved_nvidia_gpus s; service_reserved_ascend_npus s;
   artifact_bytes s].

Definition _assert_state_nonnegative (s : QState) : Sess unit :=
  _ ← raise_if (existsb (fun v => v <? 0) (counters s)
                || dec_ltb (daily_reserved_cost s) 0%Q || dec_ltb (daily_settled_cost s) 0%Q)
        (QuotaInvariantViolation "project quota state has negative counters");
  _ ← raise_if (negb (reserved_gpus s =? reserved_nvidia_gpus s + reserved_ascend_npus s))
        (QuotaInvariantViolation "task accelerator aggregate does not match typed counters");
  raise_if (negb (service_reserved_gpus s
                  =? service_reserved_nvidia_gpus s + service_reserved_ascend_npus s))
    (QuotaInvariantViolation "service accelerator aggregate does not match typed counters").

Definition _normalize_accelerator_vendor (value : option AcceleratorVendor) (gpu_count : Z)
  : option AcceleratorVendor :=
  if gpu_count =? 0 then None
  else match value with None => Some NVIDIA | Some v => Some v end.

(** [_roll_daily_state]: the state of a new accounting day and whether it
    changed. *)
Definition _roll_daily_state (s : QState) (current_date : Z) : QState * bool :=
  if negb (accounting_date s =? current_date)
  then (s <| accounting_date := current_date |>
          <| daily_reserved_cost := ZERO_COST |>
          <| daily_settled_cost := ZERO_COST |>
          <| QVersion ::= Z.succ |>, true)
  else (s, false).

(** [_touch_state], with the write of the changed row. *)
Definition _touch_state (project_id : N) (s : QState) : Sess QState :=
  _ ← _assert_state_nonnegative s;
  now ← database_utcnow;
  let s := s <| QVersion ::= Z.succ |> <| ProjectQuotaState.updated_at := now |> in
  _ ← put_quota_state project_id s;
  mret s.

Definition _validate_service_commitment (current_replicas desired_replicas cpu_millicores memory_mb
    gpu_count : Z) : Sess unit :=
  raise_if ((current_replicas <? 0) || (desired_replicas <? 0) || (cpu_millicores <? 0)
            || (memory_mb <? 0) || (gpu_count <? 0))
    (ValueError "service replicas and resources must be non-negative").

(** ** QuotaRepository *)

(** The rows SQLAlchemy inserts with the column defaults. *)
Definition default_quota (now : Z) : Quota :=
  ProjectQuota.mk None None None None None None (Some 0) None None None None 1 now.
Definition default_state (now : Z) : QState :=
  ProjectQuotaState.mk 0 0 0 0 0 0 0 0 0 0 0 0 0 0 0 (date_of now) 0%Q 0%Q 1 now.

Definition initialize (project_id : N) : Sess (Quota * QState) :=
  project ← gets (fun db => Db.projects db !! project_id);
  _ ← raise_if (negb (bool_decide (project = Some true)))
        (QuotaNotFoundError "active project does not exist");
  quota ← gets (fun db => Db.quotas db !! project_id);
  state ← gets (fun db => Db.quota_states db !! project_id);
  now ← database_utcnow;
  quota' ← match quota with
           | Some q => mret q
           | None => _ ← put_quota project_id (default_quota now); mret (default_quota now)
           end;
  state' ← match state with
           | Some s => mret s
           | None => _ ← put_quota_state project_id (default_state now); mret (default_state now)
           end;
  _ ← _assert_state_nonnegative state';
  mret (quota', state').

(** A read without the daily reset and without a lock. *)
Definition get_snapshot (project_id : N) : Sess (Quota * QState) :=
  quota ← gets (fun db => Db.quotas db !! project_id);
  state ← gets (fun db => Db.quota_states db !! project_id);
  match quota, state with
  | Some quota, Some state => _ ← _assert_state_nonnegative state; mret (quota, state)
  | _, _ => raise (QuotaNotFoundError "project quota state does not exist")
  end.

(** [get_locked] with [reset_daily=True], the value every caller uses. *)
Definition get_locked (project_id : N) : Sess (Quota * QState) :=
  quota ← gets (fun db => Db.quotas db !! project_id);
  state ← gets (fun db => Db.quota_states db !! project_id);
  match quota, state with
  | Some quota, Some state =>
      _ ← _assert_state_nonnegative state;
      now ← database_utcnow;
      let '(state', rolled) := _roll_daily_state state (date_of now) in
      if rolled
      then let state'' := state' <| ProjectQuotaState.updated_at := now |> in
           _ ← put_quota_state project_id state'';
           mret (quota, state'')
      else mret (quota, state')
  | _, _ => raise (QuotaNotFoundError "project quota state does not exist")
  end.

Definition admit_queued (project_id : N) : Sess QState :=
  '(quota, state) ← get_locked project_id;
  let prospective := queued_tasks state + 1 in
  _ ← _check_limit "queued_tasks" (max_queued_tasks quota) prospective;
  _touch_state project_id (state <| queued_tasks := prospective |>).

(** [ensure_task_can_fit] with [accelerator_vendors]; [None] takes the branch
    for the single [accelerator_vendor] argument. *)
Definition ensure_task_can_fit (quota : Quota) (cpu_millicores memory_mb gpu_count : Z)
    (accelerator_vendor : option AcceleratorVendor)
    (accelerator_vendors : option (list AcceleratorVendor)) : Sess unit :=
  _ ← _validate_reservation cpu_millicores memory_mb gpu_count ZERO_COST;
  _ ← _check_limit "running_tasks" (max_running_tasks quota) 1;
  _ ← _check_limit "cpu_millicores" (max_cpu_millicores quota) cpu_millicores;
  _ ← _check_limit "memory_mb" (max_memory_mb quota) memory_mb;
  _ ← _check_limit "gpus" (max_gpus quota) gpu_count;
  match accelerator_vendors with
  | Some accelerator_vendors =>
      _ ← raise_if (bool_decide (accelerator_vendor <> None))
            (ValueError "pass accelerator_vendor or accelerator_vendors, not both");
      let vendors := (fun v => _normalize_accelerator_vendor (Some v) gpu_count)
                     <$> accelerator_vendors in
      _ ← raise_if (bool_decide (vendors = []) || existsb (fun v => bool_decide (v = None)) vendors)
            (ValueError "accelerator_vendors must contain supported vendors");
      let limit v := match v with
                     | NVIDIA => max_nvidia_gpus quota
                     | HUAWEI_ASCEND => max_ascend_npus quota
                     end in
      let candidate_limits := limit <$> omap id vendors in
      raise_if (negb (existsb (fun l => negb (exceeds l gpu_count)) candidate_limits))
        (QuotaExceededError "vendor_accelerators")
  | None =>
      match _normalize_accelerator_vendor accelerator_vendor gpu_count with
      | Some NVIDIA => _check_limit "nvidia_gpus" (max_nvidia_gpus quota) gpu_count
      | Some HUAWEI_ASCEND => _check_limit "ascend_npus" (max_ascend_npus quota) gpu_count
      | None => mret tt
      end
  end.

Definition release_queued (project_id : N) : Sess QState :=
  '(_, state) ← get_locked project_id;
  _ ← raise_if (queued_tasks state <? 1)
        (QuotaInvariantViolation "queued task count would become negative");
  _touch_state project_id (state <| queued_tasks ::= fun q => q - 1 |>).

(** [gpu_count if vendor == v else 0] *)
Definition gpus_of (vendor : option AcceleratorVendor) (v : AcceleratorVendor) (gpu_count : Z) : Z :=
  if vendor == Some v then gpu_count else 0.

Definition reserve_execution (project_id : N) (cpu_millicores memory_mb gpu_count : Z)
    (estimated_cost : decimal) (accelerator_vendor : option AcceleratorVendor) : Sess QState :=
  _ ← _validate_reservation cpu_millicores memory_mb gpu_count estimated_cost;
  '(quota, state) ← get_locked project_id;
  let vendor := _normalize_accelerator_vendor accelerator_vendor gpu_count in
  _ ← raise_if (queued_tasks state <? 1)
        (QuotaInvariantViolation "cannot reserve an execution without a queued task");
  _ ← _check_limit "running_tasks" (max_running_tasks quota)
        (running_tasks state + service_replicas state + 1);
  _ ← _check_limit "cpu_millicores" (max_cpu_millicores quota)
        (reserved_cpu_millicores state + service_reserved_cpu_millicores state + cpu_millicores);
  _ ← _check_limit "memory_mb" (max_memory_mb quota)
        (reserved_memory_mb state + service_reserved_memory_mb state + memory_mb);
  _ ← _check_limit "gpus" (max_gpus quota)
        (reserved_gpus state + service_reserved_gpus state + gpu_count);
  let prospective_nvidia := reserved_nvidia_gpus state + gpus_of vendor NVIDIA gpu_count in
  let prospective_ascend := reserved_ascend_npus state + gpus_of vendor HUAWEI_ASCEND gpu_count in
  _ ← _check_limit "nvidia_gpus" (max_nvidia_gpus quota)
        (prospective_nvidia + service_reserved_nvidia_gpus state);
  _ ← _check_limit "ascend_npus" (max_ascend_npus quota)
        (prospective_ascend + service_reserved_ascend_npus state);
  _ ← _check_cost "daily_cost" (daily_cost_limit quota)
        (dec_add (dec_add (daily_settled_cost state) (daily_reserved_cost state)) estimated_cost);
  _touch_state project_id
    (state <| queued_tasks ::= fun q => q - 1 |>
           <| running_tasks ::= Z.succ |>
           <| reserved_cpu_millicores ::= Z.add cpu_millicores |>
           <| reserved_memory_mb ::= Z.add memory_mb |>
           <| reserved_nvidia_gpus := prospective_nvidia |>
           <| reserved_ascend_npus := prospective_ascend |>
           <| reserved_gpus := prospective_nvidia + prospective_ascend |>
           <| daily_reserved_cost ::= fun c => dec_add c estimated_cost |>).

Definition release (project_id : N) (cpu_millicores memory_mb gpu_count : Z)
    (reserved_cost settled_cost : decimal) (reservation_accounting_date : option Z)
    (accelerator_vendor : option AcceleratorVendor) : Sess QState :=
  _ ← _validate_reservation cpu_millicores memory_mb gpu_count reserved_cost;
  _ ← raise_if (dec_ltb settled_cost 0%Q) (ValueError "settled_cost must be non-negative");
  '(_, state) ← get_locked project_id;
  let vendor := _normalize_accelerator_vendor accelerator_vendor gpu_count in
  let typed_reserved := match vendor with
                        | Some NVIDIA => reserved_nvidia_gpus state
                        | Some HUAWEI_ASCEND => reserved_ascend_npus state
                        | None => 0
                        end in
  _ ← raise_if ((running_tasks state <? 1) || (reserved_cpu_millicores state <? cpu_millicores)
                || (reserved_memory_mb state <? memory_mb) || (reserved_gpus state <? gpu_count)
                || (typed_reserved <? gpu_count))
        (QuotaInvariantViolation "project quota state is below the execution reservation");
  let release_cost_today := match reservation_accounting_date with
                            | None => true
                            | Some d => d =? accounting_date state
                            end in
  _ ← raise_if (release_cost_today && dec_ltb (daily_reserved_cost state) reserved_cost)
        (QuotaInvariantViolation "daily reserved cost would become negative");
  let nvidia := reserved_nvidia_gpus state - gpus_of vendor NVIDIA gpu_count in
  let ascend := reserved_ascend_npus state - gpus_of vendor HUAWEI_ASCEND gpu_count in
  _touch_state project_id
    (state <| running_tasks ::= fun r => r - 1 |>
           <| reserved_cpu_millicores ::= fun r => r - cpu_millicores |>
           <| reserved_memory_mb ::= fun r => r - memory_mb |>
           <| reserved_nvidia_gpus := nvidia |>
           <| reserved_ascend_npus := ascend |>
           <| reserved_gpus := nvidia + ascend |>
           <| daily_reserved_cost ::= fun c =>
                if release_cost_today then dec_sub c reserved_cost else c |>
           <| daily_settled_cost ::= fun c => dec_add c settled_cost |>).

(** ** Service commitments and limit changes *)
Definition int_of_bool (b : bool) : Z := if b then 1 else 0.

Definition replace_service_commitment (project_id : N)
    (current_replicas desired_replicas cpu_millicores memory_mb gpu_count : Z)
    (accelerator_vendor : option AcceleratorVendor) : Sess QState :=
  _ ← _validate_service_commitment current_replicas desired_replicas cpu_millicores memory_mb
        gpu_count;
  '(quota, state) ← try_except (get_locked project_id) (fun e =>
      match e with QuotaNotFoundError _ => Some (initialize project_id) | _ => None end);
  let vendor := _normalize_accelerator_vendor accelerator_vendor gpu_count in
  let replica_delta := desired_replicas - current_replicas in
  let service_delta := int_of_bool (0 <? desired_replicas) - int_of_bool (0 <? current_replicas) in
  let prospective_service_count := service_count state + service_delta in
  let prospective_replicas := service_replicas state + replica_delta in
  let prospective_cpu := service_reserved_cpu_millicores state + cpu_millicores * replica_delta in
  let prospective_memory := service_reserved_memory_mb state + memory_mb * replica_delta in
  let accelerator_delta := gpu_count * replica_delta in
  let prospective_nvidia :=
    service_reserved_nvidia_gpus state + gpus_of vendor NVIDIA accelerator_delta in
  let prospective_ascend :=
    service_reserved_ascend_npus state + gpus_of vendor HUAWEI_ASCEND accelerator_delta in
  let prospective_gpus := prospective_nvidia + prospective_ascend in
  _ ← raise_if (existsb (fun v => v <? 0)
                 [prospective_service_count; prospective_replicas; prospective_cpu;
                  prospective_memory; prospective_gpus; prospective_nvidia; prospective_ascend])
        (QuotaInvariantViolation "service quota state is below the current desired commitment");
  _ ← _check_limit "services" (max_services quota) prospective_service_count;
  _ ← _check_limit "service_replicas" (max_service_replicas quota) prospective_replicas;
  _ ← _check_limit "running_tasks" (max_running_tasks quota)
        (running_tasks state + prospective_replicas);
  _ ← _check_limit "cpu_millicores" (max_cpu_millicores quota)
        (reserved_cpu_millicores state + prospective_cpu);
  _ ← _check_limit "memory_mb" (max_memory_mb quota)
        (reserved_memory_mb state + prospective_memory);
  _ ← _check_limit "gpus" (max_gpus quota) (reserved_gpus state + prospective_gpus);
  _ ← _check_limit "nvidia_gpus" (max_nvidia_gpus quota)
        (reserved_nvidia_gpus state + prospective_nvidia);
  _ ← _check_limit "ascend_npus" (max_ascend_npus quota)
        (reserved_ascend_npus state + prospective_ascend);
  if replica_delta =? 0 then mret state
  else _touch_state project_id
         (state <| service_count := prospective_service_count |>
                <| service_replicas := prospective_replicas |>
                <| service_reserved_cpu_millicores := prospective_cpu |>
                <| service_reserved_memory_mb := prospective_memory |>
                <| service_reserved_gpus := prospective_gpus |>
                <| service_reserved_nvidia_gpus := prospective_nvidia |>
                <| service_reserved_ascend_npus := prospective_ascend |>).

Definition negative_limit (l : option Z) : bool := match l with Some v => v <? 0 | None => false end.

(** [replace]: new limits, given as the row to write (its [version] and
    [updated_at] are not used). *)
Definition replace (project_id : N) (values : Quota) : Sess (Quota * QState) :=
  _ ← raise_if
        (existsb negative_limit
           [max_queued_tasks values; max_running_tasks values; max_cpu_millicores values;
            max_memory_mb values; max_gpus values; max_nvidia_gpus values; max_ascend_npus values;
            max_services values; max_service_replicas values; max_artifact_bytes values]
         || match daily_cost_limit values with Some c => dec_ltb c 0%Q | None => false end)
        (ValueError "limit must be non-negative");
  '(quota, state) ← get_locked project_id;
  _ ← _check_limit "queued_tasks" (max_queued_tasks values) (queued_tasks state);
  _ ← _check_limit "running_tasks" (max_running_tasks values)
        (running_tasks state + service_replicas state);
  _ ← _check_limit "cpu_millicores" (max_cpu_millicores values)
        (reserved_cpu_millicores state + service_reserved_cpu_millicores state);
  _ ← _check_limit "memory_mb" (max_memory_mb values)
        (reserved_memory_mb state + service_reserved_memory_mb state);
  _ ← _check_limit "gpus" (max_gpus values) (reserved_gpus state + service_reserved_gpus state);
  _ ← _check_limit "nvidia_gpus" (max_nvidia_gpus values)
        (reserved_nvidia_gpus state + service_reserved_nvidia_gpus state);
  _ ← _check_limit "ascend_npus" (max_ascend_npus values)
        (reserved_ascend_npus state + service_reserved_ascend_npus state);
  _ ← _check_limit "services" (max_services values) (service_count state);
  _ ← _check_limit "service_replicas" (max_service_replicas values) (service_replicas state);
  _ ← _check_limit "artifact_bytes" (max_artifact_bytes values) (artifact_bytes state);
  _ ← _check_cost "daily_cost" (daily_cost_limit values)
        (dec_add (daily_reserved_cost state) (daily_settled_cost state));
  now ← database_utcnow;
  let quota' := values <| ProjectQuota.version := ProjectQuota.version quota + 1 |>
                       <| ProjectQuota.updated_at := now |> in
  _ ← put_quota project_id quota';
  mret (quota', state).

(** ** The usage a project's counters stand for *)
Module Usage.
Record t := mk { queued : Z; running : Z; cpu : Z; memory : Z; nvidia : Z; ascend : Z }.

Definition add (a b : t) : t :=
  mk (queued a + queued b) (running a + running b) (cpu a + cpu b) (memory a + memory b)
     (nvidia a + nvidia b) (ascend a + ascend b).
Definition sub (a b : t) : t :=
  mk (queued a - queued b) (running a - running b) (cpu a - cpu b) (memory a - memory b)
     (nvidia a - nvidia b) (ascend a - ascend b).

Lemma ext a b :
  queued a = queued b -> running a = running b -> cpu a = cpu b -> memory a = memory b ->
  nvidia a = nvidia b -> ascend a = ascend b -> a = b.
Proof. destruct a, b; cbn; congruence. Qed.
End Usage.

Definition usage (s : QState) : Usage.t :=
  Usage.mk (queued_tasks s) (running_tasks s) (reserved_cpu_millicores s) (reserved_memory_mb s)
    (reserved_nvidia_gpus s) (reserved_ascend_npus s).

(** One admitted task waiting for a placement. *)
Definition one_queued : Usage.t := Usage.mk 1 0 0 0 0 0.

(** One running execution. *)
Definition one_running (cpu_millicores memory_mb gpu_count : Z) (vendor : option AcceleratorVendor)
  : Usage.t :=
  let v := _normalize_accelerator_vendor vendor gpu_count in
  Usage.mk 0 1 cpu_millicores memory_mb (gpus_of v NVIDIA gpu_count)
    (gpus_of v HUAWEI_ASCEND gpu_count).

(** The service side of the counters. *)
Definition service_counters (s : QState) : list Z :=
  [service_count s; service_replicas s; service_reserved_cpu_millicores s;
   service_reserved_memory_mb s; service_reserved_gpus s; service_reserved_nvidia_gpus s;
   service_reserved_ascend_npus s; artifact_bytes s].

(** What [_assert_state_nonnegative] accepts. *)
Record state_wf (s : QState) : Prop := {
  wf_counters : Forall (fun v => 0 <= v) (counters s);
  wf_reserved_cost : (0 <= daily_reserved_cost s)%Q;
  wf_settled_cost : (0 <= daily_settled_cost s)%Q;
  wf_gpus : reserved_gpus s = reserved_nvidia_gpus s + reserved_ascend_npus s;
  wf_service_gpus :
    service_reserved_gpus s = service_reserved_nvidia_gpus s + service_reserved_ascend_npus s;
}.

Lemma dec_ltb_false a b : dec_ltb a b = false <-> (b <= a)%Q.
Proof. unfold dec_ltb. by rewrite negb_false_iff, Qle_bool_iff. Qed.

Lemma existsb_neg_false l : existsb (fun v => v <? 0) l = false <-> Forall (fun v => 0 <= v) l.
Proof.
  induction l as [|v l IH]; cbn; [by split; constructor|].
  rewrite orb_false_iff, IH, Forall_cons, Z.ltb_ge. done.
Qed.

Lemma assert_ok s db u db' :
  _assert_state_nonnegative s db = (inr u, db') <-> state_wf s /\ u = tt /\ db' = db.
Proof.
  unfold _assert_state_nonnegative. split.
  - intros H. minv H. rewrite !orb_false_iff, !dec_ltb_false, existsb_neg_false in Hm.
    destruct Hm as [[? ?] ?]. bools. split_and!; done.
  - intros ([Hc Hr Hs Hg Hsg] & -> & ->).
    apply existsb_neg_false in Hc. apply dec_ltb_false in Hr, Hs.
    unfold mbind, M_bind, raise_if, mret, M_ret.
    rewrite Hc, Hr, Hs, Hg, Hsg, !Z.eqb_refl. done.
Qed.

Lemma assert_run s db : state_wf s -> _assert_state_nonnegative s db = (inr tt, db).
Proof. intros. by apply assert_ok. Qed.

(** Rolling to a new accounting day touches dates and costs only. *)
Lemma roll_frame s d :
  usage (_roll_daily_state s d).1 = usage s /\
  service_counters (_roll_daily_state s d).1 = service_counters s /\
  (state_wf s -> state_wf (_roll_daily_state s d).1).
Proof.
  unfold _roll_daily_state. destruct (negb _); cbn [fst]; [|done].
  split_and!; [done|done|]. intros []. constructor; done.
Qed.

Lemma Db_states_id db p s :
  Db.quota_states db !! p = Some s ->
  db = db <| Db.quota_states := <[p := s]> (Db.quota_states db) |>.
Proof.
  intros H. rewrite insert_id by done. by destruct db.
Qed.

(** ** Effects of the operations

    Every operation is described by the new state row of the project; no
    other row of the database changes. *)
Definition set_state (p : N) (s : QState) (db : Db.t) : Db.t :=
  db <| Db.quota_states := <[p := s]> (Db.quota_states db) |>.

Lemma set_state_set p s s' db : set_state p s' (set_state p s db) = set_state p s' db.
Proof. unfold set_state, upd. destruct db. cbn. by rewrite insert_insert_eq. Qed.

Lemma get_locked_ok p db q s db' :
  get_locked p db = (inr (q, s), db') ->
  exists s0, Db.quotas db !! p = Some q /\ Db.quota_states db !! p = Some s0 /\
    state_wf s /\ usage s = usage s0 /\ service_counters s = service_counters s0 /\
    db' = set_state p s db.
Proof.
  unfold get_locked. intros H. minv H.
  destruct (Db.quotas db !! p) as [q0|] eqn:Eq; [|by apply raise_ok in H].
  destruct (Db.quota_states db !! p) as [s0|] eqn:Es; [|by apply raise_ok in H].
  apply bind_ok in H as (u & db1 & Ha & H). apply assert_ok in Ha as (Hwf & -> & ->).
  apply bind_ok in H as (now & db1 & Hn & H). apply gets_ok in Hn as [-> ->].
  pose proof (roll_frame s0 (date_of (Db.clock db))) as (Hu & Hsc & Hw).
  unfold _roll_daily_state in *. destruct (negb _); cbn in *.
  - minv H. simplify_eq. exists s0. split_and!; try done.
    destruct (Hw Hwf). constructor; done.
  - apply ret_ok in H as [? ->]. simplify_eq. exists s0. split_and!; try done.
    by apply Db_states_id.
Qed.

Lemma get_locked_run p db q s0 :
  Db.quotas db !! p = Some q -> Db.quota_states db !! p = Some s0 -> state_wf s0 ->
  exists s, get_locked p db = (inr (q, s), set_state p s db) /\
    state_wf s /\ usage s = usage s0 /\ service_counters s = service_counters s0.
Proof.
  intros Eq Es Hwf.
  destruct (get_locked p db) as [[e|[q' s]] db'] eqn:H.
  - exfalso. unfold get_locked in H. cbn in H. unfold mbind, M_bind, gets, database_utcnow in H.
    rewrite Eq, Es in H. rewrite (assert_run s0 db Hwf) in H. unfold gets in H.
    destruct (_roll_daily_state s0 (date_of (Db.clock db))) as [? []]; done.
  - pose proof H as H'. apply get_locked_ok in H' as (s0' & Hq & Hs & Hw & Hu & Hc & ->).
    assert (q' = q) as -> by congruence. assert (s0' = s0) as -> by congruence. eauto.
Qed.

Lemma touch_ok p s db s' db' :
  _touch_state p s db = (inr s', db') ->
  state_wf s /\ state_wf s' /\ usage s' = usage s /\ service_counters s' = service_counters s /\
  db' = set_state p s' db.
Proof.
  unfold _touch_state. intros H. apply bind_ok in H as (u & db1 & Ha & H).
  apply assert_ok in Ha as (Hwf & -> & ->). minv H.
  split_and!; try done. destruct Hwf. constructor; done.
Qed.

Lemma touch_run p s db :
  state_wf s -> exists s', _touch_state p s db = (inr s', set_state p s' db) /\
    state_wf s' /\ usage s' = usage s.
Proof.
  intros Hwf. destruct (_touch_state p s db) as [[e|s'] db'] eqn:H.
  - exfalso. unfold _touch_state in H. unfold mbind, M_bind in H.
    rewrite (assert_run s db Hwf) in H. done.
  - pose proof H as H'. apply touch_ok in H' as (_ & ? & ? & _ & ->). eauto.
Qed.

(** [exceeds] as an inequality. *)
Definition within (limit : option Z) (v : Z) : Prop :=
  match limit with Some l => v <= l | None => True end.

Lemma exceeds_false l v : exceeds l v = false <-> within l v.
Proof. destruct l; cbn; [lia|done]. Qed.

Ltac quota_prim H :=
  lazymatch type of H with
  | _check_limit _ _ _ _ = _ => unfold _check_limit in H
  | _check_cost _ _ _ _ = _ => unfold _check_cost in H
  | _validate_reservation _ _ _ _ _ = _ => unfold _validate_reservation in H
  | _validate_service_commitment _ _ _ _ _ _ = _ => unfold _validate_service_commitment in H
  end.
Ltac minv_prim H ::= first [store_prim H | quota_prim H].

(** [moved p f db q s db']: the row of project [p], whose quota is [q], went to
    the well-formed [s], its usage changed by [f], and nothing else changed. *)
Definition moved (p : N) (f : Usage.t -> Usage.t) (db : Db.t) (q : Quota) (s : QState) (db' : Db.t)
  : Prop :=
  exists s0, Db.quotas db !! p = Some q /\ Db.quota_states db !! p = Some s0 /\ state_wf s /\
    usage s = f (usage s0) /\ service_counters s = service_counters s0 /\ db' = set_state p s db.

(** The task-side and service-side usage together respects the limits. *)
Record within_limits (q : Quota) (s : QState) : Prop := {
  wl_running : within (max_running_tasks q) (running_tasks s + service_replicas s);
  wl_cpu : within (max_cpu_millicores q)
             (reserved_cpu_millicores s + service_reserved_cpu_millicores s);
  wl_memory : within (max_memory_mb q) (reserved_memory_mb s + service_reserved_memory_mb s);
  wl_gpus : within (max_gpus q) (reserved_gpus s + service_reserved_gpus s);
  wl_nvidia : within (max_nvidia_gpus q)
                (reserved_nvidia_gpus s + service_reserved_nvidia_gpus s);
  wl_ascend : within (max_ascend_npus q)
                (reserved_ascend_npus s + service_reserved_ascend_npus s);
}.

(** What was settled and what is reserved on the accounting day of [now]. *)
Definition settled_today (now : Z) (s : QState) : decimal :=
  if accounting_date s =? date_of now then daily_settled_cost s else ZERO_COST.
Definition reserved_today (now : Z) (s : QState) : decimal :=
  if accounting_date s =? date_of now then daily_reserved_cost s else ZERO_COST.

(** The project can pay for an execution of the given estimate today. *)
Definition affordable (q : Quota) (now : Z) (s : QState) (cost : decimal) : Prop :=
  match daily_cost_limit q with
  | Some limit => (dec_add (dec_add (settled_today now s) (reserved_today now s)) cost <= limit)%Q
  | None => True
  end.

(** Every limit has room for one more execution. *)
Record admissible (q : Quota) (now : Z) (s : QState) (cpu mem gpu : Z) (cost : decimal)
    (vendor : option AcceleratorVendor) : Prop := {
  adm_running : within (max_running_tasks q) (running_tasks s + service_replicas s + 1);
  adm_cpu : within (max_cpu_millicores q)
              (reserved_cpu_millicores s + service_reserved_cpu_millicores s + cpu);
  adm_memory : within (max_memory_mb q) (reserved_memory_mb s + service_reserved_memory_mb s + mem);
  adm_gpus : within (max_gpus q)
               (reserved_nvidia_gpus s + reserved_ascend_npus s + service_reserved_gpus s + gpu);
  adm_nvidia : within (max_nvidia_gpus q)
                 (reserved_nvidia_gpus s + service_reserved_nvidia_gpus s
                  + gpus_of (_normalize_accelerator_vendor vendor gpu) NVIDIA gpu);
  adm_ascend : within (max_ascend_npus q)
                 (reserved_ascend_npus s + service_reserved_ascend_npus s
                  + gpus_of (_normalize_accelerator_vendor vendor gpu) HUAWEI_ASCEND gpu);
  adm_cost : affordable q now s cost;
}.

(** The row after the daily reset. *)
Lemma get_locked_today p db q s db' s0 :
  Db.quota_states db !! p = Some s0 -> get_locked p db = (inr (q, s), db') ->
  accounting_date s = date_of (Db.clock db) /\
  daily_settled_cost s = settled_today (Db.clock db) s0 /\
  daily_reserved_cost s = reserved_today (Db.clock db) s0.
Proof.
  unfold get_locked, settled_today, reserved_today. intros Es H. minv H. rewrite Es in H.
  destruct (Db.quotas db !! p) as [q0|] eqn:Eq; [|by apply raise_ok in H].
  apply bind_ok in H as (u & db1 & (_ & -> & ->)%assert_ok & H).
  apply bind_ok in H as (now & db1 & Hn & H). apply gets_ok in Hn as [-> ->].
  unfold _roll_daily_state in H. destruct (accounting_date s0 =? date_of (Db.clock db)) eqn:E; cbn in H.
  - apply ret_ok in H as [[= -> ->] _]. split_and!; [lia|done..].
  - minv H. simplify_eq. by fields.
Qed.

Lemma today_settled now s s0 :
  accounting_date s = date_of now -> daily_settled_cost s = settled_today now s0 ->
  daily_reserved_cost s = reserved_today now s0 ->
  settled_today now s = settled_today now s0 /\ reserved_today now s = reserved_today now s0.
Proof. intros E E1 E2. unfold settled_today at 1, reserved_today at 1. rewrite E, Z.eqb_refl. done. Qed.

(** Two rows with the same counters and the same costs of the day. *)
Lemma admissible_ext q now s s' cpu mem gpu cost vendor :
  usage s = usage s' -> service_counters s = service_counters s' ->
  settled_today now s = settled_today now s' -> reserved_today now s = reserved_today now s' ->
  admissible q now s' cpu mem gpu cost vendor -> admissible q now s cpu mem gpu cost vendor.
Proof.
  intros Hu Hc E1 E2 [A1 A2 A3 A4 A5 A6 A7]. unfold affordable in A7. rewrite <-E1, <-E2 in A7.
  unfold usage in Hu. injection Hu as F1 F2 F3 F4 F5 F6.
  unfold service_counters in Hc. injection Hc as G1 G2 G3 G4 G5 G6 G7 G8.
  constructor; [congruence..|exact A7].
Qed.

(** [within_limits] looks at the usage and the service counters only. *)
Lemma within_limits_ext q s s' :
  usage s = usage s' -> service_counters s = service_counters s' ->
  reserved_gpus s = reserved_gpus s' -> within_limits q s' -> within_limits q s.
Proof.
  intros Hu Hc Hg [H1 H2 H3 H4 H5 H6]. unfold usage in Hu. unfold service_counters in Hc.
  injection Hu as E1 E2 E3 E4 E5 E6. injection Hc as F1 F2 F3 F4 F5 F6 F7 F8.
  constructor; congruence.
Qed.

Lemma touch_moved p f s0 db q s s' s'' db' :
  _touch_state p s' (set_state p s db) = (inr s'', db') ->
  Db.quotas db !! p = Some q -> Db.quota_states db !! p = Some s0 ->
  usage s' = f (usage s0) -> service_counters s' = service_counters s0 ->
  moved p f db q s'' db'.
Proof.
  intros H Hq Hs Hu Hc. apply touch_ok in H as (_ & Hw & Hu' & Hc' & ->).
  exists s0. split_and!; try done; [congruence..|]. apply set_state_set.
Qed.

Ltac locked H q s :=
  let db1 := fresh "db1" in let Hg := fresh "Hg" in
  apply bind_ok in H as ([q s] & db1 & Hg & H);
  apply get_locked_ok in Hg as (?s0 & ?Hq & ?Hs & ?Hwf & ?Hu & ?Hc & ->).

(** Equality of usages after an update, from the equality [Hu] before it. *)
Ltac usage_eq Hu :=
  unfold usage in Hu |- *; injection Hu as ?E ?E ?E ?E ?E ?E;
  apply Usage.ext; cbn; fields; lia.

Lemma admit_queued_ok p db s db' :
  admit_queued p db = (inr s, db') ->
  exists q, moved p (fun u => Usage.add u one_queued) db q s db' /\
            within (max_queued_tasks q) (queued_tasks s).
Proof.
  unfold admit_queued. intros H. locked H q s1. minv H. apply exceeds_false in Hm.
  pose proof (touch_ok _ _ _ _ _ H) as (_ & _ & Hu' & _ & _).
  exists q. split.
  - eapply touch_moved; [exact H|done|done| |done]. usage_eq Hu.
  - unfold usage in Hu'. injection Hu' as -> ?. done.
Qed.

Lemma wf_gpus_ext s s' :
  state_wf s -> state_wf s' -> usage s = usage s' -> reserved_gpus s = reserved_gpus s'.
Proof.
  intros [] [] Hu. unfold usage in Hu. injection Hu as _ _ _ _ ? ?. lia.
Qed.

Lemma release_queued_ok p db s db' :
  release_queued p db = (inr s, db') ->
  exists q, moved p (fun u => Usage.sub u one_queued) db q s db'.
Proof.
  unfold release_queued. intros H. locked H q s1. minv H.
  exists q. eapply touch_moved; [exact H|done|done| |done]. usage_eq Hu.
Qed.

Lemma within_le l v v' : within l v -> v' <= v -> within l v'.
Proof. destruct l; cbn; [lia|done]. Qed.

(** Every accelerator has exactly one vendor. *)
Lemma gpus_split vendor gpu :
  gpus_of (_normalize_accelerator_vendor vendor gpu) NVIDIA gpu
  + gpus_of (_normalize_accelerator_vendor vendor gpu) HUAWEI_ASCEND gpu = gpu.
Proof.
  unfold _normalize_accelerator_vendor, gpus_of.
  destruct (gpu =? 0) eqn:E; [repeat case_match; lia|].
  destruct vendor as [[]|]; repeat case_match; bools; try congruence; lia.
Qed.

Lemma gpus_of_nonneg v w gpu : 0 <= gpu -> 0 <= gpus_of v w gpu <= gpu.
Proof. unfold gpus_of. destruct (_ == _); lia. Qed.

Lemma reserve_execution_ok p cpu mem gpu cost vendor db s db' :
  reserve_execution p cpu mem gpu cost vendor db = (inr s, db') ->
  exists q, moved p (fun u => Usage.sub (Usage.add u (one_running cpu mem gpu vendor)) one_queued)
              db q s db' /\ within_limits q s.
Proof.
  unfold reserve_execution. intros H.
  apply bind_ok in H as ([] & db0 & Hv & H). minv Hv. locked H q s1. minv H.
  pose proof (touch_ok _ _ _ _ _ H) as (Hw & Hw' & Hu' & Hc' & _).
  exists q. split.
  - eapply touch_moved; [exact H|done|done| |done]. usage_eq Hu.
  - rewrite !exceeds_false in *. pose proof (wf_gpus _ Hwf).
    eapply within_limits_ext; [exact Hu'|exact Hc'|by apply wf_gpus_ext|].
    pose proof (gpus_split vendor gpu).
    constructor; fields; (eapply within_le; [eassumption|lia]).
Qed.

Lemma touch_costs p s db s' db' :
  _touch_state p s db = (inr s', db') ->
  daily_settled_cost s' = daily_settled_cost s /\ daily_reserved_cost s' = daily_reserved_cost s /\
  accounting_date s' = accounting_date s.
Proof.
  unfold _touch_state. intros H. apply bind_ok in H as (u & db1 & (_ & -> & ->)%assert_ok & H).
  minv H. by fields.
Qed.

(** The limits [reserve_execution] checks, on the row it starts from. *)
Lemma reserve_execution_admissible p cpu mem gpu cost vendor db s db' q s0 :
  Db.quotas db !! p = Some q -> Db.quota_states db !! p = Some s0 ->
  reserve_execution p cpu mem gpu cost vendor db = (inr s, db') ->
  admissible q (Db.clock db) s0 cpu mem gpu cost vendor /\
  daily_settled_cost s = settled_today (Db.clock db) s0 /\
  daily_reserved_cost s = dec_add (reserved_today (Db.clock db) s0) cost /\
  accounting_date s = date_of (Db.clock db).
Proof.
  unfold reserve_execution. intros Hq Hs H. apply bind_ok in H as ([] & db0 & Hv & H). minv Hv.
  apply bind_ok in H as ([q1 s1] & db1 & Hg & H).
  pose proof (get_locked_today _ _ _ _ _ _ Hs Hg) as (D & C1 & C2).
  apply get_locked_ok in Hg as (s0' & Hq1 & Hs1 & Hwf & Hu & Hc & ->).
  assert (q1 = q) as -> by congruence. assert (s0' = s0) as -> by congruence.
  destruct (today_settled _ _ _ D C1 C2) as [T1 T2].
  minv H. apply touch_costs in H as (F1 & F2 & F3). fields in F1. fields in F2. fields in F3.
  split_and!; [|by rewrite F1|by rewrite F2, C2|by rewrite F3].
  apply (admissible_ext q (Db.clock db) s0 s1); [by symmetry..|].
  pose proof (wf_gpus _ Hwf) as Hg. rewrite !exceeds_false in *.
  rename select (exceeds_cost _ _ = false) into Hcost. clear F1 F2 F3 Hu Hc.
  constructor; try (eapply within_le; [eassumption|lia]).
  unfold affordable. rewrite T1, T2, <-C1, <-C2. clear -Hcost. unfold exceeds_cost in Hcost.
  destruct (daily_cost_limit q); [|done]. by apply dec_ltb_false.
Qed.

Lemma release_ok p cpu mem gpu rc sc date vendor db s db' :
  release p cpu mem gpu rc sc date vendor db = (inr s, db') ->
  exists q, moved p (fun u => Usage.sub u (one_running cpu mem gpu vendor)) db q s db'.
Proof.
  unfold release. intros H.
  apply bind_ok in H as ([] & db0 & Hv & H). minv Hv.
  apply bind_ok in H as ([] & db0 & Hv' & H). minv Hv'. locked H q s1. minv H.
  exists q. eapply touch_moved; [exact H|done|done| |done]. usage_eq Hu.
Qed.

(** ** When the operations succeed *)
Lemma wp_get_locked p db q s0 (Q : Quota * QState -> Db.t -> Prop) X :
  Db.quotas db !! p = Some q -> Db.quota_states db !! p = Some s0 -> state_wf s0 ->
  (forall s, state_wf s -> usage s = usage s0 -> service_counters s = service_counters s0 ->
    Q (q, s) (set_state p s db)) ->
  wp (get_locked p) db Q X.
Proof.
  intros Hq Hs Hwf H. destruct (get_locked_run p db q s0 Hq Hs Hwf) as (s & Hg & ? & ? & ?).
  eapply wp_eq; [done|auto].
Qed.

Lemma wp_touch p s db (Q : QState -> Db.t -> Prop) X :
  state_wf s -> (forall s', Q s' (set_state p s' db)) -> wp (_touch_state p s) db Q X.
Proof.
  intros Hwf H. destruct (touch_run p s db Hwf) as (s' & Ht & _). eapply wp_eq; [done|auto].
Qed.

(** The counters of a well-formed row, one by one. *)
Lemma state_wf_intro s :
  0 <= queued_tasks s -> 0 <= running_tasks s -> 0 <= reserved_cpu_millicores s ->
  0 <= reserved_memory_mb s -> 0 <= reserved_nvidia_gpus s -> 0 <= reserved_ascend_npus s ->
  reserved_gpus s = reserved_nvidia_gpus s + reserved_ascend_npus s ->
  Forall (fun v => 0 <= v) (service_counters s) ->
  service_reserved_gpus s = service_reserved_nvidia_gpus s + service_reserved_ascend_npus s ->
  (0 <= daily_reserved_cost s)%Q -> (0 <= daily_settled_cost s)%Q -> state_wf s.
Proof.
  intros. constructor; try done. unfold counters, service_counters in *.
  repeat (constructor; [lia|]). done.
Qed.

Lemma state_wf_elim s :
  state_wf s ->
  0 <= queued_tasks s /\ 0 <= running_tasks s /\ 0 <= reserved_cpu_millicores s /\
  0 <= reserved_memory_mb s /\ 0 <= reserved_nvidia_gpus s /\ 0 <= reserved_ascend_npus s /\
  Forall (fun v => 0 <= v) (service_counters s).
Proof.
  intros [Hc _ _ _ _]. unfold counters in Hc.
  repeat (apply Forall_cons in Hc as [? Hc]). split_and!; try done.
  unfold service_counters. by repeat constructor.
Qed.

Lemma release_queued_run p db q s0 :
  Db.quotas db !! p = Some q -> Db.quota_states db !! p = Some s0 -> state_wf s0 ->
  1 <= queued_tasks s0 ->
  wp (release_queued p) db (fun s db' => db' = set_state p s db) (fun _ _ => False).
Proof.
  intros Hq Hs Hwf Hn. unfold release_queued. apply wp_bind.
  eapply wp_get_locked; [done..|]. intros s1 Hw1 Hu _.
  unfold usage in Hu. injection Hu as E _ _ _ _ _.
  wstep; [lia|]. apply wp_touch; [|by intros; rewrite set_state_set].
  destruct (state_wf_elim s1 Hw1) as (? & ? & ? & ? & ? & ? & ?). destruct Hw1.
  apply state_wf_intro; fields; done || lia.
Qed.

(** A well-formed row whose usage covers an execution can release it. *)
Lemma release_run p cpu mem gpu sc date vendor db q s0 :
  Db.quotas db !! p = Some q -> Db.quota_states db !! p = Some s0 -> state_wf s0 ->
  0 <= cpu -> 0 <= mem -> 0 <= gpu -> (0 <= sc)%Q ->
  let v := _normalize_accelerator_vendor vendor gpu in
  1 <= running_tasks s0 -> cpu <= reserved_cpu_millicores s0 -> mem <= reserved_memory_mb s0 ->
  gpus_of v NVIDIA gpu <= reserved_nvidia_gpus s0 ->
  gpus_of v HUAWEI_ASCEND gpu <= reserved_ascend_npus s0 ->
  wp (release p cpu mem gpu ZERO_COST sc date vendor) db
    (fun s db' => db' = set_state p s db) (fun _ _ => False).
Proof.
  intros Hq Hs Hwf Hc Hm Hg Hsc v Hr Hrc Hrm Hn Ha. unfold release.
  apply wp_bind. unfold _validate_reservation. wstep; [change (dec_ltb ZERO_COST 0%Q) with false in G; lia|].
  wstep; [apply dec_ltb_false in Hsc; congruence|].
  apply wp_bind. eapply wp_get_locked; [done..|]. intros s1 Hw1 Hu _.
  unfold usage in Hu. injection Hu as _ E2 E3 E4 E5 E6.
  destruct (state_wf_elim s1 Hw1) as (? & ? & ? & ? & ? & ? & ?). destruct Hw1.
  pose proof (gpus_split vendor gpu) as Hsp. fold v in Hsp.
  pose proof (gpus_of_nonneg v NVIDIA gpu Hg). pose proof (gpus_of_nonneg v HUAWEI_ASCEND gpu Hg).
  fold v. wstep.
  { clearbody v. unfold gpus_of in *.
    destruct v as [[]|]; repeat case_match; bools; congruence || lia. }
  wstep.
  { apply andb_true_iff in G2 as [_ G2].
    assert (dec_ltb (daily_reserved_cost s1) ZERO_COST = false) by by apply dec_ltb_false.
    congruence. }
  apply wp_touch; [|by intros; rewrite set_state_set].
  apply state_wf_intro; fields; try (done || lia).
  - repeat case_match; by try apply dec_sub_nonneg.
  - by apply dec_add_nonneg.
Qed.

(** ** Service commitments *)

(** What one service commits: whether it counts, and its replicas. *)
Definition commitment (replicas cpu mem gpu : Z) (vendor : option AcceleratorVendor) : list Z :=
  let v := _normalize_accelerator_vendor vendor gpu in
  [int_of_bool (0 <? replicas); replicas; cpu * replicas; mem * replicas; gpu * replicas;
   gpus_of v NVIDIA (gpu * replicas); gpus_of v HUAWEI_ASCEND (gpu * replicas); 0].

Definition vadd : list Z -> list Z -> list Z := zip_with Z.add.

Definition vsub : list Z -> list Z -> list Z := zip_with Z.sub.


Lemma gpus_of_zero v w : gpus_of v w 0 = 0.
Proof. unfold gpus_of. by destruct (_ == _). Qed.

Lemma gpus_of_mul v w a b : gpus_of v w (a * b) = gpus_of v w a * b.
Proof. unfold gpus_of. destruct (_ == _); lia. Qed.

Lemma gpus_split_mul vendor gpu n :
  gpus_of (_normalize_accelerator_vendor vendor gpu) NVIDIA (gpu * n)
  + gpus_of (_normalize_accelerator_vendor vendor gpu) HUAWEI_ASCEND (gpu * n) = gpu * n.
Proof. by rewrite !gpus_of_mul, <-Z.mul_add_distr_r, gpus_split. Qed.

(** The commitment of a service is replaced, whatever it was. *)
Lemma replace_service_commitment_ok p cur des cpu mem gpu vendor db q s0 s db' :
  Db.quotas db !! p = Some q -> Db.quota_states db !! p = Some s0 -> state_wf s0 ->
  replace_service_commitment p cur des cpu mem gpu vendor db = (inr s, db') ->
  state_wf s /\ usage s = usage s0 /\
  service_counters s = vadd (vsub (service_counters s0) (commitment cur cpu mem gpu vendor))
                            (commitment des cpu mem gpu vendor) /\
  within_limits q s /\ within (max_services q) (service_count s) /\
  within (max_service_replicas q) (service_replicas s) /\ db' = set_state p s db.
Proof.
  intros Hq Hs Hwf H. unfold replace_service_commitment in H.
  apply bind_ok in H as ([] & db0 & Hv & H). minv Hv.
  destruct (get_locked_run p db q s0 Hq Hs Hwf) as (s1 & Hg & Hw1 & Hu & Hc).
  apply bind_ok in H as ([q' s1'] & db1 & Ht & H). unfold try_except in Ht. rewrite Hg in Ht.
  assert (q' = q /\ s1' = s1 /\ db1 = set_state p s1 db) as (-> & -> & ->)
    by (split_and!; congruence). clear Ht Hg.
  pose proof (gpus_split_mul vendor gpu (des - cur)) as Hsp.
  pose proof (gpus_split_mul vendor gpu cur) as Hsp1.
  pose proof (gpus_split_mul vendor gpu des) as Hsp2.
  pose proof (wf_service_gpus _ Hw1) as Hsg. minv H. rewrite !exceeds_false in *.
  set (target := s1 <| service_count := _ |> <| service_replicas := _ |>
    <| service_reserved_cpu_millicores := _ |> <| service_reserved_memory_mb := _ |>
    <| service_reserved_gpus := _ |> <| service_reserved_nvidia_gpus := _ |>
    <| service_reserved_ascend_npus := _ |>) in H.
  assert (state_wf s /\ usage s = usage target /\ service_counters s = service_counters target /\
          db' = set_state p s db) as (Hw & Hus & Hcs & ->).
  { destruct (des - cur =? 0) eqn:Ed.
    - apply ret_ok in H as [-> ->]. split_and!; try done.
      unfold service_counters, target. fields. replace des with cur by lia.
      rewrite !Z.sub_diag, !Z.mul_0_r, !gpus_of_zero. repeat f_equal; lia.
    - apply touch_ok in H as (_ & ? & ? & ? & ->). by rewrite set_state_set. }
  split_and!; [done|by rewrite Hus, <-Hu| | | | |done].
  - rewrite Hcs. unfold service_counters in Hc |- *. injection Hc as <- <- <- <- <- <- <- <-.
    unfold target, commitment, vadd, vsub. cbn [zip_with]. fields.
    rewrite !gpus_of_mul in Hsp, Hsp1, Hsp2.
    repeat (apply (f_equal2 cons); [rewrite ?gpus_of_mul; lia|]). done.
  - pose proof (wf_gpus _ Hw1). apply (within_limits_ext _ _ target Hus Hcs).
    { rewrite (wf_gpus _ Hw). unfold usage in Hus. injection Hus as _ _ _ _ -> ->. done. }
    constructor; unfold target; fields; (eapply within_le; [eassumption|lia]).
  - unfold service_counters in Hcs. injection Hcs as -> _. done.
  - unfold service_counters in Hcs. injection Hcs as _ -> _. done.
Qed.

(** A limit that a check refuses on the row after the daily reset. *)
Lemma refused_row p db q s1 s0 cpu mem gpu cost vendor :
  Db.quota_states db !! p = Some s0 -> state_wf s1 -> usage s1 = usage s0 ->
  service_counters s1 = service_counters s0 -> get_locked p db = (inr (q, s1), set_state p s1 db) ->
  let v := _normalize_accelerator_vendor vendor gpu in
  exceeds (max_running_tasks q) (running_tasks s1 + service_replicas s1 + 1) = true \/
  exceeds (max_cpu_millicores q)
    (reserved_cpu_millicores s1 + service_reserved_cpu_millicores s1 + cpu) = true \/
  exceeds (max_memory_mb q) (reserved_memory_mb s1 + service_reserved_memory_mb s1 + mem) = true \/
  exceeds (max_gpus q) (reserved_gpus s1 + service_reserved_gpus s1 + gpu) = true \/
  exceeds (max_nvidia_gpus q)
    (reserved_nvidia_gpus s1 + gpus_of v NVIDIA gpu + service_reserved_nvidia_gpus s1) = true \/
  exceeds (max_ascend_npus q)
    (reserved_ascend_npus s1 + gpus_of v HUAWEI_ASCEND gpu + service_reserved_ascend_npus s1) = true \/
  exceeds_cost (daily_cost_limit q)
    (dec_add (dec_add (daily_settled_cost s1) (daily_reserved_cost s1)) cost) = true ->
  ~ admissible q (Db.clock db) s0 cpu mem gpu cost vendor.
Proof.
  intros Hs Hwf Hu Hc Hg v Hover Hadm. pose proof (get_locked_today _ _ _ _ _ _ Hs Hg) as (D & C1 & C2).
  destruct (today_settled _ _ _ D C1 C2) as [T1 T2].
  apply (admissible_ext q (Db.clock db) s1 s0) in Hadm as [A1 A2 A3 A4 A5 A6 A7]; [|done..].
  pose proof (wf_gpus _ Hwf) as Hg2. rewrite <-exceeds_false in A1, A2, A3, A4, A5, A6.
  destruct Hover as [H|[H|[H|[H|[H|[H|H]]]]]].
  - congruence.
  - congruence.
  - congruence.
  - rewrite Hg2 in H. congruence.
  - rewrite <-Z.add_assoc, (Z.add_comm (gpus_of _ _ _)), Z.add_assoc in H. fold v in A5. congruence.
  - rewrite <-Z.add_assoc, (Z.add_comm (gpus_of _ _ _)), Z.add_assoc in H. fold v in A6. congruence.
  - unfold affordable in A7. rewrite T1, T2, <-C1, <-C2 in A7. unfold exceeds_cost in H.
    destruct (daily_cost_limit q) as [l|]; [|done]. apply dec_ltb_false in A7. congruence.
Qed.

(** ** Properties *)

(** C36: [reserve_execution] decides.  For a project with a queued task and a
    well-formed counter row, and a request of non-negative resources and cost:
    when every limit of the quota has room for the execution beside the tasks
    and the services - concurrency, CPU, memory, accelerators of all and of
    each vendor, and the daily cost limit against what was settled and is
    reserved today with the estimate - it moves exactly one task from queued
    to running, reserves exactly the requested resources and the estimate and
    leaves the counters within the limits; when some limit has no room it
    raises [QuotaExceededError] and leaves every resource counter as it was.
    No other row of the database changes. *)
Theorem reserve_execution_decides p cpu mem gpu cost vendor db q s0
    (Hq : Db.quotas db !! p = Some q) (Hs : Db.quota_states db !! p = Some s0)
    (Hwf : state_wf s0) (Hqueued : 1 <= queued_tasks s0)
    (Hcpu : 0 <= cpu) (Hmem : 0 <= mem) (Hgpu : 0 <= gpu) (Hcost : (0 <= cost)%Q) :
  match reserve_execution p cpu mem gpu cost vendor db with
  | (inr s, db') =>
      admissible q (Db.clock db) s0 cpu mem gpu cost vendor /\
      usage s = Usage.sub (Usage.add (usage s0) (one_running cpu mem gpu vendor)) one_queued /\
      daily_settled_cost s = settled_today (Db.clock db) s0 /\
      daily_reserved_cost s = dec_add (reserved_today (Db.clock db) s0) cost /\
      within_limits q s /\ state_wf s /\ db' = set_state p s db
  | (inl e, db') =>
      ~ admissible q (Db.clock db) s0 cpu mem gpu cost vendor /\
      (exists resource, e = QuotaExceededError resource) /\
      exists s, db' = set_state p s db /\ usage s = usage s0 /\
                service_counters s = service_counters s0
  end.
Proof.
  destruct (reserve_execution p cpu mem gpu cost vendor db) as [[e|s] db'] eqn:H.
  - enough (wp (reserve_execution p cpu mem gpu cost vendor) db (fun _ _ => True)
      (fun e db' => ~ admissible q (Db.clock db) s0 cpu mem gpu cost vendor /\
        (exists resource, e = QuotaExceededError resource) /\
        exists s, db' = set_state p s db /\ usage s = usage s0 /\
                  service_counters s = service_counters s0)) as Hw
      by (unfold wp in Hw; by rewrite H in Hw).
    unfold reserve_execution, _check_limit, _check_cost. apply wp_bind.
    unfold _validate_reservation. apply dec_ltb_false in Hcost. rewrite Hcost. wstep; [lia|].
    apply wp_bind. destruct (get_locked_run p db q s0 Hq Hs Hwf) as (s1 & Hg & Hw1 & Hu & Hc).
    pose proof (refused_row _ _ _ _ _ cpu mem gpu cost vendor Hs Hw1 Hu Hc Hg) as Hno.
    eapply wp_eq; [exact Hg|]. cbv beta iota.
    assert (queued_tasks s1 = queued_tasks s0) by (unfold usage in Hu; by injection Hu).
    wstep; [lia|]. repeat (wstep; [split; [apply Hno; tauto|by eauto 10]|]). apply wp_touch; [|done].
    destruct (state_wf_elim s1 Hw1) as (? & ? & ? & ? & ? & ? & ?). destruct Hw1.
    pose proof (gpus_of_nonneg (_normalize_accelerator_vendor vendor gpu) NVIDIA gpu Hgpu).
    pose proof (gpus_of_nonneg (_normalize_accelerator_vendor vendor gpu) HUAWEI_ASCEND gpu Hgpu).
    apply state_wf_intro; fields; try (done || lia). by apply dec_add_nonneg, dec_ltb_false.
  - pose proof (reserve_execution_admissible _ _ _ _ _ _ _ _ _ _ _ Hq Hs H) as Hadm.
    apply reserve_execution_ok in H as (q' & (s0' & Hq' & Hs' & Hw & Hu & Hc & ->) & Hl).
    assert (q' = q) as -> by congruence. assert (s0' = s0) as -> by congruence.
    by destruct Hadm as (? & ? & ? & _).
Qed.

Lemma set_state_lookup p s db :
  Db.quotas (set_state p s db) = Db.quotas db /\ Db.quota_states (set_state p s db) !! p = Some s.
Proof. unfold set_state. fields. split; [done|apply lookup_insert_eq]. Qed.


(** A service's commitment is replaced, not accumulated.  On success the
    service counters lose the commitment of [current_replicas] and gain that
    of [desired_replicas], the task-side usage is untouched, and services and
    tasks together are within every limit of the project. *)
Theorem service_commitment_replaced p cur des cpu mem gpu vendor db q s0 s db'
    (Hq : Db.quotas db !! p = Some q) (Hs : Db.quota_states db !! p = Some s0)
    (Hwf : state_wf s0)
    (H : replace_service_commitment p cur des cpu mem gpu vendor db = (inr s, db')) :
  service_counters s = vadd (vsub (service_counters s0) (commitment cur cpu mem gpu vendor))
                            (commitment des cpu mem gpu vendor) /\
  usage s = usage s0 /\ within_limits q s /\ within (max_services q) (service_count s) /\
  within (max_service_replicas q) (service_replicas s) /\ db' = set_state p s db.
Proof.
  pose proof (replace_service_commitment_ok _ _ _ _ _ _ _ _ _ _ _ _ Hq Hs Hwf H). tauto.
Qed.

(** Scaling is path independent: going from [a] to [b] and then to [c]
    replicas leaves the counters of going from [a] to [c] directly. *)
Theorem service_scaling_path_independent p a b c cpu mem gpu vendor db q s0 s1 db1 s2 db2 s3 db3
    (Hq : Db.quotas db !! p = Some q) (Hs : Db.quota_states db !! p = Some s0)
    (Hwf : state_wf s0)
    (H1 : replace_service_commitment p a b cpu mem gpu vendor db = (inr s1, db1))
    (H2 : replace_service_commitment p b c cpu mem gpu vendor db1 = (inr s2, db2))
    (H3 : replace_service_commitment p a c cpu mem gpu vendor db = (inr s3, db3)) :
  service_counters s2 = service_counters s3 /\ usage s2 = usage s3.
Proof.
  apply (replace_service_commitment_ok _ _ _ _ _ _ _ _ q s0) in H1
    as (Hw1 & Hu1 & Hc1 & _ & _ & _ & ->); [|done..].
  destruct (set_state_lookup p s1 db) as [Hq1 Hs1].
  apply (replace_service_commitment_ok _ _ _ _ _ _ _ _ q s1) in H2
    as (_ & Hu2 & Hc2 & _); [|congruence|done..].
  apply (replace_service_commitment_ok _ _ _ _ _ _ _ _ q s0) in H3
    as (_ & Hu3 & Hc3 & _); [|done..].
  split; [|congruence]. rewrite Hc2, Hc1, Hc3.
  unfold service_counters, commitment, vadd, vsub. cbn [zip_with].
  repeat (apply (f_equal2 cons); [lia|]). done.
Qed.

(** Limits cannot be lowered below what is in use: after a successful
    [replace] the project is within every new limit, its counters are
    unchanged and the quota's version has increased by one. *)
Theorem replace_limits_cover_usage p values db q0 s0 q s db'
    (Hq : Db.quotas db !! p = Some q0) (Hs : Db.quota_states db !! p = Some s0)
    (H : replace p values db = (inr (q, s), db')) :
  within_limits q s /\ within (max_queued_tasks q) (queued_tasks s) /\
  within (max_services q) (service_count s) /\
  within (max_service_replicas q) (service_replicas s) /\
  within (max_artifact_bytes q) (artifact_bytes s) /\
  usage s = usage s0 /\ service_counters s = service_counters s0 /\
  ProjectQuota.version q = ProjectQuota.version q0 + 1 /\
  Db.quotas db' !! p = Some q /\ Db.quota_states db' !! p = Some s.
Proof.
  unfold replace in H. apply bind_ok in H as ([] & db0 & Hv & H). minv Hv. locked H q1 s1. minv H.
  rewrite !exceeds_false in *.
  assert (q1 = q0) as -> by congruence. assert (s2 = s0) as -> by congruence.
  injection H as -> ->. split_and!; fields; try done; try apply lookup_insert_eq.
Qed.

(** ** Witnesses *)
Module QuotaSamples.
(** Project 7 has one queued task, one running service replica and room for
    more. *)
Definition quota : Quota :=
  ProjectQuota.mk (Some 10) (Some 4) (Some 4000) (Some 8192) (Some 2) (Some 2) (Some 0)
    (Some 2) (Some 3) None None 1 0.
Definition state : QState :=
  ProjectQuotaState.mk 1 0 0 0 0 0 0 1 1 500 512 0 0 0 0 0 0%Q 0%Q 1 0.
Definition db : Db.t :=
  (Db.empty 0) <| Db.projects := {[7%N := true]} |> <| Db.quotas := {[7%N := quota]} |>
             <| Db.quota_states := {[7%N := state]} |>.
Lemma state_ok : state_wf state.
Proof. by repeat constructor. Qed.
End QuotaSamples.

Lemma reserve_execution_decides_witness :
  match reserve_execution 7 1000 1024 1 0%Q (Some NVIDIA) QuotaSamples.db with
  | (inr s, _) => usage s = Usage.mk 0 1 1000 1024 1 0
  | _ => False
  end.
Proof.
  pose proof (reserve_execution_decides 7 1000 1024 1 0%Q (Some NVIDIA) QuotaSamples.db
    QuotaSamples.quota QuotaSamples.state eq_refl eq_refl QuotaSamples.state_ok
    ltac:(cbn; lia) ltac:(lia) ltac:(lia) ltac:(lia) ltac:(done)) as H.
  destruct (reserve_execution 7 1000 1024 1 0%Q (Some NVIDIA) QuotaSamples.db) as [[e|s] db'] eqn:E.
  - vm_compute in E. discriminate E.
  - destruct H as (_ & H & _). rewrite H. reflexivity.
Defined.


Lemma service_commitment_replaced_witness :
  exists s db', replace_service_commitment 7 1 3 500 512 0 None QuotaSamples.db = (inr s, db') /\
    service_counters s = [1; 3; 1500; 1536; 0; 0; 0; 0].
Proof.
  destruct (replace_service_commitment 7 1 3 500 512 0 None QuotaSamples.db) as [[e|s] db'] eqn:E.
  - vm_compute in E. discriminate E.
  - exists s, db'. split; [done|].
    destruct (service_commitment_replaced 7 1 3 500 512 0 None QuotaSamples.db QuotaSamples.quota
      QuotaSamples.state s db' eq_refl eq_refl QuotaSamples.state_ok E) as [-> _]. reflexivity.
Defined.

Lemma service_scaling_path_independent_witness :
  exists s2 s3,
    service_counters s2 = service_counters s3 /\ usage s2 = usage s3 /\
    service_counters s3 = [0; 0; 0; 0; 0; 0; 0; 0].
Proof.
  destruct (replace_service_commitment 7 1 3 500 512 0 None QuotaSamples.db)
    as [[e|s1] db1] eqn:E1; [vm_compute in E1; discriminate E1|].
  destruct (replace_service_commitment 7 3 0 500 512 0 None db1)
    as [[e|s2] db2] eqn:E2; [vm_compute in E1; injection E1 as <- <-; vm_compute in E2; discriminate E2|].
  destruct (replace_service_commitment 7 1 0 500 512 0 None QuotaSamples.db)
    as [[e|s3] db3] eqn:E3; [vm_compute in E3; discriminate E3|].
  destruct (service_scaling_path_independent 7 1 3 0 500 512 0 None QuotaSamples.db
    QuotaSamples.quota QuotaSamples.state s1 db1 s2 db2 s3 db3 eq_refl eq_refl
    QuotaSamples.state_ok E1 E2 E3) as [H1 H2].
  exists s2, s3. split_and!; [done..|]. vm_compute in E3. injection E3 as <- _. reflexivity.
Defined.

Lemma replace_limits_cover_usage_witness :
  exists q s db', replace 7 QuotaSamples.quota QuotaSamples.db = (inr (q, s), db') /\
    ProjectQuota.version q = 2 /\ within_limits q s.
Proof.
  destruct (replace 7 QuotaSamples.quota QuotaSamples.db) as [[e|[q s]] db'] eqn:E.
  - vm_compute in E. discriminate E.
  - exists q, s, db'. split; [done|].
    destruct (replace_limits_cover_usage 7 QuotaSamples.quota QuotaSamples.db QuotaSamples.quota
      QuotaSamples.state q s db' eq_refl eq_refl E) as (? & _ & _ & _ & _ & _ & _ & ? & _). done.
Defined.
