(* ===== verification/Reservations.v ===== *)
(** * Resource reservations ([repositories/reservations.py])

    A reservation is the durable claim of one execution on a worker's capacity
    and a project's quota.  [release_and_settle] gives it back exactly once
    and writes the usage ledger.  Costs are decimals as computed; the rounding
    of a NUMERIC column when a row is stored is not modelled. *)

From S2P Require Import Prelude PyFloat PyString Enums Store Quotas.
From Stdlib Require Import QArith.

#[local] Open Scope stdpp_scope.
#[local] Open Scope Z_scope.

Import ResourceReservation.

Notation Reservation := ResourceReservation.t.

(** At most one row matches: [execution_id] is unique. *)
Definition get_active_for_execution (i : N) : Sess (option Reservation) :=
  gets (fun db => List.find (fun r => (execution_id r == i) && active_reservation r)
                    (rows (Db.reservations db))).

(** The active device links of a reservation joined with their devices,
    ordered by device uuid. *)
Definition bound_devices (db : Db.t) (reservation_id : N) : list GPUDevice.t :=
  py_sort GPUDevice.device_uuid
    (omap (fun x : (N * N) * ReservationGPUDevice.t =>
             if (x.1.1 == reservation_id) && active_link x.2
             then Db.gpu_devices db !! x.1.2 else None)
          (map_to_list (Db.links db))).

(** [{x for ...} == {y}] *)
Definition all_same {A} `{EqDecision A} (l : list A) (y : A) : bool :=
  negb (bool_decide (l = [])) && forallb (fun x => x == y) l.

Definition assert_exact_device_binding (reservation : Reservation) : Sess unit :=
  if (gpu_count reservation =? 0) || legacy_unbound reservation
     || (allocation_authority reservation !== CONTROL_PLANE_EXACT_DEVICE)
  then mret tt
  else
    devices ← gets (fun db => bound_devices db (id reservation));
    _ ← raise_if (negb (lenZ devices =? gpu_count reservation))
          (ResourceInvariantViolation "exact-device reservation binding count");
    let device_ids := GPUDevice.device_uuid <$> devices in
    let vendors := (fun d => Some (GPUDevice.vendor d)) <$> devices in
    _ ← raise_if (negb (all_same vendors (requested_vendor reservation)))
          (ResourceInvariantViolation "binding vendor does not match request");
    raise_if (py_sort (fun x => x) (default [] (observed_device_ids_json reservation))
              !== py_sort (fun x => x) device_ids)
      (ResourceInvariantViolation "observation does not match bindings").

Definition record_observed_allocation (execution_id : N) (vendor : AcceleratorVendor)
    (device_ids : list string) (observed_at : Z) : Sess bool :=
  let normalized_ids := strip <$> device_ids in
  _ ← raise_if (existsb (fun i => i == "") normalized_ids)
        (AllocationObservationConflict "observed device IDs must not be blank");
  _ ← raise_if (negb (bool_decide (NoDup normalized_ids)))
        (AllocationObservationConflict "observed device IDs must be unique");
  reservation ← get_active_for_execution execution_id;
  match reservation with
  | None => raise (AllocationObservationConflict "execution has no active reservation")
  | Some reservation =>
      execution ← get_execution execution_id;
      match execution with
      | None => raise (ResourceInvariantViolation "execution is missing for active reservation")
      | Some execution =>
          _ ← raise_if ((allocation_authority reservation !== KUBERNETES_DEVICE_PLUGIN)
                        || (TaskExecution.allocation_authority execution
                            !== KUBERNETES_DEVICE_PLUGIN))
                (AllocationObservationConflict "only kubernetes_device_plugin allocations");
          _ ← raise_if (requested_vendor reservation !== Some vendor)
                (AllocationObservationConflict "observed vendor does not match requested vendor");
          _ ← raise_if (negb (lenZ normalized_ids =? gpu_count reservation))
                (AllocationObservationConflict "observed device count does not match");
          exact_links ← gets (fun db =>
            List.filter (fun x : (N * N) * ReservationGPUDevice.t => x.1.1 == id reservation)
                   (map_to_list (Db.links db)));
          _ ← raise_if (negb (bool_decide (exact_links = [])))
                (ResourceInvariantViolation "must not own exact-device bindings");
          if bool_decide (is_Some (ResourceReservation.observed_at reservation))
             || bool_decide (is_Some (TaskExecution.observed_at execution))
          then
            if (observed_vendor reservation == Some vendor)
               && (observed_device_ids_json reservation == Some normalized_ids)
               && (TaskExecution.observed_vendor execution == Some vendor)
               && (TaskExecution.observed_device_ids_json execution == Some normalized_ids)
            then mret false
            else raise (AllocationObservationConflict
                          "allocation was already observed with different data")
          else
            _ ← put_reservation (reservation
                  <| observed_device_ids_json := Some normalized_ids |>
                  <| observed_vendor := Some vendor |>
                  <| ResourceReservation.observed_at := Some observed_at |>
                  <| version ::= Z.succ |>);
            _ ← put_execution (execution
                  <| TaskExecution.observed_device_ids_json := Some normalized_ids |>
                  <| TaskExecution.observed_vendor := Some vendor |>
                  <| TaskExecution.observed_at := Some observed_at |>);
            mret true
      end
  end.

(** ** Release and settlement *)

(** The float literal [1e-9]. *)
Definition cpu_epsilon : float := float_of_Q (1 # 1000000000)%Q.

(** [reservation.cpu_millicores / 1000] *)
Definition expected_cpu (r : Reservation) : float := truediv (cpu_millicores r) 1000.

(** The guard of the worker's counters. *)
Definition worker_below (w : Worker.t) (r : Reservation) : bool :=
  (Worker.running_tasks w <? 1)
  || flt (fadd (Worker.reserved_cpu w) cpu_epsilon) (expected_cpu r)
  || (Worker.reserved_memory_mb w <? memory_mb r)
  || (Worker.reserved_gpus w <? gpu_count r).

Definition worker_released (w : Worker.t) (r : Reservation) : Worker.t :=
  w <| Worker.running_tasks ::= fun n => n - 1 |>
    <| Worker.reserved_cpu ::= fun c => fsub c (expected_cpu r) |>
    <| Worker.reserved_memory_mb ::= fun m => m - memory_mb r |>
    <| Worker.reserved_gpus ::= fun g => g - gpu_count r |>
    <| Worker.version ::= Z.succ |>.

(** [for link in links: link.released_at = now] over the active links. *)
Definition links_released (reservation_id : N) (now : Z)
    (links : gmap (N * N) ReservationGPUDevice.t) : gmap (N * N) ReservationGPUDevice.t :=
  map_imap (fun (k : N * N) l => Some
    (if (k.1 == reservation_id) && active_link l
     then l <| ReservationGPUDevice.released_at := Some now |> else l)) links.

Definition reservation_released (r : Reservation) (now : Z) (reason : string) : Reservation :=
  r <| state := "released" |> <| released_at := Some now |> <| release_reason := Some reason |>
    <| version ::= Z.succ |>.

(** [Decimal(str(max(0.0, seconds)))] of a duration in microseconds; the
    shortest representation of the float is the exact quotient for durations
    below 10^15 microseconds (31 years). *)
Definition duration_decimal (us : Z) : decimal := Qred (Qmake (Z.max 0 us) 1000000).

(** The ledger entry of an execution. *)
Definition settle (task : Task.t) (r : Reservation) (e : TaskExecution.t) (started_at now : Z)
  : UsageLedger.t :=
  let duration := duration_decimal (now - started_at) in
  let cpu_seconds := dec_div (dec_mul duration (dec_of_Z (TaskExecution.cpu_millicores e)))
                       (dec_of_Z 1000) in
  let memory_gb_seconds := dec_div (dec_mul duration (dec_of_Z (TaskExecution.memory_mb e)))
                             (dec_of_Z 1024) in
  let gpu_seconds := dec_mul duration (dec_of_Z (TaskExecution.gpu_count e)) in
  let cost :=
    dec_add
      (dec_add
        (dec_div (dec_mul cpu_seconds (TaskExecution.cpu_price_per_hour e)) (dec_of_Z 3600))
        (dec_div (dec_mul memory_gb_seconds (TaskExecution.memory_price_per_gb_hour e))
           (dec_of_Z 3600)))
      (dec_div (dec_mul gpu_seconds (TaskExecution.gpu_price_per_hour e)) (dec_of_Z 3600)) in
  UsageLedger.mk (project_id r) (Task.id task) started_at now cpu_seconds memory_gb_seconds
    gpu_seconds (TaskExecution.gpu_model e) cost.

(** [release_and_settle] with the changed task object. *)
Definition release_and_settle (task : Task.t) (execution_id : N) (final_status : TaskStatus)
    (now : Z) (reason : string) : Sess (bool * Task.t) :=
  reservation ← get_active_for_execution execution_id;
  match reservation with
  | None => mret (false, task)
  | Some r =>
      _ ← get_locked (project_id r);
      worker ← get_worker (worker_id r);
      _ ← match worker with
          | Some w =>
              _ ← raise_if (worker_below w r)
                    (ResourceInvariantViolation
                       "worker aggregate capacity is below active reservation");
              put_worker (worker_released w r)
          | None => mret tt
          end;
      _ ← modify (fun db => db <| Db.links ::= links_released (id r) now |>);
      _ ← put_reservation (reservation_released r now reason);
      execution ← get_execution execution_id;
      match execution with
      | None => raise (ResourceInvariantViolation "execution is missing for active reservation")
      | Some e =>
          let e := e <| TaskExecution.status := final_status |>
                     <| TaskExecution.finished_at := Some now |> in
          let give_back settled_cost :=
            release (project_id r) (cpu_millicores r) (memory_mb r) (gpu_count r) ZERO_COST
              settled_cost (Some (date_of (created_at r))) (requested_vendor r) in
          match Task.started_at task with
          | Some started_at =>
              _ ← put_execution (e <| TaskExecution.started_at := Some started_at |>);
              existing_ledger ← gets (fun db => Db.ledger db !! execution_id);
              match existing_ledger with
              | None =>
                  let entry := settle task r e started_at now in
                  _ ← modify (fun db => db <| Db.ledger ::= <[execution_id := entry]> |>);
                  let task := task <| Task.estimated_cost := Some (float_of_Q (UsageLedger.cost entry)) |> in
                  _ ← put_task task;
                  _ ← give_back (UsageLedger.cost entry);
                  mret (true, task)
              | Some _ => _ ← give_back ZERO_COST; mret (true, task)
              end
          | None =>
              _ ← put_execution e;
              _ ← give_back ZERO_COST;
              mret (true, task)
          end
      end
  end.
