(* ===== verification/Tasks.v ===== *)
(** * The task repository ([repositories/tasks.py])

    The life of a task: submission, dependency resolution, claims, the
    callbacks of the worker that owns the execution, completion, cancellation,
    retries and lease recovery.

    - A task object of a session is the row with its primary key: a method
      threads the changed object and stores it.  On an exception the enclosing
      transaction is rolled back ([atomically]), so the store after an
      exception is not observed.
    - [uuid4()] results are arguments of the methods that draw them.
    - [FOR UPDATE SKIP LOCKED] skips the rows in an argument [locked], the rows
      other transactions hold at that moment.
    - SQL leaves the order of rows with equal sort keys open; ties go to the
      smaller primary key. *)

From S2P Require Import Prelude PyFloat PyString Enums Policies Store Quotas Reservations.
From Stdlib Require Import QArith.

#[local] Open Scope stdpp_scope.
#[local] Open Scope Z_scope.

Import Task StateMachine.

(** ** Retry policy *)

(** [2 ** n] is an exact integer; multiplying it with a float converts it,
    which overflows from [2 ** 1024] on. *)
Definition retry_delay_seconds (retry_count : Z) (maximum : float) (backoff : RetryBackoff)
    (base_seconds : float) : PyError + float :=
  if retry_count <? 1 then inl (ValueError "retry_count must be at least 1")
  else if fle base_seconds f0 then inl (ValueError "base_seconds must be greater than zero")
  else if fle maximum f0 then inl (ValueError "maximum must be greater than zero")
  else match backoff with
  | FIXED => inr (fmin base_seconds maximum)
  | LINEAR => inr (fmin (fmul base_seconds (float_of_Z retry_count)) maximum)
  | EXPONENTIAL =>
      if 1024 <? retry_count then inl OverflowError
      else inr (fmin (fmul base_seconds (float_of_Z (2 ^ (retry_count - 1)))) maximum)
  end.

Definition should_retry_failure (error_category : option ErrorCategory) (exit_code : option Z)
    (retry_on_exit_codes : list Z) : bool :=
  match error_category with
  | None => true
  | Some (INFRA_ERROR | INTERNAL_ERROR | TIMEOUT) => true
  | Some (USER_ERROR | RESOURCE_ERROR) =>
      match exit_code with
      | Some code => inb code retry_on_exit_codes
      | None => false
      end
  | Some _ => false
  end.

(** ** Transitions *)
Definition status_changed : string := "task.status_changed".

Definition ensure_transition (current target : TaskStatus) : Sess unit :=
  raise_if (negb (can_transition current target)) (InvalidTaskTransition current target).

(** The timestamps a transition sets. *)
Definition stamp (target : TaskStatus) (now : Z) (task : Task.t) : Task.t :=
  match target with
  | QUEUED => task <| queued_at := Some now |> <| finished_at := None |>
  | ASSIGNED => task <| assigned_at := Some now |>
  | RUNNING => task <| started_at := Some now |>
  | SUCCEEDED | FAILED | CANCELLED | TIMED_OUT | PREEMPTED => task <| finished_at := Some now |>
  | RETRYING => task <| finished_at := None |>
  | _ => task
  end.

Definition transitioned (task : Task.t) (target : TaskStatus) (now : Z) : Task.t :=
  stamp target now (task <| status := target |> <| version ::= Z.succ |>).

Definition transition_event (task : Task.t) (target : TaskStatus) (now : Z) (event_type : string)
  : TaskEvent.t :=
  TaskEvent.mk (project_id task) (id task) event_type (version task + 1) (Some (status task))
    target (execution_id task) (worker_id task) [] now.

Definition _transition (task : Task.t) (target : TaskStatus) (now : Z) (event_type : string)
  : Sess Task.t :=
  _ ← ensure_transition (status task) target;
  let task' := transitioned task target now in
  _ ← put_task task';
  _ ← add_event (transition_event task target now event_type);
  mret task'.

Definition _prepare_for_assignment (task : Task.t) : Task.t :=
  task <| started_at := None |> <| finished_at := None |> <| exit_code := None |>
       <| error_message := None |> <| failure_category := None |> <| error_category := None |>
       <| error_code := None |> <| duration_ms := None |> <| cpu_seconds := None |>
       <| gpu_seconds := None |> <| wall_time_seconds := None |> <| estimated_cost := None |>
       <| runtime_handle := None |> <| gpu_device_ids := [] |> <| cancel_requested := false |>
       <| next_attempt_at := None |> <| unschedulable_reason := None |>.

Definition _accelerator_request_vendors (request : option AcceleratorRequest.t) (gpu_count : Z)
  : option (list AcceleratorVendor) :=
  if gpu_count =? 0 then None
  else match request with
       | None => None
       | Some request =>
           match AcceleratorRequest.allowed_vendors request with
           | [] => None
           | vendors => Some vendors
           end
       end.

(** ** Row selection *)

(** [select(Task).where(p).order_by(key).limit(limit).with_for_update(skip_locked=True)] *)
Definition select_tasks {K} `{Ord K} (p : Task.t -> bool) (key : Task.t -> K) (limit : nat)
    (locked : gset N) (db : Db.t) : list Task.t :=
  take limit
    (List.filter (fun t => negb (bool_decide (id t ∈ locked)))
       (py_sort (fun t => (key t, id t)) (List.filter p (rows (Db.tasks db))))).

(** Ascending order of a nullable column: PostgreSQL sorts NULLs last. *)
Definition nulls_last (x : option Z) : bool * Z :=
  match x with Some v => (false, v) | None => (true, 0) end.

Definition dependencies_of (db : Db.t) (task_id : N) : list TaskDependency.t :=
  List.filter (fun d => TaskDependency.task_id d == task_id) (Db.dependencies db).

(** [_unsatisfied_dependencies]: some existing prerequisite has not succeeded. *)
Definition _unsatisfied_dependencies (db : Db.t) (task_id : N) : bool :=
  existsb (fun d => match Db.tasks db !! TaskDependency.depends_on_task_id d with
                    | Some t => status t !== SUCCEEDED
                    | None => false
                    end) (dependencies_of db task_id).

Definition dependencies_ready (task_id : N) : Sess bool :=
  gets (fun db => negb (_unsatisfied_dependencies db task_id)).

(** ** Worker capacity *)
Definition _worker_can_run_task (worker : Worker.t) (task : Task.t) : bool :=
  (Worker.status worker == ONLINE)
  && negb (Worker.overcommitted worker)
  && inb (RuntimeType_value (runtime_type task)) (Worker.runtime_types worker)
  && (py_round (fmul (Worker.reserved_cpu worker) (float_of_Z 1000)) + cpu_millicores task
      <=? Worker.cpu_allocatable_millicores worker)
  && (Worker.reserved_memory_mb worker + memory_limit_mb task <=? Worker.memory_allocatable_mb worker)
  && (Worker.reserved_gpus worker + gpu_count task <=? Worker.gpu_count worker)
  && labels_match (labels task) (Worker.labels worker)
  && _taints_tolerated (Worker.taints worker) (tolerations task).

Definition _release_worker_capacity (worker : Worker.t) (task : Task.t) : Worker.t :=
  worker <| Worker.running_tasks ::= fun n => Z.max 0 (n - 1) |>
         <| Worker.reserved_cpu ::= fun c => fmax f0 (fsub c (cpu_limit task)) |>
         <| Worker.reserved_memory_mb ::= fun m => Z.max 0 (m - memory_limit_mb task) |>
         <| Worker.reserved_gpus ::= fun g => Z.max 0 (g - gpu_count task) |>
         <| Worker.version ::= Z.succ |>.

Definition _runtime_lease_expiry (task : Task.t) (now : Z) (lease_seconds : float)
    (kubernetes_cleanup_grace_seconds : float) : Sess Z :=
  _ ← raise_if (flt kubernetes_cleanup_grace_seconds f0)
        (ValueError "Kubernetes runtime cleanup grace must not be negative");
  ordinary_expiry ← plus_seconds now lease_seconds;
  if (runtime_type task !== KUBERNETES) || bool_decide (runtime_handle task = None)
  then mret ordinary_expiry
  else
    let started := default now (started_at task) in
    job_expiry ← plus_seconds started
                   (fadd (float_of_Z (timeout_seconds task)) kubernetes_cleanup_grace_seconds);
    mret (Z.max ordinary_expiry job_expiry).

Definition _admit_retry (project_id : N) : Sess bool :=
  state ← gets (fun db => Db.quota_states db !! project_id);
  match state with
  | None => mret true
  | Some _ =>
      try_except (_ ← admit_queued project_id; mret true)
        (fun e => match e with QuotaExceededError _ => Some (mret false) | _ => None end)
  end.

Definition _complete_preemption_plans (task_id : N) (now : Z) : Sess unit :=
  modify (fun db => db <| Db.plans ::= fmap (fun plan =>
    if (PreemptionPlan.victim_task_id plan == task_id) && (PreemptionPlan.state plan == "requested")
    then plan <| PreemptionPlan.state := "completed" |>
              <| PreemptionPlan.completed_at := Some now |>
    else plan) |>).

(** ** Execution ownership *)
Definition _session_owns_execution (worker_id : string) (execution_id worker_session_id : N)
  : Sess bool :=
  worker ← get_worker worker_id;
  match worker with
  | None => mret false
  | Some worker =>
      if Worker.worker_session_id worker !== worker_session_id then mret false
      else gets (fun db => existsb (fun r =>
             (ResourceReservation.execution_id r == execution_id)
             && (ResourceReservation.worker_id r == worker_id)
             && (ResourceReservation.worker_session_id r == worker_session_id)
             && active_reservation r) (rows (Db.reservations db)))
  end.

Definition _owned_task (task_id : N) (worker_id : string) (execution_id : N)
    (worker_session_id : option N) : Sess Task.t :=
  task ← get_task task_id;
  match task with
  | None => raise (StaleExecutionError "execution token is stale")
  | Some task =>
      _ ← raise_if ((Task.worker_id task !== Some worker_id)
                    || (Task.execution_id task !== Some execution_id))
            (StaleExecutionError "execution token is stale");
      _ ← match worker_session_id with
          | None => mret tt
          | Some worker_session_id =>
              owns ← _session_owns_execution worker_id execution_id worker_session_id;
              raise_if (negb owns) (StaleExecutionError "worker session is stale")
          end;
      mret task
  end.

(** ** Submission *)

(** The keyword arguments of [create_queued] the model keeps. *)
Module Submission.
Record t := mk {
  project_id : N;
  timeout_seconds : Z;
  max_retries : Z;
  cpu_limit : float;
  memory_limit_mb : Z;
  labels : gmap string string;
  gpu_count : Z;
  accelerator_request_json : option AcceleratorRequest.t;
  idempotency_key : option string;
  request_hash : option string;
  runtime_type : RuntimeType;
  priority : Z;
  preemptible : bool;
  gpu_memory_mb : Z;
  gpu_model : option string;
  tolerations : list (gmap string string);
  depends_on : list N;
  dependency_failure_policy : string;
  retry_backoff : RetryBackoff;
  retry_base_seconds : float;
  retry_max_seconds : float;
  retry_on_exit_codes : option (list Z);
}.
#[global] Instance eta : Eta t := fun r =>
  mk (project_id r) (timeout_seconds r) (max_retries r) (cpu_limit r) (memory_limit_mb r)
    (labels r) (gpu_count r) (accelerator_request_json r) (idempotency_key r) (request_hash r)
    (runtime_type r) (priority r) (preemptible r) (gpu_memory_mb r) (gpu_model r)
    (tolerations r) (depends_on r) (dependency_failure_policy r) (retry_backoff r)
    (retry_base_seconds r) (retry_max_seconds r) (retry_on_exit_codes r).
End Submission.

(** [round(cpu_limit * 1000)] *)
Definition millicores (cpu_limit : float) : Z := py_round (fmul cpu_limit (float_of_Z 1000)).

(** [Task(...)] with the column defaults. *)
Definition new_task (task_id : N) (now : Z) (a : Submission.t) : Task.t :=
  {| id := task_id;
     project_id := Submission.project_id a;
     runtime_type := Submission.runtime_type a;
     status := PENDING;
     created_at := now;
     queued_at := None; assigned_at := None; started_at := None; finished_at := None;
     worker_id := None; execution_id := None; lease_expires_at := None;
     exit_code := None; error_message := None;
     timeout_seconds := Submission.timeout_seconds a;
     retry_count := 0;
     max_retries := Submission.max_retries a;
     retry_backoff := Submission.retry_backoff a;
     retry_base_seconds := Submission.retry_base_seconds a;
     retry_max_seconds := Submission.retry_max_seconds a;
     retry_on_exit_codes := default [1; 137] (Submission.retry_on_exit_codes a);
     recovery_count := 0;
     next_attempt_at := None;
     cpu_limit := Submission.cpu_limit a;
     cpu_millicores := millicores (Submission.cpu_limit a);
     memory_limit_mb := Submission.memory_limit_mb a;
     gpu_count := Submission.gpu_count a;
     gpu_memory_mb := Submission.gpu_memory_mb a;
     gpu_model := Submission.gpu_model a;
     gpu_device_ids := [];
     kubernetes_node_name := None;
     accelerator_request_json := Submission.accelerator_request_json a;
     selected_vendor := None; selected_kind := None; selected_model := None;
     runtime_profile_id := None; runtime_profile_version := None; runtime_profile_digest := None;
     allocation_authority := None;
     labels := Submission.labels a;
     tolerations := Submission.tolerations a;
     priority := Submission.priority a;
     queue_order := 0;
     preemptible := Submission.preemptible a;
     preemption_count := 0;
     requeue_on_preempt := true;
     unschedulable_reason := None;
     failure_category := None; error_category := None; error_code := None;
     runtime_handle := None;
     cancel_requested := false;
     duration_ms := None; cpu_seconds := None; gpu_seconds := None; wall_time_seconds := None;
     estimated_cost := None;
     idempotency_key := Submission.idempotency_key a;
     request_hash := Submission.request_hash a;
     version := 1;
     log_sequence := 0 |}.

(** The event of a created task. *)
Definition created_event (task : Task.t) (now : Z) : TaskEvent.t :=
  TaskEvent.mk (project_id task) (id task) "task.created" 0 None PENDING None None [] now.

Definition failed_prerequisite (s : TaskStatus) : bool :=
  inb s FINAL_TASK_STATUSES && (s !== SUCCEEDED).

(** [task.terminal] with the status only. *)
Definition outbox_terminal (task_id : N) (s : TaskStatus) (now : Z) : Sess unit :=
  outbox_add task_id "task.terminal"
    [("task_id", JUuid task_id); ("status", JStr (TaskStatus_value s))] now.
Definition outbox_ready (task_id : N) (now : Z) : Sess unit :=
  outbox_add task_id "task.ready" [("task_id", JUuid task_id)] now.

Definition create_queued (task_id : N) (a : Submission.t) : Sess Task.t :=
  let dependency_ids := Submission.depends_on a in
  _ ← raise_if (negb (bool_decide (NoDup dependency_ids)))
        (DependencyValidationError "depends_on task IDs must be unique");
  _ ← raise_if (negb (inb (Submission.dependency_failure_policy a) ["block"; "cancel"]))
        (DependencyValidationError "unsupported dependency failure policy");
  dependency_tasks ← gets (fun db =>
    List.filter (fun t => (project_id t == Submission.project_id a) && inb (id t) dependency_ids)
           (rows (Db.tasks db)));
  _ ← raise_if (negb (bool_decide (List.length dependency_tasks = List.length dependency_ids)))
        (DependencyValidationError "every dependency must exist in the submitting project");
  '(quota, _) ← initialize (Submission.project_id a);
  _ ← ensure_task_can_fit quota (millicores (Submission.cpu_limit a))
        (Submission.memory_limit_mb a) (Submission.gpu_count a) None
        (_accelerator_request_vendors (Submission.accelerator_request_json a)
           (Submission.gpu_count a));
  _ ← admit_queued (Submission.project_id a);
  now ← database_utcnow;
  let task := new_task task_id now a in
  _ ← insert_task task;
  _ ← modify (fun db => db <| Db.dependencies ::= fun l => l ++
        ((fun d => TaskDependency.mk task_id d None (Submission.dependency_failure_policy a))
           <$> dependency_ids) |>);
  _ ← add_event (created_event task now);
  let dependency_failed := existsb (fun t => failed_prerequisite (status t)) dependency_tasks in
  let dependencies_succeeded := forallb (fun t => status t == SUCCEEDED) dependency_tasks in
  if dependency_failed && (Submission.dependency_failure_policy a == "cancel")
  then
    task ← _transition task CANCELLED now "task.dependency_cancelled";
    let task := task <| error_message := Some "a prerequisite task did not succeed" |>
                     <| failure_category := Some CANCELLED_ERROR |>
                     <| error_category := Some CANCELLED_ERROR |> in
    _ ← put_task task;
    _ ← release_queued (Submission.project_id a);
    _ ← outbox_terminal task_id CANCELLED now;
    mret task
  else if dependencies_succeeded
  then
    task ← _transition task QUEUED now "task.queued";
    _ ← put_task task;
    _ ← outbox_ready task_id now;
    mret task
  else mret task.

(** ** Dependency resolution *)

(** [(failure_policy, status)] of the existing prerequisites of a task. *)
Definition dependency_rows (db : Db.t) (task_id : N) : list (string * TaskStatus) :=
  omap (fun d => (fun t => (TaskDependency.failure_policy d, status t))
                 <$> Db.tasks db !! TaskDependency.depends_on_task_id d)
       (dependencies_of db task_id).

(** One iteration of [resolve_dependency_readiness]; [rows] was read before
    the loop. *)
Definition resolve_task (task : Task.t) (rows : list (string * TaskStatus)) (changed : list N)
  : Sess (list N) :=
  match rows with
  | [] => mret changed
  | _ =>
      if forallb (fun r : string * TaskStatus => r.2 == SUCCEEDED) rows
      then
        if status task == PENDING
        then
          resolved_at ← database_utcnow;
          task ← _transition task QUEUED resolved_at "task.dependencies_satisfied";
          _ ← put_task task;
          _ ← outbox_ready (id task) resolved_at;
          mret (changed ++ [id task])
        else mret changed
      else
        let failed_rows :=
          List.filter (fun r : string * TaskStatus => failed_prerequisite r.2) rows in
        if existsb (fun r : string * TaskStatus => r.1 == "cancel") failed_rows
        then
          resolved_at ← database_utcnow;
          task ← _transition task CANCELLED resolved_at "task.dependency_cancelled";
          let task := task <| cancel_requested := true |>
                           <| error_message := Some "a prerequisite task did not succeed" |>
                           <| failure_category := Some CANCELLED_ERROR |>
                           <| error_category := Some CANCELLED_ERROR |> in
          _ ← put_task task;
          _ ← release_queued (project_id task);
          _ ← outbox_terminal (id task) CANCELLED resolved_at;
          mret (changed ++ [id task])
        else mret changed
  end.

Definition resolve_dependency_readiness (limit : nat) (locked : gset N) : Sess (list N) :=
  tasks ← gets (fun db => select_tasks
    (fun t => negb (bool_decide (dependencies_of db (id t) = []))
              && inb (status t) [PENDING; QUEUED])
    created_at limit locked db);
  pairs ← gets (fun db => (fun t => (t, dependency_rows db (id t))) <$> tasks);
  foldM pairs [] (fun changed x => resolve_task x.1 x.2 changed).

(** ** Pull-mode claims *)
Definition claimable_device (db : Db.t) (worker : Worker.t) (task : Task.t) (d : GPUDevice.t) : bool :=
  (GPUDevice.worker_id d == Worker.id worker)
  && (GPUDevice.health d == "healthy")
  && (gpu_memory_mb task <=? GPUDevice.memory_free_mb d)
  && (GPUDevice.vendor d == NVIDIA)
  && (GPUDevice.accelerator_kind d == GPU)
  && negb (existsb (fun x : (N * N) * ReservationGPUDevice.t =>
             active_link x.2 && (x.1.2 == GPUDevice.id d)) (map_to_list (Db.links db)))
  && match gpu_model task with
     | Some m => GPUDevice.model d == m
     | None => true
     end.

Definition claim_devices (worker : Worker.t) (task : Task.t) (locked_devices : gset N) (db : Db.t)
  : list GPUDevice.t :=
  take (Z.to_nat (gpu_count task))
    (List.filter (fun d => negb (bool_decide (GPUDevice.id d ∈ locked_devices)))
       (py_sort (fun d => (GPUDevice.memory_free_mb d,
                            (GPUDevice.memory_total_mb d, GPUDevice.device_uuid d)))
          (List.filter (claimable_device db worker task) (rows (Db.gpu_devices db))))).

(** [max(TaskExecution.attempt)] of the task, or 0. *)
Definition previous_attempt (db : Db.t) (task_id : N) : Z :=
  foldr Z.max 0 (TaskExecution.attempt <$>
    List.filter (fun e => TaskExecution.task_id e == task_id) (rows (Db.executions db))).

(** The prices of an execution, as [Decimal(str(price))]. *)
Module Prices.
Record t := mk { cpu : decimal; memory : decimal; gpu : decimal }.
End Prices.

(** [x if condition else None] *)
Definition if_some {A} (b : bool) (x : A) : option A := if b then Some x else None.

(** Who allocates the accelerators of an execution, and for which request. *)
Module Allocation.
Record t := mk {
  authority : AllocationAuthority;
  vendor : AcceleratorVendor;
  kind : AcceleratorKind;
  profile_id : option string;
  profile_version : option string;
  profile_digest : option string;
}.

(** The control plane binds NVIDIA devices itself. *)
Definition exact : t := mk CONTROL_PLANE_EXACT_DEVICE NVIDIA GPU None None None.
End Allocation.

Definition claim_execution (alloc : Allocation.t) (eid : N) (task : Task.t) (worker : Worker.t)
    (devices : list GPUDevice.t) (attempt now : Z) (prices : Prices.t) : TaskExecution.t :=
  let gpus := negb (gpu_count task =? 0) in
  let bound := negb (bool_decide (devices = [])) in
  {| TaskExecution.id := eid;
     TaskExecution.task_id := id task;
     TaskExecution.project_id := project_id task;
     TaskExecution.worker_id := Some (Worker.id worker);
     TaskExecution.worker_session_id := Some (Worker.worker_session_id worker);
     TaskExecution.attempt := attempt;
     TaskExecution.status := ASSIGNED;
     TaskExecution.cpu_millicores := cpu_millicores task;
     TaskExecution.memory_mb := memory_limit_mb task;
     TaskExecution.gpu_count := gpu_count task;
     TaskExecution.gpu_model := gpu_model task;
     TaskExecution.allocation_authority := Allocation.authority alloc;
     TaskExecution.requested_vendor := if_some gpus (Allocation.vendor alloc);
     TaskExecution.requested_kind := if_some gpus (Allocation.kind alloc);
     TaskExecution.requested_profile_id := Allocation.profile_id alloc;
     TaskExecution.requested_profile_version := Allocation.profile_version alloc;
     TaskExecution.requested_profile_digest := Allocation.profile_digest alloc;
     TaskExecution.observed_device_ids_json := if_some bound (GPUDevice.device_uuid <$> devices);
     TaskExecution.observed_vendor := if_some bound (Allocation.vendor alloc);
     TaskExecution.observed_at := if_some bound now;
     TaskExecution.cpu_price_per_hour := Prices.cpu prices;
     TaskExecution.memory_price_per_gb_hour := Prices.memory prices;
     TaskExecution.gpu_price_per_hour := Prices.gpu prices;
     TaskExecution.assigned_at := now;
     TaskExecution.started_at := None;
     TaskExecution.finished_at := None;
     TaskExecution.runtime_type := runtime_type task;
     TaskExecution.runtime_object_id := None;
     TaskExecution.runtime_namespace := None;
     TaskExecution.runtime_resource_kind := None;
     TaskExecution.runtime_resource_name := None;
     TaskExecution.runtime_resource_uid := None;
     TaskExecution.runtime_worker_session_id := None;
     TaskExecution.observed_pod_name := None;
     TaskExecution.observed_pod_uid := None;
     TaskExecution.runtime_spec_hash := None;
     TaskExecution.error_category := None;
     TaskExecution.error_code := None;
     TaskExecution.error_message := None |}.

Definition claim_reservation (alloc : Allocation.t) (rid eid : N) (task : Task.t) (worker : Worker.t)
    (devices : list GPUDevice.t) (now : Z) : ResourceReservation.t :=
  let gpus := negb (gpu_count task =? 0) in
  let bound := negb (bool_decide (devices = [])) in
  {| ResourceReservation.id := rid;
     ResourceReservation.project_id := project_id task;
     ResourceReservation.task_id := id task;
     ResourceReservation.execution_id := eid;
     ResourceReservation.worker_id := Worker.id worker;
     ResourceReservation.worker_session_id := Worker.worker_session_id worker;
     ResourceReservation.cpu_millicores := cpu_millicores task;
     ResourceReservation.memory_mb := memory_limit_mb task;
     ResourceReservation.gpu_count := gpu_count task;
     ResourceReservation.allocation_authority := Allocation.authority alloc;
     ResourceReservation.requested_vendor := if_some gpus (Allocation.vendor alloc);
     ResourceReservation.requested_kind := if_some gpus (Allocation.kind alloc);
     ResourceReservation.requested_profile_id := Allocation.profile_id alloc;
     ResourceReservation.requested_profile_version := Allocation.profile_version alloc;
     ResourceReservation.requested_profile_digest := Allocation.profile_digest alloc;
     ResourceReservation.observed_device_ids_json :=
       if_some bound (GPUDevice.device_uuid <$> devices);
     ResourceReservation.observed_vendor := if_some bound (Allocation.vendor alloc);
     ResourceReservation.observed_at := if_some bound now;
     ResourceReservation.state := "active";
     ResourceReservation.legacy_unbound := false;
     ResourceReservation.created_at := now;
     ResourceReservation.released_at := None;
     ResourceReservation.release_reason := None;
     ResourceReservation.version := 1 |}.

(** The worker's counters after a pull-mode claim: the CPU share grows by the
    task's [cpu_limit]. *)
Definition worker_claimed (worker : Worker.t) (task : Task.t) : Worker.t :=
  worker <| Worker.running_tasks ::= Z.succ |>
         <| Worker.reserved_cpu ::= fun c => fadd c (cpu_limit task) |>
         <| Worker.reserved_memory_mb ::= Z.add (memory_limit_mb task) |>
         <| Worker.reserved_gpus ::= Z.add (gpu_count task) |>
         <| Worker.version ::= Z.succ |>.

Definition bind_devices (rid : N) (devices : list GPUDevice.t) (now : Z) : Sess unit :=
  for_each devices (fun d => insert_link rid (GPUDevice.id d) (ReservationGPUDevice.mk now None)).

(** The writes a claim and a placement share once the task object is
    assigned: the worker's counters, the execution, the reservation with its
    device bindings, and the project quota. *)
Definition reserve_assignment (alloc : Allocation.t) (eid rid : N) (task : Task.t) (worker worker' : Worker.t)
    (devices : list GPUDevice.t) (now : Z) (prices : Prices.t) : Sess unit :=
  _ ← put_worker worker';
  attempt ← gets (fun db => previous_attempt db (id task));
  _ ← insert_execution (claim_execution alloc eid task worker devices (attempt + 1) now prices);
  let reservation := claim_reservation alloc rid eid task worker devices now in
  _ ← insert_reservation reservation;
  _ ← bind_devices rid devices now;
  _ ← assert_exact_device_binding reservation;
  _ ← reserve_execution (project_id task) (cpu_millicores task) (memory_limit_mb task)
        (gpu_count task) ZERO_COST (if_some (negb (gpu_count task =? 0)) (Allocation.vendor alloc));
  mret tt.

Definition queue_wait (task : Task.t) (now : Z) : float :=
  match queued_at task with
  | Some q => fmax f0 (total_seconds (now - q))
  | None => f0
  end.

Definition claim (eid rid : N) (locked_devices : gset N) (task_id : N) (worker_id : string)
    (lease_seconds : float) (worker_session_id : option N) (prices : Prices.t)
  : Sess (Task.t * N) :=
  task ← get_task task_id;
  match task with
  | None => raise (ClaimRejected "task is no longer queued")
  | Some task =>
      _ ← raise_if ((status task !== QUEUED) || cancel_requested task)
            (ClaimRejected "task is no longer queued");
      ready ← dependencies_ready (id task);
      _ ← raise_if (negb ready) (ClaimRejected "task dependencies are not ready");
      _ ← get_locked (project_id task);
      worker ← get_worker worker_id;
      match worker with
      | None => raise (ClaimRejected "worker is not online")
      | Some worker =>
          _ ← raise_if (Worker.status worker !== ONLINE) (ClaimRejected "worker is not online");
          _ ← raise_if (match worker_session_id with
                        | Some i => Worker.worker_session_id worker !== i
                        | None => false
                        end) (ClaimRejected "worker session is stale");
          _ ← raise_if (Worker.concurrency worker <=? Worker.running_tasks worker)
                (ClaimRejected "worker has no free concurrency slot");
          _ ← raise_if (negb (_worker_can_run_task worker task))
                (ClaimRejected "worker does not satisfy task requirements");
          devices ← gets (fun db => if gpu_count task =? 0 then []
                                    else claim_devices worker task locked_devices db);
          _ ← raise_if (negb (lenZ devices =? gpu_count task))
                (ClaimRejected "worker concrete GPU inventory is insufficient");
          now ← database_utcnow;
          task' ← _transition (_prepare_for_assignment task) ASSIGNED now "task.assigned";
          expiry ← plus_seconds now lease_seconds;
          let task := task' <| Task.worker_id := Some (Worker.id worker) |>
                            <| execution_id := Some eid |>
                            <| lease_expires_at := Some expiry |>
                            <| gpu_device_ids ::= fun ids =>
                                 if bool_decide (devices = []) then ids
                                 else GPUDevice.device_uuid <$> devices |> in
          _ ← put_task task;
          _ ← reserve_assignment Allocation.exact eid rid task worker (worker_claimed worker task) devices now prices;
          _ ← outbox_add (id task) "task.assigned"
                [("task_id", JUuid (id task)); ("worker_id", JStr (Worker.id worker));
                 ("execution_id", JUuid eid); ("queue_wait_seconds", JFloat (queue_wait task now))]
                now;
          mret (task, eid)
      end
  end.

(** ** Delivery of a global assignment *)

(** The joins and filters of [take_global_assignment]. *)
Definition deliverable (db : Db.t) (worker_id : string) (worker_session_id : N) (t : Task.t) : bool :=
  (Task.worker_id t == Some worker_id)
  && (status t == ASSIGNED)
  && match Db.workers db !! worker_id with
     | Some w => Worker.worker_session_id w == worker_session_id
     | None => false
     end
  && existsb (fun r =>
       (Some (ResourceReservation.execution_id r) == execution_id t)
       && (ResourceReservation.worker_session_id r == worker_session_id)
       && active_reservation r
       && (ResourceReservation.gpu_count r =? gpu_count t)
       && ((gpu_count t =? 0)
           || (lenZ (List.filter (fun x : (N * N) * ReservationGPUDevice.t =>
                       (x.1.1 == ResourceReservation.id r) && active_link x.2)
                     (map_to_list (Db.links db))) =? gpu_count t)))
       (rows (Db.reservations db)).

Definition take_global_assignment (locked : gset N) (worker_id : string) (worker_session_id : N)
    (lease_seconds : float) : Sess (option Task.t) :=
  found ← gets (fun db => select_tasks (deliverable db worker_id worker_session_id)
                            (fun t => nulls_last (assigned_at t)) 1 locked db);
  match found with
  | [] => mret None
  | task :: _ =>
      now ← database_utcnow;
      task ← _transition task PREPARING now status_changed;
      expiry ← plus_seconds now lease_seconds;
      let task := task <| lease_expires_at := Some expiry |> in
      _ ← put_task task;
      mret (Some task)
  end.

(** ** Worker callbacks *)

(** [task.lease_expires_at = _runtime_lease_expiry(...)] *)
Definition extend_lease (task : Task.t) (now : Z) (lease_seconds grace : float) : Sess Task.t :=
  expiry ← _runtime_lease_expiry task now lease_seconds grace;
  mret (task <| lease_expires_at := Some expiry |>).

(** The shape shared by [mark_pulling], [mark_starting] and [mark_running]:
    an execution that is already at or past the status only renews its lease;
    from one of [from] it makes the transition. *)
Definition mark (already from : list TaskStatus) (target : TaskStatus) (stale : string)
    (task_id : N) (worker_id : string) (eid : N) (lease_seconds : float)
    (worker_session_id : option N) (grace : float) : Sess Task.t :=
  task ← _owned_task task_id worker_id eid worker_session_id;
  if inb (status task) already
  then
    now ← database_utcnow;
    task ← extend_lease task now lease_seconds grace;
    let task := task <| version ::= Z.succ |> in
    _ ← put_task task;
    mret task
  else
    _ ← raise_if (negb (inb (status task) from)) (StaleExecutionError stale);
    now ← database_utcnow;
    task ← _transition task target now status_changed;
    task ← extend_lease task now lease_seconds grace;
    _ ← put_task task;
    mret task.

Definition mark_pulling := mark [PULLING; STARTING; RUNNING] [ASSIGNED; PREPARING] PULLING
  "task is no longer assigned to this execution".
Definition mark_starting := mark [STARTING; RUNNING] [PULLING] STARTING
  "task is no longer pulling for this execution".
Definition mark_running := mark [RUNNING] [PULLING; STARTING] RUNNING
  "task is no longer starting for this execution".

(** What a worker reports about a runtime object. *)
Module RuntimeReport.
Record t := mk {
  runtime_type : string;
  resource_kind : string;
  resource_name : string;
  namespace : option string;
  resource_uid : option string;
  runtime_worker_session_id : option N;
  spec_hash : option string;
  observed_pod_name : option string;
  observed_pod_uid : option string;
}.
End RuntimeReport.

Definition is_none {A} (x : option A) : bool := match x with None => true | Some _ => false end.
Definition falsy (x : option string) : bool := match x with None | Some "" => true | _ => false end.

(** A recorded Pod identity differs from the reported one. *)
Definition pod_changed (name uid reported_name reported_uid : option string) : bool :=
  negb (is_none name) && ((name !== reported_name) || (uid !== reported_uid)).

Definition record_runtime_handle (task_id : N) (worker_id : string) (eid : N)
    (h : RuntimeReport.t) (worker_session_id : option N) (grace : float) : Sess Task.t :=
  task ← _owned_task task_id worker_id eid worker_session_id;
  execution ← get_execution eid;
  match execution with
  | None => raise (StaleExecutionError "runtime handle execution record is stale")
  | Some e =>
      _ ← raise_if ((TaskExecution.task_id e !== task_id)
                    || (TaskExecution.worker_id e !== Some worker_id))
            (StaleExecutionError "runtime handle execution record is stale");
      _ ← raise_if (match worker_session_id with
                    | Some i => TaskExecution.worker_session_id e !== Some i
                    | None => false
                    end) (StaleExecutionError "runtime handle controller session is stale");
      _ ← raise_if (RuntimeType_value (TaskExecution.runtime_type e) !== RuntimeReport.runtime_type h)
            (StaleExecutionError "runtime handle type does not match the execution");
      let pod_name := RuntimeReport.observed_pod_name h in
      let pod_uid := RuntimeReport.observed_pod_uid h in
      _ ← raise_if (is_none pod_name !== is_none pod_uid)
            (ValueError "observed Pod name and UID must be recorded together");
      _ ← raise_if (pod_changed (TaskExecution.observed_pod_name e)
                      (TaskExecution.observed_pod_uid e) pod_name pod_uid)
            (StaleExecutionError "observed Kubernetes Pod identity is immutable");
      let existing_handle := runtime_handle task in
      _ ← raise_if (match existing_handle with
                    | Some p => pod_changed (RuntimeHandle.observed_pod_name p)
                                  (RuntimeHandle.observed_pod_uid p) pod_name pod_uid
                    | None => false
                    end) (StaleExecutionError "persisted Kubernetes Pod identity is immutable");
      let kubernetes := RuntimeReport.runtime_type h == "kubernetes" in
      _ ← when kubernetes (
            _ ← raise_if (flt grace f0)
                  (ValueError "Kubernetes runtime cleanup grace must not be negative");
            _ ← raise_if ((RuntimeReport.resource_kind h !== "job")
                          || falsy (RuntimeReport.namespace h)
                          || falsy (Some (RuntimeReport.resource_name h))
                          || falsy (RuntimeReport.resource_uid h)
                          || is_none (RuntimeReport.runtime_worker_session_id h)
                          || falsy (RuntimeReport.spec_hash h))
                  (ValueError "Kubernetes runtime handle has incomplete Job fencing identity");
            raise_if (negb (is_none (TaskExecution.runtime_worker_session_id e))
                      && (TaskExecution.runtime_worker_session_id e
                          !== RuntimeReport.runtime_worker_session_id h))
              (StaleExecutionError "Kubernetes Job creation session is immutable"));
      let persisted :=
        RuntimeHandle.mk (RuntimeReport.runtime_type h) (RuntimeReport.namespace h)
          (RuntimeReport.resource_kind h) (RuntimeReport.resource_name h)
          (RuntimeReport.resource_uid h) (RuntimeReport.runtime_worker_session_id h)
          pod_name pod_uid (RuntimeReport.spec_hash h)
          (match existing_handle with
           | Some p => RuntimeHandle.runtime_log_cursor_bytes p
           | None => 0
           end) in
      let task := task <| runtime_handle := Some persisted |> <| version ::= Z.succ |> in
      task ← (if kubernetes
              then now ← database_utcnow; extend_lease task now f0 grace
              else mret task);
      _ ← put_task task;
      let e := e <| TaskExecution.runtime_object_id := Some (RuntimeReport.resource_name h) |> in
      let e := if kubernetes
               then e <| TaskExecution.runtime_namespace := RuntimeReport.namespace h |>
                      <| TaskExecution.runtime_resource_kind := Some (RuntimeReport.resource_kind h) |>
                      <| TaskExecution.runtime_resource_name := Some (RuntimeReport.resource_name h) |>
                      <| TaskExecution.runtime_resource_uid := RuntimeReport.resource_uid h |>
                      <| TaskExecution.runtime_worker_session_id :=
                           RuntimeReport.runtime_worker_session_id h |>
                      <| TaskExecution.observed_pod_name := pod_name |>
                      <| TaskExecution.observed_pod_uid := pod_uid |>
                      <| TaskExecution.runtime_spec_hash := RuntimeReport.spec_hash h |>
               else e in
      _ ← put_execution e;
      mret task
  end.

Definition advance_runtime_log_cursor (task_id : N) (worker_id : string) (eid : N)
    (cursor_bytes : Z) (resource_name resource_uid spec_hash : string) (worker_session_id : N)
  : Sess Task.t :=
  _ ← raise_if (cursor_bytes <? 0) (ValueError "runtime log cursor must not be negative");
  task ← _owned_task task_id worker_id eid (Some worker_session_id);
  execution ← get_execution eid;
  match execution, runtime_handle task with
  | Some e, Some p =>
      _ ← raise_if ((TaskExecution.task_id e !== task_id)
                    || (TaskExecution.worker_id e !== Some worker_id)
                    || (TaskExecution.worker_session_id e !== Some worker_session_id)
                    || (TaskExecution.runtime_type e !== KUBERNETES)
                    || (TaskExecution.runtime_resource_name e !== Some resource_name)
                    || (TaskExecution.runtime_resource_uid e !== Some resource_uid)
                    || (TaskExecution.runtime_spec_hash e !== Some spec_hash)
                    || (RuntimeHandle.runtime_type p !== "kubernetes")
                    || (RuntimeHandle.runtime_resource_name p !== resource_name)
                    || (RuntimeHandle.runtime_resource_uid p !== Some resource_uid)
                    || (RuntimeHandle.runtime_spec_hash p !== Some spec_hash))
            (StaleExecutionError "runtime log cursor execution fence is stale");
      let current := RuntimeHandle.runtime_log_cursor_bytes p in
      _ ← raise_if (current <? 0) (StaleExecutionError "persisted runtime log cursor is invalid");
      _ ← raise_if (cursor_bytes <? current)
            (StaleExecutionError "runtime log cursor must be monotonic");
      if cursor_bytes =? current then mret task
      else
        let task := task <| runtime_handle :=
                              Some (p <| RuntimeHandle.runtime_log_cursor_bytes := cursor_bytes |>) |>
                         <| version ::= Z.succ |> in
        _ ← put_task task;
        mret task
  | _, _ => raise (StaleExecutionError "runtime log cursor execution fence is stale")
  end.

Definition runtime_cleanup_owned (task_id : N) (worker_id : string) (eid worker_session_id : N)
    (runtime_type resource_name : string) (resource_uid spec_hash : option string) : Sess bool :=
  worker ← get_worker worker_id;
  execution ← get_execution eid;
  reservation ← gets (fun db => List.find (fun r => ResourceReservation.execution_id r == eid)
                                  (rows (Db.reservations db)));
  match worker, execution, reservation with
  | Some w, Some e, Some r =>
      if (Worker.worker_session_id w !== worker_session_id)
         || (TaskExecution.task_id e !== task_id)
         || (TaskExecution.worker_id e !== Some worker_id)
         || (TaskExecution.worker_session_id e !== Some worker_session_id)
         || (ResourceReservation.worker_id r !== worker_id)
         || (ResourceReservation.worker_session_id r !== worker_session_id)
         || (RuntimeType_value (TaskExecution.runtime_type e) !== runtime_type)
         || (TaskExecution.runtime_object_id e !== Some resource_name)
      then mret false
      else if runtime_type == "kubernetes"
      then mret ((TaskExecution.runtime_resource_kind e == Some "job")
                 && (TaskExecution.runtime_resource_name e == Some resource_name)
                 && (TaskExecution.runtime_resource_uid e == resource_uid)
                 && (TaskExecution.runtime_spec_hash e == spec_hash))
      else mret true
  | _, _, _ => mret false
  end.

Definition preserve_kubernetes_handoff_lease (task_id : N) (worker_id : string)
    (eid worker_session_id : N) (cleanup_grace_seconds : Z) : Sess Task.t :=
  task ← _owned_task task_id worker_id eid (Some worker_session_id);
  _ ← raise_if ((runtime_type task !== KUBERNETES) || is_none (runtime_handle task))
        (StaleExecutionError "Kubernetes handoff runtime handle is no longer owned");
  _ ← raise_if (cleanup_grace_seconds <? 0)
        (ValueError "Kubernetes handoff cleanup grace must not be negative");
  now ← database_utcnow;
  let task := task <| lease_expires_at :=
                        Some (now + (timeout_seconds task + cleanup_grace_seconds) * 1000000) |>
                   <| version ::= Z.succ |> in
  _ ← put_task task;
  mret task.

Definition renew_lease (task_id : N) (worker_id : string) (eid : N) (lease_seconds : float)
    (worker_session_id : option N) (grace : float) : Sess bool :=
  task ← get_task task_id;
  match task with
  | None => mret false
  | Some task =>
      if (Task.worker_id task !== Some worker_id) || (execution_id task !== Some eid)
         || negb (inb (status task) ACTIVE_TASK_STATUSES)
      then mret false
      else
        owns ← match worker_session_id with
               | Some i => _session_owns_execution worker_id eid i
               | None => mret true
               end;
        if negb owns then mret false
        else
          now ← database_utcnow;
          task ← extend_lease task now lease_seconds grace;
          _ ← put_task (task <| version ::= Z.succ |>);
          mret true
  end.

Definition cancellation_requested (task_id : N) (worker_id : string) (eid : N)
    (worker_session_id : option N) : Sess bool :=
  task ← _owned_task task_id worker_id eid worker_session_id;
  mret (cancel_requested task || (status task == CANCELLED)).

Definition append_log (task_id : N) (eid : option N) (stream : LogStream) (content : string)
    (worker_id : option string) (worker_session_id : option N) : Sess TaskLog.t :=
  task ← match worker_session_id with
         | Some i =>
             match worker_id, eid with
             | Some w, Some e =>
                 task ← _owned_task task_id w e (Some i);
                 mret (Some task)
             | _, _ => raise (ValueError "worker_id and execution_id are required")
             end
         | None => get_task task_id
         end;
  match task with
  | None => raise (LookupError "task does not exist")
  | Some task =>
      _ ← raise_if (match eid with
                    | Some e => (execution_id task !== Some e)
                                || negb (inb (status task) ACTIVE_TASK_STATUSES)
                    | None => false
                    end)
            (StaleExecutionError "cannot append logs for a stale or terminal execution");
      let task := task <| log_sequence ::= Z.succ |> <| version ::= Z.succ |> in
      _ ← put_task task;
      now ← database_utcnow;
      let log := TaskLog.mk task_id eid stream (log_sequence task) content now in
      _ ← add_log log;
      mret log
  end.

(** ** Completion *)
Module ExecutionResult.
Record t := mk { accepted : bool; status : option TaskStatus; retry_scheduled : bool }.
End ExecutionResult.

(** What a completion amounts to: the worker's report, overridden by a
    pending cancellation or preemption. *)
Module Outcome.
Record t := mk {
  target : TaskStatus;
  error_message : option string;
  error_category : option ErrorCategory;
  error_code : option ErrorCode;
}.
End Outcome.

(** [task.status == PREEMPTING] *)
Definition preemption_requested (task : Task.t) : bool := status task == PREEMPTING.
(** A preemption the user has cancelled. *)
Definition user_cancelled_preemption (task : Task.t) : bool :=
  preemption_requested task && (failure_category task == Some CANCELLED_ERROR).
(** The cancellation wins over the worker's report. *)
Definition cancellation_wins (task : Task.t) : bool :=
  cancel_requested task && (negb (preemption_requested task) || user_cancelled_preemption task).

Definition classify (task : Task.t) (exit_code : option Z) (reported : Outcome.t) : Outcome.t :=
  if cancellation_wins task
  then Outcome.mk CANCELLED (Some "task was cancelled by user request") (Some CANCELLED_ERROR) None
  else if preemption_requested task
  then Outcome.mk PREEMPTED (Some "task was stopped to admit a higher-priority workload")
         (Some PREEMPTED_ERROR) None
  else match Outcome.error_category reported with
  | Some _ => reported
  | None =>
      let category :=
        match Outcome.target reported with
        | TIMED_OUT => Some TIMEOUT
        | CANCELLED => Some CANCELLED_ERROR
        | PREEMPTED => Some PREEMPTED_ERROR
        | FAILED => Some (if is_none exit_code then INTERNAL_ERROR else USER_ERROR)
        | _ => None
        end in
      Outcome.mk (Outcome.target reported) (Outcome.error_message reported) category
        (Outcome.error_code reported)
  end.

(** The usage figures of a started task. *)
Definition usage_figures (task : Task.t) (now : Z) (cpu_price gpu_price : float) : Task.t :=
  match started_at task with
  | None => task
  | Some start =>
      let duration := fmax f0 (total_seconds (now - start)) in
      let cpu := fmul duration (cpu_limit task) in
      let gpu := fmul duration (float_of_Z (gpu_count task)) in
      task <| duration_ms := Some (py_round (fmul duration (float_of_Z 1000))) |>
           <| wall_time_seconds := Some duration |>
           <| cpu_seconds := Some cpu |>
           <| gpu_seconds := Some gpu |>
           <| estimated_cost := Some (fadd (fdiv (fmul cpu cpu_price) (float_of_Z 3600))
                                           (fdiv (fmul gpu gpu_price) (float_of_Z 3600))) |>
  end.

(** [_release_worker_capacity] of a worker that still exists. *)
Definition release_legacy_capacity (worker_id : string) (task : Task.t) : Sess unit :=
  worker ← get_worker worker_id;
  match worker with
  | Some worker => put_worker (_release_worker_capacity worker task)
  | None => mret tt
  end.

Definition set_execution_error (eid : N) (category : option ErrorCategory) (code : option ErrorCode)
    (message : option string) : Sess unit :=
  execution ← get_execution eid;
  match execution with
  | Some e => put_execution (e <| TaskExecution.error_category := category |>
                               <| TaskExecution.error_code := code |>
                               <| TaskExecution.error_message := message |>)
  | None => mret tt
  end.

(** The failure consumes a retry of the task's budget. *)
Definition retry_wanted (task : Task.t) (o : Outcome.t) (exit_code : option Z) : bool :=
  inb (Outcome.target o) [FAILED; TIMED_OUT]
  && (retry_count task <? max_retries task)
  && should_retry_failure (Outcome.error_category o) exit_code (retry_on_exit_codes task).

Definition jfloat (x : option float) : Json := match x with Some f => JFloat f | None => JNull end.

(** The lifted exception of a pure helper. *)
Definition lift {A} (r : PyError + A) : Sess A :=
  match r with inl e => raise e | inr a => mret a end.

(** The part of [finish_execution] after the release: retry or terminal. *)
Definition settle_outcome (task : Task.t) (o : Outcome.t) (exit_code : option Z) (now : Z)
    (retry_max_backoff_seconds : float) : Sess (Task.t * bool) :=
  let requeue := (Outcome.target o == PREEMPTED) && requeue_on_preempt task in
  let wanted := retry_wanted task o exit_code in
  retry_admitted ← (if requeue || wanted then _admit_retry (project_id task) else mret false);
  if wanted && retry_admitted
  then
    let task := task <| retry_count ::= Z.succ |> in
    task ← _transition task RETRYING now status_changed;
    delay ← lift (retry_delay_seconds (retry_count task)
                    (fmin (retry_max_seconds task) retry_max_backoff_seconds)
                    (retry_backoff task) (retry_base_seconds task));
    at_ ← plus_seconds now delay;
    mret (task <| next_attempt_at := Some at_ |>
               <| worker_id := None |> <| execution_id := None |>
               <| cancel_requested := false |>, true)
  else if requeue && retry_admitted
  then
    task ← _transition task RETRYING now status_changed;
    mret (task <| next_attempt_at := Some now |> <| worker_id := None |>
               <| execution_id := None |> <| cancel_requested := false |>, true)
  else
    _ ← outbox_add (id task) "task.terminal"
          [("task_id", JUuid (id task)); ("status", JStr (TaskStatus_value (status task)));
           ("duration_seconds", jfloat (wall_time_seconds task));
           ("cpu_seconds", jfloat (cpu_seconds task));
           ("gpu_seconds", jfloat (gpu_seconds task))] now;
    mret (task, false).

Definition finish_execution (task_id : N) (worker_id : string) (eid : N) (exit_code : option Z)
    (reported : Outcome.t) (retry_max_backoff_seconds cpu_price gpu_price : float)
    (worker_session_id : option N) : Sess ExecutionResult.t :=
  let rejected s := ExecutionResult.mk false s false in
  task ← get_task task_id;
  match task with
  | None => mret (rejected None)
  | Some task =>
      if (Task.worker_id task !== Some worker_id) || (execution_id task !== Some eid)
      then mret (rejected None)
      else if negb (inb (status task) ACTIVE_TASK_STATUSES)
      then mret (rejected (Some (status task)))
      else
        owns ← match worker_session_id with
               | Some i => _ ← get_locked (project_id task);
                           _session_owns_execution worker_id eid i
               | None => mret true
               end;
        if negb owns then mret (rejected None)
        else
          now ← database_utcnow;
          let preempting := preemption_requested task in
          let o := classify task exit_code reported in
          let target := Outcome.target o in
          task ← _transition task target now ("task." +:+ TaskStatus_value target)%string;
          let task := task <| Task.exit_code := exit_code |>
                           <| error_message := Outcome.error_message o |>
                           <| failure_category := Outcome.error_category o |>
                           <| error_category := Outcome.error_category o |>
                           <| error_code := Outcome.error_code o |>
                           <| lease_expires_at := None |> in
          let task := usage_figures task now cpu_price gpu_price in
          _ ← put_task task;
          '(released, task) ← release_and_settle task eid target now (TaskStatus_value target);
          _ ← when (negb released) (release_legacy_capacity worker_id task);
          _ ← set_execution_error eid (Outcome.error_category o) (Outcome.error_code o)
                (Outcome.error_message o);
          _ ← when preempting (_complete_preemption_plans (id task) now);
          '(task, retry_scheduled) ← settle_outcome task o exit_code now retry_max_backoff_seconds;
          _ ← put_task task;
          mret (ExecutionResult.mk true (Some (status task)) retry_scheduled)
  end.

(** ** Cancellation *)
Definition cancel (task_id : N) : Sess (option Task.t) :=
  task ← get_task task_id;
  match task with
  | None => mret None
  | Some task =>
      if inb (status task) [SUCCEEDED; FAILED; CANCELLED; TIMED_OUT; PREEMPTED]
      then mret (Some task)
      else if status task == PREEMPTING
      then
        let task := task <| cancel_requested := true |> <| requeue_on_preempt := false |>
                         <| failure_category := Some CANCELLED_ERROR |>
                         <| error_category := Some CANCELLED_ERROR |> <| error_code := None |>
                         <| version ::= Z.succ |> in
        _ ← put_task task;
        mret (Some task)
      else if inb (status task) ACTIVE_TASK_STATUSES && negb (is_none (execution_id task))
      then
        let task := task <| cancel_requested := true |> in
        task ← (if status task !== STOPPING
                then now ← database_utcnow; _transition task STOPPING now "task.stop_requested"
                else mret task);
        _ ← put_task task;
        mret (Some task)
      else
        let previous_status := status task in
        let previous_worker_id := worker_id task in
        now ← database_utcnow;
        task ← _transition task CANCELLED now status_changed;
        let task := task <| cancel_requested := true |>
                         <| failure_category := Some CANCELLED_ERROR |>
                         <| error_category := Some CANCELLED_ERROR |> <| error_code := None |>
                         <| lease_expires_at := None |> <| execution_id := None |> in
        _ ← put_task task;
        _ ← when (inb previous_status [PENDING; QUEUED; SCHEDULING; RETRYING]) (
              quota_state ← gets (fun db => Db.quota_states db !! project_id task);
              match quota_state with
              | Some _ => _ ← release_queued (project_id task); mret tt
              | None => mret tt
              end);
        _ ← match previous_worker_id with
            | Some w => release_legacy_capacity w task
            | None => mret tt
            end;
        _ ← outbox_terminal (id task) CANCELLED now;
        mret (Some task)
  end.

Definition cancel_for_project (project_id task_id : N) : Sess (option Task.t) :=
  task ← get_task task_id;
  match task with
  | Some task => if Task.project_id task == project_id then cancel task_id else mret None
  | None => mret None
  end.

(** ** Retries that are due *)
Definition release_retry (now : Z) (task : Task.t) : Sess unit :=
  if cancel_requested task
  then
    task ← _transition task CANCELLED now status_changed;
    _ ← put_task (task <| next_attempt_at := None |>
                       <| failure_category := Some CANCELLED_ERROR |>
                       <| error_category := Some CANCELLED_ERROR |> <| error_code := None |>);
    outbox_terminal (id task) CANCELLED now
  else
    task ← _transition task QUEUED now status_changed;
    _ ← put_task (task <| next_attempt_at := None |> <| cancel_requested := false |>);
    outbox_ready (id task) now.

Definition release_due_retries (limit : nat) (locked : gset N) : Sess (list N) :=
  now ← database_utcnow;
  tasks ← gets (fun db => select_tasks
    (fun t => (status t == RETRYING)
              && match next_attempt_at t with None => true | Some at_ => at_ <=? now end)
    (fun t => nulls_last (next_attempt_at t)) limit locked db);
  _ ← for_each tasks (release_retry now);
  mret (id <$> tasks).

(** ** Lease recovery *)

(** The next attempt of a recovered task, at [at_]. *)
Definition recovered_retry (task : Task.t) (at_ : Z) : Task.t :=
  task <| next_attempt_at := Some at_ |> <| cancel_requested := false |>.

Definition append_message (task : Task.t) (suffix : string) : Task.t :=
  task <| error_message ::= fun m => Some (default "" m +:+ suffix)%string |>.

(** The release part of one iteration of [recover_expired]. *)
Definition revoke_execution (task : Task.t) (now : Z) (recovered_status : TaskStatus) : Sess Task.t :=
  let worker_id := Task.worker_id task in
  let task := task <| lease_expires_at := None |> in
  _ ← put_task task;
  '(released, task) ← match execution_id task with
                      | Some eid => release_and_settle task eid recovered_status now
                                      "execution_lease_expired"
                      | None => mret (false, task)
                      end;
  _ ← match worker_id with
      | Some w => when (negb released) (release_legacy_capacity w task)
      | None => mret tt
      end;
  mret (task <| execution_id := None |> <| Task.worker_id := None |>).

(** One iteration of the loop of [recover_expired]. *)
Definition recover_task (now : Z) (max_recovery_attempts : Z) (grace : float)
    (recovered : list N) (task : Task.t) : Sess (list N) :=
  let eid := execution_id task in
  let preempting := preemption_requested task in
  let cancelled := cancellation_wins task in
  let recovered_status := if cancelled then CANCELLED else if preempting then PREEMPTED else FAILED in
  worker ← match worker_id task with Some w => get_worker w | None => mret None end;
  let recovery_code := match worker with
                       | None => WORKER_LOST
                       | Some w => if Worker.status w == OFFLINE then WORKER_LOST else LEASE_EXPIRED
                       end in
  task ← revoke_execution task now recovered_status;
  _ ← when preempting (_complete_preemption_plans (id task) now);
  let note category code task :=
    match eid with
    | Some eid => set_execution_error eid (Some category) code (error_message task)
    | None => mret tt
    end in
  if cancelled
  then
    task ← _transition task CANCELLED now status_changed;
    let task := task <| error_message :=
                          Some "task was cancelled before its execution lease expired" |>
                     <| failure_category := Some CANCELLED_ERROR |>
                     <| error_category := Some CANCELLED_ERROR |> <| error_code := None |> in
    _ ← note CANCELLED_ERROR None task;
    _ ← outbox_terminal (id task) CANCELLED now;
    _ ← put_task task;
    mret (recovered ++ [id task])
  else if preempting
  then
    task ← _transition task PREEMPTED now "task.preempted";
    let task := task <| error_message :=
                          Some "preempted execution lease expired; worker ownership was revoked" |>
                     <| failure_category := Some PREEMPTED_ERROR |>
                     <| error_category := Some PREEMPTED_ERROR |> <| error_code := None |> in
    _ ← note PREEMPTED_ERROR None task;
    admitted ← (if requeue_on_preempt task then _admit_retry (project_id task) else mret false);
    if (admitted : bool)
    then
      task ← _transition task RETRYING now status_changed;
      at_ ← plus_seconds now grace;
      _ ← put_task (recovered_retry task at_);
      mret (recovered ++ [id task])
    else
      let task := if requeue_on_preempt task
                  then append_message task "; retry suppressed by project queue quota" else task in
      _ ← outbox_terminal (id task) PREEMPTED now;
      _ ← put_task task;
      mret recovered
  else
    task ← _transition task FAILED now status_changed;
    let task := task <| error_message :=
                          Some "execution lease expired; worker ownership was revoked" |>
                     <| failure_category := Some INFRA_ERROR |>
                     <| error_category := Some INFRA_ERROR |>
                     <| error_code := Some recovery_code |> in
    _ ← note INFRA_ERROR (Some recovery_code) task;
    if recovery_count task <? max_recovery_attempts
    then
      admitted ← _admit_retry (project_id task);
      if (admitted : bool)
      then
        let task := task <| recovery_count ::= Z.succ |> in
        task ← _transition task RETRYING now status_changed;
        at_ ← plus_seconds now grace;
        _ ← put_task (recovered_retry task at_);
        mret (recovered ++ [id task])
      else
        let task := append_message task "; retry suppressed by project queue quota" in
        _ ← outbox_terminal (id task) FAILED now;
        _ ← put_task task;
        mret recovered
    else
      _ ← outbox_terminal (id task) FAILED now;
      _ ← put_task task;
      mret recovered.

(** [sorted({task.project_id for task in tasks}, key=str)] *)
Definition fence_order (tasks : list Task.t) : list N :=
  py_sort (fun p => p) (remove_dups (project_id <$> tasks)).

Definition recover_expired (limit : nat) (max_recovery_attempts : Z) (grace : float)
    (locked : gset N) : Sess (list N) :=
  now ← database_utcnow;
  tasks ← gets (fun db => select_tasks
    (fun t => inb (status t) ACTIVE_TASK_STATUSES
              && match lease_expires_at t with None => false | Some at_ => at_ <? now end)
    (fun t => nulls_last (lease_expires_at t)) limit locked db);
  _ ← for_each (fence_order tasks) (fun p => _ ← get_locked p; mret tt);
  foldM tasks [] (recover_task now max_recovery_attempts grace).

(** ** Takeover of Kubernetes executions by a new worker session *)
Module Observation.
Record t := mk {
  task_id : option N;
  execution_id : option N;
  worker_session_id : option N;
  controller_session_id : option N;
  namespace : option string;
  resource_name : option string;
  resource_uid : option string;
  spec_hash : option string;
  observed_pod_name : option string;
  observed_pod_uid : option string;
}.
End Observation.

Module RecoverableRuntimeExecution.
Record t := mk {
  task_id : N;
  execution_id : N;
  worker_session_id : N;
  runtime_log_cursor_bytes : Z;
}.
End RecoverableRuntimeExecution.

(** The fence of a takeover: rows, persisted handle and observation agree. *)
Definition takeover_allowed (worker_id : string) (tid eid runtime_session : N) (o : Observation.t)
    (task : Task.t) (p : RuntimeHandle.t) (e : TaskExecution.t) (r : ResourceReservation.t) : bool :=
  inb (status task) ACTIVE_TASK_STATUSES
  && (Task.worker_id task == Some worker_id)
  && (execution_id task == Some eid)
  && (runtime_type task == KUBERNETES)
  && (TaskExecution.task_id e == tid)
  && (TaskExecution.worker_id e == Some worker_id)
  && (TaskExecution.runtime_worker_session_id e == Some runtime_session)
  && (ResourceReservation.worker_id r == worker_id)
  && (TaskExecution.worker_session_id e == Some (ResourceReservation.worker_session_id r))
  && (RuntimeHandle.runtime_type p == "kubernetes")
  && (RuntimeHandle.runtime_namespace p == Observation.namespace o)
  && (RuntimeHandle.runtime_resource_kind p == "job")
  && (Some (RuntimeHandle.runtime_resource_name p) == Observation.resource_name o)
  && (RuntimeHandle.runtime_resource_uid p == Observation.resource_uid o)
  && (RuntimeHandle.runtime_worker_session_id p == Some runtime_session)
  && (RuntimeHandle.runtime_spec_hash p == Observation.spec_hash o)
  && (TaskExecution.runtime_namespace e == Observation.namespace o)
  && (TaskExecution.runtime_resource_kind e == Some "job")
  && (TaskExecution.runtime_resource_name e == Observation.resource_name o)
  && (TaskExecution.runtime_resource_uid e == Observation.resource_uid o)
  && (TaskExecution.runtime_spec_hash e == Observation.spec_hash o)
  && (is_none (Observation.observed_pod_name o) == is_none (Observation.observed_pod_uid o))
  && negb (pod_changed (RuntimeHandle.observed_pod_name p) (RuntimeHandle.observed_pod_uid p)
             (Observation.observed_pod_name o) (Observation.observed_pod_uid o))
  && negb (pod_changed (TaskExecution.observed_pod_name e) (TaskExecution.observed_pod_uid e)
             (Observation.observed_pod_name o) (Observation.observed_pod_uid o)).

(** One observation of [transfer_recoverable_kubernetes_executions]; an id
    that does not parse is [None]. *)
Definition transfer_one (worker_id : string) (new_session : N) (lease_seconds grace : float)
    (recovered : list RecoverableRuntimeExecution.t) (o : Observation.t)
  : Sess (list RecoverableRuntimeExecution.t) :=
  match Observation.task_id o, Observation.execution_id o, Observation.worker_session_id o,
        Observation.controller_session_id o with
  | Some tid, Some eid, Some runtime_session, Some controller_session =>
      if controller_session !== new_session then mret recovered
      else
        task ← get_task tid;
        execution ← get_execution eid;
        reservation ← get_active_for_execution eid;
        match task, execution, reservation with
        | Some task, Some e, Some r =>
            match runtime_handle task with
            | None => mret recovered
            | Some p =>
                let cursor := RuntimeHandle.runtime_log_cursor_bytes p in
                if (cursor <? 0)
                   || negb (takeover_allowed worker_id tid eid runtime_session o task p e r)
                then mret recovered
                else
                  now ← database_utcnow;
                  _ ← put_execution (e <| TaskExecution.worker_session_id := Some new_session |>);
                  _ ← put_reservation (r <| ResourceReservation.worker_session_id := new_session |>);
                  task ← extend_lease task now lease_seconds grace;
                  _ ← put_task (task <| version ::= Z.succ |>);
                  mret (recovered ++
                    [RecoverableRuntimeExecution.mk tid eid new_session cursor])
            end
        | _, _, _ => mret recovered
        end
  | _, _, _, _ => mret recovered
  end.

Definition transfer_recoverable_kubernetes_executions (worker_id : string) (new_session : N)
    (lease_seconds : float) (observations : list Observation.t) (grace : float)
  : Sess (list RecoverableRuntimeExecution.t) :=
  worker ← get_worker worker_id;
  match worker with
  | None => mret []
  | Some w =>
      if Worker.worker_session_id w !== new_session then mret []
      else foldM observations [] (transfer_one worker_id new_session lease_seconds grace)
  end.
