(* ===== verification/Services.v ===== *)
(** * Services and replicas ([repositories/services.py])

    A service states how many replicas of a model server should run; the
    reconciler turns this into replica rows, workers and the Kubernetes
    controller bind executions to them under leases and report their progress,
    and the gateway takes endpoints from the healthy ones.  The definitions
    are the methods of [ServiceRepository] and the module's helpers.  A row
    object that a loop mutates is threaded through the loop and written back
    at each change, as the session's identity map does; ids of new rows and
    the rows skipped because they are locked are arguments. *)

From S2P Require Import Prelude PyString PyUrl PyFloat Enums Store Names Quotas Tasks.
From Stdlib Require Import String.

#[local] Open Scope stdpp_scope.
#[local] Open Scope Z_scope.

Notation Svc := ModelService.t.
Notation Rep := ServiceReplica.t.

Definition ACTIVE_REPLICA_STATUSES : list ReplicaStatus.t :=
  [ReplicaStatus.PENDING; ReplicaStatus.STARTING; ReplicaStatus.LOADING; ReplicaStatus.RUNNING].
Definition NONTERMINAL_REPLICA_STATUSES : list ReplicaStatus.t :=
  ACTIVE_REPLICA_STATUSES ++ [ReplicaStatus.DRAINING; ReplicaStatus.STOPPING].

(** [if value:] for a nullable string *)
Definition truthy (s : option string) : bool :=
  match s with Some s => negb (is_empty s) | None => false end.

Module ServiceCounts.
Record t := mk { actual_replicas : Z; healthy_replicas : Z }.
End ServiceCounts.

Module EndpointSelection.
Record t := mk {
  service_id : N;
  replica_id : N;
  generation : Z;
  execution_id : N;
  endpoint_url : string;
}.
End EndpointSelection.

Module ReconcileResult.
Record t := mk {
  services_seen : Z;
  replicas_created : Z;
  replicas_stopping : Z;
  replicas_stopped : Z;
  services_updated : Z;
}.
Definition zero : t := mk 0 0 0 0 0.
Definition add (a b : t) : t :=
  mk (services_seen a + services_seen b) (replicas_created a + replicas_created b)
    (replicas_stopping a + replicas_stopping b) (replicas_stopped a + replicas_stopped b)
    (services_updated a + services_updated b).
End ReconcileResult.

Module LeaseRecoveryResult.
Record t := mk { services_seen : Z; replicas_lost : Z; replicas_stopped : Z }.
End LeaseRecoveryResult.

(** The arguments of [ServiceRepository.create] other than the id. *)
Module ServiceSpec.
Record t := mk {
  project_id : N;
  name : string;
  model : string;
  runtime : ServingRuntime;
  runtime_type : RuntimeType;
  image : option string;
  cpu_millicores : Z;
  memory_mb : Z;
  gpu_count : Z;
  gpu_memory_mb : Z;
  desired_replicas : Z;
  registered_model_id : option N;
  model_revision : option string;
  gpu_model : option string;
  tensor_parallel_size : option Z;
  dtype : string;
  gpu_memory_utilization : float;
  max_model_len : option Z;
  autoscaling_enabled : bool;
  autoscaling_min_replicas : Z;
  autoscaling_max_replicas : Z;
  autoscaling_target_concurrency : Z;
  autoscaling_cooldown_seconds : Z;
  logical_model_id : option N;
  model_variant_id : option N;
  selected_vendor : option AcceleratorVendor;
  selected_kind : option AcceleratorKind;
  selected_model : option string;
  runtime_profile_id : option string;
  runtime_profile_version : option string;
  runtime_profile_digest : option string;
  allocation_authority : option AllocationAuthority;
  accelerator_resource_name : option string;
  selection_policy : option AcceleratorSelectionPolicy;
  eligible_node_names : option (list string);
}.
End ServiceSpec.

(** ** Rows *)
Definition put_service (s : Svc) : Sess unit :=
  modify (fun db => db <| Db.services ::= <[ModelService.id s := s]> |>).
Definition put_replica (r : Rep) : Sess unit :=
  modify (fun db => db <| Db.replicas ::= <[ServiceReplica.id r := r]> |>).

(** Assignments to a persistent object: the object returned has them, and the
    flush updates these columns of its row. *)
Definition update_service (s : Svc) (f : Svc -> Svc) : Sess Svc :=
  _ ← modify (fun db => db <| Db.services ::= alter f (ModelService.id s) |>);
  mret (f s).
Definition update_replica (r : Rep) (f : Rep -> Rep) : Sess Rep :=
  _ ← modify (fun db => db <| Db.replicas ::= alter f (ServiceReplica.id r) |>);
  mret (f r).

(** The check constraints on the admission snapshot, which [model_services]
    and [service_replicas] share. *)
Definition snapshot_checks (logical_model_id model_variant_id : option N)
    (selected_vendor : option AcceleratorVendor) (selected_kind : option AcceleratorKind)
    (selected_model profile_id profile_version profile_digest : option string)
    (authority : option AllocationAuthority) (resource_name : option string)
    (policy : option AcceleratorSelectionPolicy) (nodes : option (list string)) : bool :=
  ((is_none logical_model_id && is_none model_variant_id && is_none selected_vendor
    && is_none selected_kind && is_none selected_model && is_none profile_id
    && is_none profile_version && is_none profile_digest && is_none authority
    && is_none resource_name && is_none policy && is_none nodes)
   || (negb (is_none logical_model_id) && negb (is_none model_variant_id)
       && negb (is_none selected_vendor) && negb (is_none selected_kind)
       && negb (is_none selected_model) && negb (is_none profile_id)
       && negb (is_none profile_version) && negb (is_none profile_digest)
       && negb (is_none authority) && negb (is_none policy) && negb (is_none nodes)))
  && match selected_vendor with
     | None => true
     | Some v => selected_kind == Some (kind_for_vendor v)
     end
  && match profile_digest with None => true | Some d => sha256_digest d end
  && match authority with
     | Some KUBERNETES_DEVICE_PLUGIN => negb (is_none resource_name)
     | _ => true
     end
  && match selected_vendor, policy with
     | Some v, Some NVIDIA_ONLY => v == NVIDIA
     | Some v, Some ASCEND_ONLY => v == HUAWEI_ASCEND
     | _, _ => true
     end.

(** The check constraints of [model_services]. *)
Definition service_checks (s : Svc) : bool :=
  (0 <=? ModelService.desired_replicas s) && (ModelService.desired_replicas s <=? 1000)
  && (1 <=? ModelService.generation s) && (1 <=? ModelService.cpu_millicores s)
  && (16 <=? ModelService.memory_mb s) && (0 <=? ModelService.gpu_count s)
  && (0 <=? ModelService.gpu_memory_mb s)
  && snapshot_checks (ModelService.logical_model_id s) (ModelService.model_variant_id s)
       (ModelService.selected_vendor s) (ModelService.selected_kind s) (ModelService.selected_model s)
       (ModelService.runtime_profile_id s) (ModelService.runtime_profile_version s)
       (ModelService.runtime_profile_digest s) (ModelService.allocation_authority s)
       (ModelService.accelerator_resource_name s) (ModelService.selection_policy s)
       (ModelService.eligible_node_names s)
  && (1 <=? ModelService.tensor_parallel_size s)
  && flt f0 (ModelService.gpu_memory_utilization s) && fle (ModelService.gpu_memory_utilization s) f1
  && match ModelService.max_model_len s with None => true | Some n => 1 <=? n end
  && (0 <=? ModelService.autoscaling_min_replicas s)
  && (ModelService.autoscaling_min_replicas s <=? 1000)
  && (1 <=? ModelService.autoscaling_max_replicas s)
  && (ModelService.autoscaling_min_replicas s <=? ModelService.autoscaling_max_replicas s)
  && (ModelService.autoscaling_max_replicas s <=? 1000)
  && (1 <=? ModelService.autoscaling_target_concurrency s)
  && (ModelService.autoscaling_target_concurrency s <=? 1000000)
  && (0 <=? ModelService.autoscaling_cooldown_seconds s)
  && (ModelService.autoscaling_cooldown_seconds s <=? 86400).

Definition check_service (s : Svc) : Sess unit :=
  raise_if (negb (service_checks s)) (IntegrityError "ck_model_services").

(** A foreign key that may be null. *)
Definition missing {V} (key : option N) (table : gmap N V) : bool :=
  match key with Some k => is_none (table !! k) | None => false end.

(** Primary key, [uq_model_services_project_name], the foreign keys to the
    model registry and the check constraints. *)
Definition insert_service (s : Svc) : Sess unit :=
  taken ← gets (fun db => bool_decide (is_Some (Db.services db !! ModelService.id s)));
  _ ← raise_if taken (IntegrityError "model_services_pkey");
  namesakes ← gets (fun db => services_named db (ModelService.project_id s) (ModelService.name s));
  _ ← raise_if (bool_decide (namesakes <> [])) (IntegrityError "uq_model_services_project_name");
  dangling ← gets (fun db => missing (ModelService.logical_model_id s) (Db.logical_models db)
                             || missing (ModelService.model_variant_id s) (Db.model_variants db));
  _ ← raise_if dangling (IntegrityError "fk_model_services");
  _ ← check_service s;
  put_service s.

(** The check constraints of [service_replicas]. *)
Definition replica_checks (r : Rep) : bool :=
  (1 <=? ServiceReplica.generation r) && (0 <=? ServiceReplica.ordinal r)
  && (0 <=? ServiceReplica.health_failure_count r) && (0 <=? ServiceReplica.active_requests r)
  && snapshot_checks (ServiceReplica.logical_model_id r) (ServiceReplica.model_variant_id r)
       (ServiceReplica.selected_vendor r) (ServiceReplica.selected_kind r)
       (ServiceReplica.selected_model r) (ServiceReplica.runtime_profile_id r)
       (ServiceReplica.runtime_profile_version r) (ServiceReplica.runtime_profile_digest r)
       (ServiceReplica.allocation_authority r) (ServiceReplica.accelerator_resource_name r)
       (ServiceReplica.selection_policy r) (ServiceReplica.eligible_node_names r).

Definition same_slot (r x : Rep) : bool :=
  (ServiceReplica.service_id x == ServiceReplica.service_id r)
  && (ServiceReplica.generation x =? ServiceReplica.generation r)
  && (ServiceReplica.ordinal x =? ServiceReplica.ordinal r).

(** Primary key, [uq_service_replicas_generation_ordinal], the foreign keys and
    the checks. *)
Definition insert_replica (r : Rep) : Sess unit :=
  taken ← gets (fun db => bool_decide (is_Some (Db.replicas db !! ServiceReplica.id r)));
  _ ← raise_if taken (IntegrityError "service_replicas_pkey");
  others ← gets (fun db => rows (Db.replicas db));
  _ ← raise_if (existsb (same_slot r) others)
        (IntegrityError "uq_service_replicas_generation_ordinal");
  dangling ← gets (fun db => missing (Some (ServiceReplica.service_id r)) (Db.services db)
                             || missing (ServiceReplica.logical_model_id r) (Db.logical_models db)
                             || missing (ServiceReplica.model_variant_id r) (Db.model_variants db));
  _ ← raise_if dangling (IntegrityError "fk_service_replicas");
  _ ← raise_if (negb (replica_checks r)) (IntegrityError "ck_service_replicas");
  put_replica r.

(** ** Helpers of the module *)
Definition _add_service_event (aggregate_id : N) (aggregate_type event_type : string)
    (payload : list (string * Json)) (available_at : Z) : Sess unit :=
  modify (fun db => db <| Db.outbox ::= fun l =>
    l ++ [OutboxEvent.mk aggregate_id event_type payload available_at aggregate_type] |>).

Definition jint (z : Z) : Json := JInt z.
Definition juuid (u : option N) : Json := match u with Some u => JUuid u | None => JNull end.

Definition _worker_session_matches (worker_id : option string) (worker_session_id : option N) : Sess bool :=
  match worker_session_id with
  | None => mret true
  | Some i =>
      match worker_id with
      | None => raise (ValueError "worker_id is required when worker_session_id is provided")
      | Some w =>
          worker ← get_worker w;
          mret (match worker with Some worker => Worker.worker_session_id worker == i | None => false end)
      end
  end.

Definition _lock_service_and_replica (replica_id : N) : Sess (option Svc * option Rep) :=
  gets (fun db =>
    match Db.replicas db !! replica_id with
    | None => (None, None)
    | Some replica => (Db.services db !! ServiceReplica.service_id replica, Some replica)
    end).

(** The replica and its service, if [execution_id] is its current owner and
    the service still wants it. *)
Definition _owned_current_replica (replica_id : N) (generation : Z) (execution_id : N)
    (worker_id : option string) (worker_session_id : option N) : Sess (option (Rep * Svc)) :=
  matches ← _worker_session_matches worker_id worker_session_id;
  if negb matches then mret None
  else
    '(service, replica) ← _lock_service_and_replica replica_id;
    match replica with
    | None => mret None
    | Some replica =>
        if negb (ServiceReplica.generation replica =? generation)
           || (ServiceReplica.execution_id replica !== Some execution_id)
        then mret None
        else if negb (is_none worker_id) && (ServiceReplica.worker_id replica !== worker_id)
        then mret None
        else match service with
             | None => mret None
             | Some service =>
                 if negb (ModelService.generation service =? generation)
                    || (ModelService.desired_replicas service =? 0)
                 then mret None
                 else mret (Some (replica, service))
             end
    end.

Definition active_replica (r : Rep) : bool := inb (ServiceReplica.status r) ACTIVE_REPLICA_STATUSES.

Definition _scale_down_order (replica : Rep) : Z * Z :=
  let rank :=
    if ServiceReplica.status replica == ReplicaStatus.PENDING then 0
    else if inb (ServiceReplica.status replica) [ReplicaStatus.STARTING; ReplicaStatus.LOADING] then 1
    else if ServiceReplica.health replica == ReplicaHealth.UNHEALTHY then 2
    else if ServiceReplica.health replica == ReplicaHealth.UNKNOWN then 3
    else 4 in
  (rank, - ServiceReplica.ordinal replica).

(** Returns the changed row and how many stops were requested and were
    immediate. *)
Definition _request_replica_stop (service : Svc) (replica : Rep) (now : Z) (reason : string)
    (drain_timeout_seconds : float) : Sess (Rep * (Z * Z)) :=
  if inb (ServiceReplica.status replica) [ReplicaStatus.DRAINING; ReplicaStatus.STOPPING]
  then mret (replica, (0, 0))
  else
    let marked (r : Rep) := r <| ServiceReplica.error_message := Some reason |>
                              <| ServiceReplica.updated_at := now |>
                              <| ServiceReplica.version ::= Z.succ |> in
    if (ServiceReplica.status replica == ReplicaStatus.PENDING)
       && is_none (ServiceReplica.execution_id replica)
    then
      replica ← update_replica replica (fun r => (marked r)
        <| ServiceReplica.status := ReplicaStatus.STOPPED |>
        <| ServiceReplica.stopped_at := Some now |>);
      _ ← _add_service_event (ServiceReplica.id replica) "service_replica" "service.replica.terminal"
            [("service_id", JUuid (ModelService.id service));
             ("replica_id", JUuid (ServiceReplica.id replica));
             ("generation", JInt (ServiceReplica.generation replica));
             ("status", JStr (ReplicaStatus.value ReplicaStatus.STOPPED)); ("reason", JStr reason)] now;
      mret (replica, (0, 1))
    else if ServiceReplica.status replica == ReplicaStatus.RUNNING
    then
      drain_deadline ← plus_seconds now drain_timeout_seconds;
      replica ← update_replica replica (fun r => (marked r)
        <| ServiceReplica.status := ReplicaStatus.DRAINING |>
        <| ServiceReplica.drain_started_at := Some now |>
        <| ServiceReplica.drain_deadline := Some drain_deadline |>);
      _ ← _add_service_event (ServiceReplica.id replica) "service_replica"
            "service.replica.drain_requested"
            [("service_id", JUuid (ModelService.id service));
             ("project_id", JUuid (ModelService.project_id service));
             ("replica_id", JUuid (ServiceReplica.id replica));
             ("generation", JInt (ServiceReplica.generation replica));
             ("execution_id", juuid (ServiceReplica.execution_id replica));
             ("active_requests", JInt (ServiceReplica.active_requests replica));
             ("drain_deadline", JTime drain_deadline); ("reason", JStr reason)] now;
      mret (replica, (1, 0))
    else
      replica ← update_replica replica (fun r => (marked r)
        <| ServiceReplica.health := ReplicaHealth.UNHEALTHY |>
        <| ServiceReplica.endpoint_url := None |>
        <| ServiceReplica.status := ReplicaStatus.STOPPING |>);
      _ ← _add_service_event (ServiceReplica.id replica) "service_replica"
            "service.replica.stop_requested"
            [("service_id", JUuid (ModelService.id service));
             ("project_id", JUuid (ModelService.project_id service));
             ("replica_id", JUuid (ServiceReplica.id replica));
             ("generation", JInt (ServiceReplica.generation replica));
             ("execution_id", juuid (ServiceReplica.execution_id replica)); ("reason", JStr reason)] now;
      mret (replica, (1, 0)).

Definition _derive_service_status (service : Svc) (replicas : list Rep) : ServiceStatus.t :=
  let current := List.filter (fun item =>
    ServiceReplica.generation item =? ModelService.generation service) replicas in
  let active := List.filter active_replica current in
  let stopping := existsb (fun item =>
    inb (ServiceReplica.status item) [ReplicaStatus.DRAINING; ReplicaStatus.STOPPING]) replicas in
  let running := List.filter (fun item => ServiceReplica.status item == ReplicaStatus.RUNNING) current in
  let healthy := List.filter (fun item =>
    (ServiceReplica.health item == ReplicaHealth.HEALTHY) && truthy (ServiceReplica.endpoint_url item))
    running in
  let some_active := negb (bool_decide (active = [])) in
  if ModelService.desired_replicas service =? 0
  then if some_active || stopping then ServiceStatus.STOPPING else ServiceStatus.STOPPED
  else if (ModelService.desired_replicas service <=? lenZ healthy)
          && (ModelService.desired_replicas service <=? lenZ running)
  then ServiceStatus.RUNNING
  else if negb (bool_decide (healthy = [])) then ServiceStatus.DEGRADED
  else if existsb (fun item => ServiceReplica.health item == ReplicaHealth.UNHEALTHY) running
  then ServiceStatus.DEGRADED
  else if some_active || stopping then ServiceStatus.DEPLOYING
  else ServiceStatus.FAILED.

(** ** Queries *)
Module ServiceRepository.

Definition get (service_id : N) (project_id : option N) : Sess (option Svc) :=
  gets (fun db =>
    match Db.services db !! service_id with
    | Some s => if match project_id with Some p => ModelService.project_id s == p | None => true end
                then Some s else None
    | None => None
    end).

(** [(project_id, name)] is unique. *)
Definition get_by_name (project_id : N) (name : string) : Sess (option Svc) :=
  gets (fun db => head (services_named db project_id name)).

Definition wanted_status (status : option ServiceStatus.t) (s : Svc) : bool :=
  match status with Some x => ModelService.status s == x | None => true end.

(** [after] is the position of the last row of the previous page. *)
Definition list_services (db : Db.t) (project_id : N) (status : option ServiceStatus.t)
    (limit offset : nat) (after : option (Z * N)) : list Svc :=
  let older (s : Svc) :=
    match after with
    | None => true
    | Some (created_at, item_id) =>
        (ModelService.created_at s <? created_at)
        || ((ModelService.created_at s =? created_at) && (ModelService.id s <? item_id)%N)
    end in
  take limit (drop (match after with Some _ => 0%nat | None => offset end)
    (py_sort (fun s => (- ModelService.created_at s, - Z.of_N (ModelService.id s)))
       (List.filter (fun s => (ModelService.project_id s == project_id) && wanted_status status s && older s)
          (rows (Db.services db))))).

Definition count_services (db : Db.t) (project_id : N) (status : option ServiceStatus.t) : Z :=
  lenZ (List.filter (fun s => (ModelService.project_id s == project_id) && wanted_status status s)
          (rows (Db.services db))).

Definition replica_key (r : Rep) : Z * (Z * N) :=
  (ServiceReplica.generation r, (ServiceReplica.ordinal r, ServiceReplica.id r)).

Definition list_replicas (service_id : N) (generation : option Z) : Sess (list Rep) :=
  gets (fun db => py_sort replica_key
    (List.filter (fun r => (ServiceReplica.service_id r == service_id)
       && match generation with Some g => ServiceReplica.generation r =? g | None => true end)
       (rows (Db.replicas db)))).

(** [generation == ModelService.generation] of the joined row *)
Definition current_generation (db : Db.t) (r : Rep) : bool :=
  match Db.services db !! ServiceReplica.service_id r with
  | Some s => ServiceReplica.generation r =? ModelService.generation s
  | None => false
  end.

Definition count_row (counts : gmap N ServiceCounts.t) (r : Rep) : gmap N ServiceCounts.t :=
  if ServiceReplica.status r !== ReplicaStatus.RUNNING then counts
  else
    let healthy := (ServiceReplica.health r == ReplicaHealth.HEALTHY)
                   && truthy (ServiceReplica.endpoint_url r) in
    alter (fun c => ServiceCounts.mk (ServiceCounts.actual_replicas c + 1)
             (ServiceCounts.healthy_replicas c + int_of_bool healthy))
      (ServiceReplica.service_id r) counts.

Definition counts_for_service_ids (db : Db.t) (service_ids : list N) : gmap N ServiceCounts.t :=
  foldl count_row
    (list_to_map ((fun i => (i, ServiceCounts.mk 0 0)) <$> service_ids))
    (List.filter (fun r => inb (ServiceReplica.service_id r) service_ids && current_generation db r)
       (rows (Db.replicas db))).

(** ** Intent: creation and scaling *)
Definition new_service (service_id : N) (a : ServiceSpec.t)
    (normalized_eligible_nodes : option (list string)) (now : Z) : Svc :=
  ModelService.mk service_id (ServiceSpec.project_id a) (ServiceSpec.registered_model_id a)
    (ServiceSpec.name a) (ServiceSpec.model a) (ServiceSpec.model_revision a) (ServiceSpec.runtime a)
    (ServiceSpec.runtime_type a) (ServiceSpec.image a) (ServiceSpec.cpu_millicores a)
    (ServiceSpec.memory_mb a) (ServiceSpec.gpu_count a) (ServiceSpec.gpu_memory_mb a)
    (ServiceSpec.gpu_model a) (ServiceSpec.logical_model_id a) (ServiceSpec.model_variant_id a)
    (ServiceSpec.selected_vendor a) (ServiceSpec.selected_kind a) (ServiceSpec.selected_model a)
    (ServiceSpec.runtime_profile_id a) (ServiceSpec.runtime_profile_version a)
    (ServiceSpec.runtime_profile_digest a) (ServiceSpec.allocation_authority a)
    (ServiceSpec.accelerator_resource_name a) (ServiceSpec.selection_policy a)
    normalized_eligible_nodes
    (match ServiceSpec.tensor_parallel_size a with
     | Some n => n
     | None => Z.max 1 (ServiceSpec.gpu_count a)
     end)
    (ServiceSpec.dtype a) (ServiceSpec.gpu_memory_utilization a) (ServiceSpec.max_model_len a)
    (ServiceSpec.desired_replicas a) (ServiceSpec.autoscaling_enabled a)
    (ServiceSpec.autoscaling_min_replicas a) (ServiceSpec.autoscaling_max_replicas a)
    (ServiceSpec.autoscaling_target_concurrency a) (ServiceSpec.autoscaling_cooldown_seconds a)
    None None 1 ServiceStatus.PENDING 0 None [] None now now None 1.

Definition create (service_id : N) (a : ServiceSpec.t) : Sess Svc :=
  let project_id := ServiceSpec.project_id a in
  normalized_eligible_nodes ←
    _eligible_node_snapshot (ServiceSpec.eligible_node_names a) (ServiceSpec.logical_model_id a);
  _ ← lock_gateway_model_namespace project_id;
  _ ← check_service_name_available project_id (ServiceSpec.name a) (ServiceSpec.logical_model_id a);
  _ ← replace_service_commitment project_id 0 (ServiceSpec.desired_replicas a)
        (ServiceSpec.cpu_millicores a) (ServiceSpec.memory_mb a) (ServiceSpec.gpu_count a)
        (ServiceSpec.selected_vendor a);
  now ← database_utcnow;
  let service := new_service service_id a normalized_eligible_nodes now in
  _ ← insert_service service;
  _ ← _add_service_event (ModelService.id service) "service" "service.reconcile"
        [("service_id", JUuid (ModelService.id service)); ("project_id", JUuid project_id);
         ("generation", JInt (ModelService.generation service)); ("reason", JStr "created")] now;
  mret service.

(** The assignments of [set_desired_replicas]. *)
Definition scaled (desired_replicas : Z) (normalized_eligible_nodes : option (list string)) (now : Z)
    (s : Svc) : Svc :=
  let s := s <| ModelService.desired_replicas := desired_replicas |> in
  let s := match normalized_eligible_nodes with
           | Some nodes => s <| ModelService.eligible_node_names := Some nodes |>
           | None => s
           end in
  let s := s <| ModelService.status :=
    if desired_replicas =? 0 then ServiceStatus.STOPPING else ServiceStatus.PENDING |> in
  let s := if desired_replicas =? 0
           then s <| ModelService.scheduling_reason := None |> <| ModelService.scheduling_details := [] |>
           else s in
  s <| ModelService.stopped_at := None |> <| ModelService.updated_at := now |>
    <| ModelService.version ::= Z.succ |>.

Definition set_desired_replicas (service_id project_id : N) (desired_replicas : Z)
    (eligible_node_names : option (list string)) : Sess (option Svc) :=
  service ← get service_id (Some project_id);
  match service with
  | None => mret None
  | Some service =>
      if ModelService.desired_replicas service =? desired_replicas then mret (Some service)
      else
        normalized_eligible_nodes ←
          (if (ModelService.desired_replicas service <? desired_replicas)
              && negb (is_none (ModelService.logical_model_id service))
           then _eligible_node_snapshot eligible_node_names (ModelService.logical_model_id service)
           else _ ← raise_if (negb (is_none eligible_node_names))
                      (ValueError "eligible_node_names requires a logical-service scale-up");
                mret None);
        _ ← replace_service_commitment project_id (ModelService.desired_replicas service)
              desired_replicas (ModelService.cpu_millicores service) (ModelService.memory_mb service)
              (ModelService.gpu_count service) (ModelService.selected_vendor service);
        now ← database_utcnow;
        let scaled := scaled desired_replicas normalized_eligible_nodes now in
        _ ← check_service (scaled service);
        service ← update_service service scaled;
        _ ← _add_service_event (ModelService.id service) "service" "service.reconcile"
              [("service_id", JUuid (ModelService.id service)); ("project_id", JUuid project_id);
               ("generation", JInt (ModelService.generation service)); ("reason", JStr "scaled");
               ("desired_replicas", JInt desired_replicas)] now;
        mret (Some service)
  end.

Definition _refresh_service_status (service : Svc) (now : Z) : Sess Svc :=
  replicas ← list_replicas (ModelService.id service) None;
  let status := _derive_service_status service replicas in
  if ModelService.status service == status then mret service
  else
    update_service service (fun s => s
      <| ModelService.status := status |> <| ModelService.updated_at := now |>
      <| ModelService.version ::= Z.succ |>
      <| ModelService.stopped_at := if status == ServiceStatus.STOPPED then Some now else None |>).

(** ** Reconciliation *)

(** Writing a changed object back into the list that holds it. *)
Definition replace_object (r : Rep) (objects : list Rep) : list Rep :=
  (fun x => if ServiceReplica.id x == ServiceReplica.id r then r else x) <$> objects.

(** [for replica in victims: requested, immediate = _request_replica_stop(...)]:
    the objects after the loop, with the two counters. *)
Definition stop_each (service : Svc) (now : Z) (reason : string) (drain_timeout_seconds : float)
    (victims : list Rep) (state : list Rep * (Z * Z)) : Sess (list Rep * (Z * Z)) :=
  foldM victims state (fun '(objects, (stopping, stopped)) replica =>
    '(replica, (requested, immediate)) ←
      _request_replica_stop service replica now reason drain_timeout_seconds;
    mret (replace_object replica objects, (stopping + requested, stopped + immediate))).

Definition new_replica (service : Svc) (replica_id : N) (ordinal changed_at : Z) : Rep :=
  ServiceReplica.mk replica_id (ModelService.id service) (ModelService.runtime service)
    (ModelService.generation service) ordinal ReplicaStatus.PENDING ReplicaHealth.UNKNOWN
    None None None None None None None 0 0
    (ModelService.logical_model_id service) (ModelService.model_variant_id service)
    (ModelService.selected_vendor service) (ModelService.selected_kind service)
    (ModelService.selected_model service) (ModelService.runtime_profile_id service)
    (ModelService.runtime_profile_version service) (ModelService.runtime_profile_digest service)
    (ModelService.allocation_authority service) (ModelService.accelerator_resource_name service)
    (ModelService.selection_policy service) (ModelService.eligible_node_names service)
    None (ModelService.model_revision service) (_image_digest (ModelService.image service))
    None None changed_at changed_at None None None None None None 1.

Definition create_replica (new_id : Z -> N) (service : Svc) (changed_at : Z) (current : list Rep)
    (ordinal : Z) : Sess (list Rep) :=
  let replica := new_replica service (new_id ordinal) ordinal changed_at in
  _ ← insert_replica replica;
  _ ← _add_service_event (ServiceReplica.id replica) "service_replica" "service.replica.created"
        [("service_id", JUuid (ModelService.id service));
         ("project_id", JUuid (ModelService.project_id service));
         ("replica_id", JUuid (ServiceReplica.id replica));
         ("generation", JInt (ServiceReplica.generation replica));
         ("ordinal", JInt (ServiceReplica.ordinal replica))] changed_at;
  mret (current ++ [replica]).

(** [range(first, first + n)] *)
Definition zrange (first n : Z) : list Z := (fun i => first + Z.of_nat i) <$> seq 0 (Z.to_nat n).

(** [max((item.ordinal for item in current), default=-1) + 1] *)
Definition next_ordinal_of (current : list Rep) : Z :=
  match current with
  | [] => 0
  | r :: rs => foldr (fun x m => Z.max (ServiceReplica.ordinal x) m) (ServiceReplica.ordinal r) rs + 1
  end.

(** [now] is the caller's instant; without one the clock is read. *)
Definition reconcile_locked (new_id : Z -> N) (service : Svc) (now : option Z)
    (drain_timeout_seconds : float) : Sess ReconcileResult.t :=
  _ ← raise_if (flt drain_timeout_seconds f0)
        (ValueError "drain_timeout_seconds must not be negative");
  changed_at ← match now with Some t => mret t | None => database_utcnow end;
  replicas ← list_replicas (ModelService.id service) None;
  let is_current (item : Rep) := ServiceReplica.generation item =? ModelService.generation service in
  let stop reason victims state :=
    stop_each service changed_at reason drain_timeout_seconds victims state in
  '(replicas, counts) ← stop "generation superseded"
      (List.filter (fun r => negb (is_current r)
                             && inb (ServiceReplica.status r) NONTERMINAL_REPLICA_STATUSES) replicas)
      (replicas, (0, 0));
  let current := List.filter is_current replicas in
  '(current, counts) ← stop "replica health threshold exceeded"
      (List.filter (fun r => (ServiceReplica.status r == ReplicaStatus.RUNNING)
                             && (ServiceReplica.health r == ReplicaHealth.UNHEALTHY)) current)
      (current, counts);
  let active := List.filter active_replica current in
  let excess := lenZ active - ModelService.desired_replicas service in
  '(current, (stopping, stopped)) ← stop "replica count reduced"
      (take (Z.to_nat excess) (py_sort _scale_down_order active)) (current, counts);
  let active := List.filter active_replica current in
  let missing := ModelService.desired_replicas service - lenZ active in
  let ordinals := zrange (next_ordinal_of current) (Z.max 0 missing) in
  current ← foldM ordinals current (create_replica new_id service changed_at);
  let created := lenZ ordinals in
  let derived := _derive_service_status service current in
  let service_changed := (ModelService.status service !== derived) || (0 <? created)
                         || (0 <? stopping) || (0 <? stopped) in
  _ ← when service_changed (_ ← update_service service (fun s => s
        <| ModelService.status := derived |> <| ModelService.updated_at := changed_at |>
        <| ModelService.version ::= Z.succ |>
        <| ModelService.stopped_at :=
             if derived == ServiceStatus.STOPPED then Some changed_at else None |>); mret tt);
  mret (ReconcileResult.mk 1 created stopping stopped (int_of_bool service_changed)).

Definition replicas_of (db : Db.t) (s : Svc) : list Rep :=
  List.filter (fun r => ServiceReplica.service_id r == ModelService.id s) (rows (Db.replicas db)).

(** The [where] clause of [reconcile_candidates_query]. *)
Definition needs_reconcile (db : Db.t) (s : Svc) : bool :=
  let mine := replicas_of db s in
  let is_current (r : Rep) := ServiceReplica.generation r =? ModelService.generation s in
  let active_count := lenZ (List.filter (fun r => is_current r && active_replica r) mine) in
  let superseded_active_exists := existsb (fun r => negb (is_current r) && active_replica r) mine in
  let unhealthy_current_exists := existsb (fun r => is_current r
    && (ServiceReplica.status r == ReplicaStatus.RUNNING)
    && (ServiceReplica.health r == ReplicaHealth.UNHEALTHY)) mine in
  (ModelService.status s == ServiceStatus.PENDING)
  || negb (ModelService.desired_replicas s =? active_count)
  || superseded_active_exists || unhealthy_current_exists.

Definition service_batch (db : Db.t) (wanted : Svc -> bool) (limit : nat) (locked : gset N) : list Svc :=
  take limit (py_sort (fun s => (ModelService.updated_at s, ModelService.id s))
    (List.filter (fun s => wanted s && negb (bool_decide (ModelService.id s ∈ locked)))
       (rows (Db.services db)))).

Definition reconcile_candidates_query (db : Db.t) (limit : nat) (locked : gset N) : list Svc :=
  service_batch db (needs_reconcile db) limit locked.

(** [kubernetes_drain_timeout_seconds if ... else drain_timeout_seconds] *)
Definition resolved_drain_timeout (s : Svc) (drain_timeout_seconds : float)
    (kubernetes_drain_timeout_seconds : option float) : float :=
  match ModelService.runtime_type s, kubernetes_drain_timeout_seconds with
  | KUBERNETES, Some t => t
  | _, _ => drain_timeout_seconds
  end.

Definition reconcile_batch (new_id : N -> Z -> N) (limit : nat) (locked : gset N)
    (drain_timeout_seconds : float) (kubernetes_drain_timeout_seconds : option float)
  : Sess ReconcileResult.t :=
  _ ← raise_if (flt drain_timeout_seconds f0)
        (ValueError "drain_timeout_seconds must not be negative");
  _ ← raise_if (match kubernetes_drain_timeout_seconds with Some t => flt t f0 | None => false end)
        (ValueError "kubernetes_drain_timeout_seconds must not be negative");
  services ← gets (fun db => reconcile_candidates_query db limit locked);
  now ← database_utcnow;
  foldM services ReconcileResult.zero (fun result service =>
    one ← reconcile_locked (new_id (ModelService.id service)) service (Some now)
            (resolved_drain_timeout service drain_timeout_seconds kubernetes_drain_timeout_seconds);
    mret (ReconcileResult.add result one)).

(** ** Expired leases *)
Definition lease_expired (now : Z) (r : Rep) : bool :=
  inb (ServiceReplica.status r)
    [ReplicaStatus.STARTING; ReplicaStatus.LOADING; ReplicaStatus.RUNNING; ReplicaStatus.DRAINING;
     ReplicaStatus.STOPPING]
  && match ServiceReplica.lease_expires_at r with Some t => t <? now | None => false end.

Definition expired_lease_services_query (db : Db.t) (limit : nat) (locked : gset N) (now : Z) : list Svc :=
  service_batch db (fun s => existsb (lease_expired now) (replicas_of db s)) limit locked.

Definition lost_status (r : Rep) : ReplicaStatus.t :=
  if inb (ServiceReplica.status r) [ReplicaStatus.DRAINING; ReplicaStatus.STOPPING]
  then ReplicaStatus.STOPPED else ReplicaStatus.LOST.

(** The fields every terminal status resets. *)
Definition retired (status : ReplicaStatus.t) (now : Z) (r : Rep) : Rep :=
  r <| ServiceReplica.status := status |> <| ServiceReplica.health := ReplicaHealth.UNHEALTHY |>
    <| ServiceReplica.endpoint_url := None |> <| ServiceReplica.lease_expires_at := None |>
    <| ServiceReplica.health_probe_token := None |> <| ServiceReplica.health_probe_expires_at := None |>
    <| ServiceReplica.active_requests := 0 |> <| ServiceReplica.stopped_at := Some now |>
    <| ServiceReplica.updated_at := now |> <| ServiceReplica.version ::= Z.succ |>.

Definition expire_replica (service : Svc) (now : Z) (replica : Rep) : Sess ReplicaStatus.t :=
  let status := lost_status replica in
  replica ← update_replica replica (fun r => (retired status now r)
    <| ServiceReplica.error_code := Some "LEASE_EXPIRED" |>
    <| ServiceReplica.error_message := Some "service replica lease expired" |>);
  _ ← _add_service_event (ServiceReplica.id replica) "service_replica" "service.replica.lease_expired"
        [("service_id", JUuid (ModelService.id service));
         ("project_id", JUuid (ModelService.project_id service));
         ("replica_id", JUuid (ServiceReplica.id replica));
         ("generation", JInt (ServiceReplica.generation replica));
         ("execution_id", juuid (ServiceReplica.execution_id replica));
         ("status", JStr (ReplicaStatus.value status))] now;
  mret status.

(** The microsecond instant of a lease, for sorting rows that have one. *)
Definition lease_key (r : Rep) : Z * N :=
  (default 0 (ServiceReplica.lease_expires_at r), ServiceReplica.id r).

Definition recover_expired_leases (limit : nat) (locked : gset N) : Sess LeaseRecoveryResult.t :=
  now ← database_utcnow;
  services ← gets (fun db => expired_lease_services_query db limit locked now);
  '(lost, stopped) ← foldM services (0, 0) (fun '(lost, stopped) service =>
    replicas ← gets (fun db => py_sort lease_key (List.filter (lease_expired now) (replicas_of db service)));
    counts ← foldM replicas (lost, stopped) (fun '(lost, stopped) replica =>
      status ← expire_replica service now replica;
      mret (lost + int_of_bool (status == ReplicaStatus.LOST),
            stopped + int_of_bool (status == ReplicaStatus.STOPPED)));
    _ ← when (negb (bool_decide (replicas = []))) (_ ← _refresh_service_status service now; mret tt);
    mret counts);
  mret (LeaseRecoveryResult.mk (lenZ services) lost stopped).

(** ** Callbacks of the execution that owns a replica *)
Definition bind_replica_execution (replica_id : N) (generation : Z) (worker_id : string)
    (worker_session_id : option N) (execution_id : N) (lease_expires_at : Z) : Sess bool :=
  matches ← _worker_session_matches (Some worker_id) worker_session_id;
  if negb matches then mret false
  else
    '(service, replica) ← _lock_service_and_replica replica_id;
    match replica, service with
    | Some replica, Some service =>
        if negb (ServiceReplica.generation replica =? generation)
           || negb (ModelService.generation service =? generation)
           || (ModelService.desired_replicas service =? 0)
           || negb (inb (ServiceReplica.status replica) [ReplicaStatus.PENDING; ReplicaStatus.STARTING])
           || match ServiceReplica.execution_id replica with Some e => e !== execution_id | None => false end
           || match ServiceReplica.worker_id replica with Some w => w !== worker_id | None => false end
        then mret false
        else
          let first_claim := is_none (ServiceReplica.execution_id replica) in
          now ← database_utcnow;
          if lease_expires_at <=? now then mret false
          else
            let bound (r : Rep) := r
              <| ServiceReplica.worker_id := Some worker_id |>
              <| ServiceReplica.execution_id := Some execution_id |>
              <| ServiceReplica.lease_expires_at := Some lease_expires_at |>
              <| ServiceReplica.status := ReplicaStatus.STARTING |>
              <| ServiceReplica.health := ReplicaHealth.UNKNOWN |>
              <| ServiceReplica.active_requests := 0 |>
              <| ServiceReplica.container_started_at := None |> <| ServiceReplica.ready_at := None |>
              <| ServiceReplica.drain_started_at := None |> <| ServiceReplica.drain_deadline := None |>
              <| ServiceReplica.error_code := None |> <| ServiceReplica.error_message := None |>
              <| ServiceReplica.started_at ::= fun t => if first_claim then Some now else t |>
              <| ServiceReplica.updated_at := now |> <| ServiceReplica.version ::= Z.succ |> in
            worker ← get_worker worker_id;
            _ ← raise_if (is_none worker) (IntegrityError "fk_service_replicas_worker_id");
            others ← gets (fun db => rows (Db.replicas db));
            _ ← raise_if (existsb (fun x => (ServiceReplica.id x !== replica_id)
                    && (ServiceReplica.execution_id x == Some execution_id)) others)
                  (IntegrityError "uq_service_replicas_execution_id");
            _ ← update_replica replica bound;
            mret true
    | _, _ => mret false
    end.

Definition draining (r : Rep) : bool :=
  inb (ServiceReplica.status r) [ReplicaStatus.DRAINING; ReplicaStatus.STOPPING].

Definition renew_replica_lease (replica_id : N) (generation : Z) (execution_id : N)
    (lease_expires_at : Z) (worker_id : option string) (worker_session_id : option N) : Sess bool :=
  matches ← _worker_session_matches worker_id worker_session_id;
  if negb matches then mret false
  else
    '(service, replica) ← _lock_service_and_replica replica_id;
    match service, replica with
    | Some service, Some replica =>
        if negb (ServiceReplica.generation replica =? generation)
           || (ServiceReplica.execution_id replica !== Some execution_id)
           || (negb (is_none worker_id) && (ServiceReplica.worker_id replica !== worker_id))
        then mret false
        else if negb (draining replica)
                && (negb (ModelService.generation service =? generation)
                    || (ModelService.desired_replicas service =? 0)
                    || negb (inb (ServiceReplica.status replica)
                         [ReplicaStatus.STARTING; ReplicaStatus.LOADING; ReplicaStatus.RUNNING]))
        then mret false
        else
          now ← database_utcnow;
          if lease_expires_at <=? now then mret false
          else
            _ ← update_replica replica (fun r => r <| ServiceReplica.lease_expires_at := Some lease_expires_at |>
                  <| ServiceReplica.updated_at := now |> <| ServiceReplica.version ::= Z.succ |>);
            mret true
    | _, _ => mret false
    end.

(** The guard [record_replica_assignment] and [quarantine_replica_runtime]
    share: the replica and its service, if [execution_id] on [worker_id] owns
    it and it is not terminal. *)
Definition owned_nonterminal (replica_id : N) (generation : Z) (execution_id : N) (worker_id : string)
    (worker_session_id : option N) : Sess (option (Rep * Svc)) :=
  matches ← _worker_session_matches (Some worker_id) worker_session_id;
  if negb matches then mret None
  else
    '(service, replica) ← _lock_service_and_replica replica_id;
    match service, replica with
    | Some service, Some replica =>
        if negb (ServiceReplica.generation replica =? generation)
           || (ServiceReplica.execution_id replica !== Some execution_id)
           || (ServiceReplica.worker_id replica !== Some worker_id)
           || negb (inb (ServiceReplica.status replica) NONTERMINAL_REPLICA_STATUSES)
        then mret None else mret (Some (replica, service))
    | _, _ => mret None
    end.

Definition record_replica_assignment (replica_id : N) (generation : Z) (execution_id : N)
    (node_name worker_id : string) (worker_session_id : option N) : Sess bool :=
  normalized_node_name ← validate_kubernetes_dns_subdomain node_name "assigned_node_name";
  owned ← owned_nonterminal replica_id generation execution_id worker_id worker_session_id;
  match owned with
  | None => mret false
  | Some (replica, _) =>
      _ ← raise_if (negb (match ServiceReplica.eligible_node_names replica with
                          | Some nodes => inb normalized_node_name nodes
                          | None => false
                          end))
            (ValueError "assigned Kubernetes node is outside the immutable eligible set");
      match ServiceReplica.assigned_node_name replica with
      | Some assigned =>
          _ ← raise_if (assigned !== normalized_node_name)
                (ValueError "assigned Kubernetes node changed for an active execution");
          mret true
      | None =>
          now ← database_utcnow;
          _ ← update_replica replica (fun r => r <| ServiceReplica.assigned_node_name := Some normalized_node_name |>
                <| ServiceReplica.updated_at := now |> <| ServiceReplica.version ::= Z.succ |>);
          mret true
      end
  end.

Definition quarantine_replica_runtime (replica_id : N) (generation : Z) (execution_id : N)
    (error_code error_message worker_id : string) (worker_session_id : option N) : Sess bool :=
  owned ← owned_nonterminal replica_id generation execution_id worker_id worker_session_id;
  match owned with
  | None => mret false
  | Some (replica, service) =>
      now ← database_utcnow;
      _ ← update_replica replica (fun r => r <| ServiceReplica.health := ReplicaHealth.UNHEALTHY |>
            <| ServiceReplica.health_failure_count ::= Z.succ |>
            <| ServiceReplica.endpoint_url := None |> <| ServiceReplica.lease_expires_at := None |>
            <| ServiceReplica.error_code := Some error_code |>
            <| ServiceReplica.error_message := Some error_message |>
            <| ServiceReplica.updated_at := now |> <| ServiceReplica.version ::= Z.succ |>);
      _ ← _refresh_service_status service now;
      mret true
  end.

Definition or_now (t : option Z) (now : Z) : option Z := match t with None => Some now | Some _ => t end.

Definition mark_replica_loading (replica_id : N) (generation : Z) (execution_id : N)
    (endpoint_url : string) (worker_id : option string) (worker_session_id : option N) : Sess bool :=
  owned ← _owned_current_replica replica_id generation execution_id worker_id worker_session_id;
  match owned with
  | None => mret false
  | Some (replica, service) =>
      if ServiceReplica.status replica !== ReplicaStatus.STARTING then mret false
      else
        _ ← _validate_endpoint_url endpoint_url;
        now ← database_utcnow;
        _ ← update_replica replica (fun r => r <| ServiceReplica.status := ReplicaStatus.LOADING |>
              <| ServiceReplica.endpoint_url := Some endpoint_url |>
              <| ServiceReplica.container_started_at := Some now |>
              <| ServiceReplica.started_at ::= fun t => or_now t now |>
              <| ServiceReplica.error_code := None |> <| ServiceReplica.error_message := None |>
              <| ServiceReplica.updated_at := now |> <| ServiceReplica.version ::= Z.succ |>);
        _ ← _refresh_service_status service now;
        mret true
  end.

Definition mark_replica_running (replica_id : N) (generation : Z) (execution_id : N)
    (endpoint_url : string) (model_revision image_digest : option string)
    (worker_id : option string) (worker_session_id : option N) : Sess bool :=
  owned ← _owned_current_replica replica_id generation execution_id worker_id worker_session_id;
  match owned with
  | None => mret false
  | Some (replica, service) =>
      if negb (inb (ServiceReplica.status replica) [ReplicaStatus.STARTING; ReplicaStatus.LOADING])
      then mret false
      else
        _ ← _validate_endpoint_url endpoint_url;
        now ← database_utcnow;
        let container_started_at := or_now (ServiceReplica.container_started_at replica) now in
        _ ← raise_if (match image_digest with Some d => negb (sha256_digest d) | None => false end)
              (ValueError "image_digest must be a sha256 digest");
        _ ← update_replica replica (fun r => r <| ServiceReplica.status := ReplicaStatus.RUNNING |>
              <| ServiceReplica.endpoint_url := Some endpoint_url |>
              <| ServiceReplica.container_started_at := container_started_at |>
              <| ServiceReplica.started_at ::= fun t =>
                   match t with None => container_started_at | Some _ => t end |>
              <| ServiceReplica.ready_at := Some now |>
              <| ServiceReplica.model_revision ::= fun r =>
                   match model_revision with Some _ => model_revision | None => r end |>
              <| ServiceReplica.image_digest ::= fun d =>
                   match image_digest with Some _ => image_digest | None => d end |>
              <| ServiceReplica.error_code := None |> <| ServiceReplica.error_message := None |>
              <| ServiceReplica.updated_at := now |> <| ServiceReplica.version ::= Z.succ |>);
        _ ← _refresh_service_status service now;
        mret true
  end.

(** What a probe result does to the row: consecutive failures mark it
    unhealthy at the threshold. *)
Definition observe_health (health : ReplicaHealth.t) (error_message : option string)
    (failure_threshold : Z) (now : Z) (replica : Rep) : Rep :=
  let replica := replica <| ServiceReplica.last_health_at := Some now |> in
  let replica :=
    if health == ReplicaHealth.HEALTHY
    then replica <| ServiceReplica.health := ReplicaHealth.HEALTHY |>
                 <| ServiceReplica.health_failure_count := 0 |>
                 <| ServiceReplica.error_code := None |>
    else
      let replica := replica <| ServiceReplica.health_failure_count ::= Z.succ |> in
      if failure_threshold <=? ServiceReplica.health_failure_count replica
      then replica <| ServiceReplica.health := ReplicaHealth.UNHEALTHY |>
                   <| ServiceReplica.error_code := Some "REPLICA_UNHEALTHY" |>
      else replica in
  replica <| ServiceReplica.error_message := error_message |>
          <| ServiceReplica.updated_at := now |> <| ServiceReplica.version ::= Z.succ |>.

Definition record_replica_health (replica_id : N) (generation : Z) (execution_id : N)
    (health : ReplicaHealth.t) (error_message : option string) (failure_threshold : Z)
    (probe_token : option N) (worker_id : option string) (worker_session_id : option N) : Sess bool :=
  owned ← _owned_current_replica replica_id generation execution_id worker_id worker_session_id;
  match owned with
  | None => mret false
  | Some (replica, service) =>
      if ServiceReplica.status replica !== ReplicaStatus.RUNNING then mret false
      else if negb (is_none probe_token) && (ServiceReplica.health_probe_token replica !== probe_token)
      then mret false
      else
        _ ← raise_if (negb (inb health [ReplicaHealth.HEALTHY; ReplicaHealth.UNHEALTHY]))
              (ValueError "reported replica health must be healthy or unhealthy");
        _ ← raise_if (failure_threshold <? 1) (ValueError "failure_threshold must be at least one");
        now ← database_utcnow;
        let cleared (r : Rep) := if is_none probe_token then r
                                 else r <| ServiceReplica.health_probe_token := None |>
                                        <| ServiceReplica.health_probe_expires_at := None |> in
        _ ← update_replica replica (fun r => observe_health health error_message failure_threshold now (cleared r));
        _ ← _refresh_service_status service now;
        mret true
  end.

Definition mark_replica_terminal (replica_id : N) (generation : Z) (execution_id : N)
    (status : ReplicaStatus.t) (error_code error_message : option string)
    (worker_id : option string) (worker_session_id : option N) : Sess bool :=
  _ ← raise_if (negb (inb status [ReplicaStatus.STOPPED; ReplicaStatus.FAILED; ReplicaStatus.LOST]))
        (ValueError "terminal replica status must be stopped, failed or lost");
  matches ← _worker_session_matches worker_id worker_session_id;
  if negb matches then mret false
  else
    '(service, replica) ← _lock_service_and_replica replica_id;
    match replica, service with
    | Some replica, Some service =>
        if negb (ServiceReplica.generation replica =? generation)
           || (ServiceReplica.execution_id replica !== Some execution_id)
           || negb (inb (ServiceReplica.status replica) NONTERMINAL_REPLICA_STATUSES)
        then mret false
        else
          now ← database_utcnow;
          _ ← update_replica replica (fun r => (retired status now r)
                <| ServiceReplica.error_code ::= fun c =>
                     if negb (is_none error_code) || (status == ReplicaStatus.STOPPED)
                     then error_code else c |>
                <| ServiceReplica.error_message := error_message |>);
          _ ← _add_service_event (ServiceReplica.id replica) "service_replica" "service.replica.terminal"
                [("service_id", JUuid (ModelService.id service));
                 ("replica_id", JUuid (ServiceReplica.id replica));
                 ("generation", JInt (ServiceReplica.generation replica));
                 ("execution_id", JUuid execution_id);
                 ("status", JStr (ReplicaStatus.value status))] now;
          _ ← _refresh_service_status service now;
          mret true
    | _, _ => mret false
    end.

(** ** Requests *)
Definition routable (s : Svc) (r : Rep) : bool :=
  (ServiceReplica.service_id r == ModelService.id s)
  && (ServiceReplica.generation r =? ModelService.generation s)
  && (ServiceReplica.status r == ReplicaStatus.RUNNING)
  && (ServiceReplica.health r == ReplicaHealth.HEALTHY)
  && truthy (ServiceReplica.endpoint_url r) && negb (is_none (ServiceReplica.execution_id r)).

Definition routable_replicas (db : Db.t) (s : Svc) : list Rep :=
  py_sort (fun r => (ServiceReplica.ordinal r, ServiceReplica.id r))
    (List.filter (routable s) (rows (Db.replicas db))).

(** The query returns only rows with an endpoint and an execution, which the
    code asserts. *)
Definition choose_healthy_endpoint (service_id project_id : N) : Sess (option EndpointSelection.t) :=
  service ← get service_id (Some project_id);
  match service with
  | None => mret None
  | Some service =>
      if ModelService.desired_replicas service =? 0 then mret None
      else
        replicas ← gets (fun db => routable_replicas db service);
        match replicas !! Z.to_nat (ModelService.round_robin_cursor service mod lenZ replicas) with
        | None => mret None
        | Some replica =>
            match ServiceReplica.execution_id replica, ServiceReplica.endpoint_url replica with
            | Some execution_id, Some endpoint_url =>
                now ← database_utcnow;
                _ ← update_replica replica (fun r => r <| ServiceReplica.active_requests ::= Z.succ |>
                      <| ServiceReplica.updated_at := now |> <| ServiceReplica.version ::= Z.succ |>);
                _ ← update_service service (fun s => s <| ModelService.round_robin_cursor ::= Z.succ |>
                      <| ModelService.updated_at := now |> <| ModelService.version ::= Z.succ |>);
                mret (Some (EndpointSelection.mk (ModelService.id service) (ServiceReplica.id replica)
                              (ServiceReplica.generation replica) execution_id endpoint_url))
            | _, _ => raise (RuntimeError "AssertionError")
            end
        end
  end.

Definition release_endpoint_request (replica_id : N) (generation : Z) (execution_id : N) : Sess bool :=
  '(_, replica) ← _lock_service_and_replica replica_id;
  match replica with
  | None => mret false
  | Some replica =>
      if negb (ServiceReplica.generation replica =? generation)
         || (ServiceReplica.execution_id replica !== Some execution_id)
         || (ServiceReplica.active_requests replica <=? 0)
      then mret false
      else
        now ← database_utcnow;
        _ ← update_replica replica (fun r => r <| ServiceReplica.active_requests ::= Z.pred |>
              <| ServiceReplica.updated_at := now |> <| ServiceReplica.version ::= Z.succ |>);
        mret true
  end.
End ServiceRepository.

Lemma zrange_length first n : 0 <= n -> lenZ (ServiceRepository.zrange first n) = n.
Proof. intros. unfold lenZ, ServiceRepository.zrange. rewrite length_fmap, length_seq. lia. Qed.
