(* ===== verification/ModelRegistry.v ===== *)
(** * The model registry ([repositories/model_variants.py])

    A logical model is the public name under which a project serves a model;
    its variants are the vendor specific builds.  The definitions are the
    methods of the two repositories and the normalisation helpers of the
    module.  A deletion obeys the foreign keys: variants, status events and
    circuit states go with their model, services, replicas and admission
    events keep it; rows of tables whose reference to a variant is not modelled
    (tasks, executions, reservations) are the argument [referenced]. *)

From S2P Require Import Prelude PyString PyUrl PyFloat Enums Store Names Tasks.
From Stdlib Require Import Ascii String.

#[local] Open Scope stdpp_scope.
#[local] Open Scope Z_scope.

Notation Model := LogicalModel.t.
Notation Variant := ModelVariant.t.

(** ** Normalisation *)
Definition resource_char (a : ascii) : bool :=
  is_alpha a || is_digit a || inb a ["_"; "."; "-"]%char.

(** [[A-Za-z0-9][A-Za-z0-9_.-]{0,127}] *)
Definition _RESOURCE_NAME (s : string) : bool :=
  match s with
  | EmptyString => false
  | String a s' => (is_alpha a || is_digit a) && str_forallb resource_char s' && (slen s' <=? 127)
  end.

(** [[a-z][a-z0-9-]{2,63}] *)
Definition _PROFILE_ID (s : string) : bool :=
  match s with
  | EmptyString => false
  | String a s' => is_lower a && str_forallb (fun c => is_lower c || is_digit c || Ascii.eqb c "-") s'
                   && (2 <=? slen s') && (slen s' <=? 63)
  end.

Definition digits (s : string) : bool := negb (is_empty s) && str_forallb is_digit s.

(** [[1-9][0-9]*\.[0-9]+\.[0-9]+] *)
Definition _SEMANTIC_VERSION (s : string) : bool :=
  match split_on "." s with
  | [major; minor; patch] => digits major && negb (String.prefix "0" major) && digits minor && digits patch
  | _ => false
  end.

(** [sha256:[0-9a-f]{64}] *)
Definition _DIGEST (s : string) : bool :=
  String.prefix "sha256:" s && (slen s =? 71)
  && str_forallb (fun a => is_digit a || (97 <=? code a)%nat && (code a <=? 102)%nat)
       (String.substring 7 64 s).

Definition normalized (ok : string -> bool) (message value : string) : Sess string :=
  _ ← raise_if (negb (ok value)) (ValueError message);
  mret value.

Definition _normalize_resource_name (value field : string) : Sess string :=
  normalized _RESOURCE_NAME (field +:+ " contains unsupported characters") (strip value).

Definition _normalize_profile_id (value : string) : Sess string :=
  normalized _PROFILE_ID "runtime_profile_id is malformed" (strip value).

Definition _normalize_profile_version (value : string) : Sess string :=
  normalized _SEMANTIC_VERSION "runtime_profile_version must be a stable semantic version" (strip value).

Definition _normalize_digest (value field : string) : Sess string :=
  normalized _DIGEST (field +:+ " must be a sha256 digest") (lower (strip value)).

Definition _normalize_reference (value field : string) (maximum : Z) : Sess string :=
  normalized (fun s => negb (is_empty s) && (slen s <=? maximum)
                       && str_forallb (fun a => negb (is_space a || (code a <? 32)%nat)) s)
    (field +:+ " must be non-empty and contain no whitespace or controls") (strip value).

Definition _normalize_optional_reference (value : option string) (field : string) (maximum : Z)
  : Sess (option string) :=
  match value with
  | None => mret None
  | Some value => v ← _normalize_reference value field maximum; mret (Some v)
  end.

Definition _normalize_display_text (value field : string) (maximum : Z) : Sess string :=
  normalized (fun s => negb (is_empty s) && (slen s <=? maximum)
                       && str_forallb (fun a => negb ((code a <? 32)%nat && negb (code a =? 9)%nat)) s)
    (field +:+ " must not be blank or contain control characters") (strip value).

Definition _normalize_optional_display_text (value : option string) (field : string) (maximum : Z)
  : Sess (option string) :=
  match value with
  | None => mret None
  | Some value =>
      if is_empty (strip value) then mret None
      else v ← _normalize_display_text (strip value) field maximum; mret (Some v)
  end.

(** ** Rows *)
Definition put_model (m : Model) : Sess unit :=
  modify (fun db => db <| Db.logical_models ::= <[LogicalModel.id m := m]> |>).
Definition put_variant (v : Variant) : Sess unit :=
  modify (fun db => db <| Db.model_variants ::= <[ModelVariant.id v := v]> |>).
Definition update_model (m : Model) (f : Model -> Model) : Sess Model :=
  _ ← modify (fun db => db <| Db.logical_models ::= alter f (LogicalModel.id m) |>);
  mret (f m).
Definition update_variant (v : Variant) (f : Variant -> Variant) : Sess Variant :=
  _ ← modify (fun db => db <| Db.model_variants ::= alter f (ModelVariant.id v) |>);
  mret (f v).
Definition add_model_event (e : LogicalModelStatusEvent.t) : Sess unit :=
  modify (fun db => db <| Db.model_events ::= fun l => l ++ [e] |>).

Definition variants_of (db : Db.t) (logical_model_id : N) : list Variant :=
  List.filter (fun v => ModelVariant.logical_model_id v == logical_model_id) (rows (Db.model_variants db)).

Definition ready_variant (v : Variant) : bool :=
  ModelVariant.status v == ModelAvailabilityStatus.READY.

(** A row refers to the model, or to one of the variants. *)
Definition refers (model : option N) (variants : list N) (logical variant : option N) : bool :=
  match model, logical with Some m, Some l => m == l | _, _ => false end
  || match variant with Some v => inb v variants | None => false end.

Definition restricted (db : Db.t) (referenced : gset N) (model : option N) (variants : list N) : bool :=
  existsb (fun s => refers model variants (ModelService.logical_model_id s) (ModelService.model_variant_id s))
    (rows (Db.services db))
  || existsb (fun r => refers model variants (ServiceReplica.logical_model_id r) (ServiceReplica.model_variant_id r))
       (rows (Db.replicas db))
  || existsb (fun e => refers None variants None (AdmissionEvent.model_variant_id e)) (Db.admission_events db)
  || existsb (fun v => bool_decide (v ∈ referenced)) variants.

(** ** LogicalModelRepository *)
Module LogicalModelRepository.

Definition get (project_id logical_model_id : N) : Sess (option Model) :=
  gets (fun db =>
    match Db.logical_models db !! logical_model_id with
    | Some m => if LogicalModel.project_id m == project_id then Some m else None
    | None => None
    end).

Definition no_model {A} : Sess A := raise (LogicalModelNotFoundError "logical model does not exist").

Definition models_named (db : Db.t) (project_id : N) (name : string) : list Model :=
  List.filter (fun m => (LogicalModel.project_id m == project_id) && (LogicalModel.name m == name))
    (rows (Db.logical_models db)).

Definition create (model_id project_id : N) (name public_name : string) (description : option string)
    (metadata : list (string * Json)) (created_by_user_id : option N)
    (routing_policy : GatewayRoutingPolicy.t) : Sess Model :=
  project ← lock_gateway_model_namespace project_id;
  _ ← raise_if (negb (bool_decide (project = Some true)))
        (LogicalModelNotFoundError "active project does not exist");
  normalized_name ← _normalize_resource_name name "logical model name";
  normalized_public_name ← _normalize_display_text public_name "public_name" 255;
  _ ← try_except (check_logical_public_name_available project_id normalized_public_name) (fun e =>
        match e with
        | GatewayModelNameConflictError _ => Some (raise (LogicalModelConflictError "public_name"))
        | _ => None
        end);
  existing_name ← gets (fun db => models_named db project_id normalized_name);
  _ ← raise_if (bool_decide (existing_name <> [])) (LogicalModelConflictError "name");
  existing_public_name ← gets (fun db => models_public db project_id normalized_public_name);
  _ ← raise_if (bool_decide (existing_public_name <> [])) (LogicalModelConflictError "public_name");
  now ← database_utcnow;
  description ← _normalize_optional_display_text description "description" 2000;
  let model := LogicalModel.mk model_id project_id normalized_name normalized_public_name description
    ModelAvailabilityStatus.DISABLED routing_policy 0 metadata created_by_user_id now now 1 in
  taken ← gets (fun db => bool_decide (is_Some (Db.logical_models db !! model_id)));
  _ ← raise_if taken (IntegrityError "logical_models_pkey");
  _ ← put_model model;
  _ ← add_model_event (LogicalModelStatusEvent.mk model_id None ModelAvailabilityStatus.DISABLED
        "logical model created" 1 created_by_user_id now);
  mret model.

Definition set_routing_policy (project_id logical_model_id : N) (routing_policy : GatewayRoutingPolicy.t)
  : Sess Model :=
  model ← get project_id logical_model_id;
  match model with
  | None => no_model
  | Some model =>
      if LogicalModel.routing_policy model == routing_policy then mret model
      else
        now ← database_utcnow;
        update_model model (fun m => m <| LogicalModel.routing_policy := routing_policy |>
          <| LogicalModel.routing_cursor := 0 |> <| LogicalModel.updated_at := now |>
          <| LogicalModel.version ::= Z.succ |>)
  end.

Definition list (db : Db.t) (project_id : N) (limit offset : nat) : list Model :=
  take limit (drop offset
    (py_sort (fun m => (- LogicalModel.created_at m, - Z.of_N (LogicalModel.id m)))
       (List.filter (fun m => LogicalModel.project_id m == project_id) (rows (Db.logical_models db))))).

Definition count (db : Db.t) (project_id : N) : Z :=
  lenZ (List.filter (fun m => LogicalModel.project_id m == project_id) (rows (Db.logical_models db))).

Definition ready_count (db : Db.t) (logical_model_id : N) : Z :=
  lenZ (List.filter ready_variant (variants_of db logical_model_id)).

Definition set_status (project_id logical_model_id : N) (status : ModelAvailabilityStatus.t)
    (reason : string) (created_by_user_id : option N) : Sess Model :=
  model ← get project_id logical_model_id;
  match model with
  | None => no_model
  | Some model =>
      _ ← when (status == ModelAvailabilityStatus.READY) (
            n ← gets (fun db => ready_count db (LogicalModel.id model));
            raise_if (n =? 0)
              (ModelVariantInvariantError "a ready logical model requires at least one ready variant"));
      if LogicalModel.status model == status then mret model
      else
        let previous := LogicalModel.status model in
        now ← database_utcnow;
        reason ← _normalize_display_text reason "reason" 2000;
        model ← update_model model (fun m => m <| LogicalModel.status := status |>
          <| LogicalModel.updated_at := now |> <| LogicalModel.version ::= Z.succ |>);
        _ ← add_model_event (LogicalModelStatusEvent.mk (LogicalModel.id model) (Some previous) status
              reason (LogicalModel.version model) created_by_user_id now);
        mret model
  end.

Definition events_of_model (db : Db.t) (logical_model_id : N) : Datatypes.list LogicalModelStatusEvent.t :=
  List.filter (fun e => LogicalModelStatusEvent.logical_model_id e == logical_model_id) (Db.model_events db).

(** [(logical_model_id, model_version)] is unique, so the version orders the
    rows. *)
Definition status_history (project_id logical_model_id : N) (limit offset : nat)
  : Sess (Datatypes.list LogicalModelStatusEvent.t) :=
  model ← get project_id logical_model_id;
  match model with
  | None => no_model
  | Some _ => gets (fun db => take limit (drop offset
      (py_sort (fun e => - LogicalModelStatusEvent.model_version e) (events_of_model db logical_model_id))))
  end.

Definition status_history_count (project_id logical_model_id : N) : Sess Z :=
  model ← get project_id logical_model_id;
  match model with
  | None => no_model
  | Some _ => gets (fun db => lenZ (events_of_model db logical_model_id))
  end.

Definition delete (referenced : gset N) (project_id logical_model_id : N) : Sess bool :=
  model ← get project_id logical_model_id;
  match model with
  | None => mret false
  | Some _ =>
      kept ← gets (fun db => restricted db referenced (Some logical_model_id)
                               (ModelVariant.id <$> variants_of db logical_model_id));
      _ ← raise_if kept (IntegrityError "fk_logical_models");
      _ ← modify (fun db => db
            <| Db.logical_models ::= base.delete logical_model_id |>
            <| Db.model_variants ::= filter (fun '(_, v) => ModelVariant.logical_model_id v <> logical_model_id) |>
            <| Db.model_events ::= List.filter (fun e =>
                 LogicalModelStatusEvent.logical_model_id e !== logical_model_id) |>
            <| Db.circuits ::= filter (fun '(k, _) => k.1.2 <> logical_model_id) |>);
      mret true
  end.
End LogicalModelRepository.

(** ** ModelVariantRepository *)

(** The arguments of [ModelVariantRepository.create] other than the ids. *)
Module VariantSpec.
Record t := mk {
  name : string;
  vendor : AcceleratorVendor;
  kind : AcceleratorKind;
  runtime_profile_id : string;
  runtime_profile_version : string;
  runtime_profile_digest : string;
  artifact_source : string;
  artifact_revision : string;
  artifact_digest : string;
  architecture : string;
  dtype : string;
  quantization : option string;
  status : ModelAvailabilityStatus.t;
  status_reason : option string;
  metadata : list (string * Json);
  created_by_user_id : option N;
}.
End VariantSpec.

Module ModelVariantRepository.

(** Primary key, [uq_model_variants_logical_model_name] and the vendor/kind
    check. *)
Definition insert_variant (v : Variant) : Sess unit :=
  taken ← gets (fun db => bool_decide (is_Some (Db.model_variants db !! ModelVariant.id v)));
  _ ← raise_if taken (IntegrityError "model_variants_pkey");
  namesakes ← gets (fun db => List.filter (fun x => ModelVariant.name x == ModelVariant.name v)
                                (variants_of db (ModelVariant.logical_model_id v)));
  _ ← raise_if (bool_decide (namesakes <> [])) (IntegrityError "uq_model_variants_logical_model_name");
  put_variant v.

Definition create (variant_id project_id logical_model_id : N) (a : VariantSpec.t) : Sess Variant :=
  model ← LogicalModelRepository.get project_id logical_model_id;
  match model with
  | None => LogicalModelRepository.no_model
  | Some model =>
      _ ← raise_if (negb (vendor_kind_is_compatible (VariantSpec.vendor a) (VariantSpec.kind a)))
            (ModelVariantInvariantError (AcceleratorVendor_value (VariantSpec.vendor a)
               +:+ " is not compatible with kind=" +:+ AcceleratorKind_value (VariantSpec.kind a)));
      now ← database_utcnow;
      name ← _normalize_resource_name (VariantSpec.name a) "model variant name";
      profile_id ← _normalize_profile_id (VariantSpec.runtime_profile_id a);
      profile_version ← _normalize_profile_version (VariantSpec.runtime_profile_version a);
      profile_digest ← _normalize_digest (VariantSpec.runtime_profile_digest a) "runtime_profile_digest";
      source ← _normalize_reference (VariantSpec.artifact_source a) "artifact_source" 1024;
      revision ← _normalize_reference (VariantSpec.artifact_revision a) "artifact_revision" 255;
      digest ← _normalize_digest (VariantSpec.artifact_digest a) "artifact_digest";
      architecture ← _normalize_reference (VariantSpec.architecture a) "architecture" 255;
      dtype ← _normalize_reference (VariantSpec.dtype a) "dtype" 64;
      quantization ← _normalize_optional_reference (VariantSpec.quantization a) "quantization" 128;
      status_reason ← _normalize_optional_display_text (VariantSpec.status_reason a) "status_reason" 2000;
      let variant := ModelVariant.mk variant_id (LogicalModel.id model) name (VariantSpec.vendor a)
        (VariantSpec.kind a) profile_id profile_version profile_digest source revision digest
        architecture dtype quantization (VariantSpec.status a) status_reason (VariantSpec.metadata a)
        (VariantSpec.created_by_user_id a) now now 1 in
      _ ← insert_variant variant;
      mret variant
  end.

Definition get (project_id logical_model_id variant_id : N) : Sess (option Variant) :=
  gets (fun db =>
    match Db.model_variants db !! variant_id with
    | Some v =>
        if (ModelVariant.logical_model_id v == logical_model_id)
           && match Db.logical_models db !! ModelVariant.logical_model_id v with
              | Some m => LogicalModel.project_id m == project_id
              | None => false
              end
        then Some v else None
    | None => None
    end).

(** The joined model is the project's and is ready. *)
Definition ready_model (db : Db.t) (project_id logical_model_id : N) : bool :=
  match Db.logical_models db !! logical_model_id with
  | Some m => (LogicalModel.project_id m == project_id)
              && (LogicalModel.status m == ModelAvailabilityStatus.READY)
  | None => false
  end.

Definition candidate_key (v : Variant) : string * (string * (string * (string * (string * N)))) :=
  (AcceleratorVendor_value (ModelVariant.vendor v), (AcceleratorKind_value (ModelVariant.kind v),
   (ModelVariant.runtime_profile_id v, (ModelVariant.runtime_profile_version v,
    (ModelVariant.name v, ModelVariant.id v))))).

Definition list_ready_candidates (project_id logical_model_id : N)
    (allowed_vendors : list AcceleratorVendor) (allowed_kinds : list AcceleratorKind)
    (runtime_profile_id : option string) : Sess (list Variant) :=
  profile ← match runtime_profile_id with
            | None => mret None
            | Some p => p ← _normalize_profile_id p; mret (Some p)
            end;
  gets (fun db =>
    if ready_model db project_id logical_model_id
    then py_sort candidate_key (List.filter (fun v =>
           inb (ModelVariant.vendor v) allowed_vendors && inb (ModelVariant.kind v) allowed_kinds
           && ready_variant v
           && match profile with Some p => ModelVariant.runtime_profile_id v == p | None => true end)
           (variants_of db logical_model_id))
    else []).

Definition revalidate_ready_for_reservation (db : Db.t) (project_id logical_model_id variant_id : N)
    (vendor : AcceleratorVendor) (kind : AcceleratorKind)
    (profile_id profile_version artifact_digest profile_digest : string) : option Variant :=
  match Db.model_variants db !! variant_id with
  | Some v =>
      if ready_model db project_id logical_model_id
         && (ModelVariant.logical_model_id v == logical_model_id)
         && (ModelVariant.vendor v == vendor) && (ModelVariant.kind v == kind)
         && (ModelVariant.runtime_profile_id v == profile_id)
         && (ModelVariant.runtime_profile_version v == profile_version)
         && (ModelVariant.artifact_digest v == artifact_digest)
         && (ModelVariant.runtime_profile_digest v == profile_digest) && ready_variant v
      then Some v else None
  | None => None
  end.

Definition list (project_id logical_model_id : N) (limit offset : nat) : Sess (list Variant) :=
  model ← LogicalModelRepository.get project_id logical_model_id;
  match model with
  | None => LogicalModelRepository.no_model
  | Some _ => gets (fun db => take limit (drop offset
      (py_sort (fun v => (- ModelVariant.created_at v, - Z.of_N (ModelVariant.id v)))
         (variants_of db logical_model_id))))
  end.

Definition count (db : Db.t) (logical_model_id : N) (status : option ModelAvailabilityStatus.t) : Z :=
  lenZ (List.filter (fun v => match status with Some s => ModelVariant.status v == s | None => true end)
          (variants_of db logical_model_id)).

Definition retain_message : string := "a ready logical model must retain at least one ready variant".

Definition set_status (project_id logical_model_id variant_id : N) (status : ModelAvailabilityStatus.t)
    (reason : string) : Sess Variant :=
  model ← LogicalModelRepository.get project_id logical_model_id;
  match model with
  | None => LogicalModelRepository.no_model
  | Some model =>
      variant ← get project_id logical_model_id variant_id;
      match variant with
      | None => raise (ModelVariantNotFoundError "model variant does not exist")
      | Some variant =>
          if ModelVariant.status variant == status then mret variant
          else
            _ ← when ((LogicalModel.status model == ModelAvailabilityStatus.READY)
                      && ready_variant variant && (status !== ModelAvailabilityStatus.READY)) (
                  other_ready ← gets (fun db => lenZ (List.filter (fun v =>
                    (ModelVariant.id v !== variant_id) && ready_variant v)
                    (variants_of db logical_model_id)));
                  raise_if (other_ready =? 0) (ModelVariantInvariantError retain_message));
            reason ← _normalize_display_text reason "reason" 2000;
            now ← database_utcnow;
            update_variant variant (fun v => v <| ModelVariant.status := status |>
              <| ModelVariant.status_reason := Some reason |> <| ModelVariant.updated_at := now |>
              <| ModelVariant.version ::= Z.succ |>)
      end
  end.

Definition delete (referenced : gset N) (project_id logical_model_id variant_id : N) : Sess bool :=
  model ← LogicalModelRepository.get project_id logical_model_id;
  match model with
  | None => LogicalModelRepository.no_model
  | Some model =>
      variant ← get project_id logical_model_id variant_id;
      match variant with
      | None => mret false
      | Some variant =>
          _ ← when ((LogicalModel.status model == ModelAvailabilityStatus.READY) && ready_variant variant) (
                n ← gets (fun db => count db logical_model_id (Some ModelAvailabilityStatus.READY));
                raise_if (n <=? 1) (ModelVariantInvariantError retain_message));
          kept ← gets (fun db => restricted db referenced None [variant_id]);
          _ ← raise_if kept (IntegrityError "fk_model_variants");
          _ ← modify (fun db => db <| Db.model_variants ::= base.delete variant_id |>);
          mret true
      end
  end.

Definition count_profile_references (db : Db.t) (profile_id profile_version : string) : Z :=
  lenZ (List.filter (fun v => (ModelVariant.runtime_profile_id v == profile_id)
                              && (ModelVariant.runtime_profile_version v == profile_version))
          (rows (Db.model_variants db))).

Definition ensure_runtime_profile_unreferenced (profile_id profile_version : string) : Sess unit :=
  n ← gets (fun db => count_profile_references db profile_id profile_version);
  raise_if (negb (n =? 0)) (RuntimeProfileReferencedError profile_id profile_version n).
End ModelVariantRepository.
