(* ===== verification/Gateway.v ===== *)
(** * Gateway routing ([repositories/gateway_routing.py])

    The gateway maps a public model name to one healthy replica: it finds the
    service or logical model with that name, orders the services of the model
    by the model's routing policy, skips those whose vendor is not allowed,
    whose variant is not ready, whose circuit is open, or which have no healthy
    replica, and takes an endpoint from the first one left.  Outcomes feed the
    circuit state of the vendor.  The SQLite write lock is not modelled:
    PostgreSQL locks the rows. *)

From S2P Require Import Prelude PyString PyUrl PyFloat Enums Store Names Tasks Services ModelRegistry.
From Stdlib Require Import String.

#[local] Open Scope stdpp_scope.
#[local] Open Scope Z_scope.

Definition _MAX_ROUTING_CURSOR : Z := 2 ^ 63 - 1.

Notation Circuit := VendorCircuitState.t.

Module GatewayPreflightSkip.
Record t := mk {
  service_id : N;
  model_variant_id : option N;
  selected_vendor : option AcceleratorVendor;
  reason : string;
}.
End GatewayPreflightSkip.

Module GatewayModelCatalogEntry.
Record t := mk { model_id : string; created_at : Z }.
End GatewayModelCatalogEntry.

Module _CandidatePolicy.
Record t := mk {
  vendor_order : list AcceleratorVendor;
  allowed_vendors : list AcceleratorVendor;
  balanced : bool;
}.

(** [vendor_rank.get(vendor, len(vendor_order))] *)
Definition vendor_rank (p : t) (vendor : option AcceleratorVendor) : Z :=
  match vendor with
  | Some v => match list_find (v =.) (vendor_order p) with
              | Some (i, _) => Z.of_nat i
              | None => lenZ (vendor_order p)
              end
  | None => lenZ (vendor_order p)
  end.

(** [vendor in allowed_vendors] *)
Definition allows (p : t) (vendor : option AcceleratorVendor) : bool :=
  match vendor with Some v => inb v (allowed_vendors p) | None => false end.
End _CandidatePolicy.

Module GatewayRoute.
Record t := mk {
  service_id : N;
  logical_model_id : option N;
  model_variant_id : option N;
  selected_vendor : option AcceleratorVendor;
  upstream_model : string;
  gpu_count : Z;
  selection : EndpointSelection.t;
  preflight_skips : list GatewayPreflightSkip.t;
}.
End GatewayRoute.

Definition _candidate_policy (policy : option GatewayRoutingPolicy.t) : _CandidatePolicy.t :=
  match policy with
  | None => _CandidatePolicy.mk [NVIDIA; HUAWEI_ASCEND] [NVIDIA; HUAWEI_ASCEND] false
  | Some GatewayRoutingPolicy.PREFER_NVIDIA =>
      _CandidatePolicy.mk [NVIDIA; HUAWEI_ASCEND] [NVIDIA; HUAWEI_ASCEND] false
  | Some GatewayRoutingPolicy.PREFER_ASCEND =>
      _CandidatePolicy.mk [HUAWEI_ASCEND; NVIDIA] [NVIDIA; HUAWEI_ASCEND] false
  | Some GatewayRoutingPolicy.STRICT_NVIDIA =>
      _CandidatePolicy.mk [NVIDIA; HUAWEI_ASCEND] [NVIDIA] false
  | Some GatewayRoutingPolicy.STRICT_ASCEND =>
      _CandidatePolicy.mk [HUAWEI_ASCEND; NVIDIA] [HUAWEI_ASCEND] false
  | Some GatewayRoutingPolicy.BALANCED =>
      _CandidatePolicy.mk [NVIDIA; HUAWEI_ASCEND] [NVIDIA; HUAWEI_ASCEND] true
  end.

Definition _preflight_skip (candidate : Svc) (reason : string) : GatewayPreflightSkip.t :=
  GatewayPreflightSkip.mk (ModelService.id candidate) (ModelService.model_variant_id candidate)
    (ModelService.selected_vendor candidate) reason.

(** [circuit.state == "open"] with a deadline in the future *)
Definition circuit_open (now : Z) (c : Circuit) : bool :=
  (VendorCircuitState.state c == "open")
  && match VendorCircuitState.opened_until c with Some t => now <? t | None => false end.

Definition put_circuit (key : N * N * AcceleratorVendor) (c : Circuit) : Sess unit :=
  modify (fun db => db <| Db.circuits ::= <[key := c]> |>).

(** ** Choosing a route *)

(** The row of the variants of a model with the given id. *)
Definition variant_of (db : Db.t) (logical_model_id : N) (variant_id : option N) : option Variant :=
  match variant_id with
  | Some i => match Db.model_variants db !! i with
              | Some v => if ModelVariant.logical_model_id v == logical_model_id then Some v else None
              | None => None
              end
  | None => None
  end.

(** Why the first loop of [choose_route] skips a candidate, if it does. *)
Definition preflight_reason (db : Db.t) (policy : _CandidatePolicy.t) (candidate : Svc) : option string :=
  match ModelService.logical_model_id candidate with
  | None => None
  | Some logical_model_id =>
      if negb (_CandidatePolicy.allows policy (ModelService.selected_vendor candidate))
      then Some "policy_excluded"
      else match variant_of db logical_model_id (ModelService.model_variant_id candidate) with
           | None => Some "variant_missing"
           | Some variant =>
               if ModelVariant.status variant !== ModelAvailabilityStatus.READY
               then Some "variant_not_ready"
               else if (ModelService.selected_vendor candidate !== Some (ModelVariant.vendor variant))
                       || (ModelService.selected_kind candidate !== Some (ModelVariant.kind variant))
               then Some "variant_snapshot_mismatch"
               else None
           end
  end.

Definition preflight (db : Db.t) (policy : _CandidatePolicy.t) (candidates : list Svc)
  : list GatewayPreflightSkip.t * list Svc :=
  foldl (fun '(skips, eligible) candidate =>
    match preflight_reason db policy candidate with
    | Some reason => (skips ++ [_preflight_skip candidate reason], eligible)
    | None => (skips, eligible ++ [candidate])
    end) ([], []) candidates.

(** [l[start:] + l[:start]] *)
Definition rotate_from {A} (start : nat) (l : list A) : list A := drop start l ++ take start l.

Definition next_routing_cursor (cursor steps : Z) : Z :=
  let wrap_threshold := _MAX_ROUTING_CURSOR - steps in
  if wrap_threshold <? cursor then cursor - wrap_threshold - 1 else cursor + steps.

Definition _advance_routing_cursor (logical_model_id : N) (steps : Z) : Sess unit :=
  _ ← raise_if (negb ((1 <=? steps) && (steps <=? _MAX_ROUTING_CURSOR)))
        (ValueError "routing cursor steps must be positive and fit in BigInteger");
  model ← gets (fun db => Db.logical_models db !! logical_model_id);
  match model with
  | None => raise (RuntimeError "locked logical model disappeared while advancing routing cursor")
  | Some model =>
      _ ← update_model model (fun m => m <| LogicalModel.routing_cursor ::= fun c => next_routing_cursor c steps |>);
      mret tt
  end.

(** Whether the circuit of the candidate's vendor lets it through; an expired
    one is closed. *)
Definition admit_circuit (project_id : N) (now : Z) (candidate : Svc) : Sess bool :=
  match ModelService.logical_model_id candidate, ModelService.selected_vendor candidate with
  | Some logical_model_id, Some vendor =>
      let key := (project_id, logical_model_id, vendor) in
      circuit ← gets (fun db => Db.circuits db !! key);
      match circuit with
      | None => mret true
      | Some circuit =>
          if VendorCircuitState.state circuit !== "open" then mret true
          else if circuit_open now circuit then mret false
          else
            _ ← put_circuit key (circuit <| VendorCircuitState.state := "closed" |>
                  <| VendorCircuitState.failure_count := 0 |>
                  <| VendorCircuitState.opened_until := None |>
                  <| VendorCircuitState.last_error_code := None |>
                  <| VendorCircuitState.version ::= Z.succ |>
                  <| VendorCircuitState.updated_at := now |>);
            mret true
      end
  | _, _ => mret true
  end.

Definition vendor_excluded (excluded_vendors : list AcceleratorVendor) (candidate : Svc) : bool :=
  match ModelService.selected_vendor candidate with
  | Some v => inb v excluded_vendors
  | None => false
  end.

(** The second loop of [choose_route]; [offset] counts the candidates seen. *)
Fixpoint try_candidates (project_id : N) (excluded_vendors : list AcceleratorVendor) (now : Z)
    (balanced : option N) (offset : Z) (skips : list GatewayPreflightSkip.t) (candidates : list Svc)
  : Sess (option GatewayRoute.t) :=
  match candidates with
  | [] => mret None
  | candidate :: rest =>
      let skip reason :=
        try_candidates project_id excluded_vendors now balanced (offset + 1)
          (skips ++ [_preflight_skip candidate reason]) rest in
      if vendor_excluded excluded_vendors candidate then skip "vendor_excluded"
      else
        admitted ← admit_circuit project_id now candidate;
        if negb admitted then skip "circuit_open"
        else
          selection ← ServiceRepository.choose_healthy_endpoint (ModelService.id candidate) project_id;
          match selection with
          | None => skip "no_healthy_replica"
          | Some selection =>
              _ ← match balanced with
                  | Some logical_model_id => _advance_routing_cursor logical_model_id (offset + 1)
                  | None => mret tt
                  end;
              mret (Some (GatewayRoute.mk (ModelService.id candidate)
                (ModelService.logical_model_id candidate) (ModelService.model_variant_id candidate)
                (ModelService.selected_vendor candidate) (ModelService.model candidate)
                (ModelService.gpu_count candidate) selection skips))
          end
  end.

Module GatewayRoutingRepository.

(** The services of a model that want replicas, in policy order. *)
Definition model_candidates (db : Db.t) (project_id logical_model_id : N) (policy : _CandidatePolicy.t)
  : list Svc :=
  py_sort (fun s => (_CandidatePolicy.vendor_rank policy (ModelService.selected_vendor s),
                     (ModelService.created_at s, ModelService.id s)))
    (List.filter (fun s => (ModelService.project_id s == project_id)
        && (ModelService.logical_model_id s == Some logical_model_id)
        && (0 <? ModelService.desired_replicas s)) (rows (Db.services db))).

(** The service that stands for a model without a service of its public name. *)
Definition fallback_anchor (db : Db.t) (project_id : N) (model : Model) : option Svc :=
  head (py_sort (fun s => (if ModelService.name s == LogicalModel.name model then 0 else 1,
                           (ModelService.created_at s, ModelService.id s)))
    (List.filter (fun s => (ModelService.project_id s == project_id)
        && (ModelService.logical_model_id s == Some (LogicalModel.id model))) (rows (Db.services db)))).

(** The end of [choose_route], once the anchor and its model are known. *)
Definition route_candidates (project_id : N) (excluded_vendors : list AcceleratorVendor)
    (model : option Model) (policy : _CandidatePolicy.t) (candidates : list Svc)
  : Sess (option GatewayRoute.t) :=
  now ← database_utcnow;
  '(skips, eligible) ← gets (fun db => preflight db policy candidates);
  let balanced := if _CandidatePolicy.balanced policy then LogicalModel.id <$> model else None in
  let start := match model with
               | Some m => if _CandidatePolicy.balanced policy
                           then Z.to_nat (LogicalModel.routing_cursor m mod lenZ eligible) else 0%nat
               | None => 0%nat
               end in
  try_candidates project_id excluded_vendors now balanced 0 skips (rotate_from start eligible).

(** Returns the anchor as it was read, and the route. *)
Definition choose_route (project_id : N) (public_model : string) (excluded_vendors : list AcceleratorVendor)
  : Sess (option Svc * option GatewayRoute.t) :=
  anchor ← ServiceRepository.get_by_name project_id public_model;
  public_logical_model ← gets (fun db =>
    head (py_sort (fun m => (LogicalModel.created_at m, LogicalModel.id m))
            (models_public db project_id public_model)));
  _ ← raise_if (match anchor, public_logical_model with
                | Some a, Some m => ModelService.logical_model_id a !== Some (LogicalModel.id m)
                | _, _ => false
                end) (GatewayModelNameConflictError public_model);
  let ready (m : Model) := LogicalModel.status m == ModelAvailabilityStatus.READY in
  (* the anchor and the model to route, or the early return *)
  found ← match public_logical_model, anchor with
          | Some model, _ =>
              if negb (ready model) then mret (inl anchor)
              else
                anchor ← match anchor with
                         | Some a => mret (Some a)
                         | None => gets (fun db => fallback_anchor db project_id model)
                         end;
                match anchor with
                | None => mret (inl None)
                | Some a => mret (inr (a, Some model))
                end
          | None, None => mret (inl None)
          | None, Some a =>
              match ModelService.logical_model_id a with
              | None => mret (inr (a, None))
              | Some i =>
                  model ← LogicalModelRepository.get project_id i;
                  match model with
                  | Some model => if ready model then mret (inr (a, Some model)) else mret (inl (Some a))
                  | None => mret (inl (Some a))
                  end
              end
          end;
  match found with
  | inl anchor => mret (anchor, None)
  | inr (anchor, model) =>
      route ← match ModelService.logical_model_id anchor with
              | None => route_candidates project_id excluded_vendors model (_candidate_policy None) [anchor]
              | Some i =>
                  match model with
                  | None => mret None
                  | Some m =>
                      if LogicalModel.id m !== i then mret None
                      else
                        let policy := _candidate_policy (Some (LogicalModel.routing_policy m)) in
                        candidates ← gets (fun db => model_candidates db project_id i policy);
                        route_candidates project_id excluded_vendors model policy candidates
                  end
              end;
      mret (Some anchor, route)
  end.

(** ** Outcomes and the circuit state *)
Definition initial_circuit (circuit_id : N) (now : Z) : Circuit :=
  VendorCircuitState.mk circuit_id "closed" 0 None None 0 now.

Definition _get_or_create_circuit_state (circuit_id project_id logical_model_id : N)
    (vendor : AcceleratorVendor) : Sess Circuit :=
  let key := (project_id, logical_model_id, vendor) in
  existing ← gets (fun db => Db.circuits db !! key);
  match existing with
  | Some state => mret state
  | None =>
      dangling ← gets (fun db => is_none (Db.projects db !! project_id)
                                 || is_none (Db.logical_models db !! logical_model_id));
      _ ← raise_if dangling (IntegrityError "fk_vendor_circuit_states");
      now ← database_utcnow;
      _ ← put_circuit key (initial_circuit circuit_id now);
      mret (initial_circuit circuit_id now)
  end.

(** The circuit after an outcome; it opens until [opened_until]. *)
Definition circuit_after (success : bool) (error_code : option string) (failure_threshold now opened_until : Z)
    (state : Circuit) : Circuit :=
  let state :=
    if success
    then state <| VendorCircuitState.state := "closed" |> <| VendorCircuitState.failure_count := 0 |>
               <| VendorCircuitState.opened_until := None |>
               <| VendorCircuitState.last_error_code := None |>
    else
      let state := state <| VendorCircuitState.failure_count ::= Z.succ |>
                         <| VendorCircuitState.last_error_code := error_code |> in
      if failure_threshold <=? VendorCircuitState.failure_count state
      then state <| VendorCircuitState.state := "open" |>
                 <| VendorCircuitState.opened_until := Some opened_until |>
      else state in
  state <| VendorCircuitState.version ::= Z.succ |> <| VendorCircuitState.updated_at := now |>.

Definition record_outcome (circuit_id : N) (route : GatewayRoute.t) (project_id : N) (success : bool)
    (error_code : option string) (failure_threshold cooldown_seconds : Z) : Sess unit :=
  match GatewayRoute.logical_model_id route, GatewayRoute.selected_vendor route with
  | Some logical_model_id, Some vendor =>
      state ← _get_or_create_circuit_state circuit_id project_id logical_model_id vendor;
      now ← database_utcnow;
      let opened_until := now + cooldown_seconds * 1000000 in
      _ ← raise_if (negb success && (failure_threshold <=? VendorCircuitState.failure_count state + 1)
                    && negb (timedelta_ok (cooldown_seconds * 1000000) && datetime_ok opened_until)) OverflowError;
      put_circuit (project_id, logical_model_id, vendor)
        (circuit_after success error_code failure_threshold now opened_until state)
  | _, _ => mret tt
  end.

(** [str(x)] of an optional UUID *)
Definition str_uuid (u : option N) : string := match u with Some u => uuid_str u | None => "None" end.
Definition jvendor (v : option AcceleratorVendor) : Json :=
  match v with Some v => JStr (AcceleratorVendor_value v) | None => JNull end.

Definition record_fallback (project_id request_id : N) (from_route to_route : GatewayRoute.t)
    (reason : string) : Sess unit :=
  now ← database_utcnow;
  modify (fun db => db <| Db.audit ::= fun l => l ++
    [AuditEvent.mk project_id "gateway" "gateway.vendor_fallback" "logical_model"
       (uuid_str <$> GatewayRoute.logical_model_id from_route) "success" (Some (uuid_str request_id))
       [("from_service_id", JUuid (GatewayRoute.service_id from_route));
        ("from_variant_id", JStr (str_uuid (GatewayRoute.model_variant_id from_route)));
        ("from_vendor", jvendor (GatewayRoute.selected_vendor from_route));
        ("to_service_id", JUuid (GatewayRoute.service_id to_route));
        ("to_variant_id", JStr (str_uuid (GatewayRoute.model_variant_id to_route)));
        ("to_vendor", jvendor (GatewayRoute.selected_vendor to_route)); ("reason", JStr reason)] now] |>).

(** ** The catalog *)

(** A replica of the service can take a request. *)
Definition has_endpoint (db : Db.t) (s : Svc) : bool := existsb (ServiceRepository.routable s) (rows (Db.replicas db)).

Definition project_services (db : Db.t) (project_id : N) : list Svc :=
  List.filter (fun s => ModelService.project_id s == project_id) (rows (Db.services db)).
Definition project_models (db : Db.t) (project_id : N) : list Model :=
  List.filter (fun m => LogicalModel.project_id m == project_id) (rows (Db.logical_models db)).

(** [public_name in ambiguous_names]: a service of that name is not the model's *)
Definition ambiguous (db : Db.t) (project_id : N) (name : string) : bool :=
  existsb (fun m => (LogicalModel.public_name m == name)
    && match head (services_named db project_id name) with
       | Some owner => ModelService.logical_model_id owner !== Some (LogicalModel.id m)
       | None => false
       end) (project_models db project_id).

(** The service makes its logical model available. *)
Definition makes_available (db : Db.t) (project_id : N) (now : Z) (model : Model) (service : Svc) : bool :=
  (ModelService.logical_model_id service == Some (LogicalModel.id model))
  && negb (ambiguous db project_id (LogicalModel.public_name model))
  && (LogicalModel.status model == ModelAvailabilityStatus.READY)
  && (0 <? ModelService.desired_replicas service) && has_endpoint db service
  && _CandidatePolicy.allows (_candidate_policy (Some (LogicalModel.routing_policy model)))
       (ModelService.selected_vendor service)
  && match variant_of db (LogicalModel.id model) (ModelService.model_variant_id service) with
     | Some variant =>
         (ModelVariant.status variant == ModelAvailabilityStatus.READY)
         && (ModelService.selected_vendor service == Some (ModelVariant.vendor variant))
         && (ModelService.selected_kind service == Some (ModelVariant.kind variant))
     | None => false
     end
  && match ModelService.selected_vendor service with
     | Some vendor => match Db.circuits db !! (project_id, LogicalModel.id model, vendor) with
                      | Some circuit => negb (circuit_open now circuit)
                      | None => true
                      end
     | None => true
     end.

Definition list_available_models (db : Db.t) (project_id : N) : list GatewayModelCatalogEntry.t :=
  let services := py_sort (fun s => (- ModelService.created_at s, - Z.of_N (ModelService.id s)))
                    (project_services db project_id) in
  let entries :=
    ((fun s => GatewayModelCatalogEntry.mk (ModelService.name s) (ModelService.created_at s)) <$>
       List.filter (fun s => is_none (ModelService.logical_model_id s)
         && negb (ambiguous db project_id (ModelService.name s))
         && (0 <? ModelService.desired_replicas s) && has_endpoint db s) services)
    ++ ((fun m => GatewayModelCatalogEntry.mk (LogicalModel.public_name m) (LogicalModel.created_at m)) <$>
       List.filter (fun m => existsb (makes_available db project_id (Db.clock db) m) services)
         (project_models db project_id)) in
  (* sorted(..., reverse=True) *)
  rev (py_sort (fun e => (GatewayModelCatalogEntry.created_at e, GatewayModelCatalogEntry.model_id e))
         (rev entries)).
End GatewayRoutingRepository.
