(* ===== verification/RuntimeProfiles.v ===== *)
(** * Runtime profiles ([core/runtime_profiles.py])

    A runtime profile says how replicas and accelerator tasks of one vendor
    are run.  Profiles are immutable YAML files; a manifest lists them with
    their semantic digests, and the catalog resolves the exact
    [(id, version, digest)] a workload was admitted with.  Modelled are the
    binding of a profile to inventory, the manifest and its validation, the
    checks that tie a profile to its manifest entry, and the catalog.  A profile
    has the fields these read: what the digest covers beyond them (image,
    process, probes, security) is not modelled, and [semantic_digest] is the
    value that the method of that name computes for the frozen object.  Reading
    and parsing of files is the argument [read] of [from_manifest]. *)

From S2P Require Import Prelude PyString PyUrl PyFloat Enums Store ModelRegistry.
From Stdlib Require Import Ascii String.

#[local] Open Scope stdpp_scope.
#[local] Open Scope Z_scope.

(** [PROFILE_ID_PATTERN], [PROFILE_VERSION_PATTERN] and
    [SEMANTIC_DIGEST_PATTERN] are the patterns of the model registry. *)
Definition PROFILE_ID_PATTERN : string -> bool := _PROFILE_ID.
Definition PROFILE_VERSION_PATTERN : string -> bool := _SEMANTIC_VERSION.
Definition SEMANTIC_DIGEST_PATTERN : string -> bool := _DIGEST.

Definition VENDOR_NODE_SELECTOR : string := "accelerator.mini-ai-cloud/vendor".

Definition runtime_profile_binding_id (profile_id profile_version semantic_digest : string) : Sess string :=
  _ ← raise_if (negb (PROFILE_ID_PATTERN profile_id))
        (ValueError "invalid runtime profile binding profile_id");
  _ ← raise_if (negb (PROFILE_VERSION_PATTERN profile_version))
        (ValueError "invalid runtime profile binding profile_version");
  _ ← raise_if (negb (SEMANTIC_DIGEST_PATTERN semantic_digest))
        (ValueError "invalid runtime profile binding semantic_digest");
  let binding := profile_id +:+ "@" +:+ profile_version +:+ "#" +:+ semantic_digest in
  _ ← raise_if (255 <? slen binding)
        (ValueError "runtime profile binding must not exceed 255 characters");
  mret binding.

Module RuntimeProfileEvidenceStatus.
Inductive t := SCHEMA_READY | MANIFEST_VALIDATED | SIMULATED | REAL_ENGINE_PASS
| REAL_CONTROL_PLANE_PASS | REAL_DUAL_BACKEND_PASS | REAL_HW_NOT_RUN | BLOCKED.
#[export] Instance eq_dec : EqDecision t.
Proof. solve_decision. Defined.
End RuntimeProfileEvidenceStatus.
Import RuntimeProfileEvidenceStatus (SCHEMA_READY, MANIFEST_VALIDATED, SIMULATED, REAL_ENGINE_PASS,
  REAL_CONTROL_PLANE_PASS, REAL_DUAL_BACKEND_PASS, REAL_HW_NOT_RUN, BLOCKED).
#[export] Existing Instance RuntimeProfileEvidenceStatus.eq_dec.

Definition _EVIDENCE_REFERENCE_REQUIRED : list RuntimeProfileEvidenceStatus.t :=
  [MANIFEST_VALIDATED; SIMULATED; REAL_ENGINE_PASS; REAL_CONTROL_PLANE_PASS; REAL_DUAL_BACKEND_PASS].

Module TensorParallelCapability.
Record t := mk {
  supported : bool;
  minimum_size : Z;
  maximum_size : option Z;
  maximum_size_source : string;
}.

(** [validate_size_source]: [None] when the value is valid. *)
Definition validate_size_source (c : t) : option string :=
  if (maximum_size_source c == "profile") && bool_decide (maximum_size c = None)
  then Some "profile-owned tensor parallel limits require maximum_size"
  else if (maximum_size_source c == "runtime-observation") && bool_decide (maximum_size c <> None)
  then Some "runtime-observed tensor parallel limits must omit maximum_size"
  else if match maximum_size c with Some m => m <? minimum_size c | None => false end
  then Some "maximum_size must be greater than or equal to minimum_size"
  else if negb (supported c)
          && (negb (minimum_size c =? 1) || match maximum_size c with Some m => negb (m =? 1) | None => false end)
  then Some "unsupported tensor parallel profiles may only describe size one"
  else None.
End TensorParallelCapability.

Module RuntimeProfile.
Record t := mk {
  id : string;
  version : string;
  vendor : AcceleratorVendor;
  kind : AcceleratorKind;
  engine : string;
  scheduler_name : option string;
  resource_name : string;
  node_selector : gmap string string;
  annotation_key : option string;
  hardware_families : list string;
  model_architectures : list string;
  dtypes : list string;
  features : list string;
  tensor_parallel : TensorParallelCapability.t;
  evidence_status : RuntimeProfileEvidenceStatus.t;
  evidence_references : list string;
  limitations : list string;
  semantic_digest : string;
}.

Definition identity (p : t) : string := id p +:+ "@" +:+ version p.

(** [validate_unique_capabilities] *)
Definition unique_capabilities (p : t) : bool :=
  bool_decide (NoDup (model_architectures p)) && bool_decide (NoDup (dtypes p)) && bool_decide (NoDup (features p)).

(** [validate_profile_invariants]: [None] when the profile is valid.  The
    visibility of devices is given by its [annotation_key]. *)
Definition validate_profile_invariants (p : t) : option string :=
  if negb (vendor_kind_is_compatible (vendor p) (kind p)) then Some "vendor is not compatible with kind"
  else if node_selector p !! VENDOR_NODE_SELECTOR !== Some (AcceleratorVendor_value (vendor p))
  then Some "node_selector must set the vendor"
  else if match annotation_key p with
          | Some _ => (vendor p !== HUAWEI_ASCEND) || (kind p !== NPU)
          | None => false
          end
  then Some "device_visibility is restricted to Huawei Ascend NPU profiles"
  else if match annotation_key p with Some _ => scheduler_name p !== Some "volcano" | None => false end
  then Some "Ascend annotation visibility requires scheduler_name=volcano"
  else if match annotation_key p with Some k => k !== resource_name p | None => false end
  then Some "device visibility annotation_key must equal resource_name"
  else if inb (evidence_status p) _EVIDENCE_REFERENCE_REQUIRED && bool_decide (evidence_references p = [])
  then Some "evidence status requires evidence_references"
  else if negb (bool_decide (NoDup (evidence_references p)))
  then Some "evidence_references entries must be unique"
  else if negb (bool_decide (NoDup (limitations p)))
  then Some "limitations entries must be unique"
  else None.
End RuntimeProfile.

Module RuntimeProfileManifestEntry.
Record t := mk {
  identity : string;
  profile_id : string;
  profile_version : string;
  path : string;
  semantic_digest : string;
  vendor : AcceleratorVendor;
  kind : AcceleratorKind;
  engine : string;
  evidence_status : RuntimeProfileEvidenceStatus.t;
  hardware_families : list string;
  model_architectures : list string;
  dtypes : list string;
  features : list string;
}.

(** The patterns of the fields that name a profile, and [validate_manifest_identity]. *)
Definition validate_manifest_identity (e : t) : option string :=
  if negb (PROFILE_ID_PATTERN (profile_id e) && PROFILE_VERSION_PATTERN (profile_version e)
           && SEMANTIC_DIGEST_PATTERN (semantic_digest e))
  then Some "string should match pattern"
  else if identity e !== profile_id e +:+ "@" +:+ profile_version e
  then Some "manifest identity must match profile_id@profile_version"
  else if negb (vendor_kind_is_compatible (vendor e) (kind e))
  then Some "manifest vendor and kind are incompatible"
  else None.
End RuntimeProfileManifestEntry.
Notation Entry := RuntimeProfileManifestEntry.t.
Notation Profile := RuntimeProfile.t.

Module RuntimeProfileManifest.
Record t := mk { profiles : list Entry }.

(** Construction: every entry is valid, and [validate_unique_profiles]. *)
Definition validate (m : t) : option string :=
  if bool_decide (profiles m = []) then Some "manifest needs at least one profile"
  else if existsb (fun e => bool_decide (RuntimeProfileManifestEntry.validate_manifest_identity e <> None)) (profiles m)
  then Some "invalid manifest entry"
  else if negb (bool_decide (NoDup (RuntimeProfileManifestEntry.identity <$> profiles m)))
  then Some "duplicate runtime profile identities"
  else None.
End RuntimeProfileManifest.

(** [RuntimeProfileCatalog]: [_profiles] by [(id, version)], the last entry
    for a key winning, and the loaded profiles. *)
Module RuntimeProfileCatalog.
Record t := mk {
  manifest : RuntimeProfileManifest.t;
  runtime_profiles : gmap (string * string) Profile;
}.

Definition _profiles (c : t) : gmap (string * string) Entry :=
  foldl (fun m e => <[(RuntimeProfileManifestEntry.profile_id e, RuntimeProfileManifestEntry.profile_version e) := e]> m)
    ∅ (RuntimeProfileManifest.profiles (manifest c)).

Definition _resolve_manifest_entry (c : t) (profile_id profile_version semantic_digest : string) : PyError + Entry :=
  match _profiles c !! (profile_id, profile_version) with
  | None => inl (RuntimeProfileCompatibilityError "unknown runtime profile")
  | Some entry =>
      if RuntimeProfileManifestEntry.semantic_digest entry !== semantic_digest
      then inl (RuntimeProfileCompatibilityError "runtime profile digest does not match the immutable manifest")
      else inr entry
  end.

Definition load_exact (c : t) (profile_id profile_version semantic_digest : string) : PyError + Profile :=
  match _resolve_manifest_entry c profile_id profile_version semantic_digest with
  | inl e => inl e
  | inr entry =>
      match runtime_profiles c !! (RuntimeProfileManifestEntry.profile_id entry,
                                   RuntimeProfileManifestEntry.profile_version entry) with
      | None => inl (RuntimeProfileCompatibilityError "runtime profile YAML is unavailable")
      | Some profile =>
          if RuntimeProfile.semantic_digest profile !== semantic_digest
          then inl (RuntimeProfileCompatibilityError
                      "runtime profile YAML digest drifted from the immutable manifest")
          else inr profile
      end
  end.

Definition resolve_compatible (c : t) (profile_id profile_version semantic_digest : string)
    (vendor : AcceleratorVendor) (kind : AcceleratorKind) (architecture dtype : string) : PyError + Entry :=
  match _resolve_manifest_entry c profile_id profile_version semantic_digest with
  | inl e => inl e
  | inr profile =>
      if (RuntimeProfileManifestEntry.vendor profile !== vendor) || (RuntimeProfileManifestEntry.kind profile !== kind)
      then inl (RuntimeProfileCompatibilityError "model variant vendor/kind does not match the runtime profile")
      else if negb (inb dtype (RuntimeProfileManifestEntry.dtypes profile))
      then inl (RuntimeProfileCompatibilityError "dtype is not declared by runtime profile")
      else if bool_decide (RuntimeProfileManifestEntry.model_architectures profile <> [])
              && negb (inb architecture (RuntimeProfileManifestEntry.model_architectures profile))
      then inl (RuntimeProfileCompatibilityError "architecture is not declared by runtime profile")
      else inr profile
  end.

(** What [_load_manifest_profile] checks of the parsed file of an entry. *)
Definition metadata_matches (profile : Profile) (entry : Entry) : bool :=
  negb ((RuntimeProfile.vendor profile !== RuntimeProfileManifestEntry.vendor entry)
        || (RuntimeProfile.kind profile !== RuntimeProfileManifestEntry.kind entry)
        || (RuntimeProfile.engine profile !== RuntimeProfileManifestEntry.engine entry)
        || (RuntimeProfile.evidence_status profile !== RuntimeProfileManifestEntry.evidence_status entry)
        || (RuntimeProfile.hardware_families profile !== RuntimeProfileManifestEntry.hardware_families entry)
        || (RuntimeProfile.model_architectures profile !== RuntimeProfileManifestEntry.model_architectures entry)
        || (RuntimeProfile.dtypes profile !== RuntimeProfileManifestEntry.dtypes entry)
        || (RuntimeProfile.features profile !== RuntimeProfileManifestEntry.features entry)).

(** [read] gives the profile a path of the manifest directory holds, if it
    exists, is small enough and parses as a valid profile. *)
Definition _load_manifest_profile (read : string -> option Profile) (entry : Entry) : PyError + Profile :=
  match read (RuntimeProfileManifestEntry.path entry) with
  | None => inl (RuntimeProfileCompatibilityError "invalid runtime profile YAML")
  | Some profile =>
      if RuntimeProfile.identity profile !== RuntimeProfileManifestEntry.identity entry
      then inl (RuntimeProfileCompatibilityError "runtime profile YAML identity does not match the manifest")
      else if RuntimeProfile.semantic_digest profile !== RuntimeProfileManifestEntry.semantic_digest entry
      then inl (RuntimeProfileCompatibilityError
                  "runtime profile YAML digest does not match the immutable manifest")
      else if negb (metadata_matches profile entry)
      then inl (RuntimeProfileCompatibilityError "runtime profile YAML metadata does not match the manifest")
      else inr profile
  end.

Fixpoint load_profiles (read : string -> option Profile) (entries : list Entry)
    (loaded : gmap (string * string) Profile) : PyError + gmap (string * string) Profile :=
  match entries with
  | [] => inr loaded
  | entry :: rest =>
      match _load_manifest_profile read entry with
      | inl e => inl e
      | inr profile =>
          load_profiles read rest
            (<[(RuntimeProfileManifestEntry.profile_id entry, RuntimeProfileManifestEntry.profile_version entry)
               := profile]> loaded)
      end
  end.

(** [from_path], for the manifest its file holds ([None] if it is missing, too
    large or not JSON). *)
Definition from_path (read : string -> option Profile) (payload : option RuntimeProfileManifest.t) : PyError + t :=
  match payload with
  | None => inl (RuntimeProfileCompatibilityError "invalid runtime profile manifest")
  | Some manifest =>
      if bool_decide (RuntimeProfileManifest.validate manifest <> None)
      then inl (RuntimeProfileCompatibilityError "invalid runtime profile manifest")
      else match load_profiles read (RuntimeProfileManifest.profiles manifest) ∅ with
           | inl e => inl e
           | inr profiles => inr (mk manifest profiles)
           end
  end.
End RuntimeProfileCatalog.
Notation Catalog := RuntimeProfileCatalog.t.
