(* ===== verification/AdmissionPlan.v ===== *)
(** * Planning of accelerator pools (first part of [repositories/admission.py])

    A Kubernetes accelerator pool is the set of devices of one vendor behind
    one extended resource name on the nodes of the cluster.  The planner takes
    what is already promised (deferred batch reservations, replicas of
    services) off the devices of each node, and answers nothing when a promise
    cannot be located; admission offers only what remains.  The definitions are
    the module's dataclasses and pure helpers; a set that is only tested or
    sorted is a list without duplicates. *)

From S2P Require Import Prelude PyString PyUrl PyFloat Enums PyDict PyJson Store Names Quotas Tasks.
From S2P Require Import VendorAdmission ModelRegistry RuntimeProfiles.
From Stdlib Require Import Ascii String.
From stdpp Require Import pretty.

#[local] Open Scope stdpp_scope.
#[local] Open Scope Z_scope.

Definition _CANDIDATE_SUMMARY_MAX_BYTES : Z := 15500.

(** An exception of pure code, raised in a session. *)
Definition lift {A} (r : PyError + A) : Sess A := match r with inl e => raise e | inr a => mret a end.
Definition checked {A} (problem : option string) (a : A) : Sess A :=
  match problem with Some m => raise (ValueError m) | None => mret a end.

Definition _runtime_profile_capabilities (profile : Profile) : gset string :=
  list_to_set (RuntimeProfile.features profile) ∪ list_to_set (RuntimeProfile.dtypes profile)
  ∪ (if TensorParallelCapability.supported (RuntimeProfile.tensor_parallel profile)
     then {["tensor-parallel"]} else ∅).

Module InventoryDeviceSnapshot.
Record t := mk {
  device_id : N;
  worker_id : string;
  node_name : string;
  worker_session_id : N;
  worker_status : WorkerStatus;
  worker_runtime_types : list string;
  device_uuid : string;
  health : string;
  vendor : AcceleratorVendor;
  kind : AcceleratorKind;
  model : string;
  memory_total_mb : Z;
  memory_free_mb : Z;
  runtime_profile_ids : list string;
  capabilities : gset string;
  kubernetes_resource_name : option string;
  inventory_generation : Z;
  last_seen_at : Z;
}.
End InventoryDeviceSnapshot.
Notation Device := InventoryDeviceSnapshot.t.

Module ServiceAdmissionSnapshot.
Record t := mk {
  logical_model_id : N;
  model_variant_id : N;
  vendor : AcceleratorVendor;
  kind : AcceleratorKind;
  selected_model : string;
  runtime_profile_id : string;
  runtime_profile_version : string;
  runtime_profile_digest : string;
  allocation_authority : AllocationAuthority;
  accelerator_resource_name : string;
  selection_policy : AcceleratorSelectionPolicy;
  artifact_source : string;
  artifact_revision : string;
  artifact_digest : string;
  dtype : string;
  eligible_node_names : list string;
}.
End ServiceAdmissionSnapshot.

Module BatchAdmissionSnapshot.
Record t := mk {
  worker_id : string;
  worker_session_id : N;
  vendor : AcceleratorVendor;
  kind : AcceleratorKind;
  selected_model : string;
  runtime_profile_id : string;
  runtime_profile_version : string;
  runtime_profile_digest : string;
  allocation_authority : AllocationAuthority;
  accelerator_resource_name : string;
  selection_policy : AcceleratorSelectionPolicy;
  node_name : string;
}.
End BatchAdmissionSnapshot.

(** [ServiceAdmissionResult] and [BatchAdmissionResult]; [allowed] says that
    there is a snapshot. *)
Module AdmissionResult.
Record t (S : Type) := mk {
  snapshot : option S;
  reason : option AdmissionRejectionReason;
  rejected_vendor : option AcceleratorVendor;
  summary : list JsObject;
}.
#[global] Arguments mk {S} _ _ _ _.
#[global] Arguments snapshot {S} _.
#[global] Arguments reason {S} _.
#[global] Arguments rejected_vendor {S} _.
#[global] Arguments summary {S} _.
Definition allowed {S} (r : t S) : bool := negb (is_none (snapshot r)).
End AdmissionResult.

Module _DeferredReservationTotal.
Record t := mk {
  worker_id : string;
  vendor : string;
  profile_id : option string;
  profile_version : option string;
  profile_digest : option string;
  accelerator_count : Z;
  node_name : option string;
  observed_device_ids : option (list string);
  worker_session_matches : bool;
}.
End _DeferredReservationTotal.

Module _DeferredAcceleratorUsage.
Record t := mk {
  by_node_resource : dict (string * string * string * string) Z;
  unknown_by_worker_resource : dict (string * string * string) Z;
  unknown_by_worker_vendor : dict (string * string) Z;
  unknown_by_vendor_resource : dict (string * string) Z;
  unknown_by_vendor : dict string Z;
}.
#[global] Instance eta : Eta t := fun r =>
  mk (by_node_resource r) (unknown_by_worker_resource r) (unknown_by_worker_vendor r)
    (unknown_by_vendor_resource r) (unknown_by_vendor r).

Definition none : t := mk [] [] [] [] [].

Definition for_pool (u : t) (worker_id : string) (vendor : AcceleratorVendor) (resource_name : string) : Z :=
  let vendor_value := AcceleratorVendor_value vendor in
  dsum (fun '(candidate_worker, _, candidate_vendor, candidate_resource) =>
          (candidate_worker == worker_id) && (candidate_vendor == vendor_value)
          && (candidate_resource == resource_name)) (by_node_resource u)
  + dcount (unknown_by_worker_resource u) (worker_id, vendor_value, resource_name)
  + dcount (unknown_by_worker_vendor u) (worker_id, vendor_value)
  + dcount (unknown_by_vendor_resource u) (vendor_value, resource_name)
  + dcount (unknown_by_vendor u) vendor_value.
End _DeferredAcceleratorUsage.

Module _ServiceReplicaCommitment.
Record t := mk {
  service_id : N;
  replica_ordinal : Z;
  vendor : option string;
  model : option string;
  resource_name : option string;
  accelerator_count : Z;
  eligible_node_names : option (list string);
  assigned_node_name : option string;
  generation : Z;
}.
End _ServiceReplicaCommitment.
Notation Commitment := _ServiceReplicaCommitment.t.

(** ** The planner *)
Notation NodeKey := (string * string)%type (only parsing).

Definition node_key (d : Device) : NodeKey :=
  (InventoryDeviceSnapshot.worker_id d, InventoryDeviceSnapshot.node_name d).

(** [{device.worker_id for device in inventory if device.node_name == node}] *)
Definition node_workers (inventory : list Device) (node : string) : list string :=
  remove_dups (InventoryDeviceSnapshot.worker_id <$>
    List.filter (fun d => InventoryDeviceSnapshot.node_name d == node) inventory).

Section plan.
Context (inventory : list Device) (vendor : AcceleratorVendor) (model resource_name : string).

(** The devices of the pool's vendor and resource. *)
Definition in_pool (d : Device) : bool :=
  (InventoryDeviceSnapshot.vendor d == vendor)
  && (InventoryDeviceSnapshot.kubernetes_resource_name d == Some resource_name).

Definition candidate_node_keys : list NodeKey :=
  remove_dups (node_key <$> List.filter (fun d => in_pool d && (InventoryDeviceSnapshot.model d == model)) inventory).

(** How many devices of the pool each candidate node has. *)
Definition physical : dict NodeKey Z :=
  let keys := candidate_node_keys in
  tally_by node_key (List.filter (fun d => in_pool d && inb (node_key d) keys) inventory).

(** A deferred reservation whose node is not known stops the planning. *)
Definition unlocated (u : _DeferredAcceleratorUsage.t) (workers : list string) : bool :=
  let vendor_value := AcceleratorVendor_value vendor in
  (0 <? dcount (_DeferredAcceleratorUsage.unknown_by_vendor_resource u) (vendor_value, resource_name))
  || (0 <? dcount (_DeferredAcceleratorUsage.unknown_by_vendor u) vendor_value)
  || existsb (fun '((worker_id, deferred_vendor, deferred_resource), count) =>
        (0 <? count) && inb worker_id workers && (deferred_vendor == vendor_value)
        && (deferred_resource == resource_name)) (_DeferredAcceleratorUsage.unknown_by_worker_resource u)
  || existsb (fun '((worker_id, deferred_vendor), count) =>
        (0 <? count) && inb worker_id workers && (deferred_vendor == vendor_value))
       (_DeferredAcceleratorUsage.unknown_by_worker_vendor u).

Definition plan_deferred (remaining : option (dict NodeKey Z)) (e : string * string * string * string * Z)
  : Sess (option (dict NodeKey Z)) :=
  match remaining with
  | None => mret None
  | Some remaining =>
      let '(worker_id, node_name, deferred_vendor, deferred_resource, deferred) := e in
      if (deferred_vendor !== AcceleratorVendor_value vendor) || (deferred_resource !== resource_name)
      then mret (Some remaining)
      else if dcount remaining (worker_id, node_name) <? deferred then mret None
      else match dget remaining (worker_id, node_name) with
           | None => raise KeyError
           | Some n => mret (Some (dset (worker_id, node_name) (n - deferred) remaining))
           end
  end.

(** One replica of a service: [None] when it makes the pool unsafe. *)
Definition plan_commitment (remaining : option (dict NodeKey Z)) (c : Commitment) : option (dict NodeKey Z) :=
  match remaining with
  | None => None
  | Some remaining =>
      match _ServiceReplicaCommitment.vendor c with
      | None => None
      | Some v =>
          if v !== AcceleratorVendor_value vendor then Some remaining
          else match _ServiceReplicaCommitment.resource_name c with
          | None => None
          | Some r =>
              if r !== resource_name then Some remaining
              else match _ServiceReplicaCommitment.eligible_node_names c with
              | None | Some [] => None
              | Some nodes =>
                  match _ServiceReplicaCommitment.assigned_node_name c with
                  | None => if existsb (fun k => inb k.2 nodes) remaining.*1 then None else Some remaining
                  | Some node =>
                      if negb (inb node nodes) then None
                      else match List.filter (fun k => k.2 == node) remaining.*1 with
                      | [] => Some remaining
                      | [key] =>
                          if _ServiceReplicaCommitment.model c !== Some model then Some (dset key 0 remaining)
                          else if dcount remaining key <? _ServiceReplicaCommitment.accelerator_count c then None
                          else Some (dset key (dcount remaining key - _ServiceReplicaCommitment.accelerator_count c)
                                       remaining)
                      | _ => None
                      end
                  end
              end
          end
      end
  end.

Definition _plan_physical_pool_remaining (commitments : list Commitment) (deferred_usage : _DeferredAcceleratorUsage.t)
  : Sess (option (dict NodeKey Z)) :=
  let devices := physical in
  if existsb (fun node => negb (lenZ (node_workers inventory node) =? 1)) (remove_dups candidate_node_keys.*2)
  then mret None
  else if unlocated deferred_usage (remove_dups devices.*1.*1) then mret None
  else
    remaining ← foldM (_DeferredAcceleratorUsage.by_node_resource deferred_usage) (Some devices) plan_deferred;
    mret (foldl plan_commitment remaining commitments).
End plan.

(** ** The capacity of a batch pool *)
Module PoolQuery.
Record t := mk {
  worker_id : string;
  node_name : option string;
  vendor : AcceleratorVendor;
  kind : AcceleratorKind;
  model : string;
  profile_id : string;
  profile_version : string;
  profile_digest : string;
  resource_name : string;
  required_capabilities : gset string;
  profile_capabilities : gset string;
  minimum_memory_mb : Z;
}.
End PoolQuery.
Notation Query := PoolQuery.t.

Definition usable_health (h : string) : bool := inb h ["healthy"; "inventory-only"].

Section batch_pool.
Context (inventory : list Device) (q : Query).

Definition batch_node_keys (binding_id : string) : list NodeKey :=
  remove_dups (node_key <$> List.filter (fun d =>
    (InventoryDeviceSnapshot.worker_id d == PoolQuery.worker_id q)
    && match PoolQuery.node_name q with Some n => InventoryDeviceSnapshot.node_name d == n | None => true end
    && usable_health (InventoryDeviceSnapshot.health d)
    && (InventoryDeviceSnapshot.vendor d == PoolQuery.vendor q)
    && (InventoryDeviceSnapshot.kind d == PoolQuery.kind q)
    && (InventoryDeviceSnapshot.model d == PoolQuery.model q)
    && (InventoryDeviceSnapshot.kubernetes_resource_name d == Some (PoolQuery.resource_name q))
    && inb binding_id (InventoryDeviceSnapshot.runtime_profile_ids d)) inventory).

Definition batch_compatible (binding_id : string) (d : Device) : bool :=
  (InventoryDeviceSnapshot.vendor d == PoolQuery.vendor q)
  && (InventoryDeviceSnapshot.kind d == PoolQuery.kind q)
  && (InventoryDeviceSnapshot.model d == PoolQuery.model q)
  && (PoolQuery.minimum_memory_mb q <=? InventoryDeviceSnapshot.memory_total_mb d)
  && inb binding_id (InventoryDeviceSnapshot.runtime_profile_ids d)
  && bool_decide (PoolQuery.required_capabilities q
                  ⊆ InventoryDeviceSnapshot.capabilities d ∪ PoolQuery.profile_capabilities q).

(** All devices behind the resource on one node. *)
Definition node_pool (resource_name : string) (key : NodeKey) : list Device :=
  List.filter (fun d => (node_key d == key)
    && (InventoryDeviceSnapshot.kubernetes_resource_name d == Some resource_name)) inventory.

Definition homogeneous_devices (binding_id : string) : list Device :=
  concat ((fun key =>
    let pool_devices := node_pool (PoolQuery.resource_name q) key in
    if bool_decide (pool_devices = []) || negb (forallb (batch_compatible binding_id) pool_devices) then []
    else List.filter (fun d => usable_health (InventoryDeviceSnapshot.health d)) pool_devices)
    <$> py_sort (fun k => k) (batch_node_keys binding_id)).

Definition _batch_homogeneous_compatible_devices : Sess (list Device) :=
  binding_id ← runtime_profile_binding_id (PoolQuery.profile_id q) (PoolQuery.profile_version q)
                 (PoolQuery.profile_digest q);
  mret (homogeneous_devices binding_id).

Definition _batch_pool_available_capacity (commitments : list Commitment)
    (deferred_usage : _DeferredAcceleratorUsage.t) : Sess Z :=
  remaining ← _plan_physical_pool_remaining inventory (PoolQuery.vendor q) (PoolQuery.model q)
                (PoolQuery.resource_name q) commitments deferred_usage;
  match remaining with
  | None => mret 0
  | Some remaining =>
      devices ← _batch_homogeneous_compatible_devices;
      mret (foldr (fun '(key, compatible_count) acc =>
        Z.max 0 (compatible_count
                 - (lenZ (List.filter (fun d => (node_key d == key)
                            && in_pool (PoolQuery.vendor q) (PoolQuery.resource_name q) d) inventory)
                    - dcount remaining key)) + acc) 0 (tally_by node_key devices))
  end.
End batch_pool.

(** ** Quota *)
Definition _remaining (limit : option Z) (used : Z) : option Z :=
  match limit with None => None | Some limit => Some (Z.max 0 (limit - used)) end.

Definition typed_quota_available (quota : ProjectQuota.t) (state : ProjectQuotaState.t)
    (vendor : AcceleratorVendor) : option Z :=
  let aggregate_available := _remaining (ProjectQuota.max_gpus quota)
    (ProjectQuotaState.reserved_gpus state + ProjectQuotaState.service_reserved_gpus state) in
  let typed_available :=
    if vendor == NVIDIA
    then _remaining (ProjectQuota.max_nvidia_gpus quota)
           (ProjectQuotaState.reserved_nvidia_gpus state + ProjectQuotaState.service_reserved_nvidia_gpus state)
    else _remaining (ProjectQuota.max_ascend_npus quota)
           (ProjectQuotaState.reserved_ascend_npus state + ProjectQuotaState.service_reserved_ascend_npus state) in
  match aggregate_available, typed_available with
  | None, None => None
  | Some a, None => Some (Z.max 0 a)
  | None, Some t => Some (Z.max 0 t)
  | Some a, Some t => Some (Z.max 0 (Z.min a t))
  end.

(** ** The summary of a decision *)
Definition _summary_size (items : list JsObject) : Z := slen (dumps_compact items).

(** The items that fit, in order. *)
Fixpoint fitting (result items : list JsObject) : list JsObject :=
  match items with
  | [] => result
  | item :: rest =>
      if _CANDIDATE_SUMMARY_MAX_BYTES <? _summary_size (result ++ [item]) then result
      else fitting (result ++ [item]) rest
  end.

Definition marker (omitted : Z) : JsObject := [("truncated", Js.Bool true); ("omitted_candidates", Js.Int omitted)].

(** Pops items until the marker fits; [reversed] is the result, last item first. *)
Fixpoint with_marker (total : Z) (reversed : list JsObject) : list JsObject :=
  let result := rev reversed in
  let marked := result ++ [marker (total - lenZ reversed)] in
  match reversed with
  | [] => if _summary_size marked <=? _CANDIDATE_SUMMARY_MAX_BYTES then marked else result
  | _ :: shorter =>
      if _CANDIDATE_SUMMARY_MAX_BYTES <? _summary_size marked then with_marker total shorter else marked
  end.

Definition _bounded_summary (items : list JsObject) : list JsObject :=
  let result := fitting [] items in
  if lenZ items - lenZ result =? 0 then result else with_marker (lenZ items) (rev result).

Definition AllocationAuthority_value (a : AllocationAuthority) : string :=
  match a with
  | CONTROL_PLANE_EXACT_DEVICE => "control_plane_exact_device"
  | KUBERNETES_DEVICE_PLUGIN => "kubernetes_device_plugin"
  end.

(** The reason of the last rejection of a candidate. *)
Definition rejection_reason (decision : AdmissionDecision.t) (candidate_id : string) : option string :=
  (fun r => AdmissionRejectionReason_value (AdmissionRejection.reason r)) <$>
    List.find (fun r => AdmissionRejection.candidate_id r == candidate_id)
      (rev (AdmissionDecision.rejections decision)).

Definition summary_item (decision : AdmissionDecision.t) (c : AdmissionCandidate.t) : JsObject :=
  [("candidate_id", Js.Str (AdmissionCandidate.candidate_id c));
   ("vendor", Js.Str (AcceleratorVendor_value (AdmissionCandidate.vendor c)));
   ("kind", Js.Str (AcceleratorKind_value (AdmissionCandidate.kind c)));
   ("model", Js.Str (AdmissionCandidate.model c));
   ("runtime_profile_id", Js.opt_str (AdmissionCandidate.runtime_profile_id c));
   ("runtime_profile_version", Js.opt_str (AdmissionCandidate.runtime_profile_version c));
   ("runtime_profile_digest", Js.opt_str (AdmissionCandidate.runtime_profile_digest c));
   ("model_variant_id", Js.opt_str (AdmissionCandidate.model_variant_id c));
   ("allocation_authority", Js.Str (AllocationAuthority_value (AdmissionCandidate.allocation_authority c)));
   ("available_capacity", Js.Int (AdmissionCandidate.available_capacity c));
   ("available_quota", Js.Int (AdmissionCandidate.available_quota c));
   ("healthy", Js.Bool (AdmissionCandidate.healthy c));
   ("profile_ready", Js.Bool (AdmissionCandidate.profile_ready c));
   ("model_variant_ready", Js.Bool (AdmissionCandidate.model_variant_ready c));
   ("capabilities", Js.Strs (py_sort (fun s => s) (elements (AdmissionCandidate.capabilities c))));
   ("reason", Js.opt_str (rejection_reason decision (AdmissionCandidate.candidate_id c)))].

Definition rejection_item (r : AdmissionRejection.t) : JsObject :=
  [("candidate_id", Js.Str (AdmissionRejection.candidate_id r));
   ("vendor", Js.Str (AcceleratorVendor_value (AdmissionRejection.vendor r)));
   ("reason", Js.Str (AdmissionRejectionReason_value (AdmissionRejection.reason r)))].

Definition candidate_summary (candidates : list AdmissionCandidate.t) (decision : AdmissionDecision.t) : list JsObject :=
  let seen := AdmissionCandidate.candidate_id <$> candidates in
  _bounded_summary
    ((summary_item decision <$> py_sort AdmissionCandidate.candidate_id candidates)
     ++ (rejection_item <$>
           py_sort (fun r => (AdmissionRejection.candidate_id r,
                              (AcceleratorVendor_value (AdmissionRejection.vendor r),
                               AdmissionRejectionReason_value (AdmissionRejection.reason r))))
             (List.filter (fun r => negb (inb (AdmissionRejection.candidate_id r) seen))
                (AdmissionDecision.rejections decision)))).

(** ** Decisions without candidates *)
Definition _variant_reason (vendor : AcceleratorVendor) : AdmissionRejectionReason :=
  if vendor == NVIDIA then NVIDIA_MODEL_VARIANT_INCOMPATIBLE else ASCEND_MODEL_VARIANT_INCOMPATIBLE.

Definition _profile_reason (vendor : AcceleratorVendor) : AdmissionRejectionReason :=
  if vendor == NVIDIA then NVIDIA_PROFILE_UNAVAILABLE else ASCEND_PROFILE_UNAVAILABLE.

Definition preferred_vendor (policy : AcceleratorSelectionPolicy) : option AcceleratorVendor :=
  match policy with
  | NVIDIA_ONLY | PREFER_NVIDIA => Some NVIDIA
  | ASCEND_ONLY | PREFER_ASCEND => Some HUAWEI_ASCEND
  | ANY => None
  end.

Definition _ordered_vendors (request : AdmissionRequest.t) : list AcceleratorVendor :=
  let vendors := py_sort (fun v => if v == NVIDIA then 0 else 1)
                   (elements (AdmissionRequest.allowed_vendors request)) in
  match preferred_vendor (AdmissionRequest.selection_policy request) with
  | Some preferred => if inb preferred vendors
                      then preferred :: List.filter (fun v => v !== preferred) vendors else vendors
  | None => vendors
  end.

(** [_ordered_vendors(request)[0]] *)
Definition first_vendor (request : AdmissionRequest.t) : Sess AcceleratorVendor :=
  match _ordered_vendors request with v :: _ => mret v | [] => raise IndexError end.

Definition decision (d : AdmissionDecision.t) : Sess AdmissionDecision.t :=
  checked (AdmissionDecision.post_init d) d.

Definition _single_service_rejection (request : AdmissionRequest.t) (vendor : AcceleratorVendor)
    (reason : AdmissionRejectionReason) (candidate_id : string) : Sess AdmissionDecision.t :=
  decision (AdmissionDecision.mk (AdmissionRequest.count request) None []
              [AdmissionRejection.mk candidate_id vendor reason]).

Definition _missing_variant_decision (request : AdmissionRequest.t) : Sess AdmissionDecision.t :=
  vendor ← first_vendor request;
  let reason :=
    if negb (is_none (AdmissionRequest.model_variant_id request)) then _variant_reason vendor
    else if negb (is_none (AdmissionRequest.runtime_profile_id request)) then _profile_reason vendor
    else _variant_reason vendor in
  _single_service_rejection request vendor reason "no-ready-model-variant".

Definition _missing_pool_decision (request : AdmissionRequest.t) : Sess AdmissionDecision.t :=
  decision (AdmissionDecision.mk (AdmissionRequest.count request) None []
    ((fun vendor => AdmissionRejection.mk ("no-ready-" +:+ AcceleratorVendor_value vendor +:+ "-pool") vendor
                      (_profile_reason vendor)) <$> _ordered_vendors request)).

(** ** Deferred batch reservations *)
Definition _is_valid_kubernetes_node_name (value : option string) : bool :=
  match value with None => false | Some v => kubernetes_dns_subdomain v end.

(** The worker that owns a node, for the nodes of exactly one worker. *)
Definition _unique_inventory_node_owners (inventory : list Device) : dict string string :=
  omap (fun node => match node_workers inventory node with
                    | [w] => Some (node, w)
                    | _ => None
                    end)
    (remove_dups (InventoryDeviceSnapshot.node_name <$> inventory)).

(** The resource of the profile a reservation was admitted with. *)
Definition deferred_resource (catalog : Catalog) (total : _DeferredReservationTotal.t) : option string :=
  match _DeferredReservationTotal.profile_id total, _DeferredReservationTotal.profile_version total,
        _DeferredReservationTotal.profile_digest total with
  | Some i, Some v, Some d =>
      match RuntimeProfileCatalog.load_exact catalog i v d with
      | inr profile =>
          if AcceleratorVendor_value (RuntimeProfile.vendor profile) == _DeferredReservationTotal.vendor total
          then Some (RuntimeProfile.resource_name profile) else None
      | inl _ => None
      end
  | _, _, _ => None
  end.

Definition classify (catalog : Catalog) (node_owners : option (dict string string))
    (u : _DeferredAcceleratorUsage.t) (total : _DeferredReservationTotal.t) : _DeferredAcceleratorUsage.t :=
  let vendor := _DeferredReservationTotal.vendor total in
  let count := _DeferredReservationTotal.accelerator_count total in
  let node_name := _DeferredReservationTotal.node_name total in
  let worker_id := _DeferredReservationTotal.worker_id total in
  let resource := deferred_resource catalog total in
  let stable_node := _DeferredReservationTotal.worker_session_matches total
                     && _is_valid_kubernetes_node_name node_name in
  let current_owner :=
    if negb stable_node then None
    else match node_owners with
         | None => Some worker_id
         | Some owners => dget owners (default "" node_name)
         end in
  if negb (is_none node_owners) && stable_node && is_none current_owner then u
  else match resource with
  | None =>
      match node_owners, current_owner with
      | Some _, None => u <| _DeferredAcceleratorUsage.unknown_by_vendor ::= dadd vendor count |>
      | Some _, Some owner => u <| _DeferredAcceleratorUsage.unknown_by_worker_vendor ::= dadd (owner, vendor) count |>
      | None, _ => u <| _DeferredAcceleratorUsage.unknown_by_worker_vendor ::= dadd (worker_id, vendor) count |>
      end
  | Some resource =>
      match current_owner, node_owners with
      | Some owner, _ =>
          u <| _DeferredAcceleratorUsage.by_node_resource ::=
                 dadd (owner, default "" node_name, vendor, resource) count |>
      | None, Some _ => u <| _DeferredAcceleratorUsage.unknown_by_vendor_resource ::= dadd (vendor, resource) count |>
      | None, None => u <| _DeferredAcceleratorUsage.unknown_by_worker_resource ::=
                             dadd (worker_id, vendor, resource) count |>
      end
  end.

Definition _classify_deferred_accelerators (totals : list _DeferredReservationTotal.t) (catalog : Catalog)
    (node_owners : option (dict string string)) : _DeferredAcceleratorUsage.t :=
  foldl (classify catalog node_owners) _DeferredAcceleratorUsage.none totals.

(** ** Replicas of services *)

(** [value.strip()] of a string that is not blank. *)
Definition normalized_text (value : option string) : option string :=
  match value with
  | Some s => if is_empty (strip s) then None else Some (strip s)
  | None => None
  end.

(** A node snapshot counts only in its canonical form. *)
Definition normalized_nodes (nodes : option (list string)) : option (list string) :=
  match nodes with
  | Some l => if negb (bool_decide (l = [])) && bool_decide (l = py_sort (fun s => s) (remove_dups l))
              then Some l else None
  | None => None
  end.

Definition _service_commitment (service_id : N) (generation replica_ordinal : Z)
    (vendor : option AcceleratorVendor) (model resource_name : option string) (accelerator_count : Z)
    (eligible_node_names : option (list string)) (assigned_node_name : option string) : Commitment :=
  _ServiceReplicaCommitment.mk service_id replica_ordinal (AcceleratorVendor_value <$> vendor)
    (normalized_text model) (normalized_text resource_name) accelerator_count
    (normalized_nodes eligible_node_names) (normalized_text assigned_node_name) generation.
