(* ===== verification/Admission.v ===== *)
(** * The admission repository ([repositories/admission.py])

    Vendor-aware admission decides, for a batch task or a service of a logical
    model, which accelerator pool it may use: the inventory of the workers is
    read, what is already promised is taken off by the planner of
    [AdmissionPlan], the candidates go through the policy of
    [VendorAdmission], and the decision is recorded as an event.  The runtime
    profile catalog is an argument, as in the code.  Locks are lookups: a
    transaction is one atomic step. *)

From S2P Require Import Prelude PyString PyUrl PyFloat Enums PyDict PyJson Store Names Quotas Tasks.
From S2P Require Import VendorAdmission Services ModelRegistry RuntimeProfiles AdmissionPlan.
From Stdlib Require Import Ascii String.
From stdpp Require Import pretty.

#[local] Open Scope stdpp_scope.
#[local] Open Scope Z_scope.

(** ** Reading the inventory *)

(** [a or b] on optional strings. *)
Definition str_or (a b : option string) : option string :=
  match a with Some s => if is_empty s then b else a | None => b end.

Definition runtime_types_of (worker : Worker.t) : list string :=
  py_sort (fun s => s) (remove_dups (Worker.runtime_types worker)).

Definition device_snapshot_of (device : GPUDevice.t) (worker : Worker.t) (node_name : string) : Device :=
  InventoryDeviceSnapshot.mk (GPUDevice.id device) (Worker.id worker) node_name (Worker.worker_session_id worker)
    (Worker.status worker) (runtime_types_of worker) (GPUDevice.device_uuid device) (GPUDevice.health device)
    (GPUDevice.vendor device) (GPUDevice.accelerator_kind device) (GPUDevice.model device)
    (GPUDevice.memory_total_mb device) (GPUDevice.memory_free_mb device)
    (py_sort (fun s => s) (remove_dups (GPUDevice.runtime_profile_ids device)))
    (list_to_set (GPUDevice.capabilities_json device)) (GPUDevice.kubernetes_resource_name device)
    (GPUDevice.inventory_generation device) (GPUDevice.last_seen_at device).

Definition accepted_health (runtime_type : option RuntimeType) : list string :=
  if runtime_type == Some KUBERNETES then ["healthy"; "inventory-only"] else ["healthy"].

(** A worker that can be scheduled on, with a device of its current inventory. *)
Definition current_device (worker : Worker.t) (device : GPUDevice.t) : bool :=
  (Worker.status worker == ONLINE) && negb (Worker.overcommitted worker)
  && (GPUDevice.inventory_generation device =? Worker.inventory_generation worker).

Definition wanted_device (vendors : list AcceleratorVendor) (kinds : list AcceleratorKind)
    (minimum_memory_mb : Z) (device : GPUDevice.t) : bool :=
  (minimum_memory_mb <=? GPUDevice.memory_free_mb device) && inb (GPUDevice.vendor device) vendors
  && inb (GPUDevice.accelerator_kind device) kinds.

Definition kubernetes_node (device : GPUDevice.t) (worker : Worker.t) : option string :=
  match str_or (GPUDevice.kubernetes_node_name device) (Worker.node_name worker) with
  | Some node => if kubernetes_dns_subdomain node then Some node else None
  | None => None
  end.

Definition inventory_item (db : Db.t) (runtime_type : option RuntimeType) (device : GPUDevice.t) : option Device :=
  match Db.workers db !! GPUDevice.worker_id device with
  | None => None
  | Some worker =>
      if match runtime_type with
         | Some t => negb (inb (RuntimeType_value t) (runtime_types_of worker))
         | None => false
         end then None
      else if runtime_type == Some KUBERNETES
      then device_snapshot_of device worker <$> kubernetes_node device worker
      else Some (device_snapshot_of device worker
                   (default (Worker.id worker) (str_or (Worker.node_name worker) (Some (Worker.id worker)))))
  end.

Definition inventory_rows (db : Db.t) (vendors : list AcceleratorVendor) (kinds : list AcceleratorKind)
    (minimum_memory_mb : Z) (runtime_type : option RuntimeType) (include_unavailable : bool) : list GPUDevice.t :=
  py_sort (fun d => (AcceleratorVendor_value (GPUDevice.vendor d),
                     (AcceleratorKind_value (GPUDevice.accelerator_kind d),
                      (GPUDevice.model d, (GPUDevice.worker_id d, (GPUDevice.device_uuid d, GPUDevice.id d))))))
    (List.filter (fun d =>
       match Db.workers db !! GPUDevice.worker_id d with
       | Some worker => current_device worker d
       | None => false
       end
       && wanted_device vendors kinds minimum_memory_mb d
       && (include_unavailable || inb (GPUDevice.health d) (accepted_health runtime_type)))
       (rows (Db.gpu_devices db))).

Definition list_healthy_inventory_devices (vendors : list AcceleratorVendor) (kinds : list AcceleratorKind)
    (minimum_memory_mb : Z) (runtime_type : option RuntimeType) (include_unavailable : bool)
  : Sess (list Device) :=
  _ ← raise_if (minimum_memory_mb <? 0) (ValueError "minimum_memory_mb must not be negative");
  gets (fun db => omap (inventory_item db runtime_type)
    (inventory_rows db vendors kinds minimum_memory_mb runtime_type include_unavailable)).

(** The row of a locked device, checked again. *)
Definition locked_item (db : Db.t) (runtime_type : RuntimeType) (include_unavailable : bool)
    (device : GPUDevice.t) : option Device :=
  match Db.workers db !! GPUDevice.worker_id device with
  | None => None
  | Some worker =>
      if negb (current_device worker device)
         || negb (inb (RuntimeType_value runtime_type) (runtime_types_of worker))
         || (negb include_unavailable && negb (inb (GPUDevice.health device) (accepted_health (Some runtime_type))))
      then None
      else device_snapshot_of device worker <$> kubernetes_node device worker
  end.

Definition lock_inventory_canonical (vendors : list AcceleratorVendor) (kinds : list AcceleratorKind)
    (runtime_type : RuntimeType) (minimum_memory_mb : Z) (include_unavailable : bool) : Sess (list Device) :=
  _ ← raise_if (minimum_memory_mb <? 0) (ValueError "minimum_memory_mb must not be negative");
  if bool_decide (vendors = []) || bool_decide (kinds = []) then mret []
  else
    discovery ← list_healthy_inventory_devices vendors kinds minimum_memory_mb (Some runtime_type) include_unavailable;
    let candidate_worker_ids := InventoryDeviceSnapshot.worker_id <$> discovery in
    gets (fun db => omap (locked_item db runtime_type include_unavailable)
      (py_sort (fun d => (GPUDevice.worker_id d, (GPUDevice.device_uuid d, GPUDevice.id d)))
         (List.filter (fun d => inb (GPUDevice.worker_id d) candidate_worker_ids
                                && wanted_device vendors kinds minimum_memory_mb d) (rows (Db.gpu_devices db))))).

(** ** What is already promised *)
Definition deferred_reservation (vendors : gset AcceleratorVendor) (r : ResourceReservation.t) : bool :=
  is_none (ResourceReservation.released_at r)
  && (ResourceReservation.allocation_authority r == KUBERNETES_DEVICE_PLUGIN)
  && match ResourceReservation.requested_vendor r with
     | Some v => bool_decide (v ∈ vendors)
     | None => false
     end.

Definition reservation_total (db : Db.t) (r : ResourceReservation.t) : option _DeferredReservationTotal.t :=
  match Db.workers db !! ResourceReservation.worker_id r, Db.tasks db !! ResourceReservation.task_id r,
        ResourceReservation.requested_vendor r with
  | Some worker, Some task, Some vendor =>
      Some (_DeferredReservationTotal.mk (ResourceReservation.worker_id r) (AcceleratorVendor_value vendor)
        (ResourceReservation.requested_profile_id r) (ResourceReservation.requested_profile_version r)
        (ResourceReservation.requested_profile_digest r) (ResourceReservation.gpu_count r)
        (match Task.kubernetes_node_name task with Some n => Some n | None => Worker.node_name worker end)
        (ResourceReservation.observed_device_ids_json r)
        (ResourceReservation.worker_session_id r == Worker.worker_session_id worker))
  | _, _, _ => None
  end.

Definition deferred_totals (db : Db.t) (vendors : gset AcceleratorVendor) : list _DeferredReservationTotal.t :=
  omap (reservation_total db)
    (py_sort (fun r => (ResourceReservation.worker_id r, ResourceReservation.id r))
       (List.filter (deferred_reservation vendors) (rows (Db.reservations db)))).

Definition _active_deferred_accelerators (catalog : Catalog) (node_owners : dict string string)
    (vendors : gset AcceleratorVendor) : Sess _DeferredAcceleratorUsage.t :=
  if bool_decide (node_owners = []) || bool_decide (vendors = ∅) then mret _DeferredAcceleratorUsage.none
  else gets (fun db => _classify_deferred_accelerators (deferred_totals db vendors) catalog (Some node_owners)).

Definition uses_accelerators (s : Svc) : bool :=
  (ModelService.runtime_type s == KUBERNETES)
  && ((0 <? ModelService.gpu_count s) || negb (is_none (ModelService.selected_vendor s))).

Definition accelerators_per_replica (s : Svc) : Z :=
  Z.max (ModelService.gpu_count s) (ModelService.tensor_parallel_size s).

Definition MATERIALIZED_STATUSES : list ReplicaStatus.t :=
  [ReplicaStatus.PENDING; ReplicaStatus.STARTING; ReplicaStatus.LOADING; ReplicaStatus.RUNNING].

(** The replicas of the first query with their services. *)
Definition committed_replicas (db : Db.t) (exclude_service_id : option N) : list (Rep * Svc) :=
  omap (fun r =>
    match Db.services db !! ServiceReplica.service_id r with
    | Some s =>
        if uses_accelerators s
           && inb (ServiceReplica.status r)
                (MATERIALIZED_STATUSES ++ [ReplicaStatus.DRAINING; ReplicaStatus.STOPPING])
           && match exclude_service_id with
              | Some i => (ServiceReplica.service_id r !== i)
                          || negb (ServiceReplica.generation r =? ModelService.generation s)
                          || inb (ServiceReplica.status r) [ReplicaStatus.DRAINING; ReplicaStatus.STOPPING]
              | None => true
              end
        then Some (r, s) else None
    | None => None
    end)
    (py_sort (fun r => (ServiceReplica.service_id r, (ServiceReplica.generation r, ServiceReplica.ordinal r)))
       (rows (Db.replicas db))).

Definition replica_commitment (e : Rep * Svc) : Commitment :=
  let '(r, s) := e in
  _service_commitment (ServiceReplica.service_id r) (ServiceReplica.generation r) (ServiceReplica.ordinal r)
    (ServiceReplica.selected_vendor r) (ServiceReplica.selected_model r)
    (ServiceReplica.accelerator_resource_name r) (accelerators_per_replica s)
    (ServiceReplica.eligible_node_names r) (ServiceReplica.assigned_node_name r).

(** [current_materialized] *)
Definition materialized (replicas : list (Rep * Svc)) (s : Svc) : Z :=
  lenZ (List.filter (fun '(r, x) =>
    (ServiceReplica.service_id r == ModelService.id s)
    && (ModelService.generation x =? ModelService.generation s)
    && (ServiceReplica.generation r =? ModelService.generation x)
    && inb (ServiceReplica.status r) MATERIALIZED_STATUSES) replicas).

(** The replicas a service still lacks, with its own snapshot and no node. *)
Definition missing_commitments (replicas : list (Rep * Svc)) (s : Svc) : list Commitment :=
  let present := materialized replicas s in
  let missing := Z.max 0 (ModelService.desired_replicas s - present) in
  (fun ordinal => _service_commitment (ModelService.id s) (ModelService.generation s) ordinal
     (ModelService.selected_vendor s) (ModelService.selected_model s)
     (ModelService.accelerator_resource_name s) (accelerators_per_replica s)
     (ModelService.eligible_node_names s) None) <$> ServiceRepository.zrange present missing.

Definition _active_service_accelerators (db : Db.t) (exclude_service_id : option N) : list Commitment :=
  let replicas := committed_replicas db exclude_service_id in
  let services := py_sort ModelService.id
    (List.filter (fun s => uses_accelerators s && (0 <? ModelService.desired_replicas s)
       && match exclude_service_id with Some i => ModelService.id s !== i | None => true end)
       (rows (Db.services db))) in
  (replica_commitment <$> replicas) ++ concat (missing_commitments replicas <$> services).

Definition active_deferred_accelerators_for_pool (catalog : Catalog) (worker_id : string)
    (vendor : AcceleratorVendor) (resource_name : string) : Sess Z :=
  let normalized_resource := strip resource_name in
  _ ← raise_if (is_empty normalized_resource) (ValueError "resource_name must not be blank");
  worker ← get_worker worker_id;
  match worker with
  | Some worker =>
      match Worker.node_name worker with
      | Some node_name =>
          if negb (kubernetes_dns_subdomain node_name) then mret 0
          else
            usage ← _active_deferred_accelerators catalog [(node_name, worker_id)] {[vendor]};
            mret (_DeferredAcceleratorUsage.for_pool usage worker_id vendor normalized_resource)
      | None => mret 0
      end
  | None => mret 0
  end.

Definition available_batch_accelerators_for_pool (catalog : Catalog) (worker_id node_name : string)
    (vendor : AcceleratorVendor) (kind : AcceleratorKind)
    (model profile_id profile_version profile_digest resource_name : string)
    (minimum_memory_mb : Z) (required_capabilities : gset string) : Sess Z :=
  let normalized_resource := strip resource_name in
  _ ← raise_if (is_empty normalized_resource) (ValueError "resource_name must not be blank");
  match RuntimeProfileCatalog.load_exact catalog profile_id profile_version profile_digest with
  | inl _ => mret 0
  | inr profile =>
      if (RuntimeProfile.vendor profile !== vendor) || (RuntimeProfile.kind profile !== kind)
         || (RuntimeProfile.resource_name profile !== normalized_resource)
      then mret 0
      else
        inventory ← list_healthy_inventory_devices [vendor] [kind] 0 (Some KUBERNETES) true;
        service_usage ← gets (fun db => _active_service_accelerators db None);
        deferred_usage ← _active_deferred_accelerators catalog (_unique_inventory_node_owners inventory) {[vendor]};
        _batch_pool_available_capacity inventory
          (PoolQuery.mk worker_id (Some node_name) vendor kind model profile_id profile_version profile_digest
             normalized_resource required_capabilities (_runtime_profile_capabilities profile) minimum_memory_mb)
          service_usage deferred_usage
  end.

(** ** Events *)
Definition profile_columns (e : AdmissionEvent.t) : list (option string) :=
  [AdmissionEvent.runtime_profile_id e; AdmissionEvent.runtime_profile_version e;
   AdmissionEvent.runtime_profile_digest e].

Definition all_null (l : list (option string)) : bool := forallb is_none l.
Definition none_null (l : list (option string)) : bool := forallb (fun v => negb (is_none v)) l.

(** The check constraints of [admission_events] that the types do not imply;
    the size is that of the text the JSON column stores. *)
Definition event_checks (e : AdmissionEvent.t) : option string :=
  let text := dumps (AdmissionEvent.candidate_summary e) in
  if negb (inb (AdmissionEvent.workload_type e) ["batch_job"; "model_service"]) then Some "workload_type"
  else if is_empty (AdmissionEvent.outcome e) then Some "outcome"
  else if is_empty (AdmissionEvent.reason e) then Some "reason"
  else if negb ((is_none (AdmissionEvent.selected_vendor e) && is_none (AdmissionEvent.selected_kind e)
                 && is_none (AdmissionEvent.selected_model e) && all_null (profile_columns e)
                 && is_none (AdmissionEvent.model_variant_id e) && is_none (AdmissionEvent.allocation_authority e))
                || (negb (is_none (AdmissionEvent.selected_vendor e)) && negb (is_none (AdmissionEvent.selected_kind e))
                    && negb (is_none (AdmissionEvent.selected_model e))
                    && negb (is_none (AdmissionEvent.allocation_authority e))))
  then Some "selected_snapshot"
  else if negb (all_null (profile_columns e) || none_null (profile_columns e)) then Some "selected_profile_snapshot"
  else if negb (is_none (AdmissionEvent.model_variant_id e)) && is_none (AdmissionEvent.runtime_profile_id e)
  then Some "selected_variant_profile"
  else if (AdmissionEvent.allocation_authority e == Some KUBERNETES_DEVICE_PLUGIN)
          && is_none (AdmissionEvent.runtime_profile_id e)
  then Some "selected_profile_authority"
  else if match AdmissionEvent.selected_vendor e with
          | Some v => AdmissionEvent.selected_kind e !== Some (kind_for_vendor v)
          | None => false
          end
  then Some "selected_vendor_kind"
  else if match AdmissionEvent.runtime_profile_digest e with Some d => negb (sha256_digest d) | None => false end
  then Some "profile_digest"
  else if match AdmissionEvent.selected_vendor e with
          | Some v => negb (_policy_allows_vendor (AdmissionEvent.policy e) v)
          | None => false
          end
  then Some "policy_vendor"
  else if 16384 <? slen text then Some "candidate_summary_size"
  else if mentions "concrete_device_ids" text || mentions "device_ids" text || mentions "device_uuid" text
  then Some "candidate_summary_devices"
  else None.

(** Insertion obeys the check constraints and the two foreign keys. *)
Definition insert_event (e : AdmissionEvent.t) : Sess unit :=
  _ ← match event_checks e with Some c => raise (IntegrityError c) | None => mret tt end;
  db ← gets (fun db => db);
  _ ← raise_if (is_none (Db.projects db !! AdmissionEvent.project_id e)) (IntegrityError "fk_admission_events_project_id");
  _ ← raise_if (match AdmissionEvent.model_variant_id e with
                | Some v => is_none (Db.model_variants db !! v)
                | None => false
                end) (IntegrityError "fk_admission_events_model_variant_id");
  modify (fun db => db <| Db.admission_events ::= fun l => l ++ [e] |>).

(** What an event keeps of the selected candidate. *)
Definition selected_variant (c : AdmissionCandidate.t) : Sess (option N) :=
  match AdmissionCandidate.model_variant_id c with
  | None => mret None
  | Some s => match uuid_parse s with
              | Some u => mret (Some u)
              | None => raise (ValueError "badly formed hexadecimal UUID string")
              end
  end.

Definition record_event (project_id : N) (workload_type : string) (workload_id : N)
    (policy : AcceleratorSelectionPolicy) (outcome reason : string) (summary : list JsObject)
    (selected_candidate : option AdmissionCandidate.t) (execution_id : option N) : Sess AdmissionEvent.t :=
  let normalized_reason := strip reason in
  _ ← raise_if (is_empty normalized_reason) (ValueError "admission event reason must not be blank");
  _ ← raise_if (match selected_candidate with
                | Some c => existsb is_none (AdmissionCandidate.profile_values c)
                | None => false
                end) (ValueError "selected admission event requires a complete runtime profile");
  variant ← match selected_candidate with Some c => selected_variant c | None => mret None end;
  now ← database_utcnow;
  let event := AdmissionEvent.mk project_id workload_type workload_id execution_id policy (strip outcome)
    normalized_reason (AdmissionCandidate.vendor <$> selected_candidate) (AdmissionCandidate.kind <$> selected_candidate) (AdmissionCandidate.model <$> selected_candidate)
    (selected_candidate ≫= AdmissionCandidate.runtime_profile_id)
    (selected_candidate ≫= AdmissionCandidate.runtime_profile_version)
    (selected_candidate ≫= AdmissionCandidate.runtime_profile_digest) variant
    (AdmissionCandidate.allocation_authority <$> selected_candidate) (_bounded_summary summary) now in
  _ ← insert_event event;
  mret event.

(** ** Batch tasks *)

(** Construction of a candidate runs its validation. *)
Definition candidate (c : AdmissionCandidate.t) : Sess AdmissionCandidate.t :=
  checked (AdmissionCandidate.post_init c) c.

Definition sorted_vendors (vendors : gset AcceleratorVendor) : list AcceleratorVendor :=
  py_sort AcceleratorVendor_value (elements vendors).
Definition sorted_kinds (kinds : gset AcceleratorKind) : list AcceleratorKind :=
  py_sort AcceleratorKind_value (elements kinds).

(** [set.intersection] of the capabilities of some devices. *)
Definition common (l : list (gset string)) : gset string :=
  match l with [] => ∅ | x :: l' => foldl (fun a b => a ∩ b) x l' end.

Module PoolKey.
Record t := mk {
  worker_id : string;
  node_name : string;
  vendor : AcceleratorVendor;
  kind : AcceleratorKind;
  model : string;
  profile_id : string;
  profile_version : string;
  profile_digest : string;
  resource_name : string;
}.
#[global] Instance eq_dec : EqDecision t.
Proof. solve_decision. Defined.

Definition order (k : t) : list string :=
  [worker_id k; node_name k; AcceleratorVendor_value (vendor k); AcceleratorKind_value (kind k); model k;
   profile_id k; profile_version k; profile_digest k; resource_name k].
End PoolKey.

(** One device and one entry of the manifest. *)
Definition group_device (catalog : Catalog) (request : AdmissionRequest.t) (device : Device)
    (groups : dict PoolKey.t (list Device)) (entry : Entry) : Sess (dict PoolKey.t (list Device)) :=
  let profile_id := RuntimeProfileManifestEntry.profile_id entry in
  let profile_version := RuntimeProfileManifestEntry.profile_version entry in
  let digest := RuntimeProfileManifestEntry.semantic_digest entry in
  binding_id ← runtime_profile_binding_id profile_id profile_version digest;
  if negb (inb binding_id (InventoryDeviceSnapshot.runtime_profile_ids device))
     || (RuntimeProfileManifestEntry.vendor entry !== InventoryDeviceSnapshot.vendor device)
     || (RuntimeProfileManifestEntry.kind entry !== InventoryDeviceSnapshot.kind device)
     || match AdmissionRequest.runtime_profile_id request with Some p => profile_id !== p | None => false end
  then mret groups
  else
    profile ← lift (RuntimeProfileCatalog.load_exact catalog profile_id profile_version digest);
    if InventoryDeviceSnapshot.kubernetes_resource_name device !== Some (RuntimeProfile.resource_name profile)
    then mret groups
    else mret (dpush (PoolKey.mk (InventoryDeviceSnapshot.worker_id device) (InventoryDeviceSnapshot.node_name device)
                        (InventoryDeviceSnapshot.vendor device) (InventoryDeviceSnapshot.kind device)
                        (InventoryDeviceSnapshot.model device) profile_id profile_version digest
                        (RuntimeProfile.resource_name profile)) device groups).

Definition batch_query (request : AdmissionRequest.t) (gpu_memory_mb : Z) (profile : Profile) (key : PoolKey.t) : Query :=
  PoolQuery.mk (PoolKey.worker_id key) (Some (PoolKey.node_name key)) (PoolKey.vendor key) (PoolKey.kind key)
    (PoolKey.model key) (PoolKey.profile_id key) (PoolKey.profile_version key) (PoolKey.profile_digest key)
    (PoolKey.resource_name key) (AdmissionRequest.required_capabilities request)
    (_runtime_profile_capabilities profile) gpu_memory_mb.

Definition batch_candidate_id (index : Z) (key : PoolKey.t) : string :=
  PoolKey.worker_id key +:+ ":" +:+ PoolKey.node_name key +:+ ":" +:+ PoolKey.profile_id key +:+ "@"
  +:+ PoolKey.profile_version key +:+ ":" +:+ PoolKey.model key +:+ ":" +:+ pretty index.

Definition batch_candidate (catalog : Catalog) (quota : ProjectQuota.t * ProjectQuotaState.t)
    (request : AdmissionRequest.t) (gpu_memory_mb : Z) (inventory : list Device)
    (active_services : list Commitment) (active_deferred : _DeferredAcceleratorUsage.t)
    (acc : list AdmissionCandidate.t * dict string (Device * string)) (group : Z * (PoolKey.t * list Device))
  : Sess (list AdmissionCandidate.t * dict string (Device * string)) :=
  let '(index, (key, devices)) := group in
  profile ← lift (RuntimeProfileCatalog.load_exact catalog (PoolKey.profile_id key) (PoolKey.profile_version key)
                    (PoolKey.profile_digest key));
  let query := batch_query request gpu_memory_mb profile key in
  compatible_devices ← _batch_homogeneous_compatible_devices inventory query;
  let candidate_id := batch_candidate_id index key in
  capacity ← _batch_pool_available_capacity inventory query active_services active_deferred;
  c ← candidate (AdmissionCandidate.mk candidate_id (PoolKey.vendor key) (PoolKey.kind key) (PoolKey.model key)
        (Some (PoolKey.profile_id key)) (Some (PoolKey.profile_version key)) (Some (PoolKey.profile_digest key)) None
        KUBERNETES_DEVICE_PLUGIN capacity
        (default (AdmissionRequest.count request) (typed_quota_available quota.1 quota.2 (PoolKey.vendor key))) true
        (common (InventoryDeviceSnapshot.capabilities <$> compatible_devices) ∪ _runtime_profile_capabilities profile)
        true true []);
  first ← match devices with d :: _ => mret d | [] => raise IndexError end;
  mret (acc.1 ++ [c], dset candidate_id (first, PoolKey.resource_name key) acc.2).

(** [enumerate(l)] *)
Definition enumerate {A} (first : Z) (l : list A) : list (Z * A) :=
  imap (fun i x => (first + Z.of_nat i, x)) l.

Definition batch_candidates (catalog : Catalog) (quota : ProjectQuota.t * ProjectQuotaState.t)
    (request : AdmissionRequest.t) (gpu_memory_mb : Z) (inventory candidate_inventory : list Device)
    (active_services : list Commitment) (active_deferred : _DeferredAcceleratorUsage.t)
  : Sess (list AdmissionCandidate.t * dict string (Device * string)) :=
  groups ← foldM candidate_inventory [] (fun groups device =>
    foldM (RuntimeProfileManifest.profiles (RuntimeProfileCatalog.manifest catalog)) groups
      (group_device catalog request device));
  foldM (enumerate 0 (py_sort (fun e => PoolKey.order e.1) groups)) ([], [])
    (batch_candidate catalog quota request gpu_memory_mb inventory active_services active_deferred).

(** The reason and the vendor a rejection is reported with. *)
Definition rejection_of (request : AdmissionRequest.t) (d : AdmissionDecision.t)
    (fallback : AcceleratorVendor -> AdmissionRejectionReason) : Sess (AdmissionRejectionReason * AcceleratorVendor) :=
  reason ← match AdmissionDecision.reason d with
           | Some r => mret r
           | None => v ← first_vendor request; mret (fallback v)
           end;
  vendor ← match AdmissionDecision.rejections d with
           | r :: _ => mret (AdmissionRejection.vendor r)
           | [] => first_vendor request
           end;
  mret (reason, vendor).

Definition chosen (request : AdmissionRequest.t) (candidates : list AdmissionCandidate.t)
    (none : Sess AdmissionDecision.t) : Sess AdmissionDecision.t :=
  if bool_decide (candidates = []) then none
  else lift (match choose_admission request candidates with inl m => inl (ValueError m) | inr d => inr d end).

Definition admit_batch_task (catalog : Catalog) (task : Task.t) (request : AdmissionRequest.t)
    (allowed_worker_ids : option (gset string)) : Sess (AdmissionResult.t BatchAdmissionSnapshot.t) :=
  _ ← raise_if (Task.runtime_type task !== KUBERNETES)
        (ValueError "vendor-aware batch admission requires runtime_type='kubernetes'");
  quota ← get_snapshot (Task.project_id task);
  inventory ← list_healthy_inventory_devices (sorted_vendors (AdmissionRequest.allowed_vendors request))
                (sorted_kinds (AdmissionRequest.allowed_kinds request)) 0 (Some KUBERNETES) true;
  let candidate_inventory := List.filter (fun d => usable_health (InventoryDeviceSnapshot.health d)
    && match allowed_worker_ids with
       | Some ids => bool_decide (InventoryDeviceSnapshot.worker_id d ∈ ids)
       | None => true
       end) inventory in
  active_deferred ← _active_deferred_accelerators catalog (_unique_inventory_node_owners inventory)
                      (AdmissionRequest.allowed_vendors request);
  active_services ← gets (fun db => _active_service_accelerators db None);
  '(candidates, bindings) ← batch_candidates catalog quota request (Task.gpu_memory_mb task) inventory
                              candidate_inventory active_services active_deferred;
  decision ← chosen request candidates (_missing_pool_decision request);
  let summary := candidate_summary candidates decision in
  match AdmissionDecision.selected_candidate decision with
  | None =>
      '(reason, rejected_vendor) ← rejection_of request decision _profile_reason;
      _ ← record_event (Task.project_id task) "batch_job" (Task.id task)
            (AdmissionRequest.selection_policy request) "rejected" (AdmissionRejectionReason_value reason)
            summary None None;
      mret (AdmissionResult.mk None (Some reason) (Some rejected_vendor) summary)
  | Some selected =>
      binding ← match dget bindings (AdmissionCandidate.candidate_id selected) with
                | Some b => mret b
                | None => raise KeyError
                end;
      let '(device, resource_name) := binding in
      _ ← record_event (Task.project_id task) "batch_job" (Task.id task)
            (AdmissionRequest.selection_policy request) "admitted" "admitted" summary (Some selected) None;
      match AdmissionCandidate.profile_values selected with
      | [Some profile_id; Some profile_version; Some profile_digest] =>
          mret (AdmissionResult.mk
            (Some (BatchAdmissionSnapshot.mk (InventoryDeviceSnapshot.worker_id device)
               (InventoryDeviceSnapshot.worker_session_id device) (AdmissionCandidate.vendor selected)
               (AdmissionCandidate.kind selected) (AdmissionCandidate.model selected) profile_id profile_version
               profile_digest (AdmissionCandidate.allocation_authority selected) resource_name
               (AdmissionRequest.selection_policy request) (InventoryDeviceSnapshot.node_name device)))
            None None summary)
      | _ => raise AssertionError
      end
  end.

(** ** Services of logical models *)
Module _ServiceCandidateBinding.
Record t := mk {
  variant : Variant;
  resource_name : option string;
  eligible_node_names : list string;
}.
End _ServiceCandidateBinding.
Notation Binding := _ServiceCandidateBinding.t.
Notation ServiceCandidates := (list AdmissionCandidate.t * dict string Binding)%type (only parsing).

Section service_candidates.
Context (inventory : list Device) (catalog : Catalog) (quota : ProjectQuota.t * ProjectQuotaState.t)
  (request : AdmissionRequest.t) (desired_replicas : Z) (requested_dtype : string)
  (service_usage : list Commitment) (deferred_usage : _DeferredAcceleratorUsage.t)
  (quota_credit minimum_memory_mb : Z).

Definition zero_replica_commitment : bool := desired_replicas =? 0.
Definition commitment_divisor : Z := Z.max 1 desired_replicas.

(** What the catalog says of a variant: the manifest entry, the profile and its
    binding, as far as they could be resolved. *)
Definition variant_profile (v : Variant) : Sess (option Entry * option (Profile * string)) :=
  let profile_id := ModelVariant.runtime_profile_id v in
  let profile_version := ModelVariant.runtime_profile_version v in
  let digest := ModelVariant.runtime_profile_digest v in
  match RuntimeProfileCatalog.resolve_compatible catalog profile_id profile_version digest
          (ModelVariant.vendor v) (ModelVariant.kind v) (ModelVariant.architecture v) (ModelVariant.dtype v) with
  | inl _ => mret (None, None)
  | inr entry =>
      match RuntimeProfileCatalog.load_exact catalog profile_id profile_version digest with
      | inl _ => mret (Some entry, None)
      | inr profile =>
          binding ← runtime_profile_binding_id profile_id profile_version digest;
          mret (Some entry, Some (profile, binding))
      end
  end.

Section variant.
Context (v : Variant) (entry : option Entry) (resolved : option (Profile * string)).

Definition variant_ready : bool :=
  ((requested_dtype == "auto") || (requested_dtype == ModelVariant.dtype v))
  && (slen (ModelVariant.artifact_source v) <=? 512).

Definition relevant (d : Device) : bool :=
  (InventoryDeviceSnapshot.vendor d == ModelVariant.vendor v)
  && (InventoryDeviceSnapshot.kind d == ModelVariant.kind v).

Definition effective_capabilities (d : Device) : gset string :=
  InventoryDeviceSnapshot.capabilities d
  ∪ match resolved with Some (profile, _) => _runtime_profile_capabilities profile | None => ∅ end.

Definition bound (d : Device) : bool :=
  match resolved with Some (_, binding) => inb binding (InventoryDeviceSnapshot.runtime_profile_ids d) | None => false end.

Definition profiled (d : Device) : bool :=
  relevant d
  && (usable_health (InventoryDeviceSnapshot.health d)
      || (zero_replica_commitment && (InventoryDeviceSnapshot.health d == "externally-allocated")))
  && bound d
  && match resolved with
     | Some (profile, _) => InventoryDeviceSnapshot.kubernetes_resource_name d == Some (RuntimeProfile.resource_name profile)
     | None => false
     end
  && bool_decide (AdmissionRequest.required_capabilities request ⊆ effective_capabilities d).

Definition service_groups : dict (string * string) (list Device) :=
  foldl (fun groups d => dpush (InventoryDeviceSnapshot.model d,
                                default "" (InventoryDeviceSnapshot.kubernetes_resource_name d)) d groups)
    [] (List.filter profiled inventory).

Definition available_quota : Z :=
  match typed_quota_available quota.1 quota.2 (ModelVariant.vendor v) with
  | Some finite_quota =>
      if zero_replica_commitment then AdmissionRequest.count request
      else (finite_quota + quota_credit) / commitment_divisor
  | None => AdmissionRequest.count request
  end.

Definition service_compatible (model : string) (d : Device) : bool :=
  relevant d && (InventoryDeviceSnapshot.model d == model)
  && (minimum_memory_mb <=? InventoryDeviceSnapshot.memory_total_mb d) && bound d
  && bool_decide (AdmissionRequest.required_capabilities request ⊆ effective_capabilities d).

(** The nodes on which the whole pool is compatible, without those that more
    than one worker claims. *)
Definition compatible_node_keys (model resource_name : string) (devices : list Device) : list NodeKey :=
  let keys := List.filter (fun key =>
    let pool_devices := node_pool inventory resource_name key in
    negb (bool_decide (pool_devices = [])) && forallb (service_compatible model) pool_devices)
    (remove_dups (node_key <$> devices)) in
  List.filter (fun key => lenZ (List.filter (fun k => k.2 == key.2) keys) =? 1) keys.

(** What each compatible node has left after the plan. *)
Definition available_by_node (resource_name : string) (remaining : option (dict NodeKey Z)) (compatible : list Device)
  : dict NodeKey Z :=
  (fun '(key, compatible_count) =>
     (key, Z.max 0 (compatible_count
                    - (lenZ (List.filter (fun d => (node_key d == key)
                               && in_pool (ModelVariant.vendor v) resource_name d) inventory)
                       - match remaining with Some remaining => dcount remaining key | None => 0 end))))
  <$> tally_by node_key compatible.

Definition replica_slots (available : dict NodeKey Z) : Z :=
  foldr (fun e acc => e.2 / AdmissionRequest.count request + acc) 0 available.

Definition new_candidate (candidate_id model : string) (capacity : Z) (capabilities : gset string)
    (profile_ready : bool) : Sess AdmissionCandidate.t :=
  candidate (AdmissionCandidate.mk candidate_id (ModelVariant.vendor v) (ModelVariant.kind v) model
    (Some (ModelVariant.runtime_profile_id v)) (Some (ModelVariant.runtime_profile_version v))
    (Some (ModelVariant.runtime_profile_digest v)) (Some (uuid_str (ModelVariant.id v)))
    KUBERNETES_DEVICE_PLUGIN capacity available_quota true capabilities profile_ready variant_ready []).

Definition group_candidate (acc : ServiceCandidates) (group : Z * ((string * string) * list Device))
  : Sess ServiceCandidates :=
  let '(index, ((model, resource_name), devices)) := group in
  let candidate_id := uuid_str (ModelVariant.id v) +:+ ":" +:+ pretty index in
  let keys := compatible_node_keys model resource_name devices in
  let compatible_devices := List.filter (fun d => inb (node_key d) keys) devices in
  remaining ← _plan_physical_pool_remaining inventory (ModelVariant.vendor v) model resource_name service_usage
                deferred_usage;
  let slots := replica_slots (available_by_node resource_name remaining compatible_devices) in
  let capabilities :=
    if bool_decide (compatible_devices = []) then AdmissionRequest.required_capabilities request
    else common (effective_capabilities <$> compatible_devices) in
  c ← new_candidate candidate_id model
        (if zero_replica_commitment && negb (bool_decide (keys = [])) then AdmissionRequest.count request
         else (slots * AdmissionRequest.count request) / commitment_divisor)
        capabilities (negb (is_none entry));
  mret (acc.1 ++ [c],
        dset candidate_id (_ServiceCandidateBinding.mk v (Some resource_name)
                             (py_sort (fun s => s) (remove_dups keys.*2))) acc.2).

Definition variant_candidates (acc : ServiceCandidates) : Sess ServiceCandidates :=
  let groups := service_groups in
  acc ← foldM (enumerate 1 (py_sort fst groups)) acc group_candidate;
  if negb (bool_decide (groups = [])) then mret acc
  else
    let candidate_id := uuid_str (ModelVariant.id v) +:+ ":unavailable" in
    let model := match py_sort (fun s => s) (elements (AdmissionRequest.allowed_models request)) with
                 | m :: _ => m
                 | [] => "unavailable"
                 end in
    c ← new_candidate candidate_id model 0 (AdmissionRequest.required_capabilities request)
          (negb (is_none entry) && bool_decide (List.filter relevant inventory = []));
    mret (acc.1 ++ [c], dset candidate_id (_ServiceCandidateBinding.mk v None []) acc.2).
End variant.

Definition _service_candidates (variants : list Variant) : Sess ServiceCandidates :=
  _ ← raise_if (quota_credit <? 0) (ValueError "quota_credit must not be negative");
  foldM variants ([], []) (fun acc v =>
    '(entry, resolved) ← variant_profile v;
    variant_candidates v entry resolved acc).
End service_candidates.

Definition ServiceResult : Type := AdmissionResult.t ServiceAdmissionSnapshot.t.

Definition _record_rejected_service_admission (project_id service_id : N) (request : AdmissionRequest.t)
    (candidates : list AdmissionCandidate.t) (d : AdmissionDecision.t) : Sess ServiceResult :=
  '(reason, rejected_vendor) ← rejection_of request d _variant_reason;
  let summary := candidate_summary candidates d in
  _ ← record_event project_id "model_service" service_id (AdmissionRequest.selection_policy request) "rejected"
        (AdmissionRejectionReason_value reason) summary None None;
  mret (AdmissionResult.mk None (Some reason) (Some rejected_vendor) summary).

(** [get_locked], or [initialize] for a project without a quota. *)
Definition locked_quota (project_id : N) : Sess (ProjectQuota.t * ProjectQuotaState.t) :=
  try_except (get_locked project_id)
    (fun e => match e with QuotaNotFoundError _ => Some (initialize project_id) | _ => None end).

Definition revalidated (project_id logical_model_id : N) (v : Variant) : Sess (option Variant) :=
  gets (fun db => ModelVariantRepository.revalidate_ready_for_reservation db project_id logical_model_id
    (ModelVariant.id v) (ModelVariant.vendor v) (ModelVariant.kind v) (ModelVariant.runtime_profile_id v)
    (ModelVariant.runtime_profile_version v) (ModelVariant.artifact_digest v) (ModelVariant.runtime_profile_digest v)).

Definition service_snapshot (logical_model_id : N) (vendor : AcceleratorVendor) (kind : AcceleratorKind)
    (selected : AdmissionCandidate.t) (policy : AcceleratorSelectionPolicy) (resource_name : string)
    (v : Variant) (nodes : list string) : ServiceAdmissionSnapshot.t :=
  ServiceAdmissionSnapshot.mk logical_model_id (ModelVariant.id v) vendor kind (AdmissionCandidate.model selected)
    (ModelVariant.runtime_profile_id v) (ModelVariant.runtime_profile_version v) (ModelVariant.runtime_profile_digest v)
    (AdmissionCandidate.allocation_authority selected) resource_name policy (ModelVariant.artifact_source v)
    (ModelVariant.artifact_revision v) (ModelVariant.artifact_digest v) (ModelVariant.dtype v) nodes.

Definition find_binding (bindings : dict string Binding) (selected : AdmissionCandidate.t) : Sess Binding :=
  match dget bindings (AdmissionCandidate.candidate_id selected) with Some b => mret b | None => raise KeyError end.

Definition admit_logical_model_service (catalog : Catalog) (project_id service_id logical_model_id : N)
    (request : AdmissionRequest.t) (minimum_memory_mb desired_replicas : Z) (requested_dtype : string)
  : Sess ServiceResult :=
  _ ← raise_if (desired_replicas <? 0) (ValueError "desired_replicas must not be negative");
  _ ← lock_gateway_model_namespace project_id;
  quota ← locked_quota project_id;
  let vendors := sorted_vendors (AdmissionRequest.allowed_vendors request) in
  let kinds := sorted_kinds (AdmissionRequest.allowed_kinds request) in
  variants ← ModelVariantRepository.list_ready_candidates project_id logical_model_id vendors kinds
               (AdmissionRequest.runtime_profile_id request);
  inventory ← lock_inventory_canonical vendors kinds KUBERNETES 0 true;
  service_usage ← gets (fun db => _active_service_accelerators db None);
  deferred_usage ← _active_deferred_accelerators catalog (_unique_inventory_node_owners inventory)
                     (AdmissionRequest.allowed_vendors request);
  '(candidates, bindings) ← _service_candidates inventory catalog quota request desired_replicas requested_dtype
                              service_usage deferred_usage 0 minimum_memory_mb variants;
  decision ← chosen request candidates (_missing_variant_decision request);
  match AdmissionDecision.selected_candidate decision with
  | None => _record_rejected_service_admission project_id service_id request candidates decision
  | Some selected =>
      binding ← find_binding bindings selected;
      locked_variant ← revalidated project_id logical_model_id (_ServiceCandidateBinding.variant binding);
      match locked_variant, _ServiceCandidateBinding.resource_name binding with
      | Some v, Some resource_name =>
          let summary := candidate_summary candidates decision in
          _ ← record_event project_id "model_service" service_id (AdmissionRequest.selection_policy request)
                "admitted" "admitted" summary (Some selected) None;
          mret (AdmissionResult.mk
            (Some (service_snapshot logical_model_id (ModelVariant.vendor v) (ModelVariant.kind v) selected
                     (AdmissionRequest.selection_policy request) resource_name v
                     (_ServiceCandidateBinding.eligible_node_names binding)))
            None None summary)
      | _, _ =>
          stale ← AdmissionPlan.decision (AdmissionDecision.mk (AdmissionRequest.count request) None []
                    (AdmissionRejection.mk (AdmissionCandidate.candidate_id selected) (AdmissionCandidate.vendor selected)
                       (_variant_reason (AdmissionCandidate.vendor selected)) :: AdmissionDecision.rejections decision));
          _record_rejected_service_admission project_id service_id request candidates stale
      end
  end.

(** ** Scaling a service up *)
Definition _service_variant_snapshot_matches (service : Svc) (v : option Variant) (vendor : AcceleratorVendor)
    (kind : AcceleratorKind) : bool :=
  match v with
  | None => false
  | Some v =>
      (Some (ModelVariant.id v) == ModelService.model_variant_id service)
      && (Some (ModelVariant.logical_model_id v) == ModelService.logical_model_id service)
      && (ModelVariant.vendor v == vendor) && (ModelVariant.kind v == kind)
      && (Some (ModelVariant.runtime_profile_id v) == ModelService.runtime_profile_id service)
      && (Some (ModelVariant.runtime_profile_version v) == ModelService.runtime_profile_version service)
      && (Some (ModelVariant.runtime_profile_digest v) == ModelService.runtime_profile_digest service)
      && (ModelVariant.artifact_source v == ModelService.model service)
      && (Some (ModelVariant.artifact_revision v) == ModelService.model_revision service)
      && (ModelVariant.dtype v == ModelService.dtype service)
  end.

Definition _record_invalid_service_snapshot (service : Svc) (vendor : option AcceleratorVendor)
    (policy : option AcceleratorSelectionPolicy) : Sess ServiceResult :=
  let reason := _variant_reason <$> vendor in
  let reason_value := match reason with
                      | Some r => AdmissionRejectionReason_value r
                      | None => "invalid_service_admission_snapshot"
                      end in
  let summary := [[("candidate_id", Js.Str "stale-service-admission-snapshot"); ("reason", Js.Str reason_value)]] in
  _ ← record_event (ModelService.project_id service) "model_service" (ModelService.id service)
        (default ANY policy) "rejected" reason_value summary None None;
  mret (AdmissionResult.mk None reason vendor summary).

(** A text column that is set and not blank. *)
Definition present (s : option string) : bool := match s with Some s => negb (is_empty (strip s)) | None => false end.

(** The admission snapshot of a service, when it is complete. *)
Definition scale_snapshot (s : Svc)
  : option (N * N * AcceleratorVendor * AcceleratorKind * string * (string * string * string) * AcceleratorSelectionPolicy) :=
  match ModelService.logical_model_id s, ModelService.model_variant_id s, ModelService.selected_vendor s,
        ModelService.selected_kind s, ModelService.selected_model s, ModelService.runtime_profile_id s,
        ModelService.runtime_profile_version s, ModelService.runtime_profile_digest s, ModelService.selection_policy s with
  | Some model_id, Some variant_id, Some vendor, Some kind, Some model, Some i, Some v, Some d, Some policy =>
      if (kind !== kind_for_vendor vendor) || is_empty (strip model) || is_empty (strip i) || is_empty (strip v)
         || is_empty (strip d) || negb (present (ModelService.accelerator_resource_name s))
         || (ModelService.runtime_type s !== KUBERNETES)
         || negb ((1 <=? ModelService.gpu_count s) && (ModelService.gpu_count s <=? 64))
         || negb (ModelService.tensor_parallel_size s =? ModelService.gpu_count s)
         || (ModelService.allocation_authority s !== Some KUBERNETES_DEVICE_PLUGIN)
      then None
      else Some (model_id, variant_id, vendor, kind, model, (i, v, d), policy)
  | _, _, _, _, _, _, _, _, _ => None
  end.

Definition scale_vendors (vendor : AcceleratorVendor) (policy : AcceleratorSelectionPolicy) : gset AcceleratorVendor :=
  match policy with
  | PREFER_NVIDIA => {[vendor; NVIDIA]}
  | PREFER_ASCEND => {[vendor; HUAWEI_ASCEND]}
  | _ => {[vendor]}
  end.

(** The selected candidate is the one the service was admitted with. *)
Definition still_selected (s : Svc) (vendor : AcceleratorVendor) (kind : AcceleratorKind)
    (selected : AdmissionCandidate.t) (binding : Binding) : bool :=
  (AdmissionCandidate.vendor selected == vendor) && (AdmissionCandidate.kind selected == kind)
  && (Some (AdmissionCandidate.model selected) == ModelService.selected_model s)
  && (AdmissionCandidate.runtime_profile_id selected == ModelService.runtime_profile_id s)
  && (AdmissionCandidate.runtime_profile_version selected == ModelService.runtime_profile_version s)
  && (AdmissionCandidate.runtime_profile_digest selected == ModelService.runtime_profile_digest s)
  && (AdmissionCandidate.model_variant_id selected == (uuid_str <$> ModelService.model_variant_id s))
  && (AdmissionCandidate.allocation_authority selected == KUBERNETES_DEVICE_PLUGIN)
  && (_ServiceCandidateBinding.resource_name binding == ModelService.accelerator_resource_name s).

Definition revalidate_logical_model_service_scale (catalog : Catalog) (service : Svc) (desired_replicas : Z)
  : Sess ServiceResult :=
  _ ← raise_if (desired_replicas <=? ModelService.desired_replicas service)
        (ValueError "service scale revalidation requires a positive replica delta");
  let project_id := ModelService.project_id service in
  match scale_snapshot service with
  | None => _record_invalid_service_snapshot service (ModelService.selected_vendor service)
              (ModelService.selection_policy service)
  | Some (logical_model_id, variant_id, vendor, kind, model, (profile_id, profile_version, profile_digest), policy) =>
      let allowed_vendors := scale_vendors vendor policy in
      let request := AdmissionRequest.mk (ModelService.gpu_count service) allowed_vendors
        (set_map kind_for_vendor allowed_vendors) {[model]} ∅ (Some profile_id) (Some profile_version)
        (Some profile_digest) (Some (uuid_str variant_id)) policy in
      request ← checked (AdmissionRequest.post_init request) request;
      let rejected candidates d :=
        _record_rejected_service_admission project_id (ModelService.id service) request candidates d in
      let single candidates reason candidate_id :=
        d ← _single_service_rejection request vendor reason candidate_id; rejected candidates d in
      variant ← ModelVariantRepository.get project_id logical_model_id variant_id;
      match variant with
      | Some v =>
          if negb (_service_variant_snapshot_matches service (Some v) vendor kind)
          then single [] (_variant_reason vendor) "stale-service-admission-snapshot"
          else
            quota ← locked_quota project_id;
            inventory ← lock_inventory_canonical [vendor] [kind] KUBERNETES 0 true;
            service_usage ← gets (fun db => _active_service_accelerators db (Some (ModelService.id service)));
            deferred_usage ← _active_deferred_accelerators catalog (_unique_inventory_node_owners inventory) {[vendor]};
            '(candidates, bindings) ← _service_candidates inventory catalog quota request desired_replicas
                (ModelService.dtype service) service_usage deferred_usage
                (ModelService.gpu_count service * ModelService.desired_replicas service)
                (ModelService.gpu_memory_mb service) [v];
            decision ← chosen request candidates (_missing_variant_decision request);
            match AdmissionDecision.selected_candidate decision with
            | None => rejected candidates decision
            | Some selected =>
                binding ← find_binding bindings selected;
                locked_variant ← revalidated project_id logical_model_id v;
                match locked_variant with
                | Some locked =>
                    if negb (_service_variant_snapshot_matches service (Some locked) vendor kind)
                    then single candidates (_variant_reason vendor) (AdmissionCandidate.candidate_id selected)
                    else if negb (still_selected service vendor kind selected binding)
                    then single candidates (_profile_reason vendor) (AdmissionCandidate.candidate_id selected)
                    else
                      let summary := candidate_summary candidates decision in
                      _ ← record_event project_id "model_service" (ModelService.id service) policy "admitted"
                            "scale_up_admitted" summary (Some selected) None;
                      mret (AdmissionResult.mk
                        (Some (service_snapshot logical_model_id vendor kind selected policy
                                 (default "" (ModelService.accelerator_resource_name service)) locked
                                 (_ServiceCandidateBinding.eligible_node_names binding)))
                        None None summary)
                | None => single candidates (_variant_reason vendor) (AdmissionCandidate.candidate_id selected)
                end
            end
      | None => single [] (_variant_reason vendor) "stale-service-admission-snapshot"
      end
  end.
