(* ===== verification/AdmissionFrames.v ===== *)
(** * What admission writes

    Admission reads the inventory, the promises and the catalog, and writes
    only an event and, for a service, the quota rows of its project.  Stated
    for any preorder that allows these writes, so that each invariant inherits
    it through [frames]. *)

From S2P Require Import Prelude PyString PyUrl PyFloat Enums PyDict PyJson Store Frames Names Quotas Tasks.
From S2P Require Import VendorAdmission Services ModelRegistry RuntimeProfiles AdmissionPlan Admission.

(** ** Reads *)
Section reads.
Context (R : relation Db.t) `{!PreOrder R}.

Lemma frames_plan inventory vendor model resource commitments deferred :
  frames R (_plan_physical_pool_remaining inventory vendor model resource commitments deferred).
Proof. frame_by fail. Qed.

Lemma frames_binding i v d : frames R (runtime_profile_binding_id i v d).
Proof. frame_by fail. Qed.

Lemma frames_inventory vendors kinds memory runtime unavailable :
  frames R (list_healthy_inventory_devices vendors kinds memory runtime unavailable).
Proof. frame_by fail. Qed.

Lemma frames_locked_inventory vendors kinds runtime memory unavailable :
  frames R (lock_inventory_canonical vendors kinds runtime memory unavailable).
Proof. frame_by fail. Qed.

Lemma frames_deferred catalog owners vendors : frames R (_active_deferred_accelerators catalog owners vendors).
Proof. frame_by fail. Qed.
End reads.
#[export] Hint Resolve frames_plan frames_binding frames_inventory frames_locked_inventory frames_deferred : frames.

Section capacity.
Context (R : relation Db.t) `{!PreOrder R}.

Lemma frames_compatible inventory q : frames R (_batch_homogeneous_compatible_devices inventory q).
Proof. frame_by fail. Qed.

Lemma frames_capacity inventory q commitments deferred :
  frames R (_batch_pool_available_capacity inventory q commitments deferred).
Proof. unfold _batch_pool_available_capacity. pose proof frames_compatible. frame_by fail. Qed.

Lemma frames_available catalog w n v k m i pv pd r mem caps :
  frames R (available_batch_accelerators_for_pool catalog w n v k m i pv pd r mem caps).
Proof. unfold available_batch_accelerators_for_pool. pose proof frames_capacity. frame_by fail. Qed.

Lemma frames_batch_candidates catalog quota request memory inventory candidates services deferred :
  frames R (batch_candidates catalog quota request memory inventory candidates services deferred).
Proof. pose proof frames_capacity. pose proof frames_compatible. frame_by fail. Qed.

Lemma frames_service_candidates inventory catalog quota request desired dtype services deferred credit memory variants :
  frames R (_service_candidates inventory catalog quota request desired dtype services deferred credit memory variants).
Proof. frame_by fail. Qed.

Lemma frames_chosen request candidates none : frames R none -> frames R (chosen request candidates none).
Proof. intros H. unfold chosen. case_match; [done|]. frame_by fail. Qed.

Lemma frames_missing_pool request : frames R (_missing_pool_decision request).
Proof. frame_by fail. Qed.
Lemma frames_missing_variant request : frames R (_missing_variant_decision request).
Proof. frame_by fail. Qed.
Lemma frames_single request vendor reason candidate_id :
  frames R (_single_service_rejection request vendor reason candidate_id).
Proof. frame_by fail. Qed.
Lemma frames_rejection_of request d fallback : frames R (rejection_of request d fallback).
Proof. frame_by fail. Qed.
Lemma frames_ready_candidates p l vs ks r : frames R (ModelVariantRepository.list_ready_candidates p l vs ks r).
Proof. frame_by fail. Qed.
Lemma frames_get_snapshot p : frames R (get_snapshot p).
Proof. frame_by fail. Qed.
End capacity.
#[export] Hint Resolve frames_available frames_batch_candidates frames_service_candidates frames_chosen
  frames_missing_pool frames_missing_variant frames_single frames_rejection_of frames_ready_candidates
  frames_get_snapshot : frames.

(** ** Writes *)
Section writes.
Context (R : relation Db.t) `{!PreOrder R}
  (R_event : forall db e, R db (db <| Db.admission_events ::= fun l => l ++ [e] |>)).

Lemma frames_record_event p t w policy outcome reason summary c e :
  frames R (record_event p t w policy outcome reason summary c e).
Proof. frame_by ltac:(apply R_event). Qed.

Lemma frames_admit_batch catalog task request workers : frames R (admit_batch_task catalog task request workers).
Proof. pose proof frames_record_event. unfold admit_batch_task. frame_by fail. Qed.

Context (R_quota : forall p, frames R (locked_quota p)).

Lemma frames_rejected p i request candidates d :
  frames R (_record_rejected_service_admission p i request candidates d).
Proof. pose proof frames_record_event. frame_by fail. Qed.

Lemma frames_admit_service catalog p i l request memory desired dtype :
  frames R (admit_logical_model_service catalog p i l request memory desired dtype).
Proof. pose proof frames_record_event. pose proof frames_rejected. unfold admit_logical_model_service. frame_by fail. Qed.

Lemma frames_revalidate catalog s desired : frames R (revalidate_logical_model_service_scale catalog s desired).
Proof.
  pose proof frames_record_event. pose proof frames_rejected. unfold revalidate_logical_model_service_scale. frame_by fail.
Qed.
End writes.
