(* ===== verification/PoolAccounting.v ===== *)
(** * The accounts of an accelerator pool

    What the planner of [AdmissionPlan] guarantees.  A node's devices behind
    one resource are promised to deferred reservations ([charged_at]) and to
    replicas of services ([committed_at]).  Both count whatever is not known to
    be elsewhere: a reservation that cannot be located, a replica that has no
    node yet and may come to this one, or one whose snapshot is incomplete.
    The planner's answer leaves on every node what is neither, and the capacity
    offered to a batch task is never more than the usable devices less the
    promises. *)

From S2P Require Import Prelude PyString PyUrl PyFloat Enums PyDict PyJson Store Names Quotas Tasks.
From S2P Require Import VendorAdmission ModelRegistry RuntimeProfiles AdmissionPlan.

#[local] Open Scope Z_scope.

Lemma lenZ_cons {A} (x : A) l : lenZ (x :: l) = 1 + lenZ l.
Proof. unfold lenZ. cbn [List.length]. lia. Qed.

Lemma lenZ_filter_mono {A} (p q : A -> bool) l :
  (forall x, x ∈ l -> p x = true -> q x = true) -> lenZ (List.filter p l) <= lenZ (List.filter q l).
Proof.
  induction l as [|x l IH]; intros H; cbn [List.filter]; [done|].
  assert (lenZ (List.filter p l) <= lenZ (List.filter q l)) by (apply IH; intros y Hy; apply H; by right).
  destruct (p x) eqn:E; [rewrite (H x (list_elem_of_here _ _) E); rewrite !lenZ_cons; lia|].
  destruct (q x); rewrite ?lenZ_cons; lia.
Qed.

(** ** Promises *)
Section accounts.
Context (inventory : list Device) (vendor : AcceleratorVendor) (model resource_name : string).

(** What deferred reservations were promised on a node. *)
Definition deferred_at (u : _DeferredAcceleratorUsage.t) (k : NodeKey) : Z :=
  dsum (fun '(worker_id, node_name, v, r) =>
          ((worker_id, node_name) == k) && (v == AcceleratorVendor_value vendor) && (r == resource_name))
    (_DeferredAcceleratorUsage.by_node_resource u).

(** What reservations were promised that cannot be located: they may be on any
    node, or on any node of their worker. *)
Definition unknown_at (u : _DeferredAcceleratorUsage.t) (worker : string) : Z :=
  dcount (_DeferredAcceleratorUsage.unknown_by_vendor_resource u) (AcceleratorVendor_value vendor, resource_name)
  + dcount (_DeferredAcceleratorUsage.unknown_by_vendor u) (AcceleratorVendor_value vendor)
  + dsum (fun '(worker_id, v, r) => (worker_id == worker) && (v == AcceleratorVendor_value vendor) && (r == resource_name))
      (_DeferredAcceleratorUsage.unknown_by_worker_resource u)
  + dsum (fun '(worker_id, v) => (worker_id == worker) && (v == AcceleratorVendor_value vendor))
      (_DeferredAcceleratorUsage.unknown_by_worker_vendor u).

Definition charged_at (u : _DeferredAcceleratorUsage.t) (k : NodeKey) : Z := deferred_at u k + unknown_at u k.1.

(** A replica of a service that holds devices of the pool on the node, or may
    come to hold some: nothing in its snapshot says that its vendor, resource or
    node is another. *)
Definition may_be {A} `{EqDecision A} (x : A) (o : option A) : bool :=
  match o with Some y => y == x | None => true end.

Definition in_resource (c : Commitment) : bool :=
  may_be (AcceleratorVendor_value vendor) (_ServiceReplicaCommitment.vendor c)
  && may_be resource_name (_ServiceReplicaCommitment.resource_name c).

Definition may_run_on (node : string) (c : Commitment) : bool :=
  match _ServiceReplicaCommitment.assigned_node_name c with
  | Some assigned => assigned == node
  | None => match _ServiceReplicaCommitment.eligible_node_names c with
            | Some ((_ :: _) as nodes) => inb node nodes
            | _ => true
            end
  end.

Definition commits (k : NodeKey) (c : Commitment) : bool := in_resource c && may_run_on k.2 c.

Definition committed_at (cs : list Commitment) (k : NodeKey) : Z :=
  zsum (fun c => if commits k c then _ServiceReplicaCommitment.accelerator_count c else 0) cs.

Definition of_model (c : Commitment) : bool := _ServiceReplicaCommitment.model c == Some model.

(** The part of replicas that need the device model of the pool. *)
Definition own_at (cs : list Commitment) (k : NodeKey) : Z :=
  zsum (fun c => if commits k c && of_model c then _ServiceReplicaCommitment.accelerator_count c else 0) cs.

(** The node holds replicas that need another device model. *)
Definition foreign_at (cs : list Commitment) (k : NodeKey) : bool :=
  existsb (fun c => commits k c && negb (of_model c)) cs.

Lemma own_committed cs k : foreign_at cs k = false -> own_at cs k = committed_at cs k.
Proof.
  unfold foreign_at, own_at, committed_at. intros H. apply zsum_ext. intros c Hc.
  destruct (commits k c) eqn:E; [|done]. cbn. destruct (of_model c) eqn:Em; [done|].
  exfalso. apply not_true_iff_false in H. apply H, existsb_exists. exists c. rewrite E, Em. split; [by apply list_elem_of_In|done].
Qed.

(** The plan still stands for what is promised: per node what is left, at least
    nothing, together with the promises is within the devices of the node. *)
Definition accounted (promised : NodeKey -> Z) (remaining : dict NodeKey Z) : Prop :=
  remaining.*1 = (physical inventory vendor model resource_name).*1
  /\ forall k, k ∈ remaining.*1 ->
       0 <= dcount remaining k
       /\ dcount remaining k + promised k <= dcount (physical inventory vendor model resource_name) k.

Lemma accounted_keys_nodup promised remaining : accounted promised remaining -> NoDup remaining.*1.
Proof. intros [-> _]. unfold physical. apply tally_by_nodup. Qed.

Lemma accounted_dset promised promised' remaining k n :
  accounted promised remaining -> k ∈ remaining.*1 -> 0 <= n ->
  n + promised' k <= dcount remaining k + promised k ->
  (forall k', k' ∈ remaining.*1 -> k' ≠ k -> promised' k' <= promised k') ->
  accounted promised' (dset k n remaining).
Proof.
  intros [Hk HA] Hin Hn Hle Hother. assert ((dset k n remaining).*1 = remaining.*1) as EK.
  { rewrite dset_keys. by rewrite (proj2 (inb_true _ _)). }
  split; [congruence|]. rewrite EK. intros k' Hk'. rewrite dcount_dset.
  destruct (k == k') eqn:E; [rewrite eqb_true in E; subst; specialize (HA k' Hk'); lia|].
  rewrite eqb_false in E. specialize (HA k' Hk'). assert (k' ≠ k) as Hne by congruence.
  specialize (Hother k' Hk' Hne). lia.
Qed.

Lemma accounted_weaken promised promised' remaining :
  accounted promised remaining -> (forall k, k ∈ remaining.*1 -> promised' k <= promised k) ->
  accounted promised' remaining.
Proof. intros [Hk HA] H. split; [done|]. intros k Hin. specialize (HA k Hin). specialize (H k Hin). lia. Qed.

(** What one entry of the deferred usage promises on a node. *)
Definition entry_at (k : NodeKey) (e : string * string * string * string * Z) : Z :=
  let '(worker_id, node_name, v, r, n) := e in
  if ((worker_id, node_name) == k) && (v == AcceleratorVendor_value vendor) && (r == resource_name) then n else 0.

Lemma deferred_at_sum u k : deferred_at u k = zsum (entry_at k) (_DeferredAcceleratorUsage.by_node_resource u).
Proof.
  unfold deferred_at, dsum, zsum. induction (_DeferredAcceleratorUsage.by_node_resource u)
    as [|[[[[w n] v] r] c] l IH]; cbn; [done|]. by rewrite IH.
Qed.

Lemma plan_deferred_step promised remaining e db o db' :
  accounted promised remaining ->
  plan_deferred vendor resource_name (Some remaining) e db = (inr o, db') ->
  match o with
  | Some remaining' => accounted (fun k => promised k + entry_at k e) remaining'
  | None => True
  end.
Proof.
  intros HA. destruct e as [[[[w n] v] r] d]. cbn [plan_deferred].
  destruct (v == AcceleratorVendor_value vendor) eqn:Ev; cbn [negb orb].
  2:{ intros [= <- <-]. apply (accounted_weaken _ _ _ HA). intros k _. cbn. rewrite Ev, andb_false_r. cbn. lia. }
  destruct (r == resource_name) eqn:Er; cbn [negb].
  2:{ intros [= <- <-]. apply (accounted_weaken _ _ _ HA). intros k _. cbn. rewrite Er, andb_false_r. lia. }
  destruct (dcount remaining (w, n) <? d) eqn:El; [by intros [= <- <-]|].
  destruct (dget remaining (w, n)) as [c|] eqn:Ec; [|done]. intros [= <- <-].
  assert (dcount remaining (w, n) = c) as Hc by (unfold dcount; by rewrite Ec).
  apply (accounted_dset promised); [done| |lia| |].
  - apply dget_elem in Ec. by apply (list_elem_of_fmap_2 fst) in Ec.
  - cbn. rewrite Ev, Er, eqb_same. cbn. lia.
  - intros k _ Hk. cbn. rewrite (proj2 (eqb_false (w, n) k)) by congruence. cbn. lia.
Qed.

Lemma plan_deferred_none l db : foldM l None (plan_deferred vendor resource_name) db = (inr None, db).
Proof. induction l as [|e l IH]; [done|]. exact IH. Qed.

Lemma plan_deferred_pure o e db r db' : plan_deferred vendor resource_name o e db = (r, db') -> db' = db.
Proof.
  destruct o as [d|]; [|by intros [= _ <-]]. destruct e as [[[[w n] v] s] c]. cbn.
  destruct (_ || _); [by intros [= _ <-]|]. destruct (_ <? _); [by intros [= _ <-]|].
  by destruct (dget d (w, n)); intros [= _ <-].
Qed.

Lemma plan_deferred_all l promised remaining db o db' :
  accounted promised remaining ->
  foldM l (Some remaining) (plan_deferred vendor resource_name) db = (inr o, db') ->
  match o with
  | Some remaining' => accounted (fun k => promised k + zsum (entry_at k) l) remaining'
  | None => True
  end.
Proof.
  revert promised remaining db. induction l as [|e l IH]; intros promised remaining db HA; cbn [foldM].
  { intros [= <- <-]. apply (accounted_weaken _ _ _ HA). intros k _. cbn. lia. }
  intros (o1 & db1 & H1 & H2)%bind_ok. pose proof (plan_deferred_pure _ _ _ _ _ H1) as ->.
  pose proof (plan_deferred_step _ _ _ _ _ _ HA H1) as HS. destruct o1 as [r1|].
  - specialize (IH _ _ _ HS H2). destruct o as [r|]; [|done].
    apply (accounted_weaken _ _ _ IH). intros k _. rewrite zsum_cons. lia.
  - rewrite plan_deferred_none in H2. by injection H2 as <- <-.
Qed.

Lemma commits_outside k c : in_resource c = false -> commits k c = false.
Proof. unfold commits. by intros ->. Qed.

Lemma commits_elsewhere k c : may_run_on k.2 c = false -> commits k c = false.
Proof. unfold commits. intros ->. by rewrite andb_false_r. Qed.

(** A replica the plan goes on without runs on none of its nodes; otherwise it
    is planned to the one node it runs on. *)
Lemma plan_commitment_cases remaining c remaining' :
  plan_commitment vendor model resource_name (Some remaining) c = Some remaining' ->
  (remaining' = remaining /\ forall k, k ∈ remaining.*1 -> commits k c = false)
  \/ (exists key n, remaining' = dset key n remaining /\ key ∈ remaining.*1 /\ commits key c = true
       /\ (forall k, k ∈ remaining.*1 -> k ≠ key -> commits k c = false)
       /\ (if of_model c
           then n = dcount remaining key - _ServiceReplicaCommitment.accelerator_count c
                /\ _ServiceReplicaCommitment.accelerator_count c <= dcount remaining key
           else n = 0)).
Proof.
  unfold plan_commitment. destruct (_ServiceReplicaCommitment.vendor c) as [v|] eqn:Ev; [|done].
  destruct (v == AcceleratorVendor_value vendor) eqn:Ev'; cbn [negb].
  2:{ intros [= <-]. left. split; [done|]. intros k _. apply commits_outside. unfold in_resource. by rewrite Ev; cbn; rewrite Ev'. }
  destruct (_ServiceReplicaCommitment.resource_name c) as [r|] eqn:Er; [|done].
  destruct (r == resource_name) eqn:Er'; cbn [negb].
  2:{ intros [= <-]. left. split; [done|]. intros k _. apply commits_outside. unfold in_resource.
      rewrite Er; cbn; rewrite Er'. by rewrite andb_false_r. }
  destruct (_ServiceReplicaCommitment.eligible_node_names c) as [[|n0 nodes]|] eqn:Eg; [done| |done].
  destruct (_ServiceReplicaCommitment.assigned_node_name c) as [node|] eqn:En.
  2:{ destruct (existsb _ _) eqn:Ex; [done|]. intros [= <-]. left. split; [done|]. intros k Hk. apply commits_elsewhere.
      unfold may_run_on. rewrite En, Eg. apply not_true_iff_false. intros Hin. apply not_true_iff_false in Ex.
      apply Ex, existsb_exists. exists k. split; [by apply list_elem_of_In|done]. }
  destruct (negb _); [done|].
  assert (forall k, commits k c = (k.2 == node)) as Hc.
  { intros k. unfold commits, in_resource, may_run_on. rewrite Ev, Er, En. cbn. rewrite Ev', Er'. cbn.
    apply eq_true_iff_eq. rewrite !eqb_true. naive_solver. }
  assert (forall k, k ∈ List.filter (fun k => k.2 == node) remaining.*1 <-> k ∈ remaining.*1 /\ commits k c = true)
    as Hf by (intros k; rewrite elem_of_lfilter, Hc; done).
  destruct (List.filter (fun k => k.2 == node) remaining.*1) as [|key [|? ?]]; [| |done].
  { intros [= <-]. left. split; [done|]. intros k Hk. apply not_true_iff_false. intros E.
    by apply (not_elem_of_nil k), Hf. }
  intros H. right. exists key. destruct (proj1 (Hf key)) as [Hkey Hcommits]; [by left|].
  assert (forall k, k ∈ remaining.*1 -> k ≠ key -> commits k c = false) as Hother.
  { intros k Hk Hne. apply not_true_iff_false. intros E. apply Hne, list_elem_of_singleton, Hf. done. }
  unfold of_model. revert H. destruct (_ServiceReplicaCommitment.model c == Some model); cbn [negb].
  - destruct (_ <? _) eqn:El; [done|]. intros [= <-]. eexists. split_and!; [done|done|done|done|done|lia].
  - intros [= <-]. eexists. split_and!; done.
Qed.

(** The state of the plan after the replicas [cs]. *)
Definition planned (promised : NodeKey -> Z) (cs : list Commitment) (remaining : dict NodeKey Z) : Prop :=
  accounted (fun k => promised k + own_at cs k) remaining
  /\ forall k, k ∈ remaining.*1 -> foreign_at cs k = true -> dcount remaining k = 0.

Lemma own_at_snoc cs c k :
  own_at (cs ++ [c]) k
  = own_at cs k + (if commits k c && of_model c then _ServiceReplicaCommitment.accelerator_count c else 0).
Proof. unfold own_at. rewrite zsum_app. cbn. lia. Qed.

Lemma foreign_at_snoc cs c k : foreign_at (cs ++ [c]) k = foreign_at cs k || (commits k c && negb (of_model c)).
Proof. unfold foreign_at. rewrite existsb_app. cbn. by rewrite orb_false_r. Qed.

Lemma plan_commitment_step promised cs remaining c remaining' :
  0 <= _ServiceReplicaCommitment.accelerator_count c -> planned promised cs remaining ->
  plan_commitment vendor model resource_name (Some remaining) c = Some remaining' ->
  planned promised (cs ++ [c]) remaining'.
Proof.
  intros Hc0 [HA HF] [[-> Hc]|(key & n & -> & Hkey & Hcommits & Hother & Hn)]%plan_commitment_cases.
  { split.
    - apply (accounted_weaken _ _ _ HA). intros k Hk. rewrite own_at_snoc, (Hc k Hk). cbn. lia.
    - intros k Hk. rewrite foreign_at_snoc, (Hc k Hk), orb_false_r. by apply HF. }
  destruct (proj2 HA key Hkey) as [H0 _]. split.
  - apply (accounted_dset _ _ _ _ _ HA Hkey).
    + destruct (of_model c); lia.
    + rewrite own_at_snoc, Hcommits. cbn. destruct (of_model c); lia.
    + intros k Hk Hne. rewrite own_at_snoc, (Hother k Hk Hne). cbn. lia.
  - intros k Hk. rewrite foreign_at_snoc, dcount_dset. apply elem_dset_keys in Hk.
    destruct (key == k) eqn:Ek.
    + rewrite eqb_true in Ek. subst k. rewrite Hcommits. cbn.
      intros [Hf|Hm%negb_true_iff]%orb_true_iff; [|by rewrite Hm in Hn].
      specialize (HF key Hkey Hf). destruct (of_model c); lia.
    + rewrite eqb_false in Ek. destruct Hk as [->|Hk]; [done|]. rewrite (Hother k Hk) by congruence. cbn.
      rewrite orb_false_r. by apply HF.
Qed.

Lemma plan_commitment_none cs : foldl (plan_commitment vendor model resource_name) None cs = None.
Proof. induction cs as [|c cs IH]; [done|]. exact IH. Qed.

Lemma plan_commitment_all promised cs0 cs remaining remaining' :
  Forall (fun c => 0 <= _ServiceReplicaCommitment.accelerator_count c) cs -> planned promised cs0 remaining ->
  foldl (plan_commitment vendor model resource_name) (Some remaining) cs = Some remaining' ->
  planned promised (cs0 ++ cs) remaining'.
Proof.
  revert cs0 remaining. induction cs as [|c cs IH]; intros cs0 remaining HF HC; cbn [foldl].
  { intros [= <-]. by rewrite app_nil_r. }
  apply Forall_cons in HF as [Hc HF].
  destruct (plan_commitment vendor model resource_name (Some remaining) c) as [r1|] eqn:E;
    [|by rewrite plan_commitment_none].
  intros H. rewrite cons_middle, app_assoc. apply (IH _ r1 HF); [|done]. by apply (plan_commitment_step _ _ remaining).
Qed.

(** A plan is made only if nothing is unknown. *)
Lemma located_unknown u workers worker :
  unlocated vendor resource_name u workers = false -> worker ∈ workers -> unknown_at u worker <= 0.
Proof.
  intros H Hw. unfold unlocated in H. rewrite !orb_false_iff in H. destruct H as [[[H1 H2] H3] H4].
  assert (forall {K} (p : K -> bool) (d : dict K Z), (forall k n, (k, n) ∈ d -> p k = true -> n <= 0) -> dsum p d <= 0) as Hd.
  { intros K p d. unfold dsum. induction d as [|[k n] d IH]; intros H; cbn; [lia|].
    assert (foldr (fun e acc => (if p e.1 then e.2 else 0) + acc) 0 d <= 0) by (apply IH; intros k' n' Hn; apply H; by right).
    destruct (p k) eqn:E; [|lia]. assert (n <= 0) by (eapply H; [left|done]). lia. }
  unfold unknown_at. apply Z.ltb_ge in H1, H2.
  assert (dsum (fun '(worker_id, v, r) => (worker_id == worker) && (v == AcceleratorVendor_value vendor) && (r == resource_name))
      (_DeferredAcceleratorUsage.unknown_by_worker_resource u) <= 0) as H5.
  { apply Hd. intros [[w v] r] n Hin [[Ew Ev]%andb_prop Er]%andb_prop. rewrite eqb_true in Ew. subst w.
    apply Z.nlt_ge. intros Hn. apply not_true_iff_false in H3. apply H3, existsb_exists. eexists. split; [by apply list_elem_of_In|].
    cbn. rewrite Ev, Er, (proj2 (inb_true _ _) Hw), (proj2 (Z.ltb_lt _ _) Hn). done. }
  assert (dsum (fun '(worker_id, v) => (worker_id == worker) && (v == AcceleratorVendor_value vendor))
      (_DeferredAcceleratorUsage.unknown_by_worker_vendor u) <= 0) as H6.
  { apply Hd. intros [w v] n Hin [Ew Ev]%andb_prop. rewrite eqb_true in Ew. subst w.
    apply Z.nlt_ge. intros Hn. apply not_true_iff_false in H4. apply H4, existsb_exists. eexists. split; [by apply list_elem_of_In|].
    cbn. rewrite Ev, (proj2 (inb_true _ _) Hw), (proj2 (Z.ltb_lt _ _) Hn). done. }
  lia.
Qed.

Lemma physical_keys k :
  k ∈ (physical inventory vendor model resource_name).*1 ->
  k ∈ candidate_node_keys inventory vendor model resource_name.
Proof.
  unfold physical. rewrite tally_by_keys. intros (d & -> & Hd)%list_elem_of_fmap.
  apply elem_of_lfilter in Hd as [_ Hd]. apply andb_prop in Hd as [_ Hd]. by rewrite inb_true in Hd.
Qed.

Lemma plan_pure cs u db o db' :
  _plan_physical_pool_remaining inventory vendor model resource_name cs u db = (inr o, db') -> db' = db.
Proof.
  unfold _plan_physical_pool_remaining. destruct (existsb _ _); [by intros [= _ <-]|].
  destruct (unlocated _ _ _ _); [by intros [= _ <-]|]. intros (o1 & db1 & H1 & H2)%bind_ok. injection H2 as _ <-.
  refine (foldM_inv (fun _ s => s = db) _ _ _ _ _ _ _ eq_refl H1). intros x a1 s1 a2 s2 _ -> Hs.
  by apply plan_deferred_pure in Hs.
Qed.

(** What the planner answers is planned with every deferred reservation and
    every replica of the pool. *)
Lemma plan_charged cs u db remaining db' :
  Forall (fun c => 0 <= _ServiceReplicaCommitment.accelerator_count c) cs ->
  _plan_physical_pool_remaining inventory vendor model resource_name cs u db = (inr (Some remaining), db') ->
  planned (charged_at u) cs remaining
  /\ (forall node, node ∈ remaining.*1.*2 -> lenZ (node_workers inventory node) = 1)
  /\ db' = db.
Proof.
  intros Hcs H. assert (db' = db) as -> by by apply plan_pure in H. revert H. unfold _plan_physical_pool_remaining.
  destruct (existsb _ (remove_dups _)) eqn:Enodes; [done|]. destruct (unlocated _ _ _ _) eqn:Eun; [done|].
  intros (o & db1 & H1 & H2)%bind_ok. injection H2 as H2 ->.
  destruct o as [r1|]; [|by rewrite plan_commitment_none in H2].
  assert (accounted (fun _ => 0) (physical inventory vendor model resource_name)) as H0.
  { split; [done|]. intros k _. split; [|lia]. unfold physical. rewrite tally_by_count. unfold lenZ. lia. }
  pose proof (plan_deferred_all _ _ _ _ _ _ H0 H1) as HD. cbn beta iota in HD.
  assert (planned (charged_at u) [] r1) as HC.
  { split; [|done]. apply (accounted_weaken _ _ _ HD). intros k Hk. destruct HD as [HK _]. rewrite HK in Hk.
    assert (unknown_at u k.1 <= 0) as Hun.
    { eapply located_unknown; [exact Eun|]. apply elem_of_remove_dups. by apply list_elem_of_fmap_2. }
    unfold charged_at. rewrite deferred_at_sum. change (own_at [] k) with 0. lia. }
  pose proof (plan_commitment_all _ _ _ _ _ Hcs HC H2) as HR. split_and!; [done| |done].
  intros node (k & -> & Hk)%list_elem_of_fmap. destruct HR as [[HK _] _]. rewrite HK in Hk.
  apply physical_keys in Hk. rewrite <- not_true_iff_false, existsb_exists in Enodes.
  destruct (lenZ (node_workers inventory k.2) =? 1) eqn:E; [lia|]. exfalso. apply Enodes. exists k.2.
  rewrite E. split; [|done]. apply list_elem_of_In, elem_of_remove_dups, list_elem_of_fmap. eauto.
Qed.
End accounts.

(** ** The capacity offered to a batch task *)

(** The devices of a node that the pool can hand out. *)
Definition usable_at (inventory : list Device) (vendor : AcceleratorVendor) (resource_name : string) (k : NodeKey) : Z :=
  lenZ (List.filter (fun d => (node_key d == k) && in_pool vendor resource_name d
                              && usable_health (InventoryDeviceSnapshot.health d)) inventory).

Lemma lenZ_filter_filter {A} (p q : A -> bool) l :
  lenZ (List.filter p (List.filter q l)) = lenZ (List.filter (fun x => p x && q x) l).
Proof.
  induction l as [|x l IH]; [done|]. cbn [List.filter]. destruct (q x); cbn [List.filter].
  - rewrite andb_true_r. destruct (p x); rewrite ?lenZ_cons; lia.
  - by rewrite andb_false_r.
Qed.

Lemma tally_by_const {X K} `{EqDecision K} (key : X -> K) k l :
  (forall x, x ∈ l -> key x = k) ->
  tally_by key l = if bool_decide (l = []) then [] else [(k, lenZ l)].
Proof.
  unfold tally_by. destruct l as [|x l]; [done|]. intros H. rewrite bool_decide_eq_false_2 by done. cbn [foldl].
  rewrite (H x) by left. cbn. assert (forall n, foldl (fun d x => dadd (key x) 1 d) [(k, n)] l = [(k, n + lenZ l)]) as Hl.
  - assert (forall x, x ∈ l -> key x = k) as H' by (intros y Hy; apply H; by right). clear H. induction l as [|y l IH]; intros n.
    + cbn. unfold lenZ. cbn. repeat f_equal. lia.
    + cbn [foldl]. rewrite (H' y) by left. unfold dadd, dcount. cbn. rewrite eqb_same. cbn.
      rewrite IH by (intros z Hz; apply H'; by right). rewrite lenZ_cons, Z.add_assoc. done.
  - rewrite Hl, lenZ_cons. done.
Qed.

Lemma binding_pure i v d db b db' : runtime_profile_binding_id i v d db = (inr b, db') -> db' = db.
Proof. intros H. unfold runtime_profile_binding_id in H. by minv H. Qed.

Section capacity.
Context (inventory : list Device) (q : Query) (node : string).
Hypothesis (Hnode : PoolQuery.node_name q = Some node).

Definition pool_node : NodeKey := (PoolQuery.worker_id q, node).

Lemma batch_node_key b k :
  k ∈ batch_node_keys inventory q b ->
  k = pool_node
  /\ k ∈ candidate_node_keys inventory (PoolQuery.vendor q) (PoolQuery.model q) (PoolQuery.resource_name q).
Proof.
  unfold batch_node_keys, candidate_node_keys. rewrite !elem_of_remove_dups.
  intros (d & -> & [Hd H]%elem_of_lfilter)%list_elem_of_fmap. rewrite Hnode in H.
  rewrite !andb_true_iff, !eqb_true in H. destruct H as [[[[[[[Hw Hn] Hh] Hv] Hk] Hm] Hr] Hb].
  split; [unfold node_key, pool_node; congruence|]. apply list_elem_of_fmap. exists d. split; [done|].
  apply elem_of_lfilter. split; [done|]. unfold in_pool. by rewrite Hv, Hr, Hm, !eqb_same.
Qed.

Lemma sorted_keys b :
  py_sort (fun k => k) (batch_node_keys inventory q b) = []
  \/ (py_sort (fun k => k) (batch_node_keys inventory q b) = [pool_node]
      /\ pool_node ∈ candidate_node_keys inventory (PoolQuery.vendor q) (PoolQuery.model q) (PoolQuery.resource_name q)).
Proof.
  pose proof (py_sort_perm (fun k => k) (batch_node_keys inventory q b)) as Hp.
  assert (NoDup (batch_node_keys inventory q b)) as Hd by apply NoDup_remove_dups.
  assert (forall k, k ∈ batch_node_keys inventory q b -> k = pool_node) as Hk
    by (intros k Hk; by destruct (batch_node_key _ _ Hk)).
  destruct (batch_node_keys inventory q b) as [|k1 [|k2 l]] eqn:E.
  - left. by apply Permutation_nil_r in Hp.
  - right. assert (k1 ∈ batch_node_keys inventory q b) as H1 by (rewrite E; left).
    apply batch_node_key in H1 as [-> H1]. split; [|done]. by apply Permutation_singleton_r in Hp.
  - exfalso. apply NoDup_cons in Hd as [Hd _]. apply Hd. rewrite (Hk k1), (Hk k2); [left|right; left|left].
Qed.

(** The devices offered are the usable ones of the one node, when its whole
    pool is compatible. *)
Lemma homogeneous_cases b :
  homogeneous_devices inventory q b = []
  \/ (homogeneous_devices inventory q b
       = List.filter (fun d => usable_health (InventoryDeviceSnapshot.health d))
           (node_pool inventory (PoolQuery.resource_name q) pool_node)
      /\ forallb (batch_compatible q b) (node_pool inventory (PoolQuery.resource_name q) pool_node) = true
      /\ pool_node ∈ candidate_node_keys inventory (PoolQuery.vendor q) (PoolQuery.model q) (PoolQuery.resource_name q)).
Proof.
  unfold homogeneous_devices. destruct (sorted_keys b) as [->|[-> Hk]]; [by left|]. cbn.
  destruct (bool_decide _ || negb _) eqn:E; [by left|]. right. rewrite app_nil_r.
  apply orb_false_iff in E as [_ E]. apply negb_false_iff in E. done.
Qed.

Lemma in_node_pool d :
  d ∈ node_pool inventory (PoolQuery.resource_name q) pool_node <->
  d ∈ inventory /\ node_key d = pool_node
  /\ InventoryDeviceSnapshot.kubernetes_resource_name d = Some (PoolQuery.resource_name q).
Proof. unfold node_pool. rewrite elem_of_lfilter, andb_true_iff, !eqb_true. done. Qed.

(** Within a compatible pool the vendor is that of the pool. *)
Lemma offered_le_usable b :
  forallb (batch_compatible q b) (node_pool inventory (PoolQuery.resource_name q) pool_node) = true ->
  lenZ (List.filter (fun d => usable_health (InventoryDeviceSnapshot.health d))
          (node_pool inventory (PoolQuery.resource_name q) pool_node))
  <= usable_at inventory (PoolQuery.vendor q) (PoolQuery.resource_name q) pool_node.
Proof.
  intros Hall. unfold node_pool at 1, usable_at. rewrite lenZ_filter_filter. apply lenZ_filter_mono.
  intros d Hd H. rewrite !andb_true_iff, !eqb_true in H. destruct H as (Hu & Hk & Hr).
  rewrite forallb_forall in Hall. assert (batch_compatible q b d = true) as Hc.
  { apply Hall, list_elem_of_In, in_node_pool. done. }
  unfold batch_compatible in Hc. rewrite !andb_true_iff, !eqb_true in Hc.
  destruct Hc as [[[[[Hv _] _] _] _] _]. unfold in_pool. by rewrite Hu, Hk, Hr, Hv, !eqb_same.
Qed.

Lemma physical_count v m r k :
  k ∈ candidate_node_keys inventory v m r ->
  dcount (physical inventory v m r) k
  = lenZ (List.filter (fun d => (node_key d == k) && in_pool v r d) inventory).
Proof.
  intros Hk. unfold physical. rewrite tally_by_count, lenZ_filter_filter. apply Z.le_antisymm.
  - apply lenZ_filter_mono. intros d _. rewrite !andb_true_iff. naive_solver.
  - apply lenZ_filter_mono. intros d _. rewrite !andb_true_iff, eqb_true. intros [<- ->].
    split_and!; [done|done|]. by apply inb_true.
Qed.

Lemma candidate_is_physical v m r k :
  k ∈ candidate_node_keys inventory v m r -> k ∈ (physical inventory v m r).*1.
Proof.
  intros Hk. unfold physical. apply tally_by_keys, list_elem_of_fmap.
  pose proof Hk as (d & -> & [Hd Hp]%elem_of_lfilter)%elem_of_remove_dups%list_elem_of_fmap.
  exists d. split; [done|]. apply elem_of_lfilter. split; [done|]. apply andb_prop in Hp as [-> _].
  by rewrite (proj2 (inb_true _ _) Hk).
Qed.

Lemma node_workers_single (d : Device) :
  d ∈ inventory -> lenZ (node_workers inventory (InventoryDeviceSnapshot.node_name d)) = 1 ->
  node_workers inventory (InventoryDeviceSnapshot.node_name d) = [InventoryDeviceSnapshot.worker_id d].
Proof.
  intros Hd Hl. assert (InventoryDeviceSnapshot.worker_id d ∈ node_workers inventory (InventoryDeviceSnapshot.node_name d)) as Hw.
  { apply elem_of_remove_dups, list_elem_of_fmap. exists d. split; [done|]. apply elem_of_lfilter.
    by rewrite eqb_same. }
  destruct (node_workers _ _) as [|w [|w' l]]; [by apply not_elem_of_nil in Hw| |rewrite !lenZ_cons in Hl; unfold lenZ in Hl; lia].
  by apply list_elem_of_singleton in Hw as ->.
Qed.

(** A positive capacity is what the usable devices of the node, all compatible,
    have left beside everything promised there. *)
Lemma capacity_backed cs u db n db' :
  Forall (fun c => 0 <= _ServiceReplicaCommitment.accelerator_count c) cs ->
  _batch_pool_available_capacity inventory q cs u db = (inr n, db') ->
  0 <= n /\ db' = db
  /\ (0 < n ->
      n + charged_at (PoolQuery.vendor q) (PoolQuery.resource_name q) u pool_node
        + committed_at (PoolQuery.vendor q) (PoolQuery.resource_name q) cs pool_node
      <= usable_at inventory (PoolQuery.vendor q) (PoolQuery.resource_name q) pool_node
      /\ foreign_at (PoolQuery.vendor q) (PoolQuery.model q) (PoolQuery.resource_name q) cs pool_node = false
      /\ node_workers inventory node = [PoolQuery.worker_id q]
      /\ exists b, forallb (batch_compatible q b) (node_pool inventory (PoolQuery.resource_name q) pool_node) = true).
Proof.
  intros Hcs. unfold _batch_pool_available_capacity. intros (o & db1 & H1 & H2)%bind_ok.
  pose proof (plan_pure _ _ _ _ _ _ _ _ _ H1) as ->. destruct o as [remaining|]; [|injection H2 as <- <-; lia || done].
  apply (plan_charged _ _ _ _ _ _ _ _ _ Hcs) in H1 as ([[HK HA] HF] & HW & _).
  apply bind_ok in H2 as (devices & db2 & H2 & H3). unfold _batch_homogeneous_compatible_devices in H2.
  apply bind_ok in H2 as (b & db3 & H2 & H4). apply binding_pure in H2 as ->. injection H4 as <- <-.
  injection H3 as <- <-. destruct (homogeneous_cases b) as [->|(E & Hall & Hk)]; [cbn; split_and!; [lia|done|lia]|].
  rewrite E, (tally_by_const _ pool_node).
  2:{ intros d [_ Hd]%elem_of_lfilter%proj1%in_node_pool. naive_solver. }
  destruct (bool_decide _); [cbn; split_and!; [lia|done|lia]|].
  cbn [foldr]. rewrite <- (physical_count _ (PoolQuery.model q)) by done.
  pose proof (offered_le_usable b Hall) as Hu. set (cnt := lenZ (List.filter _ (node_pool _ _ _))) in *.
  assert (usable_at inventory (PoolQuery.vendor q) (PoolQuery.resource_name q) pool_node
          <= dcount (physical inventory (PoolQuery.vendor q) (PoolQuery.model q) (PoolQuery.resource_name q)) pool_node) as Hp.
  { rewrite (physical_count _ _ _ _ Hk). apply lenZ_filter_mono. intros d _ Hd. by apply andb_prop in Hd as [-> _]. }
  assert (pool_node ∈ remaining.*1) as Hin by (rewrite HK; by apply candidate_is_physical).
  destruct (HA _ Hin) as [Hr0 Hr]. split_and!; [lia|done|]. intros Hn.
  assert (foreign_at (PoolQuery.vendor q) (PoolQuery.model q) (PoolQuery.resource_name q) cs pool_node = false) as Hfor.
  { destruct (foreign_at _ _ _ _ _) eqn:Ef; [|done]. specialize (HF _ Hin Ef). lia. }
  rewrite (own_committed _ _ _ _ _ Hfor) in Hr. split_and!.
  - lia.
  - done.
  - assert (node ∈ remaining.*1.*2) as Hn1 by (apply list_elem_of_fmap; by exists pool_node).
    specialize (HW _ Hn1). pose proof Hk as (d & Ed & [Hd _]%elem_of_lfilter)%elem_of_remove_dups%list_elem_of_fmap.
    injection Ed as Ew En. rewrite En, Ew. apply node_workers_single; [done|by rewrite <- En].
  - by exists b.
Qed.
End capacity.
