(* ===== verification/PoolLoad.v ===== *)
(** * What is promised on a node, row by row

    The load of an accelerator pool as sums over the rows of the database,
    written from the columns alone: the active reservations whose devices the
    Kubernetes device plugin picks, the replicas of services that are not over,
    and the replicas services still lack.  Whatever is not known to be
    elsewhere counts: a reservation of an earlier worker session or of a
    profile that does not resolve, and a replica without a node or with an
    incomplete snapshot.  [replicas_totalled], and [promised_totals] in
    [AdmissionSafety], show that the queries of admission add up to these
    sums. *)

From S2P Require Import Prelude PyString PyUrl PyFloat Enums PyDict PyJson Policies Store Names Quotas Tasks.
From S2P Require Import VendorAdmission Services ModelRegistry RuntimeProfiles AdmissionPlan Admission PoolAccounting.

#[local] Open Scope Z_scope.

Lemma zsum_omap {A B} (f : A -> option B) (g : B -> Z) l : zsum g (omap f l) = zsum (fun x => from_option g 0 (f x)) l.
Proof. induction l as [|x l IH]; [done|]. rewrite zsum_cons, <- IH. cbn. by destruct (f x). Qed.

Lemma zsum_filter {A} (p : A -> bool) (g : A -> Z) l : zsum g (List.filter p l) = zsum (fun x => if p x then g x else 0) l.
Proof. induction l as [|x l IH]; [done|]. cbn [List.filter]. rewrite zsum_cons, <- IH. by destruct (p x). Qed.

Lemma vendor_value_inj v v' : AcceleratorVendor_value v = AcceleratorVendor_value v' -> v = v'.
Proof. by destruct v, v'. Qed.

Lemma vendor_value_eqb v v' : (AcceleratorVendor_value v == AcceleratorVendor_value v') = (v == v').
Proof. by destruct v, v'. Qed.

Lemma zsum_concat {A} (f : A -> Z) (l : list (list A)) : zsum f (concat l) = zsum (zsum f) l.
Proof. induction l as [|x l IH]; [done|]. cbn [concat]. by rewrite zsum_app, zsum_cons, IH. Qed.

Lemma lenZ_filter {A} (p : A -> bool) l : lenZ (List.filter p l) = zsum (fun x => if p x then 1 else 0) l.
Proof.
  induction l as [|x l IH]; [done|]. cbn [List.filter]. rewrite zsum_cons, <-IH.
  destruct (p x); rewrite ?lenZ_cons; lia.
Qed.

Section load.
Context (vendor : AcceleratorVendor) (resource node : string).

(** ** Reservations *)

(** The resource of the profile the reservation was made with; [None] when the
    profile does not resolve. *)
Definition profile_resource (catalog : Catalog) (r : ResourceReservation.t) : option string :=
  match ResourceReservation.requested_profile_id r, ResourceReservation.requested_profile_version r,
        ResourceReservation.requested_profile_digest r with
  | Some i, Some v, Some d =>
      match RuntimeProfileCatalog.load_exact catalog i v d with
      | inr profile => if RuntimeProfile.vendor profile == vendor then Some (RuntimeProfile.resource_name profile) else None
      | inl _ => None
      end
  | _, _, _ => None
  end.

(** The reservation is known to be on another node: its worker still has the
    session that made it, and the node of its task, else of its worker, is
    valid and another one. *)
Definition elsewhere (w : Worker.t) (t : Task.t) (r : ResourceReservation.t) : bool :=
  let place := match Task.kubernetes_node_name t with Some n => Some n | None => Worker.node_name w end in
  (ResourceReservation.worker_session_id r == Worker.worker_session_id w)
  && _is_valid_kubernetes_node_name place && (place !== Some node).

(** The devices an active reservation holds, or may hold, on the node. *)
Definition held (catalog : Catalog) (db : Db.t) (r : ResourceReservation.t) : Z :=
  match Db.workers db !! ResourceReservation.worker_id r, Db.tasks db !! ResourceReservation.task_id r with
  | Some w, Some t =>
      if active_reservation r && (ResourceReservation.allocation_authority r == KUBERNETES_DEVICE_PLUGIN)
         && (ResourceReservation.requested_vendor r == Some vendor)
         && may_be resource (profile_resource catalog r) && negb (elsewhere w t r)
      then ResourceReservation.gpu_count r else 0
  | _, _ => 0
  end.

(** ** Replicas of services *)

(** The service runs on accelerators of the cluster. *)
Definition accelerated (s : Svc) : bool :=
  (ModelService.runtime_type s == KUBERNETES)
  && ((0 <? ModelService.gpu_count s) || bool_decide (ModelService.selected_vendor s <> None)).

(** The devices of one replica. *)
Definition gang (s : Svc) : Z := Z.max (ModelService.gpu_count s) (ModelService.tensor_parallel_size s).

(** A snapshot that does not say that its vendor, resource or node is
    another. *)
Definition may_use (v : option AcceleratorVendor) (res : option string) (eligible : option (list string))
    (assigned : option string) : bool :=
  may_be vendor v && may_be resource (normalized_text res)
  && match normalized_text assigned with
     | Some a => a == node
     | None => match normalized_nodes eligible with
               | Some ((_ :: _) as nodes) => inb node nodes
               | _ => true
               end
     end.

(** A replica that is not over; of the service [exclude], which is being
    placed anew, only those that are not among its wanted replicas. *)
Definition counted (exclude : option N) (s : Svc) (r : Rep) : bool :=
  inb (ServiceReplica.status r) NONTERMINAL_REPLICA_STATUSES
  && negb ((exclude == Some (ServiceReplica.service_id r))
           && (ServiceReplica.generation r =? ModelService.generation s) && active_replica r).

Definition replica_load (db : Db.t) (exclude : option N) (r : Rep) : Z :=
  match Db.services db !! ServiceReplica.service_id r with
  | Some s =>
      if accelerated s && counted exclude s r
         && may_use (ServiceReplica.selected_vendor r) (ServiceReplica.accelerator_resource_name r)
              (ServiceReplica.eligible_node_names r) (ServiceReplica.assigned_node_name r)
      then gang s else 0
  | None => 0
  end.

(** The active replicas of the service's generation. *)
Definition present_replicas (db : Db.t) (s : Svc) : Z :=
  lenZ (List.filter (fun r => (ServiceReplica.service_id r == ModelService.id s)
                              && (ServiceReplica.generation r =? ModelService.generation s) && active_replica r)
          (rows (Db.replicas db))).

(** The replicas the service still lacks. *)
Definition missing_load (db : Db.t) (exclude : option N) (s : Svc) : Z :=
  if accelerated s && (exclude !== Some (ModelService.id s))
     && may_use (ModelService.selected_vendor s) (ModelService.accelerator_resource_name s)
          (ModelService.eligible_node_names s) None
  then Z.max 0 (ModelService.desired_replicas s - present_replicas db s) * gang s else 0.

(** ** The sums *)
Definition promised_on (catalog : Catalog) (db : Db.t) : Z := zsum (held catalog db) (rows (Db.reservations db)).

Definition committed_on (db : Db.t) (exclude : option N) : Z :=
  zsum (replica_load db exclude) (rows (Db.replicas db)) + zsum (missing_load db exclude) (rows (Db.services db)).

(** No replica that may be on the node needs another device model. *)
Definition one_model (db : Db.t) (model : string) : Prop := forall r s,
  r ∈ rows (Db.replicas db) -> Db.services db !! ServiceReplica.service_id r = Some s ->
  accelerated s = true -> counted None s r = true ->
  may_use (ServiceReplica.selected_vendor r) (ServiceReplica.accelerator_resource_name r)
    (ServiceReplica.eligible_node_names r) (ServiceReplica.assigned_node_name r) = true ->
  normalized_text (ServiceReplica.selected_model r) = Some model.

(** ** The queries of admission *)
Lemma commits_columns w i g o v model res n eligible assigned :
  commits vendor resource (w, node) (_service_commitment i g o v model res n eligible assigned)
  = may_use v res eligible assigned.
Proof.
  unfold commits, in_resource, may_run_on, may_use, _service_commitment. cbn. f_equal. f_equal.
  destruct v as [v|]; [|done]. apply vendor_value_eqb.
Qed.

Lemma counted_query exclude s r :
  inb (ServiceReplica.status r) (MATERIALIZED_STATUSES ++ [ReplicaStatus.DRAINING; ReplicaStatus.STOPPING])
  && match exclude with
     | Some i => (ServiceReplica.service_id r !== i)
                 || negb (ServiceReplica.generation r =? ModelService.generation s)
                 || inb (ServiceReplica.status r) [ReplicaStatus.DRAINING; ReplicaStatus.STOPPING]
     | None => true
     end = counted exclude s r.
Proof.
  unfold counted, active_replica, NONTERMINAL_REPLICA_STATUSES. destruct exclude as [i|].
  - assert ((Some i == Some (ServiceReplica.service_id r)) = (ServiceReplica.service_id r == i)) as ->.
    { apply eq_iff_eq_true. rewrite !eqb_true. naive_solver. }
    destruct (ServiceReplica.service_id r == i), (_ =? _), (ServiceReplica.status r); reflexivity.
  - cbn [negb andb]. destruct (ServiceReplica.status r); reflexivity.
Qed.

Lemma accelerated_query s : uses_accelerators s = accelerated s.
Proof. unfold uses_accelerators, accelerated. by destruct (ModelService.selected_vendor s). Qed.

Lemma replicas_query w db exclude :
  zsum (fun c => if commits vendor resource (w, node) c then _ServiceReplicaCommitment.accelerator_count c else 0)
    (replica_commitment <$> committed_replicas db exclude)
  = zsum (replica_load db exclude) (rows (Db.replicas db)).
Proof.
  rewrite zsum_fmap. unfold committed_replicas. rewrite zsum_omap, (zsum_perm _ _ _ (py_sort_perm _ _)).
  apply zsum_ext. intros r _. unfold replica_load. destruct (Db.services db !! _) as [s|]; [|done].
  rewrite <-andb_assoc, counted_query, accelerated_query. destruct (accelerated s && counted exclude s r); [|done].
  cbn [from_option andb]. unfold replica_commitment. by rewrite commits_columns.
Qed.

(** The count of materialized replicas is that of the rows. *)
Lemma materialized_query db exclude s :
  (forall i s, Db.services db !! i = Some s -> ModelService.id s = i) ->
  s ∈ rows (Db.services db) -> accelerated s = true -> (exclude !== Some (ModelService.id s)) = true ->
  materialized (committed_replicas db exclude) s = present_replicas db s.
Proof.
  intros Hk [i Hs]%rows_elem Ha Hx. rewrite <-(Hk _ _ Hs) in Hs. unfold materialized, present_replicas, committed_replicas.
  rewrite !lenZ_filter, zsum_omap, (zsum_perm _ _ _ (py_sort_perm _ _)). apply zsum_ext. intros r _.
  destruct (ServiceReplica.service_id r == ModelService.id s) eqn:Es; cbn [andb].
  - rewrite eqb_true in Es. assert (Db.services db !! ServiceReplica.service_id r = Some s) as -> by by rewrite Es.
    rewrite <-andb_assoc, counted_query, accelerated_query, Ha. cbn [andb]. unfold counted. rewrite Es. rewrite negb_true_iff in Hx. rewrite Hx. cbn [andb negb]. rewrite andb_true_r.
    destruct (inb (ServiceReplica.status r) NONTERMINAL_REPLICA_STATUSES) eqn:En; cbn [from_option].
    + by rewrite Es, eqb_same, Z.eqb_refl.
    + assert (active_replica r = false) as ->; [|by rewrite andb_false_r].
      unfold active_replica. by destruct (ServiceReplica.status r).
  - destruct (Db.services db !! ServiceReplica.service_id r) as [x|]; [|done]. destruct (_ && _); [|done].
    cbn [from_option]. by rewrite Es.
Qed.

Lemma missing_query w db exclude :
  (forall i s, Db.services db !! i = Some s -> ModelService.id s = i) ->
  zsum (fun c => if commits vendor resource (w, node) c then _ServiceReplicaCommitment.accelerator_count c else 0)
    (concat (missing_commitments (committed_replicas db exclude) <$>
       py_sort ModelService.id (List.filter (fun s => uses_accelerators s && (0 <? ModelService.desired_replicas s)
         && match exclude with Some i => ModelService.id s !== i | None => true end) (rows (Db.services db)))))
  = zsum (missing_load db exclude) (rows (Db.services db)).
Proof.
  intros Hk. rewrite zsum_concat, zsum_fmap, (zsum_perm _ _ _ (py_sort_perm _ _)), zsum_filter. apply zsum_ext.
  intros s Hs. rewrite accelerated_query. unfold missing_load.
  assert (match exclude with Some i => ModelService.id s !== i | None => true end
          = (exclude !== Some (ModelService.id s))) as ->.
  { destruct exclude as [i|]; [|done]. f_equal. apply eq_iff_eq_true. rewrite !eqb_true. naive_solver. }
  destruct (accelerated s) eqn:Ha; [cbn [andb]|done].
  destruct (exclude !== Some (ModelService.id s)) eqn:Hx; [rewrite andb_true_r; cbn [andb]|by rewrite andb_false_r].
  assert (0 <= present_replicas db s) as Hp by (unfold present_replicas, lenZ; lia).
  assert (zsum (fun c => if commits vendor resource (w, node) c then _ServiceReplicaCommitment.accelerator_count c else 0)
      (missing_commitments (committed_replicas db exclude) s)
    = if may_use (ModelService.selected_vendor s) (ModelService.accelerator_resource_name s)
           (ModelService.eligible_node_names s) None
      then Z.max 0 (ModelService.desired_replicas s - present_replicas db s) * gang s else 0) as ->.
  { unfold missing_commitments. cbv zeta. rewrite (materialized_query db exclude s Hk Hs Ha Hx), zsum_fmap.
    rewrite (zsum_ext _ (fun _ => if may_use (ModelService.selected_vendor s) (ModelService.accelerator_resource_name s)
      (ModelService.eligible_node_names s) None then gang s else 0)) by (intros o _; by rewrite commits_columns).
    rewrite zsum_const, zrange_length by lia. case_match; lia. }
  destruct (0 <? ModelService.desired_replicas s) eqn:Hd; [done|].
  rewrite Z.max_l by lia. by case_match.
Qed.

(** The commitments admission reads are the load of the rows. *)
Lemma replicas_totalled w db exclude :
  (forall i s, Db.services db !! i = Some s -> ModelService.id s = i) ->
  committed_at vendor resource (_active_service_accelerators db exclude) (w, node) = committed_on db exclude.
Proof.
  intros Hk. unfold committed_at, _active_service_accelerators, committed_on. cbv zeta.
  by rewrite zsum_app, replicas_query, missing_query.
Qed.

Lemma one_model_query w db model :
  foreign_at vendor model resource (_active_service_accelerators db None) (w, node) = false -> one_model db model.
Proof.
  intros H r s Hr Hs Ha Hc Hm. apply not_true_iff_false in H.
  destruct (of_model model (replica_commitment (r, s))) eqn:Eo; [unfold of_model in Eo; rewrite eqb_true in Eo; exact Eo|].
  exfalso. apply H, existsb_exists. exists (replica_commitment (r, s)).
  assert (commits vendor resource (w, node) (replica_commitment (r, s)) = true) as ->
    by (unfold replica_commitment; by rewrite commits_columns).
  rewrite Eo. split; [|done]. apply list_elem_of_In. unfold _active_service_accelerators. cbv zeta.
  apply elem_of_app. left. apply list_elem_of_fmap_2. unfold committed_replicas. apply list_elem_of_omap.
  exists r. split; [by apply elem_of_py_sort|]. rewrite Hs, <-andb_assoc.
  pose proof (counted_query None s r) as E. cbv iota in E. rewrite E, accelerated_query, Ha, Hc. done.
Qed.

(** The load is read off the services and their replicas. *)
Lemma replicas_same db db' exclude :
  Db.services db = Db.services db' -> Db.replicas db = Db.replicas db' ->
  committed_on db exclude = committed_on db' exclude /\ (forall model, one_model db' model -> one_model db model).
Proof.
  intros Es Er. unfold committed_on, one_model. rewrite Es, Er. split.
  - f_equal; apply zsum_ext; intros x _; [unfold replica_load|unfold missing_load, present_replicas]; by rewrite ?Es, ?Er.
  - done.
Qed.
End load.
