(* ===== verification/AdmissionSummary.v ===== *)
(** * The summary of an admission decision

    A decision is stored with a summary of its candidates, cut to
    [_CANDIDATE_SUMMARY_MAX_BYTES] bytes of compact JSON.  The cut is exact:
    a summary that fits is kept whole, otherwise a longest prefix is kept with
    a marker of what was left out, and cutting twice is cutting once.  The
    column of the table is not compact: it stores the text of [json.dumps]
    with its default separators, and the check constraint of the table refuses
    summaries the cut has let through. *)

From S2P Require Import Prelude PyString PyUrl PyFloat Enums PyDict PyJson Store Names Quotas Tasks.
From S2P Require Import VendorAdmission ModelRegistry RuntimeProfiles AdmissionPlan Admission PoolAccounting.
From Stdlib Require Import Ascii String.
From stdpp Require Import pretty.

#[local] Open Scope stdpp_scope.
#[local] Open Scope Z_scope.

(** ** Sizes *)
Lemma slen_app a b : slen (a +:+ b) = slen a + slen b.
Proof.
  unfold slen. induction a as [|c a IH]; [done|].
  change (String.length (String c a +:+ b)) with (S (String.length (a +:+ b))). cbn [String.length]. lia.
Qed.

Lemma slen_nonneg s : 0 <= slen s.
Proof. unfold slen. lia. Qed.

(** Separators between [n] items. *)
Definition gaps {A} (l : list A) : Z := Z.max 0 (lenZ l - 1).

Lemma joined_size sep l : slen (joined sep l) = zsum slen l + gaps l * slen sep.
Proof.
  induction l as [|x l IH]; [done|]. destruct l as [|y l]; [unfold gaps; rewrite !lenZ_cons; cbn; unfold lenZ; cbn; lia|].
  change (joined sep (x :: y :: l)) with (x +:+ sep +:+ joined sep (y :: l)). rewrite !slen_app, IH, !zsum_cons.
  assert (gaps (x :: y :: l) = 1 + gaps (y :: l)) as -> by (unfold gaps; rewrite !lenZ_cons; unfold lenZ; lia).
  rewrite Z.mul_add_distr_r. lia.
Qed.

(** The size of an item in a compact summary. *)
Definition item_size (o : JsObject) : Z := slen (dump_object false "," ":" (py_sort fst o)).

Lemma lenZ_fmap {A B} (f : A -> B) l : lenZ (f <$> l) = lenZ l.
Proof. unfold lenZ. by rewrite length_fmap. Qed.

Lemma summary_size_sum items : _summary_size items = 2 + zsum item_size items + gaps items.
Proof.
  unfold _summary_size, dumps_compact, dump_objects. rewrite !slen_app, joined_size, !zsum_fmap.
  unfold gaps. rewrite !lenZ_fmap. unfold item_size. cbn [slen]. unfold slen at 1 3 4. cbn. lia.
Qed.

Lemma summary_size_mono l1 l2 : _summary_size l1 <= _summary_size (l1 ++ l2).
Proof.
  rewrite !summary_size_sum, zsum_app. assert (0 <= zsum item_size l2) by (apply zsum_nonneg; intros; apply slen_nonneg).
  assert (gaps l1 <= gaps (l1 ++ l2)); [|lia]. unfold gaps, lenZ. rewrite length_app. lia.
Qed.

(** The number of digits of an integer. *)
Lemma pretty_go_size (k : nat) x s : (x < 10 ^ N.of_nat k)%N -> slen (pretty_N_go x s) <= Z.of_nat k + slen s.
Proof.
  revert x s. induction k as [|k IH]; intros x s Hx.
  { assert (x = 0)%N as -> by (cbn in Hx; lia). rewrite pretty_N_go_0. lia. }
  destruct (decide (x = 0)%N) as [->|Hn]; [rewrite pretty_N_go_0; lia|].
  rewrite pretty_N_go_step by lia. etrans; [apply IH|unfold slen; cbn; lia].
  apply N.Div0.div_lt_upper_bound. rewrite Nat2N.inj_succ, N.pow_succ_r' in Hx. lia.
Qed.

Lemma pretty_size (k : nat) z : 0 < z < 10 ^ Z.of_nat k -> slen (pretty z) <= Z.of_nat k.
Proof.
  intros Hz. destruct z as [|p|p]; [lia| |lia]. change (slen (pretty (N.pos p)) <= Z.of_nat k).
  unfold pretty, pretty_N. rewrite decide_False by done. etrans; [apply (pretty_go_size k)|unfold slen; cbn; lia].
  apply N2Z.inj_lt. rewrite N2Z.inj_pow. cbn. rewrite nat_N_Z. lia.
Qed.

(** The marker always fits. *)
Lemma marker_size n : 0 < n < 10 ^ 100 -> _summary_size [marker n] <= 150.
Proof.
  intros Hn. rewrite summary_size_sum, zsum_cons. unfold item_size, marker.
  change (py_sort fst [("truncated", Js.Bool true); ("omitted_candidates", Js.Int n)])
    with [("omitted_candidates", Js.Int n); ("truncated", Js.Bool true)].
  unfold dump_object. cbn [fmap list_fmap fst snd joined dump_value]. rewrite !slen_app.
  pose proof (pretty_size 100 n Hn) as Hp. revert Hp. generalize (slen (pretty n)). intros p Hp.
  assert (slen (dump_str false "omitted_candidates") = 20 /\ slen (dump_str false "truncated") = 11) as [-> ->] by done.
  unfold zsum, gaps, lenZ, slen. cbn. lia.
Qed.

(** ** What is kept *)
Lemma fitting_spec items result :
  _summary_size result <= _CANDIDATE_SUMMARY_MAX_BYTES ->
  exists k, (k <= length items)%nat /\ fitting result items = result ++ take k items
    /\ _summary_size (fitting result items) <= _CANDIDATE_SUMMARY_MAX_BYTES
    /\ ((k < length items)%nat -> _CANDIDATE_SUMMARY_MAX_BYTES < _summary_size (result ++ take (S k) items)).
Proof.
  revert result. induction items as [|item rest IH]; intros result Hr; cbn [fitting].
  { exists 0%nat. rewrite take_0, app_nil_r. split_and!; [done|done|done|cbn; lia]. }
  destruct (_ <? _) eqn:E.
  - exists 0%nat. rewrite take_0, app_nil_r. split_and!; [cbn; lia|done|done|]. intros _. rewrite firstn_cons, take_0. lia.
  - destruct (IH (result ++ [item])) as (k & Hk & Ef & Hs & Hmax); [lia|]. exists (S k). cbn [take length].
    rewrite <- app_assoc in Ef. split_and!; [lia|done|done|]. intros Hlt.
    rewrite <- app_assoc in Hmax. cbn [app take] in *. apply Hmax. lia.
Qed.

Lemma fitting_all items : _summary_size items <= _CANDIDATE_SUMMARY_MAX_BYTES -> fitting [] items = items.
Proof.
  intros Hs. destruct (fitting_spec items []) as (k & Hk & Ef & _ & Hmax); [vm_compute; discriminate|].
  cbn [app] in *. rewrite Ef. destruct (decide (k = length items)) as [->|Hne]; [apply firstn_all|]. exfalso.
  assert (k < length items)%nat as Hlt by lia. specialize (Hmax Hlt).
  pose proof (summary_size_mono (take (S k) items) (drop (S k) items)) as Hm. rewrite take_drop in Hm. lia.
Qed.

(** The marked summary of the first [k] items. *)
Definition marked (items : list JsObject) (k : nat) : list JsObject :=
  take k items ++ [marker (lenZ items - Z.of_nat k)].

Lemma with_marker_spec items k :
  (k < length items)%nat -> lenZ items < 10 ^ 100 ->
  exists j, (j <= k)%nat /\ with_marker (lenZ items) (rev (take k items)) = marked items j
    /\ _summary_size (marked items j) <= _CANDIDATE_SUMMARY_MAX_BYTES
    /\ (forall i, (j < i <= k)%nat -> _CANDIDATE_SUMMARY_MAX_BYTES < _summary_size (marked items i)).
Proof.
  intros Hk Hlen. induction k as [|k IH].
  { exists 0%nat. assert (_summary_size (marked items 0) <= _CANDIDATE_SUMMARY_MAX_BYTES) as Hs.
    { unfold marked. rewrite take_0. unfold lenZ in *. etrans; [apply marker_size; lia|vm_compute; discriminate]. }
    split_and!; [done| |done|lia]. rewrite take_0.
    transitivity (if _summary_size (marked items 0) <=? _CANDIDATE_SUMMARY_MAX_BYTES then marked items 0 else []);
      [reflexivity|]. by rewrite (proj2 (Z.leb_le _ _) Hs). }
  destruct (lookup_lt_is_Some_2 items k) as [x Hx]; [lia|].
  rewrite (take_S_r _ _ _ Hx), rev_app_distr. cbn [rev app with_marker].
  rewrite rev_involutive.
  assert (rev (take k items) ++ [] = rev (take k items)) as _ by apply app_nil_r.
  assert ((take k items ++ [x]) ++ [marker (lenZ items - lenZ (x :: rev (take k items)))] = marked items (S k)) as Em.
  { unfold marked. rewrite (take_S_r _ _ _ Hx). do 3 f_equal. rewrite lenZ_cons. unfold lenZ.
    rewrite length_rev, length_take. lia. }
  rewrite Em. destruct (_ <? _) eqn:E.
  - destruct IH as (j & Hj & Ew & Hs & Hmax); [lia|]. exists j. split_and!; [lia|done|done|]. intros i Hi.
    destruct (decide (i = S k)) as [->|Hne]; [lia|]. apply Hmax. lia.
  - exists (S k). split_and!; [done|done|lia|lia].
Qed.

(** C40: The stored summary is bounded.  For a list of items of any practical
    length [_bounded_summary] is at most [_CANDIDATE_SUMMARY_MAX_BYTES] of
    compact JSON: a list that fits is kept whole, and of a longer one a prefix
    is kept, the longest that leaves room for the marker, which counts the
    items left out.  Bounding a bounded summary changes nothing, so the event
    stores the summary the caller was given. *)
Theorem bounded_summary_exact items (Hlen : lenZ items < 10 ^ 100) :
  _summary_size (_bounded_summary items) <= _CANDIDATE_SUMMARY_MAX_BYTES
  /\ (_summary_size items <= _CANDIDATE_SUMMARY_MAX_BYTES -> _bounded_summary items = items)
  /\ (_CANDIDATE_SUMMARY_MAX_BYTES < _summary_size items ->
      exists k, (k < length items)%nat
        /\ _bounded_summary items = take k items ++ [marker (lenZ items - Z.of_nat k)]
        /\ forall i, (k < i < length items)%nat ->
             _CANDIDATE_SUMMARY_MAX_BYTES
             < _summary_size (take i items ++ [marker (lenZ items - Z.of_nat i)]))
  /\ _bounded_summary (_bounded_summary items) = _bounded_summary items.
Proof.
  assert (forall l, _summary_size l <= _CANDIDATE_SUMMARY_MAX_BYTES -> _bounded_summary l = l) as Hfit.
  { intros l Hl. unfold _bounded_summary. rewrite (fitting_all _ Hl). by rewrite Z.sub_diag. }
  destruct (Z.le_gt_cases (_summary_size items) _CANDIDATE_SUMMARY_MAX_BYTES) as [Hs|Hs].
  { rewrite !(Hfit items Hs). split_and!; [done|done|lia|done]. }
  destruct (fitting_spec items []) as (k & Hk & Ef & Hsf & Hmax); [vm_compute; discriminate|]. cbn [app] in *.
  assert (k < length items)%nat as Hlt.
  { destruct (decide (k = length items)) as [->|]; [|lia]. rewrite Ef, firstn_all in Hsf. lia. }
  destruct (with_marker_spec items k Hlt Hlen) as (j & Hj & Ew & Hsj & Hmaxj).
  assert (_bounded_summary items = marked items j) as Eb.
  { unfold _bounded_summary. rewrite Ef. rewrite (proj2 (Z.eqb_neq _ _)); [done|]. unfold lenZ. rewrite length_take. lia. }
  rewrite Eb. split_and!; [done|lia| |by apply Hfit]. intros _. exists j. split_and!; [lia|done|].
  intros i Hi. destruct (decide (i <= k)%nat) as [Hik|Hik]; [apply Hmaxj; lia|].
  specialize (Hmax Hlt). pose proof (summary_size_mono (take (S k) items) (drop (S k) (take i items) ++ [marker (lenZ items - Z.of_nat i)])) as Hm.
  rewrite app_assoc in Hm. assert (take (S k) items = take (S k) (take i items)) as Et.
  { rewrite take_take. f_equal. lia. }
  rewrite Et, take_drop in Hm. rewrite <- Et in Hm. lia.
Qed.

Lemma bounded_summary_exact_witness :
  lenZ [marker 1] < 10 ^ 100 /\ _bounded_summary (_bounded_summary [marker 1]) = _bounded_summary [marker 1].
Proof. split; [reflexivity|]. apply (bounded_summary_exact [marker 1]). reflexivity. Defined.

(** ** The text that is stored *)
Definition stored_size (o : JsObject) : Z := slen (dump_object true ", " ": " o).

Lemma stored_size_sum items : slen (dumps items) = 2 + zsum stored_size items + gaps items * 2.
Proof.
  unfold dumps, dump_objects. rewrite !slen_app, joined_size, !zsum_fmap.
  unfold gaps. rewrite !lenZ_fmap. unfold stored_size. change (slen "[") with 1. change (slen "]") with 1.
  change (slen ", ") with 2. lia.
Qed.

(** A cluster of 29 nodes with one worker and two devices each: the pools that
    admission of a batch task compares. *)
Definition pool_candidate (i : nat) : AdmissionCandidate.t :=
  AdmissionCandidate.mk
    ("gpu-worker-" +:+ pretty i +:+ ":node-" +:+ pretty i +:+ ":vllm-cuda@1.0.0:A100:" +:+ pretty i)
    NVIDIA GPU "A100" (Some "vllm-cuda") (Some "1.0.0")
    (Some "sha256:0123456789abcdef0123456789abcdef0123456789abcdef0123456789abcdef") None
    KUBERNETES_DEVICE_PLUGIN 2 64 true {["bf16"; "bfloat16"; "chat"; "tensor-parallel"]} true true [].

Definition pool_candidates : list AdmissionCandidate.t := pool_candidate <$> seq 10 29.

Definition pool_request : AdmissionRequest.t :=
  AdmissionRequest.mk 2 {[NVIDIA]} {[GPU]} ∅ ∅ None None None None ANY.

(** The decision on these pools, and the items of its summary. *)
Definition pool_decision : AdmissionDecision.t :=
  match choose_admission pool_request pool_candidates with
  | inr d => d
  | inl _ => AdmissionDecision.mk 2 None [] []
  end.

Definition pool_items : list JsObject := summary_item pool_decision <$> pool_candidates.

Lemma pool_fits : _summary_size pool_items <= _CANDIDATE_SUMMARY_MAX_BYTES.
Proof. vm_compute. discriminate. Qed.

Lemma pool_bounded : _bounded_summary pool_items = pool_items.
Proof. unfold _bounded_summary. rewrite (fitting_all _ pool_fits). by rewrite Z.sub_diag. Qed.

Lemma pool_summary : candidate_summary pool_candidates pool_decision = pool_items.
Proof.
  assert (py_sort AdmissionCandidate.candidate_id pool_candidates = pool_candidates) as Es by (vm_compute; reflexivity).
  assert (AdmissionDecision.rejections pool_decision = []) as Er by (vm_compute; reflexivity).
  unfold candidate_summary. rewrite Es, Er. fold pool_items. cbn [List.filter py_sort]. rewrite app_nil_r.
  apply pool_bounded.
Qed.

Lemma pool_selects :
  choose_admission pool_request pool_candidates = inr pool_decision
  /\ AdmissionDecision.selected_candidate pool_decision = Some (pool_candidate 10).
Proof. split; vm_compute; reflexivity. Qed.

Lemma pool_text : 16384 < slen (dumps pool_items).
Proof. rewrite stored_size_sum. vm_compute. reflexivity. Qed.

(** The checks of the table before the size pass for a selected pool. *)
Lemma event_size_checked e :
  AdmissionEvent.workload_type e = "batch_job" -> AdmissionEvent.outcome e = "admitted" ->
  AdmissionEvent.reason e = "admitted" -> AdmissionEvent.policy e = ANY ->
  AdmissionEvent.selected_vendor e = Some NVIDIA -> AdmissionEvent.selected_kind e = Some GPU ->
  is_none (AdmissionEvent.selected_model e) = false -> AdmissionEvent.model_variant_id e = None ->
  is_none (AdmissionEvent.allocation_authority e) = false -> none_null (profile_columns e) = true ->
  match AdmissionEvent.runtime_profile_digest e with Some d => sha256_digest d | None => true end = true ->
  16384 < slen (dumps (AdmissionEvent.candidate_summary e)) ->
  event_checks e = Some "candidate_summary_size".
Proof.
  intros E1 E2 E3 E4 E5 E6 E7 E8 E9 E10 E11 Hs. unfold event_checks.
  assert (is_none (AdmissionEvent.runtime_profile_id e) = false) as Ei.
  { unfold none_null, profile_columns in E10. cbn in E10. apply andb_prop in E10 as [E10 _].
    by apply negb_true_iff in E10. }
  rewrite E1, E2, E3, E4, E5, E6, E7, E8, E9, E10, Ei, !orb_true_r, !andb_false_r. cbn [is_none negb andb orb].
  assert (match AdmissionEvent.runtime_profile_digest e with Some d => negb (sha256_digest d) | None => false end = false) as ->.
  { destruct (AdmissionEvent.runtime_profile_digest e); [by rewrite E11|done]. }
  rewrite (proj2 (Z.ltb_lt _ _) Hs), ?orb_true_r, ?andb_false_r. reflexivity.
Qed.

(** The event of the selected pool. *)
Definition selected_event (project_id task_id : N) (summary : list JsObject) (now : Z) : AdmissionEvent.t :=
  AdmissionEvent.mk project_id "batch_job" task_id None ANY "admitted" "admitted" (Some NVIDIA) (Some GPU)
    (Some "A100") (Some "vllm-cuda") (Some "1.0.0")
    (Some "sha256:0123456789abcdef0123456789abcdef0123456789abcdef0123456789abcdef") None
    (Some KUBERNETES_DEVICE_PLUGIN) (_bounded_summary summary) now.

Lemma selected_event_run project_id task_id summary db :
  record_event project_id "batch_job" task_id ANY "admitted" "admitted" summary (Some (pool_candidate 10)) None db
  = (insert_event (selected_event project_id task_id summary (Db.clock db))
       ≫= fun _ => mret (selected_event project_id task_id summary (Db.clock db))) db.
Proof. reflexivity. Qed.

(** The bound of a summary does not imply the constraint of its column.
    On a cluster of 29 nodes the vendor policy selects a pool for a batch task
    and the summary of its decision is within [_CANDIDATE_SUMMARY_MAX_BYTES],
    but the stored text has the separators of [json.dumps]: inserting the
    event raises an integrity error, in every database, and the admission of
    the task fails with it. *)
Theorem admission_event_overflows project_id task_id db :
  choose_admission pool_request pool_candidates = inr pool_decision
  /\ _summary_size (candidate_summary pool_candidates pool_decision) <= _CANDIDATE_SUMMARY_MAX_BYTES
  /\ is_Some (AdmissionDecision.selected_candidate pool_decision)
  /\ record_event project_id "batch_job" task_id ANY "admitted" "admitted"
       (candidate_summary pool_candidates pool_decision) (AdmissionDecision.selected_candidate pool_decision) None db
     = (inl (IntegrityError "candidate_summary_size"), db).
Proof.
  destruct pool_selects as [Ed Esel]. rewrite pool_summary, Esel.
  split_and!; [exact Ed|exact pool_fits|eauto|]. rewrite selected_event_run. unfold insert_event, mbind, M_bind.
  rewrite event_size_checked; [reflexivity..|].
  unfold selected_event. cbn [AdmissionEvent.candidate_summary]. rewrite pool_bounded. exact pool_text.
Qed.
