(* ===== verification/ServiceControl.v ===== *)
(** * Background control of services

    The three loops of the control plane that act on services:
    [api/services/service_reconciler.py], [api/services/service_health.py] and
    [api/services/autoscaler.py].  What the loops learn from outside (HTTP
    answers, load metrics, the readiness of the Kubernetes runtime) is an
    argument; [host_now] is the process clock that an update without an
    explicit [updated_at] stores. *)

From S2P Require Import Prelude PyString PyUrl PyFloat Enums Store Names Quotas Tasks Services ModelRegistry.
From S2P Require Import RuntimeProfiles AdmissionPlan Admission.
From Stdlib Require Import String.
From stdpp Require Import pretty.

#[local] Open Scope stdpp_scope.
#[local] Open Scope Z_scope.

(** ** The reconciler *)
Module ServiceReconciler.

Module Config.
Record t := mk {
  batch_size : Z;
  drain_timeout_seconds : float;
  kubernetes_drain_timeout_seconds : option float;
}.
End Config.

Definition negative (t : option float) : bool := match t with Some t => flt t f0 | None => false end.

(** [ServiceReconciler.__init__] *)
Definition init (c : Config.t) : Sess unit :=
  _ ← raise_if (Config.batch_size c <? 1) (ValueError "batch_size must be at least one");
  _ ← raise_if (flt (Config.drain_timeout_seconds c) f0)
        (ValueError "drain_timeout_seconds must not be negative");
  raise_if (negative (Config.kubernetes_drain_timeout_seconds c))
    (ValueError "kubernetes_drain_timeout_seconds must not be negative").

(** One transaction: expired leases first, then the services that differ
    from their intent.  [locked_leases] and [locked] are the services each
    query skips. *)
Definition run_once (c : Config.t) (new_id : N -> Z -> N) (locked_leases locked : gset N)
  : Sess ReconcileResult.t :=
  atomically (
    _ ← ServiceRepository.recover_expired_leases (Z.to_nat (Config.batch_size c)) locked_leases;
    ServiceRepository.reconcile_batch new_id (Z.to_nat (Config.batch_size c)) locked
      (Config.drain_timeout_seconds c) (Config.kubernetes_drain_timeout_seconds c)).

Definition reconcile_service (c : Config.t) (new_id : Z -> N) (service_id : N) (project_id : option N)
  : Sess (option ReconcileResult.t) :=
  atomically (
    service ← ServiceRepository.get service_id project_id;
    match service with
    | None => mret None
    | Some service =>
        result ← ServiceRepository.reconcile_locked new_id service None
          (ServiceRepository.resolved_drain_timeout service (Config.drain_timeout_seconds c)
             (Config.kubernetes_drain_timeout_seconds c));
        mret (Some result)
    end).

Definition choose_endpoint (service_id project_id : N) : Sess (option EndpointSelection.t) :=
  atomically (ServiceRepository.choose_healthy_endpoint service_id project_id).
End ServiceReconciler.

(** ** The health controller *)
Module HealthProbe.
Record t := mk {
  replica_id : N;
  generation : Z;
  execution_id : N;
  endpoint_url : string;
  token : N;
}.
End HealthProbe.

Module ProbeOutcome.
Record t := mk { probe : HealthProbe.t; healthy : bool; error_message : option string }.
End ProbeOutcome.

Module HealthRunResult.
Record t := mk { claimed : Z; healthy : Z; failed : Z; stale : Z }.
End HealthRunResult.

(** What the HTTP client answers. *)
Inductive HttpAnswer :=
| Response (status_code : Z)
| TimeoutException
| RequestError (type_name : string).

Module ServiceHealthController.

Module Config.
Record t := mk {
  timeout_seconds : float;
  interval_seconds : float;
  failure_threshold : Z;
  batch_size : Z;
  concurrency : Z;
}.

(** [self.claim_seconds = max(5.0, timeout_seconds * 2)] *)
Definition claim_seconds (c : t) : float := fmax (float_of_Z 5) (fmul (timeout_seconds c) (float_of_Z 2)).
End Config.

(** [ServiceHealthController.__init__] *)
Definition init (c : Config.t) : Sess unit :=
  _ ← raise_if (fle (Config.timeout_seconds c) f0 || fle (Config.interval_seconds c) f0)
        (ValueError "timeout_seconds and interval_seconds must be positive");
  _ ← raise_if (Config.failure_threshold c <? 1) (ValueError "failure_threshold must be at least one");
  raise_if ((Config.batch_size c <? 1) || (Config.concurrency c <? 1))
    (ValueError "batch_size and concurrency must be at least one").

(** [x IS NULL OR x <= t] and [x IS NULL OR x < t] *)
Definition null_or_le (x : option Z) (t : Z) : bool := match x with None => true | Some x => x <=? t end.
Definition null_or_lt (x : option Z) (t : Z) : bool := match x with None => true | Some x => x <? t end.

Definition probe_due (db : Db.t) (now due_before : Z) (r : Rep) : bool :=
  match Db.services db !! ServiceReplica.service_id r with
  | Some s =>
      (ServiceReplica.generation r =? ModelService.generation s)
      && (ServiceReplica.status r == ReplicaStatus.RUNNING)
      && negb (is_none (ServiceReplica.execution_id r)) && truthy (ServiceReplica.endpoint_url r)
      && (0 <? ModelService.desired_replicas s)
      && null_or_le (ServiceReplica.last_health_at r) due_before
      && null_or_lt (ServiceReplica.health_probe_expires_at r) now
  | None => false
  end.

(** [last_health_at ASC NULLS FIRST, id] *)
Definition nulls_first (x : option Z) : Z * Z := match x with None => (0, 0) | Some t => (1, t) end.

Definition claim_probe (token : N -> N) (claimed_until host_now : Z) (probes : list HealthProbe.t) (replica : Rep)
  : Sess (list HealthProbe.t) :=
  match ServiceReplica.execution_id replica, ServiceReplica.endpoint_url replica with
  | Some execution_id, Some endpoint_url =>
      let token := token (ServiceReplica.id replica) in
      _ ← update_replica replica (fun r => r <| ServiceReplica.health_probe_token := Some token |>
            <| ServiceReplica.health_probe_expires_at := Some claimed_until |>
            <| ServiceReplica.updated_at := host_now |>);
      mret (probes ++ [HealthProbe.mk (ServiceReplica.id replica) (ServiceReplica.generation replica)
                         execution_id endpoint_url token])
  | _, _ => raise (RuntimeError "AssertionError")
  end.

Definition _claim_probes (c : Config.t) (token : N -> N) (host_now : Z) (locked : gset N)
  : Sess (list HealthProbe.t) :=
  now ← database_utcnow;
  due_before ← minus_seconds now (Config.interval_seconds c);
  replicas ← gets (fun db => take (Z.to_nat (Config.batch_size c))
    (py_sort (fun r => (nulls_first (ServiceReplica.last_health_at r), ServiceReplica.id r))
       (List.filter (fun r => probe_due db now due_before r
                              && negb (bool_decide (ServiceReplica.id r ∈ locked)))
          (rows (Db.replicas db)))));
  claimed_until ← plus_seconds now (Config.claim_seconds c);
  foldM replicas [] (claim_probe token claimed_until host_now).

Definition _probe (answer : HttpAnswer) (probe : HealthProbe.t) : ProbeOutcome.t :=
  match answer with
  | Response status_code =>
      if (200 <=? status_code) && (status_code <? 300) then ProbeOutcome.mk probe true None
      else ProbeOutcome.mk probe false
             (Some ("health endpoint returned HTTP " +:+ pretty status_code))
  | TimeoutException => ProbeOutcome.mk probe false (Some "health probe timed out")
  | RequestError type_name =>
      ProbeOutcome.mk probe false
        (Some (String.substring 0 512 ("health probe transport error: " +:+ type_name)))
  end.

Definition settle (c : Config.t) (o : ProbeOutcome.t) : Sess bool :=
  atomically (ServiceRepository.record_replica_health (HealthProbe.replica_id (ProbeOutcome.probe o))
    (HealthProbe.generation (ProbeOutcome.probe o)) (HealthProbe.execution_id (ProbeOutcome.probe o))
    (if ProbeOutcome.healthy o then ReplicaHealth.HEALTHY else ReplicaHealth.UNHEALTHY)
    (ProbeOutcome.error_message o) (Config.failure_threshold c)
    (Some (HealthProbe.token (ProbeOutcome.probe o))) None None).

(** The transactions of one pass in sequence; [http] answers each probe. *)
Definition run_once (c : Config.t) (token : N -> N) (host_now : Z) (locked : gset N)
    (http : string -> HttpAnswer) : Sess HealthRunResult.t :=
  probes ← atomically (_claim_probes c token host_now locked);
  let outcomes := (fun p => _probe (http (HealthProbe.endpoint_url p)) p) <$> probes in
  foldM outcomes (HealthRunResult.mk (lenZ probes) 0 0 0) (fun r o =>
    accepted ← settle c o;
    mret (if negb accepted
          then HealthRunResult.mk (HealthRunResult.claimed r) (HealthRunResult.healthy r)
                 (HealthRunResult.failed r) (HealthRunResult.stale r + 1)
          else if ProbeOutcome.healthy o
          then HealthRunResult.mk (HealthRunResult.claimed r) (HealthRunResult.healthy r + 1)
                 (HealthRunResult.failed r) (HealthRunResult.stale r)
          else HealthRunResult.mk (HealthRunResult.claimed r) (HealthRunResult.healthy r)
                 (HealthRunResult.failed r + 1) (HealthRunResult.stale r))).
End ServiceHealthController.

(** ** The autoscaler *)
Module ServiceLoad.
Record t := mk { active_requests : Z; observed_at : Z }.
End ServiceLoad.

Module AutoscaleRunResult.
Record t := mk { examined : Z; scaled : Z; held : Z; missing_metrics : Z; cooling_down : Z }.
End AutoscaleRunResult.

Module ServiceAutoscaler.

Module Config.
Record t := mk {
  batch_size : Z;
  metric_max_age_seconds : float;
  scale_to_zero_enabled : bool;
  kubernetes_admission_ready : bool;
}.
End Config.

(** [ServiceAutoscaler.__init__] *)
Definition init (c : Config.t) : Sess unit :=
  _ ← raise_if (Config.batch_size c <? 1) (ValueError "batch_size must be at least one");
  raise_if (fle (Config.metric_max_age_seconds c) f0)
    (ValueError "metric_max_age_seconds must be positive").

(** [math.ceil] of a finite float *)
Definition py_ceil (x : float) : Z := let '(n, d) := float_ratio x in - ((- n) / d).

Definition _target_replicas (service : Svc) (active_requests : Z) (scale_to_zero_enabled : bool) : Z :=
  let minimum := ModelService.autoscaling_min_replicas service in
  let minimum := if scale_to_zero_enabled then minimum else Z.max 1 minimum in
  let requested := py_ceil (truediv active_requests (ModelService.autoscaling_target_concurrency service)) in
  Z.min (ModelService.autoscaling_max_replicas service) (Z.max minimum requested).

Definition _in_cooldown (service : Svc) (now : Z) : bool :=
  match ModelService.last_scaled_at service with
  | None => false
  | Some t => flt (total_seconds (now - t)) (float_of_Z (ModelService.autoscaling_cooldown_seconds service))
  end.

Definition _usable_load (load : option ServiceLoad.t) (now : Z) (max_age_seconds : float) : bool :=
  match load with
  | None => false
  | Some load =>
      if ServiceLoad.active_requests load <? 0 then false
      else
        let age := total_seconds (now - ServiceLoad.observed_at load) in
        fle (float_of_Z (-5)) age && fle age max_age_seconds
  end.

(** What one candidate counts as. *)
Inductive Verdict := Skipped | Missing | Cooling | Held | Vanished | Scaled.

(** [(id, logical_model_id, runtime_type, last_autoscale_checked_at)] *)
Definition Candidate : Type := N * option N * RuntimeType * option Z.

Definition candidate_of (s : Svc) : Candidate :=
  (ModelService.id s, ModelService.logical_model_id s, ModelService.runtime_type s,
   ModelService.last_autoscale_checked_at s).

(** The services with autoscaling, least recently checked first: a cursor over
    all of them, on SQLite a snapshot of the first [batch_size]. *)
Definition _candidates (sqlite : bool) (batch_size : Z) (db : Db.t) : list Candidate :=
  let query := candidate_of <$>
    py_sort (fun s => (ServiceHealthController.nulls_first (ModelService.last_autoscale_checked_at s),
                       ModelService.id s))
      (List.filter ModelService.autoscaling_enabled (rows (Db.services db))) in
  if sqlite then take (Z.to_nat batch_size) query else query.

(** The logical model whose lock a Kubernetes candidate needs. *)
Definition admission_model (runtime_type : RuntimeType) (logical_model_id : option N) : option N :=
  if runtime_type == KUBERNETES then logical_model_id else None.

Definition lockable (db : Db.t) (locked_models : gset N) (model : option N) : bool :=
  match model with
  | Some i => negb (is_none (Db.logical_models db !! i)) && negb (bool_decide (i ∈ locked_models))
  | None => true
  end.

Section pass.
(** The load metrics, the process clock, the locked rows, and the runtime
    profile catalog, if one is configured. *)
Context (c : Config.t) (metrics : N -> option ServiceLoad.t) (host_now : Z)
  (locked_models locked_services : gset N)
  (catalog : option Catalog).

(** The scaling decision, once load and cooldown allow one. *)
Definition scale (service : Svc) (target now : Z) : Sess Verdict :=
  let up := ModelService.desired_replicas service <? target in
  let kubernetes := ModelService.runtime_type service == KUBERNETES in
  if kubernetes && up && negb (Config.kubernetes_admission_ready c) then mret Held
  else
    admission ←
      (if kubernetes && negb (is_none (ModelService.logical_model_id service)) && up
       then match catalog with
            | None => mret None
            | Some catalog =>
                admission ← revalidate_logical_model_service_scale catalog service target;
                mret ((fun s => Some (ServiceAdmissionSnapshot.eligible_node_names s))
                      <$> AdmissionResult.snapshot admission)
            end
       else mret (Some None));
    match admission with
    | None => mret Held
    | Some eligible_node_names =>
        try_except (
          updated ← ServiceRepository.set_desired_replicas (ModelService.id service)
            (ModelService.project_id service) target eligible_node_names;
          match updated with
          | None => mret Vanished
          | Some updated => _ ← update_service updated (fun s => s <| ModelService.last_scaled_at := Some now |>); mret Scaled
          end)
          (fun e => match e with QuotaExceededError _ => Some (mret Held) | _ => None end)
    end.

(** One candidate, in its own transaction. *)
Definition examine (candidate : Candidate) : Sess Verdict :=
  let '(service_id, logical_model_id, runtime_type, checked_at) := candidate in
  let expected_logical_model_id := admission_model runtime_type logical_model_id in
  model_locked ← gets (fun db => lockable db locked_models expected_logical_model_id);
  if negb model_locked then mret Skipped
  else
    service ← gets (fun db =>
      match Db.services db !! service_id with
      | Some s => if ModelService.autoscaling_enabled s && negb (bool_decide (service_id ∈ locked_services))
                  then Some s else None
      | None => None
      end);
    match service with
    | None => mret Skipped
    | Some service =>
        if ModelService.last_autoscale_checked_at service !== checked_at then mret Skipped
        else if admission_model (ModelService.runtime_type service) (ModelService.logical_model_id service)
                !== expected_logical_model_id
        then mret Skipped
        else
          _ ← get_locked (ModelService.project_id service);
          now ← database_utcnow;
          service ← update_service service (fun s => s
            <| ModelService.last_autoscale_checked_at := Some now |> <| ModelService.updated_at := host_now |>);
          let load := metrics (ModelService.id service) in
          match load with
          | None => mret Missing
          | Some l =>
              if negb (_usable_load load now (Config.metric_max_age_seconds c)) then mret Missing
              else if _in_cooldown service now then mret Cooling
              else
                let target := _target_replicas service (ServiceLoad.active_requests l)
                                (Config.scale_to_zero_enabled c) in
                if target =? ModelService.desired_replicas service then mret Held
                else scale service target now
          end
    end.

Definition tally (r : AutoscaleRunResult.t) (v : Verdict) : AutoscaleRunResult.t :=
  let '(AutoscaleRunResult.mk examined scaled held missing cooling) := r in
  match v with
  | Skipped => r
  | Missing => AutoscaleRunResult.mk (examined + 1) scaled held (missing + 1) cooling
  | Cooling => AutoscaleRunResult.mk (examined + 1) scaled held missing (cooling + 1)
  | Held => AutoscaleRunResult.mk (examined + 1) scaled (held + 1) missing cooling
  | Vanished => AutoscaleRunResult.mk (examined + 1) scaled held missing cooling
  | Scaled => AutoscaleRunResult.mk (examined + 1) (scaled + 1) held missing cooling
  end.

Fixpoint pass (candidates : list Candidate) (r : AutoscaleRunResult.t) : Sess AutoscaleRunResult.t :=
  match candidates with
  | [] => mret r
  | candidate :: rest =>
      if Config.batch_size c <=? AutoscaleRunResult.examined r then mret r
      else v ← atomically (examine candidate); pass rest (tally r v)
  end.

Definition run_once (sqlite : bool) : Sess AutoscaleRunResult.t :=
  candidates ← gets (_candidates sqlite (Config.batch_size c));
  pass candidates (AutoscaleRunResult.mk 0 0 0 0 0).
End pass.
End ServiceAutoscaler.
