(* ===== verification/Scheduling.v ===== *)
(** * The scheduling repository ([repositories/scheduling.py])

    Candidate lanes, snapshots, the fenced placement mutation and preemption
    requests of the global scheduler.  [place] binds concrete devices, or, with
    a vendor admission, takes capacity of a Kubernetes pool. *)

From S2P Require Import Prelude PyFloat PyString Enums Policies Store Quotas Reservations Tasks.
From S2P Require Import RuntimeProfiles AdmissionPlan Admission.
From Stdlib Require Import QArith.

#[local] Open Scope stdpp_scope.
#[local] Open Scope Z_scope.

Import Task StateMachine.

(** ** Snapshots *)
Definition task_snapshot (t : Task.t) : TaskSnapshot.t :=
  TaskSnapshot.mk (uuid_str (id t)) (uuid_str (project_id t)) (status t)
    (RuntimeType_value (runtime_type t)) (cpu_millicores t) (memory_limit_mb t) (gpu_count t)
    (gpu_memory_mb t) (gpu_model t) (labels t) (tolerations t) (priority t) (queued_at t)
    (queue_order t).

Definition worker_snapshot (w : Worker.t) (devices : list GPUDeviceSnapshot.t) : WorkerSnapshot.t :=
  WorkerSnapshot.mk (Worker.id w) (Worker.status w) (Worker.runtime_types w)
    (Worker.running_tasks w) (Worker.concurrency w) (Worker.cpu_allocatable_millicores w)
    (millicores (Worker.reserved_cpu w)) (Worker.memory_allocatable_mb w)
    (Worker.reserved_memory_mb w) (Worker.labels w) (Worker.taints w) devices
    (Worker.overcommitted w).

Definition device_snapshot (allocated : bool) (d : GPUDevice.t) : GPUDeviceSnapshot.t :=
  GPUDeviceSnapshot.mk (uuid_str (GPUDevice.id d)) (GPUDevice.device_uuid d) (GPUDevice.model d)
    (GPUDevice.memory_total_mb d) (Some (GPUDevice.memory_free_mb d))
    (GPUDevice.health d == "healthy") allocated.

(** The devices with an active link. *)
Definition allocated_devices (db : Db.t) : list N :=
  (fun x : (N * N) * ReservationGPUDevice.t => x.1.2)
    <$> List.filter (fun x : (N * N) * ReservationGPUDevice.t => active_link x.2)
          (map_to_list (Db.links db)).

Definition nvidia_gpu (d : GPUDevice.t) : bool :=
  (GPUDevice.vendor d == NVIDIA) && (GPUDevice.accelerator_kind d == GPU).

Definition worker_snapshots (db : Db.t) : list WorkerSnapshot.t :=
  let allocated := allocated_devices db in
  (fun w => worker_snapshot w
     ((fun d => device_snapshot (inb (GPUDevice.id d) allocated) d)
        <$> py_sort (fun d => (GPUDevice.memory_total_mb d, GPUDevice.device_uuid d))
              (List.filter (fun d => (GPUDevice.worker_id d == Worker.id w) && nvidia_gpu d)
                 (rows (Db.gpu_devices db)))))
  <$> py_sort Worker.id
        (List.filter (fun w => Worker.status w == ONLINE) (rows (Db.workers db))).

(** ** Candidates *)
Definition _candidate_conditions (db : Db.t) (excluded : list N) (t : Task.t) : bool :=
  (status t == QUEUED) && negb (cancel_requested t) && negb (_unsatisfied_dependencies db (id t))
  && negb (inb (id t) excluded).

(** [_effective_priority_expression] as PostgreSQL evaluates it, on exact
    elapsed microseconds. *)
Definition _effective_priority_expression (now aging_interval_seconds : Z) (t : Task.t) : Z :=
  let elapsed := match queued_at t with None => 0 | Some q => Z.max 0 (now - q) end in
  Z.min 100 (priority t + elapsed / (aging_interval_seconds * 1000000)).

(** [ORDER BY queue_order, queued_at, id] *)
Definition fifo_key (t : Task.t) : Z * ((bool * Z) * N) :=
  (queue_order t, (nulls_last (queued_at t), id t)).

Definition unschedulable (t : Task.t) : bool := negb (is_none (unschedulable_reason t)).

Definition candidate_query (db : Db.t) (scan_limit : nat) (excluded : list N) (now aging : Z)
  : list Task.t :=
  take scan_limit
    (py_sort (fun t => (unschedulable t, (- _effective_priority_expression now aging t, fifo_key t)))
       (List.filter (_candidate_conditions db excluded) (rows (Db.tasks db)))).

Definition priority_candidate_query (db : Db.t) (scan_limit : nat) (excluded : list N)
  : list Task.t :=
  take scan_limit
    (py_sort (fun t => (unschedulable t, (- priority t, fifo_key t)))
       (List.filter (_candidate_conditions db excluded) (rows (Db.tasks db)))).

Module Cluster.
Record t := mk { cpu : Z; memory : Z; gpus : Z }.
End Cluster.

(** [coalesce(sum(...), 0)] over the online workers. *)
Definition cluster_totals (db : Db.t) : Cluster.t :=
  let online := List.filter (fun w => Worker.status w == ONLINE) (rows (Db.workers db)) in
  let total f := foldr Z.add 0 (f <$> online) in
  Cluster.mk (total Worker.cpu_allocatable_millicores) (total Worker.memory_allocatable_mb)
    (total Worker.gpu_count).

(** The dominant share as the SQL expression computes it in doubles. *)
Definition dominant_share_expression (c : Cluster.t) (state : option QState) : float :=
  let coalesce f := match state with Some s => f s | None => 0 end in
  let share x n := fdiv (float_of_Z x) (float_of_Z n) in
  let cpu_share := share (coalesce ProjectQuotaState.reserved_cpu_millicores)
                         (Z.max 1 (Cluster.cpu c)) in
  let memory_share := share (coalesce ProjectQuotaState.reserved_memory_mb)
                            (Z.max 1 (Cluster.memory c)) in
  let gpus := coalesce ProjectQuotaState.reserved_gpus in
  let gpu_share := if Cluster.gpus c =? 0 then (if 0 <? gpus then f1 else f0)
                   else share gpus (Cluster.gpus c) in
  let cpu_or_memory := if fle memory_share cpu_share then cpu_share else memory_share in
  if fle gpu_share cpu_or_memory then cpu_or_memory else gpu_share.

(** [row_number() over (partition by project order by ...) = 1] *)
Definition project_head (now aging : Z) (eligible : list Task.t) (t : Task.t) : bool :=
  let key t := (unschedulable t, (- _effective_priority_expression now aging t, fifo_key t)) in
  forallb (fun t' => (project_id t' !== project_id t)
                     || match cmp (key t) (key t') with Gt => false | _ => true end) eligible.

Definition project_fair_candidate_query (db : Db.t) (scan_limit : nat) (c : Cluster.t)
    (excluded : list N) (now aging : Z) : list Task.t :=
  let eligible := List.filter (_candidate_conditions db excluded) (rows (Db.tasks db)) in
  take scan_limit
    (py_sort (fun t => (unschedulable t, (- _effective_priority_expression now aging t,
                        (dominant_share_expression c (Db.quota_states db !! project_id t),
                         fifo_key t))))
       (List.filter (project_head now aging eligible) eligible)).

Module SchedulerCandidate.
Record t := mk {
  task : Task.t;
  snapshot : TaskSnapshot.t;
  effective_priority : Z;
  project_dominant_share : float;
}.
End SchedulerCandidate.
Import SchedulerCandidate.

(** [tasks_by_id]: the first occurrence fixes the position. *)
Fixpoint dedup_tasks (seen : list N) (l : list Task.t) : list Task.t :=
  match l with
  | [] => []
  | t :: l' => if inb (id t) seen then dedup_tasks seen l'
               else t :: dedup_tasks (id t :: seen) l'
  end.

Definition candidate_key (c : SchedulerCandidate.t)
  : bool * (Z * (float * (Z * string))) :=
  (unschedulable (task c),
    (- SchedulerCandidate.effective_priority c,
      (project_dominant_share c,
        (TaskSnapshot.queue_order (snapshot c), TaskSnapshot.id (snapshot c))))).

Definition scheduler_candidate (db : Db.t) (now aging : Z) (c : Cluster.t) (t : Task.t)
  : SchedulerCandidate.t :=
  let s := task_snapshot t in
  SchedulerCandidate.mk t s (default 0 (Policies.effective_priority s now aging))
    (match Db.quota_states db !! project_id t with
     | Some state =>
         dominant_share (ProjectQuotaState.reserved_cpu_millicores state)
           (ProjectQuotaState.reserved_memory_mb state) (ProjectQuotaState.reserved_gpus state)
           (Cluster.cpu c) (Cluster.memory c) (Cluster.gpus c)
     | None => f0
     end).

(** [choose_candidates]; the interval was checked when the SQL expression was
    built, so [effective_priority] does not raise. *)
Definition choose_candidates (aging_interval_seconds : Z) (scan_limit : Z) (excluded : list N)
  : Sess (list SchedulerCandidate.t) :=
  _ ← raise_if (scan_limit <? 1) (ValueError "scan_limit must be at least one");
  now ← database_utcnow;
  _ ← raise_if (aging_interval_seconds <? 1)
        (ValueError "aging_interval_seconds must be at least one");
  gets (fun db =>
    let c := cluster_totals db in
    let n := Z.to_nat scan_limit in
    let tasks := dedup_tasks []
      (candidate_query db n excluded now aging_interval_seconds
       ++ priority_candidate_query db n excluded
       ++ project_fair_candidate_query db n c excluded now aging_interval_seconds) in
    py_sort candidate_key (scheduler_candidate db now aging_interval_seconds c <$> tasks)).

Definition choose_next_candidate (aging_interval_seconds : Z) (scan_limit : Z) (excluded : list N)
  : Sess (option SchedulerCandidate.t) :=
  candidates ← choose_candidates aging_interval_seconds scan_limit excluded;
  mret (head candidates).

Definition mark_unschedulable (task_id : N) (reason : string) : Sess bool :=
  task ← get_task task_id;
  match task with
  | None => mret false
  | Some task =>
      if (status task !== QUEUED) || cancel_requested task then mret false
      else
        _ ← when (unschedulable_reason task !== Some reason)
              (put_task (task <| unschedulable_reason := Some reason |> <| version ::= Z.succ |>));
        mret true
  end.

(** ** Placement *)
Definition _record_task_event (task : Task.t) (previous_status : TaskStatus) (event_type : string)
    (now : Z) (details : list (string * Json)) : Sess unit :=
  add_event (TaskEvent.mk (project_id task) (id task) event_type (version task)
               (Some previous_status) (status task) (execution_id task) (worker_id task)
               details now).

(** The counters of a worker after a placement: the CPU share grows by
    [cpu_millicores / 1000]. *)
Definition worker_placed (worker : Worker.t) (task : Task.t) : Worker.t :=
  worker <| Worker.running_tasks ::= Z.succ |>
         <| Worker.reserved_cpu ::= fun c => fadd c (truediv (cpu_millicores task) 1000) |>
         <| Worker.reserved_memory_mb ::= Z.add (memory_limit_mb task) |>
         <| Worker.reserved_gpus ::= Z.add (gpu_count task) |>
         <| Worker.version ::= Z.succ |>.

(** The requested devices that can still be bound. *)
Definition place_devices (db : Db.t) (worker : Worker.t) (requested : list N) : list GPUDevice.t :=
  py_sort GPUDevice.id
    (List.filter (fun d => inb (GPUDevice.id d) requested
                           && (GPUDevice.worker_id d == Worker.id worker)
                           && (GPUDevice.health d == "healthy") && nvidia_gpu d)
       (rows (Db.gpu_devices db))).

(** The devices of an admitted pool: the rows the query locks. *)
Definition pool_devices (db : Db.t) (worker : Worker.t) (a : BatchAdmissionSnapshot.t) : list GPUDevice.t :=
  py_sort GPUDevice.device_uuid
    (List.filter (fun d => (GPUDevice.worker_id d == Worker.id worker)
                           && usable_health (GPUDevice.health d)
                           && (GPUDevice.inventory_generation d =? Worker.inventory_generation worker)
                           && (GPUDevice.vendor d == BatchAdmissionSnapshot.vendor a)
                           && (GPUDevice.accelerator_kind d == BatchAdmissionSnapshot.kind a)
                           && (GPUDevice.model d == BatchAdmissionSnapshot.selected_model a)
                           && (GPUDevice.kubernetes_resource_name d
                               == Some (BatchAdmissionSnapshot.accelerator_resource_name a))
                           && (GPUDevice.kubernetes_node_name d == Some (BatchAdmissionSnapshot.node_name a)))
       (rows (Db.gpu_devices db))).

Definition pool_device_snapshot (d : GPUDevice.t) : GPUDeviceSnapshot.t :=
  (device_snapshot false d) <| GPUDeviceSnapshot.healthy := usable_health (GPUDevice.health d) |>.

(** The devices of a placement with an admission, whose pool must still have
    the capacity. *)
Definition admitted_devices (catalog : option Catalog) (a : BatchAdmissionSnapshot.t) (task : Task.t)
    (worker : Worker.t) : Sess (list GPUDevice.t) :=
  match catalog with
  | None => raise (PlacementConflict "runtime profile catalog is unavailable")
  | Some catalog =>
      devices ← gets (fun db => pool_devices db worker a);
      binding_id ← runtime_profile_binding_id (BatchAdmissionSnapshot.runtime_profile_id a)
                     (BatchAdmissionSnapshot.runtime_profile_version a)
                     (BatchAdmissionSnapshot.runtime_profile_digest a);
      let required := match accelerator_request_json task with
                      | Some r => AcceleratorRequest.required_capabilities r
                      | None => []
                      end in
      available ← available_batch_accelerators_for_pool catalog (Worker.id worker)
        (BatchAdmissionSnapshot.node_name a) (BatchAdmissionSnapshot.vendor a) (BatchAdmissionSnapshot.kind a)
        (BatchAdmissionSnapshot.selected_model a) (BatchAdmissionSnapshot.runtime_profile_id a)
        (BatchAdmissionSnapshot.runtime_profile_version a) (BatchAdmissionSnapshot.runtime_profile_digest a)
        (BatchAdmissionSnapshot.accelerator_resource_name a) (gpu_memory_mb task) (list_to_set required);
      _ ← raise_if (available <? gpu_count task) (PlacementConflict "vendor accelerator capacity changed");
      mret (List.filter (fun d => inb binding_id (GPUDevice.runtime_profile_ids d)) devices)
  end.

(** The devices of a placement on concrete devices. *)
Definition requested_devices (task : Task.t) (worker : Worker.t) (requested : list N) : Sess (list GPUDevice.t) :=
  devices ← gets (fun db => if bool_decide (requested = []) then [] else place_devices db worker requested);
  _ ← (if bool_decide (requested = [])
       then raise_if (negb (gpu_count task =? 0))
              (PlacementConflict "GPU task requires concrete device reservations")
       else
         _ ← raise_if (negb (lenZ devices =? gpu_count task)) (PlacementConflict "GPU device inventory changed");
         allocated ← gets allocated_devices;
         raise_if (existsb (fun d => inb d allocated) requested)
           (PlacementConflict "a selected GPU was allocated concurrently"));
  mret devices.

Definition allocation_of (admission : option BatchAdmissionSnapshot.t) : Allocation.t :=
  match admission with
  | None => Allocation.exact
  | Some a => Allocation.mk (BatchAdmissionSnapshot.allocation_authority a) (BatchAdmissionSnapshot.vendor a)
                (BatchAdmissionSnapshot.kind a) (Some (BatchAdmissionSnapshot.runtime_profile_id a))
                (Some (BatchAdmissionSnapshot.runtime_profile_version a))
                (Some (BatchAdmissionSnapshot.runtime_profile_digest a))
  end.

(** The admission a task keeps. *)
Definition admitted_task (admission : option BatchAdmissionSnapshot.t) (task : Task.t) : Task.t :=
  match admission with
  | None => task <| kubernetes_node_name := None |>
  | Some a =>
      task <| kubernetes_node_name := Some (BatchAdmissionSnapshot.node_name a) |>
           <| selected_vendor := Some (BatchAdmissionSnapshot.vendor a) |>
           <| selected_kind := Some (BatchAdmissionSnapshot.kind a) |>
           <| selected_model := Some (BatchAdmissionSnapshot.selected_model a) |>
           <| runtime_profile_id := Some (BatchAdmissionSnapshot.runtime_profile_id a) |>
           <| runtime_profile_version := Some (BatchAdmissionSnapshot.runtime_profile_version a) |>
           <| runtime_profile_digest := Some (BatchAdmissionSnapshot.runtime_profile_digest a) |>
           <| allocation_authority := Some (BatchAdmissionSnapshot.allocation_authority a) |>
  end.

(** [SCHEDULING -> ASSIGNED] on the task object; [bound] are the devices of a
    placement without an admission. *)
Definition placed_task (admission : option BatchAdmissionSnapshot.t) (task : Task.t) (worker : Worker.t) (eid : N)
    (bound : list GPUDevice.t) (now expiry : Z) : Task.t :=
  (admitted_task admission
     ((_prepare_for_assignment task)
        <| status := ASSIGNED |> <| assigned_at := Some now |>
        <| worker_id := Some (Worker.id worker) |> <| execution_id := Some eid |>
        <| lease_expires_at := Some expiry |>
        <| gpu_device_ids := GPUDevice.device_uuid <$> bound |>))
    <| unschedulable_reason := None |> <| version ::= Z.succ |>.

Definition place (eid rid : N) (task_id : N) (worker_id : string) (requested_device_ids : list N)
    (lease_seconds : float) (prices : Prices.t) (admission : option BatchAdmissionSnapshot.t)
    (runtime_profile_catalog : option Catalog) : Sess (Task.t * N) :=
  task ← get_task task_id;
  match task with
  | None => raise (PlacementConflict "task is no longer queued")
  | Some task =>
      _ ← raise_if ((status task !== QUEUED) || cancel_requested task)
            (PlacementConflict "task is no longer queued");
      ready ← dependencies_ready (id task);
      _ ← raise_if (negb ready) (PlacementConflict "task dependencies are not ready");
      _ ← get_locked (project_id task);
      worker ← get_worker worker_id;
      match worker with
      | None => raise (PlacementConflict "worker is unavailable")
      | Some worker =>
          _ ← raise_if ((Worker.status worker !== ONLINE) || Worker.overcommitted worker)
                (PlacementConflict "worker is unavailable");
          _ ← raise_if (match admission with
                        | Some a => (BatchAdmissionSnapshot.worker_id a !== Worker.id worker)
                                    || (BatchAdmissionSnapshot.worker_session_id a !== Worker.worker_session_id worker)
                        | None => false
                        end) (PlacementConflict "vendor admission worker fence changed");
          _ ← raise_if (match admission with
                        | Some a => BatchAdmissionSnapshot.node_name a == ""
                        | None => false
                        end) (PlacementConflict "vendor admission node snapshot is missing");
          _ ← raise_if (Worker.concurrency worker <=? Worker.running_tasks worker)
                (PlacementConflict "worker has no free execution slot");
          _ ← raise_if (flt (float_of_Z (Worker.cpu_allocatable_millicores worker))
                          (fadd (fmul (Worker.reserved_cpu worker) (float_of_Z 1000))
                                (float_of_Z (cpu_millicores task))))
                (PlacementConflict "worker CPU capacity changed");
          _ ← raise_if (Worker.memory_allocatable_mb worker
                        <? Worker.reserved_memory_mb worker + memory_limit_mb task)
                (PlacementConflict "worker memory capacity changed");
          _ ← raise_if (negb (is_none admission) && negb (bool_decide (requested_device_ids = [])))
                (PlacementConflict "kubernetes_device_plugin admission must not bind database device rows");
          devices ← match admission with
                    | Some a => admitted_devices runtime_profile_catalog a task worker
                    | None => requested_devices task worker requested_device_ids
                    end;
          let snapshots := match admission with
                           | Some _ => pool_device_snapshot <$> devices
                           | None => device_snapshot false <$> devices
                           end in
          _ ← match evaluate_snapshot (worker_snapshot worker snapshots) (task_snapshot task) with
              | inl _ => raise (PlacementConflict "worker no longer satisfies task requirements")
              | inr _ => mret tt
              end;
          now ← database_utcnow;
          _ ← ensure_transition (status task) SCHEDULING;
          let scheduling := task <| status := SCHEDULING |> <| version ::= Z.succ |> in
          _ ← put_task scheduling;
          _ ← _record_task_event scheduling (status task) "task.scheduling" now [];
          _ ← ensure_transition (status scheduling) ASSIGNED;
          let bound := if is_none admission then devices else [] in
          expiry ← plus_seconds now lease_seconds;
          let task := placed_task admission scheduling worker eid bound now expiry in
          _ ← put_task task;
          _ ← _record_task_event task SCHEDULING "task.assigned" now [];
          _ ← reserve_assignment (allocation_of admission) eid rid task worker (worker_placed worker task) bound now
                prices;
          _ ← outbox_add (id task) "task.assigned"
                [("task_id", JUuid (id task)); ("worker_id", JStr (Worker.id worker));
                 ("worker_session_id", JUuid (Worker.worker_session_id worker));
                 ("execution_id", JUuid eid); ("gpu_device_ids", JList (gpu_device_ids task))]
                now;
          mret (task, eid)
      end
  end.

(** ** Preemption *)
Module PreemptionDecision.
Record t := mk {
  incoming_task_id : N;
  worker_id : string;
  victim_task_ids : list N;
  already_requested : bool;
}.
End PreemptionDecision.

Definition VICTIM_STATUSES : list TaskStatus := [ASSIGNED; PREPARING; PULLING; STARTING; RUNNING].

(** Descending order of a nullable column: PostgreSQL sorts NULLs first. *)
Definition nulls_first_desc (x : option Z) : bool * Z :=
  match x with None => (false, 0) | Some v => (true, - v) end.

Definition sum_of {A} (f : A -> Z) (l : list A) : Z := foldr (fun x acc => f x + acc) 0 l.

(** The worker as it would be without the selected victims. *)
Definition simulate_release (worker : WorkerSnapshot.t) (selected : list Task.t) : WorkerSnapshot.t :=
  let freed := concat (gpu_device_ids <$> selected) in
  worker <| WorkerSnapshot.running_tasks ::= fun n => Z.max 0 (n - lenZ selected) |>
         <| WorkerSnapshot.reserved_cpu_millicores ::= fun c =>
              Z.max 0 (c - sum_of cpu_millicores selected) |>
         <| WorkerSnapshot.reserved_memory_mb ::= fun m =>
              Z.max 0 (m - sum_of memory_limit_mb selected) |>
         <| WorkerSnapshot.gpu_devices ::= fmap (fun d =>
              if inb (GPUDeviceSnapshot.uuid d) freed
              then d <| GPUDeviceSnapshot.allocated := false |> else d) |>.

(** The shortest prefix of the victims whose release makes the worker
    feasible. *)
Fixpoint victim_prefix (worker : WorkerSnapshot.t) (incoming : TaskSnapshot.t)
    (selected rest : list Task.t) : option (list Task.t) :=
  match rest with
  | [] => None
  | victim :: rest' =>
      let selected := selected ++ [victim] in
      match evaluate_snapshot (simulate_release worker selected) incoming with
      | inr _ => Some selected
      | inl _ => victim_prefix worker incoming selected rest'
      end
  end.

Definition victim_key (t : Task.t) : string * (Z * ((bool * Z) * N)) :=
  (default "" (worker_id t), (priority t, (nulls_first_desc (started_at t), id t))).

(** The victims of the select statement, in its order. *)
Definition preemption_victims (db : Db.t) (locked : gset N) (workers : list WorkerSnapshot.t)
    (maximum_victim_priority : Z) : list Task.t :=
  List.filter (fun t => negb (bool_decide (id t ∈ locked)))
    (py_sort victim_key
       (List.filter (fun t =>
          match worker_id t with
          | Some w => inb w (WorkerSnapshot.id <$> workers)
          | None => false
          end
          && inb (status t) VICTIM_STATUSES && preemptible t && negb (cancel_requested t)
          && (priority t <=? maximum_victim_priority)) (rows (Db.tasks db)))).

(** Per worker, in the order of the victims, its feasible victim set. *)
Definition feasible_sets (workers : list WorkerSnapshot.t) (incoming : TaskSnapshot.t)
    (victims : list Task.t) : list ((Z * (Z * string)) * (WorkerSnapshot.t * list Task.t)) :=
  omap (fun wid =>
    match List.find (fun w => WorkerSnapshot.id w == wid) (rev workers) with
    | None => None
    | Some worker =>
        (fun selected => ((sum_of priority selected, (lenZ selected, WorkerSnapshot.id worker)),
                          (worker, selected)))
        <$> victim_prefix worker incoming []
              (List.filter (fun t => worker_id t == Some wid) victims)
    end) (remove_dups (omap worker_id victims)).

(** The stop request of one victim. *)
Definition preempt_victim (incoming_id : N) (wid : string) (plan_id : N -> N) (now : Z)
    (victim : Task.t) : Sess unit :=
  _ ← ensure_transition (status victim) PREEMPTING;
  let victim' := victim <| status := PREEMPTING |> <| cancel_requested := true |>
                        <| preemption_count ::= Z.succ |> <| version ::= Z.succ |> in
  _ ← put_task victim';
  _ ← _record_task_event victim' (status victim) "task.preemption_requested" now
        [("incoming_task_id", JUuid incoming_id)];
  _ ← modify (fun db => db <| Db.plans ::= fun l => l ++
        [PreemptionPlan.mk (plan_id (id victim)) incoming_id (id victim) wid "requested" now None] |>);
  outbox_add (id victim) "task.preemption_requested"
    [("task_id", JUuid (id victim)); ("incoming_task_id", JUuid incoming_id);
     ("worker_id", JStr wid)] now.

Definition request_preemption (plan_id : N -> N) (locked : gset N) (candidate_id : N)
    (candidate_effective_priority : Z) (workers : list WorkerSnapshot.t) (min_priority_delta : Z)
  : Sess (option PreemptionDecision.t) :=
  incoming ← get_task candidate_id;
  match incoming with
  | None => raise (PreemptionContention "incoming task is locked by another scheduler")
  | Some incoming =>
      _ ← raise_if (bool_decide (candidate_id ∈ locked))
            (PreemptionContention "incoming task is locked by another scheduler");
      if (status incoming !== QUEUED) || cancel_requested incoming then mret None
      else
        existing ← gets (fun db =>
          py_sort (fun p => (PreemptionPlan.created_at p, PreemptionPlan.id p))
            (List.filter (fun p => (PreemptionPlan.incoming_task_id p == id incoming)
                                   && (PreemptionPlan.state p == "requested")) (Db.plans db)));
        match existing with
        | plan :: _ =>
            mret (Some (PreemptionDecision.mk (id incoming) (PreemptionPlan.worker_id plan)
                          (PreemptionPlan.victim_task_id <$> existing) true))
        | [] =>
            if bool_decide (workers = []) then mret None
            else
              victims ← gets (fun db => preemption_victims db locked workers
                                (candidate_effective_priority - min_priority_delta));
              match py_sort fst (feasible_sets workers (task_snapshot incoming) victims) with
              | [] => mret None
              | (_, (worker, selected)) :: _ =>
                  now ← database_utcnow;
                  _ ← for_each selected
                        (preempt_victim (id incoming) (WorkerSnapshot.id worker) plan_id now);
                  _ ← put_task (incoming
                        <| unschedulable_reason := Some "preemption_in_progress" |>
                        <| version ::= Z.succ |>);
                  mret (Some (PreemptionDecision.mk (id incoming) (WorkerSnapshot.id worker)
                                (id <$> selected) false))
              end
        end
  end.

Definition record_attempt (a : PlacementAttempt.t) : Sess unit :=
  modify (fun db => db <| Db.attempts ::= fun l => l ++ [a] |>).
