(* ===== verification/Workers.v ===== *)
(** * The worker repository ([repositories/workers.py])

    Registration, heartbeats, draining and the accelerator inventory of a
    worker.  None of these operations touches the capacity counters, which the
    claims and releases own. *)

From S2P Require Import Prelude PyFloat PyString Enums Store Quotas Reservations Tasks.

Import Worker.

(** The keyword arguments of [register]; [worker_session_id] is the given one
    or the one drawn by [uuid4()]. *)
Module Registration.
Record t := mk {
  worker_id : string;
  hostname : string;
  concurrency : Z;
  cpu_count : Z;
  memory_total_mb : Z;
  labels : gmap string string;
  gpu_count : Z;
  gpu_model : option string;
  gpu_memory_mb : Z;
  worker_session_id : N;
  node_name : option string;
  runtime_types : option (list string);
  taints : option (list (gmap string string));
}.
End Registration.

(** [x or y] on optional strings and lists. *)
Definition or_string (x : option string) (y : string) : string :=
  match x with None | Some "" => y | Some s => s end.
Definition or_list {A} (x : option (list A)) (y : list A) : list A :=
  match x with None | Some [] => y | Some l => l end.

(** Active reservations no longer fit the worker. *)
Definition exceeds_capacity (w : Worker.t) : bool :=
  flt (float_of_Z (cpu_allocatable_millicores w)) (fmul (reserved_cpu w) (float_of_Z 1000))
  || (memory_allocatable_mb w <? reserved_memory_mb w)
  || (gpu_count w <? reserved_gpus w).

Definition register (a : Registration.t) : Sess Worker.t :=
  worker ← get_worker (Registration.worker_id a);
  now ← database_utcnow;
  let node := Some (or_string (Registration.node_name a) (Registration.hostname a)) in
  let runtimes := or_list (Registration.runtime_types a) ["docker"] in
  let cpu := Registration.cpu_count a * 1000 in
  match worker with
  | None =>
      let w :=
        {| id := Registration.worker_id a;
           worker_session_id := Registration.worker_session_id a;
           hostname := Registration.hostname a;
           node_name := node;
           runtime_types := runtimes;
           status := ONLINE;
           started_at := now;
           last_heartbeat_at := now;
           running_tasks := 0;
           concurrency := Registration.concurrency a;
           reserved_cpu := f0;
           reserved_memory_mb := 0;
           reserved_gpus := 0;
           cpu_count := Registration.cpu_count a;
           cpu_total_millicores := cpu;
           cpu_allocatable_millicores := cpu;
           memory_total_mb := Registration.memory_total_mb a;
           memory_allocatable_mb := Registration.memory_total_mb a;
           labels := Registration.labels a;
           taints := or_list (Registration.taints a) [];
           gpu_count := Registration.gpu_count a;
           gpu_model := Registration.gpu_model a;
           gpu_memory_mb := Registration.gpu_memory_mb a;
           inventory_generation := 1;
           inventory_updated_at := now;
           overcommitted := false;
           drain_reason := None;
           version := 1 |} in
      _ ← put_worker w;
      mret w
  | Some w =>
      let w := w <| hostname := Registration.hostname a |>
                 <| worker_session_id := Registration.worker_session_id a |>
                 <| node_name := node |> <| runtime_types := runtimes |>
                 <| taints := or_list (Registration.taints a) [] |>
                 <| started_at := now |> <| last_heartbeat_at := now |>
                 <| concurrency := Registration.concurrency a |>
                 <| cpu_count := Registration.cpu_count a |>
                 <| cpu_total_millicores := cpu |> <| cpu_allocatable_millicores := cpu |>
                 <| memory_total_mb := Registration.memory_total_mb a |>
                 <| memory_allocatable_mb := Registration.memory_total_mb a |>
                 <| labels := Registration.labels a |>
                 <| gpu_count := Registration.gpu_count a |>
                 <| gpu_model := Registration.gpu_model a |>
                 <| gpu_memory_mb := Registration.gpu_memory_mb a |>
                 <| inventory_generation ::= Z.succ |> <| inventory_updated_at := now |> in
      let over := exceeds_capacity w in
      let w := w <| overcommitted := over |>
                 <| status := if over then DRAINING else ONLINE |>
                 <| drain_reason := if over
                      then Some "inventory capacity is below active reservations" else None |>
                 <| version ::= Z.succ |> in
      _ ← put_worker w;
      mret w
  end.

(** [worker_session_id is not None and worker.worker_session_id != ...] *)
Definition stale_session (w : Worker.t) (session : option N) : bool :=
  match session with Some i => worker_session_id w !== i | None => false end.

Definition heartbeat (worker_id : string) (session : option N) : Sess (option Worker.t) :=
  worker ← get_worker worker_id;
  match worker with
  | None => mret None
  | Some w =>
      if stale_session w session then mret None
      else
        now ← database_utcnow;
        let w := w <| status ::= fun s => if s !== DRAINING then ONLINE else s |>
                   <| last_heartbeat_at := now |> <| version ::= Z.succ |> in
        _ ← put_worker w;
        mret (Some w)
  end.

Definition drain (worker_id : string) (reason : string) : Sess (option Worker.t) :=
  worker ← get_worker worker_id;
  match worker with
  | None => mret None
  | Some w =>
      let w := w <| status := DRAINING |> <| drain_reason := Some reason |> <| version ::= Z.succ |> in
      _ ← put_worker w;
      mret (Some w)
  end.

Definition set_status (worker_id : string) (s : WorkerStatus) (session : option N)
  : Sess (option Worker.t) :=
  worker ← get_worker worker_id;
  match worker with
  | None => mret None
  | Some w =>
      if stale_session w session then mret None
      else
        now ← database_utcnow;
        let w := w <| status := s |> <| last_heartbeat_at := now |> <| version ::= Z.succ |> in
        _ ← put_worker w;
        mret (Some w)
  end.

Definition mark_stale_offline (offline_timeout_seconds : float) (limit : option Z)
    (locked : gset string) : Sess (list string) :=
  _ ← raise_if (match limit with Some l => l <? 1 | None => false end)
        (ValueError "limit must be at least one");
  now ← database_utcnow;
  cutoff ← minus_seconds now offline_timeout_seconds;
  workers ← gets (fun db =>
    let stale := List.filter (fun w => negb (bool_decide (id w ∈ locked)))
      (py_sort (fun w => (last_heartbeat_at w, id w))
         (List.filter (fun w => (status w == ONLINE) && (last_heartbeat_at w <? cutoff))
            (rows (Db.workers db)))) in
    match limit with Some l => take (Z.to_nat l) stale | None => stale end);
  _ ← for_each workers (fun w => put_worker (w <| status := OFFLINE |> <| version ::= Z.succ |>));
  mret (id <$> workers).

(** ** Accelerator inventory *)

(** An item of the reported inventory; absent keys are [None]. *)
Module InventoryItem.
Record t := mk {
  uuid : string;
  index : Z;
  memory_total_mb : Z;
  memory_free_mb : Z;
  vendor : option string;
  fake : bool;
  accelerator_kind : option string;
  model : string;
  compute_capability : option string;
  compute_arch : option (option string);
  runtime_profile_ids : list string;
  capabilities : list string;
  kubernetes_resource_name : option string;
  kubernetes_node_name : option string;
  health : option string;
}.
End InventoryItem.

Definition _inventory_integer (value minimum : Z) : Sess unit :=
  raise_if (value <? minimum) (ValueError "accelerator value below its minimum").

Definition _inventory_names (value : list string) : Sess (list string) :=
  _ ← raise_if (existsb blank value)
        (ValueError "accelerator entries must be non-blank strings");
  let names := strip <$> value in
  _ ← raise_if (negb (bool_decide (NoDup names))) (ValueError "accelerator entries must be unique");
  mret names.

Definition parse_vendor (s : string) : option AcceleratorVendor :=
  if s == "nvidia" then Some NVIDIA else if s == "huawei-ascend" then Some HUAWEI_ASCEND else None.
Definition parse_kind (s : string) : option AcceleratorKind :=
  if s == "gpu" then Some GPU else if s == "npu" then Some NPU else None.

(** The stripped optional name, which must not be blank. *)
Definition optional_name (x : option string) : Sess (option string) :=
  let x := strip <$> x in
  _ ← raise_if (x == Some "") (ValueError "accelerator name must not be blank");
  mret x.

(** The row for one inventory item. *)
Definition inventory_device (worker : Worker.t) (now : Z) (device_id : N) (i : InventoryItem.t)
  : Sess GPUDevice.t :=
  _ ← _inventory_integer (InventoryItem.index i) 0;
  _ ← _inventory_integer (InventoryItem.memory_total_mb i) 1;
  _ ← _inventory_integer (InventoryItem.memory_free_mb i) 0;
  _ ← raise_if (InventoryItem.memory_total_mb i <? InventoryItem.memory_free_mb i)
        (ValueError "accelerator memory_free_mb must not exceed memory_total_mb");
  let raw := default "nvidia" (InventoryItem.vendor i) in
  let raw := if (raw == "fake") && InventoryItem.fake i then "nvidia" else raw in
  match parse_vendor raw with
  | None => raise (ValueError "unsupported accelerator vendor")
  | Some vendor =>
      match parse_kind (default (AcceleratorKind_value (kind_for_vendor vendor))
                          (InventoryItem.accelerator_kind i)) with
      | None => raise (ValueError "unsupported accelerator kind")
      | Some kind =>
          _ ← raise_if (negb (vendor_kind_is_compatible vendor kind))
                (ValueError "accelerator vendor is incompatible with kind");
          profiles ← _inventory_names (InventoryItem.runtime_profile_ids i);
          capabilities ← _inventory_names (InventoryItem.capabilities i);
          resource ← optional_name (InventoryItem.kubernetes_resource_name i);
          node ← optional_name (InventoryItem.kubernetes_node_name i);
          mret {| GPUDevice.id := device_id;
                  GPUDevice.worker_id := id worker;
                  GPUDevice.device_uuid := InventoryItem.uuid i;
                  GPUDevice.device_index := InventoryItem.index i;
                  GPUDevice.vendor := vendor;
                  GPUDevice.accelerator_kind := kind;
                  GPUDevice.model := InventoryItem.model i;
                  GPUDevice.memory_total_mb := InventoryItem.memory_total_mb i;
                  GPUDevice.memory_free_mb := InventoryItem.memory_free_mb i;
                  GPUDevice.compute_capability := InventoryItem.compute_capability i;
                  GPUDevice.compute_arch :=
                    match InventoryItem.compute_arch i with
                    | Some arch => arch
                    | None => InventoryItem.compute_capability i
                    end;
                  GPUDevice.runtime_profile_ids := profiles;
                  GPUDevice.capabilities_json := capabilities;
                  GPUDevice.kubernetes_resource_name := resource;
                  GPUDevice.kubernetes_node_name := node;
                  GPUDevice.health := default "healthy" (InventoryItem.health i);
                  GPUDevice.fake := InventoryItem.fake i;
                  GPUDevice.inventory_generation := inventory_generation worker;
                  GPUDevice.last_seen_at := now |}
      end
  end.

Definition put_device (d : GPUDevice.t) : Sess unit :=
  modify (fun db => db <| Db.gpu_devices ::= <[GPUDevice.id d := d]> |>).

(** [uq_gpu_devices_worker_uuid] and [uq_gpu_devices_worker_vendor_index],
    checked when the session flushes. *)
Definition devices_unique (db : Db.t) (worker_id : string) : bool :=
  let mine := List.filter (fun d => GPUDevice.worker_id d == worker_id) (rows (Db.gpu_devices db)) in
  bool_decide (NoDup (GPUDevice.device_uuid <$> mine))
  && bool_decide (NoDup ((fun d => (GPUDevice.vendor d, GPUDevice.device_index d)) <$> mine)).

(** [",".join(sorted({...})) or None] *)
Definition joined_models (devices : list GPUDevice.t) : option string :=
  match py_sort (fun m => m) (remove_dups (GPUDevice.model <$> devices)) with
  | [] => None
  | m :: ms =>
      let s := foldl (fun acc x => acc +:+ "," +:+ x)%string m ms in
      if s == "" then None else Some s
  end.

(** [replace_gpu_inventory]; [new_id n] is the [uuid4()] of a row created for
    the [n]-th item.  A row is one object: an item that names a device twice
    updates it twice, so the rows are read again after the loop. *)
Definition replace_gpu_inventory (new_id : nat -> N) (worker_id : string) (session : N)
    (devices : list InventoryItem.t) : Sess (list GPUDevice.t) :=
  worker ← get_worker worker_id;
  match worker with
  | None => raise (LookupError "worker session is stale")
  | Some w =>
      _ ← raise_if (worker_session_id w !== session) (LookupError "worker session is stale");
      existing ← gets (fun db => List.filter (fun d => GPUDevice.worker_id d == worker_id)
                                   (rows (Db.gpu_devices db)));
      now ← database_utcnow;
      result ← foldM devices [] (fun result i =>
        let device_id :=
          match List.find (fun d => GPUDevice.device_uuid d == InventoryItem.uuid i) existing with
          | Some d => GPUDevice.id d
          | None => new_id (List.length result)
          end in
        d ← inventory_device w now device_id i;
        _ ← put_device d;
        mret (result ++ [d]));
      let seen := InventoryItem.uuid <$> devices in
      _ ← for_each existing (fun d => when (negb (inb (GPUDevice.device_uuid d) seen))
            (put_device (d <| GPUDevice.health := "missing" |> <| GPUDevice.last_seen_at := now |>)));
      result ← gets (fun db => omap (fun d => Db.gpu_devices db !! GPUDevice.id d) result);
      _ ← put_worker (w <| gpu_count := lenZ result |> <| gpu_model := joined_models result |>
                        <| gpu_memory_mb := foldr Z.add 0 (GPUDevice.memory_total_mb <$> result) |>
                        <| inventory_updated_at := now |> <| version ::= Z.succ |>);
      unique ← gets (fun db => devices_unique db worker_id);
      _ ← raise_if (negb unique) (IntegrityError "uq_gpu_devices_worker_vendor_index");
      mret result
  end.
