(* ===== verification/Cycles.v ===== *)
(** * The cycle check of job groups ([repositories/dag.py: _contains_cycle])

    Kahn's algorithm on the set of dependency edges, and its equivalence with
    the existence of a cycle.  The set of edges is a list without duplicates;
    dicts iterate in the order of the map. *)

From S2P Require Import Prelude Enums.

(** [set.add] on a list without duplicates. *)
Definition set_add {A} `{EqDecision A} (x : A) (l : list A) : list A := if inb x l then l else l ++ [x].

(** ** The cycle check *)
Definition Edge : Type := N * N.

(** The loop that builds [graph] and [indegree]. *)
Definition add_edge (g : gmap N (list N) * gmap N Z) (e : Edge) : gmap N (list N) * gmap N Z :=
  let '(graph, indegree) := g in
  let '(task_id, dependency_id) := e in
  let graph := <[task_id := set_add dependency_id (default [] (graph !! task_id))]> graph in
  let graph := <[dependency_id := default [] (graph !! dependency_id)]> graph in
  let indegree := <[task_id := default 0 (indegree !! task_id)]> indegree in
  (graph, <[dependency_id := default 0 (indegree !! dependency_id) + 1]> indegree).

(** [for neighbor in graph[node]]; the head of [roots] is the top of the stack. *)
Fixpoint relax (neighbors : list N) (indegree : gmap N Z) (roots : list N) : gmap N Z * list N :=
  match neighbors with
  | [] => (indegree, roots)
  | neighbor :: rest =>
      let degree := default 0 (indegree !! neighbor) - 1 in
      relax rest (<[neighbor := degree]> indegree) (if degree =? 0 then neighbor :: roots else roots)
  end.

(** [while roots]: the number of visited nodes, [None] when the fuel runs out. *)
Fixpoint visit (fuel : nat) (graph : gmap N (list N)) (indegree : gmap N Z) (roots : list N)
    (visited : Z) : option Z :=
  match roots with
  | [] => Some visited
  | node :: roots' =>
      match fuel with
      | O => None
      | S fuel' =>
          let '(indegree', roots'') := relax (default [] (graph !! node)) indegree roots' in
          visit fuel' graph indegree' roots'' (visited + 1)
      end
  end.

(** The nodes without incoming edges. *)
Definition initial_roots (indegree : gmap N Z) : list N :=
  reverse ((List.filter (fun x : N * Z => x.2 =? 0) (map_to_list indegree)).*1).

Definition _contains_cycle (edges : list Edge) : bool :=
  let '(graph, indegree) := foldl add_edge (∅, ∅) edges in
  match visit (size indegree) graph indegree (initial_roots indegree) 0 with
  | Some visited => negb (visited =? Z.of_nat (size indegree))
  | None => true
  end.

(** ** What the algorithm computes *)
(** The edge leads to [n] from a node outside [P]. *)
Definition waits (P : list N) (n : N) (e : Edge) : bool := (e.2 == n) && negb (inb e.1 P).

Lemma waits_true P n e : waits P n e = true <-> e.2 = n /\ e.1 ∉ P.
Proof. unfold waits. by rewrite andb_true_iff, eqb_true, negb_true_iff, inb_false. Qed.

(** The dicts the first loop builds, for a prefix of the edges. *)
Lemma build_spec l graph indegree :
  foldl add_edge (∅, ∅) l = (graph, indegree) ->
  (forall u, NoDup (default [] (graph !! u)) /\ forall v, v ∈ default [] (graph !! u) <-> (u, v) ∈ l) /\
  dom indegree = list_to_set (l.*1 ++ l.*2) /\
  forall n, default 0 (indegree !! n) = lenZ (List.filter (waits [] n) l).
Proof.
  revert graph indegree. induction l as [|[a b] l IH] using rev_ind; intros graph indegree H.
  { injection H as <- <-. split_and!.
    - intros u. rewrite lookup_empty. split; [constructor|]. intros v. cbn. split; intros Hx; by inversion Hx.
    - rewrite dom_empty_L. done.
    - intros n. by rewrite lookup_empty. }
  rewrite foldl_app in H. cbn [foldl] in H. destruct (foldl add_edge (∅, ∅) l) as [g d].
  destruct (IH g d eq_refl) as (Hg & Hdom & Hdeg). clear IH. injection H as <- <-. split_and!.
  - intros u.
    assert (default [] (<[b := default [] (<[a := set_add b (default [] (g !! a))]> g !! b)]>
      (<[a := set_add b (default [] (g !! a))]> g) !! u) =
      if decide (u = a) then set_add b (default [] (g !! a)) else default [] (g !! u)) as ->.
    { destruct (decide (u = b)) as [->|Hb]; [rewrite lookup_insert_eq; cbn|rewrite lookup_insert_ne by done];
        (destruct (decide (_ = a)) as [->|Ha]; [by rewrite lookup_insert_eq|by rewrite lookup_insert_ne by done]). }
    destruct (Hg u) as [Hn Hv]. destruct (decide (u = a)) as [->|Ha].
    + unfold set_add. destruct (inb b _) eqn:E.
      * apply inb_true in E. split; [done|]. intros v. rewrite Hv, elem_of_app, list_elem_of_singleton.
        split; [tauto|]. intros [?|[= ->]]; [done|]. by apply Hv.
      * apply inb_false in E. split.
        -- apply NoDup_app. split_and!; [done|set_solver|apply NoDup_singleton].
        -- intros v. rewrite !elem_of_app, !list_elem_of_singleton, Hv. naive_solver.
    + split; [done|]. intros v. rewrite Hv, elem_of_app, list_elem_of_singleton. naive_solver.
  - rewrite !dom_insert_L, Hdom, !fmap_app. cbn. set_solver.
  - intros n. rewrite List.filter_app. unfold lenZ. rewrite length_app, Nat2Z.inj_add.
    assert (Z.of_nat (length (List.filter (waits [] n) [(a, b)])) = if decide (n = b) then 1 else 0) as Hlast.
    { unfold waits. cbn. destruct (decide (n = b)) as [->|]; [by rewrite (proj2 (eqb_true b b))|].
      destruct (b == n) eqn:E; [rewrite eqb_true in E; congruence|done]. }
    transitivity (default 0 (d !! n) + if decide (n = b) then 1 else 0);
      [|rewrite Hdeg; unfold lenZ; f_equal; symmetry; exact Hlast].
    destruct (decide (n = b)) as [->|Hb]; [rewrite lookup_insert_eq; cbn|rewrite lookup_insert_ne by done].
    + f_equal. destruct (decide (b = a)) as [->|Ha]; [by rewrite lookup_insert_eq|by rewrite lookup_insert_ne by done].
    + rewrite Z.add_0_r.
      destruct (decide (n = a)) as [->|Ha]; [by rewrite lookup_insert_eq|by rewrite lookup_insert_ne by done].
Qed.

(** The inner loop. *)
Lemma relax_spec ns indegree roots indegree' roots' :
  NoDup ns -> (forall n, n ∈ ns -> n ∈ dom indegree) -> relax ns indegree roots = (indegree', roots') ->
  dom indegree' = dom indegree /\
  (forall n, default 0 (indegree' !! n) = default 0 (indegree !! n) - if decide (n ∈ ns) then 1 else 0) /\
  forall n, n ∈ roots' <-> n ∈ roots \/ (n ∈ ns /\ default 0 (indegree !! n) = 1).
Proof.
  revert indegree roots. induction ns as [|n ns IH]; intros indegree roots Hns Hdom H; cbn in H.
  { injection H as <- <-. split_and!; [done| |].
    - intros n. rewrite decide_False by (intros Hx; inversion Hx). lia.
    - intros n. split; [by left|]. intros [?|[Hx _]]; [done|inversion Hx]. }
  apply NoDup_cons in Hns as [Hn Hns]. apply IH in H as (E1 & E2 & E3); [|done|].
  2:{ intros m Hm. rewrite dom_insert_L. set_solver. }
  assert (forall m, m ∈ ns -> m <> n) as Hne by set_solver. split_and!.
  - rewrite E1, dom_insert_L. apply subseteq_union_1_L. set_solver.
  - intros m. rewrite E2. destruct (decide (m = n)) as [->|Hm].
    + rewrite lookup_insert_eq, decide_False, (decide_True (P := n ∈ n :: ns)) by (done || left). cbn. lia.
    + rewrite lookup_insert_ne by done.
      destruct (decide (m ∈ ns)), (decide (m ∈ n :: ns)); set_solver by lia.
  - intros m. rewrite E3. destruct (decide (m = n)) as [->|Hm].
    + rewrite lookup_insert_eq. cbn. destruct (Z.eqb_spec (default 0 (indegree !! n) - 1) 0); set_solver by lia.
    + rewrite lookup_insert_ne by done.
      destruct (Z.eqb_spec (default 0 (indegree !! n) - 1) 0); set_solver.
Qed.

Lemma relax_nodup ns indegree roots :
  NoDup ns -> NoDup roots -> (forall n, n ∈ ns -> default 0 (indegree !! n) = 1 -> n ∉ roots) ->
  NoDup (relax ns indegree roots).2.
Proof.
  revert indegree roots. induction ns as [|n ns IH]; intros indegree roots Hns Hr H; cbn; [done|].
  apply NoDup_cons in Hns as [Hn Hns].
  assert (forall m, m ∈ ns -> default 0 (<[n:=default 0 (indegree !! n) - 1]> indegree !! m) =
    default 0 (indegree !! m)) as Hd by (intros m Hm; rewrite lookup_insert_ne by set_solver; done).
  destruct (Z.eqb_spec (default 0 (indegree !! n) - 1) 0); apply IH; try done.
  - constructor; [|done]. apply H; [left|lia].
  - intros m Hm Hone. rewrite Hd in Hone by done. pose proof (H m ltac:(by right) Hone). set_solver.
  - intros m Hm Hone. rewrite Hd in Hone by done. apply H; [by right|done].
Qed.

Lemma initial_roots_elem (d : gmap N Z) n : n ∈ initial_roots d <-> d !! n = Some 0.
Proof.
  unfold initial_roots. rewrite elem_of_reverse, list_elem_of_fmap. split.
  - intros ([k v] & -> & [Hin Hz]%elem_of_lfilter). apply elem_of_map_to_list in Hin. cbn in *.
    by assert (v = 0) as <- by lia.
  - intros H. exists (n, 0). split; [done|]. apply elem_of_lfilter. split; [|done].
    by apply elem_of_map_to_list.
Qed.

Lemma initial_roots_nodup (d : gmap N Z) : NoDup (initial_roots d).
Proof.
  unfold initial_roots. rewrite reverse_Permutation.
  apply lfilter_fmap_nodup, NoDup_fst_map_to_list.
Qed.
Section kahn.
Variable edges : list Edge.
Hypothesis Hnd : NoDup edges.

Definition dep_rel (u v : N) : Prop := (u, v) ∈ edges.
Definition nodes : gset N := list_to_set (edges.*1 ++ edges.*2).

(** The edges into [n] from nodes outside [P]. *)
Definition pending (P : list N) (n : N) : list Edge := List.filter (waits P n) edges.

Lemma pending_nil P n : lenZ (pending P n) = 0 <-> forall u, (u, n) ∈ edges -> u ∈ P.
Proof.
  unfold lenZ, pending. split.
  - intros H u Hu. destruct (decide (u ∈ P)) as [?|HP]; [done|]. exfalso.
    assert ((u, n) ∈ List.filter (waits P n) edges) as Hin
      by (apply elem_of_lfilter; split; [done|]; by apply waits_true).
    destruct (List.filter _ _); [by inversion Hin|cbn in H; lia].
  - intros H. destruct (List.filter _ _) as [|e l] eqn:E; [done|]. exfalso.
    assert (e ∈ List.filter (waits P n) edges) as He by (rewrite E; left).
    apply elem_of_lfilter in He as [He [<- HP]%waits_true]. apply HP, H. by destruct e.
Qed.

(** Visiting [u] takes its edge to [n], if any, off the count. *)
Lemma pending_step P u n :
  u ∉ P -> lenZ (pending (u :: P) n) = lenZ (pending P n) - (if decide ((u, n) ∈ edges) then 1 else 0).
Proof.
  intros Hu. unfold pending, lenZ. induction Hnd as [|[a b] l Hnin Hl IH].
  { cbn. destruct (decide _) as [Hx|]; [by inversion Hx|done]. }
  specialize (IH Hl). cbn [List.filter]. destruct (decide ((a, b) = (u, n))) as [[= -> ->]|Hne].
  - assert (waits (u :: P) n (u, n) = false) as ->.
    { apply not_true_is_false. rewrite waits_true. set_solver. }
    assert (waits P n (u, n) = true) as -> by (by apply waits_true).
    rewrite IH, (decide_False (P := (u, n) ∈ l)) by done.
    rewrite (decide_True (P := (u, n) ∈ (u, n) :: l)) by left. cbn. lia.
  - assert (waits (u :: P) n (a, b) = waits P n (a, b)) as ->.
    { apply eq_true_iff_eq. rewrite !waits_true. cbn. set_solver. }
    revert IH. destruct (decide ((u, n) ∈ l)) as [Hi|Hi]; intros IH.
    + rewrite (decide_True (P := (u, n) ∈ (a, b) :: l)) by (by right).
      destruct (waits P n (a, b)); cbn; lia.
    + rewrite (decide_False (P := (u, n) ∈ (a, b) :: l)) by (intros [?|?]%elem_of_cons; [by apply Hne|done]).
      destruct (waits P n (a, b)); cbn; lia.
Qed.

Lemma nodes_elem u v : (u, v) ∈ edges -> u ∈ nodes /\ v ∈ nodes.
Proof.
  intros H. unfold nodes. rewrite !elem_of_list_to_set, !elem_of_app, !list_elem_of_fmap.
  split; [left|right]; by exists (u, v).
Qed.

Lemma nodup_nodes l : NoDup l -> (forall n, n ∈ l -> n ∈ nodes) -> (length l <= size nodes)%nat.
Proof.
  intros Hl H. rewrite <-(size_list_to_set (C := gset N) l) by done. apply subseteq_size.
  intros n Hn. apply H. by apply elem_of_list_to_set in Hn.
Qed.

(** The state of the outer loop: [P] are the visited nodes. *)
Record loop (P : list N) (indegree : gmap N Z) (roots : list N) : Prop := {
  loop_dom : dom indegree = nodes;
  loop_degree n : default 0 (indegree !! n) = lenZ (pending P n);
  loop_nodup : NoDup (roots ++ P);
  loop_free n : n ∈ roots ++ P -> n ∈ nodes /\ lenZ (pending P n) = 0;
  loop_all n : n ∈ nodes -> lenZ (pending P n) = 0 -> n ∈ roots ++ P;
  loop_acc n : n ∈ P -> Acc dep_rel n;
}.

Section visit.
Variable graph : gmap N (list N).
Hypothesis Hg : forall u, NoDup (default [] (graph !! u)) /\
  forall v, v ∈ default [] (graph !! u) <-> (u, v) ∈ edges.

Lemma loop_step P indegree u roots :
  loop P indegree (u :: roots) ->
  let '(indegree', roots') := relax (default [] (graph !! u)) indegree roots in
  loop (u :: P) indegree' roots'.
Proof.
  intros [Ld Li Ln Lf La Lc]. destruct (Hg u) as [Hns Hv].
  destruct (relax _ indegree roots) as [indegree' roots'] eqn:E.
  pose proof Ln as Ln'. cbn in Ln'. apply NoDup_cons in Ln' as [Hu Hrp].
  apply NoDup_app in Hrp as (Hr & Hrp & HP). assert (u ∉ P) as HuP by set_solver.
  assert (forall v, v ∈ u :: roots ++ P -> (u, v) ∉ edges) as Hno.
  { intros v Hx Hin. apply Lf in Hx as [_ Hx]. rewrite pending_nil in Hx. by apply HuP, Hx. }
  assert (NoDup roots') as Hr'.
  { replace roots' with (relax (default [] (graph !! u)) indegree roots).2 by (by rewrite E).
    apply relax_nodup; [done..|]. intros n Hn _ Hin. apply Hv in Hn. apply (Hno n); [set_solver|done]. }
  apply relax_spec in E as (E1 & E2 & E3); [|done|].
  2:{ intros n Hn%Hv. rewrite Ld. by destruct (nodes_elem _ _ Hn). }
  assert (forall n, lenZ (pending (u :: P) n) = default 0 (indegree' !! n)) as Hpend.
  { intros n. rewrite E2, Li, pending_step by done. f_equal.
    destruct (decide ((u, n) ∈ edges)) as [H|H], (decide (n ∈ default [] (graph !! u))) as [H'|H'];
      rewrite Hv in H'; done. }
  assert (forall n, n ∈ roots' <-> n ∈ roots \/ (u, n) ∈ edges /\ lenZ (pending P n) = 1) as Hroots.
  { intros n. rewrite E3, Hv, Li. done. }
  assert (forall n, n ∈ roots' -> n ∉ u :: P) as Hdisj.
  { intros n [Hn|[Hn _]]%Hroots Hin; [|apply (Hno n); [set_solver|done]].
    apply elem_of_cons in Hin as [->|Hin]; [set_solver|]. by apply (Hrp n). }
  constructor.
  - by rewrite E1.
  - intros n. by rewrite Hpend.
  - apply NoDup_app. split_and!; [done|done|]. by constructor.
  - intros n Hn. assert (n ∈ u :: roots ++ P \/ ((u, n) ∈ edges /\ lenZ (pending P n) = 1)) as [Hx|[Hx H1]].
    { apply elem_of_app in Hn as [[?|?]%Hroots|?]; set_solver. }
    + split; [by apply Lf|]. rewrite pending_step by done. rewrite (decide_False (P := (u, n) ∈ edges)) by auto.
      destruct (Lf n Hx). lia.
    + split; [by destruct (nodes_elem _ _ Hx)|]. rewrite pending_step by done.
      rewrite (decide_True (P := (u, n) ∈ edges)) by done. lia.
  - intros n Hn H0. rewrite pending_step in H0 by done. rewrite elem_of_app, Hroots.
    destruct (decide ((u, n) ∈ edges)); [left; right; split; [done|lia]|].
    pose proof (La n Hn ltac:(lia)) as Hx. set_solver.
  - intros n [->|Hn]%elem_of_cons; [|by apply Lc]. constructor. intros v Hvu.
    destruct (Lf u ltac:(left)) as [_ H0]. rewrite pending_nil in H0. by apply Lc, H0.
Qed.

Lemma visit_spec fuel P indegree roots :
  loop P indegree roots -> (size nodes <= fuel + length P)%nat ->
  exists P', visit fuel graph indegree roots (lenZ P) = Some (lenZ P') /\ exists d, loop P' d [].
Proof.
  revert P indegree roots. induction fuel as [|fuel IH]; intros P indegree roots HL Hf;
    (destruct roots as [|u roots]; [by exists P; eauto|]); cbn.
  - pose proof (nodup_nodes _ (loop_nodup _ _ _ HL) (fun n Hn => proj1 (loop_free _ _ _ HL n Hn))) as Hs.
    cbn in Hs. rewrite length_app in Hs. lia.
  - pose proof (loop_step _ _ _ _ HL) as HL'. destruct (relax _ indegree roots) as [d rs].
    destruct (IH (u :: P) d rs HL') as (P' & H & ?); [cbn; lia|]. exists P'. split; [|done].
    rewrite <-H. f_equal. unfold lenZ. cbn. lia.
Qed.
End visit.

(** A finite set in which every node has a predecessor contains a cycle: walk
    backwards until a node repeats. *)
Lemma walk_back (X : gset N) fuel h V :
  (forall n, n ∈ X -> exists u, u ∈ X /\ dep_rel u n) ->
  NoDup (h :: V) -> (forall n, n ∈ h :: V -> n ∈ X) -> (forall v, v ∈ V -> tc dep_rel h v) ->
  (size X <= fuel + length V)%nat -> exists n, tc dep_rel n n.
Proof.
  intros Hpred. revert h V. induction fuel as [|fuel IH]; intros h V Hd Hin Htc Hf.
  - assert (length (h :: V) <= size X)%nat as Hle; [|cbn in Hle; lia].
    rewrite <-(size_list_to_set (C := gset N) (h :: V)) by done. apply subseteq_size.
    intros n Hn%elem_of_list_to_set. by apply Hin.
  - destruct (Hpred h (Hin h ltac:(left))) as (u & Hu & Huh).
    destruct (decide (u = h)) as [->|Hne]; [exists h; by apply tc_once|].
    destruct (decide (u ∈ V)) as [Huv|Huv]; [exists h; eapply tc_r; [by apply Htc|done]|].
    apply (IH u (h :: V)); [| | |cbn; lia].
    + constructor; [|done]. by intros [?|?]%elem_of_cons.
    + intros n [->|Hn]%elem_of_cons; [done|by apply Hin].
    + intros v [->|Hv]%elem_of_cons; [by apply tc_once|]. eapply tc_l; [done|by apply Htc].
Qed.

Lemma tc_last u v : tc dep_rel u v -> dep_rel u v \/ exists w, tc dep_rel u w /\ dep_rel w v.
Proof.
  induction 1 as [u v H|u w v Huw Hwv IH]; [by left|right].
  destruct IH as [?|(w' & ? & ?)]; [exists w|exists w'; split; [|done]].
  - split; [by apply tc_once|done].
  - by eapply tc_l.
Qed.

Lemma acc_no_cycle n : Acc dep_rel n -> ~ tc dep_rel n n.
Proof.
  intros H. assert (Acc (tc dep_rel) n) as Ht.
  { induction H as [n _ IH]. constructor. intros u [Hu|(w & Huw & Hw)]%tc_last; [by apply IH|].
    by apply (Acc_inv (IH w Hw)). }
  clear H. induction Ht as [n _ IH]. intros Hc. by apply (IH n).
Qed.

End kahn.

(** The edges lead back to some node. *)
Definition cyclic (edges : list Edge) : Prop := exists n, tc (dep_rel edges) n n.

Lemma contains_cycle_spec edges :
  NoDup edges -> (_contains_cycle edges = true <-> cyclic edges) /\
  (let '(graph, indegree) := foldl add_edge (∅, ∅) edges in
   is_Some (visit (size indegree) graph indegree (initial_roots indegree) 0)).
Proof.
  intros Hnd. unfold _contains_cycle.
  destruct (foldl add_edge (∅, ∅) edges) as [graph d] eqn:E.
  apply build_spec in E as (Hg & Hdom & Hdeg).
  assert (loop edges [] d (initial_roots d)) as HL.
  { constructor; rewrite ?app_nil_r.
    - exact Hdom.
    - intros n. by rewrite Hdeg.
    - apply initial_roots_nodup.
    - intros n Hn%initial_roots_elem. split.
      + change (n ∈ nodes edges). unfold nodes. rewrite <-Hdom. by apply elem_of_dom_2 in Hn.
      + unfold pending. by rewrite <-Hdeg, Hn.
    - intros n Hn H0. apply initial_roots_elem. unfold nodes in Hn. rewrite <-Hdom in Hn.
      apply elem_of_dom in Hn as [k Hk]. unfold pending in H0.
      rewrite <-Hdeg, Hk in H0. cbn in H0. by rewrite Hk, H0.
    - intros n Hn. by inversion Hn. }
  assert (size d = size (nodes edges)) as Hsz by (rewrite <-size_dom, Hdom; done).
  destruct (visit_spec edges Hnd graph Hg (size d) [] d (initial_roots d) HL) as (P & Hv & d' & [_ _ Hn Hf Ha Hc]);
    [cbn; lia|]. cbn in Hn. change (lenZ []) with 0 in Hv. rewrite Hv. split; [|by eexists].
  rewrite negb_true_iff, Z.eqb_neq, Hsz. split.
  - intros Hlt. set (X := nodes edges ∖ list_to_set P).
    assert (X ≢ ∅) as HX.
    { intros HX. apply Hlt. f_equal.
      assert (nodes edges = list_to_set P) as ->; [|by rewrite size_list_to_set].
      apply set_eq. intros n. rewrite elem_of_list_to_set. split; [|intros Hp; by apply Hf].
      intros Hin. destruct (decide (n ∈ P)) as [?|HP]; [done|]. exfalso.
      apply (not_elem_of_empty (C := gset N) n). rewrite <-HX. apply elem_of_difference.
      by rewrite elem_of_list_to_set. }
    destruct (set_choose X HX) as [h Hh].
    apply (walk_back edges X (size X) h []); [|apply NoDup_singleton| | |lia].
    + intros n [Hx HP]%elem_of_difference. rewrite elem_of_list_to_set in HP.
      destruct (decide (Exists (fun e : Edge => e.2 = n /\ e.1 ∉ P) edges)) as [He|He].
      * apply Exists_exists in He as ([u v] & He & Hv' & HuP). cbn in *. subst v. exists u.
        split; [|done]. apply elem_of_difference. rewrite elem_of_list_to_set.
        by destruct (nodes_elem edges _ _ He).
      * destruct HP. apply (Ha n); [done|]. apply pending_nil. intros u Hu.
        destruct (decide (u ∈ P)); [done|]. destruct He. apply Exists_exists. by exists (u, n).
    + intros n [->|Hx]%elem_of_cons; [done|by inversion Hx].
    + intros v Hv'. by inversion Hv'.
  - intros [n Hcyc] Hall. apply (acc_no_cycle edges n); [|done]. apply Hc.
    assert (n ∈ nodes edges) as Hin.
    { inversion Hcyc as [? ? H|? y ? H _]; subst; by destruct (nodes_elem edges _ _ H). }
    destruct (decide (n ∈ P)) as [?|HP]; [done|]. exfalso.
    pose proof (nodup_nodes edges (n :: P) ltac:(by constructor)) as Hle. cbn in Hle.
    unfold lenZ in Hall. assert (S (length P) <= size (nodes edges))%nat; [|lia]. apply Hle.
    intros m [->|Hm]%elem_of_cons; [done|by apply Hf].
Qed.

(** C30: the cycle check is exact.  On every set of edges, in whatever order it
    is iterated, the queue-based check terminates and answers [True] exactly
    if the edges lead from some task back to itself. *)
Theorem contains_cycle_correct (edges : list Edge) (Hnd : NoDup edges) :
  (_contains_cycle edges = true <-> cyclic edges) /\
  (let '(graph, indegree) := foldl add_edge (∅, ∅) edges in
   is_Some (visit (size indegree) graph indegree (initial_roots indegree) 0)).
Proof. by apply contains_cycle_spec. Qed.

Lemma contains_cycle_correct_witness : cyclic [(1, 2); (2, 3); (3, 1)]%N /\ ~ cyclic [(1, 2); (1, 3)]%N.
Proof.
  split.
  - refine (proj1 (proj1 (contains_cycle_correct [(1, 2); (2, 3); (3, 1)]%N _)) _).
    + apply (bool_decide_unpack _). vm_compute. exact I.
    + vm_compute. reflexivity.
  - intros H. assert (NoDup [(1, 2); (1, 3)]%N) as Hn by (apply (bool_decide_unpack _); vm_compute; exact I).
    pose proof (proj2 (proj1 (contains_cycle_correct [(1, 2); (1, 3)]%N Hn)) H) as E.
    vm_compute in E. discriminate E.
Defined.
