(* ===== verification/Dag.v ===== *)
(** * Job groups ([repositories/dag.py])

    The dependency edges of a project's job groups: the cycle check, the
    insertion of edges under the locks of the group, and the state and summary
    queries.  Python sets are lists without duplicates; a dict keyed by task
    iterates in the order of the map, which no result depends on.  The retry
    policy is represented by its compact JSON text, [None] when [json.dumps]
    refuses the value. *)

From S2P Require Import Prelude PyString Enums Store Tasks Cycles.
From Stdlib Require Import Ascii String.

#[local] Open Scope stdpp_scope.
#[local] Open Scope Z_scope.

Import Task StateMachine.

Inductive DependencyFailurePolicy := POLICY_CANCEL | POLICY_BLOCK.
Definition DependencyFailurePolicy_value (p : DependencyFailurePolicy) : string :=
  match p with POLICY_CANCEL => "cancel" | POLICY_BLOCK => "block" end.
(** [DependencyFailurePolicy(value)] *)
Definition DependencyFailurePolicy_of (s : string) : option DependencyFailurePolicy :=
  if s == "cancel" then Some POLICY_CANCEL else if s == "block" then Some POLICY_BLOCK else None.

Inductive DependencyState := DEP_READY | DEP_WAITING | DEP_BLOCKED | DEP_CANCELLED.
Inductive JobGroupStatus := GROUP_PENDING | GROUP_RUNNING | GROUP_SUCCEEDED | GROUP_FAILED.
#[export] Instance DependencyFailurePolicy_eq_dec : EqDecision DependencyFailurePolicy.
Proof. solve_decision. Defined.
#[export] Instance DependencyState_eq_dec : EqDecision DependencyState.
Proof. solve_decision. Defined.
#[export] Instance JobGroupStatus_eq_dec : EqDecision JobGroupStatus.
Proof. solve_decision. Defined.

Module DependencySpec.
Record t := mk { task_id : N; depends_on_task_id : N; failure_policy : DependencyFailurePolicy }.
End DependencySpec.

Module DependencyResolution.
Record t := mk {
  task_id : N;
  task_status : TaskStatus;
  state : DependencyState;
  dependency_ids : list N;
  waiting_on_task_ids : list N;
  failed_dependency_ids : list N;
}.
End DependencyResolution.

Module JobGroupSummary.
Record t := mk {
  group : JobGroup.t;
  status : JobGroupStatus;
  task_count : Z;
  ready_tasks : Z;
  waiting_tasks : Z;
  blocked_tasks : Z;
  cancelled_tasks : Z;
  succeeded_tasks : Z;
  failed_tasks : Z;
  finished_at : option Z;
}.
End JobGroupSummary.

Notation Dep := TaskDependency.t.
Notation dep_task := TaskDependency.task_id.
Notation dep_on := TaskDependency.depends_on_task_id.

Definition _task_ids (edges : list Dep) : list N :=
  remove_dups (edges ≫= fun e => [dep_task e; dep_on e]).

(** ** Graph writes *)

(** [_GROUP_NAME.fullmatch] for [^[A-Za-z0-9][A-Za-z0-9_. -]{0,254}$] *)
Definition name_start (a : ascii) : bool :=
  let n := nat_of_ascii a in
  ((65 <=? n)%nat && (n <=? 90)%nat) || ((97 <=? n)%nat && (n <=? 122)%nat)
  || ((48 <=? n)%nat && (n <=? 57)%nat).
Definition name_char (a : ascii) : bool :=
  name_start a || inb a ["_"; "."; " "; "-"]%char.
Definition _GROUP_NAME (s : string) : bool :=
  match list_ascii_of_string s with
  | [] => false
  | a :: rest => name_start a && forallb name_char rest && (List.length rest <=? 254)%nat
  end.

Definition _validate_retry_policy (encoded : option string) : Sess string :=
  match encoded with
  | None => raise (ValueError "retry_policy must be JSON serializable")
  | Some s =>
      _ ← raise_if (16384 <? Z.of_nat (String.length s))
            (ValueError "retry_policy must be at most 16384 encoded bytes");
      mret s
  end.

Definition _lock_active_project (project_id : N) : Sess unit :=
  project ← gets (fun db => Db.projects db !! project_id);
  raise_if (project !== Some true) (DAGNotFoundError "active project does not exist").

Definition requested_task_ids (dependencies : list DependencySpec.t) : list N :=
  remove_dups (dependencies ≫= fun d =>
    [DependencySpec.task_id d; DependencySpec.depends_on_task_id d]).

Definition group_edges (db : Db.t) (group_id : N) : list Dep :=
  List.filter (fun e => TaskDependency.job_group_id e == Some group_id) (Db.dependencies db).
Definition touching (db : Db.t) (ids : list N) : list Dep :=
  List.filter (fun e => inb (dep_task e) ids || inb (dep_on e) ids) (Db.dependencies db).
Definition project_tasks (db : Db.t) (project_id : N) (ids : list N) : list Task.t :=
  List.filter (fun t => (Task.project_id t == project_id) && inb (id t) ids) (rows (Db.tasks db)).

(** [edge_map], [combined] and [created] *)
Module Batch.
Record t := mk { edge_map : gmap Edge Dep; combined : list Edge; created : list Dep }.
End Batch.

(** The loop body over one requested dependency. *)
Definition add_dependency_row (group : JobGroup.t) (tasks_by_id : gmap N Task.t) (b : Batch.t)
    (d : DependencySpec.t) : Sess Batch.t :=
  let key := (DependencySpec.task_id d, DependencySpec.depends_on_task_id d) in
  let policy := DependencyFailurePolicy_value (DependencySpec.failure_policy d) in
  match Batch.edge_map b !! key with
  | Some existing =>
      _ ← raise_if (TaskDependency.failure_policy existing !== policy)
            (DAGConflictError "dependency already exists with another failure policy");
      mret (Batch.mk (Batch.edge_map b) (Batch.combined b) (Batch.created b ++ [existing]))
  | None =>
      let candidate := set_add key (Batch.combined b) in
      _ ← raise_if (_contains_cycle candidate) (DAGCycleError "dependency would create a cycle");
      _ ← raise_if (negb match tasks_by_id !! key.1 with
                         | Some t => inb (status t) [PENDING; QUEUED; RETRYING]
                         | None => false
                         end)
            (DAGConflictError "dependencies may only be attached before the dependant task starts");
      let row := TaskDependency.mk key.1 key.2 (Some (JobGroup.id group)) policy in
      _ ← modify (fun db => db <| Db.dependencies ::= fun l => l ++ [row] |>);
      mret (Batch.mk (<[key := row]> (Batch.edge_map b)) candidate (Batch.created b ++ [row]))
  end.

Definition edge_of (e : Dep) : Edge := (dep_task e, dep_on e).

Definition _add_dependencies_locked (group : JobGroup.t) (dependencies : list DependencySpec.t)
  : Sess (list Dep) :=
  _ ← raise_if (1000 <? lenZ dependencies)
        (ValueError "at most 1000 dependencies may be added at once");
  _ ← raise_if (existsb (fun d => DependencySpec.task_id d == DependencySpec.depends_on_task_id d)
                  dependencies)
        (DAGCycleError "a task cannot depend on itself");
  let ids := requested_task_ids dependencies in
  tasks ← gets (fun db => project_tasks db (JobGroup.project_id group) ids);
  _ ← raise_if (negb (lenZ tasks =? lenZ ids))
        (DAGNotFoundError "all dependency tasks must exist in the job group's project");
  let tasks_by_id := list_to_map ((fun t => (id t, t)) <$> tasks) : gmap N Task.t in
  membership_edges ← gets (fun db => touching db ids);
  _ ← raise_if (existsb (fun e => TaskDependency.job_group_id e !== Some (JobGroup.id group))
                  membership_edges)
        (DAGConflictError "a task cannot belong to multiple job groups");
  existing_edges ← gets (fun db => group_edges db (JobGroup.id group));
  b ← foldM dependencies
        (Batch.mk (list_to_map ((fun e => (edge_of e, e)) <$> existing_edges))
           (remove_dups (edge_of <$> existing_edges)) [])
        (add_dependency_row group tasks_by_id);
  mret (Batch.created b).

Definition get_group (project_id group_id : N) : Sess (option JobGroup.t) :=
  gets (fun db => match Db.job_groups db !! group_id with
                  | Some g => if JobGroup.project_id g == project_id then Some g else None
                  | None => None
                  end).

Definition create_group (group_id project_id : N) (name : string) (retry_policy : option string)
    (dependencies : list DependencySpec.t) : Sess JobGroup.t :=
  _ ← _lock_active_project project_id;
  let normalized_name := strip name in
  _ ← raise_if (negb (_GROUP_NAME normalized_name))
        (ValueError "job group name contains unsupported characters");
  policy ← _validate_retry_policy retry_policy;
  now ← database_utcnow;
  let group := JobGroup.mk group_id project_id normalized_name "pending" policy now None in
  taken ← gets (fun db => bool_decide (is_Some (Db.job_groups db !! group_id)));
  _ ← raise_if taken (IntegrityError "job_groups_pkey");
  _ ← modify (fun db => db <| Db.job_groups ::= <[group_id := group]> |>);
  _ ← when (negb (bool_decide (dependencies = [])))
        (_ ← _add_dependencies_locked group dependencies; mret tt);
  mret group.

Definition no_group {A} : Sess A := raise (DAGNotFoundError "job group does not exist in the project").

Definition add_dependency (project_id group_id : N) (dependency : DependencySpec.t) : Sess Dep :=
  _ ← _lock_active_project project_id;
  group ← get_group project_id group_id;
  match group with
  | None => no_group
  | Some group =>
      created ← _add_dependencies_locked group [dependency];
      match created with
      | row :: _ => mret row
      | [] => raise (LookupError "list index out of range")
      end
  end.

(** ** Queries *)
Definition list_groups (db : Db.t) (project_id : N) (limit offset : nat) : list JobGroup.t :=
  take limit (drop offset
    (py_sort (fun g => (- JobGroup.created_at g, - Z.of_N (JobGroup.id g)))
       (List.filter (fun g => JobGroup.project_id g == project_id) (rows (Db.job_groups db))))).

Definition _task_statuses (project_id : N) (task_ids : list N) : Sess (gmap N TaskStatus) :=
  tasks ← gets (fun db => project_tasks db project_id task_ids);
  _ ← raise_if (negb (lenZ tasks =? lenZ task_ids))
        (DAGInvariantViolation "job group references missing or cross-project tasks");
  mret (list_to_map ((fun t => (id t, status t)) <$> tasks)).

(** [waiting], [failed] and [failed_policies] *)
Module Scan.
Record t := mk {
  waiting : list N;
  failed : list N;
  failed_policies : list DependencyFailurePolicy;
}.
End Scan.

Definition scan_edge (statuses : gmap N TaskStatus) (s : Scan.t) (e : Dep) : Sess Scan.t :=
  match statuses !! dep_on e with
  | None => raise (DAGInvariantViolation "dependency task status is missing")
  | Some st =>
      if st == SUCCEEDED then mret s
      else if inb st FINAL_TASK_STATUSES
      then match DependencyFailurePolicy_of (TaskDependency.failure_policy e) with
           | None => raise (DAGInvariantViolation "dependency has an invalid failure policy")
           | Some p => mret (Scan.mk (Scan.waiting s) (Scan.failed s ++ [dep_on e])
                               (Scan.failed_policies s ++ [p]))
           end
      else mret (Scan.mk (Scan.waiting s ++ [dep_on e]) (Scan.failed s) (Scan.failed_policies s))
  end.

Definition resolved_state (s : Scan.t) : DependencyState :=
  if inb POLICY_CANCEL (Scan.failed_policies s) then DEP_CANCELLED
  else if negb (bool_decide (Scan.failed_policies s = [])) then DEP_BLOCKED
  else if negb (bool_decide (Scan.waiting s = [])) then DEP_WAITING
  else DEP_READY.

Definition _resolve_task (task_id : N) (statuses : gmap N TaskStatus) (edges : list Dep)
  : Sess DependencyResolution.t :=
  let incoming := List.filter (fun e => dep_task e == task_id) edges in
  s ← foldM incoming (Scan.mk [] [] []) (scan_edge statuses);
  match statuses !! task_id with
  | None => raise (DAGInvariantViolation "job group task status is missing")
  | Some task_status =>
      mret (DependencyResolution.mk task_id task_status (resolved_state s)
              (py_sort uuid_str (dep_on <$> incoming)) (py_sort uuid_str (Scan.waiting s))
              (py_sort uuid_str (Scan.failed s)))
  end.

Definition list_dependencies (project_id group_id : N) : Sess (list Dep) :=
  group ← get_group project_id group_id;
  match group with
  | None => no_group
  | Some _ =>
      edges ← gets (fun db => py_sort edge_of (group_edges db group_id));
      _ ← _task_statuses project_id (_task_ids edges);
      mret edges
  end.

Definition dependency_state (project_id group_id task_id : N) : Sess DependencyResolution.t :=
  group ← get_group project_id group_id;
  match group with
  | None => no_group
  | Some _ =>
      task ← gets (fun db => match Db.tasks db !! task_id with
                             | Some t => Task.project_id t == project_id
                             | None => false
                             end);
      _ ← raise_if (negb task) (DAGNotFoundError "task does not exist in the project");
      edges ← gets (fun db => group_edges db group_id);
      _ ← raise_if (negb (inb task_id (_task_ids edges)))
            (DAGNotFoundError "task is not represented in the job group");
      statuses ← _task_statuses project_id (_task_ids edges);
      _resolve_task task_id statuses edges
  end.

Definition runnable (r : DependencyResolution.t) : bool :=
  (DependencyResolution.state r == DEP_READY)
  && inb (DependencyResolution.task_status r) [PENDING; QUEUED; RETRYING].

Definition ready_tasks (project_id group_id : N) : Sess (list DependencyResolution.t) :=
  group ← get_group project_id group_id;
  match group with
  | None => no_group
  | Some _ =>
      edges ← gets (fun db => group_edges db group_id);
      let task_ids := _task_ids edges in
      statuses ← _task_statuses project_id task_ids;
      resolutions ← mapM (fun i => _resolve_task i statuses edges) task_ids;
      mret (py_sort (fun r => uuid_str (DependencyResolution.task_id r)) (List.filter runnable resolutions))
  end.

Definition failed_task (t : Task.t) : bool := inb (status t) FINAL_TASK_STATUSES && (status t !== SUCCEEDED).

Definition _count_state (resolutions : list DependencyResolution.t) (s : DependencyState) : Z :=
  lenZ (List.filter (fun r => DependencyResolution.state r == s) resolutions).

Definition _group_status (tasks : list Task.t) (resolutions : list DependencyResolution.t)
  : JobGroupStatus :=
  if bool_decide (tasks = []) then GROUP_PENDING
  else if forallb (fun t => status t == SUCCEEDED) tasks then GROUP_SUCCEEDED
  else if existsb failed_task tasks
          || existsb (fun r => inb (DependencyResolution.state r) [DEP_BLOCKED; DEP_CANCELLED]) resolutions
  then GROUP_FAILED
  else if existsb (fun t => inb (status t) ACTIVE_TASK_STATUSES) tasks then GROUP_RUNNING
  else GROUP_PENDING.

(** [max(terminal_times)] *)
Definition latest (times : list Z) : option Z :=
  match times with [] => None | t :: rest => Some (foldl Z.max t rest) end.

Definition _summarize_loaded_group (group : JobGroup.t) (tasks : list Task.t) (edges : list Dep)
  : Sess JobGroupSummary.t :=
  let task_ids := _task_ids edges in
  _ ← raise_if (negb (lenZ tasks =? lenZ task_ids)
                || negb (forallb (fun t => inb (id t) task_ids) tasks
                         && forallb (fun i => inb i (id <$> tasks)) task_ids))
        (DAGInvariantViolation "job group references missing or cross-project tasks");
  let statuses := list_to_map ((fun t => (id t, status t)) <$> tasks) : gmap N TaskStatus in
  resolutions ← mapM (fun i => _resolve_task i statuses edges) task_ids;
  let status := _group_status tasks resolutions in
  mret (JobGroupSummary.mk group status (lenZ task_ids)
          (lenZ (List.filter runnable resolutions))
          (_count_state resolutions DEP_WAITING) (_count_state resolutions DEP_BLOCKED)
          (_count_state resolutions DEP_CANCELLED)
          (lenZ (List.filter (fun t => Task.status t == SUCCEEDED) tasks))
          (lenZ (List.filter failed_task tasks))
          (if inb status [GROUP_SUCCEEDED; GROUP_FAILED] then latest (omap finished_at tasks) else None)).

Definition summarize_group (project_id group_id : N) : Sess JobGroupSummary.t :=
  group ← get_group project_id group_id;
  match group with
  | None => no_group
  | Some group =>
      edges ← gets (fun db => group_edges db group_id);
      let task_ids := _task_ids edges in
      tasks ← gets (fun db => project_tasks db project_id task_ids);
      _ ← raise_if (negb (lenZ tasks =? lenZ task_ids))
            (DAGInvariantViolation "job group references missing or cross-project tasks");
      _summarize_loaded_group group tasks edges
  end.

(** A group keeps its edges in query order; the query has selected the edges of
    the batch, so the check of [edges_by_group] cannot fail. *)
Definition summarize_groups (project_id : N) (groups : list JobGroup.t)
  : Sess (list JobGroupSummary.t) :=
  if bool_decide (groups = []) then mret []
  else
    _ ← raise_if (existsb (fun g => JobGroup.project_id g !== project_id) groups)
          (DAGInvariantViolation "job group belongs to another project");
    let group_ids := JobGroup.id <$> groups in
    edges ← gets (fun db => List.filter (fun e =>
              match TaskDependency.job_group_id e with Some g => inb g group_ids | None => false end)
              (Db.dependencies db));
    let task_ids := _task_ids edges in
    tasks ← gets (fun db => List.filter (fun t => (Task.project_id t == project_id)
              && (inb (id t) (dep_task <$> edges) || inb (id t) (dep_on <$> edges))) (rows (Db.tasks db)));
    let tasks_by_id := list_to_map ((fun t => (id t, t)) <$> tasks) : gmap N Task.t in
    _ ← raise_if (negb (Z.of_nat (size tasks_by_id) =? lenZ task_ids))
          (DAGInvariantViolation "job group references missing or cross-project tasks");
    mapM (fun g =>
      let edges_of_group :=
        List.filter (fun e => TaskDependency.job_group_id e == Some (JobGroup.id g)) edges in
      _summarize_loaded_group g
        (omap (fun i => tasks_by_id !! i) (_task_ids edges_of_group)) edges_of_group) groups.

(** ** What a successful write has done *)
Definition new_batch (db : Db.t) (g : JobGroup.t) : Batch.t :=
  let existing_edges := group_edges db (JobGroup.id g) in
  Batch.mk (list_to_map ((fun e => (edge_of e, e)) <$> existing_edges))
    (remove_dups (edge_of <$> existing_edges)) [].

Lemma add_dependencies_ok g ds db r db' :
  _add_dependencies_locked g ds db = (inr r, db') ->
  let ids := requested_task_ids ds in
  lenZ (project_tasks db (JobGroup.project_id g) ids) = lenZ ids /\
  (forall e, e ∈ Db.dependencies db -> dep_task e ∈ ids \/ dep_on e ∈ ids ->
   TaskDependency.job_group_id e = Some (JobGroup.id g)) /\
  exists tasks_by_id b, foldM ds (new_batch db g) (add_dependency_row g tasks_by_id) db = (inr b, db').
Proof.
  intros H ids. unfold _add_dependencies_locked in H. fold ids in H.
  apply bind_ok in H as ([] & ? & (_ & _ & ->)%raise_if_ok & H).
  apply bind_ok in H as ([] & ? & (_ & _ & ->)%raise_if_ok & H).
  apply bind_ok in H as (ts & ? & [-> ->]%gets_ok & H).
  apply bind_ok in H as ([] & ? & (Hlen & _ & ->)%raise_if_ok & H). apply negb_false_iff, Z.eqb_eq in Hlen.
  apply bind_ok in H as (es & ? & [-> ->]%gets_ok & H).
  apply bind_ok in H as ([] & ? & (Hmem & _ & ->)%raise_if_ok & H).
  apply bind_ok in H as (ex & ? & [-> ->]%gets_ok & H).
  apply bind_ok in H as (b & db1 & Hf & H). apply ret_ok in H as [_ ->]. split_and!; [done| |eauto].
  intros e He Ht. destruct (TaskDependency.job_group_id e == Some (JobGroup.id g)) eqn:E;
    [by rewrite eqb_true in E|]. exfalso. apply not_true_iff_false in Hmem. apply Hmem, existsb_exists.
  exists e. rewrite E. split; [|done]. apply list_elem_of_In, elem_of_lfilter. split; [done|].
  by rewrite orb_true_iff, !inb_true.
Qed.

Lemma create_group_ok i p name policy ds db g db' :
  create_group i p name policy ds db = (inr g, db') ->
  let db1 := db <| Db.job_groups ::= <[i := g]> |> in
  db' = db1 \/ exists r, _add_dependencies_locked g ds db1 = (inr r, db').
Proof.
  intros H. unfold create_group, _lock_active_project in H.
  apply bind_ok in H as ([] & db1 & H1 & H). minv H1.
  apply bind_ok in H as ([] & ? & (_ & _ & ->)%raise_if_ok & H).
  apply bind_ok in H as (? & db1 & H2 & H).
  assert (db1 = db) as -> by (unfold _validate_retry_policy in H2; case_match; by minv H2).
  apply bind_ok in H as (? & ? & [_ ->]%gets_ok & H).
  apply bind_ok in H as (? & ? & [_ ->]%gets_ok & H).
  apply bind_ok in H as ([] & ? & (_ & _ & ->)%raise_if_ok & H).
  apply bind_ok in H as ([] & db1 & [_ ->]%modify_ok & H).
  apply bind_ok in H as ([] & db2 & H3 & H). apply ret_ok in H as [-> ->].
  apply when_ok in H3 as [[_ H3]|(_ & _ & ->)]; [right|by left].
  apply bind_ok in H3 as (r & ? & H3 & H). apply ret_ok in H as [_ ->]. by exists r.
Qed.

Lemma add_dependency_ok p i d db r db' :
  add_dependency p i d db = (inr r, db') ->
  exists g rows, Db.job_groups db !! i = Some g /\ _add_dependencies_locked g [d] db = (inr rows, db').
Proof.
  intros H. unfold add_dependency, _lock_active_project in H.
  apply bind_ok in H as ([] & db1 & H1 & H). minv H1.
  apply bind_ok in H as (gr & ? & [Eg ->]%gets_ok & H). destruct gr as [gr|]; [|by apply raise_ok in H].
  apply bind_ok in H as (l & ? & H2 & H). exists gr, l.
  destruct l; [by apply raise_ok in H|apply ret_ok in H as [_ ->]]. split; [|done].
  destruct (Db.job_groups db !! i) as [g|]; [|done]. by destruct (JobGroup.project_id g == p).
Qed.
