(* ===== verification/Invariant.v ===== *)
(** * The accounting invariant

    The counters of projects and workers are materialised views of the task
    and reservation rows; reservations and placed tasks determine each other;
    a device has one active owner; the events of a task are a legal history
    that ends in its status.  [I d h db] is the invariant of a transaction in
    progress: the usage of project [p] differs from its rows by [d p], and the
    task [h], if any, is exempt from the clauses on the task being changed.
    The invariant of a committed database is [ok db]. *)

From S2P Require Import Prelude PyFloat PyString Enums Policies Store Quotas Reservations Tasks.

Import Task StateMachine.

(** ** Classes of statuses *)

(** Tasks that wait for an execution and count as queued. *)
Definition waiting (s : TaskStatus) : bool := inb s [PENDING; QUEUED; SCHEDULING; RETRYING].

(** Tasks with an execution. *)
Definition placed (s : TaskStatus) : bool :=
  inb s [ASSIGNED; PREPARING; PULLING; STARTING; RUNNING; PREEMPTING; STOPPING].

Definition final (s : TaskStatus) : bool := inb s FINAL_TASK_STATUSES.

Lemma status_class s :
  (waiting s, placed s, final s) ∈ [(true, false, false); (false, true, false); (false, false, true)].
Proof. destruct s; vm_compute; repeat ((left; reflexivity) || right). Qed.

Lemma waiting_not_placed s : waiting s = true -> placed s = false.
Proof. by destruct s. Qed.
Lemma placed_not_waiting s : placed s = true -> waiting s = false.
Proof. by destruct s. Qed.
Lemma final_not_placed s : final s = true -> placed s = false.
Proof. by destruct s. Qed.
Lemma final_not_waiting s : final s = true -> waiting s = false.
Proof. by destruct s. Qed.
Lemma active_placed s : s ∈ ACTIVE_TASK_STATUSES -> s <> SCHEDULING -> placed s = true.
Proof. unfold ACTIVE_TASK_STATUSES. destruct s; set_solver. Qed.

(** ** Sums of usage over tables *)
Definition zero_usage : Usage.t := Usage.mk 0 0 0 0 0 0.

Definition usum {K V} `{Countable K} (f : V -> Usage.t) (m : gmap K V) : Usage.t :=
  Usage.mk (msum (fun _ v => Usage.queued (f v)) m) (msum (fun _ v => Usage.running (f v)) m)
    (msum (fun _ v => Usage.cpu (f v)) m) (msum (fun _ v => Usage.memory (f v)) m)
    (msum (fun _ v => Usage.nvidia (f v)) m) (msum (fun _ v => Usage.ascend (f v)) m).

Lemma usum_insert {K V} `{Countable K} (f : V -> Usage.t) (m : gmap K V) k v v' :
  m !! k = Some v -> usum f (<[k := v']> m) = Usage.add (Usage.sub (usum f m) (f v)) (f v').
Proof.
  intros Hk. apply Usage.ext; cbn;
    match goal with |- msum ?g _ = _ => by rewrite (msum_insert g m k v v' Hk) end.
Qed.

Lemma usum_insert_new {K V} `{Countable K} (f : V -> Usage.t) (m : gmap K V) k v :
  m !! k = None -> usum f (<[k := v]> m) = Usage.add (usum f m) (f v).
Proof.
  intros Hk. apply Usage.ext; cbn;
    match goal with |- msum ?g _ = _ => rewrite (msum_insert_new g m k v Hk); lia end.
Qed.

(** What a task and a reservation contribute to the usage of a project. *)
Definition task_usage (p : N) (t : Task.t) : Usage.t :=
  if (project_id t == p) && waiting (status t) then one_queued else zero_usage.

Definition reservation_usage (p : N) (r : ResourceReservation.t) : Usage.t :=
  if (ResourceReservation.project_id r == p) && active_reservation r
  then one_running (ResourceReservation.cpu_millicores r) (ResourceReservation.memory_mb r)
         (ResourceReservation.gpu_count r) (ResourceReservation.requested_vendor r)
  else zero_usage.

Definition usage_of (tasks : gmap N Task.t) (reservations : gmap N ResourceReservation.t) (p : N)
  : Usage.t :=
  Usage.add (usum (task_usage p) tasks) (usum (reservation_usage p) reservations).

(** What a reservation contributes to a counter of a worker. *)
Definition on_worker (f : ResourceReservation.t -> Z) (w : string) (r : ResourceReservation.t) : Z :=
  if (ResourceReservation.worker_id r == w) && active_reservation r then f r else 0.

(** ** The events of a task *)
Definition events_of (events : list TaskEvent.t) (i : N) : list TaskEvent.t :=
  List.filter (fun e => TaskEvent.task_id e == i) events.

(** The status after a sequence of events, if each one is a legal step. *)
Fixpoint replay (current : option TaskStatus) (l : list TaskEvent.t) : option (option TaskStatus) :=
  match l with
  | [] => Some current
  | e :: l' =>
      if (TaskEvent.from_status e == current)
         && match current with
            | None => TaskEvent.status e == PENDING
            | Some c => can_transition c (TaskEvent.status e)
            end
      then replay (Some (TaskEvent.status e)) l'
      else None
  end.

Lemma replay_app current l e s :
  replay current l = Some s ->
  replay current (l ++ [e]) = replay s [e].
Proof.
  revert current. induction l as [|x l IH]; intros current; cbn.
  - by intros [= ->].
  - case_match; [apply IH|done].
Qed.

(** ** The clauses *)
Record keys_ok (tasks : gmap N Task.t) (workers : gmap string Worker.t)
    (executions : gmap N TaskExecution.t) (reservations : gmap N ResourceReservation.t) : Prop := {
  keys_tasks : forall i t, tasks !! i = Some t -> id t = i;
  keys_workers : forall i w, workers !! i = Some w -> Worker.id w = i;
  keys_executions : forall i e, executions !! i = Some e -> TaskExecution.id e = i;
  keys_reservations : forall i r, reservations !! i = Some r -> ResourceReservation.id r = i;
}.

(** Counters are the usage of the rows plus the pending difference. *)
Record quota_ok (d : N -> Usage.t) (tasks : gmap N Task.t)
    (reservations : gmap N ResourceReservation.t) (quotas : gmap N ProjectQuota.t)
    (states : gmap N ProjectQuotaState.t) : Prop := {
  quota_counters : forall p s, states !! p = Some s ->
    state_wf s /\ usage s = Usage.add (usage_of tasks reservations p) (d p);
  quota_tasks : forall i t, tasks !! i = Some t -> is_Some (states !! project_id t);
  quota_rows : forall p, is_Some (states !! p) -> is_Some (quotas !! p);
}.

(** Placed tasks and active reservations determine each other. *)
Record placement_ok (h : option N) (tasks : gmap N Task.t)
    (reservations : gmap N ResourceReservation.t) (executions : gmap N TaskExecution.t) : Prop := {
  placement_reservation : forall k r, reservations !! k = Some r -> active_reservation r = true ->
    Some (ResourceReservation.task_id r) <> h ->
    exists t, tasks !! ResourceReservation.task_id r = Some t /\ placed (status t) = true /\
      execution_id t = Some (ResourceReservation.execution_id r) /\
      worker_id t = Some (ResourceReservation.worker_id r) /\
      project_id t = ResourceReservation.project_id r;
  placement_task : forall i t, tasks !! i = Some t -> placed (status t) = true -> Some i <> h ->
    exists k r, reservations !! k = Some r /\ active_reservation r = true /\
      ResourceReservation.task_id r = i;
  placement_execution : forall k r, reservations !! k = Some r ->
    is_Some (executions !! ResourceReservation.execution_id r);
  placement_unique : forall k k' r r', reservations !! k = Some r -> reservations !! k' = Some r' ->
    ResourceReservation.execution_id r = ResourceReservation.execution_id r' -> k = k';
  placement_amounts : forall k r, reservations !! k = Some r -> reservation_checks r = true;
  placement_waiting : forall i t, tasks !! i = Some t -> waiting (status t) = true ->
    Some i <> h -> execution_id t = None /\ worker_id t = None /\ status t <> SCHEDULING;
}.

Record workers_ok (workers : gmap string Worker.t) (reservations : gmap N ResourceReservation.t)
  : Prop := {
  workers_counters : forall i w, workers !! i = Some w ->
    Worker.running_tasks w = msum (fun _ => on_worker (fun _ => 1) i) reservations /\
    Worker.reserved_memory_mb w
      = msum (fun _ => on_worker ResourceReservation.memory_mb i) reservations /\
    Worker.reserved_gpus w
      = msum (fun _ => on_worker ResourceReservation.gpu_count i) reservations;
  workers_exist : forall k r, reservations !! k = Some r -> active_reservation r = true ->
    is_Some (workers !! ResourceReservation.worker_id r);
}.

(** An active link belongs to an active reservation, and a device has at most
    one. *)
Record links_ok (links : gmap (N * N) ReservationGPUDevice.t)
    (reservations : gmap N ResourceReservation.t) : Prop := {
  links_active : forall k l, links !! k = Some l -> active_link l = true ->
    exists r, reservations !! k.1 = Some r /\ active_reservation r = true;
  links_exclusive : forall k k' l l', links !! k = Some l -> links !! k' = Some l' ->
    active_link l = true -> active_link l' = true -> k.2 = k'.2 -> k = k';
}.

Record events_ok (tasks : gmap N Task.t) (events : list TaskEvent.t) (logs : list TaskLog.t)
  : Prop := {
  events_history : forall i t, tasks !! i = Some t ->
    replay None (events_of events i) = Some (Some (status t));
  events_sequence : forall e, e ∈ events ->
    exists t, tasks !! TaskEvent.task_id e = Some t /\ TaskEvent.sequence e <= version t;
  events_unique : NoDup ((fun e => (TaskEvent.task_id e, TaskEvent.sequence e)) <$> events);
  logs_sequence : forall l, l ∈ logs ->
    exists t, tasks !! TaskLog.task_id l = Some t /\ TaskLog.sequence l <= log_sequence t;
  logs_unique : NoDup ((fun l => (TaskLog.task_id l, TaskLog.sequence l)) <$> logs);
  versions_positive : forall i t, tasks !! i = Some t -> 1 <= version t;
}.

(** A requested cancellation is on its way: it is never seen on a task that
    waits, runs undisturbed or has succeeded. *)
Definition cancel_ok (h : option N) (tasks : gmap N Task.t) : Prop :=
  forall i t, tasks !! i = Some t -> cancel_requested t = true -> Some i <> h ->
    status t ∈ [PREEMPTING; STOPPING; CANCELLED; PREEMPTED].

Record I (d : N -> Usage.t) (h : option N) (db : Db.t) : Prop := {
  I_keys : keys_ok (Db.tasks db) (Db.workers db) (Db.executions db) (Db.reservations db);
  I_quota : quota_ok d (Db.tasks db) (Db.reservations db) (Db.quotas db) (Db.quota_states db);
  I_placement : placement_ok h (Db.tasks db) (Db.reservations db) (Db.executions db);
  I_workers : workers_ok (Db.workers db) (Db.reservations db);
  I_links : links_ok (Db.links db) (Db.reservations db);
  I_events : events_ok (Db.tasks db) (Db.events db) (Db.logs db);
  I_cancel : cancel_ok h (Db.tasks db);
}.

Definition settled : N -> Usage.t := fun _ => zero_usage.

Definition ok (db : Db.t) : Prop := I settled None db.

(** ** Opening and closing the exemption *)
Lemma I_open d i db : I d None db -> I d (Some i) db.
Proof.
  intros [? ? [] ? ? ? ?]. constructor; try done.
  - constructor; naive_solver.
  - intros j t ? ? _. eauto.
Qed.

Lemma I_ext d d' h db : (forall p, d p = d' p) -> I d h db -> I d' h db.
Proof.
  intros Hd [? [Hc ? ?] ? ? ? ? ?]. constructor; try done. constructor; try done.
  intros p s Hs. rewrite <-Hd. eauto.
Qed.

(** The clauses on one task. *)
Record task_ok (db : Db.t) (t : Task.t) : Prop := {
  ok_placed : placed (status t) = true -> exists k r,
    Db.reservations db !! k = Some r /\ active_reservation r = true /\
    ResourceReservation.task_id r = id t;
  ok_reserved : forall k r, Db.reservations db !! k = Some r -> active_reservation r = true ->
    ResourceReservation.task_id r = id t ->
    placed (status t) = true /\ execution_id t = Some (ResourceReservation.execution_id r) /\
    worker_id t = Some (ResourceReservation.worker_id r) /\
    project_id t = ResourceReservation.project_id r;
  ok_waiting : waiting (status t) = true ->
    execution_id t = None /\ worker_id t = None /\ status t <> SCHEDULING;
  ok_cancel : cancel_requested t = true -> status t ∈ [PREEMPTING; STOPPING; CANCELLED; PREEMPTED];
}.

Lemma I_close d i t db :
  I d (Some i) db -> Db.tasks db !! i = Some t -> task_ok db t -> I d None db.
Proof.
  intros [Hk Hq [H1 H2 H3 H4 H5 H6] Hw Hl He Hc] Ht [O1 O2 O3 O4].
  assert (id t = i) as Hi by (by apply (keys_tasks _ _ _ _ Hk)).
  constructor; try done.
  - constructor; try done.
    + intros k r Hr Ha _. destruct (decide (ResourceReservation.task_id r = i)) as [E|E].
      * exists t. rewrite E. rewrite <-Hi in E. split; [done|]. naive_solver.
      * eapply H1; eauto. congruence.
    + intros j t' Ht' Hp _. destruct (decide (j = i)) as [->|E].
      * assert (t' = t) as -> by congruence. rewrite <-Hi. auto.
      * eapply H2; eauto. congruence.
    + intros j t' Ht' Hp _. destruct (decide (j = i)) as [->|E].
      * assert (t' = t) as -> by congruence. auto.
      * eapply H6; eauto. congruence.
  - intros j t' Ht' Hp _. destruct (decide (j = i)) as [->|E].
    + assert (t' = t) as -> by congruence. auto.
    + eapply Hc; eauto. congruence.
Qed.

Lemma I_task_ok d i t db : I d None db -> Db.tasks db !! i = Some t -> task_ok db t.
Proof.
  intros [Hk Hq [H1 H2 H3 H4 H5 H6] Hw Hl He Hc] Ht.
  assert (id t = i) as Hi by (by apply (keys_tasks _ _ _ _ Hk)). constructor.
  - intros Hp. rewrite Hi. by eapply H2.
  - intros k r Hr Ha E. destruct (H1 k r Hr Ha) as (t' & Ht' & ? & ? & ? & ?); [done|].
    rewrite E, Hi in Ht'. assert (t' = t) as -> by congruence. done.
  - intros. by eapply H6.
  - intros. by eapply Hc.
Qed.

(** ** Storing a task whose status does not change *)
Record same_task (t t0 : Task.t) : Prop := {
  same_status : status t = status t0;
  same_project : project_id t = project_id t0;
  same_version : version t0 <= version t;
  same_log : log_sequence t0 <= log_sequence t;
}.

Lemma same_task_refl t : same_task t t.
Proof. constructor; done || lia. Qed.

(** Either the task is exempt or its ownership is unchanged. *)
Definition frame (h : option N) (t t0 : Task.t) : Prop :=
  h = Some (id t) \/
  (execution_id t = execution_id t0 /\ worker_id t = worker_id t0 /\
   (cancel_requested t = true -> cancel_requested t0 = true)).

Definition store_task (t : Task.t) (db : Db.t) : Db.t := db <| Db.tasks ::= <[id t := t]> |>.

Lemma lookup_insert_cases {K A} `{Countable K} (m : gmap K A) i j x y :
  <[i := x]> m !! j = Some y -> (j = i /\ y = x) \/ (j <> i /\ m !! j = Some y).
Proof.
  destruct (decide (j = i)) as [->|E].
  - rewrite lookup_insert_eq. naive_solver.
  - rewrite lookup_insert_ne by done. naive_solver.
Qed.

Lemma task_usage_same p t t0 :
  status t = status t0 -> project_id t = project_id t0 -> task_usage p t = task_usage p t0.
Proof. unfold task_usage. by intros -> ->. Qed.

Lemma usage_of_same tasks rs p t t0 :
  tasks !! id t = Some t0 -> task_usage p t = task_usage p t0 ->
  usage_of (<[id t := t]> tasks) rs p = usage_of tasks rs p.
Proof.
  intros Ht E. unfold usage_of. rewrite (usum_insert _ _ _ t0) by done. rewrite E.
  apply Usage.ext; cbn; lia.
Qed.

Lemma put_task_I d h db t t0 :
  I d h db -> Db.tasks db !! id t = Some t0 -> same_task t t0 -> frame h t t0 ->
  I d h (store_task t db).
Proof.
  intros [[Kt Kw Ke Kr] [Q1 Q2 Q3] [P1 P2 P3 P4 P5 P6] Hw Hl [E1 E2 E3 E4 E5 E6] Hc] Ht
    [Hs Hp Hv Hlog] Hf.
  assert (id t0 = id t) as Hid by eauto.
  constructor; unfold store_task; fields; try done.
  - constructor; try done. intros j x [[-> ->]|[? ?]]%lookup_insert_cases; eauto.
  - constructor; try done.
    + intros p s Hps. destruct (Q1 p s Hps) as [Hwf Hu]. split; [done|]. rewrite Hu.
      by rewrite (usage_of_same _ _ _ t t0) by eauto using task_usage_same.
    + intros j x [[-> ->]|[? ?]]%lookup_insert_cases; [|eauto]. rewrite Hp. eauto.
  - constructor; try done.
    + intros k r Hr Ha Hh. destruct (P1 k r Hr Ha Hh) as (x & Hx & ? & ? & ? & ?).
      destruct (decide (ResourceReservation.task_id r = id t)) as [E|E].
      * rewrite E in *. assert (x = t0) as -> by congruence.
        exists t. rewrite lookup_insert_eq. destruct Hf as [->|(-> & -> & _)]; [done|].
        rewrite Hs, Hp. done.
      * exists x. rewrite lookup_insert_ne by done. done.
    + intros j x [[-> ->]|[? ?]]%lookup_insert_cases; [|eauto].
      rewrite Hs. eauto.
    + intros j x [[-> ->]|[? ?]]%lookup_insert_cases; [|eauto].
      rewrite Hs. intros Hwt Hh. destruct Hf as [->|(-> & -> & _)]; [done|]. eauto.
  - constructor; try done.
    + intros j x [[-> ->]|[? ?]]%lookup_insert_cases; [|eauto]. rewrite Hs. eauto.
    + intros e He. destruct (E2 e He) as (x & Hx & ?).
      destruct (decide (TaskEvent.task_id e = id t)) as [E|E].
      * rewrite E in *. assert (x = t0) as -> by congruence.
        exists t. rewrite lookup_insert_eq. split; [done|lia].
      * exists x. by rewrite lookup_insert_ne.
    + intros l Hll. destruct (E4 l Hll) as (x & Hx & ?).
      destruct (decide (TaskLog.task_id l = id t)) as [E|E].
      * rewrite E in *. assert (x = t0) as -> by congruence.
        exists t. rewrite lookup_insert_eq. split; [done|lia].
      * exists x. by rewrite lookup_insert_ne.
    + intros j x [[-> ->]|[? ?]]%lookup_insert_cases; [|eauto].
      specialize (E6 _ _ Ht). lia.
  - intros j x [[-> ->]|[? ?]]%lookup_insert_cases; [|eauto].
    intros Hcr Hh. destruct Hf as [->|(_ & _ & Hcr')]; [done|]. rewrite Hs. eauto.
Qed.

(** ** Changing the status of the exempt task, with its event *)
Definition shift (d : N -> Usage.t) (p : N) (u : Usage.t) : N -> Usage.t :=
  fun p' => if p' == p then Usage.add (d p') u else d p'.

Definition queued_delta (n : Z) : Usage.t := Usage.mk n 0 0 0 0 0.

(** The contribution of a status to the queued count. *)
Definition wz (s : TaskStatus) : Z := int_of_bool (waiting s).

Definition store_event (e : TaskEvent.t) (db : Db.t) : Db.t :=
  db <| Db.events ::= fun l => l ++ [e] |>.

Lemma usage_of_restatus tasks rs p t t0 :
  tasks !! id t = Some t0 -> project_id t = project_id t0 ->
  usage_of (<[id t := t]> tasks) rs p
  = if p == project_id t then Usage.add (usage_of tasks rs p) (queued_delta (wz (status t) - wz (status t0)))
    else usage_of tasks rs p.
Proof.
  intros Ht Hp. unfold usage_of. rewrite (usum_insert _ _ _ t0) by done.
  unfold task_usage. rewrite <-Hp. destruct (p == project_id t) eqn:E.
  - rewrite eqb_true in E. subst p. rewrite !eqb_same. unfold wz.
    destruct (waiting (status t)), (waiting (status t0)); apply Usage.ext; cbn; lia.
  - assert ((project_id t == p) = false) as -> by (rewrite eqb_false in *; done).
    apply Usage.ext; cbn; lia.
Qed.

Lemma events_of_app l e i :
  events_of (l ++ [e]) i
  = events_of l i ++ (if TaskEvent.task_id e == i then [e] else []).
Proof. unfold events_of. rewrite List.filter_app. done. Qed.

(** The event of a status change of [t0] to [t]. *)
Record step_event (e : TaskEvent.t) (t0 t : Task.t) : Prop := {
  step_task : TaskEvent.task_id e = id t;
  step_from : TaskEvent.from_status e = Some (status t0);
  step_to : TaskEvent.status e = status t;
  step_sequence : version t0 < TaskEvent.sequence e <= version t;
  step_legal : can_transition (status t0) (status t) = true;
}.

Lemma status_step_I d db t t0 e :
  I d (Some (id t)) db -> Db.tasks db !! id t = Some t0 ->
  project_id t = project_id t0 -> log_sequence t0 <= log_sequence t -> step_event e t0 t ->
  I (shift d (project_id t) (queued_delta (wz (status t0) - wz (status t)))) (Some (id t))
    (store_event e (store_task t db)).
Proof.
  intros [[Kt Kw Ke Kr] [Q1 Q2 Q3] [P1 P2 P3 P4 P5 P6] Hw Hl [E1 E2 E3 E4 E5 E6] Hc] Ht Hp Hlog
    [S1 S2 S3 S4 S5].
  constructor; unfold store_event, store_task; fields; try done.
  - constructor; try done. intros j x [[-> ->]|[? ?]]%lookup_insert_cases; eauto.
  - constructor; try done.
    + intros p s Hps. destruct (Q1 p s Hps) as [Hwf Hu]. split; [done|]. rewrite Hu.
      rewrite (usage_of_restatus _ _ _ t t0) by done. unfold shift.
      destruct (p == project_id t); apply Usage.ext; cbn; lia.
    + intros j x [[-> ->]|[? ?]]%lookup_insert_cases; [|eauto]. rewrite Hp. eauto.
  - constructor; try done.
    + intros k r Hr Ha Hh. destruct (P1 k r Hr Ha Hh) as (x & Hx & ?).
      exists x. rewrite lookup_insert_ne by congruence. done.
    + intros j x [[-> ->]|[? ?]]%lookup_insert_cases; [done|eauto].
    + intros j x [[-> ->]|[? ?]]%lookup_insert_cases; [done|eauto].
  - constructor; try done.
    + intros j x Hx. rewrite events_of_app, S1.
      apply lookup_insert_cases in Hx as [[-> ->]|[Hj Hx]].
      * rewrite eqb_same. rewrite (replay_app _ _ e _ (E1 _ _ Ht)). cbn.
        rewrite S2, eqb_same, S3. cbn. by rewrite S5.
      * assert ((id t == j) = false) as -> by (rewrite eqb_false; congruence).
        rewrite app_nil_r. eauto.
    + intros e' He'. apply elem_of_app in He' as [He'|He'].
      * destruct (E2 e' He') as (x & Hx & ?).
        destruct (decide (TaskEvent.task_id e' = id t)) as [E|E].
        -- rewrite E in *. assert (x = t0) as -> by congruence.
           exists t. rewrite lookup_insert_eq. split; [done|lia].
        -- exists x. by rewrite lookup_insert_ne.
      * apply list_elem_of_singleton in He' as ->. exists t. rewrite S1, lookup_insert_eq.
        split; [done|lia].
    + rewrite fmap_app. apply NoDup_app. split_and!; [done| |apply NoDup_singleton].
      intros [a b] Hin Hin2. apply list_elem_of_singleton in Hin2. injection Hin2 as -> ->.
      apply list_elem_of_fmap in Hin as (e' & Heq & He'). injection Heq as Ha Hb.
      destruct (E2 e' He') as (x & Hx & ?). rewrite <-Ha, S1 in Hx.
      assert (x = t0) as -> by congruence. lia.
    + intros l Hll. destruct (E4 l Hll) as (x & Hx & ?).
      destruct (decide (TaskLog.task_id l = id t)) as [E|E].
      * rewrite E in *. assert (x = t0) as -> by congruence.
        exists t. rewrite lookup_insert_eq. split; [done|lia].
      * exists x. by rewrite lookup_insert_ne.
    + intros j x [[-> ->]|[? ?]]%lookup_insert_cases; [|eauto].
      specialize (E6 _ _ Ht). lia.
  - intros j x [[-> ->]|[? ?]]%lookup_insert_cases; [done|eauto].
Qed.

Lemma transitioned_fields t target now :
  let t' := transitioned t target now in
  id t' = id t /\ status t' = target /\ project_id t' = project_id t /\
  version t' = version t + 1 /\ log_sequence t' = log_sequence t /\
  execution_id t' = execution_id t /\ worker_id t' = worker_id t /\
  cancel_requested t' = cancel_requested t /\ runtime_handle t' = runtime_handle t /\
  cpu_millicores t' = cpu_millicores t /\ memory_limit_mb t' = memory_limit_mb t /\
  gpu_count t' = gpu_count t /\ failure_category t' = failure_category t.
Proof. unfold transitioned, stamp. destruct target; split_and!; fields; done. Qed.

Lemma transition_run t target now ev db t' db' :
  _transition t target now ev db = (inr t', db') ->
  t' = transitioned t target now /\ can_transition (status t) target = true /\
  db' = store_event (transition_event t target now ev) (store_task t' db).
Proof.
  unfold _transition, ensure_transition. intros H. minv H.
  apply negb_false_iff in Hm. done.
Qed.

Lemma transition_I d db t t0 target now ev t' db' :
  I d (Some (id t)) db -> Db.tasks db !! id t = Some t0 -> same_task t t0 ->
  _transition t target now ev db = (inr t', db') ->
  I (shift d (project_id t) (queued_delta (wz (status t) - wz target))) (Some (id t)) db' /\
  Db.tasks db' !! id t = Some t' /\ t' = transitioned t target now.
Proof.
  intros HI Ht [Hs Hp Hv Hl] H. apply transition_run in H as (Heq & Hc & ->).
  destruct (transitioned_fields t target now)
    as (F1 & F2 & F3 & F4 & F5 & _). rewrite <-Heq in *.
  split_and!; [|unfold store_event, store_task; fields; rewrite F1; apply lookup_insert_eq|done].
  rewrite <-F1, <-F3, Hs, <-F2. apply (status_step_I d db t' t0); rewrite ?F1, ?F2, ?F3, ?F4; try done; try lia.
  constructor; cbn; rewrite ?F1, ?F2, ?F4, ?Hs in *; done || lia.
Qed.

(** ** Updates of other tables *)
Lemma I_tables d h db db' :
  Db.tasks db' = Db.tasks db -> Db.workers db' = Db.workers db ->
  Db.executions db' = Db.executions db -> Db.reservations db' = Db.reservations db ->
  Db.links db' = Db.links db -> Db.quotas db' = Db.quotas db ->
  Db.quota_states db' = Db.quota_states db -> Db.events db' = Db.events db ->
  Db.logs db' = Db.logs db -> I d h db -> I d h db'.
Proof.
  intros T W E R L Q S V G []. constructor; rewrite ?T, ?W, ?E, ?R, ?L, ?Q, ?S, ?V, ?G; done.
Qed.

Lemma outbox_I d h db f : I d h db -> I d h (db <| Db.outbox ::= f |>).
Proof. by apply I_tables. Qed.
Lemma plans_I d h db f : I d h db -> I d h (db <| Db.plans ::= f |>).
Proof. by apply I_tables. Qed.
Lemma attempts_I d h db f : I d h db -> I d h (db <| Db.attempts ::= f |>).
Proof. by apply I_tables. Qed.
Lemma ledger_I d h db f : I d h db -> I d h (db <| Db.ledger ::= f |>).
Proof. by apply I_tables. Qed.
Lemma dependencies_I d h db f : I d h db -> I d h (db <| Db.dependencies ::= f |>).
Proof. by apply I_tables. Qed.
Lemma job_groups_I d h db f : I d h db -> I d h (db <| Db.job_groups ::= f |>).
Proof. by apply I_tables. Qed.
Lemma devices_I d h db f : I d h db -> I d h (db <| Db.gpu_devices ::= f |>).
Proof. by apply I_tables. Qed.

Lemma execution_I d h db e :
  I d h db -> I d h (db <| Db.executions ::= <[TaskExecution.id e := e]> |>).
Proof.
  intros [[Kt Kw Ke Kr] Hq [P1 P2 P3 P4 P5 P6] Hw Hl He Hc]. constructor; fields; try done.
  - constructor; try done. intros j x [[-> ->]|[? ?]]%lookup_insert_cases; eauto.
  - constructor; try done. intros k r Hr. apply lookup_insert_is_Some'. right. eauto.
Qed.

(** ** Quota operations *)
Lemma moved_I d h db p f q s db' u :
  I d h db -> moved p f db q s db' -> (forall v, f v = Usage.add v u) -> I (shift d p u) h db'.
Proof.
  intros [Hk [Q1 Q2 Q3] Hp Hw Hl He Hc] (s0 & Hq & Hs & Hwf & Hu & _ & ->) Hf.
  unfold set_state. constructor; fields; try done. constructor.
  - intros p' s' [[-> ->]|[Hne Hs']]%lookup_insert_cases.
    + split; [done|]. destruct (Q1 p s0 Hs) as [_ Hu0]. rewrite Hu, Hf, Hu0.
      unfold shift. rewrite eqb_same. apply Usage.ext; cbn; lia.
    + unfold shift. assert ((p' == p) = false) as -> by by rewrite eqb_false. auto.
  - intros i t Ht. apply lookup_insert_is_Some'. right. eauto.
  - intros p' [s' [[-> ->]|[Hne Hs']]%lookup_insert_cases]; eauto.
Qed.

Lemma get_locked_I d h db p r db' :
  I d h db -> get_locked p db = (inr r, db') -> I d h db'.
Proof.
  intros HI H. destruct r as [q s]. apply get_locked_ok in H as (s0 & Hq & Hs & Hwf & Hu & Hc & ->).
  apply (I_ext (shift d p zero_usage)).
  - intros p'. unfold shift. destruct (_ == _); [|done]. apply Usage.ext; cbn; lia.
  - eapply (moved_I d h db p (fun u => u)); [done| |].
    + exists s0. done.
    + intros v. apply Usage.ext; cbn; lia.
Qed.

Lemma admit_I d h db p s db' :
  I d h db -> admit_queued p db = (inr s, db') -> I (shift d p (queued_delta 1)) h db'.
Proof.
  intros HI (q & Hm & _)%admit_queued_ok. eapply moved_I; [done|done|].
  intros v. apply Usage.ext; cbn; lia.
Qed.

Lemma release_queued_I d h db p s db' :
  I d h db -> release_queued p db = (inr s, db') -> I (shift d p (queued_delta (-1))) h db'.
Proof.
  intros HI (q & Hm)%release_queued_ok. eapply moved_I; [done|done|].
  intros v. apply Usage.ext; cbn; lia.
Qed.

(** The negation of a usage. *)
Definition minus (u : Usage.t) : Usage.t := Usage.sub zero_usage u.

Lemma reserve_I d h db p cpu mem gpu cost v s db' :
  I d h db -> reserve_execution p cpu mem gpu cost v db = (inr s, db') ->
  I (shift d p (Usage.sub (one_running cpu mem gpu v) one_queued)) h db'.
Proof.
  intros HI (q & Hm & _)%reserve_execution_ok. eapply moved_I; [done|done|].
  intros u. apply Usage.ext; cbn; lia.
Qed.

Lemma release_I d h db p cpu mem gpu rc sc date v s db' :
  I d h db -> release p cpu mem gpu rc sc date v db = (inr s, db') ->
  I (shift d p (minus (one_running cpu mem gpu v))) h db'.
Proof.
  intros HI (q & Hm)%release_ok. eapply moved_I; [done|done|].
  intros u. apply Usage.ext; cbn; lia.
Qed.

(** Quota operations change one row of one table. *)
Lemma moved_tasks p f db q s db' : moved p f db q s db' -> Db.tasks db' = Db.tasks db.
Proof. intros (? & _ & _ & _ & _ & _ & ->). done. Qed.
