(* ===== verification/Transaction.v ===== *)
(** * Transactions on one task

    The steps of a transaction that works on one task row, each with the
    invariant it keeps: this is the calculus in which the operations of the task
    and scheduling repositories are shown to preserve the accounting
    invariant. *)

From S2P Require Import Prelude PyFloat PyString Enums Policies Store Quotas Reservations Tasks.
From S2P Require Import Invariant.

Import Task StateMachine.

(** ** A transaction on one task

    [W db0 t0 R d db t]: a transaction that started in [db0] with the task [t0]
    now sees the database [db] and holds the task object [t]; the reservations
    are [R], no other task was touched, and the usage of the project is off by
    [d] until the transaction settles it. *)
Record W (db0 : Db.t) (t0 : Task.t) (R : gmap N ResourceReservation.t) (d : N -> Usage.t)
    (db : Db.t) (t : Task.t) : Prop := {
  W_inv : I d (Some (id t0)) db;
  W_row : Db.tasks db !! id t0 = Some t;
  W_id : id t = id t0;
  W_project : project_id t = project_id t0;
  W_reservations : Db.reservations db = R;
  W_others : forall j, j <> id t0 -> Db.tasks db !! j = Db.tasks db0 !! j;
}.

Definition others (i : N) (db0 db : Db.t) : Prop :=
  forall j, j <> i -> Db.tasks db !! j = Db.tasks db0 !! j.

Lemma W_open db i t : ok db -> Db.tasks db !! i = Some t ->
  W db t (Db.reservations db) settled db t.
Proof.
  intros Hok Ht. assert (id t = i) as Hi by (destruct Hok as [[]]; eauto).
  constructor; rewrite ?Hi; try done. by apply I_open.
Qed.

Section W_steps.
Context {db0 : Db.t} {t0 : Task.t} {R : gmap N ResourceReservation.t} {d : N -> Usage.t}
  {db : Db.t} {t : Task.t}.
Hypothesis HW : W db0 t0 R d db t.

Lemma W_ext d' : (forall p, d p = d' p) -> W db0 t0 R d' db t.
Proof. destruct HW. constructor; try done. by eapply I_ext. Qed.

Lemma W_tables d' db' :
  I d' (Some (id t0)) db' -> Db.tasks db' = Db.tasks db ->
  Db.reservations db' = Db.reservations db -> W db0 t0 R d' db' t.
Proof. destruct HW. intros ? ET ER. constructor; rewrite ?ET, ?ER; done. Qed.

Lemma W_put t' :
  id t' = id t -> same_task t' t -> W db0 t0 R d (db <| Db.tasks ::= <[id t' := t']> |>) t'.
Proof.
  destruct HW as [HI Hr Hi Hp HR Ho]. intros Hi' Hs.
  assert (id t' = id t0) as E by congruence. constructor.
  - apply (put_task_I _ _ _ _ t); rewrite ?E; try done. left. congruence.
  - fields. rewrite E. apply lookup_insert_eq.
  - done.
  - destruct Hs. congruence.
  - by fields.
  - intros j Hj. fields. rewrite E, lookup_insert_ne by done. auto.
Qed.

Lemma W_transition t1 target now ev t' db' :
  id t1 = id t -> same_task t1 t -> _transition t1 target now ev db = (inr t', db') ->
  W db0 t0 R (shift d (project_id t0) (queued_delta (wz (status t) - wz target))) db' t' /\
  t' = transitioned t1 target now /\ can_transition (status t) target = true.
Proof.
  destruct HW as [HI Hr Hi Hp HR Ho]. intros Hi' Hs H.
  pose proof (transition_run _ _ _ _ _ _ _ H) as (Heq & Hc & Hdb).
  destruct (transitioned_fields t1 target now) as (F1 & F2 & F3 & _).
  destruct (transition_I d db t1 t target now ev t' db') as (HI' & Ht' & _);
    [congruence..|done|done|].
  destruct Hs as [Hs1 Hs2 _ _]. rewrite <-Heq in *. rewrite Hs1 in *.
  split_and!; [|done|done]. constructor; try congruence.
  - rewrite Hdb. unfold store_event, store_task. by fields.
  - intros j Hj. rewrite Hdb. unfold store_event, store_task. fields.
    rewrite lookup_insert_ne by congruence. auto.
Qed.

Lemma W_execution e : W db0 t0 R d (db <| Db.executions ::= <[TaskExecution.id e := e]> |>) t.
Proof. apply W_tables; [apply execution_I, HW|done..]. Qed.
Lemma W_outbox f : W db0 t0 R d (db <| Db.outbox ::= f |>) t.
Proof. apply W_tables; [apply outbox_I, HW|done..]. Qed.
Lemma W_plans f : W db0 t0 R d (db <| Db.plans ::= f |>) t.
Proof. apply W_tables; [apply plans_I, HW|done..]. Qed.
Lemma W_ledger f : W db0 t0 R d (db <| Db.ledger ::= f |>) t.
Proof. apply W_tables; [apply ledger_I, HW|done..]. Qed.

Lemma W_get_locked p r db' : get_locked p db = (inr r, db') -> W db0 t0 R d db' t.
Proof.
  intros H. apply W_tables; [by eapply get_locked_I; [apply HW|]|..];
    destruct r; apply get_locked_ok in H as (? & _ & _ & _ & _ & _ & ->); done.
Qed.

Lemma W_moved p f q s db' u :
  moved p f db q s db' -> (forall v, f v = Usage.add v u) -> W db0 t0 R (shift d p u) db' t.
Proof.
  intros H Hf. apply W_tables; [by eapply moved_I; [apply HW|..]|..];
    destruct H as (? & _ & _ & _ & _ & _ & ->); done.
Qed.

Lemma W_admit p s db' : admit_queued p db = (inr s, db') -> W db0 t0 R (shift d p (queued_delta 1)) db' t.
Proof.
  intros (q & Hm & _)%admit_queued_ok. eapply W_moved; [done|].
  intros v. apply Usage.ext; cbn; lia.
Qed.

Lemma W_release_queued p s db' :
  release_queued p db = (inr s, db') -> W db0 t0 R (shift d p (queued_delta (-1))) db' t.
Proof.
  intros (q & Hm)%release_queued_ok. eapply W_moved; [done|].
  intros v. apply Usage.ext; cbn; lia.
Qed.

Lemma W_reserve p cpu mem gpu cost v s db' :
  reserve_execution p cpu mem gpu cost v db = (inr s, db') ->
  W db0 t0 R (shift d p (Usage.sub (one_running cpu mem gpu v) one_queued)) db' t.
Proof.
  intros (q & Hm & _)%reserve_execution_ok. eapply W_moved; [done|].
  intros u. apply Usage.ext; cbn; lia.
Qed.

Lemma W_release p cpu mem gpu rc sc date v s db' :
  release p cpu mem gpu rc sc date v db = (inr s, db') ->
  W db0 t0 R (shift d p (minus (one_running cpu mem gpu v))) db' t.
Proof.
  intros (q & Hm)%release_ok. eapply W_moved; [done|].
  intros u. apply Usage.ext; cbn; lia.
Qed.

(** The quota row of the task's project exists. *)
Lemma W_quota : is_Some (Db.quota_states db !! project_id t).
Proof. destruct HW as [[_ [_ Q _] _ _ _ _ _] Hr]. eauto. Qed.

Lemma W_close :
  (forall p, d p = zero_usage) -> task_ok db t -> ok db /\ others (id t0) db0 db.
Proof.
  destruct HW. intros Hd Hok. split; [|done]. apply (I_ext d); [done|].
  by eapply I_close.
Qed.
End W_steps.

(** No active reservation of the task. *)
Definition vacant (i : N) (R : gmap N ResourceReservation.t) : Prop :=
  forall k r, R !! k = Some r -> active_reservation r = true -> ResourceReservation.task_id r <> i.

Lemma close_vacant db0 t0 R d db t :
  W db0 t0 R d db t -> (forall p, d p = zero_usage) -> vacant (id t0) R ->
  placed (status t) = false ->
  (waiting (status t) = true -> execution_id t = None /\ worker_id t = None /\ status t <> SCHEDULING) ->
  (cancel_requested t = true -> status t ∈ [PREEMPTING; STOPPING; CANCELLED; PREEMPTED]) ->
  ok db /\ others (id t0) db0 db.
Proof.
  intros HW Hd Hv Hp Hw Hc. apply (W_close HW Hd). destruct HW as [_ _ Hi _ HR _].
  constructor; try done; rewrite ?Hp; try done.
  intros k r Hr Ha E. rewrite HR in Hr. destruct (Hv k r Hr Ha). congruence.
Qed.

Lemma vacant_unplaced db i t :
  ok db -> Db.tasks db !! i = Some t -> placed (status t) = false -> vacant i (Db.reservations db).
Proof.
  intros Hok Ht Hp k r Hr Ha E. destruct Hok as [_ _ [P1 _ _ _ _ _] _ _ _ _].
  destruct (P1 k r Hr Ha) as (t' & Ht' & Hp' & _); [done|]. congruence.
Qed.

(** The ownership of the task did not change. *)
Lemma close_same db0 i t0 d db t :
  W db0 t0 (Db.reservations db0) d db t -> ok db0 -> Db.tasks db0 !! i = Some t0 ->
  (forall p, d p = zero_usage) ->
  placed (status t) = placed (status t0) -> waiting (status t) = waiting (status t0) ->
  status t <> SCHEDULING -> execution_id t = execution_id t0 -> worker_id t = worker_id t0 ->
  (cancel_requested t = true -> status t ∈ [PREEMPTING; STOPPING; CANCELLED; PREEMPTED]) ->
  ok db /\ others (id t0) db0 db.
Proof.
  intros HW Hok Ht0 Hd Hp Hw Hs He Hwk Hc. apply (W_close HW Hd).
  destruct HW as [_ _ Hi Hpr HR _].
  destruct (I_task_ok _ _ _ _ Hok Ht0) as [O1 O2 O3 O4].
  constructor; rewrite ?Hp, ?Hw, ?HR, ?Hi, ?He, ?Hwk, ?Hpr; try done.
  intros Hwt. destruct (O3 Hwt) as (? & ? & _). done.
Qed.

(** ** Releasing a reservation *)

(** The tables a release changes together. *)
Definition release_tables (w : Worker.t) (r : Reservation) (now : Z) (reason : string) (db : Db.t)
  : Db.t :=
  db <| Db.workers ::= <[Worker.id w := worker_released w r]> |>
     <| Db.links ::= links_released (ResourceReservation.id r) now |>
     <| Db.reservations ::= <[ResourceReservation.id r := reservation_released r now reason]> |>.

Definition amounts (r : Reservation) : Usage.t :=
  one_running (ResourceReservation.cpu_millicores r) (ResourceReservation.memory_mb r)
    (ResourceReservation.gpu_count r) (ResourceReservation.requested_vendor r).

Lemma reservation_usage_active p r :
  active_reservation r = true ->
  reservation_usage p r = if ResourceReservation.project_id r == p then amounts r else zero_usage.
Proof. unfold reservation_usage. intros ->. by destruct (_ == _). Qed.

Lemma reservation_usage_inactive p r : active_reservation r = false -> reservation_usage p r = zero_usage.
Proof. unfold reservation_usage. intros ->. by rewrite andb_false_r. Qed.

Lemma release_quota d tasks rs quotas states k r r' :
  quota_ok d tasks rs quotas states -> rs !! k = Some r -> active_reservation r = true ->
  active_reservation r' = false ->
  quota_ok (shift d (ResourceReservation.project_id r) (amounts r)) tasks (<[k := r']> rs) quotas states.
Proof.
  intros [Q1 Q2 Q3] Hr Ha Ha'. constructor; try done.
  intros p s Hs. destruct (Q1 p s Hs) as [Hw Hu]. split; [done|]. rewrite Hu.
  unfold usage_of, shift. rewrite (usum_insert _ _ _ r) by done.
  rewrite (reservation_usage_active _ r Ha), (reservation_usage_inactive _ r' Ha').
  destruct (ResourceReservation.project_id r == p) eqn:E.
  - rewrite eqb_true in E. subst p. rewrite eqb_same. apply Usage.ext; cbn; lia.
  - assert ((p == ResourceReservation.project_id r) = false) as ->
      by (rewrite eqb_false in *; congruence).
    apply Usage.ext; cbn; lia.
Qed.

Lemma on_worker_inactive f i r : active_reservation r = false -> on_worker f i r = 0.
Proof. unfold on_worker. intros ->. by rewrite andb_false_r. Qed.

Lemma on_worker_active f i r :
  active_reservation r = true ->
  on_worker f i r = if ResourceReservation.worker_id r == i then f r else 0.
Proof. unfold on_worker. intros ->. by destruct (_ == _). Qed.

Lemma release_workers workers rs w r r' k :
  workers_ok workers rs -> rs !! k = Some r -> active_reservation r = true ->
  active_reservation r' = false -> workers !! ResourceReservation.worker_id r = Some w ->
  workers_ok (<[ResourceReservation.worker_id r := worker_released w r]> workers) (<[k := r']> rs).
Proof.
  intros [W1 W2] Hr Ha Ha' Hw. constructor.
  - intros i x Hx.
    rewrite !(msum_insert _ rs k r r' Hr), !(on_worker_inactive _ i r'), !(on_worker_active _ i r)
      by done.
    apply lookup_insert_cases in Hx as [[-> ->]|[Hne Hx]].
    + rewrite eqb_same. destruct (W1 _ _ Hw) as (E1 & E2 & E3).
      unfold worker_released. fields. lia.
    + assert ((ResourceReservation.worker_id r == i) = false) as -> by (rewrite eqb_false; congruence).
      destruct (W1 _ _ Hx) as (-> & -> & ->). lia.
  - intros k' x Hx Hxa. apply lookup_insert_is_Some'. right.
    apply lookup_insert_cases in Hx as [[-> ->]|[Hne Hx]]; [congruence|]. eauto.
Qed.

Lemma links_released_lookup k i now links l :
  links_released i now links !! k = Some l ->
  exists l0, links !! k = Some l0 /\ (active_link l = true -> k.1 <> i /\ l = l0).
Proof.
  unfold links_released. rewrite map_lookup_imap. destruct (links !! k) as [l0|] eqn:E; cbn; [|done].
  intros [= <-]. exists l0. split; [done|]. destruct (_ == _) eqn:Ei; cbn [andb].
  - destruct (active_link l0) eqn:Ea; [|congruence]. by unfold active_link at 1.
  - rewrite eqb_false in Ei. done.
Qed.

Lemma release_links links rs r r' now :
  links_ok links rs -> active_reservation r' = false ->
  links_ok (links_released (ResourceReservation.id r) now links)
    (<[ResourceReservation.id r := r']> rs).
Proof.
  intros [L1 L2] Ha'. constructor.
  - intros k l (l0 & Hl0 & Hact)%links_released_lookup Hl. destruct (Hact Hl) as [Hne ->].
    destruct (L1 k l0 Hl0 Hl) as (x & Hx & ?). exists x. by rewrite lookup_insert_ne.
  - intros k k' l l' (l0 & Hl0 & Hact)%links_released_lookup (l1 & Hl1 & Hact')%links_released_lookup.
    intros Hl Hl' E. destruct (Hact Hl) as [_ ->], (Hact' Hl') as [_ ->]. by eapply L2.
Qed.

Lemma release_placement i tasks rs es r now reason :
  placement_ok (Some i) tasks rs es -> rs !! ResourceReservation.id r = Some r ->
  ResourceReservation.task_id r = i ->
  placement_ok (Some i) tasks
    (<[ResourceReservation.id r := reservation_released r now reason]> rs) es.
Proof.
  intros [P1 P2 P3 P4 P5 P6] Hr Ht. constructor; try done.
  - intros k x [[-> ->]|[Hne Hx]]%lookup_insert_cases; [done|eauto].
  - intros j t Hj Hp Hne. destruct (P2 j t Hj Hp Hne) as (k & x & Hx & Ha & E).
    exists k, x. rewrite lookup_insert_ne; [done|]. intros <-. congruence.
  - intros k x [[-> ->]|[Hne Hx]]%lookup_insert_cases; [|eauto].
    unfold reservation_released. fields. eauto.
  - intros k k' x x' [[-> ->]|[Hne Hx]]%lookup_insert_cases
      [[-> ->]|[Hne' Hx']]%lookup_insert_cases; unfold reservation_released; fields; eauto.
  - intros k x [[-> ->]|[Hne Hx]]%lookup_insert_cases; [|eauto].
    apply (P5 _ _ Hr).
Qed.

Lemma release_tables_I d db w r now reason :
  let i := ResourceReservation.task_id r in
  I d (Some i) db -> Db.reservations db !! ResourceReservation.id r = Some r ->
  active_reservation r = true -> Db.workers db !! ResourceReservation.worker_id r = Some w ->
  I (shift d (ResourceReservation.project_id r) (amounts r)) (Some i) (release_tables w r now reason db).
Proof.
  intros i [[Kt Kw Ke Kr] Hq Hp Hw Hl He Hc] Hr Ha Hwk.
  assert (Worker.id w = ResourceReservation.worker_id r) as Ei by eauto.
  unfold release_tables. rewrite Ei. constructor; fields; try done.
  - constructor; try done.
    + intros j x [[-> ->]|[? ?]]%lookup_insert_cases; eauto.
    + intros j x [[-> ->]|[? ?]]%lookup_insert_cases; eauto.
  - by apply release_quota.
  - by apply release_placement.
  - by eapply release_workers.
  - by apply release_links.
Qed.

(** The task holds the one active reservation of its execution. *)
Definition owner (i eid : N) (R : gmap N ResourceReservation.t) : Prop :=
  exists k r, R !! k = Some r /\ active_reservation r = true /\
    ResourceReservation.task_id r = i /\ ResourceReservation.execution_id r = eid /\
    forall k' r', R !! k' = Some r' -> active_reservation r' = true ->
      ResourceReservation.task_id r' = i \/ ResourceReservation.execution_id r' = eid -> k' = k.

Lemma owner_of db i t :
  ok db -> Db.tasks db !! i = Some t -> placed (status t) = true ->
  exists eid, execution_id t = Some eid /\ owner i eid (Db.reservations db).
Proof.
  intros [_ _ [P1 P2 _ P4 _ _] _ _ _ _] Ht Hp.
  destruct (P2 i t Ht Hp) as (k & r & Hr & Ha & E); [done|].
  destruct (P1 k r Hr Ha) as (t' & Ht' & _ & Hex & _); [done|].
  rewrite E in Ht'. assert (t' = t) as -> by congruence.
  exists (ResourceReservation.execution_id r). split; [done|].
  exists k, r. split_and!; try done. intros k' r' Hr' Ha' [E'|E']; [|by eapply P4].
  destruct (P1 k' r' Hr' Ha') as (t' & Ht'' & _ & Hex' & _); [done|].
  rewrite E' in Ht''. assert (t' = t) as -> by congruence. eapply P4; eauto. congruence.
Qed.

Lemma find_In {A} (p : A -> bool) l x : List.find p l = Some x -> x ∈ l /\ p x = true.
Proof. intros H%List.find_some. by rewrite list_elem_of_In. Qed.

(** The active reservation of an owned execution is found. *)
Lemma get_active_owner i eid db x db' :
  keys_ok (Db.tasks db) (Db.workers db) (Db.executions db) (Db.reservations db) ->
  owner i eid (Db.reservations db) -> get_active_for_execution eid db = (inr x, db') ->
  db' = db /\ exists r, x = Some r /\ Db.reservations db !! ResourceReservation.id r = Some r /\
    active_reservation r = true /\ ResourceReservation.task_id r = i /\
    ResourceReservation.execution_id r = eid /\
    forall k' r', Db.reservations db !! k' = Some r' -> active_reservation r' = true ->
      ResourceReservation.task_id r' = i -> k' = ResourceReservation.id r.
Proof.
  intros [_ _ _ Kr] (k & r & Hr & Ha & E1 & E2 & Hu) H.
  unfold get_active_for_execution in H. apply gets_ok in H as [-> ->]. split; [done|].
  destruct (List.find _ _) as [r'|] eqn:Ef.
  - apply find_In in Ef as [Hin Hb]. bools. apply rows_elem in Hin as (k' & Hk').
    assert (k' = k) as -> by eauto. assert (r' = r) as -> by congruence.
    exists r. rewrite (Kr _ _ Hr). split_and!; try done. eauto.
  - eapply List.find_none in Ef; [|apply list_elem_of_In, rows_elem; eauto].
    rewrite E2, eqb_same, Ha in Ef. done.
Qed.

Lemma estimated_cost_id t : t = t <| estimated_cost := estimated_cost t |>.
Proof. by destruct t. Qed.

Lemma release_tables_W db0 t0 R d db t w r now reason :
  W db0 t0 R d db t -> Db.reservations db !! ResourceReservation.id r = Some r ->
  active_reservation r = true -> ResourceReservation.task_id r = id t0 ->
  Db.workers db !! ResourceReservation.worker_id r = Some w ->
  (forall k' r', Db.reservations db !! k' = Some r' -> active_reservation r' = true ->
     ResourceReservation.task_id r' = id t0 -> k' = ResourceReservation.id r) ->
  let R' := <[ResourceReservation.id r := reservation_released r now reason]> R in
  W db0 t0 R' (shift d (ResourceReservation.project_id r) (amounts r))
    (release_tables w r now reason db) t /\ vacant (id t0) R'.
Proof.
  intros [HI Hr Hi Hp HR Ho] Hk Ha Et Hw Hu R'. split.
  - constructor; try done.
    + rewrite <-Et in *. by apply release_tables_I.
    + unfold release_tables. fields. by rewrite HR.
  - intros k x [[-> ->]|[Hne Hx]]%lookup_insert_cases Hxa Hxt; [done|].
    rewrite <-HR in Hx. eauto.
Qed.

(** ** Running a transaction

    [wgo H HW] executes the next statement of the method in [H], whose
    transaction state is [HW]. *)
Lemma tr_id t s n : id (transitioned t s n) = id t.
Proof. apply transitioned_fields. Qed.
Lemma tr_status t s n : status (transitioned t s n) = s.
Proof. apply transitioned_fields. Qed.
Lemma tr_project t s n : project_id (transitioned t s n) = project_id t.
Proof. apply transitioned_fields. Qed.
Lemma tr_version t s n : version (transitioned t s n) = version t + 1.
Proof. apply transitioned_fields. Qed.
Lemma tr_log t s n : log_sequence (transitioned t s n) = log_sequence t.
Proof. apply transitioned_fields. Qed.
Lemma tr_execution t s n : execution_id (transitioned t s n) = execution_id t.
Proof. apply transitioned_fields. Qed.
Lemma tr_worker t s n : worker_id (transitioned t s n) = worker_id t.
Proof. apply transitioned_fields. Qed.
Lemma tr_cancel t s n : cancel_requested (transitioned t s n) = cancel_requested t.
Proof. apply transitioned_fields. Qed.

Create HintDb tasks.
#[export] Hint Rewrite tr_id tr_status tr_project tr_version tr_log tr_execution tr_worker tr_cancel
  : tasks.

(** Projections of changed task objects. *)
Ltac tfields := repeat (progress (fields; autorewrite with tasks)).

(** [same_task] of an update that keeps the status. *)
Ltac same := constructor; tfields; first [done | lia].

Ltac wgo H HW :=
  lazymatch type of H with
  | (_ ≫= _) _ = _ =>
      let Hm := fresh "Hm" in let x := fresh "x" in let db1 := fresh "db" in
      let HW1 := fresh "HW" in
      apply bind_ok in H; destruct H as (x & db1 & Hm & H); cbv beta in H;
      lazymatch type of HW with
      | W ?db0 ?t0 ?R ?d ?db ?t =>
          lazymatch type of Hm with
          | put_task ?t' _ = _ =>
              unfold put_task in Hm; apply modify_ok in Hm as [_ Hm];
              assert (W db0 t0 R d db1 t') as HW1
                by (rewrite Hm; apply (W_put HW t'); [by tfields|same]);
              clear Hm HW; rename HW1 into HW
          | put_execution ?e _ = _ =>
              unfold put_execution in Hm; apply modify_ok in Hm as [_ Hm];
              assert (W db0 t0 R d db1 t) as HW1 by (rewrite Hm; apply (W_execution HW));
              clear Hm HW; rename HW1 into HW
          | outbox_add _ _ _ _ _ = _ =>
              unfold outbox_add in Hm; apply modify_ok in Hm as [_ Hm];
              assert (W db0 t0 R d db1 t) as HW1 by (rewrite Hm; apply (W_outbox HW));
              clear Hm HW; rename HW1 into HW
          | outbox_terminal _ _ _ _ = _ =>
              unfold outbox_terminal, outbox_add in Hm; apply modify_ok in Hm as [_ Hm];
              assert (W db0 t0 R d db1 t) as HW1 by (rewrite Hm; apply (W_outbox HW));
              clear Hm HW; rename HW1 into HW
          | outbox_ready _ _ _ = _ =>
              unfold outbox_ready, outbox_add in Hm; apply modify_ok in Hm as [_ Hm];
              assert (W db0 t0 R d db1 t) as HW1 by (rewrite Hm; apply (W_outbox HW));
              clear Hm HW; rename HW1 into HW
          | modify _ _ = _ =>
              apply modify_ok in Hm as [_ Hm];
              assert (W db0 t0 R d db1 t) as HW1
                by (rewrite Hm; first [apply (W_ledger HW) | apply (W_plans HW)]);
              clear Hm HW; rename HW1 into HW
          | get_locked _ _ = _ =>
              pose proof (W_get_locked HW _ _ _ Hm) as HW1; clear Hm HW; rename HW1 into HW
          | admit_queued _ _ = _ =>
              pose proof (W_admit HW _ _ _ Hm) as HW1; clear Hm HW; rename HW1 into HW
          | release_queued _ _ = _ =>
              pose proof (W_release_queued HW _ _ _ Hm) as HW1; clear Hm HW; rename HW1 into HW
          | reserve_execution _ _ _ _ _ _ _ = _ =>
              pose proof (W_reserve HW _ _ _ _ _ _ _ _ Hm) as HW1; clear Hm HW; rename HW1 into HW
          | release _ _ _ _ _ _ _ _ _ = _ =>
              pose proof (W_release HW _ _ _ _ _ _ _ _ _ _ Hm) as HW1; clear Hm HW;
              rename HW1 into HW
          | _transition ?t1 ?tg ?now ?ev _ = _ =>
              let Hc := fresh "Hstep" in
              destruct (W_transition HW t1 tg now ev x db1) as (HW1 & -> & Hc);
                [by tfields|same|exact Hm|]; clear Hm HW; rename HW1 into HW
          | plus_seconds _ _ _ = _ =>
              apply plus_seconds_ok in Hm as [-> ->];
              lazymatch type of H with (_ ≫= _) _ = _ => wgo H HW | _ => idtac end
          | gets _ _ = _ => apply gets_ok in Hm as [-> ->]
          | database_utcnow _ = _ => apply gets_ok in Hm as [-> ->]
          | get_worker _ _ = _ => apply gets_ok in Hm as [-> ->]
          | get_execution _ _ = _ => apply gets_ok in Hm as [-> ->]
          | mret _ _ = _ => apply ret_ok in Hm as [-> ->]
          | raise_if _ _ _ = _ => apply raise_if_ok in Hm as (Hm & -> & ->)
          | _ => idtac
          end
      end
  | mret _ _ = _ => apply ret_ok in H as [? ->]
  end.

Lemma shift_back d p u q : shift (shift d p u) p (minus u) q = d q.
Proof. unfold shift. destruct (_ == _); [|done]. apply Usage.ext; cbn; lia. Qed.

Lemma W_give_back db0 t0 R d db t r sc date b t' db' :
  W db0 t0 R (shift d (ResourceReservation.project_id r) (amounts r)) db t ->
  (_ ← release (ResourceReservation.project_id r) (ResourceReservation.cpu_millicores r)
         (ResourceReservation.memory_mb r) (ResourceReservation.gpu_count r) ZERO_COST sc date
         (ResourceReservation.requested_vendor r); mret (true, t)) db = (inr (b, t'), db') ->
  b = true /\ t' = t /\ W db0 t0 R d db' t.
Proof.
  intros HW H. wgo H HW. apply ret_ok in H as [[= -> ->] ->]. split_and!; [done..|].
  eapply W_ext; [done|]. intros q. apply shift_back.
Qed.

Lemma W_settle db0 t0 R d db t eid fs now reason b t' db' :
  W db0 t0 R d db t -> owner (id t0) eid R ->
  release_and_settle t eid fs now reason db = (inr (b, t'), db') ->
  b = true /\ exists R', W db0 t0 R' d db' t' /\ vacant (id t0) R' /\
    exists c, t' = t <| estimated_cost := c |>.
Proof.
  intros HW Hown H. pose proof (W_reservations _ _ _ _ _ _ HW) as HR. rewrite <-HR in Hown.
  unfold release_and_settle in H. apply bind_ok in H as (x & db1 & Hx & H).
  destruct (get_active_owner _ _ _ _ _ (I_keys _ _ _ (W_inv _ _ _ _ _ _ HW)) Hown Hx)
    as (-> & r & -> & Hr & Ha & Et & Ee & Hu). clear Hx.
  apply bind_ok in H as (q & db1 & Hg & H).
  pose proof (W_get_locked HW _ _ _ Hg) as HW1.
  assert (Db.reservations db1 = Db.reservations db) as E1
    by (rewrite HR; apply HW1). rewrite <-E1 in Hr, Hu. clear E1 Hg HW HR Hown q.
  apply bind_ok in H as (w & db2 & Hw & H). unfold get_worker in Hw. apply gets_ok in Hw as [-> ->].
  destruct (workers_exist _ _ (I_workers _ _ _ (W_inv _ _ _ _ _ _ HW1)) _ _ Hr Ha) as [w Hw].
  rewrite Hw in H. apply bind_ok in H as ([] & db2 & Hb & H). minv Hb.
  apply bind_ok in H as ([] & db2 & Hm1 & H). minv Hm1.
  apply bind_ok in H as ([] & db2 & Hm2 & H). minv Hm2.
  destruct (release_tables_W _ _ _ _ _ _ w r now reason HW1 Hr Ha Et Hw Hu) as [HW2 Hv].
  change (Worker.id (worker_released w r)) with (Worker.id w) in H.
  change (ResourceReservation.id (reservation_released r now reason))
    with (ResourceReservation.id r) in H.
  fold (release_tables w r now reason db1) in H.
  set (db2 := release_tables w r now reason db1) in *. clearbody db2.
  apply bind_ok in H as (x & db3 & Hx & H). unfold get_execution in Hx. apply gets_ok in Hx as [-> ->].
  destruct (Db.executions db2 !! _) as [e|]; [|by apply raise_ok in H].
  destruct (started_at t).
  - wgo H HW2. wgo H HW2. destruct (Db.ledger _ !! _).
    + destruct (W_give_back _ _ _ _ _ _ _ _ _ _ _ _ HW2 H) as (-> & -> & HW3).
      split; [done|]. eexists. split_and!; [done..|]. eexists. apply estimated_cost_id.
    + wgo H HW2. wgo H HW2.
      destruct (W_give_back _ _ _ _ _ _ _ _ _ _ _ _ HW2 H) as (-> & -> & HW3).
      split; [done|]. eexists. split_and!; [done..|]. by eexists.
  - wgo H HW2. destruct (W_give_back _ _ _ _ _ _ _ _ _ _ _ _ HW2 H) as (-> & -> & HW3).
    split; [done|]. eexists. split_and!; [done..|]. eexists. apply estimated_cost_id.
Qed.


(** ** Settled differences *)
Lemma wz_placed s : placed s = true -> wz s = 0.
Proof. by destruct s. Qed.
Lemma wz_final s : final s = true -> wz s = 0.
Proof. by destruct s. Qed.
Lemma wz_waiting s : waiting s = true -> wz s = 1.
Proof. unfold wz. by intros ->. Qed.

(** [balanced] shows that shifts of settled books cancel out, given the
    classes of the statuses in them. *)
Ltac status_weights :=
  repeat match goal with
  | |- context [wz ?s] =>
      first [ rewrite (wz_placed s) by (done || by tfields)
            | rewrite (wz_final s) by (done || by tfields)
            | rewrite (wz_waiting s) by (done || by tfields) ]
  end.

Ltac balanced :=
  let q := fresh "q" in intros q; status_weights;
  unfold shift, settled; tfields; repeat case_match; apply Usage.ext; cbn; lia.

(** ** Reservation changes that keep the claim *)
Record same_claim (r' r : Reservation) : Prop := {
  kept_id : ResourceReservation.id r' = ResourceReservation.id r;
  kept_project : ResourceReservation.project_id r' = ResourceReservation.project_id r;
  kept_task : ResourceReservation.task_id r' = ResourceReservation.task_id r;
  kept_execution : ResourceReservation.execution_id r' = ResourceReservation.execution_id r;
  kept_worker : ResourceReservation.worker_id r' = ResourceReservation.worker_id r;
  kept_cpu : ResourceReservation.cpu_millicores r' = ResourceReservation.cpu_millicores r;
  kept_memory : ResourceReservation.memory_mb r' = ResourceReservation.memory_mb r;
  kept_gpus : ResourceReservation.gpu_count r' = ResourceReservation.gpu_count r;
  kept_vendor : ResourceReservation.requested_vendor r' = ResourceReservation.requested_vendor r;
  kept_active : active_reservation r' = active_reservation r;
  kept_checks : reservation_checks r = true -> reservation_checks r' = true;
}.

Lemma same_claim_I d h db r r' :
  I d h db -> Db.reservations db !! ResourceReservation.id r = Some r -> same_claim r' r ->
  I d h (db <| Db.reservations ::= <[ResourceReservation.id r' := r']> |>).
Proof.
  intros [[Kt Kw Ke Kr] [Q1 Q2 Q3] [P1 P2 P3 P4 P5 P6] [W1 W2] [L1 L2] He Hc] Hr
    [S1 S2 S3 S4 S5 S6 S7 S8 S9 S10 S11].
  rewrite S1. constructor; fields; try done.
  - constructor; try done. intros k x [[-> ->]|[? ?]]%lookup_insert_cases; eauto.
  - constructor; try done. intros p s Hs. destruct (Q1 p s Hs) as [? Hu]. split; [done|].
    rewrite Hu. unfold usage_of. rewrite (usum_insert _ _ _ r) by done.
    unfold reservation_usage. rewrite S2, S6, S7, S8, S9, S10. apply Usage.ext; cbn; lia.
  - constructor; try done.
    + intros k x [[-> ->]|[? ?]]%lookup_insert_cases; [|eauto].
      rewrite S2, S3, S4, S5, S10. eauto.
    + intros j t Hj Hp Hh. destruct (P2 j t Hj Hp Hh) as (k & x & Hx & Ha & E).
      destruct (decide (k = ResourceReservation.id r)) as [->|Hne].
      * assert (x = r) as -> by congruence. exists (ResourceReservation.id r), r'.
        rewrite lookup_insert_eq, S3, S10. done.
      * exists k, x. by rewrite lookup_insert_ne.
    + intros k x [[-> ->]|[? ?]]%lookup_insert_cases; [rewrite S4|]; eauto.
    + intros k k' x x' [[-> ->]|[? ?]]%lookup_insert_cases [[-> ->]|[? ?]]%lookup_insert_cases;
        rewrite ?S4; eauto.
    + intros k x [[-> ->]|[? ?]]%lookup_insert_cases; eauto.
  - constructor.
    + intros i w Hw. rewrite !(msum_insert_same _ _ _ r r' Hr);
        [auto|unfold on_worker; rewrite S5, S10, ?S7, ?S8; done..].
    + intros k x [[-> ->]|[? ?]]%lookup_insert_cases; [rewrite S5, S10|]; eauto.
  - constructor; [|done]. intros k l Hl Ha. destruct (L1 k l Hl Ha) as (x & Hx & Hxa).
    destruct (decide (k.1 = ResourceReservation.id r)) as [E|Hne].
    + exists r'. rewrite E, lookup_insert_eq, S10. rewrite E in Hx.
      assert (x = r) as -> by congruence. done.
    + exists x. by rewrite lookup_insert_ne.
Qed.
