(* ===== verification/Lifecycle.v ===== *)
(** * The task lifecycle preserves the accounting invariant

    For every state-changing operation of [repositories/tasks.py] other than
    the claim: a run that returns keeps [ok].  A run that raises is rolled
    back by the transaction, so it keeps [ok] too. *)

From S2P Require Import Prelude PyFloat PyString Enums Policies Store Quotas Reservations Tasks.
From S2P Require Import Invariant Transaction.

Import Task StateMachine.

(** ** Ownership *)
Lemma session_owns_db w e s db b db' : _session_owns_execution w e s db = (inr b, db') -> db' = db.
Proof.
  unfold _session_owns_execution. intros H. minv H.
  destruct (Db.workers db !! w); [|minv H; done]. destruct (_ !== _); minv H; done.
Qed.

Lemma owned_ok i w e s db t db' :
  _owned_task i w e s db = (inr t, db') ->
  db' = db /\ Db.tasks db !! i = Some t /\ worker_id t = Some w /\ execution_id t = Some e.
Proof.
  unfold _owned_task. intros H. minv H. destruct (Db.tasks db !! i) as [t1|] eqn:Et; [|by minv H].
  apply bind_ok in H as (? & ? & Hg & H). minv Hg. apply bind_ok in H as (? & db1 & Hs & H).
  apply ret_ok in H as [-> ->]. bools. split; [|done]. destruct s as [s|].
  - apply bind_ok in Hs as (b & ? & ->%session_owns_db & Hs). minv Hs. done.
  - by minv Hs.
Qed.

Lemma extend_lease_ok t now l g db t' db' :
  extend_lease t now l g db = (inr t', db') ->
  db' = db /\ exists x, t' = t <| lease_expires_at := Some x |>.
Proof.
  unfold extend_lease, _runtime_lease_expiry. intros H. apply bind_ok in H as (x & db1 & He & H).
  apply ret_ok in H as [-> ->]. apply bind_ok in He as (? & ? & Hg & He). minv Hg.
  split; [|eauto]. case_match; minv He; done.
Qed.

(** ** Changes that keep the status *)
Lemma store_ok db i t t' :
  ok db -> Db.tasks db !! i = Some t -> id t' = id t -> same_task t' t ->
  execution_id t' = execution_id t -> worker_id t' = worker_id t ->
  (cancel_requested t' = true -> cancel_requested t = true) -> ok (store_task t' db).
Proof.
  intros Hok Ht Hi Hs He Hw Hc. assert (id t = i) as Ei by (destruct Hok as [[]]; eauto).
  eapply put_task_I; [done|by rewrite Hi, Ei|done|]. right. done.
Qed.

(** [stored] closes the goal [ok db'] of such a change. *)
Ltac stored Hok Ht :=
  eapply (store_ok _ _ _ _ Hok Ht); [by tfields|same|by tfields..].

Lemma mark_preserves already from target stale i w e l s g db t db' :
  placed target = true -> target <> SCHEDULING ->
  (forall c, c ∈ from -> placed c = true /\ c ∉ [PREEMPTING; STOPPING; CANCELLED; PREEMPTED]) ->
  ok db -> mark already from target stale i w e l s g db = (inr t, db') -> ok db'.
Proof.
  intros Hp Hns Hfrom Hok H. unfold mark in H.
  apply bind_ok in H as (t0 & db1 & Ho & H).
  apply owned_ok in Ho as (-> & Ht & _).
  destruct (inb (status t0) already).
  - apply bind_ok in H as (now & db1 & Hn & H). minv Hn.
    apply bind_ok in H as (t1 & db1 & (-> & x & ->)%extend_lease_ok & H). minv H. stored Hok Ht.
  - pose proof (W_open db i t0 Hok Ht) as HW.
    wgo H HW. apply negb_false_iff, inb_true in Hm. destruct (Hfrom _ Hm) as [Hp0 Hc0].
    wgo H HW. wgo H HW. apply bind_ok in H as (t1 & db1 & (-> & x & ->)%extend_lease_ok & H).
    wgo H HW. apply ret_ok in H as [-> ->].
    eapply close_same; [exact HW|exact Hok|exact Ht|balanced|tfields..]; try done.
    + by rewrite Hp, Hp0.
    + rewrite !placed_not_waiting by done. done.
    + intros Hc. destruct Hc0. destruct (I_task_ok _ _ _ _ Hok Ht) as [_ _ _ O4]. auto.
Qed.

Lemma mark_pulling_preserves i w e l s g db t db' :
  ok db -> mark_pulling i w e l s g db = (inr t, db') -> ok db'.
Proof. apply mark_preserves; [done..|]. intros []; set_solver. Qed.
Lemma mark_starting_preserves i w e l s g db t db' :
  ok db -> mark_starting i w e l s g db = (inr t, db') -> ok db'.
Proof. apply mark_preserves; [done..|]. intros []; set_solver. Qed.
Lemma mark_running_preserves i w e l s g db t db' :
  ok db -> mark_running i w e l s g db = (inr t, db') -> ok db'.
Proof. apply mark_preserves; [done..|]. intros []; set_solver. Qed.

(** ** Selected rows *)
Lemma select_tasks_elem {K} `{Ord K} p (key : Task.t -> K) n locked db t :
  ok db -> t ∈ select_tasks p key n locked db ->
  Db.tasks db !! id t = Some t /\ p t = true /\ id t ∉ locked.
Proof.
  intros Hok Ht. unfold select_tasks in Ht. apply (subseteq_take n) in Ht.
  apply list_elem_of_In, List.filter_In in Ht as [Ht Hl].
  apply list_elem_of_In, elem_of_py_sort, list_elem_of_In, List.filter_In in Ht as [Ht Hp].
  apply list_elem_of_In, rows_elem in Ht as (k & Hk).
  apply negb_true_iff, bool_decide_eq_false in Hl.
  destruct Hok as [[Kt _ _ _] _ _ _ _ _ _]. rewrite (Kt _ _ Hk) in *. done.
Qed.

Lemma rows_ids db :
  keys_ok (Db.tasks db) (Db.workers db) (Db.executions db) (Db.reservations db) ->
  NoDup (id <$> rows (Db.tasks db)).
Proof.
  intros [Kt _ _ _]. by apply rows_keys.
Qed.

Lemma NoDup_filter_map {A B} (f : A -> B) (p : A -> bool) l :
  NoDup (f <$> l) -> NoDup (f <$> List.filter p l).
Proof.
  induction l as [|x l IH]; cbn; [done|]. intros [Hx Hl]%NoDup_cons. destruct (p x); [|auto].
  cbn. apply NoDup_cons. split; [|auto]. intros Hin. apply Hx.
  apply list_elem_of_fmap in Hin as (y & -> & Hy).
  apply list_elem_of_fmap. exists y. split; [done|].
  apply list_elem_of_In. apply list_elem_of_In, List.filter_In in Hy as [? _]. done.
Qed.

Lemma NoDup_sort_map {A B K} `{Ord K} (f : A -> B) (key : A -> K) l :
  NoDup (f <$> l) -> NoDup (f <$> py_sort key l).
Proof. by rewrite py_sort_perm. Qed.

Lemma NoDup_take_map {A B} (f : A -> B) n l : NoDup (f <$> l) -> NoDup (f <$> take n l).
Proof.
  rewrite <-(take_drop n l) at 1. rewrite fmap_app, NoDup_app. naive_solver.
Qed.

Lemma select_tasks_NoDup {K} `{Ord K} p (key : Task.t -> K) n locked db :
  ok db -> NoDup (id <$> select_tasks p key n locked db).
Proof.
  intros Hok. apply NoDup_take_map, NoDup_filter_map, NoDup_sort_map, NoDup_filter_map, rows_ids, Hok.
Qed.

(** ** Loops over selected rows

    Each iteration works on its own row, so the rows of the later ones are
    still as selected. *)
Lemma rows_loop {X A} (row : X -> Task.t) (Q : X -> option Task.t -> Prop) (l : list X)
    (body : A -> X -> Sess A) a db b db' :
  (forall x a1 db1 a2 db2, x ∈ l -> ok db1 -> Db.tasks db1 !! id (row x) = Some (row x) ->
     body a1 x db1 = (inr a2, db2) ->
     (ok db2 /\ others (id (row x)) db1 db2) /\ Q x (Db.tasks db2 !! id (row x))) ->
  NoDup ((fun x => id (row x)) <$> l) ->
  (forall x, x ∈ l -> Db.tasks db !! id (row x) = Some (row x)) ->
  ok db -> foldM l a body db = (inr b, db') ->
  ok db' /\
  (forall j, j ∉ (fun x => id (row x)) <$> l -> Db.tasks db' !! j = Db.tasks db !! j) /\
  (forall x, x ∈ l -> Q x (Db.tasks db' !! id (row x))).
Proof.
  revert a db. induction l as [|x l IH]; intros a db Hb Hnd Hrows Hok H; cbn in H.
  - apply ret_ok in H as [_ ->]. split_and!; [done..|]. intros x Hx. by apply not_elem_of_nil in Hx.
  - apply bind_ok in H as (a1 & db1 & H1 & H2). apply NoDup_cons in Hnd as [Hx Hnd].
    destruct (Hb x a db a1 db1) as [[Hok1 Ho] HQ]; [left|done|apply Hrows; left|done|].
    destruct (IH a1 db1) as (Hok' & Hfr & HQ'); [|done| |done|done|].
    + intros y. intros. eapply Hb; eauto. by right.
    + intros y Hy. rewrite Ho; [apply Hrows; by right|]. intros E. apply Hx.
      apply list_elem_of_fmap. eauto.
    + split_and!; [done| |].
      * intros j [Hjx Hj]%not_elem_of_cons. rewrite Hfr by done. by apply Ho.
      * intros y [->|Hy]%elem_of_cons; [|by apply HQ']. by rewrite Hfr.
Qed.

(** The loop keeps the invariant, whatever is said of the rows. *)
Lemma rows_loop_ok {X A} (row : X -> Task.t) (l : list X) (body : A -> X -> Sess A) a db b db' :
  (forall x a1 db1 a2 db2, x ∈ l -> ok db1 -> Db.tasks db1 !! id (row x) = Some (row x) ->
     body a1 x db1 = (inr a2, db2) -> ok db2 /\ others (id (row x)) db1 db2) ->
  NoDup ((fun x => id (row x)) <$> l) ->
  (forall x, x ∈ l -> Db.tasks db !! id (row x) = Some (row x)) ->
  ok db -> foldM l a body db = (inr b, db') ->
  ok db' /\ (forall j, j ∉ (fun x => id (row x)) <$> l -> Db.tasks db' !! j = Db.tasks db !! j).
Proof.
  intros Hb Hnd Hrows Hok H.
  destruct (rows_loop row (fun _ _ => True) l body a db b db') as (? & ? & _); try done.
  intros. split; [|done]. eauto.
Qed.

Lemma for_each_foldM {X} (l : list X) (body : X -> Sess unit) db :
  for_each l body db = foldM l tt (fun _ => body) db.
Proof.
  revert db. induction l as [|x l IH]; intros db; [done|]. cbn. unfold mbind, M_bind.
  destruct (body x db) as [[|[]]]; [done|apply IH].
Qed.

(** ** Delivery *)
Lemma take_global_assignment_preserves locked w s l db r db' :
  ok db -> take_global_assignment locked w s l db = (inr r, db') -> ok db'.
Proof.
  intros Hok H. unfold take_global_assignment in H. apply bind_ok in H as (f & db1 & Hf & H). minv Hf.
  destruct (select_tasks _ _ _ _ _) as [|t f] eqn:E; [by minv H|].
  destruct (select_tasks_elem (deliverable db w s) (fun t => nulls_last (assigned_at t)) 1 locked db t)
    as (Ht & Hp & _); [done|rewrite E; left|].
  unfold deliverable in Hp. bools. rename select (status t = ASSIGNED) into Hst.
  pose proof (W_open _ _ _ Hok Ht) as HW. do 3 wgo H HW. apply ret_ok in H as [_ ->].
  assert (placed (status t) = true) as Hpl by by rewrite Hst.
  eapply close_same; [exact HW|exact Hok|exact Ht|balanced|tfields..]; rewrite ?Hst; try done.
  intros Hc. pose proof (ok_cancel _ _ (I_task_ok _ _ _ _ Hok Ht) Hc). rewrite Hst in *. set_solver.
Qed.

(** ** Callbacks of the owning worker *)
Lemma record_runtime_handle_preserves i w e h s g db t db' :
  ok db -> record_runtime_handle i w e h s g db = (inr t, db') -> ok db'.
Proof.
  intros Hok H. unfold record_runtime_handle in H. apply bind_ok in H as (t0 & db1 & Ho & H).
  apply owned_ok in Ho as (-> & Ht & _). apply bind_ok in H as (x & db1 & Hx & H). minv Hx.
  destruct (Db.executions db !! e) as [ex|]; [|by minv H].
  do 6 (apply bind_ok in H as (? & db1 & Hg & H); minv Hg; clear Hg).
  apply bind_ok in H as (? & db1 & Hg & H).
  assert (db1 = db) as -> by (apply when_ok in Hg as [[_ Hg]|(_ & _ & ->)]; [minv Hg|]; done).
  apply bind_ok in H as (t1 & db1 & Hl & H).
  assert (db1 = db /\ exists x h', t1 = t0 <| runtime_handle := h' |> <| version ::= Z.succ |>
            <| lease_expires_at := x |>) as (-> & y & h' & ->).
  { destruct (_ == "kubernetes").
    - apply bind_ok in Hl as (? & ? & Hn & (Hd & y & ->)%extend_lease_ok). minv Hn. eauto.
    - apply ret_ok in Hl as [-> ->]. split; [done|]. exists (lease_expires_at t0). eexists.
      by destruct t0. }
  minv H. apply execution_I. stored Hok Ht.
Qed.

Lemma advance_runtime_log_cursor_preserves i w e c rn ru sh s db t db' :
  ok db -> advance_runtime_log_cursor i w e c rn ru sh s db = (inr t, db') -> ok db'.
Proof.
  intros Hok H. unfold advance_runtime_log_cursor in H.
  apply bind_ok in H as (? & ? & Hg & H). minv Hg. clear Hg.
  apply bind_ok in H as (t0 & db1 & Ho & H). apply owned_ok in Ho as (-> & Ht & _).
  apply bind_ok in H as (x & db1 & Hx & H). minv Hx.
  destruct (Db.executions db !! e), (runtime_handle t0); try by minv H.
  do 3 (apply bind_ok in H as (? & db1 & Hg & H); minv Hg; clear Hg).
  destruct (_ =? _); minv H; [done|]. stored Hok Ht.
Qed.

Lemma preserve_kubernetes_handoff_lease_preserves i w e s g db t db' :
  ok db -> preserve_kubernetes_handoff_lease i w e s g db = (inr t, db') -> ok db'.
Proof.
  intros Hok H. unfold preserve_kubernetes_handoff_lease in H.
  apply bind_ok in H as (t0 & db1 & Ho & H). apply owned_ok in Ho as (-> & Ht & _).
  minv H. stored Hok Ht.
Qed.

Lemma renew_lease_preserves i w e l s g db b db' :
  ok db -> renew_lease i w e l s g db = (inr b, db') -> ok db'.
Proof.
  intros Hok H. unfold renew_lease in H. apply bind_ok in H as (x & db1 & Hx & H). minv Hx.
  destruct (Db.tasks db !! i) as [t|] eqn:Ht; [|by minv H].
  destruct (_ || _); [by minv H|]. apply bind_ok in H as (owns & db1 & Ho & H).
  assert (db1 = db) as -> by (destruct s; [by apply session_owns_db in Ho|by minv Ho]).
  destruct (negb owns); [by minv H|].
  apply bind_ok in H as (now & db1 & Hn & H). minv Hn.
  apply bind_ok in H as (t1 & db1 & (-> & x & ->)%extend_lease_ok & H). minv H. stored Hok Ht.
Qed.

Lemma log_ok db i t t' l :
  ok db -> Db.tasks db !! i = Some t -> ok (store_task t' db) -> id t' = i ->
  TaskLog.task_id l = i -> TaskLog.sequence l = log_sequence t' -> log_sequence t < log_sequence t' ->
  ok ((store_task t' db) <| Db.logs ::= fun ls => ls ++ [l] |>).
Proof.
  intros Hok Ht [Hk Hq Hp Hw Hl [E1 E2 E3 E4 E5 E6] Hc] Hi Hli Hls Hlt.
  constructor; fields; try done. constructor; try done.
  - intros x [Hx|Hx]%elem_of_app; [auto|]. apply list_elem_of_singleton in Hx as ->.
    exists t'. rewrite Hli, Hls, <-Hi. split; [|lia]. unfold store_task. fields. apply lookup_insert_eq.
  - rewrite fmap_app. apply NoDup_app. split_and!; [done| |apply NoDup_singleton].
    intros [a b] Hin Hin2. apply list_elem_of_singleton in Hin2. injection Hin2 as -> ->.
    apply list_elem_of_fmap in Hin as (l' & Heq & Hl'). injection Heq as Ha Hb.
    change (Db.logs (store_task t' db)) with (Db.logs db) in Hl'.
    destruct (logs_sequence _ _ _ (I_events _ _ _ Hok) l' Hl') as (x & Hx & ?).
    rewrite <-Ha, Hli in Hx. assert (x = t) as -> by congruence. lia.
Qed.

Lemma append_log_preserves i e st c w s db l db' :
  ok db -> append_log i e st c w s db = (inr l, db') -> ok db'.
Proof.
  intros Hok H. unfold append_log in H. apply bind_ok in H as (x & db1 & Hx & H).
  assert (db1 = db /\ forall t, x = Some t -> Db.tasks db !! i = Some t) as [-> Ht0].
  { destruct s as [s|].
    - destruct w, e; try by minv Hx.
      apply bind_ok in Hx as (t & ? & Ho & Hx). apply owned_ok in Ho as (-> & Ht & _).
      apply ret_ok in Hx as [-> ->]. split; [done|]. by intros ? [= <-].
    - minv Hx. split; [done|]. by intros ? ->. }
  destruct x as [t|]; [|by minv H]. specialize (Ht0 t eq_refl).
  assert (id t = i) as Hi by (destruct Hok as [[]]; eauto).
  subst i. minv H. eapply (log_ok db (id t) t); [done|done|stored Hok Ht0|by tfields|by tfields|by tfields|tfields; lia].
Qed.

(** ** Re-admission to the queue *)
Lemma W_admit_retry db0 t0 R d db t p b db' :
  W db0 t0 R d db t -> p = project_id t0 -> _admit_retry p db = (inr b, db') ->
  W db0 t0 R (if b then shift d (project_id t0) (queued_delta 1) else d) db' t.
Proof.
  intros HW Hp H. rewrite <-(W_project _ _ _ _ _ _ HW) in Hp. subst p. unfold _admit_retry in H. wgo H HW.
  destruct (W_quota HW) as [s Hs]. rewrite Hs in H. unfold try_except in H.
  rewrite <-(W_project _ _ _ _ _ _ HW).
  destruct ((admit_queued (project_id t) ≫= _) db) as [[e|b'] db1] eqn:E.
  - destruct e; try done. apply ret_ok in H as [-> ->].
    apply bind_err in E as [E|(? & ? & _ & E)]; [|done]. unfold admit_queued in E.
    apply bind_err in E as [E|([q s1] & db2 & Hg & E)].
    + exfalso. unfold get_locked in E. cbn in E. unfold mbind, M_bind, gets in E.
      rewrite Hs in E. destruct (Db.quotas db !! _); [|done].
      unfold _assert_state_nonnegative, raise_if, mbind, M_bind, raise, mret, M_ret, database_utcnow,
        gets, put_quota_state, modify in E. cbn in E.
      repeat (case_match; simplify_eq).
    + pose proof (W_get_locked HW _ _ _ Hg) as HW1.
      apply bind_err in E as [E|(? & ? & Hc & E)].
      * unfold _check_limit, raise_if in E. case_match; [|done]. by injection E as _ <-.
      * exfalso. unfold _touch_state, _assert_state_nonnegative, raise_if, mbind, M_bind, raise, mret, M_ret,
          database_utcnow, gets, put_quota_state, modify in E. cbn in E. repeat (case_match; simplify_eq).
  - injection H as <- <-. wgo E HW. apply ret_ok in E as [-> ->]. done.
Qed.

(** ** Completion *)

(** The outcome of a completion: final, and never an ordinary one for a task
    whose cancellation or preemption was requested. *)
Lemma classify_final t x o :
  final (Outcome.target o) = true -> final (Outcome.target (classify t x o)) = true.
Proof.
  unfold classify. destruct (cancellation_wins t); [done|]. destruct (preemption_requested t); [done|].
  by destruct (Outcome.error_category o).
Qed.

Lemma classify_cancel t x o :
  (cancel_requested t = true -> status t ∈ [PREEMPTING; STOPPING; CANCELLED; PREEMPTED]) ->
  cancel_requested t = true -> Outcome.target (classify t x o) ∈ [CANCELLED; PREEMPTED].
Proof.
  intros Hs Hc. specialize (Hs Hc). unfold classify, cancellation_wins. rewrite Hc. cbn [andb].
  destruct (preemption_requested t) eqn:E; cbn; [|set_solver].
  destruct (user_cancelled_preemption t); set_solver.
Qed.

Lemma uf_id t now a b : id (usage_figures t now a b) = id t.
Proof. unfold usage_figures. by destruct (started_at t). Qed.
Lemma uf_status t now a b : status (usage_figures t now a b) = status t.
Proof. unfold usage_figures. by destruct (started_at t). Qed.
Lemma uf_project t now a b : project_id (usage_figures t now a b) = project_id t.
Proof. unfold usage_figures. by destruct (started_at t). Qed.
Lemma uf_version t now a b : version (usage_figures t now a b) = version t.
Proof. unfold usage_figures. by destruct (started_at t). Qed.
Lemma uf_log t now a b : log_sequence (usage_figures t now a b) = log_sequence t.
Proof. unfold usage_figures. by destruct (started_at t). Qed.
Lemma uf_execution t now a b : execution_id (usage_figures t now a b) = execution_id t.
Proof. unfold usage_figures. by destruct (started_at t). Qed.
Lemma uf_worker t now a b : worker_id (usage_figures t now a b) = worker_id t.
Proof. unfold usage_figures. by destruct (started_at t). Qed.
Lemma uf_cancel t now a b : cancel_requested (usage_figures t now a b) = cancel_requested t.
Proof. unfold usage_figures. by destruct (started_at t). Qed.
#[export] Hint Rewrite uf_id uf_status uf_project uf_version uf_log uf_execution uf_worker uf_cancel : tasks.

Lemma W_execution_error db0 t0 R d db t e c k m u db' :
  W db0 t0 R d db t -> set_execution_error e c k m db = (inr u, db') -> W db0 t0 R d db' t.
Proof.
  intros HW H. unfold set_execution_error in H. wgo H HW.
  destruct (Db.executions db !! e); [|minv H; done]. minv H. apply (W_execution HW).
Qed.

Lemma W_plans_done db0 t0 R d db t b i now u db' :
  W db0 t0 R d db t -> when b (_complete_preemption_plans i now) db = (inr u, db') ->
  W db0 t0 R d db' t.
Proof.
  intros HW [[_ H]|(_ & _ & ->)]%when_ok; [|done]. unfold _complete_preemption_plans in H. minv H.
  apply (W_plans HW).
Qed.

Lemma lift_ok {A} (r : PyError + A) db a db' : lift r db = (inr a, db') -> r = inr a /\ db' = db.
Proof. unfold lift. destruct r; intros H; [by apply raise_ok in H|]. by apply ret_ok in H as [-> ->]. Qed.

(** The end of a completion: the settled task is requeued or terminal. *)
Lemma settle_outcome_ok db0 t0 R db t o x now m t' b db' db'' :
  W db0 t0 R settled db t -> vacant (id t0) R -> final (status t) = true ->
  (cancel_requested t = true -> status t ∈ [PREEMPTING; STOPPING; CANCELLED; PREEMPTED]) ->
  settle_outcome t o x now m db = (inr (t', b), db') -> put_task t' db' = (inr tt, db'') ->
  ok db'' /\ others (id t0) db0 db''.
Proof.
  intros HW Hv Hf Hc H Hput. unfold settle_outcome in H.
  apply bind_ok in H as (adm & db1 & Ha & H).
  assert (W db0 t0 R (if adm then shift settled (project_id t0) (queued_delta 1) else settled) db1 t)
    as HW1 by (destruct (_ || _); [|by minv Ha];
           eapply W_admit_retry; [done|apply (W_project _ _ _ _ _ _ HW)|done]).
  assert (adm = true -> ((Outcome.target o == PREEMPTED) && requeue_on_preempt t)
                        || retry_wanted t o x = true) as Hadm
    by (destruct (_ || _); [done|by minv Ha]).
  clear HW Ha. rename HW1 into HW.
  destruct (retry_wanted t o x && adm) eqn:E1; [|destruct (_ && _ && adm) eqn:E2].
  - apply andb_true_iff in E1 as [_ ->]. wgo H HW. apply bind_ok in H as (del & db3 & Hd & H).
    apply lift_ok in Hd as [_ ->]. wgo H HW.
    apply ret_ok in H as [[= -> ->] ->]. apply modify_ok in Hput as [_ ->].
    eapply close_vacant; [eapply (W_put HW); [by tfields|same]|balanced|done|by tfields..].
  - apply andb_true_iff in E2 as [_ ->]. wgo H HW. apply ret_ok in H as [[= -> ->] ->].
    apply modify_ok in Hput as [_ ->].
    eapply close_vacant; [eapply (W_put HW); [by tfields|same]|balanced|done|by tfields..].
  - wgo H HW. apply ret_ok in H as [[= -> ->] ->]. apply modify_ok in Hput as [_ ->].
    assert (adm = false) as ->.
    { destruct adm; [|done]. rewrite andb_true_r in E1, E2. rewrite E1, E2 in Hadm. by specialize (Hadm eq_refl). }
    eapply close_vacant; [eapply (W_put HW); [done|apply same_task_refl]|balanced|done|..]; try done.
    + by apply final_not_placed.
    + by rewrite final_not_waiting.
Qed.

(** The release of the execution and the end of the completion. *)
Lemma finish_tail_ok db0 t0 R db t w e c x now m target reason b0 A (k : Task.t -> bool -> A) r db' :
  W db0 t0 R settled db t -> owner (id t0) e R -> final (status t) = true ->
  (cancel_requested t = true -> status t ∈ [PREEMPTING; STOPPING; CANCELLED; PREEMPTED]) ->
  ('(released, task) ← release_and_settle t e target now reason;
   _ ← when (negb released) (release_legacy_capacity w task);
   _ ← set_execution_error e (Outcome.error_category c) (Outcome.error_code c)
         (Outcome.error_message c);
   _ ← when b0 (_complete_preemption_plans (id task) now);
   '(task, retry_scheduled) ← settle_outcome task c x now m;
   _ ← put_task task;
   mret (k task retry_scheduled)) db = (inr r, db') ->
  ok db' /\ others (id t0) db0 db'.
Proof.
  intros HW Hown Hf Hc H.
  apply bind_ok in H as ([b t1] & db3 & Hset & H).
  destruct (W_settle _ _ _ _ _ _ _ _ _ _ _ _ _ HW Hown Hset) as (-> & R' & HW1 & Hv & cost & ->).
  clear HW Hset. rename HW1 into HW. wgo H HW. apply when_ok in Hm as [[? _]|(_ & _ & ->)]; [done|].
  apply bind_ok in H as (? & db4 & Hx & H). apply (W_execution_error _ _ _ _ _ _ _ _ _ _ _ _ HW) in Hx.
  clear HW. rename Hx into HW.
  apply bind_ok in H as (? & db5 & Hx & H). apply (W_plans_done _ _ _ _ _ _ _ _ _ _ _ HW) in Hx.
  clear HW. rename Hx into HW.
  apply bind_ok in H as ([t2 b] & db6 & Hs & H). apply bind_ok in H as ([] & db7 & Hput & H).
  apply ret_ok in H as [_ ->].
  eapply (settle_outcome_ok _ _ _ _ _ _ _ _ _ _ _ _ _ HW Hv); [by tfields|by tfields|done|done].
Qed.

Lemma finish_execution_preserves i w e x o m cp gp s db r db' :
  final (Outcome.target o) = true -> ok db ->
  finish_execution i w e x o m cp gp s db = (inr r, db') -> ok db'.
Proof.
  intros Hfin Hok H. unfold finish_execution in H. apply bind_ok in H as (y & db1 & Hy & H). minv Hy.
  destruct (Db.tasks db !! i) as [t|] eqn:Ht; [|by minv H].
  destruct (_ || _) eqn:Eown; [by minv H|]. destruct (negb (inb _ _)) eqn:Eact; [by minv H|].
  pose proof (W_open _ _ _ Hok Ht) as HW.
  apply bind_ok in H as (owns & db1 & Ho & H).
  assert (W db t (Db.reservations db) settled db1 t /\ ok db1) as [HW1 Hok1].
  { destruct s as [s|]; [|by minv Ho]. apply bind_ok in Ho as (q & db2 & Hg & ->%session_owns_db).
    split; [by eapply W_get_locked|by eapply get_locked_I]. }
  clear Ho HW. rename HW1 into HW.
  destruct (negb owns); [by apply ret_ok in H as [_ ->]|]. clear Hok1.
  apply negb_false_iff, inb_true in Eact. bools.
  assert (status t <> SCHEDULING) as Hns.
  { destruct (I_task_ok _ _ _ _ Hok Ht) as [_ _ O3 _]. intros E. rewrite E in O3.
    by destruct O3 as (? & ? & ?). }
  pose proof (active_placed _ Eact Hns) as Hpl.
  destruct (owner_of _ _ _ Hok Ht Hpl) as (e' & He' & Hown).
  assert (e' = e) as -> by congruence.
  assert (id t = i) as Hi by (destruct Hok as [[]]; eauto). rewrite <-Hi in Hown.
  pose proof (classify_final t x o Hfin) as Hcf.
  pose proof (classify_cancel t x o (ok_cancel _ _ (I_task_ok _ _ _ _ Hok Ht))) as Hcc.
  set (c := classify t x o) in *. clearbody c.
  do 3 wgo H HW.
  apply W_ext with (d' := settled) in HW; [|balanced].
  eapply finish_tail_ok; [exact HW|exact Hown|by tfields| |exact H].
  tfields. intros Hc. specialize (Hcc Hc). set_solver.
Qed.

(** ** Cancellation *)
Lemma cancel_preserves i db r db' : ok db -> cancel i db = (inr r, db') -> ok db'.
Proof.
  intros Hok H. unfold cancel in H. apply bind_ok in H as (y & db1 & Hy & H). minv Hy.
  destruct (Db.tasks db !! i) as [t|] eqn:Ht; [|by minv H].
  destruct (I_task_ok _ _ _ _ Hok Ht) as [O1 O2 O3 O4].
  destruct (inb (status t) _) eqn:Ef; [by minv H|].
  pose proof (W_open _ _ _ Hok Ht) as HW.
  destruct (status t == PREEMPTING) eqn:Epre; [|destruct (_ && _) eqn:Eact].
  - rewrite eqb_true in Epre. wgo H HW. apply ret_ok in H as [-> ->].
    eapply close_same; [exact HW|done|done|balanced|tfields..]; rewrite ?Epre; try done. set_solver.
  - bools. assert (status t <> SCHEDULING) as Hns.
    { intros E. destruct O3 as (E1 & _); [by rewrite E|]. rewrite E1 in *. done. }
    assert (placed (status t) = true) as Hpl by (apply active_placed; [set_solver|done]).
    apply bind_ok in H as (t1 & db1 & Ht1 & H). fields in Ht1.
    destruct (status t == STOPPING) eqn:Est; cbn [negb] in Ht1.
    + apply ret_ok in Ht1 as [-> ->]. rewrite eqb_true in Est. wgo H HW. apply ret_ok in H as [-> ->].
      eapply close_same; [exact HW|done|done|balanced|tfields..]; rewrite ?Est; try done. set_solver.
    + wgo Ht1 HW. apply (W_transition HW) in Ht1 as (HW1 & -> & Hstep); [|by tfields|same].
      wgo H HW1. apply ret_ok in H as [-> ->].
      eapply close_same; [exact HW1|done|done|balanced|tfields..]; try done.
      * by rewrite (placed_not_waiting _ Hpl).
      * set_solver.
  - do 3 wgo H HW.
    assert (placed (status t) = false) as Hpl.
    { destruct (placed (status t)) eqn:E; [|done]. destruct (owner_of _ _ _ Hok Ht E) as (e & He & _).
      rewrite He in Eact. destruct (status t); cbn in Eact, E; try done. }
    assert (waiting (status t) = true) as Hwt.
    { apply not_true_iff_false in Hpl. destruct (status t); cbn in Hpl, Ef; try done; set_solver. }
    destruct (O3 Hwt) as (He & Hwk & _). pose proof (vacant_unplaced _ _ _ Hok Ht Hpl) as Hv.
    assert (id t = i) as Hi by (destruct Hok as [[]]; eauto). rewrite <-Hi in Hv.
    apply bind_ok in H as (? & db2 & Hq & H). apply when_ok in Hq as [[_ Hq]|[Hq _]].
    2: { exfalso. unfold waiting in Hwt. congruence. }
    wgo Hq HW. destruct (W_quota HW) as [s Hs]. rewrite Hs in Hq. wgo Hq HW.
    apply ret_ok in Hq as [_ ->]. rewrite Hwk in H. do 2 wgo H HW. apply ret_ok in H as [-> ->].
    eapply close_vacant; [exact HW|balanced|done|by tfields..|tfields; set_solver].
Qed.

Lemma cancel_for_project_preserves p i db r db' :
  ok db -> cancel_for_project p i db = (inr r, db') -> ok db'.
Proof.
  intros Hok H. unfold cancel_for_project in H. apply bind_ok in H as (y & db1 & Hy & H). minv Hy.
  destruct (Db.tasks db !! i); [|by minv H]. destruct (_ == _); [|by minv H].
  by eapply cancel_preserves.
Qed.

(** ** Retries that are due *)
Lemma release_retry_ok now t db u db' :
  ok db -> Db.tasks db !! id t = Some t -> status t = RETRYING ->
  release_retry now t db = (inr u, db') -> ok db' /\ others (id t) db db'.
Proof.
  intros Hok Ht Hst H. unfold release_retry in H.
  destruct (I_task_ok _ _ _ _ Hok Ht) as [O1 O2 O3 O4].
  destruct (cancel_requested t) eqn:Ec; [specialize (O4 eq_refl); rewrite Hst in O4; set_solver|].
  pose proof (W_open _ _ _ Hok Ht) as HW. assert (waiting (status t) = true) as Hwt by by rewrite Hst.
  do 2 wgo H HW. unfold outbox_ready, outbox_add in H. minv H.
  eapply close_same; [apply (W_outbox HW)|done|done|balanced|tfields..]; rewrite ?Hst; done.
Qed.

Lemma release_due_retries_preserves n locked db r db' :
  ok db -> release_due_retries n locked db = (inr r, db') -> ok db'.
Proof.
  intros Hok H. unfold release_due_retries in H. apply bind_ok in H as (now & ? & Hn & H). minv Hn.
  apply bind_ok in H as (l & ? & Hl & H). minv Hl.
  apply bind_ok in H as ([] & db1 & Hf & H). apply ret_ok in H as [_ ->].
  rewrite for_each_foldM in Hf. eapply (rows_loop_ok (fun t => t)); [..|exact Hok|exact Hf].
  - cbn. intros t _ db2 [] db3 Hin Hok2 Ht2 Hb. eapply release_retry_ok; [done|done| |done].
    apply select_tasks_elem in Hin as (_ & Hp & _); [|done]. by bools.
  - apply select_tasks_NoDup, Hok.
  - intros t Hin. by apply select_tasks_elem in Hin as (? & _ & _).
Qed.
