(* ===== verification/Recovery.v ===== *)
(** * Recovery, takeover and dependencies preserve the invariant

    The operations of [repositories/tasks.py] that work on several rows, and
    the observation of allocations
    ([repositories/reservations.py]). *)

From S2P Require Import Prelude PyFloat PyString Enums Policies Store Quotas Reservations Tasks.
From S2P Require Import Invariant Transaction Lifecycle.

Import Task StateMachine.

(** ** Lease recovery *)
Lemma W_revoke db0 t0 R d db t e now rs t' db' :
  W db0 t0 R d db t -> owner (id t0) e R -> execution_id t = Some e ->
  revoke_execution t now rs db = (inr t', db') ->
  exists R' t1, W db0 t0 R' d db' t1 /\ vacant (id t0) R' /\ id t' = id t1 /\ same_task t' t1 /\
    status t1 = status t /\ execution_id t' = None /\ worker_id t' = None /\
    cancel_requested t' = cancel_requested t.
Proof.
  intros HW Hown He H. unfold revoke_execution in H. wgo H HW.
  apply bind_ok in H as ([b t1] & dba & Hset & H). rewrite ?He in Hset. fields in Hset. rewrite He in Hset.
  destruct (W_settle _ _ _ _ _ _ _ _ _ _ _ _ _ HW Hown Hset) as (-> & R' & HW1 & Hv & c & ->).
  clear HW Hset. apply bind_ok in H as (u & dbb & Hw & H). apply ret_ok in H as [-> ->].
  assert (dbb = dba) as ->.
  { destruct (worker_id t); [|by minv Hw]. by apply when_ok in Hw as [[? _]|(_ & _ & ->)]. }
  exists R'. eexists. split_and!; [exact HW1|done|by tfields|same|by tfields..].
Qed.

(** The transition of a revoked task [t], whose stored row is [t1], and the
    note on its execution. *)
Lemma W_interrupt db0 t0 R db t1 t target now ev e c k m t2 db2 u db3 :
  _transition t target now ev db = (inr t2, db2) ->
  set_execution_error e c k m db2 = (inr u, db3) ->
  W db0 t0 R settled db t1 -> id t = id t1 -> same_task t t1 ->
  placed (status t1) = true -> final target = true ->
  t2 = transitioned t target now /\ W db0 t0 R settled db3 t2.
Proof.
  intros H1 H2 HW Hi Hs Hp Hf. apply (W_transition HW) in H1 as (HW1 & -> & _); [|done..].
  apply W_ext with (d' := settled) in HW1; [|balanced]. split; [done|].
  by eapply W_execution_error.
Qed.

(** [interrupt H HW] executes that step; [terminal H HW] the announcement and
    the final write; [requeued H HW] the return to the queue. *)
Ltac interrupt H HW Hi Hs Hp :=
  let Htr := fresh "Htr" in let Hx := fresh "Hx" in let HW1 := fresh "HW" in
  let tn := fresh "tn" in let dba := fresh "dba" in let dbb := fresh "dbb" in
  apply bind_ok in H as (tn & dba & Htr & H); apply bind_ok in H as (? & dbb & Hx & H);
  destruct (W_interrupt _ _ _ _ _ _ _ _ _ _ _ _ _ _ _ _ _ Htr Hx HW Hi Hs Hp eq_refl) as [-> HW1];
  clear HW Htr Hx; rename HW1 into HW.
Ltac revoked_row HW :=
  rewrite (W_row _ _ _ _ _ _ HW); eexists; split; [reflexivity|]; tfields; split_and!; try done.
Ltac terminal H HW :=
  do 2 wgo H HW; apply ret_ok in H as [-> ->]; split; [|revoked_row HW; set_solver];
  eapply close_vacant; [exact HW|balanced|done|by tfields..|tfields].
Ltac requeued H HW :=
  do 2 wgo H HW; apply ret_ok in H as [-> ->]; split; [|revoked_row HW; set_solver];
  eapply close_vacant; [exact HW|balanced|done|by tfields..].

(** What recovery leaves of a task [t]: nobody owns it, and it is cancelled if
    that was requested, else failed, preempted or back in the queue. *)
Definition revoked (t : Task.t) (row : option Task.t) : Prop :=
  exists t', row = Some t' /\ execution_id t' = None /\ worker_id t' = None /\
    (cancellation_wins t = true -> status t' = CANCELLED) /\
    status t' ∈ [CANCELLED; PREEMPTED; FAILED; RETRYING].

Lemma recover_task_ok now n g acc t db acc' db' :
  ok db -> Db.tasks db !! id t = Some t -> status t ∈ ACTIVE_TASK_STATUSES ->
  recover_task now n g acc t db = (inr acc', db') ->
  (ok db' /\ others (id t) db db') /\ revoked t (Db.tasks db' !! id t).
Proof.
  intros Hok Ht Hact H. unfold recover_task in H.
  destruct (I_task_ok _ _ _ _ Hok Ht) as [O1 O2 O3 O4].
  assert (status t <> SCHEDULING) as Hns.
  { intros E. rewrite E in O3. by destruct O3 as (? & ? & ?). }
  pose proof (active_placed _ Hact Hns) as Hpl.
  destruct (owner_of _ _ _ Hok Ht Hpl) as (e & He & Hown). rewrite He in H.
  pose proof (W_open _ _ _ Hok Ht) as HW.
  apply bind_ok in H as (w & db1 & Hw & H).
  assert (db1 = db) as -> by (destruct (worker_id t); minv Hw; done). clear Hw.
  set (code := match w with None => WORKER_LOST | Some _ => _ end) in H. clearbody code.
  apply bind_ok in H as (t2 & db1 & Hr & H).
  destruct (W_revoke _ _ _ _ _ _ _ _ _ _ _ HW Hown He Hr)
    as (R & t1 & HW1 & Hv & Hi & Hsame & Hst & He2 & Hw2 & Hc2). clear HW Hr. rename HW1 into HW.
  apply bind_ok in H as (? & db2 & Hx & H). apply (W_plans_done _ _ _ _ _ _ _ _ _ _ _ HW) in Hx.
  clear HW. rename Hx into HW.
  assert (placed (status t1) = true) as Hpl1 by congruence.
  unfold revoked. destruct (cancellation_wins t) eqn:Ecw; [|destruct (preemption_requested t) eqn:Epr].
  - interrupt H HW Hi Hsame Hpl1. terminal H HW. set_solver.
  - interrupt H HW Hi Hsame Hpl1. apply bind_ok in H as (adm & db4 & Ha & H). fields in Ha. fields in H.
    autorewrite with tasks in Ha, H. unfold recovered_retry, append_message in H.
    assert (W db t R (if adm then shift settled (project_id t) (queued_delta 1) else settled) db4
              (transitioned t2 PREEMPTED now)) as HW1.
    { destruct (requeue_on_preempt _); [|by minv Ha]. eapply W_admit_retry; [exact HW| |exact Ha].
      rewrite <-(W_project _ _ _ _ _ _ HW). by tfields. }
    clear HW Ha. destruct adm.
    + requeued H HW1.
    + destruct (requeue_on_preempt _); terminal H HW1; set_solver.
  - assert (cancel_requested t = false) as Hnc.
    { destruct (cancel_requested t) eqn:Ec; [|done]. exfalso. unfold cancellation_wins in Ecw.
      by rewrite Ec, Epr in Ecw. }
    interrupt H HW Hi Hsame Hpl1. fields in H. unfold recovered_retry, append_message in H.
    destruct (recovery_count _ <? n).
    + apply bind_ok in H as (adm & db4 & Ha & H).
      eapply W_admit_retry in Ha; [|exact HW|rewrite <-(W_project _ _ _ _ _ _ HW); by tfields].
      clear HW. destruct adm.
      * requeued H Ha.
      * terminal H Ha. congruence.
    + terminal H HW. congruence.
Qed.

Lemma get_locked_loop_ok l db u db' :
  ok db -> for_each l (fun p => _ ← get_locked p; mret tt) db = (inr u, db') ->
  ok db' /\ Db.tasks db' = Db.tasks db.
Proof.
  intros Hok H. pattern db'. eapply (for_each_inv (fun s => ok s /\ Db.tasks s = Db.tasks db)); [|done|exact H].
  intros p s1 [] s2 _ [Hs1 Ht1] Hb. apply bind_ok in Hb as ([q s] & s3 & Hg & Hb).
  apply ret_ok in Hb as [_ ->]. split; [by eapply get_locked_I|].
  by apply get_locked_ok in Hg as (? & _ & _ & _ & _ & _ & ->).
Qed.

(** The tasks a recovery pass works on. *)
Definition expired_tasks (n : nat) (locked : gset N) (db : Db.t) : list Task.t :=
  select_tasks
    (fun t => inb (status t) ACTIVE_TASK_STATUSES
              && match lease_expires_at t with None => false | Some at_ => at_ <? Db.clock db end)
    (fun t => nulls_last (lease_expires_at t)) n locked db.

Lemma recover_expired_run n m g locked db r db' :
  ok db -> recover_expired n m g locked db = (inr r, db') ->
  ok db' /\ forall t, t ∈ expired_tasks n locked db -> revoked t (Db.tasks db' !! id t).
Proof.
  intros Hok H. unfold recover_expired in H. apply bind_ok in H as (now & ? & Hn & H). minv Hn.
  apply bind_ok in H as (l & ? & Hl & H). minv Hl. fold (expired_tasks n locked db) in H.
  apply bind_ok in H as ([] & db1 & Hf & H). destruct (get_locked_loop_ok _ _ _ _ Hok Hf) as [Hok1 Et].
  destruct (rows_loop (fun t => t) revoked (expired_tasks n locked db)
    (recover_task (Db.clock db) m g) [] db1 r db') as (? & _ & ?); [..|done|done|done].
  - intros t a db2 a2 db3 Hin Hok2 Ht2 Hb. eapply recover_task_ok; [done|done| |done].
    apply select_tasks_elem in Hin as (_ & Hp & _); [|done]. apply andb_true_iff in Hp as [Hp _].
    by apply inb_true in Hp.
  - apply select_tasks_NoDup, Hok.
  - intros t Hin. rewrite Et. by apply select_tasks_elem in Hin as (? & _ & _).
Qed.

Lemma recover_expired_preserves n m g locked db r db' :
  ok db -> recover_expired n m g locked db = (inr r, db') -> ok db'.
Proof. intros Hok H. by apply (recover_expired_run _ _ _ _ _ _ _ Hok H). Qed.

(** ** Takeover by a new worker session *)
Lemma active_reservation_row db e x db' :
  ok db -> get_active_for_execution e db = (inr x, db') ->
  db' = db /\ forall r, x = Some r ->
    Db.reservations db !! ResourceReservation.id r = Some r /\ active_reservation r = true.
Proof.
  intros Hok H. unfold get_active_for_execution in H. apply gets_ok in H as [-> ->].
  split; [done|]. intros r [Hin Hb]%find_In. apply rows_elem in Hin as (k & Hk). bools.
  destruct Hok as [[_ _ _ Kr] _ _ _ _ _ _]. rewrite (Kr _ _ Hk). done.
Qed.

Lemma transfer_one_ok w s l g acc o db acc' db' :
  ok db -> transfer_one w s l g acc o db = (inr acc', db') -> ok db'.
Proof.
  intros Hok H. unfold transfer_one in H.
  destruct (Observation.task_id o) as [i|], (Observation.execution_id o) as [e|],
    (Observation.worker_session_id o) as [rs|], (Observation.controller_session_id o) as [cs|];
    try by minv H.
  destruct (cs !== s); [by minv H|].
  apply bind_ok in H as (ot & ? & Ht & H). minv Ht. apply bind_ok in H as (oe & ? & He & H). minv He.
  apply bind_ok in H as (r & ? & Hr & H). apply (active_reservation_row _ _ _ _ Hok) in Hr as [-> Hr].
  destruct (Db.tasks db !! i) as [t|] eqn:Ht, (Db.executions db !! e) as [ex|], r as [r|];
    try by minv H.
  destruct (Hr r eq_refl) as [Hrow Ha]. destruct (runtime_handle t); [|by minv H].
  destruct (_ || _); [by minv H|].
  apply bind_ok in H as (now & ? & Hn & H). minv Hn.
  apply bind_ok in H as (? & ? & Hx & H). minv Hx. apply bind_ok in H as (? & ? & Hx & H). minv Hx.
  apply bind_ok in H as (t1 & ? & (-> & x & ->)%extend_lease_ok & H). minv H.
  assert (ok (db <| Db.executions ::=
     <[TaskExecution.id (ex <| TaskExecution.worker_session_id := Some s |>) :=
       ex <| TaskExecution.worker_session_id := Some s |>]> |>)) as Hok1 by by apply execution_I.
  eapply same_claim_I with (r' := r <| ResourceReservation.worker_session_id := s |>) in Hok1;
    [|by fields|by constructor].
  stored Hok1 Ht.
Qed.

Lemma transfer_preserves w s l os g db r db' :
  ok db -> transfer_recoverable_kubernetes_executions w s l os g db = (inr r, db') -> ok db'.
Proof.
  intros Hok H. unfold transfer_recoverable_kubernetes_executions in H.
  apply bind_ok in H as (x & ? & Hx & H). minv Hx. destruct (Db.workers db !! w); [|by minv H].
  destruct (_ !== _); [by minv H|].
  eapply (foldM_inv (fun _ s => ok s)); [|exact Hok|exact H].
  intros o a1 s1 a2 s2 _ Hs1 Hb. by eapply transfer_one_ok.
Qed.

Lemma record_observed_allocation_preserves e v ids at_ db b db' :
  ok db -> record_observed_allocation e v ids at_ db = (inr b, db') -> ok db'.
Proof.
  intros Hok H. unfold record_observed_allocation in H.
  do 2 (apply bind_ok in H as (? & ? & Hg & H); minv Hg; clear Hg).
  apply bind_ok in H as (r & ? & Hr & H). apply (active_reservation_row _ _ _ _ Hok) in Hr as [-> Hr].
  destruct r as [r|]; [|by minv H]. destruct (Hr r eq_refl) as [Hrow Ha].
  apply bind_ok in H as (oe & ? & He & H). minv He. destruct (Db.executions db !! e) as [ex|]; [|by minv H].
  apply bind_ok in H as (? & ? & Hauth & H). minv Hauth.
  do 2 (apply bind_ok in H as (? & ? & Hg & H); minv Hg; clear Hg).
  apply bind_ok in H as (? & ? & Hg & H). minv Hg.
  apply bind_ok in H as (? & ? & Hg & H). minv Hg. clear Hg.
  match type of H with (if ?b then _ else _) _ = _ => destruct b end.
  { match type of H with (if ?b then _ else _) _ = _ => destruct b end; by minv H. }
  minv H.
  apply execution_I. eapply same_claim_I; [done|by fields|]. constructor; try done.
  bools. unfold reservation_checks. fields.
  rename select (ResourceReservation.allocation_authority r = _) into Ea. rewrite Ea.
  rewrite eqb_same, !orb_true_r. done.
Qed.

(** ** Dependencies *)
Lemma resolve_task_ok t rows changed db r db' :
  ok db -> Db.tasks db !! id t = Some t -> status t ∈ [PENDING; QUEUED] ->
  resolve_task t rows changed db = (inr r, db') -> ok db' /\ others (id t) db db'.
Proof.
  intros Hok Ht Hst H. unfold resolve_task in H.
  destruct (I_task_ok _ _ _ _ Hok Ht) as [O1 O2 O3 O4].
  assert (waiting (status t) = true) as Hw by (destruct (status t); set_solver).
  destruct (O3 Hw) as (He & Hwk & _).
  assert (cancel_requested t = false) as Hc.
  { destruct (cancel_requested t); [|done]. specialize (O4 eq_refl).
    destruct (status t); cbn in Hw; set_solver. }
  pose proof (W_open _ _ _ Hok Ht) as HW.
  assert (ok db /\ others (id t) db db) as Hsame by done.
  destruct rows as [|x rows]; [by minv H|]. destruct (forallb _ _).
  - destruct (status t == PENDING) eqn:Ep; [|by minv H]. rewrite eqb_true in Ep.
    do 4 wgo H HW. apply ret_ok in H as [-> ->].
    eapply close_same; [exact HW|done|done|balanced|tfields..]; rewrite ?Ep; try done. congruence.
  - destruct (existsb _ _); [|by minv H]. do 5 wgo H HW. apply ret_ok in H as [-> ->].
    eapply close_vacant; [exact HW|balanced| |by tfields..|tfields; set_solver].
    eapply vacant_unplaced; [done|done|by apply waiting_not_placed].
Qed.

Lemma resolve_dependency_readiness_preserves n locked db r db' :
  ok db -> resolve_dependency_readiness n locked db = (inr r, db') -> ok db'.
Proof.
  intros Hok H. unfold resolve_dependency_readiness in H.
  apply bind_ok in H as (l & ? & Hl & H). minv Hl. apply bind_ok in H as (ps & ? & Hp & H). minv Hp.
  set (l := select_tasks _ _ _ _ _) in H.
  assert (forall x, x ∈ (fun t => (t, dependency_rows db (id t))) <$> l -> x.1 ∈ l) as Hl.
  { intros x (t & -> & Hin)%list_elem_of_fmap. done. }
  eapply (rows_loop_ok (fun x => x.1)); [..|exact Hok|exact H].
  - cbn. intros x a db2 a2 db3 Hin Hok2 Ht2 Hb. eapply resolve_task_ok; [done|done| |done].
    apply Hl in Hin. apply select_tasks_elem in Hin as (_ & Hq & _); [|done].
    apply andb_true_iff in Hq as [_ Hq]. by apply inb_true in Hq.
  - rewrite <-list_fmap_compose. apply select_tasks_NoDup, Hok.
  - intros x Hin%Hl. by apply select_tasks_elem in Hin as (? & _ & _).
Qed.
