(* ===== verification/Creation.v ===== *)
(** * Submission preserves the invariant

    The lazily created quota rows, a new task with its dependencies, and the
    writes of job groups. *)

From S2P Require Import Prelude PyFloat PyString Enums Policies Store Quotas Reservations Tasks.
From S2P Require Import Invariant Transaction Lifecycle Dag.

Import Task StateMachine.

(** ** Submission *)
Lemma usum_zero {K V} `{Countable K} (f : V -> Usage.t) (m : gmap K V) :
  (forall k v, m !! k = Some v -> f v = zero_usage) -> usum f m = zero_usage.
Proof.
  intros Hf. unfold usum, zero_usage.
  assert (forall g : Usage.t -> Z, g zero_usage = 0 -> msum (fun (_ : K) v => g (f v)) m = 0) as Hz.
  { intros g Hg. rewrite (msum_ext _ (fun _ _ => 0)).
    - clear Hf. induction m as [|k v m Hk IH] using map_ind; [apply msum_empty|].
      rewrite msum_insert_new by done. lia.
    - intros k v Hv. by rewrite (Hf k v Hv). }
  f_equal; by apply (Hz (fun u => _ u)).
Qed.

(** A project without a usage row has no tasks and no active reservations. *)
Lemma usage_of_absent db p :
  ok db -> Db.quota_states db !! p = None -> usage_of (Db.tasks db) (Db.reservations db) p = zero_usage.
Proof.
  intros [_ [_ Q2 _] [P1 _ _ _ _ _] _ _ _ _] Hp.
  assert (forall t i, Db.tasks db !! i = Some t -> project_id t <> p) as Hne.
  { intros t i Ht E. destruct (Q2 i t Ht) as [s Hs]. congruence. }
  unfold usage_of. rewrite !usum_zero; [done|..].
  - intros k r Hr. destruct (active_reservation r) eqn:Ha; [|by apply reservation_usage_inactive].
    rewrite reservation_usage_active by done.
    destruct (P1 k r Hr Ha) as (t & Ht & _ & _ & _ & E); [done|].
    assert ((ResourceReservation.project_id r == p) = false) as -> by (rewrite eqb_false, <-E; eauto).
    done.
  - intros i t Ht. unfold task_usage.
    assert ((project_id t == p) = false) as -> by (rewrite eqb_false; eauto). done.
Qed.

Lemma default_state_wf now : state_wf (default_state now).
Proof. constructor; try done. repeat constructor; done. Qed.

Lemma initialize_ok p db q s db' :
  ok db -> initialize p db = (inr (q, s), db') ->
  ok db' /\ Db.tasks db' = Db.tasks db /\ Db.quota_states db' !! p = Some s.
Proof.
  intros Hok H. unfold initialize in H.
  do 5 (apply bind_ok in H as (? & ? & Hg & H); minv Hg; try clear Hg).
  apply bind_ok in H as (q1 & db1 & Hq & H). apply bind_ok in H as (s1 & db2 & Hs & H).
  apply bind_ok in H as (? & db3 & Ha & H). apply assert_ok in Ha as (_ & _ & ->).
  apply ret_ok in H as [[= -> ->] ->].
  assert (ok db1 /\ Db.tasks db1 = Db.tasks db /\ Db.quota_states db1 = Db.quota_states db /\
          is_Some (Db.quotas db1 !! p)) as (Hok1 & Et & Es & Hq1).
  { destruct (Db.quotas db !! p) eqn:E; minv Hq; [eauto|]. split_and!; try done.
    - destruct Hok as [Hk [Q1 Q2 Q3] Hp Hw Hl He Hc]. constructor; fields; try done.
      constructor; try done. intros p' [s' Hs']. apply lookup_insert_is_Some'. right. eauto.
    - fields. rewrite lookup_insert_eq. eauto. }
  rewrite <-Et. rewrite <-Es in Hs.
  destruct (Db.quota_states db1 !! p) eqn:E; minv Hs; [done|]. split_and!; [|done|].
  - pose proof (usage_of_absent _ _ Hok1 E) as Hz.
    destruct Hok1 as [Hk [Q1 Q2 Q3] Hp Hw Hl He Hc]. constructor; fields; try done. constructor.
    + intros p' s' [[-> ->]|[Hne Hs']]%lookup_insert_cases; [|eauto].
      split; [apply default_state_wf|]. rewrite Hz. done.
    + intros i t Ht. apply lookup_insert_is_Some'. right. eauto.
    + intros p' [s' [[-> ->]|[Hne Hs']]%lookup_insert_cases]; eauto.
  - fields. apply lookup_insert_eq.
Qed.

(** A new task: its row, queued in the books of its project, and the event of
    its creation. *)
Lemma new_task_I d db t e :
  I d None db -> Db.tasks db !! id t = None -> is_Some (Db.quota_states db !! project_id t) ->
  status t = PENDING -> execution_id t = None -> worker_id t = None -> cancel_requested t = false ->
  version t = 1 -> TaskEvent.task_id e = id t -> TaskEvent.from_status e = None ->
  TaskEvent.status e = PENDING -> TaskEvent.sequence e = 0 ->
  I (shift d (project_id t) (queued_delta (-1))) None (store_event e (store_task t db)).
Proof.
  intros [[Kt Kw Ke Kr] [Q1 Q2 Q3] [P1 P2 P3 P4 P5 P6] Hw Hl [E1 E2 E3 E4 E5 E6] Hc] Hn Hq Hst Hex Hwk
    Hcr Hv Ei Ef Es En.
  assert (forall x : Task.t, forall i, Db.tasks db !! i = Some x -> i <> id t) as Hne.
  { intros x i Hx ->. congruence. }
  assert (events_of (Db.events db) (id t) = []) as Hnil.
  { destruct (events_of (Db.events db) (id t)) as [|x l] eqn:E; [done|]. exfalso.
    assert (x ∈ events_of (Db.events db) (id t)) as Hx by (rewrite E; left).
    apply list_elem_of_In, List.filter_In in Hx as [Hx Hi]. rewrite eqb_true in Hi.
    destruct (E2 x) as (y & Hy & _); [by apply list_elem_of_In|]. rewrite Hi in Hy. congruence. }
  constructor; unfold store_event, store_task; fields; try done.
  - constructor; try done. intros j x [[-> ->]|[? ?]]%lookup_insert_cases; eauto.
  - constructor; try done.
    + intros p s Hps. destruct (Q1 p s Hps) as [Hwf Hu]. split; [done|]. rewrite Hu.
      unfold usage_of, shift. rewrite usum_insert_new by done.
      assert (task_usage p t = if project_id t == p then one_queued else zero_usage) as ->
        by (unfold task_usage; rewrite Hst; by destruct (_ == _)).
      destruct (p == project_id t) eqn:E.
      * rewrite eqb_true in E. subst p. rewrite eqb_same. apply Usage.ext; cbn; lia.
      * assert ((project_id t == p) = false) as -> by (rewrite eqb_false in *; congruence).
        apply Usage.ext; cbn; lia.
    + intros j x [[-> ->]|[? ?]]%lookup_insert_cases; eauto.
  - constructor; try done.
    + intros k r Hr Ha Hh. destruct (P1 k r Hr Ha Hh) as (x & Hx & ?).
      exists x. rewrite lookup_insert_ne by (intros E; by destruct (Hne _ _ Hx)). done.
    + intros j x [[-> ->]|[? ?]]%lookup_insert_cases; [by rewrite Hst|eauto].
    + intros j x [[-> ->]|[? ?]]%lookup_insert_cases; [by rewrite Hst|eauto].
  - constructor; try done.
    + intros j x Hx. rewrite events_of_app, Ei.
      apply lookup_insert_cases in Hx as [[-> ->]|[Hj Hx]].
      * rewrite eqb_same, Hnil, Hst. cbn. rewrite Ef, Es. done.
      * assert ((id t == j) = false) as -> by (rewrite eqb_false; congruence).
        rewrite app_nil_r. eauto.
    + intros e' He'. apply elem_of_app in He' as [He'|He'].
      * destruct (E2 e' He') as (x & Hx & ?). exists x. by rewrite lookup_insert_ne by (apply not_eq_sym; eauto).
      * apply list_elem_of_singleton in He' as ->. exists t. rewrite Ei, lookup_insert_eq. split; [done|lia].
    + rewrite fmap_app. apply NoDup_app. split_and!; [done| |apply NoDup_singleton].
      intros [a b] Hin Hin2. apply list_elem_of_singleton in Hin2. injection Hin2 as -> ->.
      apply list_elem_of_fmap in Hin as (e' & Heq & He'). injection Heq as Ha Hb.
      destruct (E2 e' He') as (x & Hx & ?). rewrite <-Ha, Ei in Hx. congruence.
    + intros l Hll. destruct (E4 l Hll) as (x & Hx & ?).
      exists x. by rewrite lookup_insert_ne by (apply not_eq_sym; eauto).
    + intros j x [[-> ->]|[? ?]]%lookup_insert_cases; [lia|eauto].
  - intros j x [[-> ->]|[? ?]]%lookup_insert_cases; [congruence|eauto].
Qed.

Lemma shift_cancel p q :
  shift (shift settled p (queued_delta 1)) p (queued_delta (-1)) q = settled q.
Proof. unfold shift, settled. destruct (q == p); [|done]. by apply Usage.ext. Qed.

Lemma create_queued_preserves i a db t db' : ok db -> create_queued i a db = (inr t, db') -> ok db'.
Proof.
  intros Hok H. unfold create_queued in H.
  do 4 (apply bind_ok in H as (? & ? & Hg & H); minv Hg; try clear Hg).
  apply bind_ok in H as ([q s] & db1 & Hinit & H).
  destruct (initialize_ok _ _ _ _ _ Hok Hinit) as (Hok1 & _ & _). clear Hok Hinit.
  apply bind_ok in H as (? & db2 & Hfit & H).
  assert (db2 = db1) as ->.
  { unfold ensure_task_can_fit in Hfit. minv Hfit. repeat case_match; minv Hfit; done. }
  apply bind_ok in H as (s1 & db2 & Hadm & H).
  pose proof (admit_I _ _ _ _ _ _ Hok1 Hadm) as HI.
  assert (is_Some (Db.quota_states db2 !! Submission.project_id a)) as Hs2.
  { apply admit_queued_ok in Hadm as (? & (? & _ & _ & _ & _ & _ & ->) & _).
    unfold set_state. fields. rewrite lookup_insert_eq. eauto. }
  clear Hok1 Hadm.
  apply bind_ok in H as (now & ? & Hn & H). minv Hn.
  apply bind_ok in H as (? & db3 & Hins & H). unfold insert_task in Hins. minv Hins.
  rewrite bool_decide_eq_false, <-eq_None_not_Some in Hm.
  do 2 (apply bind_ok in H as (? & ? & Hg & H); minv Hg).
  set (nt := new_task i (Db.clock db2) a) in *.
  match type of H with _ ?db4 = _ => assert (ok db4) as Hok; [|set (dbn := db4) in *] end.
  { eapply (I_ext (shift (shift settled (project_id nt) (queued_delta 1)) (project_id nt) (queued_delta (-1)))).
    - intros p. apply shift_cancel.
    - eapply I_tables; [..|exact (new_task_I _ _ nt (created_event nt (Db.clock db2)) HI Hm Hs2
        eq_refl eq_refl eq_refl eq_refl eq_refl eq_refl eq_refl eq_refl eq_refl)]; done. }
  assert (Db.tasks dbn !! i = Some nt) as Ht by apply lookup_insert_eq.
  assert (status nt = PENDING /\ project_id nt = Submission.project_id a /\ execution_id nt = None /\
          worker_id nt = None /\ cancel_requested nt = false) as (Est & Ep & Ee & Ew & Ec) by done.
  clearbody nt dbn. clear -H Hok Ht Est Ep Ee Ew Ec.
  pose proof (W_open _ _ _ Hok Ht) as HW. assert (waiting (status nt) = true) as Hw by by rewrite Est.
  destruct (_ && _); [|destruct (forallb _ _)].
  - do 4 wgo H HW. apply ret_ok in H as [-> ->]. rewrite <-Ep in HW.
    assert (id nt = i) as Hi by (destruct Hok as [[]]; eauto).
    eapply close_vacant; [exact HW|balanced| |by tfields..|tfields; congruence].
    rewrite Hi. eapply vacant_unplaced; [done|done|by apply waiting_not_placed].
  - do 3 wgo H HW. apply ret_ok in H as [-> ->].
    eapply close_same; [exact HW|done|done|balanced|tfields..]; rewrite ?Est; try done. congruence.
  - by apply ret_ok in H as [_ ->].
Qed.

(** ** Quota administration *)
Lemma set_state_ok db p s0 s :
  ok db -> Db.quota_states db !! p = Some s0 -> state_wf s -> usage s = usage s0 ->
  ok (set_state p s db).
Proof.
  intros [Hk [Q1 Q2 Q3] Hp Hw Hl He Hc] Hs Hwf Hu. unfold set_state. constructor; fields; try done.
  constructor.
  - intros p' s' [[-> ->]|[Hne Hs']]%lookup_insert_cases; [|eauto].
    split; [done|]. rewrite Hu. by apply Q1.
  - intros i t Ht. apply lookup_insert_is_Some'. right. eauto.
  - intros p' [s' [[-> ->]|[Hne Hs']]%lookup_insert_cases]; eauto.
Qed.

Lemma put_quota_ok db p q : ok db -> ok (db <| Db.quotas ::= <[p := q]> |>).
Proof.
  intros [Hk [Q1 Q2 Q3] Hp Hw Hl He Hc]. constructor; fields; try done. constructor; try done.
  intros p' Hs. apply lookup_insert_is_Some'. right. auto.
Qed.

Lemma replace_preserves p values db r db' : ok db -> replace p values db = (inr r, db') -> ok db'.
Proof.
  intros Hok H. unfold replace in H. apply bind_ok in H as (? & ? & Hg & H). minv Hg.
  apply bind_ok in H as ([q s] & db1 & Hl & H). apply (get_locked_I _ _ _ _ _ _ Hok) in Hl.
  minv H. by apply put_quota_ok.
Qed.

Lemma replace_service_commitment_preserves p cur des cpu mem gpu v db s db' :
  ok db -> replace_service_commitment p cur des cpu mem gpu v db = (inr s, db') -> ok db'.
Proof.
  intros Hok H. unfold replace_service_commitment in H. apply bind_ok in H as (? & ? & Hg & H). minv Hg.
  apply bind_ok in H as ([q s1] & db1 & Hl & H).
  assert (ok db1 /\ Db.quota_states db1 !! p = Some s1) as [Hok1 Hs1].
  { unfold try_except in Hl. destruct (get_locked p db) as [[e|[q1 s2]] db2] eqn:E.
    - destruct e; try done. assert (db2 = db) as ->.
      { unfold get_locked, mbind, M_bind, gets in E. destruct (Db.quotas db !! p), (Db.quota_states db !! p);
          try by injection E. exfalso.
        unfold _assert_state_nonnegative, raise_if, mbind, M_bind, raise, mret, M_ret, database_utcnow,
          gets, put_quota_state, modify in E. cbn in E. repeat (case_match; simplify_eq). }
      by apply (initialize_ok _ _ _ _ _ Hok) in Hl as (? & _ & ?).
    - injection Hl as -> -> ->. split; [by eapply get_locked_I|].
      apply get_locked_ok in E as (? & _ & _ & _ & _ & _ & ->). unfold set_state. fields.
      apply lookup_insert_eq. }
  minv H. destruct (_ =? 0); [by minv H|].
  apply touch_ok in H as (_ & Hwf & Hu & _ & ->). by eapply set_state_ok.
Qed.

(** ** Job groups *)
Lemma add_dependencies_preserves g ds db r db' :
  ok db -> _add_dependencies_locked g ds db = (inr r, db') -> ok db'.
Proof.
  intros Hok (_ & _ & ts & b & Hf)%add_dependencies_ok. pattern db'.
  eapply (foldM_inv (fun _ s => ok s)); [|exact Hok|exact Hf].
  intros d b1 s1 b2 s2 _ Hok1 Hb. unfold add_dependency_row in Hb. case_match; minv Hb; [done|].
  by apply dependencies_I.
Qed.

Lemma create_group_preserves i p name policy ds db g db' :
  ok db -> create_group i p name policy ds db = (inr g, db') -> ok db'.
Proof.
  intros Hok [->|[r H]]%create_group_ok; [by apply job_groups_I|].
  eapply add_dependencies_preserves, H. by apply job_groups_I.
Qed.

Lemma add_dependency_preserves p g d db r db' :
  ok db -> add_dependency p g d db = (inr r, db') -> ok db'.
Proof. intros Hok (gr & l & _ & H)%add_dependency_ok. by eapply add_dependencies_preserves. Qed.
