(* ===== verification/Placement.v ===== *)
(** * Claims, placements, preemption and worker operations preserve the invariant *)

From S2P Require Import Prelude PyFloat PyString Enums Policies Store Quotas Reservations Tasks.
From S2P Require Import Frames Admission AdmissionFrames Scheduling Workers Invariant Transaction Lifecycle.

Import Task StateMachine.

(** ** Reserving capacity *)

(** The tables a new reservation changes together. *)
Definition assign_tables (w : Worker.t) (e : TaskExecution.t) (r : Reservation) (db : Db.t) : Db.t :=
  db <| Db.workers ::= <[Worker.id w := w]> |>
     <| Db.executions ::= <[TaskExecution.id e := e]> |>
     <| Db.reservations ::= <[ResourceReservation.id r := r]> |>.

(** The counters of [w'] are those of [w] with [r] added. *)
Record charged (w' w : Worker.t) (r : Reservation) : Prop := {
  charged_id : Worker.id w' = Worker.id w;
  charged_running : Worker.running_tasks w' = Worker.running_tasks w + 1;
  charged_memory : Worker.reserved_memory_mb w'
                   = Worker.reserved_memory_mb w + ResourceReservation.memory_mb r;
  charged_gpus : Worker.reserved_gpus w' = Worker.reserved_gpus w + ResourceReservation.gpu_count r;
}.

Lemma assign_quota d tasks rs quotas states k r :
  quota_ok d tasks rs quotas states -> rs !! k = None -> active_reservation r = true ->
  quota_ok (shift d (ResourceReservation.project_id r) (minus (amounts r))) tasks (<[k := r]> rs)
    quotas states.
Proof.
  intros [Q1 Q2 Q3] Hr Ha. constructor; try done.
  intros p s Hs. destruct (Q1 p s Hs) as [Hw Hu]. split; [done|]. rewrite Hu.
  unfold usage_of, shift. rewrite usum_insert_new by done.
  rewrite (reservation_usage_active _ r Ha).
  destruct (ResourceReservation.project_id r == p) eqn:E.
  - rewrite eqb_true in E. subst p. rewrite eqb_same. apply Usage.ext; cbn; lia.
  - assert ((p == ResourceReservation.project_id r) = false) as ->
      by (rewrite eqb_false in *; congruence).
    apply Usage.ext; cbn; lia.
Qed.

Lemma assign_workers workers rs w w' r k :
  workers_ok workers rs -> rs !! k = None -> active_reservation r = true ->
  workers !! ResourceReservation.worker_id r = Some w -> charged w' w r ->
  workers_ok (<[ResourceReservation.worker_id r := w']> workers) (<[k := r]> rs).
Proof.
  intros [W1 W2] Hr Ha Hw [C1 C2 C3 C4]. constructor.
  - intros i x Hx. rewrite !(msum_insert_new _ rs k r Hr), !(on_worker_active _ i r) by done.
    apply lookup_insert_cases in Hx as [[-> ->]|[Hne Hx]].
    + rewrite eqb_same. destruct (W1 _ _ Hw) as (E1 & E2 & E3). lia.
    + assert ((ResourceReservation.worker_id r == i) = false) as -> by (rewrite eqb_false; congruence).
      destruct (W1 _ _ Hx) as (-> & -> & ->). lia.
  - intros k' x Hx Hxa. apply lookup_insert_is_Some'.
    apply lookup_insert_cases in Hx as [[-> ->]|[Hne Hx]]; [by left|]. right. eauto.
Qed.

Lemma assign_tables_I d db w w' e r :
  let i := ResourceReservation.task_id r in
  I d (Some i) db -> Db.reservations db !! ResourceReservation.id r = None ->
  active_reservation r = true -> reservation_checks r = true ->
  TaskExecution.id e = ResourceReservation.execution_id r ->
  (forall k x, Db.reservations db !! k = Some x ->
     ResourceReservation.execution_id x <> ResourceReservation.execution_id r) ->
  Db.workers db !! ResourceReservation.worker_id r = Some w -> charged w' w r ->
  I (shift d (ResourceReservation.project_id r) (minus (amounts r))) (Some i) (assign_tables w' e r db).
Proof.
  intros i [[Kt Kw Ke Kr] Hq [P1 P2 P3 P4 P5 P6] Hw [L1 L2] He Hc] Hr Ha Hck Hex Hun Hwk Hch.
  assert (Worker.id w' = ResourceReservation.worker_id r) as Ei
    by (rewrite (charged_id _ _ _ Hch); eauto).
  assert (forall k x, Db.reservations db !! k = Some x -> k <> ResourceReservation.id r) as Hne
    by (intros k x Hx ->; congruence).
  unfold assign_tables. rewrite Ei. constructor; fields; try done.
  - constructor; try done.
    + intros j x [[-> ->]|[? ?]]%lookup_insert_cases; eauto.
    + intros j x [[-> ->]|[? ?]]%lookup_insert_cases; eauto.
    + intros j x [[-> ->]|[? ?]]%lookup_insert_cases; eauto.
  - by apply assign_quota.
  - constructor; try done.
    + intros k x [[-> ->]|[? ?]]%lookup_insert_cases; [done|eauto].
    + intros j t Hj Hp Hh. destruct (P2 j t Hj Hp Hh) as (k & x & Hx & ?).
      exists k, x. rewrite lookup_insert_ne by (apply not_eq_sym; eauto). done.
    + intros k x [[-> ->]|[? Hx]]%lookup_insert_cases.
      * rewrite <-Hex, lookup_insert_eq. eauto.
      * apply lookup_insert_is_Some'. right. eauto.
    + intros k k' x x' [[-> ->]|[? ?]]%lookup_insert_cases [[-> ->]|[? ?]]%lookup_insert_cases E;
        [done|..|eauto].
      * exfalso. by eapply Hun.
      * exfalso. by eapply Hun.
    + intros k x [[-> ->]|[? ?]]%lookup_insert_cases; eauto.
  - by eapply assign_workers.
  - constructor; [|done]. intros k l Hl Hla. destruct (L1 k l Hl Hla) as (x & Hx & ?).
    exists x. rewrite lookup_insert_ne by (apply not_eq_sym; eauto). done.
Qed.

(** ** Device bindings *)
Lemma existsb_false_elem {A} (p : A -> bool) l x : existsb p l = false -> x ∈ l -> p x = false.
Proof.
  intros H Hx. apply not_true_iff_false. intros Hp. apply not_true_iff_false in H. apply H.
  apply existsb_exists. exists x. by rewrite <-list_elem_of_In.
Qed.

Lemma insert_link_I d h db k i l r u db' :
  I d h db -> Db.reservations db !! k = Some r -> active_reservation r = true ->
  insert_link k i l db = (inr u, db') ->
  I d h db' /\ Db.reservations db' = Db.reservations db /\ Db.tasks db' = Db.tasks db /\
  Db.quota_states db' = Db.quota_states db.
Proof.
  intros [Hk Hq Hp Hw [L1 L2] He Hc] Hr Ha H. unfold insert_link in H. minv H.
  split_and!; try done. constructor; fields; try done. constructor.
  - intros x l0 [[-> ->]|[? ?]]%lookup_insert_cases; eauto.
  - intros x x' l1 l2 [[-> ->]|[Hx Hl1]]%lookup_insert_cases [[-> ->]|[Hx' Hl2]]%lookup_insert_cases;
      cbn; intros Hl Hl' E; [done|..|eauto].
    + exfalso. rewrite Hl in Hm0. cbn in Hm0.
      eapply (existsb_false_elem _ _ (x', l2)) in Hm0; [|by apply elem_of_map_to_list].
      cbn in Hm0. rewrite Hl', <-E, eqb_same in Hm0. done.
    + exfalso. rewrite Hl' in Hm0. cbn in Hm0.
      eapply (existsb_false_elem _ _ (x, l1)) in Hm0; [|by apply elem_of_map_to_list].
      cbn in Hm0. rewrite Hl, E, eqb_same in Hm0. done.
Qed.

Lemma bind_devices_I d h db k ds now r u db' :
  I d h db -> Db.reservations db !! k = Some r -> active_reservation r = true ->
  bind_devices k ds now db = (inr u, db') ->
  I d h db' /\ Db.reservations db' = Db.reservations db /\ Db.tasks db' = Db.tasks db.
Proof.
  intros HI Hr Ha H. unfold bind_devices in H. pattern db'.
  eapply (for_each_inv (fun s => I d h s /\ Db.reservations s = Db.reservations db /\
                                 Db.tasks s = Db.tasks db)); [|done|exact H].
  intros x s1 [] s2 _ (H1 & E1 & E2) Hb. rewrite <-E1 in Hr.
  apply (insert_link_I _ _ _ _ _ _ _ _ _ H1 Hr Ha) in Hb as (? & ? & ? & _). by rewrite <-E1, <-E2.
Qed.

Lemma assert_binding_db r db u db' : assert_exact_device_binding r db = (inr u, db') -> db' = db.
Proof. unfold assert_exact_device_binding. intros H. case_match; by minv H. Qed.

(** ** The common tail of a claim and a placement *)
Lemma W_assign alloc db0 t0 R d db t eid rid w w' ds now prices u db' :
  let r := claim_reservation alloc rid eid t w ds now in
  W db0 t0 R d db t -> Db.workers db !! Worker.id w = Some w -> charged w' w r ->
  reserve_assignment alloc eid rid t w w' ds now prices db = (inr u, db') ->
  R !! rid = None /\
  W db0 t0 (<[rid := r]> R)
    (shift (shift d (project_id t) (minus (amounts r))) (project_id t)
       (Usage.sub (amounts r) one_queued)) db' t.
Proof.
  intros r HW Hw Hch H. unfold reserve_assignment in H.
  apply bind_ok in H as (? & ? & Hg & H). minv Hg.
  apply bind_ok in H as (? & ? & Hg & H). minv Hg.
  apply bind_ok in H as (? & ? & Hg & H). unfold insert_execution in Hg. minv Hg.
  apply bind_ok in H as (? & ? & Hg & H). unfold insert_reservation in Hg. fold r in Hg. minv Hg.
  match type of H with
  | _ ?s = _ => assert (s = assign_tables w' (claim_execution alloc eid t w ds
      (previous_attempt (db <| Db.workers ::= <[Worker.id w' := w']> |>) (id t) + 1) now prices) r db)
      as E by reflexivity
  end.
  rewrite E in H. clear E. set (e := claim_execution _ _ _ _ _ _ _ _) in H.
  assert (R !! rid = None) as Hnone.
  { rewrite <-(W_reservations _ _ _ _ _ _ HW).
    rewrite bool_decide_eq_false, <-eq_None_not_Some in Hm2. exact Hm2. }
  split; [done|]. destruct HW as [HI Hrow Hi Hp HR Ho]. rewrite <-HR in Hnone.
  assert (I (shift d (project_id t) (minus (amounts r))) (Some (id t0)) (assign_tables w' e r db)) as HI1.
  { rewrite <-Hi in *. change (project_id t) with (ResourceReservation.project_id r).
    change (id t) with (ResourceReservation.task_id r).
    apply (assign_tables_I d db w w' e r); try done.
    - by apply negb_false_iff in Hm3.
    - intros k x Hx E. eapply (existsb_false_elem _ _ x) in Hm4.
      + cbv beta in Hm4. rewrite E, eqb_same in Hm4. done.
      + apply (rows_elem (Db.reservations db)). eauto. }
  apply bind_ok in H as (? & dbl & Hl & H).
  destruct (bind_devices_I _ _ _ _ _ _ r _ _ HI1 (lookup_insert_eq _ _ _) eq_refl Hl) as (HI2 & ER & ET).
  apply bind_ok in H as (? & ? & ->%assert_binding_db & H).
  assert (W db0 t0 (<[rid := r]> R) (shift d (project_id t) (minus (amounts r))) dbl t) as HW.
  { constructor; try done; rewrite ?ER, ?ET; try done. unfold assign_tables. fields. by rewrite HR. }
  wgo H HW. apply ret_ok in H as [_ ->]. exact HW.
Qed.

Lemma assigned_books p u q :
  shift (shift (shift settled p (queued_delta (1 - 0))) p (minus u)) p (Usage.sub u one_queued) q
  = zero_usage.
Proof. unfold shift, settled. destruct (q == p); [|done]. apply Usage.ext; cbn; lia. Qed.

(** The books are settled and the task owns its reservation. *)
Lemma close_assigned db0 t0 R d db t r :
  W db0 t0 (<[ResourceReservation.id r := r]> R) d db t -> (forall p, d p = zero_usage) ->
  vacant (id t0) R -> R !! ResourceReservation.id r = None -> active_reservation r = true ->
  placed (status t) = true -> cancel_requested t = false ->
  ResourceReservation.task_id r = id t -> execution_id t = Some (ResourceReservation.execution_id r) ->
  worker_id t = Some (ResourceReservation.worker_id r) -> project_id t = ResourceReservation.project_id r ->
  ok db /\ others (id t0) db0 db.
Proof.
  intros HW Hd Hv Hn Ha Hp Hc E1 E2 E3 E4. apply (W_close HW Hd). destruct HW as [_ _ Hi _ HR _].
  constructor.
  - intros _. exists (ResourceReservation.id r), r. rewrite HR, lookup_insert_eq. done.
  - intros k x Hx Hxa Ht. rewrite HR in Hx. apply lookup_insert_cases in Hx as [[-> ->]|[Hne Hx]]; [done|].
    destruct (Hv k x Hx Hxa). congruence.
  - by rewrite placed_not_waiting.
  - congruence.
Qed.

Lemma transition_workers t s n ev db t' db' :
  _transition t s n ev db = (inr t', db') -> Db.workers db' = Db.workers db.
Proof. intros (_ & _ & ->)%transition_run. done. Qed.

Lemma get_locked_workers p db r db' : get_locked p db = (inr r, db') -> Db.workers db' = Db.workers db.
Proof. destruct r. by intros (? & _ & _ & _ & _ & _ & ->)%get_locked_ok. Qed.

(** A queued task that was assigned on [db], with its reservation made and
    announced. *)
Lemma assign_close alloc db0 i t0 db t eid rid w w' ds now prices a ev pl at_ A (x : A) r db' :
  ok db0 -> Db.tasks db0 !! i = Some t0 -> status t0 = QUEUED ->
  W db0 t0 (Db.reservations db0) (shift settled (project_id t0) (queued_delta (1 - 0))) db t ->
  status t = ASSIGNED -> execution_id t = Some eid -> worker_id t = Some (Worker.id w) ->
  cancel_requested t = false -> Db.workers db !! Worker.id w = Some w ->
  charged w' w (claim_reservation alloc rid eid t w ds now) ->
  (_ ← reserve_assignment alloc eid rid t w w' ds now prices; _ ← outbox_add a ev pl at_; mret x) db
    = (inr r, db') ->
  ok db' /\ others (id t0) db0 db'.
Proof.
  intros Hok Ht Hst HW E1 E2 E3 E4 Hw Hch H.
  assert (id t0 = i) as Hi by (destruct Hok as [[]]; eauto).
  apply bind_ok in H as (? & db1 & Hr & H).
  destruct (W_assign _ _ _ _ _ _ _ _ _ _ _ _ _ _ _ _ HW Hw Hch Hr) as [Hn HW1]. clear HW Hr.
  wgo H HW1. apply ret_ok in H as [_ ->].
  rewrite (W_project _ _ _ _ _ _ HW1) in HW1.
  eapply (close_assigned _ _ _ _ _ _ (claim_reservation alloc rid eid t w ds now) HW1); try done.
  - intros q. apply assigned_books.
  - rewrite Hi. eapply vacant_unplaced; [done|done|by rewrite Hst].
  - by rewrite E1.
Qed.

Lemma claim_preserves eid rid ld i w l s prices db r db' :
  ok db -> claim eid rid ld i w l s prices db = (inr r, db') -> ok db'.
Proof.
  intros Hok H. unfold claim in H. apply bind_ok in H as (? & ? & Hg & H). minv Hg.
  destruct (Db.tasks db !! i) as [t|] eqn:Ht; [|by minv H].
  assert (id t = i) as Hi by (destruct Hok as [[]]; eauto).
  pose proof (W_open _ _ _ Hok Ht) as HW.
  wgo H HW. bools. rename select (status t = QUEUED) into Hst.
  apply bind_ok in H as (? & ? & Hg & H). unfold dependencies_ready in Hg. minv Hg.
  do 3 wgo H HW. destruct (Db.workers db0 !! w) as [wk|] eqn:Hwk; [|by minv H].
  assert (Worker.id wk = w) as Ew by (destruct (I_keys _ _ _ (W_inv _ _ _ _ _ _ HW)); eauto).
  do 7 wgo H HW.
  apply bind_ok in H as (t1 & db2 & Htr & H). pose proof (transition_workers _ _ _ _ _ _ _ Htr) as Ewk.
  apply (W_transition HW) in Htr as (HW1 & -> & _); [|by tfields|same].
  apply bind_ok in H as (? & ? & [-> ->]%plus_seconds_ok & H).
  apply bind_ok in H as (? & db3 & Hput & H). unfold put_task in Hput.
  apply modify_ok in Hput as [_ Hput]. set (t1 := upd gpu_device_ids _ _) in *.
  assert (W db t (Db.reservations db) (shift settled (project_id t) (queued_delta (1 - 0))) db3 t1) as HW2.
  { rewrite Hst in HW1. rewrite Hput. apply (W_put HW1 t1); unfold t1; [by tfields|same]. }
  assert (Db.workers db3 !! Worker.id wk = Some wk) as Hwk3 by (rewrite Hput; fields; congruence).
  eapply assign_close; [exact Hok|exact Ht|exact Hst|exact HW2| | | | |exact Hwk3| |exact H];
    unfold t1, _prepare_for_assignment; try by tfields.
  constructor; unfold worker_claimed; tfields; cbn; tfields; done || lia.
Qed.

Lemma record_task_event_W {db0 t0 R d db t t' prev ev now details u v db1 db'} :
  put_task t' db = (inr v, db1) -> _record_task_event t' prev ev now details db1 = (inr u, db') ->
  W db0 t0 R d db t -> id t' = id t -> project_id t' = project_id t ->
  log_sequence t <= log_sequence t' -> version t < version t' -> prev = status t ->
  can_transition (status t) (status t') = true ->
  W db0 t0 R (shift d (project_id t0) (queued_delta (wz (status t) - wz (status t')))) db' t' /\
  Db.workers db' = Db.workers db.
Proof.
  intros Hput H [HI Hr Hi Hp HR Ho] E1 E2 E3 E4 -> Hc.
  unfold _record_task_event in H. minv Hput. minv H.
  split; [|done]. assert (id t' = id t0) as Hi' by congruence.
  constructor; try done; try congruence.
  - rewrite <-Hi', <-Hp, <-E2. apply (status_step_I d db t' t); rewrite ?Hi'; try done.
  - fields. rewrite Hi'. apply lookup_insert_eq.
  - intros j Hj. fields. rewrite lookup_insert_ne by congruence. auto.
Qed.

(** The devices are read. *)
Lemma place_devices_read c a t wk ds db devices db' :
  match a with
  | Some a => admitted_devices c a t wk
  | None => requested_devices t wk ds
  end db = (inr devices, db') -> db' = db.
Proof.
  intros H. eapply (frames_run eq) in H; [done|]. destruct a; frame_by fail.
Qed.

Lemma place_preserves eid rid i w ds l prices a c db r db' :
  ok db -> place eid rid i w ds l prices a c db = (inr r, db') -> ok db'.
Proof.
  intros Hok H. unfold place in H. apply bind_ok in H as (? & ? & Hg & H). minv Hg.
  destruct (Db.tasks db !! i) as [t|] eqn:Ht; [|by minv H].
  assert (id t = i) as Hi by (destruct Hok as [[]]; eauto).
  pose proof (W_open _ _ _ Hok Ht) as HW.
  wgo H HW. bools. rename select (status t = QUEUED) into Hst.
  apply bind_ok in H as (? & ? & Hg & H). unfold dependencies_ready in Hg. minv Hg.
  do 3 wgo H HW. destruct (Db.workers db0 !! w) as [wk|] eqn:Hwk; [|by minv H].
  assert (Worker.id wk = w) as Ew by (destruct (I_keys _ _ _ (W_inv _ _ _ _ _ _ HW)); eauto).
  do 7 wgo H HW. apply bind_ok in H as (devices & dba & Hg & H). apply place_devices_read in Hg as ->.
  apply bind_ok in H as (? & dba & Hg & H).
  assert (dba = db0) as -> by (destruct (evaluate_snapshot _ _); by minv Hg). clear Hg.
  wgo H HW. unfold ensure_transition in H. wgo H HW.
  apply bind_ok in H as (? & db1 & Hp1 & H). apply bind_ok in H as (? & db2 & Hr1 & H).
  destruct (record_task_event_W Hp1 Hr1 HW) as [HW1 Ew1]; [by tfields|by tfields|by tfields|tfields; lia
    |done|tfields; by rewrite Hst|]. clear HW Hp1 Hr1.
  set (ts := t <| status := SCHEDULING |> <| version ::= Z.succ |>) in *.
  wgo H HW1. rename select (negb (can_transition (status ts) _) = false) into Htr. apply negb_false_iff in Htr.
  apply bind_ok in H as (? & ? & [-> ->]%plus_seconds_ok & H).
  apply bind_ok in H as (? & db3 & Hp2 & H). apply bind_ok in H as (? & db4 & Hr2 & H).
  destruct (record_task_event_W Hp2 Hr2 HW1) as [HW2 Ew2];
    [unfold placed_task, admitted_task, _prepare_for_assignment; destruct a; tfields; try done..|]; [lia..|].
  clear HW1 Hp2 Hr2. set (t1 := placed_task _ _ _ _ _ _ _) in *.
  eapply W_ext in HW2; [eapply assign_close; [exact Hok|exact Ht|exact Hst|exact HW2| | | | | | |exact H]|].
  - by destruct a.
  - by destruct a.
  - by destruct a.
  - by destruct a.
  - congruence.
  - by constructor; unfold worker_placed; fields; destruct a; cbn; try lia.
  - intros q. assert (status t1 = ASSIGNED) as -> by (by destruct a). unfold ts. rewrite Hst. status_weights.
    unfold shift, settled. destruct (q == project_id t); [|done]. by apply Usage.ext.
Qed.

(** ** Scheduling decisions *)
Lemma mark_unschedulable_preserves i reason db b db' :
  ok db -> mark_unschedulable i reason db = (inr b, db') -> ok db'.
Proof.
  intros Hok H. unfold mark_unschedulable in H. apply bind_ok in H as (? & ? & Hg & H). minv Hg.
  destruct (Db.tasks db !! i) as [t|] eqn:Ht; [|by minv H]. destruct (_ || _); [by minv H|].
  apply bind_ok in H as (? & db1 & Hw & H). apply ret_ok in H as [_ ->].
  apply when_ok in Hw as [[_ Hw]|(_ & _ & ->)]; [|done]. minv Hw. stored Hok Ht.
Qed.

Lemma preempt_victim_ok incoming w pid now t db u db' :
  ok db -> Db.tasks db !! id t = Some t -> status t ∈ VICTIM_STATUSES ->
  preempt_victim incoming w pid now t db = (inr u, db') -> ok db' /\ others (id t) db db'.
Proof.
  intros Hok Ht Hst H. unfold preempt_victim in H.
  assert (placed (status t) = true) as Hp by (unfold VICTIM_STATUSES in Hst; destruct (status t); set_solver).
  apply bind_ok in H as (? & ? & Hg & H). unfold ensure_transition in Hg. minv Hg.
  apply negb_false_iff in Hg.
  apply bind_ok in H as (? & db1 & H1 & H). apply bind_ok in H as (? & db2 & H2 & H).
  destruct (record_task_event_W H1 H2 (W_open _ _ _ Hok Ht)) as [HW _];
    [by tfields|by tfields|by tfields|tfields; lia|done|by tfields|].
  wgo H HW. unfold outbox_add in H. minv H.
  eapply close_same; [apply (W_outbox HW)|done|done|balanced|tfields..]; try done.
  - by rewrite (placed_not_waiting _ Hp).
  - set_solver.
Qed.

Lemma victim_prefix_spec w inc sel rest s :
  victim_prefix w inc sel rest = Some s -> exists l1 l2, rest = l1 ++ l2 /\ s = sel ++ l1.
Proof.
  revert sel. induction rest as [|t rest IH]; intros sel H; cbn in H; [done|].
  destruct (evaluate_snapshot _ _).
  - destruct (IH _ H) as (l1 & l2 & -> & ->). exists (t :: l1), l2. by rewrite <-app_assoc.
  - injection H as <-. by exists [t], rest.
Qed.

(** The selected victims are some of the rows of the query, each once. *)
Lemma feasible_sets_spec workers inc victims k w sel :
  (k, (w, sel)) ∈ feasible_sets workers inc victims ->
  (forall t, t ∈ sel -> t ∈ victims) /\ (NoDup (id <$> victims) -> NoDup (id <$> sel)).
Proof.
  intros H. unfold feasible_sets in H. apply list_elem_of_omap in H as (wid & _ & H).
  destruct (List.find _ _) as [ws|]; [|done].
  destruct (victim_prefix _ _ _ _) as [s|] eqn:E; [|done]. cbn in H. injection H as _ _ <-.
  apply victim_prefix_spec in E as (l1 & l2 & E & ->). cbn. split.
  - intros t Hin. assert (t ∈ l1 ++ l2) as Hin2 by (apply elem_of_app; by left).
    rewrite <-E in Hin2. by apply list_elem_of_In, List.filter_In in Hin2 as [?%list_elem_of_In _].
  - intros Hnd. apply (NoDup_filter_map id (fun t => worker_id t == Some wid)) in Hnd.
    rewrite E, fmap_app in Hnd. by apply NoDup_app in Hnd as [? _].
Qed.

Lemma preemption_victims_elem db locked workers m t :
  ok db -> t ∈ preemption_victims db locked workers m ->
  Db.tasks db !! id t = Some t /\ status t ∈ VICTIM_STATUSES.
Proof.
  intros Hok Ht. unfold preemption_victims in Ht.
  apply list_elem_of_In, List.filter_In in Ht as [Ht _].
  apply list_elem_of_In, elem_of_py_sort, list_elem_of_In, List.filter_In in Ht as [Ht Hp].
  apply list_elem_of_In, rows_elem in Ht as (k & Hk).
  destruct Hok as [[Kt _ _ _] _ _ _ _ _ _]. rewrite (Kt _ _ Hk). split; [done|].
  repeat (apply andb_true_iff in Hp as [Hp ?]). by apply inb_true.
Qed.

Lemma request_preemption_preserves pid locked i p ws m db r db' :
  ok db -> request_preemption pid locked i p ws m db = (inr r, db') -> ok db'.
Proof.
  intros Hok H. unfold request_preemption in H. apply bind_ok in H as (? & ? & Hg & H). minv Hg.
  destruct (Db.tasks db !! i) as [t|] eqn:Ht; [|by minv H].
  apply bind_ok in H as (? & ? & Hg & H). minv Hg.
  destruct (_ || _) eqn:Eq; [by minv H|]. bools. rename select (status t = QUEUED) into Hst.
  apply bind_ok in H as (? & ? & Hp & H). minv Hp.
  destruct (py_sort _ (List.filter _ _)); [|by minv H]. destruct (bool_decide (ws = [])); [by minv H|].
  apply bind_ok in H as (? & ? & Hv & H). minv Hv.
  set (victims := preemption_victims _ _ _ _) in H.
  destruct (py_sort fst _) as [|[k [w sel]] fs] eqn:Es; [by minv H|].
  assert ((k, (w, sel)) ∈ feasible_sets ws (task_snapshot t) victims) as Hin.
  { apply (elem_of_py_sort fst). rewrite Es. left. }
  apply feasible_sets_spec in Hin as [Hsel Hnd].
  assert (NoDup (id <$> victims)) as Hvnd.
  { apply NoDup_filter_map, NoDup_sort_map, NoDup_filter_map, rows_ids, Hok. }
  specialize (Hnd Hvnd).
  assert (forall x, x ∈ sel -> Db.tasks db !! id x = Some x /\ status x ∈ VICTIM_STATUSES) as Hrow.
  { intros x Hx. eapply preemption_victims_elem; [done|]. by apply Hsel. }
  assert (id t = i) as Hi by (destruct Hok as [[]]; eauto). subst i.
  apply bind_ok in H as (now & ? & Hn & H). minv Hn.
  apply bind_ok in H as ([] & db1 & Hf & H). rewrite for_each_foldM in Hf.
  assert (forall (x : Task.t) (a1 : ()) db1 (a2 : ()) db2, x ∈ sel -> ok db1 ->
    Db.tasks db1 !! id x = Some x ->
    preempt_victim (id t) (WorkerSnapshot.id w) pid (Db.clock db) x db1 = (inr a2, db2) ->
    ok db2 /\ others (id x) db1 db2) as Hbody.
  { intros x _ dba a2 dbb Hx Hoka Hta Hb. eapply preempt_victim_ok; [done|done| |done]. by apply Hrow. }
  destruct (rows_loop_ok (fun x => x) sel
    (fun _ => preempt_victim (id t) (WorkerSnapshot.id w) pid (Db.clock db)) tt db tt db1)
    as [Hok1 Hfr]; [exact Hbody|exact Hnd| |exact Hok|exact Hf|].
  { intros x Hx. by apply Hrow. }
  assert (Db.tasks db1 !! id t = Some t) as Ht1.
  { rewrite Hfr; [done|]. intros (x & E & Hx)%list_elem_of_fmap.
    destruct (Hrow x Hx) as [Hx1 Hx2]. rewrite <-E in Hx1.
    assert (x = t) as -> by congruence. rewrite Hst in Hx2. unfold VICTIM_STATUSES in Hx2. set_solver. }
  minv H. stored Hok1 Ht1.
Qed.

(** ** Worker operations *)

(** The capacity counters of [w] are the sums of worker [i]. *)
Definition counters_match (db : Db.t) (i : string) (w : Worker.t) : Prop :=
  Worker.running_tasks w = msum (fun _ => on_worker (fun _ => 1) i) (Db.reservations db) /\
  Worker.reserved_memory_mb w
    = msum (fun _ => on_worker ResourceReservation.memory_mb i) (Db.reservations db) /\
  Worker.reserved_gpus w
    = msum (fun _ => on_worker ResourceReservation.gpu_count i) (Db.reservations db).

Lemma put_worker_ok db w :
  ok db -> counters_match db (Worker.id w) w -> ok (db <| Db.workers ::= <[Worker.id w := w]> |>).
Proof.
  intros [[Kt Kw Ke Kr] Hq Hp [W1 W2] Hl He Hc] Hm. constructor; fields; try done.
  - constructor; try done. intros j x [[-> ->]|[? ?]]%lookup_insert_cases; eauto.
  - constructor.
    + intros j x [[-> ->]|[? ?]]%lookup_insert_cases; [done|eauto].
    + intros k r Hr Ha. apply lookup_insert_is_Some'. right. eauto.
Qed.

Lemma counters_row db i w : ok db -> Db.workers db !! i = Some w -> counters_match db (Worker.id w) w.
Proof.
  intros [[_ Kw _ _] _ _ [W1 _] _ _ _] Hw. rewrite (Kw _ _ Hw). unfold counters_match. eauto.
Qed.

(** A worker that is not registered has no active reservation. *)
Lemma counters_absent db i w :
  ok db -> Db.workers db !! i = None -> Worker.running_tasks w = 0 ->
  Worker.reserved_memory_mb w = 0 -> Worker.reserved_gpus w = 0 -> counters_match db i w.
Proof.
  intros [_ _ _ [_ W2] _ _ _] Hn E1 E2 E3.
  assert (forall f, msum (fun _ : N => on_worker f i) (Db.reservations db) = 0) as Hz.
  { intros f. rewrite (msum_ext _ (fun _ _ => 0)).
    - clear. generalize (Db.reservations db). intros m.
      induction m as [|k r m Hk IH] using map_ind; [apply msum_empty|].
      rewrite msum_insert_new by done. lia.
    - intros k r Hr. destruct (active_reservation r) eqn:Ha; [|by apply on_worker_inactive].
      rewrite on_worker_active by done. destruct (_ == i) eqn:E; [|done].
      rewrite eqb_true in E. destruct (W2 k r Hr Ha) as [x Hx]. congruence. }
  unfold counters_match. rewrite !Hz. done.
Qed.

Lemma register_preserves a db w db' : ok db -> register a db = (inr w, db') -> ok db'.
Proof.
  intros Hok H. unfold register in H. do 2 (apply bind_ok in H as (? & ? & Hg & H); minv Hg).
  destruct (Db.workers db !! Registration.worker_id a) as [w0|] eqn:E; minv H; apply put_worker_ok; try done.
  - by apply (counters_row db _ w0 Hok E).
  - by apply counters_absent.
Qed.

Lemma heartbeat_preserves i s db r db' : ok db -> heartbeat i s db = (inr r, db') -> ok db'.
Proof.
  intros Hok H. unfold heartbeat in H. apply bind_ok in H as (? & ? & Hg & H). minv Hg.
  destruct (Db.workers db !! i) as [w|] eqn:E; [|by minv H]. destruct (stale_session w s); minv H; [done|].
  apply put_worker_ok; [done|]. by apply (counters_row db _ w Hok E).
Qed.

Lemma drain_preserves i reason db r db' : ok db -> drain i reason db = (inr r, db') -> ok db'.
Proof.
  intros Hok H. unfold drain in H. apply bind_ok in H as (? & ? & Hg & H). minv Hg.
  destruct (Db.workers db !! i) as [w|] eqn:E; minv H; [|done].
  apply put_worker_ok; [done|]. by apply (counters_row db _ w Hok E).
Qed.

Lemma set_status_preserves i st s db r db' : ok db -> set_status i st s db = (inr r, db') -> ok db'.
Proof.
  intros Hok H. unfold set_status in H. apply bind_ok in H as (? & ? & Hg & H). minv Hg.
  destruct (Db.workers db !! i) as [w|] eqn:E; [|by minv H]. destruct (stale_session w s); minv H; [done|].
  apply put_worker_ok; [done|]. by apply (counters_row db _ w Hok E).
Qed.

Lemma mark_stale_offline_preserves x n locked db r db' :
  ok db -> mark_stale_offline x n locked db = (inr r, db') -> ok db'.
Proof.
  intros Hok H. unfold mark_stale_offline in H. do 4 (apply bind_ok in H as (? & ? & Hg & H); minv Hg; try clear Hg).
  set (l := match n with Some l => _ | None => _ end) in H.
  assert (forall w, w ∈ l -> exists i, Db.workers db !! i = Some w) as Hl.
  { intros w Hw. assert (exists l', w ∈ List.filter (fun w => negb (bool_decide (Worker.id w ∈ locked)))
      (py_sort (fun w => (Worker.last_heartbeat_at w, Worker.id w)) (List.filter l' (rows (Db.workers db)))))
      as (l' & Hw').
    { eexists. unfold l in Hw. destruct n; [|exact Hw]. by apply subseteq_take in Hw. }
    apply list_elem_of_In, List.filter_In in Hw' as [Hw' _].
    apply list_elem_of_In, elem_of_py_sort, list_elem_of_In, List.filter_In in Hw' as [Hw' _].
    by apply list_elem_of_In, rows_elem in Hw'. }
  clearbody l. apply bind_ok in H as (? & db1 & Hf & H). apply ret_ok in H as [_ ->].
  assert (ok db1 /\ Db.reservations db1 = Db.reservations db) as [? _]; [|done]. pattern db1.
  eapply (for_each_inv (fun s => ok s /\ Db.reservations s = Db.reservations db)); [|done|exact Hf].
  intros w s1 [] s2 Hw [Hs1 Er] Hb. minv Hb. split; [|done]. apply put_worker_ok; [done|].
  unfold counters_match. rewrite Er. destruct (Hl w Hw) as [i Hi].
  apply (counters_row db _ w Hok Hi).
Qed.

Lemma put_device_ok db d : ok db -> ok (db <| Db.gpu_devices ::= <[GPUDevice.id d := d]> |>).
Proof. apply devices_I. Qed.

Lemma inventory_device_db w now i x db d db' : inventory_device w now i x db = (inr d, db') -> db' = db.
Proof.
  unfold inventory_device, _inventory_integer, _inventory_names, optional_name. intros H. minv H.
  destruct (parse_vendor _); [|by minv H]. destruct (parse_kind _); [|by minv H]. by minv H.
Qed.

Lemma replace_gpu_inventory_preserves new w s ds db r db' :
  ok db -> replace_gpu_inventory new w s ds db = (inr r, db') -> ok db'.
Proof.
  intros Hok H. unfold replace_gpu_inventory in H. apply bind_ok in H as (? & ? & Hg & H). minv Hg.
  destruct (Db.workers db !! w) as [wk|] eqn:E; [|by minv H].
  do 3 (apply bind_ok in H as (? & ? & Hg & H); minv Hg; try clear Hg).
  apply bind_ok in H as (res & db1 & Hf & H).
  assert (ok db1 /\ Db.reservations db1 = Db.reservations db) as [Hok1 Er1].
  { pattern db1. eapply (foldM_inv (fun _ s => ok s /\ Db.reservations s = Db.reservations db));
      [|done|exact Hf].
    intros x a1 s1 a2 s2 _ [Hs1 Er] Hb. apply bind_ok in Hb as (d & s3 & ->%inventory_device_db & Hb).
    unfold put_device in Hb. minv Hb. split; [by apply put_device_ok|done]. }
  apply bind_ok in H as (? & db2 & Hf2 & H).
  assert (ok db2 /\ Db.reservations db2 = Db.reservations db) as [Hok2 Er2].
  { pattern db2. eapply (for_each_inv (fun s => ok s /\ Db.reservations s = Db.reservations db));
      [|done|exact Hf2].
    intros y s1 [] s2 _ [Hs1 Er] Hb. apply when_ok in Hb as [[_ Hb]|(_ & _ & ->)]; [|done].
    unfold put_device in Hb. minv Hb. split; [by apply put_device_ok|done]. }
  minv H. apply put_worker_ok; [done|]. unfold counters_match. rewrite Er2.
  apply (counters_row db _ wk Hok E).
Qed.
