(* ===== verification/ServiceFrames.v ===== *)
(** * Services leave the task side alone

    The operations on services, replicas, models and routes write their own
    tables, the outbox, and, through the service commitments, the usage row of
    the project.  None of them breaks the invariant of the task side: this is
    [frames] with the preorder "keeps [ok]". *)

From S2P Require Import Prelude PyString PyFloat Enums Store Frames Names Quotas Tasks Invariant Creation.
From S2P Require Import Services ModelRegistry Gateway ServiceControl.
From S2P Require Import VendorAdmission RuntimeProfiles AdmissionPlan Admission AdmissionFrames.

Definition keeps_ok (db db' : Db.t) : Prop := ok db -> ok db'.

#[export] Instance keeps_ok_preorder : PreOrder keeps_ok.
Proof. split; [intros db H; exact H|]. intros a b c Hab Hbc Ha. auto. Qed.

Ltac frame_ok := frame_by ltac:(intros ?Hok; by eapply I_tables; [..|eassumption]).

(** ** Quota rows *)
Lemma assert_frames R `{!PreOrder R} s : frames R (_assert_state_nonnegative s).
Proof. frame_by fail. Qed.
#[export] Hint Resolve assert_frames : frames.

(** An exception of the row lock changes nothing. *)
Lemma get_locked_err p db e db' : get_locked p db = (inl e, db') -> db' = db.
Proof.
  unfold get_locked, mbind, M_bind, gets, raise. destruct (Db.quotas db !! p), (Db.quota_states db !! p);
    try by intros [= _ <-].
  destruct (_assert_state_nonnegative _ _) as [[e'|u] db1] eqn:E.
  - intros [= _ <-]. pose proof (assert_frames eq t0 db) as H. by rewrite E in H.
  - apply assert_ok in E as (_ & _ & ->). unfold database_utcnow, gets.
    by destruct (_roll_daily_state _ _) as [? []].
Qed.

Lemma touch_err p s db e db' : _touch_state p s db = (inl e, db') -> db' = db.
Proof.
  unfold _touch_state. intros [H|(u & db1 & H & H')]%bind_err; [|done].
  pose proof (assert_frames eq s db) as E. by rewrite H in E.
Qed.

Lemma get_locked_keeps p : frames keeps_ok (get_locked p).
Proof.
  intros db Hok. destruct (get_locked p db) as [[e|r] db'] eqn:E; cbn.
  - by apply get_locked_err in E as ->.
  - by apply (get_locked_I _ _ _ _ _ _ Hok) in E.
Qed.
#[export] Hint Resolve get_locked_keeps : frames.

(** A database that is [ok] has well-formed usage rows, so initialisation fails
    only before it writes. *)
Lemma initialize_err p db e db' : ok db -> initialize p db = (inl e, db') -> db' = db.
Proof.
  intros [_ [Q1 _ _] _ _ _ _ _] E.
  unfold initialize, mbind, M_bind, database_utcnow, gets, raise_if, put_quota, put_quota_state, modify,
    mret, M_ret in E.
  destruct (negb _); [by injection E as _ <-|].
  destruct (Db.quotas db !! p) as [q|], (Db.quota_states db !! p) as [s|] eqn:Es; cbv beta iota in E;
    rewrite assert_run in E; try done; try apply default_state_wf; by eapply Q1.
Qed.

Lemma initialize_keeps p : frames keeps_ok (initialize p).
Proof.
  intros db Hok. destruct (initialize p db) as [[e|[q s]] db'] eqn:E; cbn.
  - by apply (initialize_err _ _ _ _ Hok) in E as ->.
  - by apply (initialize_ok _ _ _ _ _ Hok) in E as (? & _).
Qed.
#[export] Hint Resolve initialize_keeps : frames.

(** ** Admission *)
Lemma event_keeps db e : keeps_ok db (db <| Db.admission_events ::= fun l => l ++ [e] |>).
Proof. intros Hok. by eapply I_tables; [..|eassumption]. Qed.
Lemma locked_quota_keeps p : frames keeps_ok (locked_quota p).
Proof. frame_ok. Qed.
Lemma admit_batch_keeps c t r w : frames keeps_ok (admit_batch_task c t r w).
Proof. apply frames_admit_batch; [exact _|apply event_keeps]. Qed.
Lemma admit_service_keeps c p i l r mem d t : frames keeps_ok (admit_logical_model_service c p i l r mem d t).
Proof. apply frames_admit_service; [exact _|apply event_keeps|apply locked_quota_keeps]. Qed.
Lemma revalidate_keeps c s d : frames keeps_ok (revalidate_logical_model_service_scale c s d).
Proof. apply frames_revalidate; [exact _|apply event_keeps|apply locked_quota_keeps]. Qed.
#[export] Hint Resolve admit_batch_keeps admit_service_keeps revalidate_keeps : frames.

(** ** Methods whose last statement is their only write *)

(** An exception of [m] leaves the state alone. *)
Definition clean {A} (m : Sess A) : Prop := forall db e db', m db = (inl e, db') -> db' = db.

Lemma clean_ret {A} (a : A) : clean (mret a).
Proof. by intros db e db'. Qed.
Lemma clean_guard {A} b e (k : unit -> Sess A) : clean (k tt) -> clean (raise_if b e ≫= k).
Proof.
  intros Hk db e' db' [H|([] & db1 & H & H')]%bind_err.
  - unfold raise_if in H. destruct b; [by injection H as _ <-|done].
  - apply raise_if_ok in H as (_ & _ & ->). by eapply Hk.
Qed.
Lemma clean_touch p s : clean (_touch_state p s).
Proof. intros db e db'. apply touch_err. Qed.

(** Guards, then a write that does not fail after it. *)
Ltac clean :=
  unfold _check_limit, _check_cost; cbv zeta;
  lazymatch goal with
  | |- clean (raise_if _ _ ≫= _) => apply clean_guard; clean
  | |- clean (mret _) => apply clean_ret
  | |- clean (_touch_state _ _) => apply clean_touch
  | |- clean (match ?x with _ => _ end) => destruct x; clean
  end.

(** A lock, then clean statements: what holds of successful runs holds of all. *)
Lemma lock_then R `{!PreOrder R} {A B} (lock : Sess B) (k : B -> Sess A) :
  frames R lock -> (forall b, clean (k b)) ->
  (forall db a db', (lock ≫= k) db = (inr a, db') -> R db db') -> frames R (lock ≫= k).
Proof.
  intros Hl Hk Hok db. destruct ((lock ≫= k) db) as [[e|a] db'] eqn:E; cbn; [|by eapply Hok].
  apply bind_err in E as [E|(b & db1 & E1 & E)]; [by eapply frames_run|].
  apply Hk in E as ->. by eapply frames_run.
Qed.

Lemma guard_then R `{!PreOrder R} {A} b e (k : unit -> Sess A) :
  (b = false -> frames R (k tt)) -> frames R (raise_if b e ≫= k).
Proof.
  intros Hk db. unfold raise_if, mbind, M_bind. destruct b; cbn; [done|]. by apply Hk.
Qed.

Lemma replace_service_commitment_keeps p cur des cpu mem gpu v :
  frames keeps_ok (replace_service_commitment p cur des cpu mem gpu v).
Proof.
  unfold replace_service_commitment, _validate_service_commitment.
  apply guard_then; [exact _|]. intros Hv. apply lock_then; [exact _|frame_ok| |].
  - intros [q s]. clean.
  - intros db a db' H Hok. eapply (replace_service_commitment_preserves p cur des cpu mem gpu v); [exact Hok|].
    unfold replace_service_commitment, _validate_service_commitment. rewrite Hv. exact H.
Qed.
#[export] Hint Resolve replace_service_commitment_keeps : frames.

(** ** Loops *)
Lemma try_candidates_frames R `{!PreOrder R} p ex now b off sk l :
  (forall s, frames R (admit_circuit p now s)) ->
  (forall i, frames R (ServiceRepository.choose_healthy_endpoint i p)) ->
  (forall i n, frames R (_advance_routing_cursor i n)) ->
  frames R (try_candidates p ex now b off sk l).
Proof.
  intros H1 H2 H3. revert off sk. induction l as [|s l IH]; intros off sk; cbn [try_candidates]; frame_by fail.
Qed.

Lemma try_candidates_keeps p ex now b off sk l : frames keeps_ok (try_candidates p ex now b off sk l).
Proof. apply try_candidates_frames; [exact _|frame_ok..]. Qed.
#[export] Hint Resolve try_candidates_keeps : frames.
