(* ===== verification/System.v ===== *)
(** * The system: committed operations, reachable databases

    [Op] lists the transactions of the task, scheduling, quota, reservation,
    worker, job group, service, model registry and gateway repositories and of
    the background loops, with their arguments; [commit] runs one of them
    as the transaction it is, rolling back on an exception.  The reachable
    databases are those obtained from an empty one by committed operations,
    new projects and the passage of time. *)

From S2P Require Import Prelude PyFloat PyString Enums Policies Store Quotas Reservations Tasks.
From S2P Require Import Scheduling Workers Invariant Transaction Lifecycle Recovery Creation Placement Dag.
From S2P Require Import Frames Services ModelRegistry Gateway ServiceControl ServiceFrames.
From S2P Require Import VendorAdmission RuntimeProfiles AdmissionPlan Admission.

Import Task StateMachine.

Inductive Op :=
| OpCreate (task_id : N) (a : Submission.t)
| OpResolve (limit : nat) (locked : gset N)
| OpClaim (eid rid : N) (locked_devices : gset N) (task_id : N) (worker_id : string)
    (lease_seconds : float) (session : option N) (prices : Prices.t)
| OpPlace (eid rid task_id : N) (worker_id : string) (devices : list N) (lease_seconds : float)
    (prices : Prices.t) (admission : option BatchAdmissionSnapshot.t) (catalog : option Catalog)
| OpTake (locked : gset N) (worker_id : string) (session : N) (lease_seconds : float)
| OpPulling (task_id : N) (worker_id : string) (eid : N) (lease_seconds : float)
    (session : option N) (grace : float)
| OpStarting (task_id : N) (worker_id : string) (eid : N) (lease_seconds : float)
    (session : option N) (grace : float)
| OpRunning (task_id : N) (worker_id : string) (eid : N) (lease_seconds : float)
    (session : option N) (grace : float)
| OpHandle (task_id : N) (worker_id : string) (eid : N) (h : RuntimeReport.t)
    (session : option N) (grace : float)
| OpCursor (task_id : N) (worker_id : string) (eid : N) (cursor : Z)
    (resource_name resource_uid spec_hash : string) (session : N)
| OpHandoff (task_id : N) (worker_id : string) (eid session : N) (grace : Z)
| OpRenew (task_id : N) (worker_id : string) (eid : N) (lease_seconds : float)
    (session : option N) (grace : float)
| OpLog (task_id : N) (eid : option N) (stream : LogStream) (content : string)
    (worker_id : option string) (session : option N)
| OpObserve (eid : N) (vendor : AcceleratorVendor) (device_ids : list string) (observed_at : Z)
| OpFinish (task_id : N) (worker_id : string) (eid : N) (exit_code : option Z)
    (reported : Outcome.t) (backoff cpu_price gpu_price : float) (session : option N)
| OpCancel (task_id : N)
| OpCancelFor (project_id task_id : N)
| OpRetries (limit : nat) (locked : gset N)
| OpRecover (limit : nat) (max_recovery_attempts : Z) (grace : float) (locked : gset N)
| OpTransfer (worker_id : string) (session : N) (lease_seconds : float)
    (observations : list Observation.t) (grace : float)
| OpUnschedulable (task_id : N) (reason : string)
| OpPreempt (plan_id : N -> N) (locked : gset N) (candidate_id : N) (priority : Z)
    (workers : list WorkerSnapshot.t) (min_priority_delta : Z)
| OpAttempt (a : PlacementAttempt.t)
| OpInitialize (project_id : N)
| OpLimits (project_id : N) (values : Quota)
| OpRegister (a : Registration.t)
| OpHeartbeat (worker_id : string) (session : option N)
| OpDrain (worker_id : string) (reason : string)
| OpStatus (worker_id : string) (s : WorkerStatus) (session : option N)
| OpOffline (timeout : float) (limit : option Z) (locked : gset string)
| OpInventory (new_id : nat -> N) (worker_id : string) (session : N)
    (devices : list InventoryItem.t)
| OpGroup (group_id project_id : N) (name : string) (retry_policy : option string)
    (dependencies : list DependencySpec.t)
| OpDependency (project_id group_id : N) (dependency : DependencySpec.t)
| OpService (service_id : N) (a : ServiceSpec.t)
| OpScale (service_id project_id : N) (desired : Z) (nodes : option (list string))
| OpReconcile (c : ServiceReconciler.Config.t) (new_id : N -> Z -> N) (locked_leases locked : gset N)
| OpReconcileOne (c : ServiceReconciler.Config.t) (new_id : Z -> N) (service_id : N) (project_id : option N)
| OpBind (replica_id : N) (generation : Z) (worker_id : string) (session : option N) (eid : N) (lease : Z)
| OpReplicaRenew (replica_id : N) (generation : Z) (eid : N) (lease : Z) (worker_id : option string)
    (session : option N)
| OpNode (replica_id : N) (generation : Z) (eid : N) (node_name worker_id : string) (session : option N)
| OpQuarantine (replica_id : N) (generation : Z) (eid : N) (error_code error_message worker_id : string)
    (session : option N)
| OpReplicaLoading (replica_id : N) (generation : Z) (eid : N) (url : string) (worker_id : option string)
    (session : option N)
| OpReplicaRunning (replica_id : N) (generation : Z) (eid : N) (url : string)
    (model_revision image_digest : option string) (worker_id : option string) (session : option N)
| OpHealth (replica_id : N) (generation : Z) (eid : N) (health : ReplicaHealth.t)
    (error_message : option string) (failure_threshold : Z) (token : option N)
    (worker_id : option string) (session : option N)
| OpReplicaTerminal (replica_id : N) (generation : Z) (eid : N) (s : ReplicaStatus.t)
    (error_code error_message : option string) (worker_id : option string) (session : option N)
| OpEndpoint (service_id project_id : N)
| OpEndpointRelease (replica_id : N) (generation : Z) (eid : N)
| OpModel (model_id project_id : N) (name public_name : string) (description : option string)
    (metadata : list (string * Json)) (user : option N) (policy : GatewayRoutingPolicy.t)
| OpModelPolicy (project_id model_id : N) (policy : GatewayRoutingPolicy.t)
| OpModelStatus (project_id model_id : N) (s : ModelAvailabilityStatus.t) (reason : string) (user : option N)
| OpModelDelete (referenced : gset N) (project_id model_id : N)
| OpVariant (variant_id project_id model_id : N) (a : VariantSpec.t)
| OpVariantStatus (project_id model_id variant_id : N) (s : ModelAvailabilityStatus.t) (reason : string)
| OpVariantDelete (referenced : gset N) (project_id model_id variant_id : N)
| OpRoute (project_id : N) (public_model : string) (excluded : list AcceleratorVendor)
| OpOutcome (circuit_id : N) (route : GatewayRoute.t) (project_id : N) (success : bool)
    (error_code : option string) (failure_threshold cooldown_seconds : Z)
| OpFallback (project_id request_id : N) (from_route to_route : GatewayRoute.t) (reason : string)
| OpProbes (c : ServiceHealthController.Config.t) (token : N -> N) (host_now : Z) (locked : gset N)
| OpAutoscale (c : ServiceAutoscaler.Config.t) (metrics : N -> option ServiceLoad.t) (host_now : Z)
    (locked_models locked_services : gset N) (catalog : option Catalog)
    (candidate : ServiceAutoscaler.Candidate)
| OpAdmitService (catalog : Catalog) (project_id service_id logical_model_id : N) (request : AdmissionRequest.t)
    (minimum_memory_mb desired_replicas : Z) (requested_dtype : string)
| OpRevalidate (catalog : Catalog) (service_id : N) (desired_replicas : Z)
| OpAdmitBatch (catalog : Catalog) (task_id : N) (request : AdmissionRequest.t)
    (allowed_worker_ids : option (gset string)).

Definition ignore {A} (m : Sess A) : Sess unit := _ ← m; mret tt.

Definition exec (op : Op) : Sess unit :=
  match op with
  | OpCreate i a => ignore (create_queued i a)
  | OpResolve n l => ignore (resolve_dependency_readiness n l)
  | OpClaim e r ld i w l s p => ignore (claim e r ld i w l s p)
  | OpPlace e r i w ds l p a c => ignore (place e r i w ds l p a c)
  | OpTake k w s l => ignore (take_global_assignment k w s l)
  | OpPulling i w e l s g => ignore (mark_pulling i w e l s g)
  | OpStarting i w e l s g => ignore (mark_starting i w e l s g)
  | OpRunning i w e l s g => ignore (mark_running i w e l s g)
  | OpHandle i w e h s g => ignore (record_runtime_handle i w e h s g)
  | OpCursor i w e c n u h s => ignore (advance_runtime_log_cursor i w e c n u h s)
  | OpHandoff i w e s g => ignore (preserve_kubernetes_handoff_lease i w e s g)
  | OpRenew i w e l s g => ignore (renew_lease i w e l s g)
  | OpLog i e st c w s => ignore (append_log i e st c w s)
  | OpObserve e v ids at_ => ignore (record_observed_allocation e v ids at_)
  | OpFinish i w e x o b c g s => ignore (finish_execution i w e x o b c g s)
  | OpCancel i => ignore (cancel i)
  | OpCancelFor p i => ignore (cancel_for_project p i)
  | OpRetries n l => ignore (release_due_retries n l)
  | OpRecover n m g l => ignore (recover_expired n m g l)
  | OpTransfer w s l os g => ignore (transfer_recoverable_kubernetes_executions w s l os g)
  | OpUnschedulable i r => ignore (mark_unschedulable i r)
  | OpPreempt f l c p ws m => ignore (request_preemption f l c p ws m)
  | OpAttempt a => record_attempt a
  | OpInitialize p => ignore (initialize p)
  | OpLimits p v => ignore (replace p v)
  | OpRegister a => ignore (register a)
  | OpHeartbeat w s => ignore (heartbeat w s)
  | OpDrain w r => ignore (drain w r)
  | OpStatus w st s => ignore (set_status w st s)
  | OpOffline x n l => ignore (mark_stale_offline x n l)
  | OpInventory f w s ds => ignore (replace_gpu_inventory f w s ds)
  | OpGroup g p n r ds => ignore (create_group g p n r ds)
  | OpDependency p g d => ignore (add_dependency p g d)
  | OpService i a => ignore (ServiceRepository.create i a)
  | OpScale i p n ns => ignore (ServiceRepository.set_desired_replicas i p n ns)
  | OpReconcile c f l1 l2 => ignore (ServiceReconciler.run_once c f l1 l2)
  | OpReconcileOne c f i p => ignore (ServiceReconciler.reconcile_service c f i p)
  | OpBind i g w s e l => ignore (ServiceRepository.bind_replica_execution i g w s e l)
  | OpReplicaRenew i g e l w s => ignore (ServiceRepository.renew_replica_lease i g e l w s)
  | OpNode i g e n w s => ignore (ServiceRepository.record_replica_assignment i g e n w s)
  | OpQuarantine i g e c m w s => ignore (ServiceRepository.quarantine_replica_runtime i g e c m w s)
  | OpReplicaLoading i g e u w s => ignore (ServiceRepository.mark_replica_loading i g e u w s)
  | OpReplicaRunning i g e u r d w s => ignore (ServiceRepository.mark_replica_running i g e u r d w s)
  | OpHealth i g e h m t k w s => ignore (ServiceRepository.record_replica_health i g e h m t k w s)
  | OpReplicaTerminal i g e st c m w s => ignore (ServiceRepository.mark_replica_terminal i g e st c m w s)
  | OpEndpoint i p => ignore (ServiceRepository.choose_healthy_endpoint i p)
  | OpEndpointRelease i g e => ignore (ServiceRepository.release_endpoint_request i g e)
  | OpModel i p n pn d m u r => ignore (LogicalModelRepository.create i p n pn d m u r)
  | OpModelPolicy p i r => ignore (LogicalModelRepository.set_routing_policy p i r)
  | OpModelStatus p i s r u => ignore (LogicalModelRepository.set_status p i s r u)
  | OpModelDelete x p i => ignore (LogicalModelRepository.delete x p i)
  | OpVariant v p i a => ignore (ModelVariantRepository.create v p i a)
  | OpVariantStatus p i v s r => ignore (ModelVariantRepository.set_status p i v s r)
  | OpVariantDelete x p i v => ignore (ModelVariantRepository.delete x p i v)
  | OpRoute p n x => ignore (GatewayRoutingRepository.choose_route p n x)
  | OpOutcome c r p s e t d => GatewayRoutingRepository.record_outcome c r p s e t d
  | OpFallback p q a b r => GatewayRoutingRepository.record_fallback p q a b r
  | OpProbes c t h l => ignore (ServiceHealthController._claim_probes c t h l)
  | OpAutoscale c m h lm ls d k =>
      ignore (ServiceAutoscaler.examine c m h lm ls d k)
  | OpAdmitService c p i l r mem d t => ignore (admit_logical_model_service c p i l r mem d t)
  | OpRevalidate c i d =>
      service ← gets (fun db => Db.services db !! i);
      match service with
      | Some service => ignore (revalidate_logical_model_service_scale c service d)
      | None => mret tt
      end
  | OpAdmitBatch c i r w =>
      task ← get_task i;
      match task with Some task => ignore (admit_batch_task c task r w) | None => mret tt end
  end.

(** [async with session.begin()] around one operation. *)
Definition commit (op : Op) (db : Db.t) : Db.t := (atomically (exec op) db).2.

(** What callers guarantee: the executor reports final statuses only
    ([worker/executor.py]: SUCCEEDED, FAILED, CANCELLED, TIMED_OUT). *)
Definition well_called (op : Op) : bool :=
  match op with
  | OpFinish _ _ _ _ o _ _ _ _ => inb (Outcome.target o) [SUCCEEDED; FAILED; CANCELLED; TIMED_OUT]
  | _ => true
  end.

Inductive sys_step : Db.t -> Db.t -> Prop :=
| step_commit op db : well_called op = true -> sys_step db (commit op db)
| step_time db now : Db.clock db <= now -> sys_step db (db <| Db.clock := now |>)
| step_project db p active : sys_step db (db <| Db.projects ::= <[p := active]> |>).

Definition reachable (db : Db.t) : Prop := exists now, rtc sys_step (Db.empty now) db.

(** ** The invariant holds in every reachable database *)
Lemma ignore_ok {A} (m : Sess A) db u db' : ignore m db = (inr u, db') -> exists a, m db = (inr a, db').
Proof. unfold ignore. intros (a & db1 & Hm & H)%bind_ok. apply ret_ok in H as [_ ->]. eauto. Qed.

(** What an operation promises the system: if it returns, it has kept the
    invariant.  The instances are the results of the component files. *)
Class Preserves {A} (m : Sess A) : Prop :=
  preserves : forall db a db', ok db -> m db = (inr a, db') -> ok db'.

#[export] Hint Opaque ignore create_queued resolve_dependency_readiness claim place take_global_assignment mark_pulling mark_starting mark_running record_runtime_handle advance_runtime_log_cursor preserve_kubernetes_handoff_lease renew_lease append_log record_observed_allocation cancel cancel_for_project release_due_retries recover_expired transfer_recoverable_kubernetes_executions mark_unschedulable request_preemption replace register heartbeat drain set_status mark_stale_offline replace_gpu_inventory initialize record_attempt create_group add_dependency
  : typeclass_instances.

#[export] Instance ignore_P {A} (m : Sess A) : Preserves m -> Preserves (ignore m).
Proof. intros Hm db u db' Hok (a & H)%ignore_ok. by eapply Hm. Qed.
#[export] Instance create_queued_P i a : Preserves (create_queued i a) := create_queued_preserves i a.
#[export] Instance resolve_dependency_readiness_P n l : Preserves (resolve_dependency_readiness n l) := resolve_dependency_readiness_preserves n l.
#[export] Instance claim_P e r ld i w l s p : Preserves (claim e r ld i w l s p) := claim_preserves e r ld i w l s p.
#[export] Instance place_P e r i w ds l p a c : Preserves (place e r i w ds l p a c) := place_preserves e r i w ds l p a c.
#[export] Instance take_global_assignment_P k w s l : Preserves (take_global_assignment k w s l) := take_global_assignment_preserves k w s l.
#[export] Instance mark_pulling_P i w e l s g : Preserves (mark_pulling i w e l s g) := mark_pulling_preserves i w e l s g.
#[export] Instance mark_starting_P i w e l s g : Preserves (mark_starting i w e l s g) := mark_starting_preserves i w e l s g.
#[export] Instance mark_running_P i w e l s g : Preserves (mark_running i w e l s g) := mark_running_preserves i w e l s g.
#[export] Instance record_runtime_handle_P i w e h s g : Preserves (record_runtime_handle i w e h s g) := record_runtime_handle_preserves i w e h s g.
#[export] Instance advance_runtime_log_cursor_P i w e c n u h s : Preserves (advance_runtime_log_cursor i w e c n u h s) := advance_runtime_log_cursor_preserves i w e c n u h s.
#[export] Instance preserve_kubernetes_handoff_lease_P i w e s g : Preserves (preserve_kubernetes_handoff_lease i w e s g) := preserve_kubernetes_handoff_lease_preserves i w e s g.
#[export] Instance renew_lease_P i w e l s g : Preserves (renew_lease i w e l s g) := renew_lease_preserves i w e l s g.
#[export] Instance append_log_P i e st c w s : Preserves (append_log i e st c w s) := append_log_preserves i e st c w s.
#[export] Instance record_observed_allocation_P e v ids at_ : Preserves (record_observed_allocation e v ids at_) := record_observed_allocation_preserves e v ids at_.
#[export] Instance cancel_P i : Preserves (cancel i) := cancel_preserves i.
#[export] Instance cancel_for_project_P p i : Preserves (cancel_for_project p i) := cancel_for_project_preserves p i.
#[export] Instance release_due_retries_P n l : Preserves (release_due_retries n l) := release_due_retries_preserves n l.
#[export] Instance recover_expired_P n m g l : Preserves (recover_expired n m g l) := recover_expired_preserves n m g l.
#[export] Instance transfer_recoverable_kubernetes_executions_P w s l os g : Preserves (transfer_recoverable_kubernetes_executions w s l os g) := transfer_preserves w s l os g.
#[export] Instance mark_unschedulable_P i r : Preserves (mark_unschedulable i r) := mark_unschedulable_preserves i r.
#[export] Instance request_preemption_P f l c p ws m : Preserves (request_preemption f l c p ws m) := request_preemption_preserves f l c p ws m.
#[export] Instance replace_P p v : Preserves (replace p v) := replace_preserves p v.
#[export] Instance register_P a : Preserves (register a) := register_preserves a.
#[export] Instance heartbeat_P w s : Preserves (heartbeat w s) := heartbeat_preserves w s.
#[export] Instance drain_P w r : Preserves (drain w r) := drain_preserves w r.
#[export] Instance set_status_P w st s : Preserves (set_status w st s) := set_status_preserves w st s.
#[export] Instance mark_stale_offline_P x n l : Preserves (mark_stale_offline x n l) := mark_stale_offline_preserves x n l.
#[export] Instance replace_gpu_inventory_P f w s ds : Preserves (replace_gpu_inventory f w s ds) := replace_gpu_inventory_preserves f w s ds.
#[export] Instance create_group_P g p n r ds : Preserves (create_group g p n r ds) := create_group_preserves g p n r ds.
#[export] Instance add_dependency_P p g d : Preserves (add_dependency p g d) := add_dependency_preserves p g d.
#[export] Instance record_attempt_P a : Preserves (record_attempt a).
Proof. intros db u db' Hok H. unfold record_attempt in H. minv H. by apply attempts_I. Qed.
#[export] Instance initialize_P p : Preserves (initialize p).
Proof. intros db [q s] db' Hok H. by apply (initialize_ok _ _ _ _ _ Hok) in H as (? & _). Qed.

Lemma frames_preserves {A} (m : Sess A) : frames keeps_ok m -> Preserves m.
Proof. intros Hm db a db' Hok E. exact (frames_run keeps_ok m db _ db' Hm E Hok). Qed.

(** The operations on services, models and routes. *)
Definition service_side (op : Op) : bool :=
  match op with
  | OpService _ _ | OpScale _ _ _ _ | OpReconcile _ _ _ _ | OpReconcileOne _ _ _ _
  | OpBind _ _ _ _ _ _ | OpReplicaRenew _ _ _ _ _ _ | OpNode _ _ _ _ _ _ | OpQuarantine _ _ _ _ _ _ _
  | OpReplicaLoading _ _ _ _ _ _ | OpReplicaRunning _ _ _ _ _ _ _ _ | OpHealth _ _ _ _ _ _ _ _ _
  | OpReplicaTerminal _ _ _ _ _ _ _ _ | OpEndpoint _ _ | OpEndpointRelease _ _ _
  | OpModel _ _ _ _ _ _ _ _ | OpModelPolicy _ _ _ | OpModelStatus _ _ _ _ _ | OpModelDelete _ _ _
  | OpVariant _ _ _ _ | OpVariantStatus _ _ _ _ _ | OpVariantDelete _ _ _ _
  | OpRoute _ _ _ | OpOutcome _ _ _ _ _ _ _ | OpFallback _ _ _ _ _ | OpProbes _ _ _ _
  | OpAutoscale _ _ _ _ _ _ _ | OpAdmitService _ _ _ _ _ _ _ _ | OpRevalidate _ _ _ | OpAdmitBatch _ _ _ _ => true
  | _ => false
  end.

Lemma service_side_keeps op : service_side op = true -> frames keeps_ok (exec op).
Proof.
  intros Hs. destruct op as []; try discriminate Hs; clear Hs; cbn [exec]; unfold ignore; frame_ok.
Qed.

Lemma exec_preserves op : well_called op = true -> Preserves (exec op).
Proof.
  intros Hc. destruct (service_side op) eqn:Hs; [by apply frames_preserves, service_side_keeps|].
  destruct op; try discriminate Hs; cbn [exec]; try apply _.
  apply ignore_P. intros db r db' Hok H. eapply finish_execution_preserves; [|exact Hok|exact H].
  apply inb_true in Hc. by destruct (Outcome.target reported); set_solver.
Qed.

Lemma commit_preserves op db : well_called op = true -> ok db -> ok (commit op db).
Proof.
  intros Hc Hok. unfold commit. destruct (atomically (exec op) db) as [[e|u] db'] eqn:E; cbn.
  - by apply atomically_err in E as ->.
  - rewrite atomically_ok in E. by apply (exec_preserves op Hc db u db').
Qed.

Lemma empty_ok now : ok (Db.empty now).
Proof.
  constructor; lazymatch goal with |- cancel_ok _ _ => unfold cancel_ok | _ => constructor end;
    unfold Db.empty; cbn; intros;
    try match goal with
    | H : ∅ !! _ = Some _ |- _ => by rewrite lookup_empty in H
    | H : is_Some (∅ !! _) |- _ => rewrite lookup_empty in H; by destruct H
    | H : _ ∈ [] |- _ => by apply not_elem_of_nil in H
    | |- NoDup [] => constructor
    end.
Qed.

Lemma sys_step_ok db db' : sys_step db db' -> ok db -> ok db'.
Proof. 
  intros [op db0 Hc|db0 now _|db0 p a] Hok; [by apply commit_preserves|by apply (I_tables _ _ db0)..].
 Qed.

Lemma reachable_ok db : reachable db -> ok db.
Proof.
  intros [now H]. assert (ok (Db.empty now)) as Hok by apply empty_ok. revert Hok.
  induction H as [|a b c Hs _ IH]; [done|]. intros Ha. apply IH. by eapply sys_step_ok.
Qed.

(** ** What holds in every reachable database *)
Lemma replay_path a l b : replay (Some a) l = Some (Some b) -> path a b.
Proof.
  revert a. induction l as [|e l IH]; intros a H; cbn in H.
  - injection H as ->. constructor.
  - destruct (_ && _) eqn:E; [|done]. apply andb_true_iff in E as [_ E].
    eapply rtc_l; [exact E|]. by apply IH.
Qed.

Lemma replay_from_none l s : replay None l = Some (Some s) -> path PENDING s.
Proof.
  destruct l as [|e l]; cbn; [done|]. destruct (_ && _) eqn:E; [|done].
  apply andb_true_iff in E as [_ E]. rewrite eqb_true in E. rewrite E. apply replay_path.
Qed.

Lemma checked_amounts r :
  reservation_checks r = true ->
  0 < ResourceReservation.cpu_millicores r /\ 0 < ResourceReservation.memory_mb r /\
  0 <= ResourceReservation.gpu_count r.
Proof.
  unfold reservation_checks. intros H. repeat (apply andb_true_iff in H as [H ?]). lia.
Qed.

(** C1: the quota counters are views of the rows.  In every reachable database
    the usage row of a project is well formed (no counter is negative) and
    its task counters are exactly the sums over the rows: queued tasks are the
    waiting tasks of the project; running tasks and reserved CPU, memory and
    accelerators per vendor are the totals of its active reservations.  No
    sequence of submissions, claims, completions, cancellations, retries,
    preemptions, recoveries and failures leaks or double-counts quota. *)
Theorem quota_counters_are_views db p s
    (Hr : reachable db) (Hs : Db.quota_states db !! p = Some s) :
  state_wf s /\ usage s = usage_of (Db.tasks db) (Db.reservations db) p.
Proof.
  destruct (I_quota _ _ _ (reachable_ok db Hr)) as [Q _ _]. destruct (Q p s Hs) as [Hw Hu].
  split; [done|]. rewrite Hu. apply Usage.ext; cbn; lia.
Qed.

(** C2: the capacity counters of a worker are the totals of the active
    reservations placed on it, in every reachable database; in particular
    they never become negative. *)
Theorem worker_counters_are_views db i w
    (Hr : reachable db) (Hw : Db.workers db !! i = Some w) :
  Worker.running_tasks w = msum (fun _ => on_worker (fun _ => 1) i) (Db.reservations db) /\
  Worker.reserved_memory_mb w
    = msum (fun _ => on_worker ResourceReservation.memory_mb i) (Db.reservations db) /\
  Worker.reserved_gpus w
    = msum (fun _ => on_worker ResourceReservation.gpu_count i) (Db.reservations db) /\
  0 <= Worker.running_tasks w /\ 0 <= Worker.reserved_memory_mb w /\ 0 <= Worker.reserved_gpus w.
Proof.
  destruct (reachable_ok db Hr) as [_ _ [_ _ _ _ P5 _] [W1 _] _ _ _].
  destruct (W1 i w Hw) as (E1 & E2 & E3). split_and!; try done; rewrite ?E1, ?E2, ?E3;
    apply msum_nonneg; intros k r Hk; destruct (checked_amounts r (P5 k r Hk)) as (? & ? & ?);
    unfold on_worker; case_match; lia.
Qed.

(** C3: placement and reservation determine each other.  In every reachable
    database a task is in a status of an execution exactly if it has an
    active reservation; that reservation is its only one and carries the
    task's current execution, worker and project. *)
Theorem placed_iff_reserved db i t (Hr : reachable db) (Ht : Db.tasks db !! i = Some t) :
  placed (status t) = true <->
  exists k r, Db.reservations db !! k = Some r /\ active_reservation r = true /\
    ResourceReservation.task_id r = i /\ execution_id t = Some (ResourceReservation.execution_id r) /\
    worker_id t = Some (ResourceReservation.worker_id r) /\
    project_id t = ResourceReservation.project_id r /\
    forall k' r', Db.reservations db !! k' = Some r' -> active_reservation r' = true ->
      ResourceReservation.task_id r' = i -> k' = k.
Proof.
  pose proof (reachable_ok db Hr) as Hok.
  assert (id t = i) as Hi by (destruct Hok as [[]]; eauto).
  destruct (I_task_ok _ _ _ _ Hok Ht) as [_ O2 _ _]. rewrite Hi in O2. split.
  - intros Hp. destruct (owner_of _ _ _ Hok Ht Hp) as (e & He & k & r & Hk & Ha & E1 & E2 & Hu).
    destruct (O2 k r Hk Ha E1) as (_ & H1 & H2 & H3). exists k, r. split_and!; eauto.
  - intros (k & r & Hk & Ha & E1 & _). by destruct (O2 k r Hk Ha E1).
Qed.

(** C4: a device has one owner.  In every reachable database two active
    bindings of the same device are the same binding, and the owner is an
    active reservation of a task that is in a status of an execution. *)
Theorem device_has_one_owner db r r' d l l' (Hr : reachable db)
    (Hl : Db.links db !! (r, d) = Some l) (Ha : active_link l = true)
    (Hl' : Db.links db !! (r', d) = Some l') (Ha' : active_link l' = true) :
  r' = r /\ exists x t, Db.reservations db !! r = Some x /\ active_reservation x = true /\
    Db.tasks db !! ResourceReservation.task_id x = Some t /\ placed (status t) = true /\
    execution_id t = Some (ResourceReservation.execution_id x).
Proof.
  destruct (reachable_ok db Hr) as [_ _ [P1 _ _ _ _ _] _ [L1 L2] _ _]. split.
  - assert ((r', d) = (r, d)) as E; [|by injection E]. by eapply (L2 (r', d) (r, d)).
  - destruct (L1 _ _ Hl Ha) as (x & Hx & Hxa). cbn in Hx.
    destruct (P1 r x Hx Hxa) as (t & Ht & ? & ? & _); [done|]. exists x, t. done.
Qed.

(** C5: the event log is the history.  In every reachable database the events
    of a task, in order, start at its creation, chain from each status to the
    next by transitions the state machine allows, and end in its current
    status; no two events of a task share a sequence number. *)
Theorem event_log_is_history db i t (Hr : reachable db) (Ht : Db.tasks db !! i = Some t) :
  replay None (events_of (Db.events db) i) = Some (Some (status t)) /\ path PENDING (status t) /\
  NoDup ((fun e => (TaskEvent.task_id e, TaskEvent.sequence e)) <$> Db.events db).
Proof.
  destruct (I_events _ _ _ (reachable_ok db Hr)) as [E1 _ E3 _ _ _]. specialize (E1 i t Ht).
  split_and!; [done|by eapply replay_from_none|done].
Qed.

(** C6: the database stays well typed.  In every reachable database each row is
    stored under its primary key; every task's project has its quota rows;
    every reservation satisfies the table's checks and refers to an execution
    of its own, an active one also to an existing task and worker; a task that
    waits holds no execution and no worker; and events and logs belong to
    existing tasks, with unique sequence numbers up to the task's counters. *)
Theorem database_well_formed db (Hr : reachable db) :
  (forall i t, Db.tasks db !! i = Some t -> id t = i /\ 1 <= version t /\
     is_Some (Db.quota_states db !! project_id t) /\ is_Some (Db.quotas db !! project_id t) /\
     (waiting (status t) = true -> execution_id t = None /\ worker_id t = None)) /\
  (forall i w, Db.workers db !! i = Some w -> Worker.id w = i) /\
  (forall i e, Db.executions db !! i = Some e -> TaskExecution.id e = i) /\
  (forall i r, Db.reservations db !! i = Some r ->
     ResourceReservation.id r = i /\ reservation_checks r = true /\
     is_Some (Db.executions db !! ResourceReservation.execution_id r) /\
     (forall j r', Db.reservations db !! j = Some r' ->
        ResourceReservation.execution_id r' = ResourceReservation.execution_id r -> j = i) /\
     (active_reservation r = true -> is_Some (Db.tasks db !! ResourceReservation.task_id r) /\
        is_Some (Db.workers db !! ResourceReservation.worker_id r))) /\
  (forall e, e ∈ Db.events db -> exists t,
     Db.tasks db !! TaskEvent.task_id e = Some t /\ TaskEvent.sequence e <= version t) /\
  (forall l, l ∈ Db.logs db -> exists t,
     Db.tasks db !! TaskLog.task_id l = Some t /\ TaskLog.sequence l <= log_sequence t) /\
  NoDup ((fun e => (TaskEvent.task_id e, TaskEvent.sequence e)) <$> Db.events db) /\
  NoDup ((fun l => (TaskLog.task_id l, TaskLog.sequence l)) <$> Db.logs db).
Proof.
  destruct (reachable_ok db Hr) as [[K1 K2 K3 K4] [Q1 Q2 Q3] [P1 P2 P3 P4 P5 P6] [W1 W2] _ [E1 E2 E3 E4 E5 E6] _].
  split_and!; [|done|done| |done..].
  - intros i t Ht. pose proof (Q2 i t Ht) as Hs. split_and!; [by apply K1|by eapply E6|done|by apply Q3|].
    intros Hw. by destruct (P6 i t Ht Hw) as (? & ? & _).
  - intros i r Hr'. split_and!; [by apply K4|by eapply P5|by eapply P3| |].
    + intros j r' Hj He. by eapply P4.
    + intros Ha. destruct (P1 i r Hr' Ha) as (t & Ht & _); [done|]. split; [by eexists|by eapply W2].
Qed.
