(* ===== verification/Scenario.v ===== *)
(** * A sample run

    A project, two workers and a few tasks, taken through submission, claim,
    execution, completion and lease expiry.  The databases are computed with
    the definitions of the model; they witness that the hypotheses of the
    properties can be met. *)

From S2P Require Import Prelude PyFloat PyString Enums Policies Store Quotas Reservations Tasks.
From S2P Require Import Scheduling Workers Invariant System.
From Stdlib Require Import QArith.

#[local] Open Scope stdpp_scope.
#[local] Open Scope Z_scope.

Import Task StateMachine.

(** [present E] discards the case of a row that the run does hold. *)
Ltac present E := exfalso; vm_compute in E; discriminate E.

Module Scenario.
(** Worker [w1] with two slots, four cores and 4 GiB. *)
Definition registration : Registration.t :=
  Registration.mk "w1" "host-1" 2 4 4096 ∅ 1 (Some "A100") 40960 11 None None None.

Definition gpu : InventoryItem.t :=
  InventoryItem.mk "GPU-0" 0 40960 40960 None false None "A100" None None [] [] None None None.

(** A task of project 7 with the given CPU share. *)
Definition submission (cpu : float) : Submission.t :=
  Submission.mk 7 60 2 cpu 128 ∅ 0 None None None DOCKER 50 true 0 None [] [] "block" EXPONENTIAL
    (float_of_Z 1) (float_of_Z 60) None.
Definition gpu_submission : Submission.t :=
  (submission (float_of_Z 1)) <| Submission.gpu_count := 1 |>.

Definition free : Prices.t := Prices.mk 0%Q 0%Q 0%Q.
Definition quarter : float := float_of_Q (1 # 4).
Definition lease : float := float_of_Z 30.

(** [session.begin()] blocks in sequence. *)
Definition run (ops : list Op) (db : Db.t) : Db.t := foldl (fun db op => commit op db) db ops.

Definition start : Db.t := (Db.empty 1000000) <| Db.projects ::= <[7%N := true]> |>.

(** Tasks 1 (CPU) and 2 (one GPU) are queued. *)
Definition queued : Db.t :=
  run [OpRegister registration; OpInventory (fun n => 500 + N.of_nat n)%N "w1" 11 [gpu];
       OpCreate 1 (submission quarter); OpCreate 2 gpu_submission] start.
(** Both are claimed by [w1]. *)
Definition claimed : Db.t :=
  run [OpClaim 101 201 ∅ 1 "w1" lease (Some 11%N) free;
       OpClaim 102 202 ∅ 2 "w1" lease (Some 11%N) free] queued.
(** Task 1 is running. *)
Definition running : Db.t :=
  run [OpPulling 1 "w1" 101 lease (Some 11%N) f0; OpRunning 1 "w1" 101 lease (Some 11%N) f0] claimed.
(** A minute later: both leases have expired. *)
Definition expired : Db.t := running <| Db.clock := 61000000 |>.
(** Task 1 was asked to stop. *)
Definition stopping : Db.t := run [OpCancel 1] running.

Lemma run_steps ops db : forallb well_called ops = true -> rtc sys_step db (run ops db).
Proof.
  revert db. induction ops as [|op ops IH]; intros db Hw; [done|]. cbn in Hw.
  apply andb_true_iff in Hw as [Hop Hw]. cbn. eapply rtc_l; [by constructor|by apply IH].
Qed.
Lemma run_reachable ops db : forallb well_called ops = true -> reachable db -> reachable (run ops db).
Proof. intros Hw [now Hr]. exists now. etrans; [exact Hr|by apply run_steps]. Qed.

Lemma start_reachable : reachable start.
Proof. exists 1000000. apply rtc_once. constructor. Qed.
Lemma queued_reachable : reachable queued.
Proof. apply run_reachable; [done|]. apply start_reachable. Qed.
Lemma claimed_reachable : reachable claimed.
Proof. apply run_reachable; [done|]. apply queued_reachable. Qed.
Lemma running_reachable : reachable running.
Proof. apply run_reachable; [done|]. apply claimed_reachable. Qed.
Lemma stopping_reachable : reachable stopping.
Proof. apply run_reachable; [done|]. apply running_reachable. Qed.
Lemma expired_reachable : reachable expired.
Proof.
  destruct running_reachable as [now H]. exists now. eapply rtc_r; [exact H|].
  apply (step_time running). by vm_compute.
Qed.

(** ** Witnesses of the system properties *)
Lemma quota_counters_are_views_witness :
  exists s, Db.quota_states running !! 7%N = Some s /\ usage s = Usage.mk 0 2 1250 256 1 0.
Proof.
  destruct (Db.quota_states running !! 7%N) as [s|] eqn:E; [|present E]. exists s. split; [reflexivity|].
  destruct (quota_counters_are_views running 7 s running_reachable E) as [_ Hu].
  rewrite Hu. vm_compute. reflexivity.
Defined.

Lemma database_well_formed_witness :
  exists t, Db.tasks running !! 1%N = Some t /\ id t = 1%N /\ is_Some (Db.quota_states running !! project_id t).
Proof.
  destruct (Db.tasks running !! 1%N) as [t|] eqn:E; [|present E]. exists t. split; [reflexivity|].
  destruct (database_well_formed running running_reachable) as (Ht & _).
  destruct (Ht 1%N t E) as (H1 & _ & H2 & _). split; [exact H1|exact H2].
Defined.

Lemma worker_counters_are_views_witness :
  exists w, Db.workers running !! "w1" = Some w /\ Worker.running_tasks w = 2 /\
    Worker.reserved_memory_mb w = 256 /\ Worker.reserved_gpus w = 1.
Proof.
  destruct (Db.workers running !! "w1") as [w|] eqn:E; [|present E]. exists w. split; [reflexivity|].
  destruct (worker_counters_are_views running "w1" w running_reachable E) as (H1 & H2 & H3 & _).
  rewrite H1, H2, H3. vm_compute. auto.
Defined.

Lemma placed_iff_reserved_witness :
  exists t k r, Db.tasks running !! 1%N = Some t /\ Db.reservations running !! k = Some r /\
    active_reservation r = true /\ execution_id t = Some (ResourceReservation.execution_id r).
Proof.
  destruct (Db.tasks running !! 1%N) as [t|] eqn:E; [|present E].
  assert (placed (status t) = true) as Hp by (vm_compute in E; injection E as <-; reflexivity).
  apply (placed_iff_reserved running 1 t running_reachable E) in Hp.
  destruct Hp as (k & r & H1 & H2 & _ & H4 & _). exists t, k, r. exact (conj eq_refl (conj H1 (conj H2 H4))).
Defined.

Lemma device_has_one_owner_witness :
  exists x, Db.reservations running !! 202%N = Some x /\ active_reservation x = true.
Proof.
  destruct (Db.links running !! (202%N, 500%N)) as [l|] eqn:E; [|present E].
  assert (active_link l = true) as Ha by (vm_compute in E; injection E as <-; reflexivity).
  destruct (device_has_one_owner running 202 202 500 l l running_reachable E Ha E Ha)
    as (_ & x & t & Hx & Hxa & _).
  exists x. exact (conj Hx Hxa).
Defined.

Lemma event_log_is_history_witness : path PENDING RUNNING.
Proof.
  destruct (Db.tasks running !! 1%N) as [t|] eqn:E; [|present E].
  assert (status t = RUNNING) as Hs by (vm_compute in E; injection E as <-; reflexivity).
  destruct (event_log_is_history running 1 t running_reachable E) as (_ & Hp & _).
  rewrite Hs in Hp. exact Hp.
Defined.
End Scenario.
