(* ===== verification/Fencing.v ===== *)
(** * Fencing of stale executions and sessions

    A worker acts on a task with a token: its id, the execution id it was
    given and, when it registers sessions, its session id.  Whoever lost the
    task (to a lease recovery, a retry or a newer session of the same worker)
    cannot change it any more. *)

From S2P Require Import Prelude PyFloat PyString Enums Policies Store Quotas Reservations Tasks.
From S2P Require Import Workers Invariant Transaction Lifecycle Recovery Placement System Scenario.

Import Task StateMachine.

(** The row of task [i] carries the token [(w, e)]. *)
Definition holds_token (db : Db.t) (i : N) (w : string) (e : N) : bool :=
  match Db.tasks db !! i with
  | Some t => (worker_id t == Some w) && (execution_id t == Some e)
  | None => false
  end.

Definition stale_token : PyError := StaleExecutionError "execution token is stale".

Lemma owned_stale db i w e s :
  holds_token db i w e = false -> _owned_task i w e s db = (inl stale_token, db).
Proof.
  unfold holds_token, _owned_task. intros H. unfold mbind, M_bind, get_task, gets.
  destruct (Db.tasks db !! i) as [t|]; [|done].
  destruct (worker_id t == Some w), (execution_id t == Some e); cbn in H |- *; done.
Qed.

(** The answer to a completion that is not accepted. *)
Definition not_accepted : ExecutionResult.t := ExecutionResult.mk false None false.

(** C21: a stale token is fenced.  If the task's row does not carry the worker
    and execution of the caller, then the status callbacks ([mark_pulling],
    [mark_starting], [mark_running]), [record_runtime_handle],
    [advance_runtime_log_cursor], [preserve_kubernetes_handoff_lease],
    [cancellation_requested] and, from a worker with a session, [append_log]
    raise [StaleExecutionError], [renew_lease] answers no, a completion is not
    accepted, and the database is left as it was.  The one callback that does
    not ask for the token is [runtime_cleanup_owned]: it compares the records
    of the execution and its reservation, so that a worker may still remove
    the runtime object of an execution it lost; it changes nothing either. *)
Theorem stale_token_fenced db i w e (H : holds_token db i w e = false) :
  (forall l s g, mark_pulling i w e l s g db = (inl stale_token, db)) /\
  (forall l s g, mark_starting i w e l s g db = (inl stale_token, db)) /\
  (forall l s g, mark_running i w e l s g db = (inl stale_token, db)) /\
  (forall h s g, record_runtime_handle i w e h s g db = (inl stale_token, db)) /\
  (forall c n u x s, 0 <= c -> advance_runtime_log_cursor i w e c n u x s db = (inl stale_token, db)) /\
  (forall s g, preserve_kubernetes_handoff_lease i w e s g db = (inl stale_token, db)) /\
  (forall st c s, append_log i (Some e) st c (Some w) (Some s) db = (inl stale_token, db)) /\
  (forall s, cancellation_requested i w e s db = (inl stale_token, db)) /\
  (forall l s g, renew_lease i w e l s g db = (inr false, db)) /\
  (forall x o b c g s, finish_execution i w e x o b c g s db = (inr not_accepted, db)) /\
  (forall s rt n u x, exists b, runtime_cleanup_owned i w e s rt n u x db = (inr b, db)).
Proof.
  unfold mark_pulling, mark_starting, mark_running, mark, record_runtime_handle,
    preserve_kubernetes_handoff_lease, cancellation_requested.
  split_and!; intros; try (apply bind_raise; by apply owned_stale).
  - unfold advance_runtime_log_cursor. etransitivity; [eapply (bind_run _ _ _ tt db)|].
    + unfold raise_if. by replace (c <? 0) with false by lia.
    + apply bind_raise. by apply owned_stale.
  - unfold append_log. apply bind_raise, bind_raise. by apply owned_stale.
  - unfold renew_lease, mbind, M_bind, get_task, gets. unfold holds_token in H.
    destruct (Db.tasks db !! i) as [t|]; [|done].
    destruct (worker_id t == Some w), (execution_id t == Some e); cbn in H |- *; done.
  - unfold finish_execution, mbind, M_bind, get_task, gets. unfold holds_token in H.
    destruct (Db.tasks db !! i) as [t|]; [|done].
    destruct (worker_id t == Some w), (execution_id t == Some e); cbn in H |- *; done.
  - unfold runtime_cleanup_owned, mbind, M_bind, get_worker, get_execution, gets.
    repeat case_match; by eexists.
Qed.

Lemma stale_token_fenced_witness :
  finish_execution 1 "w2" 101 (Some 0) (Outcome.mk SUCCEEDED None None None) f0 f0 f0 None
    Scenario.running = (inr not_accepted, Scenario.running).
Proof.
  apply (stale_token_fenced Scenario.running 1 "w2" 101). vm_compute. reflexivity.
Defined.

(** ** Sessions *)
Lemma register_session a db w db' :
  ok db -> register a db = (inr w, db') ->
  exists w', Db.workers db' !! Registration.worker_id a = Some w' /\
    Worker.worker_session_id w' = Registration.worker_session_id a.
Proof.
  intros Hok H. unfold register in H. do 2 (apply bind_ok in H as (? & ? & Hg & H); minv Hg).
  destruct (Db.workers db !! _) as [w0|] eqn:E; minv H.
  - destruct Hok as [[_ Kw _ _] _ _ _ _ _ _]. eexists.
    split; [fields; rewrite (Kw _ _ E); apply lookup_insert_eq|by fields].
  - eexists. split; [fields; apply lookup_insert_eq|done].
Qed.

(** The quota row of a task's project can be locked. *)
Lemma task_quota_lock db i t :
  ok db -> Db.tasks db !! i = Some t ->
  exists q s, get_locked (project_id t) db = (inr (q, s), set_state (project_id t) s db).
Proof.
  intros Hok Ht. destruct (W_quota (W_open _ _ _ Hok Ht)) as [st Hst]. pose proof (I_quota _ _ _ Hok) as HQ.
  destruct (quota_rows _ _ _ _ _ HQ _ (ex_intro _ _ Hst)) as [q Hq].
  destruct (quota_counters _ _ _ _ _ HQ _ _ Hst) as [Hwf _].
  destruct (get_locked_run _ _ _ _ Hq Hst Hwf) as (s & Hg & _). by exists q, s.
Qed.

(** A session other than the worker's current one owns nothing. *)
Lemma other_session_owns_nothing db w wk e s :
  Db.workers db !! w = Some wk -> s <> Worker.worker_session_id wk ->
  _session_owns_execution w e s db = (inr false, db).
Proof.
  intros Hw Hs. unfold _session_owns_execution, mbind, M_bind, get_worker, gets. rewrite Hw.
  assert ((Worker.worker_session_id wk == s) = false) as -> by (rewrite eqb_false; congruence). done.
Qed.

Lemma owned_other_session db i w wk e s :
  Db.workers db !! w = Some wk -> s <> Worker.worker_session_id wk ->
  exists m, _owned_task i w e (Some s) db = (inl (StaleExecutionError m), db).
Proof.
  intros Hw Hs. destruct (holds_token db i w e) eqn:E; [|eexists; by apply owned_stale].
  unfold holds_token in E. destruct (Db.tasks db !! i) as [t|] eqn:Et; [|done].
  apply andb_true_iff in E as [E1 E2].
  unfold _owned_task, mbind, M_bind, get_task, gets. rewrite Et. unfold raise_if. rewrite E1, E2. cbn.
  rewrite (other_session_owns_nothing db w wk e s Hw Hs). cbn. eauto.
Qed.

(** C22: a worker that registers again takes over from its older sessions.  In
    the resulting database, with any session id but the new one, the status
    callbacks, [record_runtime_handle], [advance_runtime_log_cursor],
    [preserve_kubernetes_handoff_lease], [cancellation_requested] and
    [append_log] raise [StaleExecutionError], [renew_lease] and
    [runtime_cleanup_owned] answer no, and the database is left as it was;
    [finish_execution] returns that the completion is not accepted, and changes
    no task and no reservation. *)
Theorem reregistration_fences db a w db' s
    (Hr : reachable db) (H : register a db = (inr w, db'))
    (Hs : s <> Registration.worker_session_id a) :
  let wid := Registration.worker_id a in
  (forall i e l g, exists m, mark_pulling i wid e l (Some s) g db' = (inl (StaleExecutionError m), db')) /\
  (forall i e l g, exists m, mark_starting i wid e l (Some s) g db' = (inl (StaleExecutionError m), db')) /\
  (forall i e l g, exists m, mark_running i wid e l (Some s) g db' = (inl (StaleExecutionError m), db')) /\
  (forall i e st c, exists m,
     append_log i (Some e) st c (Some wid) (Some s) db' = (inl (StaleExecutionError m), db')) /\
  (forall i e h g, exists m,
     record_runtime_handle i wid e h (Some s) g db' = (inl (StaleExecutionError m), db')) /\
  (forall i e c n u x, 0 <= c -> exists m,
     advance_runtime_log_cursor i wid e c n u x s db' = (inl (StaleExecutionError m), db')) /\
  (forall i e g, exists m,
     preserve_kubernetes_handoff_lease i wid e s g db' = (inl (StaleExecutionError m), db')) /\
  (forall i e, exists m, cancellation_requested i wid e (Some s) db' = (inl (StaleExecutionError m), db')) /\
  (forall i e l g, renew_lease i wid e l (Some s) g db' = (inr false, db')) /\
  (forall i e rt n u x, runtime_cleanup_owned i wid e s rt n u x db' = (inr false, db')) /\
  (forall i e x o b c g, exists r db'', finish_execution i wid e x o b c g (Some s) db' = (inr r, db'') /\
     ExecutionResult.accepted r = false /\ Db.tasks db'' = Db.tasks db' /\
     Db.reservations db'' = Db.reservations db').
Proof.
  intros wid. destruct (register_session _ _ _ _ (reachable_ok db Hr) H) as (w' & Hw & Es).
  rewrite <-Es in Hs. fold wid in Hw. pose proof (register_preserves _ _ _ _ (reachable_ok db Hr) H) as Hok.
  clear H Hr Es.
  unfold mark_pulling, mark_starting, mark_running, mark, record_runtime_handle,
    preserve_kubernetes_handoff_lease, cancellation_requested.
  pose proof (fun i e => owned_other_session db' i wid w' e s Hw Hs) as Hown.
  split_and!; intros; try (destruct (Hown i e) as [m Hm]; exists m; by apply bind_raise).
  - destruct (Hown i e) as [m Hm]. exists m. apply bind_raise, bind_raise, Hm.
  - destruct (Hown i e) as [m Hm]. exists m. unfold advance_runtime_log_cursor.
    etransitivity; [eapply (bind_run _ _ _ tt db')|by apply bind_raise].
    unfold raise_if. by replace (c <? 0) with false by lia.
  - unfold renew_lease, mbind at 1, M_bind, get_task, gets. destruct (Db.tasks db' !! i) as [t|]; [|done].
    destruct (_ || _); [done|].
    rewrite (bind_run _ _ _ _ _ (other_session_owns_nothing db' wid w' e s Hw Hs)). done.
  - unfold runtime_cleanup_owned, mbind, M_bind, get_worker, get_execution, gets. rewrite Hw.
    destruct (Db.executions db' !! e); [|done]. destruct (List.find _ _); [|done].
    assert ((Worker.worker_session_id w' == s) = false) as -> by (rewrite eqb_false; congruence). done.
  - unfold finish_execution. rewrite (bind_run _ _ _ _ _ eq_refl : (get_task i ≫= _) db' = _).
    destruct (Db.tasks db' !! i) as [t|] eqn:Ht; [|by eexists _, _]. destruct (_ || _); [by eexists _, _|].
    destruct (negb _); [by eexists _, _|]. destruct (task_quota_lock _ _ _ Hok Ht) as (q & qs & Hl).
    exists (ExecutionResult.mk false None false), (set_state (project_id t) qs db'). split_and!; [|done..].
    etransitivity; [eapply (bind_run _ _ _ false); etransitivity; [eapply bind_run; exact Hl|]|reflexivity].
    by eapply (other_session_owns_nothing _ wid w').
Qed.

Lemma reregistration_fences_witness :
  exists r db'', finish_execution 1 "w1" 101 (Some 0) (Outcome.mk SUCCEEDED None None None) f0 f0 f0
    (Some 11%N) (commit (OpRegister (Registration.mk "w1" "host-1" 2 4 4096 ∅ 1 (Some "A100") 40960 12
                                       None None None)) Scenario.running) = (inr r, db'') /\
    ExecutionResult.accepted r = false.
Proof.
  set (a := Registration.mk "w1" "host-1" 2 4 4096 ∅ 1 (Some "A100") 40960 12 None None None).
  destruct (register a Scenario.running) as [[e|w] db'] eqn:E; [present E|].
  assert (commit (OpRegister a) Scenario.running = db') as ->
    by (unfold commit, atomically; cbn [exec]; unfold ignore, mbind, M_bind; rewrite E; reflexivity).
  destruct (reregistration_fences Scenario.running a w db' 11 Scenario.running_reachable E)
    as (_ & _ & _ & _ & _ & _ & _ & _ & _ & _ & Hf); [discriminate|].
  destruct (Hf 1%N 101%N (Some 0) (Outcome.mk SUCCEEDED None None None) f0 f0 f0) as (r & db'' & F & Hr & _).
  exists r, db''. exact (conj F Hr).
Defined.

(** ** Lease recovery *)

(** The lease of an active task has run out. *)
Definition lease_lost (now : Z) (t : Task.t) : bool :=
  inb (status t) ACTIVE_TASK_STATUSES
  && match lease_expires_at t with Some at_ => at_ <? now | None => false end.

(** [y] ran out before [t], or at the same instant with an id that is not
    greater. *)
Definition not_after (t y : Task.t) : bool :=
  match lease_expires_at y, lease_expires_at t with
  | Some a, Some b => (a <? b) || ((a =? b) && (id y <=? id t)%N)
  | _, _ => false
  end.

(** The place of [t] among the lost tasks that no other transaction holds. *)
Definition recovery_rank (db : Db.t) (locked : gset N) (t : Task.t) : nat :=
  List.length (List.filter (fun y => lease_lost (Db.clock db) y && negb (bool_decide (id y ∈ locked)) && not_after t y)
                 (rows (Db.tasks db))).

Lemma not_after_le t y a b :
  lease_expires_at y = Some a -> lease_expires_at t = Some b ->
  cmp_le (nulls_last (lease_expires_at y), id y) (nulls_last (lease_expires_at t), id t) -> not_after t y = true.
Proof.
  intros Ea Eb. unfold not_after. rewrite Ea, Eb. unfold nulls_last, cmp_le, cmp, Ord_prod, cmp, Ord_bool, Ord_Z, Ord_N.
  cbn. destruct (Z.compare_spec a b) as [->|Hl|Hg]; [|intros _|done].
  - rewrite Z.ltb_irrefl, Z.eqb_refl. cbn. intros H. apply N.leb_le. destruct (N.compare_spec (id y) (id t)); [lia..|done].
  - by rewrite (proj2 (Z.ltb_lt a b) Hl).
Qed.

(** The query of a pass finds every lost task within its limit. *)
Lemma recovery_selects n locked db i t :
  ok db -> Db.tasks db !! i = Some t -> lease_lost (Db.clock db) t = true -> i ∉ locked ->
  (recovery_rank db locked t <= n)%nat -> t ∈ expired_tasks n locked db.
Proof.
  intros Hok Ht Hlost Hl Hn. assert (id t = i) as Hi by (destruct Hok as [[]]; eauto).
  unfold expired_tasks, select_tasks. fold (lease_lost (Db.clock db)).
  set (l := List.filter _ (py_sort _ _)).
  assert (forall y, y ∈ l <-> y ∈ rows (Db.tasks db) /\ lease_lost (Db.clock db) y = true /\ id y ∉ locked) as Hin.
  { intros y. unfold l. rewrite elem_of_lfilter, elem_of_py_sort, elem_of_lfilter, negb_true_iff, bool_decide_eq_false.
    unfold lease_lost. tauto. }
  assert (forall y, lease_lost (Db.clock db) y = true -> exists a, lease_expires_at y = Some a) as Hsome.
  { unfold lease_lost. intros y [_ H]%andb_true_iff. destruct (lease_expires_at y); [eauto|done]. }
  apply (sorted_take (fun t => (nulls_last (lease_expires_at t), id t)) not_after).
  - intros y (_ & Hy & _)%Hin Hle. destruct (Hsome y Hy) as [a Ea]. destruct (Hsome t Hlost) as [b Eb].
    by eapply not_after_le.
  - apply sorted_filter, py_sort_sorted; exact _.
  - apply Hin. rewrite Hi. split; [|done]. apply rows_elem. by exists i.
  - etrans; [|exact Hn]. unfold recovery_rank, l.
    rewrite (Permutation_length (lfilter_perm (not_after t) _ _ (lfilter_perm _ _ _ (py_sort_perm _ _)))).
    rewrite !filter_filter_and. apply Nat.eq_le_incl. f_equal. apply List.filter_ext. intros y. apply andb_assoc.
Qed.

(** C23: recovery revokes ownership.  A recovery pass that returns has revoked
    every task whose lease had run out, that no other transaction held and
    that was within the pass's limit, counting the lost and unheld tasks by
    the time their lease ran out: no worker holds a token for it, it
    has no active reservation, and it is cancelled if that had been requested,
    else failed, preempted or waiting for another attempt.  With
    [stale_token_fenced] its former worker can no longer change it. *)
Theorem recovery_revokes n m g locked db r db' i t
    (Hr : reachable db) (H : recover_expired n m g locked db = (inr r, db'))
    (Ht : Db.tasks db !! i = Some t) (Hlost : lease_lost (Db.clock db) t = true)
    (Hl : i ∉ locked) (Hn : (recovery_rank db locked t <= n)%nat) :
  revoked t (Db.tasks db' !! i) /\ (forall w e, holds_token db' i w e = false) /\
  vacant i (Db.reservations db').
Proof.
  pose proof (reachable_ok db Hr) as Hok0.
  assert (id t = i) as Hi by (destruct Hok0 as [[]]; eauto).
  destruct (recover_expired_run _ _ _ _ _ _ _ Hok0 H) as [Hok Hrev].
  specialize (Hrev t (recovery_selects _ _ _ _ _ Hok0 Ht Hlost Hl Hn)). rewrite Hi in Hrev.
  split; [done|]. destruct Hrev as (t' & Et & He & Hw & _ & Hs). split.
  - intros w e. unfold holds_token. rewrite Et, He, Hw. done.
  - eapply vacant_unplaced; [done|exact Et|]. destruct (status t'); done || set_solver.
Qed.

Lemma recovery_revokes_witness :
  exists r db', recover_expired 1 3 f0 ∅ Scenario.expired = (inr r, db') /\
    holds_token Scenario.expired 1 "w1" 101 = true /\ holds_token db' 1 "w1" 101 = false.
Proof.
  destruct (recover_expired 1 3 f0 ∅ Scenario.expired) as [[e|r] db'] eqn:E; [present E|].
  exists r, db'. split; [reflexivity|]. split; [vm_compute; reflexivity|].
  destruct (Db.tasks Scenario.expired !! 1%N) as [t|] eqn:Et; [|present Et].
  assert ((fun t => lease_lost (Db.clock Scenario.expired) t && (recovery_rank Scenario.expired ∅ t <=? 1)%nat) <$>
    Db.tasks Scenario.expired !! 1%N = Some true) as F by (vm_compute; reflexivity).
  rewrite Et in F. cbn [fmap option_fmap option_map] in F. apply (inj Some), andb_true_iff in F as [F1 F2].
  apply Nat.leb_le in F2.
  assert (1%N ∉ (∅ : gset N)) as F3 by apply not_elem_of_empty.
  destruct (recovery_revokes 1 3 f0 ∅ Scenario.expired r db' 1 t Scenario.expired_reachable E Et F1 F3 F2)
    as (_ & Hf & _).
  exact (Hf "w1" 101%N).
Defined.
