(* ===== verification/Outcomes.v ===== *)
(** * What settlement, cancellation and claims achieve

    Totality and outcome of the operations that end or start an execution:
    in a reachable database a settlement returns and happens once, a
    cancellation always takes effect, and a claim leaves its worker within
    capacity. *)

From S2P Require Import Prelude PyFloat PyString Enums Policies Store Quotas Reservations Tasks.
From S2P Require Import Workers Invariant Transaction Lifecycle Recovery Placement System Scenario.
From Stdlib Require Import QArith.

#[local] Open Scope stdpp_scope.
#[local] Open Scope Z_scope.

Import Task StateMachine.

(** ** The books cover every active reservation *)
Lemma task_usage_nonneg p t : 0 <= Usage.queued (task_usage p t) <= 1 /\
  Usage.running (task_usage p t) = 0 /\ Usage.cpu (task_usage p t) = 0 /\
  Usage.memory (task_usage p t) = 0 /\ Usage.nvidia (task_usage p t) = 0 /\
  Usage.ascend (task_usage p t) = 0.
Proof. unfold task_usage. case_match; cbn; lia. Qed.

Lemma reservation_usage_nonneg p r : reservation_checks r = true ->
  Usage.queued (reservation_usage p r) = 0 /\ 0 <= Usage.running (reservation_usage p r) /\
  0 <= Usage.cpu (reservation_usage p r) /\ 0 <= Usage.memory (reservation_usage p r) /\
  0 <= Usage.nvidia (reservation_usage p r) /\ 0 <= Usage.ascend (reservation_usage p r).
Proof.
  intros Hc. destruct (checked_amounts r Hc) as (? & ? & Hg). unfold reservation_usage.
  case_match; cbn; [|lia].
  set (v := _normalize_accelerator_vendor _ _).
  pose proof (gpus_of_nonneg v NVIDIA _ Hg). pose proof (gpus_of_nonneg v HUAWEI_ASCEND _ Hg). lia.
Qed.

(** Each component of a sum is at least a row's contribution. *)
Lemma books_cover d h db k r :
  I d h db -> Db.reservations db !! k = Some r -> active_reservation r = true ->
  let u := usage_of (Db.tasks db) (Db.reservations db) (ResourceReservation.project_id r) in
  Usage.running (amounts r) <= Usage.running u /\ Usage.cpu (amounts r) <= Usage.cpu u /\
  Usage.memory (amounts r) <= Usage.memory u /\ Usage.nvidia (amounts r) <= Usage.nvidia u /\
  Usage.ascend (amounts r) <= Usage.ascend u.
Proof.
  intros Hok Hk Ha u. destruct Hok as [_ _ [_ _ _ _ P5 _] _ _ _ _].
  set (p := ResourceReservation.project_id r) in *.
  assert (reservation_usage p r = amounts r) as E.
  { rewrite reservation_usage_active by done. unfold p. by rewrite eqb_same. }
  assert (forall g : Usage.t -> Z, (forall t, g (task_usage p t) = 0) ->
    (forall x, reservation_checks x = true -> 0 <= g (reservation_usage p x)) ->
    g (amounts r) <= msum (fun _ t => g (task_usage p t)) (Db.tasks db)
                     + msum (fun _ x => g (reservation_usage p x)) (Db.reservations db)) as Hg.
  { intros g H0 Hr. rewrite (msum_ext _ (fun _ _ => 0) (Db.tasks db)) by (intros; apply H0).
    rewrite <-E. pose proof (msum_ge (fun _ x => g (reservation_usage p x)) (Db.reservations db) k r
      (fun k x Hx => Hr x (P5 k x Hx)) Hk). cbn in *.
    assert (0 <= msum (fun (_ : N) (_ : Task.t) => 0) (Db.tasks db)) by by apply msum_nonneg. lia. }
  split_and!; apply Hg; intros x; try apply task_usage_nonneg; intros Hx;
    destruct (reservation_usage_nonneg p x Hx) as (? & ? & ? & ? & ? & ?); done.
Qed.

(** A waiting task is counted as queued. *)
Lemma books_queue d h db i t :
  I d h db -> Db.tasks db !! i = Some t -> waiting (status t) = true ->
  1 <= Usage.queued (usage_of (Db.tasks db) (Db.reservations db) (project_id t)).
Proof.
  intros [_ _ [_ _ _ _ P5 _] _ _ _ _] Ht Hw. set (p := project_id t).
  assert (Usage.queued (task_usage p t) = 1) as E
    by (unfold task_usage, p; rewrite eqb_same, Hw; done).
  pose proof (msum_ge (fun _ x => Usage.queued (task_usage p x)) (Db.tasks db) i t
    (fun _ x _ => proj1 (proj1 (task_usage_nonneg p x))) Ht) as H1.
  assert (0 <= msum (fun _ x => Usage.queued (reservation_usage p x)) (Db.reservations db)) as H2.
  { apply msum_nonneg. intros k x Hx.
    destruct (reservation_usage_nonneg p x (P5 k x Hx)) as (-> & _). done. }
  unfold usage_of. cbn in *. lia.
Qed.

(** The worker's counters cover its reservations. *)
Lemma worker_covers d h db k r w :
  I d h db -> Db.reservations db !! k = Some r -> active_reservation r = true ->
  Db.workers db !! ResourceReservation.worker_id r = Some w ->
  1 <= Worker.running_tasks w /\ ResourceReservation.memory_mb r <= Worker.reserved_memory_mb w /\
  ResourceReservation.gpu_count r <= Worker.reserved_gpus w.
Proof.
  intros [_ _ [_ _ _ _ P5 _] [W1 _] _ _ _] Hk Ha Hw. destruct (W1 _ _ Hw) as (-> & -> & ->).
  set (i := ResourceReservation.worker_id r).
  assert (forall f, (forall x, reservation_checks x = true -> 0 <= f x) ->
    f r <= msum (fun _ => on_worker f i) (Db.reservations db)) as Hf.
  { intros f H0. assert (on_worker f i r = f r) as <-
      by (rewrite on_worker_active by done; unfold i; by rewrite eqb_same).
    apply (msum_ge (fun _ => on_worker f i) (Db.reservations db) k r); [|done].
    intros k' x Hx. specialize (H0 x (P5 _ _ Hx)). unfold on_worker. case_match; lia. }
  split_and!; [apply (Hf (fun _ => 1))|apply Hf|apply Hf]; intros x Hx;
    destruct (checked_amounts x Hx) as (? & ? & ?); lia.
Qed.

(** ** Settlement *)

(** What a settlement relies on besides the books: the execution's prices and
    amounts are not negative, and the worker's floating-point CPU share has
    not dropped below the reservation. *)
Definition billable (e : TaskExecution.t) : Prop :=
  0 <= TaskExecution.cpu_millicores e /\ 0 <= TaskExecution.memory_mb e /\
  0 <= TaskExecution.gpu_count e /\ (0 <= TaskExecution.cpu_price_per_hour e)%Q /\
  (0 <= TaskExecution.memory_price_per_gb_hour e)%Q /\ (0 <= TaskExecution.gpu_price_per_hour e)%Q.

Definition settleable (db : Db.t) (eid : N) : Prop :=
  (forall e, Db.executions db !! eid = Some e -> billable e) /\
  (forall k r w, Db.reservations db !! k = Some r -> ResourceReservation.execution_id r = eid ->
     Db.workers db !! ResourceReservation.worker_id r = Some w ->
     flt (fadd (Worker.reserved_cpu w) cpu_epsilon) (expected_cpu r) = false).

(** [settleable] can be checked by running over the rows. *)
Definition settleable_check (db : Db.t) (eid : N) : bool :=
  match Db.executions db !! eid with
  | Some e => forallb (fun n => 0 <=? n) [TaskExecution.cpu_millicores e; TaskExecution.memory_mb e;
                                          TaskExecution.gpu_count e]
              && forallb (Qle_bool 0) [TaskExecution.cpu_price_per_hour e;
                   TaskExecution.memory_price_per_gb_hour e; TaskExecution.gpu_price_per_hour e]
  | None => true
  end
  && forallb (fun r => (ResourceReservation.execution_id r !== eid) ||
       match Db.workers db !! ResourceReservation.worker_id r with
       | Some w => negb (flt (fadd (Worker.reserved_cpu w) cpu_epsilon) (expected_cpu r))
       | None => true
       end) (rows (Db.reservations db)).

Lemma settleable_checked db eid : settleable_check db eid = true -> settleable db eid.
Proof.
  unfold settleable_check. intros [H1 H2]%andb_true_iff. split.
  - intros e He. rewrite He in H1. cbn in H1. rewrite !andb_true_iff, !Z.leb_le, !Qle_bool_iff in H1.
    destruct H1 as ((? & ? & ? & _) & ? & ? & ? & _). by split_and!.
  - intros k r w Hr He Hw. rewrite List.forallb_forall in H2.
    specialize (H2 r (proj1 (list_elem_of_In _ _) (proj2 (rows_elem _ _) (ex_intro _ k Hr)))).
    cbv beta in H2. rewrite He, eqb_same, Hw in H2. cbn in H2. by apply negb_true_iff.
Qed.

Lemma dec_of_Z_nonneg n : 0 <= n -> (0 <= dec_of_Z n)%Q.
Proof. intros H. unfold dec_of_Z, Qle. cbn. lia. Qed.

Lemma settle_cost_nonneg t r e start now : billable e -> (0 <= UsageLedger.cost (settle t r e start now))%Q.
Proof.
  intros (? & ? & ? & ? & ? & ?). unfold settle. cbn [UsageLedger.cost].
  assert (0 <= duration_decimal (now - start))%Q as Hd.
  { unfold duration_decimal. rewrite Qred_correct. unfold Qle. cbn. lia. }
  repeat first [apply dec_add_nonneg | apply dec_div_nonneg | apply dec_mul_nonneg |
                apply dec_of_Z_nonneg; lia | done].
Qed.

Section Settlement.
Context {db0 : Db.t} {t0 : Task.t} {R : gmap N Reservation} {d : N -> Usage.t} {db : Db.t} {t : Task.t}.
Hypothesis HW : W db0 t0 R d db t.
Hypothesis Hd : forall p, d p = zero_usage.

(** The quota row of the task's project covers the reservation. *)
Lemma settle_quota r :
  Db.reservations db !! ResourceReservation.id r = Some r -> active_reservation r = true ->
  ResourceReservation.project_id r = project_id t0 ->
  exists q s, Db.quotas db !! ResourceReservation.project_id r = Some q /\
    Db.quota_states db !! ResourceReservation.project_id r = Some s /\ state_wf s /\
    (forall s', usage s' = usage s -> 1 <= ProjectQuotaState.running_tasks s' /\
      ResourceReservation.cpu_millicores r <= ProjectQuotaState.reserved_cpu_millicores s' /\
      ResourceReservation.memory_mb r <= ProjectQuotaState.reserved_memory_mb s' /\
      Usage.nvidia (amounts r) <= ProjectQuotaState.reserved_nvidia_gpus s' /\
      Usage.ascend (amounts r) <= ProjectQuotaState.reserved_ascend_npus s').
Proof.
  intros Hr Ha Hp. pose proof (W_inv _ _ _ _ _ _ HW) as HI. pose proof (W_quota HW) as [s Hs].
  rewrite (W_project _ _ _ _ _ _ HW), <-Hp in Hs.
  destruct (quota_rows _ _ _ _ _ (I_quota _ _ _ HI) _ (ex_intro _ _ Hs)) as [q Hq].
  destruct (quota_counters _ _ _ _ _ (I_quota _ _ _ HI) _ _ Hs) as [Hwf Hu].
  destruct (books_cover _ _ _ _ _ HI Hr Ha) as (B1 & B2 & B3 & B4 & B5). rewrite Hd in Hu.
  exists q, s. split_and!; try done. intros s' E. rewrite Hu in E.
  pose proof (f_equal Usage.running E) as E1. pose proof (f_equal Usage.cpu E) as E2.
  pose proof (f_equal Usage.memory E) as E3. pose proof (f_equal Usage.nvidia E) as E4.
  pose proof (f_equal Usage.ascend E) as E5. cbn in *. lia.
Qed.

(** A row that covers the reservation gives it back. *)
Lemma give_back_run r q s sc date dbx (x : bool * Task.t) :
  reservation_checks r = true ->
  Db.quotas dbx !! ResourceReservation.project_id r = Some q ->
  Db.quota_states dbx !! ResourceReservation.project_id r = Some s -> state_wf s ->
  1 <= ProjectQuotaState.running_tasks s ->
  ResourceReservation.cpu_millicores r <= ProjectQuotaState.reserved_cpu_millicores s ->
  ResourceReservation.memory_mb r <= ProjectQuotaState.reserved_memory_mb s ->
  Usage.nvidia (amounts r) <= ProjectQuotaState.reserved_nvidia_gpus s ->
  Usage.ascend (amounts r) <= ProjectQuotaState.reserved_ascend_npus s -> (0 <= sc)%Q ->
  wp (_ ← release (ResourceReservation.project_id r) (ResourceReservation.cpu_millicores r)
         (ResourceReservation.memory_mb r) (ResourceReservation.gpu_count r) ZERO_COST sc date
         (ResourceReservation.requested_vendor r); mret x) dbx (fun _ _ => True) (fun _ _ => False).
Proof.
  intros Hc Hq Hs Hwf ? ? ? ? ? ?. destruct (checked_amounts r Hc) as (? & ? & ?). apply wp_bind.
  eapply wp_mono; [eapply release_run; try done; lia|..|done]. intros. by apply wp_ret.
Qed.

Lemma settle_run eid fs now reason :
  owner (id t0) eid R -> settleable db eid ->
  (forall k r, R !! k = Some r -> ResourceReservation.execution_id r = eid ->
     ResourceReservation.project_id r = project_id t0) ->
  wp (release_and_settle t eid fs now reason) db (fun _ _ => True) (fun _ _ => False).
Proof.
  intros Hown [Hbill Hcpu] Hpr. pose proof (W_reservations _ _ _ _ _ _ HW) as HR.
  rewrite <-HR in Hown, Hpr. pose proof (W_inv _ _ _ _ _ _ HW) as HI.
  unfold release_and_settle. apply wp_bind.
  destruct (get_active_for_execution eid db) as [[] db'] eqn:Hx; [done|].
  destruct (get_active_owner _ _ _ _ _ (I_keys _ _ _ HI) Hown Hx)
    as (-> & r & -> & Hr & Ha & Et & Ee & _). eapply wp_eq; [exact Hx|]. clear Hx. cbv beta iota.
  destruct (workers_exist _ _ (I_workers _ _ _ HI) _ _ Hr Ha) as [w Hw].
  destruct (placement_execution _ _ _ _ (I_placement _ _ _ HI) _ _ Hr) as [e He]. rewrite Ee in He.
  destruct (worker_covers _ _ _ _ _ _ HI Hr Ha Hw) as (C1 & C2 & C3).
  pose proof (placement_amounts _ _ _ _ (I_placement _ _ _ HI) _ _ Hr) as Hc.
  destruct (settle_quota r Hr Ha (Hpr _ _ Hr Ee)) as (q & s & Hq & Hs & Hwf & Hcov).
  apply wp_bind. eapply wp_get_locked; [done..|]. intros s1 Hwf1 Hu1 _.
  destruct (Hcov s1 Hu1) as (D1 & D2 & D3 & D4 & D5). clear Hcov.
  wstep. assert (Db.workers (set_state (ResourceReservation.project_id r) s1 db)
                   !! ResourceReservation.worker_id r = Some w) as -> by done.
  apply wp_bind. wstep.
  { exfalso. unfold worker_below in G. rewrite (Hcpu _ _ _ Hr Ee Hw) in G. bools. lia. }
  assert (Db.quotas (set_state (ResourceReservation.project_id r) s1 db)
            !! ResourceReservation.project_id r = Some q) as Hq1 by done.
  destruct (set_state_lookup (ResourceReservation.project_id r) s1 db) as [_ Hs1].
  assert (Db.executions (set_state (ResourceReservation.project_id r) s1 db) !! eid = Some e) as He1
    by done.
  revert Hq1 Hs1 He1. generalize (set_state (ResourceReservation.project_id r) s1 db).
  intros db1 Hq1 Hs1 He1. do 4 wstep. fields. rewrite He1.
  destruct (started_at t) as [start|].
  - wstep. wstep. fields. destruct (Db.ledger db1 !! eid).
    + by eapply give_back_run.
    + wstep. wstep. eapply give_back_run; try done. apply settle_cost_nonneg, (Hbill e He).
  - wstep. by eapply give_back_run.
Qed.
End Settlement.

(** ** Cancellation *)
Lemma wp_transition t target now ev db (Q : Task.t -> Db.t -> Prop) X :
  can_transition (status t) target = true ->
  Q (transitioned t target now)
    (store_event (transition_event t target now ev) (store_task (transitioned t target now) db)) ->
  wp (_transition t target now ev) db Q X.
Proof. intros Hc HQ. unfold _transition, ensure_transition. rewrite Hc. by repeat wstep. Qed.

Lemma stops_legal s : placed s = true -> s <> PREEMPTING -> s <> STOPPING ->
  can_transition s STOPPING = true.
Proof. by destruct s. Qed.
Lemma cancel_legal s : waiting s = true -> can_transition s CANCELLED = true.
Proof. by destruct s. Qed.

(** The outcome of a cancellation by the class of the status. *)
Definition cancelled_as (t t' : Task.t) (db db' : Db.t) : Prop :=
  if final (status t) then t' = t /\ db' = db
  else if waiting (status t)
  then status t' = CANCELLED /\ execution_id t' = None /\ worker_id t' = None
  else status t' ∈ [PREEMPTING; STOPPING] /\ cancellation_wins t' = true /\
       execution_id t' = execution_id t /\ Db.reservations db' = Db.reservations db.

Lemma cancel_waiting db i t :
  ok db -> Db.tasks db !! i = Some t -> waiting (status t) = true ->
  wp (cancel i) db (fun r db' => exists t', r = Some t' /\ Db.tasks db' !! i = Some t' /\
    cancelled_as t t' db db') (fun _ _ => False).
Proof.
  intros Hok Ht Hw. assert (id t = i) as Hi by (destruct Hok as [[]]; eauto).
  destruct (I_task_ok _ _ _ _ Hok Ht) as [_ _ O3 _]. destruct (O3 Hw) as (He & Hwk & Hns).
  unfold cancel. wstep. rewrite Ht. unfold cancelled_as. rewrite Hw.
  assert (final (status t) = false) as Hf by by destruct (status t).
  rewrite Hf. assert (inb (status t) [SUCCEEDED; FAILED; CANCELLED; TIMED_OUT; PREEMPTED] = false)
    as -> by by destruct (status t).
  assert ((status t == PREEMPTING) = false) as -> by by destruct (status t).
  rewrite He. cbn [is_none negb]. rewrite andb_false_r. wstep. apply wp_bind, wp_transition.
  { by apply cancel_legal. }
  wstep. unfold outbox_terminal. rewrite Hwk.
  match goal with |- context [mret (Some ?x)] => set (t' := x) end.
  assert (id t' = i /\ project_id t' = project_id t /\ status t' = CANCELLED /\ execution_id t' = None /\
    worker_id t' = None) as (T1 & T2 & T3 & T4 & T5)
    by (unfold t'; tfields; done).
  clearbody t'. rewrite T1, T2.
  destruct (quota_tasks _ _ _ _ _ (I_quota _ _ _ Hok) _ _ Ht) as [s Hs].
  destruct (quota_rows _ _ _ _ _ (I_quota _ _ _ Hok) _ (ex_intro _ _ Hs)) as [q Hq].
  destruct (quota_counters _ _ _ _ _ (I_quota _ _ _ Hok) _ _ Hs) as [Hwf Hu].
  pose proof (books_queue _ _ _ _ _ Hok Ht Hw) as Hb.
  assert (1 <= ProjectQuotaState.queued_tasks s) as Hn
    by (apply (f_equal Usage.queued) in Hu; cbn in Hu, Hb; lia).
  match goal with |- wp _ ?x _ _ => set (db1 := x) end.
  assert (Db.quotas db1 !! project_id t = Some q /\ Db.quota_states db1 !! project_id t = Some s /\
          Db.tasks db1 !! i = Some t') as (D1 & D2 & D3)
    by (split_and!; [done..|unfold db1; fields; apply lookup_insert_eq]).
  clearbody db1. apply wp_bind. apply wp_when; [intros _|by unfold waiting in Hw; rewrite Hw].
  wstep. rewrite D2. apply wp_bind. eapply wp_mono; [by eapply release_queued_run| |done].
  intros s' db2 ->. repeat wstep. exists t'. split_and!; try done.
Qed.

Lemma cancel_placed db i t :
  ok db -> Db.tasks db !! i = Some t -> placed (status t) = true ->
  wp (cancel i) db (fun r db' => exists t', r = Some t' /\ Db.tasks db' !! i = Some t' /\
    cancelled_as t t' db db') (fun _ _ => False).
Proof.
  intros Hok Ht Hp. assert (id t = i) as Hi by (destruct Hok as [[]]; eauto).
  destruct (owner_of _ _ _ Hok Ht Hp) as (e & He & _).
  unfold cancel. wstep. rewrite Ht. unfold cancelled_as. rewrite (placed_not_waiting _ Hp).
  assert (final (status t) = false) as -> by by destruct (status t).
  assert (inb (status t) [SUCCEEDED; FAILED; CANCELLED; TIMED_OUT; PREEMPTED] = false)
    as -> by by destruct (status t).
  destruct (status t == PREEMPTING) eqn:Epre.
  - rewrite eqb_true in Epre. repeat wstep. eexists. split_and!; [done|fields; rewrite Hi; apply lookup_insert_eq|..].
    + tfields. rewrite Epre. set_solver.
    + unfold cancellation_wins, user_cancelled_preemption, preemption_requested. tfields. by rewrite Epre.
    + by tfields.
    + by tfields.
  - assert (inb (status t) ACTIVE_TASK_STATUSES = true) as -> by by destruct (status t).
    rewrite He. cbn [is_none negb andb]. rewrite eqb_false in Epre. apply wp_bind.
    match goal with |- wp (if ?b then _ else _) _ _ _ => destruct b eqn:Est end.
    + wstep. apply wp_transition; [tfields; apply stops_legal; try done|].
      { intros E. fields in Est. by rewrite E in Est. }
      repeat wstep. eexists. split_and!; [done|fields; rewrite tr_id; fields; rewrite Hi; apply lookup_insert_eq|..].
      * tfields. set_solver.
      * unfold cancellation_wins, preemption_requested. by tfields.
      * tfields. congruence.
      * by tfields.
    + fields in Est. apply negb_false_iff in Est. rewrite eqb_true in Est.
      repeat wstep. eexists. split_and!; [done|fields; rewrite Hi; apply lookup_insert_eq|..].
      * tfields. rewrite Est. set_solver.
      * unfold cancellation_wins, preemption_requested. tfields. by rewrite Est.
      * tfields. congruence.
      * by tfields.
Qed.

(** C25: a cancellation takes effect.  In a reachable database cancelling an
    existing task always returns it: a final task is left alone; a waiting
    task is cancelled at once and gives its queue slot back; a task with an
    execution keeps it and its reservation, and is stopping or preempting with
    the cancellation winning over whatever its worker reports. *)
Theorem cancel_takes_effect db i t (Hr : reachable db) (Ht : Db.tasks db !! i = Some t) :
  exists t' db', cancel i db = (inr (Some t'), db') /\ Db.tasks db' !! i = Some t' /\
    cancelled_as t t' db db'.
Proof.
  pose proof (reachable_ok db Hr) as Hok.
  assert (wp (cancel i) db (fun r db' => exists t', r = Some t' /\ Db.tasks db' !! i = Some t' /\
    cancelled_as t t' db db') (fun _ _ => False)) as H.
  { destruct (final (status t)) eqn:Hf; [|destruct (waiting (status t)) eqn:Hw].
    - unfold cancel, cancelled_as. wstep. rewrite Ht, Hf.
      assert (inb (status t) [SUCCEEDED; FAILED; CANCELLED; TIMED_OUT; PREEMPTED] = true) as ->
        by by destruct (status t).
      wstep. by exists t.
    - by apply cancel_waiting.
    - apply cancel_placed; try done. by destruct (status t). }
  apply wp_returns in H as (r & db' & Hc & t' & -> & H1 & H2). eauto.
Qed.

Lemma cancel_takes_effect_witness :
  exists t' db', cancel 1 Scenario.running = (inr (Some t'), db') /\ status t' = STOPPING /\
    cancellation_wins t' = true.
Proof.
  destruct (Db.tasks Scenario.running !! 1%N) as [t|] eqn:E; [|present E].
  destruct (cancel_takes_effect Scenario.running 1 t Scenario.running_reachable E)
    as (t' & db' & H & _ & Hc).
  assert (status t = RUNNING) as Hs by (vm_compute in E; injection E as <-; reflexivity).
  unfold cancelled_as in Hc. rewrite Hs in Hc. destruct Hc as (_ & Hw & _).
  assert (status t' = STOPPING) as Hs'.
  { clear Hw. vm_compute in H. injection H as <- _. reflexivity. }
  exists t', db'. exact (conj H (conj Hs' Hw)).
Defined.
