(* ===== verification/Completion.v ===== *)
(** * Completions return

    Total correctness of [finish_execution]: the holder of the execution's
    token always gets an answer, the execution is released, and the task ends
    in the classified outcome or waits for a retry. *)

From S2P Require Import Prelude PyFloat PyString Enums Policies Store Quotas Reservations Tasks.
From S2P Require Import Workers Invariant Transaction Lifecycle Recovery Placement System Scenario.
From S2P Require Import Fencing Outcomes.
From Stdlib Require Import QArith.

#[local] Open Scope stdpp_scope.
#[local] Open Scope Z_scope.

Import Task StateMachine.

(** ** Re-admission always answers *)
Lemma admit_queued_answers p db q s :
  Db.quotas db !! p = Some q -> Db.quota_states db !! p = Some s -> state_wf s ->
  wp (admit_queued p) db (fun _ _ => True)
    (fun e _ => exists m, e = QuotaExceededError m).
Proof.
  intros Hq Hs Hwf. unfold admit_queued. apply wp_bind. eapply wp_get_locked; [done..|].
  intros s1 Hw1 _ _. unfold _check_limit. wstep; [eauto|]. apply wp_touch; [|done].
  destruct (state_wf_elim s1 Hw1) as (? & ? & ? & ? & ? & ? & ?). destruct Hw1.
  apply state_wf_intro; fields; done || lia.
Qed.

Lemma admit_retry_answers db0 t0 R d db t :
  W db0 t0 R d db t -> exists b db', _admit_retry (project_id t) db = (inr b, db').
Proof.
  intros HW. destruct (W_quota HW) as [s Hs]. pose proof (I_quota _ _ _ (W_inv _ _ _ _ _ _ HW)) as HQ.
  destruct (quota_rows _ _ _ _ _ HQ _ (ex_intro _ _ Hs)) as [q Hq].
  destruct (quota_counters _ _ _ _ _ HQ _ _ Hs) as [Hwf _].
  pose proof (admit_queued_answers _ _ _ _ Hq Hs Hwf) as H. unfold wp in H.
  unfold _admit_retry, mbind, M_bind, gets, try_except. rewrite Hs.
  destruct (admit_queued (project_id t) db) as [[e|?] db1]; [|eauto].
  destruct H as [m ->]. eauto.
Qed.

(** ** The end of a completion *)

(** The delay of the next attempt can be computed, and the attempt at [now]
    plus that delay is a [datetime]. *)
Definition retry_computable (now : Z) (t : Task.t) (m : float) : Prop :=
  exists delay, retry_delay_seconds (retry_count t + 1) (fmin (retry_max_seconds t) m)
                  (retry_backoff t) (retry_base_seconds t) = inr delay /\ addable now delay = true.

Lemma retry_legal o t x : retry_wanted t o x = true -> can_transition (Outcome.target o) RETRYING = true.
Proof. unfold retry_wanted. by destruct (Outcome.target o). Qed.

Lemma tr_retry t s n : retry_count (transitioned t s n) = retry_count t.
Proof. unfold transitioned, stamp. by destruct s. Qed.
Lemma tr_retry_max t s n : retry_max_seconds (transitioned t s n) = retry_max_seconds t.
Proof. unfold transitioned, stamp. by destruct s. Qed.
Lemma tr_retry_base t s n : retry_base_seconds (transitioned t s n) = retry_base_seconds t.
Proof. unfold transitioned, stamp. by destruct s. Qed.
Lemma tr_retry_backoff t s n : retry_backoff (transitioned t s n) = retry_backoff t.
Proof. unfold transitioned, stamp. by destruct s. Qed.

Lemma settle_outcome_run db0 t0 R d db t o x now m :
  W db0 t0 R d db t -> status t = Outcome.target o -> retry_computable now t m ->
  wp (settle_outcome t o x now m) db
    (fun r db' => status r.1 = (if r.2 then RETRYING else Outcome.target o) /\ id r.1 = id t /\
                  (r.2 = true -> execution_id r.1 = None /\ worker_id r.1 = None) /\
                  Db.reservations db' = R)
    (fun _ _ => False).
Proof.
  intros HW Hs (delay & Hdel & Hadd). unfold settle_outcome. apply wp_bind.
  assert (exists adm db1, (if ((Outcome.target o == PREEMPTED) && requeue_on_preempt t)
             || retry_wanted t o x then _admit_retry (project_id t) else mret false) db = (inr adm, db1))
    as (adm & db1 & Ha) by (destruct (_ || _); [by eapply admit_retry_answers|by repeat eexists]).
  eapply wp_eq; [exact Ha|].
  assert (Db.reservations db1 = R) as HR.
  { destruct (_ || _); [|apply ret_ok in Ha as [_ ->]; apply HW].
    eapply W_admit_retry in Ha; [|done|apply (W_project _ _ _ _ _ _ HW)]. apply Ha. }
  clear Ha. destruct (retry_wanted t o x) eqn:Ew; cbn [andb]; [destruct adm|].
  - apply wp_bind, wp_transition; [tfields; rewrite Hs; by eapply retry_legal|].
    apply wp_bind. rewrite tr_retry, tr_retry_max, tr_retry_base, tr_retry_backoff. fields.
    change (Z.succ (retry_count t)) with (retry_count t + 1). rewrite Hdel. unfold lift. wstep.
    apply wp_bind. eapply wp_eq; [by apply plus_seconds_run|]. apply wp_ret. unfold store_event, store_task. cbn. split_and!; by tfields.
  - rewrite andb_false_r. repeat wstep. by split_and!.
  - destruct (_ && adm) eqn:E; [|repeat wstep; by split_and!].
    apply andb_true_iff in E as [[E _]%andb_true_iff _]. rewrite eqb_true in E.
    apply wp_bind, wp_transition; [by rewrite Hs, E|]. apply wp_ret.
    unfold store_event, store_task. cbn. split_and!; by tfields.
Qed.

Lemma set_execution_error_returns e c k m db : exists db', set_execution_error e c k m db = (inr tt, db').
Proof.
  unfold set_execution_error, mbind, M_bind, get_execution, gets.
  destruct (Db.executions db !! e); by eexists.
Qed.

(** The release of the execution and the end of the completion. *)
Lemma finish_tail_run db0 t0 R db t w e c x now m target reason b0 A (k : Task.t -> bool -> A) :
  W db0 t0 R settled db t -> owner (id t0) e R -> settleable db e ->
  (forall k r, R !! k = Some r -> ResourceReservation.execution_id r = e ->
     ResourceReservation.project_id r = project_id t0) ->
  status t = Outcome.target c -> retry_computable now t m ->
  wp ('(released, task) ← release_and_settle t e target now reason;
   _ ← when (negb released) (release_legacy_capacity w task);
   _ ← set_execution_error e (Outcome.error_category c) (Outcome.error_code c)
         (Outcome.error_message c);
   _ ← when b0 (_complete_preemption_plans (id task) now);
   '(task, retry_scheduled) ← settle_outcome task c x now m;
   _ ← put_task task;
   mret (k task retry_scheduled)) db
  (fun r db' => exists t' b, r = k t' b /\ Db.tasks db' !! id t0 = Some t' /\
     status t' = (if b then RETRYING else Outcome.target c) /\ vacant (id t0) (Db.reservations db') /\
     (b = true -> execution_id t' = None /\ worker_id t' = None))
  (fun _ _ => False).
Proof.
  intros HW Hown Hset Hpr Hs Hret.
  pose proof (settle_run HW (fun _ => eq_refl) e target now reason Hown Hset Hpr) as Hrun.
  apply wp_returns in Hrun as ([b t1] & db1 & Hrun & _).
  apply wp_bind. eapply wp_eq; [exact Hrun|].
  destruct (W_settle _ _ _ _ _ _ _ _ _ _ _ _ _ HW Hown Hrun) as (-> & R' & HW1 & Hv & cost & ->).
  clear HW Hrun Hset. cbv beta iota. cbn [negb]. wstep; [done|].
  apply wp_bind.
  destruct (set_execution_error_returns e (Outcome.error_category c) (Outcome.error_code c)
    (Outcome.error_message c) db1) as (db2 & Hx).
  eapply wp_eq; [exact Hx|]. apply (W_execution_error _ _ _ _ _ _ _ _ _ _ _ _ HW1) in Hx.
  clear HW1. rename Hx into HW. apply wp_bind.
  assert (exists db3, when b0 (_complete_preemption_plans (id (t <| estimated_cost := cost |>)) now) db2
                      = (inr tt, db3)) as [db3 Hp] by (destruct b0; by eexists).
  eapply wp_eq; [exact Hp|]. apply (W_plans_done _ _ _ _ _ _ _ _ _ _ _ HW) in Hp. clear HW.
  apply wp_bind. eapply wp_mono; [eapply settle_outcome_run; [exact Hp|done|exact Hret]| |done].
  intros [t2 b] db4 (S1 & S2 & S3 & HR). cbn [fst snd] in *. repeat wstep.
  exists t2, b. rewrite (W_id _ _ _ _ _ _ Hp) in S2. split_and!; try done.
  - fields. rewrite S2. apply lookup_insert_eq.
  - fields. by rewrite HR.
Qed.

(** ** Completions *)

(** The session, if one is given, owns the execution. *)
Definition session_ok (db : Db.t) (w : string) (e : N) (s : option N) : Prop :=
  match s with Some i => _session_owns_execution w e i db = (inr true, db) | None => True end.

Lemma session_owns_ext db db' w e i b :
  Db.workers db' = Db.workers db -> Db.reservations db' = Db.reservations db ->
  _session_owns_execution w e i db = (inr b, db) -> _session_owns_execution w e i db' = (inr b, db').
Proof.
  unfold _session_owns_execution, mbind, M_bind, get_worker, gets. intros -> ER H.
  destruct (Db.workers db !! w); [|by injection H as <-].
  destruct (_ !== i); [by injection H as <-|]. rewrite ER. by injection H as <-.
Qed.

Lemma settleable_ext db db' e :
  Db.workers db' = Db.workers db -> Db.reservations db' = Db.reservations db ->
  Db.executions db' = Db.executions db -> settleable db e -> settleable db' e.
Proof. unfold settleable. by intros -> -> ->. Qed.

Lemma uf_retry t now a b m c : retry_computable c t m -> retry_computable c (usage_figures t now a b) m.
Proof. unfold usage_figures. by destruct (started_at t). Qed.

Lemma finish_run db i t w e x o m cp gp s :
  ok db -> Db.tasks db !! i = Some t -> placed (status t) = true ->
  worker_id t = Some w -> execution_id t = Some e -> session_ok db w e s ->
  final (Outcome.target o) = true ->
  can_transition (status t) (Outcome.target (classify t x o)) = true ->
  settleable db e -> retry_computable (Db.clock db) t m ->
  wp (finish_execution i w e x o m cp gp s) db
    (fun r db' => exists t', ExecutionResult.accepted r = true /\
       ExecutionResult.status r = Some (status t') /\ Db.tasks db' !! i = Some t' /\
       status t' = (if ExecutionResult.retry_scheduled r then RETRYING
                    else Outcome.target (classify t x o)) /\
       vacant i (Db.reservations db') /\
       (ExecutionResult.retry_scheduled r = true -> execution_id t' = None /\ worker_id t' = None))
    (fun _ _ => False).
Proof.
  intros Hok Ht Hp Hw He Hs Hfin Hl Hset Hret. pose proof (classify_final t x o Hfin) as Hcf.
  assert (id t = i) as Hi by (destruct Hok as [[]]; eauto).
  unfold finish_execution. wstep. rewrite Ht, Hw, He, !eqb_same. cbn [negb orb].
  assert (inb (status t) ACTIVE_TASK_STATUSES = true) as -> by by destruct (status t).
  cbn [negb]. apply wp_bind.
  pose proof (W_open _ _ _ Hok Ht) as HW.
  assert (exists db1, match s with
     | Some i0 => _ ← get_locked (project_id t); _session_owns_execution w e i0
     | None => mret true end db = (inr true, db1) /\
     W db t (Db.reservations db) settled db1 t /\ settleable db1 e /\ Db.clock db1 = Db.clock db)
    as (db1 & Hd1 & HW1 & Hset1 & Hclk).
  { destruct s as [s|]; [|by exists db].
    destruct (W_quota HW) as [st Hst]. pose proof (I_quota _ _ _ Hok) as HQ.
    destruct (quota_rows _ _ _ _ _ HQ _ (ex_intro _ _ Hst)) as [q Hq].
    destruct (quota_counters _ _ _ _ _ HQ _ _ Hst) as [Hwf _].
    destruct (get_locked_run _ _ _ _ Hq Hst Hwf) as (s1 & Hg & _).
    exists (set_state (project_id t) s1 db). split_and!; [|by eapply W_get_locked|done..].
    etransitivity; [eapply bind_run; exact Hg|]. by eapply session_owns_ext; [..|exact Hs]. }
  eapply wp_eq; [exact Hd1|]. cbn [negb]. clear Hd1 HW Hset. wstep.
  set (c := classify t x o) in *.
  destruct (_transition t (Outcome.target c) (Db.clock db1)
    ("task." +:+ TaskStatus_value (Outcome.target c))%string db1) as [[?|t1] db2] eqn:Htr.
  { exfalso. unfold _transition, ensure_transition in Htr. by rewrite Hl in Htr. }
  apply wp_bind. eapply wp_eq; [exact Htr|].
  pose proof (transition_run _ _ _ _ _ _ _ Htr) as (_ & _ & Edb2).
  apply (W_transition HW1) in Htr as (HW2 & -> & _); [|done|apply same_task_refl].
  wstep. match goal with |- wp _ ?y _ _ => set (db3 := y) end.
  match goal with |- context [release_and_settle ?y] => set (t2 := y) in * end.
  assert (id t2 = id t /\ status t2 = Outcome.target c) as [Hi2 Hs2] by (unfold t2; by tfields).
  assert (W db t (Db.reservations db) settled db3 t2) as HW3.
  { eapply W_ext; [apply (W_put HW2); [by rewrite tr_id|unfold t2; same]|].
    intros p. rewrite (wz_placed _ Hp), (wz_final _ Hcf). unfold shift. case_match; by apply Usage.ext. }
  assert (settleable db3 e) as Hset3 by (unfold db3; by rewrite Edb2).
  assert (retry_computable (Db.clock db1) t2 m) as Hret2.
  { apply uf_retry. unfold retry_computable. rewrite Hclk. fields.
    by rewrite tr_retry, tr_retry_max, tr_retry_base, tr_retry_backoff. }
  clearbody db3 t2 c. destruct (owner_of _ _ _ Hok Ht Hp) as (e' & He' & Hown).
  assert (e' = e) as -> by congruence.
  eapply wp_mono; [eapply (finish_tail_run _ _ _ _ _ w e c x _ m); [exact HW3|by rewrite Hi|done| |done..]| |done].
  - intros k r Hk Ee. destruct Hown as (k0 & r0 & Hk0 & Ha0 & Et0 & Ee0 & _).
    destruct Hok as [_ _ [P1 _ _ P4 _ _] _ _ _ _].
    assert (k = k0) as -> by (eapply P4; [done..|congruence]). assert (r = r0) as -> by congruence.
    destruct (P1 _ _ Hk0 Ha0) as (t' & Ht' & _ & _ & _ & Hpr); [done|]. congruence.
  - intros r db' (t' & b & -> & H1 & H2 & H3 & H4). exists t'. cbn. rewrite <-Hi. by split_and!.
Qed.

(** C24: completions return.  Let a task of a reachable database be placed, let
    the caller name its worker and execution token and, where it names a
    session, the worker's present one, and let it report a final status whose
    classified outcome the state machine allows from the task's status.  If the
    execution is [settleable] -- its resources and prices are not negative, and
    the worker's reserved CPU covers the reservation -- and the delay of a
    retry is [retry_computable], then [finish_execution] returns and accepts;
    afterwards the task has no active reservation and is in the classified
    outcome, or waits for the retry that was scheduled and is owned by
    nobody. *)
Theorem completion_returns db i t w e x o m cp gp s
    (Hr : reachable db) (Ht : Db.tasks db !! i = Some t) (Hp : placed (status t) = true)
    (Hw : worker_id t = Some w) (He : execution_id t = Some e) (Hs : session_ok db w e s)
    (Hf : final (Outcome.target o) = true)
    (Hl : can_transition (status t) (Outcome.target (classify t x o)) = true)
    (Hset : settleable db e) (Hret : retry_computable (Db.clock db) t m) :
  exists r db' t', finish_execution i w e x o m cp gp s db = (inr r, db') /\
    ExecutionResult.accepted r = true /\ ExecutionResult.status r = Some (status t') /\
    Db.tasks db' !! i = Some t' /\
    status t' = (if ExecutionResult.retry_scheduled r then RETRYING
                 else Outcome.target (classify t x o)) /\
    vacant i (Db.reservations db') /\
    (ExecutionResult.retry_scheduled r = true -> execution_id t' = None /\ worker_id t' = None).
Proof.
  pose proof (finish_run db i t w e x o m cp gp s (reachable_ok db Hr) Ht Hp Hw He Hs Hf Hl Hset Hret) as H.
  apply wp_returns in H as (r & db' & Hrun & t' & H). exists r, db', t'. by split.
Qed.

Lemma settled_task (b b' : bool) t t' (db db' : Db.t) :
  (mret (b', t) : Sess (bool * Task.t)) db = (inr (b, t'), db') -> t' = t.
Proof. intros H. by apply ret_ok in H as [[= -> ->] _]. Qed.

(** Task 1 of the sample run succeeds. *)
Lemma completion_returns_witness :
  exists r db', finish_execution 1 "w1" 101 (Some 0) (Outcome.mk SUCCEEDED None None None)
    (float_of_Z 60) f0 f0 (Some 11%N) Scenario.running = (inr r, db') /\
    ExecutionResult.status r = Some SUCCEEDED /\ vacant 1 (Db.reservations db').
Proof.
  destruct (Db.tasks Scenario.running !! 1%N) as [t|] eqn:E; [|present E].
  assert (placed (status t) = true /\ worker_id t = Some "w1" /\ execution_id t = Some 101%N /\
    can_transition (status t) (Outcome.target (classify t (Some 0)
      (Outcome.mk SUCCEEDED None None None))) = true /\
    Outcome.target (classify t (Some 0) (Outcome.mk SUCCEEDED None None None)) = SUCCEEDED /\
    retry_delay_seconds (retry_count t + 1) (fmin (retry_max_seconds t) (float_of_Z 60))
      (retry_backoff t) (retry_base_seconds t) = inr (float_of_Z 1))
    as (H1 & H2 & H3 & H4 & H5 & H6)
    by (vm_compute in E; injection E as <-; vm_compute; split_and!; reflexivity).
  destruct (completion_returns Scenario.running 1 t "w1" 101 (Some 0)
    (Outcome.mk SUCCEEDED None None None) (float_of_Z 60) f0 f0 (Some 11%N)
    Scenario.running_reachable E H1 H2 H3) as (r & db' & t' & Hf & Ha & Hs & _ & Ht & Hv & _).
  - vm_compute. reflexivity.
  - reflexivity.
  - exact H4.
  - apply settleable_checked. vm_compute. reflexivity.
  - exists (float_of_Z 1). split; [exact H6|vm_compute; reflexivity].
  - exists r, db'. split; [exact Hf|]. split; [|exact Hv]. rewrite Hs, Ht, H5.
    assert (ExecutionResult.retry_scheduled r = false) as ->; [|reflexivity].
    clear Hs Ht Hv. vm_compute in Hf. injection Hf as <- _. reflexivity.
Defined.

(** A settlement changes only the cost of the task object. *)
Lemma release_task t e fs now reason db b t' db' :
  release_and_settle t e fs now reason db = (inr (b, t'), db') -> id t' = id t /\ status t' = status t.
Proof.
  unfold release_and_settle. intros H. apply bind_ok in H as (r & db1 & _ & H).
  destruct r; [|rewrite (settled_task _ _ _ _ _ _ H); split; reflexivity].
  do 5 apply bind_ok in H as (? & ? & _ & H). apply bind_ok in H as (ex & ? & _ & H).
  destruct ex; [|by apply raise_ok in H]. destruct (started_at t).
  - apply bind_ok in H as (? & ? & _ & H). apply bind_ok in H as (led & ? & _ & H). destruct led.
    + apply bind_ok in H as (? & ? & _ & H). rewrite (settled_task _ _ _ _ _ _ H); split; reflexivity.
    + do 3 apply bind_ok in H as (? & ? & _ & H). rewrite (settled_task _ _ _ _ _ _ H); split; reflexivity.
  - do 2 apply bind_ok in H as (? & ? & _ & H). rewrite (settled_task _ _ _ _ _ _ H); split; reflexivity.
Qed.

(** A cancellation decides the outcome.  When a cancellation has won over a
    task, an accepted completion ends it as cancelled,
    whatever the worker reports, and no retry is scheduled. *)
Theorem cancellation_decides db i t w e x o m cp gp s r db'
    (Ht : Db.tasks db !! i = Some t) (Hc : cancellation_wins t = true)
    (H : finish_execution i w e x o m cp gp s db = (inr r, db'))
    (Ha : ExecutionResult.accepted r = true) :
  ExecutionResult.status r = Some CANCELLED /\ ExecutionResult.retry_scheduled r = false /\
  exists t', Db.tasks db' !! id t = Some t' /\ status t' = CANCELLED.
Proof.
  unfold finish_execution in H. apply bind_ok in H as (y & db1 & Hy & H). minv Hy. rewrite Ht in H.
  destruct (_ || _); [by apply ret_ok in H as [-> _]|].
  destruct (negb (inb _ _)); [by apply ret_ok in H as [-> _]|].
  apply bind_ok in H as (owns & db1 & _ & H).
  destruct (negb owns); [by apply ret_ok in H as [-> _]|].
  unfold classify in H. rewrite Hc in H. cbn [Outcome.target Outcome.error_category] in H.
  apply bind_ok in H as (now & db2 & _ & H). apply bind_ok in H as (t1 & db3 & Htr & H).
  apply transition_run in Htr as (-> & _ & _).
  apply bind_ok in H as ([] & db4 & _ & H). apply bind_ok in H as ([b t2] & db5 & Hset & H).
  destruct (release_task _ _ _ _ _ _ _ _ _ Hset) as (Hi2 & Hs2).
  apply bind_ok in H as ([] & db6 & _ & H). apply bind_ok in H as ([] & db7 & _ & H).
  apply bind_ok in H as ([] & db8 & _ & H). apply bind_ok in H as ([t3 b3] & db9 & Hout & H).
  unfold settle_outcome in Hout. cbn in Hout.
  apply bind_ok in Hout as (adm & db10 & Hadm & Hout). apply ret_ok in Hadm as [-> ->].
  apply bind_ok in Hout as ([] & db11 & _ & Hout). apply ret_ok in Hout as [[= -> ->] ->].
  minv H. cbn. revert Hi2 Hs2. tfields. intros Hi2 Hs2. rewrite Hs2. split_and!; try done.
  eexists. rewrite Hi2. split; [apply lookup_insert_eq|done].
Qed.

Lemma cancellation_decides_witness :
  exists r db', finish_execution 1 "w1" 101 (Some 0) (Outcome.mk SUCCEEDED None None None)
    (float_of_Z 60) f0 f0 (Some 11%N) Scenario.stopping = (inr r, db') /\
    ExecutionResult.status r = Some CANCELLED.
Proof.
  destruct (Db.tasks Scenario.stopping !! 1%N) as [t|] eqn:E; [|present E].
  assert (cancellation_wins t = true) as Hc by (vm_compute in E; injection E as <-; reflexivity).
  destruct (finish_execution 1 "w1" 101 (Some 0) (Outcome.mk SUCCEEDED None None None)
    (float_of_Z 60) f0 f0 (Some 11%N) Scenario.stopping) as [[x|r] db'] eqn:F; [present F|].
  exists r, db'. split; [reflexivity|].
  apply (cancellation_decides _ _ _ _ _ _ _ _ _ _ _ _ _ E Hc F).
  vm_compute in F. injection F as <- _. reflexivity.
Defined.

(** ** A CPU share that is not a whole number of millicores *)
Definition fractional : Db.t :=
  Scenario.run
    [OpRegister Scenario.registration;
     OpCreate 1 (Scenario.submission (float_of_Q (2496 # 10000)));
     OpClaim 101 201 ∅ 1 "w1" Scenario.lease (Some 11%N) Scenario.free;
     OpPulling 1 "w1" 101 Scenario.lease (Some 11%N) f0;
     OpRunning 1 "w1" 101 Scenario.lease (Some 11%N) f0] Scenario.start.

(** The operation ended in [ResourceInvariantViolation]. *)
Definition resource_violation (r : PyError + unit) : bool :=
  match r with inl (ResourceInvariantViolation _) => true | _ => false end.

(** A run in which a task claimed with a CPU share that is not a whole number
    of millicores cannot be completed.  The claim adds the share itself to the
    worker's reserved CPU, the settlement subtracts the rounded millicores:
    for 0.2496 cores the counter is below the 250 millicores to release, so
    both the completion by the owner and, after the lease has expired, the
    recovery pass raise [ResourceInvariantViolation]. *)
Theorem fractional_share_strands_execution :
  (status <$> Db.tasks fractional !! 1%N) = Some RUNNING /\
  resource_violation (exec (OpFinish 1 "w1" 101 (Some 0) (Outcome.mk SUCCEEDED None None None) f0 f0 f0
    (Some 11%N)) fractional).1 = true /\
  resource_violation (exec (OpRecover 10 3 f0 ∅) (fractional <| Db.clock := 61000000 |>)).1 = true.
Proof. split_and!; vm_compute; reflexivity. Qed.
