(* ===== verification/Claims.v ===== *)
(** * What a claim establishes

    A successful pull-mode claim: the task was ready, the worker stays within
    its capacity, the devices were free and qualify, and the project stays
    within its limits. *)

From S2P Require Import Prelude PyFloat PyString Enums Policies Store Quotas Reservations Tasks.
From S2P Require Import Scheduling Workers Invariant Transaction Lifecycle Placement System Scenario.

Import Task StateMachine.

Lemma bind_devices_frame rid ds now db u db' :
  bind_devices rid ds now db = (inr u, db') ->
  Db.tasks db' = Db.tasks db /\ Db.workers db' = Db.workers db /\
  Db.quotas db' = Db.quotas db /\ Db.quota_states db' = Db.quota_states db /\ Db.clock db' = Db.clock db.
Proof.
  intros H. unfold bind_devices in H. pattern db'.
  eapply (for_each_inv (fun s => Db.tasks s = Db.tasks db /\ Db.workers s = Db.workers db /\
    Db.quotas s = Db.quotas db /\ Db.quota_states s = Db.quota_states db /\ Db.clock s = Db.clock db));
    [|done|exact H].
  intros x s1 [] s2 _ (E1 & E2 & E3 & E4 & E5) Hb. unfold insert_link in Hb. minv Hb. by fields.
Qed.

(** The rows and the limits after capacity was reserved for a task. *)
Lemma reserve_assignment_ok alloc eid rid t w w' ds now prices db u db' :
  reserve_assignment alloc eid rid t w w' ds now prices db = (inr u, db') ->
  Db.tasks db' = Db.tasks db /\ Db.workers db' = <[Worker.id w' := w']> (Db.workers db) /\
  exists q s, Db.quotas db' !! project_id t = Some q /\ Db.quota_states db' !! project_id t = Some s /\
    within_limits q s /\
    exists s0, Db.quota_states db !! project_id t = Some s0 /\ affordable q (Db.clock db) s0 ZERO_COST.
Proof.
  intros H. unfold reserve_assignment in H.
  do 2 (apply bind_ok in H as (? & ? & Hg & H); minv Hg).
  apply bind_ok in H as (? & ? & Hg & H). unfold insert_execution in Hg. minv Hg.
  apply bind_ok in H as (? & ? & Hg & H). unfold insert_reservation in Hg. minv Hg.
  apply bind_ok in H as (? & db1 & Hl%bind_devices_frame & H).
  apply bind_ok in H as (? & ? & ->%assert_binding_db & H).
  apply bind_ok in H as (? & ? & Hq & H). apply ret_ok in H as [_ ->].
  pose proof Hq as (q & (s0 & Eq & Es & _ & _ & _ & ->) & Hlim)%reserve_execution_ok.
  destruct (reserve_execution_admissible _ _ _ _ _ _ _ _ _ _ _ Eq Es Hq) as [[_ _ _ _ _ _ Hcost] _].
  destruct Hl as (E1 & E2 & E3 & E4 & E5). fields in E1. fields in E2. fields in E4. fields in E5.
  rewrite E4 in Es. rewrite E5 in Hcost. split_and!; [done..|].
  destruct (set_state_lookup (project_id t) x1 db1) as [_ Hst]. exists q, x1. by eauto 6.
Qed.

Lemma dependencies_met db i :
  _unsatisfied_dependencies db i = false ->
  forall d p, d ∈ dependencies_of db i -> Db.tasks db !! TaskDependency.depends_on_task_id d = Some p ->
    status p = SUCCEEDED.
Proof.
  intros H d p Hd Hp. unfold _unsatisfied_dependencies in H.
  eapply existsb_false_elem in H; [|exact Hd]. cbv beta in H. rewrite Hp in H.
  apply negb_false_iff in H. by rewrite eqb_true in H.
Qed.

Lemma claim_devices_ok w t ld db d :
  d ∈ claim_devices w t ld db -> claimable_device db w t d = true /\ GPUDevice.id d ∉ ld.
Proof.
  unfold claim_devices. intros (j & Hd & _)%elem_of_take.
  apply list_elem_of_lookup_2 in Hd. apply list_elem_of_In, List.filter_In in Hd as [Hd Hl].
  apply list_elem_of_In, elem_of_py_sort in Hd. apply list_elem_of_In, List.filter_In in Hd as [_ Hc].
  apply negb_true_iff, bool_decide_eq_false in Hl. done.
Qed.

(** The worker [w], as [w'] with task [t], is within its capacity.  The CPU
    column is a float: the millicores it stands for before the claim, rounded
    as the code rounds them, and those of the task fit. *)
Record within_capacity (w : Worker.t) (t : Task.t) (w' : Worker.t) : Prop := {
  wc_slots : Worker.running_tasks w' = Worker.running_tasks w + 1 /\
    Worker.running_tasks w' <= Worker.concurrency w';
  wc_cpu : Worker.reserved_cpu w' = fadd (Worker.reserved_cpu w) (cpu_limit t) /\
    py_round (fmul (Worker.reserved_cpu w) (float_of_Z 1000)) + cpu_millicores t
      <= Worker.cpu_allocatable_millicores w';
  wc_memory : Worker.reserved_memory_mb w' = Worker.reserved_memory_mb w + memory_limit_mb t /\
    Worker.reserved_memory_mb w' <= Worker.memory_allocatable_mb w';
  wc_gpus : Worker.reserved_gpus w' = Worker.reserved_gpus w + gpu_count t /\
    Worker.reserved_gpus w' <= Worker.gpu_count w';
}.

Lemma claimed_within w t t' :
  Worker.running_tasks w < Worker.concurrency w -> _worker_can_run_task w t = true ->
  memory_limit_mb t' = memory_limit_mb t -> gpu_count t' = gpu_count t -> cpu_limit t' = cpu_limit t ->
  within_capacity w t (worker_claimed w t').
Proof.
  unfold _worker_can_run_task, worker_claimed. intros Hc H E1 E2 E3. bools.
  constructor; tfields; rewrite ?E1, ?E2, ?E3; split; try done; lia.
Qed.

(** The facts a successful claim establishes, one group per table. *)
Record claim_facts (db db' : Db.t) (i : N) (w : string) (eid : N) (t' : Task.t) (t : Task.t)
    (wk wk' : Worker.t) (ds : list GPUDevice.t) (q : Quota) (st : QState) : Prop := {
  claim_ready : Db.tasks db !! i = Some t /\ status t = QUEUED /\ cancel_requested t = false /\
    forall d p, d ∈ dependencies_of db i ->
      Db.tasks db !! TaskDependency.depends_on_task_id d = Some p -> status p = SUCCEEDED;
  claim_task : Db.tasks db' !! i = Some t' /\ status t' = ASSIGNED /\ worker_id t' = Some w /\
    execution_id t' = Some eid;
  claim_bound : lenZ ds = gpu_count t /\ gpu_device_ids t' = GPUDevice.device_uuid <$> ds /\
    forall d, d ∈ ds -> claimable_device db wk t d = true;
  claim_worker : Db.workers db !! w = Some wk /\ Worker.status wk = ONLINE /\
    Db.workers db' !! w = Some wk' /\ within_capacity wk t wk';
  claim_limits : Db.quotas db' !! project_id t = Some q /\
    Db.quota_states db' !! project_id t = Some st /\ within_limits q st;
  claim_cost : exists s0, Db.quota_states db !! project_id t = Some s0 /\
    affordable q (Db.clock db) s0 ZERO_COST;
}.

Lemma claim_ok eid rid ld i w l s prices db t' e' db' :
  ok db -> claim eid rid ld i w l s prices db = (inr (t', e'), db') ->
  e' = eid /\ exists t wk wk' ds q st, claim_facts db db' i w eid t' t wk wk' ds q st.
Proof.
  intros Hok H.
  unfold claim in H. apply bind_ok in H as (? & ? & Hg & H). minv Hg.
  destruct (Db.tasks db !! i) as [t|] eqn:Ht; [|by minv H].
  assert (i = id t) as -> by (symmetry; destruct Hok as [[]]; eauto).
  apply bind_ok in H as ([] & ? & Hg & H). apply raise_if_ok in Hg as (Hq & _ & ->). bools.
  apply bind_ok in H as (? & ? & Hg & H). unfold dependencies_ready in Hg. minv Hg.
  apply bind_ok in H as ([] & ? & Hg & H). apply raise_if_ok in Hg as (Hdep & _ & ->).
  rewrite negb_involutive in Hdep.
  apply bind_ok in H as ([q0 s0] & db1 & Hg & H).
  pose proof Hg as (sq & _ & Esq & _ & _ & _ & Edb1)%get_locked_ok.
  pose proof (get_locked_today _ _ _ _ _ _ Esq Hg) as (D & C1 & C2). clear Hg.
  apply bind_ok in H as (? & ? & Hg & H). minv Hg.
  destruct (Db.workers (set_state (project_id t) s0 db) !! w) as [wk|] eqn:Hwk; [|by minv H].
  change (Db.workers db !! w = Some wk) in Hwk.
  assert (w = Worker.id wk) as -> by (symmetry; destruct Hok as [[]]; eauto).
  do 4 (apply bind_ok in H as ([] & ? & Hg & H); apply raise_if_ok in Hg as (? & _ & ->)).
  apply bind_ok in H as (ds & ? & Hg & H). apply gets_ok in Hg as [Eds ->].
  apply bind_ok in H as ([] & ? & Hg & H). apply raise_if_ok in Hg as (Hlen & _ & ->). bools.
  apply bind_ok in H as (now & ? & Hg & H). apply gets_ok in Hg as [_ ->].
  apply bind_ok in H as (t1 & db2 & Htr & H). apply transition_run in Htr as (-> & _ & ->).
  apply bind_ok in H as (? & ? & [-> ->]%plus_seconds_ok & H).
  apply bind_ok in H as ([] & db3 & Hput & H). apply modify_ok in Hput as [_ ->].
  set (t1 := upd gpu_device_ids _ _) in *.
  apply bind_ok in H as (? & db4 & Hres & H). apply bind_ok in H as ([] & db5 & Hob & H).
  apply modify_ok in Hob as [_ ->]. apply ret_ok in H as [[= -> ->] ->].
  apply reserve_assignment_ok in Hres as (ET & EW & q & st & Hq1 & Hst & Hlim & sr & Esr & Hcost).
  assert (id t1 = id t /\ status t1 = ASSIGNED /\ worker_id t1 = Some (Worker.id wk) /\
    execution_id t1 = Some eid /\ project_id t1 = project_id t) as (T1 & T2 & T3 & T4 & T5)
    by (unfold t1, _prepare_for_assignment; by tfields).
  assert (gpu_device_ids t1 = GPUDevice.device_uuid <$> ds) as T6.
  { unfold t1. tfields. case_bool_decide as E; [|done]. rewrite E. unfold transitioned, stamp. by tfields. }
  split; [done|]. exists t, wk, (worker_claimed wk t1), ds, q, st. constructor; [split_and!..|]; try done.
  - by apply dependencies_met.
  - fields. rewrite ET. fields. rewrite T1. apply lookup_insert_eq.
  - intros d Hd. subst ds. destruct (gpu_count t =? 0); [by inversion Hd|].
    by apply claim_devices_ok in Hd as [Hd _].
  - fields. rewrite EW. apply lookup_insert_eq.
  - eapply claimed_within; [eassumption|eassumption|..]; unfold t1, transitioned, stamp; by tfields.
  - rewrite T5 in Esr. change (<[project_id t := s0]> (Db.quota_states db) !! project_id t = Some sr) in Esr.
    rewrite lookup_insert_eq in Esr. injection Esr as <-. exists sq. split; [done|].
    destruct (today_settled _ _ _ D C1 C2) as [Z1 Z2]. unfold affordable in Hcost |- *.
    rewrite <-Z1, <-Z2. exact Hcost.
Qed.


