(* ===== verification/Serving.v ===== *)
(** * Gang placement of serving replicas ([scheduler/serving.py])

    All GPUs of a tensor-parallel replica come from one worker, or none is
    allocated. *)

From S2P Require Import Prelude PyString Enums Store.

(** ** Data *)
Inductive ServingPlacementReason :=
  INSUFFICIENT_CONTIGUOUS_GPUS | GPU_MODEL_MISMATCH | INSUFFICIENT_GPU_MEMORY.
#[export] Instance ServingPlacementReason_eq : EqDecision ServingPlacementReason.
Proof. solve_decision. Defined.

Module ServingGPUDeviceSnapshot.
Record t := mk { uuid : string; index : Z; model : string; memory_free_mb : Z; fake : bool }.
End ServingGPUDeviceSnapshot.
Import ServingGPUDeviceSnapshot.
Notation Device := ServingGPUDeviceSnapshot.t.

Module ServingWorkerSnapshot.
Record t := mk { id : string; gpu_devices : list Device }.
End ServingWorkerSnapshot.
Notation SWorker := ServingWorkerSnapshot.t.

Module ServingPlacementRequest.
Record t := mk { gpu_count : Z; gpu_model : option string; gpu_memory_mb : Z; allow_fake : bool }.
End ServingPlacementRequest.
Import ServingPlacementRequest.
Notation Request := ServingPlacementRequest.t.

Module ServingPlacement.
Record t := mk { worker_id : string; gpu_device_ids : list string }.
End ServingPlacement.

Module ServingPlacementExplain.
Record t := mk {
  reason : ServingPlacementReason;
  requested_gpu_count : Z;
  largest_available_worker_gpu_count : Z;
  requested_gpu_model : option string;
  required_gpu_memory_mb : Z;
}.
End ServingPlacementExplain.

Definition _explain (r : Request) (reason : ServingPlacementReason) (largest_available : Z)
  : ServingPlacementExplain.t :=
  ServingPlacementExplain.mk reason (gpu_count r) largest_available (gpu_model r) (gpu_memory_mb r).

(** ** The stages *)

(** [d[k] = v]: a dictionary keeps the position of the first insertion. *)
Fixpoint dict_set {V} (k : string) (v : V) (d : list (string * V)) : list (string * V) :=
  match d with
  | [] => [(k, v)]
  | (k', v') :: d' => if k' == k then (k, v) :: d' else (k', v') :: dict_set k v d'
  end.

Definition dict_of {A V} (key : A -> string) (val : A -> V) (l : list A) : list (string * V) :=
  foldl (fun d x => dict_set (key x) (val x) d) [] l.

(** [{k: tuple(x for x in v if p(x)) for k, v in d.items()}] *)
Definition narrow (p : Device -> bool) (d : list (string * list Device)) : list (string * list Device) :=
  (fun kv => (kv.1, List.filter p kv.2)) <$> d.

(** [max((len(devices) for devices in d.values()), default=0)] *)
Definition largest (d : list (string * list Device)) : Z :=
  foldr (fun kv acc => Z.max (lenZ kv.2) acc) 0 d.

Definition usable (r : Request) (d : Device) : bool := allow_fake r || negb (fake d).
Definition model_ok (r : Request) (d : Device) : bool :=
  match gpu_model r with None => true | Some m => model d == m end.
Definition memory_ok (r : Request) (d : Device) : bool := gpu_memory_mb r <=? memory_free_mb d.

Definition device_order (d : Device) : Z * (Z * string) := (memory_free_mb d, (index d, uuid d)).

Definition sum_memory (l : list Device) : Z := foldr (fun d acc => memory_free_mb d + acc) 0 l.

Definition candidate_score (r : Request) (worker_id : string) (devices selected : list Device)
  : Z * (Z * (string * list string)) :=
  (lenZ devices - gpu_count r, (sum_memory selected, (worker_id, uuid <$> selected))).

(** The candidates, one per worker with enough eligible devices. *)
Definition candidates (r : Request) (eligible_by_worker : list (string * list Device))
  : list ((Z * (Z * (string * list string))) * ServingPlacement.t) :=
  omap (fun kv : string * list Device =>
    if lenZ kv.2 <? gpu_count r then None
    else
      let selected := take (Z.to_nat (gpu_count r)) (py_sort device_order kv.2) in
      Some (candidate_score r kv.1 kv.2 selected, ServingPlacement.mk kv.1 (uuid <$> selected)))
    eligible_by_worker.

Definition Answer : Type := option ServingPlacement.t * option ServingPlacementExplain.t.

Definition choose_single_node_gang_placement (r : Request) (workers : list SWorker)
  : PyError + Answer :=
  if (gpu_count r <? 0) || (gpu_memory_mb r <? 0)
  then inl (ValueError "serving GPU requirements must be non-negative")
  else if match gpu_model r with Some m => blank m | None => false end
  then inl (ValueError "gpu_model must not be blank")
  else if gpu_count r =? 0
  then
    match py_sort (fun i => i) (ServingWorkerSnapshot.id <$> workers) with
    | [] => inr (None, Some (_explain r INSUFFICIENT_CONTIGUOUS_GPUS 0))
    | i :: _ => inr (Some (ServingPlacement.mk i []), None)
    end
  else
    let available_by_worker :=
      dict_of ServingWorkerSnapshot.id
        (fun w => List.filter (usable r) (ServingWorkerSnapshot.gpu_devices w)) workers in
    let largest_available := largest available_by_worker in
    if largest_available <? gpu_count r
    then inr (None, Some (_explain r INSUFFICIENT_CONTIGUOUS_GPUS largest_available))
    else
      let model_by_worker := narrow (model_ok r) available_by_worker in
      let largest_model := largest model_by_worker in
      if largest_model <? gpu_count r
      then inr (None, Some (_explain r GPU_MODEL_MISMATCH largest_model))
      else
        let eligible_by_worker := narrow (memory_ok r) model_by_worker in
        let largest_eligible := largest eligible_by_worker in
        if largest_eligible <? gpu_count r
        then inr (None, Some (_explain r INSUFFICIENT_GPU_MEMORY largest_eligible))
        else match py_sort fst (candidates r eligible_by_worker) with
             | (_, placement) :: _ => inr (Some placement, None)
             | [] => inl (LookupError "list index out of range")
             end.

(** ** Dictionaries and sizes *)
Lemma dict_set_new {V} k (v : V) d : k ∉ d.*1 -> dict_set k v d = d ++ [(k, v)].
Proof.
  induction d as [|[k' v'] d IH]; [done|]. cbn. intros [Hne Hk]%not_elem_of_cons.
  destruct (k' == k) eqn:E; [rewrite eqb_true in E; congruence|]. by rewrite IH.
Qed.

Lemma dict_of_nodup {A V} (key : A -> string) (val : A -> V) l :
  NoDup (key <$> l) -> dict_of key val l = (fun x => (key x, val x)) <$> l.
Proof.
  intros Hn. unfold dict_of.
  enough (forall d, NoDup (d.*1 ++ (key <$> l)) ->
    foldl (fun d x => dict_set (key x) (val x) d) d l = d ++ ((fun x => (key x, val x)) <$> l)) as H
    by (by rewrite (H [])).
  clear Hn. induction l as [|x l IH]; intros d Hd; cbn; [by rewrite app_nil_r|].
  cbn in Hd. apply NoDup_app in Hd as (H1 & H2 & H3). apply NoDup_cons in H3 as [H3 H4].
  rewrite dict_set_new by (intros Hx; apply (H2 _ Hx); left).
  rewrite IH, <-app_assoc; [done|]. rewrite fmap_app, <-app_assoc. cbn.
  apply NoDup_app. split_and!; [done| |by constructor].
  intros y Hy. apply not_elem_of_cons. specialize (H2 y Hy). rewrite not_elem_of_cons in H2. done.
Qed.

Lemma largest_le d n : 0 < n -> largest d < n <-> forall kv, kv ∈ d -> lenZ kv.2 < n.
Proof.
  intros Hn. induction d as [|kv d IH]; cbn.
  - split; [intros _ kv Hkv; by inversion Hkv|lia].
  - rewrite Z.max_lub_lt_iff, IH. split.
    + intros [H1 H2] x [->|Hx]%elem_of_cons; auto.
    + intros H. split; [apply H; left|]. intros x Hx. apply H. by right.
Qed.

Definition by_worker (stage : SWorker -> list Device) (workers : list SWorker)
  : list (string * list Device) := (fun w => (ServingWorkerSnapshot.id w, stage w)) <$> workers.

Lemma narrow_map (p : Device -> bool) (stage : SWorker -> list Device) workers :
  narrow p (by_worker stage workers)
  = by_worker (fun w => List.filter p (stage w)) workers.
Proof. unfold narrow, by_worker. by rewrite <-list_fmap_compose. Qed.

(** ** What the helper promises *)
Section gang.
Variable r : Request.

(** The devices a worker offers at each stage. *)
Definition offered (w : SWorker) : list Device :=
  List.filter (usable r) (ServingWorkerSnapshot.gpu_devices w).
Definition offered_model (w : SWorker) : list Device := List.filter (model_ok r) (offered w).
Definition eligible (w : SWorker) : list Device := List.filter (memory_ok r) (offered_model w).

(** No worker offers enough devices at a stage. *)
Definition short (stage : SWorker -> list Device) (workers : list SWorker) : Prop :=
  forall w, w ∈ workers -> lenZ (stage w) < gpu_count r.

Definition valid_request : Prop :=
  0 <= gpu_count r /\ 0 <= gpu_memory_mb r /\
  match gpu_model r with Some m => blank m = false | None => True end.

(** The order in which devices are taken: less free memory first, then the
    smaller index, then the smaller uuid. *)
Definition device_le (d e : Device) : Prop :=
  memory_free_mb d < memory_free_mb e \/
  (memory_free_mb d = memory_free_mb e /\
   (index d < index e \/ (index d = index e /\ cmp_le (uuid d) (uuid e)))).

(** [selected] are [gpu_count] eligible devices of [w], [rest] the others. *)
Definition split_of (w : SWorker) (selected rest : list Device) : Prop :=
  eligible w ≡ₚ selected ++ rest /\ lenZ selected = gpu_count r.

(** No gang is better than [selected] on [w]: fewer devices of the worker left
    over, then less free memory taken, then the smaller worker id. *)
Definition best_gang (w : SWorker) (selected : list Device) (workers : list SWorker) : Prop :=
  forall w' selected' rest', w' ∈ workers -> split_of w' selected' rest' ->
    let spare := lenZ (eligible w) - gpu_count r in
    let spare' := lenZ (eligible w') - gpu_count r in
    spare < spare' \/ (spare = spare' /\
    (sum_memory selected < sum_memory selected' \/ (sum_memory selected = sum_memory selected' /\
     cmp_le (ServingWorkerSnapshot.id w) (ServingWorkerSnapshot.id w')))).

(** [p] takes its devices from the worker [w]: the [gpu_count] first eligible
    ones in the order of the devices, and no gang of another choice of worker
    and devices is better. *)
Definition gang_of (p : ServingPlacement.t) (w : SWorker) (workers : list SWorker) : Prop :=
  ServingPlacement.worker_id p = ServingWorkerSnapshot.id w /\
  exists selected rest, split_of w selected rest /\
    ServingPlacement.gpu_device_ids p = uuid <$> selected /\
    StronglySorted device_le selected /\ (forall d e, d ∈ selected -> e ∈ rest -> device_le d e) /\
    (0 < gpu_count r -> best_gang w selected workers).

(** [n] is the largest number of devices a worker offers at a stage. *)
Definition is_largest (n : Z) (stage : SWorker -> list Device) (workers : list SWorker) : Prop :=
  (forall w, w ∈ workers -> lenZ (stage w) <= n) /\
  (n = 0 \/ exists w, w ∈ workers /\ lenZ (stage w) = n).

Lemma largest_is stage workers : is_largest (largest (by_worker stage workers)) stage workers.
Proof.
  induction workers as [|w l [H1 H2]].
  { split; [by intros w ?%not_elem_of_nil|by left]. }
  change (largest (by_worker stage (w :: l))) with (Z.max (lenZ (stage w)) (largest (by_worker stage l))). split.
  - intros x [->|Hx]%elem_of_cons; [lia|]. specialize (H1 x Hx). lia.
  - destruct (Z.max_spec (lenZ (stage w)) (largest (by_worker stage l))) as [[_ ->]|[_ ->]].
    + destruct H2 as [->|(x & Hx & E)]; [by left|]. right. exists x. split; [by right|done].
    + right. exists w. split; [left|done].
Qed.

Lemma device_le_cmp d e : cmp_le (device_order d) (device_order e) -> device_le d e.
Proof.
  unfold cmp_le, device_order, device_le. unfold cmp at 1, Ord_prod. unfold cmp at 1, Ord_Z. cbn [fst snd].
  destruct (Z.compare_spec (memory_free_mb d) (memory_free_mb e)) as [Em|Em|Em]; [|by left|intros H; by destruct H].
  unfold cmp at 1. cbn [fst snd]. unfold cmp at 1. cbn [fst snd].
  destruct (Z.compare_spec (index d) (index e)) as [Ei|Ei|Ei]; [|by auto|intros H; by destruct H].
  intros H. right. split; [done|]. by right.
Qed.

Lemma short_spec (stage : SWorker -> list Device) workers :
  0 < gpu_count r ->
  largest (by_worker stage workers) < gpu_count r
  <-> short stage workers.
Proof.
  intros Hn. rewrite largest_le by done. split.
  - intros H w Hw. apply (H (ServingWorkerSnapshot.id w, stage w)). apply list_elem_of_fmap. by exists w.
  - intros H kv (w & -> & Hw)%list_elem_of_fmap. by apply H.
Qed.

(** The selected prefix of the sorted devices. *)
Lemma sorted_prefix n (l : list Device) :
  StronglySorted device_le (take n (py_sort device_order l)) /\
  forall d e, d ∈ take n (py_sort device_order l) -> e ∈ drop n (py_sort device_order l) -> device_le d e.
Proof.
  pose proof (py_sort_sorted device_order l) as Hs. rewrite <-(take_drop n (py_sort device_order l)) in Hs. split.
  - apply StronglySorted_app_1_l in Hs. clear -Hs. induction Hs as [|d k _ IH Hd]; constructor; [done|].
    eapply Forall_impl; [exact Hd|]. intros e. apply device_le_cmp.
  - intros d e Hd He. apply device_le_cmp. exact (StronglySorted_app_1_elem_of _ _ _ d e Hs Hd He).
Qed.

(** ** The devices with the least memory *)
Fixpoint sum_by (f : Device -> Z) (l : list Device) : Z :=
  match l with [] => 0 | d :: l' => f d + sum_by f l' end.

Lemma sum_memory_by l : sum_memory l = sum_by memory_free_mb l.
Proof. induction l as [|d l IH]; [done|]. cbn. by rewrite <-IH. Qed.

Lemma sum_by_app f l k : sum_by f (l ++ k) = sum_by f l + sum_by f k.
Proof. induction l as [|d l IH]; cbn; [lia|]. rewrite IH. lia. Qed.

Lemma sum_by_perm f l k : l ≡ₚ k -> sum_by f l = sum_by f k.
Proof.
  induction 1 as [|d l k _ IH|d e l|l k j _ IH1 _ IH2]; [done|cbn; by rewrite IH|cbn; lia|congruence].
Qed.

Lemma sum_by_le f g l : (forall d, d ∈ l -> f d <= g d) -> sum_by f l <= sum_by g l.
Proof.
  induction l as [|d l IH]; cbn; [done|]. intros H. assert (f d <= g d) by (apply H; left).
  assert (sum_by f l <= sum_by g l) by (apply IH; intros e He; apply H; by right). lia.
Qed.

Lemma sum_by_shift f c l : sum_by (fun d => f d - c) l = sum_by f l - lenZ l * c.
Proof. induction l as [|d l IH]; [done|]. cbn. rewrite IH. unfold lenZ. cbn [List.length]. lia. Qed.

(** Any choice of as many devices has at least the memory of the smallest. *)
Lemma least_sum (T D S R' : list Device) (f : Device -> Z) (c : Z) :
  T ++ D ≡ₚ S ++ R' -> lenZ T = lenZ S -> (forall d, d ∈ T -> f d <= c) -> (forall d, d ∈ D -> c <= f d) ->
  sum_by f T <= sum_by f S.
Proof.
  intros Hp Hn HT HD. set (g := fun d => Z.min (f d - c) 0).
  assert (sum_by g T + sum_by g D = sum_by g S + sum_by g R') as E by (rewrite <-!sum_by_app; by apply sum_by_perm).
  assert (sum_by (fun d => f d - c) T <= sum_by g T) as H1
    by (apply sum_by_le; intros d Hd; specialize (HT d Hd); unfold g; lia).
  assert (0 <= sum_by g D) as H2.
  { assert (sum_by (fun _ => 0) D = 0) as E0 by (clear; induction D as [|d D IH]; [done|exact IH]). rewrite <-E0.
    apply sum_by_le. intros d Hd. specialize (HD d Hd). unfold g. lia. }
  assert (sum_by g S <= sum_by (fun d => f d - c) S) as H3 by (apply sum_by_le; intros d _; unfold g; lia).
  assert (sum_by g R' <= 0) as H4.
  { assert (sum_by (fun _ => 0) R' = 0) as E0 by (clear; induction R' as [|d R' IH]; [done|exact IH]). rewrite <-E0.
    apply sum_by_le. intros d _. unfold g. lia. }
  rewrite !sum_by_shift, Hn in *. lia.
Qed.

(** A threshold between the prefix and the rest. *)
Lemma threshold (T : list Device) (f : Device -> Z) :
  T <> [] -> exists d, d ∈ T /\ forall e, e ∈ T -> f e <= f d.
Proof.
  induction T as [|x T IH]; [done|]. intros _. destruct T as [|y T].
  { exists x. split; [left|]. by intros e ->%list_elem_of_singleton. }
  destruct IH as (d & Hd & Hm); [done|]. destruct (Z.le_gt_cases (f d) (f x)).
  - exists x. split; [left|]. intros e [->|He]%elem_of_cons; [lia|]. specialize (Hm e He). lia.
  - exists d. split; [by right|]. intros e [->|He]%elem_of_cons; [lia|auto].
Qed.

Lemma prefix_least w selected rest :
  0 < gpu_count r -> split_of w selected rest ->
  sum_memory (take (Z.to_nat (gpu_count r)) (py_sort device_order (eligible w))) <= sum_memory selected.
Proof.
  intros Hpos [Hp Hn]. set (n := Z.to_nat (gpu_count r)). set (l := py_sort device_order (eligible w)).
  assert (lenZ (take n l) = lenZ selected) as Hlen.
  { unfold lenZ in *. rewrite length_take. unfold l. rewrite py_sort_perm, Hp, length_app. lia. }
  destruct (threshold (take n l) memory_free_mb) as (d & Hd & Hm).
  { intros E. rewrite E in Hlen. unfold lenZ in *. cbn in Hlen. lia. }
  rewrite !sum_memory_by.
  eapply (least_sum (take n l) (drop n l) selected rest memory_free_mb (memory_free_mb d)); [|done|done|].
  - rewrite take_drop. unfold l. by rewrite py_sort_perm.
  - intros e He. destruct (proj2 (sorted_prefix n (eligible w)) d e Hd He) as [?|[? _]]; lia.
Qed.

Lemma candidates_elem d s p :
  (s, p) ∈ candidates r d <-> exists kv, kv ∈ d /\ gpu_count r <= lenZ kv.2 /\
    let selected := take (Z.to_nat (gpu_count r)) (py_sort device_order kv.2) in
    s = candidate_score r kv.1 kv.2 selected /\ p = ServingPlacement.mk kv.1 (uuid <$> selected).
Proof.
  unfold candidates. rewrite list_elem_of_omap. split.
  - intros (kv & Hkv & H). exists kv. destruct (_ <? _) eqn:E; [done|]. injection H as <- <-.
    split_and!; [done|lia|done..].
  - intros (kv & Hkv & Hle & -> & ->). exists kv. split; [done|].
    assert ((lenZ kv.2 <? gpu_count r) = false) as -> by lia. done.
Qed.

(** The order of the scores, component by component. *)
Lemma score_le w w' l l' k k' :
  cmp_le (candidate_score r w l k) (candidate_score r w' l' k') ->
  lenZ l - gpu_count r < lenZ l' - gpu_count r \/ (lenZ l - gpu_count r = lenZ l' - gpu_count r /\
  (sum_memory k < sum_memory k' \/ (sum_memory k = sum_memory k' /\ cmp_le w w'))).
Proof.
  unfold cmp_le, candidate_score. unfold cmp at 1, Ord_prod. unfold cmp at 1, Ord_Z. cbn [fst snd].
  destruct (Z.compare_spec (lenZ l - gpu_count r) (lenZ l' - gpu_count r)) as [E1|E1|E1]; [|by left|intros H; by destruct H].
  unfold cmp at 1. cbn [fst snd]. unfold cmp at 1. cbn [fst snd].
  destruct (Z.compare_spec (sum_memory k) (sum_memory k')) as [E2|E2|E2]; [|by auto|intros H; by destruct H].
  unfold cmp at 1. cbn [fst snd]. intros H. right. split; [done|]. right. split; [done|]. by destruct (cmp w w').
Qed.

Lemma gang_chosen workers s p rest :
  0 < gpu_count r ->
  py_sort fst (candidates r (by_worker eligible workers))
    = (s, p) :: rest ->
  exists w, w ∈ workers /\ gang_of p w workers.
Proof.
  intros Hn Hs. destruct (py_sort_head_min fst _ _ _ Hs) as [Hin Hmin].
  apply candidates_elem in Hin as (kv & Hkv & Hle & -> & ->).
  apply list_elem_of_fmap in Hkv as (w & -> & Hw). cbn [fst snd] in *. exists w. split; [done|].
  split; [done|]. set (n := Z.to_nat (gpu_count r)) in *.
  destruct (sorted_prefix n (eligible w)) as [Hsort Hrest].
  exists (take n (py_sort device_order (eligible w))), (drop n (py_sort device_order (eligible w))). split_and!; try done.
  - split; [rewrite take_drop; by rewrite py_sort_perm|].
    unfold lenZ in *. rewrite length_take. rewrite py_sort_perm. lia.
  - intros _ w' S' R' Hw' HS. assert (gpu_count r <= lenZ (eligible w')) as Hle'.
    { destruct HS as [Hp Hl]. unfold lenZ in *. rewrite Hp, length_app. lia. }
    assert ((ServingWorkerSnapshot.id w', eligible w') ∈ by_worker eligible workers) as Hin
      by (apply list_elem_of_fmap; by exists w').
    specialize (Hmin _ (proj2 (candidates_elem _ _ _) (ex_intro _ _ (conj Hin (conj Hle'
      (conj eq_refl eq_refl)))))). cbn [fst snd] in Hmin. fold n in Hmin.
    pose proof (prefix_least w' S' R' Hn HS) as Hleast. fold n in Hleast.
    apply score_le in Hmin as [?|[? [?|[? ?]]]]; [by left|right; split; [done|left; lia]|right; split; [done|]].
    destruct (Z.lt_total (sum_memory (take n (py_sort device_order (eligible w)))) (sum_memory S')) as [?|[?|?]];
      [by left|by right|lia].
Qed.

Lemma gang_exists workers :
  0 < gpu_count r -> ~ short eligible workers ->
  py_sort fst (candidates r (by_worker eligible workers)) <> [].
Proof.
  intros Hn Hs E%py_sort_nil. apply Hs. intros w Hw. apply Z.nle_gt. intros Hle.
  assert ((ServingWorkerSnapshot.id w, eligible w)
    ∈ by_worker eligible workers) as Hin
    by (apply list_elem_of_fmap; by exists w).
  pose proof (proj2 (candidates_elem _ _ _) (ex_intro _ _ (conj Hin (conj Hle
    (conj eq_refl eq_refl))))) as Hc. rewrite E in Hc. by inversion Hc.
Qed.
End gang.

(** C35: gang placement decides.  For workers with distinct ids and a valid
    request the helper answers with exactly one of a placement and an
    explanation.  A placement takes all its GPUs from one worker: the
    [gpu_count] first of its eligible devices by free memory, index and uuid,
    in that order; and no other choice of a worker and [gpu_count] of its
    eligible devices is better, where fewer devices of the worker left over is
    better, then less free memory taken, then the smaller worker id; a request
    without GPUs gets the worker with the least id.  An explanation names the
    first stage at which no worker has enough devices left: any at all, of the
    requested model, or with the required memory; and the most devices a
    worker has there. *)
Theorem gang_placement_decides (r : Request) (workers : list SWorker)
    (Hn : NoDup (ServingWorkerSnapshot.id <$> workers)) (Hv : valid_request r) :
  match choose_single_node_gang_placement r workers with
  | inl _ => False
  | inr (Some p, None) => exists w, w ∈ workers /\ gang_of r p w workers /\
      (gpu_count r = 0 -> forall w', w' ∈ workers ->
         cmp_le (ServingWorkerSnapshot.id w) (ServingWorkerSnapshot.id w'))
  | inr (None, Some x) =>
      let most := ServingPlacementExplain.largest_available_worker_gpu_count x in
      match ServingPlacementExplain.reason x with
      | INSUFFICIENT_CONTIGUOUS_GPUS => short r (offered r) workers /\ is_largest most (offered r) workers
      | GPU_MODEL_MISMATCH => ~ short r (offered r) workers /\ short r (offered_model r) workers /\
          is_largest most (offered_model r) workers
      | INSUFFICIENT_GPU_MEMORY => ~ short r (offered_model r) workers /\ short r (eligible r) workers /\
          is_largest most (eligible r) workers
      end
  | inr _ => False
  end.
Proof.
  destruct Hv as (H1 & H2 & H3). unfold choose_single_node_gang_placement.
  assert (((gpu_count r <? 0) || (gpu_memory_mb r <? 0)) = false) as -> by lia.
  assert (match gpu_model r with Some m => blank m | None => false end = false) as ->
    by by destruct (gpu_model r).
  destruct (gpu_count r =? 0) eqn:E0.
  - apply Z.eqb_eq in E0. destruct (py_sort _ _) as [|i rest] eqn:Es.
    + cbn. apply py_sort_nil, fmap_nil_inv in Es as ->. split; [intros w Hw; by inversion Hw|]. split; [intros w Hw; by inversion Hw|by left].
    + destruct (py_sort_head_min (fun i => i) _ _ _ Es) as [Hi Hmin].
      apply list_elem_of_fmap in Hi as (w & -> & Hw). exists w. split_and!; [done| |].
      * split; [done|]. exists [], (eligible r w). unfold split_of. cbn. rewrite E0.
        split_and!; try done; [constructor|]. intros d e Hd. by inversion Hd.
      * intros _ w' Hw'. apply Hmin, list_elem_of_fmap. by exists w'.
  - apply Z.eqb_neq in E0. assert (0 < gpu_count r) as Hpos by lia.
    assert (forall stage : SWorker -> list Device, ~ short r stage workers <->
      ~ largest (by_worker stage workers) < gpu_count r) as Hns
      by (intros stage; by rewrite short_spec).
    assert (dict_of ServingWorkerSnapshot.id
      (fun w => List.filter (usable r) (ServingWorkerSnapshot.gpu_devices w)) workers
      = by_worker (offered r) workers) as -> by by rewrite dict_of_nodup.
    rewrite (narrow_map (model_ok r) (offered r)). fold (by_worker (offered_model r) workers).
    change (by_worker (fun w => List.filter (model_ok r) (offered r w)) workers)
      with (by_worker (offered_model r) workers).
    rewrite (narrow_map (memory_ok r) (offered_model r)).
    change (by_worker (fun w => List.filter (memory_ok r) (offered_model r w)) workers)
      with (by_worker (eligible r) workers). cbv zeta.
    destruct (largest (by_worker (offered r) workers) <? _) eqn:Ea; cbn;
      [split; [apply short_spec; [done|lia]|apply largest_is]|].
    destruct (largest (by_worker (offered_model r) workers) <? _) eqn:Em; cbn;
      [split_and!; [apply Hns; lia|apply short_spec; [done|lia]|apply largest_is..]|].
    destruct (largest (by_worker (eligible r) workers) <? _) eqn:Ee; cbn;
      [split_and!; [apply Hns; lia|apply short_spec; [done|lia]|apply largest_is..]|].
    destruct (py_sort _ _) as [|[s p] rest] eqn:Es.
    + eapply gang_exists; [exact Hpos| |exact Es]. apply Hns. lia.
    + destruct (gang_chosen _ _ _ _ _ Hpos Es) as (w & Hw & Hg). exists w. split_and!; [done..|lia].
Qed.

(** The helper raises exactly on invalid requests. *)
Theorem gang_placement_errors (r : Request) (workers : list SWorker) :
  (exists m, choose_single_node_gang_placement r workers = inl (ValueError m)) <->
  gpu_count r < 0 \/ gpu_memory_mb r < 0 \/ exists m, gpu_model r = Some m /\ strip m = "".
Proof.
  unfold choose_single_node_gang_placement.
  destruct ((gpu_count r <? 0) || (gpu_memory_mb r <? 0)) eqn:E1.
  - split; [intros _|by eauto]. apply orb_true_iff in E1. rewrite !Z.ltb_lt in E1. tauto.
  - assert (0 <= gpu_count r /\ 0 <= gpu_memory_mb r) as [H1 H2] by lia. split.
    + intros [m H]. right. right. destruct (gpu_model r) as [g|]; [|].
      * destruct (blank g) eqn:Eb; [exists g; split; [done|by apply blank_strip]|].
        exfalso. repeat case_match; simplify_eq.
      * exfalso. repeat case_match; simplify_eq.
    + intros [?|[?|(m & -> & Hb)]]; [lia..|]. apply blank_strip in Hb. rewrite Hb. eauto.
Qed.

(** Two workers with three and two devices; a gang of two. *)
Lemma gang_placement_decides_witness :
  let dev u i := ServingGPUDeviceSnapshot.mk u i "A100" 40000 false in
  let w1 := ServingWorkerSnapshot.mk "w1" [dev "a" 0; dev "b" 1; dev "c" 2] in
  let w2 := ServingWorkerSnapshot.mk "w2" [dev "d" 0; dev "e" 1] in
  let r := ServingPlacementRequest.mk 2 (Some "A100") 20000 false in
  choose_single_node_gang_placement r [w1; w2]
    = inr (Some (ServingPlacement.mk "w2" ["d"; "e"]), None) /\
  exists w, w ∈ [w1; w2] /\ gang_of r (ServingPlacement.mk "w2" ["d"; "e"]) w [w1; w2].
Proof.
  intros dev w1 w2 r. split; [vm_compute; reflexivity|].
  pose proof (gang_placement_decides r [w1; w2]) as H.
  destruct H as (w & Hw & Hg & _).
  - cbn. apply (bool_decide_unpack _). vm_compute. exact Logic.I.
  - split; [|split]; vm_compute; congruence.
  - exists w. exact (conj Hw Hg).
Defined.
