(* ===== verification/PullScheduler.v ===== *)
(** * The pull-mode scheduler ([scheduler/scheduler.py])

    A worker asks for a task: the one its queue message names, or one found by
    a bounded, rotating scan of the queue.  Every attempt is a transaction of
    its own; the scan position of a worker is kept between calls.  The task id
    of a message is given parsed ([_parse_task_id]); the [uuid4()] pair an
    attempt draws is a function of the task it tries. *)

From S2P Require Import Prelude PyFloat PyString Enums Policies Store Quotas Reservations Tasks.
From S2P Require Import Workers Invariant Transaction Lifecycle Placement System Fencing Claims Scenario.

Import Task StateMachine.

(** ** The pre-check ([scheduler/policies.py]) *)
Module SchedulingDecision.
Record t := mk { allowed : bool; reason : option RejectionReason }.
End SchedulingDecision.

Definition worker_accepts_new_tasks (worker : option Worker.t) : bool :=
  match worker with
  | None => false
  | Some w => (Worker.status w == ONLINE) && (Worker.running_tasks w <? Worker.concurrency w)
  end.

Definition evaluate (worker : option Worker.t) (task : option Task.t) : SchedulingDecision.t :=
  let rejected r := SchedulingDecision.mk false (Some r) in
  match worker with
  | None => rejected WORKER_NOT_FOUND
  | Some w =>
      if Worker.status w !== ONLINE then rejected WORKER_NOT_ONLINE
      else if Worker.concurrency w <=? Worker.running_tasks w then rejected WORKER_AT_CAPACITY
      else match task with
      | None => rejected TASK_NOT_FOUND
      | Some t =>
          if status t !== QUEUED then rejected TASK_NOT_QUEUED
          else if cancel_requested t then rejected TASK_CANCELLED
          else if flt (float_of_Z (Worker.cpu_count w)) (fadd (Worker.reserved_cpu w) (cpu_limit t))
          then rejected INSUFFICIENT_CPU
          else if Worker.memory_total_mb w <? Worker.reserved_memory_mb w + memory_limit_mb t
          then rejected INSUFFICIENT_MEMORY
          else if Worker.gpu_count w <? Worker.reserved_gpus w + gpu_count t
          then rejected INSUFFICIENT_GPU
          else if negb (labels_match (labels t) (Worker.labels w)) then rejected LABEL_MISMATCH
          else SchedulingDecision.mk true None
      end
  end.

(** ** The queue of a worker ([TaskRepository.list_queued_candidates_for_worker]) *)

(** The rows of the select statement, in its order. *)
Definition worker_queue (db : Db.t) (w : Worker.t) : list Task.t :=
  let available_cpu :=
    fmax f0 (fsub (truediv (Worker.cpu_allocatable_millicores w) 1000) (Worker.reserved_cpu w)) in
  let available_memory := Z.max 0 (Worker.memory_allocatable_mb w - Worker.reserved_memory_mb w) in
  let available_gpus := Z.max 0 (Worker.gpu_count w - Worker.reserved_gpus w) in
  py_sort (fun t => (nulls_last (queued_at t), id t))
    (List.filter (fun t =>
       (status t == QUEUED) && negb (cancel_requested t) && fle (cpu_limit t) available_cpu
       && (memory_limit_mb t <=? available_memory) && (gpu_count t <=? available_gpus)
       && negb (_unsatisfied_dependencies db (id t))) (rows (Db.tasks db))).

Definition list_queued_candidates_for_worker (db : Db.t) (w : Worker.t) (limit offset : Z)
  : list N * Z :=
  let page := take (Z.to_nat limit) (drop (Z.to_nat offset) (worker_queue db w)) in
  (id <$> List.filter (_worker_can_run_task w) page, lenZ page).

(** ** The scheduler object *)
Inductive AssignmentSource := MESSAGE | DATABASE_FALLBACK | GLOBAL_PLACEMENT.

Module TaskAssignment.
Record t := mk {
  task_id : N;
  execution_id : N;
  worker_id : string;
  source : AssignmentSource;
  timeout_seconds : Z;
  cpu_limit : float;
  memory_limit_mb : Z;
  gpu_count : Z;
  labels : gmap string string;
  retry_count : Z;
  max_retries : Z;
  project_id : N;
  runtime_type : string;
  gpu_device_ids : list string;
}.

Definition from_task (task : Task.t) (execution_id : N) (source : AssignmentSource) : Sess t :=
  match Task.worker_id task with
  | None => raise (ValueError "claimed task has no worker_id")
  | Some w =>
      mret (mk (Task.id task) execution_id w source (Task.timeout_seconds task)
              (Task.cpu_limit task) (Task.memory_limit_mb task) (Task.gpu_count task)
              (Task.labels task) (Task.retry_count task) (Task.max_retries task)
              (Task.project_id task) (RuntimeType_value (Task.runtime_type task))
              (Task.gpu_device_ids task))
  end.
End TaskAssignment.

Module ClaimAttempt.
Record t := mk {
  assignment : option TaskAssignment.t;
  worker_available : bool;
  rejection_reason : option RejectionReason;
}.
End ClaimAttempt.

Module Config.
Record t := mk {
  lease_seconds : float;
  fallback_limit : Z;
  mode : string;
  worker_session_id : option N;
  prices : Prices.t;
}.

(** [Scheduler.__init__] *)
Definition check (c : t) : option PyError :=
  if fle (lease_seconds c) f0 then Some (ValueError "lease_seconds must be greater than zero")
  else if fallback_limit c <? 1 then Some (ValueError "fallback_limit must be at least one")
  else if negb (inb (mode c) ["pull"; "global"])
  then Some (ValueError "mode must be 'pull' or 'global'")
  else if (mode c == "global") && is_none (worker_session_id c)
  then Some (ValueError "global mode requires worker_session_id")
  else None.
End Config.

(** The database and the scan positions [_fallback_offsets]. *)
Module Pull.
Record t := mk { db : Db.t; offsets : gmap string Z }.
End Pull.
Notation PullM := (M Pull.t PyError).

(** [async with session_factory() as session, session.begin()] *)
Definition transaction {A} (m : Sess A) : PullM A := fun s =>
  let (r, db') := atomically m (Pull.db s) in (r, Pull.mk db' (Pull.offsets s)).

(** The worker, if it exists, belongs to another session than ours. *)
Definition other_session (c : Config.t) (w : option Worker.t) : bool :=
  match Config.worker_session_id c, w with
  | Some s, Some w => Worker.worker_session_id w !== s
  | _, _ => false
  end.

Section scheduler.
Variable c : Config.t.
Variable draw : N -> N * N.
Variable locked_devices : gset N.

(** The transaction of [_try_claim]. *)
Definition claim_attempt (worker_id : string) (task_id : N) (source : AssignmentSource)
  : Sess ClaimAttempt.t :=
  worker ← get_worker worker_id;
  if negb (worker_accepts_new_tasks worker)
  then mret (ClaimAttempt.mk None false (SchedulingDecision.reason (evaluate worker None)))
  else if other_session c worker
  then mret (ClaimAttempt.mk None false None)
  else
    task ← get_task task_id;
    let decision := evaluate worker task in
    if negb (SchedulingDecision.allowed decision)
    then mret (ClaimAttempt.mk None true (SchedulingDecision.reason decision))
    else
      '(claimed_task, execution_id) ←
        claim (draw task_id).1 (draw task_id).2 locked_devices task_id worker_id
          (Config.lease_seconds c) (Config.worker_session_id c) (Config.prices c);
      assignment ← TaskAssignment.from_task claimed_task execution_id source;
      mret (ClaimAttempt.mk (Some assignment) true None).

Definition _try_claim (worker_id : string) (task_id : N) (source : AssignmentSource)
  : PullM ClaimAttempt.t :=
  try_except (transaction (claim_attempt worker_id task_id source))
    (fun e => match e with
              | ClaimRejected _ => Some (mret (ClaimAttempt.mk None true None))
              | _ => None
              end).

(** The loop of [_queued_candidate_ids] over the remaining pages: candidates
    and the scan position afterwards. *)
Fixpoint scan_pages (pages : nat) (db : Db.t) (w : Worker.t) (offset : Z) (wrapped : bool)
  : list N * Z :=
  match pages with
  | O => ([], offset)
  | S pages' =>
      let '(candidate_ids, page_size) :=
        list_queued_candidates_for_worker db w (Config.fallback_limit c) offset in
      if page_size =? 0
      then if (0 <? offset) && negb wrapped then scan_pages pages' db w 0 true else ([], 0)
      else
        let offset' := offset + page_size in
        match candidate_ids with
        | _ :: _ => (candidate_ids, offset')
        | [] => if page_size <? Config.fallback_limit c then ([], 0)
                else scan_pages pages' db w offset' wrapped
        end
  end.

Definition _queued_candidate_ids (worker_id : string) : PullM (list N) := fun s =>
  let worker := Db.workers (Pull.db s) !! worker_id in
  match worker with
  | None => (inr [], s)
  | Some w =>
      if negb (worker_accepts_new_tasks worker) || other_session c worker then (inr [], s)
      else
        let offset := default 0 (Pull.offsets s !! worker_id) in
        let '(ids, offset') := scan_pages 20 (Pull.db s) w offset false in
        (inr ids, Pull.mk (Pull.db s) (<[worker_id := offset']> (Pull.offsets s)))
  end.

(** The loop over the candidates: the first assignment, or nothing. *)
Fixpoint try_candidates (worker_id : string) (preferred : option N) (ids : list N)
  : PullM (option TaskAssignment.t) :=
  match ids with
  | [] => mret None
  | task_id :: ids' =>
      if Some task_id == preferred then try_candidates worker_id preferred ids'
      else
        attempt ← _try_claim worker_id task_id DATABASE_FALLBACK;
        match ClaimAttempt.assignment attempt with
        | Some a => mret (Some a)
        | None => if negb (ClaimAttempt.worker_available attempt) then mret None
                  else try_candidates worker_id preferred ids'
        end
  end.

Definition fallback (worker_id : string) (preferred : option N) : PullM (option TaskAssignment.t) :=
  candidate_ids ← _queued_candidate_ids worker_id;
  try_candidates worker_id preferred candidate_ids.

(** The transaction of a scheduler in global mode. *)
Definition deliver (locked : gset N) (worker_id : string) (session : N)
  : Sess (option TaskAssignment.t) :=
  task ← take_global_assignment locked worker_id session (Config.lease_seconds c);
  match task with
  | None => mret None
  | Some t =>
      match Task.execution_id t with
      | None => mret None
      | Some e => a ← TaskAssignment.from_task t e GLOBAL_PLACEMENT; mret (Some a)
      end
  end.

Definition claim_for_worker (locked : gset N) (worker_id : string) (preferred : option N)
  : PullM (option TaskAssignment.t) :=
  match (if Config.mode c == "global" then Config.worker_session_id c else None) with
  | Some session => transaction (deliver locked worker_id session)
  | None =>
      match preferred with
      | None => fallback worker_id None
      | Some task_id =>
          attempt ← _try_claim worker_id task_id MESSAGE;
          match ClaimAttempt.assignment attempt with
          | Some a => mret (Some a)
          | None => if negb (ClaimAttempt.worker_available attempt) then mret None
                    else fallback worker_id preferred
          end
      end
  end.
End scheduler.

(** ** The scan does not starve a runnable task *)
Section scan.
Variable c : Config.t.
Variable db : Db.t.
Variable w : Worker.t.
Let L := Config.fallback_limit c.
Let Q := worker_queue db w.
Hypothesis HL : 1 <= L.
Variable p : nat.
Variable t : Task.t.
Hypothesis Hp : Q !! p = Some t.
Hypothesis Hrun : _worker_can_run_task w t = true.

Definition page (o : Z) : list Task.t := take (Z.to_nat L) (drop (Z.to_nat o) Q).

Lemma page_length o : 0 <= o -> lenZ (page o) = Z.max 0 (Z.min L (lenZ Q - o)).
Proof. intros Ho. unfold page, lenZ. rewrite length_take, length_drop. lia. Qed.

Lemma target_inside : Z.of_nat p < lenZ Q.
Proof. apply lookup_lt_Some in Hp. unfold lenZ. lia. Qed.

Lemma page_finds o : 0 <= o <= Z.of_nat p -> Z.of_nat p < o + L ->
  id <$> List.filter (_worker_can_run_task w) (page o) <> [].
Proof.
  intros Ho Hlt E. apply fmap_nil_inv in E.
  assert (t ∈ List.filter (_worker_can_run_task w) (page o)) as Hin; [|rewrite E in Hin; by inversion Hin].
  apply list_elem_of_In, List.filter_In. split; [|done]. apply list_elem_of_In. unfold page.
  apply elem_of_take. exists (p - Z.to_nat o)%nat. split; [|lia].
  rewrite lookup_drop, <-Hp. f_equal. lia.
Qed.

(** Before the target every page is full, so the scan goes on until it finds
    a candidate or has used up its pages. *)
Lemma scan_before pages o wrapped ids o' :
  0 <= o <= Z.of_nat p -> scan_pages c pages db w o wrapped = (ids, o') ->
  ids <> [] \/ (ids = [] /\ o' = o + Z.of_nat pages * L /\ o' <= Z.of_nat p).
Proof.
  revert o. induction pages as [|pages IH]; intros o Ho H; cbn in H.
  - injection H as <- <-. right. split; [done|]. lia.
  - unfold list_queued_candidates_for_worker in H. fold Q L (page o) in H.
    pose proof (page_length o ltac:(lia)) as Hlen. pose proof target_inside as Hin.
    destruct (lenZ (page o) =? 0) eqn:E0; [lia|].
    destruct (id <$> List.filter (_worker_can_run_task w) (page o)) eqn:Ec.
    + destruct (decide (Z.of_nat p < o + L)) as [Hlt|Hge]; [by apply page_finds in Hlt|].
      destruct (lenZ (page o) <? L) eqn:El; [lia|].
      apply IH in H; [|lia]. destruct H as [H|(-> & -> & H)]; [by left|right].
      split; [done|]. lia.
    + injection H as <- <-. by left.
Qed.

(** Past the target the scan moves on, or starts over. *)
Lemma scan_after pages o wrapped ids o' :
  Z.of_nat p < o -> scan_pages c pages db w o wrapped = (ids, o') ->
  ids <> [] \/ 0 <= o' <= Z.of_nat p \/
  (o' = o + Z.of_nat pages * L /\ (pages = 0%nat \/ o' <= lenZ Q)).
Proof.
  revert o. induction pages as [|pages IH]; intros o Ho H; cbn in H.
  - injection H as <- <-. right. right. split; [lia|by left].
  - unfold list_queued_candidates_for_worker in H. fold Q L (page o) in H.
    pose proof (page_length o ltac:(lia)) as Hlen. pose proof target_inside as Hin.
    destruct (lenZ (page o) =? 0) eqn:E0.
    + destruct (_ && _); [|injection H as <- <-; right; left; lia].
      apply scan_before in H; [|lia]. destruct H as [H|(_ & -> & H)]; [by left|]. right. left. lia.
    + destruct (id <$> List.filter (_worker_can_run_task w) (page o)) eqn:Ec;
        [|injection H as <- <-; by left].
      destruct (lenZ (page o) <? L) eqn:El; [injection H as <- <-; right; left; lia|].
      apply IH in H; [|lia]. destruct H as [H|[H|(-> & H)]]; [by left|right; by left|].
      right. right. split; [lia|]. right. destruct H as [->|H]; lia.
Qed.

(** How far the scan position is from the target, in the order of the scan. *)
Definition distance (o : Z) : Z :=
  if o <=? Z.of_nat p then Z.of_nat p - o else Z.max 0 (lenZ Q - o) + Z.of_nat p + 1.

Lemma scan_progress o ids o' :
  0 <= o -> scan_pages c 20 db w o false = (ids, o') ->
  ids <> [] \/ (0 <= o' /\ 0 <= distance o' < distance o).
Proof.
  intros Ho H. pose proof target_inside as Hin. unfold distance.
  destruct (o <=? Z.of_nat p) eqn:E.
  - apply scan_before in H; [|lia]. destruct H as [H|(_ & -> & H)]; [by left|right].
    rewrite (proj2 (Z.leb_le _ _) H). lia.
  - apply scan_after in H; [|lia]. destruct H as [H|[H|(-> & [?|H])]]; [by left|right|done|right].
    + rewrite (proj2 (Z.leb_le _ _) (proj2 H)). lia.
    + assert ((o + Z.of_nat 20 * L <=? Z.of_nat p) = false) as -> by (apply Z.leb_gt; lia). lia.
Qed.
End scan.

(** A worker that polls until the scan finds candidates. *)
Fixpoint polls (c : Config.t) (n : nat) (worker_id : string) : PullM (list N) :=
  match n with
  | O => mret []
  | S n' =>
      ids ← _queued_candidate_ids c worker_id;
      match ids with [] => polls c n' worker_id | _ => mret ids end
  end.

Lemma queued_ids_run c wid w db offsets :
  Db.workers db !! wid = Some w -> worker_accepts_new_tasks (Some w) = true ->
  other_session c (Some w) = false ->
  let scan := scan_pages c 20 db w (default 0 (offsets !! wid)) false in
  _queued_candidate_ids c wid (Pull.mk db offsets)
    = (inr scan.1, Pull.mk db (<[wid := scan.2]> offsets)).
Proof.
  intros Hw Ha Hs. unfold _queued_candidate_ids. cbn [Pull.db Pull.offsets]. rewrite Hw, Ha, Hs.
  cbn [negb orb]. by destruct (scan_pages c 20 db w (default 0 (offsets !! wid)) false).
Qed.

Lemma polls_find c wid w p t db :
  1 <= Config.fallback_limit c -> Db.workers db !! wid = Some w ->
  worker_accepts_new_tasks (Some w) = true -> other_session c (Some w) = false ->
  worker_queue db w !! p = Some t -> _worker_can_run_task w t = true ->
  forall n offsets, let o := default 0 (offsets !! wid) in
  0 <= o -> distance db w p o < Z.of_nat n ->
  exists ids offsets', polls c n wid (Pull.mk db offsets) = (inr ids, Pull.mk db offsets') /\ ids <> [].
Proof.
  intros HL Hw Ha Hs Hp Hrun n. induction n as [|n IH]; intros offsets o Ho Hd.
  { exfalso. unfold distance in Hd. destruct (_ <=? _) eqn:E; lia. }
  pose proof (queued_ids_run c wid w db offsets Hw Ha Hs) as Hq. cbv zeta in Hq. fold o in Hq.
  destruct (scan_pages c 20 db w o false) as [ids o'] eqn:Es. cbn [fst snd] in Hq.
  assert (forall r s', match ids with [] => polls c n wid | _ => mret ids end
    (Pull.mk db (<[wid := o']> offsets)) = (r, s') ->
    polls c (S n) wid (Pull.mk db offsets) = (r, s')) as Hrw.
  { intros r s' H. cbn [polls]. unfold mbind, M_bind. rewrite Hq. exact H. }
  destruct (scan_progress c db w HL p t Hp Hrun o ids o' Ho Es) as [Hne|(Ho' & Hd')].
  - destruct ids; [done|]. eexists _, _. split; [by apply Hrw|done].
  - destruct ids; [|eexists _, _; split; [by apply Hrw|done]].
    destruct (IH (<[wid := o']> offsets)) as (ids & offs & H & Hne);
      [rewrite lookup_insert_eq; exact Ho'|rewrite lookup_insert_eq; change (default 0 (Some o')) with o'; lia|].
    exists ids, offs. split; [by apply Hrw|done].
Qed.

(** C28: the rotating scan starves nobody.  While the database does not change,
    a worker that accepts tasks and keeps polling is offered candidates after
    a bounded number of polls as soon as one task of its queue can run on it,
    wherever earlier polls left the scan position and however many
    incompatible tasks stand before it: twice the length of the queue and two more polls suffice. *)
Theorem scan_not_starved c wid w t s
    (HL : 1 <= Config.fallback_limit c) (Hw : Db.workers (Pull.db s) !! wid = Some w)
    (Ha : worker_accepts_new_tasks (Some w) = true) (Hs : other_session c (Some w) = false)
    (Ho : 0 <= default 0 (Pull.offsets s !! wid))
    (Ht : t ∈ worker_queue (Pull.db s) w) (Hrun : _worker_can_run_task w t = true) :
  exists ids offsets',
    polls c (2 * List.length (worker_queue (Pull.db s) w) + 2) wid s
      = (inr ids, Pull.mk (Pull.db s) offsets') /\ ids <> [].
Proof.
  apply list_elem_of_lookup in Ht as [p Hp]. destruct s as [db offsets]. cbn [Pull.db Pull.offsets] in *.
  eapply polls_find; try done. pose proof (lookup_lt_Some _ _ _ Hp). unfold distance, lenZ.
  destruct (_ <=? _) eqn:E; lia.
Qed.

Lemma worker_queue_row db w t : ok db -> t ∈ worker_queue db w -> Db.tasks db !! id t = Some t.
Proof.
  intros Hok Ht. unfold worker_queue in Ht.
  apply elem_of_py_sort, list_elem_of_In, List.filter_In in Ht as [Ht _].
  apply list_elem_of_In, rows_elem in Ht as [k Hk].
  by rewrite (keys_tasks _ _ _ _ (I_keys _ _ _ Hok) _ _ Hk).
Qed.

(** Two tasks stand in the queue of [w1]; the scan position is stale. *)
Lemma scan_not_starved_witness :
  exists ids offsets', polls (Config.mk Scenario.lease 1 "pull" (Some 11%N) Scenario.free) 6 "w1"
    (Pull.mk Scenario.queued {["w1" := 77]}) = (inr ids, Pull.mk Scenario.queued offsets') /\ ids <> [].
Proof.
  destruct (Db.workers Scenario.queued !! "w1") as [w|] eqn:Ew; [|present Ew].
  destruct (Db.tasks Scenario.queued !! 1%N) as [t|] eqn:Et; [|present Et].
  assert (List.length (worker_queue Scenario.queued w) = 2%nat /\ _worker_can_run_task w t = true /\
    worker_accepts_new_tasks (Some w) = true /\ Worker.worker_session_id w = 11%N /\
    existsb (fun x => id x == 1%N) (worker_queue Scenario.queued w) = true)
    as (H1 & H2 & H3 & H4 & H5).
  { vm_compute in Ew, Et. injection Ew as <-. injection Et as <-. vm_compute. split_and!; reflexivity. }
  assert (t ∈ worker_queue Scenario.queued w) as Hin.
  { apply existsb_exists in H5 as (x & Hx & Hi). apply list_elem_of_In in Hx. rewrite eqb_true in Hi.
    assert (Db.tasks Scenario.queued !! id x = Some x) as Ex.
    { apply (worker_queue_row _ w); [apply reachable_ok, Scenario.queued_reachable|exact Hx]. }
    rewrite Hi in Ex. assert (t = x) as -> by (apply (inj Some); rewrite <-Et; exact Ex). exact Hx. }
  destruct (scan_not_starved (Config.mk Scenario.lease 1 "pull" (Some 11%N) Scenario.free) "w1" w t
    (Pull.mk Scenario.queued {["w1" := 77]})) as (ids & offs & Hp & Hne);
    [vm_compute; congruence|exact Ew|exact H3|cbn; rewrite H4; reflexivity|vm_compute; congruence
    |exact Hin|exact H2|].
  exists ids, offs. cbn [Pull.db] in Hp. rewrite H1 in Hp. exact (conj Hp Hne).
Defined.

(** ** Assignments are owned *)
Section owned.
Variable c : Config.t.
Variable draw : N -> N * N.
Variable locked_devices : gset N.

(** The assignment [a] describes the row of its task: [w] holds its token. *)
Definition assigned (db : Db.t) (w : string) (a : TaskAssignment.t) : Prop :=
  TaskAssignment.worker_id a = w /\ exists t, Db.tasks db !! TaskAssignment.task_id a = Some t /\
    status t ∈ [ASSIGNED; PREPARING] /\ worker_id t = Some w /\
    execution_id t = Some (TaskAssignment.execution_id a) /\
    gpu_device_ids t = TaskAssignment.gpu_device_ids a.

Lemma commit_ok op db u db' : exec op db = (inr u, db') -> commit op db = db'.
Proof. unfold commit, atomically. by intros ->. Qed.

Lemma reachable_commit op db u db' :
  well_called op = true -> reachable db -> exec op db = (inr u, db') -> reachable db'.
Proof.
  intros Hw [now Hr] He. exists now. eapply rtc_r; [exact Hr|].
  rewrite <-(commit_ok _ _ _ _ He). by constructor.
Qed.

Lemma transaction_ok {A} (m : Sess A) s r s' :
  transaction m s = (r, s') ->
  (exists a, r = inr a /\ m (Pull.db s) = (inr a, Pull.db s')) \/
  (exists e, r = inl e /\ Pull.db s' = Pull.db s).
Proof.
  unfold transaction, atomically. destruct (m (Pull.db s)) as [[e|a] db'] eqn:E; intros [= <- <-].
  - right. eauto.
  - left. eauto.
Qed.

Lemma take_row locked wid session l db t db' :
  ok db -> take_global_assignment locked wid session l db = (inr (Some t), db') ->
  Db.tasks db' !! id t = Some t /\ status t = PREPARING /\ worker_id t = Some wid.
Proof.
  intros Hok H. unfold take_global_assignment in H. apply bind_ok in H as (found & ? & Hg & H).
  apply gets_ok in Hg as [-> ->].
  destruct (select_tasks _ _ _ _ _) as [|t0 rest] eqn:Es; [by apply ret_ok in H as [? _]|].
  apply bind_ok in H as (now & ? & Hg & H). apply gets_ok in Hg as [-> ->].
  apply bind_ok in H as (t1 & db1 & Htr & H). apply transition_run in Htr as (-> & _ & ->).
  apply bind_ok in H as (? & ? & [-> ->]%plus_seconds_ok & H).
  apply bind_ok in H as ([] & db2 & Hp & H). apply modify_ok in Hp as [_ ->].
  apply ret_ok in H as [[= ->] ->].
  assert (t0 ∈ select_tasks (deliverable db wid session) (fun t => nulls_last (assigned_at t)) 1 locked db)
    as Hin by (rewrite Es; left).
  apply select_tasks_elem in Hin as (_ & Hd & _); [|done]. unfold deliverable in Hd. bools.
  split_and!; [fields; apply lookup_insert_eq|by tfields|by tfields].
Qed.

Lemma from_task_ok t e src db a db' :
  TaskAssignment.from_task t e src db = (inr a, db') ->
  db' = db /\ TaskAssignment.task_id a = id t /\ TaskAssignment.execution_id a = e /\
  worker_id t = Some (TaskAssignment.worker_id a) /\
  TaskAssignment.gpu_device_ids a = gpu_device_ids t.
Proof.
  unfold TaskAssignment.from_task. intros H. destruct (worker_id t); [|by apply raise_ok in H].
  by apply ret_ok in H as [-> ->].
Qed.

Lemma claim_attempt_ok wid i src db att db' :
  reachable db -> claim_attempt c draw locked_devices wid i src db = (inr att, db') ->
  reachable db' /\ forall a, ClaimAttempt.assignment att = Some a -> assigned db' wid a.
Proof.
  intros Hr H. unfold claim_attempt in H. apply bind_ok in H as (w & ? & Hg & H). minv Hg.
  destruct (negb _); [by apply ret_ok in H as [-> ->]|].
  destruct (other_session _ _); [by apply ret_ok in H as [-> ->]|].
  apply bind_ok in H as (t & ? & Hg & H). minv Hg.
  destruct (negb _); [by apply ret_ok in H as [-> ->]|].
  apply bind_ok in H as ([t' e'] & db1 & Hc & H). apply bind_ok in H as (a & db2 & Ha & H).
  apply ret_ok in H as [-> ->]. apply from_task_ok in Ha as (-> & A1 & A2 & A3 & A4).
  split.
  - eapply (reachable_commit (OpClaim (draw i).1 (draw i).2 locked_devices i wid
      (Config.lease_seconds c) (Config.worker_session_id c) (Config.prices c)) _ tt);
      [done|exact Hr|]. cbn [exec]. unfold ignore, mbind, M_bind. by rewrite Hc.
  - cbn. intros a' [= <-].
    destruct (claim_ok _ _ _ _ _ _ _ _ _ _ _ _ (reachable_ok _ Hr) Hc)
      as (-> & t0 & wk & wk' & ds & q & st & [_ (R1 & R2 & R3 & R4) _ _ _ _]).
    split; [congruence|]. exists t'. rewrite A1, A2, A4. split_and!; try done; [|set_solver].
    by rewrite (keys_tasks _ _ _ _ (I_keys _ _ _ (claim_preserves _ _ _ _ _ _ _ _ _ _ _ (reachable_ok _ Hr) Hc)) _ _ R1).
Qed.

(** What every step of the scheduler keeps: the database is reachable, and an
    assignment it returns is owned. *)
Definition sound (wid : string) (r : PyError + option TaskAssignment.t) (s' : Pull.t) : Prop :=
  reachable (Pull.db s') /\ forall a, r = inr (Some a) -> assigned (Pull.db s') wid a.

Lemma try_claim_ok wid i src s r s' :
  reachable (Pull.db s) -> _try_claim c draw locked_devices wid i src s = (r, s') ->
  reachable (Pull.db s') /\
  forall att a, r = inr att -> ClaimAttempt.assignment att = Some a -> assigned (Pull.db s') wid a.
Proof.
  intros Hr H. unfold _try_claim, try_except in H.
  destruct (transaction _ s) as [r1 s1] eqn:Et.
  destruct (transaction_ok _ _ _ _ Et) as [(att & -> & Hm)|(e & -> & Edb)].
  - injection H as <- <-. destruct (claim_attempt_ok _ _ _ _ _ _ Hr Hm) as [Hr1 Ha].
    split; [done|]. intros att' a [= <-]. auto.
  - assert (reachable (Pull.db s1)) as Hr1 by by rewrite Edb.
    destruct e; injection H as <- <-; (split; [done|]); intros att a [= <-]; done.
Qed.

Lemma try_candidates_sound wid pref ids s r s' :
  reachable (Pull.db s) -> try_candidates c draw locked_devices wid pref ids s = (r, s') ->
  sound wid r s'.
Proof.
  revert s. induction ids as [|i ids IH]; intros s Hr H; cbn in H; [by injection H as <- <-|].
  destruct (_ == pref); [by eapply IH|]. unfold mbind, M_bind in H.
  destruct (_try_claim _ _ _ _ _ _ s) as [r1 s1] eqn:Et.
  destruct (try_claim_ok _ _ _ _ _ _ Hr Et) as [Hr1 Ha].
  destruct r1 as [e|att]; [by injection H as <- <-|].
  destruct (ClaimAttempt.assignment att) eqn:Ea.
  - injection H as <- <-. split; [done|]. intros a [= <-]. by eapply Ha.
  - destruct (negb _); [by injection H as <- <-|]. by eapply IH.
Qed.

Lemma candidate_ids_db wid s : (_queued_candidate_ids c wid s).2.(Pull.db) = Pull.db s.
Proof.
  unfold _queued_candidate_ids. destruct (Db.workers (Pull.db s) !! wid); [|done].
  destruct (_ || _); [done|]. by destruct (scan_pages _ _ _ _ _ _).
Qed.

Lemma fallback_sound wid pref s r s' :
  reachable (Pull.db s) -> fallback c draw locked_devices wid pref s = (r, s') -> sound wid r s'.
Proof.
  intros Hr H. unfold fallback, mbind, M_bind in H. pose proof (candidate_ids_db wid s) as Hd.
  destruct (_queued_candidate_ids c wid s) as [[e|ids] s1]; cbn in Hd.
  - injection H as <- <-. split; [by rewrite Hd|done].
  - eapply try_candidates_sound; [|exact H]. by rewrite Hd.
Qed.

Lemma deliver_ok locked wid session db x db' :
  reachable db -> deliver c locked wid session db = (inr x, db') ->
  reachable db' /\ forall a, x = Some a -> assigned db' wid a.
Proof.
  intros Hr H. unfold deliver in H. apply bind_ok in H as (t & db1 & Ht & H).
  assert (reachable db1) as Hr1.
  { eapply (reachable_commit (OpTake locked wid session (Config.lease_seconds c)) _ tt);
      [done|exact Hr|]. cbn [exec]. unfold ignore, mbind, M_bind. by rewrite Ht. }
  destruct t as [t|]; [|by apply ret_ok in H as [-> ->]].
  destruct (execution_id t) as [e|] eqn:He; [|by apply ret_ok in H as [-> ->]].
  apply bind_ok in H as (a & db2 & Ha & H). apply ret_ok in H as [-> ->].
  apply from_task_ok in Ha as (-> & A1 & A2 & A3 & A4). split; [done|]. intros a' [= <-].
  destruct (take_row _ _ _ _ _ _ _ (reachable_ok _ Hr) Ht) as (R1 & R2 & R3).
  split; [congruence|]. exists t. rewrite A1, A2, A4. split_and!; try done. rewrite R2. set_solver.
Qed.

(** the scheduler hands out owned assignments.  Whatever a call of
    [claim_for_worker] in a reachable state answers or raises, the database
    stays reachable; and an assignment it returns carries the token of the
    task's row: the task is assigned to (or being prepared by) the asking
    worker under the assignment's execution, with the devices it names.  A
    claim lost to a concurrent transaction is rolled back and never reported
    as an assignment. *)
Theorem pull_assignment_owned locked wid preferred s r s'
    (Hr : reachable (Pull.db s))
    (H : claim_for_worker c draw locked_devices locked wid preferred s = (r, s')) :
  reachable (Pull.db s') /\ forall a, r = inr (Some a) -> assigned (Pull.db s') wid a.
Proof.
  unfold claim_for_worker in H. destruct (if _ : bool then _ else _) as [session|].
  - destruct (transaction_ok _ _ _ _ H) as [(x & -> & Hm)|(e & -> & Edb)].
    + destruct (deliver_ok _ _ _ _ _ _ Hr Hm) as [? Ha]. split; [done|]. intros a [= ->]. auto.
    + by rewrite Edb.
  - destruct preferred as [i|]; [|by eapply fallback_sound]. unfold mbind, M_bind in H.
    destruct (_try_claim _ _ _ _ _ _ s) as [r1 s1] eqn:Et.
    destruct (try_claim_ok _ _ _ _ _ _ Hr Et) as [Hr1 Ha].
    destruct r1 as [e|att]; [by injection H as <- <-|].
    destruct (ClaimAttempt.assignment att) eqn:Ea.
    + injection H as <- <-. split; [done|]. intros a [= <-]. by eapply Ha.
    + destruct (negb _); [by injection H as <- <-|]. by eapply fallback_sound.
Qed.
End owned.

Lemma pull_assignment_owned_witness :
  let c := Config.mk Scenario.lease 10 "pull" (Some 11%N) Scenario.free in
  exists a s', claim_for_worker c (fun i => (i + 100, i + 200))%N ∅ ∅ "w1" (Some 1%N)
    (Pull.mk Scenario.queued ∅) = (inr (Some a), s') /\ assigned (Pull.db s') "w1" a.
Proof.
  intros c.
  destruct (claim_for_worker c (fun i => (i + 100, i + 200))%N ∅ ∅ "w1" (Some 1%N)
    (Pull.mk Scenario.queued ∅)) as [r s'] eqn:E.
  destruct (pull_assignment_owned c (fun i => (i + 100, i + 200))%N ∅ ∅ "w1" (Some 1%N)
    (Pull.mk Scenario.queued ∅) r s' Scenario.queued_reachable E) as [_ Ha].
  destruct r as [e|[a|]]; [exfalso; clear Ha; vm_compute in E; discriminate E| |
    exfalso; clear Ha; vm_compute in E; discriminate E].
  exists a, s'. split; [reflexivity|]. apply Ha. reflexivity.
Defined.

(** ** A project at its limit *)
Definition at_limit : Db.t :=
  Scenario.run
    [OpRegister Scenario.registration; OpInitialize 7;
     OpLimits 7 ((default_quota 1000000) <| ProjectQuota.max_running_tasks := Some 1 |>);
     OpCreate 1 (Scenario.submission Scenario.quarter);
     OpCreate 2 (Scenario.submission Scenario.quarter);
     OpCreate 3 ((Scenario.submission Scenario.quarter) <| Submission.project_id := 8%N |>);
     OpClaim 101 201 ∅ 1 "w1" Scenario.lease (Some 11%N) Scenario.free]
    (Scenario.start <| Db.projects ::= <[8%N := true]> |>).

(** a project at its running limit blocks the pull scheduler.  Project 7
    runs the one task it may run and has another queued; project 8 has a task
    the worker can take: its claim succeeds when the queue delivers it.  The
    database fallback meets the task of project 7 first, and the quota error
    is not among the exceptions [_try_claim] handles: it leaves
    [claim_for_worker], and the task of project 8 is not tried. *)
Theorem pull_quota_error_escapes :
  let c := Config.mk Scenario.lease 10 "pull" (Some 11%N) Scenario.free in
  let pull := fun preferred => (claim_for_worker c (fun i => (i + 100, i + 200))%N ∅ ∅ "w1" preferred
    (Pull.mk at_limit ∅)).1 in
  (exists m, pull None = inl (QuotaExceededError m)) /\
  exists a, pull (Some 3%N) = inr (Some a) /\ TaskAssignment.task_id a = 3%N.
Proof.
  intros c pull.
  assert (match pull None with inl (QuotaExceededError _) => true | _ => false end = true) as H1
    by (vm_compute; reflexivity).
  assert (match pull (Some 3%N) with
          | inr (Some a) => N.eqb (TaskAssignment.task_id a) 3 | _ => false end = true) as H2
    by (vm_compute; reflexivity).
  clearbody pull. split.
  - destruct (pull None) as [[]|]; try discriminate H1. eexists. reflexivity.
  - destruct (pull (Some 3%N)) as [|[a|]]; try discriminate H2. exists a. split; [reflexivity|].
    apply N.eqb_eq. exact H2.
Qed.
