(* ===== verification/GlobalScheduler.v ===== *)
(** * The global scheduler ([scheduler/global_scheduler.py])

    One pass of the placement authority: a bounded number of candidates, each
    in a transaction of its own with a fresh snapshot.  Kubernetes tasks that
    ask for accelerators go through the vendor admission, if the scheduler has
    a runtime profile catalog.  The [uuid4()] results and the host clock are
    parameters; metrics and log lines are left out. *)

From S2P Require Import Prelude PyFloat PyString Enums Policies Store Quotas Reservations Tasks.
From S2P Require Import Scheduling Invariant Transaction Lifecycle Placement System.
From S2P Require Import Scenario Claims PullScheduler.
From S2P Require Import Frames PyJson VendorAdmission RuntimeProfiles AdmissionPlan Admission.

Import Task StateMachine.

Definition RejectionReason_value (r : RejectionReason) : string :=
  match r with
  | TASK_NOT_FOUND => "task_not_found"
  | TASK_NOT_QUEUED => "task_not_queued"
  | TASK_CANCELLED => "task_cancelled"
  | WORKER_NOT_FOUND => "worker_not_found"
  | WORKER_NOT_ONLINE => "worker_not_online"
  | WORKER_AT_CAPACITY => "worker_at_capacity"
  | INSUFFICIENT_CPU => "insufficient_cpu"
  | INSUFFICIENT_MEMORY => "insufficient_memory"
  | INSUFFICIENT_GPU => "insufficient_gpu"
  | LABEL_MISMATCH => "label_mismatch"
  | RUNTIME_MISMATCH => "runtime_mismatch"
  | TAINT_NOT_TOLERATED => "taint_not_tolerated"
  | GPU_MODEL_MISMATCH => "gpu_model_mismatch"
  | INSUFFICIENT_GPU_MEMORY => "insufficient_gpu_memory"
  | WORKER_OVERCOMMITTED => "worker_overcommitted"
  end.

Module GlobalSchedulerResult.
Record t := mk {
  task_id : option N;
  worker_id : option string;
  placed : bool;
  reason : option string;
  attempted_count : Z;
  placed_count : Z;
}.
End GlobalSchedulerResult.

(** [GlobalSchedulerResult(task_id, worker_id, placed, reason)] *)
Definition first (task_id : N) (worker_id : option string) (placed : bool) (reason : option string)
  : GlobalSchedulerResult.t := GlobalSchedulerResult.mk (Some task_id) worker_id placed reason 0 0.

Module GConfig.
Record t := mk {
  scheduler_id : string;
  lease_seconds : float;
  policy : string;
  aging_interval_seconds : Z;
  prices : Prices.t;
  preemption_enabled : bool;
  preemption_min_delta : Z;
  batch_size : Z;
  candidate_scan_limit : Z;
  runtime_profile_catalog : option Catalog;
}.

(** [GlobalScheduler.__init__] *)
Definition check (c : t) : option PyError :=
  if batch_size c <? 1 then Some (ValueError "batch_size must be at least one")
  else if candidate_scan_limit c <? 1
  then Some (ValueError "candidate_scan_limit must be at least one")
  else None.
End GConfig.
Import GConfig.

(** [counts[reason]] *)
Definition reason_count (reasons : list string) (r : string) : Z :=
  lenZ (List.filter (fun x => x == r) reasons).

(** [max(counts, key=lambda item: (counts[item], item))] *)
Definition _admission_reason (rejected : gmap string string) : string :=
  let reasons := (map_to_list rejected).*2 in
  default "no_online_workers" (last (py_sort (fun r => (reason_count reasons r, r)) reasons)).

(** What the rejection branch decided: reason, worker, outcome, detail. *)
Module Rejection.
Record t := mk { reason : string; worker_id : option string; outcome : string; detail : option string }.
End Rejection.

Definition _task_admission_request (task : Task.t) : Sess AdmissionRequest.t :=
  match accelerator_request_json task with
  | None => raise (ValueError "Kubernetes accelerator task has no normalized request")
  | Some raw =>
      let request := AdmissionRequest.mk (AcceleratorRequest.count raw)
        (list_to_set (AcceleratorRequest.allowed_vendors raw)) (list_to_set (AcceleratorRequest.allowed_kinds raw))
        (list_to_set (AcceleratorRequest.allowed_models raw))
        (list_to_set (AcceleratorRequest.required_capabilities raw)) (AcceleratorRequest.runtime_profile raw)
        None None None (AcceleratorRequest.selection_policy raw) in
      checked (AdmissionRequest.post_init request) request
  end.

(** [item.get(key)] of a summary item, as text. *)
Definition item_text (item : JsObject) (key absent : string) : string :=
  match List.find (fun e => e.1 == key) item with
  | Some (_, Js.Str s) => s
  | Some _ => "None"
  | None => absent
  end.

(** The reasons by candidate of an admission. *)
Definition admission_rejections (result : AdmissionResult.t BatchAdmissionSnapshot.t) : gmap string string :=
  let absent := match AdmissionResult.reason result with
                | Some r => AdmissionRejectionReason_value r
                | None => "rejected"
                end in
  foldl (fun m item => <[item_text item "candidate_id" "vendor-admission" := item_text item "reason" absent]> m)
    ∅ (AdmissionResult.summary result).

Section run.
Variable c : GConfig.t.
Variable draw : N -> N * N.
Variable plan_id : N -> N -> N.
Variable host_now : Z.

(** The workers that could take the task without its accelerators. *)
Definition cpu_workers (snapshot : TaskSnapshot.t) (workers : list WorkerSnapshot.t) : gset string :=
  let cpu_only := snapshot <| TaskSnapshot.gpu_count := 0 |> <| TaskSnapshot.gpu_memory_mb := 0 |>
                           <| TaskSnapshot.gpu_model := None |> in
  list_to_set (WorkerSnapshot.id <$> List.filter (fun w =>
    match evaluate_snapshot w cpu_only with inr _ => true | inl _ => false end) workers).

(** The placement of a candidate, with the admission it rests on, and the
    reasons of the workers or pools that cannot take it. *)
Definition choose (candidate : SchedulerCandidate.t) (workers : list WorkerSnapshot.t)
  : Sess (option (Placement.t * option BatchAdmissionSnapshot.t) * gmap string string) :=
  let t := SchedulerCandidate.task candidate in
  if (runtime_type t == KUBERNETES) && (0 <? gpu_count t)
  then match runtime_profile_catalog c with
       | None => mret (None, {["runtime-profile-catalog" := "runtime_profile_unavailable"]})
       | Some catalog =>
           request ← _task_admission_request t;
           result ← admit_batch_task catalog t request
                      (Some (cpu_workers (SchedulerCandidate.snapshot candidate) workers));
           mret ((fun a => (Placement.mk (BatchAdmissionSnapshot.worker_id a) [] [], Some a))
                   <$> AdmissionResult.snapshot result,
                 admission_rejections result)
       end
  else match choose_placement (SchedulerCandidate.snapshot candidate) workers (policy c) with
       | None => raise (ValueError "policy must be 'binpack' or 'spread'")
       | Some (placement, rejected) =>
           mret ((fun p => (p, None)) <$> placement, RejectionReason_value <$> rejected)
       end.

Definition attempt_row (task_id : N) (worker_id : option string) (outcome : string)
    (reason detail : option string) (priority : Z) : PlacementAttempt.t :=
  PlacementAttempt.mk task_id (scheduler_id c) worker_id (policy c) outcome reason detail priority
    host_now.

(** [",".join(str(item) for item in ids)] *)
Definition joined_ids (ids : list N) : string :=
  match uuid_str <$> ids with
  | [] => ""
  | s :: rest => foldl (fun acc x => acc +:+ "," +:+ x)%string s rest
  end.

Definition consider_preemption (locked : gset N) (candidate : SchedulerCandidate.t)
    (workers : list WorkerSnapshot.t) (reason : string) : Sess Rejection.t :=
  let rejected := Rejection.mk reason None "rejected" None in
  if negb (preemption_enabled c) then mret rejected
  else
    let task_id := id (SchedulerCandidate.task candidate) in
    try_except
      (decision ← request_preemption (plan_id task_id) locked task_id
                    (SchedulerCandidate.effective_priority candidate) workers
                    (preemption_min_delta c);
       match decision with
       | None => mret rejected
       | Some d => mret (Rejection.mk "preemption_in_progress" (Some (PreemptionDecision.worker_id d))
                           "preemption_requested"
                           (Some (joined_ids (PreemptionDecision.victim_task_ids d))))
       end)
      (fun e => match e with
                | PreemptionContention _ =>
                    Some (mret (Rejection.mk "preemption_contention" None "conflict"
                                  (Some "incoming_task_locked")))
                | _ => None
                end).

(** The branch of a candidate without a placement. *)
Definition reject_candidate (locked : gset N) (candidate : SchedulerCandidate.t)
    (workers : list WorkerSnapshot.t) (rejected : gmap string string)
  : Sess GlobalSchedulerResult.t :=
  let task_id := id (SchedulerCandidate.task candidate) in
  r ← consider_preemption locked candidate workers (_admission_reason rejected);
  let reason := Rejection.reason r in
  _ ← when (Rejection.outcome r == "rejected") (_ ← mark_unschedulable task_id reason; mret tt);
  if Rejection.outcome r == "conflict"
  then mret (first task_id None false (Some reason))
  else
    _ ← record_attempt (attempt_row task_id (Rejection.worker_id r) (Rejection.outcome r)
                          (Some reason) (Rejection.detail r)
                          (SchedulerCandidate.effective_priority candidate));
    mret (first task_id (Rejection.worker_id r) false (Some reason)).

(** [place] in a savepoint; device ids are UUID strings. *)
Definition nested_place (task_id : N) (p : Placement.t) (admission : option BatchAdmissionSnapshot.t)
  : Sess (Task.t * N) :=
  atomically (match mapM uuid_parse (Placement.gpu_device_ids p) with
              | None => raise (ValueError "badly formed hexadecimal UUID string")
              | Some ids => place (draw task_id).1 (draw task_id).2 task_id (Placement.worker_id p)
                              ids (lease_seconds c) (prices c) admission (runtime_profile_catalog c)
              end).

(** The branch of a candidate with a placement. *)
Definition place_candidate (candidate : SchedulerCandidate.t) (p : Placement.t)
    (admission : option BatchAdmissionSnapshot.t) : Sess GlobalSchedulerResult.t :=
  let task_id := id (SchedulerCandidate.task candidate) in
  let priority := SchedulerCandidate.effective_priority candidate in
  let wid := Some (Placement.worker_id p) in
  try_except
    ('(task, _) ← nested_place task_id p admission;
     _ ← record_attempt (attempt_row (id task) wid "placed" None None priority);
     mret (first (id task) wid true None))
    (fun e => match e with
     | QuotaExceededError m => Some (
         _ ← mark_unschedulable task_id "project_quota_exceeded";
         _ ← record_attempt (attempt_row task_id wid "rejected" (Some "project_quota_exceeded")
                               (Some m) priority);
         mret (first task_id None false (Some "project_quota_exceeded")))
     | PlacementConflict m => Some (
         _ ← record_attempt (attempt_row task_id wid "conflict" (Some "placement_conflict")
                               (Some m) priority);
         mret (first task_id None false (Some "placement_conflict")))
     | _ => None
     end).

(** One iteration of the loop: nothing left to try, or a candidate's result. *)
Definition iteration (locked : gset N) (excluded : list N) : Sess (option GlobalSchedulerResult.t) :=
  candidates ← choose_candidates (aging_interval_seconds c) (candidate_scan_limit c) excluded;
  match candidates with
  | [] => mret None
  | candidate :: _ =>
      workers ← gets worker_snapshots;
      '(placement, rejected) ← choose candidate workers;
      r ← match placement with
          | None => reject_candidate locked candidate workers rejected
          | Some (p, admission) => place_candidate candidate p admission
          end;
      mret (Some r)
  end.

(** The loop, with the attempts left; [locked] gives the rows other
    transactions hold during each attempt.  The answer lists the results of
    the attempts in order. *)
Fixpoint attempts (left : nat) (locked : nat -> gset N) (excluded : list N)
  : Sess (list GlobalSchedulerResult.t) :=
  match left with
  | O => mret []
  | S left' =>
      r ← atomically (iteration (locked left) excluded);
      match r with
      | None => mret []
      | Some r =>
          rs ← attempts left' locked (excluded ++ default [] ((fun i => [i]) <$> GlobalSchedulerResult.task_id r));
          mret (r :: rs)
      end
  end.

Definition run_once (locked : nat -> gset N) : Sess GlobalSchedulerResult.t :=
  results ← attempts (Z.to_nat (batch_size c)) locked [];
  mret match results with
       | [] => GlobalSchedulerResult.mk None None false (Some "queue_empty") 0 0
       | r :: _ =>
           GlobalSchedulerResult.mk (GlobalSchedulerResult.task_id r)
             (GlobalSchedulerResult.worker_id r) (GlobalSchedulerResult.placed r)
             (GlobalSchedulerResult.reason r) (lenZ results)
             (lenZ (List.filter GlobalSchedulerResult.placed results))
       end.
End run.

(** ** Candidates *)
Lemma dedup_elem seen l t : t ∈ dedup_tasks seen l -> t ∈ l /\ id t ∉ seen.
Proof.
  revert seen. induction l as [|x l IH]; intros seen; cbn; [intros Hx; by inversion Hx|].
  destruct (inb (id x) seen) eqn:E.
  - intros [? ?]%IH. split; [by right|done].
  - apply bool_decide_eq_false in E. intros [->|Ht]%elem_of_cons; [split; [left|done]|].
    apply IH in Ht as [? Hs]. split; [by right|]. set_solver.
Qed.

Lemma dedup_covers seen l t : t ∈ l -> id t ∉ seen -> exists t', t' ∈ dedup_tasks seen l /\ id t' = id t.
Proof.
  revert seen. induction l as [|x l IH]; intros seen; cbn; [intros Hx; by inversion Hx|].
  intros Ht Hs. destruct (inb (id x) seen) eqn:E.
  - apply elem_of_cons in Ht as [->|Ht]; [by apply bool_decide_eq_true in E|]. by apply IH.
  - destruct (decide (id x = id t)) as [Hx|Hx]; [exists x; split; [left|done]|].
    apply elem_of_cons in Ht as [->|Ht]; [done|].
    destruct (IH (id x :: seen) Ht) as (t' & ? & ?); [set_solver|]. exists t'. split; [by right|done].
Qed.

Lemma dedup_nodup seen l : NoDup (id <$> dedup_tasks seen l).
Proof.
  revert seen. induction l as [|x l IH]; intros seen; cbn; [constructor|].
  destruct (inb (id x) seen); [done|]. cbn. constructor; [|done].
  intros (t & Hi & Ht)%list_elem_of_fmap. apply dedup_elem in Ht as [_ Hn]. set_solver.
Qed.
Section candidates.
Variable db : Db.t.
Hypothesis Hok : ok db.
Variable excluded : list N.

(** A task the scheduler may consider. *)
Definition eligible_task (t : Task.t) : Prop :=
  Db.tasks db !! id t = Some t /\ _candidate_conditions db excluded t = true.

Definition eligible_rows : list Task.t :=
  List.filter (_candidate_conditions db excluded) (rows (Db.tasks db)).

Lemma eligible_rows_elem t : t ∈ eligible_rows <-> eligible_task t.
Proof.
  unfold eligible_rows, eligible_task. rewrite list_elem_of_In, List.filter_In, <-list_elem_of_In, rows_elem.
  split; [|intros [? ?]; split; eauto]. intros [[k Hk] Hc]. split; [|done].
  by rewrite (keys_tasks _ _ _ _ (I_keys _ _ _ Hok) _ _ Hk).
Qed.

Lemma lane_elem {K} `{Ord K} n (key : Task.t -> K) l t : t ∈ take n (py_sort key l) -> t ∈ l.
Proof. intros (j & Hd & _)%elem_of_take. by apply list_elem_of_lookup_2, elem_of_py_sort in Hd. Qed.

Lemma lanes_elem n now aging c t :
  t ∈ candidate_query db n excluded now aging ++ priority_candidate_query db n excluded
      ++ project_fair_candidate_query db n c excluded now aging -> eligible_task t.
Proof.
  rewrite !elem_of_app, <-eligible_rows_elem. intros [H%lane_elem|[H%lane_elem|H%lane_elem]]; [done..|].
  apply list_elem_of_In, List.filter_In in H as [H _]. by apply list_elem_of_In.
Qed.

(** The first lane is never empty while a task is eligible. *)
Lemma lane_nonempty n now aging t :
  eligible_task t -> exists t', t' ∈ candidate_query db (S n) excluded now aging.
Proof.
  intros Ht%eligible_rows_elem. unfold candidate_query. fold eligible_rows.
  destruct (py_sort _ eligible_rows) as [|x l] eqn:E.
  - apply py_sort_nil in E. rewrite E in Ht. by inversion Ht.
  - exists x. cbn. left.
Qed.

End candidates.

Lemma candidates_ok aging n excluded db :
  ok db -> 1 <= aging -> 1 <= n ->
  exists l, choose_candidates aging n excluded db = (inr l, db) /\
    (forall c, c ∈ l -> eligible_task db excluded (SchedulerCandidate.task c)) /\
    NoDup (id ∘ SchedulerCandidate.task <$> l) /\
    StronglySorted (fun x y => cmp_le (candidate_key x) (candidate_key y)) l /\
    (l = [] -> forall t, ~ eligible_task db excluded t).
Proof.
  intros Hok Ha Hn. unfold choose_candidates.
  assert ((n <? 1) = false) as -> by lia. assert ((aging <? 1) = false) as -> by lia.
  eexists. split; [done|]. cbv zeta.
  set (lanes := candidate_query _ _ _ _ _ ++ _). set (mk := scheduler_candidate _ _ _ _).
  assert (forall t, SchedulerCandidate.task (mk t) = t) as Hmk by done. split_and!.
  - intros c Hc. apply elem_of_py_sort, list_elem_of_fmap in Hc as (t & -> & Ht). rewrite Hmk.
    apply dedup_elem in Ht as [Ht _]. by eapply lanes_elem.
  - rewrite py_sort_perm, <-list_fmap_compose. apply (dedup_nodup [] lanes).
  - apply (py_sort_sorted candidate_key).
  - intros E t Ht. apply py_sort_nil, fmap_nil_inv in E.
    destruct (lane_nonempty db Hok excluded (pred (Z.to_nat n)) (Db.clock db) aging t Ht) as [x Hx].
    replace (S (pred (Z.to_nat n))) with (Z.to_nat n) in Hx by lia.
    destruct (dedup_covers [] lanes x) as (t' & Ht' & _);
      [unfold lanes; set_solver|set_solver|]. rewrite E in Ht'. by inversion Ht'.
Qed.

(** the candidates are the queue.  For a positive scan limit and aging
    interval [choose_candidates] returns without writing.  Every candidate is
    a row of the database that is queued, not cancelled, has all its
    prerequisites and was not excluded; no task appears twice; the list is in
    policy order (schedulable first, then effective priority, dominant share of
    the project, queue order, id); and it is empty only if no task is
    eligible, so the scheduler never idles while work can be considered. *)
Theorem choose_candidates_correct aging n excluded db
    (Hr : reachable db) (Ha : 1 <= aging) (Hn : 1 <= n) :
  exists l, choose_candidates aging n excluded db = (inr l, db) /\
    (forall c, c ∈ l -> eligible_task db excluded (SchedulerCandidate.task c)) /\
    NoDup (id ∘ SchedulerCandidate.task <$> l) /\
    StronglySorted (fun x y => cmp_le (candidate_key x) (candidate_key y)) l /\
    (l = [] -> forall t, ~ eligible_task db excluded t).
Proof. apply candidates_ok; [by apply reachable_ok|done..]. Qed.

(** ** A pass keeps the database reachable *)
Lemma preempt_victim_err i w f now v db e db' :
  preempt_victim i w f now v db = (inl e, db') -> exists a b, e = InvalidTaskTransition a b.
Proof.
  unfold preempt_victim. intros H. apply bind_err in H as [H|(? & ? & _ & H)].
  - unfold ensure_transition, raise_if in H. destruct (negb _); [|done]. injection H as <- _. eauto.
  - done.
Qed.

Lemma for_each_err {X} (l : list X) (body : X -> Sess unit) (P : PyError -> Prop) db e db' :
  (forall x db e db', body x db = (inl e, db') -> P e) -> for_each l body db = (inl e, db') -> P e.
Proof.
  intros Hb. revert db. induction l as [|x l IH]; intros db H; [done|]. cbn in H.
  apply bind_err in H as [H|(? & ? & _ & H)]; eauto.
Qed.

(** A preemption request that meets a lock has written nothing. *)
Lemma preemption_contention f locked i pr ws m db msg db' :
  request_preemption f locked i pr ws m db = (inl (PreemptionContention msg), db') -> db' = db.
Proof.
  unfold request_preemption. intros H. apply bind_err in H as [H|(t & ? & Hg & H)]; [done|].
  apply gets_ok in Hg as [-> ->]. destruct (Db.tasks db !! i) as [t|]; [|by injection H as _ <-].
  apply bind_err in H as [H|(? & ? & Hg & H)].
  { unfold raise_if in H. destruct (bool_decide _); by injection H as _ <-. }
  apply raise_if_ok in Hg as (_ & _ & ->). destruct (_ || _); [done|].
  apply bind_err in H as [H|(pl & ? & Hg & H)]; [done|]. apply gets_ok in Hg as [_ ->].
  destruct pl; [|done]. destruct (bool_decide _); [done|].
  apply bind_err in H as [H|(vs & ? & Hg & H)]; [done|]. apply gets_ok in Hg as [_ ->].
  destruct (py_sort _ _) as [|[? [? ?]] ?]; [done|]. exfalso.
  apply bind_err in H as [H|(now & ? & _ & H)]; [done|].
  apply bind_err in H as [H|(? & ? & _ & H)].
  - eapply (for_each_err _ _ (fun e => exists a b, e = InvalidTaskTransition a b)) in H as (? & ? & ?);
      [done|]. intros. by eapply preempt_victim_err.
  - done.
Qed.

(** The row of a placed task. *)
Lemma place_row eid rid i w ds l prices a c db t' e db' :
  ok db -> place eid rid i w ds l prices a c db = (inr (t', e), db') ->
  e = eid /\ id t' = i /\ Db.tasks db' !! i = Some t' /\ status t' = ASSIGNED /\
  worker_id t' = Some w /\ execution_id t' = Some eid.
Proof.
  intros Hok H. unfold place in H. apply bind_ok in H as (? & ? & Hg & H). minv Hg.
  destruct (Db.tasks db !! i) as [t|] eqn:Ht; [|by apply raise_ok in H].
  assert (i = id t) as -> by (symmetry; destruct Hok as [[]]; eauto).
  apply bind_ok in H as ([] & ? & Hg & H). apply raise_if_ok in Hg as (_ & _ & ->).
  apply bind_ok in H as (? & ? & Hg & H). apply gets_ok in Hg as [_ ->].
  apply bind_ok in H as ([] & ? & Hg & H). apply raise_if_ok in Hg as (_ & _ & ->).
  apply bind_ok in H as (? & db1 & Hgl & H).
  apply get_locked_workers in Hgl. apply bind_ok in H as (wk & ? & Hg & H). apply gets_ok in Hg as [-> ->].
  rewrite Hgl in H. destruct (Db.workers db !! w) as [wk|] eqn:Hwk; [|by apply raise_ok in H].
  assert (w = Worker.id wk) as -> by (symmetry; destruct Hok as [[]]; eauto).
  do 7 apply bind_ok in H as ([] & ? & _ & H). apply bind_ok in H as (dv & ? & _ & H). cbv zeta in H.
  do 1 apply bind_ok in H as ([] & ? & _ & H). apply bind_ok in H as (now & ? & _ & H).
  apply bind_ok in H as ([] & ? & _ & H). cbv zeta in H.
  do 3 apply bind_ok in H as ([] & ? & _ & H).
  apply bind_ok in H as (? & ? & [-> ->]%plus_seconds_ok & H).
  apply bind_ok in H as ([] & db2 & Hput & H). apply modify_ok in Hput as [_ ->].
  set (t1 := placed_task _ _ _ _ _ _ _) in *.
  apply bind_ok in H as ([] & db3 & Hev & H). apply modify_ok in Hev as [_ ->].
  apply bind_ok in H as ([] & db4 & Hres & H). apply reserve_assignment_ok in Hres as (ET & _ & _).
  apply bind_ok in H as ([] & db5 & Hob & H). apply modify_ok in Hob as [_ ->].
  apply ret_ok in H as [[= -> ->] ->].
  assert (id t1 = id t /\ status t1 = ASSIGNED /\ worker_id t1 = Some (Worker.id wk) /\
    execution_id t1 = Some eid) as (T1 & T2 & T3 & T4)
    by (unfold t1, placed_task, admitted_task, _prepare_for_assignment; destruct a; by tfields).
  split_and!; try done. fields. rewrite ET. fields. rewrite T1. apply lookup_insert_eq.
Qed.

Section pass.
Variable c : GConfig.t.
Variable draw : N -> N * N.
Variable plan_id : N -> N -> N.
Variable host_now : Z.

Lemma record_attempt_reachable a db u db' :
  reachable db -> record_attempt a db = (inr u, db') -> reachable db' /\ Db.tasks db' = Db.tasks db.
Proof.
  intros Hr H. split; [by eapply (reachable_commit (OpAttempt a))|].
  unfold record_attempt in H. by apply modify_ok in H as [_ ->].
Qed.

(** An operation that returns is a committed step. *)
Lemma op_reachable {A} op (m : Sess A) db a db' :
  exec op = ignore m -> well_called op = true -> reachable db -> m db = (inr a, db') -> reachable db'.
Proof.
  intros He Hw Hr H. eapply (reachable_commit op _ tt); [done|exact Hr|].
  rewrite He. unfold ignore, mbind, M_bind. by rewrite H.
Qed.

Lemma consider_preemption_reachable locked cand ws reason db r db' :
  reachable db -> consider_preemption c plan_id locked cand ws reason db = (inr r, db') -> reachable db'.
Proof.
  intros Hr H. unfold consider_preemption in H. destruct (negb _); [by apply ret_ok in H as [_ ->]|].
  unfold try_except in H.
  destruct (request_preemption (plan_id (id (SchedulerCandidate.task cand))) locked
    (id (SchedulerCandidate.task cand)) (SchedulerCandidate.effective_priority cand) ws
    (preemption_min_delta c) db) as [[e|d] db1] eqn:E; unfold mbind, M_bind in H; rewrite E in H.
  - destruct e; try done. apply ret_ok in H as [_ ->]. by apply preemption_contention in E as ->.
  - assert (reachable db1) as Hr1 by
      (eapply (op_reachable (OpPreempt (plan_id (id (SchedulerCandidate.task cand))) locked
        (id (SchedulerCandidate.task cand)) (SchedulerCandidate.effective_priority cand) ws
        (preemption_min_delta c))); done).
    destruct d; by injection H as _ <-.
Qed.

Lemma reject_candidate_ok locked cand ws rej db r db' :
  reachable db -> reject_candidate c plan_id host_now locked cand ws rej db = (inr r, db') ->
  reachable db' /\ GlobalSchedulerResult.task_id r = Some (id (SchedulerCandidate.task cand)) /\
  GlobalSchedulerResult.placed r = false.
Proof.
  intros Hr H. unfold reject_candidate in H. apply bind_ok in H as (x & db1 & Hx & H).
  apply consider_preemption_reachable in Hx; [|done]. apply bind_ok in H as ([] & db2 & Hm & H).
  assert (reachable db2) as Hr2.
  { apply when_ok in Hm as [[_ Hm]|(_ & _ & ->)]; [|done].
    apply bind_ok in Hm as (b & db3 & Hm & H'). apply ret_ok in H' as [_ ->].
    by eapply (op_reachable (OpUnschedulable (id (SchedulerCandidate.task cand)) (Rejection.reason x))). }
  destruct (_ == "conflict"); [by apply ret_ok in H as [-> ->]|].
  apply bind_ok in H as ([] & db3 & Ha & H). apply ret_ok in H as [-> ->].
  by apply record_attempt_reachable in Ha as [? _].
Qed.

Lemma nested_place_ok i p a db r db' :
  reachable db -> nested_place c draw i p a db = (inr r, db') ->
  reachable db' /\ id r.1 = i /\ Db.tasks db' !! i = Some r.1 /\ status r.1 = ASSIGNED /\
  worker_id r.1 = Some (Placement.worker_id p).
Proof.
  intros Hr H. unfold nested_place in H. rewrite atomically_ok in H.
  destruct (mapM _ _) as [ids|]; [|by apply raise_ok in H]. split.
  - by eapply (op_reachable (OpPlace (draw i).1 (draw i).2 i (Placement.worker_id p) ids
      (lease_seconds c) (prices c) a (runtime_profile_catalog c))).
  - destruct r as [t e]. apply place_row in H as (_ & ? & ? & ? & ? & _); [done|by apply reachable_ok].
Qed.

Lemma place_candidate_ok cand p a db r db' :
  reachable db -> place_candidate c draw host_now cand p a db = (inr r, db') ->
  reachable db' /\ GlobalSchedulerResult.task_id r = Some (id (SchedulerCandidate.task cand)) /\
  (GlobalSchedulerResult.placed r = true ->
   GlobalSchedulerResult.worker_id r = Some (Placement.worker_id p) /\
   exists t, Db.tasks db' !! id (SchedulerCandidate.task cand) = Some t /\ status t = ASSIGNED /\
     worker_id t = Some (Placement.worker_id p)).
Proof.
  intros Hr H. unfold place_candidate, try_except in H. unfold mbind at 1, M_bind at 1 in H.
  destruct (nested_place c draw (id (SchedulerCandidate.task cand)) p a db) as [[e|[t e]] db1] eqn:E.
  - apply atomically_err in E as ->. destruct e; try done.
    + apply bind_ok in H as (b & db2 & Hm & H). apply bind_ok in H as ([] & db3 & Ha & H).
      apply ret_ok in H as [-> ->].
      eapply (op_reachable (OpUnschedulable (id (SchedulerCandidate.task cand))
        "project_quota_exceeded")) in Hm; [|done..]. by apply record_attempt_reachable in Ha as [? _].
    + apply bind_ok in H as ([] & db3 & Ha & H).
      apply ret_ok in H as [-> ->]. by apply record_attempt_reachable in Ha as [? _].
  - apply nested_place_ok in E as (Hr1 & E1 & E2 & E3 & E4); [|done]. cbn [fst] in *.
    injection H as <- <-. rewrite E1. split_and!; [|done|].
    + by eapply (record_attempt_reachable _ db1 tt).
    + intros _. split; [done|]. by exists t.
Qed.

(** The choice reads, or records an admission. *)
Lemma choose_reachable cand ws db r db' :
  reachable db -> Db.tasks db !! id (SchedulerCandidate.task cand) = Some (SchedulerCandidate.task cand) ->
  choose c cand ws db = (inr r, db') -> reachable db'.
Proof.
  intros Hr Ht H. unfold choose in H. destruct (_ && _).
  - destruct (runtime_profile_catalog c) as [catalog|]; [|by apply ret_ok in H as [_ ->]].
    apply bind_ok in H as (request & db1 & Hq & H). eapply (frames_run eq) in Hq as <-; [|frame_by fail].
    apply bind_ok in H as (result & db1 & Ha & H). apply ret_ok in H as [_ ->].
    eapply (reachable_commit (OpAdmitBatch catalog (id (SchedulerCandidate.task cand)) request _) _ tt); [done|exact Hr|].
    cbn [exec]. unfold get_task, gets, ignore. unfold mbind, M_bind. rewrite Ht, Ha. done.
  - destruct (choose_placement _ _ _) as [[]|]; [by apply ret_ok in H as [_ ->]|by apply raise_ok in H].
Qed.

(** What one attempt promises: it takes a task of the queue that the pass has
    not tried, and a placement it reports is in the database. *)
Definition attempted (excluded : list N) (db : Db.t) (r : GlobalSchedulerResult.t) (db' : Db.t) : Prop :=
  exists t, eligible_task db excluded t /\ GlobalSchedulerResult.task_id r = Some (id t) /\
    (GlobalSchedulerResult.placed r = true ->
     exists w t', GlobalSchedulerResult.worker_id r = Some w /\ Db.tasks db' !! id t = Some t' /\
       status t' = ASSIGNED /\ worker_id t' = Some w).

(** The abstract pass: attempts of different tasks, one after the other, each
    committed before the next starts. *)
Inductive pass (excluded : list N) (db : Db.t) : list GlobalSchedulerResult.t -> Db.t -> Prop :=
  | pass_nil : pass excluded db [] db
  | pass_cons r rs i db1 db' :
      attempted excluded db r db1 -> GlobalSchedulerResult.task_id r = Some i ->
      pass (excluded ++ [i]) db1 rs db' -> pass excluded db (r :: rs) db'.

Lemma eligible_not_excluded db excluded t : eligible_task db excluded t -> id t ∉ excluded.
Proof.
  intros [_ H]. unfold _candidate_conditions in H. intros Hi.
  assert (inb (id t) excluded = true) as E by (by apply bool_decide_eq_true). rewrite E in H.
  by rewrite !andb_false_r in H.
Qed.

Lemma pass_ids excluded db rs db' :
  pass excluded db rs db' ->
  NoDup (GlobalSchedulerResult.task_id <$> rs) /\
  forall r, r ∈ rs -> exists i, GlobalSchedulerResult.task_id r = Some i /\ i ∉ excluded.
Proof.
  induction 1 as [|excluded db r rs i db1 db' (t & He & Hi & _) Ei _ [IH1 IH2]]; cbn.
  - split; [constructor|]. intros r Hr. by inversion Hr.
  - rewrite Ei in Hi. injection Hi as ->. split.
    + constructor; [|done]. intros (r' & Er & Hr')%list_elem_of_fmap.
      destruct (IH2 _ Hr') as (j & Ej & Hj). rewrite Ei, Ej in Er. injection Er as Er. rewrite <-Er in Hj. set_solver.
    + intros r' [->|Hr']%elem_of_cons; [eauto using eligible_not_excluded|].
      destruct (IH2 _ Hr') as (j & Ej & Hj). exists j. split; [done|]. set_solver.
Qed.

Hypothesis Ha : 1 <= aging_interval_seconds c.
Hypothesis Hn : 1 <= candidate_scan_limit c.

Lemma iteration_ok locked excluded db o db' :
  reachable db -> iteration c draw plan_id host_now locked excluded db = (inr o, db') ->
  match o with
  | None => db' = db /\ forall t, ~ eligible_task db excluded t
  | Some r => reachable db' /\ attempted excluded db r db'
  end.
Proof.
  intros Hr H. unfold iteration in H. apply bind_ok in H as (l & db1 & Hc & H).
  destruct (candidates_ok _ _ excluded db (reachable_ok _ Hr) Ha Hn) as (l' & E & Hel & _ & _ & Hnil).
  rewrite E in Hc. injection Hc as <- <-. destruct l' as [|cand l'].
  { apply ret_ok in H as [-> ->]. eauto. }
  apply bind_ok in H as (ws & ? & Hg & H). apply gets_ok in Hg as [_ ->].
  apply bind_ok in H as ([p rej] & db2 & Hg & H).
  pose proof (Hel cand ltac:(left)) as He. apply (choose_reachable _ _ _ _ _ Hr (proj1 He)) in Hg as Hr2.
  apply bind_ok in H as (r & db3 & Hg' & H). apply ret_ok in H as [-> ->]. destruct p as [[p a]|].
  - apply place_candidate_ok in Hg' as (? & ? & Hp); [|done]. split; [done|].
    eexists. split_and!; [done..|]. intros Hpl. destruct (Hp Hpl) as (? & t & ? & ? & ?). eauto 10.
  - apply reject_candidate_ok in Hg' as (? & ? & Hp); [|done]. split; [done|].
    eexists. split_and!; [done..|]. by rewrite Hp.
Qed.

Definition tried (rs : list GlobalSchedulerResult.t) : list N := omap GlobalSchedulerResult.task_id rs.

Lemma attempts_ok left locked excluded db o db' :
  reachable db -> attempts c draw plan_id host_now left locked excluded db = (o, db') ->
  reachable db' /\
  exists rs, pass excluded db rs db' /\ (length rs <= left)%nat /\
    forall rs', o = inr rs' -> rs' = rs /\
      ((length rs < left)%nat -> forall t, ~ eligible_task db' (excluded ++ tried rs) t).
Proof.
  revert excluded db o db'. induction left as [|left IH]; intros excluded db o db' Hr H; cbn in H.
  { injection H as <- <-. split; [done|]. exists []. split_and!; [constructor|done|].
    intros rs' [= <-]. split; [done|]. cbn. lia. }
  unfold mbind at 1, M_bind at 1 in H.
  destruct (atomically (iteration c draw plan_id host_now (locked (S left)) excluded) db)
    as [[e|r] db1] eqn:E.
  { apply atomically_err in E as ->. injection H as <- <-. split; [done|]. exists [].
    split_and!; [constructor|cbn; lia|done]. }
  rewrite atomically_ok in E. apply iteration_ok in E; [|done]. destruct r as [r|].
  - destruct E as [Hr1 Hat]. pose proof Hat as (t & _ & Hi & _). rewrite Hi in H. cbn in H.
    unfold mbind, M_bind in H.
    destruct (attempts c draw plan_id host_now left locked (excluded ++ [id t]) db1) as [o2 db2] eqn:E2.
    apply IH in E2 as (Hr2 & rs & Hp & Hl & Ho); [|done].
    assert (db' = db2) as -> by (destruct o2; by injection H).
    split; [done|]. exists (r :: rs). split_and!; [by econstructor|cbn; lia|].
    intros rs' ->. destruct o2 as [e|rs2]; [done|]. injection H as <-.
    destruct (Ho rs2 eq_refl) as [-> Hlt]. split; [done|]. intros Hlen t'.
    replace (excluded ++ tried (r :: rs)) with ((excluded ++ [id t]) ++ tried rs)
      by (unfold tried; cbn; rewrite Hi, <-app_assoc; done).
    apply Hlt. cbn in Hlen. lia.
  - destruct E as [-> Hno]. injection H as <- <-. split; [done|]. exists [].
    split_and!; [constructor|cbn; lia|]. intros rs' [= <-]. split; [done|].
    cbn. by rewrite app_nil_r.
Qed.

(** C27: a scheduling pass is a bounded sequence of attempts.  Whatever the
    pass does, also when one of its transactions raises, the database it
    leaves is reachable and is the result of a run of the abstract pass:
    committed attempts of pairwise different eligible tasks, at most
    [batch_size] of them, where a reported placement is in the database with
    the task assigned to the reported worker.  When the pass returns, its
    counters count those attempts and placements, its first fields are those
    of the first attempt, and a pass that stops early leaves no eligible task
    untried. *)
Theorem run_once_refines_pass locked db o db'
    (Hr : reachable db) (Hc : GConfig.check c = None)
    (Hrun : run_once c draw plan_id host_now locked db = (o, db')) :
  reachable db' /\
  exists rs, pass [] db rs db' /\ NoDup (GlobalSchedulerResult.task_id <$> rs) /\
    lenZ rs <= batch_size c /\
    forall r, o = inr r ->
      GlobalSchedulerResult.attempted_count r = lenZ rs /\
      GlobalSchedulerResult.placed_count r = lenZ (List.filter GlobalSchedulerResult.placed rs) /\
      GlobalSchedulerResult.task_id r = head rs ≫= GlobalSchedulerResult.task_id /\
      GlobalSchedulerResult.worker_id r = head rs ≫= GlobalSchedulerResult.worker_id /\
      (lenZ rs < batch_size c -> forall t, ~ eligible_task db' (tried rs) t).
Proof.
  unfold run_once, mbind at 1, M_bind at 1 in Hrun.
  destruct (attempts c draw plan_id host_now (Z.to_nat (batch_size c)) locked [] db) as [oa dba] eqn:E.
  assert (dba = db') as -> by (destruct oa; by injection Hrun).
  apply attempts_ok in E as (Hr' & rs & Hp & Hl & Ho); [|done]. split; [done|]. exists rs.
  assert (1 <= batch_size c) as Hb by (unfold GConfig.check in Hc; destruct (batch_size c <? 1) eqn:?; [done|lia]).
  split_and!; [done|by eapply pass_ids|unfold lenZ; lia|].
  intros r ->. destruct oa as [e|rs']; [done|]. injection Hrun as <-.
  destruct (Ho rs' eq_refl) as [-> Hlt]. split_and!; try by destruct rs.
  intros Hlen. apply Hlt. unfold lenZ in Hlen. lia.
Qed.
End pass.

Lemma choose_candidates_correct_witness :
  exists l, choose_candidates 300 128 [1%N] Scenario.queued = (inr l, Scenario.queued) /\
    NoDup (id ∘ SchedulerCandidate.task <$> l) /\ l <> [].
Proof.
  destruct (choose_candidates_correct 300 128 [1%N] Scenario.queued Scenario.queued_reachable
    ltac:(lia) ltac:(lia)) as (l & E & _ & Hn & _). exists l. split; [exact E|]. split; [exact Hn|].
  intros ->. clear Hn. vm_compute in E. discriminate E.
Defined.

Lemma run_once_refines_pass_witness :
  let c := GConfig.mk "s" Scenario.lease "binpack" 300 Scenario.free true 10 16 128 None in
  exists r db' rs, run_once c (fun i => (i + 100, i + 200))%N (fun i j => (i + j)%N) 1000000
    (fun _ => ∅) Scenario.queued = (inr r, db') /\ pass [] Scenario.queued rs db' /\
    lenZ rs <= 16 /\ GlobalSchedulerResult.placed_count r = 2.
Proof.
  intros c.
  destruct (run_once c (fun i => (i + 100, i + 200))%N (fun i j => (i + j)%N) 1000000
    (fun _ => ∅) Scenario.queued) as [o db'] eqn:E.
  destruct (run_once_refines_pass c (fun i => (i + 100, i + 200))%N (fun i j => (i + j)%N) 1000000
    ltac:(cbn; lia) ltac:(cbn; lia) (fun _ => ∅) Scenario.queued o db' Scenario.queued_reachable
    eq_refl E) as (_ & rs & Hp & _ & Hl & Ho).
  assert (match o with inl _ => false | inr r => GlobalSchedulerResult.placed_count r =? 2 end = true) as Hc.
  { replace o with ((run_once c (fun i => (i + 100, i + 200))%N (fun i j => (i + j)%N) 1000000
      (fun _ => ∅) Scenario.queued).1) by (rewrite E; reflexivity). vm_compute. reflexivity. }
  destruct o as [e|r]; [discriminate Hc|]. exists r, db', rs. split; [reflexivity|].
  split; [exact Hp|]. split; [exact Hl|]. apply Z.eqb_eq. exact Hc.
Defined.
