(* ===== verification/DependencyGraph.v ===== *)
(** * The dependency graph

    No operation but the submission of a task and the writes of job groups
    touches the dependency edges, and no operation removes a task.  From this
    follows that the dependency graph of every reachable database is acyclic. *)

From S2P Require Import Prelude PyFloat PyString Enums Policies Store Quotas Reservations Tasks.
From S2P Require Import Scheduling Workers Invariant Transaction Lifecycle Cycles Dag Creation System Scenario.
From S2P Require Import Frames Gateway ServiceFrames Admission AdmissionFrames.

Import Task StateMachine.

(** ** Frames *)
Definition kept (db db' : Db.t) : Prop :=
  Db.dependencies db' = Db.dependencies db /\ dom (Db.tasks db) ⊆ dom (Db.tasks db').

#[export] Instance kept_preorder : PreOrder kept.
Proof.
  split; [by split|]. intros a b c [E1 S1] [E2 S2]. split; [by rewrite E2|by etrans].
Qed.

Ltac frame := frame_by ltac:(split; fields; first [reflexivity | rewrite dom_insert; set_solver]).

(** The helpers the operations share. *)
Lemma frames_get_locked p : frames kept (get_locked p).
Proof. frame. Qed.
#[export] Hint Resolve frames_get_locked : frames.
Lemma frames_touch_state p s : frames kept (_touch_state p s).
Proof. frame. Qed.
#[export] Hint Resolve frames_touch_state : frames.
Lemma frames_initialize p : frames kept (initialize p).
Proof. frame. Qed.
#[export] Hint Resolve frames_initialize : frames.
Lemma frames_admit_queued p : frames kept (admit_queued p).
Proof. frame. Qed.
#[export] Hint Resolve frames_admit_queued : frames.
Lemma frames_release_queued p : frames kept (release_queued p).
Proof. frame. Qed.
#[export] Hint Resolve frames_release_queued : frames.
Lemma frames_reserve_execution p c m g x v : frames kept (reserve_execution p c m g x v).
Proof. frame. Qed.
#[export] Hint Resolve frames_reserve_execution : frames.
Lemma frames_release p c m g x y d v : frames kept (release p c m g x y d v).
Proof. frame. Qed.
#[export] Hint Resolve frames_release : frames.
Lemma frames_transition t s n e : frames kept (_transition t s n e).
Proof. frame. Qed.
#[export] Hint Resolve frames_transition : frames.
Lemma frames_admit_retry p : frames kept (_admit_retry p).
Proof. frame. Qed.
#[export] Hint Resolve frames_admit_retry : frames.
Lemma frames_release_and_settle t e s n r : frames kept (release_and_settle t e s n r).
Proof. frame. Qed.
#[export] Hint Resolve frames_release_and_settle : frames.
Lemma frames_owned_task i w e s : frames kept (_owned_task i w e s).
Proof. frame. Qed.
#[export] Hint Resolve frames_owned_task : frames.
Lemma frames_complete_preemption_plans i n : frames kept (_complete_preemption_plans i n).
Proof. frame. Qed.
#[export] Hint Resolve frames_complete_preemption_plans : frames.
Lemma frames_reserve_assignment al e r t w w' d n p : frames kept (reserve_assignment al e r t w w' d n p).
Proof. frame. Qed.
#[export] Hint Resolve frames_reserve_assignment : frames.

Lemma frames_try_candidates p ex now b off sk l : frames kept (try_candidates p ex now b off sk l).
Proof. apply try_candidates_frames; [exact _|frame..]. Qed.
#[export] Hint Resolve frames_try_candidates : frames.

Lemma frames_locked_quota p : frames kept (locked_quota p).
Proof. frame. Qed.
Lemma event_kept db e : kept db (db <| Db.admission_events ::= fun l => l ++ [e] |>).
Proof. split; fields; reflexivity. Qed.
Lemma admit_batch_kept c t r w : frames kept (admit_batch_task c t r w).
Proof. apply frames_admit_batch; [exact _|apply event_kept]. Qed.
Lemma admit_service_kept c p i l r mem d t : frames kept (admit_logical_model_service c p i l r mem d t).
Proof. apply frames_admit_service; [exact _|apply event_kept|apply frames_locked_quota]. Qed.
Lemma revalidate_kept c s d : frames kept (revalidate_logical_model_service_scale c s d).
Proof. apply frames_revalidate; [exact _|apply event_kept|apply frames_locked_quota]. Qed.
#[export] Hint Resolve admit_batch_kept admit_service_kept revalidate_kept : frames.

(** The operations that write edges. *)
Definition writes_edges (op : Op) : bool :=
  match op with OpCreate _ _ | OpGroup _ _ _ _ _ | OpDependency _ _ _ => true | _ => false end.

Lemma exec_frames op : writes_edges op = false -> frames kept (exec op).
Proof. intros H. destruct op; try discriminate H; clear H; cbn [exec]; unfold ignore; frame. Qed.

(** ** Acyclic graphs *)
Lemma cyclic_app_source E F t :
  (forall e, e ∈ E -> e.2 <> t) -> (forall e, e ∈ F -> e.1 = t /\ e.2 <> t) ->
  cyclic (E ++ F) -> cyclic E.
Proof.
  intros HE HF [n Hn].
  assert (forall u v, tc (dep_rel (E ++ F)) u v -> v <> t) as Htgt.
  { induction 1 as [u v H|]; [|done]. apply elem_of_app in H as [H|H]; [by apply (HE (u, v))|].
    by apply (HF (u, v)). }
  assert (forall u v, tc (dep_rel (E ++ F)) u v -> u <> t -> tc (dep_rel E) u v) as Hin.
  { assert (forall u v, dep_rel (E ++ F) u v -> u <> t -> dep_rel E u v) as H1.
    { intros u v [H|H]%elem_of_app Hu; [done|]. by apply HF in H as [? _]. }
    induction 1 as [u v H|u w v H Hwv IH]; intros Hu; [by apply tc_once, H1|].
    eapply tc_l; [by apply H1|]. apply IH. eapply Htgt. by apply tc_once. }
  exists n. apply Hin; [done|]. by eapply Htgt.
Qed.

Lemma tc_app_edge E a b u v :
  tc (dep_rel (E ++ [(a, b)])) u v ->
  tc (dep_rel E) u v \/ (rtc (dep_rel E) u a /\ rtc (dep_rel E) b v).
Proof.
  assert (forall x y, dep_rel (E ++ [(a, b)]) x y -> dep_rel E x y \/ (x = a /\ y = b)) as H1.
  { intros x y [H|[= -> ->]%list_elem_of_singleton]%elem_of_app; auto. }
  induction 1 as [u v [H|[-> ->]]%H1|u w v [H|[-> ->]]%H1 _ IH].
  - left. by apply tc_once.
  - right. split; apply rtc_refl.
  - destruct IH as [IH|[IH1 IH2]]; [left; by eapply tc_l|right; split; [by eapply rtc_l|done]].
  - destruct IH as [IH|[IH1 IH2]]; right; (split; [apply rtc_refl|]); [by apply tc_rtc|done].
Qed.

(** An edge whose end points lie in one component closes a cycle only with
    the edges of the component. *)
Lemma cyclic_app_edge E C a b (inside : N -> Prop) :
  ~ cyclic E -> inside b -> (forall u v, (u, v) ∈ E -> inside u -> (u, v) ∈ C /\ inside v) ->
  cyclic (E ++ [(a, b)]) -> cyclic (C ++ [(a, b)]).
Proof.
  intros HE Hb Hin [n [Hn|[H1 H2]]%tc_app_edge]; [by destruct HE; exists n|].
  assert (rtc (dep_rel E) b a) as Hba by (by etrans).
  exists a. eapply tc_rtc_r; [apply tc_once, elem_of_app; right; by left|].
  assert (forall x, rtc (dep_rel E) x a -> inside x -> rtc (dep_rel (C ++ [(a, b)])) x a) as Hr; [|by apply Hr].
  intros x Hx. induction Hx as [|x y z Hxy _ IH]; intros Hi; [apply rtc_refl|].
  destruct (Hin x y Hxy Hi). eapply rtc_l; [apply elem_of_app; by left|by apply IH].
Qed.

Lemma cyclic_sub E E' : (forall e, e ∈ E -> e ∈ E') -> cyclic E -> cyclic E'.
Proof.
  intros H [n Hn]. exists n. revert Hn. generalize n at 1 3. intros m.
  induction 1 as [u v Huv|u w v Huw _ IH]; [by apply tc_once, H|]. eapply tc_l; [by apply H|done].
Qed.

(** ** The invariant *)
Definition edges_of (db : Db.t) : list Edge := edge_of <$> Db.dependencies db.

Record graph_ok (db : Db.t) : Prop := {
  graph_keys : NoDup (edges_of db);
  graph_tasks e : e ∈ Db.dependencies db ->
    dep_task e ∈ dom (Db.tasks db) /\ dep_on e ∈ dom (Db.tasks db);
  (** The prerequisites of a member of a group are edges of the group. *)
  graph_groups e e' g : e ∈ Db.dependencies db -> e' ∈ Db.dependencies db ->
    TaskDependency.job_group_id e = Some g -> dep_task e' = dep_task e \/ dep_task e' = dep_on e ->
    TaskDependency.job_group_id e' = Some g;
  graph_acyclic : ~ cyclic (edges_of db);
}.

Lemma graph_kept db db' : kept db db' -> graph_ok db -> graph_ok db'.
Proof.
  intros [E S] [H1 H2 H3 H4]. unfold edges_of in *. constructor; unfold edges_of; rewrite ?E; try done.
  intros e He. destruct (H2 e He). split; by apply S.
Qed.

(** As many rows as ids: every id is a row. *)
Lemma rows_cover db p ids :
  ok db -> NoDup ids -> lenZ (project_tasks db p ids) = lenZ ids ->
  forall i, i ∈ ids -> exists t, Db.tasks db !! i = Some t /\ t ∈ project_tasks db p ids.
Proof.
  intros Hok Hids Hlen i Hi. set (l := project_tasks db p ids) in *.
  assert (forall t, t ∈ l -> Db.tasks db !! id t = Some t /\ id t ∈ ids) as Hl.
  { intros t [Ht Hc]%elem_of_lfilter. apply andb_true_iff in Hc as [_ Hc]. apply inb_true in Hc.
    split; [|done]. apply rows_elem in Ht as [k Hk].
    by rewrite (keys_tasks _ _ _ _ (I_keys _ _ _ Hok) _ _ Hk). }
  assert (NoDup (id <$> l)) as Hn.
  { apply lfilter_fmap_nodup, rows_ids, Hok. }
  assert (i ∈ id <$> l) as Hil.
  { apply list_elem_of_In, (NoDup_length_incl (l := id <$> l) (l' := ids)).
    - by apply NoDup_ListNoDup.
    - rewrite length_fmap. unfold lenZ in Hlen. lia.
    - intros j Hj%list_elem_of_In. apply list_elem_of_fmap in Hj as (t & -> & Ht).
      apply list_elem_of_In. by apply Hl.
    - by apply list_elem_of_In. }
  apply list_elem_of_fmap in Hil as (t & -> & Ht). exists t. split; [by apply Hl|done].
Qed.

(** ** Submission *)
Lemma graph_submit db db' i deps policy :
  graph_ok db -> NoDup deps -> (forall d, d ∈ deps -> d ∈ dom (Db.tasks db)) ->
  i ∉ dom (Db.tasks db) -> {[i]} ∪ dom (Db.tasks db) ⊆ dom (Db.tasks db') ->
  Db.dependencies db' = Db.dependencies db ++ ((fun d => TaskDependency.mk i d None policy) <$> deps) ->
  graph_ok db'.
Proof.
  intros [G1 G2 G3 G4] Hnd Hdeps Hnew D5 E5.
  assert (forall d, d ∈ dom (Db.tasks db) -> d <> i) as Hne by (by intros d Hd ->).
  set (new := _ <$> deps) in E5.
  assert (forall e, e ∈ new -> dep_task e = i /\ dep_on e ∈ dom (Db.tasks db) /\
    TaskDependency.job_group_id e = None) as Hnewe.
  { intros e (d & -> & Hd)%list_elem_of_fmap. split_and!; [done|by apply Hdeps|done]. }
  assert (edges_of db' = edges_of db ++ ((fun d => (i, d)) <$> deps)) as Eed.
  { unfold edges_of. rewrite E5, fmap_app. f_equal. unfold new. rewrite <-list_fmap_compose. done. }
  constructor.
  - rewrite Eed. apply NoDup_app. split_and!; [done| |].
    + intros x (e & -> & He)%list_elem_of_fmap (d & Hd & _)%list_elem_of_fmap. injection Hd as Hd _.
      destruct (G2 e He) as [Hin _]. by apply (Hne _ Hin).
    + apply NoDup_fmap_2; [by intros ? ? [= ->]|done].
  - intros e. rewrite E5. intros [He|He]%elem_of_app.
    + destruct (G2 e He). split; apply D5; set_solver.
    + destruct (Hnewe e He) as (-> & ? & _). split; apply D5; set_solver.
  - intros e e' g. rewrite E5. intros [He|He]%elem_of_app He' Hg Heq.
    + apply elem_of_app in He' as [He'|He']; [exact (G3 e e' g He He' Hg Heq)|]. destruct (Hnewe e' He') as (E' & _).
      destruct (G2 e He) as [X1 X2]. rewrite E' in Heq. destruct Heq as [Heq|Heq]; exfalso.
      * by apply (Hne _ X1).
      * by apply (Hne _ X2).
    + destruct (Hnewe e He) as (_ & _ & Hnone). congruence.
  - rewrite Eed. intros Hc. apply G4. eapply (cyclic_app_source _ _ i); [| |exact Hc].
    + intros x (e & -> & He)%list_elem_of_fmap. apply Hne. by apply (G2 e He).
    + intros x (d & -> & Hd)%list_elem_of_fmap. split; [done|]. by apply Hne, Hdeps.
Qed.

Lemma insert_task_ok t db u db' :
  insert_task t db = (inr u, db') -> id t ∉ dom (Db.tasks db) /\ db' = db <| Db.tasks ::= <[id t := t]> |>.
Proof.
  unfold insert_task. intros H. apply bind_ok in H as (b & ? & [Eb ->]%gets_ok & H).
  apply bind_ok in H as (? & ? & [_ ->]%gets_ok & H).
  apply bind_ok in H as ([] & ? & (Hb & _ & ->)%raise_if_ok & H).
  do 2 apply bind_ok in H as ([] & ? & (_ & _ & ->)%raise_if_ok & H).
  apply modify_ok in H as [_ ->]. split; [|done]. rewrite elem_of_dom.
  rewrite Hb in Eb. by symmetry in Eb; apply bool_decide_eq_false in Eb.
Qed.

Lemma create_graph i a db t db' :
  ok db -> graph_ok db -> create_queued i a db = (inr t, db') -> graph_ok db'.
Proof.
  intros Hok HG H. unfold create_queued in H.
  apply bind_ok in H as ([] & ? & (Hnd & _ & ->)%raise_if_ok & H). apply negb_false_iff, bool_decide_eq_true in Hnd.
  apply bind_ok in H as ([] & ? & (_ & _ & ->)%raise_if_ok & H).
  apply bind_ok in H as (ts & ? & [Ets ->]%gets_ok & H).
  apply bind_ok in H as ([] & ? & (Hlen & _ & ->)%raise_if_ok & H). apply negb_false_iff, bool_decide_eq_true in Hlen.
  assert (forall d, d ∈ Submission.depends_on a -> d ∈ dom (Db.tasks db)) as Hdeps.
  { intros d Hd. rewrite Ets in Hlen.
    destruct (rows_cover db (Submission.project_id a) (Submission.depends_on a) Hok Hnd) with d as (t' & Ht' & _);
      [unfold lenZ; f_equal; exact Hlen|done|]. by apply elem_of_dom_2 in Ht'. }
  apply bind_ok in H as ([q s] & db1 & H1 & H). apply (frames_run kept) in H1; [|frame].
  apply bind_ok in H as ([] & db2 & H2 & H). apply (frames_run kept) in H2; [|frame].
  apply bind_ok in H as (s2 & db3 & H3 & H). apply (frames_run kept) in H3; [|frame].
  assert (kept db db3) as Hk by (by do 2 (etrans; [eassumption|])). clear H1 H2 H3.
  apply bind_ok in H as (now & ? & [_ ->]%gets_ok & H). cbv zeta in H. set (nt := new_task i now a) in H.
  apply bind_ok in H as ([] & db4 & Hins & H).
  apply insert_task_ok in Hins as [Hnew ->]. change (id nt) with i in *.
  apply bind_ok in H as ([] & db5 & [_ ->]%modify_ok & H).
  match type of H with _ ?db = _ => set (db5 := db) in H end.
  assert (kept db5 db') as Hk5 by (eapply (frames_run kept); [|exact H]; clear; frame).
  apply (graph_kept _ _ Hk5). clear H Hk5. destruct Hk as [Edep Hsub].
  eapply (graph_submit db db5 i); [exact HG|exact Hnd|exact Hdeps|set_solver| |].
  - unfold db5. fields. rewrite dom_insert_L. set_solver.
  - unfold db5. fields. by rewrite Edep.
Qed.

(** ** Job groups *)
Section batch.
Variable g : JobGroup.t.
Variable ids : list N.
Let in_group (e : Dep) : Prop := TaskDependency.job_group_id e = Some (JobGroup.id g).

(** The loop over the requested dependencies. *)
Record batch_ok (b : Batch.t) (db : Db.t) : Prop := {
  batch_graph : graph_ok db;
  batch_tasks i : i ∈ ids -> i ∈ dom (Db.tasks db);
  batch_member e : e ∈ Db.dependencies db -> dep_task e ∈ ids \/ dep_on e ∈ ids -> in_group e;
  batch_nodup : NoDup (Batch.combined b);
  batch_combined k : k ∈ Batch.combined b <->
    exists e, e ∈ Db.dependencies db /\ in_group e /\ edge_of e = k;
  batch_map k : Batch.edge_map b !! k = None -> k ∉ Batch.combined b;
}.

Lemma set_add_elem {A} `{EqDecision A} (x y : A) l : y ∈ set_add x l <-> y ∈ l \/ y = x.
Proof.
  unfold set_add. destruct (inb x l) eqn:E; [apply inb_true in E|]; set_solver.
Qed.
Lemma set_add_nodup {A} `{EqDecision A} (x : A) l : NoDup l -> NoDup (set_add x l).
Proof.
  intros Hl. unfold set_add. destruct (inb x l) eqn:E; [done|]. apply inb_false in E.
  apply NoDup_app. split_and!; [done|set_solver|apply NoDup_singleton].
Qed.

(** An edge that the group's check accepted keeps the whole graph acyclic. *)
Lemma graph_add_edge b db row :
  batch_ok b db -> dep_task row ∈ ids -> dep_on row ∈ ids -> in_group row ->
  edge_of row ∉ Batch.combined b -> ~ cyclic (set_add (edge_of row) (Batch.combined b)) ->
  graph_ok (db <| Db.dependencies ::= fun l => l ++ [row] |>).
Proof.
  intros [[G1 G2 G3 G4] Bt Bm _ Bc _] Ht Ho Hg Hnew Hac.
  assert (edges_of (db <| Db.dependencies ::= fun l => l ++ [row] |>) = edges_of db ++ [edge_of row]) as Eed
    by (unfold edges_of; fields; by rewrite fmap_app).
  constructor; rewrite ?Eed; fields.
  - apply NoDup_app. split_and!; [done| |apply NoDup_singleton].
    intros x (e & -> & He)%list_elem_of_fmap Hx%list_elem_of_singleton. apply Hnew, Bc.
    exists e. split_and!; [done| |done]. apply Bm; [done|]. left. by injection Hx as -> _.
  - intros e [He| ->]%elem_of_snoc; [by apply G2|]. split; by apply Bt.
  - intros e e' k He He' Hk Heq.
    assert (forall x, x ∈ Db.dependencies db ++ [row] -> dep_task x ∈ ids \/ dep_on x ∈ ids -> in_group x) as Bm'.
    { intros x [Hx| ->]%elem_of_snoc; [by apply Bm|done]. }
    apply elem_of_snoc in He as [He| ->].
    + apply elem_of_snoc in He' as [He'| ->]; [exact (G3 e e' k He He' Hk Heq)|].
      assert (in_group e) as Hge by (apply Bm; [done|]; destruct Heq as [<-|<-]; auto).
      unfold in_group in *. congruence.
    + unfold in_group in Hg. rewrite <-Hk, Hg. apply Bm'; [done|]. left. by destruct Heq as [->| ->].
  - intros Hc. apply Hac.
    apply (cyclic_sub (Batch.combined b ++ [edge_of row]));
      [intros x; rewrite set_add_elem, elem_of_app, list_elem_of_singleton; done|].
    eapply (cyclic_app_edge (edges_of db) _ _ _ (fun n => forall e, e ∈ Db.dependencies db -> dep_task e = n ->
      in_group e)); [done| | |exact Hc].
    + intros e He Hn. apply Bm; [done|]. left. by rewrite Hn.
    + intros u v (e & Ee & He)%list_elem_of_fmap Hu. injection Ee as -> ->.
      pose proof (Hu e He eq_refl) as Hge. split; [apply Bc; by exists e|].
      intros e' He' Hn. apply (G3 e e' _ He He' Hge). by right.
Qed.

Lemma batch_row tasks_by_id d b db b' db' :
  DependencySpec.task_id d ∈ ids -> DependencySpec.depends_on_task_id d ∈ ids ->
  batch_ok b db -> add_dependency_row g tasks_by_id b d db = (inr b', db') -> batch_ok b' db'.
Proof.
  intros Ht Ho HB H. pose proof HB as [HG Bt Bm Bn Bc Bk]. unfold add_dependency_row in H.
  set (key := (DependencySpec.task_id d, DependencySpec.depends_on_task_id d)) in *.
  destruct (Batch.edge_map b !! key) as [e|] eqn:Ek.
  { apply bind_ok in H as ([] & ? & (_ & _ & ->)%raise_if_ok & H). apply ret_ok in H as [-> ->]. by constructor. }
  apply bind_ok in H as ([] & ? & (Hcyc & _ & ->)%raise_if_ok & H).
  apply bind_ok in H as ([] & ? & (_ & _ & ->)%raise_if_ok & H).
  apply bind_ok in H as ([] & ? & [_ ->]%modify_ok & H). apply ret_ok in H as [-> ->].
  set (row := TaskDependency.mk _ _ _ _). assert (edge_of row = key) as Erow by done.
  pose proof (set_add_nodup key _ Bn) as Hn.
  constructor; cbn [Batch.combined Batch.edge_map]; fields; try done.
  - eapply (graph_add_edge b); [done..| |]; rewrite Erow; [by apply Bk|].
    intros Hc. apply (contains_cycle_spec _ Hn) in Hc. congruence.
  - intros e [He| ->]%elem_of_snoc; [by apply Bm|done].
  - intros k. rewrite set_add_elem, Bc. split.
    + intros [(e & He & Hge & Ee)| ->]; [exists e; split; [set_solver|done]|].
      exists row. split; [set_solver|done].
    + intros (e & [He| ->]%elem_of_snoc & Hge & Ee); [left; by exists e|by right].
  - intros k Hk. rewrite set_add_elem. destruct (decide (k = key)) as [->|Hne].
    + by rewrite lookup_insert_eq in Hk.
    + rewrite lookup_insert_ne in Hk by done. intros [Hx|?]; [by apply (Bk k)|done].
Qed.
End batch.

Lemma requested_elem ds d :
  d ∈ ds -> DependencySpec.task_id d ∈ requested_task_ids ds /\
  DependencySpec.depends_on_task_id d ∈ requested_task_ids ds.
Proof.
  intros Hd. unfold requested_task_ids. rewrite !elem_of_remove_dups, !list_elem_of_bind.
  split; exists d; split; set_solver.
Qed.

Lemma add_dependencies_graph g ds db r db' :
  ok db -> graph_ok db -> _add_dependencies_locked g ds db = (inr r, db') -> graph_ok db'.
Proof.
  intros Hok HG (Hlen & Hmem & ts & b & Hf)%add_dependencies_ok. set (ids := requested_task_ids ds) in *.
  cut (batch_ok g ids b db'); [by intros []|].
  eapply (foldM_inv (fun b s => batch_ok g ids b s)); [| |exact Hf].
  { intros d b1 s1 b2 s2 Hd HB Hb. destruct (requested_elem ds d Hd). by eapply batch_row. }
  unfold new_batch. constructor; cbn [Batch.combined Batch.edge_map].
  - done.
  - intros i Hi. destruct (rows_cover db _ ids Hok (NoDup_remove_dups _) Hlen i Hi) as (t & Ht & _).
    by apply elem_of_dom_2 in Ht.
  - exact Hmem.
  - apply NoDup_remove_dups.
  - intros k. rewrite elem_of_remove_dups, list_elem_of_fmap. unfold group_edges. split.
    + intros (e & -> & [He Hg]%elem_of_lfilter). rewrite eqb_true in Hg. by exists e.
    + intros (e & He & Hg & <-). exists e. split; [done|]. apply elem_of_lfilter. by rewrite eqb_true.
  - intros k Hk. rewrite elem_of_remove_dups. apply not_elem_of_list_to_map in Hk.
    intros (e & -> & He)%list_elem_of_fmap. apply Hk. rewrite <-list_fmap_compose.
    apply list_elem_of_fmap. by exists e.
Qed.

Lemma job_groups_graph db f : graph_ok db -> graph_ok (db <| Db.job_groups ::= f |>).
Proof. by apply graph_kept. Qed.

Lemma create_group_graph i p name policy ds db g db' :
  ok db -> graph_ok db -> create_group i p name policy ds db = (inr g, db') -> graph_ok db'.
Proof.
  intros Hok HG [->|[r H]]%create_group_ok; [by apply job_groups_graph|].
  eapply add_dependencies_graph; [|by apply job_groups_graph|exact H]. by apply job_groups_I.
Qed.

Lemma commit_graph op db : well_called op = true -> ok db -> graph_ok db -> graph_ok (commit op db).
Proof.
  intros Hw Hok HG. unfold commit. destruct (atomically (exec op) db) as [[e|u] db'] eqn:E; cbn.
  { by apply atomically_err in E as ->. }
  rewrite atomically_ok in E. destruct (writes_edges op) eqn:Ew.
  - destruct op; try discriminate Ew; cbn [exec] in E; apply ignore_ok in E as [res E].
    + by eapply create_graph.
    + by eapply create_group_graph.
    + apply add_dependency_ok in E as (g & l & _ & E). by eapply add_dependencies_graph.
  - by eapply graph_kept; [eapply (frames_run kept), E; apply exec_frames|].
Qed.

Lemma reachable_graph db : reachable db -> graph_ok db.
Proof.
  intros [now H]. assert (ok (Db.empty now) /\ graph_ok (Db.empty now)) as Hok.
  { split; [apply empty_ok|]. constructor; cbn; try (intros; by set_solver). 
    - constructor.
    - intros [n Hn]. inversion Hn as [? ? Hx|? ? ? Hx]; subst; inversion Hx. }
  revert Hok. induction H as [|a b c Hs _ IH]; [by intros []|]. intros [Ha Hg]. apply IH.
  split; [by eapply sys_step_ok|]. destruct Hs; [by apply commit_graph|by apply (graph_kept db)..].
Qed.

(** C20: the dependency graph is acyclic.  In every reachable database, whatever
    submissions with prerequisites and writes of job groups led to it, no task
    depends on itself through any chain of dependencies, within a group or
    across groups; the edges satisfy the primary key and refer to existing
    tasks; and the prerequisites of a member of a group belong to the group. *)
Theorem dependency_graph_acyclic db (Hr : reachable db) :
  ~ cyclic (edge_of <$> Db.dependencies db) /\ NoDup (edge_of <$> Db.dependencies db) /\
  (forall e, e ∈ Db.dependencies db ->
   is_Some (Db.tasks db !! dep_task e) /\ is_Some (Db.tasks db !! dep_on e)) /\
  forall e e' g, e ∈ Db.dependencies db -> e' ∈ Db.dependencies db ->
    TaskDependency.job_group_id e = Some g -> dep_task e' = dep_task e \/ dep_task e' = dep_on e ->
    TaskDependency.job_group_id e' = Some g.
Proof.
  destruct (reachable_graph db Hr) as [G1 G2 G3 G4]. split_and!; [done..| |done].
  intros e He. rewrite <-!elem_of_dom. by apply G2.
Qed.

Lemma dependency_graph_acyclic_witness : exists db,
  length (Db.dependencies db) = 2%nat /\ ~ cyclic (edge_of <$> Db.dependencies db).
Proof.
  set (db := Scenario.run
    [OpCreate 3 ((Scenario.submission Scenario.quarter) <| Submission.depends_on := [1%N; 2%N] |>)]
    Scenario.queued).
  exists db. split; [vm_compute; reflexivity|].
  apply (dependency_graph_acyclic db). apply Scenario.run_reachable; [reflexivity|].
  apply Scenario.queued_reachable.
Defined.

(** ** The state of a group member *)
Definition prerequisite_failed (statuses : gmap N TaskStatus) (e : Dep) : bool :=
  match statuses !! dep_on e with Some s => failed_prerequisite s | None => false end.
Definition prerequisite_open (statuses : gmap N TaskStatus) (e : Dep) : bool :=
  match statuses !! dep_on e with Some s => negb (inb s FINAL_TASK_STATUSES) | None => false end.

Lemma scan_ok statuses es s0 db s db' :
  foldM es s0 (scan_edge statuses) db = (inr s, db') ->
  db' = db /\ (forall e, e ∈ es -> is_Some (statuses !! dep_on e)) /\
  Scan.waiting s = Scan.waiting s0 ++ (dep_on <$> List.filter (prerequisite_open statuses) es) /\
  (fun p => DependencyFailurePolicy_value p) <$> Scan.failed_policies s =
    (DependencyFailurePolicy_value <$> Scan.failed_policies s0) ++
    (TaskDependency.failure_policy <$> List.filter (prerequisite_failed statuses) es).
Proof.
  revert s0 db. induction es as [|e es IH]; intros s0 db H; cbn in H.
  { apply ret_ok in H as [-> ->]. cbn. rewrite !app_nil_r. split_and!; try done. intros e He. by inversion He. }
  apply bind_ok in H as (s1 & db1 & H1 & H). apply IH in H as (-> & Hs & Hw & Hp). clear IH.
  unfold scan_edge in H1. destruct (statuses !! dep_on e) as [st|] eqn:Est; [|by apply raise_ok in H1].
  cbn [List.filter]. unfold prerequisite_open at 1, prerequisite_failed at 1. rewrite Est.
  assert (forall e', e' ∈ e :: es -> is_Some (statuses !! dep_on e')) as Hs'.
  { intros e' [->|He]%elem_of_cons; [by rewrite Est|by apply Hs]. }
  unfold failed_prerequisite. destruct (st == SUCCEEDED) eqn:E1.
  { apply ret_ok in H1 as [-> ->]. rewrite eqb_true in E1. subst st. cbn. split_and!; done. }
  destruct (inb st FINAL_TASK_STATUSES) eqn:E2.
  - destruct (DependencyFailurePolicy_of _) as [p|] eqn:Ep; [|by apply raise_ok in H1].
    apply ret_ok in H1 as [-> ->]. cbn in *. split_and!; [done..|]. rewrite Hp, fmap_app, <-app_assoc. cbn.
    do 2 f_equal. unfold DependencyFailurePolicy_of in Ep.
    destruct (_ == "cancel") eqn:Ec; [rewrite eqb_true in Ec; injection Ep as <-; done|].
    destruct (_ == "block") eqn:Eb; [rewrite eqb_true in Eb; injection Ep as <-; done|done].
  - apply ret_ok in H1 as [-> ->]. cbn in *. split_and!; [done..| |done]. by rewrite Hw, <-app_assoc.
Qed.

Lemma resolved_state_spec statuses es s :
  (forall e, e ∈ es -> is_Some (statuses !! dep_on e)) ->
  Scan.waiting s = dep_on <$> List.filter (prerequisite_open statuses) es ->
  DependencyFailurePolicy_value <$> Scan.failed_policies s =
    TaskDependency.failure_policy <$> List.filter (prerequisite_failed statuses) es ->
  (resolved_state s = DEP_READY <-> forall e, e ∈ es -> statuses !! dep_on e = Some SUCCEEDED) /\
  (resolved_state s = DEP_CANCELLED <-> exists e, e ∈ es /\ prerequisite_failed statuses e = true /\
     TaskDependency.failure_policy e = "cancel") /\
  (resolved_state s = DEP_BLOCKED -> exists e, e ∈ es /\ prerequisite_failed statuses e = true) /\
  (resolved_state s = DEP_WAITING -> forall e, e ∈ es -> prerequisite_failed statuses e = false).
Proof.
  intros Hs Hw Hp.
  assert (POLICY_CANCEL ∈ Scan.failed_policies s <-> exists e, e ∈ es /\
    prerequisite_failed statuses e = true /\ TaskDependency.failure_policy e = "cancel") as Hcan.
  { split.
    - intros Hin%(list_elem_of_fmap_2 DependencyFailurePolicy_value). rewrite Hp in Hin.
      apply list_elem_of_fmap in Hin as (e & Ee & [He Hf]%elem_of_lfilter). by exists e.
    - intros (e & He & Hf & Ee).
      assert ("cancel" ∈ DependencyFailurePolicy_value <$> Scan.failed_policies s) as Hin.
      { rewrite Hp, <-Ee. apply list_elem_of_fmap_2, elem_of_lfilter. done. }
      by apply list_elem_of_fmap in Hin as ([] & Ep & Hin). }
  assert (Scan.failed_policies s = [] <-> forall e, e ∈ es -> prerequisite_failed statuses e = false) as Hnil.
  { rewrite <-(fmap_nil_iff DependencyFailurePolicy_value), Hp, fmap_nil_iff. apply lfilter_nil. }
  assert (Scan.waiting s = [] <-> forall e, e ∈ es -> prerequisite_open statuses e = false) as Hopen.
  { rewrite Hw, fmap_nil_iff. apply lfilter_nil. }
  assert (forall e, e ∈ es -> statuses !! dep_on e = Some SUCCEEDED <->
    prerequisite_failed statuses e = false /\ prerequisite_open statuses e = false) as Hsucc.
  { intros e He. destruct (Hs e He) as [st Est]. unfold prerequisite_failed, prerequisite_open. rewrite Est.
    clear. destruct st; vm_compute; intuition discriminate. }
  unfold resolved_state. destruct (inb POLICY_CANCEL _) eqn:Ec.
  { apply inb_true in Ec. apply Hcan in Ec as (e & He & Hf & Ee). split_and!; [|naive_solver|done..].
    split; [done|]. intros H. destruct (proj1 (Hsucc e He) (H e He)). congruence. }
  apply inb_false in Ec. destruct (bool_decide (Scan.failed_policies s = [])) eqn:Ef; cbn.
  - apply bool_decide_eq_true in Ef. rewrite Hnil in Ef.
    destruct (bool_decide (Scan.waiting s = [])) eqn:Ew; cbn.
    + apply bool_decide_eq_true in Ew. rewrite Hopen in Ew. split_and!; [|naive_solver|done..].
      split; [|done]. intros _ e He. apply Hsucc; auto.
    + apply bool_decide_eq_false in Ew. split_and!; [|naive_solver|done|done].
      split; [done|]. intros H. destruct Ew. apply Hopen. intros e He. by apply Hsucc; [|apply H].
  - apply bool_decide_eq_false in Ef. assert (exists e, e ∈ es /\ prerequisite_failed statuses e = true) as Hex.
    { destruct (List.filter (prerequisite_failed statuses) es) as [|e l] eqn:E.
      - destruct Ef. apply Hnil. by apply lfilter_nil.
      - exists e. apply elem_of_lfilter. rewrite E. left. }
    split_and!; [|naive_solver|done|done]. split; [done|]. intros H. destruct Hex as (e & He & Hf).
    destruct (proj1 (Hsucc e He) (H e He)). congruence.
Qed.

Lemma statuses_lookup db p l i st :
  ok db -> (list_to_map ((fun t => (id t, status t)) <$> project_tasks db p l) : gmap N TaskStatus) !! i = Some st ->
  exists t, Db.tasks db !! i = Some t /\ status t = st.
Proof.
  intros Hok H. apply elem_of_list_to_map_2, list_elem_of_fmap in H as (t & [= -> ->] & [Ht _]%elem_of_lfilter).
  apply rows_elem in Ht as [k Hk]. exists t. split; [|done].
  by rewrite (keys_tasks _ _ _ _ (I_keys _ _ _ Hok) _ _ Hk).
Qed.

(** The edges of the group that start at a member are all its edges. *)
Lemma member_edges db g i :
  graph_ok db -> i ∈ _task_ids (group_edges db g) ->
  List.filter (fun e => dep_task e == i) (group_edges db g) = dependencies_of db i.
Proof.
  intros HG Hi. apply elem_of_remove_dups, list_elem_of_bind in Hi as (e & Hin & [He Hg]%elem_of_lfilter).
  rewrite eqb_true in Hg. unfold group_edges, dependencies_of. rewrite filter_filter_and.
  apply List.filter_ext_in. intros e' He'%list_elem_of_In. destruct (dep_task e' == i) eqn:E; [|by rewrite andb_false_r].
  rewrite andb_true_r. apply eqb_true. rewrite eqb_true in E.
  apply (graph_groups db HG e e' g He He' Hg). rewrite E. set_solver.
Qed.

(** The four states cover the cases. *)
Lemma states_exact (st : DependencyState) (waits : bool) (fails cancels : Prop) :
  (st = DEP_READY <-> waits = false) -> (st = DEP_CANCELLED <-> cancels) ->
  (st = DEP_BLOCKED -> fails) -> (st = DEP_WAITING -> ~ fails) -> (fails -> waits = true) -> (cancels -> fails) ->
  (st = DEP_BLOCKED <-> fails /\ ~ cancels) /\ (st = DEP_WAITING <-> waits = true /\ ~ fails).
Proof. destruct st, waits; naive_solver. Qed.

(** C29: a group's view of a member agrees with the scheduler's gate.  When
    [dependency_state] answers in a reachable database, it has written nothing,
    and the state it reports is READY exactly if [_unsatisfied_dependencies],
    the condition under which the schedulers withhold a task, does not hold;
    CANCELLED exactly if some prerequisite with the policy cancel has ended
    without success; BLOCKED exactly if some prerequisite has ended without
    success but none with that policy; and WAITING exactly if the task is
    withheld and no prerequisite has ended without success. *)
Theorem dependency_state_agrees p g i db r db'
    (Hr : reachable db) (H : dependency_state p g i db = (inr r, db')) :
  let failed := fun e => e ∈ dependencies_of db i /\
    exists t, Db.tasks db !! dep_on e = Some t /\ failed_prerequisite (status t) = true in
  let cancels := exists e, failed e /\ TaskDependency.failure_policy e = "cancel" in
  db' = db /\
  (DependencyResolution.state r = DEP_READY <-> _unsatisfied_dependencies db i = false) /\
  (DependencyResolution.state r = DEP_CANCELLED <-> cancels) /\
  (DependencyResolution.state r = DEP_BLOCKED <-> (exists e, failed e) /\ ~ cancels) /\
  (DependencyResolution.state r = DEP_WAITING <-> _unsatisfied_dependencies db i = true /\ ~ exists e, failed e).
Proof.
  pose proof (reachable_ok db Hr) as Hok. pose proof (reachable_graph db Hr) as HG. intros failed cancels.
  unfold dependency_state in H. apply bind_ok in H as (gr & ? & [_ ->]%gets_ok & H).
  destruct gr as [gr|]; [|by apply raise_ok in H]. apply bind_ok in H as (tk & ? & [_ ->]%gets_ok & H).
  apply bind_ok in H as ([] & ? & (_ & _ & ->)%raise_if_ok & H).
  apply bind_ok in H as (es & ? & [-> ->]%gets_ok & H).
  apply bind_ok in H as ([] & ? & (Hi & _ & ->)%raise_if_ok & H). apply negb_false_iff, inb_true in Hi.
  apply bind_ok in H as (sts & db1 & Hst & H). unfold _task_statuses in Hst.
  apply bind_ok in Hst as (ts & ? & [-> ->]%gets_ok & Hst).
  apply bind_ok in Hst as ([] & ? & (_ & _ & ->)%raise_if_ok & Hst). apply ret_ok in Hst as [-> ->].
  unfold _resolve_task in H. rewrite (member_edges db g i HG Hi) in H. set (sts := list_to_map _) in H.
  apply bind_ok in H as (s & db1 & Hs & H). apply scan_ok in Hs as (-> & Hsome & Hw & Hp).
  destruct (sts !! i) as [ts|]; [|by apply raise_ok in H]. apply ret_ok in H as [-> ->]. cbn.
  destruct (resolved_state_spec sts (dependencies_of db i) s Hsome Hw Hp) as (R1 & R2 & R3 & R4).
  assert (forall e st, sts !! dep_on e = Some st -> exists t, Db.tasks db !! dep_on e = Some t /\ status t = st)
    as Hlook by (intros e st He; by eapply statuses_lookup).
  assert (forall e, e ∈ dependencies_of db i -> failed e <-> prerequisite_failed sts e = true) as Hfail.
  { intros e He. destruct (Hsome e He) as [st Est]. destruct (Hlook e st Est) as (t & Ht & <-).
    unfold failed, prerequisite_failed. rewrite Est, Ht. naive_solver. }
  assert (resolved_state s = DEP_READY <-> _unsatisfied_dependencies db i = false) as A1.
  { rewrite R1. unfold _unsatisfied_dependencies. rewrite <-not_true_iff_false, existsb_exists. split.
    - intros Hall (e & He%list_elem_of_In & Hx). destruct (Hlook e _ (Hall e He)) as (t & Ht & Es).
      by rewrite Ht, Es in Hx.
    - intros Hno e He. destruct (Hsome e He) as [st Est]. destruct (Hlook e st Est) as (t & Ht & <-).
      rewrite Est. destruct (status t == SUCCEEDED) eqn:E; [rewrite eqb_true in E; by rewrite E|].
      destruct Hno. exists e. split; [by apply list_elem_of_In|]. by rewrite Ht, E. }
  assert (resolved_state s = DEP_CANCELLED <-> cancels) as A2.
  { rewrite R2. split.
    - intros (e & He & Hf & Ee). exists e. split; [by apply Hfail|done].
    - intros (e & Hf & Ee). pose proof (proj1 Hf) as He. exists e. split_and!; [done|by apply Hfail|done]. }
  split_and!; [done|exact A1|exact A2| |]; eapply (states_exact _ _ (exists e, failed e) cancels A1 A2);
    try (intros Hx; destruct (R3 Hx) as (e & He & Hf); exists e; by apply Hfail);
    try (intros Hx (e & Hf); pose proof (proj1 Hf) as He; apply Hfail in Hf; [by rewrite R4 in Hf|done]);
    try (intros (e & He & t & Ht & Hf); apply existsb_exists; exists e; split; [by apply list_elem_of_In|];
      rewrite Ht; by apply andb_prop in Hf as [_ Hf]);
    intros (e & Hf & _); by exists e.
Qed.

(** Task 2 waits for task 1 in a job group. *)
Definition grouped : Db.t :=
  Scenario.run [OpGroup 50 7 "pipeline" (Some "{}") [DependencySpec.mk 2 1 POLICY_CANCEL]] Scenario.queued.
Lemma grouped_reachable : reachable grouped.
Proof. apply Scenario.run_reachable; [reflexivity|]. apply Scenario.queued_reachable. Qed.

Lemma dependency_state_agrees_witness : exists r,
  dependency_state 7 50 2 grouped = (inr r, grouped) /\ DependencyResolution.state r <> DEP_READY /\
  _unsatisfied_dependencies grouped 2 = true.
Proof.
  destruct (dependency_state 7 50 2 grouped) as [[e|r] db'] eqn:E.
  { exfalso. assert (match (dependency_state 7 50 2 grouped).1 with inl _ => false | inr _ => true end = true)
      as Hc by (vm_compute; reflexivity). rewrite E in Hc. discriminate Hc. }
  destruct (dependency_state_agrees 7 50 2 grouped r db' grouped_reachable E) as (-> & Hready & _).
  exists r. split; [reflexivity|].
  assert (_unsatisfied_dependencies grouped 2 = true) as Hu by (vm_compute; reflexivity).
  split; [|exact Hu]. intros Hs. apply Hready in Hs. rewrite Hs in Hu. discriminate Hu.
Defined.
