(* ===== verification/Outbox.v ===== *)
(** * Outbox delivery ([repositories/outbox.py], [api/services/outbox.py])

    The transactional outbox: rows are claimed in batches under a lease,
    published to the broker outside any transaction, and marked afterwards.
    Several dispatchers run concurrently, a publish may fail, a lease may
    expire and a dispatcher may stop anywhere; this is the step relation
    [dispatch].  The row ids are given, the broker's answers are an argument,
    and the rows a query skips because another transaction holds them are the
    set [locked]. *)

From S2P Require Import Prelude PyFloat PyString Enums Store.

Module Row.
Record t := mk {
  id : N;
  event : OutboxEvent.t;
  created_at : Z;
  processed_at : option Z;
  locked_by : option N;
  locked_until : option Z;
  attempts : Z;
  last_error : option string;
}.
#[global] Instance eta : Eta t := fun r =>
  mk (id r) (event r) (created_at r) (processed_at r) (locked_by r) (locked_until r) (attempts r)
    (last_error r).
End Row.
Import Row.

Module Box.
Record t := mk { clock : Z; rows : gmap N Row.t }.
#[global] Instance eta : Eta t := fun r => mk (clock r) (rows r).
End Box.

(** A repository method on the table. *)
Definition Boxed (A : Type) : Type := M Box.t PyError A.

(** The defaults of [lock_seconds] and [max_backoff_seconds]. *)
Definition default_lock : float := float_of_Z 30.
Definition default_backoff : float := float_of_Z 60.

Definition available_at (r : Row.t) : Z := OutboxEvent.available_at (event r).

(** [OutboxRepository.add] *)
Definition add (event_id aggregate_id : N) (event_type : string) (payload : list (string * Json))
    (available : option Z) (host_now : Z) (box : Box.t) : Box.t :=
  let row := Row.mk event_id
    (OutboxEvent.mk aggregate_id event_type payload (default host_now available) "task")
    host_now None None None 0 None in
  box <| Box.rows ::= <[event_id := row]> |>.

Definition pending (now : Z) (r : Row.t) : bool :=
  bool_decide (processed_at r = None) && (available_at r <=? now)
  && match locked_until r with None => true | Some u => u <? now end.

Definition pending_query (box : Box.t) (limit : nat) (now : Z) (locked : gset N) : list Row.t :=
  take limit (py_sort (fun r => (created_at r, id r))
    (List.filter (fun r => pending now r && negb (bool_decide (id r ∈ locked))) (rows (Box.rows box)))).

Definition lease (owner : N) (until : Z) (r : Row.t) : Row.t :=
  r <| locked_by := Some owner |> <| locked_until := Some until |>.

Definition put_row (r : Row.t) (box : Box.t) : Box.t := box <| Box.rows ::= <[id r := r]> |>.

Definition claim_batch (owner : N) (limit : nat) (lock_seconds : float) (locked : gset N)
  : Boxed (list Row.t) :=
  now ← gets Box.clock;
  events ← gets (fun box => pending_query box limit now locked);
  locked_until ← plus_seconds now lock_seconds;
  let events := lease owner locked_until <$> events in
  _ ← modify (fun box => foldl (fun b r => put_row r b) box events);
  mret events.

(** The row a dispatcher may still settle. *)
Definition owned (box : Box.t) (event_id owner : N) : option Row.t :=
  match Box.rows box !! event_id with
  | Some r => if bool_decide (processed_at r = None) && (locked_by r == Some owner) then Some r else None
  | None => None
  end.

Definition processed_row (now : Z) (r : Row.t) : Row.t :=
  r <| processed_at := Some now |> <| locked_by := None |> <| locked_until := None |>
    <| last_error := None |>.

Definition mark_processed (event_id owner : N) : Boxed (option Row.t) :=
  event ← gets (fun box => owned box event_id owner);
  match event with
  | None => mret None
  | Some r =>
      now ← gets Box.clock;
      _ ← modify (put_row (processed_row now r));
      mret (Some (processed_row now r))
  end.

Definition failure_delay (attempts : Z) (max_backoff_seconds : float) : float :=
  fmin (float_of_Z (2 ^ Z.min (attempts - 1) 10)) max_backoff_seconds.

Definition failed_row (error : string) (available : Z) (r : Row.t) : Row.t :=
  r <| attempts ::= Z.succ |>
    <| event ::= fun e => e <| OutboxEvent.available_at := available |> |>
    <| last_error := Some (String.substring 0 4000 error) |>
    <| locked_by := None |> <| locked_until := None |>.

Definition mark_failed (event_id owner : N) (error : string) (max_backoff_seconds : float) : Boxed unit :=
  event ← gets (fun box => owned box event_id owner);
  match event with
  | None => mret tt
  | Some r =>
      now ← gets Box.clock;
      available ← plus_seconds now (failure_delay (attempts r + 1) max_backoff_seconds);
      modify (put_row (failed_row error available r))
  end.

(** ** A dispatcher *)

(** The messages sent to the broker and the events [mark_processed] answered,
    for every dispatcher. *)
Module Log.
Record t := mk { box : Box.t; published : list N; acknowledged : list N }.
#[global] Instance eta : Eta t := fun r => mk (box r) (published r) (acknowledged r).
End Log.

Definition Dispatching (A : Type) : Type := M Log.t PyError A.

(** [async with session.begin()] around a repository method. *)
Definition transaction {A} (m : Boxed A) : Dispatching A := fun s =>
  let '(r, b) := atomically m (Log.box s) in (r, s <| Log.box := b |>).

(** One event of the batch: [broker] answers [None] or an error message. *)
Definition dispatch_event (broker : N -> option string) (owner : N) (processed : Z) (event_id : N)
  : Dispatching Z :=
  match broker event_id with
  | Some error => _ ← transaction (mark_failed event_id owner error default_backoff); mret processed
  | None =>
      _ ← modify (fun s => s <| Log.published ::= fun l => l ++ [event_id] |>);
      published ← transaction (mark_processed event_id owner);
      match published with
      | Some _ =>
          _ ← modify (fun s => s <| Log.acknowledged ::= fun l => l ++ [event_id] |>);
          mret (processed + 1)
      | None => mret processed
      end
  end.

Definition dispatch_once (broker : N -> option string) (owner : N) (batch_size : nat) (locked : gset N)
  : Dispatching Z :=
  events ← transaction (claim_batch owner batch_size default_lock locked);
  foldM (id <$> events) 0 (dispatch_event broker owner).

(** ** Concurrent dispatchers *)
Inductive InFlight := Claimed (event_id : N) | Sent (event_id : N).

(** The tables and logs, and what each dispatcher has claimed and not settled. *)
Definition Sys : Type := Log.t * gmap N (list InFlight).

Inductive dispatch : Sys -> Sys -> Prop :=
| d_add i a ty p av host s fl :
    Box.rows (Log.box s) !! i = None ->
    dispatch (s, fl) (s <| Log.box ::= add i a ty p av host |>, fl)
| d_time now s fl :
    Box.clock (Log.box s) <= now ->
    dispatch (s, fl) (s <| Log.box ::= fun b => b <| Box.clock := now |> |>, fl)
| d_claim owner limit locked s fl events b :
    default [] (fl !! owner) = [] ->
    claim_batch owner limit default_lock locked (Log.box s) = (inr events, b) ->
    dispatch (s, fl) (s <| Log.box := b |>, <[owner := Claimed ∘ id <$> events]> fl)
| d_send owner i rest s fl :
    fl !! owner = Some (Claimed i :: rest) ->
    dispatch (s, fl) (s <| Log.published ::= fun l => l ++ [i] |>, <[owner := Sent i :: rest]> fl)
| d_processed owner i rest s fl r b :
    fl !! owner = Some (Sent i :: rest) -> mark_processed i owner (Log.box s) = (inr (Some r), b) ->
    dispatch (s, fl) (s <| Log.box := b |> <| Log.acknowledged ::= fun l => l ++ [i] |>, <[owner := rest]> fl)
| d_lost owner i rest s fl b :
    fl !! owner = Some (Sent i :: rest) -> mark_processed i owner (Log.box s) = (inr None, b) ->
    dispatch (s, fl) (s <| Log.box := b |>, <[owner := rest]> fl)
| d_failed owner i x rest error s fl b :
    fl !! owner = Some (x :: rest) -> x = Claimed i \/ x = Sent i ->
    mark_failed i owner error default_backoff (Log.box s) = (inr tt, b) ->
    dispatch (s, fl) (s <| Log.box := b |>, <[owner := rest]> fl)
| d_stop owner s fl : dispatch (s, fl) (s, <[owner := []]> fl).

Definition empty_log (now : Z) : Log.t := Log.mk (Box.mk now ∅) [] [].
Definition delivered (s : Log.t) : Prop := exists now fl, rtc dispatch (empty_log now, ∅) (s, fl).

(** ** The invariant *)
Record row_ok (now : Z) (i : N) (r : Row.t) : Prop := {
  row_key : id r = i;
  row_lease : locked_by r = None <-> locked_until r = None;
  row_until u : locked_until r = Some u -> u <= now + timedelta_seconds default_lock;
  row_settled : processed_at r <> None -> locked_by r = None;
}.

Record inv (s : Log.t) (fl : gmap N (list InFlight)) : Prop := {
  inv_rows i r : Box.rows (Log.box s) !! i = Some r -> row_ok (Box.clock (Log.box s)) i r;
  inv_acks : NoDup (Log.acknowledged s);
  inv_acked i : i ∈ Log.acknowledged s <->
    exists r, Box.rows (Log.box s) !! i = Some r /\ processed_at r <> None;
  inv_sent i : i ∈ Log.acknowledged s -> i ∈ Log.published s;
  inv_flight o l i : fl !! o = Some l -> Sent i ∈ l -> i ∈ Log.published s;
}.

Lemma put_rows_lookup (m : gmap N Row.t) (f : Row.t -> Row.t) l box :
  (forall r, id (f r) = id r) -> (forall r, r ∈ l -> m !! id r = Some r) ->
  let box' := foldl (fun b r => put_row r b) box (f <$> l) in
  Box.clock box' = Box.clock box /\
  forall i, Box.rows box' !! i = if bool_decide (i ∈ id <$> l) then f <$> m !! i else Box.rows box !! i.
Proof.
  intros Hf. revert box. induction l as [|r l IH]; intros box Hl; cbn; [done|].
  destruct (IH (put_row (f r) box)) as [Hc Hi]; [by intros; apply Hl; right|]. clear IH. split.
  - rewrite Hc. unfold put_row. by fields.
  - intros i. rewrite Hi. unfold put_row. fields. rewrite Hf.
    destruct (decide (i ∈ id <$> l)) as [Hin|Hin].
    + rewrite !bool_decide_true; [done|by right|done].
    + rewrite (bool_decide_false _ Hin). destruct (decide (i = id r)) as [->|Hne].
      * rewrite bool_decide_true by left. rewrite lookup_insert_eq, (Hl r) by left. done.
      * rewrite bool_decide_false by set_solver. by rewrite lookup_insert_ne.
Qed.

Lemma claim_batch_ok owner limit secs locked box events b :
  claim_batch owner limit secs locked box = (inr events, b) ->
  events = lease owner (Box.clock box + timedelta_seconds secs) <$> pending_query box limit (Box.clock box) locked /\
  b = foldl (fun b r => put_row r b) box events.
Proof.
  unfold claim_batch. intros H. apply bind_ok in H as (now & ? & [-> ->]%gets_ok & H).
  apply bind_ok in H as (q & ? & [-> ->]%gets_ok & H).
  apply bind_ok in H as (u & ? & [-> ->]%plus_seconds_ok & H).
  apply bind_ok in H as ([] & ? & [_ ->]%modify_ok & H). by apply ret_ok in H as [-> ->].
Qed.

Lemma claim_spec owner limit secs locked box events b :
  (forall i r, Box.rows box !! i = Some r -> id r = i) ->
  claim_batch owner limit secs locked box = (inr events, b) ->
  Box.clock b = Box.clock box /\
  (forall i, i ∈ id <$> events -> exists r, Box.rows box !! i = Some r /\ pending (Box.clock box) r = true) /\
  forall i, Box.rows b !! i = if bool_decide (i ∈ id <$> events)
    then lease owner (Box.clock box + timedelta_seconds secs) <$> Box.rows box !! i else Box.rows box !! i.
Proof.
  intros Hkey (-> & ->)%claim_batch_ok. set (q := pending_query _ _ _ _).
  assert (forall r, r ∈ q -> Box.rows box !! id r = Some r /\ pending (Box.clock box) r = true) as Hq.
  { intros r Hr. unfold q, pending_query in Hr. apply elem_of_take in Hr as (j & Hj & _).
    apply list_elem_of_lookup_2, elem_of_py_sort, elem_of_lfilter in Hj as [Hj Hp].
    apply andb_true_iff in Hp as [Hp _]. split; [|done]. apply rows_elem in Hj as [k Hk]. by rewrite (Hkey k r Hk). }
  assert (id <$> (lease owner (Box.clock box + timedelta_seconds secs) <$> q) = id <$> q) as Eid
    by (rewrite <-list_fmap_compose; apply list_fmap_ext; done).
  destruct (put_rows_lookup (Box.rows box) (lease owner (Box.clock box + timedelta_seconds secs)) q box)
    as [Hc Hi]; [done|by intros; apply Hq|]. rewrite Eid. split_and!; [done| |done].
  intros i (r & -> & Hr)%list_elem_of_fmap. exists r. by apply Hq.
Qed.

Lemma owned_some box i owner r :
  owned box i owner = Some r ->
  Box.rows box !! i = Some r /\ processed_at r = None /\ locked_by r = Some owner.
Proof.
  unfold owned. destruct (Box.rows box !! i) as [x|]; [|done]. destruct (_ && _) eqn:E; [|done].
  intros [= ->]. apply andb_true_iff in E as [E1 E2]. apply bool_decide_eq_true in E1.
  rewrite eqb_true in E2. done.
Qed.

Lemma mark_processed_ok i owner box r b :
  mark_processed i owner box = (inr r, b) ->
  match owned box i owner with
  | Some x => r = Some (processed_row (Box.clock box) x) /\ b = put_row (processed_row (Box.clock box) x) box
  | None => r = None /\ b = box
  end.
Proof.
  unfold mark_processed. intros H. apply bind_ok in H as (x & ? & [-> ->]%gets_ok & H).
  destruct (owned box i owner); [|by apply ret_ok in H].
  apply bind_ok in H as (now & ? & [-> ->]%gets_ok & H).
  apply bind_ok in H as ([] & ? & [_ ->]%modify_ok & H). by apply ret_ok in H as [-> ->].
Qed.

Lemma mark_processed_run i owner box : exists r b, mark_processed i owner box = (inr r, b).
Proof.
  unfold mark_processed. rewrite (bind_run _ _ box (owned box i owner) box) by done.
  destruct (owned box i owner); by eexists _, _.
Qed.

Lemma mark_failed_ok i owner error m box b :
  mark_failed i owner error m box = (inr tt, b) ->
  b = match owned box i owner with
      | Some x => put_row (failed_row error (Box.clock box
                    + timedelta_seconds (failure_delay (attempts x + 1) m)) x) box
      | None => box
      end.
Proof.
  unfold mark_failed. intros H. apply bind_ok in H as (x & ? & [-> ->]%gets_ok & H).
  destruct (owned box i owner); [|by apply ret_ok in H as [_ ->]].
  apply bind_ok in H as (now & ? & [-> ->]%gets_ok & H).
  apply bind_ok in H as (u & ? & [-> ->]%plus_seconds_ok & H). by apply modify_ok in H as [_ ->].
Qed.

(** A row the owner settles: the lease ends and [processed_at] is set by the
    acknowledgement only. *)
Lemma settle_inv s fl i r s' r' acked (sent : gmap N (list InFlight)) :
  Log.box s' = put_row r' (Log.box s) -> Log.published s' = Log.published s ->
  Log.acknowledged s' = Log.acknowledged s ++ acked -> inv s fl -> Box.rows (Log.box s) !! i = Some r -> processed_at r = None ->
  id r' = id r -> locked_by r' = None -> locked_until r' = None ->
  (acked = [] /\ processed_at r' = None \/ acked = [i] /\ processed_at r' <> None /\ i ∈ Log.published s) ->
  (forall o l j, sent !! o = Some l -> Sent j ∈ l -> j ∈ Log.published s) ->
  inv s' sent.
Proof.
  intros Eb Ep Ea [Ir In Ia Is If] Hr Hp Hid Hl Hu Hack Hsent.
  assert (id r' = i) as Hi by (rewrite Hid; by apply (Ir i r Hr)).
  assert (i ∉ Log.acknowledged s) as Hnew.
  { intros (x & Hx & Hpx)%Ia. congruence. }
  constructor; rewrite ?Eb, ?Ep, ?Ea; unfold put_row; fields; rewrite ?Hi.
  - intros j x [[<- <-]|[Hne Hx]]%lookup_insert_Some; [|by apply Ir].
    constructor; [done|by rewrite Hl, Hu|by rewrite Hu|done].
  - destruct Hack as [[-> _]|(-> & _ & _)]; [by rewrite app_nil_r|].
    apply NoDup_app. split_and!; [done|set_solver|apply NoDup_singleton].
  - intros j. rewrite elem_of_app, Ia. destruct (decide (j = i)) as [->|Hne].
    + rewrite lookup_insert_eq. destruct Hack as [[-> Hp']|(-> & Hp' & _)]; [|set_solver].
      split; [|naive_solver]. intros [(x & Hx & Hpx)|Hx]; [congruence|by inversion Hx].
    + rewrite lookup_insert_ne by done. split; [|naive_solver]. intros [?|Hx]; [done|].
      destruct Hack as [[-> _]|(-> & _)]; [by inversion Hx|set_solver].
  - intros j [Hj|Hj]%elem_of_app; [by apply Is|]. destruct Hack as [[-> _]|(-> & _ & Hs)]; set_solver.
  - done.
Qed.

Lemma flight_tail (fl : gmap N (list InFlight)) owner x rest (P : N -> Prop) :
  (forall o l j, fl !! o = Some l -> Sent j ∈ l -> P j) -> fl !! owner = Some (x :: rest) ->
  forall o l j, <[owner := rest]> fl !! o = Some l -> Sent j ∈ l -> P j.
Proof.
  intros H Hfl o l j [[<- <-]|[_ Hl]]%lookup_insert_Some Hj; [|by eapply H].
  eapply H; [exact Hfl|by right].
Qed.

Lemma dispatch_inv s fl s' fl' : dispatch (s, fl) (s', fl') -> inv s fl -> inv s' fl'.
Proof.
  intros H HI. pose proof HI as [Ir In Ia Is If]. inversion H; subst; clear H.
  - constructor; unfold add; fields; try done.
    + intros j r [[<- <-]|[_ Hr]]%lookup_insert_Some; [by constructor|by apply Ir].
    + intros j. rewrite Ia. destruct (decide (j = i)) as [->|Hne].
      * rewrite lookup_insert_eq. naive_solver.
      * by rewrite lookup_insert_ne.
  - constructor; fields; try done. intros j r Hr. destruct (Ir j r Hr) as [? ? Hu ?]. constructor; try done.
    intros u Eu. specialize (Hu u Eu). lia.
  - match goal with Hc : claim_batch _ _ _ _ _ = _ |- _ => apply claim_spec in Hc as (Ec & Hev & Hl) end;
      [|intros j r Hr; by apply (Ir j r Hr)].
    constructor; fields; try done.
    + intros j r Hr. rewrite Hl in Hr. rewrite Ec. destruct (bool_decide (j ∈ _)) eqn:Ej; [|by apply Ir].
      apply bool_decide_eq_true, Hev in Ej as (r0 & Hr0 & Hp). rewrite Hr0 in Hr. injection Hr as <-.
      destruct (Ir j r0 Hr0). unfold lease. constructor; fields; [done|done| |].
      * intros u Hu. injection Hu as <-. reflexivity.
      * intros Hpr. unfold pending in Hp. repeat (apply andb_true_iff in Hp as [Hp ?]).
        by apply bool_decide_eq_true in Hp.
    + intros j. rewrite Ia, Hl. destruct (bool_decide (j ∈ _)); [|done].
      destruct (Box.rows (Log.box s) !! j) as [r0|]; cbn; [|naive_solver]. split.
      * intros (x & [= <-] & Hx). eexists. split; [done|]. unfold lease. by fields.
      * intros (x & [= <-] & Hx). unfold lease in Hx. fields in Hx. eauto.
    + intros o l j [[<- <-]|[_ Hx]]%lookup_insert_Some Hj; [|by eapply If].
      by apply list_elem_of_fmap in Hj as (? & ? & _).
  - constructor; fields; try done.
    + intros j Hj. rewrite elem_of_app. left. by apply Is.
    + intros o l j [[<- <-]|[_ Hl]]%lookup_insert_Some Hj; rewrite elem_of_app; [|left; by eapply If].
      apply elem_of_cons in Hj as [[= ->]|Hj]; [right; by left|]. left. eapply If; [done|by right].
  - rename select (mark_processed _ _ _ = _) into Hm. apply mark_processed_ok in Hm.
    destruct (owned _ i owner) as [r0|] eqn:Eo; [|by destruct Hm]. destruct Hm as [_ ->].
    apply owned_some in Eo as (Hr0 & Hp0 & Hl0).
    eapply settle_inv; [by fields|by fields|by fields|exact HI|exact Hr0|done|by unfold processed_row; fields..| |by eapply flight_tail].
    right. split_and!; [done|by unfold processed_row; fields|]. eapply If; [done|left].
  - rename select (mark_processed _ _ _ = _) into Hm. apply mark_processed_ok in Hm.
    destruct (owned _ i owner) as [r0|] eqn:Eo; [by destruct Hm|]. destruct Hm as [_ ->].
    replace (s <| Log.box := Log.box s |>) with s by (by destruct s). constructor; try done.
    by eapply flight_tail.
  - rename select (mark_failed _ _ _ _ _ = _) into Hm. apply mark_failed_ok in Hm.
    destruct (owned _ i owner) as [r0|] eqn:Eo.
    + subst b. apply owned_some in Eo as (Hr0 & Hp0 & Hl0). eapply (settle_inv s fl i r0 _ _ []);
        [by fields|by fields|by fields; rewrite app_nil_r|exact HI|exact Hr0|done|by unfold failed_row; fields..| |by eapply flight_tail].
      left. unfold failed_row. by fields.
    + subst b. constructor; fields; try done. by eapply flight_tail.
  - constructor; try done. intros o l j [[<- <-]|[_ Hl]]%lookup_insert_Some Hj; [by inversion Hj|by eapply If].
Qed.

Lemma inv_steps x y : rtc dispatch x y -> inv x.1 x.2 -> inv y.1 y.2.
Proof.
  induction 1 as [|[a fa] [b fb] [c fc] Hs _ IH]; [done|]. intros Ha. apply IH. by eapply dispatch_inv.
Qed.

Lemma inv_reachable s fl now : rtc dispatch (empty_log now, ∅) (s, fl) -> inv s fl.
Proof.
  intros H%inv_steps; [done|]. constructor; cbn; [done|constructor|set_solver|set_solver|done].
Qed.

(** C31: the outbox delivers at least once and accounts exactly once.  However
    the dispatchers interleave, fail to publish, outlive their leases or stop:
    an event is acknowledged only after it was sent to the broker; it is
    acknowledged at most once, and the acknowledged events are exactly the
    rows marked processed; and no event is lost: an event that is not
    processed is pending again, for every dispatcher, as soon as it is due and
    a lease taken now would have run out. *)
Theorem outbox_delivery s (Hd : delivered s) :
  (forall i, i ∈ Log.acknowledged s -> i ∈ Log.published s) /\
  NoDup (Log.acknowledged s) /\
  (forall i, i ∈ Log.acknowledged s <->
     exists r, Box.rows (Log.box s) !! i = Some r /\ processed_at r <> None) /\
  forall i r now, Box.rows (Log.box s) !! i = Some r -> processed_at r = None ->
    Box.clock (Log.box s) + timedelta_seconds default_lock < now -> available_at r <= now ->
    pending now r = true.
Proof.
  destruct Hd as (t0 & fl & H). apply inv_reachable in H as [Ir In Ia Is _]. split_and!; [done..|].
  intros i r now Hr Hp Hnow Hav. destruct (Ir i r Hr) as [_ _ Hu _]. unfold pending.
  rewrite !andb_true_iff. split_and!; [by apply bool_decide_eq_true|by apply Z.leb_le|].
  destruct (locked_until r) as [u|]; [|done]. apply Z.ltb_lt. specialize (Hu u eq_refl).
  eapply Z.le_lt_trans; eassumption.
Qed.

(** ** A dispatcher's pass *)
Lemma repository_call_ok {A} (m : Boxed A) s a s' :
  transaction m s = (inr a, s') -> exists b, m (Log.box s) = (inr a, b) /\ s' = s <| Log.box := b |>.
Proof.
  unfold transaction. destruct (atomically m (Log.box s)) as [r b] eqn:E. intros H.
  assert (r = inr a /\ s' = s <| Log.box := b |>) as [-> ->] by (split; congruence).
  apply (proj1 (atomically_ok m (Log.box s) a b)) in E. by exists b.
Qed.

Lemma transaction_err {A} (m : Boxed A) s e s' : transaction m s = (inl e, s') -> s' = s.
Proof.
  unfold transaction. destruct (atomically m (Log.box s)) as [r b] eqn:E. intros H.
  assert (r = inl e /\ s' = s <| Log.box := b |>) as [-> ->] by (split; congruence).
  apply atomically_err in E as ->. by destruct s.
Qed.

(** One event is a sequence of steps: the dispatcher goes on with the rest of
    its batch, or it stops with the exception. *)
Lemma event_steps broker owner n i ids s fl res s' :
  fl !! owner = Some (Claimed <$> i :: ids) -> dispatch_event broker owner n i s = (res, s') ->
  rtc dispatch (s, fl) (s', <[owner := match res with inr _ => Claimed <$> ids | inl _ => [] end]> fl).
Proof.
  intros Hfl H. unfold dispatch_event in H. destruct (broker i) as [error|].
  - destruct (transaction (mark_failed i owner error default_backoff) s) as [[e|[]] s1] eqn:E.
    + rewrite (bind_raise _ _ _ _ _ E) in H. assert (res = inl e /\ s' = s1) as [-> ->] by (split; congruence).
      apply transaction_err in E as ->. apply rtc_once, d_stop.
    + rewrite (bind_run _ _ _ _ _ E) in H. assert (res = inr n /\ s' = s1) as [-> ->] by (by inversion H).
      apply repository_call_ok in E as (b & E & ->). apply rtc_once.
      eapply d_failed; [exact Hfl|by left|exact E].
  - eapply rtc_l; [by apply d_send|]. rewrite (bind_run _ _ s tt (s <| Log.published ::= fun l => l ++ [i] |>)) in H by done.
    set (s1 := s <| Log.published ::= _ |>) in *.
    destruct (mark_processed_run i owner (Log.box s1)) as (r & b & E).
    assert (transaction (mark_processed i owner) s1 = (inr r, s1 <| Log.box := b |>)) as Et
      by (unfold transaction, atomically; by rewrite E).
    rewrite (bind_run _ _ _ _ _ Et) in H.
    apply rtc_once. destruct r as [r|].
    + assert (res = inr (n + 1) /\ s' = s1 <| Log.box := b |> <| Log.acknowledged ::= fun l => l ++ [i] |>)
        as [-> ->] by (by inversion H).
      rewrite <-(insert_insert_eq fl owner (Claimed <$> ids) (Sent i :: (Claimed <$> ids))).
      eapply d_processed; [apply lookup_insert_eq|exact E].
    + assert (res = inr n /\ s' = s1 <| Log.box := b |>) as [-> ->] by (by inversion H).
      rewrite <-(insert_insert_eq fl owner (Claimed <$> ids) (Sent i :: (Claimed <$> ids))).
      eapply d_lost; [apply lookup_insert_eq|exact E].
Qed.

(** The batch, whether the pass returns or raises. *)
Lemma batch_steps broker owner ids n s fl res s' :
  fl !! owner = Some (Claimed <$> ids) -> foldM ids n (dispatch_event broker owner) s = (res, s') ->
  rtc dispatch (s, fl) (s', <[owner := []]> fl).
Proof.
  revert n s fl. induction ids as [|i ids IH]; intros n s fl Hfl H; cbn [foldM] in H.
  { assert (s' = s) as -> by (by inversion H). rewrite insert_id by done. apply rtc_refl. }
  destruct (dispatch_event broker owner n i s) as [[e|n1] s1] eqn:E.
  - rewrite (bind_raise _ _ _ _ _ E) in H. assert (s' = s1) as -> by congruence.
    exact (event_steps _ _ _ _ _ _ _ _ _ Hfl E).
  - rewrite (bind_run _ _ _ _ _ E) in H. etrans; [exact (event_steps _ _ _ _ _ _ _ _ _ Hfl E)|].
    rewrite <-(insert_insert_eq fl owner [] (Claimed <$> ids)). eapply IH; [apply lookup_insert_eq|exact H].
Qed.

(** A pass of an idle dispatcher is a run of the concurrent system, whatever
    the broker answers and whether it returns or raises. *)
Lemma dispatch_once_steps broker owner n locked s fl res s' :
  default [] (fl !! owner) = [] -> dispatch_once broker owner n locked s = (res, s') ->
  exists fl', rtc dispatch (s, fl) (s', fl') /\ default [] (fl' !! owner) = [].
Proof.
  intros Hidle H. unfold dispatch_once in H.
  destruct (transaction (claim_batch owner n default_lock locked) s) as [[e|events] s1] eqn:E.
  - rewrite (bind_raise _ _ _ _ _ E) in H. assert (s' = s1) as -> by congruence.
    apply transaction_err in E as ->. by exists fl.
  - rewrite (bind_run _ _ _ _ _ E) in H. apply repository_call_ok in E as (b & E & ->).
    exists (<[owner := []]> (<[owner := Claimed ∘ id <$> events]> fl)). rewrite lookup_insert_eq. split; [|done].
    eapply rtc_l; [by eapply d_claim|]. eapply batch_steps; [|exact H].
    rewrite lookup_insert_eq. by rewrite list_fmap_compose.
Qed.

Lemma delivered_once broker owner n locked s fl now res s' :
  rtc dispatch (empty_log now, ∅) (s, fl) -> default [] (fl !! owner) = [] ->
  dispatch_once broker owner n locked s = (res, s') ->
  exists fl', rtc dispatch (empty_log now, ∅) (s', fl') /\ default [] (fl' !! owner) = [].
Proof.
  intros Hr Hidle H. destruct (dispatch_once_steps _ _ _ _ _ _ _ _ Hidle H) as (fl' & Hs & Hi).
  exists fl'. split; [|done]. by etrans.
Qed.

(** Two events; the broker refuses the second one.  A pass claims both,
    publishes and acknowledges the first and puts the second off. *)
Definition sample : Log.t :=
  (empty_log 0) <| Log.box ::= add 1 7 "task.ready" [] None 0 |> <| Log.box ::= add 2 7 "task.ready" [] None 0 |>.
Definition refuse (i : N) : option string := if N.eqb i 2 then Some "broker unavailable" else None.
Definition dispatched : Log.t := (dispatch_once refuse 9 10 ∅ sample).2.

Lemma sample_reachable : rtc dispatch (empty_log 0, ∅) (sample, ∅).
Proof.
  eapply rtc_l; [apply (d_add 1 7 "task.ready" [] None 0); reflexivity|].
  eapply rtc_l; [apply (d_add 2 7 "task.ready" [] None 0); reflexivity|]. apply rtc_refl.
Qed.

Lemma dispatched_delivered : delivered dispatched.
Proof.
  destruct (dispatch_once refuse 9 10 ∅ sample) as [res s'] eqn:E.
  destruct (delivered_once _ _ _ _ _ _ _ _ _ sample_reachable eq_refl E) as (fl & H & _).
  exists 0, fl. unfold dispatched. rewrite E. exact H.
Qed.

(** After the pass event 1 is published and acknowledged once and its row is
    processed; event 2 is claimed again after the backoff. *)
Lemma outbox_delivery_witness :
  Log.acknowledged dispatched = [1%N] /\ (1%N ∈ Log.published dispatched) /\
  (exists r, Box.rows (Log.box dispatched) !! 1%N = Some r /\ processed_at r <> None) /\
  exists r, Box.rows (Log.box dispatched) !! 2%N = Some r /\ attempts r = 1 /\ pending 31000000 r = true.
Proof.
  destruct (outbox_delivery dispatched dispatched_delivered) as (H1 & _ & H3 & H4).
  assert (Log.acknowledged dispatched = [1%N]) as Ea by (vm_compute; reflexivity).
  assert (1%N ∈ Log.acknowledged dispatched) as E1 by (rewrite Ea; left).
  assert ((fun r => (attempts r, bool_decide (processed_at r = None), available_at r)) <$>
    Box.rows (Log.box dispatched) !! 2%N = Some (1, true, 1000000)) as F by (vm_compute; reflexivity).
  destruct (Box.rows (Log.box dispatched) !! 2%N) as [r|] eqn:E2; [|discriminate F].
  assert (attempts r = 1 /\ processed_at r = None /\ available_at r = 1000000) as (F1 & F2 & F3).
  { cbn in F. injection F as F1 F2 F3. apply bool_decide_eq_true in F2. split; [exact F1|]. split; assumption. }
  split; [exact Ea|]. split; [exact (H1 1%N E1)|]. split; [exact (proj1 (H3 1%N) E1)|].
  exists r. split; [reflexivity|]. split; [exact F1|]. apply (H4 2%N r 31000000 E2 F2).
  - vm_compute. reflexivity.
  - rewrite F3. lia.
Defined.
