(* ===== verification/Rbac.v ===== *)
(** * Roles and permissions ([core/rbac.py], [ProjectRole] of [core/enums.py])

    The permission tables, the principals and the guards the API calls. *)

From S2P Require Import Prelude Enums.

Inductive ProjectRole := OWNER | ADMIN | MEMBER | VIEWER.
Inductive PrincipalKind := API_KEY | LEGACY | SYSTEM.
Inductive Permission :=
| TASK_READ | TASK_LOG_READ | TASK_CREATE | TASK_CANCEL_OWN | TASK_CANCEL_ANY | USAGE_READ
| COST_READ | MODEL_READ | MODEL_MANAGE | SECRET_USE | SECRET_MANAGE | API_KEY_MANAGE
| QUOTA_MANAGE | IMAGE_POLICY_MANAGE | MEMBERSHIP_MANAGE | PROJECT_DELETE | AUDIT_READ
| WORKER_READ | WORKER_MANAGE.
#[export] Instance ProjectRole_eq_dec : EqDecision ProjectRole.
Proof. solve_decision. Defined.
#[export] Instance PrincipalKind_eq_dec : EqDecision PrincipalKind.
Proof. solve_decision. Defined.
#[export] Instance Permission_eq_dec : EqDecision Permission.
Proof. solve_decision. Defined.

(** [frozenset(Permission)] *)
Definition all_permissions : list Permission :=
  [TASK_READ; TASK_LOG_READ; TASK_CREATE; TASK_CANCEL_OWN; TASK_CANCEL_ANY; USAGE_READ; COST_READ;
   MODEL_READ; MODEL_MANAGE; SECRET_USE; SECRET_MANAGE; API_KEY_MANAGE; QUOTA_MANAGE;
   IMAGE_POLICY_MANAGE; MEMBERSHIP_MANAGE; PROJECT_DELETE; AUDIT_READ; WORKER_READ; WORKER_MANAGE].

Definition _VIEWER_PERMISSIONS : list Permission :=
  [TASK_READ; TASK_LOG_READ; USAGE_READ; COST_READ; MODEL_READ].
Definition _MEMBER_PERMISSIONS : list Permission :=
  _VIEWER_PERMISSIONS ++ [TASK_CREATE; TASK_CANCEL_OWN; SECRET_USE].
Definition _ADMIN_PERMISSIONS : list Permission :=
  _MEMBER_PERMISSIONS ++
  [TASK_CANCEL_ANY; MODEL_MANAGE; SECRET_MANAGE; API_KEY_MANAGE; QUOTA_MANAGE; IMAGE_POLICY_MANAGE;
   AUDIT_READ; WORKER_READ; WORKER_MANAGE].
Definition ROLE_PERMISSIONS (r : ProjectRole) : list Permission :=
  match r with
  | VIEWER => _VIEWER_PERMISSIONS
  | MEMBER => _MEMBER_PERMISSIONS
  | ADMIN => _ADMIN_PERMISSIONS
  | OWNER => all_permissions
  end.
Definition _ROLE_AUTHORITY (r : ProjectRole) : Z :=
  match r with VIEWER => 0 | MEMBER => 1 | ADMIN => 2 | OWNER => 3 end.
Definition LEGACY_PERMISSIONS : list Permission :=
  [TASK_READ; TASK_LOG_READ; TASK_CREATE; TASK_CANCEL_ANY; WORKER_READ].

(** [value is None] *)
Definition missing {A} (x : option A) : bool := match x with None => true | Some _ => false end.

Module Principal.
Record t := mk {
  kind : PrincipalKind;
  project_id : option N;
  user_id : option N;
  api_key_id : option N;
  role : option ProjectRole;
  key_prefix : option string;
}.

(** [__post_init__]: the message of the [ValueError], if any. *)
Definition post_init (p : t) : option string :=
  match kind p with
  | API_KEY =>
      if missing (project_id p) || missing (user_id p) || missing (api_key_id p) || missing (role p)
         || missing (key_prefix p)
      then Some "an API key principal requires project, user, key, role and prefix" else None
  | LEGACY =>
      if missing (project_id p) then Some "a legacy principal requires a project"
      else if negb (missing (api_key_id p)) || negb (missing (role p)) || negb (missing (key_prefix p))
      then Some "a legacy principal cannot carry API key membership data" else None
  | SYSTEM =>
      if negb (missing (api_key_id p)) || negb (missing (key_prefix p))
      then Some "a system principal cannot carry API key data" else None
  end.
End Principal.
Import Principal.

Definition permissions_for (p : Principal.t) : list Permission :=
  match kind p with
  | SYSTEM => all_permissions
  | LEGACY => LEGACY_PERMISSIONS
  | API_KEY => match role p with None => [] | Some r => ROLE_PERMISSIONS r end
  end.

Definition has_permission (p : Principal.t) (x : Permission) : bool := inb x (permissions_for p).

Inductive AccessError := PermissionDenied (x : Permission) | ProjectAccessDenied.

Definition require_permission (p : Principal.t) (x : Permission) : AccessError + unit :=
  if negb (has_permission p x) then inl (PermissionDenied x) else inr tt.

Definition can_access_project (p : Principal.t) (project : N) : bool :=
  (kind p == SYSTEM) || (project_id p == Some project).

Definition require_project_access (p : Principal.t) (project : N) : AccessError + unit :=
  if negb (can_access_project p project) then inl ProjectAccessDenied else inr tt.

Definition can_issue_api_key_for_role (p : Principal.t) (target_role : ProjectRole) : bool :=
  if kind p == SYSTEM then true
  else (kind p == API_KEY)
       && match role p with
          | None => false
          | Some r => _ROLE_AUTHORITY target_role <=? _ROLE_AUTHORITY r
          end.

Definition can_manage_membership_roles (p : Principal.t) (current_role requested_role : option ProjectRole)
  : bool :=
  if kind p == SYSTEM then true
  else match role p with
       | Some r =>
           (kind p == API_KEY)
           && (let caller_authority := _ROLE_AUTHORITY r in
               match current_role with None => true | Some c => _ROLE_AUTHORITY c <=? caller_authority end
               && match requested_role with None => true | Some q => _ROLE_AUTHORITY q <=? caller_authority end)
       | None => false
       end.

Definition can_cancel_task (p : Principal.t) (submitted_by_user_id : option N) : bool :=
  if has_permission p TASK_CANCEL_ANY then true
  else match user_id p with
       | None => false
       | Some u => (Some u == submitted_by_user_id) && has_permission p TASK_CANCEL_OWN
       end.

(** ** Authority *)
(** The tables agree: authority orders the permission sets, strictly. *)
Lemma authority_exact r r' :
  _ROLE_AUTHORITY r <= _ROLE_AUTHORITY r' <-> ROLE_PERMISSIONS r ⊆ ROLE_PERMISSIONS r'.
Proof.
  assert (bool_decide (_ROLE_AUTHORITY r <= _ROLE_AUTHORITY r')
    = bool_decide (ROLE_PERMISSIONS r ⊆ ROLE_PERMISSIONS r')) as H by (destruct r, r'; vm_compute; reflexivity).
  by rewrite <-(bool_decide_eq_true (_ <= _)), H, bool_decide_eq_true.
Qed.

(** What a key with the role may do. *)
Definition key_of (r : ProjectRole) (k : Principal.t) : Prop := kind k = API_KEY /\ role k = Some r.

(** C34: the guards against privilege escalation are exact.  For a principal of
    the API key kind that passed validation, [can_issue_api_key_for_role]
    answers true for a role exactly if every permission of that role is one of
    the principal's own, and [can_manage_membership_roles] exactly if this holds
    for the present and for the requested role; for legacy principals both
    answer false.  So a key of a role that the guard lets a principal issue
    never holds a permission this principal lacks.  The guards are one of two
    conditions: the routes that call them also require the permission to manage
    API keys or memberships. *)
Theorem no_privilege_escalation p (Hp : Principal.post_init p = None) :
  (kind p = API_KEY -> forall r,
     can_issue_api_key_for_role p r = true <-> ROLE_PERMISSIONS r ⊆ permissions_for p) /\
  (kind p = API_KEY -> forall c q,
     can_manage_membership_roles p c q = true <->
     (forall r, c = Some r \/ q = Some r -> ROLE_PERMISSIONS r ⊆ permissions_for p)) /\
  (kind p = LEGACY -> forall r c q,
     can_issue_api_key_for_role p r = false /\ can_manage_membership_roles p c q = false) /\
  (forall r k x, can_issue_api_key_for_role p r = true -> key_of r k ->
     has_permission k x = true -> has_permission p x = true).
Proof.
  destruct p as [kd pj u key rl pre]. unfold permissions_for, can_issue_api_key_for_role,
    can_manage_membership_roles, has_permission, key_of, permissions_for. cbn [kind role project_id] in *.
  assert (kd = API_KEY -> exists r', rl = Some r') as Hrole.
  { intros ->. destruct rl as [r'|]; [by eexists|]. exfalso. unfold post_init in Hp. cbn in Hp.
    by destruct (missing pj), (missing u), (missing key). }
  split_and!.
  - intros -> r. destruct (Hrole eq_refl) as [r' ->]. change (API_KEY == SYSTEM) with false.
    change (API_KEY == API_KEY) with true. by rewrite andb_true_l, Z.leb_le, authority_exact.
  - intros -> c q. destruct (Hrole eq_refl) as [r' ->]. change (API_KEY == SYSTEM) with false.
    change (API_KEY == API_KEY) with true. rewrite andb_true_l. cbv zeta.
    destruct c as [c|], q as [q|]; rewrite ?andb_true_iff, ?Z.leb_le, ?authority_exact; naive_solver.
  - intros -> r c q. by destruct rl.
  - intros r [kd' pj' u' key' rl' pre'] x Hi [E1 E2]. cbn [kind role] in *. subst. rewrite !inb_true.
    destruct kd; [|discriminate Hi|intros _; destruct x; vm_compute; set_solver].
    destruct (Hrole eq_refl) as [r' ->]. change (API_KEY == SYSTEM) with false in Hi.
    change (API_KEY == API_KEY) with true in Hi. rewrite andb_true_l, Z.leb_le, authority_exact in Hi. apply Hi.
Qed.

Lemma no_privilege_escalation_witness :
  let p := Principal.mk API_KEY (Some 7%N) (Some 1%N) (Some 2%N) (Some ADMIN) (Some "mk_1") in
  can_issue_api_key_for_role p MEMBER = true /\ can_issue_api_key_for_role p OWNER = false.
Proof.
  intros p. destruct (no_privilege_escalation p eq_refl) as (H & _). split.
  - apply (H eq_refl MEMBER). apply (bool_decide_unpack _). vm_compute. exact I.
  - destruct (can_issue_api_key_for_role p OWNER) eqn:E; [|reflexivity]. exfalso.
    apply (H eq_refl OWNER) in E. apply (bool_decide_pack _) in E. vm_compute in E. exact E.
Defined.
