(* ===== verification/ServiceInvariant.v ===== *)
(** * The invariant of the service side

    What the operations keep of the rows of services, replicas, models and
    variants.  Task-side operations leave all of them alone ([aside]); most
    service-side operations change only the run-time columns of a service
    ([specs_kept]).  Creation and scaling of a service are the two that move
    the books, together with the project's counters. *)

From S2P Require Import Prelude PyString PyFloat PyUrl Enums Policies Store Frames Names Quotas Reservations Tasks.
From S2P Require Import Scheduling Workers Invariant Transaction Lifecycle Creation Dag.
From S2P Require Import Services ModelRegistry Gateway ServiceControl ServiceFrames System.
From S2P Require Import VendorAdmission RuntimeProfiles AdmissionPlan Admission AdmissionFrames.

(** ** Columns that only creation and scaling write *)
Definition spec_of (s : Svc) : Svc :=
  s <| ModelService.status := ServiceStatus.PENDING |> <| ModelService.updated_at := 0 |>
    <| ModelService.version := 0 |> <| ModelService.stopped_at := None |>
    <| ModelService.round_robin_cursor := 0 |> <| ModelService.last_scaled_at := None |>
    <| ModelService.last_autoscale_checked_at := None |>.

(** The service counters of a project; a project without a row has none. *)
Definition counters_at (db : Db.t) (p : N) : list Z :=
  match Db.quota_states db !! p with
  | Some s => service_counters s
  | None => [0; 0; 0; 0; 0; 0; 0; 0]
  end.

Definition specs (db : Db.t) (i : N) : option Svc := spec_of <$> Db.services db !! i.

Record specs_kept (db db' : Db.t) : Prop := {
  sk_specs : forall i, specs db' i = specs db i;
  sk_counters : forall p, counters_at db' p = counters_at db p;
}.

#[export] Instance specs_kept_preorder : PreOrder specs_kept.
Proof.
  split; [done|]. intros a b c [H1 H2] [H3 H4]. split; intros x; [by rewrite H3|by rewrite H4].
Qed.

(** Nothing of the service side changes but the rows of circuits, the outbox
    and the audit log. *)
Record aside (db db' : Db.t) : Prop := {
  as_services : Db.services db' = Db.services db;
  as_replicas : Db.replicas db' = Db.replicas db;
  as_models : Db.logical_models db' = Db.logical_models db;
  as_variants : Db.model_variants db' = Db.model_variants db;
  as_counters : forall p, counters_at db' p = counters_at db p;
}.

#[export] Instance aside_preorder : PreOrder aside.
Proof.
  split; [done|]. intros a b c [A1 A2 A3 A4 A5] [B1 B2 B3 B4 B5].
  split; [congruence..|]. intros p. by rewrite B5.
Qed.

Lemma aside_specs db db' : aside db db' -> specs_kept db db'.
Proof. intros [E _ _ _ C]. split; [|done]. intros i. unfold specs. by rewrite E. Qed.

(** Replacing a usage row by one with the same service counters. *)
Lemma set_state_aside db p s s0 :
  Db.quota_states db !! p = Some s0 -> service_counters s = service_counters s0 ->
  aside db (set_state p s db).
Proof.
  intros Hs E. unfold set_state. split; fields; try done. intros p'. unfold counters_at. fields.
  destruct (decide (p' = p)) as [->|Hne]; [by rewrite lookup_insert_eq, Hs|by rewrite lookup_insert_ne].
Qed.

Ltac frame_aside := frame_by ltac:(split; fields; first [reflexivity | intros ?; unfold counters_at; fields; reflexivity]).

(** ** Quota operations of the task side *)
Lemma get_locked_aside p : frames aside (get_locked p).
Proof.
  intros db. destruct (get_locked p db) as [[e|[q s]] db'] eqn:E; cbn.
  - by apply get_locked_err in E as ->.
  - apply get_locked_ok in E as (s0 & _ & Hs & _ & _ & Hc & ->). by eapply set_state_aside.
Qed.
#[export] Hint Resolve get_locked_aside : frames.

(** A new usage row has no service counters. *)
Lemma default_aside db p now :
  Db.quota_states db !! p = None -> aside db (db <| Db.quota_states ::= <[p := default_state now]> |>).
Proof.
  intros Hp. split; fields; try done. intros p'. unfold counters_at. fields.
  destruct (decide (p' = p)) as [->|Hne]; [by rewrite lookup_insert_eq, Hp|by rewrite lookup_insert_ne].
Qed.

Lemma initialize_aside p : frames aside (initialize p).
Proof.
  intros db.
  unfold initialize, mbind, M_bind, database_utcnow, gets, raise_if, put_quota, put_quota_state, modify,
    mret, M_ret.
  destruct (negb _); [done|].
  assert (forall s d, (_assert_state_nonnegative s d).2 = d) as Ha
    by (intros s d; symmetry; exact (assert_frames eq s d)).
  destruct (Db.quotas db !! p) as [q|], (Db.quota_states db !! p) as [s|] eqn:Es; cbv beta iota;
    lazymatch goal with |- context [_assert_state_nonnegative ?s ?d] =>
      pose proof (Ha s d) as E; destruct (_assert_state_nonnegative s d) as [[]]; cbn [snd] in E |- *; subst end;
    try done; try by apply default_aside.
  all: etrans; [|by apply default_aside]; by split.
Qed.
#[export] Hint Resolve initialize_aside : frames.

(** Admission leaves the service side alone. *)
Lemma event_aside db e : aside db (db <| Db.admission_events ::= fun l => l ++ [e] |>).
Proof. split; fields; try reflexivity. Qed.
Lemma locked_quota_aside p : frames aside (locked_quota p).
Proof. frame_aside. Qed.
Lemma admit_batch_aside c t r w : frames aside (admit_batch_task c t r w).
Proof. apply frames_admit_batch; [exact _|apply event_aside]. Qed.
Lemma admit_service_aside c p i l r mem d t : frames aside (admit_logical_model_service c p i l r mem d t).
Proof. apply frames_admit_service; [exact _|apply event_aside|apply locked_quota_aside]. Qed.
Lemma revalidate_aside c s d : frames aside (revalidate_logical_model_service_scale c s d).
Proof. apply frames_revalidate; [exact _|apply event_aside|apply locked_quota_aside]. Qed.
#[export] Hint Resolve admit_batch_aside admit_service_aside revalidate_aside : frames.

(** The operations that lock the row and move the usage of tasks. *)
Lemma moved_aside p f db q s db' : moved p f db q s db' -> aside db db'.
Proof. intros (s0 & _ & Hs & _ & _ & Hc & ->). by eapply set_state_aside. Qed.

Lemma admit_queued_aside p : frames aside (admit_queued p).
Proof.
  apply lock_then; [exact _|frame_aside|intros [q s]; clean|].
  intros db s db' H. apply (admit_queued_ok p) in H as (q & H & _). by eapply moved_aside.
Qed.
#[export] Hint Resolve admit_queued_aside : frames.

Lemma release_queued_aside p : frames aside (release_queued p).
Proof.
  apply lock_then; [exact _|frame_aside|intros [q s]; clean|].
  intros db s db' H. apply (release_queued_ok p) in H as (q & H). by eapply moved_aside.
Qed.
#[export] Hint Resolve release_queued_aside : frames.

Lemma reserve_execution_aside p c m g x v : frames aside (reserve_execution p c m g x v).
Proof.
  unfold reserve_execution, _validate_reservation. apply guard_then; [exact _|]. intros Hv.
  apply lock_then; [exact _|frame_aside|intros [q s]; clean|]. intros db s db' H.
  destruct (reserve_execution_ok p c m g x v db s db') as (q & Hm & _); [|by eapply moved_aside].
  unfold reserve_execution, _validate_reservation. rewrite Hv. exact H.
Qed.
#[export] Hint Resolve reserve_execution_aside : frames.

Lemma release_aside p c m g x y d v : frames aside (release p c m g x y d v).
Proof.
  unfold release, _validate_reservation. apply guard_then; [exact _|]. intros Hv.
  apply guard_then; [exact _|]. intros Hs.
  apply lock_then; [exact _|frame_aside|intros [q s]; clean|]. intros db s db' H.
  destruct (release_ok p c m g x y d v db s db') as (q & Hm); [|by eapply moved_aside].
  unfold release, _validate_reservation. rewrite Hv, Hs. exact H.
Qed.
#[export] Hint Resolve release_aside : frames.

Lemma transition_aside t s n e : frames aside (_transition t s n e).
Proof. frame_aside. Qed.
#[export] Hint Resolve transition_aside : frames.
Lemma release_and_settle_aside t e s n r : frames aside (release_and_settle t e s n r).
Proof. frame_aside. Qed.
#[export] Hint Resolve release_and_settle_aside : frames.
Lemma owned_task_aside i w e s : frames aside (_owned_task i w e s).
Proof. frame_aside. Qed.
#[export] Hint Resolve owned_task_aside : frames.
Lemma complete_preemption_plans_aside i n : frames aside (_complete_preemption_plans i n).
Proof. frame_aside. Qed.
#[export] Hint Resolve complete_preemption_plans_aside : frames.
Lemma reserve_assignment_aside al e r t w w' d n p : frames aside (reserve_assignment al e r t w w' d n p).
Proof. frame_aside. Qed.
#[export] Hint Resolve reserve_assignment_aside : frames.

Lemma task_side_aside op : service_side op = false -> frames aside (exec op).
Proof. intros H. destruct op; try discriminate H; clear H; cbn [exec]; unfold ignore; frame_aside. Qed.

(** ** Service-side operations that keep the specifications *)
Lemma alter_spec (m : gmap N Svc) f k i :
  (forall s, spec_of (f s) = spec_of s) -> spec_of <$> alter f k m !! i = spec_of <$> m !! i.
Proof.
  intros Hf. destruct (decide (k = i)) as [->|Hne]; [|by rewrite lookup_alter_ne].
  rewrite lookup_alter_eq. destruct (m !! i); cbn; [by rewrite Hf|done].
Qed.

Ltac frame_specs := frame_by ltac:(split;
  [intros ?i; unfold specs; fields; first [reflexivity | apply alter_spec; reflexivity]
  |intros ?p; unfold counters_at; fields; reflexivity]).

Lemma frames_weaken (R R' : relation Db.t) {A} (m : Sess A) :
  (forall db db', R db db' -> R' db db') -> frames R m -> frames R' m.
Proof. intros H Hm db. apply H, Hm. Qed.

Lemma get_locked_specs p : frames specs_kept (get_locked p).
Proof. eapply frames_weaken, get_locked_aside. apply aside_specs. Qed.
#[export] Hint Resolve get_locked_specs : frames.

(** What leaves the service side alone keeps the specifications. *)
Lemma aside_frames_specs {A} (m : Sess A) : frames aside m -> frames specs_kept m.
Proof. apply frames_weaken, aside_specs. Qed.
#[export] Hint Extern 5 (frames specs_kept (admit_batch_task _ _ _ _)) => apply aside_frames_specs, admit_batch_aside : frames.
#[export] Hint Extern 5 (frames specs_kept (admit_logical_model_service _ _ _ _ _ _ _ _)) =>
  apply aside_frames_specs, admit_service_aside : frames.
#[export] Hint Extern 5 (frames specs_kept (revalidate_logical_model_service_scale _ _ _)) =>
  apply aside_frames_specs, revalidate_aside : frames.

Lemma try_candidates_specs p ex now b off sk l : frames specs_kept (try_candidates p ex now b off sk l).
Proof. apply try_candidates_frames; [exact _|frame_specs..]. Qed.
#[export] Hint Resolve try_candidates_specs : frames.

(** The operations that write a specification. *)
Definition writes_specs (op : Op) : bool :=
  match op with OpService _ _ | OpScale _ _ _ _ | OpAutoscale _ _ _ _ _ _ _ => true | _ => false end.

Lemma exec_specs op : writes_specs op = false -> frames specs_kept (exec op).
Proof.
  intros Hw. destruct (service_side op) eqn:Hs.
  - destruct op; try discriminate Hs; try discriminate Hw; clear Hs Hw; cbn [exec]; unfold ignore; frame_specs.
  - eapply frames_weaken; [apply aside_specs|by apply task_side_aside].
Qed.

(** ** Replacing a commitment *)
Lemma initialize_row p db q s db' :
  initialize p db = (inr (q, s), db') -> Db.quota_states db' !! p = Some s /\ state_wf s.
Proof.
  intros H. unfold initialize in H. do 5 (apply bind_ok in H as (? & ? & Hg & H); minv Hg; try clear Hg).
  apply bind_ok in H as (q1 & db1 & Hq & H). apply bind_ok in H as (s1 & db2 & Hs & H).
  apply bind_ok in H as (? & db3 & Ha & H). apply assert_ok in Ha as (Hw & _ & ->).
  apply ret_ok in H as [[= -> ->] ->]. split; [|done].
  assert (Db.quota_states db1 = Db.quota_states db) as Eq by (destruct (Db.quotas db !! p); by minv Hq).
  destruct (Db.quota_states db !! p) eqn:E; minv Hs; [by rewrite Eq|]. fields. apply lookup_insert_eq.
Qed.

(** The row lock of [replace_service_commitment], whichever branch it takes. *)
Lemma lock_or_initialize p db q s db' :
  try_except (get_locked p) (fun e =>
    match e with QuotaNotFoundError _ => Some (initialize p) | _ => None end) db = (inr (q, s), db') ->
  Db.quota_states db' !! p = Some s /\ state_wf s /\ aside db db'.
Proof.
  unfold try_except. destruct (get_locked p db) as [[e|[q1 s1]] db1] eqn:E.
  - apply get_locked_err in E as ->. destruct e; try done. intros H.
    pose proof (initialize_row _ _ _ _ _ H) as [? ?]. split_and!; [done|done|].
    exact (frames_run aside _ _ _ _ (initialize_aside p) H).
  - intros [= <- <- <-]. pose proof (frames_run aside _ _ _ _ (get_locked_aside p) E) as Ha.
    apply get_locked_ok in E as (s0 & _ & _ & Hw & _ & _ & ->). split_and!; [|done|done].
    apply set_state_lookup.
Qed.

(** What the counters of the project become; nothing else of the service side
    changes. *)
Lemma replace_counters p cur des cpu mem gpu v db s db' :
  replace_service_commitment p cur des cpu mem gpu v db = (inr s, db') ->
  Db.services db' = Db.services db /\ Db.replicas db' = Db.replicas db /\
  Db.logical_models db' = Db.logical_models db /\ Db.model_variants db' = Db.model_variants db /\
  counters_at db' p = vadd (vsub (counters_at db p) (commitment cur cpu mem gpu v))
                           (commitment des cpu mem gpu v) /\
  forall p', p' <> p -> counters_at db' p' = counters_at db p'.
Proof.
  intros H. unfold replace_service_commitment in H. apply bind_ok in H as ([] & db0 & Hv & H). minv Hv.
  apply bind_ok in H as ([q s1] & db1 & Hl & H).
  apply lock_or_initialize in Hl as (Hs1 & Hw1 & [E1 E2 E3 E4 E5]).
  rewrite <-(E5 p), <-E1, <-E2, <-E3, <-E4. setoid_rewrite <-E5. clear E1 E2 E3 E4 E5 db.
  minv H. pose proof (gpus_split_mul v gpu (des - cur)) as Hsp.
  pose proof (gpus_split_mul v gpu cur). pose proof (gpus_split_mul v gpu des).
  pose proof (wf_service_gpus _ Hw1) as Hsg. rewrite !gpus_of_mul in *.
  assert (counters_at db1 p = service_counters s1) as -> by (unfold counters_at; by rewrite Hs1).
  unfold service_counters at 1, commitment, vadd, vsub. cbn [zip_with].
  destruct (des - cur =? 0) eqn:Ed.
  - apply ret_ok in H as [-> ->]. split_and!; try done. unfold counters_at. rewrite Hs1.
    replace des with cur by lia. unfold service_counters.
    repeat (apply (f_equal2 cons); [lia|]). done.
  - apply touch_ok in H as (_ & _ & _ & Hc & ->). split_and!; try (unfold set_state; by fields).
    + unfold counters_at, set_state. fields. rewrite lookup_insert_eq, Hc. unfold service_counters. fields.
      rewrite !gpus_of_mul. repeat (apply (f_equal2 cons); [lia|]). done.
    + intros p' Hne. unfold counters_at, set_state. fields. by rewrite lookup_insert_ne.
Qed.

(** ** The books of the services *)
Definition commitment_of (s : Svc) : list Z :=
  commitment (ModelService.desired_replicas s) (ModelService.cpu_millicores s) (ModelService.memory_mb s)
    (ModelService.gpu_count s) (ModelService.selected_vendor s).

(** Component [k] of the commitment of the services of project [p]. *)
Definition committed_part (p : N) (k : nat) (_ : N) (s : Svc) : Z :=
  if ModelService.project_id s == p then nth k (commitment_of s) 0 else 0.

(** The sum of the commitments of a project's services: services with
    replicas, replicas, CPU, memory, accelerators in all and per vendor. *)
Definition committed (services : gmap N Svc) (p : N) : list Z :=
  (fun k => msum (committed_part p k) services) <$> seq 0 8.

Record books (db : Db.t) : Prop := {
  bk_rows : forall i s, Db.services db !! i = Some s -> ModelService.id s = i /\ service_checks s = true;
  bk_counters : forall p, counters_at db p = committed (Db.services db) p;
}.

Lemma msum_fmap {K A B} `{Countable K} (g : A -> B) (f : K -> B -> Z) (m : gmap K A) :
  msum f (g <$> m) = msum (fun k a => f k (g a)) m.
Proof.
  induction m as [|k a m Hk IH] using map_ind; [by rewrite fmap_empty, !msum_empty|].
  rewrite fmap_insert, !msum_insert_new by (by rewrite ?lookup_fmap, ?Hk). by rewrite IH.
Qed.

Lemma committed_specs db db' p :
  (forall i, specs db' i = specs db i) -> committed (Db.services db') p = committed (Db.services db) p.
Proof.
  intros H. assert (spec_of <$> Db.services db' = spec_of <$> Db.services db) as E.
  { apply map_eq. intros i. rewrite !lookup_fmap. apply H. }
  assert (forall m, committed m p = committed (spec_of <$> m) p) as Hm; 
    [|by rewrite (Hm (Db.services db')), E, <-Hm].
  intros m. unfold committed. apply list_fmap_ext. intros j k _. rewrite msum_fmap. by apply msum_ext.
Qed.

Lemma specs_books db db' : specs_kept db db' -> books db -> books db'.
Proof.
  intros [Hs Hc] [B1 B2]. split.
  - intros i s' Hi. specialize (Hs i). unfold specs in Hs. rewrite Hi in Hs. cbn [fmap option_fmap option_map] in Hs.
    destruct (Db.services db !! i) as [s|] eqn:E; [|done]. cbn [fmap option_fmap option_map] in Hs.
    apply (inj Some) in Hs.
    destruct (B1 i s E) as [H1 H2]. change (ModelService.id (spec_of s) = i) in H1.
    change (service_checks (spec_of s) = true) in H2. rewrite <-Hs in H1, H2. done.
  - intros p. rewrite Hc, B2. symmetry. by apply committed_specs.
Qed.

(** Sums after a new row and after a changed one. *)
Lemma committed_insert_new m i s p :
  m !! i = None ->
  committed (<[i := s]> m) p
  = if ModelService.project_id s == p then vadd (committed m p) (commitment_of s) else committed m p.
Proof.
  intros Hi. unfold committed. cbn [fmap list_fmap seq]. rewrite !msum_insert_new by done.
  unfold committed_part at 1 3 5 7 9 11 13 15. destruct (_ == p); cbn;
    repeat (apply (f_equal2 cons); [lia|]); done.
Qed.

Lemma committed_insert m i s s' p :
  m !! i = Some s -> ModelService.project_id s' = ModelService.project_id s ->
  committed (<[i := s']> m) p
  = if ModelService.project_id s == p
    then vadd (vsub (committed m p) (commitment_of s)) (commitment_of s') else committed m p.
Proof.
  intros Hi E. unfold committed. cbn [fmap list_fmap seq]. rewrite !(msum_insert _ _ _ s) by done.
  unfold committed_part at 2 3 5 6 8 9 11 12 14 15 17 18 20 21 23 24. rewrite E. destruct (_ == p); cbn;
    repeat (apply (f_equal2 cons); [lia|]); done.
Qed.

(** ** Creation and scaling move the counters with the rows *)
Lemma eligible_node_snapshot_eq v l : frames eq (_eligible_node_snapshot v l).
Proof. frame_by fail. Qed.

Lemma commitment_zero cpu mem gpu v l :
  List.length l = 8%nat -> vsub l (commitment 0 cpu mem gpu v) = l.
Proof.
  unfold commitment, vsub. intros Hl. do 8 (destruct l as [|? l]; [done|]). destruct l; [|done].
  rewrite !Z.mul_0_r, !gpus_of_zero. cbn. repeat (apply (f_equal2 cons); [lia|]). done.
Qed.

Lemma counters_length db p : List.length (counters_at db p) = 8%nat.
Proof. unfold counters_at. by destruct (Db.quota_states db !! p). Qed.

Lemma frames_eq_run {A} (m : Sess A) db r db' : frames eq m -> m db = (r, db') -> db' = db.
Proof. intros Hm E. symmetry. by eapply frames_run. Qed.

Lemma insert_service_ok s db u db' :
  insert_service s db = (inr u, db') ->
  Db.services db !! ModelService.id s = None /\
  services_named db (ModelService.project_id s) (ModelService.name s) = [] /\
  missing (ModelService.logical_model_id s) (Db.logical_models db) = false /\
  missing (ModelService.model_variant_id s) (Db.model_variants db) = false /\
  service_checks s = true /\ db' = (db <| Db.services ::= <[ModelService.id s := s]> |>).
Proof.
  intros H. unfold insert_service, check_service, put_service in H. minv H.
  apply orb_false_iff in Hm1 as [? ?]. apply negb_false_iff in Hm2.
  apply bool_decide_eq_false, eq_None_not_Some in Hm. apply bool_decide_eq_false, dec_stable in Hm0. done.
Qed.

(** The service and the commitment of a successful creation. *)
Lemma create_ok i a db s db' :
  ServiceRepository.create i a db = (inr s, db') ->
  exists db1 nodes, s = ServiceRepository.new_service i a nodes (Db.clock db1) /\
    check_service_name_available (ServiceSpec.project_id a) (ServiceSpec.name a)
      (ServiceSpec.logical_model_id a) db = (inr tt, db) /\
    (exists st, replace_service_commitment (ServiceSpec.project_id a) 0 (ServiceSpec.desired_replicas a)
      (ServiceSpec.cpu_millicores a) (ServiceSpec.memory_mb a) (ServiceSpec.gpu_count a)
      (ServiceSpec.selected_vendor a) db = (inr st, db1)) /\
    (exists u db2, insert_service s db1 = (inr u, db2) /\
    exists es, db' = (db2 <| Db.outbox ::= fun l => l ++ es |>)).
Proof.
  intros H. unfold ServiceRepository.create in H. cbv zeta in H.
  apply bind_ok in H as (nodes & db1 & H1 & H). apply frames_eq_run in H1 as ->; [|apply eligible_node_snapshot_eq].
  apply bind_ok in H as (pr & db1 & H1 & H). apply frames_eq_run in H1 as ->; [|frame_by fail].
  apply bind_ok in H as ([] & db1 & H1 & H). pose proof H1 as Hn. apply frames_eq_run in H1 as ->; [|frame_by fail].
  apply bind_ok in H as (st & db1 & H1 & H). apply bind_ok in H as (now & db2 & H2 & H). minv H2.
  apply bind_ok in H as ([] & db2 & H2 & H). apply bind_ok in H as ([] & db3 & H3 & H).
  unfold _add_service_event in H3. minv H3. apply ret_ok in H as [-> ->].
  exists db1, nodes. split_and!; [done|done|by eexists|]. exists tt, db2. split; [done|]. by eexists.
Qed.

Lemma create_books i a db s db' :
  ServiceRepository.create i a db = (inr s, db') -> books db -> books db'.
Proof.
  intros (db1 & nodes & -> & _ & (st & H1) & (u & db2 & H2 & es & ->))%create_ok [B1 B2].
  apply replace_counters in H1 as (Es & _ & _ & _ & Ec & En).
  rewrite commitment_zero in Ec by apply counters_length.
  set (s := ServiceRepository.new_service i a nodes (Db.clock db1)) in *.
  apply insert_service_ok in H2 as (Hn & _ & _ & _ & Hc & ->). rewrite Es in Hn. split; fields; rewrite Es.
  - intros j x [[-> ->]|[_ Hx]]%lookup_insert_cases; [done|by apply B1].
  - intros p. rewrite committed_insert_new by done. change (counters_at (db1 <| Db.services ::= _ |> <| Db.outbox ::= _ |>) p) with (counters_at db1 p).
    destruct (ModelService.project_id s == p) eqn:E.
    + rewrite eqb_true in E. subst p. rewrite <-B2. exact Ec.
    + rewrite eqb_false in E. rewrite En by (intros ->; exact (E eq_refl)). apply B2.
Qed.

(** What scaling does not write. *)
Definition identity_of (s : Svc) : Svc :=
  spec_of s <| ModelService.desired_replicas := 0 |> <| ModelService.eligible_node_names := None |>
    <| ModelService.scheduling_reason := None |> <| ModelService.scheduling_details := [] |>.

Lemma scaled_identity n nodes now s : identity_of (ServiceRepository.scaled n nodes now s) = identity_of s.
Proof. unfold ServiceRepository.scaled. by destruct nodes, (n =? 0). Qed.
Lemma scaled_desired n nodes now s : ModelService.desired_replicas (ServiceRepository.scaled n nodes now s) = n.
Proof. unfold ServiceRepository.scaled. by destruct nodes, (n =? 0). Qed.

Lemma identity_fields s s' :
  identity_of s' = identity_of s ->
  ModelService.id s' = ModelService.id s /\ ModelService.project_id s' = ModelService.project_id s /\
  ModelService.name s' = ModelService.name s /\
  ModelService.logical_model_id s' = ModelService.logical_model_id s /\
  ModelService.model_variant_id s' = ModelService.model_variant_id s /\
  commitment_of s' = commitment (ModelService.desired_replicas s') (ModelService.cpu_millicores s)
    (ModelService.memory_mb s) (ModelService.gpu_count s) (ModelService.selected_vendor s).
Proof.
  intros E. unfold commitment_of.
  split_and!; [change (ModelService.id (identity_of s') = ModelService.id (identity_of s))
    |change (ModelService.project_id (identity_of s') = ModelService.project_id (identity_of s))
    |change (ModelService.name (identity_of s') = ModelService.name (identity_of s))
    |change (ModelService.logical_model_id (identity_of s') = ModelService.logical_model_id (identity_of s))
    |change (ModelService.model_variant_id (identity_of s') = ModelService.model_variant_id (identity_of s))
    |change (commitment (ModelService.desired_replicas s') (ModelService.cpu_millicores (identity_of s'))
       (ModelService.memory_mb (identity_of s')) (ModelService.gpu_count (identity_of s'))
       (ModelService.selected_vendor (identity_of s')) = commitment (ModelService.desired_replicas s')
       (ModelService.cpu_millicores (identity_of s)) (ModelService.memory_mb (identity_of s))
       (ModelService.gpu_count (identity_of s)) (ModelService.selected_vendor (identity_of s)))];
  by rewrite E.
Qed.

Lemma check_service_ok s db u db' : check_service s db = (inr u, db') -> service_checks s = true /\ db' = db.
Proof. unfold check_service. intros (H & _ & ->)%raise_if_ok. by apply negb_false_iff in H. Qed.

Lemma check_service_err s db e db' :
  check_service s db = (inl e, db') -> e = IntegrityError "ck_model_services".
Proof. unfold check_service, raise_if. generalize (service_checks s). intros []; [done|]. by intros [= <- _]. Qed.

Lemma update_service_ok s f db r db' :
  update_service s f db = (inr r, db') ->
  r = f s /\ db' = (db <| Db.services ::= alter f (ModelService.id s) |>).
Proof.
  unfold update_service. intros (u & db1 & H1 & H)%bind_ok. apply modify_ok in H1 as [_ ->].
  by apply ret_ok in H as [-> ->].
Qed.

Lemma update_service_total s f db e db' : update_service s f db <> (inl e, db').
Proof. done. Qed.
Lemma add_service_event_total a ty ev pl at_ db e db' : _add_service_event a ty ev pl at_ db <> (inl e, db').
Proof. done. Qed.

Lemma add_service_event_ok a ty ev pl at_ db u db' :
  _add_service_event a ty ev pl at_ db = (inr u, db') ->
  exists es, db' = (db <| Db.outbox ::= fun l => l ++ es |>).
Proof. unfold _add_service_event. intros [_ ->]%modify_ok. by eexists. Qed.

(** A scaling that returns either changes nothing or replaces the commitment
    and then the row. *)
Lemma set_desired_ok i p n ns db r db' :
  ServiceRepository.set_desired_replicas i p n ns db = (inr r, db') ->
  db' = db /\ (r = None \/ r = Db.services db !! i) \/
  exists s nodes db1 st es, Db.services db !! i = Some s /\ ModelService.project_id s = p /\
    replace_service_commitment p (ModelService.desired_replicas s) n (ModelService.cpu_millicores s)
      (ModelService.memory_mb s) (ModelService.gpu_count s) (ModelService.selected_vendor s) db = (inr st, db1) /\
    service_checks (ServiceRepository.scaled n nodes (Db.clock db1) s) = true /\
    r = Some (ServiceRepository.scaled n nodes (Db.clock db1) s) /\
    db' = (db1 <| Db.services ::= alter (ServiceRepository.scaled n nodes (Db.clock db1)) (ModelService.id s) |>
               <| Db.outbox ::= fun l => l ++ es |>).
Proof.
  intros H. unfold ServiceRepository.set_desired_replicas, ServiceRepository.get in H.
  apply bind_ok in H as (o & db0 & H1 & H). apply gets_ok in H1 as [-> ->].
  destruct (Db.services db !! i) as [s|] eqn:Ei; [|minv H; left; auto].
  destruct (ModelService.project_id s == p) eqn:Ep; [|minv H; left; auto]. rewrite eqb_true in Ep.
  destruct (_ =? n); [minv H; left; auto|].
  apply bind_ok in H as (nodes & db0 & H1 & H).
  apply frames_eq_run in H1 as ->; [|frame_by fail].
  apply bind_ok in H as (st & db1 & H1 & H). apply bind_ok in H as (now & db2 & H2 & H).
  apply gets_ok in H2 as [-> ->]. right. exists s, nodes, db1, st. cbv zeta in H.
  set (f := ServiceRepository.scaled n nodes (Db.clock db1)) in H |- *. clearbody f.
  apply bind_ok in H as (u & db2 & [Hc ->]%check_service_ok & H).
  apply bind_ok in H as (r' & db2 & [-> ->]%update_service_ok & H).
  apply bind_ok in H as (u' & db2 & (es & ->)%add_service_event_ok & H). apply ret_ok in H as [-> ->].
  exists es. done.
Qed.

Lemma set_desired_books i p n ns db r db' :
  ServiceRepository.set_desired_replicas i p n ns db = (inr r, db') -> books db -> books db'.
Proof.
  intros [[-> _]|(s & nodes & db1 & st & es & Hi & Hp & H1 & Hc & _ & ->)]%set_desired_ok [B1 B2]; [done|].
  apply replace_counters in H1 as (Es & _ & _ & _ & Ec & En).
  destruct (B1 i s Hi) as [Hid _]. set (f := ServiceRepository.scaled n nodes (Db.clock db1)) in *.
  destruct (identity_fields s (f s)) as (F1 & F2 & _ & _ & _ & F6); [apply scaled_identity|].
  assert (alter f (ModelService.id s) (Db.services db) = <[i := f s]> (Db.services db)) as Ea.
  { rewrite Hid. apply map_eq. intros j. destruct (decide (i = j)) as [<-|Hne].
    - by rewrite lookup_alter_eq, lookup_insert_eq, Hi.
    - by rewrite lookup_alter_ne, lookup_insert_ne. }
  split; fields; rewrite Es, Ea.
  - intros j x [[-> ->]|[_ Hx]]%lookup_insert_cases; [|by apply B1]. by rewrite F1.
  - intros p'. rewrite (committed_insert _ _ s) by done.
    change (counters_at (db1 <| Db.services ::= _ |> <| Db.outbox ::= _ |>) p') with (counters_at db1 p').
    rewrite F6, Hp. assert (ModelService.desired_replicas (f s) = n) as -> by apply scaled_desired. destruct (p == p') eqn:E.
    + rewrite eqb_true in E. subst p'. by rewrite Ec, B2.
    + rewrite eqb_false in E. rewrite En by congruence. apply B2.
Qed.

(** [QuotaExceededError] is raised by the quota check alone, before any write
    of a service. *)
Lemma replace_error_aside p cur des cpu mem gpu v db e db' :
  replace_service_commitment p cur des cpu mem gpu v db = (inl e, db') -> aside db db'.
Proof.
  unfold replace_service_commitment, _validate_service_commitment. intros [H|([] & db0 & H0 & H)]%bind_err.
  { unfold raise_if in H. case_match; [by injection H as _ <-|done]. }
  apply raise_if_ok in H0 as (_ & _ & ->).
  assert (frames aside (try_except (get_locked p) (fun e =>
    match e with QuotaNotFoundError _ => Some (initialize p) | _ => None end))) as Hl by frame_aside.
  apply bind_err in H as [H|([q s1] & db1 & H1 & H)]; [exact (frames_run aside _ _ _ _ Hl H)|].
  match type of H with ?k db1 = _ => assert (clean k) as Hk by clean end.
  apply Hk in H as ->. exact (frames_run aside _ _ _ _ Hl H1).
Qed.

Lemma set_desired_quota_error i p n ns db r db' :
  ServiceRepository.set_desired_replicas i p n ns db = (inl (QuotaExceededError r), db') -> aside db db'.
Proof.
  intros H. unfold ServiceRepository.set_desired_replicas, ServiceRepository.get in H.
  apply bind_err in H as [H|(o & db0 & H1 & H)]; [done|]. apply gets_ok in H1 as [-> ->].
  destruct (Db.services db !! i) as [s|]; [|done].
  destruct (ModelService.project_id s == p); [|done]. destruct (_ =? n); [done|].
  apply bind_err in H as [H|(nodes & db0 & H1 & H)].
  { apply frames_eq_run in H as ->; [done|frame_by fail]. }
  apply frames_eq_run in H1 as ->; [|frame_by fail].
  apply bind_err in H as [H|(st & db1 & H1 & H)]; [by eapply replace_error_aside|]. exfalso.
  apply bind_err in H as [H|(now & db2 & H2 & H)]; [done|]. cbv zeta in H.
  set (f := ServiceRepository.scaled n nodes now) in H. clearbody f.
  apply bind_err in H as [H|(u & db3 & H3 & H)]; [by apply check_service_err in H|].
  apply bind_err in H as [H|(r' & db4 & H4 & H)]; [exact (update_service_total _ _ _ _ _ H)|].
  apply bind_err in H as [H|(u' & db5 & H5 & H)]; [exact (add_service_event_total _ _ _ _ _ _ _ _ H)|done].
Qed.

(** A pass of the autoscaler over one service. *)
Lemma scale_books c d s t now db v db' :
  ServiceAutoscaler.scale c d s t now db = (inr v, db') -> books db -> books db'.
Proof.
  intros H Hb. unfold ServiceAutoscaler.scale in H. case_match; [by minv H|].
  apply bind_ok in H as (adm & db1 & H1 & H).
  assert (specs_kept db db1) as K1 by (eapply (frames_run specs_kept), H1; frame_specs).
  apply (specs_books _ _ K1) in Hb. clear H1 K1 db. rename db1 into db.
  destruct adm as [ns|]; [|by minv H]. unfold try_except in H.
  match type of H with context [let (_, _) := ?m db in _] => destruct (m db) as [[e|v'] db1] eqn:E end.
  - destruct e; try done. minv H. eapply specs_books, Hb. apply aside_specs.
    apply bind_err in E as [E|(r & db2 & E1 & E)]; [by eapply set_desired_quota_error|].
    exfalso. destruct r; [|done]. apply bind_err in E as [E|(u & db3 & E2 & E)]; [|done].
    exact (update_service_total _ _ _ _ _ E).
  - injection H as <- <-. apply bind_ok in E as (r & db2 & E1 & E). apply set_desired_books in E1; [|done].
    destruct r as [x|]; [|by minv E]. apply bind_ok in E as (u & db3 & E2 & E). minv E.
    eapply specs_books, E1. eapply (frames_run specs_kept), E2. frame_specs.
Qed.

Lemma examine_books c m h lm ls d k db v db' :
  ServiceAutoscaler.examine c m h lm ls d k db = (inr v, db') ->
  books db -> books db'.
Proof.
  intros H Hb. unfold ServiceAutoscaler.examine in H. destruct k as [[[i lid] rt] ck].
  apply bind_ok in H as (b & db0 & Hg & H). apply gets_ok in Hg as [-> ->].
  case_match; [by minv H|]. apply bind_ok in H as (o & db0 & Hg & H). apply gets_ok in Hg as [-> ->].
  case_match; [|by minv H]. case_match; [by minv H|]. case_match; [by minv H|].
  apply bind_ok in H as (qs & db1 & Hl & H). apply bind_ok in H as (now & db2 & Hn & H). minv Hn.
  apply bind_ok in H as (s1 & db2 & Hu & H). cbv zeta in H.
  assert (books db2) as Hb2.
  { eapply specs_books; [|eapply specs_books, Hb].
    - eapply (frames_run specs_kept), Hu. frame_specs.
    - eapply (frames_run specs_kept), Hl. frame_specs. }
  destruct (m (ModelService.id s1)) as [l|]; [|by minv H].
  do 3 (match type of H with (if ?b then _ else _) _ = _ => destruct b; [by minv H|] end).
  by eapply scale_books.
Qed.

Lemma commit_books op db : books db -> books (commit op db).
Proof.
  intros Hb. unfold commit. destruct (atomically (exec op) db) as [[e|u] db'] eqn:E; cbn.
  - by apply atomically_err in E as ->.
  - rewrite atomically_ok in E. destruct (writes_specs op) eqn:Hw.
    + destruct op; try discriminate Hw; cbn [exec] in E; apply ignore_ok in E as (r & E);
        [by eapply create_books|by eapply set_desired_books|by eapply examine_books].
    + eapply specs_books, Hb. eapply (frames_run specs_kept), E. by apply exec_specs.
Qed.

Lemma reachable_books db : reachable db -> books db.
Proof.
  intros [now H]. assert (books (Db.empty now)) as Hb.
  { split; [intros i s Hi; unfold Db.empty in Hi; cbn in Hi; by rewrite lookup_empty in Hi|]. by intros p. }
  revert Hb. induction H as [|a b c Hs _ IH]; [done|]. intros Ha. apply IH. clear IH c.
  destruct Hs as [op db0 Hc|db0 t _|db0 p x]; [by apply commit_books|..]; destruct Ha; by split.
Qed.

(** The sum of [f] over the services of a project. *)
Definition over_services (db : Db.t) (p : N) (f : Svc -> Z) : Z :=
  msum (fun _ s => if ModelService.project_id s == p then f s else 0) (Db.services db).

(** The accelerators of [vendor] that a service commits. *)
Definition vendor_gpus (vendor : AcceleratorVendor) (s : Svc) : Z :=
  gpus_of (_normalize_accelerator_vendor (ModelService.selected_vendor s) (ModelService.gpu_count s)) vendor
    (ModelService.gpu_count s * ModelService.desired_replicas s).

(** C7: the service counters are views of the service rows.  In every reachable
    database the service side of a project's usage row is exactly what its
    services ask for: the number of services that want replicas, the sum of
    the desired replicas, and the sums of their CPU, memory and accelerators,
    in all and per vendor.  Creation, scaling by hand and autoscaling charge
    the project exactly once, and reconciliation, failures and recoveries of
    replicas never change what a service is charged for. *)
Theorem service_counters_are_views db p s
    (Hr : reachable db) (Hs : Db.quota_states db !! p = Some s) :
  ProjectQuotaState.service_count s
    = over_services db p (fun x => int_of_bool (0 <? ModelService.desired_replicas x)) /\
  ProjectQuotaState.service_replicas s = over_services db p ModelService.desired_replicas /\
  ProjectQuotaState.service_reserved_cpu_millicores s
    = over_services db p (fun x => ModelService.cpu_millicores x * ModelService.desired_replicas x) /\
  ProjectQuotaState.service_reserved_memory_mb s
    = over_services db p (fun x => ModelService.memory_mb x * ModelService.desired_replicas x) /\
  ProjectQuotaState.service_reserved_gpus s
    = over_services db p (fun x => ModelService.gpu_count x * ModelService.desired_replicas x) /\
  ProjectQuotaState.service_reserved_nvidia_gpus s = over_services db p (vendor_gpus NVIDIA) /\
  ProjectQuotaState.service_reserved_ascend_npus s = over_services db p (vendor_gpus HUAWEI_ASCEND).
Proof.
  destruct (reachable_books db Hr) as [_ B]. specialize (B p). unfold counters_at in B. rewrite Hs in B.
  unfold service_counters, committed in B. cbn [fmap list_fmap seq] in B.
  injection B as -> -> -> -> -> -> -> _. split_and!; reflexivity.
Qed.
