(* ===== verification/ServiceScenario.v ===== *)
(** * A sample run of services

    A project with a logical model of two variants, a service for each, and a
    plain service; replicas are created, bound, started, probed and used.  The
    databases witness the hypotheses of the properties of the service side. *)

From S2P Require Import Prelude PyFloat PyString PyUrl Enums Policies Store Names Quotas Tasks.
From S2P Require Import Workers System Scenario Services ModelRegistry Gateway ServiceControl ServiceInvariant.
From Stdlib Require Import QArith.

#[local] Open Scope stdpp_scope.
#[local] Open Scope Z_scope.

Module ServiceScenario.
Definition digest : string :=
  "sha256:0123456789abcdef0123456789abcdef0123456789abcdef0123456789abcdef".

Definition variant (name : string) (vendor : AcceleratorVendor) : VariantSpec.t :=
  VariantSpec.mk name vendor (kind_for_vendor vendor) "vllm-cuda" "1.0.0" digest "repo/model" "main" digest
    "decoder" "bfloat16" None ModelAvailabilityStatus.READY None [] None.

(** A service without accelerators, with [n] replicas. *)
Definition plain (name : string) (n : Z) : ServiceSpec.t :=
  ServiceSpec.mk 7 name "tiny" FAKE_SERVING FAKE None 500 256 0 0 n None None None None "auto"
    (float_of_Q (9 # 10)) None true 1 4 8 60 None None None None None None None None None None None None.

(** A service of variant [v] of the logical model 31. *)
Definition logical (name : string) (v : N) (vendor : AcceleratorVendor) (n : Z) : ServiceSpec.t :=
  ServiceSpec.mk 7 name "tiny" VLLM KUBERNETES None 1000 1024 1 0 n None None None None "auto"
    (float_of_Q (9 # 10)) None false 1 4 8 60 (Some 31%N) (Some v) (Some vendor)
    (Some (kind_for_vendor vendor)) (Some "A100") (Some "vllm-cuda") (Some "1.0.0") (Some digest)
    (Some KUBERNETES_DEVICE_PLUGIN) (Some "nvidia.com/gpu") (Some ANY) (Some ["node-b"; "node-a"; "node-b"]).

(** The quota that admits both vendors. *)
Definition limits : Quota :=
  ProjectQuota.mk None None None None None None None None None None None 1 0.

Definition config : ServiceReconciler.Config.t :=
  ServiceReconciler.Config.mk 10 (float_of_Z 30) None.

(** Replica ids: service 41 has replicas 410, 411, and so on. *)
Definition replica_id (service_id : N) (ordinal : Z) : N := (service_id * 10 + Z.to_N ordinal)%N.

(** Model 31 with variants 32 and 33, services 41 (plain, two replicas), 42
    (NVIDIA) and 43 (Ascend). *)
Definition created : Db.t :=
  Scenario.run [OpRegister Scenario.registration; OpInitialize 7; OpLimits 7 limits;
    OpModel 31 7 "tiny" "tiny-public" None [] None GatewayRoutingPolicy.PREFER_NVIDIA;
    OpVariant 32 7 31 (variant "cuda" NVIDIA); OpVariant 33 7 31 (variant "cann" HUAWEI_ASCEND);
    OpModelStatus 7 31 ModelAvailabilityStatus.READY "released" None;
    OpService 41 (plain "plain" 2); OpService 42 (logical "tiny-nvidia" 32 NVIDIA 1);
    OpService 43 (logical "tiny-ascend" 33 HUAWEI_ASCEND 1)] Scenario.start.

Definition reconciled : Db.t := Scenario.run [OpReconcile config replica_id ∅ ∅] created.

(** The execution [e] of replica [r] is bound, starts and is healthy. *)
Definition serve (r e : N) (url : string) : list Op :=
  [OpBind r 1 "w1" (Some 11%N) e 90000000; OpReplicaLoading r 1 e url (Some "w1") (Some 11%N);
   OpReplicaRunning r 1 e url None None (Some "w1") (Some 11%N);
   OpHealth r 1 e ReplicaHealth.HEALTHY None 3 None (Some "w1") (Some 11%N)].

Definition serving : Db.t :=
  Scenario.run (serve 410 610 "http://10.0.0.1:8000" ++ serve 411 611 "http://10.0.0.2:8000"
    ++ serve 420 620 "http://10.0.0.3:8000" ++ serve 430 630 "http://10.0.0.4:8000") reconciled.

Lemma created_reachable : reachable created.
Proof. apply Scenario.run_reachable; [done|]. apply Scenario.start_reachable. Qed.
Lemma reconciled_reachable : reachable reconciled.
Proof. apply Scenario.run_reachable; [done|]. apply created_reachable. Qed.
Lemma serving_reachable : reachable serving.
Proof. apply Scenario.run_reachable; [done|]. apply reconciled_reachable. Qed.

Lemma service_counters_are_views_witness :
  exists s, Db.quota_states serving !! 7%N = Some s /\ ProjectQuotaState.service_count s = 3 /\
    ProjectQuotaState.service_replicas s = 4 /\ ProjectQuotaState.service_reserved_cpu_millicores s = 3000 /\
    ProjectQuotaState.service_reserved_nvidia_gpus s = 1.
Proof.
  destruct (Db.quota_states serving !! 7%N) as [s|] eqn:E; [|present E]. exists s.
  destruct (service_counters_are_views serving 7 s serving_reachable E) as (H1 & H2 & H3 & _ & _ & H6 & _).
  split; [reflexivity|]. rewrite H1, H2, H3, H6. vm_compute. auto.
Defined.
End ServiceScenario.
