(* ===== verification/Replicas.v ===== *)
(** * The rows of replicas

    What every operation keeps of [service_replicas]: rows are stored under
    their key, satisfy their check constraints and belong to a service; an
    execution owns at most one row; no row is ever deleted, its identity and
    its admission snapshot are written once, and an assigned node is never
    replaced. *)

From S2P Require Import Prelude PyString PyFloat PyUrl Enums Policies Store Frames Names Quotas Tasks.
From S2P Require Import Services ModelRegistry Gateway ServiceControl ServiceFrames System ServiceInvariant Scenario ServiceScenario.
From S2P Require Import Admission.

#[local] Open Scope stdpp_scope.
#[local] Open Scope Z_scope.

(** The columns an [insert] writes once: the others are reset. *)
Definition identity (r : Rep) : Rep :=
  r <| ServiceReplica.status := ReplicaStatus.PENDING |> <| ServiceReplica.health := ReplicaHealth.UNKNOWN |>
    <| ServiceReplica.worker_id := None |> <| ServiceReplica.execution_id := None |>
    <| ServiceReplica.endpoint_url := None |> <| ServiceReplica.lease_expires_at := None |>
    <| ServiceReplica.last_health_at := None |> <| ServiceReplica.health_probe_token := None |>
    <| ServiceReplica.health_probe_expires_at := None |> <| ServiceReplica.health_failure_count := 0 |>
    <| ServiceReplica.active_requests := 0 |> <| ServiceReplica.assigned_node_name := None |>
    <| ServiceReplica.model_revision := None |> <| ServiceReplica.image_digest := None |>
    <| ServiceReplica.error_code := None |> <| ServiceReplica.error_message := None |>
    <| ServiceReplica.updated_at := 0 |> <| ServiceReplica.started_at := None |>
    <| ServiceReplica.container_started_at := None |> <| ServiceReplica.ready_at := None |>
    <| ServiceReplica.drain_started_at := None |> <| ServiceReplica.drain_deadline := None |>
    <| ServiceReplica.stopped_at := None |> <| ServiceReplica.version := 0 |>.

Lemma identity_columns r r' :
  identity r' = identity r ->
  ServiceReplica.id r' = ServiceReplica.id r /\ ServiceReplica.service_id r' = ServiceReplica.service_id r /\
  ServiceReplica.generation r' = ServiceReplica.generation r /\
  ServiceReplica.ordinal r' = ServiceReplica.ordinal r.
Proof.
  intros E. pose proof (f_equal ServiceReplica.id E). pose proof (f_equal ServiceReplica.service_id E).
  pose proof (f_equal ServiceReplica.generation E). by pose proof (f_equal ServiceReplica.ordinal E).
Qed.

(** Rewrites with the equality of one column that [identity] keeps. *)
Ltac same E col :=
  lazymatch type of E with identity ?r' = identity ?r =>
    rewrite (f_equal col E : col r' = col r) end.

Lemma replica_checks_identity r r' :
  identity r' = identity r -> 0 <= ServiceReplica.health_failure_count r' ->
  0 <= ServiceReplica.active_requests r' -> replica_checks r = true -> replica_checks r' = true.
Proof.
  intros E Hf Ha Hc. destruct (identity_columns _ _ E) as (_ & _ & Eg & Eo).
  unfold replica_checks in *. rewrite !andb_true_iff in *. destruct Hc as ((((H1 & H2) & _) & _) & H3).
  rewrite Eg, Eo. split_and!; try done; [lia..|]. rewrite <-H3.
  same E ServiceReplica.logical_model_id. same E ServiceReplica.model_variant_id.
  same E ServiceReplica.selected_vendor. same E ServiceReplica.selected_kind.
  same E ServiceReplica.selected_model. same E ServiceReplica.runtime_profile_id.
  same E ServiceReplica.runtime_profile_version. same E ServiceReplica.runtime_profile_digest.
  same E ServiceReplica.allocation_authority. same E ServiceReplica.accelerator_resource_name.
  same E ServiceReplica.selection_policy. by same E ServiceReplica.eligible_node_names.
Qed.

Record replicas_ok (db : Db.t) : Prop := {
  rk_id : forall i r, Db.replicas db !! i = Some r -> ServiceReplica.id r = i;
  rk_checks : forall i r, Db.replicas db !! i = Some r -> replica_checks r = true;
  rk_service : forall i r, Db.replicas db !! i = Some r ->
    is_Some (Db.services db !! ServiceReplica.service_id r);
  rk_owner : forall i j r x e, Db.replicas db !! i = Some r -> Db.replicas db !! j = Some x ->
    ServiceReplica.execution_id r = Some e -> ServiceReplica.execution_id x = Some e -> i = j;
}.

(** What becomes of a row. *)
Definition continues (r r' : Rep) : Prop :=
  identity r' = identity r /\
  (forall n, ServiceReplica.assigned_node_name r = Some n -> ServiceReplica.assigned_node_name r' = Some n).

Definition replicas_kept (db db' : Db.t) : Prop :=
  replicas_ok db ->
  replicas_ok db' /\
  forall i r, Db.replicas db !! i = Some r -> exists r', Db.replicas db' !! i = Some r' /\ continues r r'.

#[export] Instance replicas_kept_preorder : PreOrder replicas_kept.
Proof.
  split.
  - intros db H. split; [done|]. intros i r Hr. exists r. by split_and!.
  - intros a b c Hab Hbc Ha. destruct (Hab Ha) as [Hb Kab]. destruct (Hbc Hb) as [Hc Kbc].
    split; [done|]. intros i r Hr. destruct (Kab i r Hr) as (r1 & H1 & E1 & N1).
    destruct (Kbc i r1 H1) as (r2 & H2 & E2 & N2). exists r2. split; [done|]. split; [congruence|auto].
Qed.

(** ** Writes *)

(** Tables other than replicas; services only grow or change in place. *)
Lemma other_tables db db' :
  Db.replicas db' = Db.replicas db ->
  (forall i, is_Some (Db.services db !! i) -> is_Some (Db.services db' !! i)) -> replicas_kept db db'.
Proof.
  intros Er Es [H1 H2 H3 H4]. split; [|intros i r Hr; exists r; rewrite Er; by split_and!].
  split; rewrite Er; eauto.
Qed.

(** One row is replaced by its successor. *)
Lemma alter_kept db k f r0 :
  Db.replicas db !! k = Some r0 -> continues r0 (f r0) -> 0 <= ServiceReplica.health_failure_count (f r0) ->
  0 <= ServiceReplica.active_requests (f r0) ->
  (forall e, ServiceReplica.execution_id (f r0) = Some e -> ServiceReplica.execution_id r0 = Some e \/
     forall i r, Db.replicas db !! i = Some r -> ServiceReplica.execution_id r = Some e -> i = k) ->
  replicas_kept db (db <| Db.replicas ::= alter f k |>).
Proof.
  intros Hk [Ei En] Hf Ha He [H1 H2 H3 H4].
  destruct (identity_columns _ _ Ei) as (Eid & Esid & _).
  assert (forall i r, alter f k (Db.replicas db) !! i = Some r ->
            (i = k /\ r = f r0) \/ (i <> k /\ Db.replicas db !! i = Some r)) as Hl.
  { intros i r. destruct (decide (i = k)) as [->|Hne].
    - rewrite lookup_alter_eq, Hk. intros [= <-]. by left.
    - rewrite lookup_alter_ne by done. by right. }
  split; [split; fields|].
  - intros i r [[-> ->]|[_ Hr]]%Hl; [rewrite Eid|]; eauto.
  - intros i r [[-> ->]|[_ Hr]]%Hl; [eapply replica_checks_identity|]; eauto.
  - intros i r [[-> ->]|[_ Hr]]%Hl; [rewrite Esid|]; eauto.
  - intros i j r x e [[-> ->]|[Hi Hr]]%Hl [[-> ->]|[Hj Hx]]%Hl Er Ex; [done| | |eauto].
    + destruct (He e Er) as [E|E]; [eauto|]. symmetry. eauto.
    + destruct (He e Ex) as [E|E]; eauto.
  - fields. intros i r Hr. destruct (decide (i = k)) as [->|Hne].
    + rewrite lookup_alter_eq, Hr. replace r with r0 by congruence. exists (f r0). by split_and!.
    + exists r. rewrite lookup_alter_ne by done. by split_and!.
Qed.

(** Writes that need no knowledge of the row. *)
Definition gentle (f : Rep -> Rep) : Prop := forall r,
  identity (f r) = identity r /\ ServiceReplica.assigned_node_name (f r) = ServiceReplica.assigned_node_name r /\
  ServiceReplica.execution_id (f r) = ServiceReplica.execution_id r /\
  (0 <= ServiceReplica.health_failure_count r -> 0 <= ServiceReplica.health_failure_count (f r)) /\
  (0 <= ServiceReplica.active_requests r -> 0 <= ServiceReplica.active_requests (f r)).

Lemma checks_counts r : replica_checks r = true ->
  0 <= ServiceReplica.health_failure_count r /\ 0 <= ServiceReplica.active_requests r.
Proof. unfold replica_checks. rewrite !andb_true_iff. lia. Qed.

Lemma gentle_kept db k f : gentle f -> replicas_kept db (db <| Db.replicas ::= alter f k |>).
Proof.
  intros Hg Hok. destruct (Db.replicas db !! k) as [r|] eqn:Hk.
  - destruct (Hg r) as (Ei & En & Ee & Hf & Ha). destruct (checks_counts r) as [Hf0 Ha0]; [by eapply rk_checks|].
    apply (alter_kept db k f r); try done; [|by auto|by auto|].
    + split; [done|]. by rewrite En.
    + rewrite Ee. by left.
  - apply other_tables; fields; [|done|done]. apply map_eq. intros i.
    destruct (decide (i = k)) as [->|Hne]; [by rewrite lookup_alter_eq, Hk|by rewrite lookup_alter_ne].
Qed.

Ltac gentle := intros ?r; unfold ServiceRepository.retired, ServiceRepository.observe_health;
  repeat case_match; split_and!; first [reflexivity | fields; lia].
Ltac frame_replicas := frame_by ltac:(first
  [ apply other_tables; fields; [done|]; intros ?i; first [done | by rewrite lookup_alter_is_Some]
  | apply gentle_kept; gentle ]).

(** ** The methods whose write depends on the row they read *)
Lemma insert_replica_kept r : ServiceReplica.execution_id r = None -> frames replicas_kept (insert_replica r).
Proof.
  intros He db. unfold insert_replica, mbind, M_bind, gets, raise_if, put_replica, modify.
  case_bool_decide as Hnew; cbn; [done|]. apply eq_None_not_Some in Hnew.
  destruct (existsb _ _); cbn; [done|].
  destruct (Db.services db !! ServiceReplica.service_id r) as [s|] eqn:Es; cbn; [|done].
  destruct (_ || _); cbn; [done|]. destruct (replica_checks r) eqn:Hc; cbn; [|done].
  intros [H1 H2 H3 H4]. split; [split; fields|].
  - intros i x [[<- <-]|[_ Hx]]%lookup_insert_Some; [done|eauto].
  - intros i x [[<- <-]|[_ Hx]]%lookup_insert_Some; [done|eauto].
  - intros i x [[<- <-]|[_ Hx]]%lookup_insert_Some; [by rewrite Es|eauto].
  - intros i j x y e [[<- <-]|[_ Hx]]%lookup_insert_Some [[<- <-]|[_ Hy]]%lookup_insert_Some Ex Ey;
      [congruence..|eauto].
  - fields. intros i x Hx. exists x. split; [|by split]. rewrite lookup_insert_ne; congruence.
Qed.

Lemma create_replica_kept f s t l o : frames replicas_kept (ServiceRepository.create_replica f s t l o).
Proof.
  unfold ServiceRepository.create_replica. cbv zeta. apply frames_bind; [exact _| |frame_replicas].
  by apply insert_replica_kept.
Qed.
#[export] Hint Resolve create_replica_kept : frames.

(** The row that the lock returns. *)
Lemma lock_replica i db s r db' :
  _lock_service_and_replica i db = (inr (s, Some r), db') ->
  db' = db /\ Db.replicas db !! i = Some r /\ s = Db.services db !! ServiceReplica.service_id r.
Proof.
  unfold _lock_service_and_replica, gets. destruct (Db.replicas db !! i) as [x|]; [|done].
  intros [= <- -> <-]. done.
Qed.

(** After statements that read only, what holds of the rest for the value read
    holds of the whole. *)
Lemma frames_read {A B} R `{!PreOrder R} (m : Sess A) (k : A -> Sess B) db :
  frames eq m -> (forall a, m db = (inr a, db) -> R db (k a db).2) -> R db ((m ≫= k) db).2.
Proof.
  intros Hm Hk. unfold mbind, M_bind. pose proof (Hm db) as E. destruct (m db) as [[e|a] db1] eqn:Em; cbn in E; subst; [done|].
  by apply Hk.
Qed.
Ltac read x H := apply frames_read; [exact _|frame_by fail|]; intros x H.

Lemma release_endpoint_kept i g e : frames replicas_kept (ServiceRepository.release_endpoint_request i g e).
Proof.
  intros db. unfold ServiceRepository.release_endpoint_request. read x Hl. destruct x as [s [r|]]; [|done].
  apply lock_replica in Hl as (_ & Hr & _). destruct (_ || _) eqn:Hb; [done|]. read now Hn.
  rewrite !orb_false_iff in Hb. intros Hok. pose proof (rk_id db Hok _ _ Hr) as Hi.
  revert Hok. unfold update_replica, mbind, M_bind, modify. rewrite Hi. cbn [snd].
  intros Hok. destruct (checks_counts r) as [Hf Ha]; [by eapply rk_checks|].
  apply (alter_kept db i _ r Hr); fields; [split; [reflexivity|done]|done|lia|by left|done].
Qed.
#[export] Hint Resolve release_endpoint_kept : frames.

Lemma session_reads w ses : frames eq (_worker_session_matches w ses).
Proof. frame_by fail. Qed.

Lemma owned_nonterminal_ok i g e w ses db r s db' :
  ServiceRepository.owned_nonterminal i g e w ses db = (inr (Some (r, s)), db') ->
  db' = db /\ Db.replicas db !! i = Some r /\ Db.services db !! ServiceReplica.service_id r = Some s.
Proof.
  unfold ServiceRepository.owned_nonterminal. intros (m & db1 & Hm & H)%bind_ok.
  apply frames_eq_run in Hm as ->; [|apply session_reads].
  destruct (negb m); [by apply ret_ok in H as [? _]|]. apply bind_ok in H as ([so ro] & db2 & Hl & H).
  destruct so as [s1|]; [|by apply ret_ok in H as [? _]].
  destruct ro as [r1|]; [|by apply ret_ok in H as [? _]]. apply lock_replica in Hl as (-> & Hr & Hs).
  destruct (_ || _); apply ret_ok in H as [H ->]; [done|]. injection H as -> ->. done.
Qed.

Lemma record_assignment_kept i g e n w ses :
  frames replicas_kept (ServiceRepository.record_replica_assignment i g e n w ses).
Proof.
  intros db. unfold ServiceRepository.record_replica_assignment. read n' Hn. read o Ho.
  destruct o as [[r s]|]; [|done]. apply owned_nonterminal_ok in Ho as (_ & Hr & _).
  read u Hu. destruct (ServiceReplica.assigned_node_name r) as [a|] eqn:En; [read v Hv; done|]. read now Hnow.
  intros Hok. pose proof (rk_id db Hok _ _ Hr) as Hi. revert Hok.
  unfold update_replica, mbind, M_bind, modify. rewrite Hi. cbn [snd].
  intros Hok. destruct (checks_counts r) as [Hf Ha]; [by eapply rk_checks|].
  apply (alter_kept db i _ r Hr); fields; [split; [reflexivity|congruence]|done|done|by left|done].
Qed.
#[export] Hint Resolve record_assignment_kept : frames.

Lemma bind_kept i g w ses e l : frames replicas_kept (ServiceRepository.bind_replica_execution i g w ses e l).
Proof.
  intros db. unfold ServiceRepository.bind_replica_execution. read m Hm. destruct (negb m); [done|]. read x Hl.
  destruct x as [so [r|]]; [|done]. apply lock_replica in Hl as (_ & Hr & _). destruct so as [s|]; [|done].
  destruct (_ || _) eqn:Hb; [done|]. read now Hn. destruct (l <=? now); [done|]. read wk Hw. read u Hu.
  read others Ho. apply gets_ok in Ho as [-> _]. read v Hv. apply raise_if_ok in Hv as (Hx & _ & _).
  intros Hok. pose proof (rk_id db Hok _ _ Hr) as Hi. revert Hok.
  unfold update_replica, mbind, M_bind, modify. rewrite Hi. cbn [snd].
  intros Hok. destruct (checks_counts r) as [Hf Ha]; [by eapply rk_checks|].
  apply (alter_kept db i _ r Hr); fields; [split; [reflexivity|done]|done|done| |done].
  intros e' [= <-]. right. intros j x Hj Hje. destruct (decide (j = i)) as [|Hne]; [done|]. exfalso.
  rewrite <-not_true_iff_false in Hx. apply Hx. apply existsb_exists. exists x.
  split; [apply list_elem_of_In, rows_elem; by exists j|]. rewrite (rk_id db Hok _ _ Hj), Hje.
  rewrite andb_true_iff, negb_true_iff. split; [by apply eqb_false|by apply eqb_true].
Qed.
#[export] Hint Resolve bind_kept : frames.

(** ** Every operation *)
Lemma aside_kept db db' : aside db db' -> replicas_kept db db'.
Proof. intros [E1 E2 _ _ _]. apply other_tables; [done|]. intros i. by rewrite E1. Qed.

Lemma get_locked_kept p : frames replicas_kept (get_locked p).
Proof. eapply frames_weaken, get_locked_aside. apply aside_kept. Qed.
#[export] Hint Resolve get_locked_kept : frames.
Lemma initialize_kept p : frames replicas_kept (initialize p).
Proof. eapply frames_weaken, initialize_aside. apply aside_kept. Qed.
#[export] Hint Resolve initialize_kept : frames.
#[export] Hint Extern 5 (frames replicas_kept (admit_batch_task _ _ _ _)) =>
  eapply frames_weaken, admit_batch_aside; apply aside_kept : frames.
#[export] Hint Extern 5 (frames replicas_kept (admit_logical_model_service _ _ _ _ _ _ _ _)) =>
  eapply frames_weaken, admit_service_aside; apply aside_kept : frames.
#[export] Hint Extern 5 (frames replicas_kept (revalidate_logical_model_service_scale _ _ _)) =>
  eapply frames_weaken, revalidate_aside; apply aside_kept : frames.
Lemma replace_commitment_kept p cur des cpu mem gpu v :
  frames replicas_kept (replace_service_commitment p cur des cpu mem gpu v).
Proof. frame_replicas. Qed.
#[export] Hint Resolve replace_commitment_kept : frames.
Lemma try_candidates_kept p ex now b off sk l : frames replicas_kept (try_candidates p ex now b off sk l).
Proof. apply try_candidates_frames; [exact _|frame_replicas..]. Qed.
#[export] Hint Resolve try_candidates_kept : frames.
Lemma insert_service_kept s : frames replicas_kept (insert_service s).
Proof.
  unfold insert_service. frame_by ltac:(apply other_tables; fields; [done|]; intros i Hi;
    destruct (decide (i = ModelService.id s)) as [->|]; [by rewrite lookup_insert_eq|by rewrite lookup_insert_ne]).
Qed.
#[export] Hint Resolve insert_service_kept : frames.

Lemma exec_replicas op : frames replicas_kept (exec op).
Proof.
  destruct (service_side op) eqn:Hs.
  - destruct op; try discriminate Hs; clear Hs; cbn [exec]; unfold ignore; frame_replicas.
  - eapply frames_weaken; [apply aside_kept|by apply task_side_aside].
Qed.

Lemma sys_step_replicas db db' : sys_step db db' -> replicas_kept db db'.
Proof.
  intros [op db0 _|db0 t _|db0 p x]; [|by apply other_tables..].
  exact (frames_atomically replicas_kept (exec op) (exec_replicas op) db0).
Qed.

Lemma rtc_replicas db db' : rtc sys_step db db' -> replicas_kept db db'.
Proof. induction 1 as [|a b c Hs _ IH]; [done|]. etrans; [by apply sys_step_replicas|done]. Qed.

Lemma reachable_replicas db : reachable db -> replicas_ok db.
Proof.
  intros [now H]. apply (rtc_replicas _ _ H).
  split; intros *; cbn; rewrite lookup_empty; discriminate.
Qed.

(** C11: replica rows are permanent and owned once.  Whatever happens after a
    replica was created, its row stays: service, generation, ordinal and the
    whole admission snapshot (variant, vendor, profile, eligible nodes) are
    those of its creation, a node once assigned is never exchanged, the
    request and failure counters are not negative, and no other replica has
    the execution that owns it. *)
Theorem replica_identity_immutable db db' i r
    (Hr : reachable db) (Hs : rtc sys_step db db') (Hi : Db.replicas db !! i = Some r) :
  exists r', Db.replicas db' !! i = Some r' /\ identity r' = identity r /\
    (forall n, ServiceReplica.assigned_node_name r = Some n -> ServiceReplica.assigned_node_name r' = Some n) /\
    0 <= ServiceReplica.active_requests r' /\ 0 <= ServiceReplica.health_failure_count r' /\
    (forall j x e, Db.replicas db' !! j = Some x -> ServiceReplica.execution_id r' = Some e ->
       ServiceReplica.execution_id x = Some e -> j = i).
Proof.
  destruct (rtc_replicas _ _ Hs (reachable_replicas _ Hr)) as [Hok Hk].
  destruct (Hk i r Hi) as (r' & Hr' & Ei & En). exists r'.
  destruct (checks_counts r') as [Hf Ha]; [by eapply rk_checks|].
  split_and!; try done. intros j x e Hx He Hxe. by eapply (rk_owner db' Hok).
Qed.

Lemma replica_identity_immutable_witness :
  exists r', Db.replicas ServiceScenario.serving !! 410%N = Some r' /\ ServiceReplica.service_id r' = 41%N /\
    ServiceReplica.generation r' = 1 /\ 0 <= ServiceReplica.active_requests r'.
Proof.
  destruct (Db.replicas ServiceScenario.reconciled !! 410%N) as [r|] eqn:E; [|present E].
  destruct (replica_identity_immutable ServiceScenario.reconciled ServiceScenario.serving 410 r)
    as (r' & Hr' & Ei & _ & Ha & _).
  - apply ServiceScenario.reconciled_reachable.
  - by apply Scenario.run_steps.
  - exact E.
  - exists r'. destruct (identity_columns _ _ Ei) as (_ & -> & -> & _). split; [exact Hr'|].
    assert ((fun x => (ServiceReplica.service_id x, ServiceReplica.generation x))
              <$> Db.replicas ServiceScenario.reconciled !! 410%N = Some (41%N, 1)) as F by by vm_compute.
    rewrite E in F. injection F as F1 F2. exact (conj F1 (conj F2 Ha)).
Defined.
