(* ===== verification/RegistryInvariant.v ===== *)
(** * The invariant of the model registry

    What every operation keeps of logical models, variants and the names under
    which the gateway finds them: references resolve, a ready model has a
    ready variant, no two models of a project share a public name and no two
    services a name, a service that is named like a public model belongs to
    it, and routing cursors stay in the range of their column. *)

From S2P Require Import Prelude PyString PyFloat PyUrl Enums Policies Store Frames Names Quotas Tasks Invariant.
From S2P Require Import Services ModelRegistry Gateway ServiceControl ServiceFrames System ServiceInvariant Scenario ServiceScenario.
From S2P Require Import Admission.

#[local] Open Scope stdpp_scope.
#[local] Open Scope Z_scope.

Record registry_ok (db : Db.t) : Prop := {
  rg_model_id : forall i m, Db.logical_models db !! i = Some m -> LogicalModel.id m = i;
  rg_variant_id : forall i v, Db.model_variants db !! i = Some v -> ModelVariant.id v = i;
  rg_variant_model : forall i v, Db.model_variants db !! i = Some v ->
    is_Some (Db.logical_models db !! ModelVariant.logical_model_id v);
  rg_public : forall i j m m', Db.logical_models db !! i = Some m -> Db.logical_models db !! j = Some m' ->
    LogicalModel.project_id m = LogicalModel.project_id m' ->
    LogicalModel.public_name m = LogicalModel.public_name m' -> i = j;
  rg_service_name : forall i j s s', Db.services db !! i = Some s -> Db.services db !! j = Some s' ->
    ModelService.project_id s = ModelService.project_id s' -> ModelService.name s = ModelService.name s' -> i = j;
  rg_service_model : forall i s l, Db.services db !! i = Some s -> ModelService.logical_model_id s = Some l ->
    is_Some (Db.logical_models db !! l);
  rg_service_variant : forall i s v, Db.services db !! i = Some s -> ModelService.model_variant_id s = Some v ->
    is_Some (Db.model_variants db !! v);
  rg_owner : forall i j s m, Db.services db !! i = Some s -> Db.logical_models db !! j = Some m ->
    ModelService.project_id s = LogicalModel.project_id m -> ModelService.name s = LogicalModel.public_name m ->
    ModelService.logical_model_id s = Some j;
  rg_ready : forall i m, Db.logical_models db !! i = Some m ->
    LogicalModel.status m = ModelAvailabilityStatus.READY ->
    exists j v, Db.model_variants db !! j = Some v /\ ModelVariant.logical_model_id v = i /\
      ModelVariant.status v = ModelAvailabilityStatus.READY;
  rg_cursor : forall i m, Db.logical_models db !! i = Some m ->
    0 <= LogicalModel.routing_cursor m <= _MAX_ROUTING_CURSOR;
}.

(** ** Operations that write neither names nor statuses *)

(** The columns of a model other than its routing state. *)
Definition model_core (m : Model) : Model :=
  m <| LogicalModel.routing_policy := GatewayRoutingPolicy.BALANCED |> <| LogicalModel.routing_cursor := 0 |>
    <| LogicalModel.updated_at := 0 |> <| LogicalModel.version := 0 |>.

Definition cursor_ok (m : Model) : Prop := 0 <= LogicalModel.routing_cursor m <= _MAX_ROUTING_CURSOR.

Record registry_kept (db db' : Db.t) : Prop := {
  kp_models : forall i, model_core <$> Db.logical_models db' !! i = model_core <$> Db.logical_models db !! i;
  kp_cursors : (forall i m, Db.logical_models db !! i = Some m -> cursor_ok m) ->
    forall i m, Db.logical_models db' !! i = Some m -> cursor_ok m;
  kp_variants : Db.model_variants db' = Db.model_variants db;
  kp_services : forall i, identity_of <$> Db.services db' !! i = identity_of <$> Db.services db !! i;
}.

#[export] Instance registry_kept_preorder : PreOrder registry_kept.
Proof.
  split; [done|]. intros a b c [A1 A2 A3 A4] [B1 B2 B3 B4].
  split; [intros i; by rewrite B1|intros H; exact (B2 (A2 H))|congruence|intros i; by rewrite B4].
Qed.

(** The row that a row came from. *)
Lemma fmap_back {A B} (f : A -> B) (m m' : gmap N A) :
  (forall i, f <$> m' !! i = f <$> m !! i) ->
  forall i x', m' !! i = Some x' -> exists x, m !! i = Some x /\ f x' = f x.
Proof.
  intros E i x' H. specialize (E i). rewrite H in E. cbn in E. symmetry in E.
  apply fmap_Some in E as (x & Hx & Ex). eauto.
Qed.
Lemma fmap_is_Some_eq {A B} (f : A -> B) (m m' : gmap N A) :
  (forall i, f <$> m' !! i = f <$> m !! i) -> forall i, is_Some (m !! i) -> is_Some (m' !! i).
Proof. intros E i [x H]. specialize (E i). rewrite H in E. apply fmap_Some in E as (y & -> & _). done. Qed.

Lemma model_core_columns m m' :
  model_core m' = model_core m ->
  LogicalModel.id m' = LogicalModel.id m /\ LogicalModel.project_id m' = LogicalModel.project_id m /\
  LogicalModel.public_name m' = LogicalModel.public_name m /\ LogicalModel.status m' = LogicalModel.status m.
Proof.
  intros E. split_and!; [exact (f_equal LogicalModel.id E)|exact (f_equal LogicalModel.project_id E)
    |exact (f_equal LogicalModel.public_name E)|exact (f_equal LogicalModel.status E)].
Qed.

Lemma kept_registry db db' : registry_kept db db' -> registry_ok db -> registry_ok db'.
Proof.
  intros [K1 K2 K3 K4] [H1 H2 H3 H4 H5 H6 H7 H8 H9 H10].
  pose proof (fmap_back _ _ _ K1) as M. pose proof (fmap_back _ _ _ K4) as S.
  pose proof (fmap_is_Some_eq _ _ _ K1) as MS.
  split; rewrite ?K3; eauto 3.
  - intros i m' (m & Hm & E)%M. destruct (model_core_columns _ _ E) as (-> & _). auto.
  - intros i j m1 m2 (x & Hx & Ex)%M (y & Hy & Ey)%M.
    destruct (model_core_columns _ _ Ex) as (_ & -> & -> & _), (model_core_columns _ _ Ey) as (_ & -> & -> & _).
    by eapply H4.
  - intros i j s1 s2 (x & Hx & Ex)%S (y & Hy & Ey)%S.
    destruct (identity_fields _ _ Ex) as (_ & -> & -> & _), (identity_fields _ _ Ey) as (_ & -> & -> & _).
    by eapply H5.
  - intros i s l (x & Hx & Ex)%S. destruct (identity_fields _ _ Ex) as (_ & _ & _ & -> & _). eauto.
  - intros i s l (x & Hx & Ex)%S. destruct (identity_fields _ _ Ex) as (_ & _ & _ & _ & -> & _). eauto.
  - intros i j s m (x & Hx & Ex)%S (y & Hy & Ey)%M.
    destruct (identity_fields _ _ Ex) as (_ & -> & -> & -> & _), (model_core_columns _ _ Ey) as (_ & -> & -> & _).
    by eapply H8.
  - intros i m (x & Hx & Ex)%M. destruct (model_core_columns _ _ Ex) as (_ & _ & _ & ->). eauto.
  - exact (K2 H10).
Qed.

Lemma aside_registry db db' : aside db db' -> registry_kept db db'.
Proof. intros [E1 _ E3 E4 _]. split; [by rewrite E3|by rewrite E3|done|by rewrite E1]. Qed.

Lemma alter_fmap {A B} (g : A -> B) (m : gmap N A) f k i :
  (forall x, g (f x) = g x) -> g <$> alter f k m !! i = g <$> m !! i.
Proof.
  intros Hf. destruct (decide (k = i)) as [->|Hne]; [|by rewrite lookup_alter_ne].
  rewrite lookup_alter_eq. destruct (m !! i); cbn; [by rewrite Hf|done].
Qed.

Lemma alter_cursors (m : gmap N Model) f k :
  (forall x, cursor_ok x -> cursor_ok (f x)) -> (forall i x, m !! i = Some x -> cursor_ok x) ->
  forall i x, alter f k m !! i = Some x -> cursor_ok x.
Proof. intros Hf Hm i x [[-> (y & Hy & ->)]|[Hne Hx]]%lookup_alter_Some; eauto. Qed.

Ltac frame_registry := frame_by ltac:(split; fields;
  [intros ?i; first [reflexivity | apply alter_fmap; reflexivity]
  |first [done | apply alter_cursors; intros ?x; unfold cursor_ok; fields; unfold _MAX_ROUTING_CURSOR; lia]
  |reflexivity
  |intros ?i; first [reflexivity | apply alter_fmap; first [reflexivity | intros ?x; apply scaled_identity]]]).

Lemma get_locked_registry p : frames registry_kept (get_locked p).
Proof. eapply frames_weaken, get_locked_aside. apply aside_registry. Qed.
#[export] Hint Resolve get_locked_registry : frames.
Lemma initialize_registry p : frames registry_kept (initialize p).
Proof. eapply frames_weaken, initialize_aside. apply aside_registry. Qed.
#[export] Hint Resolve initialize_registry : frames.
#[export] Hint Extern 5 (frames registry_kept (admit_batch_task _ _ _ _)) =>
  eapply frames_weaken, admit_batch_aside; apply aside_registry : frames.
#[export] Hint Extern 5 (frames registry_kept (admit_logical_model_service _ _ _ _ _ _ _ _)) =>
  eapply frames_weaken, admit_service_aside; apply aside_registry : frames.
#[export] Hint Extern 5 (frames registry_kept (revalidate_logical_model_service_scale _ _ _)) =>
  eapply frames_weaken, revalidate_aside; apply aside_registry : frames.
Lemma replace_commitment_registry p cur des cpu mem gpu v :
  frames registry_kept (replace_service_commitment p cur des cpu mem gpu v).
Proof. frame_registry. Qed.
#[export] Hint Resolve replace_commitment_registry : frames.

(** The wrap-around of the cursor is addition modulo [2 ^ 63]. *)
Lemma next_routing_cursor_mod c n :
  0 <= c <= _MAX_ROUTING_CURSOR -> 1 <= n <= _MAX_ROUTING_CURSOR ->
  next_routing_cursor c n = (c + n) mod 2 ^ 63.
Proof.
  intros Hc Hn. unfold next_routing_cursor, _MAX_ROUTING_CURSOR in *.
  destruct (Z.ltb_spec (2 ^ 63 - 1 - n) c).
  - apply (Z.mod_unique _ _ 1); lia.
  - rewrite Z.mod_small; lia.
Qed.

Lemma advance_cursor_registry i n : frames registry_kept (_advance_routing_cursor i n).
Proof.
  unfold _advance_routing_cursor. apply guard_then; [exact _|]. intros Hn%negb_false_iff.
  rewrite andb_true_iff, !Z.leb_le in Hn. frame_by ltac:(split; fields;
    [intros ?i; apply alter_fmap; reflexivity| |reflexivity|reflexivity]).
  apply alter_cursors. intros x Hx. unfold cursor_ok in *. fields.
  rewrite next_routing_cursor_mod by done. unfold _MAX_ROUTING_CURSOR.
  pose proof (Z.mod_pos_bound (LogicalModel.routing_cursor x + n) (2 ^ 63)). lia.
Qed.
#[export] Hint Resolve advance_cursor_registry : frames.

Lemma try_candidates_registry p ex now b off sk l : frames registry_kept (try_candidates p ex now b off sk l).
Proof. apply try_candidates_frames; [exact _|frame_registry..]. Qed.
#[export] Hint Resolve try_candidates_registry : frames.

(** The operations that write names, statuses or references. *)
Definition writes_registry (op : Op) : bool :=
  match op with
  | OpService _ _ | OpModel _ _ _ _ _ _ _ _ | OpModelStatus _ _ _ _ _ | OpModelDelete _ _ _
  | OpVariant _ _ _ _ | OpVariantStatus _ _ _ _ _ | OpVariantDelete _ _ _ _ => true
  | _ => false
  end.

Lemma exec_registry op : writes_registry op = false -> frames registry_kept (exec op).
Proof.
  intros Hw. destruct (service_side op) eqn:Hs.
  - destruct op; try discriminate Hs; try discriminate Hw; clear Hs Hw; cbn [exec]; unfold ignore; frame_registry.
  - eapply frames_weaken; [apply aside_registry|by apply task_side_aside].
Qed.

(** ** The rows a name query misses *)

Lemma services_named_elem db p n s :
  s ∈ services_named db p n <->
  (exists i, Db.services db !! i = Some s) /\ ModelService.project_id s = p /\ ModelService.name s = n.
Proof. unfold services_named. by rewrite elem_of_lfilter, rows_elem, andb_true_iff, !eqb_true. Qed.

Lemma models_public_elem db p n m :
  m ∈ models_public db p n <->
  (exists i, Db.logical_models db !! i = Some m) /\ LogicalModel.project_id m = p /\
  LogicalModel.public_name m = n.
Proof. unfold models_public. by rewrite elem_of_lfilter, rows_elem, andb_true_iff, !eqb_true. Qed.

Lemma variants_of_elem db i v :
  v ∈ variants_of db i <->
  (exists j, Db.model_variants db !! j = Some v) /\ ModelVariant.logical_model_id v = i.
Proof. unfold variants_of. by rewrite elem_of_lfilter, rows_elem, eqb_true. Qed.

Lemma missing_false {V} (k : option N) (t : gmap N V) :
  missing k t = false <-> forall i, k = Some i -> is_Some (t !! i).
Proof.
  destruct k as [i|]; cbn; [|naive_solver]. unfold is_none. split.
  - intros H j [= <-]. by destruct (t !! i).
  - intros H. destruct (H i eq_refl) as [x ->]. done.
Qed.

(** ** Creation of a service *)
Lemma create_registry i a db s db' :
  ServiceRepository.create i a db = (inr s, db') -> registry_ok db -> registry_ok db'.
Proof.
  intros (db1 & nodes & -> & Hn & (st & H1) & (u & db2 & H2 & es & ->))%create_ok Hok.
  apply replace_counters in H1 as (Es & _ & Em & Ev & _ & _).
  set (s := ServiceRepository.new_service i a nodes (Db.clock db1)) in *.
  apply insert_service_ok in H2 as (Hnew & Hnames & Hml & Hmv & _ & ->).
  rewrite Es in Hnew. rewrite Em, missing_false in Hml. rewrite Ev, missing_false in Hmv.
  assert (forall j x, Db.services db !! j = Some x -> ModelService.project_id x = ModelService.project_id s ->
            ModelService.name x <> ModelService.name s) as Hfree.
  { intros j x Hx Hp Hxn. apply (not_elem_of_nil x). rewrite <-Hnames. apply services_named_elem.
    rewrite Es. eauto. }
  assert (forall j m, Db.logical_models db !! j = Some m -> LogicalModel.project_id m = ModelService.project_id s ->
            LogicalModel.public_name m = ModelService.name s -> ModelService.logical_model_id s = Some j) as Hown.
  { intros j m Hm Hp Hmn. unfold check_service_name_available, mbind, M_bind, gets in Hn.
    destruct (models_public db (ServiceSpec.project_id a) (ServiceSpec.name a)) as [|m0 ms] eqn:E; cbn in Hn.
    - exfalso. apply (not_elem_of_nil m). rewrite <-E. apply models_public_elem. eauto.
    - apply raise_if_ok in Hn as (Hne & _). rewrite negb_false_iff, eqb_true in Hne.
      assert (m0 ∈ models_public db (ServiceSpec.project_id a) (ServiceSpec.name a)) as Hm0 by (rewrite E; left).
      apply models_public_elem in Hm0 as ((j0 & Hj0) & Hp0 & Hn0).
      assert (j = j0) as -> by (eapply (rg_public db Hok); [done..|rewrite Hp0; exact Hp|rewrite Hn0; exact Hmn]).
      rewrite (rg_model_id db Hok _ _ Hj0) in Hne. exact (eq_sym Hne). }
  destruct Hok as [G1 G2 G3 G4 G5 G6 G7 G8 G9 G10].
  split; fields; rewrite ?Es, ?Em, ?Ev; eauto 3.
  - intros j k x y [[-> ->]|[Hj Hx]]%lookup_insert_cases [[-> ->]|[Hk Hy]]%lookup_insert_cases Hp Hxy;
      [done| | |by eapply G5].
    + by destruct (Hfree k y Hy).
    + by destruct (Hfree j x Hx).
  - intros j x l [[-> ->]|[Hj Hx]]%lookup_insert_cases Hl; [by apply Hml|by eapply G6].
  - intros j x l [[-> ->]|[Hj Hx]]%lookup_insert_cases Hl; [by apply Hmv|by eapply G7].
  - intros j k x m [[-> ->]|[Hj Hx]]%lookup_insert_cases Hm Hp Hxn; [by eapply Hown|by eapply G8].
Qed.

(** A statement that only reads: its value, with the state as it was. *)
Ltac past H x Hx :=
  let d := fresh "dbx" in
  apply bind_ok in H as (x & d & Hx & H);
  match type of Hx with _ ?db0 = (_, d) =>
    assert (d = db0) as -> by (eapply frames_eq_run; [|exact Hx]; frame_by fail) end.

Lemma get_model_ok p i db m db' :
  LogicalModelRepository.get p i db = (inr (Some m), db') ->
  Db.logical_models db !! i = Some m /\ LogicalModel.project_id m = p.
Proof.
  unfold LogicalModelRepository.get. intros [E _]%gets_ok. destruct (Db.logical_models db !! i) as [x|]; [|done].
  destruct (LogicalModel.project_id x == p) eqn:Ep; [|done]. rewrite eqb_true in Ep. injection E as ->. done.
Qed.

(** ** Logical models *)

(** A new model: its public name is free among models and services. *)
Lemma new_model_registry db m :
  registry_ok db -> Db.logical_models db !! LogicalModel.id m = None ->
  services_named db (LogicalModel.project_id m) (LogicalModel.public_name m) = [] ->
  models_public db (LogicalModel.project_id m) (LogicalModel.public_name m) = [] ->
  LogicalModel.status m <> ModelAvailabilityStatus.READY -> cursor_ok m ->
  registry_ok (db <| Db.logical_models ::= <[LogicalModel.id m := m]> |>).
Proof.
  intros [G1 G2 G3 G4 G5 G6 G7 G8 G9 G10] Hnew Hs Hm Hst Hc.
  assert (forall j x, Db.logical_models db !! j = Some x -> LogicalModel.project_id x = LogicalModel.project_id m ->
            LogicalModel.public_name x <> LogicalModel.public_name m) as Hfree.
  { intros j x Hx Hp Hn. apply (not_elem_of_nil x). rewrite <-Hm. apply models_public_elem. eauto. }
  assert (forall j, is_Some (Db.logical_models db !! j) ->
            is_Some (<[LogicalModel.id m := m]> (Db.logical_models db) !! j)) as Hgrow.
  { intros j [x Hx]. rewrite lookup_insert_ne; [eauto|congruence]. }
  split; fields; eauto 3.
  - by intros j x [[-> ->]|[_ Hx]]%lookup_insert_cases; [|apply G1].
  - intros j k x y [[-> ->]|[Hj Hx]]%lookup_insert_cases [[-> ->]|[Hk Hy]]%lookup_insert_cases Hp Hxy;
      [done| | |by eapply G4].
    + by destruct (Hfree k y Hy).
    + by destruct (Hfree j x Hx).
  - intros j k s x Hsj [[-> ->]|[Hk Hx]]%lookup_insert_cases Hp Hn; [|by eapply G8].
    exfalso. apply (not_elem_of_nil s). rewrite <-Hs. apply services_named_elem. eauto.
  - by intros j x [[-> ->]|[_ Hx]]%lookup_insert_cases; [|apply G9].
  - by intros j x [[-> ->]|[_ Hx]]%lookup_insert_cases; [|eapply G10].
Qed.

Lemma model_create_registry i p n pn d me u r db m db' :
  LogicalModelRepository.create i p n pn d me u r db = (inr m, db') -> registry_ok db -> registry_ok db'.
Proof.
  intros H Hok. unfold LogicalModelRepository.create in H. cbv zeta in H.
  past H pr Hpr. past H u1 Hu1. past H nn Hnn. past H np Hnp. past H u2 Hu2. past H named Hex. past H u3 Hu3.
  past H exp Hexp. past H u4 Hu4. past H now Hnow. past H de Hde. past H taken Htaken. past H u5 Hu5.
  apply gets_ok in Hexp as [-> _]. apply raise_if_ok in Hu4 as (Hfree & _ & _).
  apply bool_decide_eq_false, dec_stable in Hfree.
  apply gets_ok in Htaken as [-> _]. apply raise_if_ok in Hu5 as (Hnew & _ & _).
  apply bool_decide_eq_false, eq_None_not_Some in Hnew.
  assert (services_named db p np = []) as Hsn.
  { unfold try_except, check_logical_public_name_available, mbind, M_bind, gets, raise_if in Hu2.
    destruct (bool_decide (services_named db p np <> [])) eqn:Hb; [discriminate Hu2|].
    by apply bool_decide_eq_false, dec_stable in Hb. }
  match type of H with (put_model ?x ≫= _) _ = _ => set (m0 := x) in H end.
  unfold put_model, add_model_event in H. minv H.
  apply (kept_registry (db <| Db.logical_models ::= <[LogicalModel.id m0 := m0]> |>)); [done|].
  by apply new_model_registry.
Qed.

Definition has_ready_variant (db : Db.t) (i : N) : Prop :=
  exists j v, Db.model_variants db !! j = Some v /\ ModelVariant.logical_model_id v = i /\
    ModelVariant.status v = ModelAvailabilityStatus.READY.

Lemma ready_variants_elem db i v :
  v ∈ List.filter ready_variant (variants_of db i) -> has_ready_variant db i.
Proof.
  intros [Hv Hr]%elem_of_lfilter. apply variants_of_elem in Hv as ((j & Hj) & Hi).
  unfold ready_variant in Hr. rewrite eqb_true in Hr. by exists j, v.
Qed.

(** A new status of a model; a ready one has a ready variant. *)
Lemma status_registry db i m f :
  registry_ok db -> Db.logical_models db !! i = Some m ->
  (forall x, LogicalModel.id (f x) = LogicalModel.id x /\ LogicalModel.project_id (f x) = LogicalModel.project_id x /\
     LogicalModel.public_name (f x) = LogicalModel.public_name x /\
     LogicalModel.routing_cursor (f x) = LogicalModel.routing_cursor x) ->
  (LogicalModel.status (f m) = ModelAvailabilityStatus.READY -> has_ready_variant db i) ->
  registry_ok (db <| Db.logical_models ::= alter f i |>).
Proof.
  intros [G1 G2 G3 G4 G5 G6 G7 G8 G9 G10] Hm Hf Hr.
  assert (forall j x', alter f i (Db.logical_models db) !! j = Some x' ->
            exists x, Db.logical_models db !! j = Some x /\ LogicalModel.id x' = LogicalModel.id x /\
              LogicalModel.project_id x' = LogicalModel.project_id x /\
              LogicalModel.public_name x' = LogicalModel.public_name x /\
              LogicalModel.routing_cursor x' = LogicalModel.routing_cursor x) as Hb.
  { intros j x' [[-> (x & Hx & ->)]|[_ Hx]]%lookup_alter_Some; [|by exists x'].
    exists x. split; [done|]. apply Hf. }
  split; fields; eauto 3.
  - intros j x' (x & Hx & -> & _)%Hb. auto.
  - intros j v Hv. rewrite lookup_alter_is_Some. eauto.
  - intros j k x' y' (x & Hx & _ & -> & -> & _)%Hb (y & Hy & _ & -> & -> & _)%Hb. by eapply G4.
  - intros j s l Hs Hl. rewrite lookup_alter_is_Some. eauto.
  - intros j k s x' Hs (x & Hx & _ & -> & -> & _)%Hb. by eapply G8.
  - intros j x' Hx'. destruct (decide (j = i)) as [->|Hne].
    + rewrite lookup_alter_eq, Hm in Hx'. injection Hx' as <-. exact Hr.
    + rewrite lookup_alter_ne in Hx' by done. by apply G9.
  - intros j x' (x & Hx & _ & _ & _ & ->)%Hb. by eapply G10.
Qed.

Lemma model_status_registry p i st r u db m db' :
  LogicalModelRepository.set_status p i st r u db = (inr m, db') -> registry_ok db -> registry_ok db'.
Proof.
  intros H Hok. unfold LogicalModelRepository.set_status in H. past H o Ho. destruct o as [m0|]; [|discriminate H].
  apply get_model_ok in Ho as [Hm0 _]. pose proof (rg_model_id db Hok _ _ Hm0) as Hi. past H u1 Hu1.
  destruct (LogicalModel.status m0 == st); [by minv H|]. past H now Hnow. past H r' Hr'.
  unfold update_model, add_model_event in H. minv H.
  apply (kept_registry (db <| Db.logical_models ::= alter (fun m => m <| LogicalModel.status := st |>
          <| LogicalModel.updated_at := now |> <| LogicalModel.version ::= Z.succ |>) (LogicalModel.id m0) |>)); [done|].
  apply (status_registry db _ m0); [done|done|done|]. fields. intros ->.
  apply when_ok in Hu1 as [[_ Hu1]|[Hne _]]; [|by rewrite eqb_same in Hne].
  past Hu1 n Hn. apply gets_ok in Hn as [-> _]. apply raise_if_ok in Hu1 as (Hz & _).
  unfold LogicalModelRepository.ready_count in Hz.
  destruct (List.filter ready_variant (variants_of db (LogicalModel.id m0))) as [|v vs] eqn:E; [done|].
  apply (ready_variants_elem db _ v). rewrite E. left.
Qed.

(** ** Deletion *)
Lemma restricted_false db refs model variants :
  restricted db refs model variants = false ->
  forall i s, Db.services db !! i = Some s ->
    (forall l, model = Some l -> ModelService.logical_model_id s <> Some l) /\
    (forall v, ModelService.model_variant_id s = Some v -> v ∉ variants).
Proof.
  unfold restricted. intros (((Hs & _)%orb_false_iff & _)%orb_false_iff & _)%orb_false_iff i s Hi.
  assert (refers model variants (ModelService.logical_model_id s) (ModelService.model_variant_id s) = false) as Hr.
  { apply not_true_iff_false. intros Hr. apply not_true_iff_false in Hs. apply Hs, existsb_exists.
    exists s. split; [apply list_elem_of_In, rows_elem; eauto|done]. }
  unfold refers in Hr. apply orb_false_iff in Hr as [H1 H2]. split.
  - intros l -> El. rewrite El, eqb_same in H1. done.
  - intros v Ev. rewrite Ev in H2. by apply inb_false.
Qed.

Lemma model_delete_registry refs p i db b db' :
  LogicalModelRepository.delete refs p i db = (inr b, db') -> registry_ok db -> registry_ok db'.
Proof.
  intros H Hok. unfold LogicalModelRepository.delete in H. past H o Ho. destruct o as [m0|]; [|by minv H].
  past H kept Hk. apply gets_ok in Hk as [-> _]. past H u Hu. apply raise_if_ok in Hu as (Hres & _ & _).
  pose proof (restricted_false _ _ _ _ Hres) as Hs. minv H. destruct Hok as [G1 G2 G3 G4 G5 G6 G7 G8 G9 G10].
  split; fields; eauto 3.
  - intros j m [_ Hm]%lookup_delete_Some. auto.
  - intros j v [Hv _]%map_lookup_filter_Some. auto.
  - intros j v [Hv Hl]%map_lookup_filter_Some. rewrite lookup_delete_ne by done. eauto.
  - intros j k m m' [_ Hm]%lookup_delete_Some [_ Hm']%lookup_delete_Some. eauto.
  - intros j s l Hj Hl. rewrite lookup_delete_ne; [eauto|]. intros ->. by destruct (Hs j s Hj) as [H1 _]; apply (H1 l).
  - intros j s v Hj Hv. destruct (G7 j s v Hj Hv) as [x Hx]. exists x. apply map_lookup_filter_Some.
    split; [done|]. intros Hl. destruct (Hs j s Hj) as [_ H2]. apply (H2 v Hv). apply list_elem_of_fmap. exists x.
    split; [by rewrite (G2 _ _ Hx)|]. apply variants_of_elem. eauto.
  - intros j k s m Hj [_ Hm]%lookup_delete_Some. eauto.
  - intros j m [Hne Hm]%lookup_delete_Some Hr. destruct (G9 j m Hm Hr) as (k & v & Hv & Hl & Hst).
    exists k, v. split; [|done]. apply map_lookup_filter_Some. split; [done|congruence].
  - intros j m [_ Hm]%lookup_delete_Some. eauto.
Qed.

(** ** Variants *)
Lemma variant_create_registry i p l a db v db' :
  ModelVariantRepository.create i p l a db = (inr v, db') -> registry_ok db -> registry_ok db'.
Proof.
  intros H Hok. unfold ModelVariantRepository.create in H. past H o Ho. destruct o as [m|]; [|discriminate H].
  apply get_model_ok in Ho as [Hm _]. pose proof (rg_model_id db Hok _ _ Hm) as Hi.
  past H u1 H1. past H now H2. past H x1 H3. past H x2 H4. past H x3 H5. past H x4 H6. past H x5 H7.
  past H x6 H8. past H x7 H9. past H x8 H10. past H x9 H11. past H x10 H12. past H x11 H13. cbv zeta in H.
  match type of H with (ModelVariantRepository.insert_variant ?x ≫= _) _ = _ => set (v0 := x) in H end.
  apply bind_ok in H as ([] & db1 & H & Hret). apply ret_ok in Hret as [_ ->].
  unfold ModelVariantRepository.insert_variant, put_variant in H. minv H.
  apply bool_decide_eq_false, eq_None_not_Some in Hm0. destruct Hok as [G1 G2 G3 G4 G5 G6 G7 G8 G9 G10].
  split; fields; eauto 3.
  - by intros j x [[-> ->]|[_ Hx]]%lookup_insert_cases; [|apply G2].
  - intros j x [[-> ->]|[_ Hx]]%lookup_insert_cases; [|eauto]. exists m. exact Hm.
  - intros j s w Hj Hw. destruct (G7 j s w Hj Hw) as [x Hx]. rewrite lookup_insert_ne; [eauto|congruence].
  - intros j x Hj Hr. destruct (G9 j x Hj Hr) as (k & w & Hk & Hl & Hst). exists k, w.
    rewrite lookup_insert_ne; [done|congruence].
Qed.

Lemma get_variant_ok p l i db v db' :
  ModelVariantRepository.get p l i db = (inr (Some v), db') ->
  Db.model_variants db !! i = Some v /\ ModelVariant.logical_model_id v = l.
Proof.
  unfold ModelVariantRepository.get. intros [E _]%gets_ok. destruct (Db.model_variants db !! i) as [x|]; [|done].
  destruct (_ && _) eqn:Ec; [|done]. apply andb_true_iff in Ec as [Ec _]. rewrite eqb_true in Ec.
  injection E as ->. done.
Qed.

(** Any change of the variant [i] of model [l], if [l] is not ready or keeps
    another ready variant. *)
Lemma variants_registry db l i variants' :
  registry_ok db ->
  (forall j v, variants' !! j = Some v -> ModelVariant.id v = j /\
     is_Some (Db.logical_models db !! ModelVariant.logical_model_id v)) ->
  (forall j, j <> i -> variants' !! j = Db.model_variants db !! j) ->
  (forall k s, Db.services db !! k = Some s -> ModelService.model_variant_id s = Some i -> is_Some (variants' !! i)) ->
  (forall v, Db.model_variants db !! i = Some v -> ModelVariant.logical_model_id v = l) ->
  (forall m, Db.logical_models db !! l = Some m -> LogicalModel.status m = ModelAvailabilityStatus.READY ->
     exists j v, variants' !! j = Some v /\ ModelVariant.logical_model_id v = l /\
       ModelVariant.status v = ModelAvailabilityStatus.READY) ->
  registry_ok (db <| Db.model_variants := variants' |>).
Proof.
  intros [G1 G2 G3 G4 G5 G6 G7 G8 G9 G10] Hw Hne Hs Hl Hr. split; fields; eauto 3.
  - intros j v Hv. by apply Hw.
  - intros j v Hv. by apply (Hw j).
  - intros k s v Hk Hv. destruct (decide (v = i)) as [->|Hd]; [by eapply Hs|rewrite Hne by done; eauto].
  - intros j m Hm Hst. destruct (decide (j = l)) as [->|Hd]; [by eapply Hr|].
    destruct (G9 j m Hm Hst) as (k & v & Hv & Hk & Hrd). exists k, v. rewrite Hne; [done|].
    intros ->. apply Hd. rewrite <-Hk. by apply Hl.
Qed.

Lemma variant_status_registry p l i st r db v db' :
  ModelVariantRepository.set_status p l i st r db = (inr v, db') -> registry_ok db -> registry_ok db'.
Proof.
  intros H Hok. unfold ModelVariantRepository.set_status in H. past H o Ho. destruct o as [m|]; [|discriminate H].
  apply get_model_ok in Ho as [Hm _]. past H ov Hov. destruct ov as [v0|]; [|discriminate H].
  apply get_variant_ok in Hov as [Hv0 Hl]. pose proof (rg_variant_id db Hok _ _ Hv0) as Hi.
  destruct (ModelVariant.status v0 == st) eqn:Est; [by minv H|]. past H u Hu. past H r' Hr'. past H now Hn.
  unfold update_variant in H. apply bind_ok in H as (u' & db1 & H1 & H). apply modify_ok in H1 as [_ ->].
  apply ret_ok in H as [_ ->]. rewrite Hi. set (f := fun v : Variant => _).
  apply (kept_registry (db <| Db.model_variants := alter f i (Db.model_variants db) |>)); [done|].
  apply (variants_registry db l i); [done|..].
  - intros j x [[-> (y & Hy & ->)]|[_ Hx]]%lookup_alter_Some.
    + split; [exact (rg_variant_id db Hok _ _ Hy)|exact (rg_variant_model db Hok _ _ Hy)].
    + split; [by eapply rg_variant_id|by eapply rg_variant_model].
  - intros j Hj. by rewrite lookup_alter_ne.
  - intros k s Hk Hks. rewrite lookup_alter_is_Some. by eapply (rg_service_variant db Hok).
  - intros x Hx. congruence.
  - intros m' Hm' Hst. replace m' with m in * by congruence.
    destruct (decide (st = ModelAvailabilityStatus.READY)) as [->|Hne].
    { exists i, (f v0). rewrite lookup_alter_eq, Hv0. done. }
    destruct (rg_ready db Hok l m Hm Hst) as (j & x & Hj & Hjl & Hjr).
    destruct (decide (j = i)) as [->|Hd]; [|exists j, x; by rewrite lookup_alter_ne].
    replace x with v0 in * by congruence. unfold ready_variant in Hu. rewrite Hst, Hjr in Hu.
    apply when_ok in Hu as [[_ Hu]|[Hf _]]; [|by rewrite !eqb_same, !andb_true_l, negb_false_iff, eqb_true in Hf].
    past Hu n Hn'. apply gets_ok in Hn' as [-> _]. apply raise_if_ok in Hu as (Hz & _).
    destruct (List.filter _ (variants_of db l)) as [|y ys] eqn:E; [done|].
    assert (y ∈ y :: ys) as Hy by left. rewrite <-E in Hy. apply elem_of_lfilter in Hy as [Hy Hyr].
    apply variants_of_elem in Hy as ((k & Hk) & Hkl). rewrite andb_true_iff, negb_true_iff, eqb_false, eqb_true in Hyr.
    exists k, y. rewrite lookup_alter_ne; [by destruct Hyr|]. intros <-. destruct Hyr as [Hyr _].
    by apply Hyr, (rg_variant_id db Hok).
Qed.

(** Among two selected rows one has another key than [k]. *)
Lemma two_rows {A} (key : A -> N) (l : list A) (f : A -> bool) k :
  1 < lenZ (List.filter f l) -> NoDup (key <$> l) -> exists y, y ∈ l /\ f y = true /\ key y <> k.
Proof.
  intros Hn Hd. apply (lfilter_fmap_nodup key f) in Hd.
  destruct (List.filter f l) as [|a [|b rest]] eqn:E; [done|done|].
  assert (a ∈ List.filter f l /\ b ∈ List.filter f l) as [Ha Hb] by (rewrite E; set_solver).
  apply elem_of_lfilter in Ha as [Ha Hfa], Hb as [Hb Hfb].
  destruct (decide (key a = k)) as [<-|Hne]; [|by exists a]. exists b. split_and!; [done|done|].
  cbn in Hd. apply NoDup_cons in Hd as [Hd _]. set_solver.
Qed.

Lemma variant_delete_registry refs p l i db b db' :
  ModelVariantRepository.delete refs p l i db = (inr b, db') -> registry_ok db -> registry_ok db'.
Proof.
  intros H Hok. unfold ModelVariantRepository.delete in H. past H o Ho. destruct o as [m|]; [|discriminate H].
  apply get_model_ok in Ho as [Hm _]. past H ov Hov. destruct ov as [v0|]; [|by minv H].
  apply get_variant_ok in Hov as [Hv0 Hl]. past H u Hu. past H kept Hk. apply gets_ok in Hk as [-> _].
  past H u2 Hu2. apply raise_if_ok in Hu2 as (Hres & _ & _). pose proof (restricted_false _ _ _ _ Hres) as Hs.
  apply bind_ok in H as (u' & db1 & H1 & H). apply modify_ok in H1 as [_ ->]. apply ret_ok in H as [_ ->].
  apply (kept_registry (db <| Db.model_variants := base.delete i (Db.model_variants db) |>)); [done|].
  apply (variants_registry db l i); [done|..].
  - intros j x [_ Hx]%lookup_delete_Some. split; [by eapply rg_variant_id|by eapply rg_variant_model].
  - intros j Hj. by rewrite lookup_delete_ne.
  - intros k s Hk Hks. destruct (Hs k s Hk) as [_ H2]. by destruct (H2 i Hks (list_elem_of_here _ _)).
  - intros x Hx. congruence.
  - intros m' Hm' Hst. replace m' with m in * by congruence.
    destruct (rg_ready db Hok l m Hm Hst) as (j & x & Hj & Hjl & Hjr).
    destruct (decide (j = i)) as [->|Hd]; [|exists j, x; by rewrite lookup_delete_ne].
    replace x with v0 in * by congruence. unfold ready_variant in Hu. rewrite Hst, Hjr in Hu.
    apply when_ok in Hu as [[_ Hu]|[Hf _]]; [|by rewrite !eqb_same in Hf].
    past Hu n Hn'. apply gets_ok in Hn' as [-> _]. apply raise_if_ok in Hu as (Hz & _).
    unfold ModelVariantRepository.count in Hz. apply Z.leb_gt in Hz.
    destruct (two_rows ModelVariant.id (variants_of db l)
      (fun v => ModelVariant.status v == ModelAvailabilityStatus.READY) i) as (y & Hy & Hyr & Hyn); [exact Hz| |].
    { apply lfilter_fmap_nodup, rows_keys. intros. by eapply rg_variant_id. }
    apply variants_of_elem in Hy as ((k & Hk) & Hkl). rewrite eqb_true in Hyr.
    exists k, y. rewrite lookup_delete_ne; [done|]. intros <-. by apply Hyn, (rg_variant_id db Hok).
Qed.

(** ** Every operation *)
Lemma commit_registry op db : registry_ok db -> registry_ok (commit op db).
Proof.
  intros Hb. unfold commit. destruct (atomically (exec op) db) as [[e|u] db'] eqn:E; cbn.
  - by apply atomically_err in E as ->.
  - rewrite atomically_ok in E. destruct (writes_registry op) eqn:Hw.
    + destruct op; try discriminate Hw; cbn [exec] in E; apply ignore_ok in E as (r & E);
        [by eapply create_registry|by eapply model_create_registry|by eapply model_status_registry
        |by eapply model_delete_registry|by eapply variant_create_registry|by eapply variant_status_registry
        |by eapply variant_delete_registry].
    + eapply kept_registry, Hb. eapply (frames_run registry_kept), E. by apply exec_registry.
Qed.

Lemma reachable_registry db : reachable db -> registry_ok db.
Proof.
  intros [now H]. assert (registry_ok (Db.empty now)) as Hb.
  { split; intros *; cbn; rewrite lookup_empty; discriminate. }
  revert Hb. induction H as [|a b c Hs _ IH]; [done|]. intros Ha. apply IH. clear IH c.
  destruct Hs as [op db0 Hc|db0 t _|db0 p x]; [by apply commit_registry|..]; by eapply kept_registry, Ha.
Qed.

(** C12: the model registry is consistent.  In every reachable database a ready
    logical model has a ready variant of its own, and its routing cursor is a
    nonnegative 64-bit integer; its public name is that of no other model of
    the project, and a service of that name belongs to it; the model and the
    variant a service was admitted with exist as long as the service does.
    Changes of status and deletions that would break this are refused. *)
Theorem model_registry_consistent db i m
    (Hr : reachable db) (Hm : Db.logical_models db !! i = Some m) :
  (LogicalModel.status m = ModelAvailabilityStatus.READY ->
     exists j v, Db.model_variants db !! j = Some v /\ ModelVariant.logical_model_id v = i /\
       ModelVariant.status v = ModelAvailabilityStatus.READY) /\
  0 <= LogicalModel.routing_cursor m < 2 ^ 63 /\
  (forall j m', Db.logical_models db !! j = Some m' -> LogicalModel.project_id m' = LogicalModel.project_id m ->
     LogicalModel.public_name m' = LogicalModel.public_name m -> j = i) /\
  (forall j s, Db.services db !! j = Some s -> ModelService.project_id s = LogicalModel.project_id m ->
     ModelService.name s = LogicalModel.public_name m -> ModelService.logical_model_id s = Some i) /\
  (forall j s l v, Db.services db !! j = Some s -> ModelService.logical_model_id s = Some l ->
     ModelService.model_variant_id s = Some v ->
     is_Some (Db.logical_models db !! l) /\ is_Some (Db.model_variants db !! v)).
Proof.
  destruct (reachable_registry db Hr) as [G1 G2 G3 G4 G5 G6 G7 G8 G9 G10].
  split_and!; [by apply G9|by eapply G10|pose proof (G10 i m Hm) as Hc; unfold _MAX_ROUTING_CURSOR in Hc; lia|..].
  - intros j m' Hm' Hp Hn. by eapply G4.
  - intros j s Hs Hp Hn. by eapply G8.
  - intros j s l v Hs Hl Hv. eauto.
Qed.

Lemma model_registry_consistent_witness :
  exists j v, Db.model_variants ServiceScenario.serving !! j = Some v /\
    ModelVariant.logical_model_id v = 31%N /\ ModelVariant.status v = ModelAvailabilityStatus.READY.
Proof.
  destruct (Db.logical_models ServiceScenario.serving !! 31%N) as [m|] eqn:E; [|present E].
  apply (model_registry_consistent ServiceScenario.serving 31 m ServiceScenario.serving_reachable E).
  assert (LogicalModel.status <$> Db.logical_models ServiceScenario.serving !! 31%N
            = Some ModelAvailabilityStatus.READY) as F by by vm_compute.
  rewrite E in F. by injection F.
Defined.
