(* ===== verification/Convergence.v ===== *)
(** * Reconciliation converges

    [reconcile_locked] brings the replicas of a service to what the service
    asks for.  The proof runs the method: each loop over victims is a map over
    the rows ([stop_row] on the victims), the loop over ordinals adds new rows,
    and the numbers of active replicas are followed through the phases. *)

From S2P Require Import Prelude PyString PyFloat PyUrl Enums Policies Store Frames Names Quotas Tasks Invariant.
From S2P Require Import Services ModelRegistry Gateway ServiceControl ServiceFrames System.
From S2P Require Import ServiceInvariant Scenario ServiceScenario Replicas RegistryInvariant.
Import ServiceRepository.

#[local] Open Scope stdpp_scope.
#[local] Open Scope Z_scope.

(** ** Stopping *)

(** The row after [_request_replica_stop]. *)
Definition stop_row (now : Z) (reason : string) (d : float) (r : Rep) : Rep :=
  if draining r then r
  else
    let marked := r <| ServiceReplica.error_message := Some reason |> <| ServiceReplica.updated_at := now |>
                    <| ServiceReplica.version ::= Z.succ |> in
    if (ServiceReplica.status r == ReplicaStatus.PENDING) && is_none (ServiceReplica.execution_id r)
    then marked <| ServiceReplica.status := ReplicaStatus.STOPPED |> <| ServiceReplica.stopped_at := Some now |>
    else if ServiceReplica.status r == ReplicaStatus.RUNNING
    then marked <| ServiceReplica.status := ReplicaStatus.DRAINING |>
                <| ServiceReplica.drain_started_at := Some now |>
                <| ServiceReplica.drain_deadline := Some (now + timedelta_seconds d) |>
    else marked <| ServiceReplica.health := ReplicaHealth.UNHEALTHY |> <| ServiceReplica.endpoint_url := None |>
                <| ServiceReplica.status := ReplicaStatus.STOPPING |>.

Lemma stop_row_identity now reason d r : identity (stop_row now reason d r) = identity r.
Proof. unfold stop_row. by repeat case_match. Qed.

Lemma stop_row_id now reason d r : ServiceReplica.id (stop_row now reason d r) = ServiceReplica.id r.
Proof. exact (proj1 (identity_columns _ _ (stop_row_identity now reason d r))). Qed.

Lemma stop_row_inactive now reason d r : active_replica (stop_row now reason d r) = false.
Proof.
  unfold stop_row. destruct (draining r) eqn:E.
  - unfold draining, active_replica in *. by destruct (ServiceReplica.status r).
  - by repeat case_match.
Qed.

(** The other tables. *)
Record beside (db db' : Db.t) : Prop := {
  bs_services : Db.services db' = Db.services db;
  bs_models : Db.logical_models db' = Db.logical_models db;
  bs_variants : Db.model_variants db' = Db.model_variants db;
}.
#[export] Instance beside_preorder : PreOrder beside.
Proof. split; [done|]. intros a b c [] []. split; congruence. Qed.

Lemma alter_row {V} (m : gmap N V) f k r : m !! k = Some r -> alter f k m = <[k := f r]> m.
Proof.
  intros H. apply map_eq. intros i. destruct (decide (i = k)) as [->|Hne].
  - by rewrite lookup_alter_eq, lookup_insert_eq, H.
  - by rewrite lookup_alter_ne, lookup_insert_ne.
Qed.

Lemma request_stop_run svc r now reason d db :
  Db.replicas db !! ServiceReplica.id r = Some r -> draining r = true \/ addable now d = true ->
  exists c db', _request_replica_stop svc r now reason d db = (inr (stop_row now reason d r, c), db') /\
    Db.replicas db' = <[ServiceReplica.id r := stop_row now reason d r]> (Db.replicas db) /\ beside db db' /\
    (draining r = true -> c = (0, 0)).
Proof.
  intros Hr Hd. unfold _request_replica_stop, stop_row, draining in *.
  destruct (inb (ServiceReplica.status r) _).
  { exists (0, 0), db. split_and!; try done. by rewrite insert_id. }
  destruct Hd as [Hd|Hd]; [done|].
  destruct (_ && _).
  2: destruct (ServiceReplica.status r == ReplicaStatus.RUNNING);
    [rewrite (bind_run _ _ db _ db (plus_seconds_run now d db Hd))|].
  all: eexists _, _; split; [reflexivity|]; split_and!; [exact (alter_row _ _ _ r Hr)|done|done].
Qed.

(** [mark_with g victims] applies [g] to the rows of the victims. *)
Definition mark_with (g : Rep -> Rep) (victims : list Rep) (r : Rep) : Rep :=
  if inb (ServiceReplica.id r) (ServiceReplica.id <$> victims) then g r else r.

(** One row, then the others: on an object, and on the table. *)
Section mark_with.
Context (g : Rep -> Rep) (g_id : forall r, ServiceReplica.id (g r) = ServiceReplica.id r).

Lemma mark_cons V v x :
  ServiceReplica.id v ∉ ServiceReplica.id <$> V -> (ServiceReplica.id x = ServiceReplica.id v -> x = v) ->
  mark_with g V (if ServiceReplica.id x == ServiceReplica.id v then g v else x) = mark_with g (v :: V) x.
Proof using g_id.
  intros Hv Hx. unfold mark_with. cbn [fmap list_fmap].
  destruct (ServiceReplica.id x == ServiceReplica.id v) eqn:E.
  - rewrite eqb_true in E. rewrite (Hx E) in *. rewrite g_id.
    rewrite (proj2 (inb_false _ _) Hv), (proj2 (inb_true _ _) (list_elem_of_here _ _)). done.
  - rewrite eqb_false in E. assert (inb (ServiceReplica.id x) (ServiceReplica.id v :: (ServiceReplica.id <$> V))
      = inb (ServiceReplica.id x) (ServiceReplica.id <$> V)) as ->; [|done].
    unfold inb. apply bool_decide_ext. rewrite elem_of_cons. naive_solver.
Qed.

Lemma mark_table_cons (m : gmap N Rep) V v :
  (forall i r, m !! i = Some r -> ServiceReplica.id r = i) -> m !! ServiceReplica.id v = Some v ->
  ServiceReplica.id v ∉ ServiceReplica.id <$> V ->
  mark_with g V <$> <[ServiceReplica.id v := g v]> m = mark_with g (v :: V) <$> m.
Proof using g_id.
  intros Hk Hv Hnv. apply map_eq. intros i. rewrite !lookup_fmap.
  destruct (decide (i = ServiceReplica.id v)) as [->|Hne].
  - rewrite lookup_insert_eq, Hv. cbn. f_equal. rewrite <-(mark_cons V v v Hnv) by done. by rewrite eqb_same.
  - rewrite lookup_insert_ne by done. destruct (m !! i) as [x|] eqn:Hx; [|done]. cbn. f_equal.
    rewrite <-(mark_cons V v x Hnv); [|intros Ex; rewrite (Hk _ _ Hx) in Ex; congruence].
    rewrite (Hk _ _ Hx), (proj2 (eqb_false _ _)) by done. done.
Qed.
End mark_with.

Definition mark_row (now : Z) (reason : string) (d : float) : list Rep -> Rep -> Rep :=
  mark_with (stop_row now reason d).

Definition listed (db : Db.t) (l : list Rep) : Prop :=
  forall x, x ∈ l -> Db.replicas db !! ServiceReplica.id x = Some x.

(** The drain deadline of the victims that are not stopping already is a
    [datetime]. *)
Definition stoppable (now : Z) (d : float) (victims : list Rep) : Prop :=
  (forall v, v ∈ victims -> draining v = true) \/ addable now d = true.

Section stop.
Context (svc : Svc) (now : Z) (reason : string) (d : float).
Notation stop := (stop_row now reason d).
Notation mark := (mark_row now reason d).

Lemma mark_identity V r : identity (mark V r) = identity r.
Proof. unfold mark_row, mark_with. case_match; [apply stop_row_identity|done]. Qed.
Lemma mark_active V r : active_replica (mark V r) = true -> active_replica r = true /\ mark V r = r.
Proof. unfold mark_row, mark_with. case_match; [by rewrite stop_row_inactive|done]. Qed.

(** The loop over the victims maps [mark] over the objects and the table. *)
Lemma stop_each_run V L c db :
  (forall i r, Db.replicas db !! i = Some r -> ServiceReplica.id r = i) ->
  listed db L -> listed db V -> NoDup (ServiceReplica.id <$> V) -> stoppable now d V ->
  exists c' db', stop_each svc now reason d V (L, c) db = (inr (mark V <$> L, c'), db') /\
    Db.replicas db' = mark V <$> Db.replicas db /\ beside db db' /\
    ((forall v, v ∈ V -> draining v = true) -> c' = c).
Proof.
  revert L c db. induction V as [|v V IH]; intros L [a b] db Hk HL HV Hd Hst.
  { exists (a, b), db. split_and!; [|by rewrite map_fmap_id|done|done].
    change (mark [] <$> L) with ((fun x : Rep => x) <$> L). by rewrite list_fmap_id. }
  apply NoDup_cons in Hd as [Hnv Hd].
  assert (Db.replicas db !! ServiceReplica.id v = Some v) as Hv by (apply HV; left).
  destruct (request_stop_run svc v now reason d db Hv) as ([a1 b1] & db1 & E1 & R1 & B1 & C1).
  { destruct Hst as [Hst|Hst]; [left; apply Hst; left|by right]. }
  assert (forall x, Db.replicas db !! ServiceReplica.id x = Some x ->
            ServiceReplica.id x = ServiceReplica.id v -> x = v) as Hsame
    by (intros x Hx Ex; rewrite Ex in Hx; congruence).
  destruct (IH (replace_object (stop v) L) (a + a1, b + b1) db1) as (c' & db' & E & R & B & C).
  - intros i r. rewrite R1. intros [[<- <-]|[_ Hr]]%lookup_insert_Some; [apply stop_row_id|auto].
  - intros x Hx. apply list_elem_of_fmap in Hx as (y & -> & Hy). rewrite stop_row_id, R1.
    destruct (ServiceReplica.id y == ServiceReplica.id v) eqn:Ey.
    + rewrite stop_row_id. by rewrite lookup_insert_eq.
    + rewrite eqb_false in Ey. rewrite lookup_insert_ne by done. by apply HL.
  - intros x Hx. rewrite R1, lookup_insert_ne; [apply HV; by right|].
    intros Ex. apply Hnv. rewrite Ex. by apply list_elem_of_fmap_2.
  - done.
  - destruct Hst as [Hst|Hst]; [left; intros x Hx; apply Hst; by right|by right].
  - exists c', db'. split_and!.
    + assert (mark V <$> replace_object (stop v) L = mark (v :: V) <$> L) as <-.
      { unfold replace_object. rewrite <-list_fmap_compose. apply list_fmap_ext. intros i x Hx. cbn.
        rewrite stop_row_id. apply (mark_cons stop (stop_row_id now reason d)); [done|]. apply Hsame, HL. by eapply list_elem_of_lookup_2. }
      rewrite <-E. unfold stop_each. cbn [foldM]. erewrite bind_run; [reflexivity|].
      by rewrite (bind_run _ _ _ _ _ E1).
    + rewrite R, R1. apply (mark_table_cons stop (stop_row_id now reason d)); [done|done|done].
    + by transitivity db1.
    + intros Hdr. rewrite C by (intros x Hx; apply Hdr; by right).
      assert (draining v = true) as Hdv by (apply Hdr; left). apply C1 in Hdv. injection Hdv as -> ->.
      by rewrite !Z.add_0_r.
Qed.
End stop.

(** ** Rows *)
Lemma rows_fmap {V W} (f : V -> W) (m : gmap N V) : rows (f <$> m) = f <$> rows m.
Proof. unfold rows. rewrite map_to_list_fmap, <-!list_fmap_compose. by apply list_fmap_ext. Qed.

Lemma lfilter_fmap {A B} (f : A -> B) (P : B -> bool) (Q : A -> bool) (l : list A) :
  (forall x, x ∈ l -> P (f x) = Q x) -> List.filter P (f <$> l) = f <$> List.filter Q l.
Proof.
  induction l as [|x l IH]; intros H; [done|]. cbn. rewrite (H x) by left.
  rewrite IH by (intros y Hy; apply H; by right). by destruct (Q x).
Qed.

Lemma lfilter_ext {A} (P Q : A -> bool) (l : list A) :
  (forall x, x ∈ l -> P x = Q x) -> List.filter P l = List.filter Q l.
Proof. intros H. rewrite <-(list_fmap_id l) at 1. rewrite (lfilter_fmap _ _ Q) by done. by rewrite list_fmap_id. Qed.

Lemma lenZ_app {A} (l k : list A) : lenZ (l ++ k) = lenZ l + lenZ k.
Proof. unfold lenZ. rewrite length_app. lia. Qed.

Lemma lenZ_perm {A} (l k : list A) : l ≡ₚ k -> lenZ l = lenZ k.
Proof. unfold lenZ. by intros ->%Permutation_length. Qed.

(** Taking some active rows out leaves the others. *)
Lemma marked_actives now reason d (L : list Rep) n :
  NoDup (ServiceReplica.id <$> L) ->
  lenZ (List.filter active_replica
    (mark_row now reason d (take n (py_sort _scale_down_order (List.filter active_replica L))) <$> L))
  = Z.max 0 (lenZ (List.filter active_replica L) - Z.of_nat n).
Proof.
  intros Hd. set (A := List.filter active_replica L). set (S := py_sort _scale_down_order A).
  set (V := take n S). assert (S ≡ₚ A) as HS by apply py_sort_perm.
  assert (NoDup (ServiceReplica.id <$> S)) as HdS by (rewrite HS; by apply lfilter_fmap_nodup).
  set (out := fun r : Rep => negb (inb (ServiceReplica.id r) (ServiceReplica.id <$> V))).
  assert (lenZ (List.filter active_replica (mark_row now reason d V <$> L)) = lenZ (List.filter out A)) as ->.
  { unfold A. rewrite filter_filter_and. unfold lenZ. f_equal.
    rewrite (lfilter_fmap _ _ (fun r => active_replica r && out r)); [apply length_fmap|].
    intros x _. unfold out, mark_row, mark_with. destruct (inb _ _); cbn; [|by rewrite andb_true_r].
    by rewrite stop_row_inactive, andb_false_r. }
  rewrite <-(lenZ_perm _ _ (lfilter_perm out _ _ HS)), <-(lenZ_perm _ _ HS), <-(take_drop n S).
  rewrite List.filter_app. fold V. rewrite <-(take_drop n S), fmap_app in HdS. fold V in HdS.
  apply NoDup_app in HdS as (_ & Hdis & _).
  assert (List.filter out V = []) as ->.
  { apply lfilter_nil. intros x Hx. unfold out. rewrite (proj2 (inb_true _ _)); [done|]. by apply list_elem_of_fmap_2. }
  rewrite (lfilter_ext out (fun _ => true)).
  - rewrite filter_true by done. cbn [app]. unfold lenZ, V. rewrite length_app, length_take, length_drop. lia.
  - intros x Hx. unfold out. rewrite (proj2 (inb_false _ _)); [done|].
    intros Hv. apply (Hdis _ Hv). by apply list_elem_of_fmap_2.
Qed.

(** ** Creating *)
Lemma next_ordinal_above (L : list Rep) x : x ∈ L -> ServiceReplica.ordinal x < next_ordinal_of L.
Proof.
  destruct L as [|r L]; [by intros ?%not_elem_of_nil|]. unfold next_ordinal_of.
  assert (forall M, ServiceReplica.ordinal r <= foldr (fun x m => Z.max (ServiceReplica.ordinal x) m)
                                                  (ServiceReplica.ordinal r) M) as Hr
    by (intros M; induction M; cbn; lia).
  intros [->|Hx]%elem_of_cons; [specialize (Hr L); lia|].
  induction L as [|y L IH]; [by apply not_elem_of_nil in Hx|].
  apply elem_of_cons in Hx as [->|Hx]; cbn; [lia|]. specialize (IH Hx). lia.
Qed.

Lemma next_ordinal_nonneg (L : list Rep) :
  (forall x, x ∈ L -> 0 <= ServiceReplica.ordinal x) -> 0 <= next_ordinal_of L.
Proof.
  destruct L as [|r L]; [done|]. intros H. pose proof (H r (list_elem_of_here _ _)).
  pose proof (next_ordinal_above (r :: L) r (list_elem_of_here _ _)). lia.
Qed.

Lemma zrange_elem first n o : o ∈ zrange first n <-> first <= o < first + n.
Proof.
  unfold zrange. rewrite list_elem_of_fmap. setoid_rewrite elem_of_seq. split.
  - intros (i & -> & Hi). lia.
  - intros Ho. exists (Z.to_nat (o - first)). lia.
Qed.
Lemma zrange_nodup first n : NoDup (zrange first n).
Proof. unfold zrange. apply NoDup_fmap_2; [intros i j; lia|apply NoDup_seq]. Qed.
(** A new replica satisfies its constraints if its service does. *)
Lemma new_replica_checks svc i o t :
  service_checks svc = true -> 0 <= o -> replica_checks (new_replica svc i o t) = true.
Proof.
  unfold service_checks, replica_checks. rewrite !andb_true_iff. intros H Ho. cbn.
  destruct_and! H. split_and!; [done|by apply Z.leb_le|done|done|done].
Qed.

Section create.
Context (new_id : Z -> N) (svc : Svc) (t : Z).
Notation new o := (new_replica svc (new_id o) o t).

(** The parents of the new rows exist. *)
Record parents (db : Db.t) : Prop := {
  pr_checks : service_checks svc = true;
  pr_service : is_Some (Db.services db !! ModelService.id svc);
  pr_model : missing (ModelService.logical_model_id svc) (Db.logical_models db) = false;
  pr_variant : missing (ModelService.model_variant_id svc) (Db.model_variants db) = false;
}.

Lemma create_one_run o L db :
  parents db -> 0 <= o -> Db.replicas db !! new_id o = None ->
  (forall r, r ∈ rows (Db.replicas db) -> same_slot (new o) r = false) ->
  exists db', create_replica new_id svc t L o db = (inr (L ++ [new o]), db') /\
    Db.replicas db' = <[new_id o := new o]> (Db.replicas db) /\ beside db db'.
Proof.
  intros [Hc [s Hs] Hm Hv] Ho Hnew Hslot.
  assert (insert_replica (new o) db
            = (inr tt, db <| Db.replicas ::= <[new_id o := new o]> |>)) as E.
  { unfold insert_replica, mbind, M_bind, gets, raise_if, put_replica, modify. cbn [ServiceReplica.id new_replica].
    rewrite Hnew, bool_decide_eq_false_2 by (by intros [? ?]). cbv beta iota delta [mret M_ret].
    assert (existsb (same_slot (new o)) (rows (Db.replicas db)) = false) as ->.
    { apply not_true_iff_false. intros (r & Hr & Hsl)%existsb_exists. apply list_elem_of_In in Hr.
      by rewrite Hslot in Hsl. }
    cbv beta iota. cbn [ServiceReplica.service_id ServiceReplica.logical_model_id ServiceReplica.model_variant_id new_replica].
    unfold missing at 1. rewrite Hs, Hm, Hv. cbn [is_none orb]. by rewrite new_replica_checks. }
  unfold create_replica. rewrite (bind_run _ _ _ _ _ E). eexists. split; [reflexivity|]. done.
Qed.

Lemma same_slot_identity o r :
  same_slot (new o) r = true <->
  ServiceReplica.service_id r = ModelService.id svc /\ ServiceReplica.generation r = ModelService.generation svc /\
  ServiceReplica.ordinal r = o.
Proof. unfold same_slot. cbn. rewrite !andb_true_iff, eqb_true, !Z.eqb_eq. tauto. Qed.

Lemma create_all_run os L db :
  parents db -> NoDup os -> (forall o, o ∈ os -> 0 <= o /\ Db.replicas db !! new_id o = None) ->
  (forall o o', o ∈ os -> o' ∈ os -> new_id o = new_id o' -> o = o') ->
  (forall r, r ∈ rows (Db.replicas db) -> ServiceReplica.service_id r = ModelService.id svc ->
     ServiceReplica.generation r = ModelService.generation svc -> ServiceReplica.ordinal r ∉ os) ->
  exists db', foldM os L (create_replica new_id svc t) db = (inr (L ++ ((fun o => new o) <$> os)), db') /\
    rows (Db.replicas db') ≡ₚ ((fun o => new o) <$> os) ++ rows (Db.replicas db) /\ beside db db' /\
    (forall i r, Db.replicas db !! i = Some r -> Db.replicas db' !! i = Some r) /\
    (forall i r, Db.replicas db' !! i = Some r -> Db.replicas db !! i = Some r \/
       exists o, o ∈ os /\ i = new_id o /\ r = new o) /\
    (os = [] -> Db.replicas db' = Db.replicas db).
Proof.
  revert L db. induction os as [|o os IH]; intros L db Hp Hd Hn Hinj Hord.
  { exists db. cbn. rewrite app_nil_r. split_and!; try done. by left. }
  apply NoDup_cons in Hd as [Hno Hd]. destruct (Hn o) as [Ho Hnew]; [left|].
  destruct (create_one_run o L db Hp Ho Hnew) as (db1 & E1 & R1 & B1).
  { intros r Hr. apply not_true_iff_false. intros (H1 & H2 & H3)%same_slot_identity.
    apply (Hord r Hr H1 H2). rewrite H3. left. }
  assert (rows (Db.replicas db1) ≡ₚ new o :: rows (Db.replicas db)) as P1 by (rewrite R1; by apply rows_insert_new).
  destruct (IH (L ++ [new o]) db1) as (db' & E & P & B & K & K' & _).
  - destruct Hp, B1. split; congruence.
  - done.
  - intros o' Ho'. destruct (Hn o') as [? ?]; [by right|]. split; [done|]. rewrite R1, lookup_insert_ne; [done|].
    intros Ee. apply Hno. rewrite (Hinj o o'); [done|left|by right|done].
  - intros x y Hx Hy. apply Hinj; by right.
  - intros r Hr H1 H2. rewrite P1 in Hr. apply elem_of_cons in Hr as [->|Hr]; [exact Hno|].
    intros Hi. apply (Hord r Hr H1 H2). by right.
  - exists db'. split_and!; [| |by transitivity db1| | |done].
    + cbn [foldM]. rewrite (bind_run _ _ _ _ _ E1), E. cbn. by rewrite <-(assoc_L (++)).
    + rewrite P, P1. cbn. by rewrite Permutation_middle.
    + intros i r Hr. apply K. rewrite R1, lookup_insert_ne; [done|congruence].
    + intros i r [Hr|(o' & Ho' & Hr)]%K'; [|right; exists o'; split; [by right|done]]. rewrite R1 in Hr.
      apply lookup_insert_Some in Hr as [[<- <-]|[_ Hr]]; [|by left]. right. exists o. by split; [left|].
Qed.
End create.

(** ** The phases *)
Section phases.
Context (svc : Svc) (db0 : Db.t).

Definition mine (r : Rep) : bool := ServiceReplica.service_id r == ModelService.id svc.
Definition nonterminal (r : Rep) : bool := inb (ServiceReplica.status r) NONTERMINAL_REPLICA_STATUSES.
Definition is_current (r : Rep) : bool := ServiceReplica.generation r =? ModelService.generation svc.
Definition slice (db : Db.t) : list Rep := List.filter (fun r => mine r && is_current r) (rows (Db.replicas db)).

(** Between two statements: [L] lists the current rows of the service, the
    superseded ones are not active, and the rest of the database is as it was. *)
Record phase (db : Db.t) (L : list Rep) : Prop := {
  ph_keyed : forall i r, Db.replicas db !! i = Some r -> ServiceReplica.id r = i;
  ph_beside : beside db0 db;
  ph_list : L ≡ₚ slice db;
  ph_old : forall r, r ∈ rows (Db.replicas db) -> mine r = true -> is_current r = false -> active_replica r = false;
  ph_others : forall i r, mine r = false -> Db.replicas db !! i = Some r <-> Db.replicas db0 !! i = Some r;
  ph_ended : forall i r, nonterminal r = false -> Db.replicas db0 !! i = Some r -> Db.replicas db !! i = Some r;
  ph_domain : forall i, Db.replicas db0 !! i = None -> Db.replicas db !! i = None;
  ph_ordinal : forall r, r ∈ L -> 0 <= ServiceReplica.ordinal r;
}.

Lemma same_columns r r' : identity r' = identity r -> mine r' = mine r /\ is_current r' = is_current r.
Proof. intros (_ & E1 & E2 & _)%identity_columns. unfold mine, is_current. by rewrite E1, E2. Qed.

Lemma slice_nodup db : (forall i r, Db.replicas db !! i = Some r -> ServiceReplica.id r = i) ->
  NoDup (ServiceReplica.id <$> slice db).
Proof. intros H. by apply lfilter_fmap_nodup, rows_keys. Qed.

Lemma phase_listed db L : phase db L -> listed db L /\ NoDup (ServiceReplica.id <$> L).
Proof.
  intros [Hk _ HL _ _ _ _ _]. split.
  - intros x Hx. rewrite HL in Hx. apply elem_of_lfilter in Hx as [(k & Hx)%rows_elem _]. by rewrite (Hk _ _ Hx).
  - rewrite HL. by apply slice_nodup.
Qed.

(** What the map over the table keeps, if the victims are the service's. *)
Lemma mark_table now reason d V db db' :
  (forall i r, Db.replicas db !! i = Some r -> ServiceReplica.id r = i) -> listed db V ->
  (forall v, v ∈ V -> mine v = true /\ nonterminal v = true) ->
  Db.replicas db' = mark_row now reason d V <$> Db.replicas db ->
  (forall i r, Db.replicas db' !! i = Some r -> ServiceReplica.id r = i) /\
  (forall i r, mine r = false -> Db.replicas db' !! i = Some r <-> Db.replicas db !! i = Some r) /\
  (forall i r, nonterminal r = false -> Db.replicas db !! i = Some r -> Db.replicas db' !! i = Some r) /\
  (forall i, Db.replicas db !! i = None -> Db.replicas db' !! i = None) /\
  slice db' = mark_row now reason d V <$> slice db.
Proof.
  intros Hk HlV Hmine R. set (f := mark_row now reason d V) in *.
  assert (forall x, identity (f x) = identity x) as Hf by apply mark_identity.
  assert (forall i x, Db.replicas db !! i = Some x -> mine x = false \/ nonterminal x = false -> f x = x) as Hkeep.
  { intros i x Hx Hm. unfold f, mark_row, mark_with. rewrite (proj2 (inb_false _ _)); [done|].
    intros (v & Ev & Hv)%list_elem_of_fmap. pose proof (HlV v Hv) as Hv'.
    rewrite <-Ev, (Hk _ _ Hx), Hx in Hv'. injection Hv' as ->. destruct (Hmine v Hv). naive_solver congruence. }
  split_and!.
  - intros i r. rewrite R, lookup_fmap. intros (x & Hx & ->)%fmap_Some.
    destruct (identity_columns _ _ (Hf x)) as (-> & _). by apply Hk.
  - intros i r Hm. rewrite R, lookup_fmap. split.
    + intros (x & Hx & ->)%fmap_Some. rewrite (proj1 (same_columns _ _ (Hf x))) in Hm. by rewrite (Hkeep i x Hx (or_introl Hm)).
    + intros Hr. rewrite Hr. cbn. by rewrite (Hkeep i r Hr (or_introl Hm)).
  - intros i r Hn Hr. rewrite R, lookup_fmap, Hr. cbn. by rewrite (Hkeep i r Hr (or_intror Hn)).
  - intros i Hi. by rewrite R, lookup_fmap, Hi.
  - unfold slice. rewrite R, rows_fmap. apply lfilter_fmap. intros x _.
    destruct (same_columns _ _ (Hf x)) as [-> ->]. done.
Qed.

(** Stopping some of the listed rows. *)
Lemma stop_phase now reason d V L c db :
  phase db L -> V ⊆ L -> NoDup (ServiceReplica.id <$> V) -> (forall v, v ∈ V -> nonterminal v = true) ->
  stoppable now d V ->
  exists c' db', stop_each svc now reason d V (L, c) db = (inr (mark_row now reason d V <$> L, c'), db') /\
    phase db' (mark_row now reason d V <$> L) /\ ((forall v, v ∈ V -> draining v = true) -> c' = c) /\
    Db.replicas db' = mark_row now reason d V <$> Db.replicas db.
Proof.
  intros Hph HV Hd Hnt Hst. destruct (phase_listed _ _ Hph) as [Hl HdL].
  destruct Hph as [Hk Hb HL Hold Hoth Hend Hdom Hord].
  destruct (stop_each_run svc now reason d V L c db Hk Hl) as (c' & db' & E & R & B & C); [|done|done|].
  { intros x Hx. by apply Hl, HV. }
  destruct (mark_table now reason d V db db') as (Hk' & Hoth' & Hend' & Hdom' & Hsl); [done| | |done|].
  { intros x Hx. by apply Hl, HV. }
  { intros v Hv. split; [|by apply Hnt]. apply HV in Hv. rewrite HL in Hv.
    by apply elem_of_lfilter in Hv as [_ [Hv _]%andb_true_iff]. }
  exists c', db'. split_and!; [done| |done|done]. split; [done|by transitivity db| |..].
  - by rewrite Hsl, HL.
  - intros r. rewrite R, rows_fmap. intros (x & -> & Hx)%list_elem_of_fmap.
    destruct (same_columns _ _ (mark_identity now reason d V x)) as [-> ->]. intros H1 H2.
    apply not_true_iff_false. intros [Ha _]%mark_active. by rewrite (Hold x) in Ha.
  - intros i r Hm. by rewrite Hoth', Hoth.
  - auto.
  - auto.
  - intros r (x & -> & Hx)%list_elem_of_fmap.
    destruct (identity_columns _ _ (mark_identity now reason d V x)) as (_ & _ & _ & ->). auto.
Qed.

(** Victims that are stopping already are left alone. *)
Lemma mark_draining now reason d V db :
  (forall i r, Db.replicas db !! i = Some r -> ServiceReplica.id r = i) -> listed db V ->
  (forall v, v ∈ V -> draining v = true) -> mark_row now reason d V <$> Db.replicas db = Db.replicas db.
Proof.
  intros Hk HV Hdr. apply map_eq. intros i. rewrite lookup_fmap.
  destruct (Db.replicas db !! i) as [x|] eqn:Hx; [|done]. cbn. f_equal. unfold mark_row, mark_with.
  destruct (inb _ _) eqn:Hin; [|done]. rewrite inb_true in Hin. apply list_elem_of_fmap in Hin as (v & Ev & Hv).
  pose proof (HV v Hv) as Hv'. rewrite <-Ev, (Hk _ _ Hx), Hx in Hv'. injection Hv' as ->.
  unfold stop_row. by rewrite (Hdr v Hv).
Qed.

Definition superseded (r : Rep) : bool :=
  negb (is_current r) && nonterminal r.

Lemma nonterminal_cases r : nonterminal r = active_replica r || draining r.
Proof. unfold nonterminal, active_replica, draining. by destruct (ServiceReplica.status r). Qed.

(** The replicas that [list_replicas] returns. *)
Definition loaded (db : Db.t) : list Rep :=
  py_sort replica_key (List.filter (fun r => (ServiceReplica.service_id r == ModelService.id svc) && true)
                         (rows (Db.replicas db))).

Lemma loaded_elem db r : r ∈ loaded db <-> r ∈ rows (Db.replicas db) /\ mine r = true.
Proof. unfold loaded, mine. by rewrite elem_of_py_sort, elem_of_lfilter, andb_true_r. Qed.

Lemma loaded_perm db : loaded db ≡ₚ List.filter mine (rows (Db.replicas db)).
Proof.
  unfold loaded. rewrite py_sort_perm. rewrite (lfilter_ext _ mine); [done|]. intros x _. apply andb_true_r.
Qed.

(** The victims of the first loop are the superseded replicas. *)
Lemma superseded_victims x :
  replicas_ok db0 -> x ∈ rows (Db.replicas db0) -> mine x = true ->
  inb (ServiceReplica.id x) (ServiceReplica.id <$> List.filter superseded (loaded db0)) = superseded x.
Proof.
  intros Hok Hx Hm. pose proof (rk_id db0 Hok) as Hk. apply eq_iff_eq_true. rewrite inb_true, list_elem_of_fmap. split.
  - intros (v & Ev & [Hv Hs]%elem_of_lfilter). apply loaded_elem in Hv as [(j & Hv)%rows_elem _].
    apply rows_elem in Hx as (k & Hx). rewrite (Hk _ _ Hx), (Hk _ _ Hv) in Ev. subst j. congruence.
  - intros Hs. exists x. split; [done|]. apply elem_of_lfilter. by rewrite loaded_elem.
Qed.

(** The first loop stops the superseded replicas. *)
Lemma first_phase now reason d :
  replicas_ok db0 ->
  (forall r, r ∈ rows (Db.replicas db0) -> mine r = true -> is_current r = false -> active_replica r = false) \/
  addable now d = true ->
  let V := List.filter superseded (loaded db0) in
  exists c db', stop_each svc now reason d V (loaded db0, (0, 0)) db0
      = (inr (mark_row now reason d V <$> loaded db0, c), db') /\
    phase db' (List.filter is_current (mark_row now reason d V <$> loaded db0)) /\
    ((forall r, r ∈ rows (Db.replicas db0) -> mine r = true -> is_current r = false -> active_replica r = false) ->
     c = (0, 0) /\ Db.replicas db' = Db.replicas db0).
Proof.
  intros Hok Hadd V. pose proof (rk_id db0 Hok) as Hk.
  assert ((forall r, r ∈ rows (Db.replicas db0) -> mine r = true -> is_current r = false ->
             active_replica r = false) -> forall v, v ∈ V -> draining v = true) as Hdr.
  { intros Hold v [Hv Hs]%elem_of_lfilter. apply loaded_elem in Hv as [Hv Hm]. unfold superseded in Hs.
    apply andb_true_iff in Hs as [Hc%negb_true_iff Hn]. by rewrite nonterminal_cases, (Hold v Hv Hm Hc) in Hn. }
  assert (listed db0 (loaded db0)) as Hl.
  { intros x Hx. apply loaded_elem in Hx as [(k & Hx)%rows_elem _]. by rewrite (Hk _ _ Hx). }
  assert (listed db0 V) as HlV by (intros x [Hx _]%elem_of_lfilter; by apply Hl).
  assert (NoDup (ServiceReplica.id <$> loaded db0)) as Hd
    by (rewrite loaded_perm; by apply lfilter_fmap_nodup, rows_keys).
  destruct (stop_each_run svc now reason d V (loaded db0) (0, 0) db0 Hk Hl HlV) as (c & db' & E & R & B & C).
  { by apply lfilter_fmap_nodup. }
  { destruct Hadd as [Hold|Hadd]; [left; by apply Hdr|by right]. }
  destruct (mark_table now reason d V db0 db' Hk HlV) as (Hk' & Hoth' & Hend' & Hdom' & Hsl); [|done|].
  { by intros v [[_ Hv]%loaded_elem [_ Hn]%andb_true_iff]%elem_of_lfilter. }
  pose proof (mark_identity now reason d V) as Hf.
  exists c, db'. split_and!; [done| |].
  - split; [done|done| | |done|done|done|].
    + rewrite Hsl, (lfilter_fmap _ is_current is_current), (lfilter_perm is_current _ _ (loaded_perm db0)).
      * by rewrite filter_filter_and.
      * intros x _. by destruct (same_columns _ _ (Hf x)) as [_ ->].
    + intros r. rewrite R, rows_fmap. intros (x & -> & Hx)%list_elem_of_fmap.
      destruct (same_columns _ _ (Hf x)) as [-> ->]. intros Hm Hc. unfold mark_row, mark_with.
      unfold V. rewrite (superseded_victims x Hok Hx Hm). unfold superseded. rewrite Hc, nonterminal_cases.
      destruct (active_replica x) eqn:Ha, (draining x); cbn [negb andb orb]; try apply stop_row_inactive. done.
    + intros r [(x & -> & Hx)%list_elem_of_fmap _]%elem_of_lfilter.
      destruct (identity_columns _ _ (Hf x)) as (_ & _ & _ & ->). apply loaded_elem in Hx as [(k & Hx)%rows_elem _].
      pose proof (rk_checks db0 Hok _ _ Hx) as Hc. unfold replica_checks in Hc. rewrite !andb_true_iff in Hc. lia.
  - intros Hold. split; [by apply C, Hdr|]. rewrite R. by apply mark_draining; [| |apply Hdr].
Qed.

Definition unhealthy (r : Rep) : bool :=
  (ServiceReplica.status r == ReplicaStatus.RUNNING) && (ServiceReplica.health r == ReplicaHealth.UNHEALTHY).

Lemma unhealthy_active r : unhealthy r = true -> active_replica r = true.
Proof. unfold unhealthy, active_replica. by destruct (ServiceReplica.status r). Qed.
Lemma mark_unhealthy now reason d V r : unhealthy (mark_row now reason d V r) = true -> unhealthy r = true.
Proof. intros H. pose proof (unhealthy_active _ H) as [_ E]%mark_active. by rewrite <-E. Qed.

(** What the method leaves: [L] lists the current rows. *)
Record settled (db : Db.t) (L : list Rep) : Prop := {
  st_list : L ≡ₚ slice db;
  st_old : forall r, r ∈ rows (Db.replicas db) -> mine r = true -> is_current r = false -> active_replica r = false;
  st_others : forall i r, mine r = false -> Db.replicas db !! i = Some r <-> Db.replicas db0 !! i = Some r;
  st_ended : forall i r, nonterminal r = false -> Db.replicas db0 !! i = Some r -> Db.replicas db !! i = Some r;
}.

(** The last loop adds the missing replicas. *)
Lemma create_phase new_id t n L db :
  phase db L -> parents svc db0 -> 0 <= n ->
  (forall o, 0 <= o -> Db.replicas db0 !! new_id o = None) ->
  (forall o o', 0 <= o -> 0 <= o' -> new_id o = new_id o' -> o = o') ->
  exists db' N, foldM (zrange (next_ordinal_of L) n) L (create_replica new_id svc t) db = (inr (L ++ N), db') /\
    settled db' (L ++ N) /\ beside db0 db' /\ lenZ N = n /\
    (forall i r, Db.replicas db' !! i = Some r ->
       is_Some (Db.replicas db0 !! i) \/ exists o, 0 <= o /\ i = new_id o) /\
    (forall r, r ∈ N -> active_replica r = true /\ unhealthy r = false) /\
    (n = 0 -> Db.replicas db' = Db.replicas db).
Proof.
  intros [Hk Hb HL Hold Hoth Hend Hdom Hord] Hp Hn Hfresh Hinj. set (os := zrange (next_ordinal_of L) n).
  pose proof (next_ordinal_nonneg L Hord) as H0.
  assert (forall o, o ∈ os -> 0 <= o) as Hos by (intros o Ho%zrange_elem; lia).
  destruct (create_all_run new_id svc t os L db) as (db' & E & P & B & K & K' & Z0).
  - destruct Hp, Hb. split; congruence.
  - apply zrange_nodup.
  - intros o Ho%Hos. split; [done|]. by apply Hdom, Hfresh.
  - intros o o' Ho%Hos Ho'%Hos. auto.
  - intros r Hr Hs Hg Ho%zrange_elem. assert (r ∈ L) as HrL.
    { rewrite HL. apply elem_of_lfilter. unfold mine, is_current. by rewrite Hs, Hg, eqb_same, Z.eqb_refl. }
    apply next_ordinal_above in HrL. lia.
  - exists db', ((fun o => new_replica svc (new_id o) o t) <$> os).
    assert (forall o, mine (new_replica svc (new_id o) o t) = true /\
              is_current (new_replica svc (new_id o) o t) = true) as Hnew.
    { intros o. unfold mine, is_current. cbn. by rewrite eqb_same, Z.eqb_refl. }
    split_and!; [done| |by transitivity db| | | |].
    + split.
      * unfold slice. rewrite (lfilter_perm _ _ _ P), List.filter_app, HL. fold (slice db).
        rewrite (lfilter_fmap _ _ (fun _ => true)); [|intros o _; by destruct (Hnew o) as [-> ->]].
        rewrite filter_true by done. apply Permutation_app_comm.
      * intros r Hr Hm Hc. rewrite P in Hr. apply elem_of_app in Hr as [(o & -> & _)%list_elem_of_fmap|Hr]; [|auto].
        by destruct (Hnew o) as [_ Hnc]; rewrite Hnc in Hc.
      * intros i r Hm. rewrite <-Hoth by done. split; [|by apply K].
        intros [Hr|(o & _ & _ & ->)]%K'; [done|]. by rewrite (proj1 (Hnew o)) in Hm.
      * auto.
    + unfold lenZ. rewrite length_fmap. by apply zrange_length.
    + intros i r [Hr|(o & Ho%Hos & -> & _)]%K'; [left|right; eauto].
      destruct (Db.replicas db0 !! i) eqn:Ei; [done|]. by rewrite (Hdom i Ei) in Hr.
    + by intros r (o & -> & _)%list_elem_of_fmap.
    + intros ->. by apply Z0.
Qed.

(** What the scan of the reconciler looks for. *)
Definition stable (db : Db.t) : Prop :=
  (forall r, r ∈ rows (Db.replicas db) -> mine r = true -> is_current r = false -> active_replica r = false) /\
  lenZ (List.filter active_replica (slice db)) = ModelService.desired_replicas svc /\
  (forall r, r ∈ slice db -> unhealthy r = false).

Lemma settled_stable db L N :
  settled db (L ++ N) -> (forall r, r ∈ L -> unhealthy r = false) ->
  (forall r, r ∈ N -> active_replica r = true /\ unhealthy r = false) ->
  lenZ (List.filter active_replica L) + lenZ N = ModelService.desired_replicas svc -> stable db.
Proof.
  intros [T1 T2 _ _] HL HN Hn. split_and!; [exact T2| |].
  - rewrite <-(lenZ_perm _ _ (lfilter_perm _ _ _ T1)), List.filter_app, lenZ_app.
    by rewrite (lfilter_ext _ (fun _ => true) N), (filter_true _ N) by (done || intros x Hx; by apply HN).
  - intros r Hr. rewrite <-T1 in Hr. apply elem_of_app in Hr as [Hr|Hr]; [by apply HL|by apply HN].
Qed.

Lemma stable_needs db s :
  ModelService.id s = ModelService.id svc -> ModelService.generation s = ModelService.generation svc ->
  ModelService.desired_replicas s = ModelService.desired_replicas svc ->
  needs_reconcile db s = false <-> ModelService.status s <> ServiceStatus.PENDING /\ stable db.
Proof.
  intros Ei Eg Ed. unfold needs_reconcile, replicas_of, stable, slice. rewrite Ei, Eg, Ed.
  rewrite !orb_false_iff, eqb_false, negb_false_iff, Z.eqb_eq.
  change (fun r => ServiceReplica.service_id r == ModelService.id svc) with mine.
  change (fun r => (ServiceReplica.generation r =? ModelService.generation svc) && active_replica r)
    with (fun r => is_current r && active_replica r).
  rewrite !filter_filter_and. rewrite (lfilter_ext (fun x => mine x && (is_current x && active_replica x))
    (fun x => mine x && is_current x && active_replica x)) by (intros; apply andb_assoc).
  assert (forall P l, existsb P l = false <-> forall x : Rep, x ∈ l -> P x = false) as Hex.
  { intros P l. rewrite <-not_true_iff_false, existsb_exists. setoid_rewrite <-list_elem_of_In.
    setoid_rewrite <-not_true_iff_false. naive_solver. }
  rewrite !Hex. setoid_rewrite elem_of_lfilter. unfold is_current, unhealthy. split.
  - intros (((H1 & H2) & H3) & H4). split_and!; [done| |done|].
    + intros r Hr Hm Hc. pose proof (H3 r (conj Hr Hm)) as H. by rewrite Hc in H.
    + intros r (Hr & [Hm Hc]%andb_true_iff). pose proof (H4 r (conj Hr Hm)) as H. by rewrite Hc in H.
  - intros (H1 & H3 & H2 & H4). split_and!; [done|done| |].
    + intros r [Hr Hm]. destruct (_ =? _) eqn:Hc; [done|]. by apply H3.
    + intros r [Hr Hm]. destruct (_ =? _) eqn:Hc; [|done]. apply H4. by rewrite Hm, Hc.
Qed.
End phases.

(** ** The method *)
Lemma desired_nonneg svc : service_checks svc = true -> 0 <= ModelService.desired_replicas svc.
Proof. unfold service_checks. rewrite !andb_true_iff. lia. Qed.

Lemma derive_not_pending svc l : _derive_service_status svc l <> ServiceStatus.PENDING.
Proof. unfold _derive_service_status. by repeat case_match. Qed.

Lemma fmap_mark_nil now reason d (L : list Rep) : mark_row now reason d [] <$> L = L.
Proof. exact (list_fmap_id L). Qed.

(** The two middle loops: unhealthy replicas, then the surplus. *)
Lemma middle_phases svc db0 now d L c db :
  phase svc db0 db L ->
  ((forall r, r ∈ L -> unhealthy r = false) /\
   lenZ (List.filter active_replica L) = ModelService.desired_replicas svc) \/ addable now d = true ->
  exists L2 L3 c2 c3 db2 db3 V2 V3,
    V2 = List.filter unhealthy L /\
    V3 = take (Z.to_nat (lenZ (List.filter active_replica L2) - ModelService.desired_replicas svc))
           (py_sort _scale_down_order (List.filter active_replica L2)) /\
    stop_each svc now "replica health threshold exceeded" d V2 (L, c) db = (inr (L2, c2), db2) /\
    stop_each svc now "replica count reduced" d V3 (L2, c2) db2 = (inr (L3, c3), db3) /\
    phase svc db0 db3 L3 /\ (forall r, r ∈ L3 -> unhealthy r = false) /\
    lenZ (List.filter active_replica L3)
      = Z.max 0 (lenZ (List.filter active_replica L2)
                 - Z.max 0 (lenZ (List.filter active_replica L2) - ModelService.desired_replicas svc)) /\
    ((forall r, r ∈ L -> unhealthy r = false) ->
     lenZ (List.filter active_replica L) = ModelService.desired_replicas svc ->
     L3 = L /\ c3 = c /\ Db.replicas db3 = Db.replicas db).
Proof.
  intros Hph Hadd. set (V2 := List.filter unhealthy L).
  assert ((forall r, r ∈ L -> unhealthy r = false) -> V2 = []) as HV2 by by apply lfilter_nil.
  destruct (phase_listed _ _ _ _ Hph) as [Hl Hd].
  destruct (stop_phase svc db0 now "replica health threshold exceeded" d V2 L c db Hph)
    as (c2 & db2 & E2 & P2 & C2 & R2).
  { by intros x [Hx _]%elem_of_lfilter. } { by apply lfilter_fmap_nodup. }
  { intros v [_ Hv]%elem_of_lfilter. apply unhealthy_active in Hv. by rewrite nonterminal_cases, Hv. }
  { destruct Hadd as [[Hun _]|Hadd]; [left; rewrite HV2 by done; by intros v ?%not_elem_of_nil|by right]. }
  set (L2 := mark_row _ _ _ V2 <$> L) in *.
  set (V3 := take (Z.to_nat (lenZ (List.filter active_replica L2) - ModelService.desired_replicas svc))
               (py_sort _scale_down_order (List.filter active_replica L2))).
  assert ((forall r, r ∈ L -> unhealthy r = false) -> L2 = L) as HL2
    by (intros Hun; unfold L2; rewrite HV2 by done; apply fmap_mark_nil).
  assert ((forall r, r ∈ L -> unhealthy r = false) ->
    lenZ (List.filter active_replica L) = ModelService.desired_replicas svc -> V3 = []) as HV3
    by (intros Hun Hc; unfold V3; by rewrite HL2, Hc, Z.sub_diag by done).
  destruct (phase_listed _ _ _ _ P2) as [Hl2 Hd2].
  destruct (stop_phase svc db0 now "replica count reduced" d V3 L2 c2 db2 P2) as (c3 & db3 & E3 & P3 & C3 & R3).
  { intros x (i & Hx%list_elem_of_lookup_2 & _)%elem_of_take. apply elem_of_py_sort in Hx.
    by apply elem_of_lfilter in Hx as [Hx _]. }
  { unfold V3. rewrite fmap_take. apply (sublist_NoDup _ (ServiceReplica.id <$> py_sort _scale_down_order
      (List.filter active_replica L2))); [|apply sublist_take].
    rewrite py_sort_perm. by apply lfilter_fmap_nodup. }
  { intros v (i & Hx%list_elem_of_lookup_2 & _)%elem_of_take. apply elem_of_py_sort, elem_of_lfilter in Hx as [_ Hx].
    by rewrite nonterminal_cases, Hx. }
  { destruct Hadd as [[Hun Hc]|Hadd]; [left; rewrite HV3 by done; by intros v ?%not_elem_of_nil|by right]. }
  exists L2, (mark_row now "replica count reduced" d V3 <$> L2), c2, c3, db2, db3, V2, V3.
  split_and!; try done.
  - intros r (x & -> & Hx)%list_elem_of_fmap. apply not_true_iff_false. intros Hu%mark_unhealthy.
    apply list_elem_of_fmap in Hx as (y & -> & Hy). pose proof (mark_unhealthy _ _ _ _ _ Hu) as Huy.
    apply unhealthy_active in Hu. unfold mark_row, mark_with in Hu. rewrite (proj2 (inb_true _ _)), stop_row_inactive in Hu; [done|].
    apply list_elem_of_fmap_2, elem_of_lfilter. done.
  - unfold V3. rewrite marked_actives by done. f_equal. lia.
  - intros Hun Hcount. pose proof (HV2 Hun) as EV2. pose proof (HL2 Hun) as EL2. pose proof (HV3 Hun Hcount) as EV3.
    split_and!; [rewrite EV3, EL2; apply fmap_mark_nil| |].
    + rewrite C3, C2; [done|rewrite EV2|rewrite EV3]; by intros v ?%not_elem_of_nil.
    + rewrite R3, R2, EV2, EV3. by rewrite !map_fmap_id.
Qed.

Definition fresh_ids (new_id : Z -> N) (db : Db.t) : Prop :=
  (forall o, 0 <= o -> Db.replicas db !! new_id o = None) /\
  (forall o o', 0 <= o -> 0 <= o' -> new_id o = new_id o' -> o = o').

Ltac ran E := erewrite bind_run; [|exact E]; cbv beta iota.

Lemma reconcile_run new_id svc now d db0 :
  replicas_ok db0 -> parents svc db0 -> Db.services db0 !! ModelService.id svc = Some svc ->
  flt d f0 = false -> fresh_ids new_id db0 ->
  stable svc db0 \/ addable (default (Db.clock db0) now) d = true ->
  exists res db' s', reconcile_locked new_id svc now d db0 = (inr res, db') /\
    Db.services db' = <[ModelService.id svc := s']> (Db.services db0) /\
    Db.logical_models db' = Db.logical_models db0 /\ Db.model_variants db' = Db.model_variants db0 /\
    (forall i r, Db.replicas db' !! i = Some r ->
       is_Some (Db.replicas db0 !! i) \/ exists o, 0 <= o /\ i = new_id o) /\ spec_of s' = spec_of svc /\
    ModelService.status s' <> ServiceStatus.PENDING /\ stable svc db' /\
    (forall i r, mine svc r = false -> Db.replicas db' !! i = Some r <-> Db.replicas db0 !! i = Some r) /\
    (forall i r, nonterminal r = false -> Db.replicas db0 !! i = Some r -> Db.replicas db' !! i = Some r) /\
    (stable svc db0 -> Db.replicas db' = Db.replicas db0 /\ ReconcileResult.replicas_created res = 0 /\
       ReconcileResult.replicas_stopping res = 0 /\ ReconcileResult.replicas_stopped res = 0).
Proof.
  intros Hok Hp Hs Hd [Hfr Hinj] Hadd. set (t := default (Db.clock db0) now) in *.
  destruct (first_phase svc db0 t "generation superseded" d Hok) as (c1 & db1 & E1 & P1 & S1).
  { destruct Hadd as [[H1 _]|Hadd]; [by left|by right]. }
  set (L1 := List.filter _ (mark_row _ _ _ _ <$> _)) in P1.
  assert (stable svc db0 -> (forall r, r ∈ L1 -> unhealthy r = false) /\
    lenZ (List.filter active_replica L1) = ModelService.desired_replicas svc) as HL1.
  { intros (H1 & H2 & H3). destruct (S1 H1) as [_ R1]. assert (slice svc db1 = slice svc db0) as Esl
      by (unfold slice; by rewrite R1).
    split; [intros r Hr; rewrite (ph_list _ _ _ _ P1), Esl in Hr; auto|].
    by rewrite (lenZ_perm _ _ (lfilter_perm _ _ _ (ph_list _ _ _ _ P1))), Esl. }
  destruct (middle_phases svc db0 t d L1 c1 db1 P1)
    as (L2 & L3 & c2 & [a3 b3] & db2 & db3 & V2 & V3 & -> & -> & E2 & E3 & P3 & U3 & A3 & S3).
  { destruct Hadd as [Hsb|Hadd]; [left; by apply HL1|by right]. }
  set (n := Z.max 0 (ModelService.desired_replicas svc - lenZ (List.filter active_replica L3))).
  destruct (create_phase svc db0 new_id t n L3 db3 P3 Hp) as (db4 & Nw & E4 & [T1 T2 T3 T4] & B4 & HN & HDom & HNew & Z4);
    [lia|done|done|].
  set (derived := _derive_service_status svc (L3 ++ Nw)).
  set (changed := (ModelService.status svc !== derived) || (0 <? lenZ (zrange (next_ordinal_of L3) n))
                  || (0 <? a3) || (0 <? b3)).
  set (f := fun s : Svc => s <| ModelService.status := derived |> <| ModelService.updated_at := t |>
        <| ModelService.version ::= Z.succ |>
        <| ModelService.stopped_at := if derived == ServiceStatus.STOPPED then Some t else None |>).
  exists (ReconcileResult.mk 1 (lenZ (zrange (next_ordinal_of L3) n)) a3 b3 (int_of_bool changed)).
  exists (if changed then db4 <| Db.services ::= alter f (ModelService.id svc) |> else db4).
  exists (if changed then f svc else svc). split_and!.
  - unfold reconcile_locked. cbv zeta. erewrite bind_run; [|rewrite Hd; reflexivity].
    rewrite (bind_run _ _ db0 t db0) by (by destruct now). rewrite (bind_run _ _ db0 (loaded svc db0) db0) by done.
    ran E1. ran E2. ran E3. ran E4. fold derived.
    change (lenZ (zrange _ _)) with (lenZ (zrange (next_ordinal_of L3) n)). fold changed.
    by destruct changed.
  - destruct changed; fields; rewrite (bs_services _ _ B4); [by apply alter_row|by rewrite insert_id].
  - by destruct changed; fields; apply B4.
  - by destruct changed; fields; apply B4.
  - by destruct changed.
  - by destruct changed.
  - destruct changed eqn:Ec; [apply derive_not_pending|]. unfold changed in Ec.
    rewrite !orb_false_iff, negb_false_iff, eqb_true in Ec. destruct Ec as (((-> & _) & _) & _).
    apply derive_not_pending.
  - assert (stable svc db4) as Hst; [|by destruct changed]. apply (settled_stable svc db0 db4 L3 Nw); [by split|done|done|].
    pose proof (desired_nonneg _ (pr_checks _ _ Hp)). unfold n in *. lia.
  - by destruct changed.
  - by destruct changed.
  - intros Hsb. destruct (HL1 Hsb) as [HU HC]. destruct (S1 (proj1 Hsb)) as [-> R1].
    destruct (S3 HU HC) as (-> & Ec & R3).
    injection Ec as -> ->. assert (n = 0) as Hn by (unfold n; rewrite HC; lia).
    rewrite zrange_length by lia. split_and!; [|done|done|done].
    transitivity (Db.replicas db4); [by destruct changed|]. by rewrite Z4, R3, R1.
Qed.

(** ** A service at rest stays at rest *)
Lemma mine_perm svc db db' :
  replicas_ok db -> replicas_ok db' ->
  (forall i r, mine svc r = true -> Db.replicas db' !! i = Some r <-> Db.replicas db !! i = Some r) ->
  List.filter (mine svc) (rows (Db.replicas db')) ≡ₚ List.filter (mine svc) (rows (Db.replicas db)).
Proof.
  intros H H' E. apply NoDup_Permutation.
  - apply (NoDup_fmap_1 ServiceReplica.id), lfilter_fmap_nodup, rows_keys, H'.
  - apply (NoDup_fmap_1 ServiceReplica.id), lfilter_fmap_nodup, rows_keys, H.
  - intros r. rewrite !elem_of_lfilter, !rows_elem. split; intros [(i & Hi) Hm]; (split; [exists i|done]); by apply E.
Qed.

Lemma stable_frame svc db db' :
  replicas_ok db -> replicas_ok db' ->
  (forall i r, mine svc r = true -> Db.replicas db' !! i = Some r <-> Db.replicas db !! i = Some r) ->
  stable svc db -> stable svc db'.
Proof.
  intros H H' E (S1 & S2 & S3). pose proof (mine_perm svc db db' H H' E) as P.
  assert (slice svc db' ≡ₚ slice svc db) as Ps.
  { unfold slice. rewrite <-!filter_filter_and. by apply lfilter_perm. }
  split_and!.
  - intros r Hr Hm. assert (r ∈ List.filter (mine svc) (rows (Db.replicas db'))) as Hr' by by apply elem_of_lfilter.
    rewrite P in Hr'. apply elem_of_lfilter in Hr' as [Hr' _]. auto.
  - by rewrite (lenZ_perm _ _ (lfilter_perm _ _ _ Ps)).
  - intros r Hr. rewrite Ps in Hr. auto.
Qed.

(** ** One service *)
Lemma reachable_parents db i s :
  reachable db -> Db.services db !! i = Some s -> ModelService.id s = i /\ parents s db.
Proof.
  intros Hr Hs. destruct (bk_rows db (reachable_books db Hr) i s Hs) as [Hi Hc].
  pose proof (reachable_registry db Hr) as Hg. split; [done|]. split; [done| | |].
  - rewrite Hi. eauto.
  - apply missing_false. intros l Hl. by eapply (rg_service_model db Hg).
  - apply missing_false. intros v Hv. by eapply (rg_service_variant db Hg).
Qed.

Lemma spec_columns s s' :
  spec_of s' = spec_of s -> ModelService.id s' = ModelService.id s /\
  ModelService.generation s' = ModelService.generation s /\
  ModelService.desired_replicas s' = ModelService.desired_replicas s /\ service_checks s' = service_checks s /\
  ModelService.logical_model_id s' = ModelService.logical_model_id s /\
  ModelService.model_variant_id s' = ModelService.model_variant_id s.
Proof.
  intros E. split_and!; [exact (f_equal ModelService.id E)|exact (f_equal ModelService.generation E)
    |exact (f_equal ModelService.desired_replicas E)|exact (f_equal service_checks E)
    |exact (f_equal ModelService.logical_model_id E)|exact (f_equal ModelService.model_variant_id E)].
Qed.

Lemma reconcile_replicas_kept new_id s now d : frames replicas_kept (reconcile_locked new_id s now d).
Proof. frame_replicas. Qed.

(** C13: reconciliation converges.  For a service of a reachable database,
    fresh replica ids and a drain timeout that is not negative and for which
    the deadline, the time of the pass plus the timeout, is a [datetime]
    (neither infinity nor NaN, and not past the year 9999: [timedelta] and
    [datetime] raise there), [reconcile_locked] returns, and afterwards the
    service no longer satisfies the reconciler's scan: it is not pending, it
    has exactly [desired_replicas] active replicas of its generation, no
    superseded replica is active and none is running unhealthy.  The
    specification of the service and the replicas of other services are as
    they were.  A second pass, at any time and with any drain timeout that is
    not negative, creates and stops nothing and leaves every replica alone. *)
Theorem reconcile_converges new_id i s now d db
    (Hr : reachable db) (Hs : Db.services db !! i = Some s) (Hd : flt d f0 = false)
    (Hadd : addable (default (Db.clock db) now) d = true) (Hfresh : fresh_ids new_id db) :
  exists res db' s', reconcile_locked new_id s now d db = (inr res, db') /\
    Db.services db' !! i = Some s' /\ spec_of s' = spec_of s /\ needs_reconcile db' s' = false /\
    (forall j r, ServiceReplica.service_id r <> i ->
       Db.replicas db' !! j = Some r <-> Db.replicas db !! j = Some r) /\
    (forall new_id' now' d', flt d' f0 = false -> fresh_ids new_id' db' ->
       exists res' db'', reconcile_locked new_id' s' now' d' db' = (inr res', db'') /\
         Db.replicas db'' = Db.replicas db' /\ ReconcileResult.replicas_created res' = 0 /\
         ReconcileResult.replicas_stopping res' = 0 /\ ReconcileResult.replicas_stopped res' = 0).
Proof.
  pose proof (reachable_replicas db Hr) as Hok. destruct (reachable_parents db i s Hr Hs) as [Hi Hp].
  destruct (reconcile_run new_id s now d db Hok Hp) as (res & db' & s' & E & Es & Em & Ev & _ & Esp & Hst & Hstab & Hoth & _);
    [by rewrite Hi|done|done|by right|].
  destruct (spec_columns _ _ Esp) as (E1 & E2 & E3 & E4 & E5 & E6). exists res, db', s'. split_and!; [done| |done| | |].
  - by rewrite Es, Hi, lookup_insert_eq.
  - by apply (stable_needs s).
  - intros j r Hj. apply Hoth. unfold mine. rewrite Hi. by apply eqb_false.
  - intros new_id' now' d' Hd' Hf'. assert (stable s' db') as Hstab'
      by (destruct Hstab as (H1 & H2 & H3); unfold stable, slice, mine, is_current in *; by rewrite E1, E2, E3).
    pose proof (frames_run replicas_kept _ _ _ _ (reconcile_replicas_kept new_id s now d) E Hok) as [Hok' _].
    destruct (reconcile_run new_id' s' now' d' db' Hok') as (res' & db'' & s'' & E' & _ & _ & _ & _ & _ & _ & _ & _ & _ & Hid);
      [|by rewrite Es, E1, lookup_insert_eq|done|done|by left|].
    + destruct Hp as [P1 P2 P3 P4]. split; [congruence|rewrite Es, E1, lookup_insert_eq; eauto| |]; congruence.
    + exists res', db''. split; [done|]. by apply Hid.
Qed.

Lemma reconcile_converges_witness :
  exists res db' s', reconcile_locked (ServiceScenario.replica_id 41)
      (default (new_service 0 (ServiceScenario.plain "" 0) None 0) (Db.services ServiceScenario.created !! 41%N))
      None (float_of_Z 30) ServiceScenario.created = (inr res, db') /\
    Db.services db' !! 41%N = Some s' /\ needs_reconcile db' s' = false.
Proof.
  destruct (Db.services ServiceScenario.created !! 41%N) as [s|] eqn:E; [|present E]. cbn [default].
  destruct (reconcile_converges (ServiceScenario.replica_id 41) 41 s None (float_of_Z 30) ServiceScenario.created)
    as (res & db' & s' & E1 & E2 & _ & E3 & _).
  - apply ServiceScenario.created_reachable.
  - exact E.
  - by vm_compute.
  - by vm_compute.
  - split; [|unfold ServiceScenario.replica_id; lia].
    assert (Db.replicas ServiceScenario.created = ∅) as F by by vm_compute. intros o _. by rewrite F, lookup_empty.
  - exists res, db', s'. exact (conj E1 (conj E2 E3)).
Defined.

(** ** A pass over many services *)
Definition fresh_batch (new_id : N -> Z -> N) (db : Db.t) : Prop :=
  (forall i o, 0 <= o -> Db.replicas db !! new_id i o = None) /\
  (forall i i' o o', 0 <= o -> 0 <= o' -> new_id i o = new_id i' o' -> i = i' /\ o = o').

(** What a pass leaves of a service it examined. *)
Definition at_rest (db : Db.t) (s : Svc) : Prop :=
  exists s', Db.services db !! ModelService.id s = Some s' /\ spec_of s' = spec_of s /\
    ModelService.status s' <> ServiceStatus.PENDING /\ stable s db.

Section batch.
Context (new_id : N -> Z -> N) (timeout : Svc -> float) (now : Z).
Hypothesis timeout_ok : forall s, flt (timeout s) f0 = false.
Hypothesis timeout_add : forall s, addable now (timeout s) = true.

Definition pass (l : list Svc) (res : ReconcileResult.t) : Sess ReconcileResult.t :=
  foldM l res (fun result s =>
    one ← reconcile_locked (new_id (ModelService.id s)) s (Some now) (timeout s);
    mret (ReconcileResult.add result one)).

Lemma pass_run l res db :
  replicas_ok db -> (forall s, s ∈ l -> Db.services db !! ModelService.id s = Some s /\ parents s db) ->
  NoDup (ModelService.id <$> l) ->
  (forall i o, i ∈ ModelService.id <$> l -> 0 <= o -> Db.replicas db !! new_id i o = None) ->
  (forall i i' o o', 0 <= o -> 0 <= o' -> new_id i o = new_id i' o' -> i = i' /\ o = o') ->
  exists res' db', pass l res db = (inr res', db') /\ replicas_ok db' /\
    (forall s, s ∈ l -> at_rest db' s) /\
    (forall i, i ∉ ModelService.id <$> l -> Db.services db' !! i = Db.services db !! i) /\
    (forall j r, ServiceReplica.service_id r ∉ ModelService.id <$> l ->
       Db.replicas db' !! j = Some r <-> Db.replicas db !! j = Some r) /\
    (forall j r, nonterminal r = false -> Db.replicas db !! j = Some r -> Db.replicas db' !! j = Some r).
Proof.
  revert res db. induction l as [|s l IH]; intros res db Hok Hl Hd Hf Hinj.
  { exists res, db. split_and!; try done. by intros s ?%not_elem_of_nil. }
  apply NoDup_cons in Hd as [Hns Hd]. destruct (Hl s) as [Hs Hp]; [left|].
  destruct (reconcile_run (new_id (ModelService.id s)) s (Some now) (timeout s) db Hok Hp Hs (timeout_ok s))
    as (one & db1 & s1 & E1 & Es & Em & Ev & HD & Esp & Hst & Hstab & Hoth & Hend & _).
  { split; [intros o; apply Hf; left|intros o o' H0 H1 He; by apply (Hinj _ _ _ _ H0 H1 He)]. }
  { right. apply timeout_add. }
  pose proof (frames_run replicas_kept _ _ _ _ (reconcile_replicas_kept _ s (Some now) _) E1 Hok) as [Hok1 _].
  assert (forall x, x ∈ l -> ModelService.id x <> ModelService.id s) as Hdiff.
  { intros x Hx Ex. apply Hns. rewrite <-Ex. by apply list_elem_of_fmap_2. }
  destruct (IH (ReconcileResult.add res one) db1 Hok1) as (res' & db' & E & Hok' & Hrest & Hsv & Hrp & Hen); [|done| |done|].
  { intros x Hx. destruct (Hl x) as [Hx' [P1 P2 P3 P4]]; [by right|]. specialize (Hdiff x Hx).
    rewrite Es, lookup_insert_ne by done. split; [done|]. split; [done| |congruence|congruence].
    rewrite Es, lookup_insert_ne by done. done. }
  { intros i o Hi Ho. apply eq_None_not_Some. intros [r Hr].
    destruct (HD _ _ Hr) as [[x Hx]|(o' & Ho' & Ee)].
    - by rewrite (Hf i o) in Hx; [|by right|].
    - destruct (Hinj _ _ _ _ Ho Ho' Ee) as [-> _]. done. }
  exists res', db'. split_and!; [|done| | | |auto].
  - unfold pass in *. cbn [foldM]. erewrite bind_run; [exact E|]. by rewrite (bind_run _ _ _ _ _ E1).
  - intros x [->|Hx]%elem_of_cons; [|by apply Hrest]. exists s1. rewrite Hsv by done.
    rewrite Es, lookup_insert_eq. split_and!; try done. apply (stable_frame s db1); [done|done| |done].
    intros i r Hm. apply Hrp. unfold mine in Hm. rewrite eqb_true in Hm. by rewrite Hm.
  - intros i [Hne Hi]%not_elem_of_cons. rewrite Hsv by done. by rewrite Es, lookup_insert_ne.
  - intros j r [Hne Hi]%not_elem_of_cons. rewrite Hrp by done. apply Hoth. unfold mine. by apply eqb_false.
Qed.
End batch.
