(* ===== verification/ReconcilerPass.v ===== *)
(** * A pass of the service reconciler

    [ServiceReconciler.run_once] retires the replicas whose lease expired and
    reconciles the services that differ from their intent.  With a batch that
    covers the services, one pass leaves nothing to do for the next. *)

From S2P Require Import Prelude PyString PyFloat PyUrl Enums Policies Store Frames Names Quotas Tasks Invariant.
From S2P Require Import Services ModelRegistry Gateway ServiceControl ServiceFrames System.
From S2P Require Import ServiceInvariant Scenario ServiceScenario Replicas RegistryInvariant Convergence.
Import ServiceRepository.

#[local] Open Scope stdpp_scope.
#[local] Open Scope Z_scope.

(** ** Expired leases *)

(** The row after [expire_replica]. *)
Definition expired_row (now : Z) (r : Rep) : Rep :=
  (retired (lost_status r) now r) <| ServiceReplica.error_code := Some "LEASE_EXPIRED" |>
    <| ServiceReplica.error_message := Some "service replica lease expired" |>.

Lemma expire_run svc now r db :
  Db.replicas db !! ServiceReplica.id r = Some r ->
  exists st db', expire_replica svc now r db = (inr st, db') /\
    Db.replicas db' = <[ServiceReplica.id r := expired_row now r]> (Db.replicas db) /\ beside db db'.
Proof.
  intros Hr. unfold expire_replica. eexists _, _. split; [reflexivity|].
  split; [exact (alter_row _ _ _ r Hr)|done].
Qed.

Lemma expire_all_run svc now V c db :
  (forall i r, Db.replicas db !! i = Some r -> ServiceReplica.id r = i) -> listed db V ->
  NoDup (ServiceReplica.id <$> V) ->
  exists c' db', foldM V c (fun '(lost, stopped) replica =>
      status ← expire_replica svc now replica;
      mret (lost + int_of_bool (status == ReplicaStatus.LOST),
            stopped + int_of_bool (status == ReplicaStatus.STOPPED))) db = (inr c', db') /\
    Db.replicas db' = mark_with (expired_row now) V <$> Db.replicas db /\ beside db db'.
Proof.
  revert c db. induction V as [|v V IH]; intros [a b] db Hk HV Hd.
  { exists (a, b), db. split_and!; [done|by rewrite map_fmap_id|done]. }
  apply NoDup_cons in Hd as [Hnv Hd].
  assert (Db.replicas db !! ServiceReplica.id v = Some v) as Hv by (apply HV; left).
  destruct (expire_run svc now v db Hv) as (st & db1 & E1 & R1 & B1).
  destruct (IH (a + int_of_bool (st == ReplicaStatus.LOST), b + int_of_bool (st == ReplicaStatus.STOPPED)) db1)
    as (c' & db' & E & R & B); [..|done|].
  - intros i r. rewrite R1. intros [[<- <-]|[_ Hr]]%lookup_insert_Some; [done|auto].
  - intros x Hx. rewrite R1, lookup_insert_ne; [apply HV; by right|].
    intros Ex. apply Hnv. rewrite Ex. by apply list_elem_of_fmap_2.
  - exists c', db'. split_and!; [|rewrite R, R1; by apply mark_table_cons|by transitivity db1].
    cbn [foldM]. erewrite bind_run; [exact E|]. by rewrite (bind_run _ _ _ _ _ E1).
Qed.

(** An expired row has no lease any more. *)
Lemma expired_row_done now r : lease_expired now (expired_row now r) = false.
Proof. unfold lease_expired, expired_row, retired. fields. apply andb_false_r. Qed.

Lemma expired_row_identity now r : identity (expired_row now r) = identity r.
Proof. done. Qed.

Lemma refresh_run svc now db :
  exists s' db', _refresh_service_status svc now db = (inr s', db') /\ Db.replicas db' = Db.replicas db.
Proof.
  unfold _refresh_service_status, list_replicas, mbind, M_bind, gets. cbv zeta.
  destruct (ModelService.status svc == _); by eexists _, _.
Qed.

(** The replicas of [l] whose lease has expired are retired. *)
Definition sweep (now : Z) (l : list Svc) (r : Rep) : Rep :=
  if inb (ServiceReplica.service_id r) (ModelService.id <$> l) && lease_expired now r
  then expired_row now r else r.

Lemma inb_cons {A} `{EqDecision A} (x y : A) l : inb x (y :: l) = (x == y) || inb x l.
Proof. apply eq_iff_eq_true. by rewrite orb_true_iff, eqb_true, !inb_true, elem_of_cons. Qed.

Lemma sweep_cons now s l r : sweep now l (sweep now [s] r) = sweep now (s :: l) r.
Proof.
  unfold sweep at 2 3. cbn [fmap list_fmap]. rewrite !inb_cons, orb_false_r.
  destruct (ServiceReplica.service_id r == ModelService.id s), (lease_expired now r) eqn:El; cbn [orb andb].
  - unfold sweep. by rewrite expired_row_done, andb_false_r.
  - unfold sweep. by rewrite El, andb_false_r.
  - unfold sweep. by rewrite El.
  - unfold sweep. by rewrite El.
Qed.

Lemma service_sweep now s db :
  replicas_ok db ->
  mark_with (expired_row now) (py_sort lease_key (List.filter (lease_expired now) (replicas_of db s)))
    <$> Db.replicas db = sweep now [s] <$> Db.replicas db.
Proof.
  intros Hok. apply map_eq. intros i. rewrite !lookup_fmap. destruct (Db.replicas db !! i) as [r|] eqn:Hr; [|done].
  cbn. f_equal. unfold mark_with, sweep. cbn [fmap list_fmap].
  set (V := py_sort _ _). assert (inb (ServiceReplica.id r) (ServiceReplica.id <$> V)
    = inb (ServiceReplica.service_id r) [ModelService.id s] && lease_expired now r) as ->; [|done].
  apply eq_iff_eq_true. rewrite andb_true_iff, !inb_true, list_elem_of_singleton, list_elem_of_fmap.
  assert (forall x, x ∈ V <-> (exists k, Db.replicas db !! k = Some x) /\
            ServiceReplica.service_id x = ModelService.id s /\ lease_expired now x = true) as HV.
  { intros x. unfold V, replicas_of. rewrite elem_of_py_sort, !elem_of_lfilter, rows_elem, eqb_true. tauto. }
  setoid_rewrite HV. split.
  - intros (x & Ex & (k & Hk) & H1 & H2). rewrite (rk_id db Hok _ _ Hr), (rk_id db Hok _ _ Hk) in Ex. subst k. by assert (x = r) as -> by congruence.
  - intros [H1 H2]. exists r. eauto.
Qed.

(** The body of the loop over the services. *)
Definition sweep_service (now : Z) : Z * Z -> Svc -> Sess (Z * Z) := fun '(lost, stopped) service =>
  replicas ← gets (fun db => py_sort lease_key (List.filter (lease_expired now) (replicas_of db service)));
  counts ← foldM replicas (lost, stopped) (fun '(lost, stopped) replica =>
    status ← expire_replica service now replica;
    mret (lost + int_of_bool (status == ReplicaStatus.LOST),
          stopped + int_of_bool (status == ReplicaStatus.STOPPED)));
  _ ← when (negb (bool_decide (replicas = []))) (_ ← _refresh_service_status service now; mret tt);
  mret counts.

Lemma sweep_service_run now c s db :
  replicas_ok db ->
  exists c' db', sweep_service now c s db = (inr c', db') /\ Db.replicas db' = sweep now [s] <$> Db.replicas db.
Proof.
  intros Hok. destruct c as [a b]. unfold sweep_service.
  set (V := py_sort lease_key (List.filter (lease_expired now) (replicas_of db s))).
  assert (listed db V) as HlV.
  { intros x. unfold V, replicas_of. rewrite elem_of_py_sort, !elem_of_lfilter, rows_elem.
    intros [[(k & Hk) _] _]. by rewrite (rk_id db Hok _ _ Hk). }
  destruct (expire_all_run s now V (a, b) db (rk_id db Hok) HlV) as (c1 & db1 & E1 & R1 & _).
  { unfold V. rewrite py_sort_perm. apply lfilter_fmap_nodup, lfilter_fmap_nodup, rows_keys, Hok. }
  rewrite (bind_run _ _ db V db) by done. rewrite (bind_run _ _ _ _ _ E1).
  rewrite <-(service_sweep now s db Hok). fold V. rewrite <-R1. destruct (refresh_run s now db1) as (s' & db2 & E2 & R2).
  exists c1. destruct (negb _); cbn [when]; [exists db2|by exists db1].
  split; [|done]. unfold when. erewrite bind_run; [reflexivity|]. by rewrite (bind_run _ _ _ _ _ E2).
Qed.

Lemma sweep_run l now c db :
  replicas_ok db ->
  exists c' db', foldM l c (sweep_service now) db = (inr c', db') /\
    Db.replicas db' = sweep now l <$> Db.replicas db.
Proof.
  revert c db. induction l as [|s l IH]; intros c db Hok.
  { exists c, db. split; [done|]. symmetry. by apply map_fmap_id. }
  destruct (sweep_service_run now c s db Hok) as (c1 & db1 & E1 & R1).
  assert (replicas_ok db1) as Hok1.
  { eapply (frames_run replicas_kept); [|exact E1|exact Hok]. frame_replicas. }
  destruct (IH c1 db1 Hok1) as (c' & db' & E & R). exists c', db'. cbn [foldM].
  rewrite (bind_run _ _ _ _ _ E1). split; [done|]. rewrite R, R1, <-map_fmap_compose. apply map_fmap_ext.
  intros i r _. apply sweep_cons.
Qed.

Lemma recover_run limit locked db :
  replicas_ok db ->
  exists res db', recover_expired_leases limit locked db = (inr res, db') /\
    Db.replicas db' = sweep (Db.clock db) (expired_lease_services_query db limit locked (Db.clock db))
                        <$> Db.replicas db.
Proof.
  intros Hok. set (l := expired_lease_services_query db limit locked (Db.clock db)).
  destruct (sweep_run l (Db.clock db) (0, 0) db Hok) as ([lost stopped] & db' & E & R).
  exists (LeaseRecoveryResult.mk (lenZ l) lost stopped), db'. split; [|done].
  unfold recover_expired_leases, database_utcnow. rewrite (bind_run _ _ db (Db.clock db) db) by done.
  rewrite (bind_run _ _ db l db) by done. erewrite bind_run; [|exact E]. done.
Qed.

(** ** The batch *)
Lemma batch_elem db (wanted : Svc -> bool) n locked s :
  s ∈ service_batch db wanted n locked -> (exists i, Db.services db !! i = Some s) /\ wanted s = true.
Proof.
  unfold service_batch. intros (k & Hs%list_elem_of_lookup_2 & _)%elem_of_take.
  rewrite elem_of_py_sort, elem_of_lfilter, rows_elem, andb_true_iff in Hs. tauto.
Qed.

(** A batch that is not cut short has every wanted service. *)
Lemma batch_complete db (wanted : Svc -> bool) n i s :
  (List.length (rows (Db.services db)) <= n)%nat -> Db.services db !! i = Some s -> wanted s = true ->
  s ∈ service_batch db wanted n ∅.
Proof.
  intros Hn Hs Hw. unfold service_batch. rewrite take_ge.
  - rewrite elem_of_py_sort, elem_of_lfilter, rows_elem, Hw. split; [eauto|].
    by rewrite bool_decide_eq_false_2 by set_solver.
  - rewrite (Permutation_length (py_sort_perm _ _)). etrans; [apply List.filter_length_le|done].
Qed.

Lemma batch_nodup db (wanted : Svc -> bool) n locked :
  books db -> NoDup (ModelService.id <$> service_batch db wanted n locked).
Proof.
  intros Hb. unfold service_batch. rewrite fmap_take. eapply sublist_NoDup; [|apply sublist_take].
  rewrite py_sort_perm. apply lfilter_fmap_nodup, rows_keys. intros i s Hs. by apply (bk_rows db Hb).
Qed.

(** The drain deadlines of a pass at [now] are [datetime]s. *)
Definition drain_deadlines (now : Z) (d : float) (kd : option float) : Prop :=
  addable now d = true /\ match kd with Some k => addable now k = true | None => True end.

Lemma reconcile_batch_run new_id n locked d kd db :
  replicas_ok db -> books db -> registry_ok db -> flt d f0 = false -> ServiceReconciler.negative kd = false ->
  drain_deadlines (Db.clock db) d kd -> fresh_batch new_id db ->
  exists res db', reconcile_batch new_id n locked d kd db = (inr res, db') /\
    (forall s, s ∈ reconcile_candidates_query db n locked -> at_rest db' s) /\
    (forall i s, Db.services db !! i = Some s -> s ∉ reconcile_candidates_query db n locked ->
       Db.services db' !! i = Some s /\ (stable s db -> stable s db')) /\
    (forall i s', Db.services db' !! i = Some s' -> is_Some (Db.services db !! i)) /\
    (forall j r, nonterminal r = false -> Db.replicas db !! j = Some r -> Db.replicas db' !! j = Some r).
Proof.
  intros Hok Hb Hg Hd Hkd [Ha Hka] [Hf Hinj]. set (l := reconcile_candidates_query db n locked).
  assert (forall s, flt (resolved_drain_timeout s d kd) f0 = false) as Ht.
  { intros s. unfold resolved_drain_timeout. by destruct (ModelService.runtime_type s), kd. }
  assert (forall s, addable (Db.clock db) (resolved_drain_timeout s d kd) = true) as Hta.
  { intros s. unfold resolved_drain_timeout. by destruct (ModelService.runtime_type s), kd. }
  assert (forall s, s ∈ l -> Db.services db !! ModelService.id s = Some s /\ parents s db) as Hl.
  { intros s ((i & Hs) & _)%batch_elem. destruct (bk_rows db Hb i s Hs) as [Hi Hc]. rewrite Hi. split; [done|].
    split; [done|rewrite Hi; eauto|..]; apply missing_false; intros x Hx;
      [by eapply rg_service_model|by eapply rg_service_variant]. }
  destruct (pass_run new_id (fun s => resolved_drain_timeout s d kd) (Db.clock db) Ht Hta l ReconcileResult.zero db)
    as (res & db' & E & Hok' & Hrest & Hsv & Hrp & Hend); [done|done|by apply batch_nodup|auto|done|].
  exists res, db'. split_and!; [|done| | |done].
  - unfold reconcile_batch, database_utcnow. erewrite bind_run; [|rewrite Hd; reflexivity].
    erewrite bind_run; [|unfold ServiceReconciler.negative in Hkd; rewrite Hkd; reflexivity].
    rewrite (bind_run _ _ db l db) by done. rewrite (bind_run _ _ db (Db.clock db) db) by done. exact E.
  - intros i s Hs Hns. destruct (bk_rows db Hb i s Hs) as [Hi _].
    assert (ModelService.id s ∉ ModelService.id <$> l) as Hni.
    { intros (x & Ex & Hx)%list_elem_of_fmap. destruct (Hl x Hx) as [Hx' _]. rewrite <-Ex, Hi in Hx'. congruence. }
    split; [rewrite Hi in Hni; by rewrite Hsv|]. apply stable_frame; [done|done|].
    intros j r Hm. apply Hrp. unfold mine in Hm. rewrite eqb_true in Hm. by rewrite Hm.
  - intros i s' Hs'. destruct (decide (i ∈ ModelService.id <$> l)) as [(x & -> & Hx)%list_elem_of_fmap|Hni].
    + destruct (Hl x Hx) as [-> _]. done.
    + rewrite Hsv in Hs' by done. eauto.
Qed.

(** ** The pass *)
Lemma recover_frames limit locked :
  frames specs_kept (recover_expired_leases limit locked) /\
  frames registry_kept (recover_expired_leases limit locked) /\
  frames replicas_kept (recover_expired_leases limit locked) /\
  frames same_clock (recover_expired_leases limit locked).
Proof. split_and!; [frame_specs|frame_registry|frame_replicas|frame_clock]. Qed.

Lemma specs_count db db' :
  specs_kept db db' -> List.length (rows (Db.services db')) = List.length (rows (Db.services db)).
Proof.
  intros [E _]. rewrite <-(length_fmap spec_of (rows (Db.services db'))), <-(length_fmap spec_of (rows (Db.services db))).
  rewrite <-!rows_fmap. do 2 f_equal. apply map_eq. intros i. rewrite !lookup_fmap. apply E.
Qed.

Lemma fresh_sweep new_id db db' f :
  fresh_batch new_id db -> Db.replicas db' = f <$> Db.replicas db -> fresh_batch new_id db'.
Proof. intros [H1 H2] R. split; [|done]. intros i o Ho. by rewrite R, lookup_fmap, H1. Qed.

Lemma init_ok c db : ServiceReconciler.init c db = (inr tt, db) ->
  flt (ServiceReconciler.Config.drain_timeout_seconds c) f0 = false /\
  ServiceReconciler.negative (ServiceReconciler.Config.kubernetes_drain_timeout_seconds c) = false.
Proof. unfold ServiceReconciler.init. intros H. minv H. done. Qed.

Lemma rested_needs db i s s' :
  ModelService.id s = i -> Db.services db !! i = Some s' -> at_rest db s -> needs_reconcile db s' = false.
Proof.
  intros <- Hs (x & Hx & E & Hst & Hstab). replace s' with x by congruence.
  destruct (spec_columns _ _ E) as (E1 & E2 & E3 & _). by apply (stable_needs s).
Qed.

(** C14: a pass of the reconciler finishes its work.  With a configuration the
    constructor accepts, a batch that covers the services, drain timeouts for
    which the deadline, the database time plus the timeout, is a [datetime]
    (finite and not past the year 9999), and no service row locked by another
    transaction (the two [skip_locked] queries skip none), [run_once] on a
    reachable database with fresh replica ids returns.  Every replica whose lease had
    expired is retired: lost, or stopped if it was draining or stopping,
    without lease, endpoint or requests.  And no service is left for the next
    pass: each has the replicas it asks for. *)
Theorem reconciler_pass_settles c new_id db
    (Hr : reachable db) (Hc : ServiceReconciler.init c db = (inr tt, db))
    (Hn : lenZ (rows (Db.services db)) <= ServiceReconciler.Config.batch_size c)
    (Ht : drain_deadlines (Db.clock db) (ServiceReconciler.Config.drain_timeout_seconds c)
            (ServiceReconciler.Config.kubernetes_drain_timeout_seconds c))
    (Hf : fresh_batch new_id db) :
  exists res db', ServiceReconciler.run_once c new_id ∅ ∅ db = (inr res, db') /\
    (forall i r, Db.replicas db !! i = Some r -> lease_expired (Db.clock db) r = true ->
       exists r', Db.replicas db' !! i = Some r' /\ ServiceReplica.status r' = lost_status r /\
         ServiceReplica.lease_expires_at r' = None /\ ServiceReplica.endpoint_url r' = None /\
         ServiceReplica.active_requests r' = 0) /\
    (forall i s, Db.services db' !! i = Some s -> needs_reconcile db' s = false) /\
    (forall n locked, reconcile_candidates_query db' n locked = []).
Proof.
  pose proof (reachable_replicas db Hr) as Hok. destruct (init_ok c db Hc) as [Hd Hkd].
  set (n := Z.to_nat (ServiceReconciler.Config.batch_size c)).
  destruct (recover_run n ∅ db Hok) as (lr & db1 & E1 & R1). set (l := expired_lease_services_query _ _ _ _) in R1.
  destruct (recover_frames n ∅) as (F1 & F2 & F3 & F4).
  pose proof (frames_run _ _ _ _ _ F1 E1) as K1. pose proof (frames_run _ _ _ _ _ F2 E1) as K2.
  destruct (frames_run _ _ _ _ _ F3 E1 Hok) as [Hok1 _].
  pose proof (frames_run _ _ _ _ _ F4 E1) as K4. unfold same_clock in K4.
  pose proof (specs_books _ _ K1 (reachable_books db Hr)) as Hb1.
  destruct (reconcile_batch_run new_id n ∅ (ServiceReconciler.Config.drain_timeout_seconds c)
    (ServiceReconciler.Config.kubernetes_drain_timeout_seconds c) db1) as (res & db' & E & Hin & Hout & Hdom & Hend);
    [done|done|by eapply kept_registry, reachable_registry|done|done|by rewrite K4|by eapply fresh_sweep|].
  assert (forall i s, Db.services db' !! i = Some s -> needs_reconcile db' s = false) as Hrest.
  { intros i s' Hs'. destruct (Hdom i s' Hs') as [s Hs]. destruct (bk_rows db1 Hb1 i s Hs) as [Hi _].
    destruct (needs_reconcile db1 s) eqn:Hw.
    - eapply rested_needs; [done|done|]. apply Hin. eapply batch_complete; [|done|done].
      rewrite (specs_count db db1 K1). unfold n, lenZ in *. lia.
    - destruct (Hout i s Hs) as [Hs2 Hstab]; [intros (_ & Hw')%batch_elem; congruence|].
      replace s' with s by congruence. apply (stable_needs s) in Hw as [Hst Hsb]; [|done..].
      apply (stable_needs s); auto. }
  exists res, db'. split_and!; [| |done|].
  - unfold ServiceReconciler.run_once. apply atomically_ok. by rewrite (bind_run _ _ _ _ _ E1).
  - intros i r Hi He. exists (expired_row (Db.clock db) r). split; [|done]. apply Hend.
    { unfold nonterminal, expired_row, retired. fields. unfold lost_status. by case_match. }
    rewrite R1, lookup_fmap, Hi. cbn. f_equal. unfold sweep. rewrite He, andb_true_r.
    rewrite (proj2 (inb_true _ _)); [done|]. destruct (rk_service db Hok i r Hi) as [s Hs].
    destruct (bk_rows db (reachable_books db Hr) _ s Hs) as [Hsi _]. rewrite <-Hsi. apply list_elem_of_fmap_2.
    eapply batch_complete; [unfold n, lenZ in *; lia|done|]. apply existsb_exists. exists r. split; [|done].
    apply list_elem_of_In. unfold replicas_of. rewrite elem_of_lfilter, rows_elem, eqb_true. eauto.
  - intros m locked. destruct (reconcile_candidates_query db' m locked) as [|s q] eqn:Eq; [done|].
    destruct (batch_elem db' (needs_reconcile db') m locked s) as [(i & Hs) Hw].
    { unfold reconcile_candidates_query in Eq. rewrite Eq. left. }
    by rewrite (Hrest i s Hs) in Hw.
Qed.

(** The sample run an hour later: every lease has expired.  New replica ids
    are pairs of service and ordinal, coded above those in use. *)
Definition later : Db.t := ServiceScenario.serving <| Db.clock := 3600000000 |>.
Definition later_id (i : N) (o : Z) : N := (1000 + N.pos (encode (i, Z.to_N o)))%N.

Lemma later_reachable : reachable later.
Proof.
  destruct ServiceScenario.serving_reachable as [now H]. exists now. eapply rtc_r; [exact H|].
  apply (step_time ServiceScenario.serving). by vm_compute.
Qed.

Lemma later_fresh : fresh_batch later_id later.
Proof.
  split.
  - intros i o _. apply eq_None_not_Some. intros [r Hr]. apply elem_of_map_to_list in Hr.
    assert (forallb (fun x => (x.1 <? 1000)%N) (map_to_list (Db.replicas later)) = true) as F by by vm_compute.
    rewrite forallb_forall in F. apply list_elem_of_In, F in Hr. apply N.ltb_lt in Hr. unfold later_id in Hr.
    cbn [fst] in Hr. lia.
  - intros i i' o o' Ho Ho' E. unfold later_id in E.
    assert (encode (i, Z.to_N o) = encode (i', Z.to_N o')) as Ee by lia.
    apply (inj encode) in Ee. injection Ee as -> Ee. split; [done|lia].
Qed.

Lemma reconciler_pass_settles_witness :
  exists res db' r', ServiceReconciler.run_once ServiceScenario.config later_id ∅ ∅ later = (inr res, db') /\
    Db.replicas db' !! 410%N = Some r' /\ ServiceReplica.status r' = ReplicaStatus.LOST /\
    reconcile_candidates_query db' 100 ∅ = [].
Proof.
  destruct (reconciler_pass_settles ServiceScenario.config later_id later) as (res & db' & E & H1 & _ & H2).
  - apply later_reachable.
  - by vm_compute.
  - by vm_compute.
  - by split; vm_compute.
  - apply later_fresh.
  - destruct (Db.replicas later !! 410%N) as [r|] eqn:Hr; [|present Hr].
    assert ((fun x => (lease_expired (Db.clock later) x, lost_status x)) <$> Db.replicas later !! 410%N
      = Some (true, ReplicaStatus.LOST)) as F by by vm_compute.
    rewrite Hr in F. injection F as F1 F2. destruct (H1 410%N r Hr F1) as (r' & Hr' & Hst & _).
    exists res, db', r'. rewrite F2 in Hst. exact (conj E (conj Hr' (conj Hst (H2 100%nat ∅)))).
Defined.
