(* ===== verification/Routing.v ===== *)
(** * Gateway routing

    The loop of [choose_route] is shown to compute the first viable candidate
    of a pure specification; with the invariants of the registry this gives
    what the gateway promises: routing never fails with an error, routes only
    to replicas that can take the request, in policy order, and the catalog
    lists exactly the names that can be routed. *)

From S2P Require Import Prelude PyString PyFloat PyUrl Enums Policies Store Frames Names Quotas Tasks Invariant.
From S2P Require Import Services ModelRegistry Gateway ServiceControl ServiceFrames System.
From S2P Require Import ServiceInvariant Scenario ServiceScenario Replicas RegistryInvariant.
Import ServiceRepository GatewayRoutingRepository.

#[local] Open Scope stdpp_scope.
#[local] Open Scope Z_scope.

(** ** Endpoints *)
Definition endpoint_ready (db : Db.t) (p : N) (s : Svc) : bool :=
  (ModelService.project_id s == p) && negb (ModelService.desired_replicas s =? 0) && has_endpoint db s.

Lemma routable_elem db s r :
  r ∈ routable_replicas db s <-> (exists k, Db.replicas db !! k = Some r) /\ routable s r = true.
Proof. unfold routable_replicas. by rewrite elem_of_py_sort, elem_of_lfilter, rows_elem. Qed.

Lemma has_endpoint_nonempty db s : has_endpoint db s = true <-> routable_replicas db s <> [].
Proof.
  unfold has_endpoint. rewrite existsb_exists. setoid_rewrite <-list_elem_of_In. split.
  - intros (r & Hr & H) E. apply (not_elem_of_nil r). rewrite <-E. apply routable_elem. by rewrite <-rows_elem.
  - intros H. destruct (routable_replicas db s) as [|r l] eqn:E; [done|]. exists r.
    rewrite rows_elem. apply routable_elem. rewrite E. left.
Qed.

(** The replica that the cursor of the service points to. *)
Definition next_replica (db : Db.t) (s : Svc) : option Rep :=
  routable_replicas db s !! Z.to_nat (ModelService.round_robin_cursor s mod lenZ (routable_replicas db s)).

Lemma next_replica_is_Some db s : has_endpoint db s = true <-> is_Some (next_replica db s).
Proof.
  rewrite has_endpoint_nonempty. unfold next_replica, lenZ. rewrite lookup_lt_is_Some.
  destruct (routable_replicas db s) as [|r l] eqn:E; cbn [List.length]; [split; [done|lia]|].
  split; [|done]. intros _. pose proof (Z.mod_pos_bound (ModelService.round_robin_cursor s) (Z.of_nat (S (List.length l)))).
  lia.
Qed.

(** The database after a replica has been given a request. *)
Definition acquired (db : Db.t) (s : Svc) (r : Rep) : Db.t :=
  db <| Db.replicas ::= alter (fun r => r <| ServiceReplica.active_requests ::= Z.succ |>
          <| ServiceReplica.updated_at := Db.clock db |> <| ServiceReplica.version ::= Z.succ |>) (ServiceReplica.id r) |>
     <| Db.services ::= alter (fun s => s <| ModelService.round_robin_cursor ::= Z.succ |>
          <| ModelService.updated_at := Db.clock db |> <| ModelService.version ::= Z.succ |>) (ModelService.id s) |>.

Definition selection_of (s : Svc) (r : Rep) (sel : EndpointSelection.t) : Prop :=
  EndpointSelection.service_id sel = ModelService.id s /\ EndpointSelection.replica_id sel = ServiceReplica.id r /\
  EndpointSelection.generation sel = ServiceReplica.generation r /\
  ServiceReplica.execution_id r = Some (EndpointSelection.execution_id sel) /\
  ServiceReplica.endpoint_url r = Some (EndpointSelection.endpoint_url sel).

Lemma get_own_run db p s :
  Db.services db !! ModelService.id s = Some s ->
  get (ModelService.id s) (Some p) db = (inr (if ModelService.project_id s == p then Some s else None), db).
Proof. intros Hs. unfold get, gets. by rewrite Hs. Qed.

Lemma choose_endpoint_none db p s :
  Db.services db !! ModelService.id s = Some s -> endpoint_ready db p s = false ->
  choose_healthy_endpoint (ModelService.id s) p db = (inr None, db).
Proof.
  intros Hs He. unfold choose_healthy_endpoint. rewrite (bind_run _ _ _ _ _ (get_own_run db p s Hs)).
  unfold endpoint_ready in He. destruct (ModelService.project_id s == p); [|done].
  cbv beta iota. destruct (ModelService.desired_replicas s =? 0); [done|]. cbn [negb andb] in He. erewrite (@bind_run Db.t PyError); [|reflexivity].
  fold (next_replica db s). destruct (next_replica db s) as [r|] eqn:E; [|done].
  apply not_true_iff_false in He. destruct He. apply next_replica_is_Some. by rewrite E.
Qed.

Lemma choose_endpoint_some db p s :
  Db.services db !! ModelService.id s = Some s -> endpoint_ready db p s = true ->
  exists r sel, next_replica db s = Some r /\ (exists k, Db.replicas db !! k = Some r) /\ routable s r = true /\
    choose_healthy_endpoint (ModelService.id s) p db = (inr (Some sel), acquired db s r) /\ selection_of s r sel.
Proof.
  intros Hs He. unfold endpoint_ready in He. rewrite !andb_true_iff in He. destruct He as [[Hp Hd] He].
  apply next_replica_is_Some in He as [r Hr]. pose proof Hr as Hr'. apply list_elem_of_lookup_2, routable_elem in Hr' as [Hk Hrt].
  unfold choose_healthy_endpoint. rewrite (bind_run _ _ _ _ _ (get_own_run db p s Hs)), Hp.
  apply negb_true_iff in Hd. cbv beta iota. rewrite Hd. erewrite (@bind_run Db.t PyError); [|reflexivity].
  fold (next_replica db s). rewrite Hr. pose proof Hrt as Hrt'. unfold routable, truthy in Hrt'. rewrite !andb_true_iff in Hrt'.
  destruct Hrt' as [[_ Hu] Hx]. destruct (ServiceReplica.endpoint_url r) as [u|] eqn:Eu; [|done].
  destruct (ServiceReplica.execution_id r) as [x|] eqn:Ex; [|done].
  exists r, (EndpointSelection.mk (ModelService.id s) (ServiceReplica.id r) (ServiceReplica.generation r) x u).
  by split_and!.
Qed.

(** ** Circuits *)

(** The circuit of the candidate's vendor is open. *)
Definition blocked (db : Db.t) (p : N) (now : Z) (s : Svc) : bool :=
  match ModelService.logical_model_id s, ModelService.selected_vendor s with
  | Some l, Some v => match Db.circuits db !! (p, l, v) with Some c => circuit_open now c | None => false end
  | _, _ => false
  end.

(** Admission by the circuit may close an expired one, which changes no
    decision. *)
Lemma admit_circuit_run p now s db :
  exists db', admit_circuit p now s db = (inr (negb (blocked db p now s)), db') /\
    (db' = db \/ exists k c, db' = (db <| Db.circuits ::= <[k := c]> |>)) /\
    forall s', blocked db' p now s' = blocked db p now s'.
Proof.
  unfold admit_circuit, blocked. destruct (ModelService.logical_model_id s) as [l|]; [|exists db; split_and!; [done|by left|done]].
  destruct (ModelService.selected_vendor s) as [v|]; [|exists db; split_and!; [done|by left|done]].
  unfold mbind, M_bind, gets. destruct (Db.circuits db !! (p, l, v)) as [c|] eqn:Ec; [|exists db; split_and!; [done|by left|done]].
  assert (circuit_open now c = (VendorCircuitState.state c == "open")
    && match VendorCircuitState.opened_until c with Some t => now <? t | None => false end) as Hco by done.
  rewrite !Hco. destruct (VendorCircuitState.state c == "open") eqn:Eo; cbn [negb andb];
    [|exists db; split_and!; [done|by left|done]].
  destruct (match VendorCircuitState.opened_until c with Some t => now <? t | None => false end) eqn:Et;
    [exists db; split_and!; [done|by left|done]|].
  eexists. split; [reflexivity|]. split; [right; eauto|]. intros s'.
  destruct (ModelService.logical_model_id s') as [l'|]; [|done]. destruct (ModelService.selected_vendor s') as [v'|]; [|done].
  fields. destruct (decide ((p, l', v') = (p, l, v))) as [->|Hne]; [|by rewrite lookup_insert_ne].
  rewrite lookup_insert_eq, Ec, Hco. done.
Qed.

(** ** The loop over the candidates *)
Lemma find_ext {A} (f g : A -> bool) l : (forall x, f x = g x) -> List.find f l = List.find g l.
Proof. intros H. induction l as [|x l IH]; cbn; [done|]. by rewrite H, IH. Qed.

Definition viable (db : Db.t) (p : N) (ex : list AcceleratorVendor) (now : Z) (s : Svc) : bool :=
  negb (vendor_excluded ex s) && negb (blocked db p now s) && endpoint_ready db p s.

(** Nothing a routing decision reads has changed. *)
Record same_routes (p : N) (now : Z) (db db' : Db.t) : Prop := {
  sr_services : Db.services db' = Db.services db;
  sr_replicas : Db.replicas db' = Db.replicas db;
  sr_models : Db.logical_models db' = Db.logical_models db;
  sr_clock : Db.clock db' = Db.clock db;
  sr_blocked : forall s, blocked db' p now s = blocked db p now s;
}.
#[export] Instance same_routes_preorder p now : PreOrder (same_routes p now).
Proof. split; [done|]. intros a b c [] []. split; [congruence..|]. intros s. congruence. Qed.

Lemma same_viable p now db db' ex s : same_routes p now db db' -> viable db' p ex now s = viable db p ex now s.
Proof. intros [E1 E2 E3 E4 E5]. unfold viable, endpoint_ready, has_endpoint. by rewrite E5, E2. Qed.

Lemma same_next p now db db' s : same_routes p now db db' -> next_replica db' s = next_replica db s.
Proof. intros [E1 E2 E3 E4 E5]. unfold next_replica, routable_replicas. by rewrite E2. Qed.

Lemma advance_cursor_run db l n :
  is_Some (Db.logical_models db !! l) -> 1 <= n <= _MAX_ROUTING_CURSOR ->
  exists db', _advance_routing_cursor l n db = (inr tt, db') /\ Db.replicas db' = Db.replicas db /\
    Db.services db' = Db.services db.
Proof.
  intros [m Hm] Hn. unfold _advance_routing_cursor.
  assert ((1 <=? n) && (n <=? _MAX_ROUTING_CURSOR) = true) as -> by (rewrite andb_true_iff; lia).
  unfold mbind, M_bind, gets, raise_if. cbn [negb mret M_ret]. rewrite Hm. by eexists.
Qed.

(** What the loop returns for the candidate [s]. *)
Definition route_to (db : Db.t) (s : Svc) (route : GatewayRoute.t) (db' : Db.t) : Prop :=
  GatewayRoute.service_id route = ModelService.id s /\
  GatewayRoute.logical_model_id route = ModelService.logical_model_id s /\
  GatewayRoute.model_variant_id route = ModelService.model_variant_id s /\
  GatewayRoute.selected_vendor route = ModelService.selected_vendor s /\
  exists r, next_replica db s = Some r /\ (exists k, Db.replicas db !! k = Some r) /\ routable s r = true /\
    selection_of s r (GatewayRoute.selection route) /\ Db.replicas db' = Db.replicas (acquired db s r).

Lemma try_candidates_run p ex now b off sk l db :
  (forall s, s ∈ l -> Db.services db !! ModelService.id s = Some s) ->
  (forall m, b = Some m -> is_Some (Db.logical_models db !! m)) ->
  0 <= off -> off + lenZ l <= _MAX_ROUTING_CURSOR ->
  match List.find (viable db p ex now) l with
  | None => exists db', try_candidates p ex now b off sk l db = (inr None, db')
  | Some s => exists route db', try_candidates p ex now b off sk l db = (inr (Some route), db') /\
                route_to db s route db'
  end.
Proof.
  revert off sk db. induction l as [|s l IH]; intros off sk db Hl Hb Hoff Hmax; [by eexists|].
  cbn [List.find try_candidates]. unfold lenZ in Hmax. cbn [List.length] in Hmax.
  assert (forall db1 sk', same_routes p now db db1 ->
    match List.find (viable db p ex now) l with
    | None => exists db', try_candidates p ex now b (off + 1) sk' l db1 = (inr None, db')
    | Some s => exists route db', try_candidates p ex now b (off + 1) sk' l db1 = (inr (Some route), db') /\
                  route_to db s route db'
    end) as Hskip.
  { intros db1 sk' Hsr. specialize (IH (off + 1) sk' db1).
    rewrite (find_ext (viable db1 p ex now) (viable db p ex now)) in IH by (intros; by apply same_viable).
    pose proof Hsr as [E1 E2 E3 E4 E5]. destruct (List.find _ l) as [x|].
    - destruct IH as (route & db' & E & H1 & H2 & H3 & H4 & r & R1 & R2 & R3 & R4 & R5);
        [rewrite E1; intros; apply Hl; by right|by rewrite E3|lia|unfold lenZ; lia|].
      exists route, db'. split; [done|]. split_and!; [done..|]. exists r.
      rewrite (same_next p now db db1) in R1 by done. rewrite E2 in R2. split_and!; try done.
      rewrite R5. unfold acquired. fields. by rewrite E2, E4.
    - apply IH; [rewrite E1; intros; apply Hl; by right|by rewrite E3|lia|unfold lenZ; lia]. }
  unfold viable at 1. destruct (vendor_excluded ex s); [by apply Hskip|]. cbn [negb andb].
  destruct (admit_circuit_run p now s db) as (db1 & E1 & Hdb1 & Hbl). rewrite (bind_run _ _ _ _ _ E1).
  assert (same_routes p now db db1) as Hsr by (destruct Hdb1 as [->|(k & c & ->)]; by split).
  pose proof Hsr as [F1 F2 F3 F4 F5].
  destruct (blocked db p now s); cbn [negb andb]; [by apply Hskip|].
  assert (Db.services db1 !! ModelService.id s = Some s) as Hs by (rewrite F1; apply Hl; left).
  assert (endpoint_ready db1 p s = endpoint_ready db p s) as He by (unfold endpoint_ready, has_endpoint; by rewrite F2).
  destruct (endpoint_ready db p s).
  - destruct (choose_endpoint_some db1 p s Hs He) as (r & sel & R1 & R2 & R3 & R4 & R5).
    rewrite (bind_run _ _ _ _ _ R4).
    assert (exists db2, match b with Some m => _advance_routing_cursor m (off + 1) | None => mret tt end (acquired db1 s r)
              = (inr tt, db2) /\ Db.replicas db2 = Db.replicas (acquired db1 s r)) as (db2 & E2 & G2).
    { destruct b as [m|]; [|by eexists]. destruct (advance_cursor_run (acquired db1 s r) m (off + 1)) as (db2 & E2 & G2 & _);
        [unfold acquired; fields; rewrite F3; by apply Hb|lia|]. eauto. }
    rewrite (bind_run _ _ _ _ _ E2). eexists _, db2. split; [reflexivity|]. split_and!; try done.
    exists r. rewrite (same_next p now db db1) in R1 by done. rewrite F2 in R2. split_and!; try done.
    rewrite G2. unfold acquired. fields. by rewrite F2, F4.
  - rewrite (bind_run _ _ _ _ _ (choose_endpoint_none db1 p s Hs He)). by apply Hskip.
Qed.

(** ** From a name to its candidates *)
Definition passes (db : Db.t) (policy : _CandidatePolicy.t) (s : Svc) : bool := is_none (preflight_reason db policy s).

Lemma preflight_eligible db policy l : (preflight db policy l).2 = List.filter (passes db policy) l.
Proof.
  unfold preflight. assert (forall k sk el, (foldl (fun '(skips, eligible) candidate =>
    match preflight_reason db policy candidate with
    | Some reason => (skips ++ [_preflight_skip candidate reason], eligible)
    | None => (skips, eligible ++ [candidate])
    end) (sk, el) k).2 = el ++ List.filter (passes db policy) k) as H; [|apply H].
  induction k as [|s k IH]; intros sk el; cbn; [by rewrite app_nil_r|]. unfold passes at 1.
  destruct (preflight_reason db policy s); cbn; rewrite IH; [done|]. by rewrite <-(assoc_L (++)).
Qed.

(** The candidates of a model, in the order they are tried. *)
Definition ordered (db : Db.t) (model : option Model) (policy : _CandidatePolicy.t) (l : list Svc) : list Svc :=
  let eligible := List.filter (passes db policy) l in
  rotate_from (match model with
               | Some m => if _CandidatePolicy.balanced policy
                           then Z.to_nat (LogicalModel.routing_cursor m mod lenZ eligible) else 0%nat
               | None => 0%nat
               end) eligible.

Definition model_list (db : Db.t) (p : N) (m : Model) : list Svc :=
  let policy := _candidate_policy (Some (LogicalModel.routing_policy m)) in
  ordered db (Some m) policy (model_candidates db p (LogicalModel.id m) policy).

(** The candidates for a name; a name stands for the public model, else for
    the service of that name, with the other services of its model. *)
Definition route_list (db : Db.t) (p : N) (n : string) : list Svc :=
  let ready (m : Model) := LogicalModel.status m == ModelAvailabilityStatus.READY in
  match head (models_public db p n), head (services_named db p n) with
  | Some m, _ => if ready m then model_list db p m else []
  | None, Some a =>
      match ModelService.logical_model_id a with
      | None => ordered db None (_candidate_policy None) [a]
      | Some i => match Db.logical_models db !! i with
                  | Some m => if (LogicalModel.project_id m == p) && ready m then model_list db p m else []
                  | None => []
                  end
      end
  | None, None => []
  end.

Lemma ordered_perm db model policy l : ordered db model policy l ≡ₚ List.filter (passes db policy) l.
Proof. unfold ordered, rotate_from. rewrite Permutation_app_comm. by rewrite take_drop. Qed.

Lemma route_candidates_run p ex model policy l db :
  (forall s, s ∈ l -> Db.services db !! ModelService.id s = Some s) ->
  (forall m, model = Some m -> is_Some (Db.logical_models db !! LogicalModel.id m)) ->
  lenZ l <= _MAX_ROUTING_CURSOR ->
  match List.find (viable db p ex (Db.clock db)) (ordered db model policy l) with
  | None => exists db', route_candidates p ex model policy l db = (inr None, db')
  | Some s => exists route db', route_candidates p ex model policy l db = (inr (Some route), db') /\
                route_to db s route db'
  end.
Proof.
  intros Hl Hm Hmax. set (pf := preflight db policy l).
  pose proof (preflight_eligible db policy l) as Hpf. fold pf in Hpf. pose proof (ordered_perm db model policy l) as Hp.
  assert (route_candidates p ex model policy l db = try_candidates p ex (Db.clock db)
    (if _CandidatePolicy.balanced policy then LogicalModel.id <$> model else None) 0 pf.1
    (ordered db model policy l) db) as ->.
  { unfold route_candidates, database_utcnow, mbind, M_bind, gets. fold pf. unfold ordered. rewrite <-Hpf. by destruct pf. }
  apply try_candidates_run.
  - intros s Hs. rewrite Hp in Hs. apply elem_of_lfilter in Hs as [Hs _]. auto.
  - intros m. destruct (_CandidatePolicy.balanced policy); [|done]. intros (x & -> & ->)%fmap_Some. by apply Hm.
  - done.
  - unfold lenZ in *. rewrite (Permutation_length Hp). pose proof (List.filter_length_le (passes db policy) l). lia.
Qed.

(** ** Names are unambiguous *)
Lemma public_unique db p n : registry_ok db -> models_public db p n = [] \/ exists m, models_public db p n = [m].
Proof.
  intros Hg. destruct (models_public db p n) as [|x [|y l]] eqn:E; [by left|right; eauto|exfalso].
  assert (NoDup (LogicalModel.id <$> models_public db p n)) as Hd.
  { apply lfilter_fmap_nodup, rows_keys. intros. by eapply rg_model_id. }
  assert (x ∈ models_public db p n /\ y ∈ models_public db p n) as [Hx Hy] by (rewrite E; set_solver).
  apply models_public_elem in Hx as ((i & Hi) & P1 & N1), Hy as ((j & Hj) & P2 & N2).
  assert (i = j) as -> by (eapply (rg_public db Hg); [done..|congruence|congruence]).
  rewrite E in Hd. cbn in Hd. apply NoDup_cons in Hd as [Hd _]. apply Hd.
  assert (x = y) as -> by congruence. left.
Qed.

Lemma head_elem {A} (l : list A) x : head l = Some x -> x ∈ l.
Proof. destruct l; [done|]. intros [= ->]. left. Qed.

(** [out] is the outcome of [choose_route] for the candidates [l]. *)
Definition answers (db : Db.t) (p : N) (ex : list AcceleratorVendor) (l : list Svc)
    (out : (PyError + option Svc * option GatewayRoute.t) * Db.t) : Prop :=
  match List.find (viable db p ex (Db.clock db)) l with
  | None => exists a db', out = (inr (a, None), db')
  | Some s => exists a route db', out = (inr (a, Some route), db') /\ route_to db s route db'
  end.

(** The end of the method adds the anchor. *)
Lemma with_anchor db p ex model policy l anchor :
  (forall s, s ∈ l -> Db.services db !! ModelService.id s = Some s) ->
  (forall m, model = Some m -> is_Some (Db.logical_models db !! LogicalModel.id m)) ->
  lenZ l <= _MAX_ROUTING_CURSOR ->
  answers db p ex (ordered db model policy l)
    ((route ← route_candidates p ex model policy l; mret (Some anchor, route)) db).
Proof.
  intros Hl Hm Hmax. pose proof (route_candidates_run p ex model policy l db Hl Hm Hmax) as H. unfold answers.
  destruct (List.find _ _) as [s|].
  - destruct H as (route & db' & E & H). exists (Some anchor), route, db'. by rewrite (bind_run _ _ _ _ _ E).
  - destruct H as (db' & E). exists (Some anchor), db'. by rewrite (bind_run _ _ _ _ _ E).
Qed.

Lemma model_candidates_rows db p i policy s :
  books db -> s ∈ model_candidates db p i policy -> Db.services db !! ModelService.id s = Some s.
Proof.
  intros Hb. unfold model_candidates. rewrite elem_of_py_sort, elem_of_lfilter, rows_elem.
  intros [(j & Hj) _]. by rewrite (proj1 (bk_rows db Hb _ _ Hj)).
Qed.

Lemma model_candidates_length db p i policy : lenZ (model_candidates db p i policy) <= lenZ (rows (Db.services db)).
Proof.
  unfold model_candidates, lenZ. rewrite (Permutation_length (py_sort_perm _ _)).
  apply inj_le, List.filter_length_le.
Qed.

(** The method once the anchor and its ready model are known. *)
Definition finish (p : N) (ex : list AcceleratorVendor) (anchor : Svc) (model : option Model)
  : Sess (option Svc * option GatewayRoute.t) :=
  route ← match ModelService.logical_model_id anchor with
          | None => route_candidates p ex model (_candidate_policy None) [anchor]
          | Some i =>
              match model with
              | None => mret None
              | Some m =>
                  if LogicalModel.id m !== i then mret None
                  else
                    let policy := _candidate_policy (Some (LogicalModel.routing_policy m)) in
                    candidates ← gets (fun db => model_candidates db p i policy);
                    route_candidates p ex model policy candidates
              end
          end;
  mret (Some anchor, route).

Lemma finish_model db p ex m anchor i :
  registry_ok db -> books db -> lenZ (rows (Db.services db)) <= _MAX_ROUTING_CURSOR ->
  Db.logical_models db !! i = Some m -> ModelService.logical_model_id anchor = Some i ->
  answers db p ex (model_list db p m) (finish p ex anchor (Some m) db).
Proof.
  intros Hg Hb Hmax Hm Ha. pose proof (rg_model_id db Hg _ _ Hm) as Hi. unfold finish, model_list.
  rewrite Ha, Hi, eqb_same. cbn [negb].
  set (policy := _candidate_policy (Some (LogicalModel.routing_policy m))).
  apply (with_anchor db p ex (Some m) policy (model_candidates db p i policy) anchor).
  - intros s. by apply model_candidates_rows.
  - intros ? [= <-]. rewrite Hi. eauto.
  - pose proof (model_candidates_length db p i policy). lia.
Qed.

Lemma finish_plain db p ex anchor i :
  books db -> Db.services db !! i = Some anchor -> ModelService.logical_model_id anchor = None ->
  answers db p ex (ordered db None (_candidate_policy None) [anchor]) (finish p ex anchor None db).
Proof.
  intros Hb Hi Ha. unfold finish. rewrite Ha. apply with_anchor; [|done|done].
  intros s ->%list_elem_of_singleton. by rewrite (proj1 (bk_rows db Hb _ _ Hi)).
Qed.

(** No service, no candidate. *)
Lemma no_anchor db p m : fallback_anchor db p m = None -> model_list db p m = [].
Proof.
  intros H. apply Permutation_nil_r. symmetry. unfold model_list. rewrite ordered_perm.
  assert (List.filter (fun s => (ModelService.project_id s == p)
    && (ModelService.logical_model_id s == Some (LogicalModel.id m))) (rows (Db.services db)) = []) as Hn.
  { unfold fallback_anchor in H. apply head_None, py_sort_nil in H. done. }
  replace (List.filter _ _) with (@nil Svc); [done|]. symmetry. apply lfilter_nil. intros s Hs.
  unfold model_candidates in Hs. rewrite elem_of_py_sort, elem_of_lfilter, !andb_true_iff in Hs.
  destruct Hs as (Hs & (Hp & Hl) & _). exfalso. apply (not_elem_of_nil s). rewrite <-Hn.
  apply elem_of_lfilter. by rewrite Hp, Hl.
Qed.

Lemma answers_nil db p ex a : answers db p ex [] (inr (a, None), db).
Proof. by exists a, db. Qed.

Definition conclude (p : N) (ex : list AcceleratorVendor) (found : option Svc + Svc * option Model)
  : Sess (option Svc * option GatewayRoute.t) :=
  match found with inl anchor => mret (anchor, None) | inr (anchor, model) => finish p ex anchor model end.

Lemma conclude_run db p ex l (m : Sess (option Svc + Svc * option Model)) found :
  m db = (inr found, db) -> answers db p ex l (conclude p ex found db) -> answers db p ex l ((m ≫= conclude p ex) db).
Proof. intros E H. by rewrite (bind_run _ _ _ _ _ E). Qed.

Lemma past_guard db p ex l e (k : unit -> Sess (option Svc * option GatewayRoute.t)) :
  answers db p ex l (k tt db) -> answers db p ex l ((raise_if false e ≫= k) db).
Proof. done. Qed.

Lemma choose_route_run db p n ex :
  registry_ok db -> books db -> lenZ (rows (Db.services db)) <= _MAX_ROUTING_CURSOR ->
  answers db p ex (route_list db p n) (choose_route p n ex db).
Proof.
  intros Hg Hb Hmax. unfold choose_route, get_by_name, route_list.
  unfold mbind at 1, M_bind at 1, gets at 1. unfold mbind at 1, M_bind at 1, gets at 1.
  destruct (public_unique db p n Hg) as [Ep|(m & Ep)]; rewrite Ep; cbn [py_sort foldr sort_insert head].
  - destruct (head (services_named db p n)) as [a|] eqn:Ea; [|apply answers_nil].
    apply head_elem, services_named_elem in Ea as ((j & Hj) & _ & _).
    apply past_guard. destruct (ModelService.logical_model_id a) as [i|] eqn:El.
    + destruct (Db.logical_models db !! i) as [m|] eqn:Em.
      * destruct (LogicalModel.project_id m == p) eqn:Epr; [destruct (LogicalModel.status m == _) eqn:Est|].
        all: cbn [andb].
        { apply (conclude_run db p ex _ _ (inr (a, Some m))); [|by eapply finish_model].
          unfold LogicalModelRepository.get, mbind, M_bind, gets. by rewrite Em, Epr, Est. }
        { apply (conclude_run db p ex _ _ (inl (Some a))); [|apply answers_nil].
          unfold LogicalModelRepository.get, mbind, M_bind, gets. by rewrite Em, Epr, Est. }
        { apply (conclude_run db p ex _ _ (inl (Some a))); [|apply answers_nil].
          unfold LogicalModelRepository.get, mbind, M_bind, gets. by rewrite Em, Epr. }
      * apply (conclude_run db p ex _ _ (inl (Some a))); [|apply answers_nil].
        unfold LogicalModelRepository.get, mbind, M_bind, gets. by rewrite Em.
    + apply (conclude_run db p ex _ _ (inr (a, None))); [done|]. by eapply finish_plain.
  - assert (m ∈ models_public db p n) as Hm by (rewrite Ep; left).
    apply models_public_elem in Hm as ((i & Hm) & Hp & Hn).
    assert (forall a, head (services_named db p n) = Some a -> ModelService.logical_model_id a = Some i) as Hown.
    { intros a ((j & Hj) & Hpa & Hna)%head_elem%services_named_elem. eapply (rg_owner db Hg); [done..|congruence|congruence]. }
    pose proof (rg_model_id db Hg _ _ Hm) as Hi.
    destruct (head (services_named db p n)) as [a|] eqn:Ea.
    + specialize (Hown a eq_refl). rewrite Hown, Hi, eqb_same. cbn [negb]. apply past_guard.
      destruct (LogicalModel.status m == _); cbn [negb].
      * apply (conclude_run db p ex _ _ (inr (a, Some m))); [done|]. by eapply finish_model.
      * apply (conclude_run db p ex _ _ (inl (Some a))); [done|apply answers_nil].
    + apply past_guard. destruct (LogicalModel.status m == _); cbn [negb].
      * destruct (fallback_anchor db p m) as [a|] eqn:Ef.
        { apply (conclude_run db p ex _ _ (inr (a, Some m))); [unfold mbind, M_bind, gets; by rewrite Ef|].
          eapply finish_model; [done..|]. apply head_elem in Ef.
          rewrite elem_of_py_sort, elem_of_lfilter, andb_true_iff, !eqb_true in Ef. rewrite <-Hi. tauto. }
        { rewrite (no_anchor db p m Ef). apply (conclude_run db p ex _ _ (inl None)); [|apply answers_nil].
          unfold mbind, M_bind, gets. by rewrite Ef. }
      * apply (conclude_run db p ex _ _ (inl None)); [done|apply answers_nil].
Qed.

(** ** What a candidate is *)
Lemma model_list_elem db p m s :
  s ∈ model_list db p m <->
  ((exists i, Db.services db !! i = Some s) /\ ModelService.project_id s = p /\
   ModelService.logical_model_id s = Some (LogicalModel.id m) /\ 0 < ModelService.desired_replicas s) /\
  passes db (_candidate_policy (Some (LogicalModel.routing_policy m))) s = true.
Proof.
  unfold model_list. rewrite ordered_perm, elem_of_lfilter. unfold model_candidates.
  rewrite elem_of_py_sort, elem_of_lfilter, rows_elem, !andb_true_iff, !eqb_true, Z.ltb_lt. tauto.
Qed.

(** The variant that a service was admitted with is ready and the policy of
    the model allows its vendor. *)
Definition admitted (db : Db.t) (policy : _CandidatePolicy.t) (l : N) (s : Svc) : Prop :=
  _CandidatePolicy.allows policy (ModelService.selected_vendor s) = true /\
  exists v, variant_of db l (ModelService.model_variant_id s) = Some v /\
    ModelVariant.status v = ModelAvailabilityStatus.READY /\
    ModelService.selected_vendor s = Some (ModelVariant.vendor v) /\
    ModelService.selected_kind s = Some (ModelVariant.kind v).

Lemma passes_logical db policy s l :
  ModelService.logical_model_id s = Some l -> passes db policy s = true <-> admitted db policy l s.
Proof.
  intros Hl. unfold passes, preflight_reason, admitted. rewrite Hl.
  destruct (_CandidatePolicy.allows policy _); cbn [negb]; [|split; [done|by intros [? _]]].
  destruct (variant_of db l _) as [v|]; [|split; [done|by intros [_ (? & ? & _)]]].
  destruct (ModelVariant.status v == ModelAvailabilityStatus.READY) eqn:E1; cbn [negb]; [|split; [done|]].
  - destruct (ModelService.selected_vendor s == Some (ModelVariant.vendor v)) eqn:E2; cbn [negb orb]; [|split; [done|]].
    + destruct (ModelService.selected_kind s == Some (ModelVariant.kind v)) eqn:E3; cbn [negb is_none].
      * rewrite eqb_true in E1; rewrite eqb_true in E2; rewrite eqb_true in E3. split; [|done]. intros _. split; [done|]. exists v. by split_and!.
      * rewrite eqb_false in E3. split; [done|]. intros [_ (x & [= <-] & _ & _ & H)]. done.
    + rewrite eqb_false in E2. intros [_ (x & [= <-] & _ & H & _)]. done.
  - rewrite eqb_false in E1. intros [_ (x & [= <-] & H & _)]. done.
Qed.

(** A service of the name, or one of a ready model, admitted by its policy. *)
Definition serves (db : Db.t) (p : N) (n : string) (s : Svc) : Prop :=
  (exists i, Db.services db !! i = Some s) /\ ModelService.project_id s = p /\
  match ModelService.logical_model_id s with
  | None => ModelService.name s = n
  | Some l => exists m, Db.logical_models db !! l = Some m /\ LogicalModel.project_id m = p /\
      LogicalModel.status m = ModelAvailabilityStatus.READY /\
      admitted db (_candidate_policy (Some (LogicalModel.routing_policy m))) l s
  end.

Lemma route_list_elem db p n s : registry_ok db -> s ∈ route_list db p n -> serves db p n s.
Proof.
  intros Hg. assert (forall i m, Db.logical_models db !! i = Some m -> LogicalModel.project_id m = p ->
    LogicalModel.status m = ModelAvailabilityStatus.READY -> s ∈ model_list db p m -> serves db p n s) as Hmodel.
  { intros i m Hm Hp Hst ((Hs & Hps & Hl & _) & Hpass)%model_list_elem. pose proof (rg_model_id db Hg _ _ Hm) as Hi.
    unfold serves. split_and!; [done|done|]. rewrite Hl, Hi. exists m. split_and!; try done.
    apply passes_logical; [congruence|done]. }
  unfold route_list. destruct (head (models_public db p n)) as [m|] eqn:Em.
  - destruct (LogicalModel.status m == _) eqn:Est; [|by intros ?%not_elem_of_nil]. rewrite eqb_true in Est.
    apply head_elem, models_public_elem in Em as ((i & Hi) & Hp & _). by eapply Hmodel.
  - destruct (head (services_named db p n)) as [a|] eqn:Ea; [|by intros ?%not_elem_of_nil].
    apply head_elem, services_named_elem in Ea as ((j & Hj) & Hp & Hn).
    destruct (ModelService.logical_model_id a) as [i|] eqn:El.
    + destruct (Db.logical_models db !! i) as [m|] eqn:Emi; [|by intros ?%not_elem_of_nil].
      destruct (_ && _) eqn:Ec; [|by intros ?%not_elem_of_nil]. rewrite andb_true_iff, !eqb_true in Ec.
      destruct Ec. by eapply Hmodel.
    + rewrite ordered_perm, elem_of_lfilter. intros [->%list_elem_of_singleton _]. unfold serves. rewrite El. eauto.
Qed.

(** ** The properties *)
Lemma find_first {A} (f : A -> bool) l x :
  List.find f l = Some x ->
  exists before after, l = before ++ x :: after /\ f x = true /\ forall y, y ∈ before -> f y = false.
Proof.
  induction l as [|y l IH]; cbn; [done|]. destruct (f y) eqn:E.
  - intros [= <-]. exists [], l. split_and!; try done. by intros z ?%not_elem_of_nil.
  - intros (before & after & -> & Hx & Hb)%IH. exists (y :: before), after. split_and!; try done.
    intros z [->|Hz]%elem_of_cons; auto.
Qed.

Lemma find_none {A} (f : A -> bool) l : List.find f l = None -> forall x, x ∈ l -> f x = false.
Proof. intros H x Hx%list_elem_of_In. by apply (find_none f l). Qed.

Lemma viable_cases db p ex now s :
  viable db p ex now s = true <->
  (forall v, ModelService.selected_vendor s = Some v -> v ∉ ex) /\ blocked db p now s = false /\
  ModelService.project_id s = p /\ ModelService.desired_replicas s <> 0 /\ has_endpoint db s = true.
Proof.
  unfold viable, endpoint_ready, vendor_excluded.
  rewrite !andb_true_iff, !negb_true_iff, eqb_true, Z.eqb_neq.
  destruct (ModelService.selected_vendor s) as [v|]; [rewrite inb_false|]; naive_solver.
Qed.

(** C15: the gateway routes to the first candidate that can serve.  In a
    reachable database [choose_route] returns, for every name and every set of
    excluded vendors.  A route it returns is the first viable service of the
    candidates in policy order: a service of the project that wants replicas,
    named as asked or of a ready model whose policy allows its vendor and
    whose variant is ready, with a vendor that is not excluded and whose
    circuit is not open; and it selects the replica under the service's
    cursor, which is running, healthy and of the present generation, and counts
    one more request on it.  It returns no route only if no candidate is
    viable. *)
Theorem gateway_route_correct db p n ex
    (Hr : reachable db) (Hmax : lenZ (rows (Db.services db)) <= _MAX_ROUTING_CURSOR) :
  exists anchor route db', choose_route p n ex db = (inr (anchor, route), db') /\
    match route with
    | None => forall s, s ∈ route_list db p n -> viable db p ex (Db.clock db) s = false
    | Some route =>
        exists before s after r, route_list db p n = before ++ s :: after /\
          (forall x, x ∈ before -> viable db p ex (Db.clock db) x = false) /\ serves db p n s /\
          ModelService.desired_replicas s <> 0 /\
          (forall v, ModelService.selected_vendor s = Some v -> v ∉ ex) /\ blocked db p (Db.clock db) s = false /\
          GatewayRoute.service_id route = ModelService.id s /\
          next_replica db s = Some r /\ ServiceReplica.service_id r = ModelService.id s /\
          ServiceReplica.generation r = ModelService.generation s /\
          ServiceReplica.status r = ReplicaStatus.RUNNING /\ ServiceReplica.health r = ReplicaHealth.HEALTHY /\
          selection_of s r (GatewayRoute.selection route) /\
          (exists r', Db.replicas db' !! ServiceReplica.id r = Some r' /\
             ServiceReplica.active_requests r' = ServiceReplica.active_requests r + 1) /\
          (forall j, j <> ServiceReplica.id r -> Db.replicas db' !! j = Db.replicas db !! j)
    end.
Proof.
  pose proof (reachable_registry db Hr) as Hg.
  pose proof (choose_route_run db p n ex Hg (reachable_books db Hr) Hmax) as H. unfold answers in H.
  destruct (List.find _ _) as [s|] eqn:Ef.
  - destruct H as (a & route & db' & E & H1 & _ & _ & _ & r & R1 & (k & Hk) & R3 & R4 & R5).
    exists a, (Some route), db'. split; [done|]. apply find_first in Ef as (before & after & El & Hv & Hb).
    exists before, s, after, r. apply viable_cases in Hv as (V1 & V2 & _ & V4 & _).
    pose proof (rk_id db (reachable_replicas db Hr) _ _ Hk) as Hi.
    unfold routable in R3. rewrite !andb_true_iff, !eqb_true, Z.eqb_eq in R3.
    destruct R3 as (((((T1 & T2) & T3) & T4) & _) & _). split_and!; try done.
    + apply route_list_elem; [done|]. rewrite El. set_solver.
    + rewrite R5. unfold acquired. fields. rewrite Hi, lookup_alter_eq, Hk. by eexists.
    + intros j Hj. rewrite R5. unfold acquired. fields. by rewrite lookup_alter_ne.
  - destruct H as (a & db' & E). exists a, None, db'. split; [done|]. by apply find_none.
Qed.

Lemma gateway_route_correct_witness :
  exists anchor route db', choose_route 7 "tiny-public" [NVIDIA] ServiceScenario.serving = (inr (anchor, Some route), db') /\
    GatewayRoute.service_id route = 43%N.
Proof.
  destruct (gateway_route_correct ServiceScenario.serving 7 "tiny-public" [NVIDIA])
    as (a & route & db' & E & H).
  - apply ServiceScenario.serving_reachable.
  - by vm_compute.
  - assert (match choose_route 7 "tiny-public" [NVIDIA] ServiceScenario.serving with
            | (inr (_, Some r), _) => GatewayRoute.service_id r
            | _ => 0%N
            end = 43%N) as F by by vm_compute.
    rewrite E in F. destruct route as [route|]; [|discriminate F]. exists a, route, db'. exact (conj E F).
Defined.

(** ** The catalog *)
Lemma ambiguous_false db p n : registry_ok db -> ambiguous db p n = false.
Proof.
  intros Hg. apply not_true_iff_false. unfold ambiguous. intros (m & Hm & Ha)%existsb_exists.
  apply list_elem_of_In, elem_of_lfilter in Hm as [(i & Hi)%rows_elem Hp]. rewrite eqb_true in Hp.
  apply andb_true_iff in Ha as [Hn Ha]. rewrite eqb_true in Hn.
  destruct (head (services_named db p n)) as [s|] eqn:Es; [|done].
  apply head_elem, services_named_elem in Es as ((j & Hj) & Hps & Hns).
  rewrite negb_true_iff, eqb_false in Ha. apply Ha. rewrite (rg_model_id db Hg _ _ Hi).
  eapply (rg_owner db Hg); [done..|congruence|congruence].
Qed.

Lemma makes_available_iff db p m s :
  registry_ok db ->
  makes_available db p (Db.clock db) m s = true <->
  ModelService.logical_model_id s = Some (LogicalModel.id m) /\
  LogicalModel.status m = ModelAvailabilityStatus.READY /\ 0 < ModelService.desired_replicas s /\
  has_endpoint db s = true /\
  admitted db (_candidate_policy (Some (LogicalModel.routing_policy m))) (LogicalModel.id m) s /\
  blocked db p (Db.clock db) s = false.
Proof.
  intros Hg. unfold makes_available, admitted, blocked. rewrite (ambiguous_false db p _ Hg).
  destruct (ModelService.logical_model_id s == _) eqn:El; [|rewrite eqb_false in El; naive_solver].
  rewrite eqb_true in El. rewrite El. cbn [negb andb].
  destruct (LogicalModel.status m == _) eqn:Est; [|rewrite eqb_false in Est; naive_solver].
  rewrite eqb_true in Est. cbn [andb]. rewrite !andb_true_iff, Z.ltb_lt.
  assert (forall o : option Variant,
    match o with
    | Some v => (ModelVariant.status v == ModelAvailabilityStatus.READY)
        && (ModelService.selected_vendor s == Some (ModelVariant.vendor v))
        && (ModelService.selected_kind s == Some (ModelVariant.kind v))
    | None => false
    end = true <-> exists v, o = Some v /\ ModelVariant.status v = ModelAvailabilityStatus.READY /\
      ModelService.selected_vendor s = Some (ModelVariant.vendor v) /\
      ModelService.selected_kind s = Some (ModelVariant.kind v)) as Hv.
  { intros [v|]; [|naive_solver]. rewrite !andb_true_iff, !eqb_true. naive_solver. }
  rewrite Hv. clear Hv.
  assert (forall v, match Db.circuits db !! (p, LogicalModel.id m, v) with
                    | Some c => negb (circuit_open (Db.clock db) c) | None => true end = true <->
          match Db.circuits db !! (p, LogicalModel.id m, v) with
          | Some c => circuit_open (Db.clock db) c | None => false end = false) as Hc.
  { intros v. destruct (Db.circuits db !! _); [apply negb_true_iff|done]. }
  destruct (ModelService.selected_vendor s) as [v|]; [rewrite Hc|]; tauto.
Qed.

(** A service makes its ready model available exactly if it is a candidate
    that is viable without exclusions. *)
Lemma makes_available_viable db p m s :
  registry_ok db -> LogicalModel.status m = ModelAvailabilityStatus.READY ->
  s ∈ project_services db p /\ makes_available db p (Db.clock db) m s = true <->
  s ∈ model_list db p m /\ viable db p [] (Db.clock db) s = true.
Proof.
  intros Hg Hst. rewrite model_list_elem, viable_cases, (makes_available_iff db p m s Hg). unfold project_services.
  rewrite elem_of_lfilter, rows_elem, eqb_true. split.
  - intros ((Hs & Hp) & Hl & _ & Hd & He & Ha & Hb). split_and!; try done.
    + by apply (passes_logical db _ s _ Hl).
    + intros v _. apply not_elem_of_nil.
    + lia.
  - intros (((Hs & Hp & Hl & Hd) & Hpass) & _ & Hb & _ & _ & He). split_and!; try done.
    by apply (passes_logical db _ s _ Hl).
Qed.

Lemma elem_of_rev {A} (l : list A) x : x ∈ rev l <-> x ∈ l.
Proof. by rewrite !list_elem_of_In, <-in_rev. Qed.

Definition in_catalog (db : Db.t) (p : N) (n : string) : Prop :=
  exists e, e ∈ list_available_models db p /\ GatewayModelCatalogEntry.model_id e = n.

Lemma in_catalog_iff db p n :
  registry_ok db ->
  in_catalog db p n <->
  (exists s, s ∈ project_services db p /\ ModelService.logical_model_id s = None /\ ModelService.name s = n /\
     0 < ModelService.desired_replicas s /\ has_endpoint db s = true) \/
  (exists m, m ∈ project_models db p /\ LogicalModel.public_name m = n /\
     exists s, s ∈ project_services db p /\ makes_available db p (Db.clock db) m s = true).
Proof.
  intros Hg. unfold in_catalog, list_available_models. cbv zeta.
  setoid_rewrite elem_of_rev. setoid_rewrite elem_of_py_sort. setoid_rewrite elem_of_rev.
  setoid_rewrite elem_of_app. setoid_rewrite list_elem_of_fmap. split.
  - intros (e & [(s & -> & [Hs Hc]%elem_of_lfilter)|(m & -> & [Hm Hc]%elem_of_lfilter)] & En); cbn in En.
    + left. exists s. rewrite elem_of_py_sort in Hs. rewrite !andb_true_iff, Z.ltb_lt in Hc.
      destruct Hc as (((Hl & _) & Hd) & He). split_and!; try done. by destruct (ModelService.logical_model_id s).
    + right. exists m. split_and!; [done|done|]. apply existsb_exists in Hc as (s & Hs & Hav).
      apply list_elem_of_In, elem_of_py_sort in Hs. by exists s.
  - intros [(s & Hs & Hl & Hn & Hd & He)|(m & Hm & Hn & s & Hs & Hav)].
    + exists (GatewayModelCatalogEntry.mk (ModelService.name s) (ModelService.created_at s)). split; [|done]. left.
      exists s. split; [done|]. apply elem_of_lfilter. rewrite elem_of_py_sort, (ambiguous_false db p _ Hg), Hl, He.
      cbn [is_none negb andb]. by rewrite andb_true_r, Z.ltb_lt.
    + exists (GatewayModelCatalogEntry.mk (LogicalModel.public_name m) (LogicalModel.created_at m)). split; [|done]. right.
      exists m. split; [done|]. apply elem_of_lfilter. split; [done|]. apply existsb_exists. exists s. split; [|done].
      by rewrite <-list_elem_of_In, elem_of_py_sort.
Qed.

Lemma first_viable db p ex now l :
  (exists s, s ∈ l /\ viable db p ex now s = true) <-> is_Some (List.find (viable db p ex now) l).
Proof.
  split.
  - intros (s & Hs & Hv). destruct (List.find _ l) eqn:E; [done|]. by rewrite (find_none _ _ E s Hs) in Hv.
  - intros [s (before & after & -> & Hv & _)%find_first]. exists s. split; [set_solver|done].
Qed.

Lemma project_models_elem db p n m :
  m ∈ project_models db p /\ LogicalModel.public_name m = n <-> m ∈ models_public db p n.
Proof. unfold project_models. rewrite elem_of_lfilter, rows_elem, eqb_true, models_public_elem. tauto. Qed.

Lemma project_services_elem db p s :
  s ∈ project_services db p <-> (exists i, Db.services db !! i = Some s) /\ ModelService.project_id s = p.
Proof. unfold project_services. by rewrite elem_of_lfilter, rows_elem, eqb_true. Qed.

(** The catalog and the candidates of a public model. *)
Lemma public_candidates db p n m :
  registry_ok db -> models_public db p n = [m] ->
  in_catalog db p n <-> exists s, s ∈ route_list db p n /\ viable db p [] (Db.clock db) s = true.
Proof.
  intros Hg Ep. rewrite (in_catalog_iff db p n Hg). unfold route_list. rewrite Ep. cbn [head].
  assert (m ∈ models_public db p n) as Hm by (rewrite Ep; left). split.
  - intros [(s & [(j & Hj) Hp]%project_services_elem & Hl & Hn & _)|(m' & Hm' & Hn & s & Hs)].
    + apply models_public_elem in Hm as ((i & Hi) & Hpm & Hnm).
      rewrite (rg_owner db Hg j i s m) in Hl; [done..|congruence|congruence].
    + assert (m' ∈ models_public db p n) as Hx by by apply project_models_elem. rewrite Ep in Hx.
      apply list_elem_of_singleton in Hx as ->.
      destruct (proj1 (makes_available_iff db p m s Hg) (proj2 Hs)) as (_ & Hst & _). rewrite Hst, eqb_same.
      exists s. by apply makes_available_viable.
  - intros (s & Hs). destruct (LogicalModel.status m == _) eqn:Est; [|by destruct Hs as [?%not_elem_of_nil _]].
    rewrite eqb_true in Est. apply (makes_available_viable db p m s Hg Est) in Hs.
    right. exists m. apply project_models_elem in Hm as [Hm Hn]. split_and!; eauto.
Qed.

(** The catalog and the candidates of a service without a model. *)
Lemma plain_candidates db p n :
  registry_ok db -> books db -> models_public db p n = [] ->
  (forall s, s ∈ services_named db p n -> ModelService.logical_model_id s = None) ->
  in_catalog db p n <-> exists s, s ∈ route_list db p n /\ viable db p [] (Db.clock db) s = true.
Proof.
  intros Hg Hb Ep Hplain. rewrite (in_catalog_iff db p n Hg). unfold route_list. rewrite Ep. cbn [head].
  assert (forall s, ModelService.logical_model_id s = None ->
    ordered db None (_candidate_policy None) [s] = [s] /\ blocked db p (Db.clock db) s = false) as Hone.
  { intros s Hl. split; [unfold ordered, passes, preflight_reason; cbn; by rewrite Hl|]. unfold blocked. by rewrite Hl. }
  split.
  - intros [(s & [(j & Hj) Hp]%project_services_elem & Hl & Hn & Hd & He)|(m & Hm & Hn & _)].
    2:{ by destruct (not_elem_of_nil m); rewrite <-Ep; apply project_models_elem. }
    assert (s ∈ services_named db p n) as Hs by (apply services_named_elem; eauto).
    destruct (head (services_named db p n)) as [a|] eqn:Ea; [|apply head_None in Ea; rewrite Ea in Hs; by apply not_elem_of_nil in Hs].
    apply head_elem in Ea. rewrite (Hplain a Ea). destruct (Hone a (Hplain a Ea)) as [-> Hbl].
    apply services_named_elem in Ea as ((k & Hk) & Hpa & Hna).
    assert (j = k) as -> by (eapply (rg_service_name db Hg); [done..|congruence|congruence]).
    assert (a = s) as -> by congruence. exists s. split; [left|]. apply viable_cases.
    split_and!; try done; [intros; apply not_elem_of_nil|lia].
  - intros (s & Hs & Hv). left. destruct (head (services_named db p n)) as [a|] eqn:Ea; [|by apply not_elem_of_nil in Hs].
    apply head_elem in Ea. pose proof (Hplain a Ea) as Hl. rewrite Hl in Hs. destruct (Hone a Hl) as [E _]. rewrite E in Hs.
    apply list_elem_of_singleton in Hs as ->. apply services_named_elem in Ea as ((k & Hk) & Hpa & Hna).
    apply viable_cases in Hv as (_ & _ & Hp & Hd & He). exists a. rewrite project_services_elem.
    destruct (bk_rows db Hb k a Hk) as [_ Hc]. unfold service_checks in Hc. rewrite !andb_true_iff in Hc.
    split_and!; [eauto..|lia|done].
Qed.

(** C16: the catalog lists exactly what can be routed.  In a reachable database,
    for every name other than the internal name of a service that is published
    under the public name of its model, [list_available_models] has an entry of
    that name exactly if [choose_route] without exclusions finds a route for
    it at that moment: what a client sees in the catalog can be called, and
    what can be called is in the catalog. *)
Theorem catalog_matches_routing db p n
    (Hr : reachable db) (Hmax : lenZ (rows (Db.services db)) <= _MAX_ROUTING_CURSOR)
    (Hn : forall i s l, Db.services db !! i = Some s -> ModelService.project_id s = p -> ModelService.name s = n ->
       ModelService.logical_model_id s = Some l ->
       exists m, Db.logical_models db !! l = Some m /\ LogicalModel.project_id m = p /\ LogicalModel.public_name m = n) :
  (exists e, e ∈ list_available_models db p /\ GatewayModelCatalogEntry.model_id e = n) <->
  (exists anchor route db', choose_route p n [] db = (inr (anchor, Some route), db')).
Proof.
  pose proof (reachable_registry db Hr) as Hg. pose proof (reachable_books db Hr) as Hb.
  change (exists e, e ∈ list_available_models db p /\ GatewayModelCatalogEntry.model_id e = n) with (in_catalog db p n).
  transitivity (exists s, s ∈ route_list db p n /\ viable db p [] (Db.clock db) s = true).
  - destruct (public_unique db p n Hg) as [Ep|(m & Ep)]; [|by eapply public_candidates].
    apply plain_candidates; [done..|]. intros s Hs. apply services_named_elem in Hs as ((i & Hi) & Hp & Hns).
    destruct (ModelService.logical_model_id s) as [l|] eqn:El; [|done].
    destruct (Hn i s l Hi Hp Hns El) as (m & Hm & Hpm & Hnm). exfalso. apply (not_elem_of_nil m). rewrite <-Ep.
    apply models_public_elem. eauto.
  - rewrite first_viable. pose proof (choose_route_run db p n [] Hg Hb Hmax) as H. unfold answers in H.
    destruct (List.find _ _) as [s|].
    + destruct H as (a & route & db' & E & _). split; [eauto|done].
    + destruct H as (a & db' & E). rewrite E. split; [by intros [? ?]|by intros (? & ? & ? & ?)].
Qed.

Lemma catalog_matches_routing_witness :
  exists anchor route db', choose_route 7 "tiny-public" [] ServiceScenario.serving = (inr (anchor, Some route), db').
Proof.
  apply (catalog_matches_routing ServiceScenario.serving 7 "tiny-public").
  - apply ServiceScenario.serving_reachable.
  - by vm_compute.
  - intros i s l Hs _ Hn _. exfalso.
    assert (forallb (fun s => ModelService.name s !== "tiny-public") (rows (Db.services ServiceScenario.serving)) = true)
      as F by by vm_compute.
    pose proof (proj1 (forallb_forall _ _) F s (proj1 (list_elem_of_In _ _) (proj2 (rows_elem _ _) (ex_intro _ i Hs)))) as G.
    cbv beta in G. rewrite negb_true_iff, eqb_false in G. exact (G Hn).
  - assert (existsb (fun e => GatewayModelCatalogEntry.model_id e == "tiny-public")
      (list_available_models ServiceScenario.serving 7) = true) as F by by vm_compute.
    apply existsb_exists in F as (e & He & Hn). rewrite eqb_true in Hn. exists e. split; [by apply list_elem_of_In|exact Hn].
Defined.
