(* ===== verification/Autoscaling.v ===== *)
(** * Autoscaling

    What an examination of one service by the autoscaler can do: it moves the
    number of replicas only within the limits of the service, on fresh load
    metrics and outside the cooldown, and touches no other service. *)

From S2P Require Import Prelude PyString PyFloat PyUrl Enums Policies Store Frames Names Quotas Tasks Invariant.
From S2P Require Import Services ModelRegistry Gateway ServiceControl ServiceFrames System.
From S2P Require Import ServiceInvariant Scenario ServiceScenario.
Import ServiceAutoscaler.

#[local] Open Scope stdpp_scope.
#[local] Open Scope Z_scope.

Lemma get_locked_clock p : frames same_clock (get_locked p).
Proof. frame_clock. Qed.

(** ** The target *)
Lemma target_bounds s n z :
  service_checks s = true ->
  ModelService.autoscaling_min_replicas s <= _target_replicas s n z <= ModelService.autoscaling_max_replicas s /\
  (z = false -> 1 <= _target_replicas s n z).
Proof.
  unfold service_checks, _target_replicas. rewrite !andb_true_iff. intros H. destruct z; split; try discriminate; lia.
Qed.

(** ** One service *)

(** What may happen to the row [s] while another or the same is examined. *)
Definition rescaled (c : Config.t) (metrics : N -> option ServiceLoad.t) (now : Z) (v : Verdict) (i : N) (s s' : Svc) : Prop :=
  v = Scaled /\ ModelService.autoscaling_enabled s = true /\
  ModelService.autoscaling_min_replicas s <= ModelService.desired_replicas s' <= ModelService.autoscaling_max_replicas s /\
  (Config.scale_to_zero_enabled c = false -> 1 <= ModelService.desired_replicas s') /\
  (exists l, metrics i = Some l /\ _usable_load (Some l) now (Config.metric_max_age_seconds c) = true /\
     ModelService.desired_replicas s' = _target_replicas s (ServiceLoad.active_requests l) (Config.scale_to_zero_enabled c)) /\
  _in_cooldown s now = false /\ ModelService.last_scaled_at s' = Some now.

(** The rows after [scale] on the row [s] of the table. *)
Lemma scale_rows c d s t now db v db' :
  scale c d s t now db = (inr v, db') ->
  Db.services db !! ModelService.id s = Some s ->
  (forall j, j <> ModelService.id s -> Db.services db' !! j = Db.services db !! j) /\
  exists s', Db.services db' !! ModelService.id s = Some s' /\
    (ModelService.desired_replicas s' = ModelService.desired_replicas s \/
     (v = Scaled /\ ModelService.desired_replicas s' = t /\ ModelService.last_scaled_at s' = Some now)).
Proof.
  intros H Hs. unfold scale in H. case_match; [minv H; eauto|].
  apply bind_ok in H as (adm & db1 & H1 & H).
  assert (aside db db1) as [Ea _ _ _ _] by (eapply (frames_run aside), H1; frame_aside).
  rewrite <-Ea in Hs |- *. clear H1 Ea db. rename db1 into db.
  destruct adm as [ns|]; [|minv H; eauto]. unfold try_except in H.
  match type of H with context [let (_, _) := ?m db in _] => destruct (m db) as [[e|v'] db1] eqn:E end.
  - destruct e; try done. minv H.
    apply bind_err in E as [E|(r & db2 & E1 & E)]; [|exfalso; destruct r; [|done];
      apply bind_err in E as [E|(u & db3 & E2 & E)]; [exact (update_service_total _ _ _ _ _ E)|done]].
    apply set_desired_quota_error in E as [E _ _ _ _]. rewrite E. eauto.
  - injection H as <- <-. apply bind_ok in E as (r & db2 & E1 & E).
    destruct (set_desired_ok _ _ _ _ _ _ _ E1) as [[-> Hr]|(s0 & nodes & db4 & st & es & Hi & Hp & H1 & Hc & -> & ->)].
    + destruct r as [x|]; [|minv E; eauto]. apply bind_ok in E as (u & db3 & E2 & E). apply ret_ok in E as [-> ->].
      apply update_service_ok in E2 as [_ ->]. fields. destruct Hr as [Hr|Hr]; [done|]. rewrite Hs in Hr.
      injection Hr as ->. split; [intros j Hj; by rewrite lookup_alter_ne|].
      rewrite lookup_alter_eq, Hs. eexists. split; [done|]. by left.
    + apply bind_ok in E as (u & db3 & E2 & E). apply ret_ok in E as [-> ->].
      apply update_service_ok in E2 as [_ ->]. replace s0 with s in * by congruence.
      apply replace_counters in H1 as (Es & _).
      destruct (identity_fields _ _ (scaled_identity t nodes (Db.clock db4) s)) as (-> & _).
      fields. rewrite Es. split; [intros j Hj; by rewrite !lookup_alter_ne|].
      rewrite !lookup_alter_eq, Hs. eexists. split; [reflexivity|]. right. split_and!; [done| |done]. fields.
      apply scaled_desired.
Qed.

(** The examined row, before a decision: only the two time columns change. *)
Definition checked (now host_now : Z) (s : Svc) : Svc :=
  s <| ModelService.last_autoscale_checked_at := Some now |> <| ModelService.updated_at := host_now |>.

(** No number of replicas changes. *)
Definition unscaled (db db' : Db.t) : Prop := forall j s, Db.services db !! j = Some s ->
  exists s', Db.services db' !! j = Some s' /\ ModelService.desired_replicas s' = ModelService.desired_replicas s.

Lemma unscaled_refl db : unscaled db db.
Proof. intros j s Hs. eauto. Qed.

(** An examination that returns has made no decision, or runs [scale] on the
    checked row. *)
Lemma examine_cases c metrics h lm ls d candidate db v db' :
  books db ->
  examine c metrics h lm ls d candidate db = (inr v, db') ->
  unscaled db db' \/
  exists k x l db2, Db.services db !! k = Some x /\ ModelService.autoscaling_enabled x = true /\
    metrics k = Some l /\ _usable_load (Some l) (Db.clock db) (Config.metric_max_age_seconds c) = true /\
    _in_cooldown x (Db.clock db) = false /\
    Db.services db2 = <[k := checked (Db.clock db) h x]> (Db.services db) /\
    scale c d (checked (Db.clock db) h x)
      (_target_replicas x (ServiceLoad.active_requests l) (Config.scale_to_zero_enabled c)) (Db.clock db) db2 = (inr v, db').
Proof.
  intros Hb He. unfold examine in He. destruct candidate as [[[k lid] rt] ck].
  apply bind_ok in He as (b & db0 & Hg & He). apply gets_ok in Hg as [-> ->].
  case_match; [minv He; left; apply unscaled_refl|].
  apply bind_ok in He as (o & db0 & Hg & He). apply gets_ok in Hg as [-> ->].
  destruct (Db.services db !! k) as [x|] eqn:Hk; [|minv He; left; apply unscaled_refl].
  destruct (_ && _) eqn:Hen; [|minv He; left; apply unscaled_refl]. apply andb_true_iff in Hen as [Hen _].
  do 2 (match type of He with (if ?b then _ else _) _ = _ => destruct b; [minv He; left; apply unscaled_refl|] end).
  apply bind_ok in He as (qs & db1 & Hl & He). apply bind_ok in He as (now & db2 & Hn & He).
  pose proof (frames_run same_clock _ _ _ _ (get_locked_clock _) Hl) as Hclk.
  pose proof (frames_run aside _ _ _ _ (get_locked_aside _) Hl) as [Esv _ _ _ _].
  apply gets_ok in Hn as [-> ->]. rewrite Hclk in He.
  apply bind_ok in He as (s1 & db2 & Hu & He). apply update_service_ok in Hu as [-> ->]. cbv zeta in He.
  destruct (bk_rows db Hb k x Hk) as [Hxk _]. rewrite Hxk in He.
  set (db2 := db1 <| Db.services ::= _ |>) in He.
  assert (Db.services db2 = <[k := checked (Db.clock db) h x]> (Db.services db)) as Es2.
  { unfold db2. fields. rewrite Esv. apply map_eq. intros j. destruct (decide (j = k)) as [->|Hne].
    - by rewrite lookup_alter_eq, lookup_insert_eq, Hk.
    - by rewrite lookup_alter_ne, lookup_insert_ne. }
  assert (unscaled db db2) as Hq.
  { intros j s Hj. rewrite Es2. destruct (decide (j = k)) as [->|Hne]; [|rewrite lookup_insert_ne by done; eauto].
    rewrite lookup_insert_eq. eexists. split; [done|]. by replace s with x by congruence. }
  change (ModelService.id (x <| ModelService.last_autoscale_checked_at := _ |> <| ModelService.updated_at := _ |>))
    with (ModelService.id x) in He. rewrite Hxk in He.
  destruct (metrics k) as [l|] eqn:Hm; [|minv He; by left].
  match type of He with (if ?b then _ else _) _ = _ => destruct b eqn:Hus; [minv He; by left|] end.
  match type of He with (if ?b then _ else _) _ = _ => destruct b eqn:Hcool; [minv He; by left|] end.
  match type of He with (if ?b then _ else _) _ = _ => destruct b; [minv He; by left|] end.
  right. exists k, x, l, db2. apply negb_false_iff in Hus. by split_and!.
Qed.

(** C18: autoscaling stays within its limits.  When the autoscaler examines one
    candidate of a reachable database, a service changes its number of desired
    replicas only if the verdict is [Scaled], autoscaling is enabled for it,
    its load metric is present, not negative and fresh, and it is not cooling
    down; the new number is the target for that load, between the service's
    minimum and maximum, at least one unless scaling to zero is enabled, and the
    instant is recorded, which starts the next cooldown.  Every other service
    keeps its number, and no service disappears. *)
Theorem autoscale_within_limits c metrics host_now locked_models locked_services d candidate db v db' i s
    (Hr : reachable db)
    (He : examine c metrics host_now locked_models locked_services d candidate db = (inr v, db'))
    (Hs : Db.services db !! i = Some s) :
  exists s', Db.services db' !! i = Some s' /\
    (ModelService.desired_replicas s' = ModelService.desired_replicas s \/
     rescaled c metrics (Db.clock db) v i s s').
Proof.
  pose proof (reachable_books db Hr) as Hb.
  destruct (examine_cases _ _ _ _ _ _ _ _ _ _ Hb He)
    as [Hq|(k & x & l & db2 & Hk & Hen & Hm & Hus & Hcool & Es2 & Hsc)].
  { destruct (Hq i s Hs) as (s' & ? & ?). eauto. }
  destruct (bk_rows db Hb k x Hk) as [Hxk Hxc].
  assert (ModelService.id (checked (Db.clock db) host_now x) = k) as Hid by exact Hxk.
  apply scale_rows in Hsc as [Hoth (s' & Hs' & Hsc)]; rewrite ?Hid in *; [|by rewrite Es2, lookup_insert_eq].
  destruct (decide (i = k)) as [->|Hne].
  - exists s'. split; [done|]. replace s with x in * by congruence.
    destruct Hsc as [Hsc|(-> & Ht & Hlast)]; [by left|right].
    destruct (target_bounds x (ServiceLoad.active_requests l) (Config.scale_to_zero_enabled c) Hxc) as [Hb1 Hb2].
    unfold rescaled. rewrite Ht. split_and!; [done|done|lia|lia|exact Hb2|eauto|done|done].
  - exists s. rewrite Hoth, Es2, lookup_insert_ne by done. auto.
Qed.

Definition sample_config : Config.t := Config.mk 10 (float_of_Z 60) false false.
Definition sample_load : N -> option ServiceLoad.t := fun _ => Some (ServiceLoad.mk 30 1000000).

Lemma autoscale_within_limits_witness :
  exists db' s', examine sample_config sample_load 1000000 ∅ ∅ None
      (41%N, None, FAKE, None) ServiceScenario.serving = (inr Scaled, db') /\
    Db.services db' !! 41%N = Some s' /\ ModelService.desired_replicas s' = 4.
Proof.
  destruct (Db.services ServiceScenario.serving !! 41%N) as [s|] eqn:Hs; [|present Hs].
  assert (match examine sample_config sample_load 1000000 ∅ ∅ None
      (41%N, None, FAKE, None) ServiceScenario.serving with
    | (inr Scaled, db') => ModelService.desired_replicas <$> Db.services db' !! 41%N
    | _ => None
    end = Some 4) as F by by vm_compute.
  destruct (examine sample_config sample_load 1000000 ∅ ∅ None
      (41%N, None, FAKE, None) ServiceScenario.serving) as [o db'] eqn:E.
  destruct o as [e|[]]; try discriminate F.
  destruct (autoscale_within_limits sample_config sample_load 1000000 ∅ ∅ None (41%N, None, FAKE, None)
    ServiceScenario.serving Scaled db' 41 s ServiceScenario.serving_reachable E Hs) as (s' & Hs' & _).
  rewrite Hs' in F. apply (inj Some) in F. exists db', s'. exact (conj eq_refl (conj Hs' F)).
Defined.
