(* ===== verification/ServiceFencing.v ===== *)
(** * Fencing of replica callbacks

    A runtime that lost its replica, or a worker whose session was replaced,
    can no longer change anything: every callback answers [False] or raises on
    its arguments, and the database is as it was. *)

From S2P Require Import Prelude PyString PyFloat PyUrl Enums Policies Store Frames Names Quotas Tasks Invariant.
From S2P Require Import Services ModelRegistry Gateway ServiceControl ServiceFrames System.
From S2P Require Import ServiceInvariant Scenario ServiceScenario Replicas.
Import ServiceRepository.

#[local] Open Scope stdpp_scope.
#[local] Open Scope Z_scope.

(** The call changes nothing and is not accepted. *)
Definition refused (m : Sess bool) (db : Db.t) : Prop := (m db).2 = db /\ (m db).1 <> inr true.

Lemma refused_ret db : refused (mret false) db.
Proof. done. Qed.
Lemma refused_read {A} (m : Sess A) (k : A -> Sess bool) db :
  frames eq m -> (forall a, m db = (inr a, db) -> refused (k a) db) -> refused (m ≫= k) db.
Proof.
  intros Hm Hk. pose proof (Hm db) as E. unfold refused, mbind, M_bind.
  destruct (m db) as [[e|a] db1] eqn:Em; cbn in *; [done|]. subst db1. by apply Hk.
Qed.

(** The caller, execution [e] of generation [g] on worker [w] when it names
    one, is not the owner the replica's row records. *)
Definition not_owner (db : Db.t) (i : N) (g : Z) (e : N) (w : option string) : Prop := forall r,
  Db.replicas db !! i = Some r ->
  ServiceReplica.generation r <> g \/ ServiceReplica.execution_id r <> Some e \/
  (w <> None /\ ServiceReplica.worker_id r <> w).

(** The caller names a session, and the worker it names is registered with
    another one, or not at all; or it names no worker. *)
Definition stale_session (db : Db.t) (w : option string) (ses : option N) : Prop :=
  exists k, ses = Some k /\
    forall w' x, w = Some w' -> Db.workers db !! w' = Some x -> Worker.worker_session_id x <> k.

(** The service wants no replica of generation [g]. *)
Definition unwanted (db : Db.t) (i : N) (g : Z) : Prop := forall r s,
  Db.replicas db !! i = Some r -> Db.services db !! ServiceReplica.service_id r = Some s ->
  ModelService.generation s <> g \/ ModelService.desired_replicas s = 0.

Lemma session_fenced db w ses b :
  stale_session db w ses -> _worker_session_matches w ses db = (inr b, db) -> b = false.
Proof.
  intros (k & -> & Hk). unfold _worker_session_matches, get_worker. destruct w as [w|]; [|done].
  unfold mbind, M_bind, gets, mret, M_ret. intros [= <-]. destruct (Db.workers db !! w) as [x|] eqn:Hx; [|done].
  apply eqb_false. by eapply Hk.
Qed.

(** The columns the guards compare. *)
Definition fenced (r : Rep) (g : Z) (e : N) (w : option string) : bool :=
  negb (ServiceReplica.generation r =? g) || (ServiceReplica.execution_id r !== Some e)
  || (negb (is_none w) && (ServiceReplica.worker_id r !== w)).

Lemma owner_fenced db i g e w r :
  not_owner db i g e w -> Db.replicas db !! i = Some r -> fenced r g e w = true.
Proof.
  intros H Hr. unfold fenced. rewrite !orb_true_iff, andb_true_iff, !negb_true_iff, Z.eqb_neq, !eqb_false.
  destruct (H r Hr) as [?|[?|[Hw ?]]]; [tauto..|]. right. split; [by destruct w|done].
Qed.

Lemma token_fenced db i g e r :
  not_owner db i g e None -> Db.replicas db !! i = Some r ->
  negb (ServiceReplica.generation r =? g) || (ServiceReplica.execution_id r !== Some e) = true.
Proof.
  intros H Hr. pose proof (owner_fenced _ _ _ _ _ _ H Hr) as F. unfold fenced in F. cbn [is_none negb andb] in F.
  by rewrite orb_false_r in F.
Qed.

(** A guard that begins with the session and the owner. *)
Lemma guarded_refused (k : bool -> Sess bool) w ses db :
  (stale_session db w ses \/ refused (k true) db) -> refused (k false) db ->
  refused (_worker_session_matches w ses ≫= k) db.
Proof.
  intros H Hf. apply refused_read; [apply session_reads|]. intros b Hb.
  destruct H as [H|H]; [by rewrite (session_fenced _ _ _ _ H Hb)|by destruct b].
Qed.

Lemma locked_refused (k : option Svc * option Rep -> Sess bool) i db :
  (forall s, refused (k (s, None)) db) ->
  (forall r, Db.replicas db !! i = Some r ->
     refused (k (Db.services db !! ServiceReplica.service_id r, Some r)) db) ->
  refused (_lock_service_and_replica i ≫= k) db.
Proof.
  intros Hn Hs. apply refused_read; [frame_by fail|]. intros [s [r|]] Hl; [|apply Hn].
  apply lock_replica in Hl as (_ & Hr & ->). by apply Hs.
Qed.

(** The helper that most callbacks start with finds nothing. *)
Lemma owned_current_none db i g e w ses o :
  not_owner db i g e w \/ stale_session db w ses \/ unwanted db i g ->
  _owned_current_replica i g e w ses db = (inr o, db) -> o = None.
Proof.
  intros H Ho. unfold _owned_current_replica in Ho. apply bind_ok in Ho as (b & db1 & Hb & Ho).
  pose proof (frames_eq_run _ _ _ _ (session_reads w ses) Hb) as ->.
  destruct b; cbn [negb] in Ho; [|by apply ret_ok in Ho as [-> _]].
  apply bind_ok in Ho as ([s [r|]] & db2 & Hl & Ho); [|by apply ret_ok in Ho as [-> _]].
  apply lock_replica in Hl as (-> & Hr & ->).
  destruct (_ || _) eqn:E1; [by apply ret_ok in Ho as [-> _]|].
  destruct (negb (is_none w) && _) eqn:E2; [by apply ret_ok in Ho as [-> _]|]. destruct H as [H|[H|H]].
  - apply (owner_fenced db i g e w r H) in Hr. unfold fenced in Hr. by rewrite E1, E2 in Hr.
  - by apply (session_fenced db w ses true H) in Hb.
  - destruct (Db.services db !! _) as [s|] eqn:Es; [|by apply ret_ok in Ho as [-> _]].
    assert (negb (ModelService.generation s =? g) || (ModelService.desired_replicas s =? 0) = true) as Hg.
    { apply orb_true_iff. rewrite negb_true_iff, Z.eqb_neq, Z.eqb_eq. by eapply H. }
    rewrite Hg in Ho. by apply ret_ok in Ho as [-> _].
Qed.

Lemma owned_nonterminal_none db i g e w ses o :
  not_owner db i g e (Some w) \/ stale_session db (Some w) ses ->
  owned_nonterminal i g e w ses db = (inr o, db) -> o = None.
Proof.
  intros H Ho. unfold owned_nonterminal in Ho. apply bind_ok in Ho as (b & db1 & Hb & Ho).
  pose proof (frames_eq_run _ _ _ _ (session_reads (Some w) ses) Hb) as ->.
  destruct b; cbn [negb] in Ho; [|by apply ret_ok in Ho as [-> _]].
  destruct H as [H|H]; [|by apply (session_fenced db (Some w) ses true H) in Hb].
  apply bind_ok in Ho as ([s [r|]] & db2 & Hl & Ho); [|destruct s; by apply ret_ok in Ho as [-> _]].
  apply lock_replica in Hl as (-> & Hr & ->). destruct (Db.services db !! _); [|by apply ret_ok in Ho as [-> _]].
  pose proof (owner_fenced db i g e (Some w) r H Hr) as F. unfold fenced in F. cbn [is_none negb andb] in F.
  rewrite F in Ho. by apply ret_ok in Ho as [-> _].
Qed.

Lemma owned_current_reads i g e w ses : frames eq (_owned_current_replica i g e w ses).
Proof. frame_by fail. Qed.
Lemma owned_nonterminal_reads i g e w ses : frames eq (owned_nonterminal i g e w ses).
Proof. frame_by fail. Qed.

Ltac by_owned H :=
  apply refused_read; [first [apply owned_current_reads|apply owned_nonterminal_reads]|];
  intros o Ho; first [apply owned_current_none in Ho as ->|apply owned_nonterminal_none in Ho as ->]; [done|tauto].

(** C19: replica callbacks are fenced.  The caller gives the replica, its
    generation and execution, and may name its worker and the worker's session
    (the health controller names neither).  When the generation or the
    execution is not the one on the replica's row, or it names a worker that is
    not the one on the row, or it names a session with which its worker is not
    registered, then lease renewal, loading, running and health reports are
    refused, and so are the assignment of a node and the quarantine, whose
    caller always names its worker: each answers [False] or raises, and nothing
    changes.  Termination is refused on the generation, the execution and the
    session (it does not compare the worker), and the release of a request on
    the generation and the execution.  When the service no longer wants
    replicas of that generation, its replica cannot become loading or running
    and its health cannot be reported. *)
Theorem stale_replica_fenced db i g e w ses :
  (not_owner db i g e w \/ stale_session db w ses ->
   (forall lease, refused (renew_replica_lease i g e lease w ses) db) /\
   (forall node w', w = Some w' -> refused (record_replica_assignment i g e node w' ses) db) /\
   (forall code message w', w = Some w' -> refused (quarantine_replica_runtime i g e code message w' ses) db)) /\
  (not_owner db i g e None \/ stale_session db w ses ->
   forall status code message, refused (mark_replica_terminal i g e status code message w ses) db) /\
  (not_owner db i g e None -> refused (release_endpoint_request i g e) db) /\
  (not_owner db i g e w \/ stale_session db w ses \/ unwanted db i g ->
   (forall url, refused (mark_replica_loading i g e url w ses) db) /\
   (forall url revision digest, refused (mark_replica_running i g e url revision digest w ses) db) /\
   (forall health message n token, refused (record_replica_health i g e health message n token w ses) db)).
Proof.
  split_and!.
  - intros H. split_and!.
    + intros lease. unfold renew_replica_lease. apply guarded_refused; [|done].
      destruct H as [H|H]; [right|by left]. cbn [negb]. apply locked_refused; [by intros []|].
      intros r Hr. destruct (Db.services db !! _); [|done].
      pose proof (owner_fenced db i g e w r H Hr) as F. unfold fenced in F. by rewrite F.
    + intros node w' ->. unfold record_replica_assignment. apply refused_read; [frame_by fail|]. intros n _. by_owned H.
    + intros code message w' ->. unfold quarantine_replica_runtime. by_owned H.
  - intros H status code message. unfold mark_replica_terminal. apply refused_read; [frame_by fail|]. intros _ _.
    apply guarded_refused; [|done]. destruct H as [H|H]; [right|by left]. cbn [negb]. apply locked_refused; [by intros []|].
    intros r Hr. destruct (Db.services db !! _); [|done]. by rewrite (token_fenced db i g e r H Hr).
  - intros H. unfold release_endpoint_request. apply locked_refused; [done|]. intros r Hr.
    by rewrite (token_fenced db i g e r H Hr).
  - intros H. split_and!; intros.
    + unfold mark_replica_loading. by_owned H.
    + unfold mark_replica_running. by_owned H.
    + unfold record_replica_health. by_owned H.
Qed.

(** Replica 410 is owned by execution 610 on worker w1.  Another execution
    cannot end it, a report that names another worker is refused though the
    execution is right, and so is a health report of another execution that
    names no worker. *)
Lemma stale_replica_fenced_witness :
  (fun r => (ServiceReplica.execution_id r, ServiceReplica.worker_id r)) <$>
    Db.replicas ServiceScenario.serving !! 410%N = Some (Some 610%N, Some "w1") /\
  refused (mark_replica_terminal 410 1 999 ReplicaStatus.FAILED None None (Some "w1") (Some 11%N)) ServiceScenario.serving /\
  refused (record_replica_health 410 1 610 ReplicaHealth.UNHEALTHY None 1 None (Some "w2") None) ServiceScenario.serving /\
  refused (record_replica_health 410 1 999 ReplicaHealth.UNHEALTHY None 1 None None None) ServiceScenario.serving.
Proof.
  assert ((fun r => (ServiceReplica.execution_id r, ServiceReplica.worker_id r)) <$>
    Db.replicas ServiceScenario.serving !! 410%N = Some (Some 610%N, Some "w1")) as F by by vm_compute.
  assert (forall r, Db.replicas ServiceScenario.serving !! 410%N = Some r ->
    ServiceReplica.execution_id r = Some 610%N /\ ServiceReplica.worker_id r = Some "w1") as F'.
  { intros r Hr. rewrite Hr in F. cbn in F. injection F as F1 F2. split; [exact F1|exact F2]. }
  destruct (stale_replica_fenced ServiceScenario.serving 410 1 999 (Some "w1") (Some 11%N)) as (_ & H1 & _ & _).
  destruct (stale_replica_fenced ServiceScenario.serving 410 1 610 (Some "w2") None) as (_ & _ & _ & H2).
  destruct (stale_replica_fenced ServiceScenario.serving 410 1 999 None None) as (_ & _ & _ & H3).
  split; [exact F|]. split; [|split].
  - apply H1. left. intros r Hr. right. left. destruct (F' r Hr) as [-> _]. discriminate.
  - apply H2. left. intros r Hr. right. right. destruct (F' r Hr) as [_ ->]. split; discriminate.
  - apply H3. left. intros r Hr. right. left. destruct (F' r Hr) as [-> _]. discriminate.
Defined.
