(* ===== verification/LoadBalancing.v ===== *)
(** * Round robin over the replicas of a service

    Repeated requests to a service with [n] replicas that can take them visit
    each replica once in [n] calls: a request advances the cursor and leaves
    the list of these replicas as it was. *)

From S2P Require Import Prelude PyString PyFloat PyUrl Enums Policies Store Frames Names Quotas Tasks Invariant.
From S2P Require Import Services ModelRegistry Gateway ServiceControl ServiceFrames System.
From S2P Require Import ServiceInvariant Scenario ServiceScenario Replicas RegistryInvariant Convergence Routing.
Import ServiceRepository.

#[local] Open Scope stdpp_scope.
#[local] Open Scope Z_scope.

(** ** Sorting and rotating *)
Lemma py_sort_fmap {A K} `{Ord K} (key : A -> K) (f : A -> A) (l : list A) :
  (forall x, key (f x) = key x) -> py_sort key (f <$> l) = f <$> py_sort key l.
Proof.
  intros Hf. assert (forall x k, sort_insert key (f x) (f <$> k) = f <$> sort_insert key x k) as Hi.
  { intros x k. induction k as [|y k IH]; [done|]. cbn. rewrite !Hf. destruct (cmp (key x) (key y)); cbn; [done..|].
    f_equal. exact IH. }
  induction l as [|x l IH]; [done|]. cbn [fmap list_fmap py_sort foldr].
  unfold py_sort in IH. rewrite IH. apply Hi.
Qed.

Lemma rotate_lookup {A} (l : list A) (c : Z) (j : nat) :
  (j < List.length l)%nat ->
  rotate_from (Z.to_nat (c mod lenZ l)) l !! j = l !! Z.to_nat ((c + Z.of_nat j) mod lenZ l).
Proof.
  intros Hj. unfold rotate_from, lenZ. set (n := Z.of_nat (List.length l)).
  pose proof (Z.mod_pos_bound c n) as Hc. set (c' := Z.to_nat (c mod n)).
  assert ((c + Z.of_nat j) mod n = (Z.of_nat c' + Z.of_nat j) mod n) as ->.
  { unfold c'. rewrite Z2Nat.id by lia. by rewrite Zplus_mod_idemp_l. }
  destruct (decide (j < List.length l - c')%nat) as [Hl|Hl].
  - rewrite lookup_app_l by (rewrite length_drop; lia). rewrite lookup_drop. f_equal.
    rewrite Z.mod_small by lia. lia.
  - rewrite lookup_app_r by (rewrite length_drop; lia). rewrite length_drop, lookup_take_lt by lia. f_equal.
    assert ((Z.of_nat c' + Z.of_nat j) mod n = Z.of_nat c' + Z.of_nat j - n) as ->; [|lia].
    symmetry. apply (Z.mod_unique _ _ 1); lia.
Qed.

Lemma rotate_cycle {A} (l : list A) (c : Z) :
  (fun j => l !! Z.to_nat ((c + Z.of_nat j) mod lenZ l)) <$> seq 0 (List.length l)
  = Some <$> rotate_from (Z.to_nat (c mod lenZ l)) l.
Proof.
  assert (List.length (rotate_from (Z.to_nat (c mod lenZ l)) l) = List.length l) as Hn.
  { unfold rotate_from. rewrite length_app, length_drop, length_take. lia. }
  apply list_eq. intros j. rewrite !list_lookup_fmap. destruct (decide (j < List.length l)%nat) as [Hj|Hj].
  - rewrite lookup_seq_lt by done. cbn. rewrite <-rotate_lookup by done.
    destruct (lookup_lt_is_Some_2 (rotate_from (Z.to_nat (c mod lenZ l)) l) j) as [x Hx]; [lia|]. by rewrite Hx.
  - rewrite lookup_seq_ge by lia. rewrite lookup_ge_None_2 by lia. done.
Qed.

(** ** One request *)
Definition routable_ids (db : Db.t) (s : Svc) : list N := ServiceReplica.id <$> routable_replicas db s.

Definition counted (now : Z) (r : Rep) : Rep :=
  r <| ServiceReplica.active_requests ::= Z.succ |> <| ServiceReplica.updated_at := now |>
    <| ServiceReplica.version ::= Z.succ |>.
Definition advanced (now : Z) (s : Svc) : Svc :=
  s <| ModelService.round_robin_cursor ::= Z.succ |> <| ModelService.updated_at := now |>
    <| ModelService.version ::= Z.succ |>.

(** A request leaves the replicas that can take the next one. *)
Lemma acquired_ids db s r :
  replicas_ok db -> routable_ids (acquired db s r) (advanced (Db.clock db) s) = routable_ids db s.
Proof.
  intros Hok. set (f := fun x : Rep => if ServiceReplica.id x == ServiceReplica.id r then counted (Db.clock db) x else x).
  assert (Db.replicas (acquired db s r) = f <$> Db.replicas db) as E.
  { unfold acquired. fields. apply map_eq. intros i. rewrite lookup_fmap.
    destruct (decide (i = ServiceReplica.id r)) as [->|Hne].
    - rewrite lookup_alter_eq. destruct (Db.replicas db !! ServiceReplica.id r) as [x|] eqn:Hx; [|done]. cbn. f_equal.
      unfold f. by rewrite (rk_id db Hok _ _ Hx), eqb_same.
    - rewrite lookup_alter_ne by done. destruct (Db.replicas db !! i) as [x|] eqn:Hx; [|done]. cbn. f_equal.
      unfold f. by rewrite (rk_id db Hok _ _ Hx), (proj2 (eqb_false _ _)). }
  assert (forall x, ServiceReplica.id (f x) = ServiceReplica.id x /\ ServiceReplica.ordinal (f x) = ServiceReplica.ordinal x /\
    routable s (f x) = routable s x) as Hf by (intros x; unfold f; by case_match).
  unfold routable_ids, routable_replicas. rewrite E, rows_fmap.
  rewrite (lfilter_fmap f _ (routable s)) by (intros x _; apply Hf).
  rewrite py_sort_fmap by (intros x; by destruct (Hf x) as (-> & -> & _)).
  rewrite <-list_fmap_compose. apply list_fmap_ext. intros i x _. apply Hf.
Qed.

Definition call (i p : N) (acc : list EndpointSelection.t) (_ : nat) : Sess (list EndpointSelection.t) :=
  sel ← choose_healthy_endpoint i p; mret (acc ++ option_list sel).

Lemma calls_run p k a acc db s :
  replicas_ok db -> Db.services db !! ModelService.id s = Some s ->
  ModelService.project_id s = p -> ModelService.desired_replicas s <> 0 -> routable_ids db s <> [] ->
  exists sels db', foldM (seq a k) acc (call (ModelService.id s) p) db = (inr (acc ++ sels), db') /\
    Some <$> (EndpointSelection.replica_id <$> sels)
    = (fun j => routable_ids db s !! Z.to_nat ((ModelService.round_robin_cursor s + Z.of_nat j) mod lenZ (routable_ids db s)))
        <$> seq 0 k.
Proof.
  revert a acc db s. induction k as [|k IH]; intros a acc db s Hok Hs Hp Hd Hn.
  { exists [], db. by rewrite app_nil_r. }
  assert (endpoint_ready db p s = true) as He.
  { unfold endpoint_ready. rewrite Hp, eqb_same, (proj2 (Z.eqb_neq _ _) Hd). apply has_endpoint_nonempty.
    intros E. apply Hn. unfold routable_ids. by rewrite E. }
  destruct (choose_endpoint_some db p s Hs He) as (r & sel & R1 & _ & _ & R4 & (_ & R5 & _)).
  set (db1 := acquired db s r) in *. set (s1 := advanced (Db.clock db) s).
  assert (Db.services db1 !! ModelService.id s1 = Some s1) as Hs1.
  { unfold db1, acquired. fields. change (ModelService.id s1) with (ModelService.id s). by rewrite lookup_alter_eq, Hs. }
  assert (replicas_ok db1) as Hok1.
  { assert (frames replicas_kept (choose_healthy_endpoint (ModelService.id s) p)) as Hfr by frame_replicas.
    exact (proj1 (frames_run replicas_kept _ _ _ _ Hfr R4 Hok)). }
  destruct (IH (S a) (acc ++ [sel]) db1 s1 Hok1 Hs1 Hp Hd) as (sels & db' & E & Hsel).
  { unfold db1, s1. by rewrite acquired_ids. }
  change (ModelService.id s1) with (ModelService.id s) in E. exists (sel :: sels), db'. split.
  - cbn [seq foldM]. erewrite bind_run; [rewrite E, <-(assoc_L (++)); reflexivity|].
    unfold call. by rewrite (bind_run _ _ _ _ _ R4).
  - unfold db1, s1 in Hsel. rewrite acquired_ids in Hsel by done. cbn [fmap list_fmap seq]. f_equal.
    + rewrite R5. unfold next_replica in R1. unfold routable_ids. rewrite list_lookup_fmap.
      unfold lenZ in R1 |- *. rewrite length_fmap, Z.add_0_r. by rewrite R1.
    + etrans; [exact Hsel|]. rewrite <-(fmap_S_seq 0 k), <-list_fmap_compose. apply list_fmap_ext. intros j x _. cbn.
      do 3 f_equal. unfold advanced. fields. lia.
Qed.

(** C17: round robin is fair.  For a service of a reachable database whose
    desired number of replicas is not zero (a service scaled to zero answers no
    request, also while replicas still run), as many requests as it has
    replicas that can take one are all answered, and visit each of these
    replicas exactly once. *)
Theorem round_robin_fair db i s
    (Hr : reachable db) (Hs : Db.services db !! i = Some s) (Hd : ModelService.desired_replicas s <> 0) :
  exists sels db',
    foldM (seq 0 (List.length (routable_replicas db s))) [] (call i (ModelService.project_id s)) db = (inr sels, db') /\
    EndpointSelection.replica_id <$> sels ≡ₚ ServiceReplica.id <$> routable_replicas db s.
Proof.
  destruct (bk_rows db (reachable_books db Hr) i s Hs) as [Hi _]. subst i.
  destruct (routable_replicas db s) as [|r l] eqn:E; [by exists [], db|]. rewrite <-E.
  destruct (calls_run (ModelService.project_id s) (List.length (routable_replicas db s)) 0 [] db s)
    as (sels & db' & Ec & Hsel); [by apply reachable_replicas|done|done|done|unfold routable_ids; by rewrite E|].
  exists sels, db'. split; [done|]. fold (routable_ids db s).
  assert (List.length (routable_replicas db s) = List.length (routable_ids db s)) as Hlen
    by (unfold routable_ids; by rewrite length_fmap).
  rewrite Hlen, rotate_cycle in Hsel. apply (inj (fmap Some)) in Hsel. rewrite Hsel.
  unfold rotate_from. rewrite Permutation_app_comm. by rewrite take_drop.
Qed.

Lemma round_robin_fair_witness :
  exists sels db', foldM (seq 0 2) [] (call 41 7) ServiceScenario.serving = (inr sels, db') /\
    EndpointSelection.replica_id <$> sels ≡ₚ [410%N; 411%N].
Proof.
  destruct (Db.services ServiceScenario.serving !! 41%N) as [s|] eqn:Hs; [|present Hs].
  assert ((fun s => (ModelService.desired_replicas s, ModelService.project_id s,
             ServiceReplica.id <$> routable_replicas ServiceScenario.serving s))
            <$> Db.services ServiceScenario.serving !! 41%N = Some (2, 7%N, [410%N; 411%N])) as F by by vm_compute.
  rewrite Hs in F. apply (inj Some) in F. 
  pose proof (f_equal (fun t => fst (fst t)) F) as F1. pose proof (f_equal (fun t => snd (fst t)) F) as F2.
  pose proof (f_equal snd F) as F3. cbv beta iota delta [fst snd] in F1, F2, F3.
  destruct (round_robin_fair ServiceScenario.serving 41 s ServiceScenario.serving_reachable Hs) as (sels & db' & E & H).
  { rewrite F1. discriminate. }
  rewrite F3 in H. rewrite F2, <-(length_fmap ServiceReplica.id (routable_replicas _ s)), F3 in E.
  exists sels, db'. exact (conj E H).
Defined.
