(* ===== verification/AdmissionScenario.v ===== *)
(** * A sample run of vendor-aware admission

    A catalog with one runtime profile, Kubernetes workers with one node each,
    and tasks and services that ask for accelerators by vendor.  [nodes n] is a
    cluster of [n] nodes; the databases witness the hypotheses of the
    properties of admission. *)

From S2P Require Import Prelude PyFloat PyString PyUrl Enums PyDict PyJson Policies Store Names Quotas Tasks.
From S2P Require Import VendorAdmission Workers System Scenario Services ModelRegistry RuntimeProfiles AdmissionPlan.
From S2P Require Import Admission Scheduling GlobalScheduler ServiceScenario.
From Stdlib Require Import QArith.
From stdpp Require Import pretty.

#[local] Open Scope stdpp_scope.
#[local] Open Scope Z_scope.

Module AdmissionScenario.
Definition resource : string := "nvidia.com/gpu".

Definition profile : Profile :=
  RuntimeProfile.mk "vllm-cuda" "1.0.0" NVIDIA GPU "vllm" None resource
    {[VENDOR_NODE_SELECTOR := "nvidia"]} None [] ["decoder"] ["bfloat16"] ["chat"]
    (TensorParallelCapability.mk true 1 (Some 8) "profile")
    RuntimeProfileEvidenceStatus.SCHEMA_READY [] ["none"] ServiceScenario.digest.

Definition entry : Entry :=
  RuntimeProfileManifestEntry.mk "vllm-cuda@1.0.0" "vllm-cuda" "1.0.0" "runtime-profiles/vllm-cuda.yaml"
    ServiceScenario.digest NVIDIA GPU "vllm" RuntimeProfileEvidenceStatus.SCHEMA_READY [] ["decoder"] ["bfloat16"] ["chat"].

(** The directory holds the file of the entry. *)
Definition read (path : string) : option Profile :=
  if path == "runtime-profiles/vllm-cuda.yaml" then Some profile else None.

Definition catalog : Catalog :=
  RuntimeProfileCatalog.mk (RuntimeProfileManifest.mk [entry]) {[("vllm-cuda", "1.0.0") := profile]}.

Lemma catalog_loads : RuntimeProfileCatalog.from_path read (Some (RuntimeProfileManifest.mk [entry])) = inr catalog.
Proof. vm_compute. reflexivity. Qed.

Definition binding : string := "vllm-cuda@1.0.0#" +:+ ServiceScenario.digest.

(** Worker [i] runs on node [i] with the session [100 + i]. *)
Definition worker_name (i : nat) : string := "gpu-worker-" +:+ pretty i.
Definition node_name (i : nat) : string := "node-" +:+ pretty i.

Definition registration (i : nat) : Registration.t :=
  Registration.mk (worker_name i) "host" 4 16 65536 ∅ 2 (Some "A100") 81920 (100 + N.of_nat i)%N
    (Some (node_name i)) (Some ["kubernetes"]) None.

Definition device (i : nat) (j : Z) : InventoryItem.t :=
  InventoryItem.mk ("GPU-" +:+ pretty i +:+ "-" +:+ pretty j) j 40960 40960 (Some "nvidia") false (Some "gpu") "A100"
    None None [binding] ["bf16"] (Some resource) (Some (node_name i)) (Some "healthy").

Definition node (i : nat) : list Op :=
  [OpRegister (registration i);
   OpInventory (fun n => 1000 + 10 * N.of_nat i + N.of_nat n)%N (worker_name i) (100 + N.of_nat i)%N
     [device i 0; device i 1]].

Definition nodes (n : nat) : list Op := concat (node <$> seq 0 n).

(** A task that asks for [count] accelerators. *)
Definition request (count : Z) : AcceleratorRequest.t :=
  AcceleratorRequest.mk count [NVIDIA] [GPU] [] [] None ANY.

Definition submission (count : Z) : Submission.t :=
  (Scenario.submission Scenario.quarter) <| Submission.gpu_count := count |>
    <| Submission.runtime_type := KUBERNETES |> <| Submission.accelerator_request_json := Some (request count) |>.

(** Two nodes with two devices each, task 5 waits for two devices. *)
Definition waiting : Db.t := Scenario.run (nodes 2 ++ [OpCreate 5 (submission 2)]) Scenario.start.

Definition config : GConfig.t :=
  GConfig.mk "s" Scenario.lease "binpack" 300 Scenario.free true 10 16 128 (Some catalog).

Definition admission : BatchAdmissionSnapshot.t :=
  BatchAdmissionSnapshot.mk (worker_name 0) 100%N NVIDIA GPU "A100" "vllm-cuda" "1.0.0" ServiceScenario.digest
    KUBERNETES_DEVICE_PLUGIN resource ANY (node_name 0).

(** Model 31 with the NVIDIA variant 32, on the same two nodes. *)
Definition modelled : Db.t :=
  Scenario.run (nodes 2 ++ [OpInitialize 7; OpLimits 7 ServiceScenario.limits;
    OpModel 31 7 "tiny" "tiny-public" None [] None GatewayRoutingPolicy.PREFER_NVIDIA;
    OpVariant 32 7 31 (ServiceScenario.variant "cuda" NVIDIA);
    OpModelStatus 7 31 ModelAvailabilityStatus.READY "released" None]) Scenario.start.

(** Any NVIDIA device, two per replica. *)
Definition gang : AdmissionRequest.t := AdmissionRequest.mk 2 {[NVIDIA]} {[GPU]} ∅ ∅ None None None None ANY.

(** Service 44 of variant 32 with one replica of two devices. *)
Definition spec : ServiceSpec.t :=
  ServiceSpec.mk 7 "tiny-gpu" "repo/model" VLLM KUBERNETES None 1000 1024 2 0 1 None (Some "main") None (Some 2) "bfloat16"
    (float_of_Q (9 # 10)) None false 1 4 8 60 (Some 31%N) (Some 32%N) (Some NVIDIA)
    (Some GPU) (Some "A100") (Some "vllm-cuda") (Some "1.0.0") (Some ServiceScenario.digest)
    (Some KUBERNETES_DEVICE_PLUGIN) (Some resource) (Some ANY) (Some ["node-0"; "node-1"]).

Definition hosted : Db.t := Scenario.run [OpService 44 spec] modelled.

Lemma modelled_reachable : reachable modelled.
Proof. apply Scenario.run_reachable; [done|]. apply Scenario.start_reachable. Qed.

Lemma hosted_reachable : reachable hosted.
Proof. apply Scenario.run_reachable; [done|]. apply modelled_reachable. Qed.

Lemma waiting_reachable : reachable waiting.
Proof. apply Scenario.run_reachable; [done|]. apply Scenario.start_reachable. Qed.
End AdmissionScenario.
