(* ===== verification/AdmissionSafety.v ===== *)
(** * Placing with an admission never overcommits a node

    The promises a node carries are sums over rows: the active reservations
    whose devices the Kubernetes device plugin picks ([promised_on]) and the
    replicas of services ([committed_on]), both of [PoolLoad], counted at their worst: a
    reservation of an earlier worker session or of a profile that does not
    resolve, and a replica without a node, count on every node they may be on.
    A placement with an admission leaves both together within the usable
    devices of the node's pool, its own reservation included. *)

From S2P Require Import Prelude PyFloat PyString Enums PyDict PyJson Policies Store Frames Names Quotas.
From S2P Require Import Reservations Tasks VendorAdmission Services ModelRegistry RuntimeProfiles AdmissionPlan.
From S2P Require Import Admission AdmissionFrames Scheduling Invariant Transaction Lifecycle Placement System.
From S2P Require Import Claims ServiceInvariant PoolAccounting PoolLoad Scenario AdmissionScenario.

Import Task StateMachine.

#[local] Open Scope Z_scope.

(** ** Reservations as the queries total them *)

(** The node of a reservation is known: its worker still has the session that
    made it, and the node name is valid. *)
Definition located (t : _DeferredReservationTotal.t) : bool :=
  _DeferredReservationTotal.worker_session_matches t
  && _is_valid_kubernetes_node_name (_DeferredReservationTotal.node_name t).

(** A reservation of the vendor that holds devices of the pool on the node, or
    may hold some: unless it is known to be on another node, or its profile
    resolves to another resource. *)
Definition may_hold (catalog : Catalog) (vendor : AcceleratorVendor) (resource node : string)
    (t : _DeferredReservationTotal.t) : bool :=
  (_DeferredReservationTotal.vendor t == AcceleratorVendor_value vendor)
  && may_be resource (deferred_resource catalog t)
  && (negb (located t) || (_DeferredReservationTotal.node_name t == Some node)).

Definition pool_share (catalog : Catalog) (vendor : AcceleratorVendor) (resource node : string)
    (t : _DeferredReservationTotal.t) : Z :=
  if may_hold catalog vendor resource node t then _DeferredReservationTotal.accelerator_count t else 0.

(** The Kubernetes inventory of a vendor, as admission reads it. *)
Definition pool_inventory (db : Db.t) (vendor : AcceleratorVendor) (kind : AcceleratorKind) : list Device :=
  omap (inventory_item db (Some KUBERNETES)) (inventory_rows db [vendor] [kind] 0 (Some KUBERNETES) true).

Definition usable_on (db : Db.t) (vendor : AcceleratorVendor) (kind : AcceleratorKind)
    (resource worker node : string) : Z :=
  usable_at (pool_inventory db vendor kind) vendor resource (worker, node).

(** ** The classification of reservations *)
Lemma pair_eqb {A B} `{EqDecision A, EqDecision B} (a a' : A) (b b' : B) : ((a, b) == (a', b')) = (a == a') && (b == b').
Proof. apply eq_true_iff_eq. rewrite andb_true_iff, !eqb_true. naive_solver. Qed.

Lemma classify_step catalog owners vendor resource w node u t :
  dget owners node = Some w -> 0 <= _DeferredReservationTotal.accelerator_count t ->
  charged_at vendor resource u (w, node) + pool_share catalog vendor resource node t
  <= charged_at vendor resource (classify catalog (Some owners) u t) (w, node).
Proof.
  intros Ho Hc. unfold classify, pool_share, may_hold. cbn [is_none negb andb]. fold (located t).
  set (n := _DeferredReservationTotal.accelerator_count t) in *. set (v := _DeferredReservationTotal.vendor t).
  destruct (located t) eqn:Es; cbn [negb andb orb].
  2:{ rewrite andb_true_r. destruct (deferred_resource catalog t) as [r|]; cbn [may_be]; unfold charged_at, deferred_at, unknown_at;
        fields; rewrite dcount_dadd.
      - rewrite pair_eqb. destruct ((v == _) && (r == resource)); lia.
      - rewrite andb_true_r. destruct (v == _); lia. }
  assert (exists x, _DeferredReservationTotal.node_name t = Some x) as [x En].
  { unfold located in Es. destruct (_DeferredReservationTotal.node_name t); [eauto|]. by rewrite andb_false_r in Es. }
  rewrite En. change (default "" (Some x)) with x. destruct (dget owners x) as [o|] eqn:Eo; cbn [is_none].
  2:{ assert ((Some x == Some node) = false) as -> by (rewrite eqb_false; congruence). rewrite andb_false_r. lia. }
  destruct (Some x == Some node) eqn:Ex.
  - rewrite eqb_true in Ex. injection Ex as ->. rewrite Ho in Eo. injection Eo as <-. rewrite andb_true_r.
    destruct (deferred_resource catalog t) as [r|]; cbn [may_be]; unfold charged_at, deferred_at, unknown_at; fields;
      rewrite dsum_dadd; cbn [fst]; rewrite !eqb_same; cbn [andb]; rewrite ?andb_true_r; repeat case_match; lia.
  - rewrite andb_false_r. destruct (deferred_resource catalog t) as [r|]; unfold charged_at, deferred_at, unknown_at; fields;
      rewrite dsum_dadd; repeat case_match; lia.
Qed.

Lemma classified_at catalog owners vendor resource w node totals :
  dget owners node = Some w -> Forall (fun t => 0 <= _DeferredReservationTotal.accelerator_count t) totals ->
  zsum (pool_share catalog vendor resource node) totals
  <= charged_at vendor resource (_classify_deferred_accelerators totals catalog (Some owners)) (w, node).
Proof.
  intros Ho Ht. unfold _classify_deferred_accelerators.
  assert (forall u, charged_at vendor resource u (w, node) + zsum (pool_share catalog vendor resource node) totals
    <= charged_at vendor resource (foldl (classify catalog (Some owners)) u totals) (w, node)) as H.
  - induction Ht as [|t totals Hc _ IH]; intros u; cbn [foldl]; [cbn; lia|].
    specialize (IH (classify catalog (Some owners) u t)). rewrite zsum_cons.
    pose proof (classify_step catalog owners vendor resource w node u t Ho Hc). lia.
  - specialize (H _DeferredAcceleratorUsage.none). exact H.
Qed.

Lemma reachable_checks db i r : reachable db -> Db.reservations db !! i = Some r -> reservation_checks r = true.
Proof. intros Hr. apply (placement_amounts _ _ _ _ (I_placement _ _ _ (reachable_ok db Hr))). Qed.

(** Reservations promise no negative number of devices. *)
Lemma totals_nonneg db vendors :
  (forall i r, Db.reservations db !! i = Some r -> reservation_checks r = true) ->
  Forall (fun t => 0 <= _DeferredReservationTotal.accelerator_count t) (deferred_totals db vendors).
Proof.
  intros Hck. apply Forall_forall. intros t (r & Hr & Ht)%list_elem_of_omap.
  rewrite elem_of_py_sort, elem_of_lfilter, rows_elem in Hr. destruct Hr as [[k Hk] _]. specialize (Hck k r Hk).
  unfold reservation_checks in Hck. rewrite !andb_true_iff in Hck. destruct_and!. unfold reservation_total in Ht.
  destruct (Db.workers db !! _); [|done]. destruct (Db.tasks db !! _); [|done].
  destruct (ResourceReservation.requested_vendor r); [|done]. injection Ht as <-. cbn. lia.
Qed.

Lemma unique_owner inventory node w :
  node ∈ InventoryDeviceSnapshot.node_name <$> inventory -> node_workers inventory node = [w] ->
  dget (_unique_inventory_node_owners inventory) node = Some w.
Proof.
  intros Hn Hw. unfold _unique_inventory_node_owners. apply elem_of_remove_dups in Hn.
  induction (remove_dups (InventoryDeviceSnapshot.node_name <$> inventory)) as [|x l IH];
    [by apply not_elem_of_nil in Hn|]. cbn [omap list_omap].
  apply elem_of_cons in Hn as [<-|Hn]; [rewrite Hw; cbn; by rewrite eqb_same|].
  destruct (node_workers inventory x) as [|y [|? ?]] eqn:E; [by apply IH| |by apply IH].
  cbn. destruct (x == node) eqn:Ex; [|by apply IH]. rewrite eqb_true in Ex. subst. congruence.
Qed.

(** ** One row more *)
(** What one reservation row promises on the node. *)
Definition row_share (catalog : Catalog) (db : Db.t) (vendor : AcceleratorVendor) (resource node : string)
    (r : ResourceReservation.t) : Z :=
  if deferred_reservation {[vendor]} r
  then from_option (pool_share catalog vendor resource node) 0 (reservation_total db r) else 0.

Lemma held_share catalog db vendor resource node r :
  held vendor resource node catalog db r = row_share catalog db vendor resource node r.
Proof.
  unfold held, row_share, reservation_total.
  destruct (Db.workers db !! _) as [w|]; [|by case_match]. destruct (Db.tasks db !! _) as [t|]; [|by case_match].
  assert (deferred_reservation {[vendor]} r = active_reservation r
    && (ResourceReservation.allocation_authority r == KUBERNETES_DEVICE_PLUGIN)
    && (ResourceReservation.requested_vendor r == Some vendor)) as ->.
  { unfold deferred_reservation, active_reservation. f_equal; [f_equal; by destruct (ResourceReservation.released_at r)|].
    destruct (ResourceReservation.requested_vendor r) as [v|]; [|by rewrite (proj2 (eqb_false None (Some vendor)))].
    apply eq_iff_eq_true. rewrite eqb_true, bool_decide_eq_true, elem_of_singleton. naive_solver. }
  destruct (active_reservation r && _); [cbn [andb]|done].
  destruct (ResourceReservation.requested_vendor r == Some vendor) eqn:Ev; [|done]. rewrite eqb_true in Ev.
  rewrite Ev. cbn [from_option andb]. unfold pool_share, may_hold, located, deferred_resource, elsewhere, profile_resource.
  cbn. rewrite eqb_same. cbn [andb].
  rewrite negb_andb, negb_involutive. f_equal. f_equal. f_equal.
  destruct (ResourceReservation.requested_profile_id r), (ResourceReservation.requested_profile_version r),
    (ResourceReservation.requested_profile_digest r); try done.
  destruct (RuntimeProfileCatalog.load_exact _ _ _ _); [done|]. by rewrite vendor_value_eqb.
Qed.

Lemma promised_rows catalog db vendor resource node :
  promised_on vendor resource node catalog db
  = zsum (row_share catalog db vendor resource node) (rows (Db.reservations db)).
Proof. apply zsum_ext. intros r _. apply held_share. Qed.

(** The totals admission reads are the load of the rows. *)
Lemma promised_totals catalog db vendor resource node :
  promised_on vendor resource node catalog db
  = zsum (pool_share catalog vendor resource node) (deferred_totals db {[vendor]}).
Proof.
  rewrite promised_rows. unfold deferred_totals. rewrite zsum_omap.
  rewrite (zsum_perm _ _ _ (py_sort_perm _ _)), zsum_filter. done.
Qed.

(** The columns of a worker that the classification reads. *)
Definition worker_place (w : Worker.t) : option string * N := (Worker.node_name w, Worker.worker_session_id w).

Lemma row_share_same catalog db db' vendor resource node r :
  (worker_place <$> Db.workers db' !! ResourceReservation.worker_id r)
  = (worker_place <$> Db.workers db !! ResourceReservation.worker_id r) ->
  (deferred_reservation {[vendor]} r = true ->
   Db.tasks db' !! ResourceReservation.task_id r = Db.tasks db !! ResourceReservation.task_id r) ->
  row_share catalog db' vendor resource node r = row_share catalog db vendor resource node r.
Proof.
  intros Hw Ht. unfold row_share. destruct (deferred_reservation {[vendor]} r) eqn:Ed; [|done].
  unfold reservation_total. rewrite (Ht eq_refl).
  destruct (Db.workers db' !! _) as [w'|], (Db.workers db !! _) as [w|]; [|done|done|done].
  cbn in Hw. unfold worker_place in Hw. injection Hw as E1 E2. by rewrite E1, E2.
Qed.

Lemma active_deferred vendors r : deferred_reservation vendors r = true -> active_reservation r = true.
Proof.
  unfold deferred_reservation, active_reservation. intros [[H _]%andb_prop _]%andb_prop.
  by destruct (ResourceReservation.released_at r).
Qed.

(** The rows a placement with an admission writes. *)
Lemma reserve_assignment_rows alloc eid rid t w w' now prices db u db' :
  let r := claim_reservation alloc rid eid t w [] now in
  reserve_assignment alloc eid rid t w w' [] now prices db = (inr u, db') ->
  Db.reservations db !! rid = None /\ reservation_checks r = true
  /\ (forall x, x ∈ rows (Db.reservations db) -> active_reservation x = true -> ResourceReservation.task_id x ≠ id t)
  /\ Db.reservations db' = <[rid := r]> (Db.reservations db)
  /\ Db.tasks db' = Db.tasks db /\ Db.workers db' = <[Worker.id w' := w']> (Db.workers db).
Proof.
  intros r H. pose proof H as (ET & EW & _)%reserve_assignment_ok. unfold reserve_assignment in H.
  do 2 (apply bind_ok in H as (? & ? & Hg & H); minv Hg).
  apply bind_ok in H as (? & ? & Hg & H). unfold insert_execution in Hg. minv Hg.
  apply bind_ok in H as (? & ? & Hg & H). unfold insert_reservation in Hg. fold r in Hg. minv Hg.
  apply bind_ok in H as ([] & db1 & Hl & H). apply ret_ok in Hl as [_ ->].
  apply bind_ok in H as (? & ? & ->%assert_binding_db & H).
  apply bind_ok in H as (? & ? & Hq & H). apply ret_ok in H as [_ ->].
  apply reserve_execution_ok in Hq as (q & (s0 & _ & _ & _ & _ & _ & ->) & _).
  fields in Hm2. apply bool_decide_eq_false in Hm2. fields in Hm5.
  split_and!; [by apply eq_None_not_Some|by apply negb_false_iff|..|done|done].
  - intros y Hy Ha E. eapply (existsb_false_elem _ _ y) in Hm5; [|exact Hy]. cbv beta in Hm5.
    rewrite Ha, E, eqb_same in Hm5. done.
  - by fields.
Qed.

(** Nothing of the pools changes but the promises. *)
Definition same_supply (db db' : Db.t) : Prop :=
  Db.services db' = Db.services db /\ Db.replicas db' = Db.replicas db /\ Db.gpu_devices db' = Db.gpu_devices db.
#[export] Instance same_supply_preorder : PreOrder same_supply.
Proof. split; [done|]. intros x y z (A & B & C) (D & E & F). unfold same_supply. split_and!; congruence. Qed.

Lemma place_supply eid rid i w ds l prices a c : frames same_supply (place eid rid i w ds l prices a c).
Proof. frame_by ltac:(done). Qed.

(** Nothing that admission reads changes. *)
Definition same_pools (db db' : Db.t) : Prop :=
  same_supply db db' /\ Db.tasks db' = Db.tasks db /\ Db.workers db' = Db.workers db
  /\ Db.reservations db' = Db.reservations db.
#[export] Instance same_pools_preorder : PreOrder same_pools.
Proof.
  split; [done|]. intros x y z (A & B & C & D) (E & F & G & H). unfold same_pools.
  split_and!; [by etrans|congruence..].
Qed.

Lemma get_locked_pools p : frames same_pools (get_locked p).
Proof. frame_by ltac:(done). Qed.

(** What a placement with an admission did: the devices were read after the
    project's lock, then the rows were written. *)
Lemma place_admitted eid rid i w ds l prices a c db t' e db' :
  ok db -> place eid rid i w ds l prices (Some a) c db = (inr (t', e), db') ->
  exists t wk devices db1 now,
    Db.tasks db !! i = Some t /\ Db.workers db !! w = Some wk /\ Worker.id wk = w
    /\ BatchAdmissionSnapshot.worker_id a = w /\ same_pools db db1
    /\ admitted_devices c a t wk db1 = (inr devices, db1)
    /\ id t' = i /\ gpu_count t' = gpu_count t
    /\ kubernetes_node_name t' = Some (BatchAdmissionSnapshot.node_name a)
    /\ Db.tasks db' !! i = Some t' /\ (forall j, j ≠ i -> Db.tasks db' !! j = Db.tasks db !! j)
    /\ Db.workers db' = <[w := worker_placed wk t']> (Db.workers db)
    /\ let r := claim_reservation (allocation_of (Some a)) rid eid t' wk [] now in
       Db.reservations db !! rid = None /\ reservation_checks r = true
       /\ (forall x, x ∈ rows (Db.reservations db) -> active_reservation x = true -> ResourceReservation.task_id x ≠ i)
       /\ Db.reservations db' = <[rid := r]> (Db.reservations db).
Proof.
  intros Hok H. unfold place in H. apply bind_ok in H as (? & ? & Hg & H). minv Hg.
  destruct (Db.tasks db !! i) as [t|] eqn:Ht; [|by apply raise_ok in H].
  assert (i = id t) as -> by (symmetry; destruct Hok as [[]]; eauto).
  apply bind_ok in H as ([] & ? & Hg & H). apply raise_if_ok in Hg as (_ & _ & ->).
  apply bind_ok in H as (? & ? & Hg & H). apply gets_ok in Hg as [_ ->].
  apply bind_ok in H as ([] & ? & Hg & H). apply raise_if_ok in Hg as (_ & _ & ->).
  apply bind_ok in H as (? & db1 & Hgl & H). apply (frames_run same_pools _ _ _ _ (get_locked_pools _)) in Hgl.
  pose proof Hgl as (_ & ET1 & EW1 & ER1).
  apply bind_ok in H as (wk & ? & Hg & H). apply gets_ok in Hg as [-> ->].
  rewrite EW1 in H. destruct (Db.workers db !! w) as [wk|] eqn:Hwk; [|by apply raise_ok in H].
  assert (w = Worker.id wk) as -> by (symmetry; destruct Hok as [[]]; eauto).
  apply bind_ok in H as ([] & ? & Hg & H). apply raise_if_ok in Hg as (_ & _ & ->).
  apply bind_ok in H as ([] & ? & Hg & H). apply raise_if_ok in Hg as (Hid & _ & ->).
  do 5 (apply bind_ok in H as ([] & ? & Hg & H); apply raise_if_ok in Hg as (_ & _ & ->)).
  apply bind_ok in H as (dv & dba & Hdv & H). assert (dba = db1) as ->.
  { by apply (place_devices_read c (Some a) t wk []) in Hdv. }
  cbv zeta in H. apply bind_ok in H as ([] & dba & Hg & H).
  assert (dba = db1) as -> by (destruct (evaluate_snapshot _ _); by minv Hg). clear Hg.
  apply bind_ok in H as (now & ? & Hg & H). apply gets_ok in Hg as [_ ->].
  apply bind_ok in H as ([] & dba & Hg & H).
  assert (dba = db1) as -> by (unfold ensure_transition in Hg; by minv Hg). clear Hg.
  apply bind_ok in H as ([] & ? & Hg & H). apply modify_ok in Hg as [_ ->].
  apply bind_ok in H as ([] & ? & Hg & H). apply modify_ok in Hg as [_ ->].
  apply bind_ok in H as ([] & dba & Hg & H).
  match type of Hg with _ ?s = _ => assert (dba = s) as -> by (unfold ensure_transition in Hg; by minv Hg) end. clear Hg.
  apply bind_ok in H as (? & ? & [-> ->]%plus_seconds_ok & H).
  apply bind_ok in H as ([] & ? & Hg & H). apply modify_ok in Hg as [_ ->].
  set (t1 := placed_task _ _ _ _ _ _ _) in *.
  apply bind_ok in H as ([] & ? & Hg & H). apply modify_ok in Hg as [_ ->].
  apply bind_ok in H as ([] & db4 & Hres & H). apply reserve_assignment_rows in Hres as (R1 & R2 & R3 & R4 & R5 & R6).
  apply bind_ok in H as ([] & db5 & Hob & H). apply modify_ok in Hob as [_ ->].
  apply ret_ok in H as [[= -> ->] ->]. cbn [is_none] in *.
  assert (id t1 = id t /\ gpu_count t1 = gpu_count t
          /\ kubernetes_node_name t1 = Some (BatchAdmissionSnapshot.node_name a)) as (T1 & T2 & T3)
    by (unfold t1, placed_task, admitted_task, _prepare_for_assignment; by tfields).
  fields in R1. fields in R3. fields in R4. fields in R5. fields in R6. rewrite ER1 in R1, R3, R4. rewrite EW1 in R6.
  apply orb_false_iff in Hid as [Hid _]. apply negb_false_iff in Hid. rewrite eqb_true in Hid.
  exists t, wk, dv, db1, now. split_and!; try done; fields; rewrite ?R5, ?T1, ?ET1 in *; try done.
  - apply lookup_insert_eq.
  - intros j Hj. by rewrite !lookup_insert_ne by congruence.
Qed.

(** ** The capacity that was checked *)
Definition commitments_sane (db : Db.t) (exclude : option N) : Prop :=
  Forall (fun c => 0 <= _ServiceReplicaCommitment.accelerator_count c) (_active_service_accelerators db exclude).

Lemma per_replica_nonneg s : service_checks s = true -> 0 <= accelerators_per_replica s.
Proof. unfold service_checks, accelerators_per_replica. rewrite !andb_true_iff. intros. destruct_and!. lia. Qed.

Lemma books_commitments db exclude : books db -> commitments_sane db exclude.
Proof.
  intros [HB _]. unfold commitments_sane, _active_service_accelerators. apply Forall_app. split.
  - apply Forall_fmap, Forall_forall. intros [r s] H. cbn. unfold committed_replicas in H.
    apply list_elem_of_omap in H as (x & _ & H). destruct (Db.services db !! _) as [s'|] eqn:Es; [|done].
    destruct (_ && _); [|done]. injection H as _ <-. apply per_replica_nonneg. by eapply HB.
  - apply Forall_concat, Forall_fmap, Forall_forall. intros s Hs. apply Forall_fmap, Forall_forall.
    intros z _. cbn. apply per_replica_nonneg. rewrite elem_of_py_sort, elem_of_lfilter, rows_elem in Hs.
    destruct Hs as [[k Hk] _]. by eapply HB.
Qed.

Lemma inventory_node db v k d :
  d ∈ pool_inventory db v k -> _is_valid_kubernetes_node_name (Some (InventoryDeviceSnapshot.node_name d)) = true.
Proof.
  intros (g & _ & H)%list_elem_of_omap. unfold inventory_item in H.
  destruct (Db.workers db !! _) as [wk|]; [|done]. destruct (negb _); [done|]. cbn in H.
  unfold kubernetes_node in H. destruct (str_or _ _) as [n|]; [|done].
  destruct (kubernetes_dns_subdomain n) eqn:E; [|done]. cbn in H. by injection H as <-.
Qed.

Lemma node_worker_device inventory node w :
  w ∈ node_workers inventory node -> exists d, d ∈ inventory /\ InventoryDeviceSnapshot.node_name d = node.
Proof.
  unfold node_workers. rewrite elem_of_remove_dups. intros (d & _ & [Hd H]%elem_of_lfilter)%list_elem_of_fmap.
  rewrite eqb_true in H. eauto.
Qed.

(** The pool of the admission as the placement found it. *)
Record pool_checked (catalog : Catalog) (a : BatchAdmissionSnapshot.t) (t : Task.t) (worker : string)
    (db : Db.t) : Prop := {
  pc_profile : exists profile,
    RuntimeProfileCatalog.load_exact catalog (BatchAdmissionSnapshot.runtime_profile_id a)
      (BatchAdmissionSnapshot.runtime_profile_version a) (BatchAdmissionSnapshot.runtime_profile_digest a) = inr profile
    /\ RuntimeProfile.vendor profile = BatchAdmissionSnapshot.vendor a
    /\ RuntimeProfile.resource_name profile = strip (BatchAdmissionSnapshot.accelerator_resource_name a);
  pc_node : _is_valid_kubernetes_node_name (Some (BatchAdmissionSnapshot.node_name a)) = true;
  pc_owner : node_workers (pool_inventory db (BatchAdmissionSnapshot.vendor a) (BatchAdmissionSnapshot.kind a))
               (BatchAdmissionSnapshot.node_name a) = [worker];
  pc_room :
    gpu_count t
    + promised_on (BatchAdmissionSnapshot.vendor a) (strip (BatchAdmissionSnapshot.accelerator_resource_name a))
        (BatchAdmissionSnapshot.node_name a) catalog db
    + committed_on (BatchAdmissionSnapshot.vendor a) (strip (BatchAdmissionSnapshot.accelerator_resource_name a))
        (BatchAdmissionSnapshot.node_name a) db None
    <= usable_on db (BatchAdmissionSnapshot.vendor a) (BatchAdmissionSnapshot.kind a)
        (strip (BatchAdmissionSnapshot.accelerator_resource_name a)) worker (BatchAdmissionSnapshot.node_name a);
  pc_model : one_model (BatchAdmissionSnapshot.vendor a) (strip (BatchAdmissionSnapshot.accelerator_resource_name a))
    (BatchAdmissionSnapshot.node_name a) db (BatchAdmissionSnapshot.selected_model a);
}.

Lemma active_deferred_run catalog owners v node w db :
  dget owners node = Some w ->
  _active_deferred_accelerators catalog owners {[v]} db
  = (inr (_classify_deferred_accelerators (deferred_totals db {[v]}) catalog (Some owners)), db).
Proof.
  intros Ho. unfold _active_deferred_accelerators.
  rewrite (bool_decide_eq_false_2 (owners = [])) by (by intros ->).
  rewrite bool_decide_eq_false_2 by set_solver. done.
Qed.

Lemma active_deferred_read catalog owners vs db u db' :
  _active_deferred_accelerators catalog owners vs db = (inr u, db') -> db' = db.
Proof. unfold _active_deferred_accelerators. by destruct (_ || _); intros [= _ <-]. Qed.

Lemma admitted_capacity c a t wk db devices db' :
  commitments_sane db None -> (forall i s, Db.services db !! i = Some s -> ModelService.id s = i) ->
  (forall i r, Db.reservations db !! i = Some r -> reservation_checks r = true) ->
  0 < gpu_count t -> admitted_devices c a t wk db = (inr devices, db') ->
  exists catalog, c = Some catalog /\ pool_checked catalog a t (Worker.id wk) db.
Proof.
  intros Hsane Hkeys Hck Hg H. unfold admitted_devices in H. destruct c as [catalog|]; [|done]. exists catalog. split; [done|].
  apply bind_ok in H as (ds & ? & Hs & H). apply gets_ok in Hs as [_ ->].
  apply bind_ok in H as (b & ? & Hs & H). apply binding_pure in Hs as ->.
  apply bind_ok in H as (n & db1 & Hs & H). apply bind_ok in H as ([] & ? & Hn & _).
  apply raise_if_ok in Hn as (Hn & _ & _). apply Z.ltb_ge in Hn.
  unfold available_batch_accelerators_for_pool in Hs. cbv zeta in Hs.
  apply bind_ok in Hs as ([] & ? & Hr & Hs). apply raise_if_ok in Hr as (_ & _ & ->).
  destruct (RuntimeProfileCatalog.load_exact _ _ _ _) as [err|profile] eqn:El; [apply ret_ok in Hs as [-> _]; lia|].
  destruct (_ || _) eqn:Em in Hs; [apply ret_ok in Hs as [-> _]; lia|].
  apply orb_false_iff in Em as [[Ev Ek]%orb_false_iff Er]. apply negb_false_iff in Ev, Ek, Er.
  rewrite eqb_true in Ev. rewrite eqb_true in Ek. rewrite eqb_true in Er.
  apply bind_ok in Hs as (inventory & db2 & Hi & Hs). unfold list_healthy_inventory_devices in Hi.
  apply bind_ok in Hi as ([] & db3 & Hr & Hi). apply raise_if_ok in Hr as (_ & _ & ->). apply gets_ok in Hi as [-> ->].
  change (omap _ _) with (pool_inventory db (BatchAdmissionSnapshot.vendor a) (BatchAdmissionSnapshot.kind a)) in Hs.
  set (inv := pool_inventory _ _ _) in *.
  apply bind_ok in Hs as (usage & db3 & Hu & Hs). apply gets_ok in Hu as [-> ->].
  apply bind_ok in Hs as (deferred & db3 & Hd & Hs). pose proof (active_deferred_read _ _ _ _ _ _ Hd) as ->.
  eapply capacity_backed in Hs as (_ & -> & HC); [|exact eq_refl|exact Hsane].
  destruct HC as (Hroom & Hf & Hw & _); [lia|]. cbn [PoolQuery.vendor PoolQuery.resource_name PoolQuery.model
    PoolQuery.worker_id pool_node] in Hroom, Hf, Hw.
  destruct (node_worker_device inv (BatchAdmissionSnapshot.node_name a) (Worker.id wk)) as (d & Hd1 & Hd2);
    [rewrite Hw; left|].
  assert (dget (_unique_inventory_node_owners inv) (BatchAdmissionSnapshot.node_name a) = Some (Worker.id wk)) as Ho.
  { apply unique_owner; [|done]. apply list_elem_of_fmap. by exists d. }
  rewrite (active_deferred_run _ _ _ _ _ _ Ho) in Hd. injection Hd as <-.
  pose proof (classified_at catalog _ (BatchAdmissionSnapshot.vendor a) (strip (BatchAdmissionSnapshot.accelerator_resource_name a))
    _ _ _ Ho (totals_nonneg db {[BatchAdmissionSnapshot.vendor a]} Hck)) as Hcl. constructor.
  - by exists profile.
  - rewrite <- Hd2. by apply inventory_node in Hd1.
  - done.
  - rewrite promised_totals, <-(replicas_totalled _ _ _ (Worker.id wk) _ _ Hkeys). unfold usable_on. fold inv.
    unfold pool_node in Hroom. cbn [PoolQuery.worker_id] in Hroom. lia.
  - by apply (one_model_query _ _ _ (Worker.id wk)).
Qed.

(** ** After the placement *)

(** The columns of a worker that the inventory reads. *)
Definition inventory_columns (w : Worker.t) : string * N * WorkerStatus * list string * Z * bool * option string :=
  (Worker.id w, Worker.worker_session_id w, Worker.status w, Worker.runtime_types w, Worker.inventory_generation w,
   Worker.overcommitted w, Worker.node_name w).

Lemma pool_inventory_same db db' v k :
  Db.gpu_devices db' = Db.gpu_devices db ->
  (forall i, inventory_columns <$> Db.workers db' !! i = inventory_columns <$> Db.workers db !! i) ->
  pool_inventory db' v k = pool_inventory db v k.
Proof.
  intros Hd Hw. unfold pool_inventory.
  assert (forall d, inventory_item db' (Some KUBERNETES) d = inventory_item db (Some KUBERNETES) d) as HI.
  { intros d. unfold inventory_item. specialize (Hw (GPUDevice.worker_id d)).
    destruct (Db.workers db' !! _) as [w'|], (Db.workers db !! _) as [w|]; [|done|done|done].
    cbn in Hw. unfold inventory_columns in Hw. injection Hw as E1 E2 E3 E4 E5 E6 E7.
    unfold kubernetes_node, device_snapshot_of, runtime_types_of. by rewrite E1, E2, E3, E4, E7. }
  transitivity (omap (inventory_item db (Some KUBERNETES)) (inventory_rows db' [v] [k] 0 (Some KUBERNETES) true)).
  - induction (inventory_rows db' [v] [k] 0 (Some KUBERNETES) true) as [|d l IH]; [done|].
    cbn [omap list_omap]. rewrite HI. by rewrite IH.
  - f_equal. unfold inventory_rows. rewrite Hd. f_equal. apply List.filter_ext. intros d. f_equal. f_equal.
    specialize (Hw (GPUDevice.worker_id d)).
    destruct (Db.workers db' !! _) as [w'|], (Db.workers db !! _) as [w|]; [|done|done|done].
    cbn in Hw. unfold inventory_columns in Hw. injection Hw as E1 E2 E3 E4 E5 E6 E7.
    unfold current_device. by rewrite E3, E5, E6.
Qed.

Lemma service_usage_same db db' exclude :
  Db.services db' = Db.services db -> Db.replicas db' = Db.replicas db ->
  _active_service_accelerators db' exclude = _active_service_accelerators db exclude.
Proof. intros Es Er. unfold _active_service_accelerators, committed_replicas. by rewrite Es, Er. Qed.

(** The reservation of a placement counts on the admission's node. *)
Lemma new_share catalog db a t wk rid eid now :
  let r := claim_reservation (allocation_of (Some a)) rid eid t wk [] now in
  0 < gpu_count t -> reservation_checks r = true ->
  Db.workers db !! Worker.id wk = Some (worker_placed wk t) -> Db.tasks db !! id t = Some t ->
  kubernetes_node_name t = Some (BatchAdmissionSnapshot.node_name a) ->
  _is_valid_kubernetes_node_name (Some (BatchAdmissionSnapshot.node_name a)) = true ->
  (exists profile,
    RuntimeProfileCatalog.load_exact catalog (BatchAdmissionSnapshot.runtime_profile_id a)
      (BatchAdmissionSnapshot.runtime_profile_version a) (BatchAdmissionSnapshot.runtime_profile_digest a) = inr profile
    /\ RuntimeProfile.vendor profile = BatchAdmissionSnapshot.vendor a
    /\ RuntimeProfile.resource_name profile = strip (BatchAdmissionSnapshot.accelerator_resource_name a)) ->
  row_share catalog db (BatchAdmissionSnapshot.vendor a) (strip (BatchAdmissionSnapshot.accelerator_resource_name a))
    (BatchAdmissionSnapshot.node_name a) r = gpu_count t.
Proof.
  intros r Hg Hck Hwk Ht Hn Hv (profile & Hl & Ev & Er).
  assert ((gpu_count t =? 0) = false) as E0 by lia.
  assert (BatchAdmissionSnapshot.allocation_authority a = KUBERNETES_DEVICE_PLUGIN) as Ea.
  { unfold reservation_checks in Hck. rewrite !andb_true_iff in Hck. destruct Hck as [[_ Hck] _].
    cbn in Hck. rewrite E0 in Hck.
    rewrite !orb_false_r in Hck. cbn [orb] in Hck. by rewrite eqb_true in Hck. }
  assert (ResourceReservation.requested_vendor r = Some (BatchAdmissionSnapshot.vendor a)) as Erv
    by (cbn; by rewrite E0).
  assert (deferred_reservation {[BatchAdmissionSnapshot.vendor a]} r = true) as Hd.
  { unfold deferred_reservation. rewrite Erv. cbn [r claim_reservation allocation_of ResourceReservation.released_at
      ResourceReservation.allocation_authority Allocation.authority is_none].
    rewrite Ea, eqb_same, bool_decide_eq_true_2 by set_solver. done. }
  unfold row_share. rewrite Hd. unfold reservation_total. rewrite Erv.
  change (ResourceReservation.worker_id r) with (Worker.id wk). change (ResourceReservation.task_id r) with (id t).
  rewrite Hwk, Ht, Hn. cbn [from_option]. unfold pool_share, may_hold, located, deferred_resource.
  cbn [_DeferredReservationTotal.worker_session_matches _DeferredReservationTotal.node_name
    _DeferredReservationTotal.vendor _DeferredReservationTotal.profile_id _DeferredReservationTotal.profile_version
    _DeferredReservationTotal.profile_digest _DeferredReservationTotal.accelerator_count].
  change (ResourceReservation.worker_session_id r) with (Worker.worker_session_id wk).
  change (Worker.worker_session_id (worker_placed wk t)) with (Worker.worker_session_id wk).
  rewrite Hv, !eqb_same. cbn [r claim_reservation allocation_of ResourceReservation.requested_profile_id
    ResourceReservation.requested_profile_version ResourceReservation.requested_profile_digest
    Allocation.profile_id Allocation.profile_version Allocation.profile_digest]. rewrite Hl, Ev, Er, ?eqb_same.
  cbn [may_be]. by rewrite !eqb_same.
Qed.

Lemma promised_same catalog db db' v res node :
  same_pools db db' -> promised_on v res node catalog db' = promised_on v res node catalog db.
Proof.
  intros (_ & ET & EW & ER). rewrite !promised_rows, ER. apply zsum_ext. intros r _.
  by apply row_share_same; rewrite ?EW, ?ET.
Qed.

Lemma worker_placed_columns wk t :
  inventory_columns (worker_placed wk t) = inventory_columns wk /\ worker_place (worker_placed wk t) = worker_place wk.
Proof. done. Qed.

Lemma fmap_insert_same {K A B} `{Countable K} (f : A -> B) (m : gmap K A) k a b i :
  m !! k = Some a -> f b = f a -> f <$> (<[k := b]> m) !! i = f <$> m !! i.
Proof.
  intros Hk Hf. destruct (decide (i = k)) as [->|Hne]; [|by rewrite lookup_insert_ne].
  rewrite lookup_insert_eq, Hk. cbn. by rewrite Hf.
Qed.


