(* ===== verification/ServiceAdmission.v ===== *)
(** * An admitted service fits on its eligible nodes

    Admission of a service of a logical model promises a number of replicas,
    each a gang of devices on one node.  The slots it counts are backed: on
    every node the gangs counted there, the reservations and the replicas of
    other services are together within the usable devices of the pool, and
    the slots of all eligible nodes are at least the replicas. *)

From S2P Require Import Prelude PyFloat PyString Enums PyDict PyJson Policies Store Frames Names Quotas.
From S2P Require Import Tasks VendorAdmission Services ModelRegistry RuntimeProfiles AdmissionPlan.
From S2P Require Import Admission AdmissionFrames PoolAccounting System ServiceInvariant Scenario ServiceScenario.
From S2P Require Import AdmissionScenario PoolLoad AdmissionSafety.

#[local] Open Scope Z_scope.

(** ** Canonical lists *)
Lemma remove_dups_id {A} `{EqDecision A} (l : list A) : NoDup l -> remove_dups l = l.
Proof.
  induction 1 as [|x l Hx _ IH]; [done|]. cbn. rewrite IH. by destruct (decide_rel _ x l).
Qed.

Lemma py_sort_id {A K} `{Ord K} (key : A -> K) (l : list A) :
  StronglySorted (fun x y => cmp_le (key x) (key y)) l -> py_sort key l = l.
Proof.
  induction 1 as [|x l Hl IH Hx]; [done|]. cbn. fold (py_sort key l). rewrite IH. destruct l as [|y l]; [done|]. cbn.
  inversion Hx as [|? ? Hxy _]; subst. unfold cmp_le in Hxy. by destruct (cmp (key x) (key y)).
Qed.

(** ** Grouping *)
Section grouped.
Context {X K} `{EqDecision K} (key : X -> K).

Lemma grouped_devices k (l : list X) groups :
  default [] (dget (foldl (fun groups d => dpush (key d) d groups) groups l) k)
  = default [] (dget groups k) ++ List.filter (fun d => key d == k) l.
Proof.
  revert groups. induction l as [|d l IH]; intros groups; cbn [foldl List.filter]; [by rewrite app_nil_r|].
  rewrite IH. unfold dpush. rewrite dget_dset. destruct (key d == k) eqn:E; [|done].
  rewrite eqb_true in E. rewrite E. cbn. by rewrite <- app_assoc.
Qed.

Lemma grouped_nodup (l : list X) groups :
  NoDup groups.*1 -> NoDup (foldl (fun groups d => dpush (key d) d groups) groups l).*1.
Proof.
  revert groups. induction l as [|d l IH]; intros groups Hg; cbn [foldl]; [done|]. apply IH. by apply dset_nodup.
Qed.
End grouped.

Section slots.
Context (inventory : list Device) (quota : ProjectQuota.t * ProjectQuotaState.t) (request : AdmissionRequest.t)
  (desired_replicas : Z) (requested_dtype : string) (service_usage : list Commitment)
  (deferred_usage : _DeferredAcceleratorUsage.t) (quota_credit minimum_memory_mb : Z).
Hypothesis (Hcount : 1 <= AdmissionRequest.count request) (Hreplicas : 0 < desired_replicas)
  (Hsane : Forall (fun c => 0 <= _ServiceReplicaCommitment.accelerator_count c) service_usage).

(** The node has one owner, and [n] devices of the pool are free on it beside
    everything promised. *)
Definition room (vendor : AcceleratorVendor) (resource : string) (k : NodeKey) (n : Z) : Prop :=
  node_workers inventory k.2 = [k.1] /\
  n + charged_at vendor resource deferred_usage k + committed_at vendor resource service_usage k
  <= usable_at inventory vendor resource k.

(** The replicas have disjoint gangs on the nodes. *)
Definition replicas_fit (vendor : AcceleratorVendor) (resource : string) (nodes : list string) : Prop :=
  exists slots : list (NodeKey * Z),
    NoDup slots.*1 /\ desired_replicas <= zsum snd slots
    /\ forall k n, (k, n) ∈ slots -> k.2 ∈ nodes /\ 0 <= n
         /\ (0 < n -> room vendor resource k (n * AdmissionRequest.count request)).

(** ** The devices of a group *)
Definition group_ok (v : Variant) (g : (string * string) * list Device) : Prop :=
  forall d, d ∈ g.2 ->
    d ∈ inventory /\ InventoryDeviceSnapshot.vendor d = ModelVariant.vendor v
    /\ InventoryDeviceSnapshot.model d = g.1.1
    /\ InventoryDeviceSnapshot.kubernetes_resource_name d = Some g.1.2
    /\ usable_health (InventoryDeviceSnapshot.health d) = true.

Lemma profiled_device v resolved d :
  profiled request desired_replicas v resolved d = true ->
  InventoryDeviceSnapshot.vendor d = ModelVariant.vendor v
  /\ (exists r, InventoryDeviceSnapshot.kubernetes_resource_name d = Some r)
  /\ usable_health (InventoryDeviceSnapshot.health d) = true.
Proof.
  unfold profiled, relevant. rewrite !andb_true_iff, orb_true_iff, andb_true_iff. intros [[[[[Hv _] Hh] _] Hr] _].
  rewrite eqb_true in Hv. split_and!; [done| |].
  - destruct resolved as [[p b]|]; [|done]. rewrite eqb_true in Hr. eauto.
  - destruct Hh as [Hh|[Hz _]]; [done|]. unfold zero_replica_commitment in Hz. lia.
Qed.

Definition group_key (d : Device) : string * string :=
  (InventoryDeviceSnapshot.model d, default "" (InventoryDeviceSnapshot.kubernetes_resource_name d)).

Lemma group_devices v resolved g :
  g ∈ service_groups inventory request desired_replicas v resolved ->
  g.2 = List.filter (fun d => group_key d == g.1) (List.filter (profiled request desired_replicas v resolved) inventory).
Proof.
  intros Hg. unfold service_groups in *. set (l := List.filter _ inventory) in *. destruct g as [k ds].
  apply elem_dget in Hg; [|apply grouped_nodup, NoDup_nil_2].
  pose proof (grouped_devices group_key k l []) as E. unfold group_key in E at 1. rewrite Hg in E. exact E.
Qed.

Lemma service_groups_ok v resolved g :
  g ∈ service_groups inventory request desired_replicas v resolved -> group_ok v g.
Proof.
  intros Hg d Hd. rewrite (group_devices _ _ _ Hg) in Hd.
  apply elem_of_lfilter in Hd as [Hd Hk]. apply elem_of_lfilter in Hd as [Hd Hp]. rewrite eqb_true in Hk.
  destruct (profiled_device _ _ _ Hp) as (Hv & [r Hr] & Hh). unfold group_key in Hk. rewrite Hr in Hk.
  rewrite <- Hk. cbn. done.
Qed.

(** The devices of a node that a group offers are usable devices of its pool. *)
Lemma group_usable v resolved g k (p : Device -> bool) :
  g ∈ service_groups inventory request desired_replicas v resolved ->
  lenZ (List.filter (fun d => node_key d == k) (List.filter p g.2)) <= usable_at inventory (ModelVariant.vendor v) g.1.2 k.
Proof.
  intros Hg. rewrite (group_devices _ _ _ Hg), !lenZ_filter_filter. apply lenZ_filter_mono. intros d _.
  rewrite !andb_true_iff. intros [[[Hk _] Hg1] Hp]. destruct (profiled_device _ _ _ Hp) as (Hv & [r Hr] & Hh).
  rewrite Hk, Hh. unfold in_pool. rewrite Hv, eqb_same, Hr. rewrite eqb_true in Hg1. unfold group_key in Hg1.
  rewrite Hr in Hg1. rewrite <- Hg1. cbn. by rewrite eqb_same.
Qed.

(** ** Slots *)
Lemma available_room v resolved g o db db' p k a :
  g ∈ service_groups inventory request desired_replicas v resolved ->
  _plan_physical_pool_remaining inventory (ModelVariant.vendor v) g.1.1 g.1.2 service_usage deferred_usage db = (inr o, db') ->
  (k, a) ∈ available_by_node inventory v g.1.2 o (List.filter p g.2) ->
  (exists d, d ∈ g.2 /\ p d = true /\ node_key d = k) /\ 0 <= a
  /\ (0 < a -> room (ModelVariant.vendor v) g.1.2 k a).
Proof.
  intros Hg Hplan. unfold available_by_node. intros ([k' cnt] & [= <- ->] & Hin)%list_elem_of_fmap.
  pose proof (elem_dget _ _ _ (tally_by_nodup node_key _) Hin) as Hcnt.
  assert (cnt = lenZ (List.filter (fun d => node_key d == k) (List.filter p g.2))) as Ecnt.
  { rewrite <- tally_by_count. unfold dcount. by rewrite Hcnt. }
  assert (exists d, d ∈ g.2 /\ p d = true /\ node_key d = k) as (d & Hd & Hpd & Hkd).
  { apply (list_elem_of_fmap_2 fst) in Hin. rewrite tally_by_keys in Hin.
    apply list_elem_of_fmap in Hin as (d & Ek & [Hd Hpd]%elem_of_lfilter). eauto. }
  pose proof (group_usable v resolved g k p Hg) as Hu. rewrite <- Ecnt in Hu.
  split; [eauto|]. split; [lia|]. intros Ha.
  destruct (service_groups_ok _ _ _ Hg d Hd) as (Hdi & Hdv & Hdm & Hdr & Hdh).
  assert (k ∈ candidate_node_keys inventory (ModelVariant.vendor v) g.1.1 g.1.2) as Hk.
  { apply elem_of_remove_dups, list_elem_of_fmap. exists d. split; [done|]. apply elem_of_lfilter. split; [done|].
    unfold in_pool. by rewrite Hdv, Hdr, Hdm, !eqb_same. }
  rewrite <- (physical_count _ _ g.1.1) in Ha by done. rewrite <- (physical_count _ _ g.1.1) by done.
  assert (usable_at inventory (ModelVariant.vendor v) g.1.2 k
          <= dcount (physical inventory (ModelVariant.vendor v) g.1.1 g.1.2) k) as Hle.
  { rewrite (physical_count _ _ _ _ _ Hk). apply lenZ_filter_mono. intros x _ Hx. by apply andb_prop in Hx as [-> _]. }
  destruct o as [remaining|]; [|lia].
  destruct (plan_charged _ _ _ _ _ _ _ _ _ Hsane Hplan) as ([[HK HA] HF] & HW & _).
  assert (k ∈ remaining.*1) as Hkr by (rewrite HK; by apply candidate_is_physical).
  destruct (HA _ Hkr) as [_ Hr].
  assert (foreign_at (ModelVariant.vendor v) g.1.1 g.1.2 service_usage k = false) as Hfor.
  { destruct (foreign_at _ _ _ _ _) eqn:Ef; [|done]. specialize (HF _ Hkr Ef). lia. }
  rewrite (own_committed _ _ _ _ _ Hfor) in Hr. split; [|lia]. subst k. apply node_workers_single; [done|].
  apply HW, list_elem_of_fmap. exists (node_key d). done.
Qed.

Lemma slots_sum (available : dict NodeKey Z) :
  replica_slots request available
  = zsum snd ((fun e => (e.1, e.2 / AdmissionRequest.count request)) <$> available).
Proof. unfold replica_slots, zsum. induction available as [|e l IH]; cbn; [done|]. by rewrite IH. Qed.

Lemma capacity_slots slots :
  AdmissionRequest.count request <= (slots * AdmissionRequest.count request) / commitment_divisor desired_replicas ->
  desired_replicas <= slots.
Proof.
  unfold commitment_divisor. rewrite Z.max_r by lia. intros H.
  assert (AdmissionRequest.count request * desired_replicas <= slots * AdmissionRequest.count request).
  { pose proof (Z.mul_div_le (slots * AdmissionRequest.count request) desired_replicas Hreplicas). nia. }
  nia.
Qed.

(** The candidate of a group, when it has the capacity, is backed by slots on
    its eligible nodes. *)
Lemma group_fits v resolved g o db db' :
  let keys := compatible_node_keys inventory request minimum_memory_mb v resolved g.1.1 g.1.2 g.2 in
  g ∈ service_groups inventory request desired_replicas v resolved ->
  _plan_physical_pool_remaining inventory (ModelVariant.vendor v) g.1.1 g.1.2 service_usage deferred_usage db = (inr o, db') ->
  AdmissionRequest.count request
  <= (replica_slots request (available_by_node inventory v g.1.2 o (List.filter (fun d => inb (node_key d) keys) g.2))
      * AdmissionRequest.count request) / commitment_divisor desired_replicas ->
  replicas_fit (ModelVariant.vendor v) g.1.2 (py_sort (fun s => s) (remove_dups keys.*2)).
Proof.
  intros keys Hg Hplan Hcap%capacity_slots. rewrite slots_sum in Hcap.
  set (available := available_by_node _ _ _ _ _) in *. eexists. split; [|split; [exact Hcap|]].
  - rewrite <- list_fmap_compose. unfold available, available_by_node. rewrite <- list_fmap_compose.
    erewrite list_fmap_ext; [apply (tally_by_nodup node_key)|]. by intros ? [].
  - intros k n ([k' a] & [= -> ->] & Hin)%list_elem_of_fmap.
    destruct (available_room _ _ _ _ _ _ _ _ _ Hg Hplan Hin) as ((d & Hd & Hpd & Hkd) & Ha & Hroom).
    rewrite inb_true in Hpd. split_and!.
    + rewrite py_sort_perm. apply elem_of_remove_dups, list_elem_of_fmap. exists (node_key d). by rewrite Hkd in *.
    + apply Z.div_pos; lia.
    + intros Hn. assert (a / AdmissionRequest.count request * AdmissionRequest.count request <= a).
      { rewrite Z.mul_comm. apply Z.mul_div_le. lia. }
      assert (0 < a) as Ha'; [|destruct (Hroom Ha') as [Hw Hle]; split; [done|lia]].
      destruct (Z.le_gt_cases a 0) as [?|?]; [|done]. assert (a = 0) as -> by lia. rewrite Z.div_0_l in Hn; lia.
Qed.

(** ** Candidates and their bindings *)
Definition canonical (l : list string) : Prop := py_sort (fun s => s) (remove_dups l) = l.

(** A candidate with the capacity is bound to a pool that holds the replicas. *)
Definition sound_binding (c : AdmissionCandidate.t) (b : Binding) : Prop :=
  AdmissionCandidate.vendor c = ModelVariant.vendor (_ServiceCandidateBinding.variant b)
  /\ canonical (_ServiceCandidateBinding.eligible_node_names b)
  /\ (forall n, n ∈ _ServiceCandidateBinding.eligible_node_names b -> n ∈ InventoryDeviceSnapshot.node_name <$> inventory)
  /\ (AdmissionRequest.count request <= AdmissionCandidate.available_capacity c ->
      exists resource, _ServiceCandidateBinding.resource_name b = Some resource
        /\ replicas_fit (AdmissionCandidate.vendor c) resource
             (_ServiceCandidateBinding.eligible_node_names b)).

(** Every candidate has its sound binding, as long as ids do not repeat. *)
Definition sound (acc : list AdmissionCandidate.t * dict string Binding) : Prop :=
  NoDup (AdmissionCandidate.candidate_id <$> acc.1) ->
  forall c, c ∈ acc.1 -> exists b, dget acc.2 (AdmissionCandidate.candidate_id c) = Some b /\ sound_binding c b.

Lemma sound_snoc acc c b :
  sound acc -> sound_binding c b -> sound (acc.1 ++ [c], dset (AdmissionCandidate.candidate_id c) b acc.2).
Proof.
  intros Hacc Hb Hnd x Hx. cbn [fst snd] in *. rewrite fmap_app in Hnd.
  apply NoDup_app in Hnd as (Hnd & Hdis & _). rewrite dget_dset.
  apply elem_of_app in Hx as [Hx|Hx%list_elem_of_singleton].
  - rewrite (proj2 (eqb_false _ _)); [by apply Hacc|]. intros E.
    apply (Hdis (AdmissionCandidate.candidate_id x)); [by apply list_elem_of_fmap_2|]. rewrite <- E. left.
  - subst x. rewrite eqb_same. eauto.
Qed.

Lemma new_candidate_ok v i m cap caps ready db c db' :
  new_candidate quota request desired_replicas requested_dtype quota_credit v i m cap caps ready db = (inr c, db') ->
  AdmissionCandidate.candidate_id c = i /\ AdmissionCandidate.vendor c = ModelVariant.vendor v
  /\ AdmissionCandidate.model c = m /\ AdmissionCandidate.available_capacity c = cap.
Proof.
  unfold new_candidate, candidate, checked. destruct (AdmissionCandidate.post_init _); [done|]. by intros [= <- <-].
Qed.

Lemma canonical_sorted l : canonical (py_sort (fun s => s) (remove_dups l)).
Proof.
  unfold canonical. rewrite remove_dups_id by (rewrite py_sort_perm; apply NoDup_remove_dups).
  apply py_sort_id. exact (py_sort_sorted (fun s => s) _).
Qed.

Lemma compatible_in_inventory v resolved g n :
  g ∈ service_groups inventory request desired_replicas v resolved ->
  n ∈ py_sort (fun s => s) (remove_dups
        (compatible_node_keys inventory request minimum_memory_mb v resolved g.1.1 g.1.2 g.2).*2) ->
  n ∈ InventoryDeviceSnapshot.node_name <$> inventory.
Proof.
  intros Hg. rewrite py_sort_perm, elem_of_remove_dups. intros (k & -> & Hk)%list_elem_of_fmap.
  unfold compatible_node_keys in Hk. apply elem_of_lfilter in Hk as [Hk _]. apply elem_of_lfilter in Hk as [Hk _].
  apply elem_of_remove_dups, list_elem_of_fmap in Hk as (d & -> & Hd).
  destruct (service_groups_ok _ _ _ Hg d Hd) as (Hdi & _). apply list_elem_of_fmap. exists d. done.
Qed.

Lemma group_candidate_sound v entry resolved acc i g db acc' db' :
  g ∈ service_groups inventory request desired_replicas v resolved -> sound acc ->
  group_candidate inventory quota request desired_replicas requested_dtype service_usage deferred_usage quota_credit
    minimum_memory_mb v entry resolved acc (i, g) db = (inr acc', db') -> sound acc'.
Proof.
  intros Hg Hacc. unfold group_candidate. destruct g as [[model resource] devices].
  intros (o & db1 & Hplan & H)%bind_ok. apply bind_ok in H as (c & db2 & Hc & H). injection H as <- <-.
  apply new_candidate_ok in Hc as (<- & Hv & Hm & Hcap). apply sound_snoc; [done|].
  split_and!; cbn [_ServiceCandidateBinding.variant _ServiceCandidateBinding.eligible_node_names
    _ServiceCandidateBinding.resource_name]; [done|apply canonical_sorted| |].
  { intros n. apply (compatible_in_inventory v resolved (model, resource, devices) n Hg). }
  rewrite Hcap. unfold zero_replica_commitment. rewrite (proj2 (Z.eqb_neq _ _)) by lia. cbn [andb].
  intros Hle. exists resource. split; [done|]. rewrite Hv.
  apply (group_fits v resolved (model, resource, devices) o db db1 Hg Hplan Hle).
Qed.

Lemma enumerate_elem {A} first (l : list A) i x : (i, x) ∈ enumerate first l -> x ∈ l.
Proof.
  unfold enumerate. intros (j & y & [= _ ->] & Hy)%elem_of_lookup_imap. by eapply list_elem_of_lookup_2.
Qed.

Lemma variant_candidates_sound v entry resolved acc db acc' db' :
  sound acc ->
  variant_candidates inventory quota request desired_replicas requested_dtype service_usage deferred_usage quota_credit
    minimum_memory_mb v entry resolved acc db = (inr acc', db') -> sound acc'.
Proof.
  intros Hacc. unfold variant_candidates. intros (acc1 & db1 & H1 & H)%bind_ok.
  assert (sound acc1) as Hacc1.
  { refine (foldM_inv (fun a _ => sound a) _ _ _ _ _ _ _ Hacc H1). intros [i g] a s a' s' Hin Ha Hs.
    apply enumerate_elem in Hin. rewrite py_sort_perm in Hin. by eapply group_candidate_sound. }
  destruct (negb _); [by injection H as <- <-|]. apply bind_ok in H as (c & db2 & Hc & H). injection H as <- <-.
  apply new_candidate_ok in Hc as (<- & Hv & Hm & Hcap). apply sound_snoc; [done|].
  split_and!; [done|done|by intros ? ?%not_elem_of_nil|]. rewrite Hcap. lia.
Qed.

Lemma service_candidates_sound catalog variants db acc db' :
  _service_candidates inventory catalog quota request desired_replicas requested_dtype service_usage deferred_usage
    quota_credit minimum_memory_mb variants db = (inr acc, db') -> sound acc.
Proof.
  unfold _service_candidates. intros ([] & db1 & _ & H)%bind_ok.
  refine (foldM_inv (fun a _ => sound a) _ _ _ _ _ _ _ _ H); [|by intros _ ? ?%not_elem_of_nil].
  intros v a s a' s' _ Ha Hs. apply bind_ok in Hs as ([entry resolved] & db2 & _ & Hs).
  by eapply variant_candidates_sound.
Qed.
End slots.

(** ** The decision *)
Lemma locked_quota_pools p : frames same_pools (locked_quota p).
Proof. frame_by ltac:(done). Qed.

Lemma lock_inventory_same db db' vendors kinds inventory :
  same_pools db db' ->
  lock_inventory_canonical vendors kinds KUBERNETES 0 true db' = (inr inventory, db') ->
  lock_inventory_canonical vendors kinds KUBERNETES 0 true db = (inr inventory, db).
Proof.
  intros ((_ & _ & Ed) & _ & Ew & _). unfold lock_inventory_canonical, list_healthy_inventory_devices, inventory_rows,
    inventory_item, locked_item, gets, mbind, M_bind, raise_if, mret, M_ret. change (0 <? 0) with false. cbv iota beta.
  destruct (_ || _); [by intros [= <-]|]. cbv iota beta. rewrite Ed, Ew. by intros [= <-].
Qed.

(** The rows a vendor's pool shares do not depend on the other vendors asked for. *)
Lemma promised_vendors catalog db (vendors : gset AcceleratorVendor) v resource node :
  v ∈ vendors ->
  zsum (pool_share catalog v resource node) (deferred_totals db vendors) = promised_on v resource node catalog db.
Proof.
  intros Hv. rewrite promised_totals. unfold deferred_totals. rewrite !zsum_omap, !(zsum_perm _ _ _ (py_sort_perm _ _)), !zsum_filter.
  apply zsum_ext. intros r _. unfold deferred_reservation.
  destruct (ResourceReservation.requested_vendor r) as [v'|] eqn:Ev; [|by rewrite !andb_false_r].
  destruct (is_none _ && _); [cbn [andb]|done].
  destruct (decide (v' = v)) as [->|Hne]; [by rewrite !bool_decide_eq_true_2 by set_solver|].
  rewrite (bool_decide_eq_false_2 (v' ∈ {[v]})) by set_solver. destruct (bool_decide (v' ∈ vendors)); [|done].
  unfold reservation_total. destruct (Db.workers db !! _); [|done]. destruct (Db.tasks db !! _); [|done].
  rewrite Ev. cbn. unfold pool_share, may_hold. cbn. rewrite (proj2 (eqb_false (AcceleratorVendor_value v') _)).
  - done.
  - intros E. apply Hne. by apply vendor_value_inj.
Qed.

Lemma active_deferred_at catalog inventory vendors db u db' v resource k :
  (forall i r, Db.reservations db !! i = Some r -> reservation_checks r = true) ->
  v ∈ vendors -> node_workers inventory k.2 = [k.1] ->
  _active_deferred_accelerators catalog (_unique_inventory_node_owners inventory) vendors db = (inr u, db') ->
  promised_on v resource k.2 catalog db <= charged_at v resource u k.
Proof.
  intros Hck Hv Hw H. assert (dget (_unique_inventory_node_owners inventory) k.2 = Some k.1) as Ho.
  { apply unique_owner; [|done]. destruct (node_worker_device inventory k.2 k.1) as (d & Hd & <-); [rewrite Hw; left|].
    apply list_elem_of_fmap. by exists d. }
  unfold _active_deferred_accelerators in H. destruct (_ || _) eqn:E.
  { apply orb_true_iff in E as [E|E]; apply bool_decide_eq_true in E; [by rewrite E in Ho|set_solver]. }
  injection H as <- _. destruct k as [w node].
  cbn [snd]. rewrite <- (promised_vendors catalog db vendors v resource node Hv). apply classified_at; [done|by apply totals_nonneg].
Qed.

Lemma inventory_nodes_valid vendors kinds db inventory n :
  lock_inventory_canonical vendors kinds KUBERNETES 0 true db = (inr inventory, db) ->
  n ∈ InventoryDeviceSnapshot.node_name <$> inventory -> kubernetes_dns_subdomain n = true.
Proof.
  unfold lock_inventory_canonical. intros ([] & db1 & _ & H)%bind_ok (d & -> & Hd)%list_elem_of_fmap.
  destruct (_ || _); [injection H as <- <-; by apply not_elem_of_nil in Hd|].
  apply bind_ok in H as (l & db2 & _ & H). apply gets_ok in H as [-> _].
  apply list_elem_of_omap in Hd as (g & _ & Hg). unfold locked_item in Hg.
  destruct (Db.workers db2 !! _) as [w|]; [|done]. destruct (_ || _); [done|].
  unfold kubernetes_node in Hg. destruct (str_or _ _) as [node|]; [|done].
  destruct (kubernetes_dns_subdomain node) eqn:E; [|done]. cbn in Hg. by injection Hg as <-.
Qed.

(** A canonical list of valid node names is its own snapshot. *)
Lemma snapshot_canonical nodes lm db :
  canonical nodes -> nodes ≠ [] -> (forall n, n ∈ nodes -> kubernetes_dns_subdomain n = true) ->
  _eligible_node_snapshot (Some nodes) (Some lm) db = (inr (Some nodes), db).
Proof.
  intros Hc Hne Hv. unfold _eligible_node_snapshot.
  assert (forall l names, (forall n, n ∈ l -> kubernetes_dns_subdomain n = true) ->
    foldM l names (fun names value =>
      name ← validate_kubernetes_dns_subdomain value "eligible node name"; mret (names ++ [name])) db
    = (inr (names ++ l), db)) as HF.
  { induction l as [|n l IH]; intros names Hl; cbn [foldM]; [by rewrite app_nil_r|].
    rewrite (bind_run _ _ _ (names ++ [n]) db).
    - rewrite IH by (intros x Hx; apply Hl; by right). by rewrite <- app_assoc.
    - unfold validate_kubernetes_dns_subdomain. by rewrite (Hl n) by left. }
  rewrite (bind_run _ _ _ _ _ (HF nodes [] Hv)). cbn [app]. unfold canonical in Hc. rewrite Hc.
  rewrite bool_decide_eq_false_2 by done. done.
Qed.

Lemma chosen_selected request candidates none db d db' c :
  (forall d db', none db = (inr d, db') -> AdmissionDecision.selected_candidate d = None) ->
  chosen request candidates none db = (inr d, db') -> AdmissionDecision.selected_candidate d = Some c ->
  choose_admission request candidates = inr d /\ db' = db.
Proof.
  intros Hn. unfold chosen. destruct (bool_decide _); [intros H Hc; apply Hn in H; congruence|].
  unfold lift. destruct (choose_admission request candidates); [done|]. by intros [= -> ->].
Qed.

Lemma single_none request v r i db d db' :
  _single_service_rejection request v r i db = (inr d, db') -> AdmissionDecision.selected_candidate d = None.
Proof. unfold _single_service_rejection, decision, checked. destruct (AdmissionDecision.post_init _); [done|]. by intros [= <- <-]. Qed.

Lemma missing_variant_none request db d db' :
  _missing_variant_decision request db = (inr d, db') -> AdmissionDecision.selected_candidate d = None.
Proof. unfold _missing_variant_decision. intros (v & db1 & _ & H)%bind_ok. by apply single_none in H. Qed.

Lemma rejected_no_snapshot p i request cs d db r db' :
  _record_rejected_service_admission p i request cs d db = (inr r, db') -> AdmissionResult.snapshot r = None.
Proof.
  unfold _record_rejected_service_admission. intros ([reason v] & db1 & _ & H)%bind_ok.
  apply bind_ok in H as (e & db2 & _ & H). by injection H as <- <-.
Qed.

Lemma eligible_capacity request c : eligible request c -> AdmissionRequest.count request <= AdmissionCandidate.available_capacity c
  /\ AdmissionCandidate.vendor c ∈ AdmissionRequest.allowed_vendors request.
Proof. intros H. split; apply H. Qed.

(** What the admission of a service read and chose. *)
Lemma admit_service_ok catalog p sid lm request mem d dtype db res db' snap :
  admit_logical_model_service catalog p sid lm request mem d dtype db = (inr res, db') ->
  AdmissionResult.snapshot res = Some snap ->
  exists db1 quota inventory variants u candidates bindings decision selected b v resource,
    same_pools db db1
    /\ lock_inventory_canonical (sorted_vendors (AdmissionRequest.allowed_vendors request))
         (sorted_kinds (AdmissionRequest.allowed_kinds request)) KUBERNETES 0 true db1 = (inr inventory, db1)
    /\ _active_deferred_accelerators catalog (_unique_inventory_node_owners inventory)
         (AdmissionRequest.allowed_vendors request) db1 = (inr u, db1)
    /\ _service_candidates inventory catalog quota request d dtype (_active_service_accelerators db1 None) u 0 mem
         variants db1 = (inr (candidates, bindings), db1)
    /\ choose_admission request candidates = inr decision
    /\ AdmissionDecision.selected_candidate decision = Some selected
    /\ dget bindings (AdmissionCandidate.candidate_id selected) = Some b
    /\ _ServiceCandidateBinding.resource_name b = Some resource
    /\ ModelVariant.vendor v = ModelVariant.vendor (_ServiceCandidateBinding.variant b)
    /\ snap = service_snapshot lm (ModelVariant.vendor v) (ModelVariant.kind v) selected
                (AdmissionRequest.selection_policy request) resource v (_ServiceCandidateBinding.eligible_node_names b).
Proof.
  intros H Hs. unfold admit_logical_model_service in H.
  apply bind_ok in H as ([] & ? & Hg & H). apply raise_if_ok in Hg as (_ & _ & ->).
  apply bind_ok in H as (ns & ? & Hg & H). apply gets_ok in Hg as [_ ->].
  apply bind_ok in H as (quota & db1 & Hq & H). apply (frames_run same_pools _ _ _ _ (locked_quota_pools _)) in Hq.
  cbv zeta in H. apply bind_ok in H as (variants & dbx & Hg & H).
  assert (dbx = db1) as -> by (eapply (frames_run eq) in Hg; [done|frame_by fail]).
  apply bind_ok in H as (inventory & dbx & Hi & H).
  assert (dbx = db1) as -> by (eapply (frames_run eq) in Hi; [done|frame_by fail]).
  apply bind_ok in H as (usage & ? & Hu & H). apply gets_ok in Hu as [-> ->].
  apply bind_ok in H as (u & dbx & Hu & H).
  assert (dbx = db1) as -> by (eapply (frames_run eq) in Hu; [done|frame_by fail]).
  apply bind_ok in H as ([candidates bindings] & dbx & Hc & H).
  assert (dbx = db1) as -> by (eapply (frames_run eq) in Hc; [done|frame_by fail]).
  apply bind_ok in H as (decision & dbx & Hd & H).
  destruct (AdmissionDecision.selected_candidate decision) as [selected|] eqn:Esel;
    [|by apply rejected_no_snapshot in H; congruence].
  destruct (chosen_selected _ _ _ _ _ _ _ (fun d db' => missing_variant_none request db1 d db') Hd Esel) as [Hch ->].
  apply bind_ok in H as (b & ? & Hb & H). unfold find_binding in Hb.
  destruct (dget bindings _) as [b'|] eqn:Eb; [|done]. apply ret_ok in Hb as [-> ->].
  apply bind_ok in H as (lv & ? & Hv & H). apply gets_ok in Hv as [Hv ->].
  destruct lv as [v|].
  2:{ apply bind_ok in H as (st & ? & _ & H). apply rejected_no_snapshot in H. congruence. }
  destruct (_ServiceCandidateBinding.resource_name b') as [resource|] eqn:Er.
  2:{ apply bind_ok in H as (st & ? & _ & H). apply rejected_no_snapshot in H. congruence. }
  apply bind_ok in H as (ev & db2 & _ & H). apply ret_ok in H as [-> ->]. injection Hs as <-.
  assert (ModelVariant.vendor v = ModelVariant.vendor (_ServiceCandidateBinding.variant b')) as Ev.
  { symmetry in Hv. unfold ModelVariantRepository.revalidate_ready_for_reservation in Hv.
    destruct (Db.model_variants db1 !! _) as [x|]; [|done]. destruct (_ && _) eqn:E in Hv; [|done]. injection Hv as ->.
    rewrite !andb_true_iff, !eqb_true in E. tauto. }
  exists db1, quota, inventory, variants, u, candidates, bindings, decision, selected, b', v, resource. split_and!; done.
Qed.

(** [d] replicas of [count] devices each fit on the nodes of the pool beside
    the active reservations and the replicas of all services but [exclude],
    whatever their device model and wherever they may still go: there are at
    least [d] slots, each for a gang on one of the nodes, and on every node with
    slots, which one worker owns, everything promised is within the usable
    devices. *)
Definition fits_beside (catalog : Catalog) (db : Db.t) (exclude : option N) (inventory : list Device)
    (v : AcceleratorVendor) (resource : string) (nodes : list string) (count d : Z) : Prop :=
  exists slots : list (string * string * Z),
    NoDup slots.*1 /\ d <= zsum snd slots
    /\ forall w node n, (w, node, n) ∈ slots ->
         node ∈ nodes /\ 0 <= n
         /\ (0 < n -> node_workers inventory node = [w]
                      /\ n * count + promised_on v resource node catalog db + committed_on v resource node db exclude
                         <= usable_at inventory v resource (w, node)).

(** The chosen candidate of a service fits. *)
Lemma chosen_fits catalog db db1 exclude vendors kinds asked quota request d dtype mem credit variants inventory u
  candidates bindings decision c b lm :
  reachable db -> AdmissionRequest.post_init request = None -> 0 < d -> same_pools db db1 ->
  lock_inventory_canonical vendors kinds KUBERNETES 0 true db1 = (inr inventory, db1) ->
  _active_deferred_accelerators catalog (_unique_inventory_node_owners inventory) asked db1 = (inr u, db1) ->
  AdmissionCandidate.vendor c ∈ asked ->
  _service_candidates inventory catalog quota request d dtype (_active_service_accelerators db1 exclude) u credit mem
    variants db1 = (inr (candidates, bindings), db1) ->
  choose_admission request candidates = inr decision ->
  AdmissionDecision.selected_candidate decision = Some c ->
  dget bindings (AdmissionCandidate.candidate_id c) = Some b ->
  let nodes := _ServiceCandidateBinding.eligible_node_names b in
  AdmissionCandidate.vendor c = ModelVariant.vendor (_ServiceCandidateBinding.variant b)
  /\ (exists resource, _ServiceCandidateBinding.resource_name b = Some resource
        /\ fits_beside catalog db exclude inventory (AdmissionCandidate.vendor c) resource
             nodes (AdmissionRequest.count request) d)
  /\ forall db', _eligible_node_snapshot (Some nodes) (Some lm) db' = (inr (Some nodes), db').
Proof.
  intros Hr Hreq Hd Hsame Hi Hu Hask Hc Hch Hsel Hb nodes.
  assert (1 <= AdmissionRequest.count request) as Hcount.
  { unfold AdmissionRequest.post_init in Hreq. destruct (1 <=? AdmissionRequest.count request) eqn:E; [lia|done]. }
  pose proof Hsame as ((Es & Erp & _) & _ & _ & ER).
  assert (forall i r, Db.reservations db1 !! i = Some r -> reservation_checks r = true) as Hcks.
  { intros i r. rewrite ER. by apply reachable_checks. }
  assert (_active_service_accelerators db1 exclude = _active_service_accelerators db exclude) as EU
    by by apply service_usage_same.
  assert (Forall (fun c => 0 <= _ServiceReplicaCommitment.accelerator_count c) (_active_service_accelerators db1 exclude))
    as Hsane by (rewrite EU; by apply books_commitments, reachable_books).
  assert (forall i s, Db.services db !! i = Some s -> ModelService.id s = i) as Hkeys
    by (intros i s; apply (bk_rows db (reachable_books db Hr))).
  destruct (choose_admission_selected _ _ _ _ Hch Hsel) as (Hin & Hel & _).
  destruct (eligible_capacity _ _ Hel) as [Hcap _].
  assert (NoDup (AdmissionCandidate.candidate_id <$> candidates)) as Hnd.
  { unfold choose_admission in Hch. destruct (bool_decide_reflect (NoDup (AdmissionCandidate.candidate_id <$> candidates)));
      [done|discriminate Hch]. }
  destruct (service_candidates_sound _ _ _ _ _ _ _ _ _ Hcount Hd Hsane _ _ _ _ _ Hc Hnd c Hin)
    as (b' & Eb & Hvb & Hcan & Hinv & Hfit).
  cbn [snd] in Eb. rewrite Hb in Eb. injection Eb as <-. destruct (Hfit Hcap) as (r & Er & slots & Hk & Hle & Hslots).
  split_and!; [done| |].
  - exists r. split; [done|]. exists slots. split_and!; [done|done|]. intros w node n Hwn.
    destruct (Hslots _ _ Hwn) as (Hnode & Hn0 & Hroom). split_and!; [done|done|].
    intros Hn. destruct (Hroom Hn) as [Hw Hr']. split; [done|]. rewrite <- (promised_same _ _ _ _ _ _ Hsame).
    rewrite <- (replicas_totalled _ _ _ w db exclude Hkeys), <- EU.
    pose proof (active_deferred_at _ _ _ _ _ _ _ r (w, node) Hcks Hask Hw Hu) as Hcl. cbn [snd] in Hcl. lia.
  - intros db'. apply snapshot_canonical; [done| |].
    + intros E. assert (exists k n, (k, n) ∈ slots) as (k & n & Hkn).
      { destruct slots as [|[k n] l]; [cbn in Hle; lia|]. exists k, n. left. }
      destruct (Hslots _ _ Hkn) as [Hn _]. unfold nodes in E. rewrite E in Hn. by apply not_elem_of_nil in Hn.
    + intros n Hn. eapply inventory_nodes_valid; [exact Hi|]. by apply Hinv.
Qed.


(** ** Scaling up *)
Lemma single_no_snapshot p i request cs v reason cid db r db' :
  (d ← _single_service_rejection request v reason cid; _record_rejected_service_admission p i request cs d) db = (inr r, db') ->
  AdmissionResult.snapshot r = None.
Proof. intros (d & db1 & _ & H)%bind_ok. by apply rejected_no_snapshot in H. Qed.

Lemma invalid_no_snapshot s v policy db r db' :
  _record_invalid_service_snapshot s v policy db = (inr r, db') -> AdmissionResult.snapshot r = None.
Proof.
  unfold _record_invalid_service_snapshot. cbv zeta. intros (e & db1 & _ & H)%bind_ok. by injection H as <- <-.
Qed.

(** The columns a scale-up reads are set. *)
Lemma scale_snapshot_ok s lm vid v kind model profile policy :
  scale_snapshot s = Some (lm, vid, v, kind, model, profile, policy) ->
  ModelService.logical_model_id s = Some lm /\ ModelService.selection_policy s = Some policy
  /\ ModelService.selected_vendor s = Some v /\ ModelService.selected_kind s = Some kind
  /\ present (ModelService.accelerator_resource_name s) = true.
Proof.
  unfold scale_snapshot. repeat case_match; try done. intros [= <- <- <- <- <- <- <-].
  repeat match goal with E : _ || _ = false |- _ => apply orb_false_iff in E as [? ?] end.
  split_and!; try done. by apply negb_false_iff.
Qed.

(** What the re-admission of a service read and chose. *)
Lemma revalidate_ok catalog s d db res db' snap :
  revalidate_logical_model_service_scale catalog s d db = (inr res, db') ->
  AdmissionResult.snapshot res = Some snap ->
  exists db1 quota inventory request v kind u candidates bindings decision c b mv lm policy,
    same_pools db db1 /\ ModelService.desired_replicas s < d
    /\ AdmissionRequest.post_init request = None /\ AdmissionRequest.count request = ModelService.gpu_count s
    /\ lock_inventory_canonical [v] [kind] KUBERNETES 0 true db1 = (inr inventory, db1)
    /\ _active_deferred_accelerators catalog (_unique_inventory_node_owners inventory) {[v]} db1 = (inr u, db1)
    /\ _service_candidates inventory catalog quota request d (ModelService.dtype s)
         (_active_service_accelerators db1 (Some (ModelService.id s))) u
         (ModelService.gpu_count s * ModelService.desired_replicas s) (ModelService.gpu_memory_mb s) [mv] db1
       = (inr (candidates, bindings), db1)
    /\ choose_admission request candidates = inr decision
    /\ AdmissionDecision.selected_candidate decision = Some c
    /\ dget bindings (AdmissionCandidate.candidate_id c) = Some b
    /\ still_selected s v kind c b = true /\ present (ModelService.accelerator_resource_name s) = true
    /\ ModelService.logical_model_id s = Some lm /\ ModelService.selection_policy s = Some policy
    /\ ModelService.selected_vendor s = Some v /\ ModelService.selected_kind s = Some kind
    /\ exists locked, snap = service_snapshot lm v kind c policy (default "" (ModelService.accelerator_resource_name s)) locked
                (_ServiceCandidateBinding.eligible_node_names b)
       /\ _service_variant_snapshot_matches s (Some locked) v kind = true.
Proof.
  intros H Hs. unfold revalidate_logical_model_service_scale in H.
  apply bind_ok in H as ([] & ? & Hg & H). apply raise_if_ok in Hg as (Hgt & _ & ->). cbv zeta in H.
  destruct (scale_snapshot s) as [[[[[[[lm vid] v] kind] model] [[pid pv] pd]] policy]|] eqn:Esc;
    [|by apply invalid_no_snapshot in H; congruence].
  apply bind_ok in H as (request & dbx & Hq & H). unfold checked in Hq.
  destruct (AdmissionRequest.post_init _) eqn:Ereq in Hq; [done|]. apply ret_ok in Hq as [-> ->].
  apply bind_ok in H as (mv & dbx & Hg & H).
  assert (dbx = db) as -> by (eapply (frames_run eq) in Hg; [done|frame_by fail]).
  destruct mv as [mv|]; [|by apply single_no_snapshot in H; congruence].
  destruct (negb _); [by apply single_no_snapshot in H; congruence|].
  apply bind_ok in H as (quota & db1 & Hq & H). apply (frames_run same_pools _ _ _ _ (locked_quota_pools _)) in Hq.
  apply bind_ok in H as (inventory & dbx & Hi & H).
  assert (dbx = db1) as -> by (eapply (frames_run eq) in Hi; [done|frame_by fail]).
  apply bind_ok in H as (usage & ? & Hu & H). apply gets_ok in Hu as [-> ->].
  apply bind_ok in H as (u & dbx & Hu & H).
  assert (dbx = db1) as -> by (eapply (frames_run eq) in Hu; [done|frame_by fail]).
  apply bind_ok in H as ([candidates bindings] & dbx & Hc & H).
  assert (dbx = db1) as -> by (eapply (frames_run eq) in Hc; [done|frame_by fail]).
  apply bind_ok in H as (decision & dbx & Hd & H).
  destruct (AdmissionDecision.selected_candidate decision) as [c|] eqn:Esel;
    [|by apply rejected_no_snapshot in H; congruence].
  destruct (chosen_selected _ _ _ _ _ _ _ (fun d db' => missing_variant_none _ db1 d db') Hd Esel) as [Hch ->].
  apply bind_ok in H as (b & ? & Hb & H). unfold find_binding in Hb.
  destruct (dget bindings _) as [b'|] eqn:Eb; [|done]. apply ret_ok in Hb as [-> ->].
  apply bind_ok in H as (lv & ? & Hv & H). apply gets_ok in Hv as [Hv ->].
  destruct lv as [locked|]; [|by apply single_no_snapshot in H; congruence].
  destruct (_service_variant_snapshot_matches s (Some locked) v kind) eqn:Em; cbn [negb] in H;
    [|by apply single_no_snapshot in H; congruence].
  destruct (still_selected s v kind c b') eqn:Est; cbn [negb] in H; [|by apply single_no_snapshot in H; congruence].
  apply bind_ok in H as (ev & db2 & _ & H). apply ret_ok in H as [-> ->]. injection Hs as <-.
  exists db1, quota, inventory. eexists. exists v, kind, u, candidates, bindings, decision, c, b', mv, lm, policy.
  destruct (scale_snapshot_ok _ _ _ _ _ _ _ _ Esc) as (El & Ep & Evn & Ek & Epr).
  split_and!; [done|lia|exact Ereq|done|done|done|exact Hc|exact Hch|done|done|done|done|done|done|done|done|eauto].
Qed.



