(* ===== verification/Simulator.v ===== *)
(** * The scheduling simulator ([scheduler/simulator.py])

    An event-driven simulation of GPU scheduling: jobs arrive, wait in one
    queue per GPU count ordered by priority, are placed on a worker chosen by
    the policy, possibly after jobs of lower priority were preempted, and
    complete after their duration.  The state of the loop is the record [Sim.t],
    one field per variable of [simulate].  A heap of [heapq] is the sorted list
    of its entries, which have distinct keys: the code reads and pops the first
    entry and pushes others.  The draws of the random generator and the
    measured time are arguments. *)

From S2P Require Import Prelude PyFloat PyString Enums PyDict Store.
From Stdlib Require Import SpecFloat QArith.

#[local] Open Scope stdpp_scope.
#[local] Open Scope Z_scope.

(** ** Floats *)
Definition f_inf : float := S754_infinity false.
Definition isinf (x : float) : bool := match x with S754_infinity _ => true | _ => false end.
Definition isfinite (x : float) : bool := match x with S754_zero _ | S754_finite _ _ _ => true | _ => false end.

(** [sum] of a list of floats, with the compensation of the interpreter. *)
Definition sum_step (acc : float * float) (x : float) : float * float :=
  let '(total, c) := acc in
  let t := fadd total x in
  (t, fadd c (if fle (SFabs x) (SFabs total) then fadd (fsub total t) x else fadd (fsub x t) total)).

Definition py_sum (l : list float) : float :=
  match l with
  | [] => f0
  | x :: rest =>
      let '(total, c) := foldl sum_step (fadd f0 x, f0) rest in
      if isfinite c && negb (fle c f0 && fle f0 c) then fadd total c else total
  end.

(** [round(x, n)]: the decimal nearest to the exact value, half to even, then the
    float nearest to that decimal; a zero keeps the sign of [x]. *)
Definition round_digits (x : float) (n : Z) : float :=
  match x with
  | S754_finite s _ _ =>
      let '(a, d) := float_ratio x in
      match round_half_even (a * 10 ^ n) d with
      | Z0 => S754_zero s
      | m => truediv m (10 ^ n)
      end
  | _ => x
  end.

(** [math.floor(x)] and [math.ceil(x)] of a finite float. *)
Definition floor (x : float) : Z := let '(a, d) := float_ratio x in a / d.
Definition ceil (x : float) : Z := let '(a, d) := float_ratio x in - ((- a) / d).

(** ** Data *)
Module SimulationConfig.
Record t := mk {
  worker_count : Z;
  gpus_per_worker : Z;
  job_count : Z;
  seed : Z;
  arrival_rate_per_second : float;
  median_duration_seconds : float;
  duration_sigma : float;
  worker_cpu_millicores : Z;
  worker_memory_mb : Z;
  worker_concurrency : Z;
  preemption_enabled : bool;
  preemption_min_priority_delta : Z;
  preemptible_probability : float;
}.

Definition post_init (c : t) : option PyError :=
  if worker_count c <? 1 then Some (ValueError "worker_count must be at least one")
  else if gpus_per_worker c <? 1 then Some (ValueError "gpus_per_worker must be at least one")
  else if job_count c <? 1 then Some (ValueError "job_count must be at least one")
  else if worker_cpu_millicores c <? 1 then Some (ValueError "worker_cpu_millicores must be at least one")
  else if worker_memory_mb c <? 1 then Some (ValueError "worker_memory_mb must be at least one")
  else if worker_concurrency c <? 1 then Some (ValueError "worker_concurrency must be at least one")
  else if fle (arrival_rate_per_second c) f0 then Some (ValueError "arrival_rate_per_second must be positive")
  else if fle (median_duration_seconds c) f0 then Some (ValueError "median_duration_seconds must be positive")
  else if flt (duration_sigma c) f0 then Some (ValueError "duration_sigma cannot be negative")
  else if negb ((1 <=? preemption_min_priority_delta c) && (preemption_min_priority_delta c <=? 100))
  then Some (ValueError "preemption_min_priority_delta must be between 1 and 100")
  else if negb (fle f0 (preemptible_probability c) && fle (preemptible_probability c) f1)
  then Some (ValueError "preemptible_probability must be between zero and one")
  else None.
End SimulationConfig.

Module SimulatedJob.
Record t := mk {
  id : Z;
  arrival_time : float;
  duration_seconds : float;
  gpu_count : Z;
  cpu_millicores : Z;
  memory_mb : Z;
  priority : Z;
  preemptible : bool;
}.
End SimulatedJob.

Module SimulationResult.
Record t := mk {
  policy : string;
  seed : Z;
  workers : Z;
  gpus_per_worker : Z;
  total_gpus : Z;
  jobs : Z;
  completed_jobs : Z;
  utilization_percent : float;
  average_queue_latency_seconds : float;
  p50_queue_latency_seconds : float;
  p95_queue_latency_seconds : float;
  p99_queue_latency_seconds : float;
  makespan_seconds : float;
  fragmented_gpu_seconds : float;
  fragmentation_percent : float;
  fragmentation_events : Z;
  peak_active_workers : Z;
  placements : Z;
  preemptions : Z;
  simulator_elapsed_seconds : float;
  simulator_placements_per_second : float;
  simulator_measurement_scope : string;
}.
End SimulationResult.

Module _WorkerState.
Record t := mk {
  id : Z;
  gpu_capacity : Z;
  cpu_capacity : Z;
  memory_capacity : Z;
  concurrency : Z;
  allocated_gpus : Z;
  allocated_cpu_millicores : Z;
  allocated_memory_mb : Z;
  running_jobs : Z;
}.
#[global] Instance eta : Eta t := fun r =>
  mk (id r) (gpu_capacity r) (cpu_capacity r) (memory_capacity r) (concurrency r) (allocated_gpus r)
    (allocated_cpu_millicores r) (allocated_memory_mb r) (running_jobs r).

Definition free_gpus (w : t) : Z := gpu_capacity w - allocated_gpus w.
End _WorkerState.

Module _RunningAttempt.
Record t := mk {
  serial : Z;
  worker_index : nat;
  job : SimulatedJob.t;
  started_at : float;
}.
End _RunningAttempt.

Notation Job := SimulatedJob.t.
Notation WorkerState := _WorkerState.t.
Notation Attempt := _RunningAttempt.t.

(** An entry of a queue, and of the completion heap. *)
Definition PendingKey : Type := Z * (float * Z).
Definition _PendingEntry : Type := PendingKey * Job.
Definition Completion : Type := float * (Z * Z).

(** The variables of [simulate]. *)
Module Sim.
Record t := mk {
  workers : list WorkerState;
  pending : dict Z (list _PendingEntry);
  completions : list Completion;
  active_attempts : dict Z Attempt;
  initially_placed_job_ids : gset Z;
  queue_latencies : list float;
  fragmented_job_ids : gset Z;
  fragmented_gpu_seconds : float;
  busy_gpu_seconds : float;
  arrival_index : nat;
  completion_serial : Z;
  completed_jobs : Z;
  placements : Z;
  preemptions : Z;
  peak_active_workers : Z;
  now : float;
  last_completion : float;
}.
#[global] Instance eta : Eta t := fun r =>
  mk (workers r) (pending r) (completions r) (active_attempts r) (initially_placed_job_ids r) (queue_latencies r)
    (fragmented_job_ids r) (fragmented_gpu_seconds r) (busy_gpu_seconds r) (arrival_index r) (completion_serial r)
    (completed_jobs r) (placements r) (preemptions r) (peak_active_workers r) (now r) (last_completion r).
End Sim.

Notation Run := (M Sim.t PyError).

(** [heappush]; [heappop] takes the head. *)
Definition heappush {A K} `{Ord K} (key : A -> K) (x : A) (heap : list A) : list A := sort_insert key x heap.

(** [del d[k]] and [d.pop(k, None)] *)
Definition ddel {K V} `{EqDecision K} (k : K) (d : dict K V) : dict K V := List.filter (fun e => e.1 !== k) d.

(** ** Queues *)
Definition _pending_sort_key (job : Job) : PendingKey :=
  (- SimulatedJob.priority job, (SimulatedJob.arrival_time job, SimulatedJob.id job)).

Definition _pending_entry (job : Job) : _PendingEntry := (_pending_sort_key job, job).

(** [queue[0] for queue in pending.values() if queue] *)
Definition heads (pending : dict Z (list _PendingEntry)) : list _PendingEntry := omap head pending.*2.

Definition push_pending (job : Job) : Run unit :=
  queue ← gets (fun s => dget (Sim.pending s) (SimulatedJob.gpu_count job));
  match queue with
  | Some queue => modify (fun s => s <| Sim.pending ::= dset (SimulatedJob.gpu_count job)
                                          (heappush fst (_pending_entry job) queue) |>)
  | None => raise KeyError
  end.

Definition pop_pending (gpu_count : Z) : Run unit :=
  queue ← gets (fun s => dget (Sim.pending s) gpu_count);
  match queue with
  | Some (_ :: queue) => modify (fun s => s <| Sim.pending ::= dset gpu_count queue |>)
  | Some [] => raise IndexError
  | None => raise KeyError
  end.

(** ** Workers *)
Definition get_worker_state (i : nat) : Run WorkerState :=
  w ← gets (fun s => Sim.workers s !! i);
  match w with Some w => mret w | None => raise IndexError end.

Definition put_worker_state (i : nat) (w : WorkerState) : Run unit :=
  modify (fun s => s <| Sim.workers ::= <[i := w]> |>).

Definition worker_freed (job : Job) (w : WorkerState) : WorkerState :=
  w <| _WorkerState.allocated_gpus ::= fun n => n - SimulatedJob.gpu_count job |>
    <| _WorkerState.allocated_cpu_millicores ::= fun n => n - SimulatedJob.cpu_millicores job |>
    <| _WorkerState.allocated_memory_mb ::= fun n => n - SimulatedJob.memory_mb job |>
    <| _WorkerState.running_jobs ::= fun n => n - 1 |>.

Definition _release_attempt (attempt : Attempt) : Run unit :=
  let i := _RunningAttempt.worker_index attempt in
  worker ← get_worker_state i;
  let w := worker_freed (_RunningAttempt.job attempt) worker in
  _ ← put_worker_state i w;
  raise_if ((_WorkerState.allocated_gpus w <? 0) || (_WorkerState.allocated_cpu_millicores w <? 0)
            || (_WorkerState.allocated_memory_mb w <? 0) || (_WorkerState.running_jobs w <? 0))
    (RuntimeError "worker resource accounting became negative").

Definition fits (job : Job) (w : WorkerState) : bool :=
  negb ((_WorkerState.free_gpus w <? SimulatedJob.gpu_count job)
        || (_WorkerState.cpu_capacity w <? _WorkerState.allocated_cpu_millicores w + SimulatedJob.cpu_millicores job)
        || (_WorkerState.memory_capacity w <? _WorkerState.allocated_memory_mb w + SimulatedJob.memory_mb job)
        || (_WorkerState.concurrency w <=? _WorkerState.running_jobs w)).

Definition worker_score (policy : string) (job : Job) (w : WorkerState) : float * (float * float) :=
  let gpu_fraction := truediv (_WorkerState.allocated_gpus w + SimulatedJob.gpu_count job) (_WorkerState.gpu_capacity w) in
  let cpu_fraction := truediv (_WorkerState.allocated_cpu_millicores w + SimulatedJob.cpu_millicores job)
                        (_WorkerState.cpu_capacity w) in
  let memory_fraction := truediv (_WorkerState.allocated_memory_mb w + SimulatedJob.memory_mb job)
                           (_WorkerState.memory_capacity w) in
  let dominant := fmax (fmax gpu_fraction cpu_fraction) memory_fraction in
  if policy == "binpack" then (fopp dominant, (fopp cpu_fraction, fopp memory_fraction))
  else (dominant, (f0, float_of_Z (_WorkerState.running_jobs w))).

Definition _select_worker (workers : list WorkerState) (job : Job) (policy : string) : option nat :=
  let eligible := List.filter (fun e => fits job e.2) (imap pair workers) in
  fst <$> head (py_sort (fun e => (worker_score policy job e.2, _WorkerState.id e.2)) eligible).

Definition _fragmented_gpu_count (workers : list WorkerState) (pending : dict Z (list _PendingEntry)) : Z :=
  match py_sort fst (heads pending) with
  | [] => 0
  | selected :: _ =>
      foldr (fun w acc => (if (0 <? _WorkerState.free_gpus w)
                              && (_WorkerState.free_gpus w <? SimulatedJob.gpu_count selected.2)
                           then _WorkerState.free_gpus w else 0) + acc) 0 workers
  end.

Definition _is_gpu_fragmented (workers : list WorkerState) (gpu_count : Z) : bool :=
  let free_gpus := _WorkerState.free_gpus <$> workers in
  (gpu_count <=? foldr Z.add 0 free_gpus)
  && (match free_gpus with [] => 0 | x :: l => foldl Z.max x l end <? gpu_count).

(** ** Preemption *)
Definition _can_fit_after_preemption (w : WorkerState) (incoming : Job)
    (victim_count freed_gpus freed_cpu freed_memory : Z) : bool :=
  (_WorkerState.allocated_gpus w - freed_gpus + SimulatedJob.gpu_count incoming <=? _WorkerState.gpu_capacity w)
  && (_WorkerState.allocated_cpu_millicores w - freed_cpu + SimulatedJob.cpu_millicores incoming
      <=? _WorkerState.cpu_capacity w)
  && (_WorkerState.allocated_memory_mb w - freed_memory + SimulatedJob.memory_mb incoming
      <=? _WorkerState.memory_capacity w)
  && (_WorkerState.running_jobs w - victim_count <? _WorkerState.concurrency w).

(** The victims of one worker, in order, until the job fits. *)
Fixpoint gather (w : WorkerState) (incoming : Job) (victims : list Attempt)
    (freed_gpus freed_cpu freed_memory : Z) (eligible : list Attempt) : option (list Attempt) :=
  match eligible with
  | [] => None
  | victim :: rest =>
      let victims := victims ++ [victim] in
      let freed_gpus := freed_gpus + SimulatedJob.gpu_count (_RunningAttempt.job victim) in
      let freed_cpu := freed_cpu + SimulatedJob.cpu_millicores (_RunningAttempt.job victim) in
      let freed_memory := freed_memory + SimulatedJob.memory_mb (_RunningAttempt.job victim) in
      if _can_fit_after_preemption w incoming (lenZ victims) freed_gpus freed_cpu freed_memory
      then Some victims
      else gather w incoming victims freed_gpus freed_cpu freed_memory rest
  end.

Definition eligible_victims (active : dict Z Attempt) (worker_index : nat) (incoming : Job) (min_priority_delta : Z)
  : list Attempt :=
  py_sort (fun a => (SimulatedJob.priority (_RunningAttempt.job a),
                     (_RunningAttempt.started_at a, SimulatedJob.id (_RunningAttempt.job a))))
    (List.filter (fun a => (_RunningAttempt.worker_index a == worker_index)
       && SimulatedJob.preemptible (_RunningAttempt.job a)
       && (min_priority_delta <=? SimulatedJob.priority incoming - SimulatedJob.priority (_RunningAttempt.job a)))
       active.*2).

Definition plan_score (victims : list Attempt) (w : WorkerState) : Z * (Z * (Z * Z)) :=
  (lenZ victims, (foldr (fun a acc => SimulatedJob.priority (_RunningAttempt.job a) + acc) 0 victims,
    (foldr (fun a acc => SimulatedJob.gpu_count (_RunningAttempt.job a) + acc) 0 victims, _WorkerState.id w))).

Definition _select_preemption_plan (workers : list WorkerState) (active : dict Z Attempt) (incoming : Job)
    (min_priority_delta : Z) : option (nat * list Attempt) :=
  let plans := omap (fun e => (fun victims => (plan_score victims e.2, (e.1, victims)))
    <$> gather e.2 incoming [] 0 0 0 (eligible_victims active e.1 incoming min_priority_delta)) (imap pair workers) in
  snd <$> head (py_sort fst plans).

(** A victim gives its place up and waits again. *)
Definition evict (victim : Attempt) : Run unit :=
  _ ← _release_attempt victim;
  _ ← modify (fun s => s <| Sim.active_attempts ::= ddel (SimulatedJob.id (_RunningAttempt.job victim)) |>);
  push_pending (_RunningAttempt.job victim).

(** ** Scheduling *)
Section schedule.
Context (config : SimulationConfig.t) (policy : string).

Definition worker_taken (job : Job) (w : WorkerState) : WorkerState :=
  w <| _WorkerState.allocated_gpus ::= fun n => n + SimulatedJob.gpu_count job |>
    <| _WorkerState.allocated_cpu_millicores ::= fun n => n + SimulatedJob.cpu_millicores job |>
    <| _WorkerState.allocated_memory_mb ::= fun n => n + SimulatedJob.memory_mb job |>
    <| _WorkerState.running_jobs ::= Z.succ |>.

(** The worker for a job, after preemption if needed. *)
Definition find_worker (job : Job) : Run (option nat) :=
  worker_index ← gets (fun s => _select_worker (Sim.workers s) job policy);
  match worker_index with
  | Some i => mret (Some i)
  | None =>
      if SimulationConfig.preemption_enabled config
      then
        plan ← gets (fun s => _select_preemption_plan (Sim.workers s) (Sim.active_attempts s) job
                                (SimulationConfig.preemption_min_priority_delta config));
        match plan with
        | Some (i, victims) =>
            _ ← for_each victims evict;
            _ ← modify (fun s => s <| Sim.preemptions ::= fun n => n + lenZ victims |>);
            mret (Some i)
        | None => mret None
        end
      else mret None
  end.

Definition start (job : Job) (i : nat) : Run unit :=
  _ ← pop_pending (SimulatedJob.gpu_count job);
  worker ← get_worker_state i;
  _ ← put_worker_state i (worker_taken job worker);
  _ ← modify (fun s => s <| Sim.completion_serial ::= Z.succ |>);
  _ ← modify (fun s => s <| Sim.active_attempts ::= dset (SimulatedJob.id job)
        (_RunningAttempt.mk (Sim.completion_serial s) i job (Sim.now s)) |>);
  _ ← modify (fun s => s <| Sim.completions ::= heappush (fun c => c)
        (fadd (Sim.now s) (SimulatedJob.duration_seconds job), (Sim.completion_serial s, SimulatedJob.id job)) |>);
  seen ← gets (fun s => bool_decide (SimulatedJob.id job ∈ Sim.initially_placed_job_ids s));
  _ ← when (negb seen)
        (modify (fun s => s <| Sim.initially_placed_job_ids ::= union {[SimulatedJob.id job]} |>
           <| Sim.queue_latencies ::= fun l => l ++ [fsub (Sim.now s) (SimulatedJob.arrival_time job)] |>));
  modify (fun s => s <| Sim.placements ::= Z.succ |>).

(** Places the first candidate that finds a worker. *)
Fixpoint try_candidates (candidates : list _PendingEntry) : Run bool :=
  match candidates with
  | [] => mret false
  | candidate :: rest =>
      let job := candidate.2 in
      worker_index ← find_worker job;
      match worker_index with
      | None =>
          fragmented ← gets (fun s => _is_gpu_fragmented (Sim.workers s) (SimulatedJob.gpu_count job));
          _ ← when fragmented
                (modify (fun s => s <| Sim.fragmented_job_ids ::= union {[SimulatedJob.id job]} |>));
          try_candidates rest
      | Some i => _ ← start job i; mret true
      end
  end.

(** The result is [false] if the fuel ran out. *)
Fixpoint _schedule_pending (fuel : nat) : Run bool :=
  match fuel with
  | O => mret false
  | S fuel' =>
      candidates ← gets (fun s => py_sort fst (heads (Sim.pending s)));
      placed ← try_candidates candidates;
      if (placed : bool) then _schedule_pending fuel' else mret true
  end.

(** ** The event loop *)
Context (jobs : list Job).

(** Pops the completions that are due. *)
Fixpoint finish_due (completions : list Completion) : Run unit :=
  match completions with
  | [] => mret tt
  | (finished_at, (attempt_serial, job_id)) :: rest =>
      now ← gets Sim.now;
      if fle finished_at now
      then
        _ ← modify (fun s => s <| Sim.completions := rest |>);
        attempt ← gets (fun s => dget (Sim.active_attempts s) job_id);
        _ ← match attempt with
            | Some attempt =>
                if _RunningAttempt.serial attempt =? attempt_serial
                then
                  _ ← _release_attempt attempt;
                  modify (fun s => s <| Sim.active_attempts ::= ddel job_id |>
                    <| Sim.completed_jobs ::= Z.succ |> <| Sim.last_completion ::= fun t => fmax t finished_at |>)
                else mret tt
            | None => mret tt
            end;
        finish_due rest
      else mret tt
  end.

(** Queues the jobs that have arrived. *)
Fixpoint arrive_due (waiting : list Job) : Run unit :=
  match waiting with
  | [] => mret tt
  | job :: rest =>
      now ← gets Sim.now;
      if fle (SimulatedJob.arrival_time job) now
      then
        _ ← push_pending job;
        _ ← modify (fun s => s <| Sim.arrival_index ::= S |>);
        arrive_due rest
      else mret tt
  end.

Definition next_event (s : Sim.t) : float :=
  let next_arrival := match jobs !! Sim.arrival_index s with Some j => SimulatedJob.arrival_time j | None => f_inf end in
  let next_completion := match Sim.completions s with c :: _ => c.1 | [] => f_inf end in
  fmin next_arrival next_completion.

(** One iteration of the loop. *)
Definition event (fuel : nat) : Run bool :=
  next_event ← gets next_event;
  _ ← raise_if (isinf next_event) (RuntimeError "simulation stalled with unschedulable jobs");
  _ ← modify (fun s =>
        let elapsed := fsub next_event (Sim.now s) in
        s <| Sim.fragmented_gpu_seconds ::= fun t =>
               fadd t (fmul (float_of_Z (_fragmented_gpu_count (Sim.workers s) (Sim.pending s))) elapsed) |>
          <| Sim.busy_gpu_seconds ::= fun t =>
               fadd t (fmul (float_of_Z (foldr (fun w acc => _WorkerState.allocated_gpus w + acc) 0 (Sim.workers s)))
                         elapsed) |>
          <| Sim.now := next_event |>);
  completions ← gets Sim.completions;
  _ ← finish_due completions;
  waiting ← gets (fun s => drop (Sim.arrival_index s) jobs);
  _ ← arrive_due waiting;
  ok ← _schedule_pending fuel;
  _ ← modify (fun s => s <| Sim.peak_active_workers ::= fun n =>
        Z.max n (lenZ (List.filter (fun w => 0 <? _WorkerState.running_jobs w) (Sim.workers s))) |>);
  mret ok.

Definition unfinished (s : Sim.t) : bool :=
  (Sim.arrival_index s <? length jobs)%nat || negb (bool_decide (Sim.completions s = []))
  || existsb (fun q => negb (bool_decide (q = []))) (Sim.pending s).*2.

(** The loop; the result is [false] if the fuel ran out. *)
Fixpoint events (fuel : nat) : Run bool :=
  continue ← gets unfinished;
  if (continue : bool)
  then match fuel with
       | O => mret false
       | S fuel' => ok ← event fuel'; if (ok : bool) then events fuel' else mret false
       end
  else mret true.

Definition initial (now : float) : Sim.t :=
  Sim.mk ((fun i => _WorkerState.mk (Z.of_nat i) (SimulationConfig.gpus_per_worker config)
             (SimulationConfig.worker_cpu_millicores config) (SimulationConfig.worker_memory_mb config)
             (SimulationConfig.worker_concurrency config) 0 0 0 0)
            <$> seq 0 (Z.to_nat (SimulationConfig.worker_count config)))
    ((fun k => (Z.of_nat k, [])) <$> seq 1 (Z.to_nat (SimulationConfig.gpus_per_worker config)))
    [] [] ∅ [] ∅ f0 f0 O 0 0 0 0 0 now now.
End schedule.

(** ** Validation *)
Definition validate_step (config : SimulationConfig.t) (acc : float * gset Z) (job : Job) : PyError + (float * gset Z) :=
  let '(previous_arrival, job_ids) := acc in
  if bool_decide (SimulatedJob.id job ∈ job_ids) then inl (ValueError "workload job ids must be unique")
  else if flt (SimulatedJob.arrival_time job) previous_arrival
  then inl (ValueError "workload must be ordered by arrival_time")
  else if negb ((1 <=? SimulatedJob.gpu_count job) && (SimulatedJob.gpu_count job <=? SimulationConfig.gpus_per_worker config))
  then inl (ValueError "job GPU demand must fit on one worker")
  else if SimulationConfig.worker_cpu_millicores config <? SimulatedJob.cpu_millicores job
  then inl (ValueError "job CPU demand must fit on one worker")
  else if SimulationConfig.worker_memory_mb config <? SimulatedJob.memory_mb job
  then inl (ValueError "job memory demand must fit on one worker")
  else if fle (SimulatedJob.duration_seconds job) f0 then inl (ValueError "job duration must be positive")
  else if negb ((0 <=? SimulatedJob.priority job) && (SimulatedJob.priority job <=? 100))
  then inl (ValueError "job priority must be between 0 and 100")
  else inr (SimulatedJob.arrival_time job, {[SimulatedJob.id job]} ∪ job_ids).

Fixpoint validate_jobs (config : SimulationConfig.t) (acc : float * gset Z) (workload : list Job) : option PyError :=
  match workload with
  | [] => None
  | job :: rest => match validate_step config acc job with
                   | inl e => Some e
                   | inr acc' => validate_jobs config acc' rest
                   end
  end.

Definition _validate_workload (config : SimulationConfig.t) (workload : list Job) : option PyError :=
  if bool_decide (workload = []) then Some (ValueError "workload cannot be empty")
  else if negb (lenZ workload =? SimulationConfig.job_count config)
  then Some (ValueError "workload size must match config.job_count")
  else validate_jobs config (S754_infinity true, ∅) workload.

(** ** Metrics *)
Definition _percentile (values : list float) (percentile : float) : float :=
  match values with
  | [] => f0
  | _ =>
      let ordered := py_sort (fun x => x) values in
      let position := fmul (float_of_Z (lenZ ordered - 1)) percentile in
      let lower := floor position in
      let upper := ceil position in
      let at_ i := default f0 (ordered !! Z.to_nat i) in
      if lower =? upper then at_ lower
      else
        let weight := fsub position (float_of_Z lower) in
        fadd (fmul (at_ lower) (fsub f1 weight)) (fmul (at_ upper) weight)
  end.

Definition _round_metric (value : float) : float := round_digits value 6.

(** The summary of a finished run, measured to take [elapsed] seconds. *)
Definition summary (config : SimulationConfig.t) (policy : string) (jobs : list Job) (first : float) (elapsed : float)
    (s : Sim.t) : SimulationResult.t :=
  let makespan := fmax f0 (fsub (Sim.last_completion s) first) in
  let total_gpus := SimulationConfig.worker_count config * SimulationConfig.gpus_per_worker config in
  let capacity_seconds := fmul (float_of_Z total_gpus) makespan in
  let percent x := _round_metric (fdiv (fmul (float_of_Z 100) x) (fmax f1 capacity_seconds)) in
  let latency p := _round_metric (_percentile (Sim.queue_latencies s) (float_of_Q p)) in
  SimulationResult.mk policy (SimulationConfig.seed config) (SimulationConfig.worker_count config)
    (SimulationConfig.gpus_per_worker config) total_gpus (lenZ jobs) (Sim.completed_jobs s)
    (percent (Sim.busy_gpu_seconds s))
    (_round_metric (fdiv (py_sum (Sim.queue_latencies s)) (float_of_Z (Z.max 1 (lenZ (Sim.queue_latencies s))))))
    (latency (50 # 100)%Q) (latency (95 # 100)%Q) (latency (99 # 100)%Q)
    (_round_metric makespan) (_round_metric (Sim.fragmented_gpu_seconds s)) (percent (Sim.fragmented_gpu_seconds s))
    (Z.of_nat (size (Sim.fragmented_job_ids s))) (Sim.peak_active_workers s) (Sim.placements s) (Sim.preemptions s)
    (round_digits elapsed 9)
    (round_digits (fdiv (float_of_Z (Sim.placements s)) (fmax elapsed (float_of_Q (1 # 1000000000000)))) 3)
    "in_process_event_loop_only_no_database".

(** The outcome is [None] if the fuel ran out. *)
Definition simulate (fuel : nat) (elapsed : float) (config : SimulationConfig.t) (policy : string) (workload : list Job)
  : option (PyError + SimulationResult.t) :=
  if negb ((policy == "binpack") || (policy == "spread")) then Some (inl (ValueError "policy must be 'binpack' or 'spread'"))
  else
    match _validate_workload config workload, workload with
    | Some e, _ => Some (inl e)
    | None, [] => Some (inl IndexError)
    | None, job :: _ =>
        match events config policy workload fuel (initial config (SimulatedJob.arrival_time job)) with
        | (inl e, _) => Some (inl e)
        | (inr false, _) => None
        | (inr true, s) => Some (inr (summary config policy workload (SimulatedJob.arrival_time job) elapsed s))
        end
    end.

(** ** Workloads *)

(** The draws for one job. *)
Module Draw.
Record t := mk {
  expovariate : float;
  choice : nat;
  lognormvariate : float;
  randint : Z;
  random : float;
}.
End Draw.

Definition gpu_counts (config : SimulationConfig.t) : list Z :=
  List.filter (fun count => count <=? SimulationConfig.gpus_per_worker config) [1; 2; 4].

Definition generated_job (config : SimulationConfig.t) (job_id : nat) (arrival_time : float) (d : Draw.t) : Job :=
  let gpu_count := default 1 (gpu_counts config !! Draw.choice d) in
  SimulatedJob.mk (Z.of_nat job_id) arrival_time (fmax f1 (Draw.lognormvariate d)) gpu_count (gpu_count * 2000)
    (gpu_count * 8192) (Draw.randint d) (flt (Draw.random d) (SimulationConfig.preemptible_probability config)).

Fixpoint generate_jobs (config : SimulationConfig.t) (job_id : nat) (arrival_time : float) (draws : list Draw.t) : list Job :=
  match draws with
  | [] => []
  | d :: rest =>
      let arrival_time := if (job_id =? 0)%nat then arrival_time else fadd arrival_time (Draw.expovariate d) in
      generated_job config job_id arrival_time d :: generate_jobs config (S job_id) arrival_time rest
  end.

(** One draw per job. *)
Definition generate_workload (config : SimulationConfig.t) (draws : nat -> Draw.t) : list Job :=
  generate_jobs config 0 f0 (draws <$> seq 0 (Z.to_nat (SimulationConfig.job_count config))).

Definition compare_policies (fuel : nat) (elapsed : string -> float) (config : SimulationConfig.t) (policies : list string)
    (draws : nat -> Draw.t) : option (PyError + list SimulationResult.t) :=
  if bool_decide (policies = []) then Some (inl (ValueError "at least one policy is required"))
  else
    let workload := generate_workload config draws in
    (fix go policies :=
       match policies with
       | [] => Some (inr [])
       | policy :: rest =>
           match simulate fuel (elapsed policy) config policy workload with
           | None => None
           | Some (inl e) => Some (inl e)
           | Some (inr r) => match go rest with
                             | Some (inr rs) => Some (inr (r :: rs))
                             | other => other
                             end
           end
       end) policies.
