(* ===== verification/SimulatorProgress.v ===== *)
(** * The simulator completes every job

    The event loop of [Simulator] ends, for every valid workload, with every job
    completed.  The invariant [Inv] follows where each job is and what each
    worker holds.  The measure [todo] decreases with every event and every
    placement: a job weighs [(n + 1) ^ priority], with [n] the number of jobs,
    more while it waits than while it runs, so that a placement weighs off the
    victims it preempts, which have lower priority. *)

From S2P Require Import Prelude PyFloat PyString Enums PyDict Store.
From S2P Require Import Simulator.
From Stdlib Require Import SpecFloat QArith.

#[local] Open Scope stdpp_scope.
#[local] Open Scope Z_scope.

(** ** Runs *)
Lemma bind_gets {S E A B} (f : S -> A) (k : A -> M S E B) s : (gets f ≫= k) s = k (f s) s.
Proof. done. Qed.

Lemma bind_modify {S E B} (f : S -> S) (k : unit -> M S E B) s : (modify f ≫= k) s = k tt (f s).
Proof. done. Qed.

(** ** Floats *)
Lemma isfinite_not_nan x : isfinite x = true -> is_nan x = false.
Proof. by destruct x. Qed.

Lemma isfinite_inf x : isfinite x = negb (isinf x) && negb (is_nan x).
Proof. by destruct x. Qed.

Lemma normalize_not_nan m e s : is_nan (binary_normalize 53 1024 m e s) = false.
Proof.
  destruct m as [|p|p]; cbn; [done|..]; unfold binary_round; destruct (shl_align _ _ _);
    by apply binary_round_aux_not_nan.
Qed.

Lemma fadd_not_nan x y : isfinite x = true -> isfinite y = true -> is_nan (fadd x y) = false.
Proof.
  destruct x as [s| | |s m e], y as [s'| | |s' m' e']; try done; intros _ _; unfold fadd, SFadd; [by destruct s, s'|].
  apply normalize_not_nan.
Qed.

Lemma fle_refl x : is_nan x = false -> fle x x = true.
Proof.
  intros Hx. unfold fle, SFleb. pose proof (cmp_refl x) as E. unfold cmp, Ord_float in E.
  destruct x as [| | |s m e]; cbn in *; try done; try (by destruct s). by rewrite E.
Qed.

(** ** Dictionaries and sums *)
Section lists.
Context {K V : Type} `{EqDecision K}.
Implicit Types (d : dict K V).

Lemma dset_new k v d : k ∉ d.*1 -> dset k v d = d ++ [(k, v)].
Proof.
  induction d as [|[k' v'] d IH]; cbn; [done|]. intros [Hk Hd]%not_elem_of_cons.
  rewrite (proj2 (eqb_false _ _)) by done. by rewrite IH.
Qed.

Lemma ddel_cons k k' v d : ddel k ((k', v) :: d) = if k' == k then ddel k d else (k', v) :: ddel k d.
Proof. unfold ddel. cbn. by destruct (k' == k). Qed.

Lemma ddel_notin k d : k ∉ d.*1 -> ddel k d = d.
Proof.
  induction d as [|[k' v'] d IH]; [done|]. intros [Hk Hd]%not_elem_of_cons. cbn in Hk.
  rewrite ddel_cons, (proj2 (eqb_false _ _)) by done. by rewrite IH.
Qed.

Lemma ddel_perm k v d : NoDup d.*1 -> (k, v) ∈ d -> d ≡ₚ (k, v) :: ddel k d.
Proof.
  induction d as [|[k' v'] d IH]; [by intros _ ?%not_elem_of_nil|]. intros [Hk Hd]%NoDup_cons.
  rewrite ddel_cons. intros [[= -> ->]|Hin]%elem_of_cons.
  - rewrite eqb_same. by rewrite ddel_notin.
  - rewrite (proj2 (eqb_false _ _)).
    + rewrite Permutation_swap. by rewrite <- (IH Hd Hin).
    + intros ->. apply Hk. by apply (list_elem_of_fmap_2 fst) in Hin.
Qed.

Lemma elem_of_ddel k k' v d : (k', v) ∈ ddel k d <-> (k', v) ∈ d /\ k' ≠ k.
Proof. unfold ddel. rewrite elem_of_lfilter. cbn. rewrite negb_true_iff, eqb_false. done. Qed.

(** Replacing the value of a key. *)
Lemma dset_perm k v v' d : NoDup d.*1 -> dget d k = Some v -> exists d0, d ≡ₚ (k, v) :: d0 /\ dset k v' d ≡ₚ (k, v') :: d0.
Proof.
  induction d as [|[k' w] d IH]; cbn; [done|]. intros [Hk Hd]%NoDup_cons. destruct (k' == k) eqn:E.
  - rewrite eqb_true in E. subst. intros [= ->]. by exists d.
  - intros (d0 & H1 & H2)%IH; [|done]. exists ((k', w) :: d0). split; [rewrite H1|rewrite H2]; apply Permutation_swap.
Qed.

Lemma dset_same_keys k v d : k ∈ d.*1 -> (dset k v d).*1 = d.*1.
Proof. intros Hk. rewrite dset_keys. by rewrite (proj2 (inb_true _ _)). Qed.

Lemma elem_dset k k' v v' d : (k', v') ∈ dset k v d -> (k' = k /\ v' = v) \/ (k', v') ∈ d.
Proof.
  induction d as [|[k1 v1] d IH]; cbn; [intros [= -> ->]%list_elem_of_singleton; auto|].
  destruct (k1 == k) eqn:E; intros [[= -> ->]|H]%elem_of_cons.
  - rewrite eqb_true in E. auto.
  - right. by right.
  - right. left.
  - apply IH in H as [?|?]; [auto|right; by right].
Qed.
End lists.

(** A queue grows or shrinks by one entry. *)
Lemma dset_push {K A} `{EqDecision K} k (x : A) q q' (d : dict K (list A)) :
  dget d k = Some q -> q' ≡ₚ x :: q -> concat (dset k q' d).*2 ≡ₚ x :: concat d.*2.
Proof.
  intros Hq Hp. induction d as [|[k1 v1] d IH]; cbn in *; [done|]. destruct (k1 == k); cbn in *.
  - injection Hq as ->. by rewrite Hp.
  - rewrite (IH Hq). by rewrite Permutation_middle.
Qed.

Lemma dset_pop {K A} `{EqDecision K} k (x : A) q (d : dict K (list A)) :
  dget d k = Some (x :: q) -> concat d.*2 ≡ₚ x :: concat (dset k q d).*2.
Proof.
  intros Hq. induction d as [|[k1 v1] d IH]; cbn in *; [done|]. destruct (k1 == k); cbn in *.
  - by injection Hq as ->.
  - rewrite (IH Hq). by rewrite Permutation_middle.
Qed.

(** ** Valid workloads *)
Section validation.
Context (config : SimulationConfig.t).

Record valid_job (j : Job) : Prop := {
  valid_gpus : 1 <= SimulatedJob.gpu_count j <= SimulationConfig.gpus_per_worker config;
  valid_cpu : 0 <= SimulatedJob.cpu_millicores j <= SimulationConfig.worker_cpu_millicores config;
  valid_memory : 0 <= SimulatedJob.memory_mb j <= SimulationConfig.worker_memory_mb config;
  valid_priority : 0 <= SimulatedJob.priority j;
  valid_arrival : isfinite (SimulatedJob.arrival_time j) = true;
  valid_duration : isfinite (SimulatedJob.duration_seconds j) = true;
}.

Lemma validate_step_ok acc j acc' :
  validate_step config acc j = inr acc' ->
  SimulatedJob.id j ∉ acc.2 /\ acc'.2 = {[SimulatedJob.id j]} ∪ acc.2
  /\ 1 <= SimulatedJob.gpu_count j <= SimulationConfig.gpus_per_worker config
  /\ SimulatedJob.cpu_millicores j <= SimulationConfig.worker_cpu_millicores config
  /\ SimulatedJob.memory_mb j <= SimulationConfig.worker_memory_mb config /\ 0 <= SimulatedJob.priority j.
Proof.
  unfold validate_step. destruct acc as [t ids]. case_bool_decide as Hid; [done|].
  destruct (flt _ _); [done|]. destruct (negb _) eqn:E1; [done|]. destruct (_ <? _) eqn:E2; [done|].
  destruct (SimulationConfig.worker_memory_mb config <? _) eqn:E3; [done|]. destruct (fle _ _); [done|].
  destruct (negb (_ && (_ <=? 100))) eqn:E4; [done|]. intros [= <-]. cbn.
  apply negb_false_iff, andb_true_iff in E1, E4. split_and!; try done; lia.
Qed.

Lemma validate_jobs_ok l acc :
  validate_jobs config acc l = None ->
  NoDup (SimulatedJob.id <$> l) /\ (forall j, j ∈ l -> SimulatedJob.id j ∉ acc.2)
  /\ forall j, j ∈ l -> 1 <= SimulatedJob.gpu_count j <= SimulationConfig.gpus_per_worker config
       /\ SimulatedJob.cpu_millicores j <= SimulationConfig.worker_cpu_millicores config
       /\ SimulatedJob.memory_mb j <= SimulationConfig.worker_memory_mb config /\ 0 <= SimulatedJob.priority j.
Proof.
  revert acc. induction l as [|j l IH]; intros acc; cbn.
  { intros _. split_and!; [constructor|by intros ? ?%not_elem_of_nil..]. }
  destruct (validate_step config acc j) as [e|acc'] eqn:E; [done|]. intros (Hnd & Hfresh & Hl)%IH.
  apply validate_step_ok in E as (Hj & Eacc & Hb). rewrite Eacc in Hfresh. split_and!.
  - constructor; [|done]. intros (x & Ex & Hx)%list_elem_of_fmap. apply (Hfresh x Hx). set_solver.
  - intros x [->|Hx]%elem_of_cons; [done|]. intros H. apply (Hfresh x Hx). set_solver.
  - intros x [->|Hx]%elem_of_cons; [done|by apply Hl].
Qed.

End validation.

Section simulation.
Context (config : SimulationConfig.t) (policy : string) (jobs : list Job).
Hypothesis (Hconfig : SimulationConfig.post_init config = None) (Hworkload : _validate_workload config jobs = None).
Hypothesis (Hfinite : Forall (fun j => isfinite (SimulatedJob.arrival_time j) = true /\
  isfinite (SimulatedJob.duration_seconds j) = true /\ 0 <= SimulatedJob.cpu_millicores j /\ 0 <= SimulatedJob.memory_mb j) jobs).

Lemma config_bounds :
  1 <= SimulationConfig.worker_count config /\ 1 <= SimulationConfig.gpus_per_worker config
  /\ 1 <= SimulationConfig.worker_concurrency config /\ 1 <= SimulationConfig.preemption_min_priority_delta config
  /\ 1 <= SimulationConfig.worker_cpu_millicores config /\ 1 <= SimulationConfig.worker_memory_mb config.
Proof.
  pose proof Hconfig as H. unfold SimulationConfig.post_init in H. repeat case_match; try done. clear H.
  repeat match goal with H : negb _ = false |- _ => apply negb_false_iff in H; apply andb_true_iff in H as [? ?] end. lia.
Qed.

Lemma jobs_nodup : NoDup (SimulatedJob.id <$> jobs).
Proof.
  pose proof Hworkload as H. unfold _validate_workload in H. case_bool_decide; [done|]. destruct (negb _); [done|].
  by apply validate_jobs_ok in H as (? & _).
Qed.

Lemma jobs_valid j : j ∈ jobs -> valid_job config j.
Proof.
  intros Hj. pose proof Hworkload as H. unfold _validate_workload in H. case_bool_decide; [done|].
  destruct (negb _); [done|]. apply validate_jobs_ok in H as (_ & _ & H). destruct (H j Hj) as (? & ? & ? & ?).
  rewrite Forall_forall in Hfinite. destruct (Hfinite j Hj) as (? & ? & ? & ?). by split.
Qed.

(** ** The invariant of the loop *)
Definition pend (s : Sim.t) : list Job := snd <$> concat (Sim.pending s).*2.
Definition running (s : Sim.t) : list Job := (fun e => _RunningAttempt.job e.2) <$> Sim.active_attempts s.

(** What the running attempts on worker [i] hold. *)
Definition held (f : Job -> Z) (i : nat) (active : dict Z Attempt) : Z :=
  zsum (fun e => if (_RunningAttempt.worker_index e.2 =? i)%nat then f (_RunningAttempt.job e.2) else 0) active.

(** The counters of a worker are the totals of its attempts and within its
    capacity. *)
Record worker_ok (active : dict Z Attempt) (i : nat) (w : WorkerState) : Prop := {
  cap_gpus : _WorkerState.gpu_capacity w = SimulationConfig.gpus_per_worker config;
  cap_cpu : _WorkerState.cpu_capacity w = SimulationConfig.worker_cpu_millicores config;
  cap_memory : _WorkerState.memory_capacity w = SimulationConfig.worker_memory_mb config;
  cap_jobs : _WorkerState.concurrency w = SimulationConfig.worker_concurrency config;
  used_gpus : _WorkerState.allocated_gpus w = held SimulatedJob.gpu_count i active;
  used_cpu : _WorkerState.allocated_cpu_millicores w = held SimulatedJob.cpu_millicores i active;
  used_memory : _WorkerState.allocated_memory_mb w = held SimulatedJob.memory_mb i active;
  used_jobs : _WorkerState.running_jobs w = held (fun _ => 1) i active;
  fit_gpus : _WorkerState.allocated_gpus w <= _WorkerState.gpu_capacity w;
  fit_cpu : _WorkerState.allocated_cpu_millicores w <= _WorkerState.cpu_capacity w;
  fit_memory : _WorkerState.allocated_memory_mb w <= _WorkerState.memory_capacity w;
  fit_jobs : _WorkerState.running_jobs w <= _WorkerState.concurrency w;
}.

Record Inv (s : Sim.t) (finished : list Job) : Prop := {
  inv_jobs : jobs ≡ₚ finished ++ drop (Sim.arrival_index s) jobs ++ pend s ++ running s;
  inv_finished : Sim.completed_jobs s = lenZ finished;
  inv_keys : (Sim.pending s).*1 = Z.of_nat <$> seq 1 (Z.to_nat (SimulationConfig.gpus_per_worker config));
  inv_queues : forall k q, (k, q) ∈ Sim.pending s -> forall e, e ∈ q -> e = _pending_entry e.2 /\ SimulatedJob.gpu_count e.2 = k;
  inv_active : forall k a, (k, a) ∈ Sim.active_attempts s ->
    k = SimulatedJob.id (_RunningAttempt.job a)
    /\ (exists w, Sim.workers s !! _RunningAttempt.worker_index a = Some w)
    /\ exists t, (t, (_RunningAttempt.serial a, k)) ∈ Sim.completions s;
  inv_heap : forall c, c ∈ Sim.completions s ->
    exists t j, j ∈ jobs /\ isfinite t = true /\ c.1 = fadd t (SimulatedJob.duration_seconds j);
  inv_workers : forall i w, Sim.workers s !! i = Some w -> worker_ok (Sim.active_attempts s) i w;
  inv_some_worker : (0 < length (Sim.workers s))%nat;
  inv_now : isfinite (Sim.now s) = true;
}.

(** Placements are completed, preempted or running; [k] evictions are not yet
    counted. *)
Definition counted (k : Z) (s : Sim.t) : Prop :=
  Sim.placements s = Sim.completed_jobs s + Sim.preemptions s + k + lenZ (Sim.active_attempts s)
  /\ (SimulationConfig.preemption_enabled config = false -> Sim.preemptions s = 0).

Definition Ok (s : Sim.t) : Prop := exists finished, Inv s finished /\ counted 0 s.

(** ** The measure *)
Definition weight (j : Job) : Z := (lenZ jobs + 1) ^ SimulatedJob.priority j.
Definition work (s : Sim.t) : Z :=
  3 * zsum weight (drop (Sim.arrival_index s) jobs) + 2 * zsum weight (pend s) + zsum weight (running s).
Definition todo (s : Sim.t) : Z := 2 * work s + lenZ (Sim.completions s).

(** ** Facts of the invariant *)
Lemma inv_elem s fin j : Inv s fin -> j ∈ running s \/ j ∈ pend s -> j ∈ jobs.
Proof. intros HI Hj. rewrite (inv_jobs _ _ HI). rewrite !elem_of_app. tauto. Qed.

Lemma active_elem s fin k a : Inv s fin -> (k, a) ∈ Sim.active_attempts s -> _RunningAttempt.job a ∈ jobs.
Proof. intros HI Ha. eapply inv_elem; [done|]. left. apply list_elem_of_fmap. by exists (k, a). Qed.

Lemma active_keys s fin : Inv s fin -> (Sim.active_attempts s).*1 = SimulatedJob.id <$> running s.
Proof.
  intros HI. unfold running. rewrite <- list_fmap_compose. apply list_fmap_ext. intros i [k a] Hi.
  apply list_elem_of_lookup_2 in Hi. by destruct (inv_active _ _ HI _ _ Hi) as [-> _].
Qed.

Lemma ids_nodup s fin : Inv s fin ->
  NoDup (SimulatedJob.id <$> (fin ++ drop (Sim.arrival_index s) jobs ++ pend s ++ running s)).
Proof. intros HI. rewrite <- (inv_jobs _ _ HI). apply jobs_nodup. Qed.

Lemma active_nodup s fin : Inv s fin -> NoDup (Sim.active_attempts s).*1.
Proof.
  intros HI. rewrite (active_keys _ _ HI). pose proof (ids_nodup _ _ HI) as H. rewrite !fmap_app in H.
  apply NoDup_app in H as (_ & _ & H). apply NoDup_app in H as (_ & _ & H). by apply NoDup_app in H as (_ & _ & ?).
Qed.

Lemma pending_not_active s fin j : Inv s fin -> j ∈ pend s -> SimulatedJob.id j ∉ (Sim.active_attempts s).*1.
Proof.
  intros HI Hj. rewrite (active_keys _ _ HI). pose proof (ids_nodup _ _ HI) as H. rewrite !fmap_app in H.
  apply NoDup_app in H as (_ & _ & H). apply NoDup_app in H as (_ & _ & H). apply NoDup_app in H as (_ & H & _).
  apply H. by apply list_elem_of_fmap_2.
Qed.

Lemma held_ddel f i k a active :
  NoDup active.*1 -> (k, a) ∈ active ->
  held f i active = (if (_RunningAttempt.worker_index a =? i)%nat then f (_RunningAttempt.job a) else 0)
                    + held f i (ddel k active).
Proof. intros Hn Ha. unfold held. by rewrite (zsum_perm _ _ _ (ddel_perm _ _ _ Hn Ha)), zsum_cons. Qed.

Lemma held_snoc f i k a active :
  held f i (active ++ [(k, a)])
  = held f i active + (if (_RunningAttempt.worker_index a =? i)%nat then f (_RunningAttempt.job a) else 0).
Proof. unfold held. rewrite zsum_app. cbn. lia. Qed.

Lemma held_nonneg f i active :
  (forall e, e ∈ active -> 0 <= f (_RunningAttempt.job e.2)) -> 0 <= held f i active.
Proof. intros H. apply zsum_nonneg. intros e He. specialize (H e He). destruct (_ =? i)%nat; lia. Qed.

Lemma queue_of s fin j : Inv s fin -> j ∈ jobs -> exists q, dget (Sim.pending s) (SimulatedJob.gpu_count j) = Some q.
Proof.
  intros HI Hj. destruct (dget _ _) as [q|] eqn:E; [eauto|]. apply dget_None in E. exfalso. apply E.
  rewrite (inv_keys _ _ HI). pose proof (valid_gpus _ _ (jobs_valid _ Hj)).
  apply list_elem_of_fmap. exists (Z.to_nat (SimulatedJob.gpu_count j)). split; [lia|]. apply elem_of_seq. lia.
Qed.

(** ** Releasing an attempt *)
Lemma released_nonneg s fin k a f :
  Inv s fin -> (k, a) ∈ Sim.active_attempts s -> (forall j, j ∈ jobs -> 0 <= f j) ->
  f (_RunningAttempt.job a) <= held f (_RunningAttempt.worker_index a) (Sim.active_attempts s).
Proof.
  intros HI Ha Hf. rewrite (held_ddel _ _ _ _ _ (active_nodup _ _ HI) Ha), Nat.eqb_refl.
  assert (0 <= held f (_RunningAttempt.worker_index a) (ddel k (Sim.active_attempts s))); [|lia].
  apply held_nonneg. intros [k' a'] [He _]%elem_of_ddel. by apply Hf, (active_elem _ _ _ _ HI He).
Qed.

Lemma attempt_released s fin k a s1 :
  Inv s fin -> (k, a) ∈ Sim.active_attempts s -> Sim.workers s1 = Sim.workers s ->
  exists w, Sim.workers s !! _RunningAttempt.worker_index a = Some w
    /\ _release_attempt a s1 = (inr tt, s1 <| Sim.workers ::= <[_RunningAttempt.worker_index a := worker_freed (_RunningAttempt.job a) w]> |>).
Proof.
  intros HI Ha E1. destruct (inv_active _ _ HI _ _ Ha) as (_ & [w Hw] & _). exists w. split; [done|].
  unfold _release_attempt, get_worker_state, put_worker_state, gets, modify, mbind, M_bind, mret, M_ret. rewrite E1, Hw.
  destruct (inv_workers _ _ HI _ _ Hw) as [_ _ _ _ Eg Ec Em Ej _ _ _ _].
  pose proof (released_nonneg s fin k a SimulatedJob.gpu_count HI Ha ltac:(intros j Hj; pose proof (valid_gpus _ _ (jobs_valid _ Hj)); lia)).
  pose proof (released_nonneg s fin k a SimulatedJob.cpu_millicores HI Ha ltac:(intros j Hj; pose proof (valid_cpu _ _ (jobs_valid _ Hj)); lia)).
  pose proof (released_nonneg s fin k a SimulatedJob.memory_mb HI Ha ltac:(intros j Hj; pose proof (valid_memory _ _ (jobs_valid _ Hj)); lia)).
  pose proof (released_nonneg s fin k a (fun _ => 1) HI Ha ltac:(lia)). cbv beta in *.
  unfold raise_if. destruct (_ || _) eqn:E; [|done]. exfalso. rewrite !orb_true_iff in E. unfold worker_freed in E. fields in E. lia.
Qed.

Lemma freed_ok s fin k a w i w' :
  Inv s fin -> (k, a) ∈ Sim.active_attempts s -> Sim.workers s !! _RunningAttempt.worker_index a = Some w ->
  <[_RunningAttempt.worker_index a := worker_freed (_RunningAttempt.job a) w]> (Sim.workers s) !! i = Some w' ->
  worker_ok (ddel k (Sim.active_attempts s)) i w'.
Proof.
  intros HI Ha Hw. pose proof (active_nodup _ _ HI) as Hn. pose proof (jobs_valid _ (active_elem _ _ _ _ HI Ha)) as [Vg Vc Vm _ _ _].
  destruct (decide (_RunningAttempt.worker_index a = i)) as [<-|Hi].
  - rewrite list_lookup_insert_eq by (by eapply lookup_lt_Some). intros [= <-].
    destruct (inv_workers _ _ HI _ _ Hw) as [C1 C2 C3 C4 U1 U2 U3 U4 F1 F2 F3 F4].
    rewrite (held_ddel _ _ _ _ _ Hn Ha), Nat.eqb_refl in U1. rewrite (held_ddel _ _ _ _ _ Hn Ha), Nat.eqb_refl in U2.
    rewrite (held_ddel _ _ _ _ _ Hn Ha), Nat.eqb_refl in U3. rewrite (held_ddel _ _ _ _ _ Hn Ha), Nat.eqb_refl in U4.
    split; unfold worker_freed; fields; lia.
  - rewrite list_lookup_insert_ne by done. intros Hw'.
    destruct (inv_workers _ _ HI _ _ Hw') as [C1 C2 C3 C4 U1 U2 U3 U4 F1 F2 F3 F4].
    apply Nat.eqb_neq in Hi. rewrite (held_ddel _ _ _ _ _ Hn Ha), Hi in U1. rewrite (held_ddel _ _ _ _ _ Hn Ha), Hi in U2.
    rewrite (held_ddel _ _ _ _ _ Hn Ha), Hi in U3. rewrite (held_ddel _ _ _ _ _ Hn Ha), Hi in U4. split; first [done|lia].
Qed.
(** ** Evicting a victim *)

(** The job is the first of its queue. *)
Definition queue_head (s : Sim.t) (j : Job) : Prop :=
  exists rest, dget (Sim.pending s) (SimulatedJob.gpu_count j) = Some (_pending_entry j :: rest).

(** What an eviction leaves alone. *)
Definition kept (s s' : Sim.t) : Prop :=
  Sim.completions s' = Sim.completions s /\ Sim.placements s' = Sim.placements s
  /\ Sim.preemptions s' = Sim.preemptions s /\ Sim.completed_jobs s' = Sim.completed_jobs s
  /\ Sim.arrival_index s' = Sim.arrival_index s /\ Sim.now s' = Sim.now s.

Lemma kept_trans s1 s2 s3 : kept s1 s2 -> kept s2 s3 -> kept s1 s3.
Proof. intros (? & ? & ? & ? & ? & ?) (? & ? & ? & ? & ? & ?). split_and!; congruence. Qed.

Lemma pushed_queues s fin j q :
  Inv s fin -> dget (Sim.pending s) (SimulatedJob.gpu_count j) = Some q ->
  let pending := dset (SimulatedJob.gpu_count j) (heappush fst (_pending_entry j) q) (Sim.pending s) in
  pending.*1 = (Sim.pending s).*1 /\ snd <$> concat pending.*2 ≡ₚ j :: pend s
  /\ forall k q', (k, q') ∈ pending -> forall e, e ∈ q' -> e = _pending_entry e.2 /\ SimulatedJob.gpu_count e.2 = k.
Proof.
  intros HI Hq pending. split_and!.
  - apply dset_same_keys. apply dget_elem in Hq. by apply (list_elem_of_fmap_2 fst) in Hq.
  - unfold pending, heappush. rewrite (dset_push _ _ _ _ _ Hq (sort_insert_perm fst _ _)). done.
  - intros k q' [[-> ->]|Hin]%elem_dset e He; [|by eapply (inv_queues _ _ HI)].
    unfold heappush in He. rewrite sort_insert_perm in He. apply elem_of_cons in He as [->|He]; [done|].
    apply dget_elem in Hq. by eapply (inv_queues _ _ HI).
Qed.

(** A job of lower priority does not overtake the head of a queue. *)
Lemma pushed_head s j v q :
  queue_head s j -> SimulatedJob.priority v < SimulatedJob.priority j ->
  dget (Sim.pending s) (SimulatedJob.gpu_count v) = Some q ->
  exists rest, dget (dset (SimulatedJob.gpu_count v) (heappush fst (_pending_entry v) q) (Sim.pending s))
                 (SimulatedJob.gpu_count j) = Some (_pending_entry j :: rest).
Proof.
  intros [rest Hj] Hp Hq. rewrite dget_dset. destruct (_ == _) eqn:E; [|eauto]. rewrite eqb_true in E.
  rewrite E, Hj in Hq. injection Hq as <-. unfold heappush. cbn. unfold cmp at 1, Ord_prod, cmp at 1, Ord_Z. cbn.
  rewrite (proj2 (Z.compare_gt_iff _ _)) by lia. eauto.
Qed.

Lemma evict_ok s fin j k v :
  Inv s fin -> (k, v) ∈ Sim.active_attempts s -> queue_head s j ->
  SimulatedJob.priority (_RunningAttempt.job v) < SimulatedJob.priority j ->
  exists w s', Sim.workers s !! _RunningAttempt.worker_index v = Some w /\ evict v s = (inr tt, s')
    /\ Inv s' fin /\ queue_head s' j /\ kept s s'
    /\ Sim.workers s' = <[_RunningAttempt.worker_index v := worker_freed (_RunningAttempt.job v) w]> (Sim.workers s)
    /\ Sim.active_attempts s' = ddel k (Sim.active_attempts s) /\ pend s' ≡ₚ _RunningAttempt.job v :: pend s.
Proof.
  intros HI Hv Hj Hp. destruct (attempt_released _ _ _ _ s HI Hv eq_refl) as (w & Hw & Hrel).
  destruct (inv_active _ _ HI _ _ Hv) as [Ek _]. pose proof (active_elem _ _ _ _ HI Hv) as Hin.
  destruct (queue_of _ _ _ HI Hin) as [q Hq]. destruct (pushed_queues _ _ _ _ HI Hq) as (Hkeys & Hpend & Hqs).
  pose proof (pushed_head _ _ _ _ Hj Hp Hq) as Hhead.
  eexists w, _. split_and!; [done|..].
  { unfold evict. rewrite (bind_run _ _ _ _ _ Hrel). unfold push_pending, modify, gets, mbind, M_bind. fields. rewrite Hq. reflexivity. }
  all: unfold pend, queue_head, kept; fields; try done.
  2:{ by rewrite Ek. }
  pose proof (ddel_perm _ _ _ (active_nodup _ _ HI) Hv) as Hperm. rewrite <- Ek.
  split; unfold pend, running; fields.
  - rewrite (inv_jobs _ _ HI) at 1. rewrite Hpend. unfold running. rewrite Hperm at 1. cbn. by rewrite <- Permutation_middle.
  - apply (inv_finished _ _ HI).
  - rewrite <- (inv_keys _ _ HI). exact Hkeys.
  - done.
  - intros k' a' [Ha' _]%elem_of_ddel. destruct (inv_active _ _ HI _ _ Ha') as (E & [w' Hw'] & Ht). split_and!; [done| |done].
    destruct (decide (_RunningAttempt.worker_index v = _RunningAttempt.worker_index a')) as [<-|Hne].
    + eexists. apply list_lookup_insert_eq. by eapply lookup_lt_Some.
    + exists w'. by rewrite list_lookup_insert_ne.
  - apply (inv_heap _ _ HI).
  - intros i w'. by eapply freed_ok.
  - rewrite length_insert. apply (inv_some_worker _ _ HI).
  - apply (inv_now _ _ HI).
Qed.
Notation attempt_id a := (SimulatedJob.id (_RunningAttempt.job a)).

(** All victims of a plan are on one worker, whose capacity they give back. *)
Lemma evict_all_ok fin j i vs s w :
  Inv s fin -> NoDup ((fun v => attempt_id v) <$> vs) ->
  (forall v, v ∈ vs -> (attempt_id v, v) ∈ Sim.active_attempts s /\ _RunningAttempt.worker_index v = i
     /\ SimulatedJob.priority (_RunningAttempt.job v) < SimulatedJob.priority j) ->
  Sim.workers s !! i = Some w -> queue_head s j ->
  exists s' w', for_each vs evict s = (inr tt, s') /\ Inv s' fin /\ queue_head s' j /\ kept s s'
    /\ Sim.workers s' !! i = Some w'
    /\ _WorkerState.allocated_gpus w' = _WorkerState.allocated_gpus w - zsum (fun v => SimulatedJob.gpu_count (_RunningAttempt.job v)) vs
    /\ _WorkerState.allocated_cpu_millicores w'
       = _WorkerState.allocated_cpu_millicores w - zsum (fun v => SimulatedJob.cpu_millicores (_RunningAttempt.job v)) vs
    /\ _WorkerState.allocated_memory_mb w'
       = _WorkerState.allocated_memory_mb w - zsum (fun v => SimulatedJob.memory_mb (_RunningAttempt.job v)) vs
    /\ _WorkerState.running_jobs w' = _WorkerState.running_jobs w - lenZ vs
    /\ pend s' ≡ₚ (_RunningAttempt.job <$> vs) ++ pend s
    /\ Sim.active_attempts s ≡ₚ ((fun v => (attempt_id v, v)) <$> vs) ++ Sim.active_attempts s'.
Proof.
  revert s w. induction vs as [|v vs IH]; intros s w HI Hnd Hvs Hw Hj.
  { exists s, w. unfold lenZ, kept. cbn. split_and!; try done; lia. }
  rewrite fmap_cons in Hnd. apply NoDup_cons in Hnd as [Hv Hnd]. destruct (Hvs v ltac:(left)) as (Hin & Hi & Hp).
  destruct (evict_ok _ _ _ _ _ HI Hin Hj Hp) as (w1 & s1 & Hw1 & E1 & HI1 & Hj1 & K1 & EW & EA & EP).
  rewrite Hi in *. rewrite Hw in Hw1. injection Hw1 as <-.
  assert (Sim.workers s1 !! i = Some (worker_freed (_RunningAttempt.job v) w)) as Hw1.
  { rewrite EW. apply list_lookup_insert_eq. by eapply lookup_lt_Some. }
  destruct (IH s1 (worker_freed (_RunningAttempt.job v) w) HI1 Hnd) as (s' & w' & E' & HI' & Hj' & K' & Hw' & G1 & G2 & G3 & G4 & P' & A'); [|done|done|].
  { intros v' Hv'. destruct (Hvs v' ltac:(by right)) as (? & ? & ?). split_and!; [|done|done].
    rewrite EA. apply elem_of_ddel. split; [done|]. intros E. apply Hv. rewrite <- E. apply list_elem_of_fmap. eauto. }
  exists s', w'. split_and!; try done.
  - cbn. by rewrite (bind_run _ _ _ _ _ E1).
  - by eapply kept_trans.
  - rewrite G1. unfold worker_freed. fields. rewrite zsum_cons. lia.
  - rewrite G2. unfold worker_freed. fields. rewrite zsum_cons. lia.
  - rewrite G3. unfold worker_freed. fields. rewrite zsum_cons. lia.
  - rewrite G4. unfold worker_freed, lenZ. fields. cbn [List.length]. lia.
  - rewrite P', EP. cbn. by rewrite <- Permutation_middle.
  - rewrite (ddel_perm _ _ _ (active_nodup _ _ HI) Hin). cbn. rewrite <- EA. by rewrite <- A'.
Qed.

(** ** Finding a worker *)
Lemma gather_ok w incoming acc g c m el vs :
  gather w incoming acc g c m el = Some vs ->
  exists l rest, el = l ++ rest /\ vs = acc ++ l
    /\ _can_fit_after_preemption w incoming (lenZ vs)
         (g + zsum (fun v => SimulatedJob.gpu_count (_RunningAttempt.job v)) l)
         (c + zsum (fun v => SimulatedJob.cpu_millicores (_RunningAttempt.job v)) l)
         (m + zsum (fun v => SimulatedJob.memory_mb (_RunningAttempt.job v)) l) = true.
Proof.
  revert acc g c m. induction el as [|v el IH]; intros acc g c m; cbn; [done|].
  destruct (_can_fit_after_preemption _ _ _ _ _ _) eqn:E.
  - intros [= <-]. exists [v], el. cbn. rewrite !Z.add_0_r. done.
  - intros (l & rest & -> & -> & H)%IH. exists (v :: l), rest. rewrite <- app_assoc in *. cbn in *.
    rewrite !Z.add_assoc. done.
Qed.

Lemma select_worker_ok workers j i :
  _select_worker workers j policy = Some i -> exists w, workers !! i = Some w /\ fits j w = true.
Proof.
  unfold _select_worker. set (l := List.filter _ _). destruct (py_sort _ l) as [|[i' w] rest] eqn:E; [done|]. intros [= ->].
  destruct (py_sort_head_min _ _ _ _ E) as [Hin _]. apply elem_of_lfilter in Hin as [Hin Hf].
  apply elem_of_lookup_imap in Hin as (i' & w' & [= -> ->] & Hw). eauto.
Qed.

Lemma select_worker_none workers j i w :
  _select_worker workers j policy = None -> workers !! i = Some w -> fits j w = false.
Proof.
  unfold _select_worker. set (l := List.filter _ _). destruct (py_sort _ l) as [|e rest] eqn:E; [|done]. intros _ Hw.
  apply py_sort_nil in E. unfold l in E. rewrite lfilter_nil in E. apply (E (i, w)).
  apply elem_of_lookup_imap. eauto.
Qed.

Lemma preemption_plan_ok workers active j delta i vs :
  _select_preemption_plan workers active j delta = Some (i, vs) ->
  exists w, workers !! i = Some w /\ gather w j [] 0 0 0 (eligible_victims active i j delta) = Some vs.
Proof.
  unfold _select_preemption_plan. set (l := omap _ _). destruct (py_sort fst l) as [|[sc p] rest] eqn:E; [done|]. intros [= ->].
  destruct (py_sort_head_min _ _ _ _ E) as [Hin _]. unfold l in Hin. apply list_elem_of_omap in Hin as ([i' w] & Hin & H).
  apply elem_of_lookup_imap in Hin as (i1 & w1 & [= <- <-] & Hw). cbn in H.
  destruct (gather _ _ _ _ _ _ _) as [vs'|] eqn:G; [|done]. cbn in H. injection H as _ <- <-. eauto.
Qed.

Lemma eligible_victim active i j delta v :
  v ∈ eligible_victims active i j delta ->
  (exists k, (k, v) ∈ active) /\ _RunningAttempt.worker_index v = i
  /\ delta <= SimulatedJob.priority j - SimulatedJob.priority (_RunningAttempt.job v).
Proof.
  unfold eligible_victims. rewrite elem_of_py_sort, elem_of_lfilter, !andb_true_iff, eqb_true.
  intros [Hin [[Hi _] Hp]]. apply list_elem_of_fmap in Hin as ([k a] & -> & Hin). split_and!; [by exists k|done|lia].
Qed.

(** The victims together weigh less than the job. *)
Lemma weight_pos j : j ∈ jobs -> 0 < weight j.
Proof. intros Hj. unfold weight. apply Z.pow_pos_nonneg; [unfold lenZ; lia|apply (valid_priority _ _ (jobs_valid _ Hj))]. Qed.

Lemma victims_weight j l :
  j ∈ jobs -> (forall v, v ∈ l -> v ∈ jobs /\ SimulatedJob.priority v < SimulatedJob.priority j) ->
  lenZ l <= lenZ jobs -> zsum weight l < weight j.
Proof.
  intros Hj Hl Hn. destruct l as [|v0 l']; [by apply weight_pos|]. set (l := v0 :: l') in *.
  assert (0 < SimulatedJob.priority j) as Hp.
  { destruct (Hl v0 ltac:(left)) as [Hv ?]. pose proof (valid_priority _ _ (jobs_valid _ Hv)). lia. }
  set (b := (lenZ jobs + 1) ^ (SimulatedJob.priority j - 1)).
  assert (weight j = (lenZ jobs + 1) * b) as Ew.
  { unfold weight, b. rewrite <- Z.pow_succ_r by lia. f_equal. lia. }
  assert (0 < b) as Hb by (apply Z.pow_pos_nonneg; unfold lenZ; lia).
  assert (zsum weight l <= b * lenZ l) as Hs.
  { rewrite <- zsum_const. apply zsum_le. intros v Hv. destruct (Hl v Hv) as [Hvj Hlt].
    unfold weight, b. apply Z.pow_le_mono_r; [unfold lenZ; lia|lia]. }
  nia.
Qed.
(** The victims of a plan: running attempts of lower priority on worker [i]. *)
Lemma plan_victims s fin j i l rest :
  Inv s fin -> eligible_victims (Sim.active_attempts s) i j (SimulationConfig.preemption_min_priority_delta config) = l ++ rest ->
  NoDup ((fun v => attempt_id v) <$> l)
  /\ forall v, v ∈ l -> (attempt_id v, v) ∈ Sim.active_attempts s /\ _RunningAttempt.worker_index v = i
       /\ SimulatedJob.priority (_RunningAttempt.job v) < SimulatedJob.priority j.
Proof.
  intros HI El. split.
  - assert (NoDup ((fun v => attempt_id v) <$> l ++ rest)) as H; [|rewrite fmap_app in H; by apply NoDup_app in H as [? _]].
    rewrite <- El. unfold eligible_victims. rewrite py_sort_perm. apply lfilter_fmap_nodup.
    rewrite <- list_fmap_compose. pose proof (active_nodup _ _ HI) as Hn. rewrite (active_keys _ _ HI) in Hn.
    unfold running in Hn. by rewrite <- list_fmap_compose in Hn.
  - intros v Hv. assert (v ∈ l ++ rest) as Hin by (apply elem_of_app; by left). rewrite <- El in Hin.
    apply eligible_victim in Hin as ([k Hk] & Hi & Hp). pose proof config_bounds as (_ & _ & _ & ? & _).
    destruct (inv_active _ _ HI _ _ Hk) as [-> _]. split_and!; [done|done|lia].
Qed.

Lemma running_work s s' fin vs :
  Inv s fin -> kept s s' -> pend s' ≡ₚ (_RunningAttempt.job <$> vs) ++ pend s ->
  Sim.active_attempts s ≡ₚ ((fun v => (attempt_id v, v)) <$> vs) ++ Sim.active_attempts s' ->
  work s' = work s + zsum weight (_RunningAttempt.job <$> vs)
  /\ lenZ (Sim.active_attempts s) = lenZ vs + lenZ (Sim.active_attempts s') /\ lenZ vs <= lenZ jobs.
Proof.
  intros HI (_ & _ & _ & _ & Ei & _) EP EA. split_and!.
  - unfold work, running. rewrite Ei, (zsum_perm _ _ _ EP), zsum_app, !zsum_fmap.
    rewrite (zsum_perm _ _ _ EA), zsum_app, zsum_fmap. cbn. lia.
  - unfold lenZ. rewrite (Permutation_length EA), length_app, length_fmap. lia.
  - unfold lenZ. rewrite (Permutation_length (inv_jobs _ _ HI)). unfold running. rewrite !length_app, length_fmap.
    rewrite (Permutation_length EA), length_app, length_fmap. lia.
Qed.

Lemma find_worker_ok s fin j :
  Inv s fin -> counted 0 s -> j ∈ jobs -> queue_head s j ->
  exists o s', find_worker config policy j s = (inr o, s')
    /\ match o with
       | None => s' = s /\ forall i w, Sim.workers s !! i = Some w -> fits j w = false
       | Some i => Inv s' fin /\ counted 0 s' /\ queue_head s' j
                   /\ (exists w, Sim.workers s' !! i = Some w /\ fits j w = true)
                   /\ Sim.completions s' = Sim.completions s /\ work s' < work s + weight j
       end.
Proof.
  intros HI Hc Hj Hq. unfold find_worker. rewrite bind_gets.
  destruct (_select_worker (Sim.workers s) j policy) as [i|] eqn:Es.
  { exists (Some i), s. split; [done|]. pose proof (weight_pos _ Hj). split_and!; try done; [by apply select_worker_ok|lia]. }
  destruct (SimulationConfig.preemption_enabled config) eqn:Ep; [|exists None, s; eauto using select_worker_none].
  rewrite bind_gets.
  destruct (_select_preemption_plan _ _ _ _) as [[i vs]|] eqn:Eplan; [|exists None, s; eauto using select_worker_none].
  apply preemption_plan_ok in Eplan as (w & Hw & Hg). apply gather_ok in Hg as (l & rest & El & -> & Hfit). cbn [app] in *.
  destruct (plan_victims _ _ _ _ _ _ HI El) as [Hnd Hl].
  destruct (evict_all_ok fin j i l s w HI Hnd Hl Hw Hq) as (s' & w' & E & HI' & Hq' & K & Hw' & G1 & G2 & G3 & G4 & EP & EA).
  destruct (running_work _ _ _ _ HI K EP EA) as (Ework & Elen & Hn). pose proof K as (Kc & Kp & Kr & Kd & Ki & Kn).
  eexists (Some i), _. rewrite (bind_run _ _ _ _ _ E), bind_modify. split; [reflexivity|].
  split_and!; fields.
  - destruct HI'. by split.
  - destruct Hc as [Hc _]. split; fields; [lia|congruence].
  - done.
  - exists w'. split; [done|]. destruct (inv_workers _ _ HI _ _ Hw), (inv_workers _ _ HI' _ _ Hw').
    unfold _can_fit_after_preemption in Hfit. rewrite !andb_true_iff in Hfit. unfold fits, _WorkerState.free_gpus.
    apply negb_true_iff. rewrite !orb_false_iff. lia.
  - done.
  - assert (zsum weight (_RunningAttempt.job <$> l) < weight j) as Hlt.
    { apply victims_weight; [done| |unfold lenZ; rewrite length_fmap; exact Hn]. intros v (a & -> & Ha)%list_elem_of_fmap.
      destruct (Hl a Ha) as (Hin & _ & ?). split; [exact (active_elem _ _ _ _ HI Hin)|done]. }
    unfold work, pend, running in *. fields. lia.
Qed.
(** ** Starting a job *)
Lemma start_run s j i w rest :
  dget (Sim.pending s) (SimulatedJob.gpu_count j) = Some (_pending_entry j :: rest) -> Sim.workers s !! i = Some w ->
  exists s', start j i s = (inr tt, s')
    /\ Sim.workers s' = <[i := worker_taken j w]> (Sim.workers s)
    /\ Sim.pending s' = dset (SimulatedJob.gpu_count j) rest (Sim.pending s)
    /\ Sim.active_attempts s'
       = dset (SimulatedJob.id j) (_RunningAttempt.mk (Z.succ (Sim.completion_serial s)) i j (Sim.now s)) (Sim.active_attempts s)
    /\ Sim.completions s' = heappush (fun c => c) (fadd (Sim.now s) (SimulatedJob.duration_seconds j),
         (Z.succ (Sim.completion_serial s), SimulatedJob.id j)) (Sim.completions s)
    /\ Sim.placements s' = Z.succ (Sim.placements s) /\ Sim.preemptions s' = Sim.preemptions s
    /\ Sim.completed_jobs s' = Sim.completed_jobs s /\ Sim.arrival_index s' = Sim.arrival_index s
    /\ Sim.now s' = Sim.now s.
Proof.
  intros Hq Hw. unfold start, pop_pending, get_worker_state, put_worker_state, gets, modify, mbind, M_bind, when, mret, M_ret.
  rewrite Hq. fields. rewrite Hw. fields. destruct (bool_decide _); cbn [negb]; eexists; split_and!; reflexivity.
Qed.

Lemma taken_ok s fin k a j i w i' w' :
  Inv s fin -> Sim.workers s !! i = Some w -> fits j w = true ->
  _RunningAttempt.worker_index a = i -> _RunningAttempt.job a = j ->
  <[i := worker_taken j w]> (Sim.workers s) !! i' = Some w' ->
  worker_ok (Sim.active_attempts s ++ [(k, a)]) i' w'.
Proof.
  intros HI Hw Hfit Hi Hj. unfold fits, _WorkerState.free_gpus in Hfit. apply negb_true_iff in Hfit. rewrite !orb_false_iff in Hfit.
  destruct (decide (i = i')) as [<-|Hne].
  - rewrite list_lookup_insert_eq by (by eapply lookup_lt_Some). intros [= <-].
    destruct (inv_workers _ _ HI _ _ Hw). split; unfold worker_taken; fields; rewrite ?held_snoc, ?Hi, ?Nat.eqb_refl, ?Hj; lia.
  - rewrite list_lookup_insert_ne by done. intros Hw'. destruct (inv_workers _ _ HI _ _ Hw').
    apply Nat.eqb_neq in Hne. split; rewrite ?held_snoc, ?Hi, ?Hne, ?Z.add_0_r; done.
Qed.

Lemma start_ok s fin j i w :
  Inv s fin -> counted 0 s -> j ∈ jobs -> queue_head s j -> Sim.workers s !! i = Some w -> fits j w = true ->
  exists s', start j i s = (inr tt, s') /\ Inv s' fin /\ counted 0 s'
    /\ work s' = work s - weight j /\ lenZ (Sim.completions s') = 1 + lenZ (Sim.completions s).
Proof.
  intros HI [Hc Hp] Hj [rest Hq] Hw Hfit.
  destruct (start_run _ _ _ _ _ Hq Hw) as (s' & Erun & Ew & Epd & Ea & Ec & Epl & Epr & Edn & Ei & En).
  pose proof (dset_pop _ _ _ _ Hq) as Hpop. apply (fmap_Permutation snd) in Hpop. cbn in Hpop. fold (pend s) in Hpop.
  assert (pend s ≡ₚ j :: pend s') as EP by (unfold pend at 2; by rewrite Epd).
  assert (j ∈ pend s) as Hjp by (rewrite EP; left). pose proof (pending_not_active _ _ _ HI Hjp) as Hnew.
  rewrite (dset_new _ _ _ Hnew) in Ea. unfold heappush in Ec. pose proof (sort_insert_perm (fun c => c)
    (fadd (Sim.now s) (SimulatedJob.duration_seconds j), (Z.succ (Sim.completion_serial s), SimulatedJob.id j)) (Sim.completions s)) as Hheap.
  rewrite <- Ec in Hheap.
  assert (running s' = running s ++ [j]) as ER by (unfold running; by rewrite Ea, fmap_app).
  exists s'. split_and!; [done| | | |].
  - split.
    + rewrite (inv_jobs _ _ HI) at 1. rewrite Ei, ER, EP. do 2 apply Permutation_app_head.
      rewrite (assoc (++)). apply Permutation_cons_append.
    + by rewrite Edn, (inv_finished _ _ HI).
    + rewrite <- (inv_keys _ _ HI), Epd. apply dset_same_keys. apply dget_elem in Hq. by apply (list_elem_of_fmap_2 fst) in Hq.
    + rewrite Epd. intros k q [[-> ->]|Hin]%elem_dset e He; [|by eapply (inv_queues _ _ HI)].
      apply dget_elem in Hq. eapply (inv_queues _ _ HI); [done|by right].
    + rewrite Ea. intros k a [Hin|[= -> ->]%list_elem_of_singleton]%elem_of_app; cbn.
      * destruct (inv_active _ _ HI _ _ Hin) as (E & [w0 Hw0] & t & Ht). split_and!; [done| |].
        -- apply lookup_lt_is_Some_2. rewrite Ew, length_insert. by eapply lookup_lt_Some.
        -- exists t. rewrite Hheap. by right.
      * split_and!; [done| |].
        -- eexists. rewrite Ew. apply list_lookup_insert_eq. by eapply lookup_lt_Some.
        -- eexists. rewrite Hheap. left.
    + intros c. rewrite Hheap. intros [->|Hc']%elem_of_cons; [|by apply (inv_heap _ _ HI)].
      exists (Sim.now s), j. split_and!; [done|apply (inv_now _ _ HI)|done].
    + intros i' w'. rewrite Ew, Ea. by eapply taken_ok.
    + rewrite Ew, length_insert. apply (inv_some_worker _ _ HI).
    + rewrite En. apply (inv_now _ _ HI).
  - split; [|by rewrite Epr]. rewrite Epl, Edn, Epr, Ea. unfold lenZ in *. rewrite length_app. cbn [List.length]. lia.
  - unfold work. rewrite Ei, ER, (zsum_perm _ _ _ EP), zsum_app, !zsum_cons. change (zsum weight []) with 0. lia.
  - apply Permutation_length in Hheap. cbn [List.length] in Hheap. unfold lenZ, Completion in *. lia.
Qed.
(** ** Scheduling *)
Lemma queues_nodup s fin : Inv s fin -> NoDup (Sim.pending s).*1.
Proof. intros HI. rewrite (inv_keys _ _ HI). apply (NoDup_fmap_2 Z.of_nat), NoDup_seq. Qed.

Lemma heads_ok s fin c : Inv s fin -> c ∈ heads (Sim.pending s) -> c.2 ∈ jobs /\ queue_head s c.2.
Proof.
  intros HI Hc. unfold heads in Hc. apply list_elem_of_omap in Hc as (q & Hq & Hh). destruct q as [|c' q]; [done|].
  injection Hh as ->. apply list_elem_of_fmap in Hq as ([k q'] & E & Hin). cbn in E. subst q'.
  destruct (inv_queues _ _ HI _ _ Hin c ltac:(left)) as [Ec Ek]. split.
  - eapply inv_elem; [done|]. right. unfold pend. apply list_elem_of_fmap. exists c. split; [done|].
    apply list_elem_of_In, in_concat. exists (c :: q). split; [|by left]. apply list_elem_of_In, list_elem_of_fmap. by exists (k, c :: q).
  - exists q. rewrite Ek, <- Ec. apply elem_dget; [by eapply queues_nodup|done].
Qed.

Lemma heads_nil s : heads (Sim.pending s) = [] -> pend s = [].
Proof.
  unfold heads, pend. induction (Sim.pending s) as [|[k q] d IH]; cbn; [done|]. destruct q; cbn; [done|]. done.
Qed.

(** The loop has nothing to place and nothing it could place. *)
Definition settled (s : Sim.t) : Prop := Sim.active_attempts s = [] -> pend s = [].

Lemma idle_fits s fin j i w :
  Inv s fin -> Sim.active_attempts s = [] -> j ∈ jobs -> Sim.workers s !! i = Some w -> fits j w = true.
Proof.
  intros HI Ha Hj Hw. destruct (inv_workers _ _ HI _ _ Hw). rewrite Ha in *. unfold held, zsum in *. cbn in *.
  destruct (jobs_valid _ Hj). pose proof config_bounds. unfold fits, _WorkerState.free_gpus.
  apply negb_true_iff. rewrite !orb_false_iff. lia.
Qed.

Lemma try_candidates_ok fin cands s :
  Inv s fin -> counted 0 s -> (forall c, c ∈ cands -> c.2 ∈ jobs /\ queue_head s c.2) ->
  exists b s', try_candidates config policy cands s = (inr b, s') /\ Inv s' fin /\ counted 0 s'
    /\ if b then todo s' < todo s
       else Sim.pending s' = Sim.pending s /\ Sim.active_attempts s' = Sim.active_attempts s /\ todo s' = todo s
            /\ forall c i w, c ∈ cands -> Sim.workers s !! i = Some w -> fits c.2 w = false.
Proof.
  revert s. induction cands as [|c cands IH]; intros s HI Hc Hcs.
  { exists false, s. split_and!; try done. by intros ? ? ? ?%not_elem_of_nil. }
  destruct (Hcs c ltac:(left)) as [Hj Hq].
  destruct (find_worker_ok _ _ _ HI Hc Hj Hq) as (o & s1 & E & Ho). cbn [try_candidates]. cbv zeta. rewrite (bind_run _ _ _ _ _ E).
  destruct o as [i|].
  - destruct Ho as (HI1 & Hc1 & Hq1 & (w & Hw & Hf) & Ec & Hlt).
    destruct (start_ok _ _ _ _ _ HI1 Hc1 Hj Hq1 Hw Hf) as (s' & E' & HI' & Hc' & Ew & El).
    exists true, s'. rewrite (bind_run _ _ _ _ _ E'). split_and!; try done. unfold todo. rewrite El, Ec. lia.
  - destruct Ho as [-> Hnone]. rewrite bind_gets. unfold when.
    set (s1 := if _is_gpu_fragmented (Sim.workers s) (SimulatedJob.gpu_count c.2)
               then s <| Sim.fragmented_job_ids ::= union {[SimulatedJob.id c.2]} |> else s).
    rewrite (bind_run _ _ _ tt s1) by (unfold s1; by destruct (_is_gpu_fragmented _ _)).
    assert (Inv s1 fin /\ counted 0 s1 /\ todo s1 = todo s /\ Sim.pending s1 = Sim.pending s /\ Sim.workers s1 = Sim.workers s
            /\ Sim.active_attempts s1 = Sim.active_attempts s) as (HI1 & Hc1 & Et & Ep & Ew & Ea).
    { unfold s1. destruct (_is_gpu_fragmented _ _); [|done]. destruct HI. split_and!; done. }
    destruct (IH s1 HI1 Hc1) as (b & s' & E' & HI' & Hc' & Hb).
    { intros c' Hc'. unfold queue_head. rewrite Ep. apply Hcs. by right. }
    exists b, s'. split_and!; try done. destruct b; [lia|]. destruct Hb as (? & ? & ? & Hb). split_and!; try congruence.
    intros c' i w [->|Hc'']%elem_of_cons Hw; [by eapply Hnone|]. eapply Hb; [done|by rewrite Ew].
Qed.

Lemma todo_nonneg s fin : Inv s fin -> 0 <= todo s.
Proof.
  intros HI. assert (forall l, (forall j, j ∈ l -> j ∈ jobs) -> 0 <= zsum weight l) as Hz.
  { intros l Hl. apply zsum_nonneg. intros j Hj. pose proof (weight_pos j (Hl j Hj)). lia. }
  assert (0 <= zsum weight (drop (Sim.arrival_index s) jobs)).
  { apply Hz. intros j Hj. rewrite <- (take_drop (Sim.arrival_index s) jobs). apply elem_of_app. by right. }
  assert (0 <= zsum weight (pend s)) by (apply Hz; intros; eapply inv_elem; eauto).
  assert (0 <= zsum weight (running s)) by (apply Hz; intros; eapply inv_elem; eauto).
  unfold todo, work, lenZ. lia.
Qed.

Lemma schedule_ok fin fuel s :
  Inv s fin -> counted 0 s ->
  exists b s', _schedule_pending config policy fuel s = (inr b, s') /\ Inv s' fin /\ counted 0 s' /\ todo s' <= todo s
    /\ (b = true -> settled s') /\ (todo s < Z.of_nat fuel -> b = true).
Proof.
  revert s. induction fuel as [|fuel IH]; intros s HI Hc.
  { exists false, s. pose proof (todo_nonneg _ _ HI). split_and!; try done; lia. }
  cbn [_schedule_pending]. rewrite bind_gets. set (cands := py_sort fst (heads (Sim.pending s))).
  destruct (try_candidates_ok fin cands s HI Hc) as (b & s1 & E & HI1 & Hc1 & Hb).
  { intros c. unfold cands. rewrite elem_of_py_sort. by apply (heads_ok _ fin). }
  rewrite (bind_run _ _ _ _ _ E). destruct b.
  - destruct (IH s1 HI1 Hc1) as (b & s' & E' & HI' & Hc' & Ht & Hs & Hf). exists b, s'. split_and!; try done; [lia|].
    intros Hlt. apply Hf. lia.
  - destruct Hb as (Ep & Ea & Et & Hnone). exists true, s1. split_and!; try done; [lia|]. intros _ Hidle.
    destruct (heads (Sim.pending s)) as [|c cs] eqn:Eh.
    { unfold pend. rewrite Ep. by apply heads_nil. }
    exfalso. assert (c ∈ heads (Sim.pending s)) as Hin by (rewrite Eh; left).
    destruct (Sim.workers s !! O) as [w|] eqn:Ew; [|apply lookup_ge_None in Ew; pose proof (inv_some_worker _ _ HI); lia].
    assert (fits c.2 w = true) as Hf.
    { eapply (idle_fits s); [done|congruence|exact (proj1 (heads_ok _ _ _ HI Hin))|done]. }
    rewrite (Hnone c O w) in Hf; [done| |done]. unfold cands. rewrite elem_of_py_sort. left.
Qed.
(** ** Completions *)

(** Without the first completion, unless it belongs to a running attempt. *)
Lemma stale_completion s fin c rest :
  Inv s fin -> Sim.completions s = c :: rest ->
  (forall a, (c.2.2, a) ∈ Sim.active_attempts s -> _RunningAttempt.serial a ≠ c.2.1) ->
  Inv (s <| Sim.completions := rest |>) fin.
Proof.
  intros [I1 I2 I3 I4 I5 I6 I7 I8 I9] Ec Hst. split; fields; try done.
  - intros k a Hin. destruct (I5 k a Hin) as (E & Hw & t & Ht). split_and!; [done|done|]. exists t.
    rewrite Ec in Ht. apply elem_of_cons in Ht as [<-|Ht]; [|done]. by destruct (Hst a Hin).
  - intros c' Hc'. apply I6. rewrite Ec. by right.
Qed.

Lemma running_ddel s fin k a :
  Inv s fin -> (k, a) ∈ Sim.active_attempts s ->
  running s ≡ₚ _RunningAttempt.job a :: ((fun e => _RunningAttempt.job e.2) <$> ddel k (Sim.active_attempts s)).
Proof. intros HI Ha. unfold running. by rewrite (ddel_perm _ _ _ (active_nodup _ _ HI) Ha) at 1. Qed.

(** The first completion ends its attempt. *)
Lemma ended_completion s fin c rest a w :
  Inv s fin -> Sim.completions s = c :: rest -> (c.2.2, a) ∈ Sim.active_attempts s ->
  Sim.workers s !! _RunningAttempt.worker_index a = Some w ->
  let s' := s <| Sim.completions := rest |>
              <| Sim.workers ::= <[_RunningAttempt.worker_index a := worker_freed (_RunningAttempt.job a) w]> |>
              <| Sim.active_attempts ::= ddel c.2.2 |> <| Sim.completed_jobs ::= Z.succ |>
              <| Sim.last_completion ::= fun t => fmax t c.1 |> in
  Inv s' (fin ++ [_RunningAttempt.job a]) /\ (counted 0 s -> counted 0 s') /\ todo s' < todo s.
Proof.
  intros HI Ec Ha Hw s'. pose proof (running_ddel _ _ _ _ HI Ha) as HR.
  pose proof (ddel_perm _ _ _ (active_nodup _ _ HI) Ha) as HA. pose proof (weight_pos _ (active_elem _ _ _ _ HI Ha)).
  pose proof HI as [I1 I2 I3 I4 I5 I6 I7 I8 I9]. unfold s'. split_and!.
  - split; unfold pend, running; fields; try done.
    + rewrite I1 at 1. rewrite HR. rewrite <- !(assoc (++)). apply Permutation_app_head. cbn. unfold pend.
      rewrite <- !Permutation_middle. done.
    + rewrite I2. unfold lenZ. rewrite length_app. cbn [List.length]. lia.
    + intros k a' [Hin Hne]%elem_of_ddel. destruct (I5 k a' Hin) as (E & [w' Hw'] & t & Ht). split_and!; [done| |].
      * apply lookup_lt_is_Some_2. rewrite length_insert. by eapply lookup_lt_Some.
      * exists t. rewrite Ec in Ht. apply elem_of_cons in Ht as [<-|Ht]; done.
    + intros c' Hc'. apply I6. rewrite Ec. by right.
    + intros i w'. by eapply freed_ok.
    + by rewrite length_insert.
  - intros [Hc Hp]. split; fields; [|done]. rewrite Hc. apply Permutation_length in HA. cbn [List.length] in HA. unfold lenZ. lia.
  - apply (zsum_perm weight) in HR. rewrite zsum_cons in HR. unfold todo, work, pend, lenZ. unfold running at 1. fields.
    rewrite HR, Ec. cbn [List.length]. lia.
Qed.

Lemma finish_ok l s fin :
  Sim.completions s = l -> Inv s fin -> counted 0 s ->
  exists s' fin', finish_due l s = (inr tt, s') /\ Inv s' fin' /\ counted 0 s' /\ todo s' <= todo s
    /\ Sim.now s' = Sim.now s /\ Sim.arrival_index s' = Sim.arrival_index s
    /\ forall c rest, l = c :: rest -> fle c.1 (Sim.now s) = true -> todo s' < todo s.
Proof.
  revert s fin. induction l as [|[t [serial id]] rest IH]; intros s fin Ec HI Hc.
  { exists s, fin. split_and!; [done|done|done|lia|done|done|done]. }
  cbn [finish_due]. rewrite bind_gets. destruct (fle t (Sim.now s)) eqn:Et.
  2:{ exists s, fin. split_and!; [done|done|done|lia|done|done|]. intros c r [= <- <-]. cbn. congruence. }
  rewrite bind_modify, bind_gets. fields.
  assert (forall s1 fin1 m, m (s <| Sim.completions := rest |>) = (inr tt, s1) -> Sim.completions s1 = rest -> Inv s1 fin1 ->
    counted 0 s1 -> todo s1 < todo s -> Sim.now s1 = Sim.now s -> Sim.arrival_index s1 = Sim.arrival_index s ->
    exists s' fin', (m ≫= fun _ : unit => finish_due rest) (s <| Sim.completions := rest |>) = (inr tt, s') /\ Inv s' fin'
      /\ counted 0 s' /\ todo s' <= todo s /\ Sim.now s' = Sim.now s /\ Sim.arrival_index s' = Sim.arrival_index s
      /\ forall c r, (t, (serial, id)) :: rest = c :: r -> fle c.1 (Sim.now s) = true -> todo s' < todo s) as Hstep.
  { intros s1 fin1 m E Ec1 HI1 Hc1 Ht1 En Ei. destruct (IH s1 fin1 Ec1 HI1 Hc1) as (s' & fin' & E' & HI' & Hc' & Ht' & En' & Ei' & _).
    exists s', fin'. rewrite (bind_run _ _ _ _ _ E). split_and!; first [done|congruence|lia|intros; lia]. }
  destruct (dget (Sim.active_attempts s) id) as [a|] eqn:Ea.
  - pose proof (dget_elem _ _ _ Ea) as Ha. destruct (_RunningAttempt.serial a =? serial) eqn:Es.
    + assert (Sim.workers (s <| Sim.completions := rest |>) = Sim.workers s) as Ew by done.
      destruct (attempt_released _ _ _ _ _ HI Ha Ew) as (w & Hw & Hrel).
      destruct (ended_completion _ _ _ _ _ _ HI Ec Ha Hw) as (HI1 & Hc1 & Ht1). cbn [fst snd] in *.
      eapply Hstep; [etransitivity; [exact (bind_run _ _ _ _ _ Hrel)|reflexivity]|..]; [done|exact HI1|exact (Hc1 Hc)|exact Ht1|done|done].
    + eapply Hstep; [reflexivity|done|eapply stale_completion; [done|done|]|done| |done|done].
      * intros a' Ha'. cbn in *. rewrite (elem_dget _ _ _ (active_nodup _ _ HI) Ha') in Ea. injection Ea as ->. lia.
      * unfold todo, work, pend, running, lenZ. fields. rewrite Ec. cbn [List.length]. lia.
  - eapply Hstep; [reflexivity|done|eapply stale_completion; [done|done|]|done| |done|done].
    + intros a' Ha'. cbn in *. by rewrite (elem_dget _ _ _ (active_nodup _ _ HI) Ha') in Ea.
    + unfold todo, work, pend, running, lenZ. fields. rewrite Ec. cbn [List.length]. lia.
Qed.

(** ** Arrivals *)
Lemma arrive_ok fin l s :
  drop (Sim.arrival_index s) jobs = l -> Inv s fin -> counted 0 s ->
  exists s', arrive_due l s = (inr tt, s') /\ Inv s' fin /\ counted 0 s' /\ todo s' <= todo s
    /\ forall j rest, l = j :: rest -> fle (SimulatedJob.arrival_time j) (Sim.now s) = true -> todo s' < todo s.
Proof.
  revert s. induction l as [|j rest IH]; intros s El HI Hc.
  { exists s. split_and!; [done|done|done|lia|done]. }
  cbn [arrive_due]. rewrite bind_gets. destruct (fle _ _) eqn:Et.
  2:{ exists s. split_and!; [done|done|done|lia|]. intros c r [= <- <-]. congruence. }
  assert (j ∈ jobs) as Hj.
  { rewrite <- (take_drop (Sim.arrival_index s) jobs), El. apply elem_of_app. right. left. }
  destruct (queue_of _ _ _ HI Hj) as [q Hq]. destruct (pushed_queues _ _ _ _ HI Hq) as (Hkeys & Hpend & Hqs).
  set (s1 := s <| Sim.pending ::= dset (SimulatedJob.gpu_count j) (heappush fst (_pending_entry j) q) |> <| Sim.arrival_index ::= S |>).
  assert (drop (Sim.arrival_index s1) jobs = rest) as El1.
  { unfold s1. fields. by rewrite <- (Nat.add_1_r), <- drop_drop, El. }
  assert (Inv s1 fin /\ counted 0 s1 /\ todo s1 < todo s) as (HI1 & Hc1 & Ht1).
  { split_and!.
    - pose proof HI as [I1 I2 I3 I4 I5 I6 I7 I8 I9]. split; try done.
      + rewrite I1 at 1. rewrite El, El1. unfold pend at 2, s1. fields. rewrite Hpend. apply Permutation_app_head.
        rewrite !(assoc (++)). cbn. rewrite <- Permutation_middle. done.
      + rewrite <- I3. exact Hkeys.
    - done.
    - unfold todo, work. rewrite El, El1. unfold pend at 1, s1. fields. rewrite (zsum_perm _ _ _ Hpend), !zsum_cons.
      pose proof (weight_pos _ Hj). unfold running. fields. lia. }
  destruct (IH s1 El1 HI1 Hc1) as (s' & E' & HI' & Hc' & Ht' & _). exists s'. split_and!; try done; [|lia|intros; lia].
  rewrite (bind_run _ _ _ tt (s <| Sim.pending ::= dset (SimulatedJob.gpu_count j) (heappush fst (_pending_entry j) q) |>)).
  - by rewrite bind_modify.
  - unfold push_pending. rewrite bind_gets. by rewrite Hq.
Qed.
(** ** One event *)
Definition overflows : Prop :=
  exists t j, j ∈ jobs /\ isfinite t = true /\ isfinite (fadd t (SimulatedJob.duration_seconds j)) = false.

Lemma completion_time s fin c :
  Inv s fin -> c ∈ Sim.completions s -> is_nan c.1 = false /\ (isfinite c.1 = false -> overflows).
Proof.
  intros HI Hc. destruct (inv_heap _ _ HI _ Hc) as (t & j & Hj & Ht & ->).
  split; [apply fadd_not_nan; [done|apply (valid_duration _ _ (jobs_valid _ Hj))]|]. intros H. by exists t, j.
Qed.

Lemma fmin_cases a b : (fmin a b = b /\ flt b a = true) \/ (fmin a b = a /\ flt b a = false).
Proof. unfold fmin. destruct (flt b a); auto. Qed.

Lemma flt_inf x : isfinite x = true -> flt x f_inf = true /\ flt f_inf x = false.
Proof. by destruct x as [| | |[]]. Qed.

(** An unfinished run has a next event, which is due at its time; it is infinite
    only if a completion time overflows. *)
Lemma next_event_ok s fin :
  Inv s fin -> settled s -> unfinished jobs s = true ->
  if isinf (next_event jobs s) then overflows
  else isfinite (next_event jobs s) = true
    /\ ((exists c rest, Sim.completions s = c :: rest /\ fle c.1 (next_event jobs s) = true)
        \/ exists j rest, drop (Sim.arrival_index s) jobs = j :: rest
             /\ fle (SimulatedJob.arrival_time j) (next_event jobs s) = true).
Proof.
  intros HI Hs Hu. rewrite isfinite_inf.
  assert (forall c rest, Sim.completions s = c :: rest -> is_nan c.1 = false /\ (isfinite c.1 = false -> overflows)) as Hcomp.
  { intros c rest Ec. eapply completion_time; [done|]. rewrite Ec. left. }
  unfold next_event. destruct (jobs !! Sim.arrival_index s) as [j|] eqn:Ej.
  - assert (valid_job config j) as Hj by (apply jobs_valid; by eapply list_elem_of_lookup_2).
    pose proof (valid_arrival _ _ Hj) as Ha. pose proof (drop_S _ _ _ Ej) as Ed.
    set (a := SimulatedJob.arrival_time j) in *.
    destruct (fmin_cases a (match Sim.completions s with c :: _ => c.1 | [] => f_inf end)) as [[E Hlt]|[E _]]; rewrite E; clear E.
    + destruct (Sim.completions s) as [|c rest] eqn:Ec; [by rewrite (proj2 (flt_inf a Ha)) in Hlt|].
      destruct (Hcomp c rest eq_refl) as [Hn Hover]. rewrite isfinite_inf in Hover. destruct (isinf c.1); [by apply Hover|].
      rewrite Hn. split; [done|]. left. exists c, rest. split; [done|by apply fle_refl].
    + rewrite isfinite_inf in Ha. destruct (isinf a); [done|]. destruct (is_nan a) eqn:Hn; [done|]. split; [done|].
      right. exists j, (drop (S (Sim.arrival_index s)) jobs). split; [done|by apply fle_refl].
  - destruct (Sim.completions s) as [|c rest] eqn:Ec.
    + exfalso. apply lookup_ge_None in Ej. unfold unfinished in Hu. rewrite Ec, (bool_decide_eq_true_2 ([] = [])) in Hu by done.
      rewrite (proj2 (Nat.ltb_ge _ _) Ej) in Hu. cbn in Hu. assert (pend s = []) as Ep.
      { apply Hs. destruct (Sim.active_attempts s) as [|[k a] l] eqn:Ea; [done|]. exfalso.
        destruct (inv_active _ _ HI k a) as (_ & _ & t & Ht); [rewrite Ea; left|]. rewrite Ec in Ht. by apply not_elem_of_nil in Ht. }
      apply existsb_exists in Hu as (q & Hq & Hne). unfold pend in Ep. apply fmap_nil_inv in Ep.
      destruct q as [|e q]; [by rewrite bool_decide_eq_true_2 in Hne|].
      assert (e ∈ concat (Sim.pending s).*2) as He by (apply list_elem_of_In, in_concat; exists (e :: q); split; [done|by left]).
      rewrite Ep in He. by apply not_elem_of_nil in He.
    + destruct (Hcomp c rest eq_refl) as [Hn Hover]. destruct (isfinite c.1) eqn:Hf.
      * destruct (fmin_cases f_inf c.1) as [[E _]|[_ E]]; [|by rewrite (proj1 (flt_inf _ Hf)) in E]. rewrite E.
        rewrite isfinite_inf in Hf. destruct (isinf c.1); [done|]. rewrite Hn. split; [done|]. left.
        exists c, rest. split; [done|by apply fle_refl].
      * specialize (Hover eq_refl). destruct (isinf _) eqn:Ei; [done|]. exfalso.
        rewrite isfinite_inf, Hn, andb_true_r in Hf. apply negb_false_iff in Hf.
        destruct (fmin_cases f_inf c.1) as [[E _]|[E _]]; rewrite E in Ei; [congruence|done].
Qed.
Definition stalled : PyError := RuntimeError "simulation stalled with unschedulable jobs".

Lemma event_ok s fin fuel :
  Inv s fin -> counted 0 s -> settled s -> unfinished jobs s = true ->
  wp (event config policy jobs fuel) s
    (fun b s' => Ok s' /\ todo s' < todo s /\ (b = true -> settled s') /\ (todo s <= Z.of_nat fuel -> b = true))
    (fun e s' => s' = s /\ e = stalled /\ overflows).
Proof.
  intros HI Hc Hs Hu. pose proof (next_event_ok _ _ HI Hs Hu) as Hnext. unfold event, wp. rewrite bind_gets.
  destruct (isinf (next_event jobs s)); [done|]. destruct Hnext as [Hfin Hdue].
  rewrite (bind_run _ _ _ tt s) by done. rewrite bind_modify. cbv zeta.
  set (s1 := upd Sim.now _ _).
  assert (Inv s1 fin /\ counted 0 s1 /\ todo s1 = todo s /\ Sim.completions s1 = Sim.completions s
          /\ Sim.arrival_index s1 = Sim.arrival_index s /\ Sim.now s1 = next_event jobs s) as (HI1 & Hc1 & Et1 & Ec1 & Ei1 & En1).
  { unfold s1. destruct HI. by split_and!. }
  rewrite bind_gets. destruct (finish_ok _ s1 fin eq_refl HI1 Hc1) as (s2 & fin2 & E2 & HI2 & Hc2 & Ht2 & En2 & Ei2 & Hd2).
  rewrite (bind_run _ _ _ _ _ E2), bind_gets.
  destruct (arrive_ok fin2 _ s2 eq_refl HI2 Hc2) as (s3 & E3 & HI3 & Hc3 & Ht3 & Hd3). rewrite (bind_run _ _ _ _ _ E3).
  destruct (schedule_ok fin2 fuel s3 HI3 Hc3) as (b & s4 & E4 & HI4 & Hc4 & Ht4 & Hs4 & Hf4). rewrite (bind_run _ _ _ _ _ E4), bind_modify.
  assert (todo s3 < todo s) as Hlt.
  { destruct Hdue as [(c & rest & E & Hle)|(j & rest & E & Hle)].
    - rewrite <- Ec1 in E. rewrite <- En1 in Hle. specialize (Hd2 c rest E Hle). lia.
    - rewrite <- Ei1, <- Ei2 in E. rewrite <- En1, <- En2 in Hle. specialize (Hd3 j rest E Hle). lia. }
  cbn. split_and!.
  - exists fin2. destruct HI4. split; [by split|done].
  - unfold todo, work, pend, running in *. fields. lia.
  - intros Hb. specialize (Hs4 Hb). unfold settled, pend in *. by fields.
  - intros Hle. apply Hf4. lia.
Qed.

(** ** The whole run *)
Lemma events_ok fuel s fin :
  Inv s fin -> counted 0 s -> settled s ->
  wp (events config policy jobs fuel) s
    (fun b s' => Ok s' /\ (b = true -> unfinished jobs s' = false) /\ (todo s < Z.of_nat fuel -> b = true))
    (fun e s' => Ok s' /\ e = stalled /\ overflows).
Proof.
  revert s fin. induction fuel as [|fuel IH]; intros s fin HI Hc Hs; unfold wp; cbn [events]; rewrite bind_gets;
    destruct (unfinished jobs s) eqn:Eu; try (split_and!; try done; by exists fin).
  { cbn. pose proof (todo_nonneg _ _ HI). split_and!; [by exists fin|done|lia]. }
  pose proof (event_ok s fin fuel HI Hc Hs Eu) as He. unfold wp in He. unfold mbind at 1, M_bind at 1.
  destruct (event config policy jobs fuel s) as [[e|b] s1].
  { destruct He as (-> & -> & Ho). split_and!; [by exists fin|done|done]. }
  destruct He as ((fin1 & HI1 & Hc1) & Hlt & Hs1 & Hb). destruct b.
  - specialize (IH s1 fin1 HI1 Hc1 (Hs1 eq_refl)). unfold wp in IH.
    destruct (events config policy jobs fuel s1) as [[e|b] s2]; [done|]. destruct IH as (? & ? & Hf). split_and!; try done.
    intros. apply Hf. lia.
  - cbn. split_and!; [by exists fin1|done|]. intros. apply Hb. lia.
Qed.

Lemma initial_ok now :
  isfinite now = true ->
  Inv (initial config now) [] /\ counted 0 (initial config now) /\ settled (initial config now)
  /\ todo (initial config now) = 6 * zsum weight jobs.
Proof.
  intros Hnow. pose proof config_bounds as (Hw & Hg & Hn & _ & Hcpu & Hmem).
  assert (pend (initial config now) = []) as Ep.
  { unfold pend, initial. cbn. induction (seq 1 _) as [|k l IH]; cbn; done. }
  split_and!.
  - split; try done.
    + rewrite Ep. unfold running. cbn. by rewrite app_nil_r.
    + cbn. rewrite <- list_fmap_compose. by apply list_fmap_ext.
    + cbn. intros k q (x & [= -> ->] & _)%list_elem_of_fmap e He. by apply not_elem_of_nil in He.
    + cbn. by intros k a ?%not_elem_of_nil.
    + cbn. by intros c ?%not_elem_of_nil.
    + cbn. intros i w Hi. rewrite list_lookup_fmap in Hi. destruct (seq 0 _ !! i); [|done]. injection Hi as <-.
      split; cbn; unfold held, zsum; cbn; lia.
    + cbn. rewrite length_fmap, length_seq. lia.
  - by split.
  - by intros _.
  - unfold todo, work. rewrite Ep. change (running (initial config now)) with (@nil Job). change (zsum weight []) with 0.
    change (lenZ (Sim.completions (initial config now))) with 0. change (drop (Sim.arrival_index (initial config now)) jobs) with jobs. lia.
Qed.
End simulation.

(** A run that is over has completed every job. *)
Lemma over_counts config jobs s fin :
  Inv config jobs s fin -> counted config 0 s -> unfinished jobs s = false ->
  Sim.completed_jobs s = lenZ jobs /\ Sim.placements s = lenZ jobs + Sim.preemptions s
  /\ (SimulationConfig.preemption_enabled config = false -> Sim.preemptions s = 0).
Proof.
  intros HI [Hc Hp] Hu. unfold unfinished in Hu. apply orb_false_iff in Hu as [[Hi Hcs]%orb_false_iff Hq].
  apply Nat.ltb_ge in Hi. apply negb_false_iff, bool_decide_eq_true in Hcs.
  assert (Sim.active_attempts s = []) as Ea.
  { destruct (Sim.active_attempts s) as [|[k a] l] eqn:Ea; [done|]. exfalso.
    destruct (inv_active _ _ _ _ HI k a) as (_ & _ & t & Ht); [rewrite Ea; left|]. rewrite Hcs in Ht. by apply not_elem_of_nil in Ht. }
  assert (pend s = []) as Ep.
  { unfold pend. destruct (concat (Sim.pending s).*2) as [|e l] eqn:E; [done|]. exfalso.
    assert (e ∈ concat (Sim.pending s).*2) as He by (rewrite E; left).
    apply list_elem_of_In, in_concat in He as (q & Hin & He).
    assert (existsb (fun q => negb (bool_decide (q = []))) (Sim.pending s).*2 = true) as Hx; [|congruence].
    apply existsb_exists. exists q. split; [done|]. destruct q; [done|]. by rewrite bool_decide_eq_false_2. }
  pose proof (inv_jobs _ _ _ _ HI) as HJ. unfold running in HJ. rewrite Ep, Ea, drop_ge, !app_nil_r in HJ by done. cbn in HJ.
  apply Permutation_length in HJ. pose proof (inv_finished _ _ _ _ HI) as Hf.
  rewrite Ea in Hc. unfold lenZ in *. cbn [List.length] in Hc. split_and!; [lia|lia|done].
Qed.

(** C32: Every simulation ends with all jobs completed.  For a valid configuration
    and workload with finite times and no negative demands, under both
    policies and with or without preemption, the event loop ends within
    [6 * zsum (weight jobs) jobs] iterations and never stalls, unless a
    completion time overflows to infinity: all jobs are completed, and each
    placement is the last one of a job or was undone by a preemption. *)
Theorem simulation_completes fuel elapsed config policy jobs
  (Hconfig : SimulationConfig.post_init config = None) (Hpolicy : policy = "binpack" \/ policy = "spread")
  (Hworkload : _validate_workload config jobs = None)
  (Hfinite : Forall (fun j => isfinite (SimulatedJob.arrival_time j) = true /\
     isfinite (SimulatedJob.duration_seconds j) = true /\ 0 <= SimulatedJob.cpu_millicores j /\ 0 <= SimulatedJob.memory_mb j) jobs)
  (Hfuel : 6 * zsum (weight jobs) jobs < Z.of_nat fuel) :
  (exists r, simulate fuel elapsed config policy jobs = Some (inr r)
     /\ SimulationResult.completed_jobs r = lenZ jobs
     /\ SimulationResult.placements r = lenZ jobs + SimulationResult.preemptions r
     /\ (SimulationConfig.preemption_enabled config = false -> SimulationResult.preemptions r = 0))
  \/ (simulate fuel elapsed config policy jobs = Some (inl (RuntimeError "simulation stalled with unschedulable jobs"))
      /\ overflows jobs).
Proof.
  unfold simulate. replace (negb _) with false by (destruct Hpolicy as [-> | ->]; reflexivity). rewrite Hworkload.
  destruct jobs as [|j jobs'] eqn:Ejobs; [done|]. rewrite <- Ejobs in *.
  assert (isfinite (SimulatedJob.arrival_time j) = true) as Hnow.
  { rewrite Ejobs in Hfinite. by apply Forall_cons_1 in Hfinite as [(? & _) _]. }
  destruct (initial_ok config jobs Hconfig _ Hnow) as (HI & Hc & Hs & Et).
  pose proof (events_ok config policy jobs Hconfig Hworkload Hfinite fuel _ _ HI Hc Hs) as H. unfold wp in H.
  destruct (events config policy jobs fuel _) as [[e|b] s].
  - right. by destruct H as (_ & -> & Ho).
  - left. destruct H as ((fin & HI' & Hc') & Hu & Hb). rewrite Hb in * by lia.
    destruct (over_counts _ _ _ _ HI' Hc' (Hu eq_refl)) as (E1 & E2 & E3). eexists. split; [reflexivity|]. cbn. done.
Qed.

(** C33: The simulator never overcommits a worker and never loses a job, for a
    valid configuration and a workload that passes validation and whose jobs
    have finite arrival times and durations and ask for no negative CPU or
    memory (the validation of the code accepts negative ones).  Cut off
    after any number of iterations, every job of the workload is in exactly
    one place: completed, not yet arrived, waiting or running; and on every
    worker the allocated GPUs, CPU, memory and slots are exactly the totals of
    the attempts running there and within the worker's capacity. *)
Theorem simulation_within_capacity fuel config policy jobs now
  (Hconfig : SimulationConfig.post_init config = None) (Hworkload : _validate_workload config jobs = None)
  (Hfinite : Forall (fun j => isfinite (SimulatedJob.arrival_time j) = true /\
     isfinite (SimulatedJob.duration_seconds j) = true /\ 0 <= SimulatedJob.cpu_millicores j /\ 0 <= SimulatedJob.memory_mb j) jobs)
  (Hnow : isfinite now = true) :
  let s := (events config policy jobs fuel (initial config now)).2 in
  (exists finished, jobs ≡ₚ finished ++ drop (Sim.arrival_index s) jobs ++ pend s ++ running s
     /\ Sim.completed_jobs s = lenZ finished)
  /\ forall i w, Sim.workers s !! i = Some w ->
       _WorkerState.allocated_gpus w = held SimulatedJob.gpu_count i (Sim.active_attempts s)
       /\ _WorkerState.allocated_cpu_millicores w = held SimulatedJob.cpu_millicores i (Sim.active_attempts s)
       /\ _WorkerState.allocated_memory_mb w = held SimulatedJob.memory_mb i (Sim.active_attempts s)
       /\ _WorkerState.running_jobs w = held (fun _ => 1) i (Sim.active_attempts s)
       /\ _WorkerState.allocated_gpus w <= SimulationConfig.gpus_per_worker config
       /\ _WorkerState.allocated_cpu_millicores w <= SimulationConfig.worker_cpu_millicores config
       /\ _WorkerState.allocated_memory_mb w <= SimulationConfig.worker_memory_mb config
       /\ _WorkerState.running_jobs w <= SimulationConfig.worker_concurrency config.
Proof.
  intros s. destruct (initial_ok config jobs Hconfig _ Hnow) as (HI & Hc & Hs & _).
  pose proof (events_ok config policy jobs Hconfig Hworkload Hfinite fuel _ _ HI Hc Hs) as H. unfold wp in H.
  assert (Ok config jobs s) as (fin & HI' & _).
  { unfold s. destruct (events config policy jobs fuel _) as [[e|b] s']; apply H. }
  split; [exists fin; split; [apply (inv_jobs _ _ _ _ HI')|apply (inv_finished _ _ _ _ HI')]|].
  intros i w Hw. destruct (inv_workers _ _ _ _ HI' _ _ Hw). split_and!; first [done|lia].
Qed.

(** ** A sample run: one worker, three jobs, two preemptions *)
Module SimulatorScenario.
Definition config : SimulationConfig.t := SimulationConfig.mk 1 2 3 0 f1 f1 f1 100 100 4 true 1 f1.

Definition job (id arrival gpus priority : Z) : Job :=
  SimulatedJob.mk id (float_of_Z arrival) (float_of_Z 5) gpus 10 10 priority true.

Definition jobs : list Job := [job 0 0 2 0; job 1 1 1 1; job 2 2 2 2].
End SimulatorScenario.

Lemma simulation_completes_witness :
  exists r, simulate 127 f1 SimulatorScenario.config "binpack" SimulatorScenario.jobs = Some (inr r)
    /\ SimulationResult.completed_jobs r = 3 /\ SimulationResult.placements r = 3 + SimulationResult.preemptions r.
Proof.
  destruct (simulation_completes 127 f1 SimulatorScenario.config "binpack" SimulatorScenario.jobs
    ltac:(vm_compute; reflexivity) (or_introl eq_refl) ltac:(vm_compute; reflexivity)
    ltac:(repeat constructor; vm_compute; congruence) ltac:(vm_compute; reflexivity)) as [(r & E & H1 & H2 & _)|[E _]].
  - exists r. split; [exact E|]. split; [exact H1|exact H2].
  - assert (match simulate 127 f1 SimulatorScenario.config "binpack" SimulatorScenario.jobs with
            | Some (inr _) => true | _ => false end = true) as F by (vm_compute; reflexivity).
    rewrite E in F. discriminate F.
Defined.

Lemma simulation_within_capacity_witness :
  let s := (events SimulatorScenario.config "spread" SimulatorScenario.jobs 4 (initial SimulatorScenario.config f0)).2 in
  Sim.preemptions s = 2 /\ forall w, Sim.workers s !! O = Some w ->
    _WorkerState.allocated_gpus w = held SimulatedJob.gpu_count 0 (Sim.active_attempts s) /\ _WorkerState.allocated_gpus w <= 2.
Proof.
  split; [vm_compute; reflexivity|]. intros w Hw.
  destruct (simulation_within_capacity 4 SimulatorScenario.config "spread" SimulatorScenario.jobs f0
    ltac:(vm_compute; reflexivity) ltac:(vm_compute; reflexivity)
    ltac:(repeat constructor; vm_compute; congruence) eq_refl) as [_ H].
  destruct (H O w Hw) as (H1 & _ & _ & _ & H5 & _). split; [exact H1|exact H5].
Defined.
